(* ===== verification/_CoqProject ===== *)
-Q . S2P
Prelude.v
Memory.v
Opcode.v
DecodeTable.v
Decode.v
DecodeSpec.v
DecodeProofs.v
DecodeThm.v
State.v
TransBlock.v
Emit.v
Translate.v
CpuExec.v
Frame.v
Session.v
Handlers.v
Linking.v
GenCode.v
Translation.v
Dispatch.v
HostUtils.v
EnvList.v
PageTable.v
Uaccess.v
SigTab.v
SigQueue.v
SigQueueThm.v
Signal.v
SignalThm.v
Mmap.v
MmapThm.v
ArgPages.v
InitStack.v
InitStackThm.v
DispatchThm.v
Machine.v
Sieve.v
Prologue.v
SieveThm.v
IndCache.v
IndEmit.v
IndThm.v
CpuLoop.v
Switch.v
RetCache.v
Processor.v
BlockCode.v
BlockLoop.v
BlockSim.v
Rounds.v
System.v
SystemThm.v
Thunk.v
Termios.v
SyscallTypes.v
Paths.v
