(* ===== verification/Prelude.v ===== *)
(** * unitrans: a verification library for the i386-to-i386 translator

    unitrans is a user-mode dynamic binary translator in the tradition of QEMU:
    it runs an i386 Linux program on an i386 host by copying its code, block by
    block, into a code buffer, and rewriting only the instructions that transfer
    control. The library models the translator (src/target-i386, src/cpu-exec.c,
    src/exec.c, src/exec-all.h) in the configuration of src/opt-def.h, and the
    parts of the user-mode emulator around it that do more than pass a request on
    to the host: guest memory, signals, the start of a program, the conversion of
    structures and settings between guest and host.

    ** The program's parts and how they interact

    [cpu_exec] (cpu-exec.c) is the main loop. A turn finds the block for
    [env->eip] ([get_next_tb]) in two tables (exec.c, exec-all.h), and if there
    is none makes and translates one: [cpu_gen_code] calls [gen_target_code]
    (translate.c), whose loop decodes an instruction (decode.c over the tables of
    decode-table.c) and calls the entry's [emit_*] handler; handlers copy the
    instruction or emit templates (cemit-inline.c, emit.h) and note open branches,
    which [lazy_patch] links at the end to translated code or to stubs. The loop
    then links the exit that was taken (a direct branch with [tb_add_jump], a slot
    of an indirect branch's inline cache with [patch_ind_opt], an entry of the
    sieve with [add_sieve_entry]) and jumps to the prologue, which switches to
    the guest's registers; an exit's epilogue switches back. The sieve is a hash
    table made of code; the return cache is a table of addresses of landing code
    which calls fill and returns jump through.

    ** The files

    - [Prelude]: words of a fixed width, the result type [res] ([Ok], or [Err] for
      an abort, undefined behaviour or fuel), lemmas on lists.
    - [Memory]: byte memory, little-endian access.
    - [Opcode], [DecodeTable], [Decode]: decode.h, the 36 tables of
      decode-table.c row by row, and [simple_disas_insn] stage by stage.
    - [DecodeSpec], [DecodeProofs], [DecodeThm]: the abstract syntax [insn] with
      its encoder, the simulation of the decoder's stages, and the theorems.
    - [State]: [CPUX86State] and [code_gen_context] as far as the translator uses
      them, [TranslationBlock], the state monad [M]; [Layout] is the class of the
      addresses the linker and [malloc] choose. The environment, the buffers and
      the guest share one memory, as in the program.
    - [TransBlock]: allocation, hash chains, the program-counter cache, rings of
      incoming jumps (exec.c, exec-all.h, cpu-exec.c).
    - [Emit]: the templates and the eleven handlers; [Translate]: the loop,
      [lazy_patch], the sieve, the prologue, [codecache_prologue_init];
      [CpuExec]: the dispatcher and the loop.
    - [Frame], [Session], [Handlers], [Linking], [GenCode]: what a step of the
      translation leaves unchanged, the invariant of the loop, each handler
      against it, the linker, the loop. [Translation]: the theorems on
      translating a block.
    - [Dispatch], [DispatchThm]: [get_next_tb] and [dispatch] on each exit.
    - [Machine]: a small processor for the instructions of the emitted templates;
      it decodes bytes with the decoder model's own parser.
    - [Sieve], [Prologue], [SieveThm]: the sieve's code as a finite map and the
      initialisation that makes it empty.
    - [IndCache], [IndEmit], [IndThm]: the inline cache of indirect branches.
    - [CpuLoop]: the loop as a whole, over the interfaces of the above.
    - [Switch]: prologue and epilogue on the processor. [RetCache]: calls, landing
      code and returns.
    - [Processor]: the processor that runs guest and translation; the meaning of
      the instructions that are copied is the class [Processor].
    - [BlockCode]: what translated code contains, handler by handler; [BlockLoop]:
      the loop of [gen_target_code] produces it; [BlockSim]: it runs like the
      guest's code.
    - [Rounds]: a turn of [dispatch] keeps all code linked. [System], [SystemThm]:
      the machine in which processor and host take turns, and its run.
    - [HostUtils] (host-utils.c, host-utils.h), [EnvList] (envlist.c), [PageTable]
      (the page table of exec.c): self-contained components.
    - [Mmap], [MmapThm]: linux-user/mmap.c over the page table. The calls of the
      host kernel are the class [HostMm], their documented effect on the
      protection of pages the class [HostLaws].
    - [Uaccess] (uaccess.c, the access functions of qemu.h): the emulator's own
      reads and writes of guest memory.
    - [SigTab], [SigQueue], [Signal] (signal.c, [init_task_state] of main.c): signal
      numbers and sets, the queues of pending signals, dispositions, frames,
      arrival and delivery; [SigQueueThm] and [SignalThm] have the theorems.
    - [ArgPages], [InitStack], [InitStackThm] (elfload.c, linuxload.c): the argument
      pages, the auxiliary vector and the pointer arrays of a new program.
    - [Thunk] (thunk.c, thunk.h): types as arrays of codes, structures, conversion,
      tables of bit masks. [Termios] (termbits.h, syscall.c): the settings of
      terminals; [SyscallTypes] (syscall_types.h): the structures of ioctls.
    - [Paths] (path.c, the copying functions of cutils.c): the tree of file names
      that replaces the guest's system files.

    ** What the theorems show

    - Decoding: the decoder is total on any bytes within its fuel, inverts the
      encoder, and an accepted instruction has a handler of the right kind
      ([DecodeThm]).
    - Translation: a block is translated without abort or undefined behaviour,
      the invariant [trans_inv] is kept, only the block's code and stubs are
      written, and every open branch ends linked ([Translation]).
    - Lookup: the two tables refine a history of program counters ([TransBlock]).
    - Dispatch: each kind of exit is served and only its words change
      ([DispatchThm], [SieveThm], [IndThm]).
    - Emitted code, run on the processor: the sieve is a finite map and
      [add_sieve_entry] its insertion ([SieveThm]); an indirect branch resolves by
      slots, sieve and dispatcher, and learns ([IndThm]); calls and returns are
      right whatever the return cache holds ([RetCache]); leaving and entering the
      code cache restores the guest ([Switch]), but not the host's callee-saved
      registers.
    - Translated code, run on the processor: [BlockLoop] relates what a translation
      leaves in the buffer to the guest's instructions, and [BlockSim] shows that
      whatever the guest does up to a branch that leaves for the dispatcher, the
      translated code does, with the same memory and registers.
    - Composition: from the initialisation on, the machine follows the guest's
      run through any number of blocks and turns of the dispatcher, as long as the
      buffers have space ([SystemThm]); its instructions are all but far transfers
      (returns, indirect branches, system calls). For a loop that serves every
      kind of exit, the interface [CpuLoop.simulates] is what the code of a block
      has to do ([CpuLoop]).
    - Arithmetic, environment lists and page flags against their specifications,
      with the inputs on which the code departs from its intent ([HostUtils],
      [EnvList], [PageTable]).
    - Guest memory: the page flags and the host's protection after [target_mprotect]
      and [target_munmap] for any host page size, and after [target_mmap] and
      [target_mremap] for host pages of 4096 bytes, with every refusal and the
      inputs that make the program abort ([MmapThm]). The emulator's accesses and
      the length of a guest string, by the flags of the pages ([Uaccess]).
    - Signals: the queues are first-in first-out lists within their pool
      ([SigQueueThm]); the host's dispositions follow the guest's, and delivery
      takes the first pending signal and does what its disposition says
      ([SignalThm]); conversions of signal sets invert each other ([SigTab]).
    - A new program's stack holds the count, the pointers, the strings and the
      auxiliary vector where the guest's start code looks ([InitStackThm]).
    - Structures: registration computes the layout a C compiler gives, conversion
      copies every field between the two layouts ([Thunk]), and the registered
      descriptions are those of the C structures ([SyscallTypes]). Terminal
      settings survive the round trip but for one speed ([Termios]). A path is
      replaced exactly when it names a file of the prefix ([Paths]).

    ** Bounds and fuel

    - The prefix loop of the decoder has fuel [dfuel]; [guest_ok] bounds prefixes
      by 100, so that [100 < dfuel] suffices. The loop of [gen_target_code] runs at
      most [MAX_INSNS + 1] turns, which [gen_fuel] covers.
    - [gen_room] (256 bytes an instruction) and [stub_len] (a stub for each of 255
      open branches) bound what one translation writes; [room] and [room_turns]
      ask for that space. Without it the program aborts: [make_tb_abort].
    - [cpu_exec] is unrolled [n] times: its loop has no exit. [System.sstep] has a
      step per turn instead, and no bound; [System.spent] is the state in which a
      turn may lack space. A block is limited to [System.jmp_span] bytes there, the
      reach of [tb_jmp_offset].
    - The loops over the target pages of a host page have fuel [pages_fuel], which
      covers them; [target_mmap] calls itself once. The attempts of [mmap_find_vma]
      depend on the answers of the kernel and are bounded by a parameter, 1 being
      enough when these are page aligned.

    ** Simplifications

    - The guest's memory starts at address 0 of the host's, as in this
      configuration; [MAX_INSNS] instructions and the tables have their C sizes.
    - [Machine] keeps the flags as one word; the instructions it executes leave
      them alone or move them whole. The guest's own instructions are copied, not
      interpreted: in [CpuLoop], [exec_tb] is a parameter where they run; in
      [Processor] and [BlockSim] their step is a parameter of the class, with laws
      on what it reads and writes.
    - [BlockSim] stops at an exit through a stub, where [System] goes on. Of the
      host's compiled code [System.called] says what the calling convention does.
      The runs of indirect branches and returns are [IndThm]'s and [RetCache]'s.
    - Statements behind a call of a function that is a stub and aborts
      ([cpu_x86_load_seg] and others of cpu-exec.c) are left out. An uninitialised
      local of the signal code is a parameter. [malloc] succeeds.
    - The host's signal dispositions and mask are state; its directories and its
      answers to memory requests are parameters.
    - Output to [stderr] and the log is left out.

    ** Not modelled

    System calls (syscall.c, strace.c) pass arguments to the host; guest code
    makes its own, since the translator copies [int 0x80]. The loaders of ELF and
    flat files (elfload.c, flatload.c but for the initial stack) and main.c's command
    line read files and options; vm86.c and m68k-sim.c serve other modes and
    machines. Softfloat, the disassembler and the GDB stub are third-party code or
    debugging aids. retrans-ind.c and ind-prof.c, and every template under
    COUNT_PROF, PROF_*, RETRANS_IND, CALL_RAS_OPT and PATCH_IN_TB, are switched off
    by opt-def.h. The timers of qemu-timer.c are not built into this program. *)

From Stdlib Require Export ZArith Lia List String.
From stdpp Require Export base numbers option list gmap functions sorting.
#[global] Set Warnings "-notation-overridden".
Export ListNotations.
#[global] Open Scope Z_scope.

(** ** Machine-width integers: a C integer is a [Z] with its wrap-around. *)

Definition u8 (z : Z) : Z := z mod 256.
Definition u16 (z : Z) : Z := z mod 65536.
Definition u32 (z : Z) : Z := z mod 4294967296.
Definition u64 (z : Z) : Z := z mod 18446744073709551616.
Definition s8 (z : Z) : Z := let v := u8 z in if v <? 128 then v else v - 256.
Definition s32 (z : Z) : Z :=
  let v := u32 z in if v <? 2147483648 then v else v - 4294967296.

(** Arithmetic with the widths unfolded. *)
Ltac word_lia :=
  unfold u8, u16, u32, u64, s8, s32 in *; cbv zeta in *;
  repeat match goal with
         | |- context [if ?b then _ else _] => let E := fresh in destruct b eqn:E
         | H : context [if ?b then _ else _] |- _ => let E := fresh in destruct b eqn:E
         end;
  Z.div_mod_to_equations; lia.

Lemma u8_range z : 0 <= u8 z < 256.
Proof. word_lia. Qed.
Lemma u32_range z : 0 <= u32 z < 4294967296.
Proof. word_lia. Qed.
Lemma u8_small z : 0 <= z < 256 -> u8 z = z.
Proof. intros; unfold u8; now apply Z.mod_small. Qed.
Lemma u32_small z : 0 <= z < 4294967296 -> u32 z = z.
Proof. intros; unfold u32; now apply Z.mod_small. Qed.
Lemma u8_u8 z : u8 (u8 z) = u8 z.
Proof. apply u8_small, u8_range. Qed.
Lemma u32_u32 z : u32 (u32 z) = u32 z.
Proof. apply u32_small, u32_range. Qed.
Lemma u32_add_l a b : u32 (u32 a + b) = u32 (a + b).
Proof. unfold u32. now rewrite Zplus_mod_idemp_l. Qed.
Lemma u32_add_r a b : u32 (a + u32 b) = u32 (a + b).
Proof. unfold u32. now rewrite Zplus_mod_idemp_r. Qed.
Lemma s32_u32 z : u32 (s32 z) = u32 z.
Proof. unfold s32, u32; cbv zeta. case_match; word_lia. Qed.

(** ** Results: a computation returns, aborts as the C code does, performs an
    access the C code leaves undefined, or exhausts the fuel of the model. *)

Inductive err := Fuel | UB | Abort.

Inductive res (A : Type) := Ok (a : A) | Err (e : err).
Arguments Ok {A}.
Arguments Err {A}.

Definition res_bind {A B} (m : res A) (k : A -> res B) : res B :=
  match m with Ok a => k a | Err e => Err e end.

Declare Scope unitrans_scope.
Delimit Scope unitrans_scope with ut.
#[global] Open Scope unitrans_scope.

Notation "'let?' x := m 'in' k" := (res_bind m (fun x => k))
  (at level 10, x pattern, m at level 100, k at level 200) : unitrans_scope.

Lemma res_bind_ok {A B} (m : res A) (k : A -> res B) b :
  res_bind m k = Ok b <-> exists a, m = Ok a /\ k a = Ok b.
Proof.
  destruct m as [a|e]; simpl; split; [eauto|intros (x & E & K); congruence|done|].
  now intros (x & E & K).
Qed.

Definition of_option {A} (e : err) (o : option A) : res A :=
  match o with Some a => Ok a | None => Err e end.

Lemma of_option_ok {A} e (o : option A) a : of_option e o = Ok a <-> o = Some a.
Proof. destruct o; simpl; split; congruence. Qed.

(** Bits of words. *)
Lemma bits_above x k : 0 <= x < 4294967296 -> 32 <= k -> Z.testbit x k = false.
Proof.
  intros Hx Hk. apply Z.bits_above_log2; [lia|]. destruct (Z.eq_dec x 0) as [->|]; [cbn; lia|].
  apply Z.log2_lt_pow2; [lia|]. apply Z.lt_le_trans with (2 ^ 32); [cbn; lia|]. apply Z.pow_le_mono_r; lia.
Qed.

(** The mask of the multiples of [2 ^ k] rounds down. *)
Lemma land_align x k : 0 <= x < 4294967296 -> 0 <= k <= 32 ->
  Z.land x (Z.shiftl (Z.ones (32 - k)) k) = x - x mod 2 ^ k.
Proof.
  intros Hx Hk. replace (x - x mod 2 ^ k) with (Z.shiftl (Z.shiftr x k) k).
  2:{ rewrite Z.shiftl_mul_pow2, Z.shiftr_div_pow2 by lia. pose proof (Z.div_mod x (2 ^ k) ltac:(apply Z.pow_nonzero; lia)). lia. }
  apply Z.bits_inj'. intros i Hi. rewrite Z.land_spec, !Z.shiftl_spec by lia.
  destruct (Z.lt_ge_cases i k); [rewrite !(Z.testbit_neg_r _ (i - k)) by lia; apply andb_false_r|].
  rewrite Z.shiftr_spec by lia. replace (i - k + k) with i by lia. destruct (Z.lt_ge_cases i 32).
  - rewrite Z.ones_spec_low by lia. apply andb_true_r.
  - rewrite bits_above by lia. done.
Qed.

(** Testing a mask, as the C condition [if (x & mask)]. *)
Definition hasb (x mask : Z) : bool := negb (Z.land x mask =? 0).

(** ** Tactics *)

(** Invert every successful bind in the context. *)
Ltac inv_ok :=
  repeat match goal with
         | H : res_bind _ _ = Ok _ |- _ =>
             let a := fresh "r" in let E := fresh "E" in
             apply res_bind_ok in H; destruct H as (a & E & H)
         | H : of_option _ _ = Ok _ |- _ => apply of_option_ok in H
         | H : Ok _ = Ok _ |- _ => injection H as H
         | H : Err _ = Ok _ |- _ => discriminate H
         | H : (_, _) = (_, _) |- _ => injection H as ?H
         end; subst.

Create HintDb ut discriminated.
Create Rewrite HintDb ut.
