(* ===== verification/Memory.v ===== *)
(** Byte-addressed memory.  The translator and the guest program share one
    address space ([GUEST_BASE] is 0: the build disables it), so one map holds
    guest code, the code caches and the tables generated code reads. *)

From S2P Require Import Prelude.

Abbreviation mem := (gmap Z Z).

(** ** Loads and stores *)

Definition ld8 (m : mem) (a : Z) : Z := u8 (default 0 (m !! a)).
Definition ld16 (m : mem) (a : Z) : Z := ld8 m a + 256 * ld8 m (a + 1).
Definition ld32 (m : mem) (a : Z) : Z := ld16 m a + 65536 * ld16 m (a + 2).

(** The guest fetch accessors of cpu-all.h: [target_ulong] addresses. *)
Definition ldub_code (m : mem) (a : Z) : Z := ld8 m (u32 a).
Definition lduw_code (m : mem) (a : Z) : Z := ld16 m (u32 a).
Definition ldl_code (m : mem) (a : Z) : Z := ld32 m (u32 a).

Definition st8 (a v : Z) (m : mem) : mem := <[a := u8 v]> m.

(** Little-endian byte lists. *)
Definition le16 (v : Z) : list Z := [u8 v; u8 (v / 256)].
Definition le32 (v : Z) : list Z :=
  [u8 v; u8 (v / 256); u8 (v / 65536); u8 (v / 16777216)].
Definition of_le32 (l : list Z) : Z :=
  match l with
  | [a; b; c; d] => a + 256 * b + 65536 * (c + 256 * d)
  | _ => 0
  end.

Fixpoint write_bytes (a : Z) (bs : list Z) (m : mem) : mem :=
  match bs with
  | [] => m
  | b :: bs' => write_bytes (a + 1) bs' (st8 a b m)
  end.

Fixpoint read_bytes (m : mem) (a : Z) (n : nat) : list Z :=
  match n with
  | O => []
  | S n' => ld8 m a :: read_bytes m (a + 1) n'
  end.

Definition st16 (a v : Z) (m : mem) : mem := write_bytes a (le16 v) m.
Definition st32 (a v : Z) (m : mem) : mem := write_bytes a (le32 v) m.

(** ** Lemmas *)

Lemma ld8_range m a : 0 <= ld8 m a < 256.
Proof. apply u8_range. Qed.

Lemma ld32_range m a : 0 <= ld32 m a < 4294967296.
Proof.
  unfold ld32, ld16.
  pose proof (ld8_range m a). pose proof (ld8_range m (a + 1)).
  pose proof (ld8_range m (a + 2)). pose proof (ld8_range m (a + 2 + 1)). lia.
Qed.

Lemma u8_div_u32 v k :
  k = 1 \/ k = 256 \/ k = 65536 \/ k = 16777216 -> u8 (u32 v / k) = u8 (v / k).
Proof. intros [-> | [-> | [-> | ->]]]; word_lia. Qed.

Lemma le32_u32 v : le32 (u32 v) = le32 v.
Proof.
  pose proof (u8_div_u32 v 1) as H1. rewrite !Z.div_1_r in H1.
  unfold le32. rewrite H1, !u8_div_u32 by auto. reflexivity.
Qed.

Lemma of_le32_le32 v : of_le32 (le32 v) = u32 v.
Proof. unfold le32, of_le32. word_lia. Qed.

Lemma length_le32 v : List.length (le32 v) = 4%nat.
Proof. reflexivity. Qed.

Lemma st8_ne a v m x : x <> a -> st8 a v m !! x = m !! x.
Proof. intros. unfold st8. now rewrite lookup_insert_ne. Qed.

Lemma st8_eq a v m : st8 a v m !! a = Some (u8 v).
Proof. apply lookup_insert_eq. Qed.

(** Bytes outside the written range keep their value. *)
Lemma write_bytes_out bs : forall a m x,
  x < a \/ a + Z.of_nat (length bs) <= x -> write_bytes a bs m !! x = m !! x.
Proof.
  induction bs as [|b bs IH]; intros a m x H; [done|].
  cbn [write_bytes length] in *. rewrite IH by lia. apply st8_ne. lia.
Qed.

(** Bytes inside the range hold the list. *)
Lemma write_bytes_in bs : forall a m i b,
  bs !! i = Some b -> write_bytes a bs m !! (a + Z.of_nat i) = Some (u8 b).
Proof.
  induction bs as [|b bs IH]; intros a m i v H; [done|].
  destruct i as [|i]; cbn [write_bytes].
  - injection H as ->. rewrite write_bytes_out by lia.
    rewrite Z.add_0_r. apply st8_eq.
  - replace (a + Z.of_nat (S i)) with (a + 1 + Z.of_nat i) by lia. now apply IH.
Qed.

Lemma write_bytes_app bs1 : forall bs2 a m,
  write_bytes a (bs1 ++ bs2) m =
  write_bytes (a + Z.of_nat (length bs1)) bs2 (write_bytes a bs1 m).
Proof.
  induction bs1 as [|b bs1 IH]; intros bs2 a m; cbn [app write_bytes length].
  - f_equal; lia.
  - rewrite IH. f_equal; lia.
Qed.

Lemma read_bytes_length m n : forall a, length (read_bytes m a n) = n.
Proof. induction n; intros; simpl; auto. Qed.

Lemma read_bytes_ext m m' n : forall a,
  (forall x, a <= x < a + Z.of_nat n -> m' !! x = m !! x) ->
  read_bytes m' a n = read_bytes m a n.
Proof.
  induction n as [|n IH]; intros a H; [done|]. simpl. f_equal.
  - unfold ld8. now rewrite H by lia.
  - apply IH. intros. apply H. lia.
Qed.

Lemma read_write_bytes bs : forall a m,
  read_bytes (write_bytes a bs m) a (length bs) = map u8 bs.
Proof.
  induction bs as [|b bs IH]; intros a m; [done|]. cbn [write_bytes length read_bytes map].
  f_equal; [|apply IH].
  unfold ld8. rewrite write_bytes_out, st8_eq by lia. simpl. apply u8_u8.
Qed.

Lemma read_bytes_app m n1 : forall n2 a,
  read_bytes m a (n1 + n2) = read_bytes m a n1 ++ read_bytes m (a + Z.of_nat n1) n2.
Proof.
  induction n1 as [|n1 IH]; intros n2 a; cbn [Nat.add read_bytes app].
  - f_equal; lia.
  - f_equal. rewrite IH. replace (a + Z.of_nat (S n1)) with (a + 1 + Z.of_nat n1) by lia.
    reflexivity.
Qed.

Lemma ld32_read_bytes m a : ld32 m a = of_le32 (read_bytes m a 4).
Proof.
  unfold ld32, ld16. cbn [read_bytes of_le32].
  replace (a + 1 + 1) with (a + 2) by lia. lia.
Qed.

Lemma map_u8_le32 v : map u8 (le32 v) = le32 v.
Proof. simpl. unfold le32. now rewrite !u8_u8. Qed.

Lemma ld32_st32 a v m : ld32 (st32 a v m) a = u32 v.
Proof.
  rewrite ld32_read_bytes. unfold st32. change 4%nat with (length (le32 v)).
  now rewrite read_write_bytes, map_u8_le32, of_le32_le32.
Qed.

Lemma st32_out a v m x : x < a \/ a + 4 <= x -> st32 a v m !! x = m !! x.
Proof. intros. apply write_bytes_out. rewrite length_le32. lia. Qed.

Lemma ld32_ext m m' a :
  (forall x, a <= x < a + 4 -> m' !! x = m !! x) -> ld32 m' a = ld32 m a.
Proof. intros H. rewrite !ld32_read_bytes. f_equal. apply read_bytes_ext. intros; apply H; lia. Qed.

Lemma ld8_ext m m' a : m' !! a = m !! a -> ld8 m' a = ld8 m a.
Proof. unfold ld8. now intros ->. Qed.

#[export] Hint Rewrite ld32_st32 u32_u32 u8_u8 length_le32 read_bytes_length : ut.
