(* ===== verification/Opcode.v ===== *)
(** Data of the instruction decoder (src/target-i386/decode.h): attribute and
    prefix constants, the ModR/M and SIB unions, the opcode-table entry and the
    decoder's record [decode_t]. *)

From Stdlib Require Import String.
From S2P Require Import Prelude.

(** ** Attribute bits ([DF_*]) *)

Definition DF_NONE : Z := 0x0.
Definition DF_MODRM : Z := 0x1.
Definition DF_Ib : Z := 0x2.
Definition DF_Jb : Z := 0x2.
Definition DF_Iv : Z := 0x8.
Definition DF_Jv : Z := 0x10.
Definition DF_rel : Z := 0x10.
Definition DF_Ob : Z := 0x40.
Definition DF_Ov : Z := 0x80.
Definition DF_PREFIX : Z := 0x100.
Definition DF_UNDEFINED : Z := 0x200.
Definition DF_TABLE : Z := 0x400.
Definition DF_GROUP : Z := 0x800.
Definition DF_r8 : Z := 0x1000.
Definition DF_rm8 : Z := 0x2000.
Definition DF_Iw : Z := 0x4000.
Definition DF_Ap : Z := 0x8000.
Definition DF_FLOAT : Z := 0x10000.
Definition DF_ONE_MORE_LEVEL : Z := 0x20000.
Definition DF_BINARY : Z := 0x40000.
Definition DF_DIRECTION : Z := 0x80000.
Definition DF_ADDRSZ_PREFIX : Z := 0x100000.
Definition DF_OPSZ_PREFIX : Z := 0x200000.
Definition DF_MMX_SSE : Z := 0x400000.
Definition DF_BRANCH : Z := 0x800000.

(** ** Prefix flags, operand/address-size state, prefix bytes *)

Definition DSFL_GROUP1_PREFIX : Z := 0x1.
Definition DSFL_GROUP2_PREFIX : Z := 0x2.
Definition DSFL_GROUP3_PREFIX : Z := 0x4.
Definition DSFL_GROUP4_PREFIX : Z := 0x8.
Definition OPSTATE_ADDR32 : Z := 0x1.
Definition OPSTATE_DATA32 : Z := 0x2.
Definition OPSTATE_ADDR16 : Z := 0x0.
Definition OPSTATE_DATA16 : Z := 0x0.
Definition GP_REG_EAX : Z := 0x0.
Definition GP_REG_ECX : Z := 0x1.
Definition GP_REG_EDX : Z := 0x2.
Definition GP_REG_EBX : Z := 0x3.
Definition GP_REG_ESP : Z := 0x4.
Definition GP_REG_EBP : Z := 0x5.
Definition GP_REG_ESI : Z := 0x6.
Definition GP_REG_EDI : Z := 0x7.
Definition HD_PREFIX_REPZ : Z := 0xf3.
Definition HD_PREFIX_REPNZ : Z := 0xf2.
Definition HD_PREFIX_LOCK : Z := 0xf0.
Definition HD_PREFIX_CS : Z := 0x2e.
Definition HD_PREFIX_DS : Z := 0x3e.
Definition HD_PREFIX_ES : Z := 0x26.
Definition HD_PREFIX_FS : Z := 0x64.
Definition HD_PREFIX_GS : Z := 0x65.
Definition HD_PREFIX_SS : Z := 0x36.
Definition HD_PREFIX_OPSZ : Z := 0x66.
Definition HD_PREFIX_ADDRSZ : Z := 0x67.

(** ** Addressing and operand modes of [OpArgument] *)

Definition b_mode : Z := 0x1.
Definition v_mode : Z := 0x2.
Definition w_mode : Z := 0x3.
Definition d_mode : Z := 0x4.
Definition p_mode : Z := 0x5.
Definition s_mode : Z := 0x6.
Definition q_mode : Z := 0x7.
Definition x_mode : Z := 0x7.
Definition y_mode : Z := 0x8.
Definition z_mode : Z := 0x9.
Definition reg_AH : Z := 0x80.
Definition reg_AL : Z := 0x81.
Definition reg_BH : Z := 0x82.
Definition reg_BL : Z := 0x83.
Definition reg_CH : Z := 0x84.
Definition reg_CL : Z := 0x85.
Definition reg_DH : Z := 0x86.
Definition reg_DL : Z := 0x87.
Definition reg_DX : Z := 0x88.
Definition reg_indirDX : Z := 0x89.
Definition reg_EAX : Z := 0x90.
Definition reg_EBX : Z := 0x91.
Definition reg_ECX : Z := 0x92.
Definition reg_EDX : Z := 0x93.
Definition reg_ESP : Z := 0x94.
Definition reg_EBP : Z := 0x95.
Definition reg_EDI : Z := 0x96.
Definition reg_ESI : Z := 0x97.
Definition reg_ES : Z := 0x0.
Definition reg_CS : Z := 0x1.
Definition reg_SS : Z := 0x2.
Definition reg_DS : Z := 0x3.
Definition reg_FS : Z := 0x4.
Definition reg_GS : Z := 0x5.
Definition ADDR_implied_reg : Z := 0x1.
Definition ADDR_E : Z := 0x2.
Definition ADDR_G : Z := 0x3.
Definition ADDR_imm : Z := 0x4.
Definition ADDR_es : Z := 0x5.
Definition ADDR_ds : Z := 0x6.
Definition ADDR_jmp : Z := 0x7.
Definition ADDR_seg : Z := 0x8.
Definition ADDR_seg_reg : Z := 0x9.
Definition ADDR_direct : Z := 0xa.
Definition ADDR_offset : Z := 0xb.
Definition ADDR_FREG : Z := 0xc.
Definition ADDR_R : Z := 0xe.
Definition ADDR_C : Z := 0xf.
Definition ADDR_D : Z := 0x10.
Definition ADDR_T : Z := 0x11.

(** ** Flag effects *)

Definition NF : Z := 0x00.
Definition RCF : Z := 0x01.
Definition WCF : Z := 0x02.
Definition RAOF : Z := 0x04.
Definition WAOF : Z := 0x08.
Definition RF : Z := Z.lor RCF RAOF.
Definition WF : Z := Z.lor WCF WAOF.
Definition RWCF : Z := Z.lor RCF WCF.
Definition RWF : Z := Z.lor RF WF.

(** ** Opcode-table entries *)

Inductive inst_ty :=
  | INST_NORMAL | INST_CALL | INST_CALL_IND | INST_JMP | INST_JMP_IND
  | INST_JCOND | INST_OTHER_JCOND | INST_RET | INST_RET_IW | INST_INT
  | INST_RESERVED | INST_GROUP1_EB_IB | INST_GROUP1_EV_IV | INST_GROUP1_EV_IB | INST_GROUP2_EB_1
  | INST_GROUP2_EV_1 | INST_GROUP2_EB_CL | INST_GROUP2_EV_CL | INST_GROUP2A_EB_IB | INST_GROUP2A_EV_IB
  | INST_GROUP3B | INST_GROUP3V | INST_NGROUP4 | INST_NGROUP5 | INST_NGROUP6
  | INST_NGROUP7 | INST_NGROUP9 | INST_GROUP8_EV_IB | INST_2BYTES_OPC | INST_PREFIX
  | INST_SYSENTER | INST_FLOAT_D8 | INST_FLOAT_D9 | INST_FLOAT_DA | INST_FLOAT_DB
  | INST_FLOAT_DC | INST_FLOAT_DD | INST_FLOAT_DE | INST_FLOAT_DF | INST_FLOAT_D9_2
  | INST_FLOAT_D9_4 | INST_FLOAT_D9_5 | INST_FLOAT_D9_6 | INST_FLOAT_D9_7 | INST_FLOAT_DA_5
  | INST_FLOAT_DB_4 | INST_FLOAT_DE_3 | INST_FLOAT_DF_4.

(** The handlers an entry may name (src/target-i386/emit.h). *)
Inductive emit_fn :=
  | fn_emit_normal | fn_emit_int | fn_emit_sysenter
  | fn_emit_jcond | fn_emit_other_jcond | fn_emit_jmp | fn_emit_jmp_near_mem
  | fn_emit_call_disp | fn_emit_call_near_mem
  | fn_emit_ret | fn_emit_ret_Iw.

(** The arrays an entry may point to. *)
Inductive table_id :=
  | T_group1_Eb_Ib | T_group1_Ev_Iv | T_group1_Ev_Ib | T_group2a_Eb_Ib | T_group2a_Ev_Ib
  | T_group2_Eb_1 | T_group2_Ev_1 | T_group2_Eb_CL | T_group2_Ev_CL | T_group3b
  | T_group3v | T_ngroup4 | T_ngroup5 | T_ngroup6 | T_ngroup7
  | T_group8_Ev_Ib | T_ngroup9 | T_twoByteOpcodes | T_nopbyte0 | T_float_d8
  | T_float_d9 | T_float_d9_2 | T_float_d9_4 | T_float_d9_5 | T_float_d9_6
  | T_float_d9_7 | T_float_da | T_float_da_5 | T_float_db | T_float_db_4
  | T_float_dc | T_float_dd | T_float_de | T_float_de_3 | T_float_df
  | T_float_df_4.

(** [const void *ptr]: a handler, a further table, or 0. *)
Inductive op_ptr := NULL | Emit (f : emit_fn) | Tab (t : table_id).

Record OpArgument := mkArg { amode : Z; ainfo : Z }.

Record OpCode := mkOp {
  index : Z;
  disasm : string;
  args : list OpArgument;
  ptr : op_ptr;
  inst_type : inst_ty;
  attr : Z;
  flag_effect : Z }.

(** One initialiser row of a C table. *)
Definition op (i : Z) (d : string) (m0 i0 m1 i1 m2 i2 : Z) (p : op_ptr)
    (ty : inst_ty) (at_ fe : Z) : OpCode :=
  mkOp i d [mkArg m0 i0; mkArg m1 i1; mkArg m2 i2] p ty at_ fe.

#[export] Instance inst_ty_eq_dec : EqDecision inst_ty.
Proof. solve_decision. Defined.
#[export] Instance emit_fn_eq_dec : EqDecision emit_fn.
Proof. solve_decision. Defined.
#[export] Instance table_id_eq_dec : EqDecision table_id.
Proof. solve_decision. Defined.
#[export] Instance op_ptr_eq_dec : EqDecision op_ptr.
Proof. solve_decision. Defined.

(** ** The ModR/M and SIB bytes: the bit-fields of [modrm_union], [sib_union] *)

Definition modrm_rm (b : Z) : Z := Z.land b 7.
Definition modrm_reg (b : Z) : Z := Z.land (Z.shiftr b 3) 7.
Definition modrm_mod (b : Z) : Z := Z.land (Z.shiftr b 6) 3.
Definition modrm_byte (mod_ reg rm : Z) : Z :=
  Z.lor (Z.lor (Z.shiftl mod_ 6) (Z.shiftl reg 3)) rm.
Definition sib_base (b : Z) : Z := Z.land b 7.
Definition sib_index (b : Z) : Z := Z.land (Z.shiftr b 3) 7.
Definition sib_ss (b : Z) : Z := Z.land (Z.shiftr b 6) 3.

(** ** The decoder's record *)

Record decode_t := mkDs {
  decode_eip : Z;          (* unsigned long *)
  instr : Z;               (* address of the first byte after the prefixes *)
  pInstr : Z;
  ds_attr : Z;
  Group1_Prefix : Z; Group2_Prefix : Z; Group3_Prefix : Z; Group4_Prefix : Z;
  no_of_prefixes : Z;      (* unsigned char *)
  flags : Z;
  emitfn : op_ptr;
  pEntry : option OpCode;
  b : Z;                   (* unsigned long *)
  opstate : Z;
  modrm : Z;               (* the byte *)
  need_sib : bool;
  sib : Z;                 (* the byte *)
  dispBytes : Z;
  displacement : Z;        (* long *)
  modrm_regs : Z;
  immediate : Z;           (* long *)
  imm16 : Z;               (* long *)
  ds_inst_type : option inst_ty }.

(** Field updates. *)

Definition set_decode_eip v (d : decode_t) : decode_t :=
  mkDs v (instr d) (pInstr d) (ds_attr d) (Group1_Prefix d) (Group2_Prefix d) (Group3_Prefix d) (Group4_Prefix d) (no_of_prefixes d) (flags d) (emitfn d) (pEntry d) (b d) (opstate d) (modrm d) (need_sib d) (sib d) (dispBytes d) (displacement d) (modrm_regs d) (immediate d) (imm16 d) (ds_inst_type d).
Definition set_instr v (d : decode_t) : decode_t :=
  mkDs (decode_eip d) v (pInstr d) (ds_attr d) (Group1_Prefix d) (Group2_Prefix d) (Group3_Prefix d) (Group4_Prefix d) (no_of_prefixes d) (flags d) (emitfn d) (pEntry d) (b d) (opstate d) (modrm d) (need_sib d) (sib d) (dispBytes d) (displacement d) (modrm_regs d) (immediate d) (imm16 d) (ds_inst_type d).
Definition set_pInstr v (d : decode_t) : decode_t :=
  mkDs (decode_eip d) (instr d) v (ds_attr d) (Group1_Prefix d) (Group2_Prefix d) (Group3_Prefix d) (Group4_Prefix d) (no_of_prefixes d) (flags d) (emitfn d) (pEntry d) (b d) (opstate d) (modrm d) (need_sib d) (sib d) (dispBytes d) (displacement d) (modrm_regs d) (immediate d) (imm16 d) (ds_inst_type d).
Definition set_ds_attr v (d : decode_t) : decode_t :=
  mkDs (decode_eip d) (instr d) (pInstr d) v (Group1_Prefix d) (Group2_Prefix d) (Group3_Prefix d) (Group4_Prefix d) (no_of_prefixes d) (flags d) (emitfn d) (pEntry d) (b d) (opstate d) (modrm d) (need_sib d) (sib d) (dispBytes d) (displacement d) (modrm_regs d) (immediate d) (imm16 d) (ds_inst_type d).
Definition set_Group1_Prefix v (d : decode_t) : decode_t :=
  mkDs (decode_eip d) (instr d) (pInstr d) (ds_attr d) v (Group2_Prefix d) (Group3_Prefix d) (Group4_Prefix d) (no_of_prefixes d) (flags d) (emitfn d) (pEntry d) (b d) (opstate d) (modrm d) (need_sib d) (sib d) (dispBytes d) (displacement d) (modrm_regs d) (immediate d) (imm16 d) (ds_inst_type d).
Definition set_Group2_Prefix v (d : decode_t) : decode_t :=
  mkDs (decode_eip d) (instr d) (pInstr d) (ds_attr d) (Group1_Prefix d) v (Group3_Prefix d) (Group4_Prefix d) (no_of_prefixes d) (flags d) (emitfn d) (pEntry d) (b d) (opstate d) (modrm d) (need_sib d) (sib d) (dispBytes d) (displacement d) (modrm_regs d) (immediate d) (imm16 d) (ds_inst_type d).
Definition set_Group3_Prefix v (d : decode_t) : decode_t :=
  mkDs (decode_eip d) (instr d) (pInstr d) (ds_attr d) (Group1_Prefix d) (Group2_Prefix d) v (Group4_Prefix d) (no_of_prefixes d) (flags d) (emitfn d) (pEntry d) (b d) (opstate d) (modrm d) (need_sib d) (sib d) (dispBytes d) (displacement d) (modrm_regs d) (immediate d) (imm16 d) (ds_inst_type d).
Definition set_Group4_Prefix v (d : decode_t) : decode_t :=
  mkDs (decode_eip d) (instr d) (pInstr d) (ds_attr d) (Group1_Prefix d) (Group2_Prefix d) (Group3_Prefix d) v (no_of_prefixes d) (flags d) (emitfn d) (pEntry d) (b d) (opstate d) (modrm d) (need_sib d) (sib d) (dispBytes d) (displacement d) (modrm_regs d) (immediate d) (imm16 d) (ds_inst_type d).
Definition set_no_of_prefixes v (d : decode_t) : decode_t :=
  mkDs (decode_eip d) (instr d) (pInstr d) (ds_attr d) (Group1_Prefix d) (Group2_Prefix d) (Group3_Prefix d) (Group4_Prefix d) v (flags d) (emitfn d) (pEntry d) (b d) (opstate d) (modrm d) (need_sib d) (sib d) (dispBytes d) (displacement d) (modrm_regs d) (immediate d) (imm16 d) (ds_inst_type d).
Definition set_flags v (d : decode_t) : decode_t :=
  mkDs (decode_eip d) (instr d) (pInstr d) (ds_attr d) (Group1_Prefix d) (Group2_Prefix d) (Group3_Prefix d) (Group4_Prefix d) (no_of_prefixes d) v (emitfn d) (pEntry d) (b d) (opstate d) (modrm d) (need_sib d) (sib d) (dispBytes d) (displacement d) (modrm_regs d) (immediate d) (imm16 d) (ds_inst_type d).
Definition set_emitfn v (d : decode_t) : decode_t :=
  mkDs (decode_eip d) (instr d) (pInstr d) (ds_attr d) (Group1_Prefix d) (Group2_Prefix d) (Group3_Prefix d) (Group4_Prefix d) (no_of_prefixes d) (flags d) v (pEntry d) (b d) (opstate d) (modrm d) (need_sib d) (sib d) (dispBytes d) (displacement d) (modrm_regs d) (immediate d) (imm16 d) (ds_inst_type d).
Definition set_pEntry v (d : decode_t) : decode_t :=
  mkDs (decode_eip d) (instr d) (pInstr d) (ds_attr d) (Group1_Prefix d) (Group2_Prefix d) (Group3_Prefix d) (Group4_Prefix d) (no_of_prefixes d) (flags d) (emitfn d) v (b d) (opstate d) (modrm d) (need_sib d) (sib d) (dispBytes d) (displacement d) (modrm_regs d) (immediate d) (imm16 d) (ds_inst_type d).
Definition set_b v (d : decode_t) : decode_t :=
  mkDs (decode_eip d) (instr d) (pInstr d) (ds_attr d) (Group1_Prefix d) (Group2_Prefix d) (Group3_Prefix d) (Group4_Prefix d) (no_of_prefixes d) (flags d) (emitfn d) (pEntry d) v (opstate d) (modrm d) (need_sib d) (sib d) (dispBytes d) (displacement d) (modrm_regs d) (immediate d) (imm16 d) (ds_inst_type d).
Definition set_opstate v (d : decode_t) : decode_t :=
  mkDs (decode_eip d) (instr d) (pInstr d) (ds_attr d) (Group1_Prefix d) (Group2_Prefix d) (Group3_Prefix d) (Group4_Prefix d) (no_of_prefixes d) (flags d) (emitfn d) (pEntry d) (b d) v (modrm d) (need_sib d) (sib d) (dispBytes d) (displacement d) (modrm_regs d) (immediate d) (imm16 d) (ds_inst_type d).
Definition set_modrm v (d : decode_t) : decode_t :=
  mkDs (decode_eip d) (instr d) (pInstr d) (ds_attr d) (Group1_Prefix d) (Group2_Prefix d) (Group3_Prefix d) (Group4_Prefix d) (no_of_prefixes d) (flags d) (emitfn d) (pEntry d) (b d) (opstate d) v (need_sib d) (sib d) (dispBytes d) (displacement d) (modrm_regs d) (immediate d) (imm16 d) (ds_inst_type d).
Definition set_need_sib v (d : decode_t) : decode_t :=
  mkDs (decode_eip d) (instr d) (pInstr d) (ds_attr d) (Group1_Prefix d) (Group2_Prefix d) (Group3_Prefix d) (Group4_Prefix d) (no_of_prefixes d) (flags d) (emitfn d) (pEntry d) (b d) (opstate d) (modrm d) v (sib d) (dispBytes d) (displacement d) (modrm_regs d) (immediate d) (imm16 d) (ds_inst_type d).
Definition set_sib v (d : decode_t) : decode_t :=
  mkDs (decode_eip d) (instr d) (pInstr d) (ds_attr d) (Group1_Prefix d) (Group2_Prefix d) (Group3_Prefix d) (Group4_Prefix d) (no_of_prefixes d) (flags d) (emitfn d) (pEntry d) (b d) (opstate d) (modrm d) (need_sib d) v (dispBytes d) (displacement d) (modrm_regs d) (immediate d) (imm16 d) (ds_inst_type d).
Definition set_dispBytes v (d : decode_t) : decode_t :=
  mkDs (decode_eip d) (instr d) (pInstr d) (ds_attr d) (Group1_Prefix d) (Group2_Prefix d) (Group3_Prefix d) (Group4_Prefix d) (no_of_prefixes d) (flags d) (emitfn d) (pEntry d) (b d) (opstate d) (modrm d) (need_sib d) (sib d) v (displacement d) (modrm_regs d) (immediate d) (imm16 d) (ds_inst_type d).
Definition set_displacement v (d : decode_t) : decode_t :=
  mkDs (decode_eip d) (instr d) (pInstr d) (ds_attr d) (Group1_Prefix d) (Group2_Prefix d) (Group3_Prefix d) (Group4_Prefix d) (no_of_prefixes d) (flags d) (emitfn d) (pEntry d) (b d) (opstate d) (modrm d) (need_sib d) (sib d) (dispBytes d) v (modrm_regs d) (immediate d) (imm16 d) (ds_inst_type d).
Definition set_modrm_regs v (d : decode_t) : decode_t :=
  mkDs (decode_eip d) (instr d) (pInstr d) (ds_attr d) (Group1_Prefix d) (Group2_Prefix d) (Group3_Prefix d) (Group4_Prefix d) (no_of_prefixes d) (flags d) (emitfn d) (pEntry d) (b d) (opstate d) (modrm d) (need_sib d) (sib d) (dispBytes d) (displacement d) v (immediate d) (imm16 d) (ds_inst_type d).
Definition set_immediate v (d : decode_t) : decode_t :=
  mkDs (decode_eip d) (instr d) (pInstr d) (ds_attr d) (Group1_Prefix d) (Group2_Prefix d) (Group3_Prefix d) (Group4_Prefix d) (no_of_prefixes d) (flags d) (emitfn d) (pEntry d) (b d) (opstate d) (modrm d) (need_sib d) (sib d) (dispBytes d) (displacement d) (modrm_regs d) v (imm16 d) (ds_inst_type d).
Definition set_imm16 v (d : decode_t) : decode_t :=
  mkDs (decode_eip d) (instr d) (pInstr d) (ds_attr d) (Group1_Prefix d) (Group2_Prefix d) (Group3_Prefix d) (Group4_Prefix d) (no_of_prefixes d) (flags d) (emitfn d) (pEntry d) (b d) (opstate d) (modrm d) (need_sib d) (sib d) (dispBytes d) (displacement d) (modrm_regs d) (immediate d) v (ds_inst_type d).
Definition set_ds_inst_type v (d : decode_t) : decode_t :=
  mkDs (decode_eip d) (instr d) (pInstr d) (ds_attr d) (Group1_Prefix d) (Group2_Prefix d) (Group3_Prefix d) (Group4_Prefix d) (no_of_prefixes d) (flags d) (emitfn d) (pEntry d) (b d) (opstate d) (modrm d) (need_sib d) (sib d) (dispBytes d) (displacement d) (modrm_regs d) (immediate d) (imm16 d) v.

(** Compute field reads of updated records. *)
Ltac ds_simpl := cbn [set_decode_eip set_instr set_pInstr set_ds_attr set_Group1_Prefix set_Group2_Prefix set_Group3_Prefix set_Group4_Prefix set_no_of_prefixes set_flags set_emitfn set_pEntry set_b set_opstate set_modrm set_need_sib set_sib set_dispBytes set_displacement set_modrm_regs set_immediate set_imm16 set_ds_inst_type
    decode_eip instr pInstr ds_attr Group1_Prefix Group2_Prefix Group3_Prefix Group4_Prefix no_of_prefixes flags emitfn pEntry b opstate modrm need_sib sib dispBytes displacement modrm_regs immediate imm16 ds_inst_type].
Ltac ds_simpl_in H := cbn [set_decode_eip set_instr set_pInstr set_ds_attr set_Group1_Prefix set_Group2_Prefix set_Group3_Prefix set_Group4_Prefix set_no_of_prefixes set_flags set_emitfn set_pEntry set_b set_opstate set_modrm set_need_sib set_sib set_dispBytes set_displacement set_modrm_regs set_immediate set_imm16 set_ds_inst_type
    decode_eip instr pInstr ds_attr Group1_Prefix Group2_Prefix Group3_Prefix Group4_Prefix no_of_prefixes flags emitfn pEntry b opstate modrm need_sib sib dispBytes displacement modrm_regs immediate imm16 ds_inst_type] in H.
