(* ===== verification/DecodeTable.v ===== *)
(** The opcode tables of src/target-i386/decode-table.c, row by row: every
    initialiser of the C arrays is one [op] application with the same fields
    in the same order.  The two 256-entry tables are written in two halves. *)

From Stdlib Require Import String.
From S2P Require Import Prelude Opcode.

#[local] Open Scope string_scope.
#[local] Open Scope Z_scope.

Definition group1_Eb_Ib : list OpCode := [
  op 0x0 "addB" 2 1 4 1 0 0 (Emit fn_emit_normal) INST_NORMAL 1048579 10;
  op 0x1 "orB" 2 1 4 1 0 0 (Emit fn_emit_normal) INST_NORMAL 1048579 10;
  op 0x2 "adcB" 2 1 4 1 0 0 (Emit fn_emit_normal) INST_NORMAL 1048579 15;
  op 0x3 "sbbB" 2 1 4 1 0 0 (Emit fn_emit_normal) INST_NORMAL 1048579 15;
  op 0x4 "andB" 2 1 4 1 0 0 (Emit fn_emit_normal) INST_NORMAL 1048579 10;
  op 0x5 "subB" 2 1 4 1 0 0 (Emit fn_emit_normal) INST_NORMAL 1048579 10;
  op 0x6 "xorB" 2 1 4 1 0 0 (Emit fn_emit_normal) INST_NORMAL 1048579 10;
  op 0x7 "cmpB" 2 1 4 1 0 0 (Emit fn_emit_normal) INST_NORMAL 1048579 10
].

Definition group1_Ev_Iv : list OpCode := [
  op 0x0 "addL" 2 2 4 2 0 0 (Emit fn_emit_normal) INST_NORMAL 3145737 10;
  op 0x1 "orL" 2 2 4 2 0 0 (Emit fn_emit_normal) INST_NORMAL 3145737 10;
  op 0x2 "adcL" 2 2 4 2 0 0 (Emit fn_emit_normal) INST_NORMAL 3145737 15;
  op 0x3 "sbbL" 2 2 4 2 0 0 (Emit fn_emit_normal) INST_NORMAL 3145737 15;
  op 0x4 "andL" 2 2 4 2 0 0 (Emit fn_emit_normal) INST_NORMAL 3145737 10;
  op 0x5 "subL" 2 2 4 2 0 0 (Emit fn_emit_normal) INST_NORMAL 3145737 10;
  op 0x6 "xorL" 2 2 4 2 0 0 (Emit fn_emit_normal) INST_NORMAL 3145737 10;
  op 0x7 "cmpL" 2 2 4 2 0 0 (Emit fn_emit_normal) INST_NORMAL 3145737 10
].

Definition group1_Ev_Ib : list OpCode := [
  op 0x0 "addL" 2 2 4 1 0 0 (Emit fn_emit_normal) INST_NORMAL 3145731 10;
  op 0x1 "orL" 2 2 4 1 0 0 (Emit fn_emit_normal) INST_NORMAL 3145731 10;
  op 0x2 "adcL" 2 2 4 1 0 0 (Emit fn_emit_normal) INST_NORMAL 3145731 15;
  op 0x3 "sbbL" 2 2 4 1 0 0 (Emit fn_emit_normal) INST_NORMAL 3145731 15;
  op 0x4 "andL" 2 2 4 1 0 0 (Emit fn_emit_normal) INST_NORMAL 3145731 10;
  op 0x5 "subL" 2 2 4 1 0 0 (Emit fn_emit_normal) INST_NORMAL 3145731 10;
  op 0x6 "xorL" 2 2 4 1 0 0 (Emit fn_emit_normal) INST_NORMAL 3145731 10;
  op 0x7 "cmpL" 2 2 4 1 0 0 (Emit fn_emit_normal) INST_NORMAL 3145731 10
].

Definition group2a_Eb_Ib : list OpCode := [
  op 0x0 "rolB" 2 1 4 1 0 0 (Emit fn_emit_normal) INST_NORMAL 1048579 15;
  op 0x1 "rorB" 2 1 4 1 0 0 (Emit fn_emit_normal) INST_NORMAL 1048579 15;
  op 0x2 "rclB" 2 1 4 1 0 0 (Emit fn_emit_normal) INST_NORMAL 1048579 15;
  op 0x3 "rcrB" 2 1 4 1 0 0 (Emit fn_emit_normal) INST_NORMAL 1048579 15;
  op 0x4 "shlB" 2 1 4 1 0 0 (Emit fn_emit_normal) INST_NORMAL 1048579 10;
  op 0x5 "shrB" 2 1 4 1 0 0 (Emit fn_emit_normal) INST_NORMAL 1048579 10;
  op 0x6 "reserved" 0 0 0 0 0 0 NULL INST_RESERVED 512 0;
  op 0x7 "sarB" 2 1 4 1 0 0 (Emit fn_emit_normal) INST_NORMAL 1048579 10
].

Definition group2a_Ev_Ib : list OpCode := [
  op 0x0 "rolL" 2 2 4 1 0 0 (Emit fn_emit_normal) INST_NORMAL 3145731 15;
  op 0x1 "rorL" 2 2 4 1 0 0 (Emit fn_emit_normal) INST_NORMAL 3145731 15;
  op 0x2 "rclL" 2 2 4 1 0 0 (Emit fn_emit_normal) INST_NORMAL 3145731 15;
  op 0x3 "rcrL" 2 2 4 1 0 0 (Emit fn_emit_normal) INST_NORMAL 3145731 15;
  op 0x4 "shlL" 2 2 4 1 0 0 (Emit fn_emit_normal) INST_NORMAL 3145731 10;
  op 0x5 "shrL" 2 2 4 1 0 0 (Emit fn_emit_normal) INST_NORMAL 3145731 10;
  op 0x6 "reserved" 0 0 0 0 0 0 NULL INST_RESERVED 512 0;
  op 0x7 "sarL" 2 2 4 1 0 0 (Emit fn_emit_normal) INST_NORMAL 3145731 10
].

Definition group2_Eb_1 : list OpCode := [
  op 0x0 "rolB" 2 1 0 0 0 0 (Emit fn_emit_normal) INST_NORMAL 1048577 15;
  op 0x1 "rorB" 2 1 0 0 0 0 (Emit fn_emit_normal) INST_NORMAL 1048577 15;
  op 0x2 "rclB" 2 1 0 0 0 0 (Emit fn_emit_normal) INST_NORMAL 1048577 15;
  op 0x3 "rcrB" 2 1 0 0 0 0 (Emit fn_emit_normal) INST_NORMAL 1048577 15;
  op 0x4 "shlB" 2 1 0 0 0 0 (Emit fn_emit_normal) INST_NORMAL 1048577 10;
  op 0x5 "shrB" 2 1 0 0 0 0 (Emit fn_emit_normal) INST_NORMAL 1048577 10;
  op 0x6 "reserved" 0 0 0 0 0 0 NULL INST_RESERVED 512 0;
  op 0x7 "sarB" 2 1 0 0 0 0 (Emit fn_emit_normal) INST_NORMAL 1048577 10
].

Definition group2_Ev_1 : list OpCode := [
  op 0x0 "rolL" 2 2 0 0 0 0 (Emit fn_emit_normal) INST_NORMAL 3145729 15;
  op 0x1 "rorL" 2 2 0 0 0 0 (Emit fn_emit_normal) INST_NORMAL 3145729 15;
  op 0x2 "rclL" 2 2 0 0 0 0 (Emit fn_emit_normal) INST_NORMAL 3145729 15;
  op 0x3 "rcrL" 2 2 0 0 0 0 (Emit fn_emit_normal) INST_NORMAL 3145729 15;
  op 0x4 "shlL" 2 2 0 0 0 0 (Emit fn_emit_normal) INST_NORMAL 3145729 10;
  op 0x5 "shrL" 2 2 0 0 0 0 (Emit fn_emit_normal) INST_NORMAL 3145729 10;
  op 0x6 "reserved" 0 0 0 0 0 0 NULL INST_RESERVED 512 0;
  op 0x7 "sarL" 2 2 0 0 0 0 (Emit fn_emit_normal) INST_NORMAL 3145729 10
].

Definition group2_Eb_CL : list OpCode := [
  op 0x0 "rolB" 2 1 1 133 0 0 (Emit fn_emit_normal) INST_NORMAL 1048577 15;
  op 0x1 "rorB" 2 1 1 133 0 0 (Emit fn_emit_normal) INST_NORMAL 1048577 15;
  op 0x2 "rclB" 2 1 1 133 0 0 (Emit fn_emit_normal) INST_NORMAL 1048577 15;
  op 0x3 "rcrB" 2 1 1 133 0 0 (Emit fn_emit_normal) INST_NORMAL 1048577 15;
  op 0x4 "shlB" 2 1 1 133 0 0 (Emit fn_emit_normal) INST_NORMAL 1048577 10;
  op 0x5 "shrB" 2 1 1 133 0 0 (Emit fn_emit_normal) INST_NORMAL 1048577 10;
  op 0x6 "reserved" 0 0 0 0 0 0 NULL INST_RESERVED 512 0;
  op 0x7 "sarB" 2 1 1 133 0 0 (Emit fn_emit_normal) INST_NORMAL 1048577 10
].

Definition group2_Ev_CL : list OpCode := [
  op 0x0 "rolL" 2 2 1 133 0 0 (Emit fn_emit_normal) INST_NORMAL 3145729 15;
  op 0x1 "rorL" 2 2 1 133 0 0 (Emit fn_emit_normal) INST_NORMAL 3145729 15;
  op 0x2 "rclL" 2 2 1 133 0 0 (Emit fn_emit_normal) INST_NORMAL 3145729 15;
  op 0x3 "rcrL" 2 2 1 133 0 0 (Emit fn_emit_normal) INST_NORMAL 3145729 15;
  op 0x4 "shlL" 2 2 1 133 0 0 (Emit fn_emit_normal) INST_NORMAL 3145729 10;
  op 0x5 "shrL" 2 2 1 133 0 0 (Emit fn_emit_normal) INST_NORMAL 3145729 10;
  op 0x6 "reserved" 0 0 0 0 0 0 NULL INST_RESERVED 512 0;
  op 0x7 "sarL" 2 2 1 133 0 0 (Emit fn_emit_normal) INST_NORMAL 3145729 10
].

Definition group3b : list OpCode := [
  op 0x0 "testB" 2 1 4 1 0 0 (Emit fn_emit_normal) INST_NORMAL 1048579 10;
  op 0x1 "reserved" 0 0 0 0 0 0 NULL INST_RESERVED 512 0;
  op 0x2 "notB" 2 1 0 0 0 0 (Emit fn_emit_normal) INST_NORMAL 1048577 10;
  op 0x3 "negB" 2 1 0 0 0 0 (Emit fn_emit_normal) INST_NORMAL 1048577 10;
  op 0x4 "mulB" 1 129 2 1 0 0 (Emit fn_emit_normal) INST_NORMAL 1048577 10;
  op 0x5 "imulB" 1 129 2 1 0 0 (Emit fn_emit_normal) INST_NORMAL 1048577 10;
  op 0x6 "divB" 1 129 2 1 0 0 (Emit fn_emit_normal) INST_NORMAL 1048577 10;
  op 0x7 "idivB" 1 129 2 1 0 0 (Emit fn_emit_normal) INST_NORMAL 1048577 10
].

Definition group3v : list OpCode := [
  op 0x0 "testL" 2 2 4 2 0 0 (Emit fn_emit_normal) INST_NORMAL 3145737 10;
  op 0x1 "reserved" 0 0 0 0 0 0 NULL INST_RESERVED 512 0;
  op 0x2 "notL" 2 2 0 0 0 0 (Emit fn_emit_normal) INST_NORMAL 3145729 10;
  op 0x3 "negL" 2 2 0 0 0 0 (Emit fn_emit_normal) INST_NORMAL 3145729 10;
  op 0x4 "mulL" 1 144 2 2 0 0 (Emit fn_emit_normal) INST_NORMAL 3145729 10;
  op 0x5 "imulL" 1 144 2 2 0 0 (Emit fn_emit_normal) INST_NORMAL 3145729 10;
  op 0x6 "divL" 1 144 2 2 0 0 (Emit fn_emit_normal) INST_NORMAL 3145729 10;
  op 0x6 "idivL" 1 144 2 2 0 0 (Emit fn_emit_normal) INST_NORMAL 3145729 10
].

Definition ngroup4 : list OpCode := [
  op 0x0 "incB" 2 1 0 0 0 0 (Emit fn_emit_normal) INST_NORMAL 1048577 8;
  op 0x1 "decB" 2 1 0 0 0 0 (Emit fn_emit_normal) INST_NORMAL 1048577 8;
  op 0x2 "reserved" 0 0 0 0 0 0 NULL INST_RESERVED 512 0;
  op 0x3 "reserved" 0 0 0 0 0 0 NULL INST_RESERVED 512 0;
  op 0x4 "reserved" 0 0 0 0 0 0 NULL INST_RESERVED 512 0;
  op 0x5 "reserved" 0 0 0 0 0 0 NULL INST_RESERVED 512 0;
  op 0x6 "reserved" 0 0 0 0 0 0 NULL INST_RESERVED 512 0;
  op 0x7 "reserved" 0 0 0 0 0 0 NULL INST_RESERVED 512 0
].

Definition ngroup5 : list OpCode := [
  op 0x0 "incL" 2 2 0 0 0 0 (Emit fn_emit_normal) INST_NORMAL 3145729 8;
  op 0x1 "decL" 2 2 0 0 0 0 (Emit fn_emit_normal) INST_NORMAL 3145729 8;
  op 0x2 "callL" 2 2 0 0 0 0 (Emit fn_emit_call_near_mem) INST_CALL_IND 11534337 0;
  op 0x3 "call" 2 5 0 0 0 0 (Emit fn_emit_normal) INST_NORMAL 3145729 0;
  op 0x4 "jmpL" 2 2 0 0 0 0 (Emit fn_emit_jmp_near_mem) INST_JMP_IND 11534337 0;
  op 0x5 "jmp" 2 5 0 0 0 0 (Emit fn_emit_normal) INST_NORMAL 3145729 0;
  op 0x6 "pushL" 2 2 0 0 0 0 (Emit fn_emit_normal) INST_NORMAL 3145729 0;
  op 0x7 "reserved" 0 0 0 0 0 0 NULL INST_RESERVED 512 0
].

Definition ngroup6 : list OpCode := [
  op 0x0 "sldt" 2 3 0 0 0 0 (Emit fn_emit_normal) INST_NORMAL 1048577 0;
  op 0x1 "str" 2 3 0 0 0 0 (Emit fn_emit_normal) INST_NORMAL 1048577 0;
  op 0x2 "lldt" 2 3 0 0 0 0 (Emit fn_emit_normal) INST_NORMAL 1048577 0;
  op 0x3 "ltr" 2 3 0 0 0 0 (Emit fn_emit_normal) INST_NORMAL 1048577 0;
  op 0x4 "verr" 2 3 0 0 0 0 (Emit fn_emit_normal) INST_NORMAL 1048577 15;
  op 0x5 "verw" 2 3 0 0 0 0 (Emit fn_emit_normal) INST_NORMAL 1048577 15;
  op 0x6 "reserved" 0 0 0 0 0 0 NULL INST_RESERVED 512 0;
  op 0x7 "reserved" 0 0 0 0 0 0 NULL INST_RESERVED 512 0
].

Definition ngroup7 : list OpCode := [
  op 0x0 "sgdt" 2 6 0 0 0 0 (Emit fn_emit_normal) INST_NORMAL 3145729 0;
  op 0x1 "sidt" 2 6 0 0 0 0 (Emit fn_emit_normal) INST_NORMAL 3145729 0;
  op 0x2 "lgdt" 2 6 0 0 0 0 (Emit fn_emit_normal) INST_NORMAL 3145729 0;
  op 0x3 "lidt" 2 6 0 0 0 0 (Emit fn_emit_normal) INST_NORMAL 3145729 0;
  op 0x4 "smsw" 2 3 0 0 0 0 (Emit fn_emit_normal) INST_NORMAL 3145729 0;
  op 0x5 "reserved" 0 0 0 0 0 0 NULL INST_RESERVED 512 0;
  op 0x6 "lmsw" 2 3 0 0 0 0 (Emit fn_emit_normal) INST_NORMAL 1048577 0;
  op 0x7 "invlpg" 2 1 0 0 0 0 (Emit fn_emit_normal) INST_NORMAL 1048577 0
].

Definition group8_Ev_Ib : list OpCode := [
  op 0x0 "reserved" 0 0 0 0 0 0 NULL INST_RESERVED 512 0;
  op 0x1 "reserved" 0 0 0 0 0 0 NULL INST_RESERVED 512 0;
  op 0x2 "reserved" 0 0 0 0 0 0 NULL INST_RESERVED 512 0;
  op 0x3 "reserved" 0 0 0 0 0 0 NULL INST_RESERVED 512 0;
  op 0x4 "btL" 2 2 4 1 0 0 (Emit fn_emit_normal) INST_NORMAL 3145731 10;
  op 0x5 "btsL" 2 2 4 1 0 0 (Emit fn_emit_normal) INST_NORMAL 3145731 10;
  op 0x6 "btrL" 2 2 4 1 0 0 (Emit fn_emit_normal) INST_NORMAL 3145731 10;
  op 0x7 "btcL" 2 2 4 1 0 0 (Emit fn_emit_normal) INST_NORMAL 3145731 10
].

Definition ngroup9 : list OpCode := [
  op 0x0 "reserved" 0 0 0 0 0 0 NULL INST_RESERVED 512 0;
  op 0x1 "cmpxchgL" 2 2 0 0 0 0 (Emit fn_emit_normal) INST_NORMAL 1048577 10;
  op 0x2 "reserved" 0 0 0 0 0 0 NULL INST_RESERVED 512 0;
  op 0x3 "reserved" 0 0 0 0 0 0 NULL INST_RESERVED 512 0;
  op 0x4 "reserved" 0 0 0 0 0 0 NULL INST_RESERVED 512 0;
  op 0x5 "reserved" 0 0 0 0 0 0 NULL INST_RESERVED 512 0;
  op 0x6 "reserved" 0 0 0 0 0 0 NULL INST_RESERVED 512 0;
  op 0x7 "reserved" 0 0 0 0 0 0 NULL INST_RESERVED 512 0
].

Definition twoByteOpcodes_lo : list OpCode := [
  op 0x0 "(group)" 0 0 0 0 0 0 (Tab T_ngroup6) INST_NGROUP6 2048 0;
  op 0x1 "(group)" 0 0 0 0 0 0 (Tab T_ngroup7) INST_NGROUP7 2048 0;
  op 0x2 "lar" 3 2 2 2 0 0 (Emit fn_emit_normal) INST_NORMAL 3145729 15;
  op 0x3 "lsl" 3 2 2 2 0 0 (Emit fn_emit_normal) INST_NORMAL 3145729 15;
  op 0x4 "reserved" 0 0 0 0 0 0 NULL INST_RESERVED 512 0;
  op 0x5 "reserved" 0 0 0 0 0 0 NULL INST_RESERVED 512 0;
  op 0x6 "clts" 0 0 0 0 0 0 (Emit fn_emit_normal) INST_NORMAL 0 0;
  op 0x7 "reserved" 0 0 0 0 0 0 NULL INST_RESERVED 512 0;
  op 0x8 "invd" 0 0 0 0 0 0 (Emit fn_emit_normal) INST_NORMAL 0 0;
  op 0x9 "wbinvd" 0 0 0 0 0 0 (Emit fn_emit_normal) INST_NORMAL 0 0;
  op 0xa "reserved" 0 0 0 0 0 0 NULL INST_RESERVED 512 0;
  op 0xb "reserved" 0 0 0 0 0 0 (Emit fn_emit_normal) INST_RESERVED 512 0;
  op 0xc "reserved" 0 0 0 0 0 0 NULL INST_RESERVED 512 0;
  op 0xd "reserved" 0 0 0 0 0 0 NULL INST_RESERVED 512 0;
  op 0xe "reserved" 0 0 0 0 0 0 NULL INST_RESERVED 512 0;
  op 0xf "reserved" 0 0 0 0 0 0 NULL INST_RESERVED 512 0;
  op 0x10 "MMX/SSE/SSE2" 2 0 0 0 0 0 (Emit fn_emit_normal) INST_NORMAL 1048577 0;
  op 0x11 "MMX/SSE/SSE2" 2 0 0 0 0 0 (Emit fn_emit_normal) INST_NORMAL 1048577 0;
  op 0x12 "MMX/SSE/SSE2" 2 0 0 0 0 0 (Emit fn_emit_normal) INST_NORMAL 1048577 0;
  op 0x13 "MMX/SSE/SSE2" 2 0 0 0 0 0 (Emit fn_emit_normal) INST_NORMAL 1048577 0;
  op 0x14 "MMX/SSE/SSE2" 2 0 0 0 0 0 (Emit fn_emit_normal) INST_NORMAL 1048577 0;
  op 0x15 "MMX/SSE/SSE2" 2 0 0 0 0 0 (Emit fn_emit_normal) INST_NORMAL 1048577 0;
  op 0x16 "MMX/SSE/SSE2" 2 0 0 0 0 0 (Emit fn_emit_normal) INST_NORMAL 1048577 0;
  op 0x17 "MMX/SSE/SSE2" 2 0 0 0 0 0 (Emit fn_emit_normal) INST_NORMAL 1048577 0;
  op 0x18 "MMX/SSE/SSE2" 2 0 0 0 0 0 (Emit fn_emit_normal) INST_NORMAL 1048577 0;
  op 0x19 "reserved" 0 0 0 0 0 0 NULL INST_RESERVED 512 0;
  op 0x1a "reserved" 0 0 0 0 0 0 NULL INST_RESERVED 512 0;
  op 0x1b "reserved" 0 0 0 0 0 0 NULL INST_RESERVED 512 0;
  op 0x1c "reserved" 0 0 0 0 0 0 NULL INST_RESERVED 512 0;
  op 0x1d "reserved" 0 0 0 0 0 0 NULL INST_RESERVED 512 0;
  op 0x1e "reserved" 0 0 0 0 0 0 NULL INST_RESERVED 512 0;
  op 0x1f "reserved" 0 0 0 0 0 0 NULL INST_RESERVED 512 0;
  op 0x20 "mov" 14 4 15 4 0 0 (Emit fn_emit_normal) INST_NORMAL 1 10;
  op 0x21 "mov" 14 4 16 4 0 0 (Emit fn_emit_normal) INST_NORMAL 1 10;
  op 0x22 "mov" 15 4 14 4 0 0 (Emit fn_emit_normal) INST_NORMAL 1 10;
  op 0x23 "mov" 16 4 14 4 0 0 (Emit fn_emit_normal) INST_NORMAL 1 10;
  op 0x24 "mov" 14 4 17 4 0 0 (Emit fn_emit_normal) INST_NORMAL 1 10;
  op 0x25 "reserved" 0 0 0 0 0 0 NULL INST_RESERVED 512 0;
  op 0x26 "mov" 17 4 14 4 0 0 (Emit fn_emit_normal) INST_NORMAL 1 10;
  op 0x27 "reserved" 0 0 0 0 0 0 NULL INST_RESERVED 512 0;
  op 0x28 "MMX/SSE/SSE2" 2 0 0 0 0 0 (Emit fn_emit_normal) INST_NORMAL 1048577 0;
  op 0x29 "MMX/SSE/SSE2" 2 0 0 0 0 0 (Emit fn_emit_normal) INST_NORMAL 1048577 0;
  op 0x2a "MMX/SSE/SSE2" 2 0 0 0 0 0 (Emit fn_emit_normal) INST_NORMAL 1048577 0;
  op 0x2b "MMX/SSE/SSE2" 2 0 0 0 0 0 (Emit fn_emit_normal) INST_NORMAL 1048577 0;
  op 0x2c "MMX/SSE/SSE2" 2 0 0 0 0 0 (Emit fn_emit_normal) INST_NORMAL 1048577 0;
  op 0x2d "MMX/SSE/SSE2" 2 0 0 0 0 0 (Emit fn_emit_normal) INST_NORMAL 1048577 0;
  op 0x2e "MMX/SSE/SSE2" 2 0 0 0 0 0 (Emit fn_emit_normal) INST_NORMAL 1048577 0;
  op 0x2f "MMX/SSE/SSE2" 2 0 0 0 0 0 (Emit fn_emit_normal) INST_NORMAL 1048577 0;
  op 0x30 "wrmsr" 0 0 0 0 0 0 (Emit fn_emit_normal) INST_NORMAL 0 0;
  op 0x31 "rdtsc" 0 0 0 0 0 0 (Emit fn_emit_normal) INST_NORMAL 0 0;
  op 0x32 "rdmsr" 0 0 0 0 0 0 (Emit fn_emit_normal) INST_NORMAL 0 0;
  op 0x33 "rdpmc" 0 0 0 0 0 0 (Emit fn_emit_normal) INST_NORMAL 0 0;
  op 0x34 "sysenter" 0 0 0 0 0 0 (Emit fn_emit_sysenter) INST_SYSENTER 0 0;
  op 0x35 "sysexit" 0 0 0 0 0 0 (Emit fn_emit_normal) INST_NORMAL 0 0;
  op 0x36 "reserved" 0 0 0 0 0 0 NULL INST_RESERVED 512 0;
  op 0x37 "reserved" 0 0 0 0 0 0 NULL INST_RESERVED 512 0;
  op 0x38 "reserved" 0 0 0 0 0 0 NULL INST_RESERVED 512 0;
  op 0x39 "reserved" 0 0 0 0 0 0 NULL INST_RESERVED 512 0;
  op 0x3a "reserved" 0 0 0 0 0 0 NULL INST_RESERVED 512 0;
  op 0x3b "reserved" 0 0 0 0 0 0 NULL INST_RESERVED 512 0;
  op 0x3c "movnti" 3 2 2 2 0 0 (Emit fn_emit_normal) INST_NORMAL 1 0;
  op 0x3d "reserved" 0 0 0 0 0 0 NULL INST_RESERVED 512 0;
  op 0x3e "reserved" 0 0 0 0 0 0 NULL INST_RESERVED 512 0;
  op 0x3f "reserved" 0 0 0 0 0 0 NULL INST_RESERVED 512 0;
  op 0x40 "cmovo" 3 2 2 2 0 0 (Emit fn_emit_normal) INST_NORMAL 3145729 5;
  op 0x41 "cmovno" 3 2 2 2 0 0 (Emit fn_emit_normal) INST_NORMAL 3145729 5;
  op 0x42 "cmovnae" 3 2 2 2 0 0 (Emit fn_emit_normal) INST_NORMAL 3145729 5;
  op 0x43 "cmovae" 3 2 2 2 0 0 (Emit fn_emit_normal) INST_NORMAL 3145729 5;
  op 0x44 "cmove" 3 2 2 2 0 0 (Emit fn_emit_normal) INST_NORMAL 3145729 5;
  op 0x45 "cmovne" 3 2 2 2 0 0 (Emit fn_emit_normal) INST_NORMAL 3145729 5;
  op 0x46 "cmovbe" 3 2 2 2 0 0 (Emit fn_emit_normal) INST_NORMAL 3145729 5;
  op 0x47 "cmovnbe" 3 2 2 2 0 0 (Emit fn_emit_normal) INST_NORMAL 3145729 5;
  op 0x48 "cmovs" 3 2 2 2 0 0 (Emit fn_emit_normal) INST_NORMAL 3145729 5;
  op 0x49 "cmovns" 3 2 2 2 0 0 (Emit fn_emit_normal) INST_NORMAL 3145729 5;
  op 0x4a "cmovp" 3 2 2 2 0 0 (Emit fn_emit_normal) INST_NORMAL 3145729 5;
  op 0x4b "cmovnp" 3 2 2 2 0 0 (Emit fn_emit_normal) INST_NORMAL 3145729 5;
  op 0x4c "cmovl" 3 2 2 2 0 0 (Emit fn_emit_normal) INST_NORMAL 3145729 5;
  op 0x4d "cmovge" 3 2 2 2 0 0 (Emit fn_emit_normal) INST_NORMAL 3145729 5;
  op 0x4e "cmovle" 3 2 2 2 0 0 (Emit fn_emit_normal) INST_NORMAL 3145729 5;
  op 0x4f "cmovg" 3 2 2 2 0 0 (Emit fn_emit_normal) INST_NORMAL 3145729 5;
  op 0x50 "MMX/SSE/SSE2" 2 0 0 0 0 0 (Emit fn_emit_normal) INST_NORMAL 1048577 0;
  op 0x51 "MMX/SSE/SSE2" 2 0 0 0 0 0 (Emit fn_emit_normal) INST_NORMAL 1048577 0;
  op 0x52 "MMX/SSE/SSE2" 2 0 0 0 0 0 (Emit fn_emit_normal) INST_NORMAL 1048577 0;
  op 0x53 "MMX/SSE/SSE2" 2 0 0 0 0 0 (Emit fn_emit_normal) INST_NORMAL 1048577 0;
  op 0x54 "MMX/SSE/SSE2" 2 0 0 0 0 0 (Emit fn_emit_normal) INST_NORMAL 1048577 0;
  op 0x55 "MMX/SSE/SSE2" 2 0 0 0 0 0 (Emit fn_emit_normal) INST_NORMAL 1048577 0;
  op 0x56 "MMX/SSE/SSE2" 2 0 0 0 0 0 (Emit fn_emit_normal) INST_NORMAL 1048577 0;
  op 0x57 "MMX/SSE/SSE2" 2 0 0 0 0 0 (Emit fn_emit_normal) INST_NORMAL 1048577 0;
  op 0x58 "MMX/SSE/SSE2" 2 0 0 0 0 0 (Emit fn_emit_normal) INST_NORMAL 1048577 0;
  op 0x59 "MMX/SSE/SSE2" 2 0 0 0 0 0 (Emit fn_emit_normal) INST_NORMAL 1048577 0;
  op 0x5a "MMX/SSE/SSE2" 2 0 0 0 0 0 (Emit fn_emit_normal) INST_NORMAL 1048577 0;
  op 0x5b "MMX/SSE/SSE2" 2 0 0 0 0 0 (Emit fn_emit_normal) INST_NORMAL 1048577 0;
  op 0x5c "MMX/SSE/SSE2" 2 0 0 0 0 0 (Emit fn_emit_normal) INST_NORMAL 1048577 0;
  op 0x5d "MMX/SSE/SSE2" 2 0 0 0 0 0 (Emit fn_emit_normal) INST_NORMAL 1048577 0;
  op 0x5e "MMX/SSE/SSE2" 2 0 0 0 0 0 (Emit fn_emit_normal) INST_NORMAL 1048577 0;
  op 0x5f "MMX/SSE/SSE2" 2 0 0 0 0 0 (Emit fn_emit_normal) INST_NORMAL 1048577 0;
  op 0x60 "MMX/SSE/SSE2" 2 0 0 0 0 0 (Emit fn_emit_normal) INST_NORMAL 1048577 0;
  op 0x61 "MMX/SSE/SSE2" 2 0 0 0 0 0 (Emit fn_emit_normal) INST_NORMAL 1048577 0;
  op 0x62 "MMX/SSE/SSE2" 2 0 0 0 0 0 (Emit fn_emit_normal) INST_NORMAL 1048577 0;
  op 0x63 "MMX/SSE/SSE2" 2 0 0 0 0 0 (Emit fn_emit_normal) INST_NORMAL 1048577 0;
  op 0x64 "MMX/SSE/SSE2" 2 0 0 0 0 0 (Emit fn_emit_normal) INST_NORMAL 1048577 0;
  op 0x65 "MMX/SSE/SSE2" 2 0 0 0 0 0 (Emit fn_emit_normal) INST_NORMAL 1048577 0;
  op 0x66 "MMX/SSE/SSE2" 2 0 0 0 0 0 (Emit fn_emit_normal) INST_NORMAL 1048577 0;
  op 0x67 "MMX/SSE/SSE2" 2 0 0 0 0 0 (Emit fn_emit_normal) INST_NORMAL 1048577 0;
  op 0x68 "MMX/SSE/SSE2" 2 0 0 0 0 0 (Emit fn_emit_normal) INST_NORMAL 1048577 0;
  op 0x69 "MMX/SSE/SSE2" 2 0 0 0 0 0 (Emit fn_emit_normal) INST_NORMAL 1048577 0;
  op 0x6a "MMX/SSE/SSE2" 2 0 0 0 0 0 (Emit fn_emit_normal) INST_NORMAL 1048577 0;
  op 0x6b "MMX/SSE/SSE2" 2 0 0 0 0 0 (Emit fn_emit_normal) INST_NORMAL 1048577 0;
  op 0x6c "MMX/SSE/SSE2" 2 0 0 0 0 0 (Emit fn_emit_normal) INST_NORMAL 1048577 0;
  op 0x6d "MMX/SSE/SSE2" 2 0 0 0 0 0 (Emit fn_emit_normal) INST_NORMAL 1048577 0;
  op 0x6e "MMX/SSE/SSE2" 2 0 0 0 0 0 (Emit fn_emit_normal) INST_NORMAL 1048577 0;
  op 0x6f "MMX/SSE/SSE2" 2 0 0 0 0 0 (Emit fn_emit_normal) INST_NORMAL 1048577 0;
  op 0x70 "MMX/SSE/SSE2" 2 0 4 1 0 0 (Emit fn_emit_normal) INST_NORMAL 1048579 0;
  op 0x71 "MMX/SSE/SSE2" 2 0 4 1 0 0 (Emit fn_emit_normal) INST_NORMAL 1048579 0;
  op 0x72 "MMX/SSE/SSE2" 2 0 4 1 0 0 (Emit fn_emit_normal) INST_NORMAL 1048579 0;
  op 0x73 "MMX/SSE/SSE2" 2 0 4 1 0 0 (Emit fn_emit_normal) INST_NORMAL 1048579 0;
  op 0x74 "MMX/SSE/SSE2" 2 0 0 0 0 0 (Emit fn_emit_normal) INST_NORMAL 1048577 0;
  op 0x75 "MMX/SSE/SSE2" 2 0 0 0 0 0 (Emit fn_emit_normal) INST_NORMAL 1048577 0;
  op 0x76 "MMX/SSE/SSE2" 2 0 0 0 0 0 (Emit fn_emit_normal) INST_NORMAL 1048577 0;
  op 0x77 "MMX/SSE/SSE2" 0 0 0 0 0 0 (Emit fn_emit_normal) INST_NORMAL 1048576 0;
  op 0x78 "reserved" 0 0 0 0 0 0 NULL INST_RESERVED 512 0;
  op 0x79 "reserved" 0 0 0 0 0 0 NULL INST_RESERVED 512 0;
  op 0x7a "reserved" 0 0 0 0 0 0 NULL INST_RESERVED 512 0;
  op 0x7b "reserved" 0 0 0 0 0 0 NULL INST_RESERVED 512 0;
  op 0x7c "reserved" 0 0 0 0 0 0 NULL INST_RESERVED 512 0;
  op 0x7d "reserved" 0 0 0 0 0 0 NULL INST_RESERVED 512 0;
  op 0x7e "MMX/SSE/SSE2" 2 0 0 0 0 0 (Emit fn_emit_normal) INST_NORMAL 1048577 0;
  op 0x7f "MMX/SSE/SSE2" 2 0 0 0 0 0 (Emit fn_emit_normal) INST_NORMAL 1048577 0
].

Definition twoByteOpcodes_hi : list OpCode := [
  op 0x80 "jo" 7 2 0 0 0 0 (Emit fn_emit_jcond) INST_JCOND 10485776 5;
  op 0x81 "jno" 7 2 0 0 0 0 (Emit fn_emit_jcond) INST_JCOND 10485776 5;
  op 0x82 "jb" 7 2 0 0 0 0 (Emit fn_emit_jcond) INST_JCOND 10485776 5;
  op 0x83 "jae" 7 2 0 0 0 0 (Emit fn_emit_jcond) INST_JCOND 10485776 5;
  op 0x84 "je" 7 2 0 0 0 0 (Emit fn_emit_jcond) INST_JCOND 10485776 5;
  op 0x85 "jne" 7 2 0 0 0 0 (Emit fn_emit_jcond) INST_JCOND 10485776 5;
  op 0x86 "jbe" 7 2 0 0 0 0 (Emit fn_emit_jcond) INST_JCOND 10485776 5;
  op 0x87 "ja" 7 2 0 0 0 0 (Emit fn_emit_jcond) INST_JCOND 10485776 5;
  op 0x88 "js" 7 2 0 0 0 0 (Emit fn_emit_jcond) INST_JCOND 10485776 5;
  op 0x89 "jns" 7 2 0 0 0 0 (Emit fn_emit_jcond) INST_JCOND 10485776 5;
  op 0x8a "jp" 7 2 0 0 0 0 (Emit fn_emit_jcond) INST_JCOND 10485776 5;
  op 0x8b "jnp" 7 2 0 0 0 0 (Emit fn_emit_jcond) INST_JCOND 10485776 5;
  op 0x8c "jl" 7 2 0 0 0 0 (Emit fn_emit_jcond) INST_JCOND 10485776 5;
  op 0x8d "jge" 7 2 0 0 0 0 (Emit fn_emit_jcond) INST_JCOND 10485776 5;
  op 0x8e "jle" 7 2 0 0 0 0 (Emit fn_emit_jcond) INST_JCOND 10485776 5;
  op 0x8f "jg" 7 2 0 0 0 0 (Emit fn_emit_jcond) INST_JCOND 10485776 5;
  op 0x90 "setoB" 2 1 0 0 0 0 (Emit fn_emit_normal) INST_NORMAL 1048577 5;
  op 0x91 "setnoB" 2 1 0 0 0 0 (Emit fn_emit_normal) INST_NORMAL 1048577 5;
  op 0x92 "setbB" 2 1 0 0 0 0 (Emit fn_emit_normal) INST_NORMAL 1048577 5;
  op 0x93 "setnbB" 2 1 0 0 0 0 (Emit fn_emit_normal) INST_NORMAL 1048577 5;
  op 0x94 "setzB" 2 1 0 0 0 0 (Emit fn_emit_normal) INST_NORMAL 1048577 5;
  op 0x95 "setnzB" 2 1 0 0 0 0 (Emit fn_emit_normal) INST_NORMAL 1048577 5;
  op 0x96 "setbeB" 2 1 0 0 0 0 (Emit fn_emit_normal) INST_NORMAL 1048577 5;
  op 0x97 "setnbeB" 2 1 0 0 0 0 (Emit fn_emit_normal) INST_NORMAL 1048577 5;
  op 0x98 "setsB" 2 1 0 0 0 0 (Emit fn_emit_normal) INST_NORMAL 1048577 5;
  op 0x99 "setnsB" 2 1 0 0 0 0 (Emit fn_emit_normal) INST_NORMAL 1048577 5;
  op 0x9a "setpB" 2 1 0 0 0 0 (Emit fn_emit_normal) INST_NORMAL 1048577 5;
  op 0x9b "setnpB" 2 1 0 0 0 0 (Emit fn_emit_normal) INST_NORMAL 1048577 5;
  op 0x9c "setlB" 2 1 0 0 0 0 (Emit fn_emit_normal) INST_NORMAL 1048577 5;
  op 0x9d "setnlB" 2 1 0 0 0 0 (Emit fn_emit_normal) INST_NORMAL 1048577 5;
  op 0x9e "setleB" 2 1 0 0 0 0 (Emit fn_emit_normal) INST_NORMAL 1048577 5;
  op 0x9f "setnleB" 2 1 0 0 0 0 (Emit fn_emit_normal) INST_NORMAL 1048577 5;
  op 0xa0 "push" 8 4 0 0 0 0 (Emit fn_emit_normal) INST_NORMAL 2097152 0;
  op 0xa1 "pop" 8 4 0 0 0 0 (Emit fn_emit_normal) INST_NORMAL 2097152 0;
  op 0xa2 "cpuid" 0 0 0 0 0 0 (Emit fn_emit_normal) INST_NORMAL 0 0;
  op 0xa3 "btL" 2 2 3 2 0 0 (Emit fn_emit_normal) INST_NORMAL 3145729 10;
  op 0xa4 "shldL" 2 2 3 2 4 1 (Emit fn_emit_normal) INST_NORMAL 3145731 10;
  op 0xa5 "shldL" 2 2 3 2 1 133 (Emit fn_emit_normal) INST_NORMAL 3145729 10;
  op 0xa6 "reserved" 0 0 0 0 0 0 NULL INST_RESERVED 512 0;
  op 0xa7 "reserved" 0 0 0 0 0 0 NULL INST_RESERVED 512 0;
  op 0xa8 "push" 8 5 0 0 0 0 (Emit fn_emit_normal) INST_NORMAL 2097152 0;
  op 0xa9 "pop" 8 5 0 0 0 0 (Emit fn_emit_normal) INST_NORMAL 2097152 0;
  op 0xaa "rsm" 0 0 0 0 0 0 (Emit fn_emit_normal) INST_NORMAL 0 10;
  op 0xab "btsL" 2 2 3 2 0 0 (Emit fn_emit_normal) INST_NORMAL 3145729 10;
  op 0xac "shrdL" 2 2 3 2 4 1 (Emit fn_emit_normal) INST_NORMAL 3145731 10;
  op 0xad "shrdL" 2 2 3 2 1 133 (Emit fn_emit_normal) INST_NORMAL 3145729 10;
  op 0xae "MMX/SSE/SSE2" 2 0 0 0 0 0 (Emit fn_emit_normal) INST_NORMAL 1048577 0;
  op 0xaf "imulL" 3 2 2 2 0 0 (Emit fn_emit_normal) INST_NORMAL 3145729 10;
  op 0xb0 "cmpxchgB" 2 1 3 1 0 0 (Emit fn_emit_normal) INST_NORMAL 1048577 15;
  op 0xb1 "cmpxchgL" 2 2 3 2 0 0 (Emit fn_emit_normal) INST_NORMAL 3145729 10;
  op 0xb2 "lss" 3 2 2 5 0 0 (Emit fn_emit_normal) INST_NORMAL 3145729 0;
  op 0xb3 "btr" 2 2 3 2 0 0 (Emit fn_emit_normal) INST_NORMAL 3145729 10;
  op 0xb4 "lfs" 3 2 2 5 0 0 (Emit fn_emit_normal) INST_NORMAL 3145729 0;
  op 0xb5 "lgs" 3 2 2 5 0 0 (Emit fn_emit_normal) INST_NORMAL 3145729 0;
  op 0xb6 "movzbL" 3 2 2 1 0 0 (Emit fn_emit_normal) INST_NORMAL 3145729 0;
  op 0xb7 "movzwL" 3 2 2 3 0 0 (Emit fn_emit_normal) INST_NORMAL 1048577 0;
  op 0xb8 "reserved" 0 0 0 0 0 0 NULL INST_RESERVED 512 0;
  op 0xb9 "reserved" 0 0 0 0 0 0 NULL INST_RESERVED 512 0;
  op 0xba "(group)" 0 0 0 0 0 0 (Tab T_group8_Ev_Ib) INST_GROUP8_EV_IB 2048 0;
  op 0xbb "btcL" 2 2 3 2 0 0 (Emit fn_emit_normal) INST_NORMAL 3145729 10;
  op 0xbc "bsfL" 3 2 2 2 0 0 (Emit fn_emit_normal) INST_NORMAL 3145729 10;
  op 0xbd "bsrL" 3 2 2 2 0 0 (Emit fn_emit_normal) INST_NORMAL 3145729 10;
  op 0xbe "movsxL" 3 2 2 1 0 0 (Emit fn_emit_normal) INST_NORMAL 3145729 0;
  op 0xbf "movsxL" 3 2 2 3 0 0 (Emit fn_emit_normal) INST_NORMAL 1048577 0;
  op 0xc0 "xaddB" 2 1 3 1 0 0 (Emit fn_emit_normal) INST_NORMAL 1048577 10;
  op 0xc1 "xaddL" 2 2 3 2 0 0 (Emit fn_emit_normal) INST_NORMAL 3145729 10;
  op 0xc2 "MMX/SSE/SSE2" 2 0 4 1 0 0 (Emit fn_emit_normal) INST_NORMAL 1048579 0;
  op 0xc3 "MMX/SSE/SSE2" 2 0 0 0 0 0 (Emit fn_emit_normal) INST_NORMAL 1048577 0;
  op 0xc4 "MMX/SSE/SSE2" 2 0 4 1 0 0 (Emit fn_emit_normal) INST_NORMAL 1048579 0;
  op 0xc5 "MMX/SSE/SSE2" 2 0 4 1 0 0 (Emit fn_emit_normal) INST_NORMAL 1048579 0;
  op 0xc6 "MMX/SSE/SSE2" 2 0 4 1 0 0 (Emit fn_emit_normal) INST_NORMAL 1048579 0;
  op 0xc7 "(group)" 0 0 0 0 0 0 (Tab T_ngroup9) INST_NGROUP9 2048 0;
  op 0xc8 "bswap" 1 144 0 0 0 0 (Emit fn_emit_normal) INST_NORMAL 0 0;
  op 0xc9 "bswap" 1 146 0 0 0 0 (Emit fn_emit_normal) INST_NORMAL 0 0;
  op 0xca "bswap" 1 147 0 0 0 0 (Emit fn_emit_normal) INST_NORMAL 0 0;
  op 0xcb "bswap" 1 145 0 0 0 0 (Emit fn_emit_normal) INST_NORMAL 0 0;
  op 0xcc "bswap" 1 148 0 0 0 0 (Emit fn_emit_normal) INST_NORMAL 0 0;
  op 0xcd "bswap" 1 149 0 0 0 0 (Emit fn_emit_normal) INST_NORMAL 0 0;
  op 0xce "bswap" 1 151 0 0 0 0 (Emit fn_emit_normal) INST_NORMAL 0 0;
  op 0xcf "bswap" 1 150 0 0 0 0 (Emit fn_emit_normal) INST_NORMAL 0 0;
  op 0xd0 "reserved" 0 0 0 0 0 0 NULL INST_RESERVED 512 0;
  op 0xd1 "MMX/SSE/SSE2" 2 0 0 0 0 0 (Emit fn_emit_normal) INST_NORMAL 1048577 0;
  op 0xd2 "MMX/SSE/SSE2" 2 0 0 0 0 0 (Emit fn_emit_normal) INST_NORMAL 1048577 0;
  op 0xd3 "MMX/SSE/SSE2" 2 0 0 0 0 0 (Emit fn_emit_normal) INST_NORMAL 1048577 0;
  op 0xd4 "MMX/SSE/SSE2" 2 0 0 0 0 0 (Emit fn_emit_normal) INST_NORMAL 1048577 0;
  op 0xd5 "MMX/SSE/SSE2" 2 0 0 0 0 0 (Emit fn_emit_normal) INST_NORMAL 1048577 0;
  op 0xd6 "MMX/SSE/SSE2" 2 0 0 0 0 0 (Emit fn_emit_normal) INST_NORMAL 1048577 0;
  op 0xd7 "MMX/SSE/SSE2" 2 0 0 0 0 0 (Emit fn_emit_normal) INST_NORMAL 1048577 0;
  op 0xd8 "MMX/SSE/SSE2" 2 0 0 0 0 0 (Emit fn_emit_normal) INST_NORMAL 1048577 0;
  op 0xd9 "MMX/SSE/SSE2" 2 0 0 0 0 0 (Emit fn_emit_normal) INST_NORMAL 1048577 0;
  op 0xda "MMX/SSE/SSE2" 2 0 0 0 0 0 (Emit fn_emit_normal) INST_NORMAL 1048577 0;
  op 0xdb "MMX/SSE/SSE2" 2 0 0 0 0 0 (Emit fn_emit_normal) INST_NORMAL 1048577 0;
  op 0xdc "MMX/SSE/SSE2" 2 0 0 0 0 0 (Emit fn_emit_normal) INST_NORMAL 1048577 0;
  op 0xdd "MMX/SSE/SSE2" 2 0 0 0 0 0 (Emit fn_emit_normal) INST_NORMAL 1048577 0;
  op 0xde "MMX/SSE/SSE2" 2 0 0 0 0 0 (Emit fn_emit_normal) INST_NORMAL 1048577 0;
  op 0xdf "MMX/SSE/SSE2" 2 0 0 0 0 0 (Emit fn_emit_normal) INST_NORMAL 1048577 0;
  op 0xe0 "MMX/SSE/SSE2" 2 0 0 0 0 0 (Emit fn_emit_normal) INST_NORMAL 1048577 0;
  op 0xe1 "MMX/SSE/SSE2" 2 0 0 0 0 0 (Emit fn_emit_normal) INST_NORMAL 1048577 0;
  op 0xe2 "MMX/SSE/SSE2" 2 0 0 0 0 0 (Emit fn_emit_normal) INST_NORMAL 1048577 0;
  op 0xe3 "MMX/SSE/SSE2" 2 0 0 0 0 0 (Emit fn_emit_normal) INST_NORMAL 1048577 0;
  op 0xe4 "MMX/SSE/SSE2" 2 0 0 0 0 0 (Emit fn_emit_normal) INST_NORMAL 1048577 0;
  op 0xe5 "MMX/SSE/SSE2" 2 0 0 0 0 0 (Emit fn_emit_normal) INST_NORMAL 1048577 0;
  op 0xe6 "MMX/SSE/SSE2" 2 0 0 0 0 0 (Emit fn_emit_normal) INST_NORMAL 1048577 0;
  op 0xe7 "MMX/SSE/SSE2" 2 0 0 0 0 0 (Emit fn_emit_normal) INST_NORMAL 1048577 0;
  op 0xe8 "MMX/SSE/SSE2" 2 0 0 0 0 0 (Emit fn_emit_normal) INST_NORMAL 1048577 0;
  op 0xe9 "MMX/SSE/SSE2" 2 0 0 0 0 0 (Emit fn_emit_normal) INST_NORMAL 1048577 0;
  op 0xea "MMX/SSE/SSE2" 2 0 0 0 0 0 (Emit fn_emit_normal) INST_NORMAL 1048577 0;
  op 0xeb "MMX/SSE/SSE2" 2 0 0 0 0 0 (Emit fn_emit_normal) INST_NORMAL 1048577 0;
  op 0xec "MMX/SSE/SSE2" 2 0 0 0 0 0 (Emit fn_emit_normal) INST_NORMAL 1048577 0;
  op 0xed "MMX/SSE/SSE2" 2 0 0 0 0 0 (Emit fn_emit_normal) INST_NORMAL 1048577 0;
  op 0xee "MMX/SSE/SSE2" 2 0 0 0 0 0 (Emit fn_emit_normal) INST_NORMAL 1048577 0;
  op 0xef "MMX/SSE/SSE2" 2 0 0 0 0 0 (Emit fn_emit_normal) INST_NORMAL 1048577 0;
  op 0xf0 "reserved" 0 0 0 0 0 0 NULL INST_RESERVED 512 0;
  op 0xf1 "MMX/SSE/SSE2" 2 0 0 0 0 0 (Emit fn_emit_normal) INST_NORMAL 1048577 0;
  op 0xf2 "MMX/SSE/SSE2" 2 0 0 0 0 0 (Emit fn_emit_normal) INST_NORMAL 1048577 0;
  op 0xf3 "MMX/SSE/SSE2" 2 0 0 0 0 0 (Emit fn_emit_normal) INST_NORMAL 1048577 0;
  op 0xf4 "MMX/SSE/SSE2" 2 0 0 0 0 0 (Emit fn_emit_normal) INST_NORMAL 1048577 0;
  op 0xf5 "MMX/SSE/SSE2" 2 0 0 0 0 0 (Emit fn_emit_normal) INST_NORMAL 1048577 0;
  op 0xf6 "MMX/SSE/SSE2" 2 0 0 0 0 0 (Emit fn_emit_normal) INST_NORMAL 1048577 0;
  op 0xf7 "MMX/SSE/SSE2" 2 0 0 0 0 0 (Emit fn_emit_normal) INST_NORMAL 1048577 0;
  op 0xf8 "MMX/SSE/SSE2" 2 0 0 0 0 0 (Emit fn_emit_normal) INST_NORMAL 1048577 0;
  op 0xf9 "MMX/SSE/SSE2" 2 0 0 0 0 0 (Emit fn_emit_normal) INST_NORMAL 1048577 0;
  op 0xfa "MMX/SSE/SSE2" 2 0 0 0 0 0 (Emit fn_emit_normal) INST_NORMAL 1048577 0;
  op 0xfb "MMX/SSE/SSE2" 2 0 0 0 0 0 (Emit fn_emit_normal) INST_NORMAL 1048577 0;
  op 0xfc "MMX/SSE/SSE2" 2 0 0 0 0 0 (Emit fn_emit_normal) INST_NORMAL 1048577 0;
  op 0xfd "MMX/SSE/SSE2" 2 0 0 0 0 0 (Emit fn_emit_normal) INST_NORMAL 1048577 0;
  op 0xfe "MMX/SSE/SSE2" 2 0 0 0 0 0 (Emit fn_emit_normal) INST_NORMAL 1048577 0;
  op 0xff "reserved" 0 0 0 0 0 0 NULL INST_RESERVED 512 0
].

Definition twoByteOpcodes : list OpCode := (twoByteOpcodes_lo ++ twoByteOpcodes_hi)%list.

Definition nopbyte0_lo : list OpCode := [
  op 0x0 "addB" 2 1 3 1 0 0 (Emit fn_emit_normal) INST_NORMAL 1048577 10;
  op 0x1 "addL" 2 2 3 2 0 0 (Emit fn_emit_normal) INST_NORMAL 3145729 10;
  op 0x2 "addB" 3 1 2 1 0 0 (Emit fn_emit_normal) INST_NORMAL 1048577 10;
  op 0x3 "addL" 3 2 2 2 0 0 (Emit fn_emit_normal) INST_NORMAL 3145729 10;
  op 0x4 "addB" 1 129 4 1 0 0 (Emit fn_emit_normal) INST_NORMAL 2 10;
  op 0x5 "addL" 1 144 4 2 0 0 (Emit fn_emit_normal) INST_NORMAL 2097160 10;
  op 0x6 "push" 8 0 0 0 0 0 (Emit fn_emit_normal) INST_NORMAL 2097152 0;
  op 0x7 "pop" 8 0 0 0 0 0 (Emit fn_emit_normal) INST_NORMAL 2097152 0;
  op 0x8 "orB" 2 1 3 1 0 0 (Emit fn_emit_normal) INST_NORMAL 1048577 10;
  op 0x9 "orL" 2 2 3 2 0 0 (Emit fn_emit_normal) INST_NORMAL 3145729 10;
  op 0xa "orB" 3 1 2 1 0 0 (Emit fn_emit_normal) INST_NORMAL 1048577 10;
  op 0xb "orL" 3 2 2 2 0 0 (Emit fn_emit_normal) INST_NORMAL 3145729 10;
  op 0xc "orB" 1 129 4 1 0 0 (Emit fn_emit_normal) INST_NORMAL 2 10;
  op 0xd "orL" 1 144 4 2 0 0 (Emit fn_emit_normal) INST_NORMAL 2097160 10;
  op 0xe "push" 8 1 0 0 0 0 (Emit fn_emit_normal) INST_NORMAL 2097152 0;
  op 0xf "(table)" 0 0 0 0 0 0 (Tab T_twoByteOpcodes) INST_2BYTES_OPC 1024 0;
  op 0x10 "adcB" 2 1 3 1 0 0 (Emit fn_emit_normal) INST_NORMAL 1048577 15;
  op 0x11 "adcL" 2 2 3 2 0 0 (Emit fn_emit_normal) INST_NORMAL 3145729 15;
  op 0x12 "adcB" 3 1 2 1 0 0 (Emit fn_emit_normal) INST_NORMAL 1048577 15;
  op 0x13 "adcL" 3 2 2 2 0 0 (Emit fn_emit_normal) INST_NORMAL 3145729 15;
  op 0x14 "adcB" 1 129 4 1 0 0 (Emit fn_emit_normal) INST_NORMAL 2 15;
  op 0x15 "adcL" 1 144 4 2 0 0 (Emit fn_emit_normal) INST_NORMAL 2097160 15;
  op 0x16 "push" 8 2 0 0 0 0 (Emit fn_emit_normal) INST_NORMAL 2097152 0;
  op 0x17 "pop" 8 2 0 0 0 0 (Emit fn_emit_normal) INST_NORMAL 2097152 0;
  op 0x18 "sbbB" 2 1 3 1 0 0 (Emit fn_emit_normal) INST_NORMAL 1048577 15;
  op 0x19 "sbbL" 2 2 3 2 0 0 (Emit fn_emit_normal) INST_NORMAL 3145729 15;
  op 0x1a "sbbB" 3 1 2 1 0 0 (Emit fn_emit_normal) INST_NORMAL 1048577 15;
  op 0x1b "sbbL" 3 2 2 2 0 0 (Emit fn_emit_normal) INST_NORMAL 3145729 15;
  op 0x1c "sbbB" 1 129 4 1 0 0 (Emit fn_emit_normal) INST_NORMAL 2 15;
  op 0x1d "sbbL" 1 144 4 2 0 0 (Emit fn_emit_normal) INST_NORMAL 2097160 15;
  op 0x1e "push" 8 3 0 0 0 0 (Emit fn_emit_normal) INST_NORMAL 2097152 0;
  op 0x1f "pop" 8 3 0 0 0 0 (Emit fn_emit_normal) INST_NORMAL 2097152 0;
  op 0x20 "andB" 2 1 3 1 0 0 (Emit fn_emit_normal) INST_NORMAL 1048577 10;
  op 0x21 "andL" 2 2 3 2 0 0 (Emit fn_emit_normal) INST_NORMAL 3145729 10;
  op 0x22 "andB" 3 1 2 1 0 0 (Emit fn_emit_normal) INST_NORMAL 1048577 10;
  op 0x23 "andL" 3 2 2 2 0 0 (Emit fn_emit_normal) INST_NORMAL 3145729 10;
  op 0x24 "andB" 1 129 4 1 0 0 (Emit fn_emit_normal) INST_NORMAL 2 10;
  op 0x25 "andL" 1 144 4 2 0 0 (Emit fn_emit_normal) INST_NORMAL 2097160 10;
  op 0x26 "es" 0 0 0 0 0 0 NULL INST_PREFIX 256 0;
  op 0x27 "daa" 0 0 0 0 0 0 (Emit fn_emit_normal) INST_NORMAL 0 15;
  op 0x28 "subB" 2 1 3 1 0 0 (Emit fn_emit_normal) INST_NORMAL 1048577 10;
  op 0x29 "subL" 2 2 3 2 0 0 (Emit fn_emit_normal) INST_NORMAL 3145729 10;
  op 0x2a "subB" 3 1 2 1 0 0 (Emit fn_emit_normal) INST_NORMAL 1048577 10;
  op 0x2b "subL" 3 2 2 2 0 0 (Emit fn_emit_normal) INST_NORMAL 3145729 10;
  op 0x2c "subB" 1 129 4 1 0 0 (Emit fn_emit_normal) INST_NORMAL 2 10;
  op 0x2d "subL" 1 144 4 2 0 0 (Emit fn_emit_normal) INST_NORMAL 2097160 10;
  op 0x2e "cs" 0 0 0 0 0 0 NULL INST_PREFIX 256 0;
  op 0x2f "das" 0 0 0 0 0 0 (Emit fn_emit_normal) INST_NORMAL 0 15;
  op 0x30 "xorB" 2 1 3 1 0 0 (Emit fn_emit_normal) INST_NORMAL 1048577 10;
  op 0x31 "xorL" 2 2 3 2 0 0 (Emit fn_emit_normal) INST_NORMAL 3145729 10;
  op 0x32 "xorB" 3 1 2 1 0 0 (Emit fn_emit_normal) INST_NORMAL 1048577 10;
  op 0x33 "xorL" 3 2 2 2 0 0 (Emit fn_emit_normal) INST_NORMAL 3145729 10;
  op 0x34 "xorB" 1 129 4 1 0 0 (Emit fn_emit_normal) INST_NORMAL 2 10;
  op 0x35 "xorL" 1 144 4 2 0 0 (Emit fn_emit_normal) INST_NORMAL 2097160 10;
  op 0x36 "ss" 0 0 0 0 0 0 NULL INST_PREFIX 256 0;
  op 0x37 "aaa" 0 0 0 0 0 0 (Emit fn_emit_normal) INST_NORMAL 0 15;
  op 0x38 "cmpB" 2 1 3 1 0 0 (Emit fn_emit_normal) INST_NORMAL 1048577 10;
  op 0x39 "cmpL" 2 2 3 2 0 0 (Emit fn_emit_normal) INST_NORMAL 3145729 10;
  op 0x3a "cmpB" 3 1 2 1 0 0 (Emit fn_emit_normal) INST_NORMAL 1048577 10;
  op 0x3b "cmpL" 3 2 2 2 0 0 (Emit fn_emit_normal) INST_NORMAL 3145729 10;
  op 0x3c "cmpB" 1 129 4 1 0 0 (Emit fn_emit_normal) INST_NORMAL 2 10;
  op 0x3d "cmpL" 1 144 4 2 0 0 (Emit fn_emit_normal) INST_NORMAL 2097160 10;
  op 0x3e "ds" 0 0 0 0 0 0 NULL INST_PREFIX 256 0;
  op 0x3f "aas" 0 0 0 0 0 0 (Emit fn_emit_normal) INST_NORMAL 0 15;
  op 0x40 "incL" 1 144 0 0 0 0 (Emit fn_emit_normal) INST_NORMAL 2097152 8;
  op 0x41 "incL" 1 146 0 0 0 0 (Emit fn_emit_normal) INST_NORMAL 2097152 8;
  op 0x42 "incL" 1 147 0 0 0 0 (Emit fn_emit_normal) INST_NORMAL 2097152 8;
  op 0x43 "incL" 1 145 0 0 0 0 (Emit fn_emit_normal) INST_NORMAL 2097152 8;
  op 0x44 "incL" 1 148 0 0 0 0 (Emit fn_emit_normal) INST_NORMAL 2097152 8;
  op 0x45 "incL" 1 149 0 0 0 0 (Emit fn_emit_normal) INST_NORMAL 2097152 8;
  op 0x46 "incL" 1 151 0 0 0 0 (Emit fn_emit_normal) INST_NORMAL 2097152 8;
  op 0x47 "incL" 1 150 0 0 0 0 (Emit fn_emit_normal) INST_NORMAL 2097152 8;
  op 0x48 "decL" 1 144 0 0 0 0 (Emit fn_emit_normal) INST_NORMAL 2097152 8;
  op 0x49 "decL" 1 146 0 0 0 0 (Emit fn_emit_normal) INST_NORMAL 2097152 8;
  op 0x4a "decL" 1 147 0 0 0 0 (Emit fn_emit_normal) INST_NORMAL 2097152 8;
  op 0x4b "decL" 1 145 0 0 0 0 (Emit fn_emit_normal) INST_NORMAL 2097152 8;
  op 0x4c "decL" 1 148 0 0 0 0 (Emit fn_emit_normal) INST_NORMAL 2097152 8;
  op 0x4d "decL" 1 149 0 0 0 0 (Emit fn_emit_normal) INST_NORMAL 2097152 8;
  op 0x4e "decL" 1 151 0 0 0 0 (Emit fn_emit_normal) INST_NORMAL 2097152 8;
  op 0x4f "decL" 1 150 0 0 0 0 (Emit fn_emit_normal) INST_NORMAL 2097152 8;
  op 0x50 "pushL" 1 144 0 0 0 0 (Emit fn_emit_normal) INST_NORMAL 2097152 0;
  op 0x51 "pushL" 1 146 0 0 0 0 (Emit fn_emit_normal) INST_NORMAL 2097152 0;
  op 0x52 "pushL" 1 147 0 0 0 0 (Emit fn_emit_normal) INST_NORMAL 2097152 0;
  op 0x53 "pushL" 1 145 0 0 0 0 (Emit fn_emit_normal) INST_NORMAL 2097152 0;
  op 0x54 "pushL" 1 148 0 0 0 0 (Emit fn_emit_normal) INST_NORMAL 2097152 0;
  op 0x55 "pushL" 1 149 0 0 0 0 (Emit fn_emit_normal) INST_NORMAL 2097152 0;
  op 0x56 "pushL" 1 151 0 0 0 0 (Emit fn_emit_normal) INST_NORMAL 2097152 0;
  op 0x57 "pushL" 1 150 0 0 0 0 (Emit fn_emit_normal) INST_NORMAL 2097152 0;
  op 0x58 "popL" 1 144 0 0 0 0 (Emit fn_emit_normal) INST_NORMAL 2097152 0;
  op 0x59 "popL" 1 146 0 0 0 0 (Emit fn_emit_normal) INST_NORMAL 2097152 0;
  op 0x5a "popL" 1 147 0 0 0 0 (Emit fn_emit_normal) INST_NORMAL 2097152 0;
  op 0x5b "popL" 1 145 0 0 0 0 (Emit fn_emit_normal) INST_NORMAL 2097152 0;
  op 0x5c "popL" 1 148 0 0 0 0 (Emit fn_emit_normal) INST_NORMAL 2097152 0;
  op 0x5d "popL" 1 149 0 0 0 0 (Emit fn_emit_normal) INST_NORMAL 2097152 0;
  op 0x5e "popL" 1 151 0 0 0 0 (Emit fn_emit_normal) INST_NORMAL 2097152 0;
  op 0x5f "popL" 1 150 0 0 0 0 (Emit fn_emit_normal) INST_NORMAL 2097152 0;
  op 0x60 "pushaL" 0 0 0 0 0 0 (Emit fn_emit_normal) INST_NORMAL 2097152 0;
  op 0x61 "popaL" 0 0 0 0 0 0 (Emit fn_emit_normal) INST_NORMAL 2097152 0;
  op 0x62 "bound" 3 2 2 2 0 0 (Emit fn_emit_normal) INST_NORMAL 3145729 0;
  op 0x63 "arpl" 2 3 3 3 0 0 (Emit fn_emit_normal) INST_NORMAL 1048577 15;
  op 0x64 "fs" 0 0 0 0 0 0 NULL INST_PREFIX 256 0;
  op 0x65 "gs" 0 0 0 0 0 0 NULL INST_PREFIX 256 0;
  op 0x66 "dataN" 0 0 0 0 0 0 NULL INST_PREFIX 256 0;
  op 0x67 "addrN" 0 0 0 0 0 0 NULL INST_PREFIX 256 0;
  op 0x68 "pushL" 4 2 0 0 0 0 (Emit fn_emit_normal) INST_NORMAL 2097160 0;
  op 0x69 "imulL" 3 2 2 2 4 2 (Emit fn_emit_normal) INST_NORMAL 3145737 10;
  op 0x6a "push" 4 1 0 0 0 0 (Emit fn_emit_normal) INST_NORMAL 2 0;
  op 0x6b "imulL" 3 2 2 2 4 1 (Emit fn_emit_normal) INST_NORMAL 3145731 10;
  op 0x6c "insB" 5 150 1 137 0 0 (Emit fn_emit_normal) INST_NORMAL 1048576 5;
  op 0x6d "insL" 5 150 1 137 0 0 (Emit fn_emit_normal) INST_NORMAL 3145728 5;
  op 0x6e "outsB" 1 137 6 151 0 0 (Emit fn_emit_normal) INST_NORMAL 1048576 5;
  op 0x6f "outsL" 1 137 6 151 0 0 (Emit fn_emit_normal) INST_NORMAL 3145728 5;
  op 0x70 "jo" 7 1 0 0 0 0 (Emit fn_emit_jcond) INST_JCOND 10485762 5;
  op 0x71 "jno" 7 1 0 0 0 0 (Emit fn_emit_jcond) INST_JCOND 10485762 5;
  op 0x72 "jb" 7 1 0 0 0 0 (Emit fn_emit_jcond) INST_JCOND 10485762 5;
  op 0x73 "jae" 7 1 0 0 0 0 (Emit fn_emit_jcond) INST_JCOND 10485762 5;
  op 0x74 "je" 7 1 0 0 0 0 (Emit fn_emit_jcond) INST_JCOND 10485762 5;
  op 0x75 "jne" 7 1 0 0 0 0 (Emit fn_emit_jcond) INST_JCOND 10485762 5;
  op 0x76 "jbe" 7 1 0 0 0 0 (Emit fn_emit_jcond) INST_JCOND 10485762 5;
  op 0x77 "ja" 7 1 0 0 0 0 (Emit fn_emit_jcond) INST_JCOND 10485762 5;
  op 0x78 "js" 7 1 0 0 0 0 (Emit fn_emit_jcond) INST_JCOND 10485762 5;
  op 0x79 "jns" 7 1 0 0 0 0 (Emit fn_emit_jcond) INST_JCOND 10485762 5;
  op 0x7a "jp" 7 1 0 0 0 0 (Emit fn_emit_jcond) INST_JCOND 10485762 5;
  op 0x7b "jnp" 7 1 0 0 0 0 (Emit fn_emit_jcond) INST_JCOND 10485762 5;
  op 0x7c "jl" 7 1 0 0 0 0 (Emit fn_emit_jcond) INST_JCOND 10485762 5;
  op 0x7d "jge" 7 1 0 0 0 0 (Emit fn_emit_jcond) INST_JCOND 10485762 5;
  op 0x7e "jle" 7 1 0 0 0 0 (Emit fn_emit_jcond) INST_JCOND 10485762 5;
  op 0x7f "jg" 7 1 0 0 0 0 (Emit fn_emit_jcond) INST_JCOND 10485762 5
].

Definition nopbyte0_hi : list OpCode := [
  op 0x80 "(group)" 0 0 0 0 0 0 (Tab T_group1_Eb_Ib) INST_GROUP1_EB_IB 2048 0;
  op 0x81 "(group)" 0 0 0 0 0 0 (Tab T_group1_Ev_Iv) INST_GROUP1_EV_IV 2048 0;
  op 0x82 "(group)" 0 0 0 0 0 0 (Tab T_group1_Eb_Ib) INST_GROUP1_EB_IB 2048 0;
  op 0x83 "(group)" 0 0 0 0 0 0 (Tab T_group1_Ev_Ib) INST_GROUP1_EV_IB 2048 0;
  op 0x84 "testB" 2 1 3 1 0 0 (Emit fn_emit_normal) INST_NORMAL 1048577 10;
  op 0x85 "testL" 2 2 3 2 0 0 (Emit fn_emit_normal) INST_NORMAL 3145729 10;
  op 0x86 "xchgB" 2 1 3 1 0 0 (Emit fn_emit_normal) INST_NORMAL 1048577 0;
  op 0x87 "xchgL" 2 2 3 2 0 0 (Emit fn_emit_normal) INST_NORMAL 3145729 0;
  op 0x88 "movB" 2 1 3 1 0 0 (Emit fn_emit_normal) INST_NORMAL 1048577 0;
  op 0x89 "movL" 2 2 3 2 0 0 (Emit fn_emit_normal) INST_NORMAL 3145729 0;
  op 0x8a "movB" 3 1 2 1 0 0 (Emit fn_emit_normal) INST_NORMAL 1048577 0;
  op 0x8b "movL" 3 2 2 2 0 0 (Emit fn_emit_normal) INST_NORMAL 3145729 0;
  op 0x8c "movL" 2 3 9 3 0 0 (Emit fn_emit_normal) INST_NORMAL 3145729 0;
  op 0x8d "lea" 3 2 2 0 0 0 (Emit fn_emit_normal) INST_NORMAL 3145729 0;
  op 0x8e "movL" 9 3 2 3 0 0 (Emit fn_emit_normal) INST_NORMAL 3145729 0;
  op 0x8f "popL" 2 2 0 0 0 0 (Emit fn_emit_normal) INST_NORMAL 3145729 0;
  op 0x90 "nop" 0 0 0 0 0 0 (Emit fn_emit_normal) INST_NORMAL 2097152 0;
  op 0x91 "xchgL" 1 146 1 144 0 0 (Emit fn_emit_normal) INST_NORMAL 2097152 0;
  op 0x92 "xchgL" 1 147 1 144 0 0 (Emit fn_emit_normal) INST_NORMAL 2097152 0;
  op 0x93 "xchgL" 1 145 1 144 0 0 (Emit fn_emit_normal) INST_NORMAL 2097152 0;
  op 0x94 "xchgL" 1 148 1 144 0 0 (Emit fn_emit_normal) INST_NORMAL 2097152 0;
  op 0x95 "xchgL" 1 149 1 144 0 0 (Emit fn_emit_normal) INST_NORMAL 2097152 0;
  op 0x96 "xchgL" 1 151 1 144 0 0 (Emit fn_emit_normal) INST_NORMAL 2097152 0;
  op 0x97 "xchgL" 1 150 1 144 0 0 (Emit fn_emit_normal) INST_NORMAL 2097152 0;
  op 0x98 "cWD" 0 0 0 0 0 0 (Emit fn_emit_normal) INST_NORMAL 2097152 0;
  op 0x99 "cDQ" 0 0 0 0 0 0 (Emit fn_emit_normal) INST_NORMAL 2097152 0;
  op 0x9a "call" 10 5 0 0 0 0 (Emit fn_emit_normal) INST_NORMAL 2129920 0;
  op 0x9b "wait" 0 0 0 0 0 0 (Emit fn_emit_normal) INST_NORMAL 0 0;
  op 0x9c "pushf" 0 0 0 0 0 0 (Emit fn_emit_normal) INST_NORMAL 2097152 5;
  op 0x9d "popf" 0 0 0 0 0 0 (Emit fn_emit_normal) INST_NORMAL 2097152 10;
  op 0x9e "sahf" 0 0 0 0 0 0 (Emit fn_emit_normal) INST_NORMAL 0 10;
  op 0x9f "lahf" 0 0 0 0 0 0 (Emit fn_emit_normal) INST_NORMAL 0 0;
  op 0xa0 "movB" 1 129 11 1 0 0 (Emit fn_emit_normal) INST_NORMAL 1048640 0;
  op 0xa1 "movL" 1 144 11 2 0 0 (Emit fn_emit_normal) INST_NORMAL 3145856 0;
  op 0xa2 "movB" 11 1 1 129 0 0 (Emit fn_emit_normal) INST_NORMAL 1048640 0;
  op 0xa3 "movL" 11 2 1 144 0 0 (Emit fn_emit_normal) INST_NORMAL 3145856 0;
  op 0xa4 "movsB" 5 150 6 151 0 0 (Emit fn_emit_normal) INST_NORMAL 1048576 5;
  op 0xa5 "movsL" 5 150 6 151 0 0 (Emit fn_emit_normal) INST_NORMAL 3145728 5;
  op 0xa6 "cmpsB" 6 151 5 150 0 0 (Emit fn_emit_normal) INST_NORMAL 1048576 10;
  op 0xa7 "cmpsL" 6 151 5 150 0 0 (Emit fn_emit_normal) INST_NORMAL 3145728 10;
  op 0xa8 "testB" 1 129 4 1 0 0 (Emit fn_emit_normal) INST_NORMAL 2 10;
  op 0xa9 "testL" 1 144 4 2 0 0 (Emit fn_emit_normal) INST_NORMAL 2097160 10;
  op 0xaa "stosB" 5 150 1 129 0 0 (Emit fn_emit_normal) INST_NORMAL 1048576 5;
  op 0xab "stosL" 5 150 1 144 0 0 (Emit fn_emit_normal) INST_NORMAL 3145728 5;
  op 0xac "lodsB" 1 129 6 151 0 0 (Emit fn_emit_normal) INST_NORMAL 1048576 0;
  op 0xad "lodsL" 1 144 6 151 0 0 (Emit fn_emit_normal) INST_NORMAL 3145728 0;
  op 0xae "scasB" 1 129 5 150 0 0 (Emit fn_emit_normal) INST_NORMAL 1048576 15;
  op 0xaf "scasL" 1 144 5 150 0 0 (Emit fn_emit_normal) INST_NORMAL 3145728 15;
  op 0xb0 "movB" 1 129 4 1 0 0 (Emit fn_emit_normal) INST_NORMAL 2 0;
  op 0xb1 "movB" 1 133 4 1 0 0 (Emit fn_emit_normal) INST_NORMAL 2 0;
  op 0xb2 "movB" 1 135 4 1 0 0 (Emit fn_emit_normal) INST_NORMAL 2 0;
  op 0xb3 "movB" 1 131 4 1 0 0 (Emit fn_emit_normal) INST_NORMAL 2 0;
  op 0xb4 "movB" 1 128 4 1 0 0 (Emit fn_emit_normal) INST_NORMAL 2 0;
  op 0xb5 "movB" 1 132 4 1 0 0 (Emit fn_emit_normal) INST_NORMAL 2 0;
  op 0xb6 "movB" 1 134 4 1 0 0 (Emit fn_emit_normal) INST_NORMAL 2 0;
  op 0xb7 "movB" 1 130 4 1 0 0 (Emit fn_emit_normal) INST_NORMAL 2 0;
  op 0xb8 "movL" 1 144 4 2 0 0 (Emit fn_emit_normal) INST_NORMAL 2097160 0;
  op 0xb9 "movL" 1 146 4 2 0 0 (Emit fn_emit_normal) INST_NORMAL 2097160 0;
  op 0xba "movL" 1 147 4 2 0 0 (Emit fn_emit_normal) INST_NORMAL 2097160 0;
  op 0xbb "movL" 1 145 4 2 0 0 (Emit fn_emit_normal) INST_NORMAL 2097160 0;
  op 0xbc "movL" 1 148 4 2 0 0 (Emit fn_emit_normal) INST_NORMAL 2097160 0;
  op 0xbd "movL" 1 149 4 2 0 0 (Emit fn_emit_normal) INST_NORMAL 2097160 0;
  op 0xbe "movL" 1 151 4 2 0 0 (Emit fn_emit_normal) INST_NORMAL 2097160 0;
  op 0xbf "movL" 1 150 4 2 0 0 (Emit fn_emit_normal) INST_NORMAL 2097160 0;
  op 0xc0 "(group)" 0 0 0 0 0 0 (Tab T_group2a_Eb_Ib) INST_GROUP2A_EB_IB 2048 0;
  op 0xc1 "(group)" 0 0 0 0 0 0 (Tab T_group2a_Ev_Ib) INST_GROUP2A_EV_IB 2048 0;
  op 0xc2 "retL" 4 3 0 0 0 0 (Emit fn_emit_ret_Iw) INST_RET_IW 10502144 0;
  op 0xc3 "retL" 0 0 0 0 0 0 (Emit fn_emit_ret) INST_RET 10485760 0;
  op 0xc4 "les" 3 2 2 5 0 0 (Emit fn_emit_normal) INST_NORMAL 3145729 0;
  op 0xc5 "lds" 3 2 2 5 0 0 (Emit fn_emit_normal) INST_NORMAL 3145729 0;
  op 0xc6 "movB" 2 1 4 1 0 0 (Emit fn_emit_normal) INST_NORMAL 1048579 0;
  op 0xc7 "movL" 2 2 4 2 0 0 (Emit fn_emit_normal) INST_NORMAL 3145737 0;
  op 0xc8 "enter" 4 3 4 1 0 0 (Emit fn_emit_normal) INST_NORMAL 16386 0;
  op 0xc9 "leaveL" 0 0 0 0 0 0 (Emit fn_emit_normal) INST_NORMAL 2097152 0;
  op 0xca "lret" 4 3 0 0 0 0 (Emit fn_emit_normal) INST_NORMAL 2113536 0;
  op 0xcb "lret" 0 0 0 0 0 0 (Emit fn_emit_normal) INST_NORMAL 2097152 0;
  op 0xcc "int3" 0 0 0 0 0 0 (Emit fn_emit_normal) INST_NORMAL 0 15;
  op 0xcd "int" 4 1 0 0 0 0 (Emit fn_emit_int) INST_INT 2 15;
  op 0xce "into" 0 0 0 0 0 0 (Emit fn_emit_normal) INST_NORMAL 0 15;
  op 0xcf "iret" 0 0 0 0 0 0 (Emit fn_emit_normal) INST_NORMAL 2097152 15;
  op 0xd0 "(group)" 0 0 0 0 0 0 (Tab T_group2_Eb_1) INST_GROUP2_EB_1 2048 0;
  op 0xd1 "(group)" 0 0 0 0 0 0 (Tab T_group2_Ev_1) INST_GROUP2_EV_1 2048 0;
  op 0xd2 "(group)" 0 0 0 0 0 0 (Tab T_group2_Eb_CL) INST_GROUP2_EB_CL 2048 0;
  op 0xd3 "(group)" 0 0 0 0 0 0 (Tab T_group2_Ev_CL) INST_GROUP2_EV_CL 2048 0;
  op 0xd4 "aam" 4 1 0 0 0 0 (Emit fn_emit_normal) INST_NORMAL 2 10;
  op 0xd5 "aad" 4 1 0 0 0 0 (Emit fn_emit_normal) INST_NORMAL 2 10;
  op 0xd6 "reserved" 0 0 0 0 0 0 NULL INST_RESERVED 512 0;
  op 0xd7 "xlat" 0 0 0 0 0 0 (Emit fn_emit_normal) INST_NORMAL 1048576 0;
  op 0xd8 "(float)" 0 0 0 0 0 0 (Tab T_float_d8) INST_FLOAT_D8 65536 0;
  op 0xd9 "(float)" 0 0 0 0 0 0 (Tab T_float_d9) INST_FLOAT_D9 65536 0;
  op 0xda "(float)" 0 0 0 0 0 0 (Tab T_float_da) INST_FLOAT_DA 65536 0;
  op 0xdb "(float)" 0 0 0 0 0 0 (Tab T_float_db) INST_FLOAT_DB 65536 0;
  op 0xdc "(float)" 0 0 0 0 0 0 (Tab T_float_dc) INST_FLOAT_DC 65536 0;
  op 0xdd "(float)" 0 0 0 0 0 0 (Tab T_float_dd) INST_FLOAT_DD 65536 0;
  op 0xde "(float)" 0 0 0 0 0 0 (Tab T_float_de) INST_FLOAT_DE 65536 0;
  op 0xdf "(float)" 0 0 0 0 0 0 (Tab T_float_df) INST_FLOAT_DF 65536 0;
  op 0xe0 "loopne" 7 1 0 0 0 0 (Emit fn_emit_other_jcond) INST_OTHER_JCOND 11534338 5;
  op 0xe1 "loope" 7 1 0 0 0 0 (Emit fn_emit_other_jcond) INST_OTHER_JCOND 11534338 5;
  op 0xe2 "loop" 7 1 0 0 0 0 (Emit fn_emit_other_jcond) INST_OTHER_JCOND 11534338 0;
  op 0xe3 "jcxz" 7 1 0 0 0 0 (Emit fn_emit_other_jcond) INST_OTHER_JCOND 11534338 0;
  op 0xe4 "inB" 1 129 4 1 0 0 (Emit fn_emit_normal) INST_NORMAL 2 0;
  op 0xe5 "inL" 1 144 4 1 0 0 (Emit fn_emit_normal) INST_NORMAL 2097154 0;
  op 0xe6 "outB" 4 1 1 129 0 0 (Emit fn_emit_normal) INST_NORMAL 2 0;
  op 0xe7 "outL" 4 1 1 144 0 0 (Emit fn_emit_normal) INST_NORMAL 2097154 0;
  op 0xe8 "callL" 7 2 0 0 0 0 (Emit fn_emit_call_disp) INST_CALL 10485776 0;
  op 0xe9 "jmpL" 7 2 0 0 0 0 (Emit fn_emit_jmp) INST_JMP 10485776 0;
  op 0xea "ljmp" 10 5 0 0 0 0 (Emit fn_emit_normal) INST_NORMAL 2129920 0;
  op 0xeb "jmp" 7 1 0 0 0 0 (Emit fn_emit_jmp) INST_JMP 10485762 0;
  op 0xec "inB" 1 129 1 137 0 0 (Emit fn_emit_normal) INST_NORMAL 0 0;
  op 0xed "inL" 1 144 1 137 0 0 (Emit fn_emit_normal) INST_NORMAL 2097152 0;
  op 0xee "outB" 1 137 1 129 0 0 (Emit fn_emit_normal) INST_NORMAL 0 0;
  op 0xef "outL" 1 137 1 144 0 0 (Emit fn_emit_normal) INST_NORMAL 2097152 0;
  op 0xf0 "lock" 0 0 0 0 0 0 NULL INST_PREFIX 256 0;
  op 0xf1 "reserved" 0 0 0 0 0 0 NULL INST_RESERVED 512 0;
  op 0xf2 "repne" 0 0 0 0 0 0 NULL INST_PREFIX 256 0;
  op 0xf3 "rep" 0 0 0 0 0 0 NULL INST_PREFIX 256 0;
  op 0xf4 "hlt" 0 0 0 0 0 0 (Emit fn_emit_normal) INST_NORMAL 0 0;
  op 0xf5 "cmc" 0 0 0 0 0 0 (Emit fn_emit_normal) INST_NORMAL 0 3;
  op 0xf6 "(group)" 0 0 0 0 0 0 (Tab T_group3b) INST_GROUP3B 2048 0;
  op 0xf7 "(group)" 0 0 0 0 0 0 (Tab T_group3v) INST_GROUP3V 2048 0;
  op 0xf8 "clc" 0 0 0 0 0 0 (Emit fn_emit_normal) INST_NORMAL 0 2;
  op 0xf9 "stc" 0 0 0 0 0 0 (Emit fn_emit_normal) INST_NORMAL 0 10;
  op 0xfa "cli" 0 0 0 0 0 0 (Emit fn_emit_normal) INST_NORMAL 0 10;
  op 0xfb "sti" 0 0 0 0 0 0 (Emit fn_emit_normal) INST_NORMAL 0 10;
  op 0xfc "cld" 0 0 0 0 0 0 (Emit fn_emit_normal) INST_NORMAL 0 10;
  op 0xfd "std" 0 0 0 0 0 0 (Emit fn_emit_normal) INST_NORMAL 0 10;
  op 0xfe "(group)" 0 0 0 0 0 0 (Tab T_ngroup4) INST_NGROUP4 2048 0;
  op 0xff "(group)" 0 0 0 0 0 0 (Tab T_ngroup5) INST_NGROUP5 2048 0
].

Definition nopbyte0 : list OpCode := (nopbyte0_lo ++ nopbyte0_hi)%list.

Definition float_d8 : list OpCode := [
  op 0x0 "fadd-sr" 2 4 0 0 0 0 (Emit fn_emit_normal) INST_NORMAL 1048577 0;
  op 0x1 "fmul-sr" 2 4 0 0 0 0 (Emit fn_emit_normal) INST_NORMAL 1048577 0;
  op 0x2 "fcom-sr" 2 4 0 0 0 0 (Emit fn_emit_normal) INST_NORMAL 1048577 0;
  op 0x3 "fcomp-sr" 2 4 0 0 0 0 (Emit fn_emit_normal) INST_NORMAL 1048577 0;
  op 0x4 "fsub-sr" 2 4 0 0 0 0 (Emit fn_emit_normal) INST_NORMAL 1048577 0;
  op 0x5 "fsubr-sr" 2 4 0 0 0 0 (Emit fn_emit_normal) INST_NORMAL 1048577 0;
  op 0x6 "fdiv-sr" 2 4 0 0 0 0 (Emit fn_emit_normal) INST_NORMAL 1048577 0;
  op 0x7 "fdivr-sr" 2 4 0 0 0 0 (Emit fn_emit_normal) INST_NORMAL 1048577 0;
  op 0x8 "fadd" 12 0 0 0 0 0 (Emit fn_emit_normal) INST_NORMAL 262144 0;
  op 0x9 "fmul" 12 0 0 0 0 0 (Emit fn_emit_normal) INST_NORMAL 262144 0;
  op 0xa "fcom" 12 0 0 0 0 0 (Emit fn_emit_normal) INST_NORMAL 262144 0;
  op 0xb "fcomp" 12 0 0 0 0 0 (Emit fn_emit_normal) INST_NORMAL 262144 0;
  op 0xc "fsub" 12 0 0 0 0 0 (Emit fn_emit_normal) INST_NORMAL 262144 0;
  op 0xd "fsubr" 12 0 0 0 0 0 (Emit fn_emit_normal) INST_NORMAL 262144 0;
  op 0xe "fdiv" 12 0 0 0 0 0 (Emit fn_emit_normal) INST_NORMAL 262144 0;
  op 0xf "fdivr" 12 0 0 0 0 0 (Emit fn_emit_normal) INST_NORMAL 262144 0
].

Definition float_d9 : list OpCode := [
  op 0x0 "fld-sr" 2 4 0 0 0 0 (Emit fn_emit_normal) INST_NORMAL 1048577 0;
  op 0x1 "reserved" 0 0 0 0 0 0 NULL INST_RESERVED 512 0;
  op 0x2 "fst-sr" 2 4 0 0 0 0 (Emit fn_emit_normal) INST_NORMAL 1048577 0;
  op 0x3 "fstp-sr" 2 4 0 0 0 0 (Emit fn_emit_normal) INST_NORMAL 1048577 0;
  op 0x4 "fldenv-z" 2 9 0 0 0 0 (Emit fn_emit_normal) INST_NORMAL 1048577 0;
  op 0x5 "fldcw-w" 2 3 0 0 0 0 (Emit fn_emit_normal) INST_NORMAL 1048577 0;
  op 0x6 "fstenv-z" 2 9 0 0 0 0 (Emit fn_emit_normal) INST_NORMAL 1048577 0;
  op 0x7 "fstcw-w" 2 3 0 0 0 0 (Emit fn_emit_normal) INST_NORMAL 1048577 0;
  op 0x8 "fld" 12 0 0 0 0 0 (Emit fn_emit_normal) INST_NORMAL 262144 0;
  op 0x9 "fxch" 12 0 0 0 0 0 (Emit fn_emit_normal) INST_NORMAL 262144 0;
  op 0xa "(float)" 0 0 0 0 0 0 (Tab T_float_d9_2) INST_FLOAT_D9_2 131072 0;
  op 0xb "reserved" 0 0 0 0 0 0 NULL INST_RESERVED 512 0;
  op 0xc "(float)" 0 0 0 0 0 0 (Tab T_float_d9_4) INST_FLOAT_D9_4 131072 0;
  op 0xd "(float)" 0 0 0 0 0 0 (Tab T_float_d9_5) INST_FLOAT_D9_5 131072 0;
  op 0xe "(float)" 0 0 0 0 0 0 (Tab T_float_d9_6) INST_FLOAT_D9_6 131072 0;
  op 0xf "(float)" 0 0 0 0 0 0 (Tab T_float_d9_7) INST_FLOAT_D9_7 131072 0
].

Definition float_d9_2 : list OpCode := [
  op 0x0 "fnop" 0 0 0 0 0 0 (Emit fn_emit_normal) INST_NORMAL 0 0;
  op 0x1 "reserved" 0 0 0 0 0 0 NULL INST_RESERVED 512 0;
  op 0x2 "reserved" 0 0 0 0 0 0 NULL INST_RESERVED 512 0;
  op 0x3 "reserved" 0 0 0 0 0 0 NULL INST_RESERVED 512 0;
  op 0x4 "reserved" 0 0 0 0 0 0 NULL INST_RESERVED 512 0;
  op 0x5 "reserved" 0 0 0 0 0 0 NULL INST_RESERVED 512 0;
  op 0x6 "reserved" 0 0 0 0 0 0 NULL INST_RESERVED 512 0;
  op 0x7 "reserved" 0 0 0 0 0 0 NULL INST_RESERVED 512 0
].

Definition float_d9_4 : list OpCode := [
  op 0x0 "fchs" 0 0 0 0 0 0 (Emit fn_emit_normal) INST_NORMAL 0 0;
  op 0x1 "fabs" 0 0 0 0 0 0 (Emit fn_emit_normal) INST_NORMAL 0 0;
  op 0x2 "reserved" 0 0 0 0 0 0 NULL INST_RESERVED 512 0;
  op 0x3 "reserved" 0 0 0 0 0 0 NULL INST_RESERVED 512 0;
  op 0x4 "ftst" 0 0 0 0 0 0 (Emit fn_emit_normal) INST_NORMAL 0 0;
  op 0x5 "fxam" 0 0 0 0 0 0 (Emit fn_emit_normal) INST_NORMAL 0 0;
  op 0x6 "reserved" 0 0 0 0 0 0 NULL INST_RESERVED 512 0;
  op 0x7 "reserved" 0 0 0 0 0 0 NULL INST_RESERVED 512 0
].

Definition float_d9_5 : list OpCode := [
  op 0x0 "fld1" 0 0 0 0 0 0 (Emit fn_emit_normal) INST_NORMAL 0 0;
  op 0x1 "fldl2t" 0 0 0 0 0 0 (Emit fn_emit_normal) INST_NORMAL 0 0;
  op 0x2 "fldl2e" 0 0 0 0 0 0 (Emit fn_emit_normal) INST_NORMAL 0 0;
  op 0x3 "fldpi" 0 0 0 0 0 0 (Emit fn_emit_normal) INST_NORMAL 0 0;
  op 0x4 "fldlg2" 0 0 0 0 0 0 (Emit fn_emit_normal) INST_NORMAL 0 0;
  op 0x5 "fldln2" 0 0 0 0 0 0 (Emit fn_emit_normal) INST_NORMAL 0 0;
  op 0x6 "fldz" 0 0 0 0 0 0 (Emit fn_emit_normal) INST_NORMAL 0 0;
  op 0x7 "reserved" 0 0 0 0 0 0 NULL INST_RESERVED 512 0
].

Definition float_d9_6 : list OpCode := [
  op 0x0 "f2xm1" 0 0 0 0 0 0 (Emit fn_emit_normal) INST_NORMAL 0 0;
  op 0x1 "fyl2x" 0 0 0 0 0 0 (Emit fn_emit_normal) INST_NORMAL 0 0;
  op 0x2 "fptan" 0 0 0 0 0 0 (Emit fn_emit_normal) INST_NORMAL 0 0;
  op 0x3 "fpatan" 0 0 0 0 0 0 (Emit fn_emit_normal) INST_NORMAL 0 0;
  op 0x4 "fxtract" 0 0 0 0 0 0 (Emit fn_emit_normal) INST_NORMAL 0 0;
  op 0x5 "fprem1" 0 0 0 0 0 0 (Emit fn_emit_normal) INST_NORMAL 0 0;
  op 0x6 "fdecstp" 0 0 0 0 0 0 (Emit fn_emit_normal) INST_NORMAL 0 0;
  op 0x7 "fincstp" 0 0 0 0 0 0 (Emit fn_emit_normal) INST_NORMAL 0 0
].

Definition float_d9_7 : list OpCode := [
  op 0x0 "fprem" 0 0 0 0 0 0 (Emit fn_emit_normal) INST_NORMAL 0 0;
  op 0x1 "fyl2xp1" 0 0 0 0 0 0 (Emit fn_emit_normal) INST_NORMAL 0 0;
  op 0x2 "fsqrt" 0 0 0 0 0 0 (Emit fn_emit_normal) INST_NORMAL 0 0;
  op 0x3 "fsincos" 0 0 0 0 0 0 (Emit fn_emit_normal) INST_NORMAL 0 0;
  op 0x4 "frndint" 0 0 0 0 0 0 (Emit fn_emit_normal) INST_NORMAL 0 0;
  op 0x5 "fscale" 0 0 0 0 0 0 (Emit fn_emit_normal) INST_NORMAL 0 0;
  op 0x6 "fsin" 0 0 0 0 0 0 (Emit fn_emit_normal) INST_NORMAL 0 0;
  op 0x7 "fcos" 0 0 0 0 0 0 (Emit fn_emit_normal) INST_NORMAL 0 0
].

Definition float_da : list OpCode := [
  op 0x0 "fiadd-d" 2 4 0 0 0 0 (Emit fn_emit_normal) INST_NORMAL 1048577 0;
  op 0x1 "fimul-d" 2 4 0 0 0 0 (Emit fn_emit_normal) INST_NORMAL 1048577 0;
  op 0x2 "ficom-d" 2 4 0 0 0 0 (Emit fn_emit_normal) INST_NORMAL 1048577 0;
  op 0x3 "ficomp-d" 2 4 0 0 0 0 (Emit fn_emit_normal) INST_NORMAL 1048577 0;
  op 0x4 "fisub-d" 2 4 0 0 0 0 (Emit fn_emit_normal) INST_NORMAL 1048577 0;
  op 0x5 "fisubr-d" 2 4 0 0 0 0 (Emit fn_emit_normal) INST_NORMAL 1048577 0;
  op 0x6 "fidiv-d" 2 4 0 0 0 0 (Emit fn_emit_normal) INST_NORMAL 1048577 0;
  op 0x7 "fidivr-d" 2 4 0 0 0 0 (Emit fn_emit_normal) INST_NORMAL 1048577 0;
  op 0x8 "fcmovb" 12 0 0 0 0 0 (Emit fn_emit_normal) INST_NORMAL 262144 5;
  op 0x9 "fcmove" 12 0 0 0 0 0 (Emit fn_emit_normal) INST_NORMAL 262144 5;
  op 0xa "fcmovbe" 12 0 0 0 0 0 (Emit fn_emit_normal) INST_NORMAL 262144 5;
  op 0xb "fcmovu" 12 0 0 0 0 0 (Emit fn_emit_normal) INST_NORMAL 262144 5;
  op 0xc "reserved" 0 0 0 0 0 0 NULL INST_RESERVED 512 0;
  op 0xd "(float)" 0 0 0 0 0 0 (Tab T_float_da_5) INST_FLOAT_DA_5 131072 0;
  op 0xe "reserved" 0 0 0 0 0 0 NULL INST_RESERVED 512 0;
  op 0xf "reserved" 0 0 0 0 0 0 NULL INST_RESERVED 512 0
].

Definition float_da_5 : list OpCode := [
  op 0x0 "reserved" 0 0 0 0 0 0 NULL INST_RESERVED 512 0;
  op 0x1 "fucompp" 0 0 0 0 0 0 (Emit fn_emit_normal) INST_NORMAL 0 0;
  op 0x2 "reserved" 0 0 0 0 0 0 NULL INST_RESERVED 512 0;
  op 0x3 "reserved" 0 0 0 0 0 0 NULL INST_RESERVED 512 0;
  op 0x4 "reserved" 0 0 0 0 0 0 NULL INST_RESERVED 512 0;
  op 0x5 "reserved" 0 0 0 0 0 0 NULL INST_RESERVED 512 0;
  op 0x6 "reserved" 0 0 0 0 0 0 NULL INST_RESERVED 512 0;
  op 0x7 "reserved" 0 0 0 0 0 0 NULL INST_RESERVED 512 0
].

Definition float_db : list OpCode := [
  op 0x0 "fild-d" 2 4 0 0 0 0 (Emit fn_emit_normal) INST_NORMAL 1048577 0;
  op 0x1 "reserved" 0 0 0 0 0 0 NULL INST_RESERVED 512 0;
  op 0x2 "fist-d" 2 4 0 0 0 0 (Emit fn_emit_normal) INST_NORMAL 1048577 0;
  op 0x3 "fistp-d" 2 4 0 0 0 0 (Emit fn_emit_normal) INST_NORMAL 1048577 0;
  op 0x4 "reserved" 0 0 0 0 0 0 NULL INST_RESERVED 512 0;
  op 0x5 "fld-er" 2 8 0 0 0 0 (Emit fn_emit_normal) INST_NORMAL 1048577 0;
  op 0x6 "reserved" 0 0 0 0 0 0 NULL INST_RESERVED 512 0;
  op 0x7 "fstp-er" 2 8 0 0 0 0 (Emit fn_emit_normal) INST_NORMAL 1048577 0;
  op 0x8 "fcmovnb" 12 0 0 0 0 0 (Emit fn_emit_normal) INST_NORMAL 262144 5;
  op 0x9 "fcmovne" 12 0 0 0 0 0 (Emit fn_emit_normal) INST_NORMAL 262144 5;
  op 0xa "fcmovnbe" 12 0 0 0 0 0 (Emit fn_emit_normal) INST_NORMAL 262144 5;
  op 0xb "fcmovnu" 12 0 0 0 0 0 (Emit fn_emit_normal) INST_NORMAL 262144 5;
  op 0xc "(float)" 0 0 0 0 0 0 (Tab T_float_db_4) INST_FLOAT_DB_4 131072 0;
  op 0xd "fucomi" 12 0 0 0 0 0 (Emit fn_emit_normal) INST_NORMAL 262144 15;
  op 0xe "fcomi" 12 0 0 0 0 0 (Emit fn_emit_normal) INST_NORMAL 262144 15;
  op 0xf "reserved" 0 0 0 0 0 0 NULL INST_RESERVED 512 0
].

Definition float_db_4 : list OpCode := [
  op 0x0 "reserved" 0 0 0 0 0 0 NULL INST_RESERVED 512 0;
  op 0x1 "reserved" 0 0 0 0 0 0 NULL INST_RESERVED 512 0;
  op 0x2 "fclex" 0 0 0 0 0 0 (Emit fn_emit_normal) INST_NORMAL 0 0;
  op 0x3 "finit" 0 0 0 0 0 0 (Emit fn_emit_normal) INST_NORMAL 0 0;
  op 0x4 "reserved" 0 0 0 0 0 0 NULL INST_RESERVED 512 0;
  op 0x5 "reserved" 0 0 0 0 0 0 NULL INST_RESERVED 512 0;
  op 0x6 "reserved" 0 0 0 0 0 0 NULL INST_RESERVED 512 0;
  op 0x7 "reserved" 0 0 0 0 0 0 NULL INST_RESERVED 512 0
].

Definition float_dc : list OpCode := [
  op 0x0 "fadd-dr" 2 7 0 0 0 0 (Emit fn_emit_normal) INST_NORMAL 1048577 0;
  op 0x1 "fmul-dr" 2 7 0 0 0 0 (Emit fn_emit_normal) INST_NORMAL 1048577 0;
  op 0x2 "fcom-dr" 2 7 0 0 0 0 (Emit fn_emit_normal) INST_NORMAL 1048577 0;
  op 0x3 "fcomp-dr" 2 7 0 0 0 0 (Emit fn_emit_normal) INST_NORMAL 1048577 0;
  op 0x4 "fsub-dr" 2 7 0 0 0 0 (Emit fn_emit_normal) INST_NORMAL 1048577 0;
  op 0x5 "fsubr-dr" 2 7 0 0 0 0 (Emit fn_emit_normal) INST_NORMAL 1048577 0;
  op 0x6 "fdiv-dr" 2 7 0 0 0 0 (Emit fn_emit_normal) INST_NORMAL 1048577 0;
  op 0x7 "fdivr-dr" 2 7 0 0 0 0 (Emit fn_emit_normal) INST_NORMAL 1048577 0;
  op 0x8 "fadd" 12 0 0 0 0 0 (Emit fn_emit_normal) INST_NORMAL 786432 0;
  op 0x9 "fmul" 12 0 0 0 0 0 (Emit fn_emit_normal) INST_NORMAL 786432 0;
  op 0xa "reserved" 0 0 0 0 0 0 NULL INST_RESERVED 512 0;
  op 0xb "reserved" 0 0 0 0 0 0 NULL INST_RESERVED 512 0;
  op 0xc "fsubr" 12 0 0 0 0 0 (Emit fn_emit_normal) INST_NORMAL 786432 0;
  op 0xd "fsub" 12 0 0 0 0 0 (Emit fn_emit_normal) INST_NORMAL 786432 0;
  op 0xe "fdivr" 12 0 0 0 0 0 (Emit fn_emit_normal) INST_NORMAL 786432 0;
  op 0xf "fdiv" 12 0 0 0 0 0 (Emit fn_emit_normal) INST_NORMAL 786432 0
].

Definition float_dd : list OpCode := [
  op 0x0 "fld-dr" 2 7 0 0 0 0 (Emit fn_emit_normal) INST_NORMAL 1048577 0;
  op 0x1 "reserved" 0 0 0 0 0 0 NULL INST_RESERVED 512 0;
  op 0x2 "fst-dr" 2 7 0 0 0 0 (Emit fn_emit_normal) INST_NORMAL 1048577 0;
  op 0x3 "fstp-dr" 2 7 0 0 0 0 (Emit fn_emit_normal) INST_NORMAL 1048577 0;
  op 0x4 "frstor-x" 2 7 0 0 0 0 (Emit fn_emit_normal) INST_NORMAL 1048577 0;
  op 0x5 "reserved" 0 0 0 0 0 0 NULL INST_RESERVED 512 0;
  op 0x6 "fsave-x" 2 7 0 0 0 0 (Emit fn_emit_normal) INST_NORMAL 1048577 0;
  op 0x7 "fstsw-w" 2 3 0 0 0 0 (Emit fn_emit_normal) INST_NORMAL 1048577 0;
  op 0x8 "ffree" 12 0 0 0 0 0 (Emit fn_emit_normal) INST_NORMAL 0 0;
  op 0x9 "reserved" 0 0 0 0 0 0 NULL INST_RESERVED 512 0;
  op 0xa "fst" 12 0 0 0 0 0 (Emit fn_emit_normal) INST_NORMAL 0 0;
  op 0xb "fstp" 12 0 0 0 0 0 (Emit fn_emit_normal) INST_NORMAL 0 0;
  op 0xc "fucom" 12 0 0 0 0 0 (Emit fn_emit_normal) INST_NORMAL 786432 0;
  op 0xd "fucomp" 12 0 0 0 0 0 (Emit fn_emit_normal) INST_NORMAL 0 0;
  op 0xe "reserved" 0 0 0 0 0 0 NULL INST_RESERVED 512 0;
  op 0xf "reserved" 0 0 0 0 0 0 NULL INST_RESERVED 512 0
].

Definition float_de : list OpCode := [
  op 0x0 "fiadd-w" 2 3 0 0 0 0 (Emit fn_emit_normal) INST_NORMAL 1048577 0;
  op 0x1 "fimul-w" 2 3 0 0 0 0 (Emit fn_emit_normal) INST_NORMAL 1048577 0;
  op 0x2 "ficom-w" 2 3 0 0 0 0 (Emit fn_emit_normal) INST_NORMAL 1048577 0;
  op 0x3 "ficomp-w" 2 3 0 0 0 0 (Emit fn_emit_normal) INST_NORMAL 1048577 0;
  op 0x4 "fisub-w" 2 3 0 0 0 0 (Emit fn_emit_normal) INST_NORMAL 1048577 0;
  op 0x5 "fisubr-w" 2 3 0 0 0 0 (Emit fn_emit_normal) INST_NORMAL 1048577 0;
  op 0x6 "fidiv-w" 2 3 0 0 0 0 (Emit fn_emit_normal) INST_NORMAL 1048577 0;
  op 0x7 "fidivr-w" 2 3 0 0 0 0 (Emit fn_emit_normal) INST_NORMAL 1048577 0;
  op 0x8 "faddp" 12 0 0 0 0 0 (Emit fn_emit_normal) INST_NORMAL 786432 0;
  op 0x9 "fmulp" 12 0 0 0 0 0 (Emit fn_emit_normal) INST_NORMAL 786432 0;
  op 0xa "reserved" 0 0 0 0 0 0 NULL INST_RESERVED 512 0;
  op 0xb "(float)" 0 0 0 0 0 0 (Tab T_float_de_3) INST_FLOAT_DE_3 131072 0;
  op 0xc "fsubrp" 12 0 0 0 0 0 (Emit fn_emit_normal) INST_NORMAL 786432 0;
  op 0xd "fsubp" 12 0 0 0 0 0 (Emit fn_emit_normal) INST_NORMAL 786432 0;
  op 0xe "fdivrp" 12 0 0 0 0 0 (Emit fn_emit_normal) INST_NORMAL 786432 0;
  op 0xf "fdivp" 12 0 0 0 0 0 (Emit fn_emit_normal) INST_NORMAL 786432 0
].

Definition float_de_3 : list OpCode := [
  op 0x0 "reserved" 0 0 0 0 0 0 NULL INST_RESERVED 512 0;
  op 0x1 "fcompp" 0 0 0 0 0 0 (Emit fn_emit_normal) INST_NORMAL 0 0;
  op 0x2 "reserved" 0 0 0 0 0 0 NULL INST_RESERVED 512 0;
  op 0x3 "reserved" 0 0 0 0 0 0 NULL INST_RESERVED 512 0;
  op 0x4 "reserved" 0 0 0 0 0 0 NULL INST_RESERVED 512 0;
  op 0x5 "reserved" 0 0 0 0 0 0 NULL INST_RESERVED 512 0;
  op 0x6 "reserved" 0 0 0 0 0 0 NULL INST_RESERVED 512 0;
  op 0x7 "reserved" 0 0 0 0 0 0 NULL INST_RESERVED 512 0
].

Definition float_df : list OpCode := [
  op 0x0 "fild-w" 2 3 0 0 0 0 (Emit fn_emit_normal) INST_NORMAL 1048577 0;
  op 0x1 "reserved" 0 0 0 0 0 0 NULL INST_RESERVED 512 0;
  op 0x2 "fist-w" 2 3 0 0 0 0 (Emit fn_emit_normal) INST_NORMAL 1048577 0;
  op 0x3 "fistp-w" 2 3 0 0 0 0 (Emit fn_emit_normal) INST_NORMAL 1048577 0;
  op 0x4 "fbld-y" 2 8 0 0 0 0 (Emit fn_emit_normal) INST_NORMAL 1048577 0;
  op 0x5 "fild-q" 2 7 0 0 0 0 (Emit fn_emit_normal) INST_NORMAL 1048577 0;
  op 0x6 "fbstp-y" 2 8 0 0 0 0 (Emit fn_emit_normal) INST_NORMAL 1048577 0;
  op 0x7 "fistp-q" 2 7 0 0 0 0 (Emit fn_emit_normal) INST_NORMAL 1048577 0;
  op 0x8 "reserved" 0 0 0 0 0 0 NULL INST_RESERVED 512 0;
  op 0x9 "reserved" 0 0 0 0 0 0 NULL INST_RESERVED 512 0;
  op 0xa "reserved" 0 0 0 0 0 0 NULL INST_RESERVED 512 0;
  op 0xb "reserved" 0 0 0 0 0 0 NULL INST_RESERVED 512 0;
  op 0xc "(float)" 0 0 0 0 0 0 (Tab T_float_df_4) INST_FLOAT_DF_4 131072 0;
  op 0xd "fucomip" 12 0 0 0 0 0 (Emit fn_emit_normal) INST_NORMAL 262144 15;
  op 0xe "fcomip" 12 0 0 0 0 0 (Emit fn_emit_normal) INST_NORMAL 262144 15;
  op 0xf "reserved" 0 0 0 0 0 0 NULL INST_RESERVED 512 0
].

Definition float_df_4 : list OpCode := [
  op 0x0 "fstsw-ax" 0 0 0 0 0 0 (Emit fn_emit_normal) INST_NORMAL 0 0;
  op 0x1 "reserved" 0 0 0 0 0 0 NULL INST_RESERVED 512 0;
  op 0x2 "reserved" 0 0 0 0 0 0 NULL INST_RESERVED 512 0;
  op 0x3 "reserved" 0 0 0 0 0 0 NULL INST_RESERVED 512 0;
  op 0x4 "reserved" 0 0 0 0 0 0 NULL INST_RESERVED 512 0;
  op 0x5 "reserved" 0 0 0 0 0 0 NULL INST_RESERVED 512 0;
  op 0x6 "reserved" 0 0 0 0 0 0 NULL INST_RESERVED 512 0;
  op 0x7 "reserved" 0 0 0 0 0 0 NULL INST_RESERVED 512 0
].

(** The array a table pointer denotes. *)
Definition table_of (t : table_id) : list OpCode :=
  match t with
  | T_group1_Eb_Ib => group1_Eb_Ib
  | T_group1_Ev_Iv => group1_Ev_Iv
  | T_group1_Ev_Ib => group1_Ev_Ib
  | T_group2a_Eb_Ib => group2a_Eb_Ib
  | T_group2a_Ev_Ib => group2a_Ev_Ib
  | T_group2_Eb_1 => group2_Eb_1
  | T_group2_Ev_1 => group2_Ev_1
  | T_group2_Eb_CL => group2_Eb_CL
  | T_group2_Ev_CL => group2_Ev_CL
  | T_group3b => group3b
  | T_group3v => group3v
  | T_ngroup4 => ngroup4
  | T_ngroup5 => ngroup5
  | T_ngroup6 => ngroup6
  | T_ngroup7 => ngroup7
  | T_group8_Ev_Ib => group8_Ev_Ib
  | T_ngroup9 => ngroup9
  | T_twoByteOpcodes => twoByteOpcodes
  | T_nopbyte0 => nopbyte0
  | T_float_d8 => float_d8
  | T_float_d9 => float_d9
  | T_float_d9_2 => float_d9_2
  | T_float_d9_4 => float_d9_4
  | T_float_d9_5 => float_d9_5
  | T_float_d9_6 => float_d9_6
  | T_float_d9_7 => float_d9_7
  | T_float_da => float_da
  | T_float_da_5 => float_da_5
  | T_float_db => float_db
  | T_float_db_4 => float_db_4
  | T_float_dc => float_dc
  | T_float_dd => float_dd
  | T_float_de => float_de
  | T_float_de_3 => float_de_3
  | T_float_df => float_df
  | T_float_df_4 => float_df_4
  end.
