(* ===== verification/Decode.v ===== *)
(** The instruction decoder, src/target-i386/decode.c.

    [simple_disas_insn] is the C function; its straight-line body is cut at the
    comments of the source into the stages [prefix_loop], [opcode_loop],
    [fetch_modrm], [fetch_disp], [fetch_imm] and [finish], composed in order.
    The decoder only reads memory, so it is a function of the memory, the
    (uninitialised) record it fills and the guest address. *)

From S2P Require Import Prelude Memory Opcode DecodeTable.

(** ** Definitions *)

(** [table[i]]: an index outside the array is undefined behaviour. *)
Definition entry (t : list OpCode) (i : Z) : res OpCode :=
  if i <? 0 then Err UB else of_option UB (t !! Z.to_nat i).

(** [pEntry->ptr] used as a table. *)
Definition ptr_table (p : op_ptr) : res (list OpCode) :=
  match p with Tab t => Ok (table_of t) | _ => Err UB end.

Definition READ_IN_NEXT_BYTE (m : mem) (ds : decode_t) : decode_t :=
  let ds := set_b (ldub_code m (decode_eip ds)) ds in
  set_decode_eip (u32 (decode_eip ds + 1)) ds.
Definition READ_IN_NEXT_WORD (m : mem) (ds : decode_t) : decode_t :=
  let ds := set_b (lduw_code m (decode_eip ds)) ds in
  set_decode_eip (u32 (decode_eip ds + 2)) ds.
Definition READ_IN_NEXT_LONG (m : mem) (ds : decode_t) : decode_t :=
  let ds := set_b (ldl_code m (decode_eip ds)) ds in
  set_decode_eip (u32 (decode_eip ds + 4)) ds.

(** The assignments before the first loop. *)
Definition init_ds (ds : decode_t) (pc : Z) : decode_t :=
  let ds := set_decode_eip pc ds in
  let ds := set_ds_attr 0 ds in
  let ds := set_emitfn NULL ds in
  let ds := set_modrm_regs 0 ds in
  let ds := set_need_sib false ds in
  let ds := set_dispBytes 0 ds in
  let ds := set_no_of_prefixes 0 ds in
  let ds := set_Group1_Prefix 0 ds in
  let ds := set_Group2_Prefix 0 ds in
  let ds := set_Group3_Prefix 0 ds in
  let ds := set_Group4_Prefix 0 ds in
  let ds := set_flags 0 ds in
  set_opstate (Z.lor OPSTATE_DATA32 OPSTATE_ADDR32) ds.

(** [switch (ds->b)] of the prefix loop. *)
Definition prefix_switch (ds : decode_t) : decode_t :=
  let c := b ds in
  if (c =? HD_PREFIX_LOCK) || (c =? HD_PREFIX_REPZ) || (c =? HD_PREFIX_REPNZ) then
    set_Group1_Prefix (u8 c) (set_flags (Z.lor (flags ds) DSFL_GROUP1_PREFIX) ds)
  else if (c =? HD_PREFIX_CS) || (c =? HD_PREFIX_DS) || (c =? HD_PREFIX_ES)
       || (c =? HD_PREFIX_FS) || (c =? HD_PREFIX_GS) || (c =? HD_PREFIX_SS) then
    set_Group2_Prefix (u8 c) (set_flags (Z.lor (flags ds) DSFL_GROUP2_PREFIX) ds)
  else if c =? HD_PREFIX_OPSZ then
    set_Group3_Prefix (u8 c)
      (set_opstate (Z.lxor (opstate ds) OPSTATE_DATA32)
        (set_flags (Z.lor (flags ds) DSFL_GROUP3_PREFIX) ds))
  else if c =? HD_PREFIX_ADDRSZ then
    set_Group4_Prefix (u8 c)
      (set_opstate (Z.lxor (opstate ds) OPSTATE_ADDR32)
        (set_flags (Z.lor (flags ds) DSFL_GROUP4_PREFIX) ds))
  else ds.

(** The first [for(;;)]: one iteration per prefix byte. *)
Fixpoint prefix_loop (fuel : nat) (m : mem) (ds : decode_t) : res decode_t :=
  match fuel with
  | O => Err Fuel
  | S fuel' =>
      let ds := set_b (ldub_code m (decode_eip ds)) ds in
      let? e := entry nopbyte0 (b ds) in
      let ds := set_ds_attr (attr e) ds in
      if negb (hasb (ds_attr ds) DF_PREFIX) then Ok ds
      else
        let ds := set_no_of_prefixes (u8 (no_of_prefixes ds + 1)) ds in
        let ds := prefix_switch ds in
        prefix_loop fuel' m (set_decode_eip (u32 (decode_eip ds + 1)) ds)
  end.

(** The body of [if (ds->attr & DF_FLOAT)]: the ModR/M byte picks the entry. *)
Definition float_entry (m : mem) (pe : OpCode) (ds : decode_t)
  : res (OpCode * decode_t) :=
  let? table := ptr_table (ptr pe) in
  let ds := set_b (ldub_code m (decode_eip ds)) ds in
  let ds := set_decode_eip (u32 (decode_eip ds + 1)) ds in
  let ds := set_modrm (u8 (b ds)) ds in
  if modrm_mod (modrm ds) =? 3 then
    let? pe := entry table (modrm_reg (modrm ds) + 8) in
    let ds := set_ds_attr (attr pe) ds in
    if hasb (ds_attr ds) DF_ONE_MORE_LEVEL then
      let? table := ptr_table (ptr pe) in
      let? pe := entry table (modrm_rm (modrm ds)) in
      Ok (pe, set_ds_attr (attr pe) ds)
    else Ok (pe, ds)
  else
    let? pe := entry table (modrm_reg (modrm ds)) in
    Ok (pe, set_ds_attr (attr pe) ds).

(** The second [for(;;)]; the boolean is the source's [wierd]. *)
Fixpoint opcode_loop (fuel : nat) (m : mem) (table : list OpCode) (ds : decode_t)
  : res (bool * OpCode * decode_t) :=
  match fuel with
  | O => Err Fuel
  | S fuel' =>
      let ds := set_b (ldub_code m (decode_eip ds)) ds in
      let? pe := entry table (b ds) in
      let ds := set_ds_attr (attr pe) ds in
      let ds := set_decode_eip (u32 (decode_eip ds + 1)) ds in
      if hasb (ds_attr ds) DF_TABLE then
        let? table := ptr_table (ptr pe) in
        opcode_loop fuel' m table ds
      else if hasb (ds_attr ds) DF_FLOAT then
        let? r := float_entry m pe ds in
        Ok (true, r.1, r.2)
      else Ok (false, pe, ds)
  end.

(** Fetch the ModR/M byte and resolve a group. *)
Definition fetch_modrm (m : mem) (wierd : bool) (pe : OpCode) (ds : decode_t)
  : res (OpCode * decode_t) :=
  let ds :=
    if negb wierd then
      if hasb (ds_attr ds) (Z.lor DF_MODRM DF_GROUP) then READ_IN_NEXT_BYTE m ds else ds
    else ds in
  let? r :=
    (if hasb (ds_attr ds) DF_GROUP then
       let ds := set_modrm (u8 (b ds)) ds in
       let? table := ptr_table (ptr pe) in
       let? pe := entry table (modrm_reg (modrm ds)) in
       Ok (pe, set_ds_attr (Z.lor (ds_attr ds) (attr pe)) ds)
     else Ok (pe, ds)) in
  let '(pe, ds) := r in
  let ds := if hasb (ds_attr ds) DF_MODRM then set_modrm (u8 (b ds)) ds else ds in
  Ok (pe, ds).

(** The displacement length the ModR/M byte asks for. *)
Definition modrm_disp (ds : decode_t) : decode_t :=
  let md := modrm_mod (modrm ds) in
  let rm := modrm_rm (modrm ds) in
  if hasb (opstate ds) OPSTATE_ADDR32 then
    let ds := if negb (md =? 3) && (rm =? 4) then set_need_sib true ds else ds in
    if (md =? 0) && (rm =? 5) then set_dispBytes 4 ds
    else if md =? 1 then set_dispBytes 1 ds
    else if md =? 2 then set_dispBytes 4 ds
    else ds
  else
    if (md =? 0) && (rm =? 6) then set_dispBytes 2 ds
    else if md =? 1 then set_dispBytes 1 ds
    else if md =? 2 then set_dispBytes 2 ds
    else ds.

(** [if (ds->need_sib)]: the SIB byte, whose base may ask for disp32. *)
Definition fetch_sib (m : mem) (ds : decode_t) : decode_t :=
  if need_sib ds then
    let ds := READ_IN_NEXT_BYTE m ds in
    let ds := set_sib (u8 (b ds)) ds in
    if (sib_base (sib ds) =? GP_REG_EBP) && (modrm_mod (modrm ds) =? 0)
    then set_dispBytes 4 ds else ds
  else ds.

(** [if (ds->dispBytes)]: the displacement. *)
Definition read_disp (m : mem) (ds : decode_t) : decode_t :=
  if dispBytes ds =? 0 then ds
  else if 2 <? dispBytes ds then
    let ds := READ_IN_NEXT_LONG m ds in set_displacement (s32 (b ds)) ds
  else if 1 <? dispBytes ds then
    let ds := READ_IN_NEXT_WORD m ds in set_displacement (s32 (b ds)) ds
  else
    let ds := READ_IN_NEXT_BYTE m ds in set_displacement (s32 (b ds)) ds.

Definition fetch_disp (m : mem) (ds : decode_t) : decode_t :=
  if hasb (ds_attr ds) (Z.lor DF_MODRM DF_GROUP)
  then read_disp m (fetch_sib m (modrm_disp ds))
  else ds.

(** [READ_IN_NEXT_LONG] or [_WORD] into [immediate], as the operand (or
    address) size says. *)
Definition read_imm (m : mem) (long : bool) (ds : decode_t) : decode_t :=
  let ds := if long then READ_IN_NEXT_LONG m ds else READ_IN_NEXT_WORD m ds in
  set_immediate (s32 (b ds)) ds.

(** The [DF_Iv], [DF_Ov]/[DF_Ob] and [DF_Jv]/[DF_Ap] cases. *)
Definition fetch_iv (m : mem) (ds : decode_t) : decode_t :=
  let ds :=
    if hasb (ds_attr ds) DF_Iv
    then read_imm m (hasb (opstate ds) OPSTATE_DATA32) ds else ds in
  let ds :=
    if hasb (ds_attr ds) DF_Ov || hasb (ds_attr ds) DF_Ob
    then read_imm m (hasb (opstate ds) OPSTATE_ADDR32) ds else ds in
  if hasb (ds_attr ds) (Z.lor DF_Jv DF_Ap)
  then read_imm m (hasb (opstate ds) OPSTATE_DATA32) ds else ds.

(** Immediates, in the order of the source. *)
Definition fetch_imm (m : mem) (ds : decode_t) : decode_t :=
  let ds :=
    if hasb (ds_attr ds) DF_Iw then
      let ds := READ_IN_NEXT_WORD m ds in set_imm16 (s32 (b ds)) ds
    else ds in
  let ds :=
    if hasb (ds_attr ds) DF_Ib || hasb (ds_attr ds) DF_Jb then
      let ds := READ_IN_NEXT_BYTE m ds in set_immediate (s8 (b ds)) ds
    else ds in
  let ds := fetch_iv m ds in
  if hasb (ds_attr ds) DF_Ap then
    let ds := READ_IN_NEXT_WORD m ds in set_imm16 (s32 (b ds)) ds
  else ds.

(** The final assignments and the return value. *)
Definition finish (m : mem) (pe : OpCode) (ds : decode_t) : bool * decode_t :=
  let ds := set_pInstr (ldub_code m (decode_eip ds)) ds in
  let ds := set_emitfn (ptr pe) ds in
  let ds := set_pEntry (Some pe) ds in
  if hasb (ds_attr ds) DF_UNDEFINED then (false, ds)
  else if decide (ptr pe = NULL) then (false, ds)
  else (true, set_ds_inst_type (Some (inst_type pe)) ds).

Definition simple_disas_insn (fuel : nat) (m : mem) (ds : decode_t) (pc : Z)
  : res (bool * decode_t) :=
  let? ds := prefix_loop fuel m (init_ds ds pc) in
  let ds := set_instr (decode_eip ds) ds in
  let? r := opcode_loop 2 m nopbyte0 ds in
  let '(wierd, pe, ds) := r in
  let? r := fetch_modrm m wierd pe ds in
  let '(pe, ds) := r in
  let ds := fetch_disp m ds in
  let ds := fetch_imm m ds in
  Ok (finish m pe ds).
