(* ===== verification/DecodeSpec.v ===== *)
(** What the decoder promises: the shape of the opcode tables, a format for
    i386 instructions ([insn], [encode]) and the round trip through
    [simple_disas_insn]. *)

From S2P Require Import Prelude Memory Opcode DecodeTable Decode.

(** ** Shape of the opcode tables *)

Definition is_prefix (c : Z) : bool :=
  existsb (Z.eqb c) [HD_PREFIX_LOCK; HD_PREFIX_REPZ; HD_PREFIX_REPNZ;
    HD_PREFIX_CS; HD_PREFIX_DS; HD_PREFIX_ES; HD_PREFIX_FS; HD_PREFIX_GS;
    HD_PREFIX_SS; HD_PREFIX_OPSZ; HD_PREFIX_ADDRSZ].

Definition arg_is (mo info : Z) (e : OpCode) : bool :=
  existsb (fun a => (amode a =? mo) && (ainfo a =? info)) (args e).

Definition arg_modrm (e : OpCode) : bool :=
  existsb (fun a => existsb (Z.eqb (amode a))
    [ADDR_E; ADDR_G; ADDR_seg_reg; ADDR_R; ADDR_C; ADDR_D; ADDR_T]) (args e).

(** The attribute bits that say which bytes follow the opcode. *)
Definition operand_mask : Z :=
  0x1 + 0x2 + 0x8 + 0x10 + 0x40 + 0x80 + 0x4000 + 0x8000.

(** The same bits, computed from the operand columns. *)
Definition operand_attr (e : OpCode) : Z :=
  (if arg_modrm e then DF_MODRM else 0) +
  (if arg_is ADDR_imm b_mode e || arg_is ADDR_jmp b_mode e then DF_Ib else 0) +
  (if arg_is ADDR_imm v_mode e then DF_Iv else 0) +
  (if arg_is ADDR_jmp v_mode e then DF_Jv else 0) +
  (if arg_is ADDR_imm w_mode e then DF_Iw else 0) +
  (if arg_is ADDR_offset b_mode e then DF_Ob else 0) +
  (if arg_is ADDR_offset v_mode e then DF_Ov else 0) +
  (if arg_is ADDR_direct p_mode e then DF_Ap else 0).

Definition inst_type_of (f : emit_fn) : inst_ty :=
  match f with
  | fn_emit_normal => INST_NORMAL
  | fn_emit_int => INST_INT
  | fn_emit_sysenter => INST_SYSENTER
  | fn_emit_jcond => INST_JCOND
  | fn_emit_other_jcond => INST_OTHER_JCOND
  | fn_emit_jmp => INST_JMP
  | fn_emit_jmp_near_mem => INST_JMP_IND
  | fn_emit_call_disp => INST_CALL
  | fn_emit_call_near_mem => INST_CALL_IND
  | fn_emit_ret => INST_RET
  | fn_emit_ret_Iw => INST_RET_IW
  end.

Definition is_branch_fn (f : emit_fn) : bool :=
  match f with fn_emit_normal | fn_emit_int | fn_emit_sysenter => false | _ => true end.

Definition level_mask : Z :=
  DF_TABLE + DF_GROUP + DF_FLOAT + DF_ONE_MORE_LEVEL + DF_PREFIX.

(** At most one immediate of operand or address size. *)
Definition imm_excl (at_ : Z) : bool :=
  let iv := hasb at_ DF_Iv in
  let o := hasb at_ DF_Ov || hasb at_ DF_Ob in
  let j := hasb at_ (Z.lor DF_Jv DF_Ap) in
  negb (iv && o) && negb (iv && j) && negb (o && j).

(** The handler agrees with the columns next to it. *)
Definition leaf_ok (e : OpCode) : bool :=
  (Z.land (attr e) level_mask =? 0) && imm_excl (attr e) &&
  match ptr e with
  | NULL => hasb (attr e) DF_UNDEFINED
  | Emit f =>
      eqb (hasb (attr e) DF_BRANCH) (is_branch_fn f) &&
      (bool_decide (inst_type e = inst_type_of f) ||
       (hasb (attr e) DF_UNDEFINED && bool_decide (f = fn_emit_normal)))
  | Tab _ => false
  end.

(** [DF_GROUP]: eight leaves. *)
Definition group_ok (e : OpCode) : bool :=
  (attr e =? DF_GROUP) &&
  match ptr e with
  | Tab t => (length (table_of t) =? 8)%nat && forallb leaf_ok (table_of t)
  | _ => false
  end.

(** Entries 8..15 of an x87 table (a register operand). *)
Definition float_reg_ok (e : OpCode) : bool :=
  leaf_ok e ||
  ((attr e =? DF_ONE_MORE_LEVEL) &&
   match ptr e with
   | Tab t => (length (table_of t) =? 8)%nat && forallb leaf_ok (table_of t)
   | _ => false
   end).

Definition float_ok (e : OpCode) : bool :=
  (attr e =? DF_FLOAT) &&
  match ptr e with
  | Tab t => (length (table_of t) =? 16)%nat &&
             forallb leaf_ok (take 8 (table_of t)) &&
             forallb float_reg_ok (drop 8 (table_of t))
  | _ => false
  end.

Definition two_byte_ok (e : OpCode) : bool := leaf_ok e || group_ok e.

Definition one_byte_ok (i : Z) (e : OpCode) : bool :=
  if is_prefix i then attr e =? DF_PREFIX
  else if i =? 0x0f then (attr e =? DF_TABLE) && bool_decide (ptr e = Tab T_twoByteOpcodes)
  else leaf_ok e || group_ok e || float_ok e.

Definition all_tables : list table_id :=
  [T_group1_Eb_Ib; T_group1_Ev_Iv; T_group1_Ev_Ib; T_group2a_Eb_Ib; T_group2a_Ev_Ib;
   T_group2_Eb_1; T_group2_Ev_1; T_group2_Eb_CL; T_group2_Ev_CL; T_group3b; T_group3v;
   T_ngroup4; T_ngroup5; T_ngroup6; T_ngroup7; T_group8_Ev_Ib; T_ngroup9;
   T_twoByteOpcodes; T_nopbyte0; T_float_d8; T_float_d9; T_float_d9_2; T_float_d9_4;
   T_float_d9_5; T_float_d9_6; T_float_d9_7; T_float_da; T_float_da_5; T_float_db;
   T_float_db_4; T_float_dc; T_float_dd; T_float_de; T_float_de_3; T_float_df; T_float_df_4].

(** The operand bits follow from the operand columns, and the entry's [index]
    (the source's sanity check) is its position but in one place. *)
Definition row_ok (t : table_id) (i : nat) (e : OpCode) : bool :=
  (Z.land (attr e) operand_mask =? operand_attr e) &&
  ((index e =? Z.of_nat i) || (bool_decide (t = T_group3v) && (i =? 7)%nat)).

Definition table_ok (t : table_id) : bool :=
  forallb id (imap (row_ok t) (table_of t)).

(** ** Instructions and their encoding *)

Record insn := Insn {
  i_prefixes : list Z;
  i_two : bool;            (* a 0F escape byte *)
  i_op : Z;
  i_modrm : option Z;
  i_sib : option Z;
  i_disp : list Z;
  i_iw : list Z;           (* imm16 of ENTER, RET, LRET *)
  i_ib : list Z;           (* imm8 / rel8 *)
  i_iv : list Z;           (* immediate, offset or rel of operand/address size *)
  i_sel : list Z }.        (* selector of a far pointer *)

Definition opt_list (o : option Z) : list Z := match o with Some x => [x] | None => [] end.

Definition opcode_bytes (i : insn) : list Z :=
  if i_two i then [0x0f; i_op i] else [i_op i].

Definition encode (i : insn) : list Z :=
  i_prefixes i ++ opcode_bytes i ++ opt_list (i_modrm i) ++ opt_list (i_sib i) ++
  i_disp i ++ i_iw i ++ i_ib i ++ i_iv i ++ i_sel i.

(** Number of [c] among the prefixes, modulo 2: each one toggles the size. *)
Definition toggled (c : Z) (ps : list Z) : bool :=
  fold_left (fun r p => if p =? c then negb r else r) ps false.

Definition data32 (i : insn) : bool := negb (toggled HD_PREFIX_OPSZ (i_prefixes i)).
Definition addr32 (i : insn) : bool := negb (toggled HD_PREFIX_ADDRSZ (i_prefixes i)).

(** The entry the opcode and the ModR/M byte select, with the accumulated
    attributes. *)
Definition select (i : insn) : option (OpCode * Z) :=
  e ← (if i_two i then twoByteOpcodes else nopbyte0) !! Z.to_nat (i_op i);
  match ptr e, i_modrm i with
  | Tab t, Some mb =>
      if hasb (attr e) DF_GROUP then
        g ← table_of t !! Z.to_nat (modrm_reg mb);
        Some (g, Z.lor (attr e) (attr g))
      else if modrm_mod mb =? 3 then
        f ← table_of t !! Z.to_nat (modrm_reg mb + 8);
        match ptr f with
        | Tab t' => g ← table_of t' !! Z.to_nat (modrm_rm mb); Some (g, attr g)
        | _ => Some (f, attr f)
        end
      else
        f ← table_of t !! Z.to_nat (modrm_reg mb);
        Some (f, attr f)
  | Tab _, None => None
  | _, _ => Some (e, attr e)
  end.

(** The opcode entry asks for a ModR/M byte. *)
Definition wants_modrm (i : insn) : bool :=
  match (if i_two i then twoByteOpcodes else nopbyte0) !! Z.to_nat (i_op i) with
  | Some e => hasb (attr e) (Z.lor (Z.lor DF_MODRM DF_GROUP) DF_FLOAT)
  | None => false
  end.

(** The ModR/M byte addresses memory or a register through SIB/displacement. *)
Definition has_rm (at_ : Z) : bool := hasb at_ (Z.lor DF_MODRM DF_GROUP).

Definition wants_sib (a32 : bool) (at_ mb : Z) : bool :=
  has_rm at_ && a32 && negb (modrm_mod mb =? 3) && (modrm_rm mb =? 4).

Definition disp_len (a32 : bool) (at_ mb : Z) (sb : option Z) : nat :=
  if negb (has_rm at_) then 0 else
  let md := modrm_mod mb in let rm := modrm_rm mb in
  if md =? 1 then 1
  else if md =? 2 then (if a32 then 4 else 2)
  else if md =? 0 then
    if a32 then
      if rm =? 5 then 4
      else match sb with Some s => if sib_base s =? 5 then 4 else 0 | None => 0 end
    else if rm =? 6 then 2 else 0
  else 0.

Definition iv_len (d32 a32 : bool) (at_ : Z) : nat :=
  if hasb at_ DF_Iv then (if d32 then 4 else 2)
  else if hasb at_ DF_Ov || hasb at_ DF_Ob then (if a32 then 4 else 2)
  else if hasb at_ (Z.lor DF_Jv DF_Ap) then (if d32 then 4 else 2)
  else 0.

Definition is_byte (x : Z) : bool := (0 <=? x) && (x <? 256).

(** Well-formed instructions; all the checks are computable. *)
Definition wf_insn (i : insn) : bool :=
  forallb is_prefix (i_prefixes i) &&
  forallb is_byte (encode i) &&
  (i_two i || negb (is_prefix (i_op i) || (i_op i =? 0x0f))) &&
  eqb (wants_modrm i) (match i_modrm i with Some _ => true | None => false end) &&
  match select i with
  | None => false
  | Some (_, at_) =>
      let mb := default 0 (i_modrm i) in
      eqb (wants_sib (addr32 i) at_ mb)
          (match i_sib i with Some _ => true | None => false end) &&
      (length (i_disp i) =? disp_len (addr32 i) at_ mb (i_sib i))%nat &&
      (length (i_iw i) =? (if hasb at_ DF_Iw then 2 else 0))%nat &&
      (length (i_ib i) =? (if hasb at_ DF_Ib then 1 else 0))%nat &&
      (length (i_iv i) =? iv_len (data32 i) (addr32 i) at_)%nat &&
      (length (i_sel i) =? (if hasb at_ DF_Ap then 2 else 0))%nat
  end.

(** The bytes at an address. *)
Definition at_bytes (m : mem) (a : Z) (bs : list Z) : Prop :=
  read_bytes m a (length bs) = bs.

(** Little-endian value of a short list. *)
Fixpoint le_val (l : list Z) : Z :=
  match l with [] => 0 | x :: l' => x + 256 * le_val l' end.

(** ** Masks *)

Lemma hasb_lor x k1 k2 : hasb x (Z.lor k1 k2) = hasb x k1 || hasb x k2.
Proof.
  unfold hasb. rewrite Z.land_lor_distr_r, <- negb_andb. f_equal.
  apply eq_true_iff_eq. rewrite andb_true_iff, !Z.eqb_eq. apply Z.lor_eq_0_iff.
Qed.

Lemma hasb_lor_l x y k : hasb (Z.lor x y) k = hasb x k || hasb y k.
Proof.
  unfold hasb. rewrite Z.land_lor_distr_l, <- negb_andb. f_equal.
  apply eq_true_iff_eq. rewrite andb_true_iff, !Z.eqb_eq. apply Z.lor_eq_0_iff.
Qed.

(** A bit inside a cleared mask is clear. *)
Lemma hasb_cleared x mask k : Z.land x mask = 0 -> Z.land mask k = k -> hasb x k = false.
Proof.
  intros H <-. unfold hasb. now rewrite Z.land_assoc, H, Z.land_0_l.
Qed.

(** ** The tables, entry by entry *)

Lemma all_tables_complete t : t ∈ all_tables.
Proof. destruct t; unfold all_tables; set_solver. Qed.

Lemma forallb_imap_lookup {A} (f : nat -> A -> bool) l i x :
  forallb id (imap f l) = true -> l !! i = Some x -> f i x = true.
Proof.
  rewrite forallb_forall. intros H Hi. apply H.
  apply list_elem_of_In, list_elem_of_lookup. exists i.
  now rewrite list_lookup_imap, Hi.
Qed.

Lemma forallb_lookup {A} (f : A -> bool) l i x :
  forallb f l = true -> l !! i = Some x -> f x = true.
Proof.
  rewrite forallb_forall. intros H Hi.
  apply H, list_elem_of_In, list_elem_of_lookup. eauto.
Qed.

Lemma lookup_total_in {A} (l : list A) (i : Z) n :
  length l = n -> 0 <= i < Z.of_nat n -> exists x, l !! Z.to_nat i = Some x.
Proof. intros <- H. apply lookup_lt_is_Some. lia. Qed.

Lemma nopbyte0_entry c :
  0 <= c < 256 ->
  exists e, nopbyte0 !! Z.to_nat c = Some e /\ one_byte_ok c e = true.
Proof.
  intros H. destruct (lookup_total_in nopbyte0 c 256 eq_refl H) as [e He].
  exists e. split; [done|].
  assert (T : forallb id (imap (fun n e => one_byte_ok (Z.of_nat n) e) nopbyte0) = true)
    by (vm_compute; reflexivity).
  pose proof (forallb_imap_lookup _ _ _ _ T He) as K. simpl in K.
  now rewrite Z2Nat.id in K by lia.
Qed.

Lemma twoByte_entry c :
  0 <= c < 256 ->
  exists e, twoByteOpcodes !! Z.to_nat c = Some e /\ two_byte_ok e = true.
Proof.
  intros H. destruct (lookup_total_in twoByteOpcodes c 256 eq_refl H) as [e He].
  exists e. split; [done|].
  assert (T : forallb two_byte_ok twoByteOpcodes = true) by (vm_compute; reflexivity).
  exact (forallb_lookup _ _ _ _ T He).
Qed.

Lemma entry_ok t c e : 0 <= c -> t !! Z.to_nat c = Some e -> entry t c = Ok e.
Proof.
  intros H E. unfold entry. destruct (c <? 0) eqn:F; [lia|]. now rewrite E.
Qed.

Lemma leaf_ok_bits e k :
  leaf_ok e = true -> Z.land level_mask k = k -> hasb (attr e) k = false.
Proof.
  unfold leaf_ok. intros H. apply andb_true_iff in H as [H _].
  apply andb_true_iff in H as [H _]. apply Z.eqb_eq in H. now apply hasb_cleared.
Qed.

Lemma leaf_ok_imm e : leaf_ok e = true -> imm_excl (attr e) = true.
Proof. unfold leaf_ok. rewrite !andb_true_iff. tauto. Qed.

Lemma leaf_ok_ptr e t : leaf_ok e = true -> ptr e <> Tab t.
Proof. unfold leaf_ok. intros H E. rewrite E, andb_false_r in H. done. Qed.

Lemma group_ok_inv e :
  group_ok e = true ->
  attr e = DF_GROUP /\
  exists t, ptr e = Tab t /\ length (table_of t) = 8%nat /\ forallb leaf_ok (table_of t) = true.
Proof.
  unfold group_ok. intros H. apply andb_true_iff in H as [H1 H2].
  apply Z.eqb_eq in H1. split; [done|]. destruct (ptr e) as [| |t]; try done.
  apply andb_true_iff in H2 as [H2 H3]. apply Nat.eqb_eq in H2. eauto.
Qed.

Lemma float_ok_inv e :
  float_ok e = true ->
  attr e = DF_FLOAT /\
  exists t, ptr e = Tab t /\ length (table_of t) = 16%nat /\
    forallb leaf_ok (take 8 (table_of t)) = true /\
    forallb float_reg_ok (drop 8 (table_of t)) = true.
Proof.
  unfold float_ok. intros H. apply andb_true_iff in H as [H1 H2].
  apply Z.eqb_eq in H1. split; [done|]. destruct (ptr e) as [| |t]; try done.
  rewrite !andb_true_iff in H2. destruct H2 as [[H2 H3] H4].
  apply Nat.eqb_eq in H2. eauto 6.
Qed.

Lemma float_mem_entry t r :
  length (table_of t) = 16%nat -> forallb leaf_ok (take 8 (table_of t)) = true ->
  0 <= r < 8 ->
  exists f, table_of t !! Z.to_nat r = Some f /\ leaf_ok f = true.
Proof.
  intros L F R. destruct (lookup_total_in (table_of t) r 16 L) as [f Hf]; [lia|].
  exists f. split; [done|]. apply (forallb_lookup _ _ (Z.to_nat r) _ F).
  rewrite lookup_take_lt by lia. done.
Qed.

Lemma float_reg_entry t r :
  length (table_of t) = 16%nat -> forallb float_reg_ok (drop 8 (table_of t)) = true ->
  0 <= r < 8 ->
  exists f, table_of t !! Z.to_nat (r + 8) = Some f /\
    (leaf_ok f = true \/
     attr f = DF_ONE_MORE_LEVEL /\
     exists t', ptr f = Tab t' /\ length (table_of t') = 8%nat /\
       forallb leaf_ok (table_of t') = true).
Proof.
  intros L F R. destruct (lookup_total_in (table_of t) (r + 8) 16 L) as [f Hf]; [lia|].
  exists f. split; [done|].
  assert (K : float_reg_ok f = true).
  { apply (forallb_lookup _ _ (Z.to_nat r) _ F). rewrite lookup_drop.
    replace (8 + Z.to_nat r)%nat with (Z.to_nat (r + 8)) by lia. done. }
  unfold float_reg_ok in K. apply orb_true_iff in K as [K|K]; [auto|right].
  apply andb_true_iff in K as [K1 K2]. apply Z.eqb_eq in K1. split; [done|].
  destruct (ptr f) as [| |t']; try done.
  apply andb_true_iff in K2 as [K2 K3]. apply Nat.eqb_eq in K2. eauto.
Qed.

Lemma table8_entry t r :
  length (table_of t) = 8%nat -> forallb leaf_ok (table_of t) = true -> 0 <= r < 8 ->
  exists g, table_of t !! Z.to_nat r = Some g /\ leaf_ok g = true.
Proof.
  intros L F R. destruct (lookup_total_in (table_of t) r 8 L) as [g Hg]; [lia|].
  exists g. split; [done|]. exact (forallb_lookup _ _ _ _ F Hg).
Qed.

Lemma land7_range x : 0 <= Z.land x 7 < 8.
Proof. change 7 with (Z.ones 3). rewrite Z.land_ones by lia. apply Z.mod_pos_bound; lia. Qed.

Lemma modrm_reg_range x : 0 <= modrm_reg x < 8.
Proof. apply land7_range. Qed.
Lemma modrm_rm_range x : 0 <= modrm_rm x < 8.
Proof. apply land7_range. Qed.
Lemma modrm_mod_range x : 0 <= modrm_mod x < 4.
Proof.
  unfold modrm_mod. change 3 with (Z.ones 2). rewrite Z.land_ones by lia.
  apply Z.mod_pos_bound; lia.
Qed.

(** ** Bytes at an address *)

Lemma at_bytes_app m a x y :
  at_bytes m a (x ++ y) <-> at_bytes m a x /\ at_bytes m (a + Z.of_nat (length x)) y.
Proof.
  unfold at_bytes. rewrite length_app, read_bytes_app. split.
  - intros H. apply app_inj_1 in H; [done|]. apply read_bytes_length.
  - intros [-> ->]. done.
Qed.

Lemma at_bytes_cons m a x y : at_bytes m a (x :: y) <-> ld8 m a = x /\ at_bytes m (a + 1) y.
Proof.
  unfold at_bytes. cbn [length read_bytes]. split.
  - intros H. injection H as H1 H2. done.
  - intros [-> ->]. done.
Qed.

Lemma at_bytes_nil m a : at_bytes m a [].
Proof. done. Qed.

Lemma at_bytes_read m a n : at_bytes m a (read_bytes m a n).
Proof. unfold at_bytes. now rewrite read_bytes_length. Qed.

Lemma at_bytes_ext m m' a bs :
  (forall x, a <= x < a + Z.of_nat (length bs) -> m' !! x = m !! x) ->
  at_bytes m a bs -> at_bytes m' a bs.
Proof. unfold at_bytes. intros H <-. rewrite read_bytes_length. now apply read_bytes_ext. Qed.

Lemma at_bytes_write m a bs : at_bytes (write_bytes a bs m) a (map u8 bs).
Proof. unfold at_bytes. rewrite length_map. apply read_write_bytes. Qed.

(** The little-endian word at an address. *)
Lemma read_le32 m a : read_bytes m a 4 = le32 (ld32 m a).
Proof.
  unfold ld32, ld16, le32. cbn [read_bytes].
  pose proof (ld8_range m a). pose proof (ld8_range m (a + 1)).
  pose proof (ld8_range m (a + 2)). pose proof (ld8_range m (a + 2 + 1)).
  replace (a + 1 + 1) with (a + 2) by lia. unfold u8.
  repeat f_equal; Z.div_mod_to_equations; lia.
Qed.

Lemma at_bytes_ld32_val m a v : at_bytes m a (le32 v) -> ld32 m a = u32 v.
Proof. unfold at_bytes. rewrite length_le32, ld32_read_bytes. intros ->. apply of_le32_le32. Qed.

Lemma at_bytes_ld32 m a : at_bytes m a (le32 (ld32 m a)).
Proof. unfold at_bytes. rewrite length_le32. apply read_le32. Qed.

