(* ===== verification/DecodeProofs.v ===== *)
(** Proofs about the decoder: stage lemmas, then the round trip, totality and
    the properties of the tables. *)

From S2P Require Import Prelude Memory Opcode DecodeTable Decode DecodeSpec.

(** ** Specification vocabulary *)

(** The operand/address-size state word. *)
Definition ops (d32 a32 : bool) : Z :=
  Z.lor (if d32 then OPSTATE_DATA32 else OPSTATE_DATA16)
        (if a32 then OPSTATE_ADDR32 else OPSTATE_ADDR16).

Definition toggle (c : Z) (ps : list Z) (r : bool) : bool :=
  fold_left (fun r p => if p =? c then negb r else r) ps r.

(** The prefix group of a byte and the flag it sets. *)
Definition prefix_flag (p : Z) : Z :=
  if existsb (Z.eqb p) [HD_PREFIX_LOCK; HD_PREFIX_REPZ; HD_PREFIX_REPNZ] then DSFL_GROUP1_PREFIX
  else if p =? HD_PREFIX_OPSZ then DSFL_GROUP3_PREFIX
  else if p =? HD_PREFIX_ADDRSZ then DSFL_GROUP4_PREFIX
  else DSFL_GROUP2_PREFIX.

Definition prefix_flags (ps : list Z) (f : Z) : Z :=
  fold_left (fun f p => Z.lor f (prefix_flag p)) ps f.

(** The segment override in force: the last one. *)
Definition seg_override (ps : list Z) (g : Z) : Z :=
  fold_left (fun g p => if prefix_flag p =? DSFL_GROUP2_PREFIX then p else g) ps g.

(** What the prefix loop leaves alone or computes; the later stages preserve
    all of it. *)
Record scanned (i : insn) (ds : decode_t) : Prop := {
  sc_opstate : opstate ds = ops (data32 i) (addr32 i);
  sc_flags : flags ds = prefix_flags (i_prefixes i) 0;
  sc_seg : Group2_Prefix ds = seg_override (i_prefixes i) 0 }.

(** ** Fetching *)

Section Fetch.
  Context (m : mem) (ds : decode_t) (a : Z).
  Hypothesis Heip : decode_eip ds = u32 a.
  Hypothesis Ha : 0 <= a < 4294967296.

Lemma fetch_ub : ldub_code m (decode_eip ds) = ld8 m a.
  Proof. unfold ldub_code. now rewrite Heip, u32_u32, u32_small. Qed.

Lemma next_eip n : u32 (decode_eip ds + n) = u32 (a + n).
  Proof. now rewrite Heip, u32_add_l. Qed.

Lemma read_byte x : ld8 m a = x ->
    READ_IN_NEXT_BYTE m ds = set_decode_eip (u32 (a + 1)) (set_b x ds).
  Proof.
    intros H. unfold READ_IN_NEXT_BYTE. rewrite fetch_ub, H. f_equal. apply next_eip.
  Qed.

Lemma read_word bs : length bs = 2%nat -> at_bytes m a bs ->
    READ_IN_NEXT_WORD m ds = set_decode_eip (u32 (a + 2)) (set_b (le_val bs) ds).
  Proof.
    intros L H. destruct bs as [|x [|y []]]; try discriminate.
    rewrite !at_bytes_cons in H. destruct H as (H1 & H2 & _).
    unfold READ_IN_NEXT_WORD, lduw_code, ld16. rewrite Heip, u32_u32, (u32_small a) by lia.
    rewrite H1, H2. replace (le_val [x; y]) with (x + 256 * y) by (cbn [le_val]; lia).
    f_equal. cbn. now rewrite Heip, u32_add_l.
  Qed.

Lemma read_long bs : length bs = 4%nat -> at_bytes m a bs ->
    READ_IN_NEXT_LONG m ds = set_decode_eip (u32 (a + 4)) (set_b (le_val bs) ds).
  Proof.
    intros L H. destruct bs as [|x [|y [|z [|w []]]]]; try discriminate.
    rewrite !at_bytes_cons in H. destruct H as (H1 & H2 & H3 & H4 & _).
    unfold READ_IN_NEXT_LONG, ldl_code, ld32, ld16.
    rewrite Heip, u32_u32, (u32_small a) by lia.
    replace (a + 1 + 1) with (a + 2) in * by lia.
    rewrite H1, H2, H3, H4.
    replace (le_val [x; y; z; w]) with (x + 256 * y + 65536 * (z + 256 * w)) by (cbn [le_val]; lia).
    f_equal. cbn. now rewrite Heip, u32_add_l.
  Qed.
End Fetch.

(** ** Prefixes *)

Lemma toggle_negb c ps : forall r, toggle c ps (negb r) = negb (toggle c ps r).
Proof.
  unfold toggle. induction ps as [|p ps IH]; intros r; simpl; [done|].
  destruct (p =? c); apply IH.
Qed.

Lemma is_prefix_attr c e :
  one_byte_ok c e = true -> hasb (attr e) DF_PREFIX = is_prefix c.
Proof.
  unfold one_byte_ok. destruct (is_prefix c).
  - intros H. apply Z.eqb_eq in H. now rewrite H.
  - destruct (c =? 0x0f).
    + intros H. apply andb_true_iff in H as [H _]. apply Z.eqb_eq in H. now rewrite H.
    + rewrite !orb_true_iff. intros [[H|H]|H].
      * now apply leaf_ok_bits.
      * apply group_ok_inv in H as [-> _]. done.
      * apply float_ok_inv in H as [-> _]. done.
Qed.

Lemma ops_bits d a :
  hasb (ops d a) OPSTATE_ADDR32 = a /\ hasb (ops d a) OPSTATE_DATA32 = d /\
  Z.lxor (ops d a) OPSTATE_DATA32 = ops (negb d) a /\
  Z.lxor (ops d a) OPSTATE_ADDR32 = ops d (negb a).
Proof. destruct d, a; done. Qed.

(** One prefix byte. *)
Lemma prefix_switch_spec ds d a :
  is_prefix (b ds) = true -> opstate ds = ops d a ->
  let ds' := prefix_switch ds in
  opstate ds' = ops (toggle HD_PREFIX_OPSZ [b ds] d) (toggle HD_PREFIX_ADDRSZ [b ds] a) /\
  flags ds' = Z.lor (flags ds) (prefix_flag (b ds)) /\
  Group2_Prefix ds' = seg_override [b ds] (Group2_Prefix ds) /\
  decode_eip ds' = decode_eip ds /\ need_sib ds' = need_sib ds /\ dispBytes ds' = dispBytes ds.
Proof.
  destruct (ops_bits d a) as (_ & _ & HD & HA).
  unfold is_prefix. simpl. rewrite !orb_true_iff, !Z.eqb_eq.
  intros H O. unfold prefix_switch.
  repeat (destruct H as [H|H]; [rewrite H; simpl; rewrite ?O, ?HD, ?HA; auto 10|]).
  done.
Qed.

Lemma prefix_loop_run m c : forall ps fuel ds a d32 a32,
  forallb is_prefix ps = true -> is_prefix c = false ->
  at_bytes m a (ps ++ [c]) -> 0 <= a -> a + Z.of_nat (length ps) < 4294967296 ->
  decode_eip ds = u32 a -> opstate ds = ops d32 a32 -> (length ps < fuel)%nat ->
  exists ds', prefix_loop fuel m ds = Ok ds' /\
    decode_eip ds' = u32 (a + Z.of_nat (length ps)) /\
    opstate ds' = ops (toggle HD_PREFIX_OPSZ ps d32) (toggle HD_PREFIX_ADDRSZ ps a32) /\
    flags ds' = prefix_flags ps (flags ds) /\
    Group2_Prefix ds' = seg_override ps (Group2_Prefix ds) /\
    need_sib ds' = need_sib ds /\ dispBytes ds' = dispBytes ds.
Proof.
  induction ps as [|p ps IH]; intros fuel ds a d32 a32 Hps Hc Hb Ha Hl Heip Hop Hf;
    (destruct fuel as [|fuel]; [simpl in Hf; lia|]); cbn [length] in *;
    cbn [app] in Hb; apply at_bytes_cons in Hb as [Hb Hb'];
    cbn [prefix_loop]; rewrite (fetch_ub m ds a) by (done || lia); rewrite Hb; cbn [set_b b].
  - assert (Rc : 0 <= c < 256) by (rewrite <- Hb; apply ld8_range).
    destruct (nopbyte0_entry c Rc) as (e & He & Hok).
    rewrite (entry_ok nopbyte0 c e) by (done || lia).
    cbn [res_bind set_ds_attr ds_attr]. rewrite (is_prefix_attr c e Hok), Hc. cbn [negb].
    eexists; split; [done|]. simpl. rewrite Heip. repeat split; try done. f_equal; lia.
  - cbn [forallb] in Hps. apply andb_true_iff in Hps as [Hp Hps].
    assert (Rc : 0 <= p < 256) by (rewrite <- Hb; apply ld8_range).
    destruct (nopbyte0_entry p Rc) as (e & He & Hok).
    rewrite (entry_ok nopbyte0 p e) by (done || lia).
    cbn [res_bind set_ds_attr ds_attr]. rewrite (is_prefix_attr p e Hok), Hp. cbn [negb].
    match goal with |- context [prefix_switch ?d] =>
      destruct (prefix_switch_spec d d32 a32 Hp Hop) as (O & F & G & E & N & D);
      set (ds1 := prefix_switch d) in * end.
    destruct (IH fuel (set_decode_eip (u32 (decode_eip ds1 + 1)) ds1) (a + 1)
                (toggle HD_PREFIX_OPSZ [p] d32) (toggle HD_PREFIX_ADDRSZ [p] a32))
      as (ds' & R & E' & O' & F' & G' & N' & D'); try done; try lia.
    { cbn. rewrite E. cbn. now rewrite Heip, u32_add_l. }
    exists ds'. split; [done|]. repeat split.
    + rewrite E'. f_equal; lia.
    + exact O'.
    + rewrite F'. cbn. rewrite F. done.
    + rewrite G'. cbn. rewrite G. done.
    + rewrite N'. exact N.
    + rewrite D'. exact D.
Qed.

(** ** Opcode bytes, ModR/M byte, groups *)

(** The fields the opcode and operand stages do not touch. *)
Definition kept (ds : decode_t) :=
  (opstate ds, flags ds, Group2_Prefix ds, instr ds).

Definition opcode_entry (i : insn) : option OpCode :=
  (if i_two i then twoByteOpcodes else nopbyte0) !! Z.to_nat (i_op i).

(** The kinds of opcode entry. *)
Lemma opcode_entry_cases i :
  0 <= i_op i < 256 -> (i_two i || negb (is_prefix (i_op i) || (i_op i =? 0x0f))) = true ->
  exists e, opcode_entry i = Some e /\
    (leaf_ok e = true \/ group_ok e = true \/ i_two i = false /\ float_ok e = true).
Proof.
  intros R H. unfold opcode_entry. destruct (i_two i).
  - destruct (twoByte_entry _ R) as (e & He & K). exists e. split; [done|].
    apply orb_true_iff in K as [K|K]; auto.
  - destruct (nopbyte0_entry _ R) as (e & He & K). exists e. split; [done|].
    simpl in H. apply negb_true_iff, orb_false_iff in H as [H1 H2].
    unfold one_byte_ok in K. rewrite H1, H2, !orb_true_iff in K. tauto.
Qed.

Section Opcode.
  Context (m : mem) (i : insn) (e : OpCode).
  Hypothesis He : opcode_entry i = Some e.

Lemma select_unfold :
    select i =
    match ptr e, i_modrm i with
    | Tab t, Some mb =>
        if hasb (attr e) DF_GROUP then
          g ← table_of t !! Z.to_nat (modrm_reg mb); Some (g, Z.lor (attr e) (attr g))
        else if modrm_mod mb =? 3 then
          f ← table_of t !! Z.to_nat (modrm_reg mb + 8);
          match ptr f with
          | Tab t' => g ← table_of t' !! Z.to_nat (modrm_rm mb); Some (g, attr g)
          | _ => Some (f, attr f)
          end
        else f ← table_of t !! Z.to_nat (modrm_reg mb); Some (f, attr f)
    | Tab _, None => None
    | _, _ => Some (e, attr e)
    end.
  Proof. unfold select. unfold opcode_entry in He. now rewrite He. Qed.

Lemma select_leaf : leaf_ok e = true -> select i = Some (e, attr e).
  Proof.
    intros L. rewrite select_unfold. pose proof (leaf_ok_ptr e) as P.
    destruct (ptr e); try done. now destruct (P t).
  Qed.

Lemma wants_modrm_unfold :
    wants_modrm i = hasb (attr e) (Z.lor (Z.lor DF_MODRM DF_GROUP) DF_FLOAT).
  Proof. unfold wants_modrm. unfold opcode_entry in He. now rewrite He. Qed.

Lemma opcode_fetch_leaf ds a :
    leaf_ok e = true -> decode_eip ds = u32 a -> 0 <= a ->
    a + Z.of_nat (length (opt_list (i_modrm i))) <= 4294967296 ->
    wants_modrm i = (match i_modrm i with Some _ => true | None => false end) ->
    at_bytes m a (opt_list (i_modrm i)) -> ds_attr ds = attr e ->
    exists ds', fetch_modrm m false e ds = Ok (e, ds') /\
      decode_eip ds' = u32 (a + Z.of_nat (length (opt_list (i_modrm i)))) /\
      ds_attr ds' = attr e /\ (forall mb, i_modrm i = Some mb -> modrm ds' = mb) /\
      kept ds' = kept ds /\ need_sib ds' = need_sib ds /\ dispBytes ds' = dispBytes ds.
  Proof.
    intros L E Ha Hl W B A. unfold fetch_modrm. cbn [negb].
    rewrite wants_modrm_unfold, !hasb_lor in W.
    rewrite (leaf_ok_bits e DF_GROUP), (leaf_ok_bits e DF_FLOAT), !orb_false_r in W by done.
    rewrite A, hasb_lor, (leaf_ok_bits e DF_GROUP), orb_false_r by done.
    rewrite W. destruct (i_modrm i) as [mb|]; cbn [opt_list length] in *.
    - apply at_bytes_cons in B as [B _].
      rewrite (read_byte m ds a E ltac:(lia) mb B).
      cbn [set_decode_eip set_b ds_attr]. rewrite A, (leaf_ok_bits e DF_GROUP) by done.
      cbn [res_bind]. ds_simpl. rewrite ?A, W.
      eexists; split; [done|]. cbn. repeat split; try done.
      intros ? [= <-]. rewrite <- B. apply u8_small, ld8_range.
    - rewrite A, (leaf_ok_bits e DF_GROUP) by done. cbn [res_bind]. rewrite A, W.
      eexists; split; [done|]. rewrite E. cbn. repeat split; try done. f_equal; lia.
  Qed.

Lemma opcode_fetch_group ds a mb :
    group_ok e = true -> decode_eip ds = u32 a -> 0 <= a < 4294967296 ->
    i_modrm i = Some mb -> ld8 m a = mb -> ds_attr ds = attr e ->
    exists g ds', select i = Some (g, Z.lor (attr e) (attr g)) /\ leaf_ok g = true /\
      fetch_modrm m false e ds = Ok (g, ds') /\
      decode_eip ds' = u32 (a + 1) /\
      ds_attr ds' = Z.lor (attr e) (attr g) /\ modrm ds' = mb /\
      kept ds' = kept ds /\ need_sib ds' = need_sib ds /\ dispBytes ds' = dispBytes ds.
  Proof.
    intros G E Ha M B A. destruct (group_ok_inv e G) as (Ae & t & P & L8 & F).
    destruct (table8_entry t (modrm_reg mb) L8 F (modrm_reg_range mb)) as (g & Hg & Lg).
    assert (U : u8 mb = mb) by (rewrite <- B; apply u8_small, ld8_range).
    unfold fetch_modrm. cbn [negb].
    rewrite A, Ae. change (hasb DF_GROUP (Z.lor DF_MODRM DF_GROUP)) with true. cbv iota.
    rewrite (read_byte m ds a E Ha mb B). cbn [set_decode_eip set_b ds_attr set_modrm modrm b].
    rewrite A, Ae, P, U. change (hasb DF_GROUP DF_GROUP) with true. cbn [res_bind ptr_table].
    rewrite (entry_ok _ _ g) by (done || apply modrm_reg_range). cbn [res_bind ds_attr].
    exists g. eexists. split; [|split; [done|split; [reflexivity|]]].
    - rewrite select_unfold, P, M, Ae. change (hasb DF_GROUP DF_GROUP) with true. cbv iota.
      now rewrite Hg.
    - cbn. destruct (hasb _ DF_MODRM); cbn; rewrite ?U; done.
  Qed.

Lemma opcode_fetch_float ds a mb :
    float_ok e = true -> decode_eip ds = u32 a -> 0 <= a < 4294967296 ->
    i_modrm i = Some mb -> ld8 m a = mb -> 
    exists f ds1 ds', select i = Some (f, attr f) /\ leaf_ok f = true /\
      float_entry m e ds = Ok (f, ds1) /\ fetch_modrm m true f ds1 = Ok (f, ds') /\
      decode_eip ds' = u32 (a + 1) /\ ds_attr ds' = attr f /\ modrm ds' = mb /\
      kept ds' = kept ds /\ need_sib ds' = need_sib ds /\ dispBytes ds' = dispBytes ds.
  Proof.
    intros G E Ha M B. destruct (float_ok_inv e G) as (Ae & t & P & L16 & F1 & F2).
    assert (U : u8 mb = mb) by (rewrite <- B; apply u8_small, ld8_range).
    unfold float_entry. rewrite P. cbn [ptr_table res_bind].
    rewrite (fetch_ub m ds a E Ha), B. cbn [set_decode_eip set_b set_modrm modrm b ds_attr].
    rewrite U, select_unfold, P, M, Ae. change (hasb DF_FLOAT DF_GROUP) with false. cbv iota.
    assert (FM : forall f d, leaf_ok f = true -> ds_attr d = attr f -> u8 (b d) = modrm d ->
      exists d', fetch_modrm m true f d = Ok (f, d') /\ decode_eip d' = decode_eip d /\
        ds_attr d' = attr f /\ modrm d' = modrm d /\ kept d' = kept d /\
        need_sib d' = need_sib d /\ dispBytes d' = dispBytes d).
    { intros f d Lf Ad Md. unfold fetch_modrm. cbn [negb].
      rewrite Ad, (leaf_ok_bits f DF_GROUP) by done. cbn [res_bind]. rewrite Ad.
      eexists; split; [done|]. destruct (hasb _ DF_MODRM); cbn; done. }
    destruct (modrm_mod mb =? 3).
    - destruct (float_reg_entry t (modrm_reg mb) L16 F2 (modrm_reg_range mb))
        as (f & Hf & [Lf | (Af & t' & P' & L8 & F8)]).
      + rewrite (entry_ok _ _ f) by (done || pose proof (modrm_reg_range mb); lia).
        cbn [res_bind set_ds_attr ds_attr]. rewrite (leaf_ok_bits f DF_ONE_MORE_LEVEL) by done.
        match goal with |- context [Ok (f, ?d)] =>
          destruct (FM f d Lf eq_refl) as (d' & R & E' & X); [cbn; exact U|] end.
        exists f. do 2 eexists. split; [|split; [done|split; [reflexivity|split; [exact R|]]]].
        * rewrite Hf. simpl. pose proof (leaf_ok_ptr f) as N.
          destruct (ptr f); try done. now destruct (N t0).
        * rewrite E'. cbn in *. rewrite E, u32_add_l. done.
      + rewrite (entry_ok _ _ f) by (done || pose proof (modrm_reg_range mb); lia).
        cbn [res_bind set_ds_attr ds_attr]. rewrite Af, P'.
        change (hasb DF_ONE_MORE_LEVEL DF_ONE_MORE_LEVEL) with true. cbn [ptr_table res_bind].
        destruct (table8_entry t' (modrm_rm mb) L8 F8 (modrm_rm_range mb)) as (g & Hg & Lg).
        cbn [modrm]. rewrite (entry_ok _ _ g) by (done || apply modrm_rm_range).
        cbn [res_bind].
        match goal with |- context [Ok (g, ?d)] =>
          destruct (FM g d Lg eq_refl) as (d' & R & E' & X); [cbn; exact U|] end.
        exists g. do 2 eexists. split; [|split; [done|split; [reflexivity|split; [exact R|]]]].
        * rewrite Hf. simpl. rewrite P'. now rewrite Hg.
        * rewrite E'. cbn in *. rewrite E, u32_add_l. done.
    - destruct (float_mem_entry t (modrm_reg mb) L16 F1 (modrm_reg_range mb)) as (f & Hf & Lf).
      rewrite (entry_ok _ _ f) by (done || apply modrm_reg_range). cbn [res_bind].
      match goal with |- context [Ok (f, ?d)] =>
        destruct (FM f d Lf eq_refl) as (d' & R & E' & X); [cbn; exact U|] end.
      exists f. do 2 eexists. split; [|split; [done|split; [reflexivity|split; [exact R|]]]].
      + now rewrite Hf.
      + rewrite E'. cbn in *. rewrite E, u32_add_l. done.
  Qed.
End Opcode.

(** ** SIB byte, displacement, immediates *)

(** The fields the displacement and immediate stages do not touch. *)
Definition kept2 (ds : decode_t) := (kept ds, ds_attr ds, modrm ds).
Definition kept3 (ds : decode_t) :=
  (kept2 ds, sib ds, need_sib ds, dispBytes ds, displacement ds).

Section Operands.
  Context (m : mem).

Lemma read_disp_run ds a bs :
    decode_eip ds = u32 a -> at_bytes m a bs -> 0 <= a ->
    a + Z.of_nat (length bs) <= 4294967296 ->
    dispBytes ds = Z.of_nat (length bs) ->
    (length bs = 0 \/ length bs = 1 \/ length bs = 2 \/ length bs = 4)%nat ->
    decode_eip (read_disp m ds) = u32 (a + Z.of_nat (length bs)) /\
    (bs <> [] -> displacement (read_disp m ds) = s32 (le_val bs)) /\
    kept2 (read_disp m ds) = kept2 ds /\ sib (read_disp m ds) = sib ds /\
    need_sib (read_disp m ds) = need_sib ds /\ dispBytes (read_disp m ds) = dispBytes ds.
  Proof.
    intros E B Ha Hl D L. unfold read_disp. rewrite D.
    destruct L as [L | [L | [L | L]]]; rewrite L in *;
      cbv [Z.of_nat Pos.of_succ_nat Pos.succ Z.eqb Z.ltb Z.compare Pos.compare
           Pos.compare_cont Pos.eqb].
    - destruct bs; [|discriminate]. rewrite E. repeat split; try done. f_equal; lia.
    - destruct bs as [|x []]; try discriminate. apply at_bytes_cons in B as [B _].
      rewrite (read_byte m ds a E ltac:(lia) x B). ds_simpl. repeat split; try done.
      intros _. f_equal. cbn [le_val]. lia.
    - rewrite (read_word m ds a E ltac:(lia) bs L B). ds_simpl. repeat split; done.
    - rewrite (read_long m ds a E ltac:(lia) bs L B). ds_simpl. repeat split; done.
  Qed.

Lemma disp_len_cases a32 at_ mb sb :
    (disp_len a32 at_ mb sb = 0 \/ disp_len a32 at_ mb sb = 1 \/
     disp_len a32 at_ mb sb = 2 \/ disp_len a32 at_ mb sb = 4)%nat.
  Proof. unfold disp_len. repeat case_match; auto. Qed.

  (** The displacement length before the SIB byte is seen. *)
Definition disp_len0 (a32 : bool) (mb : Z) : Z :=
    if a32 then
      if (modrm_mod mb =? 0) && (modrm_rm mb =? 5) then 4
      else if modrm_mod mb =? 1 then 1 else if modrm_mod mb =? 2 then 4 else 0
    else
      if (modrm_mod mb =? 0) && (modrm_rm mb =? 6) then 2
      else if modrm_mod mb =? 1 then 1 else if modrm_mod mb =? 2 then 2 else 0.

Lemma modrm_disp_run ds d32 a32 mb :
    opstate ds = ops d32 a32 -> modrm ds = mb -> need_sib ds = false -> dispBytes ds = 0 ->
    modrm_disp ds =
    set_dispBytes (disp_len0 a32 mb)
      (set_need_sib (a32 && negb (modrm_mod mb =? 3) && (modrm_rm mb =? 4)) ds).
  Proof.
    intros O M N D. unfold modrm_disp, disp_len0. rewrite M, O.
    destruct (ops_bits d32 a32) as [-> _].
    destruct ds; ds_simpl_in N; ds_simpl_in D; ds_simpl_in M; subst; ds_simpl.
    destruct a32; cbn [andb].
    - destruct (negb _ && _), ((_ =? 0) && _), (modrm_mod mb =? 1),
        (modrm_mod mb =? 2); done.
    - destruct ((modrm_mod mb =? 0) && _), (modrm_mod mb =? 1),
        (modrm_mod mb =? 2); done.
  Qed.

Lemma fetch_sib_run ds a mb sb :
    decode_eip ds = u32 a -> at_bytes m a (opt_list sb) -> 0 <= a ->
    a + Z.of_nat (length (opt_list sb)) <= 4294967296 -> modrm ds = mb ->
    need_sib ds = (match sb with Some _ => true | None => false end) ->
    let ds' := fetch_sib m ds in
    decode_eip ds' = u32 (a + Z.of_nat (length (opt_list sb))) /\
    kept2 ds' = kept2 ds /\ (forall s, sb = Some s -> sib ds' = s) /\
    need_sib ds' = need_sib ds /\
    dispBytes ds' =
      match sb with
      | Some s => if (sib_base s =? 5) && (modrm_mod mb =? 0) then 4 else dispBytes ds
      | None => dispBytes ds
      end.
  Proof.
    intros E B Ha Hl M N. cbv zeta. unfold fetch_sib. rewrite N.
    destruct sb as [s|]; cbn [opt_list length] in *.
    - apply at_bytes_cons in B as [B _]. rewrite (read_byte m ds a E ltac:(lia) s B).
      ds_simpl. assert (U : u8 s = s) by (rewrite <- B; apply u8_small, ld8_range).
      rewrite U, M. change GP_REG_EBP with 5.
      destruct (_ && _); ds_simpl; repeat split; try done; now intros ? [= ->].
    - rewrite E. repeat split; try done. f_equal; lia.
  Qed.

Lemma fetch_disp_run ds a d32 a32 mb sb disp :
    decode_eip ds = u32 a -> at_bytes m a (opt_list sb ++ disp) -> 0 <= a ->
    a + Z.of_nat (length (opt_list sb ++ disp)) <= 4294967296 ->
    opstate ds = ops d32 a32 -> need_sib ds = false -> dispBytes ds = 0 ->
    (has_rm (ds_attr ds) = true -> modrm ds = mb) ->
    wants_sib a32 (ds_attr ds) mb = (match sb with Some _ => true | None => false end) ->
    length disp = disp_len a32 (ds_attr ds) mb sb ->
    let ds' := fetch_disp m ds in
    decode_eip ds' = u32 (a + Z.of_nat (length (opt_list sb ++ disp))) /\
    kept2 ds' = kept2 ds /\
    (forall s, sb = Some s -> sib ds' = s) /\
    need_sib ds' = (match sb with Some _ => true | None => false end) /\
    dispBytes ds' = Z.of_nat (length disp) /\
    (disp <> [] -> displacement ds' = s32 (le_val disp)).
  Proof.
    intros E B Ha Hl O N D M W L. cbv zeta. unfold fetch_disp.
    pose proof (disp_len_cases a32 (ds_attr ds) mb sb) as LC. rewrite <- L in LC.
    unfold wants_sib in W. unfold disp_len in L.
    change (hasb (ds_attr ds) (Z.lor DF_MODRM DF_GROUP)) with (has_rm (ds_attr ds)).
    destruct (has_rm (ds_attr ds)) eqn:R.
    2:{ cbn [andb negb] in W, L. destruct sb; [discriminate|]. destruct disp; [|discriminate].
        rewrite E, N, D. cbn. repeat split; try done. f_equal; lia. }
    specialize (M eq_refl). cbn [negb andb] in W, L. cbv zeta in L.
    rewrite (modrm_disp_run ds d32 a32 mb O M N D), W.
    apply at_bytes_app in B as [B1 B2]. rewrite length_app in *.
    set (ds0 := set_dispBytes _ _).
    destruct (fetch_sib_run ds0 a mb sb E B1 Ha ltac:(lia) M eq_refl)
      as (S1 & S2 & S3 & S4 & S5).
    set (ds1 := fetch_sib m ds0) in *.
    assert (DB : dispBytes ds1 = Z.of_nat (length disp)).
    { rewrite S5, L. subst ds0. ds_simpl. unfold disp_len0. pose proof (modrm_mod_range mb).
      destruct (modrm_mod mb =? 1) eqn:M1; [|destruct (modrm_mod mb =? 2) eqn:M2;
        [|destruct (modrm_mod mb =? 0) eqn:M0]];
      rewrite ?(proj2 (Z.eqb_neq (modrm_mod mb) 0)) by lia;
      destruct sb as [s|]; destruct a32; cbn [andb] in *; try discriminate;
      rewrite ?andb_false_r, ?andb_true_r; try done;
      repeat match goal with |- context [?x =? ?k] => destruct (x =? k) eqn:?; try done end;
      lia. }
    destruct (read_disp_run ds1 _ disp S1 B2 ltac:(lia) ltac:(lia) DB LC)
      as (T1 & T2 & T3 & T4 & T5 & T6).
    rewrite T1, T3, T4, T5, T6, S2, S4, DB. repeat split; try done. f_equal. lia.
  Qed.

Lemma step_imm16 (c : bool) ds a bs :
    decode_eip ds = u32 a -> at_bytes m a bs -> 0 <= a ->
    a + Z.of_nat (length bs) <= 4294967296 -> length bs = (if c then 2 else 0)%nat ->
    let ds' := if c then let ds := READ_IN_NEXT_WORD m ds in set_imm16 (s32 (b ds)) ds
               else ds in
    decode_eip ds' = u32 (a + Z.of_nat (length bs)) /\ kept3 ds' = kept3 ds /\
    immediate ds' = immediate ds /\
    imm16 ds' = (if c then s32 (le_val bs) else imm16 ds).
  Proof.
    intros E B Ha Hl L. cbv zeta. destruct c; rewrite L in *.
    - rewrite (read_word m ds a E ltac:(lia) bs L B). done.
    - rewrite E, Z.add_0_r. done.
  Qed.

Lemma step_ib (c : bool) ds a bs :
    decode_eip ds = u32 a -> at_bytes m a bs -> 0 <= a ->
    a + Z.of_nat (length bs) <= 4294967296 -> length bs = (if c then 1 else 0)%nat ->
    let ds' := if c then let ds := READ_IN_NEXT_BYTE m ds in set_immediate (s8 (b ds)) ds
               else ds in
    decode_eip ds' = u32 (a + Z.of_nat (length bs)) /\ kept3 ds' = kept3 ds /\
    immediate ds' = (if c then s8 (le_val bs) else immediate ds) /\ imm16 ds' = imm16 ds.
  Proof.
    intros E B Ha Hl L. cbv zeta. destruct c; rewrite L in *.
    - destruct bs as [|x []]; try discriminate. apply at_bytes_cons in B as [B _].
      rewrite (read_byte m ds a E ltac:(lia) x B). ds_simpl. repeat split; try done.
      f_equal. cbn [le_val]. lia.
    - rewrite E, Z.add_0_r. done.
  Qed.

Lemma step_iv (c long : bool) ds a bs :
    decode_eip ds = u32 a -> at_bytes m a bs -> 0 <= a ->
    a + Z.of_nat (length bs) <= 4294967296 ->
    length bs = (if c then if long then 4 else 2 else 0)%nat ->
    let ds' := if c then read_imm m long ds else ds in
    decode_eip ds' = u32 (a + Z.of_nat (length bs)) /\ kept3 ds' = kept3 ds /\
    immediate ds' = (if c then s32 (le_val bs) else immediate ds) /\ imm16 ds' = imm16 ds.
  Proof.
    intros E B Ha Hl L. cbv zeta. unfold read_imm.
    destruct c; [destruct long|]; rewrite L in *.
    - rewrite (read_long m ds a E ltac:(lia) bs L B). done.
    - rewrite (read_word m ds a E ltac:(lia) bs L B). done.
    - rewrite E, Z.add_0_r. done.
  Qed.

Lemma kept3_fields ds ds' : kept3 ds' = kept3 ds ->
    ds_attr ds' = ds_attr ds /\ opstate ds' = opstate ds.
  Proof. unfold kept3, kept2, kept. intros H. injection H. auto. Qed.

Lemma fetch_iv_run ds a d32 a32 iv :
    decode_eip ds = u32 a -> at_bytes m a iv -> 0 <= a ->
    a + Z.of_nat (length iv) <= 4294967296 ->
    opstate ds = ops d32 a32 -> imm_excl (ds_attr ds) = true ->
    length iv = iv_len d32 a32 (ds_attr ds) ->
    let ds' := fetch_iv m ds in
    decode_eip ds' = u32 (a + Z.of_nat (length iv)) /\ kept3 ds' = kept3 ds /\
    immediate ds' = match iv with _ :: _ => s32 (le_val iv) | [] => immediate ds end /\
    imm16 ds' = imm16 ds.
  Proof.
    intros E B Ha Hl O X L. cbv zeta. unfold fetch_iv, imm_excl, iv_len in *.
    destruct (ops_bits d32 a32) as (OA & OD & _).
    assert (NE : forall n, length iv = S n ->
      match iv with _ :: _ => s32 (le_val iv) | [] => immediate ds end = s32 (le_val iv))
      by (intros n Hn; destruct iv; done).
    destruct (hasb (ds_attr ds) DF_Iv) eqn:CI;
    [|destruct (hasb (ds_attr ds) DF_Ov || hasb (ds_attr ds) DF_Ob) eqn:CO;
      [|destruct (hasb (ds_attr ds) (Z.lor DF_Jv DF_Ap)) eqn:CJ]].
    - rewrite O, OD. destruct (step_iv true d32 ds a iv E B Ha Hl L) as (E1 & K1 & I1 & J1).
      destruct (kept3_fields _ _ K1) as [A1 P1]. rewrite A1.
      simpl in X. rewrite !andb_true_iff, !negb_true_iff in X.
      destruct X as [[XO XJ] _]. rewrite XO, A1, XJ, E1, I1, J1.
      destruct d32; rewrite (NE _ L); done.
    - rewrite O, OA. destruct (step_iv true a32 ds a iv E B Ha Hl L) as (E1 & K1 & I1 & J1).
      destruct (kept3_fields _ _ K1) as [A1 P1]. rewrite A1.
      simpl in X. apply negb_true_iff in X. rewrite X, E1, I1, J1.
      destruct a32; rewrite (NE _ L); done.
    - rewrite O, OD. destruct (step_iv true d32 ds a iv E B Ha Hl L) as (E1 & K1 & I1 & J1).
      rewrite E1, I1, J1. destruct d32; rewrite (NE _ L); done.
    - destruct iv; [|done]. rewrite E, Z.add_0_r. done.
  Qed.

Lemma fetch_imm_run ds a d32 a32 iw ib iv sel :
    decode_eip ds = u32 a -> at_bytes m a (iw ++ ib ++ iv ++ sel) -> 0 <= a ->
    a + Z.of_nat (length (iw ++ ib ++ iv ++ sel)) <= 4294967296 ->
    opstate ds = ops d32 a32 -> imm_excl (ds_attr ds) = true ->
    length iw = (if hasb (ds_attr ds) DF_Iw then 2 else 0)%nat ->
    length ib = (if hasb (ds_attr ds) DF_Ib then 1 else 0)%nat ->
    length iv = iv_len d32 a32 (ds_attr ds) ->
    length sel = (if hasb (ds_attr ds) DF_Ap then 2 else 0)%nat ->
    let ds' := fetch_imm m ds in
    decode_eip ds' = u32 (a + Z.of_nat (length (iw ++ ib ++ iv ++ sel))) /\
    kept3 ds' = kept3 ds /\
    immediate ds' = match iv, ib with
                    | _ :: _, _ => s32 (le_val iv)
                    | [], _ :: _ => s8 (le_val ib)
                    | [], [] => immediate ds
                    end /\
    imm16 ds' = match sel, iw with
                | _ :: _, _ => s32 (le_val sel)
                | [], _ :: _ => s32 (le_val iw)
                | [], [] => imm16 ds
                end.
  Proof.
    intros E B Ha Hl O X Lw Lb Lv Ls. cbv zeta.
    rewrite !at_bytes_app in B. destruct B as (B1 & B2 & B3 & B4).
    rewrite !length_app in *. destruct (ops_bits d32 a32) as (OA & OD & _).
    unfold fetch_imm.
    destruct (step_imm16 (hasb (ds_attr ds) DF_Iw) ds a iw E B1 ltac:(lia) ltac:(lia) Lw)
      as (E1 & K1 & I1 & J1).
    set (ds1 := if hasb (ds_attr ds) DF_Iw then _ else ds) in *.
    destruct (kept3_fields _ _ K1) as [A1 P1]. rewrite A1.
    change DF_Jb with DF_Ib. rewrite orb_diag.
    destruct (step_ib (hasb (ds_attr ds) DF_Ib) ds1 _ ib E1 B2 ltac:(lia) ltac:(lia) Lb)
      as (E2 & K2 & I2 & J2).
    set (ds2 := if hasb (ds_attr ds) DF_Ib then _ else ds1) in *.
    destruct (kept3_fields _ _ K2) as [A2 P2].
    destruct (fetch_iv_run ds2 _ d32 a32 iv E2 B3 ltac:(lia) ltac:(lia))
      as (E3 & K3 & I3 & J3); [congruence..|].
    destruct (kept3_fields _ _ K3) as [A3 P3]. rewrite A3, A2, A1.
    destruct (step_imm16 (hasb (ds_attr ds) DF_Ap) (fetch_iv m ds2) _ sel E3 B4
      ltac:(lia) ltac:(lia) Ls) as (E4 & K4 & I4 & J4).
    cbv zeta in *. rewrite E4, K4, I4, J4, K3, I3, J3, K2, I2, J2, K1, I1, J1.
    repeat split; [f_equal; lia| |].
    - destruct iv; [|done]. destruct (hasb _ DF_Ib), ib; done.
    - destruct (hasb _ DF_Ap), sel; try done. destruct (hasb _ DF_Iw), iw; done.
  Qed.
End Operands.

(** ** The whole decoder *)

(** The return value: the entry is defined and names a handler. *)
Definition decode_ret (fe : OpCode) (at_ : Z) : bool :=
  negb (hasb at_ DF_UNDEFINED) && negb (bool_decide (ptr fe = NULL)).

(** The decoder's record describes instruction [i] at [pc]; [fe] and [at_] are
    the selected entry and the accumulated attributes. *)
Record decoded (i : insn) (pc : Z) (fe : OpCode) (at_ : Z) (ds : decode_t) : Prop := {
  dc_eip : decode_eip ds = u32 (pc + Z.of_nat (length (encode i)));
  dc_instr : instr ds = u32 (pc + Z.of_nat (length (i_prefixes i)));
  dc_scan : scanned i ds;
  dc_attr : ds_attr ds = at_;
  dc_entry : emitfn ds = ptr fe /\ pEntry ds = Some fe;
  dc_modrm : forall mb, i_modrm i = Some mb -> modrm ds = mb;
  dc_sib : need_sib ds = (match i_sib i with Some _ => true | None => false end) /\
           forall s, i_sib i = Some s -> sib ds = s;
  dc_disp : dispBytes ds = Z.of_nat (length (i_disp i)) /\
            (i_disp i <> [] -> displacement ds = s32 (le_val (i_disp i)));
  dc_imm : (i_iv i <> [] -> immediate ds = s32 (le_val (i_iv i))) /\
           (i_iv i = [] -> i_ib i <> [] -> immediate ds = s8 (le_val (i_ib i)));
  dc_imm16 : (i_sel i <> [] -> imm16 ds = s32 (le_val (i_sel i))) /\
             (i_sel i = [] -> i_iw i <> [] -> imm16 ds = s32 (le_val (i_iw i)));
  dc_type : decode_ret fe at_ = true -> ds_inst_type ds = Some (inst_type fe) }.

Lemma wf_insn_inv i :
  wf_insn i = true ->
  forallb is_prefix (i_prefixes i) = true /\
  0 <= i_op i < 256 /\
  (i_two i || negb (is_prefix (i_op i) || (i_op i =? 0x0f))) = true /\
  wants_modrm i = (match i_modrm i with Some _ => true | None => false end) /\
  exists fe at_, select i = Some (fe, at_) /\
    wants_sib (addr32 i) at_ (default 0 (i_modrm i)) =
      (match i_sib i with Some _ => true | None => false end) /\
    length (i_disp i) = disp_len (addr32 i) at_ (default 0 (i_modrm i)) (i_sib i) /\
    length (i_iw i) = (if hasb at_ DF_Iw then 2 else 0)%nat /\
    length (i_ib i) = (if hasb at_ DF_Ib then 1 else 0)%nat /\
    length (i_iv i) = iv_len (data32 i) (addr32 i) at_ /\
    length (i_sel i) = (if hasb at_ DF_Ap then 2 else 0)%nat.
Proof.
  unfold wf_insn. rewrite !andb_true_iff. intros ((((H1 & H2) & H3) & H4) & H5).
  split; [done|]. split.
  { rewrite forallb_forall in H2. assert (K : is_byte (i_op i) = true).
    { apply H2. unfold encode, opcode_bytes. rewrite !in_app_iff. right; left.
      destruct (i_two i); simpl; auto. }
    unfold is_byte in K. lia. }
  split; [done|]. split; [now apply eqb_prop in H4|].
  destruct (select i) as [[fe at_]|]; [|done]. exists fe, at_. split; [done|].
  rewrite !andb_true_iff, !Nat.eqb_eq in H5. destruct H5 as (((((G1 & ?) & ?) & ?) & ?) & ?).
  apply eqb_prop in G1. done.
Qed.

Lemma imm_excl_group at_ : imm_excl (Z.lor DF_GROUP at_) = imm_excl at_.
Proof. unfold imm_excl. now rewrite !hasb_lor_l. Qed.

(** One iteration of the opcode loop on a byte that selects [e]. *)
Lemma opcode_step m fuel table ds a c e :
  decode_eip ds = u32 a -> 0 <= a < 4294967296 -> ld8 m a = c ->
  table !! Z.to_nat c = Some e ->
  exists ds', opcode_loop (S fuel) m table ds =
    (if hasb (attr e) DF_TABLE then
       res_bind (ptr_table (ptr e)) (fun table => opcode_loop fuel m table ds')
     else if hasb (attr e) DF_FLOAT then
       res_bind (float_entry m e ds') (fun r => Ok (true, r.1, r.2))
     else Ok (false, e, ds')) /\
    decode_eip ds' = u32 (a + 1) /\ ds_attr ds' = attr e /\ kept ds' = kept ds /\
    need_sib ds' = need_sib ds /\ dispBytes ds' = dispBytes ds.
Proof.
  intros E Ha B T. cbn [opcode_loop]. rewrite (fetch_ub m ds a E Ha), B. ds_simpl.
  assert (0 <= c) by (rewrite <- B; apply ld8_range).
  rewrite (entry_ok table c e) by done. cbn [res_bind]. ds_simpl.
  eexists. split; [reflexivity|]. ds_simpl. now rewrite E, u32_add_l.
Qed.

(** Opcode bytes and ModR/M byte together. *)
Lemma opcode_stage m i ds a :
  0 <= i_op i < 256 -> (i_two i || negb (is_prefix (i_op i) || (i_op i =? 0x0f))) = true ->
  wants_modrm i = (match i_modrm i with Some _ => true | None => false end) ->
  decode_eip ds = u32 a -> 0 <= a ->
  a + Z.of_nat (length (opcode_bytes i ++ opt_list (i_modrm i))) <= 4294967296 ->
  at_bytes m a (opcode_bytes i ++ opt_list (i_modrm i)) ->
  exists r fe at_ ds', select i = Some (fe, at_) /\ imm_excl at_ = true /\
    (res_bind (opcode_loop 2 m nopbyte0 ds)
      (fun r => let '(w, pe, ds) := r in fetch_modrm m w pe ds)) = Ok (fe, ds') /\
    opcode_loop 2 m nopbyte0 ds = Ok r /\
    decode_eip ds' = u32 (a + Z.of_nat (length (opcode_bytes i ++ opt_list (i_modrm i)))) /\
    ds_attr ds' = at_ /\ (forall mb, i_modrm i = Some mb -> modrm ds' = mb) /\
    (has_rm at_ = true -> is_Some (i_modrm i)) /\
    kept ds' = kept ds /\ need_sib ds' = need_sib ds /\ dispBytes ds' = dispBytes ds.
Proof.
  intros R C W E Ha Hl B. destruct (opcode_entry_cases i R C) as (e & He & K).
  rewrite length_app in *. apply at_bytes_app in B as [B1 B2].
  (* reach the entry [e] *)
  assert (ST : exists ds1 f, 
    opcode_loop 2 m nopbyte0 ds =
      (if hasb (attr e) DF_TABLE then
         res_bind (ptr_table (ptr e)) (fun table => opcode_loop f m table ds1)
       else if hasb (attr e) DF_FLOAT then
         res_bind (float_entry m e ds1) (fun r => Ok (true, r.1, r.2))
       else Ok (false, e, ds1)) /\
    decode_eip ds1 = u32 (a + Z.of_nat (length (opcode_bytes i))) /\ ds_attr ds1 = attr e /\
    kept ds1 = kept ds /\ need_sib ds1 = need_sib ds /\ dispBytes ds1 = dispBytes ds).
  { unfold opcode_bytes, opcode_entry in *. destruct (i_two i); cbn [length] in *.
    - rewrite !at_bytes_cons in B1. destruct B1 as (B1 & B1' & _).
      destruct (nopbyte0_entry 0x0f) as (e0 & H0 & K0); [lia|].
      change (one_byte_ok 15 e0) with
        ((attr e0 =? DF_TABLE) && bool_decide (ptr e0 = Tab T_twoByteOpcodes)) in K0.
      apply andb_true_iff in K0 as [K0 K0']. apply Z.eqb_eq in K0.
      apply bool_decide_eq_true in K0'.
      destruct (opcode_step m 1 nopbyte0 ds a _ e0 E ltac:(lia) B1 H0)
        as (ds0 & -> & E0 & A0 & T0 & N0 & D0).
      rewrite K0, K0'. change (hasb DF_TABLE DF_TABLE) with true. cbn [ptr_table res_bind table_of].
      destruct (opcode_step m 0 twoByteOpcodes ds0 (a + 1) _ e E0 ltac:(lia) B1' He)
        as (ds1 & R1 & E1 & A1 & T1 & N1 & D1).
      exists ds1, 0%nat. rewrite R1, E1, A1, T1, N1, D1. repeat split; try done. f_equal; lia.
    - apply at_bytes_cons in B1 as [B1 _].
      destruct (opcode_step m 1 nopbyte0 ds a _ e E ltac:(lia) B1 He) as (ds1 & R1 & X).
      exists ds1, 1%nat. split; [exact R1|exact X]. }
  destruct ST as (ds1 & f & -> & E1 & A1 & K1 & N1 & D1).
  assert (La : 0 <= a + Z.of_nat (length (opcode_bytes i))) by lia.
  destruct K as [L | [G | [_ F]]].
  - rewrite !(leaf_ok_bits e) by done. cbn [res_bind].
    destruct (opcode_fetch_leaf m i e He ds1 _ L E1 La ltac:(lia) W B2 A1)
      as (ds' & -> & E' & A' & M' & K' & N' & D').
    do 2 eexists. exists (attr e), ds'. rewrite (select_leaf i e He L). split; [done|].
    split; [now apply leaf_ok_imm|]. do 2 (split; [done|]).
    rewrite E', A', K', N', D'. split; [f_equal; lia|]. split; [done|]. split; [exact M'|]. split; [|done].
    rewrite (wants_modrm_unfold i e He), hasb_lor in W.
    intros RM. unfold has_rm in RM. rewrite RM in W. simpl in W. destruct (i_modrm i); done.
  - destruct (group_ok_inv e G) as (Ae & _).
    rewrite (wants_modrm_unfold i e He), Ae in W. change (_ = _) with (true = match i_modrm i with
      Some _ => true | None => false end) in W.
    destruct (i_modrm i) as [mb|] eqn:M; [|done]. cbn [opt_list length] in *.
    apply at_bytes_cons in B2 as [B2 _].
    destruct (opcode_fetch_group m i e He ds1 _ mb G E1 ltac:(lia) M B2 A1)
      as (g & ds' & S & Lg & R' & E' & A' & M' & K' & N' & D').
    rewrite Ae in S, A'. rewrite Ae. 
    change (hasb DF_GROUP DF_TABLE) with false. change (hasb DF_GROUP DF_FLOAT) with false.
    cbn [res_bind]. do 2 eexists. eexists. exists ds'. split; [exact S|].
    split; [rewrite imm_excl_group; now apply leaf_ok_imm|].
    split; [exact R'|]. split; [done|]. rewrite E', A', K', N', D'.
    split; [f_equal; lia|]. split; [done|]. split; [congruence|]. eauto.
  - destruct (float_ok_inv e F) as (Ae & _).
    rewrite (wants_modrm_unfold i e He), Ae in W. change (_ = _) with (true = match i_modrm i with
      Some _ => true | None => false end) in W.
    destruct (i_modrm i) as [mb|] eqn:M; [|done]. cbn [opt_list length] in *.
    apply at_bytes_cons in B2 as [B2 _].
    destruct (opcode_fetch_float m i e He ds1 _ mb F E1 ltac:(lia) M B2)
      as (g & ds2 & ds' & S & Lg & R1 & R' & E' & A' & M' & K' & N' & D').
    rewrite Ae. change (hasb DF_FLOAT DF_TABLE) with false.
    change (hasb DF_FLOAT DF_FLOAT) with true. rewrite R1. cbn [res_bind fst snd].
    do 2 eexists. eexists. exists ds'. split; [exact S|].
    split; [now apply leaf_ok_imm|]. split; [exact R'|]. split; [done|].
    rewrite E', A', K', N', D'.
    split; [f_equal; lia|]. split; [done|]. split; [congruence|]. eauto.
Qed.

Lemma scanned_kept i ds ds' : kept ds' = kept ds -> scanned i ds -> scanned i ds'.
Proof. unfold kept. intros H [? ? ?]. injection H as H1 H2 H3 H4. constructor; congruence. Qed.

Lemma finish_ok m pe ds :
  (finish m pe ds).1 = decode_ret pe (ds_attr ds) /\
  emitfn (finish m pe ds).2 = ptr pe /\ pEntry (finish m pe ds).2 = Some pe /\
  decode_eip (finish m pe ds).2 = decode_eip ds /\ kept3 (finish m pe ds).2 = kept3 ds /\
  immediate (finish m pe ds).2 = immediate ds /\ imm16 (finish m pe ds).2 = imm16 ds /\
  (decode_ret pe (ds_attr ds) = true -> ds_inst_type (finish m pe ds).2 = Some (inst_type pe)).
Proof.
  unfold finish, decode_ret. ds_simpl. destruct (hasb (ds_attr ds) DF_UNDEFINED); [done|].
  case_decide as H; [rewrite bool_decide_eq_true_2 by done | rewrite bool_decide_eq_false_2 by done];
    done.
Qed.

Lemma kept2_inv d d' : kept2 d' = kept2 d ->
  kept d' = kept d /\ ds_attr d' = ds_attr d /\ modrm d' = modrm d.
Proof.
  unfold kept2. generalize (kept d), (kept d'). intros k k' H. now injection H as -> -> ->.
Qed.

Lemma kept3_inv d d' : kept3 d' = kept3 d ->
  kept2 d' = kept2 d /\ sib d' = sib d /\ need_sib d' = need_sib d /\
  dispBytes d' = dispBytes d /\ displacement d' = displacement d.
Proof.
  unfold kept3. generalize (kept2 d), (kept2 d'). intros k k' H.
  now injection H as -> -> -> -> ->.
Qed.

Lemma kept_instr d d' : kept d' = kept d -> instr d' = instr d /\ opstate d' = opstate d.
Proof. unfold kept. intros H. injection H as H1 H2 H3 H4. auto. Qed.

(** The bytes after the opcode and the ModR/M byte. *)
Definition tail_bytes (i : insn) : list Z :=
  opt_list (i_sib i) ++ i_disp i ++ i_iw i ++ i_ib i ++ i_iv i ++ i_sel i.

(** The decoder after the ModR/M stage, [n] bytes into [i]. *)
Record ready (i : insn) (pc : Z) (at_ : Z) (ds : decode_t) : Prop := {
  rd_eip : decode_eip ds = u32 (pc + Z.of_nat (length (i_prefixes i ++ opcode_bytes i
                                                       ++ opt_list (i_modrm i))));
  rd_attr : ds_attr ds = at_;
  rd_excl : imm_excl at_ = true;
  rd_modrm : forall mb, i_modrm i = Some mb -> modrm ds = mb;
  rd_has : has_rm at_ = true -> is_Some (i_modrm i);
  rd_scan : scanned i ds;
  rd_instr : instr ds = u32 (pc + Z.of_nat (length (i_prefixes i)));
  rd_sib : need_sib ds = false;
  rd_disp : dispBytes ds = 0 }.

Lemma encode_split i :
  encode i = (i_prefixes i ++ opcode_bytes i ++ opt_list (i_modrm i)) ++ tail_bytes i.
Proof. unfold encode, tail_bytes. now rewrite <- !app_assoc. Qed.

Lemma opcode_head i :
  (i_two i || negb (is_prefix (i_op i) || (i_op i =? 0x0f))) = true ->
  exists c r, opcode_bytes i = c :: r /\ is_prefix c = false /\ i_two i = (c =? 0x0f).
Proof.
  unfold opcode_bytes. destruct (i_two i); intros H; [do 2 eexists; done|].
  apply negb_true_iff, orb_false_iff in H as [H1 H2]. eauto.
Qed.

(** The front end: prefixes, opcode, ModR/M. *)
Lemma decode_front fuel m ds0 pc i :
  wf_insn i = true ->
  at_bytes m pc (i_prefixes i ++ opcode_bytes i ++ opt_list (i_modrm i)) -> 0 <= pc ->
  pc + Z.of_nat (length (i_prefixes i ++ opcode_bytes i ++ opt_list (i_modrm i)))
    <= 4294967296 ->
  (length (i_prefixes i) < fuel)%nat ->
  exists fe at_ ds, select i = Some (fe, at_) /\ ready i pc at_ ds /\
    simple_disas_insn fuel m ds0 pc = Ok (finish m fe (fetch_imm m (fetch_disp m ds))).
Proof.
  intros WF B Hpc Hl Hf.
  destruct (wf_insn_inv i WF) as (P & R & C & W & _). set (ps := i_prefixes i) in *.
  destruct (opcode_head i C) as (c & rest & Qe & Qp & _).
  assert (Bp : at_bytes m pc (ps ++ [c])).
  { rewrite Qe in B. cbn [app] in B.
    change (c :: rest ++ ?x) with ([c] ++ rest ++ x) in B. rewrite app_assoc in B.
    now apply at_bytes_app in B as [B _]. }
  assert (Lo : (0 < length (opcode_bytes i))%nat) by (rewrite Qe; simpl; lia).
  rewrite !length_app in Hl.
  destruct (prefix_loop_run m c ps fuel (init_ds ds0 pc) pc true true P Qp Bp Hpc)
    as (ds1 & R1 & E1 & O1 & F1 & G1 & N1 & D1); [lia| |done|done|].
  { cbn. symmetry. apply u32_small. lia. }
  apply at_bytes_app in B as [_ B].
  set (ds2 := set_instr (decode_eip ds1) ds1).
  assert (O1' : opstate ds1 = ops (data32 i) (addr32 i)).
  { rewrite O1. unfold data32, addr32. f_equal; apply (toggle_negb _ _ false). }
  assert (SC : scanned i ds2) by now constructor.
  destruct (opcode_stage m i ds2 (pc + Z.of_nat (length ps)) R C W E1 ltac:(lia))
    as (r & fe & at_ & ds3 & S & X & R3 & R2 & E3 & A3 & M3 & RM & K3 & N3 & D3);
    [rewrite length_app; lia|done|].
  exists fe, at_, ds3. split; [done|]. split.
  - constructor; try done.
    + rewrite E3, !length_app. f_equal. fold ps. lia.
    + now apply (scanned_kept i ds2).
    + destruct (kept_instr _ _ K3) as [-> _]. exact E1.
    + rewrite N3. exact N1.
    + rewrite D3. exact D1.
  - unfold simple_disas_insn. rewrite R1. cbn [res_bind]. fold ds2.
    rewrite R2 in *. destruct r as [[w pe] dsr]. cbn [res_bind] in R3 |- *. now rewrite R3.
Qed.

(** The back end: SIB, displacement, immediates. *)
Lemma decode_back m pc i fe at_ ds :
  wf_insn i = true -> select i = Some (fe, at_) -> ready i pc at_ ds ->
  at_bytes m pc (encode i) -> 0 <= pc ->
  pc + Z.of_nat (length (encode i)) <= 4294967296 ->
  let r := finish m fe (fetch_imm m (fetch_disp m ds)) in
  r.1 = decode_ret fe at_ /\ decoded i pc fe at_ r.2.
Proof.
  intros WF S [E3 A3 X M3 RM SC I3 N3 D3] B Hpc Hl.
  destruct (wf_insn_inv i WF)
    as (_ & _ & _ & W & fe' & at' & S' & Ws & Ld & Lw & Lb & Lv & Ls).
  rewrite S in S'. injection S' as <- <-.
  rewrite encode_split in B, Hl. rewrite length_app in Hl. apply at_bytes_app in B as [_ B].
  set (pre := i_prefixes i ++ _ ++ _) in *.
  unfold tail_bytes in B, Hl. rewrite app_assoc in B, Hl. apply at_bytes_app in B as [B2 B3].
  rewrite length_app in Hl.
  destruct (fetch_disp_run m ds _ (data32 i) (addr32 i) (default 0 (i_modrm i)) (i_sib i)
     (i_disp i) E3 B2 ltac:(lia)) as (E4 & K4 & Sb & Ns & Db & Dv); try done; try congruence.
  { lia. }
  { apply SC. }
  { rewrite A3. intros H. destruct (RM H) as [mb Hmb]. rewrite Hmb. now apply M3. }
  set (ds4 := fetch_disp m ds) in *.
  apply kept2_inv in K4 as (K4' & A4 & M4). destruct (kept_instr _ _ K4') as [_ O4].
  destruct (fetch_imm_run m ds4 _ (data32 i) (addr32 i) (i_iw i) (i_ib i) (i_iv i) (i_sel i) E4 B3)
    as (E5 & K5 & I5 & J5); try lia; rewrite ?A4, ?A3; try congruence.
  { rewrite O4. apply SC. }
  set (ds5 := fetch_imm m ds4) in *.
  destruct (finish_ok m fe ds5) as (F1' & F2 & F3 & F4 & F5 & F6 & F7 & F8).
  destruct (finish m fe ds5) as [rt dsF]. cbn [fst snd] in *. clearbody ds5 ds4.
  apply kept3_inv in K5 as (K5 & S5 & N5 & D5 & V5). apply kept2_inv in K5 as (K5 & A5 & M5).
  apply kept3_inv in F5 as (K6 & S6 & N6 & D6 & V6). apply kept2_inv in K6 as (K6 & A6 & M6).
  assert (KF : kept dsF = kept ds) by (rewrite K6, K5; exact K4').
  assert (AF : ds_attr ds5 = at_) by (rewrite A5, A4; exact A3).
  rewrite AF in F1', F8. split; [done|]. constructor.
  - rewrite F4, E5, encode_split, !length_app. f_equal. unfold tail_bytes. subst pre.
    rewrite !length_app. lia.
  - apply kept_instr in KF as [-> _]. exact I3.
  - now apply (scanned_kept i ds).
  - now rewrite A6.
  - done.
  - intros mb Hmb. rewrite M6, M5, M4. now apply M3.
  - split; [rewrite N6, N5; exact Ns|]. intros s Hs. rewrite S6, S5. now apply Sb.
  - split; [rewrite D6, D5; exact Db|]. intros H. rewrite V6, V5. now apply Dv.
  - rewrite F6, I5. split; [now destruct (i_iv i)|]. intros ->. now destruct (i_ib i).
  - rewrite F7, J5. split; [now destruct (i_sel i)|]. intros ->. now destruct (i_iw i).
  - exact F8.
Qed.

Lemma decode_encode_aux fuel m ds0 pc i :
  wf_insn i = true -> at_bytes m pc (encode i) -> 0 <= pc ->
  pc + Z.of_nat (length (encode i)) <= 4294967296 ->
  (length (i_prefixes i) < fuel)%nat ->
  exists fe at_ ds, select i = Some (fe, at_) /\
    simple_disas_insn fuel m ds0 pc = Ok (decode_ret fe at_, ds) /\
    decoded i pc fe at_ ds.
Proof.
  intros WF B Hpc Hl Hf.
  destruct (decode_front fuel m ds0 pc i WF) as (fe & at_ & ds & S & Rd & Run); try done.
  { rewrite encode_split in B. now apply at_bytes_app in B as [B _]. }
  { rewrite encode_split, length_app in Hl. lia. }
  destruct (decode_back m pc i fe at_ ds WF S Rd B Hpc Hl) as [K D].
  exists fe, at_. eexists. split; [done|]. split; [|exact D].
  rewrite Run, <- K. now rewrite <- surjective_pairing.
Qed.

(** ** Every byte sequence decodes *)

(** Read the instruction at [pc] that has [n] prefix bytes. *)
Definition parse_head (m : mem) (pc : Z) (n : nat) : insn :=
  let c := ld8 m (pc + Z.of_nat n) in
  let two := c =? 0x0f in
  let op := if two then ld8 m (pc + Z.of_nat n + 1) else c in
  let i0 := Insn (read_bytes m pc n) two op None None [] [] [] [] [] in
  let a := pc + Z.of_nat n + Z.of_nat (length (opcode_bytes i0)) in
  Insn (read_bytes m pc n) two op (if wants_modrm i0 then Some (ld8 m a) else None)
       None [] [] [] [] [].

Definition parse (m : mem) (pc : Z) (n : nat) : insn :=
  let h := parse_head m pc n in
  let at_ := match select h with Some (_, at_) => at_ | None => 0 end in
  let mb := default 0 (i_modrm h) in
  let a0 := pc + Z.of_nat n + Z.of_nat (length (opcode_bytes h))
               + Z.of_nat (length (opt_list (i_modrm h))) in
  let sb := if wants_sib (addr32 h) at_ mb then Some (ld8 m a0) else None in
  let a1 := a0 + Z.of_nat (length (opt_list sb)) in
  let nd := disp_len (addr32 h) at_ mb sb in
  let a2 := a1 + Z.of_nat nd in
  let nw := if hasb at_ DF_Iw then 2%nat else 0%nat in
  let a3 := a2 + Z.of_nat nw in
  let nb := if hasb at_ DF_Ib then 1%nat else 0%nat in
  let a4 := a3 + Z.of_nat nb in
  let nv := iv_len (data32 h) (addr32 h) at_ in
  let a5 := a4 + Z.of_nat nv in
  let ns := if hasb at_ DF_Ap then 2%nat else 0%nat in
  Insn (i_prefixes h) (i_two h) (i_op h) (i_modrm h) sb
    (read_bytes m a1 nd) (read_bytes m a2 nw) (read_bytes m a3 nb)
    (read_bytes m a4 nv) (read_bytes m a5 ns).

Lemma at_bytes_is_byte m bs : forall a, at_bytes m a bs -> forallb is_byte bs = true.
Proof.
  induction bs as [|x bs IH]; intros a H; [done|]. apply at_bytes_cons in H as [H H'].
  simpl. rewrite (IH _ H'), andb_true_r. unfold is_byte.
  pose proof (ld8_range m a). lia.
Qed.

Lemma parse_at_bytes m pc n : at_bytes m pc (encode (parse m pc n)).
Proof.
  unfold encode. rewrite !at_bytes_app.
  assert (O1 : forall a, at_bytes m a (opt_list (Some (ld8 m a)))) by done.
  unfold parse. cbv zeta. cbn [i_prefixes i_two i_op i_modrm i_sib i_disp i_iw i_ib i_iv i_sel].
  set (h := parse_head m pc n).
  assert (Lp : length (i_prefixes h) = n) by apply read_bytes_length.
  rewrite Lp, !read_bytes_length.
  change (opcode_bytes (Insn _ (i_two h) (i_op h) _ _ _ _ _ _ _)) with (opcode_bytes h).
  split; [apply at_bytes_read|]. split.
  { unfold h, parse_head, opcode_bytes. cbn [i_two i_op].
    destruct (ld8 m (pc + Z.of_nat n) =? 15) eqn:E; rewrite ?at_bytes_cons; split; try done.
    lia. }
  split. { unfold h, parse_head. cbn [i_modrm]. destruct (wants_modrm _); done. }
  split. { destruct (wants_sib _ _ _); [apply O1|done]. }
  repeat split; apply at_bytes_read.
Qed.

Lemma forallb_prefix_read m pc n :
  (forall k, (k < n)%nat -> is_prefix (ld8 m (pc + Z.of_nat k)) = true) ->
  forallb is_prefix (read_bytes m pc n) = true.
Proof.
  revert pc. induction n as [|n IH]; intros pc H; [done|]. simpl. apply andb_true_iff. split.
  - specialize (H 0%nat ltac:(lia)). now rewrite Z.add_0_r in H.
  - apply IH. intros k Hk. specialize (H (S k) ltac:(lia)).
    now replace (pc + 1 + Z.of_nat k) with (pc + Z.of_nat (S k)) by lia.
Qed.

(** [select] succeeds once the ModR/M byte is there. *)
Lemma select_total i :
  0 <= i_op i < 256 -> (i_two i || negb (is_prefix (i_op i) || (i_op i =? 0x0f))) = true ->
  wants_modrm i = (match i_modrm i with Some _ => true | None => false end) ->
  exists fe at_, select i = Some (fe, at_).
Proof.
  intros R C W. destruct (opcode_entry_cases i R C) as (e & He & K).
  rewrite (wants_modrm_unfold i e He) in W. destruct K as [L | [G | [_ F]]].
  - rewrite (select_leaf i e He L). eauto.
  - destruct (group_ok_inv e G) as (Ae & t & P & L8 & F). rewrite Ae in W.
    destruct (i_modrm i) as [mb|] eqn:M; [|done].
    rewrite (select_unfold i e He), P, M, Ae. change (hasb DF_GROUP DF_GROUP) with true.
    destruct (table8_entry t (modrm_reg mb) L8 F (modrm_reg_range mb)) as (g & -> & _).
    simpl. eauto.
  - destruct (float_ok_inv e F) as (Ae & t & P & L16 & F1 & F2). rewrite Ae in W.
    destruct (i_modrm i) as [mb|] eqn:M; [|done].
    rewrite (select_unfold i e He), P, M, Ae. change (hasb DF_FLOAT DF_GROUP) with false.
    cbv iota. destruct (modrm_mod mb =? 3).
    + destruct (float_reg_entry t (modrm_reg mb) L16 F2 (modrm_reg_range mb))
        as (f & -> & [Lf | (Af & t' & P' & L8 & F8)]); simpl.
      * destruct (ptr f) eqn:Pf; eauto. now destruct (leaf_ok_ptr f t0 Lf).
      * rewrite P'. destruct (table8_entry t' (modrm_rm mb) L8 F8 (modrm_rm_range mb))
          as (g & -> & _). simpl. eauto.
    + destruct (float_mem_entry t (modrm_reg mb) L16 F1 (modrm_reg_range mb)) as (f & -> & _).
      simpl. eauto.
Qed.

(** [wants_modrm] and [select] only look at the opcode and the ModR/M byte. *)
Lemma wants_modrm_ext i j :
  i_two i = i_two j -> i_op i = i_op j -> wants_modrm i = wants_modrm j.
Proof. unfold wants_modrm. now intros -> ->. Qed.
Lemma select_ext i j :
  i_two i = i_two j -> i_op i = i_op j -> i_modrm i = i_modrm j -> select i = select j.
Proof. unfold select. now intros -> -> ->. Qed.

Lemma parse_wf m pc n :
  (forall k, (k < n)%nat -> is_prefix (ld8 m (pc + Z.of_nat k)) = true) ->
  is_prefix (ld8 m (pc + Z.of_nat n)) = false ->
  wf_insn (parse m pc n) = true.
Proof.
  intros Hp Hn. set (h := parse_head m pc n).
  assert (C : (i_two h || negb (is_prefix (i_op h) || (i_op h =? 15))) = true).
  { change (i_two h) with (ld8 m (pc + Z.of_nat n) =? 15).
    change (i_op h) with (if ld8 m (pc + Z.of_nat n) =? 15
      then ld8 m (pc + Z.of_nat n + 1) else ld8 m (pc + Z.of_nat n)).
    destruct (ld8 m (pc + Z.of_nat n) =? 15) eqn:E; [done|]. now rewrite Hn, E. }
  assert (R : 0 <= i_op h < 256).
  { change (i_op h) with (if ld8 m (pc + Z.of_nat n) =? 15
      then ld8 m (pc + Z.of_nat n + 1) else ld8 m (pc + Z.of_nat n)).
    destruct (ld8 m (pc + Z.of_nat n) =? 15); apply ld8_range. }
  assert (W : wants_modrm h = (match i_modrm h with Some _ => true | None => false end)).
  { subst h. unfold parse_head. cbn [i_modrm]. erewrite (wants_modrm_ext _ _) at 1 by reflexivity.
    destruct (wants_modrm _); done. }
  destruct (select_total h R C W) as (fe & at_ & S).
  unfold wf_insn. rewrite (at_bytes_is_byte m _ pc (parse_at_bytes m pc n)), andb_true_r.
  rewrite (select_ext (parse m pc n) h), S by reflexivity.
  rewrite (wants_modrm_ext (parse m pc n) h), W by reflexivity.
  unfold parse. fold h. cbv zeta. rewrite S. 
  cbn [i_prefixes i_two i_op i_modrm i_sib i_disp i_iw i_ib i_iv i_sel].
  rewrite C. change (addr32 (Insn (i_prefixes h) _ _ _ _ _ _ _ _ _)) with (addr32 h).
  change (data32 (Insn (i_prefixes h) _ _ _ _ _ _ _ _ _)) with (data32 h).
  rewrite !read_bytes_length, !Nat.eqb_refl.
  change (i_prefixes h) with (read_bytes m pc n). rewrite forallb_prefix_read by done.
  rewrite eqb_reflx. destruct (wants_sib _ _ _); done.
Qed.

Lemma iv_len_le d a at_ : (iv_len d a at_ <= 4)%nat.
Proof. unfold iv_len. repeat case_match; lia. Qed.
