(* ===== verification/DecodeThm.v ===== *)
(** The theorems of the decoder: round trip, totality, unique decodability
    and the integrity of the opcode tables. *)

From S2P Require Import Prelude Memory Opcode DecodeTable Decode DecodeSpec DecodeProofs.

(** ** Length of an instruction *)

(** An upper bound from the attributes alone. *)
Definition len_bound (i : insn) (at_ : Z) : nat :=
  length (opcode_bytes i) + (if wants_modrm i then 1 else 0) +
  (if has_rm at_ then 5 else 0) + (if hasb at_ DF_Iw then 2 else 0) +
  (if hasb at_ DF_Ib then 1 else 0) + iv_len true true at_ +
  (if hasb at_ DF_Ap then 2 else 0).

(** What holds of every entry an opcode and a ModR/M byte can select. *)
Definition sel_ok (i : insn) : bool :=
  match select i with
  | Some (fe, at_) =>
      (len_bound i at_ <=? 11)%nat &&
      (negb (i_two i || negb (is_prefix (i_op i) || (i_op i =? 0x0f))) ||
       leaf_ok fe && eqb (hasb at_ DF_BRANCH) (hasb (attr fe) DF_BRANCH) &&
       eqb (hasb at_ DF_UNDEFINED) (hasb (attr fe) DF_UNDEFINED))
  | None => true
  end.

Definition bare (two : bool) (op : Z) (mb : option Z) : insn :=
  Insn [] two op mb None [] [] [] [] [].

Definition all_bytes : list Z := map Z.of_nat (seq 0 256).

Lemma sel_table : forallb (fun two => forallb (fun op => forallb (fun mb =>
    sel_ok (bare two op mb)) (None :: map Some all_bytes)) all_bytes) [true; false] = true.
Proof. vm_compute. reflexivity. Qed.

Lemma all_bytes_in z : 0 <= z < 256 -> z ∈ all_bytes.
Proof.
  intros H. apply list_elem_of_fmap. exists (Z.to_nat z). split; [lia|].
  apply elem_of_seq. lia.
Qed.

(** A check of all opcodes and ModR/M bytes, at one of them. *)
Lemma bare_table_at (P : insn -> bool) two op mo :
  forallb (fun two => forallb (fun op => forallb (fun mb => P (bare two op mb))
    (None :: map Some all_bytes)) all_bytes) [true; false] = true ->
  0 <= op < 256 -> (forall mb, mo = Some mb -> 0 <= mb < 256) -> P (bare two op mo) = true.
Proof.
  intros T R M. pose proof (all_bytes_in op R) as Ho.
  assert (Hm : In mo (None :: map Some all_bytes)).
  { destruct mo as [mb|]; [right | now left].
    apply in_map, list_elem_of_In, all_bytes_in. now apply M. }
  revert T Hm Ho. generalize all_bytes. intros l T Hm Ho. apply list_elem_of_In in Ho.
  rewrite forallb_forall in T.
  assert (T1 := T two ltac:(destruct two; [now left | right; now left])).
  rewrite forallb_forall in T1. assert (T2 := T1 op Ho).
  rewrite forallb_forall in T2. exact (T2 mo Hm).
Qed.

Lemma sel_table_at two op mo :
  0 <= op < 256 -> (forall mb, mo = Some mb -> 0 <= mb < 256) ->
  sel_ok (bare two op mo) = true.
Proof. exact (bare_table_at sel_ok two op mo sel_table). Qed.

Lemma disp_len_le d at_ mb sb : (disp_len d at_ mb sb <= 4)%nat.
Proof. unfold disp_len. repeat case_match; lia. Qed.

Lemma iv_len_32 d a at_ : (iv_len d a at_ <= iv_len true true at_)%nat.
Proof. unfold iv_len. repeat case_match; lia. Qed.

Lemma forallb_is_byte_modrm i mb :
  forallb is_byte (encode i) = true -> i_modrm i = Some mb -> 0 <= mb < 256.
Proof.
  rewrite forallb_forall. intros H E. assert (K : is_byte mb = true).
  { apply H. unfold encode. rewrite E, !in_app_iff. right; right; left. simpl; auto. }
  unfold is_byte in K. lia.
Qed.

Lemma selected i fe at_ :
  wf_insn i = true -> select i = Some (fe, at_) ->
  (len_bound i at_ <= 11)%nat /\ leaf_ok fe = true /\
  hasb at_ DF_BRANCH = hasb (attr fe) DF_BRANCH /\
  hasb at_ DF_UNDEFINED = hasb (attr fe) DF_UNDEFINED.
Proof.
  intros WF S. assert (B : forallb is_byte (encode i) = true).
  { unfold wf_insn in WF. rewrite !andb_true_iff in WF. tauto. }
  destruct (wf_insn_inv i WF) as (_ & R & C & _).
  assert (T : sel_ok (bare (i_two i) (i_op i) (i_modrm i)) = true).
  { apply sel_table_at; [done|]. intros mb. now apply forallb_is_byte_modrm. }
  unfold sel_ok in T. rewrite (select_ext _ i), S in T by done.
  change (i_two (bare _ _ _)) with (i_two i) in T. change (i_op (bare _ _ _)) with (i_op i) in T.
  rewrite C in T. cbn [negb orb] in T. rewrite !andb_true_iff in T. destruct T as (T1 & (T2 & T3) & T4).
  apply Nat.leb_le in T1. apply eqb_prop in T3, T4. split; [|done].
  unfold len_bound in *. now rewrite (wants_modrm_ext _ i) in T1.
Qed.

Lemma encode_length_aux i :
  wf_insn i = true -> (length (encode i) <= length (i_prefixes i) + 11)%nat.
Proof.
  intros WF.
  destruct (wf_insn_inv i WF) as (_ & R & _ & W & fe & at_ & S & Ws & Ld & Lw & Lb & Lv & Ls).
  destruct (selected i fe at_ WF S) as [T _].
  unfold len_bound in T. rewrite W in T.
  unfold encode. rewrite !length_app, Ld, Lw, Lb, Lv, Ls.
  pose proof (iv_len_32 (data32 i) (addr32 i) at_).
  pose proof (disp_len_le (addr32 i) at_ (default 0 (i_modrm i)) (i_sib i)).
  assert (D : has_rm at_ = false ->
              disp_len (addr32 i) at_ (default 0 (i_modrm i)) (i_sib i) = 0%nat /\
              length (opt_list (i_sib i)) = 0%nat).
  { intros E. unfold disp_len. unfold wants_sib in Ws. rewrite E in *. simpl in Ws.
    now destruct (i_sib i). }
  assert (length (opt_list (i_sib i)) <= 1)%nat by (destruct (i_sib i); simpl; lia).
  assert (length (opt_list (i_modrm i)) = match i_modrm i with Some _ => 1 | None => 0 end)%nat as Hm
    by now destruct (i_modrm i).
  rewrite Hm. destruct (has_rm at_); [|destruct D as [-> ->]; [done|]];
    destruct (i_modrm i); lia.
Qed.

(** ** Unique decodability *)

Lemma at_bytes_det m a x x' y y' :
  at_bytes m a (x ++ y) -> at_bytes m a (x' ++ y') -> length x = length x' ->
  x = x' /\ at_bytes m (a + Z.of_nat (length x)) y /\ at_bytes m (a + Z.of_nat (length x)) y'.
Proof.
  intros H H' L. apply at_bytes_app in H as [H1 H2]. apply at_bytes_app in H' as [H1' H2'].
  unfold at_bytes in H1, H1'. rewrite <- L in H1', H2'. split; [congruence|done].
Qed.

Lemma prefixes_det m : forall ps ps' a c c' x x',
  at_bytes m a (ps ++ c :: x) -> at_bytes m a (ps' ++ c' :: x') ->
  forallb is_prefix ps = true -> forallb is_prefix ps' = true ->
  is_prefix c = false -> is_prefix c' = false -> ps = ps'.
Proof.
  induction ps as [|p ps IH]; intros [|p' ps'] a c c' x x' H H' P P' Q Q';
    cbn [app] in H, H'; apply at_bytes_cons in H as [E H]; apply at_bytes_cons in H' as [E' H'];
    try done.
  - cbn [forallb] in P'. apply andb_true_iff in P' as [P' _]. congruence.
  - cbn [forallb] in P. apply andb_true_iff in P as [P _]. congruence.
  - cbn [forallb] in P, P'. apply andb_true_iff in P as [_ P]. apply andb_true_iff in P' as [_ P'].
    f_equal; [congruence|]. eapply IH; eauto.
Qed.

Lemma opcode_det m a i j x y :
  (i_two i || negb (is_prefix (i_op i) || (i_op i =? 0x0f))) = true ->
  (i_two j || negb (is_prefix (i_op j) || (i_op j =? 0x0f))) = true ->
  at_bytes m a (opcode_bytes i ++ x) -> at_bytes m a (opcode_bytes j ++ y) ->
  i_two i = i_two j /\ i_op i = i_op j.
Proof.
  intros Ci Cj Bi Bj.
  destruct (opcode_head i Ci) as (c & r & E & _ & Ti).
  destruct (opcode_head j Cj) as (c' & r' & E' & _ & Tj).
  assert (T : i_two i = i_two j).
  { rewrite E in Bi. rewrite E' in Bj. cbn [app] in Bi, Bj.
    apply at_bytes_cons in Bi as [<- _]. apply at_bytes_cons in Bj as [<- _]. congruence. }
  split; [done|]. unfold opcode_bytes in *. rewrite <- T in *.
  destruct (i_two i); cbn [app] in Bi, Bj; rewrite !at_bytes_cons in Bi, Bj; intuition congruence.
Qed.

Lemma opt_list_det {m a x y} {p q : option Z} :
  at_bytes m a (opt_list p ++ x) -> at_bytes m a (opt_list q ++ y) ->
  (match p with Some _ => true | None => false end) =
  (match q with Some _ => true | None => false end) -> p = q.
Proof.
  intros P Q E. destruct p, q; try done. cbn [opt_list app] in P, Q.
  apply at_bytes_cons in P as [P _], Q as [Q _]. congruence.
Qed.

Lemma encode_unique_aux m a i j :
  wf_insn i = true -> wf_insn j = true ->
  at_bytes m a (encode i) -> at_bytes m a (encode j) -> i = j.
Proof.
  intros WI WJ BI BJ.
  destruct (wf_insn_inv i WI) as (P & _ & C & W & fe & at_ & S & Ws & Ld & Lw & Lb & Lv & Ls).
  destruct (wf_insn_inv j WJ) as (P' & _ & C' & W' & fe' & at' & S' & Ws' & Ld' & Lw' & Lb' & Lv' & Ls').
  unfold encode in BI, BJ.
  assert (HP : i_prefixes i = i_prefixes j).
  { destruct (opcode_head i C) as (c & r & E & Q & _).
    destruct (opcode_head j C') as (c' & r' & E' & Q' & _).
    rewrite E in BI. rewrite E' in BJ. eapply prefixes_det; eauto. }
  apply (at_bytes_det _ _ _ _ _ _ BI) in BJ as (_ & B1 & B1'); [|now rewrite HP].
  destruct (opcode_det _ _ _ _ _ _ C C' B1 B1') as [HT HO].
  assert (HQ : opcode_bytes i = opcode_bytes j) by (unfold opcode_bytes; now rewrite HT, HO).
  apply (at_bytes_det _ _ _ _ _ _ B1) in B1' as (_ & B2 & B2'); [|now rewrite HQ].
  assert (HM : i_modrm i = i_modrm j).
  { apply (opt_list_det B2 B2'). rewrite <- W, <- W'. now apply wants_modrm_ext. }
  rewrite (select_ext i j HT HO HM), S' in S. injection S as -> ->.
  apply (at_bytes_det _ _ _ _ _ _ B2) in B2' as (_ & B3 & B3'); [|now rewrite HM].
  assert (HA : addr32 i = addr32 j /\ data32 i = data32 j)
    by (unfold addr32, data32; now rewrite HP).
  destruct HA as [HA HD]. rewrite HA, HD, HM in *.
  assert (HS : i_sib i = i_sib j) by (apply (opt_list_det B3 B3'); congruence).
  apply (at_bytes_det _ _ _ _ _ _ B3) in B3' as (_ & B4 & B4'); [|now rewrite HS].
  apply (at_bytes_det _ _ _ _ _ _ B4) in B4' as (HDi & B5 & B5'); [|congruence].
  apply (at_bytes_det _ _ _ _ _ _ B5) in B5' as (HIw & B6 & B6'); [|congruence].
  apply (at_bytes_det _ _ _ _ _ _ B6) in B6' as (HIb & B7 & B7'); [|congruence].
  apply (at_bytes_det _ _ _ _ _ _ B7) in B7' as (HIv & B8 & B8'); [|congruence].
  assert (HSl : i_sel i = i_sel j) by (unfold at_bytes in B8, B8'; congruence).
  destruct i, j; simpl in *; congruence.
Qed.

(** ** Theorems *)

(** C4: decoding inverts encoding.  For a well-formed instruction whose bytes
    lie at [pc], [simple_disas_insn] returns the entry the opcode maps select,
    consumes exactly those bytes and leaves prefixes, ModR/M, SIB, displacement
    (sign-extended or not as the source does) and immediates in the record. *)
Theorem decode_encode fuel m ds0 pc i :
  wf_insn i = true -> at_bytes m pc (encode i) -> 0 <= pc ->
  pc + Z.of_nat (length (encode i)) <= 4294967296 ->
  (length (i_prefixes i) < fuel)%nat ->
  exists fe at_ ds, select i = Some (fe, at_) /\
    simple_disas_insn fuel m ds0 pc = Ok (decode_ret fe at_, ds) /\
    decoded i pc fe at_ ds.
Proof. apply decode_encode_aux. Qed.

Lemma parse_prefixes m pc n : length (i_prefixes (parse m pc n)) = n.
Proof. apply read_bytes_length. Qed.

(** C16: the decoder is total.  Whatever bytes follow at most [n] prefixes at
    [pc], it terminates without undefined behaviour, the bytes it consumed are
    the encoding of one well-formed instruction, and they are at most 11 after
    the prefixes. *)
Theorem decode_total fuel m ds0 pc n :
  0 <= pc -> pc + Z.of_nat n + 11 <= 4294967296 -> (n < fuel)%nat ->
  (forall k, (k < n)%nat -> is_prefix (ld8 m (pc + Z.of_nat k)) = true) ->
  is_prefix (ld8 m (pc + Z.of_nat n)) = false ->
  exists i fe at_ ds, wf_insn i = true /\ at_bytes m pc (encode i) /\
    length (i_prefixes i) = n /\ (length (encode i) <= n + 11)%nat /\
    simple_disas_insn fuel m ds0 pc = Ok (decode_ret fe at_, ds) /\
    decoded i pc fe at_ ds.
Proof.
  intros Hpc Hl Hf Hp Hn. pose proof (parse_wf m pc n Hp Hn) as WF.
  pose proof (encode_length_aux _ WF) as L. rewrite parse_prefixes in L.
  destruct (decode_encode_aux fuel m ds0 pc _ WF (parse_at_bytes m pc n) Hpc)
    as (fe & at_ & ds & S & D1 & D2); rewrite ?parse_prefixes; [lia..|].
  exists (parse m pc n), fe, at_, ds. pose proof (parse_at_bytes m pc n).
  pose proof (parse_prefixes m pc n). done.
Qed.

(** The instruction format is uniquely decodable: at most one well-formed
    instruction is encoded at an address. *)
Theorem encode_unique m pc i j :
  wf_insn i = true -> wf_insn j = true ->
  at_bytes m pc (encode i) -> at_bytes m pc (encode j) -> i = j.
Proof. apply encode_unique_aux. Qed.

(** C19: when the decoder accepts an instruction, the record names an emit
    handler whose instruction type and [DF_BRANCH] bit are the handler's own;
    when it rejects one, the entry is undefined or has no handler. *)
Theorem decode_handler fuel m ds0 pc i :
  wf_insn i = true -> at_bytes m pc (encode i) -> 0 <= pc ->
  pc + Z.of_nat (length (encode i)) <= 4294967296 ->
  (length (i_prefixes i) < fuel)%nat ->
  exists r ds, simple_disas_insn fuel m ds0 pc = Ok (r, ds) /\
    if r : bool then
      exists f, emitfn ds = Emit f /\ ds_inst_type ds = Some (inst_type_of f) /\
        hasb (ds_attr ds) DF_BRANCH = is_branch_fn f
    else hasb (ds_attr ds) DF_UNDEFINED = true.
Proof.
  intros WF B Hpc Hl Hf.
  destruct (decode_encode_aux fuel m ds0 pc i WF B Hpc Hl Hf) as (fe & at_ & ds & S & R & D).
  exists (decode_ret fe at_), ds. split; [done|].
  destruct (selected i fe at_ WF S) as (_ & L & Eb & Eu).
  destruct D as [_ _ _ At [Em _] _ _ _ _ _ Ty].
  unfold leaf_ok in L. rewrite !andb_true_iff in L. destruct L as [_ L].
  destruct (decode_ret fe at_) eqn:E; unfold decode_ret in E.
  - specialize (Ty eq_refl). rewrite andb_true_iff, !negb_true_iff in E. destruct E as [U _].
    destruct (ptr fe) as [|f|t]; [congruence| |done].
    rewrite <- Eu, U in L. rewrite andb_false_l, orb_false_r, andb_true_iff in L.
    destruct L as [L1 L2].
    apply bool_decide_eq_true in L2. apply eqb_prop in L1. exists f. split; [done|].
    rewrite Ty, At. split; congruence.
  - rewrite At, Eu. apply andb_false_iff in E as [E|E]; apply negb_false_iff in E; [congruence|].
    apply bool_decide_eq_true in E. rewrite E in L. done.
Qed.

(** The opcode maps are well formed: in every row the operand bits of
    [attr] are those the operand columns ask for, the [index] column is the
    row's position (except row 7 of group3v), the one-byte map marks exactly
    the eleven prefixes, escapes only through 0F, and every path of groups and
    x87 tables ends in rows whose handler, type and [DF_BRANCH] agree. *)
Theorem opcode_tables_ok :
  (forall t, table_ok t = true) /\
  (forall c, 0 <= c < 256 ->
     exists e, nopbyte0 !! Z.to_nat c = Some e /\ one_byte_ok c e = true) /\
  (forall c, 0 <= c < 256 ->
     exists e, twoByteOpcodes !! Z.to_nat c = Some e /\ two_byte_ok e = true).
Proof.
  split; [|split; [apply nopbyte0_entry | apply twoByte_entry]].
  assert (T : forallb table_ok all_tables = true) by (vm_compute; reflexivity).
  intros t. pose proof (proj1 (forallb_forall _ _) T t) as K. apply K.
  apply list_elem_of_In, all_tables_complete.
Qed.

Lemma toggled_filter c ps : forall r,
  fold_left (fun r p => if p =? c then negb r else r) ps r =
  xorb r (Nat.odd (length (List.filter (Z.eqb c) ps))).
Proof.
  induction ps as [|p ps IH]; intros r; [now destruct r|]. cbn [fold_left List.filter].
  rewrite IH, (Z.eqb_sym c p). destruct (p =? c); [|done].
  cbn [length]. rewrite Nat.odd_succ, <- Nat.negb_odd.
  destruct r; destruct (Nat.odd _); done.
Qed.

(** each 66 (67) prefix flips the operand (address) size, so the size in
    force depends on the parity of their number: a doubled 66 decodes with
    32-bit operands, where the hardware uses 16-bit ones. *)
Theorem decode_size_parity fuel m ds0 pc i :
  wf_insn i = true -> at_bytes m pc (encode i) -> 0 <= pc ->
  pc + Z.of_nat (length (encode i)) <= 4294967296 ->
  (length (i_prefixes i) < fuel)%nat ->
  exists r ds, simple_disas_insn fuel m ds0 pc = Ok (r, ds) /\
    hasb (opstate ds) OPSTATE_DATA32 =
      Nat.even (length (List.filter (Z.eqb HD_PREFIX_OPSZ) (i_prefixes i))) /\
    hasb (opstate ds) OPSTATE_ADDR32 =
      Nat.even (length (List.filter (Z.eqb HD_PREFIX_ADDRSZ) (i_prefixes i))).
Proof.
  intros WF B Hpc Hl Hf.
  destruct (decode_encode_aux fuel m ds0 pc i WF B Hpc Hl Hf) as (fe & at_ & ds & S & R & D).
  do 2 eexists. split; [exact R|].
  destruct (dc_scan _ _ _ _ _ D) as [-> _ _].
  unfold data32, addr32, toggled. rewrite !toggled_filter, !xorb_false_l, !Nat.negb_odd.
  now destruct (Nat.even _), (Nat.even _).
Qed.

(** ** Concrete instances *)

(** [66 81 84 88 78 56 34 12 cd ab]: ADDW $0xabcd, 0x12345678(%eax,%ecx,4). *)
Definition add_insn : insn :=
  Insn [0x66] false 0x81 (Some 0x84) (Some 0x88) [0x78; 0x56; 0x34; 0x12] [] []
       [0xcd; 0xab] [].
Definition add_mem : mem := write_bytes 0x8048000 (encode add_insn) ∅.
Definition ds_zero : decode_t :=
  mkDs 0 0 0 0 0 0 0 0 0 0 NULL None 0 0 0 false 0 0 0 0 0 0 None.

Lemma decode_encode_witness :
  exists fe at_ ds, select add_insn = Some (fe, at_) /\
    simple_disas_insn 2 add_mem ds_zero 0x8048000 = Ok (decode_ret fe at_, ds) /\
    decoded add_insn 0x8048000 fe at_ ds.
Proof. apply decode_encode; [vm_compute; reflexivity..|lia|vm_compute; done|simpl; lia]. Defined.

Lemma decode_total_witness :
  exists i fe at_ ds, wf_insn i = true /\ at_bytes add_mem 0x8048000 (encode i) /\
    length (i_prefixes i) = 1%nat /\ (length (encode i) <= 1 + 11)%nat /\
    simple_disas_insn 2 add_mem ds_zero 0x8048000 = Ok (decode_ret fe at_, ds) /\
    decoded i 0x8048000 fe at_ ds.
Proof.
  apply decode_total; [lia|lia|lia| |vm_compute; reflexivity].
  intros [|k] Hk; [vm_compute; reflexivity | lia].
Defined.

Lemma encode_unique_witness : parse add_mem 0x8048000 1 = add_insn.
Proof.
  apply (encode_unique add_mem 0x8048000); [|vm_compute; reflexivity|apply parse_at_bytes|
    vm_compute; reflexivity].
  vm_compute; reflexivity.
Defined.

Lemma decode_handler_witness :
  exists r ds, simple_disas_insn 2 add_mem ds_zero 0x8048000 = Ok (r, ds) /\
    if r : bool then
      exists f, emitfn ds = Emit f /\ ds_inst_type ds = Some (inst_type_of f) /\
        hasb (ds_attr ds) DF_BRANCH = is_branch_fn f
    else hasb (ds_attr ds) DF_UNDEFINED = true.
Proof.
  apply (decode_handler 2 add_mem ds_zero 0x8048000 add_insn);
    [vm_compute; reflexivity..|lia|vm_compute; done|simpl; lia].
Defined.

(** [66 66 b8 01 00 00 00]: the doubled prefix leaves a 32-bit immediate. *)
Definition mov_insn : insn :=
  Insn [0x66; 0x66] false 0xb8 None None [] [] [] [1; 0; 0; 0] [].
Definition mov_mem : mem := write_bytes 0x8048000 (encode mov_insn) ∅.

Lemma decode_size_parity_witness :
  exists r ds, simple_disas_insn 3 mov_mem ds_zero 0x8048000 = Ok (r, ds) /\
    hasb (opstate ds) OPSTATE_DATA32 = true /\ hasb (opstate ds) OPSTATE_ADDR32 = true.
Proof.
  destruct (decode_size_parity 3 mov_mem ds_zero 0x8048000 mov_insn)
    as (r & ds & R & D & A); [vm_compute; reflexivity..|lia|vm_compute; done|simpl; lia|].
  exists r, ds. split; [exact R|]. rewrite D, A. split; vm_compute; reflexivity.
Defined.
