(* ===== verification/State.v ===== *)
(** The state of the translator: the translation blocks, the code-generation
    context, the CPU environment and the code buffers, with the state and error
    monad the other files write the C functions in.

    - [TranslationBlock] is the struct of src/exec-all.h; a pointer to one is its
      index in the array [tbs] (src/exec.c), [tb_addr] its address.
    - [code_gen_context] is the struct of src/target-i386/translate.h.
    - The fields of [CPUX86State] (src/target-i386/cpu.h) that generated code
      reads or writes live in memory at their offset from [L_env]; the pointers
      and tables only the translator uses are fields of [st]. *)

From S2P Require Import Prelude Memory.

(** ** Addresses the linker and [malloc] choose *)

Class Layout := {
  L_env : Z;        (* CPUX86State *env *)
  L_prologue : Z;   (* code_gen_prologue *)
  L_code : Z;       (* code_gen_buffer *)
  L_sieve : Z;      (* sieve_buffer *)
  L_tbs : Z;        (* tbs *)
  L_exit_stub : Z   (* the C function exit_stub *) }.

(** ** Data *)

Record SuperTransBlock := mkStb { stb_pc_start : Z; stb_pc_end : Z; stb_tc_ptr : Z }.

(** A [to] or [tb] pointer of an entry is an address or a block index. *)
Record patch_entry := mkPatch {
  pe_at : Z; pe_to : Z; pe_tb : nat; pe_func_addr : Z; pe_tb_tag : Z }.

(** Fields the configuration never reads are left out. *)
Record TranslationBlock := mkTb {
  pc : Z;
  func_addr : Z;
  tb_tag : Z;
  hcode_size : Z;
  insn_count : Z;
  ind_miss_count : Z;
  ind_replace_count : Z;
  tc_ptr : Z;
  phys_hash_next : option nat;
  patch_num : Z;
  tb_jmp_offset : Z -> Z;
  jmp_from : Z -> nat;
  jmp_from_num : Z -> Z;
  jmp_from_index : Z;
  tb_type : Z;
  jind_src_addr : Z -> Z;
  jind_dest_addr : Z -> Z;
  mru_src : Z;
  mru_dest : Z;
  jmp_ind : Z;
  jmp_ind_index : Z;
  retrans_patch_ptr : Z;
  ind_enter_sieve : Z;
  retransed : bool;
  ind_tgt : Z }.

Record code_gen_context := mkCgc {
  tb_ret_addr : Z;
  pc_ptr : Z;
  pc_start : Z;
  insn_len : Z;
  stbs : Z -> SuperTransBlock;
  stb_count : Z;
  jmp_count : Z;
  jcond_count : Z;
  jothercond_count : Z;
  call_count : Z;
  call_ind_count : Z;
  ret_count : Z;
  retIw_count : Z;
  j_ind_count : Z;
  find_dest_count : Z;
  s_code_size : Z;
  sieve_stat : Z -> Z;
  end_by_transnext : Z }.

Record st := mkSt {
  smem : mem;
  code_ptr : Z;
  sieve_code_ptr : Z;
  code_gen_ptr : Z;
  patch_array : list patch_entry;
  tb_jmp_cache : gmap Z nat;
  tb_phys_hash : gmap Z nat;
  tbs : nat -> TranslationBlock;
  nb_tbs : nat;
  cur_tb : nat;
  sieve_stub : Z;
  cgc : code_gen_context }.

(** Field updates. *)

Definition set_pc v (t : TranslationBlock) : TranslationBlock :=
  mkTb v (func_addr t) (tb_tag t) (hcode_size t) (insn_count t) (ind_miss_count t) (ind_replace_count t) (tc_ptr t) (phys_hash_next t) (patch_num t) (tb_jmp_offset t) (jmp_from t) (jmp_from_num t) (jmp_from_index t) (tb_type t) (jind_src_addr t) (jind_dest_addr t) (mru_src t) (mru_dest t) (jmp_ind t) (jmp_ind_index t) (retrans_patch_ptr t) (ind_enter_sieve t) (retransed t) (ind_tgt t).
Definition set_func_addr v (t : TranslationBlock) : TranslationBlock :=
  mkTb (pc t) v (tb_tag t) (hcode_size t) (insn_count t) (ind_miss_count t) (ind_replace_count t) (tc_ptr t) (phys_hash_next t) (patch_num t) (tb_jmp_offset t) (jmp_from t) (jmp_from_num t) (jmp_from_index t) (tb_type t) (jind_src_addr t) (jind_dest_addr t) (mru_src t) (mru_dest t) (jmp_ind t) (jmp_ind_index t) (retrans_patch_ptr t) (ind_enter_sieve t) (retransed t) (ind_tgt t).
Definition set_tb_tag v (t : TranslationBlock) : TranslationBlock :=
  mkTb (pc t) (func_addr t) v (hcode_size t) (insn_count t) (ind_miss_count t) (ind_replace_count t) (tc_ptr t) (phys_hash_next t) (patch_num t) (tb_jmp_offset t) (jmp_from t) (jmp_from_num t) (jmp_from_index t) (tb_type t) (jind_src_addr t) (jind_dest_addr t) (mru_src t) (mru_dest t) (jmp_ind t) (jmp_ind_index t) (retrans_patch_ptr t) (ind_enter_sieve t) (retransed t) (ind_tgt t).
Definition set_hcode_size v (t : TranslationBlock) : TranslationBlock :=
  mkTb (pc t) (func_addr t) (tb_tag t) v (insn_count t) (ind_miss_count t) (ind_replace_count t) (tc_ptr t) (phys_hash_next t) (patch_num t) (tb_jmp_offset t) (jmp_from t) (jmp_from_num t) (jmp_from_index t) (tb_type t) (jind_src_addr t) (jind_dest_addr t) (mru_src t) (mru_dest t) (jmp_ind t) (jmp_ind_index t) (retrans_patch_ptr t) (ind_enter_sieve t) (retransed t) (ind_tgt t).
Definition set_insn_count v (t : TranslationBlock) : TranslationBlock :=
  mkTb (pc t) (func_addr t) (tb_tag t) (hcode_size t) v (ind_miss_count t) (ind_replace_count t) (tc_ptr t) (phys_hash_next t) (patch_num t) (tb_jmp_offset t) (jmp_from t) (jmp_from_num t) (jmp_from_index t) (tb_type t) (jind_src_addr t) (jind_dest_addr t) (mru_src t) (mru_dest t) (jmp_ind t) (jmp_ind_index t) (retrans_patch_ptr t) (ind_enter_sieve t) (retransed t) (ind_tgt t).
Definition set_ind_miss_count v (t : TranslationBlock) : TranslationBlock :=
  mkTb (pc t) (func_addr t) (tb_tag t) (hcode_size t) (insn_count t) v (ind_replace_count t) (tc_ptr t) (phys_hash_next t) (patch_num t) (tb_jmp_offset t) (jmp_from t) (jmp_from_num t) (jmp_from_index t) (tb_type t) (jind_src_addr t) (jind_dest_addr t) (mru_src t) (mru_dest t) (jmp_ind t) (jmp_ind_index t) (retrans_patch_ptr t) (ind_enter_sieve t) (retransed t) (ind_tgt t).
Definition set_ind_replace_count v (t : TranslationBlock) : TranslationBlock :=
  mkTb (pc t) (func_addr t) (tb_tag t) (hcode_size t) (insn_count t) (ind_miss_count t) v (tc_ptr t) (phys_hash_next t) (patch_num t) (tb_jmp_offset t) (jmp_from t) (jmp_from_num t) (jmp_from_index t) (tb_type t) (jind_src_addr t) (jind_dest_addr t) (mru_src t) (mru_dest t) (jmp_ind t) (jmp_ind_index t) (retrans_patch_ptr t) (ind_enter_sieve t) (retransed t) (ind_tgt t).
Definition set_tc_ptr v (t : TranslationBlock) : TranslationBlock :=
  mkTb (pc t) (func_addr t) (tb_tag t) (hcode_size t) (insn_count t) (ind_miss_count t) (ind_replace_count t) v (phys_hash_next t) (patch_num t) (tb_jmp_offset t) (jmp_from t) (jmp_from_num t) (jmp_from_index t) (tb_type t) (jind_src_addr t) (jind_dest_addr t) (mru_src t) (mru_dest t) (jmp_ind t) (jmp_ind_index t) (retrans_patch_ptr t) (ind_enter_sieve t) (retransed t) (ind_tgt t).
Definition set_phys_hash_next v (t : TranslationBlock) : TranslationBlock :=
  mkTb (pc t) (func_addr t) (tb_tag t) (hcode_size t) (insn_count t) (ind_miss_count t) (ind_replace_count t) (tc_ptr t) v (patch_num t) (tb_jmp_offset t) (jmp_from t) (jmp_from_num t) (jmp_from_index t) (tb_type t) (jind_src_addr t) (jind_dest_addr t) (mru_src t) (mru_dest t) (jmp_ind t) (jmp_ind_index t) (retrans_patch_ptr t) (ind_enter_sieve t) (retransed t) (ind_tgt t).
Definition set_patch_num v (t : TranslationBlock) : TranslationBlock :=
  mkTb (pc t) (func_addr t) (tb_tag t) (hcode_size t) (insn_count t) (ind_miss_count t) (ind_replace_count t) (tc_ptr t) (phys_hash_next t) v (tb_jmp_offset t) (jmp_from t) (jmp_from_num t) (jmp_from_index t) (tb_type t) (jind_src_addr t) (jind_dest_addr t) (mru_src t) (mru_dest t) (jmp_ind t) (jmp_ind_index t) (retrans_patch_ptr t) (ind_enter_sieve t) (retransed t) (ind_tgt t).
Definition set_tb_jmp_offset v (t : TranslationBlock) : TranslationBlock :=
  mkTb (pc t) (func_addr t) (tb_tag t) (hcode_size t) (insn_count t) (ind_miss_count t) (ind_replace_count t) (tc_ptr t) (phys_hash_next t) (patch_num t) v (jmp_from t) (jmp_from_num t) (jmp_from_index t) (tb_type t) (jind_src_addr t) (jind_dest_addr t) (mru_src t) (mru_dest t) (jmp_ind t) (jmp_ind_index t) (retrans_patch_ptr t) (ind_enter_sieve t) (retransed t) (ind_tgt t).
Definition set_jmp_from v (t : TranslationBlock) : TranslationBlock :=
  mkTb (pc t) (func_addr t) (tb_tag t) (hcode_size t) (insn_count t) (ind_miss_count t) (ind_replace_count t) (tc_ptr t) (phys_hash_next t) (patch_num t) (tb_jmp_offset t) v (jmp_from_num t) (jmp_from_index t) (tb_type t) (jind_src_addr t) (jind_dest_addr t) (mru_src t) (mru_dest t) (jmp_ind t) (jmp_ind_index t) (retrans_patch_ptr t) (ind_enter_sieve t) (retransed t) (ind_tgt t).
Definition set_jmp_from_num v (t : TranslationBlock) : TranslationBlock :=
  mkTb (pc t) (func_addr t) (tb_tag t) (hcode_size t) (insn_count t) (ind_miss_count t) (ind_replace_count t) (tc_ptr t) (phys_hash_next t) (patch_num t) (tb_jmp_offset t) (jmp_from t) v (jmp_from_index t) (tb_type t) (jind_src_addr t) (jind_dest_addr t) (mru_src t) (mru_dest t) (jmp_ind t) (jmp_ind_index t) (retrans_patch_ptr t) (ind_enter_sieve t) (retransed t) (ind_tgt t).
Definition set_jmp_from_index v (t : TranslationBlock) : TranslationBlock :=
  mkTb (pc t) (func_addr t) (tb_tag t) (hcode_size t) (insn_count t) (ind_miss_count t) (ind_replace_count t) (tc_ptr t) (phys_hash_next t) (patch_num t) (tb_jmp_offset t) (jmp_from t) (jmp_from_num t) v (tb_type t) (jind_src_addr t) (jind_dest_addr t) (mru_src t) (mru_dest t) (jmp_ind t) (jmp_ind_index t) (retrans_patch_ptr t) (ind_enter_sieve t) (retransed t) (ind_tgt t).
Definition set_tb_type v (t : TranslationBlock) : TranslationBlock :=
  mkTb (pc t) (func_addr t) (tb_tag t) (hcode_size t) (insn_count t) (ind_miss_count t) (ind_replace_count t) (tc_ptr t) (phys_hash_next t) (patch_num t) (tb_jmp_offset t) (jmp_from t) (jmp_from_num t) (jmp_from_index t) v (jind_src_addr t) (jind_dest_addr t) (mru_src t) (mru_dest t) (jmp_ind t) (jmp_ind_index t) (retrans_patch_ptr t) (ind_enter_sieve t) (retransed t) (ind_tgt t).
Definition set_jind_src_addr v (t : TranslationBlock) : TranslationBlock :=
  mkTb (pc t) (func_addr t) (tb_tag t) (hcode_size t) (insn_count t) (ind_miss_count t) (ind_replace_count t) (tc_ptr t) (phys_hash_next t) (patch_num t) (tb_jmp_offset t) (jmp_from t) (jmp_from_num t) (jmp_from_index t) (tb_type t) v (jind_dest_addr t) (mru_src t) (mru_dest t) (jmp_ind t) (jmp_ind_index t) (retrans_patch_ptr t) (ind_enter_sieve t) (retransed t) (ind_tgt t).
Definition set_jind_dest_addr v (t : TranslationBlock) : TranslationBlock :=
  mkTb (pc t) (func_addr t) (tb_tag t) (hcode_size t) (insn_count t) (ind_miss_count t) (ind_replace_count t) (tc_ptr t) (phys_hash_next t) (patch_num t) (tb_jmp_offset t) (jmp_from t) (jmp_from_num t) (jmp_from_index t) (tb_type t) (jind_src_addr t) v (mru_src t) (mru_dest t) (jmp_ind t) (jmp_ind_index t) (retrans_patch_ptr t) (ind_enter_sieve t) (retransed t) (ind_tgt t).
Definition set_mru_src v (t : TranslationBlock) : TranslationBlock :=
  mkTb (pc t) (func_addr t) (tb_tag t) (hcode_size t) (insn_count t) (ind_miss_count t) (ind_replace_count t) (tc_ptr t) (phys_hash_next t) (patch_num t) (tb_jmp_offset t) (jmp_from t) (jmp_from_num t) (jmp_from_index t) (tb_type t) (jind_src_addr t) (jind_dest_addr t) v (mru_dest t) (jmp_ind t) (jmp_ind_index t) (retrans_patch_ptr t) (ind_enter_sieve t) (retransed t) (ind_tgt t).
Definition set_mru_dest v (t : TranslationBlock) : TranslationBlock :=
  mkTb (pc t) (func_addr t) (tb_tag t) (hcode_size t) (insn_count t) (ind_miss_count t) (ind_replace_count t) (tc_ptr t) (phys_hash_next t) (patch_num t) (tb_jmp_offset t) (jmp_from t) (jmp_from_num t) (jmp_from_index t) (tb_type t) (jind_src_addr t) (jind_dest_addr t) (mru_src t) v (jmp_ind t) (jmp_ind_index t) (retrans_patch_ptr t) (ind_enter_sieve t) (retransed t) (ind_tgt t).
Definition set_jmp_ind v (t : TranslationBlock) : TranslationBlock :=
  mkTb (pc t) (func_addr t) (tb_tag t) (hcode_size t) (insn_count t) (ind_miss_count t) (ind_replace_count t) (tc_ptr t) (phys_hash_next t) (patch_num t) (tb_jmp_offset t) (jmp_from t) (jmp_from_num t) (jmp_from_index t) (tb_type t) (jind_src_addr t) (jind_dest_addr t) (mru_src t) (mru_dest t) v (jmp_ind_index t) (retrans_patch_ptr t) (ind_enter_sieve t) (retransed t) (ind_tgt t).
Definition set_jmp_ind_index v (t : TranslationBlock) : TranslationBlock :=
  mkTb (pc t) (func_addr t) (tb_tag t) (hcode_size t) (insn_count t) (ind_miss_count t) (ind_replace_count t) (tc_ptr t) (phys_hash_next t) (patch_num t) (tb_jmp_offset t) (jmp_from t) (jmp_from_num t) (jmp_from_index t) (tb_type t) (jind_src_addr t) (jind_dest_addr t) (mru_src t) (mru_dest t) (jmp_ind t) v (retrans_patch_ptr t) (ind_enter_sieve t) (retransed t) (ind_tgt t).
Definition set_retrans_patch_ptr v (t : TranslationBlock) : TranslationBlock :=
  mkTb (pc t) (func_addr t) (tb_tag t) (hcode_size t) (insn_count t) (ind_miss_count t) (ind_replace_count t) (tc_ptr t) (phys_hash_next t) (patch_num t) (tb_jmp_offset t) (jmp_from t) (jmp_from_num t) (jmp_from_index t) (tb_type t) (jind_src_addr t) (jind_dest_addr t) (mru_src t) (mru_dest t) (jmp_ind t) (jmp_ind_index t) v (ind_enter_sieve t) (retransed t) (ind_tgt t).
Definition set_ind_enter_sieve v (t : TranslationBlock) : TranslationBlock :=
  mkTb (pc t) (func_addr t) (tb_tag t) (hcode_size t) (insn_count t) (ind_miss_count t) (ind_replace_count t) (tc_ptr t) (phys_hash_next t) (patch_num t) (tb_jmp_offset t) (jmp_from t) (jmp_from_num t) (jmp_from_index t) (tb_type t) (jind_src_addr t) (jind_dest_addr t) (mru_src t) (mru_dest t) (jmp_ind t) (jmp_ind_index t) (retrans_patch_ptr t) v (retransed t) (ind_tgt t).
Definition set_retransed v (t : TranslationBlock) : TranslationBlock :=
  mkTb (pc t) (func_addr t) (tb_tag t) (hcode_size t) (insn_count t) (ind_miss_count t) (ind_replace_count t) (tc_ptr t) (phys_hash_next t) (patch_num t) (tb_jmp_offset t) (jmp_from t) (jmp_from_num t) (jmp_from_index t) (tb_type t) (jind_src_addr t) (jind_dest_addr t) (mru_src t) (mru_dest t) (jmp_ind t) (jmp_ind_index t) (retrans_patch_ptr t) (ind_enter_sieve t) v (ind_tgt t).
Definition set_ind_tgt v (t : TranslationBlock) : TranslationBlock :=
  mkTb (pc t) (func_addr t) (tb_tag t) (hcode_size t) (insn_count t) (ind_miss_count t) (ind_replace_count t) (tc_ptr t) (phys_hash_next t) (patch_num t) (tb_jmp_offset t) (jmp_from t) (jmp_from_num t) (jmp_from_index t) (tb_type t) (jind_src_addr t) (jind_dest_addr t) (mru_src t) (mru_dest t) (jmp_ind t) (jmp_ind_index t) (retrans_patch_ptr t) (ind_enter_sieve t) (retransed t) v.
Definition set_tb_ret_addr v (c : code_gen_context) : code_gen_context :=
  mkCgc v (pc_ptr c) (pc_start c) (insn_len c) (stbs c) (stb_count c) (jmp_count c) (jcond_count c) (jothercond_count c) (call_count c) (call_ind_count c) (ret_count c) (retIw_count c) (j_ind_count c) (find_dest_count c) (s_code_size c) (sieve_stat c) (end_by_transnext c).
Definition set_pc_ptr v (c : code_gen_context) : code_gen_context :=
  mkCgc (tb_ret_addr c) v (pc_start c) (insn_len c) (stbs c) (stb_count c) (jmp_count c) (jcond_count c) (jothercond_count c) (call_count c) (call_ind_count c) (ret_count c) (retIw_count c) (j_ind_count c) (find_dest_count c) (s_code_size c) (sieve_stat c) (end_by_transnext c).
Definition set_pc_start v (c : code_gen_context) : code_gen_context :=
  mkCgc (tb_ret_addr c) (pc_ptr c) v (insn_len c) (stbs c) (stb_count c) (jmp_count c) (jcond_count c) (jothercond_count c) (call_count c) (call_ind_count c) (ret_count c) (retIw_count c) (j_ind_count c) (find_dest_count c) (s_code_size c) (sieve_stat c) (end_by_transnext c).
Definition set_insn_len v (c : code_gen_context) : code_gen_context :=
  mkCgc (tb_ret_addr c) (pc_ptr c) (pc_start c) v (stbs c) (stb_count c) (jmp_count c) (jcond_count c) (jothercond_count c) (call_count c) (call_ind_count c) (ret_count c) (retIw_count c) (j_ind_count c) (find_dest_count c) (s_code_size c) (sieve_stat c) (end_by_transnext c).
Definition set_stbs v (c : code_gen_context) : code_gen_context :=
  mkCgc (tb_ret_addr c) (pc_ptr c) (pc_start c) (insn_len c) v (stb_count c) (jmp_count c) (jcond_count c) (jothercond_count c) (call_count c) (call_ind_count c) (ret_count c) (retIw_count c) (j_ind_count c) (find_dest_count c) (s_code_size c) (sieve_stat c) (end_by_transnext c).
Definition set_stb_count v (c : code_gen_context) : code_gen_context :=
  mkCgc (tb_ret_addr c) (pc_ptr c) (pc_start c) (insn_len c) (stbs c) v (jmp_count c) (jcond_count c) (jothercond_count c) (call_count c) (call_ind_count c) (ret_count c) (retIw_count c) (j_ind_count c) (find_dest_count c) (s_code_size c) (sieve_stat c) (end_by_transnext c).
Definition set_jmp_count v (c : code_gen_context) : code_gen_context :=
  mkCgc (tb_ret_addr c) (pc_ptr c) (pc_start c) (insn_len c) (stbs c) (stb_count c) v (jcond_count c) (jothercond_count c) (call_count c) (call_ind_count c) (ret_count c) (retIw_count c) (j_ind_count c) (find_dest_count c) (s_code_size c) (sieve_stat c) (end_by_transnext c).
Definition set_jcond_count v (c : code_gen_context) : code_gen_context :=
  mkCgc (tb_ret_addr c) (pc_ptr c) (pc_start c) (insn_len c) (stbs c) (stb_count c) (jmp_count c) v (jothercond_count c) (call_count c) (call_ind_count c) (ret_count c) (retIw_count c) (j_ind_count c) (find_dest_count c) (s_code_size c) (sieve_stat c) (end_by_transnext c).
Definition set_jothercond_count v (c : code_gen_context) : code_gen_context :=
  mkCgc (tb_ret_addr c) (pc_ptr c) (pc_start c) (insn_len c) (stbs c) (stb_count c) (jmp_count c) (jcond_count c) v (call_count c) (call_ind_count c) (ret_count c) (retIw_count c) (j_ind_count c) (find_dest_count c) (s_code_size c) (sieve_stat c) (end_by_transnext c).
Definition set_call_count v (c : code_gen_context) : code_gen_context :=
  mkCgc (tb_ret_addr c) (pc_ptr c) (pc_start c) (insn_len c) (stbs c) (stb_count c) (jmp_count c) (jcond_count c) (jothercond_count c) v (call_ind_count c) (ret_count c) (retIw_count c) (j_ind_count c) (find_dest_count c) (s_code_size c) (sieve_stat c) (end_by_transnext c).
Definition set_call_ind_count v (c : code_gen_context) : code_gen_context :=
  mkCgc (tb_ret_addr c) (pc_ptr c) (pc_start c) (insn_len c) (stbs c) (stb_count c) (jmp_count c) (jcond_count c) (jothercond_count c) (call_count c) v (ret_count c) (retIw_count c) (j_ind_count c) (find_dest_count c) (s_code_size c) (sieve_stat c) (end_by_transnext c).
Definition set_ret_count v (c : code_gen_context) : code_gen_context :=
  mkCgc (tb_ret_addr c) (pc_ptr c) (pc_start c) (insn_len c) (stbs c) (stb_count c) (jmp_count c) (jcond_count c) (jothercond_count c) (call_count c) (call_ind_count c) v (retIw_count c) (j_ind_count c) (find_dest_count c) (s_code_size c) (sieve_stat c) (end_by_transnext c).
Definition set_retIw_count v (c : code_gen_context) : code_gen_context :=
  mkCgc (tb_ret_addr c) (pc_ptr c) (pc_start c) (insn_len c) (stbs c) (stb_count c) (jmp_count c) (jcond_count c) (jothercond_count c) (call_count c) (call_ind_count c) (ret_count c) v (j_ind_count c) (find_dest_count c) (s_code_size c) (sieve_stat c) (end_by_transnext c).
Definition set_j_ind_count v (c : code_gen_context) : code_gen_context :=
  mkCgc (tb_ret_addr c) (pc_ptr c) (pc_start c) (insn_len c) (stbs c) (stb_count c) (jmp_count c) (jcond_count c) (jothercond_count c) (call_count c) (call_ind_count c) (ret_count c) (retIw_count c) v (find_dest_count c) (s_code_size c) (sieve_stat c) (end_by_transnext c).
Definition set_find_dest_count v (c : code_gen_context) : code_gen_context :=
  mkCgc (tb_ret_addr c) (pc_ptr c) (pc_start c) (insn_len c) (stbs c) (stb_count c) (jmp_count c) (jcond_count c) (jothercond_count c) (call_count c) (call_ind_count c) (ret_count c) (retIw_count c) (j_ind_count c) v (s_code_size c) (sieve_stat c) (end_by_transnext c).
Definition set_s_code_size v (c : code_gen_context) : code_gen_context :=
  mkCgc (tb_ret_addr c) (pc_ptr c) (pc_start c) (insn_len c) (stbs c) (stb_count c) (jmp_count c) (jcond_count c) (jothercond_count c) (call_count c) (call_ind_count c) (ret_count c) (retIw_count c) (j_ind_count c) (find_dest_count c) v (sieve_stat c) (end_by_transnext c).
Definition set_sieve_stat v (c : code_gen_context) : code_gen_context :=
  mkCgc (tb_ret_addr c) (pc_ptr c) (pc_start c) (insn_len c) (stbs c) (stb_count c) (jmp_count c) (jcond_count c) (jothercond_count c) (call_count c) (call_ind_count c) (ret_count c) (retIw_count c) (j_ind_count c) (find_dest_count c) (s_code_size c) v (end_by_transnext c).
Definition set_end_by_transnext v (c : code_gen_context) : code_gen_context :=
  mkCgc (tb_ret_addr c) (pc_ptr c) (pc_start c) (insn_len c) (stbs c) (stb_count c) (jmp_count c) (jcond_count c) (jothercond_count c) (call_count c) (call_ind_count c) (ret_count c) (retIw_count c) (j_ind_count c) (find_dest_count c) (s_code_size c) (sieve_stat c) v.
Definition set_smem v (s : st) : st :=
  mkSt v (code_ptr s) (sieve_code_ptr s) (code_gen_ptr s) (patch_array s) (tb_jmp_cache s) (tb_phys_hash s) (tbs s) (nb_tbs s) (cur_tb s) (sieve_stub s) (cgc s).
Definition set_code_ptr v (s : st) : st :=
  mkSt (smem s) v (sieve_code_ptr s) (code_gen_ptr s) (patch_array s) (tb_jmp_cache s) (tb_phys_hash s) (tbs s) (nb_tbs s) (cur_tb s) (sieve_stub s) (cgc s).
Definition set_sieve_code_ptr v (s : st) : st :=
  mkSt (smem s) (code_ptr s) v (code_gen_ptr s) (patch_array s) (tb_jmp_cache s) (tb_phys_hash s) (tbs s) (nb_tbs s) (cur_tb s) (sieve_stub s) (cgc s).
Definition set_code_gen_ptr v (s : st) : st :=
  mkSt (smem s) (code_ptr s) (sieve_code_ptr s) v (patch_array s) (tb_jmp_cache s) (tb_phys_hash s) (tbs s) (nb_tbs s) (cur_tb s) (sieve_stub s) (cgc s).
Definition set_patch_array v (s : st) : st :=
  mkSt (smem s) (code_ptr s) (sieve_code_ptr s) (code_gen_ptr s) v (tb_jmp_cache s) (tb_phys_hash s) (tbs s) (nb_tbs s) (cur_tb s) (sieve_stub s) (cgc s).
Definition set_tb_jmp_cache v (s : st) : st :=
  mkSt (smem s) (code_ptr s) (sieve_code_ptr s) (code_gen_ptr s) (patch_array s) v (tb_phys_hash s) (tbs s) (nb_tbs s) (cur_tb s) (sieve_stub s) (cgc s).
Definition set_tb_phys_hash v (s : st) : st :=
  mkSt (smem s) (code_ptr s) (sieve_code_ptr s) (code_gen_ptr s) (patch_array s) (tb_jmp_cache s) v (tbs s) (nb_tbs s) (cur_tb s) (sieve_stub s) (cgc s).
Definition set_tbs v (s : st) : st :=
  mkSt (smem s) (code_ptr s) (sieve_code_ptr s) (code_gen_ptr s) (patch_array s) (tb_jmp_cache s) (tb_phys_hash s) v (nb_tbs s) (cur_tb s) (sieve_stub s) (cgc s).
Definition set_nb_tbs v (s : st) : st :=
  mkSt (smem s) (code_ptr s) (sieve_code_ptr s) (code_gen_ptr s) (patch_array s) (tb_jmp_cache s) (tb_phys_hash s) (tbs s) v (cur_tb s) (sieve_stub s) (cgc s).
Definition set_cur_tb v (s : st) : st :=
  mkSt (smem s) (code_ptr s) (sieve_code_ptr s) (code_gen_ptr s) (patch_array s) (tb_jmp_cache s) (tb_phys_hash s) (tbs s) (nb_tbs s) v (sieve_stub s) (cgc s).
Definition set_sieve_stub v (s : st) : st :=
  mkSt (smem s) (code_ptr s) (sieve_code_ptr s) (code_gen_ptr s) (patch_array s) (tb_jmp_cache s) (tb_phys_hash s) (tbs s) (nb_tbs s) (cur_tb s) v (cgc s).
Definition set_cgc v (s : st) : st :=
  mkSt (smem s) (code_ptr s) (sieve_code_ptr s) (code_gen_ptr s) (patch_array s) (tb_jmp_cache s) (tb_phys_hash s) (tbs s) (nb_tbs s) (cur_tb s) (sieve_stub s) v.

Definition upd_cgc (f : code_gen_context -> code_gen_context) (s : st) : st :=
  set_cgc (f (cgc s)) s.
Definition upd_tb (i : nat) (f : TranslationBlock -> TranslationBlock) (s : st) : st :=
  set_tbs (<[i := f (tbs s i)]> (tbs s)) s.

(** Compute field reads of updated records. *)
Ltac st_simpl := cbn [upd_cgc upd_tb
    set_pc set_func_addr set_tb_tag set_hcode_size set_insn_count set_ind_miss_count
    set_ind_replace_count set_tc_ptr set_phys_hash_next set_patch_num set_tb_jmp_offset
    set_jmp_from set_jmp_from_num set_jmp_from_index set_tb_type set_jind_src_addr
    set_jind_dest_addr set_mru_src set_mru_dest set_jmp_ind set_jmp_ind_index
    set_retrans_patch_ptr set_ind_enter_sieve set_retransed set_ind_tgt pc func_addr tb_tag
    hcode_size insn_count ind_miss_count ind_replace_count tc_ptr phys_hash_next patch_num
    tb_jmp_offset jmp_from jmp_from_num jmp_from_index tb_type jind_src_addr jind_dest_addr
    mru_src mru_dest jmp_ind jmp_ind_index retrans_patch_ptr ind_enter_sieve retransed ind_tgt
    set_tb_ret_addr set_pc_ptr set_pc_start set_insn_len set_stbs set_stb_count set_jmp_count
    set_jcond_count set_jothercond_count set_call_count set_call_ind_count set_ret_count
    set_retIw_count set_j_ind_count set_find_dest_count set_s_code_size set_sieve_stat
    set_end_by_transnext tb_ret_addr pc_ptr pc_start insn_len stbs stb_count jmp_count
    jcond_count jothercond_count call_count call_ind_count ret_count retIw_count j_ind_count
    find_dest_count s_code_size sieve_stat end_by_transnext set_smem set_code_ptr
    set_sieve_code_ptr set_code_gen_ptr set_patch_array set_tb_jmp_cache set_tb_phys_hash
    set_tbs set_nb_tbs set_cur_tb set_sieve_stub set_cgc smem code_ptr sieve_code_ptr
    code_gen_ptr patch_array tb_jmp_cache tb_phys_hash tbs nb_tbs cur_tb sieve_stub cgc].
Ltac st_simpl_in H := cbn [upd_cgc upd_tb
    set_pc set_func_addr set_tb_tag set_hcode_size set_insn_count set_ind_miss_count
    set_ind_replace_count set_tc_ptr set_phys_hash_next set_patch_num set_tb_jmp_offset
    set_jmp_from set_jmp_from_num set_jmp_from_index set_tb_type set_jind_src_addr
    set_jind_dest_addr set_mru_src set_mru_dest set_jmp_ind set_jmp_ind_index
    set_retrans_patch_ptr set_ind_enter_sieve set_retransed set_ind_tgt pc func_addr tb_tag
    hcode_size insn_count ind_miss_count ind_replace_count tc_ptr phys_hash_next patch_num
    tb_jmp_offset jmp_from jmp_from_num jmp_from_index tb_type jind_src_addr jind_dest_addr
    mru_src mru_dest jmp_ind jmp_ind_index retrans_patch_ptr ind_enter_sieve retransed ind_tgt
    set_tb_ret_addr set_pc_ptr set_pc_start set_insn_len set_stbs set_stb_count set_jmp_count
    set_jcond_count set_jothercond_count set_call_count set_call_ind_count set_ret_count
    set_retIw_count set_j_ind_count set_find_dest_count set_s_code_size set_sieve_stat
    set_end_by_transnext tb_ret_addr pc_ptr pc_start insn_len stbs stb_count jmp_count
    jcond_count jothercond_count call_count call_ind_count ret_count retIw_count j_ind_count
    find_dest_count s_code_size sieve_stat end_by_transnext set_smem set_code_ptr
    set_sieve_code_ptr set_code_gen_ptr set_patch_array set_tb_jmp_cache set_tb_phys_hash
    set_tbs set_nb_tbs set_cur_tb set_sieve_stub set_cgc smem code_ptr sieve_code_ptr
    code_gen_ptr patch_array tb_jmp_cache tb_phys_hash tbs nb_tbs cur_tb sieve_stub cgc] in H.

(** ** Constants *)

Definition NOT_TRANS_YET : Z := 0xdeadbeaf.
Definition PATCH_MAX : Z := 8.
Definition PATCH_ARRAY_SIZE : Z := 256.
Definition TB_FROM_MAX : Z := 16.
Definition IND_SLOT_MAX : nat := 3.
Definition NORMAL_TB_TAG : Z := 0x0.
Definition NEED_PATCH_32 : Z := 0x5a5a.
Definition NEED_PATCH_8 : Z := 0x5a.
Definition MAX_INSNS : Z := 1024 * 8.
Definition STB_MAX : Z := 1024 * 50 * 10.
Definition DEFAULT_CODE_GEN_BUFFER_SIZE : Z := 128 * 1024 * 1024.
Definition DEFAULT_SIEVE_BUFFER_SIZE : Z := 64 * 1024 * 1024.
Definition CODE_GEN_AVG_BLOCK_SIZE : Z := 64.
Definition TCG_MAX_OP_SIZE : Z := 192.
Definition OPC_MAX_SIZE : Z := 544.
Definition code_gen_buffer_max_size : Z :=
  DEFAULT_CODE_GEN_BUFFER_SIZE - TCG_MAX_OP_SIZE * OPC_MAX_SIZE.
Definition code_gen_max_blocks : Z := DEFAULT_CODE_GEN_BUFFER_SIZE / CODE_GEN_AVG_BLOCK_SIZE.
Definition RET_CACHE_SIZE : Z := 1024 * 64.
Definition RET_HASH_MASK : Z := RET_CACHE_SIZE - 1.
Definition RET_HASH_FUNC (base i : Z) : Z := u32 (base + Z.land i RET_HASH_MASK * 4).
Definition SIEVE_SIZE : Z := 65536.
Definition SIEVE_MASK : Z := Z.shiftl (SIEVE_SIZE - 1) 3.
Definition SIEVE_HASH (base i : Z) : Z := u32 (base + Z.land i SIEVE_MASK).
Definition TB_FOR_SIEVE_MAX_SIZE : Z := 256.

(** [enum enum_ind_type] *)
Definition NOT_IND : Z := 0.
Definition IND_TYPE_CALL : Z := 1.
Definition IND_TYPE_JMP : Z := 2.
Definition IND_TYPE_RET : Z := 3.
Definition IND_TYPE_RECUR : Z := 4.
Definition IND_TYPE_CALL_SP : Z := 5.
Definition IND_TYPE_JMP_SP : Z := 6.
Definition IND_SWITCH_TYPE : Z := 7.
Definition IND_TYPE_RET_SP : Z := 8.
Definition TYPE_SYSCALL : Z := 9.

(** Register numbers. *)
Definition R_EAX : Z := 0.
Definition R_ECX : Z := 1.
Definition R_EDX : Z := 2.
Definition R_EBX : Z := 3.
Definition R_ESP : Z := 4.
Definition R_EBP : Z := 5.
Definition R_ESI : Z := 6.
Definition R_EDI : Z := 7.

Definition sizeof_TranslationBlock : Z := 256.

(** ** Members of [CPUX86State] in memory *)

Section Env.
Context `{Layout}.

Definition A_regs : Z := L_env.
Definition A_eip : Z := L_env + 32.
Definition A_target_tc : Z := L_env + 44.
Definition A_esp_tmp : Z := L_env + 48.
Definition A_ret_tb : Z := L_env + 56.
Definition A_patch_num : Z := L_env + 64.
Definition A_ret_hash_table : Z := L_env + 72.
Definition A_sieve_hashtable : Z := L_env + 267344.
Definition A_sieve_rettable : Z := L_env + 791632.
Definition A_ind_dest : Z := L_env + 1840208.
Definition A_ind_type : Z := L_env + 1840212.

Definition tb_addr (i : nat) : Z := L_tbs + sizeof_TranslationBlock * Z.of_nat i.

Definition env_eip (s : st) : Z := ld32 (smem s) A_eip.
Definition env_ret_tb (s : st) : Z := ld32 (smem s) A_ret_tb.
Definition env_patch_num (s : st) : Z := ld32 (smem s) A_patch_num.
Definition env_ind_dest (s : st) : Z := ld32 (smem s) A_ind_dest.
Definition env_ind_type (s : st) : Z := ld32 (smem s) A_ind_type.

(** [env->patch_count]: the entries of the array in use. *)
Definition patch_count (s : st) : Z := Z.of_nat (length (patch_array s)).

End Env.

(** ** The state and error monad *)

Definition M (A : Type) := st -> res (A * st).

Definition ret {A} (a : A) : M A := fun s => Ok (a, s).
Definition bind {A B} (m : M A) (k : A -> M B) : M B :=
  fun s => match m s with Ok (a, s') => k a s' | Err e => Err e end.
Definition gets {A} (f : st -> A) : M A := fun s => Ok (f s, s).
Definition modify (f : st -> st) : M unit := fun s => Ok (tt, f s).
Definition fail {A} (e : err) : M A := fun _ => Err e.
Definition lift {A} (r : res A) : M A :=
  fun s => match r with Ok a => Ok (a, s) | Err e => Err e end.

Notation "'let*' x := m 'in' k" := (bind m (fun x => k))
  (at level 10, x pattern, m at level 100, k at level 200) : unitrans_scope.
Notation "'do*' m 'in' k" := (bind m (fun _ => k))
  (at level 10, m at level 100, k at level 200) : unitrans_scope.

(** [ABORT_IF(cond, msg)] *)
Definition ABORT_IF (c : bool) : M unit := if c then fail Abort else ret tt.

(** An array access within bounds; C leaves the others undefined. *)
Definition in_bounds (i n : Z) : M unit := if (0 <=? i) && (i <? n) then ret tt else fail UB.

Definition get_tb (i : nat) : M TranslationBlock := gets (fun s => tbs s i).
Definition mod_tb (i : nat) (f : TranslationBlock -> TranslationBlock) : M unit :=
  modify (upd_tb i f).
Definition mod_cgc (f : code_gen_context -> code_gen_context) : M unit := modify (upd_cgc f).
Definition get_cgc {A} (f : code_gen_context -> A) : M A := gets (fun s => f (cgc s)).

(** [*(uint32_t * )a = v] and [*(uint8_t * )a = v]. *)
Definition poke32 (a v : Z) : M unit := modify (fun s => set_smem (st32 a v (smem s)) s).
Definition poke8 (a v : Z) : M unit := modify (fun s => set_smem (st8 a v (smem s)) s).

(** ** Emitting code

    [code_emit8], [code_emit16] and [code_emit32] (emit.h) append to a code
    pointer.  A straight run of them is a list of items; [R32 t] is the pair
    [jmp_offset = t - ptr - 4; code_emit32(ptr, jmp_offset)]. *)

Inductive item := E8 (v : Z) | E16 (v : Z) | E32 (v : Z) | R32 (target : Z).

Definition item_len (i : item) : Z := match i with E8 _ => 1 | E16 _ => 2 | _ => 4 end.
Definition item_bytes (a : Z) (i : item) : list Z :=
  match i with
  | E8 v => [u8 v]
  | E16 v => le16 v
  | E32 v => le32 v
  | R32 t => le32 (t - a - 4)
  end.

Fixpoint items_len (l : list item) : Z :=
  match l with [] => 0 | i :: l' => item_len i + items_len l' end.
Fixpoint items_bytes (a : Z) (l : list item) : list Z :=
  match l with [] => [] | i :: l' => item_bytes a i ++ items_bytes (a + item_len i) l' end.

(** Append at [env->code_ptr], at [env->sieve_code_ptr]. *)
Definition emit (l : list item) : M unit := modify (fun s =>
  set_code_ptr (code_ptr s + items_len l)
    (set_smem (write_bytes (code_ptr s) (items_bytes (code_ptr s) l) (smem s)) s)).
Definition emit_sv (l : list item) : M unit := modify (fun s =>
  set_sieve_code_ptr (sieve_code_ptr s + items_len l)
    (set_smem (write_bytes (sieve_code_ptr s) (items_bytes (sieve_code_ptr s) l) (smem s)) s)).

(** Append at a local pointer, which is returned. *)
Definition emit_at (a : Z) (l : list item) : M Z :=
  do* modify (fun s => set_smem (write_bytes a (items_bytes a l) (smem s)) s) in
  ret (a + items_len l).

(** ** Lemmas *)

Lemma item_bytes_length a i : Z.of_nat (length (item_bytes a i)) = item_len i.
Proof. now destruct i. Qed.

Lemma items_bytes_length l : forall a, Z.of_nat (length (items_bytes a l)) = items_len l.
Proof.
  induction l as [|i l IH]; intros a; [done|]. cbn [items_bytes items_len].
  rewrite length_app, Nat2Z.inj_add, item_bytes_length, IH. lia.
Qed.

Lemma items_len_nonneg l : 0 <= items_len l.
Proof. rewrite <- (items_bytes_length l 0). lia. Qed.

Lemma items_len_app x y : items_len (x ++ y) = items_len x + items_len y.
Proof. induction x as [|i x IH]; cbn [app items_len]; [done|]. rewrite IH. lia. Qed.

Lemma items_bytes_app x y : forall a,
  items_bytes a (x ++ y) = items_bytes a x ++ items_bytes (a + items_len x) y.
Proof.
  induction x as [|i x IH]; intros a; cbn [app items_bytes items_len].
  - f_equal; lia.
  - rewrite IH, <- app_assoc. do 3 f_equal. lia.
Qed.

Lemma bind_ok {A B} (m : M A) (k : A -> M B) s r :
  bind m k s = Ok r <-> exists a s', m s = Ok (a, s') /\ k a s' = Ok r.
Proof.
  unfold bind. destruct (m s) as [[a s']|]; split; [eauto|..|done|];
    intros (x & y & E & K); [|done]. now injection E as -> ->.
Qed.

Lemma bind_err {A B} (m : M A) (k : A -> M B) s e :
  bind m k s = Err e <->
  m s = Err e \/ exists a s', m s = Ok (a, s') /\ k a s' = Err e.
Proof.
  unfold bind. destruct (m s) as [[a s']|e']; split.
  - eauto 6.
  - intros [?|(x & y & E & K)]; [done|]. now injection E as -> ->.
  - intros E. left. congruence.
  - intros [E|(x & y & E & K)]; [congruence|done].
Qed.

Lemma upd_tb_eq i f s : tbs (upd_tb i f s) i = f (tbs s i).
Proof. apply fn_lookup_insert. Qed.
Lemma upd_tb_ne i j f s : i <> j -> tbs (upd_tb i f s) j = tbs s j.
Proof. apply fn_lookup_insert_ne. Qed.

(** ** A concrete instance *)

Definition demo_layout : Layout := {|
  L_env := 0x9000000; L_prologue := 0x9300000; L_code := 0x10000000; L_sieve := 0x20000000;
  L_tbs := 0x40000000; L_exit_stub := 0x8060000 |}.

Definition raw_tb : TranslationBlock :=
  mkTb 0 0 0 0 0 0 0 0 None 0 (fun _ => 0) (fun _ => 0%nat) (fun _ => 0) 0 0 (fun _ => 0)
       (fun _ => 0) 0 0 0 0 0 0 false 0.

(** Nothing translated; guest memory [m]; empty code buffers. *)
Definition init_st (m : mem) : st :=
  mkSt m 0x10000000 0x20000000 0x10000000 [] ∅ ∅ (fun _ => raw_tb) 0 0 0
       (mkCgc 0 0 0 0 (fun _ => mkStb 0 0 0) 0 0 0 0 0 0 0 0 0 0 0 (fun _ => 0) 0).
