(* ===== verification/TransBlock.v ===== *)
(** Translation blocks: allocation, the physical hash table with its chains,
    the virtual-PC cache in front of it, and the record of incoming jumps
    (src/exec.c, src/exec-all.h, src/cpu-exec.c). *)

From S2P Require Import Prelude Memory State.

(** ** Hash functions (exec-all.h) *)

Definition TARGET_PAGE_BITS : Z := 12.
Definition CODE_GEN_PHYS_HASH_BITS : Z := 15.
Definition CODE_GEN_PHYS_HASH_SIZE : Z := Z.shiftl 1 CODE_GEN_PHYS_HASH_BITS.
Definition TB_JMP_CACHE_BITS : Z := 12.
Definition TB_JMP_CACHE_SIZE : Z := Z.shiftl 1 TB_JMP_CACHE_BITS.
Definition TB_JMP_PAGE_BITS : Z := TB_JMP_CACHE_BITS / 2.
Definition TB_JMP_PAGE_SIZE : Z := Z.shiftl 1 TB_JMP_PAGE_BITS.
Definition TB_JMP_ADDR_MASK : Z := TB_JMP_PAGE_SIZE - 1.
Definition TB_JMP_PAGE_MASK : Z := TB_JMP_CACHE_SIZE - TB_JMP_PAGE_SIZE.

Definition tb_jmp_cache_hash_page (pc : Z) : Z :=
  let tmp := Z.lxor pc (Z.shiftr pc (TARGET_PAGE_BITS - TB_JMP_PAGE_BITS)) in
  Z.land (Z.shiftr tmp (TARGET_PAGE_BITS - TB_JMP_PAGE_BITS)) TB_JMP_PAGE_MASK.

Definition tb_jmp_cache_hash_func (pc : Z) : Z :=
  let tmp := Z.lxor pc (Z.shiftr pc (TARGET_PAGE_BITS - TB_JMP_PAGE_BITS)) in
  Z.lor (Z.land (Z.shiftr tmp (TARGET_PAGE_BITS - TB_JMP_PAGE_BITS)) TB_JMP_PAGE_MASK)
        (Z.land tmp TB_JMP_ADDR_MASK).

Definition tb_phys_hash_func (pc : Z) : Z := Z.land pc (CODE_GEN_PHYS_HASH_SIZE - 1).

Section TransBlock.
Context `{Layout}.

(** ** Operations *)

(** [NULL] when the array or the code buffer is full. *)
Definition tb_alloc (p : Z) : M (option nat) :=
  let* full := gets (fun s => (Z.of_nat (nb_tbs s) >=? code_gen_max_blocks) ||
                              (code_gen_ptr s - L_code >=? code_gen_buffer_max_size)) in
  if full : bool then ret None
  else
    let* i := gets nb_tbs in
    do* modify (set_nb_tbs (S i)) in
    do* mod_tb i (set_pc p) in
    ret (Some i).

(** Prints a message and calls [abort]. *)
Definition tb_flush : M unit := fail Abort.

Definition tb_free (i : nat) : M unit :=
  let* last := gets (fun s => (0 <? nb_tbs s)%nat && (i =? nb_tbs s - 1)%nat) in
  if last : bool then
    let* t := get_tb i in
    do* modify (set_code_gen_ptr (tc_ptr t)) in
    modify (fun s => set_nb_tbs (nb_tbs s - 1) s)
  else ret tt.

Definition tb_link_page (i : nat) (phys_pc : Z) : M unit :=
  let h := tb_phys_hash_func phys_pc in
  let* head := gets (fun s => tb_phys_hash s !! h) in
  do* mod_tb i (set_phys_hash_next head) in
  modify (fun s => set_tb_phys_hash (<[h := i]> (tb_phys_hash s)) s).

Definition tb_add_jmp_from (i next : nat) (n : Z) : M unit :=
  let* t := get_tb next in
  let k := jmp_from_index t in
  do* in_bounds k TB_FROM_MAX in
  do* mod_tb next (fun t => set_jmp_from (<[k := i]> (jmp_from t)) t) in
  do* mod_tb next (fun t => set_jmp_from_num (<[k := u8 n]> (jmp_from_num t)) t) in
  do* mod_tb next (fun t => set_jmp_from_index (u32 (k + 1)) t) in
  if u32 (k + 1) =? TB_FROM_MAX then mod_tb next (set_jmp_from_index 0) else ret tt.

(** The fields [make_tb] initialises. *)
Definition init_tb (func tag : Z) (t : TranslationBlock) : TranslationBlock :=
  let t := set_tc_ptr NOT_TRANS_YET t in
  let t := set_insn_count 0 t in
  let t := set_func_addr func t in
  let t := set_tb_tag tag t in
  let t := set_tb_jmp_offset (fun k => if (0 <=? k) && (k <? PATCH_MAX) then 0
                                       else tb_jmp_offset t k) t in
  let t := set_jmp_from_index 0 t in
  let t := set_jmp_ind_index 0 t in
  let t := set_ind_miss_count 0 t in
  let t := set_mru_src 0 t in
  let t := set_mru_dest 0 t in
  let t := set_ind_replace_count 0 t in
  let t := set_retransed false t in
  set_patch_num 0 t.

Definition make_tb (p func tag : Z) : M nat :=
  let tag := 0 in
  let* o := tb_alloc p in
  let* i := (match o with
             | Some i => ret i
             | None =>
                 do* tb_flush in
                 let* o := tb_alloc p in
                 lift (of_option UB o)
             end) in
  do* mod_tb i (init_tb func tag) in
  do* tb_link_page i p in
  do* modify (fun s =>
        set_tb_jmp_cache (<[tb_jmp_cache_hash_func p := i]> (tb_jmp_cache s)) s) in
  ret i.

(** [*(uint32_t * )jmp_addr = addr - (jmp_addr + 4)] *)
Definition tb_set_jmp_target1 (jmp_addr addr : Z) : M unit :=
  poke32 jmp_addr (addr - (jmp_addr + 4)).

Definition tb_set_jmp_target (i : nat) (n addr : Z) : M unit :=
  let* t := get_tb i in
  do* in_bounds n PATCH_MAX in
  tb_set_jmp_target1 (tc_ptr t + tb_jmp_offset t n) addr.

Definition tb_add_jump (i : nat) (n : Z) (next : nat) : M unit :=
  let* t := get_tb next in
  do* tb_set_jmp_target i n (tc_ptr t) in
  tb_add_jmp_from i next n.

(** The search of [tb_find_slow] along [phys_hash_next]. *)
Fixpoint chain_find (fuel : nat) (s : st) (o : option nat) (p tag : Z) : res (option nat) :=
  match fuel with
  | O => Err Fuel
  | S fuel' =>
      match o with
      | None => Ok None
      | Some i =>
          if (pc (tbs s i) =? p) && (tb_tag (tbs s i) =? tag) then Ok (Some i)
          else chain_find fuel' s (phys_hash_next (tbs s i)) p tag
      end
  end.

Definition tb_find_slow (p tag : Z) : M (option nat) :=
  let* s := gets id in
  let* o := lift (chain_find (S (nb_tbs s)) s (tb_phys_hash s !! tb_phys_hash_func p) p tag) in
  match o with
  | None => ret None
  | Some i =>
      do* modify (fun s =>
            set_tb_jmp_cache (<[tb_jmp_cache_hash_func p := i]> (tb_jmp_cache s)) s) in
      ret (Some i)
  end.

Definition tb_find_fast (p tag : Z) : M (option nat) :=
  let* o := gets (fun s => tb_jmp_cache s !! tb_jmp_cache_hash_func p) in
  match o with
  | Some i =>
      let* t := get_tb i in
      if negb (pc t =? p) || negb (tag =? tb_tag t) then tb_find_slow p tag
      else ret (Some i)
  | None => tb_find_slow p tag
  end.

End TransBlock.

(** ** What the lookup structures mean *)

(** The largest index below [n] with property [p]. *)
Fixpoint last_such (p : nat -> bool) (n : nat) : option nat :=
  match n with
  | O => None
  | S k => if p k then Some k else last_such p k
  end.

(** The newest block that translates [p]. *)
Definition newest (s : st) (p : Z) : option nat :=
  last_such (fun i => pc (tbs s i) =? p) (nb_tbs s).

(** The newest block below [n] in bucket [h]. *)
Definition prev_same (s : st) (h : Z) (n : nat) : option nat :=
  last_such (fun i => tb_phys_hash_func (pc (tbs s i)) =? h) n.

(** The invariant of the lookup structures, whatever blocks were made. *)
Record lookup_inv (s : st) : Prop := {
  inv_head : forall h, tb_phys_hash s !! h = prev_same s h (nb_tbs s);
  inv_next : forall i, (i < nb_tbs s)%nat ->
    phys_hash_next (tbs s i) = prev_same s (tb_phys_hash_func (pc (tbs s i))) i;
  inv_tag : forall i, (i < nb_tbs s)%nat -> tb_tag (tbs s i) = 0;
  inv_cache : forall h i, tb_jmp_cache s !! h = Some i ->
    newest s (pc (tbs s i)) = Some i /\ tb_jmp_cache_hash_func (pc (tbs s i)) = h;
  inv_from : forall i, (i < nb_tbs s)%nat ->
    0 <= jmp_from_index (tbs s i) < TB_FROM_MAX }.

(** The translator makes a block only where a lookup has found none: a program
    counter has one block. *)
Record tb_inv (s : st) : Prop := {
  inv_lookup :> lookup_inv s;
  inv_one : forall i j, (i < nb_tbs s)%nat -> (j < nb_tbs s)%nat -> pc (tbs s i) = pc (tbs s j) -> i = j }.

Lemma last_such_spec p n :
  match last_such p n with
  | Some i => (i < n)%nat /\ p i = true /\ forall j, (i < j < n)%nat -> p j = false
  | None => forall j, (j < n)%nat -> p j = false
  end.
Proof.
  induction n as [|n IH]; simpl; [lia|]. destruct (p n) eqn:E.
  - split; [lia|]. split; [done|]. lia.
  - assert (K : forall j, j = n -> p j = false) by now intros j ->.
    destruct (last_such p n) as [i|].
    + destruct IH as (H1 & H2 & H3). split; [lia|]. split; [done|]. intros j Hj.
      destruct (Nat.eq_dec j n); [auto|]. apply H3. lia.
    + intros j Hj. destruct (Nat.eq_dec j n); [auto|]. apply IH. lia.
Qed.

Lemma last_such_some p n i : last_such p n = Some i -> (i < n)%nat /\ p i = true.
Proof. intros E. pose proof (last_such_spec p n) as K. rewrite E in K. tauto. Qed.

Lemma last_such_ext p q n :
  (forall i, (i < n)%nat -> p i = q i) -> last_such p n = last_such q n.
Proof.
  induction n as [|n IH]; intros E; [done|]. simpl. rewrite E by lia.
  destruct (q n); [done|]. apply IH. intros; apply E; lia.
Qed.

(** Searching [p] by way of a coarser [q]. *)
Lemma last_such_coarse p q n :
  (forall i, p i = true -> q i = true) ->
  last_such p n = match last_such q n with
                  | None => None
                  | Some i => if p i then Some i else last_such p i
                  end.
Proof.
  intros I. induction n as [|n IH]; [done|]. simpl. destruct (p n) eqn:E.
  - now rewrite (I n E), E.
  - destruct (q n); [now rewrite E|]. exact IH.
Qed.

(** ** Lookup *)

(** Blocks and buckets only: what the invariant of a chain depends on. *)
Lemma chain_find_spec s p fuel : lookup_inv s -> forall n,
  (n <= nb_tbs s)%nat -> (n < fuel)%nat ->
  chain_find fuel s (prev_same s (tb_phys_hash_func p) n) p 0 =
  Ok (last_such (fun i => pc (tbs s i) =? p) n).
Proof.
  intros I. induction fuel as [|fuel IH]; intros n Hn Hf; [lia|].
  unfold prev_same.
  rewrite (last_such_coarse (fun i => pc (tbs s i) =? p)
             (fun i => tb_phys_hash_func (pc (tbs s i)) =? tb_phys_hash_func p)).
  2:{ intros i E. apply Z.eqb_eq in E. now rewrite E, Z.eqb_refl. }
  destruct (last_such _ n) as [i|] eqn:E; [|done].
  apply last_such_some in E as [Hi Ei]. apply Z.eqb_eq in Ei. cbn [chain_find].
  rewrite (inv_tag s I) by lia. rewrite Z.eqb_refl, andb_true_r.
  destruct (pc (tbs s i) =? p) eqn:F; [done|].
  rewrite (inv_next s I) by lia. rewrite Ei. apply IH; lia.
Qed.

Lemma chain_find_tag s tag fuel : lookup_inv s -> tag <> 0 -> forall p h n,
  (n <= nb_tbs s)%nat -> (n < fuel)%nat ->
  chain_find fuel s (prev_same s h n) p tag = Ok None.
Proof.
  intros I Ht. induction fuel as [|fuel IH]; intros p h n Hn Hf; [lia|].
  cbn [chain_find]. destruct (prev_same s h n) as [i|] eqn:E; [|done].
  apply last_such_some in E as [Hi Ei]. apply Z.eqb_eq in Ei.
  rewrite (inv_tag s I) by lia. assert ((0 =? tag) = false) as -> by lia.
  rewrite andb_false_r. rewrite (inv_next s I) by lia. apply IH; lia.
Qed.

(** The cache entry a lookup leaves behind. *)
Definition cache_tb (p : Z) (i : nat) (s : st) : st :=
  set_tb_jmp_cache (<[tb_jmp_cache_hash_func p := i]> (tb_jmp_cache s)) s.

Lemma newest_some s p i : newest s p = Some i -> (i < nb_tbs s)%nat /\ pc (tbs s i) = p.
Proof. intros E. apply last_such_some in E as [H1 H2]. apply Z.eqb_eq in H2. auto. Qed.

Lemma cache_tb_inv s p i : lookup_inv s -> newest s p = Some i -> lookup_inv (cache_tb p i s).
Proof.
  intros [I1 I2 I3 I4 I5] N. constructor; try done.
  intros h j E. unfold cache_tb in E. cbn in E. apply lookup_insert_Some in E as [[<- <-]|[_ E]].
  - destruct (newest_some _ _ _ N) as [_ K]. change (newest (cache_tb p i s)) with (newest s).
    change (tbs (cache_tb p i s)) with (tbs s). now rewrite K.
  - now apply I4.
Qed.

Lemma tb_find_slow_run s p : lookup_inv s ->
  tb_find_slow p 0 s =
  Ok (newest s p, match newest s p with Some i => cache_tb p i s | None => s end).
Proof.
  intros I. unfold tb_find_slow, bind, gets, id, lift.
  rewrite (inv_head s I), chain_find_spec by (done || lia).
  fold (newest s p). now destruct (newest s p).
Qed.

(** What [tb_find_fast] returns and the state it leaves. *)
Lemma tb_find_fast_run s p : lookup_inv s -> exists s',
  tb_find_fast p 0 s = Ok (newest s p, s') /\ lookup_inv s' /\
  (s' = s \/ exists i, newest s p = Some i /\ s' = cache_tb p i s).
Proof.
  intros I. assert (Slow : exists s', tb_find_slow p 0 s = Ok (newest s p, s') /\ lookup_inv s' /\
    (s' = s \/ exists i, newest s p = Some i /\ s' = cache_tb p i s)).
  { rewrite tb_find_slow_run by done. destruct (newest s p) as [i|] eqn:N; eauto 7.
    exists (cache_tb p i s). eauto 7 using cache_tb_inv. }
  unfold tb_find_fast, bind, get_tb, gets.
  destruct (tb_jmp_cache s !! _) as [i|] eqn:C; [|exact Slow].
  destruct (negb (pc (tbs s i) =? p) || negb (0 =? tb_tag (tbs s i))) eqn:E;
    [exact Slow|].
  apply orb_false_iff in E as [E _]. apply negb_false_iff, Z.eqb_eq in E.
  destruct (inv_cache s I _ _ C) as [N _]. rewrite E in N. exists s. rewrite N. auto.
Qed.

(** ** Preservation *)

Section TransBlockFacts.
Context `{Layout}.

(** Updates that keep the fields the invariant reads. *)
Lemma lookup_inv_ext s s' : lookup_inv s ->
  nb_tbs s' = nb_tbs s -> tb_phys_hash s' = tb_phys_hash s -> tb_jmp_cache s' = tb_jmp_cache s ->
  (forall i, pc (tbs s' i) = pc (tbs s i) /\
     phys_hash_next (tbs s' i) = phys_hash_next (tbs s i) /\
     tb_tag (tbs s' i) = tb_tag (tbs s i)) ->
  (forall i, (i < nb_tbs s)%nat -> 0 <= jmp_from_index (tbs s' i) < TB_FROM_MAX) ->
  lookup_inv s'.
Proof.
  intros [I1 I2 I3 I4 I5] N P C F J.
  assert (PS : forall h n, prev_same s' h n = prev_same s h n).
  { intros. apply last_such_ext. intros i _. now destruct (F i) as [-> _]. }
  assert (NW : forall p, newest s' p = newest s p).
  { intros. unfold newest. rewrite N. apply last_such_ext. intros i _.
    now destruct (F i) as [-> _]. }
  constructor.
  - intros h. now rewrite P, N, PS.
  - intros i Hi. rewrite N in Hi. destruct (F i) as (-> & -> & _). rewrite PS. auto.
  - intros i Hi. rewrite N in Hi. destruct (F i) as (_ & _ & ->). auto.
  - intros h i. rewrite C, NW. destruct (F i) as (-> & _). apply I4.
  - intros i Hi. rewrite N in Hi. auto.
Qed.

Lemma tb_inv_ext s s' : tb_inv s ->
  nb_tbs s' = nb_tbs s -> tb_phys_hash s' = tb_phys_hash s -> tb_jmp_cache s' = tb_jmp_cache s ->
  (forall i, pc (tbs s' i) = pc (tbs s i) /\
     phys_hash_next (tbs s' i) = phys_hash_next (tbs s i) /\
     tb_tag (tbs s' i) = tb_tag (tbs s i)) ->
  (forall i, (i < nb_tbs s)%nat -> 0 <= jmp_from_index (tbs s' i) < TB_FROM_MAX) ->
  tb_inv s'.
Proof.
  intros [I U] N P C F J. split; [now apply (lookup_inv_ext s)|]. intros i j. rewrite N.
  destruct (F i) as [-> _], (F j) as [-> _]. apply U.
Qed.

(** The newest block of a program counter is its only one. *)
Lemma newest_only s i : tb_inv s -> (i < nb_tbs s)%nat -> newest s (pc (tbs s i)) = Some i.
Proof.
  intros I Hi. unfold newest. pose proof (last_such_spec (fun j => pc (tbs s j) =? pc (tbs s i)) (nb_tbs s)) as K.
  destruct (last_such _ _) as [j|].
  - destruct K as (K1 & K2 & _). f_equal. apply (inv_one s I); lia.
  - specialize (K i Hi). cbv beta in K. lia.
Qed.

Lemma newest_none s p i : newest s p = None -> (i < nb_tbs s)%nat -> pc (tbs s i) <> p.
Proof.
  intros N Hi E. pose proof (last_such_spec (fun j => pc (tbs s j) =? p) (nb_tbs s)) as K.
  unfold newest in N. rewrite N in K. specialize (K i Hi). cbv beta in K. lia.
Qed.

Definition tb_full (s : st) : bool :=
  (Z.of_nat (nb_tbs s) >=? code_gen_max_blocks) ||
  (code_gen_ptr s - L_code >=? code_gen_buffer_max_size).

(** The block [make_tb] creates, and the state it leaves. *)
Definition made_tb (p func : Z) (s : st) : TranslationBlock :=
  set_phys_hash_next (tb_phys_hash s !! tb_phys_hash_func p)
    (init_tb func 0 (set_pc p (tbs s (nb_tbs s)))).

Record made (p func : Z) (s s' : st) : Prop := {
  mk_nb : nb_tbs s' = S (nb_tbs s);
  mk_new : tbs s' (nb_tbs s) = made_tb p func s;
  mk_old : forall j, j <> nb_tbs s -> tbs s' j = tbs s j;
  mk_hash : tb_phys_hash s' = <[tb_phys_hash_func p := nb_tbs s]> (tb_phys_hash s);
  mk_cache : tb_jmp_cache s' = <[tb_jmp_cache_hash_func p := nb_tbs s]> (tb_jmp_cache s);
  mk_rest : set_nb_tbs (nb_tbs s) (set_tbs (tbs s) (set_tb_phys_hash (tb_phys_hash s)
              (set_tb_jmp_cache (tb_jmp_cache s) s'))) = s }.

Lemma make_tb_run p func tag s : tb_full s = false ->
  exists s', make_tb p func tag s = Ok (nb_tbs s, s') /\ made p func s s'.
Proof.
  intros F. unfold make_tb, tb_alloc, tb_link_page, mod_tb, bind, gets, modify, ret.
  fold (tb_full s). rewrite F. eexists. split; [reflexivity|].
  constructor; unfold upd_tb; st_simpl; try done.
  - now rewrite !fn_lookup_insert.
  - intros j Hj. now rewrite !fn_lookup_insert_ne by congruence.
  - destruct s; reflexivity.
Qed.

Lemma make_tb_full p func tag s : tb_full s = true -> make_tb p func tag s = Err Abort.
Proof.
  intros F. unfold make_tb, tb_alloc, bind, gets. fold (tb_full s). now rewrite F.
Qed.

Lemma made_newest p func s s' q : made p func s s' ->
  newest s' q = if decide (q = p) then Some (nb_tbs s) else newest s q.
Proof.
  intros [N W O _ _ _]. unfold newest. rewrite N. cbn [last_such]. rewrite W.
  unfold made_tb, init_tb. st_simpl. case_decide as E.
  - subst q. now rewrite Z.eqb_refl.
  - assert ((p =? q) = false) as -> by lia. apply last_such_ext. intros i Hi.
    now rewrite O by lia.
Qed.

Lemma made_prev_same p func s s' h n : made p func s s' -> (n <= nb_tbs s)%nat ->
  prev_same s' h n = prev_same s h n.
Proof.
  intros [N W O _ _ _] Hn. apply last_such_ext. intros i Hi. now rewrite O by lia.
Qed.

Lemma made_lookup p func s s' : lookup_inv s -> made p func s s' -> lookup_inv s'.
Proof.
  intros [I1 I2 I3 I4 I5] K. pose proof K as [N W O HH C _].
  assert (F : pc (tbs s' (nb_tbs s)) = p) by now rewrite W.
  assert (L : forall i, (i < S (nb_tbs s))%nat -> i <> nb_tbs s -> (i < nb_tbs s)%nat) by lia.
  constructor.
  - intros h. rewrite HH, N. unfold prev_same. cbn [last_such]. rewrite F.
    fold (prev_same s' h (nb_tbs s)). rewrite (made_prev_same p func s) by (done || lia).
    destruct (Z.eqb_spec (tb_phys_hash_func p) h) as [->|D].
    + apply lookup_insert_eq.
    + rewrite lookup_insert_ne by done. apply I1.
  - intros i Hi. rewrite N in Hi. destruct (Nat.eq_dec i (nb_tbs s)) as [->|D].
    + rewrite F, W, (made_prev_same p func s) by (done || lia). apply I1.
    + rewrite O, (made_prev_same p func s) by (done || lia). auto.
  - intros i Hi. rewrite N in Hi. destruct (Nat.eq_dec i (nb_tbs s)) as [->|D];
      [now rewrite W | rewrite O by done; auto].
  - intros h i E. rewrite C in E. rewrite (made_newest p func s) by done.
    apply lookup_insert_Some in E as [[<- <-]|[D E]].
    + rewrite F. now rewrite decide_True.
    + destruct (I4 _ _ E) as [J1 J2]. destruct (newest_some _ _ _ J1) as [J3 _].
      rewrite O by lia. rewrite decide_False; [done|]. intros Q. rewrite Q in J2. done.
  - intros i Hi. rewrite N in Hi. destruct (Nat.eq_dec i (nb_tbs s)) as [->|D];
      [now rewrite W | rewrite O by done; auto].
Qed.

Lemma made_inv p func s s' : tb_inv s -> newest s p = None -> made p func s s' -> tb_inv s'.
Proof.
  intros [I U] Nw K. split; [now apply (made_lookup p func s)|]. destruct K as [N W O _ _ _]. rewrite N.
  assert (F : pc (tbs s' (nb_tbs s)) = p) by now rewrite W.
  intros i j Hi Hj. destruct (Nat.eq_dec i (nb_tbs s)) as [->|Di], (Nat.eq_dec j (nb_tbs s)) as [->|Dj]; [done|..];
    rewrite ?F, ?O by done; intros E.
  - exfalso. apply (newest_none s p j Nw); [lia|done].
  - exfalso. apply (newest_none s p i Nw); [lia|done].
  - apply U; [lia|lia|done].
Qed.

(** [tb_add_jmp_from] succeeds and touches three fields of [next]. *)
Record jmp_added (next : nat) (s s' : st) : Prop := {
  ja_other : forall j, j <> next -> tbs s' j = tbs s j;
  ja_same : forall t, t = tbs s' next -> set_jmp_from (jmp_from (tbs s next))
     (set_jmp_from_num (jmp_from_num (tbs s next))
       (set_jmp_from_index (jmp_from_index (tbs s next)) t)) = tbs s next;
  ja_idx : 0 <= jmp_from_index (tbs s' next) < TB_FROM_MAX;
  ja_rest : set_tbs (tbs s) s' = s }.

Lemma tb_add_jmp_from_run i next n s :
  0 <= jmp_from_index (tbs s next) < TB_FROM_MAX ->
  exists s', tb_add_jmp_from i next n s = Ok (tt, s') /\ jmp_added next s s' /\
    jmp_from (tbs s' next) (jmp_from_index (tbs s next)) = i /\
    jmp_from_num (tbs s' next) (jmp_from_index (tbs s next)) = u8 n.
Proof.
  unfold TB_FROM_MAX. intros R. unfold tb_add_jmp_from, bind, get_tb, gets, in_bounds, TB_FROM_MAX.
  assert ((0 <=? jmp_from_index (tbs s next)) && (jmp_from_index (tbs s next) <? 16) = true)
    as -> by lia.
  assert (E : u32 (jmp_from_index (tbs s next) + 1) = jmp_from_index (tbs s next) + 1)
    by (apply u32_small; lia).
  rewrite E. unfold ret, mod_tb, modify.
  destruct (jmp_from_index (tbs s next) + 1 =? 16) eqn:F;
    (eexists; split; [reflexivity|]; split; [constructor|]); unfold upd_tb; st_simpl;
    rewrite ?fn_lookup_insert; st_simpl; rewrite ?fn_lookup_insert; try done.
  all: try (intros j Hj; now rewrite !fn_lookup_insert_ne by congruence).
  all: try (intros t ->; now destruct (tbs s next)).
  all: try (now destruct s).
  all: unfold TB_FROM_MAX; lia.
Qed.

Lemma jmp_added_lookup next s s' : lookup_inv s -> jmp_added next s s' -> lookup_inv s'.
Proof.
  intros I [O S J R].
  assert (E : nb_tbs s' = nb_tbs s /\ tb_phys_hash s' = tb_phys_hash s /\
              tb_jmp_cache s' = tb_jmp_cache s) by now rewrite <- R.
  destruct E as (E1 & E2 & E3). specialize (S _ eq_refl).
  apply (lookup_inv_ext s); try done.
  - intros i. destruct (Nat.eq_dec i next) as [->|D]; [|now rewrite O].
    split; [|split]; rewrite <- S; reflexivity.
  - intros i Hi. destruct (Nat.eq_dec i next) as [->|D]; [done|].
    rewrite O by done. now apply (inv_from s I).
Qed.

Lemma jmp_added_inv next s s' : tb_inv s -> jmp_added next s s' -> tb_inv s'.
Proof.
  intros [I U] K. split; [now apply (jmp_added_lookup next s)|]. destruct K as [O S _ R].
  assert (N : nb_tbs s' = nb_tbs s) by now rewrite <- R. specialize (S _ eq_refl).
  assert (F : forall i, pc (tbs s' i) = pc (tbs s i)).
  { intros i. destruct (Nat.eq_dec i next) as [->|D]; [now rewrite <- S|now rewrite O]. }
  intros i j. rewrite N, !F. apply U.
Qed.

(** Storing the distance, then recording the jump. *)
Lemma tb_add_jump_run s i n next : lookup_inv s -> 0 <= n < PATCH_MAX -> (next < nb_tbs s)%nat ->
  let a := tc_ptr (tbs s i) + tb_jmp_offset (tbs s i) n in
  let s1 := set_smem (st32 a (tc_ptr (tbs s next) - (a + 4)) (smem s)) s in
  exists s', tb_add_jump i n next s = Ok (tt, s') /\ jmp_added next s1 s' /\
    jmp_from (tbs s' next) (jmp_from_index (tbs s next)) = i /\
    jmp_from_num (tbs s' next) (jmp_from_index (tbs s next)) = n.
Proof.
  intros I Hn Hi a s1. unfold PATCH_MAX in Hn.
  unfold tb_add_jump, tb_set_jmp_target, tb_set_jmp_target1, in_bounds, bind, get_tb, gets,
    poke32, modify, PATCH_MAX.
  assert ((0 <=? n) && (n <? 8) = true) as -> by lia. unfold ret. fold a. fold s1.
  assert (I1 : lookup_inv s1) by (destruct I; now constructor).
  destruct (tb_add_jmp_from_run i next n s1) as (s' & R & Ja & J1 & J2);
    [now apply (inv_from s1 I1)|].
  exists s'. rewrite u8_small in J2 by lia. auto.
Qed.

(** ** The block table as an abstract map

    The history of a table is the list of the program counters its blocks were
    made for, oldest first; looking a program counter up finds its last
    occurrence. *)

Definition history (s : st) : list Z := map (fun i => pc (tbs s i)) (seq 0 (nb_tbs s)).

Definition last_index (h : list Z) (p : Z) : option nat :=
  last_such (fun i => bool_decide (h !! i = Some p)) (length h).

Lemma newest_history s p : newest s p = last_index (history s) p.
Proof.
  unfold newest, last_index, history. rewrite length_map, length_seq.
  apply last_such_ext. intros i Hi. rewrite list_lookup_fmap, lookup_seq_lt by done. cbn.
  case_bool_decide as E; [injection E as E; lia|]. apply Z.eqb_neq. congruence.
Qed.

Lemma made_history p func s s' : made p func s s' -> history s' = history s ++ [p].
Proof.
  intros [N W O _ _ _]. unfold history. rewrite N, seq_S, map_app. cbn [map Nat.add].
  rewrite W. f_equal. apply map_ext_in. intros i Hi%in_seq. rewrite O by lia. done.
Qed.

(** Operations of the block table. *)
Inductive tb_op := OpMake (p func : Z) | OpFind (p : Z) | OpJump (i next : nat) (n : Z).

Definition run_op (o : tb_op) : M (option nat) :=
  match o with
  | OpMake p func => let* i := make_tb p func NORMAL_TB_TAG in ret (Some i)
  | OpFind p => tb_find_fast p NORMAL_TB_TAG
  | OpJump i next n => do* tb_add_jmp_from i next n in ret None
  end.

Fixpoint run_ops (l : list tb_op) : M (list (option nat)) :=
  match l with
  | [] => ret []
  | o :: l' => let* r := run_op o in let* rs := run_ops l' in ret (r :: rs)
  end.

(** The same operations on a history. *)
Definition abs_op (o : tb_op) (h : list Z) : option nat * list Z :=
  match o with
  | OpMake p _ => (Some (length h), h ++ [p])
  | OpFind p => (last_index h p, h)
  | OpJump _ _ _ => (None, h)
  end.

Fixpoint abs_ops (l : list tb_op) (h : list Z) : list (option nat) * list Z :=
  match l with
  | [] => ([], h)
  | o :: l' =>
      let r := abs_op o h in let rs := abs_ops l' r.2 in (r.1 :: rs.1, rs.2)
  end.

(** Operations that only name existing blocks. *)
Fixpoint ops_ok (l : list tb_op) (n : nat) : bool :=
  match l with
  | [] => true
  | OpMake _ _ :: l' => ops_ok l' (S n)
  | OpFind _ :: l' => ops_ok l' n
  | OpJump i next _ :: l' => (i <? n)%nat && (next <? n)%nat && ops_ok l' n
  end.

Definition makes (l : list tb_op) : nat :=
  length (List.filter (fun o => match o with OpMake _ _ => true | _ => false end) l).

Lemma length_history s : length (history s) = nb_tbs s.
Proof. unfold history. now rewrite length_map, length_seq. Qed.

Lemma jmp_added_history next s s' : jmp_added next s s' -> history s' = history s.
Proof.
  intros [O S _ R]. assert (N : nb_tbs s' = nb_tbs s) by now rewrite <- R.
  unfold history. rewrite N. apply map_ext. intros i.
  destruct (Nat.eq_dec i next) as [->|D]; [|now rewrite O].
  specialize (S _ eq_refl). rewrite <- S. reflexivity.
Qed.

Lemma jmp_added_code next s s' : jmp_added next s s' ->
  code_gen_ptr s' = code_gen_ptr s /\ nb_tbs s' = nb_tbs s.
Proof. intros [_ _ _ R]. now rewrite <- R. Qed.

Lemma tb_full_false s : Z.of_nat (nb_tbs s) < code_gen_max_blocks ->
  code_gen_ptr s - L_code < code_gen_buffer_max_size -> tb_full s = false.
Proof. intros H1 H2. unfold tb_full. lia. Qed.

Lemma made_code p func s s' : made p func s s' -> code_gen_ptr s' = code_gen_ptr s.
Proof. intros [_ _ _ _ _ R]. now rewrite <- R. Qed.

(** One operation refines its abstract counterpart. *)
Lemma run_op_refines o l s :
  lookup_inv s -> ops_ok (o :: l) (nb_tbs s) = true ->
  Z.of_nat (nb_tbs s + makes (o :: l)) <= code_gen_max_blocks ->
  code_gen_ptr s - L_code < code_gen_buffer_max_size ->
  exists s', run_op o s = Ok ((abs_op o (history s)).1, s') /\ lookup_inv s' /\
    history s' = (abs_op o (history s)).2 /\ ops_ok l (nb_tbs s') = true /\
    code_gen_ptr s' = code_gen_ptr s /\
    (nb_tbs s' + makes l = nb_tbs s + makes (o :: l))%nat.
Proof.
  intros I K B C. destruct o as [p func|p|i next n]; cbn [run_op abs_op fst snd].
  - unfold makes in B |- *. cbn [List.filter length] in B |- *.
    destruct (make_tb_run p func NORMAL_TB_TAG s) as (s' & R & Md).
    { apply tb_full_false; lia. }
    exists s'. unfold bind. rewrite R, length_history. split; [done|].
    split; [now apply (made_lookup p func s)|]. split; [now apply (made_history p func)|].
    rewrite (mk_nb _ _ _ _ Md), (made_code _ _ _ _ Md). split; [done|]. split; [done|]. lia.
  - destruct (tb_find_fast_run s p I) as (s' & R & I' & Q). exists s'.
    unfold NORMAL_TB_TAG. rewrite R, newest_history. split; [done|]. split; [done|].
    assert (E : history s' = history s /\ nb_tbs s' = nb_tbs s /\ code_gen_ptr s' = code_gen_ptr s).
    { destruct Q as [->|(i & _ & ->)]; done. }
    destruct E as (-> & -> & ->). done.
  - cbn [ops_ok] in K. rewrite !andb_true_iff, !Nat.ltb_lt in K. destruct K as [[_ K1] K2].
    destruct (tb_add_jmp_from_run i next n s) as (s' & R & Ja & _); [now apply inv_from|].
    exists s'. unfold bind. rewrite R. split; [done|].
    split; [now apply (jmp_added_lookup next s)|].
    destruct (jmp_added_code _ _ _ Ja) as [-> ->]. rewrite (jmp_added_history _ _ _ Ja). done.
Qed.

Lemma run_ops_refines l : forall s,
  lookup_inv s -> ops_ok l (nb_tbs s) = true ->
  Z.of_nat (nb_tbs s + makes l) <= code_gen_max_blocks ->
  code_gen_ptr s - L_code < code_gen_buffer_max_size ->
  exists s', run_ops l s = Ok ((abs_ops l (history s)).1, s') /\ lookup_inv s' /\
    history s' = (abs_ops l (history s)).2.
Proof.
  induction l as [|o l IH]; intros s I K B C; [now exists s|].
  destruct (run_op_refines o l s I K B C) as (s1 & R1 & I1 & H1 & K1 & C1 & N1).
  destruct (IH s1 I1 K1) as (s2 & R2 & I2 & H2); [lia|lia|].
  exists s2. cbn [run_ops abs_ops fst snd]. unfold bind. rewrite R1, R2, H1. split; [done|].
  split; [done|]. now rewrite H2, H1.
Qed.

(** ** Hash functions *)

Lemma land_range x m n : 0 <= n -> 0 <= m < 2 ^ n -> 0 <= Z.land x m < 2 ^ n.
Proof.
  intros Hn Hm. assert (E : Z.land m (Z.ones n) = m).
  { rewrite Z.land_ones by done. now apply Z.mod_small. }
  rewrite <- E, Z.land_assoc, Z.land_ones by done. apply Z.mod_pos_bound. lia.
Qed.

Lemma jmp_hash_page_bits p :
  Z.land (tb_jmp_cache_hash_func p) TB_JMP_PAGE_MASK = tb_jmp_cache_hash_page p.
Proof.
  unfold tb_jmp_cache_hash_func, tb_jmp_cache_hash_page.
  rewrite Z.land_lor_distr_l, <- !Z.land_assoc.
  change (Z.land TB_JMP_PAGE_MASK TB_JMP_PAGE_MASK) with TB_JMP_PAGE_MASK.
  change (Z.land TB_JMP_ADDR_MASK TB_JMP_PAGE_MASK) with 0.
  now rewrite Z.land_0_r, Z.lor_0_r.
Qed.

Lemma hash_page_same p q :
  Z.shiftr p TARGET_PAGE_BITS = Z.shiftr q TARGET_PAGE_BITS ->
  tb_jmp_cache_hash_page p = tb_jmp_cache_hash_page q.
Proof.
  intros E. unfold tb_jmp_cache_hash_page. apply Z.bits_inj'. intros i Hi.
  rewrite !Z.land_spec. destruct (Z.testbit TB_JMP_PAGE_MASK i) eqn:M;
    [|now rewrite !andb_false_r]. f_equal.
  assert (6 <= i).
  { destruct (Z.le_gt_cases 6 i); [done|]. exfalso.
    assert (i = 0 \/ i = 1 \/ i = 2 \/ i = 3 \/ i = 4 \/ i = 5) as K by lia.
    destruct K as [->|[->|[->|[->|[->| ->]]]]]; discriminate M. }
  assert (B : forall j, 12 <= j -> Z.testbit p j = Z.testbit q j).
  { intros j Hj. replace j with (j - 12 + TARGET_PAGE_BITS) by (unfold TARGET_PAGE_BITS; lia).
    rewrite <- !Z.shiftr_spec by lia. now rewrite E. }
  change (TARGET_PAGE_BITS - TB_JMP_PAGE_BITS) with 6.
  rewrite !Z.shiftr_spec, !Z.lxor_spec, !Z.shiftr_spec by lia.
  f_equal; apply B; lia.
Qed.

End TransBlockFacts.

(** ** Theorems *)

Lemma init_lookup m : lookup_inv (init_st m).
Proof. constructor; intros; simpl in *; try lia; try done. Qed.
Lemma init_inv m : tb_inv (init_st m).
Proof. split; [apply init_lookup|]. intros i j Hi. simpl in Hi. lia. Qed.

(** C13: the block table refines a history of program counters.  Any sequence of
    [make_tb], [tb_find_fast] and [tb_add_jmp_from] that fits the table runs
    without abort, undefined behaviour or endless chain walk; [tb_find_fast]
    answers with the newest block of its program counter or [NULL], however the
    cache and the hash chains collide. *)
Theorem tb_ops_refine `{Layout} l s :
  lookup_inv s -> ops_ok l (nb_tbs s) = true ->
  Z.of_nat (nb_tbs s + makes l) <= code_gen_max_blocks ->
  code_gen_ptr s - L_code < code_gen_buffer_max_size ->
  exists s', run_ops l s = Ok ((abs_ops l (history s)).1, s') /\ lookup_inv s' /\
    history s' = (abs_ops l (history s)).2.
Proof. apply run_ops_refines. Qed.

(** Two program counters that collide in both tables, a lookup of each, and a
    newer block for the first. *)
Definition demo_ops : list tb_op :=
  [OpMake 0x8048000 0; OpMake 0x10048000 0; OpFind 0x8048000; OpFind 0x10048000;
   OpJump 0 1 7; OpMake 0x8048000 0; OpFind 0x8048000; OpFind 0x8048001].

Lemma tb_ops_refine_witness : exists s',
  @run_ops demo_layout demo_ops (init_st ∅) =
    Ok ([Some 0%nat; Some 1%nat; Some 0%nat; Some 1%nat; None; Some 2%nat; Some 2%nat; None], s')
  /\ lookup_inv s' /\ history s' = [0x8048000; 0x10048000; 0x8048000].
Proof.
  apply (@tb_ops_refine demo_layout demo_ops (init_st ∅) (init_lookup ∅));
    [vm_compute; reflexivity | vm_compute; discriminate | vm_compute; reflexivity].
Defined.

(** [make_tb] aborts exactly when the table of blocks is full or the code
    buffer has reached its threshold: the flush the comment announces is an
    [abort]. *)
Theorem make_tb_abort `{Layout} p func tag s :
  make_tb p func tag s = Err Abort <->
  code_gen_max_blocks <= Z.of_nat (nb_tbs s) \/
  code_gen_buffer_max_size <= code_gen_ptr s - L_code.
Proof.
  split.
  - intros E. destruct (tb_full s) eqn:F; [unfold tb_full in F; lia|].
    destruct (make_tb_run p func tag s F) as (s' & R & _). congruence.
  - intros F. apply make_tb_full. unfold tb_full. lia.
Qed.

(** The hash functions stay within their tables, and as cpu-defs.h says only
    the low [TB_JMP_PAGE_BITS] bits of the cache hash vary within a page: the
    others are [tb_jmp_cache_hash_page]. *)
Theorem hash_bounds p q :
  0 <= tb_phys_hash_func p < CODE_GEN_PHYS_HASH_SIZE /\
  0 <= tb_jmp_cache_hash_func p < TB_JMP_CACHE_SIZE /\
  Z.land (tb_jmp_cache_hash_func p) TB_JMP_PAGE_MASK = tb_jmp_cache_hash_page p /\
  (Z.shiftr p TARGET_PAGE_BITS = Z.shiftr q TARGET_PAGE_BITS ->
   tb_jmp_cache_hash_page p = tb_jmp_cache_hash_page q).
Proof.
  split; [apply (land_range _ _ 15); [lia|done]|]. split.
  { assert (E : tb_jmp_cache_hash_func p = Z.land (tb_jmp_cache_hash_func p) 4095).
    { unfold tb_jmp_cache_hash_func. now rewrite Z.land_lor_distr_l, <- !Z.land_assoc. }
    rewrite E. apply (land_range _ _ 12); lia. }
  split; [apply jmp_hash_page_bits | apply hash_page_same].
Qed.

Lemma hash_bounds_witness :
  tb_jmp_cache_hash_page 0x8048123 = tb_jmp_cache_hash_page 0x8048fff.
Proof. apply (hash_bounds 0x8048123 0x8048fff). vm_compute; reflexivity. Defined.

(** [tb_add_jump] makes the jump land on the target: the word at the
    recorded offset becomes the distance from its end to [tb_next->tc_ptr], no
    other byte changes, and the edge enters the target's ring of incoming
    jumps. *)
Theorem tb_add_jump_lands `{Layout} s i n next :
  lookup_inv s -> 0 <= n < PATCH_MAX -> (next < nb_tbs s)%nat ->
  let a := tc_ptr (tbs s i) + tb_jmp_offset (tbs s i) n in
  exists s', tb_add_jump i n next s = Ok (tt, s') /\ lookup_inv s' /\
    u32 (a + 4 + ld32 (smem s') a) = u32 (tc_ptr (tbs s next)) /\
    (forall x, x < a \/ a + 4 <= x -> smem s' !! x = smem s !! x) /\
    let k := jmp_from_index (tbs s next) in
    jmp_from (tbs s' next) k = i /\ jmp_from_num (tbs s' next) k = n /\
    0 <= jmp_from_index (tbs s' next) < TB_FROM_MAX.
Proof.
  intros I Hn Hi a. destruct (tb_add_jump_run s i n next I Hn Hi) as (s' & R & Ja & J1 & J2).
  fold a in Ja. set (s1 := set_smem _ s) in Ja.
  assert (I1 : lookup_inv s1) by (destruct I; now constructor).
  exists s'. split; [done|]. split; [now apply (jmp_added_lookup next s1)|].
  destruct Ja as [_ _ J3 J4]. assert (Em : smem s' = smem s1) by (now rewrite <- J4). rewrite Em.
  unfold s1; cbn [smem set_smem]. rewrite ld32_st32. split; [|split; [|done]].
  - rewrite u32_add_r. f_equal. lia.
  - intros x Hx. now apply st32_out.
Qed.

Definition demo_two : st := set_nb_tbs 2 (set_tbs (fun i => match i with
  | 0%nat => set_pc 0x8048000 (set_tc_ptr 0x10000100 (set_tb_jmp_offset (fun _ => 0x21) raw_tb))
  | 1%nat => set_pc 0x8048001 (set_tc_ptr 0x10000400 raw_tb)
  | _ => raw_tb end) (set_tb_phys_hash (<[0 := 0%nat]> (<[1 := 1%nat]> ∅)) (init_st ∅))).

Lemma demo_two_inv : lookup_inv demo_two.
Proof.
  constructor; cbn [nb_tbs demo_two set_nb_tbs tbs set_tbs tb_phys_hash set_tb_phys_hash
    tb_jmp_cache init_st].
  all: try (intros [|[|i]] Hi; [vm_compute; try done; split; done.. | lia]).
  - intros h. unfold prev_same. cbn.
    destruct (Z.eqb_spec (tb_phys_hash_func 0x8048001) h) as [<-|D1]; [vm_compute; reflexivity|].
    destruct (Z.eqb_spec (tb_phys_hash_func 0x8048000) h) as [<-|D2]; [vm_compute; reflexivity|].
    change (tb_phys_hash_func 0x8048001) with 0x1 in D1.
    change (tb_phys_hash_func 0x8048000) with 0x0 in D2.
    now rewrite !lookup_insert_ne, lookup_empty by congruence.
  - intros h i E. discriminate.
Qed.

Lemma tb_add_jump_lands_witness : exists s',
  @tb_add_jump 0 3 1 demo_two = Ok (tt, s') /\ lookup_inv s' /\
  u32 (0x10000121 + 4 + ld32 (smem s') 0x10000121) = 0x10000400.
Proof.
  destruct (@tb_add_jump_lands demo_layout demo_two 0 3 1 demo_two_inv) as (s' & R & I & L & _);
    [unfold PATCH_MAX; lia | cbn; lia |]. exists s'. split; [exact R|]. split; [exact I|]. exact L.
Defined.
