(* ===== verification/Emit.v ===== *)
(** Code emission: the templates of src/target-i386/cemit-inline.c and the
    [cemit_*] and [emit_*] functions of src/target-i386/translate.c, up to the
    point where they need the driver.  An [emit_*] handler translates one
    decoded guest instruction and says whether translation goes on. *)

From S2P Require Import Prelude Memory Opcode Decode State TransBlock.

Section Emit.
Context `{Layout}.

(** ** cemit-inline.c *)

Definition MODRM (mod_ reg rm : Z) : Z := Z.lor (Z.lor (Z.shiftl mod_ 6) (Z.shiftl reg 3)) rm.

Definition OP_PUSH_Iz : Z := 0x68.
Definition OP_MOV_G_E : Z := 0x89.
Definition OP_MOV_E_G : Z := 0x8b.
Definition OP_LEA_M_G : Z := 0x8d.
Definition OP_GROUP11 : Z := 0xc7.

Definition cemit_mov_IM_G (addr reg : Z) : M unit :=
  emit [E8 OP_MOV_E_G; E8 (MODRM 0x0 reg 0x5); E32 addr].
Definition cemit_mov_G_IM (reg addr : Z) : M unit :=
  emit [E8 OP_MOV_G_E; E8 (MODRM 0x0 reg 0x5); E32 addr].
Definition cemit_mov_I_IM (imm32 mem_ : Z) : M unit := ret tt.
Definition cemit_mov_I_GM (imm32 reg : Z) : M unit :=
  emit [E8 OP_GROUP11; E8 (MODRM 0 0 reg); E32 imm32].
Definition cemit_push_I (imm32 : Z) : M unit := emit [E8 OP_PUSH_Iz; E32 imm32].

Definition cemit_lea_reg (reg offset : Z) : M unit :=
  let modrm_ := u8 (if offset <? 0 then MODRM 0x1 reg reg else MODRM 0x2 reg reg) in
  do* (if reg =? R_ESP then emit [E8 OP_LEA_M_G; E8 modrm_; E8 0x24]
       else emit [E8 OP_LEA_M_G; E8 modrm_]) in
  if offset <? 0 then emit [E8 offset] else emit [E32 offset].

Definition cemit_incl_mem (addr : Z) : M unit :=
  emit [E8 0x9c; E8 0xff; E8 0x05; E32 addr; E8 0x9d].

Definition cemit_incl_mem64 (addr : Z) : M unit :=
  emit [E8 0x9c; E8 0x83; E8 0x05; E32 addr; E8 1; E8 0x83; E8 0x15; E32 (addr + 4); E8 0;
        E8 0x9d].

Definition cemit_add_mem64 (addr val : Z) : M unit :=
  emit [E8 0x9c; E8 0x81; E8 0x05; E32 addr; E32 val; E8 0x83; E8 0x15; E32 (addr + 4); E8 0;
        E8 0x9d].

(** ** Patch records *)

Definition note_patch (at_ to : Z) (tb : nat) (func tag : Z) : M unit :=
  let* n := gets patch_count in
  do* ABORT_IF (n >=? PATCH_ARRAY_SIZE) in
  let* k := gets env_patch_num in
  do* ABORT_IF (k >=? PATCH_MAX) in
  do* modify (fun s => set_patch_array (patch_array s ++ [mkPatch at_ to tb func tag]) s) in
  mod_tb tb (fun t => set_patch_num (u32 (patch_num t + 1)) t).

(** ** Leaving a block *)

Definition cemit_sieve_nopush (sieve_table : Z) : M unit :=
  let* stub := gets sieve_stub in
  emit [E8 0xe9; R32 stub].

Definition cemit_sieve (sieve_table : Z) : M unit :=
  do* emit [E8 0x51] in
  cemit_sieve_nopush A_sieve_hashtable.

(** [ret_tb] and [ind_type] are [uint32_t]; -1 leaves the field alone. *)
Definition exit_items (ret_addr ret_tb ind_type : Z) : list item :=
  [E8 0x59; E8 0x8f; E8 0x05; E32 A_eip] ++
  (if u32 ret_tb =? u32 (-1) then [] else [E8 0xc7; E8 0x05; E32 A_ret_tb; E32 ret_tb]) ++
  (if u32 ind_type =? u32 (-1) then [] else [E8 0xc7; E8 0x05; E32 A_ind_type; E32 ind_type]) ++
  [E8 0xe9; R32 ret_addr].

Definition cemit_exit_tb (ret_tb ind_type : Z) : M unit :=
  let* r := get_cgc tb_ret_addr in
  emit (exit_items r ret_tb ind_type).

Definition ind_patch_sieve (enter_sieve_ptr : Z) : M unit :=
  let* reserved := gets code_ptr in
  do* modify (set_code_ptr enter_sieve_ptr) in
  do* cemit_sieve_nopush A_sieve_hashtable in
  modify (set_code_ptr reserved).

(** ** The inline indirect-target cache *)

(** First loop: one comparison per slot; the addresses of the jumps to fix. *)
Fixpoint cemit_ind_cmps (slots : list Z) : M (list Z) :=
  match slots with
  | [] => ret []
  | i :: slots' =>
      do* emit [E8 0x8b; E8 0x4c; E8 0x24; E8 4; E8 0x8d; E8 0x89] in
      let* src := gets code_ptr in
      let* c := gets cur_tb in
      do* mod_tb c (fun t => set_jind_src_addr (<[i := src]> (jind_src_addr t)) t) in
      do* emit [E32 (- NEED_PATCH_32); E8 0xe3] in
      let* patch := gets code_ptr in
      do* emit [E8 NEED_PATCH_8] in
      let* rest := cemit_ind_cmps slots' in
      ret (patch :: rest)
  end.

(** Second loop: the landing code of each slot. *)
Fixpoint cemit_ind_hits (slots patches : list Z) : M unit :=
  match slots, patches with
  | i :: slots', patch :: patches' =>
      let* p := gets code_ptr in
      let jmp_offset := u32 (p - patch - 1) in
      do* ABORT_IF (jmp_offset >? 0xff) in
      do* poke8 patch jmp_offset in
      do* emit [E8 0x59; E8 0x8d; E8 0x64; E8 0x24; E8 4; E8 0xe9] in
      let* dest := gets code_ptr in
      let* c := gets cur_tb in
      do* mod_tb c (fun t => set_jind_dest_addr (<[i := dest]> (jind_dest_addr t)) t) in
      do* emit [E32 NEED_PATCH_32] in
      cemit_ind_hits slots' patches'
  | _, _ => ret tt
  end.

Definition ind_slots : list Z := [0; 1; 2].

Definition cemit_ind_opt (m_ind_type : Z) : M unit :=
  do* emit [E8 0x51] in
  let* patch_addr := cemit_ind_cmps ind_slots in
  let* c := gets cur_tb in
  let* p := gets code_ptr in
  do* mod_tb c (set_ind_enter_sieve p) in
  do* cemit_exit_tb (tb_addr c) m_ind_type in
  cemit_ind_hits ind_slots patch_addr.

Definition IND_TGT_SIZE : Z := 128.
Definition IND_THRESHOLD : Z := 30.

(** Count the target; the counting code goes to the sieve buffer. *)
Definition cemit_count_tgt (tb : nat) : M unit :=
  let* sv := gets sieve_code_ptr in
  do* emit [E8 0xe9; R32 sv] in
  let* t := get_tb tb in
  let* p := gets code_ptr in
  do* emit_sv [E8 0x9c; E8 0x8b; E8 0x4c; E8 0x24; E8 8; E8 0x81; E8 0xe1; E32 (IND_TGT_SIZE - 1);
               E8 0x81; E8 0xc1; E32 (ind_tgt t); E8 0xff; E8 0x01; E8 0x81; E8 0x39;
               E32 IND_THRESHOLD; E8 0x0f; E8 0x83; R32 p; E8 0x9d] in
  let* reserved := gets code_ptr in
  let* sv := gets sieve_code_ptr in
  do* modify (set_code_ptr sv) in
  do* cemit_sieve_nopush A_sieve_hashtable in
  let* p := gets code_ptr in
  do* modify (set_sieve_code_ptr p) in
  do* modify (set_code_ptr reserved) in
  emit [E8 0x9d].

(** [*(uint32_t * )(tb->jind_src_addr[i]) = NEED_PATCH_32] for every slot. *)
Fixpoint clear_slots (tb : nat) (slots : list Z) : M unit :=
  match slots with
  | [] => ret tt
  | i :: slots' =>
      let* t := get_tb tb in
      do* poke32 (jind_src_addr t i) NEED_PATCH_32 in
      clear_slots tb slots'
  end.

Definition rebuild_profed_tb (tb : nat) : M unit :=
  do* clear_slots tb ind_slots in
  do* mod_tb tb (set_jmp_ind_index 0) in
  let* reserved := gets code_ptr in
  let* t := get_tb tb in
  do* modify (set_code_ptr (retrans_patch_ptr t)) in
  do* mod_tb tb (set_ind_enter_sieve (retrans_patch_ptr t)) in
  do* cemit_count_tgt tb in
  let* c := gets cur_tb in
  do* cemit_exit_tb (tb_addr c) IND_TYPE_JMP in
  modify (set_code_ptr reserved).

(** ** The return cache *)

(** [is_recur] is unused by the C code as well. *)
Definition cemit_rc_cmp (patch_addr_rc : Z) : M unit :=
  let* p := gets code_ptr in
  do* poke32 patch_addr_rc p in
  let* ret_pc := get_cgc pc_ptr in
  do* emit [E8 0x51; E8 0x8b; E8 0x4c; E8 0x24; E8 4; E8 0x8d; E8 0x89; E32 (- ret_pc); E8 0xe3] in
  let* patch := gets code_ptr in
  do* emit [E8 NEED_PATCH_8] in
  do* cemit_sieve_nopush A_sieve_rettable in
  let* p := gets code_ptr in
  do* poke8 patch (p - patch - 1) in
  emit [E8 0x59; E8 0x8d; E8 0x64; E8 0x24; E8 4].

(** ** The destination operand of an indirect branch *)

(** [push r/m]: the same operand with opcode FF /6. *)
Definition push_rm_items (ds : decode_t) : list item :=
  (if hasb (flags ds) DSFL_GROUP2_PREFIX then [E8 (Group2_Prefix ds)] else []) ++
  [E8 0xff; E8 (modrm_byte (modrm_mod (modrm ds)) 0x6 (modrm_rm (modrm ds)))] ++
  (if need_sib ds then [E8 (sib ds)] else []) ++
  (if dispBytes ds =? 1 then [E8 (displacement ds)]
   else if dispBytes ds =? 2 then [E16 (displacement ds)]
   else if dispBytes ds =? 4 then [E32 (displacement ds)]
   else []).

(** An address-size prefix aborts, after it was copied. *)
Definition emit_push_rm (ds : decode_t) : M unit :=
  do* ABORT_IF (hasb (flags ds) DSFL_GROUP4_PREFIX) in
  emit (push_rm_items ds).

(** [memcpy(env->code_ptr, pc_ptr - insn_len, insn_len)] and the advance. *)
Definition copy_insn : M unit :=
  let* p := get_cgc pc_ptr in
  let* n := get_cgc insn_len in
  modify (fun s =>
    set_code_ptr (code_ptr s + n)
      (set_smem (write_bytes (code_ptr s) (read_bytes (smem s) (u32 (p - n)) (Z.to_nat n))
                   (smem s)) s)).

(** ** Going on after a branch *)

Definition trans_next (ds : decode_t) : M bool :=
  do* ABORT_IF (negb (hasb (opstate ds) OPSTATE_DATA32)) in
  let* p := get_cgc pc_ptr in
  let* o := tb_find_fast p NORMAL_TB_TAG in
  let* c := gets cur_tb in
  match o with
  | Some i =>
      let* t := get_tb i in
      if negb (tc_ptr t =? NOT_TRANS_YET) then
        do* emit [E8 0xe9; R32 (tc_ptr t)] in
        do* mod_cgc (fun g => set_end_by_transnext (u32 (end_by_transnext g + 1)) g) in
        let* cp := gets code_ptr in
        let* ct := get_tb c in
        do* in_bounds (patch_num ct) PATCH_MAX in
        do* mod_tb c (fun t => set_tb_jmp_offset
              (<[patch_num t := u16 (cp - tc_ptr t - 4)]> (tb_jmp_offset t)) t) in
        do* tb_add_jmp_from c i (patch_num ct) in
        ret false
      else
        let* cp := gets code_ptr in
        do* mod_tb i (set_tc_ptr cp) in
        do* modify (set_cur_tb i) in
        ret true
  | None =>
      let* ct := get_tb c in
      let* i := make_tb p (func_addr ct) NORMAL_TB_TAG in
      let* cp := gets code_ptr in
      do* mod_tb i (set_tc_ptr cp) in
      do* modify (set_cur_tb i) in
      ret true
  end.

(** ** Handlers *)

Definition cur_func : M Z :=
  let* c := gets cur_tb in let* t := get_tb c in ret (func_addr t).

(** The branch target of a relative jump. *)
Definition rel_target (ds : decode_t) : M Z :=
  let* p := get_cgc pc_ptr in ret (u32 (p + immediate ds)).

(** [note_patch(env, env->code_ptr - 4, to, cur_tb, func, NORMAL_TB_TAG)] *)
Definition note_jump (to func : Z) : M unit :=
  let* p := gets code_ptr in
  let* c := gets cur_tb in
  note_patch (p - 4) to c func NORMAL_TB_TAG.

Definition emit_normal (ds : decode_t) : M bool := do* copy_insn in ret true.

Definition emit_call_disp (ds : decode_t) : M bool :=
  do* mod_cgc (fun g => set_call_count (u32 (call_count g + 1)) g) in
  let* jmp_target := rel_target ds in
  let* p := get_cgc pc_ptr in
  do* emit [E8 0x68; E32 p] in
  do* ABORT_IF (negb (hasb (opstate ds) OPSTATE_DATA32)) in
  do* emit [E8 0xc7; E8 0x05; E32 (RET_HASH_FUNC A_ret_hash_table jmp_target)] in
  let* patch_addr_rc := gets code_ptr in
  do* emit [E32 NEED_PATCH_32] in
  do* emit [E8 0xe9; E32 0x0] in
  do* note_jump jmp_target jmp_target in
  do* cemit_rc_cmp patch_addr_rc in
  trans_next ds.

Definition dest_based_on_esp (ds : decode_t) : bool :=
  if modrm_reg (modrm ds) =? 0x4 then true
  else if modrm_mod (modrm ds) =? 0x3 then modrm_rm (modrm ds) =? 0x4
  else (modrm_rm (modrm ds) =? 0x4) && (sib_base (sib ds) =? 0x4).

Definition emit_call_near_mem (ds : decode_t) : M bool :=
  do* mod_cgc (fun g => set_call_ind_count (u32 (call_ind_count g + 1)) g) in
  let* c := gets cur_tb in
  do* mod_tb c (set_tb_type IND_TYPE_CALL) in
  let* p := get_cgc pc_ptr in
  do* (if dest_based_on_esp ds then
         do* emit_push_rm ds in
         emit [E8 0xff; E8 0x34; E8 0x24; E8 0xc7; E8 0x44; E8 0x24; E8 0x4; E32 p]
       else
         do* emit [E8 0x68; E32 p] in
         emit_push_rm ds) in
  do* emit [E8 0x51; E8 0x8b; E8 0x4c; E8 0x24; E8 4; E8 0x81; E8 0xe1; E32 RET_HASH_MASK;
            E8 0xc7; E8 0x04; E8 0x8d; E32 A_ret_hash_table] in
  let* patch_addr_rc := gets code_ptr in
  do* emit [E32 NEED_PATCH_32; E8 0x59] in
  do* cemit_ind_opt IND_TYPE_CALL in
  do* cemit_rc_cmp patch_addr_rc in
  trans_next ds.

Definition emit_ret (ds : decode_t) : M bool :=
  do* mod_cgc (fun g => set_ret_count (u32 (ret_count g + 1)) g) in
  let* f := cur_func in
  do* emit [E8 0xff; E8 0x25; E32 (RET_HASH_FUNC A_ret_hash_table f)] in
  ret false.

Definition emit_ret_Iw (ds : decode_t) : M bool :=
  do* mod_cgc (fun g => set_retIw_count (u32 (retIw_count g + 1)) g) in
  do* emit [E8 0x8f; E8 0x84; E8 0x24; E32 (imm16 ds - 4)] in
  do* (if negb (imm16 ds - 4 =? 0)
       then emit [E8 0x8d; E8 0xa4; E8 0x24; E32 (imm16 ds - 4)] else ret tt) in
  let* f := cur_func in
  do* emit [E8 0xff; E8 0x25; E32 (RET_HASH_FUNC A_ret_hash_table f)] in
  ret false.

Definition emit_jcond (ds : decode_t) : M bool :=
  do* mod_cgc (fun g => set_jcond_count (u32 (jcond_count g + 1)) g) in
  let* t := rel_target ds in
  let jmp_target := if hasb (opstate ds) OPSTATE_DATA32 then t else Z.land t 0x0000ffff in
  do* (if hasb (flags ds) DSFL_GROUP2_PREFIX then emit [E8 (Group2_Prefix ds)] else ret tt) in
  let* cond := gets (fun s =>
    if ld8 (smem s) (instr ds) =? 0x0f then ld8 (smem s) (instr ds + 1)
    else ld8 (smem s) (instr ds)) in
  do* emit [E8 0x0f; E8 (Z.lor (Z.land cond 0x0f) 0x80); E32 NEED_PATCH_32] in
  let* f := cur_func in
  do* note_jump jmp_target f in
  trans_next ds.

Definition emit_other_jcond (ds : decode_t) : M bool :=
  do* mod_cgc (fun g => set_jothercond_count (u32 (jothercond_count g + 1)) g) in
  do* (if hasb (flags ds) DSFL_GROUP2_PREFIX then emit [E8 (Group2_Prefix ds)] else ret tt) in
  let* e := lift (of_option UB (pEntry ds)) in
  do* emit [E8 (index e); E8 0x02; E8 0xeb] in
  let* patch := gets code_ptr in
  do* emit [E8 NEED_PATCH_8] in
  let* jmp_target := rel_target ds in
  do* emit [E8 0xe9; E32 0x0] in
  let* f := cur_func in
  do* note_jump jmp_target f in
  let* p := gets code_ptr in
  do* poke8 patch (p - patch - 1) in
  trans_next ds.

(** [push %ebp; movl %esp, %ebp] *)
Definition is_function_patten (m : mem) (addr : Z) : bool :=
  (ld8 m addr =? 0x55) && (ld8 m (addr + 1) =? 0x89) && (ld8 m (addr + 2) =? 0xe5).

(** [push] one return-cache word, [pop] it into another. *)
Definition copy_rc_items (from to : Z) : list item :=
  [E8 0xff; E8 0x35; E32 (RET_HASH_FUNC A_ret_hash_table from);
   E8 0x8f; E8 0x05; E32 (RET_HASH_FUNC A_ret_hash_table to)].

Definition emit_jmp (ds : decode_t) : M bool :=
  do* mod_cgc (fun g => set_jmp_count (u32 (jmp_count g + 1)) g) in
  let* t := rel_target ds in
  let jmp_target := if hasb (opstate ds) OPSTATE_DATA32 then t else Z.land t 0x0000ffff in
  let* o := tb_find_fast jmp_target NORMAL_TB_TAG in
  let* f := cur_func in
  do* (match o with
       | Some i =>
           let* t := get_tb i in
           if negb (func_addr t =? 0) && negb (func_addr t =? f)
           then emit (copy_rc_items f (func_addr t)) else ret tt
       | None =>
           let* m := gets smem in
           if (jmp_target <? f) || is_function_patten m jmp_target then
             let* _i := make_tb jmp_target jmp_target NORMAL_TB_TAG in
             emit (copy_rc_items f jmp_target)
           else ret tt
       end) in
  do* emit [E8 0xe9; E32 NEED_PATCH_32] in
  do* note_jump jmp_target f in
  ret false.

Definition emit_jmp_near_mem (ds : decode_t) : M bool :=
  do* mod_cgc (fun g => set_j_ind_count (u32 (j_ind_count g + 1)) g) in
  let* c := gets cur_tb in
  do* mod_tb c (set_tb_type IND_TYPE_JMP) in
  let* f := cur_func in
  do* emit [E8 0xc7; E8 0x05; E32 A_ind_dest; E32 f] in
  do* emit_push_rm ds in
  do* cemit_ind_opt IND_TYPE_JMP in
  ret false.

Definition NR_exit_group : Z := 252.

Definition emit_int (ds : decode_t) : M bool :=
  let* v := gets (fun s => ld8 (smem s) (instr ds + 1)) in
  do* (if v =? 0x80 then
         do* emit [E8 0x9c; E8 0x3d; E32 NR_exit_group; E8 0x75] in
         let* patch := gets code_ptr in
         do* emit [E8 NEED_PATCH_8] in
         do* emit [E8 0x68; E32 L_env; E8 0xe8; R32 L_exit_stub; E8 0x8d; E8 0x64; E8 0x24; E8 4] in
         let* p := gets code_ptr in
         do* poke8 patch (p - patch - 1) in
         emit [E8 0x9d]
       else ret tt) in
  do* copy_insn in
  ret true.

Definition emit_sysenter (ds : decode_t) : M bool := ret false.

(** [(ds->emitfn)(env, ds)]: a null pointer or a table is no function. *)
Definition call_emitfn (ds : decode_t) : M bool :=
  match emitfn ds with
  | Emit fn_emit_normal => emit_normal ds
  | Emit fn_emit_int => emit_int ds
  | Emit fn_emit_sysenter => emit_sysenter ds
  | Emit fn_emit_jcond => emit_jcond ds
  | Emit fn_emit_other_jcond => emit_other_jcond ds
  | Emit fn_emit_jmp => emit_jmp ds
  | Emit fn_emit_jmp_near_mem => emit_jmp_near_mem ds
  | Emit fn_emit_call_disp => emit_call_disp ds
  | Emit fn_emit_call_near_mem => emit_call_near_mem ds
  | Emit fn_emit_ret => emit_ret ds
  | Emit fn_emit_ret_Iw => emit_ret_Iw ds
  | NULL | Tab _ => fail UB
  end.

End Emit.
