(* ===== verification/Translate.v ===== *)
(** The translation driver of src/target-i386/translate.c: [gen_target_code]
    decodes guest instructions and calls their handlers, [lazy_patch] links the
    branches it left open, [add_sieve_entry] fills the sieve, and
    [codecache_prologue_init] lays out the prologue, the sieve and the return
    cache.  [cpu_gen_code] and [tb_gen_code] are of src/exec.c. *)

From S2P Require Import Prelude Memory Opcode Decode State TransBlock Emit.

Section Translate.
Context `{Layout}.

(** ** Linking *)

(** The stub of a branch to code that is not translated yet. *)
Definition stub_items (ret_addr : Z) (tb : nat) (n to : Z) : list item :=
  [E8 0xc7; E8 0x05; E32 A_ret_tb; E32 (tb_addr tb);
   E8 0xc7; E8 0x05; E32 A_patch_num; E32 n;
   E8 0xc7; E8 0x05; E32 A_eip; E32 to;
   E8 0xe9; R32 ret_addr].

(** [cur_tb->patch_num--; cur_tb->tb_jmp_offset[patch_num] = at - cur_tb->tc_ptr] *)
Definition record_offset (tb : nat) (at_ : Z) : M Z :=
  do* modify (set_cur_tb tb) in
  do* mod_tb tb (fun t => set_patch_num (u32 (patch_num t - 1)) t) in
  let* t := get_tb tb in
  do* in_bounds (patch_num t) PATCH_MAX in
  do* mod_tb tb (fun t => set_tb_jmp_offset
        (<[patch_num t := u16 (at_ - tc_ptr t)]> (tb_jmp_offset t)) t) in
  ret (patch_num t).

(** One iteration of [lazy_patch]. *)
Definition patch_one (e : patch_entry) : M unit :=
  let* dest := tb_find_fast (pe_to e) (pe_tb_tag e) in
  let* tc := (match dest with
              | Some d => let* t := get_tb d in ret (tc_ptr t)
              | None => ret NOT_TRANS_YET
              end) in
  match dest with
  | Some d =>
      if negb (tc =? NOT_TRANS_YET) then
        do* mod_cgc (fun g => set_find_dest_count (u32 (find_dest_count g + 1)) g) in
        do* poke32 (pe_at e) (tc - pe_at e - 4) in
        let* n := record_offset (pe_tb e) (pe_at e) in
        tb_add_jmp_from (pe_tb e) d n
      else
        let* sv := gets sieve_code_ptr in
        do* poke32 (pe_at e) (sv - pe_at e - 4) in
        let* n := record_offset (pe_tb e) (pe_at e) in
        let* r := get_cgc tb_ret_addr in
        emit_sv (stub_items r (pe_tb e) n (pe_to e))
  | None =>
      let* _i := make_tb (pe_to e) (pe_func_addr e) (pe_tb_tag e) in
      let* sv := gets sieve_code_ptr in
      do* poke32 (pe_at e) (sv - pe_at e - 4) in
      let* n := record_offset (pe_tb e) (pe_at e) in
      let* r := get_cgc tb_ret_addr in
      emit_sv (stub_items r (pe_tb e) n (pe_to e))
  end.

Fixpoint patch_all (l : list patch_entry) : M unit :=
  match l with
  | [] => ret tt
  | e :: l' => do* patch_one e in patch_all l'
  end.

Definition lazy_patch : M unit := let* l := gets patch_array in patch_all l.

(** ** The translation loop *)

(** A static that nothing increments. *)
Definition sieve_count : Z := 0.

(** The cut: the block ends in a jump to the next instruction. *)
Definition cut_translation : M unit :=
  let* c := gets cur_tb in
  let* t := get_tb c in
  let* p := gets code_ptr in
  do* (if tc_ptr t =? p then mod_tb c (set_tc_ptr NOT_TRANS_YET) else ret tt) in
  do* emit [E8 0xe9; E32 NEED_PATCH_32] in
  let* pc' := get_cgc pc_ptr in
  note_jump pc' (func_addr t).

(** One guest instruction: decode, set [insn_len] and [pc_ptr], call the
    handler, count.  [dfuel] bounds the decoder's prefix loop. *)
Definition gen_insn (dfuel : nat) (ds : decode_t) : M (bool * decode_t) :=
  let* p := get_cgc pc_ptr in
  let* m := gets smem in
  let* r := lift (simple_disas_insn dfuel m ds p) in
  let ds := r.2 in
  do* ABORT_IF (hasb (opstate ds) OPSTATE_ADDR16) in
  do* mod_cgc (fun g => set_insn_len (u32 (decode_eip ds - p)) g) in
  do* mod_cgc (set_pc_ptr (decode_eip ds)) in
  let* cont := call_emitfn ds in
  let* c := gets cur_tb in
  do* mod_tb c (fun t => set_insn_count (u32 (insn_count t + 1)) t) in
  ret (cont, ds).

(** The [for(num_insns = 0; ; num_insns++)] loop; [fuel] iterations at most. *)
Fixpoint gen_loop (fuel dfuel : nat) (num_insns : Z) (ds : decode_t) : M unit :=
  match fuel with
  | O => fail Fuel
  | S fuel' =>
      let* r := gen_insn dfuel ds in
      let '(cont_trans, ds) := r in
      if negb cont_trans then ret tt
      else
        let* n := gets patch_count in
        if (n >=? PATCH_ARRAY_SIZE - 2) || (sieve_count >=? TB_FOR_SIEVE_MAX_SIZE - 1)
           || (num_insns >=? MAX_INSNS)
        then cut_translation
        else gen_loop fuel' dfuel (num_insns + 1) ds
  end.

(** [MAX_INSNS] bounds the loop. *)
Definition gen_fuel : nat := Z.to_nat (MAX_INSNS + 1).

Definition gen_target_code (dfuel : nat) (ds0 : decode_t) (tb : nat) : M unit :=
  let* t := get_tb tb in
  do* mod_cgc (set_pc_start (pc t)) in
  do* mod_cgc (set_pc_ptr (pc t)) in
  do* modify (set_code_ptr (tc_ptr t)) in
  do* modify (set_cur_tb tb) in
  do* modify (set_patch_array []) in
  let* k := get_cgc stb_count in
  do* mod_cgc (set_stb_count (u32 (k + 1))) in
  do* ABORT_IF (u32 (k + 1) >=? STB_MAX) in
  do* mod_cgc (fun g => set_stbs (<[k := mkStb (pc t) (stb_pc_end (stbs g k)) (tc_ptr t)]> (stbs g)) g) in
  do* gen_loop gen_fuel dfuel 0 ds0 in
  do* mod_cgc (fun g => set_stbs (<[k := mkStb (stb_pc_start (stbs g k)) (u32 (pc_ptr g - 1))
                                             (stb_tc_ptr (stbs g k))]> (stbs g)) g) in
  do* lazy_patch in
  do* mod_cgc (fun g => set_s_code_size (u32 (s_code_size g + (pc_ptr g - pc_start g))) g) in
  let* p := gets code_ptr in
  do* modify (set_code_gen_ptr p) in
  do* ABORT_IF (p - L_code >? DEFAULT_CODE_GEN_BUFFER_SIZE) in
  mod_tb tb (fun t => set_hcode_size (u16 (p - tc_ptr t)) t).

Definition cpu_gen_code (dfuel : nat) (ds0 : decode_t) (tb : nat) : M unit :=
  let* p := gets code_gen_ptr in
  do* mod_tb tb (set_tc_ptr p) in
  gen_target_code dfuel ds0 tb.

Definition tb_gen_code (dfuel : nat) (ds0 : decode_t) (p : Z) : M nat :=
  let* i := make_tb p 0 0 in
  do* cpu_gen_code dfuel ds0 i in
  ret i.

(** ** The sieve *)

(** The node of a translated block: compare, go to the block or to [next]. *)
Definition node_items (p tc next : Z) : list item :=
  [E8 0x8b; E8 0x4c; E8 0x24; E8 0x4;
   E8 0x8d; E8 0x89; E32 (- p);
   E8 0xe3; E8 0x05;
   E8 0xe9; R32 next;
   E8 0x59;
   E8 0x8d; E8 0x64; E8 0x24; E8 4;
   E8 0xe9; R32 tc].

Definition add_sieve_entry (tb : nat) (type : Z) : M unit :=
  let* t := get_tb tb in
  if tc_ptr t =? NOT_TRANS_YET then ret tt
  else
    let se := SIEVE_HASH A_sieve_hashtable (u32 (Z.shiftl (pc t) 3)) in
    let k := Z.shiftr (Z.land (pc t) SIEVE_MASK) 3 in
    do* mod_cgc (fun g => set_sieve_stat (<[k := u32 (sieve_stat g k + 1)]> (sieve_stat g)) g) in
    let next_insn := u32 (se + 5) in
    let* rel := gets (fun s => ld32 (smem s) (se + 1)) in
    let next_node := u32 (next_insn + rel) in
    let* sv := gets sieve_code_ptr in
    do* poke32 (se + 1) (sv - next_insn) in
    do* emit_sv (node_items (pc t) (tc_ptr t) next_node) in
    let* sv := gets sieve_code_ptr in
    ABORT_IF (sv - L_sieve >? DEFAULT_SIEVE_BUFFER_SIZE).

(** ** Initialisation *)

(** [n] entries at [ptr]: [jmp rel32] to the stub and three bytes of padding. *)
Fixpoint sv_entries (n : nat) (ptr out : Z) : M unit :=
  match n with
  | O => ret tt
  | S n' =>
      let* ptr := emit_at ptr [E8 0xe9; R32 out] in
      sv_entries n' (ptr + 3) out
  end.

Definition sv_table_init (code_ptr_ ind_type : Z) : M Z :=
  let sv_out_ptr := code_ptr_ in
  let* reserved := gets code_ptr in
  do* modify (set_code_ptr code_ptr_) in
  do* cemit_exit_tb (-1) ind_type in
  let* p := gets code_ptr in
  do* modify (set_code_ptr reserved) in
  do* ABORT_IF (negb (ind_type =? IND_TYPE_CALL)) in
  do* sv_entries (Z.to_nat SIEVE_SIZE) A_sieve_hashtable sv_out_ptr in
  ret p.

(** The common entry: hash the target on the stack, jump into the table. *)
Definition sieve_items : list item :=
  [E8 0x8b; E8 0x4c; E8 0x24; E8 4;
   E8 0x0f; E8 0xb7; E8 0xc9;
   E8 0x8d; E8 0x0c; E8 0xcd; E32 A_sieve_hashtable;
   E8 0xff; E8 0xe1].

Definition sieve_init : M unit :=
  let code_ptr_ := L_prologue + 256 in
  let* sv := gets sieve_code_ptr in
  do* modify (set_sieve_stub sv) in
  do* emit_sv sieve_items in
  let* _p := sv_table_init code_ptr_ IND_TYPE_CALL in
  ret tt.

(** [env->ret_hash_table[i] = proc_enter_ptr] for every [i]. *)
Fixpoint ret_entries (n : nat) (a v : Z) : M unit :=
  match n with
  | O => ret tt
  | S n' => do* poke32 a v in ret_entries n' (a + 4) v
  end.

Definition ret_cache_proc_init : M unit :=
  let proc_enter_ptr := L_prologue + 512 in
  let* reserved := gets code_ptr in
  do* modify (set_code_ptr proc_enter_ptr) in
  do* cemit_sieve A_sieve_rettable in
  do* modify (set_code_ptr reserved) in
  ret_entries (Z.to_nat RET_CACHE_SIZE) A_ret_hash_table proc_enter_ptr.

Definition gprs : list Z := [0; 1; 2; 3; 4; 5; 6; 7].

Definition prologue_items : list item :=
  [E8 (Z.lor 0x50 R_EBX); E8 (Z.lor 0x50 R_EBP); E8 (Z.lor 0x50 R_ESI); E8 (Z.lor 0x50 R_EDI);
   E8 0x89; E8 (Z.lor 0x05 (Z.shiftl R_ESP 3)); E32 A_esp_tmp] ++
  concat (map (fun i => [E8 0x8b; E8 (Z.lor 0x05 (Z.shiftl i 3)); E32 (A_regs + i * 4)]) gprs) ++
  [E8 0x9d; E8 0xff; E8 0x25; E32 A_target_tc].

Definition epilogue_items : list item :=
  [E8 0x9c] ++
  concat (map (fun i => [E8 0x89; E8 (Z.lor 0x05 (Z.shiftl i 3)); E32 (A_regs + i * 4)]) gprs) ++
  [E8 0x8b; E8 (Z.lor 0x05 (Z.shiftl R_ESP 3)); E32 A_esp_tmp;
   E8 (Z.lor 0x58 R_EBX); E8 (Z.lor 0x58 R_EBP); E8 (Z.lor 0x58 R_ESI); E8 (Z.lor 0x58 R_EDI);
   E8 0x8b; E8 (Z.lor 0x05 (Z.shiftl R_EAX 3)); E32 A_ret_tb;
   E8 0xc3].

(** [memset(cgc, 0, sizeof(code_gen_context))] *)
Definition zero_cgc : code_gen_context :=
  mkCgc 0 0 0 0 (fun _ => mkStb 0 0 0) 0 0 0 0 0 0 0 0 0 0 0 (fun _ => 0) 0.

(** Everything up to the last [make_tb]. *)
Definition init_caches : M unit :=
  do* mod_cgc (fun _ => zero_cgc) in
  let* esp := gets (fun s => ld32 (smem s) (A_regs + R_ESP * 4)) in
  do* poke32 (A_regs + R_ESP * 4) (esp - 4) in
  let* p := emit_at L_prologue prologue_items in
  do* mod_cgc (set_tb_ret_addr p) in
  let* _p := emit_at p epilogue_items in
  do* modify (set_sieve_code_ptr L_sieve) in
  do* sieve_init in
  ret_cache_proc_init.

Definition codecache_prologue_init : M unit :=
  do* init_caches in
  let* eip := gets env_eip in
  let* _i := make_tb eip eip 0 in
  ret tt.

End Translate.
