(* ===== verification/CpuExec.v ===== *)
(** The dispatch loop of src/cpu-exec.c.  Running translated code is the
    machine's business: [exec_tb], the call through [code_gen_prologue], is a
    parameter, from the entry address and the state to the value the epilogue
    returns ([env->ret_tb]) and the state it leaves. *)

From S2P Require Import Prelude Memory Opcode Decode State TransBlock Emit Translate.

Section CpuExec.
Context `{Layout}.
Variable dfuel : nat.
Variable ds0 : decode_t.

(** [prev_tb] is a block pointer or null. *)
Definition get_next_tb (cur_pc : Z) (prev_tb : option nat) : M nat :=
  let tag := NORMAL_TB_TAG in
  let* o := tb_find_fast cur_pc tag in
  match o with
  | None =>
      let* ty := gets env_ind_type in
      let* i :=
        (if negb (ty =? NOT_IND) && negb (ty =? TYPE_SYSCALL) then
           if (ty =? IND_TYPE_CALL) || (ty =? IND_TYPE_CALL_SP) then make_tb cur_pc cur_pc tag
           else if (ty =? IND_TYPE_JMP) || (ty =? IND_TYPE_JMP_SP) then
             let* d := gets env_ind_dest in make_tb cur_pc d tag
           else if (ty =? IND_TYPE_RET) || (ty =? IND_TYPE_RET_SP) then make_tb cur_pc cur_pc tag
           else if ty =? IND_TYPE_RECUR then
             let* d := gets env_ind_dest in make_tb cur_pc d tag
           else make_tb cur_pc 0 tag
         else
           match prev_tb with
           | Some p => let* t := get_tb p in make_tb cur_pc (func_addr t) tag
           | None => make_tb cur_pc 0 tag
           end) in
      do* cpu_gen_code dfuel ds0 i in
      ret i
  | Some i =>
      let* t := get_tb i in
      do* (if tc_ptr t =? NOT_TRANS_YET then cpu_gen_code dfuel ds0 i else ret tt) in
      ret i
  end.

Definition patch_jmp_target (tb : nat) (src_addr dest_addr : Z) : M unit :=
  let* t := get_tb tb in
  let k := jmp_ind_index t in
  do* in_bounds k (Z.of_nat IND_SLOT_MAX) in
  do* poke32 (jind_src_addr t k) (- src_addr) in
  do* poke32 (jind_dest_addr t k) (dest_addr - jind_dest_addr t k - 4) in
  do* mod_tb tb (set_jmp_ind 0) in
  mod_tb tb (fun t => set_jmp_ind_index (u32 (jmp_ind_index t + 1)) t).

Definition patch_ind_opt (prev_tb tb : nat) : M unit :=
  let* tgt_addr := gets env_eip in
  let* t := get_tb prev_tb in
  if jmp_ind_index t <? Z.of_nat IND_SLOT_MAX then
    let* n := get_tb tb in patch_jmp_target prev_tb tgt_addr (tc_ptr n)
  else ind_patch_sieve (ind_enter_sieve t).

(** The loop body up to the jump into the code cache: the block to run and the
    value of [prev_tb] after it. *)
Definition dispatch (prev_tb : option nat) : M nat :=
  let* eip := gets env_eip in
  let* tb := get_next_tb eip prev_tb in
  let* ty := gets env_ind_type in
  let* prev_tb :=
    (if negb (ty =? NOT_IND) then
       match prev_tb with
       | None =>
           do* add_sieve_entry tb ty in
           do* poke32 A_ind_type NOT_IND in
           ret None
       | Some p => do* patch_ind_opt p tb in ret None
       end
     else ret prev_tb) in
  do* (match prev_tb with
       | Some p =>
           if negb (p =? tb)%nat then
             let* n := gets env_patch_num in tb_add_jump p n tb
           else ret tt
       | None => ret tt
       end) in
  let* t := get_tb tb in
  do* poke32 A_target_tc (tc_ptr t) in
  do* poke32 A_ret_tb 0 in
  do* poke32 A_ind_type NOT_IND in
  ret tb.

(** The returned word as a block pointer. *)
Definition tb_of_addr (a : Z) : option nat :=
  if a =? 0 then None else Some (Z.to_nat ((a - L_tbs) / sizeof_TranslationBlock)).

Variable exec_tb : Z -> M Z.

(** [n] turns of the [for(;;)] loop of [cpu_exec]. *)
Fixpoint cpu_exec (n : nat) (prev_tb : option nat) : M (option nat) :=
  match n with
  | O => ret prev_tb
  | S n' =>
      let* tb := dispatch prev_tb in
      let* t := get_tb tb in
      let* r := exec_tb (tc_ptr t) in
      cpu_exec n' (tb_of_addr r)
  end.

End CpuExec.
