(* ===== verification/Frame.v ===== *)
(** Reasoning about the monad: [runs m s Q E] says that [m] from [s] returns
    with [Q] or fails with [E]; and [quiet], the effect of the code-emitting
    steps that leave the block table alone. *)

From S2P Require Import Prelude Memory Opcode Decode State TransBlock Emit.

(** ** Outcomes *)

Definition runs {A} (m : M A) (s : st) (Q : A -> st -> Prop) (E : err -> Prop) : Prop :=
  match m s with Ok (a, s') => Q a s' | Err e => E e end.

Lemma runs_bind {A B} (m : M A) (k : A -> M B) s Q E :
  runs m s (fun a s' => runs (k a) s' Q E) E -> runs (bind m k) s Q E.
Proof. unfold runs, bind. now destruct (m s) as [[a s']|]. Qed.

Lemma runs_unbind {A B} (m : M A) (k : A -> M B) s Q E :
  runs (bind m k) s Q E -> runs m s (fun a s' => runs (k a) s' Q E) E.
Proof. unfold runs, bind. now destruct (m s) as [[a s']|]. Qed.

Lemma runs_ret {A} (a : A) s (Q : A -> st -> Prop) E : Q a s -> runs (ret a) s Q E.
Proof. done. Qed.
Lemma runs_gets {A} (f : st -> A) s (Q : A -> st -> Prop) E : Q (f s) s -> runs (gets f) s Q E.
Proof. done. Qed.
Lemma runs_modify f s (Q : unit -> st -> Prop) E : Q tt (f s) -> runs (modify f) s Q E.
Proof. done. Qed.
Lemma runs_ABORT_IF c s (Q : unit -> st -> Prop) (E : err -> Prop) :
  (c = true -> E Abort) -> (c = false -> Q tt s) -> runs (ABORT_IF c) s Q E.
Proof. unfold runs, ABORT_IF. destruct c; simpl; auto. Qed.
Lemma runs_in_bounds i n s (Q : unit -> st -> Prop) (E : err -> Prop) :
  0 <= i < n -> Q tt s -> runs (in_bounds i n) s Q E.
Proof.
  intros R K. unfold runs, in_bounds. assert ((0 <=? i) && (i <? n) = true) as -> by lia. done.
Qed.

Lemma runs_conseq {A} (m : M A) s (Q Q' : A -> st -> Prop) (E E' : err -> Prop) :
  runs m s Q' E' -> (forall a s', Q' a s' -> Q a s') -> (forall e, E' e -> E e) -> runs m s Q E.
Proof. unfold runs. destruct (m s) as [[a s']|]; auto. Qed.

Lemma runs_ok {A} (m : M A) s (Q : A -> st -> Prop) E a s' :
  runs m s Q E -> m s = Ok (a, s') -> Q a s'.
Proof. unfold runs. intros H R. now rewrite R in H. Qed.

Lemma runs_done {A} (m : M A) s (Q : A -> st -> Prop) : runs m s Q (fun _ => False) ->
  exists a s', m s = Ok (a, s') /\ Q a s'.
Proof. unfold runs. destruct (m s) as [[a s']|]; [eauto|done]. Qed.

Lemma runs_intro {A} (m : M A) s (Q : A -> st -> Prop) E a s' :
  m s = Ok (a, s') -> Q a s' -> runs m s Q E.
Proof. unfold runs. now intros ->. Qed.

(** Remember the equation of the run. *)
Lemma runs_eq {A} (m : M A) s (Q : A -> st -> Prop) E :
  runs m s Q E -> runs m s (fun a s' => Q a s' /\ m s = Ok (a, s')) E.
Proof. unfold runs. destruct (m s) as [[a s']|]; auto. Qed.

(** One step of a straight-line body. *)
Ltac run :=
  lazymatch goal with
  | |- runs (bind _ _) _ _ _ => apply runs_bind
  | |- runs (ret _) _ _ _ => apply runs_ret
  | |- runs (gets _) _ _ _ => apply runs_gets
  | |- runs (get_tb _) _ _ _ => apply runs_gets
  | |- runs (get_cgc _) _ _ _ => apply runs_gets
  | |- runs (modify _) _ _ _ => apply runs_modify
  end.

(** All the steps that cannot fail. *)
Ltac run_pure :=
  repeat (lazymatch goal with
          | |- runs (poke32 _ _) _ _ _ => apply runs_modify
          | |- runs (poke8 _ _) _ _ _ => apply runs_modify
          | |- runs (mod_cgc _) _ _ _ => apply runs_modify
          | |- runs (mod_tb _ _) _ _ _ => apply runs_modify
          | |- runs (emit _) _ _ _ => apply runs_modify
          | |- runs (emit_sv _) _ _ _ => apply runs_modify
          | |- _ => run
          end; cbv beta).

(** ** Emission *)

(** What of a block the lookup structures and the linker depend on. *)
Definition tb_core (t : TranslationBlock) :=
  (pc t, func_addr t, tb_tag t, tc_ptr t, phys_hash_next t, patch_num t, jmp_from_index t).

Definition cgc_core (g : code_gen_context) :=
  (tb_ret_addr g, pc_ptr g, pc_start g, insn_len g, stb_count g).

Definition st_core (s : st) :=
  (sieve_code_ptr s, code_gen_ptr s, tb_jmp_cache s, tb_phys_hash s, nb_tbs s,
   cur_tb s, sieve_stub s, cgc_core (cgc s)).

(** From [s] to [s'] code was appended at the code pointer, bytes from [lo] on
    may have been patched, and nothing else that matters changed. *)
Record quiet (lo : Z) (s s' : st) : Prop := {
  q_cp : code_ptr s <= code_ptr s';
  q_mem : forall x, x < lo \/ code_ptr s' <= x -> smem s' !! x = smem s !! x;
  q_tb : forall i, tb_core (tbs s' i) = tb_core (tbs s i);
  q_other : forall i, i <> cur_tb s -> tbs s' i = tbs s i;
  q_patch : patch_array s' = patch_array s;
  q_core : st_core s' = st_core s }.

Lemma quiet_refl lo s : quiet lo s s.
Proof. constructor; try done; lia. Qed.

Lemma q_cur lo s s' : quiet lo s s' -> cur_tb s' = cur_tb s.
Proof. intros [_ _ _ _ _ C]. unfold st_core in C. now injection C. Qed.

Lemma quiet_trans lo s1 s2 s3 : quiet lo s1 s2 -> quiet lo s2 s3 -> quiet lo s1 s3.
Proof.
  intros Q1 Q2. pose proof (q_cur _ _ _ Q1) as E.
  destruct Q1 as [A1 A2 A3 AO A4 A5], Q2 as [B1 B2 B3 BO B4 B5].
  constructor; try congruence; [lia| |].
  - intros x Hx. rewrite B2 by done. apply A2. lia.
  - intros i D. rewrite BO, AO by congruence. done.
Qed.

Lemma quiet_tb_inv lo s s' : quiet lo s s' -> tb_inv s -> tb_inv s'.
Proof.
  intros [_ _ T _ _ C] I. unfold st_core in C. injection C as _ _ C1 C2 C3 _ _ _.
  apply (tb_inv_ext s); try done.
  - intros i. specialize (T i). unfold tb_core in T. now injection T.
  - intros i Hi. specialize (T i). unfold tb_core in T. injection T as _ _ _ _ _ _ T.
    rewrite T. now apply (inv_from s I).
Qed.

(** The steps of which emission is made. *)
Lemma quiet_emit lo l s : lo <= code_ptr s ->
  quiet lo s (set_code_ptr (code_ptr s + items_len l)
    (set_smem (write_bytes (code_ptr s) (items_bytes (code_ptr s) l) (smem s)) s)).
Proof.
  intros Hlo. pose proof (items_len_nonneg l). constructor; st_simpl; try done; try lia.
  intros x Hx. apply write_bytes_out. rewrite items_bytes_length. lia.
Qed.

Lemma runs_emit lo l s (Q : unit -> st -> Prop) E :
  lo <= code_ptr s ->
  (forall s', quiet lo s s' -> code_ptr s' = code_ptr s + items_len l -> Q tt s') ->
  runs (emit l) s Q E.
Proof. intros Hlo K. apply runs_modify. apply K; [now apply quiet_emit|done]. Qed.

Lemma runs_poke8 lo a v s (Q : unit -> st -> Prop) E :
  lo <= a -> a + 1 <= code_ptr s ->
  (forall s', quiet lo s s' -> code_ptr s' = code_ptr s -> Q tt s') ->
  runs (poke8 a v) s Q E.
Proof.
  intros H1 H2 K. apply runs_modify; apply K; [|done]. constructor; st_simpl; try done; try lia.
  intros x Hx. apply st8_ne. lia.
Qed.

Lemma runs_poke32 lo a v s (Q : unit -> st -> Prop) E :
  lo <= a -> a + 4 <= code_ptr s ->
  (forall s', quiet lo s s' -> code_ptr s' = code_ptr s -> Q tt s') ->
  runs (poke32 a v) s Q E.
Proof.
  intros H1 H2 K. apply runs_modify; apply K; [|done]. constructor; st_simpl; try done; try lia.
  intros x Hx. apply st32_out. lia.
Qed.

Lemma runs_mod_tb lo i f s (Q : unit -> st -> Prop) E :
  (forall t, tb_core (f t) = tb_core t) -> i = cur_tb s ->
  (forall s', quiet lo s s' -> code_ptr s' = code_ptr s -> Q tt s') ->
  runs (mod_tb i f) s Q E.
Proof.
  intros F Ei K. apply runs_modify; apply K; [|done]. constructor; try done; try (st_simpl; lia).
  - intros j. destruct (Nat.eq_dec j i) as [->|D].
    + rewrite upd_tb_eq. apply F.
    + now rewrite upd_tb_ne by congruence.
  - intros j D. rewrite upd_tb_ne by congruence. done.
Qed.

Lemma runs_mod_cgc lo f s (Q : unit -> st -> Prop) E :
  (forall g, cgc_core (f g) = cgc_core g) ->
  (forall s', quiet lo s s' -> code_ptr s' = code_ptr s -> Q tt s') ->
  runs (mod_cgc f) s Q E.
Proof.
  intros F K. apply runs_modify; apply K; [|done]. constructor; try done; st_simpl; try lia.
  unfold st_core. st_simpl. now rewrite F.
Qed.

(** A computation that only emits: it returns, is [quiet] for every [lo] at or
    below its starting point, and grows the code by at most [n] bytes. *)
Definition emits {A} (n : Z) (m : M A) (s : st) : Prop :=
  forall lo, lo <= code_ptr s ->
  runs m s (fun _ s' => quiet lo s s' /\ code_ptr s' <= code_ptr s + n) (fun _ => False).

Lemma emits_use {A} n (m : M A) s lo (Q : A -> st -> Prop) E :
  emits n m s -> lo <= code_ptr s ->
  (forall a s', quiet lo s s' -> code_ptr s' <= code_ptr s + n -> Q a s') ->
  runs m s Q E.
Proof.
  intros K L H. apply (runs_conseq _ _ _ _ _ _ (K lo L)); [|done]. intros a s' [? ?]. auto.
Qed.

(** Stepping through an emitting body.  [Hq : quiet lo s0 s] relates the start
    to the current state; every step extends it and records the code pointer. *)
Ltac advance s' q :=
  lazymatch goal with
  | Hq : quiet ?lo ?s0 ?s, q' : quiet ?lo ?s s' |- _ =>
      let Hn := fresh "Hq" in
      pose proof (quiet_trans lo s0 s s' Hq q') as Hn; clear Hq;
      pose proof (q_cp lo s s' q')
  end.

(** The current block is the same along a run of quiet steps. *)
Ltac cur_eq :=
  repeat match goal with
         | Q : quiet ?lo ?s ?s' |- _ =>
             lazymatch goal with
             | _ : cur_tb s' = cur_tb s |- _ => fail
             | _ => pose proof (q_cur lo s s' Q)
             end
         end; congruence.

Ltac estep :=
  repeat (run; cbv beta);
  lazymatch goal with
  | Hq : quiet ?lo ?s0 ?s |- runs (emit _) ?s _ _ =>
      apply (runs_emit lo); [lia|];
      let s' := fresh "s" in let q := fresh "q" in let c := fresh "c" in
      intros s' q c; cbn [items_len item_len app] in c; advance s' q
  | Hq : quiet ?lo ?s0 ?s |- runs (poke8 _ _) ?s _ _ =>
      apply (runs_poke8 lo); [lia|lia|];
      let s' := fresh "s" in let q := fresh "q" in let c := fresh "c" in
      intros s' q c; advance s' q
  | Hq : quiet ?lo ?s0 ?s |- runs (poke32 _ _) ?s _ _ =>
      apply (runs_poke32 lo); [lia|lia|];
      let s' := fresh "s" in let q := fresh "q" in let c := fresh "c" in
      intros s' q c; advance s' q
  | Hq : quiet ?lo ?s0 ?s |- runs (mod_tb _ _) ?s _ _ =>
      apply (runs_mod_tb lo); [done|cur_eq|];
      let s' := fresh "s" in let q := fresh "q" in let c := fresh "c" in
      intros s' q c; advance s' q
  | Hq : quiet ?lo ?s0 ?s |- runs (mod_cgc _) ?s _ _ =>
      apply (runs_mod_cgc lo); [done|];
      let s' := fresh "s" in let q := fresh "q" in let c := fresh "c" in
      intros s' q c; advance s' q
  | |- runs (ABORT_IF _) _ _ _ => apply runs_ABORT_IF
  end.

(** Use an emitting call. *)
Ltac ecall H :=
  repeat (run; cbv beta);
  lazymatch goal with
  | Hq : quiet ?lo ?s0 ?s |- runs _ ?s _ _ =>
      eapply (emits_use _ _ s lo); [apply H; try lia|lia|];
      let a := fresh "a" in let s' := fresh "s" in let q := fresh "q" in let c := fresh "c" in
      intros a s' q c; advance s' q
  end.

Ltac emits_start :=
  let lo := fresh "lo" in let L := fresh "L" in intros lo L;
  match goal with |- runs _ ?s _ _ => pose proof (quiet_refl lo s) end.

Ltac emits_end := repeat (run; cbv beta); split; [eassumption|lia].

Section FrameEmit.
Context `{Layout}.

Lemma cemit_sieve_nopush_emits t s : emits 5 (cemit_sieve_nopush t) s.
Proof. unfold cemit_sieve_nopush. emits_start. estep. emits_end. Qed.

Lemma cemit_sieve_emits t s : emits 6 (cemit_sieve t) s.
Proof. unfold cemit_sieve. emits_start. estep. ecall cemit_sieve_nopush_emits. emits_end. Qed.

Lemma exit_items_len r t i : items_len (exit_items r t i) <= 32.
Proof.
  unfold exit_items. rewrite !items_len_app.
  destruct (u32 t =? u32 (-1)), (u32 i =? u32 (-1)); cbn; lia.
Qed.

Lemma cemit_exit_tb_emits t i s : emits 32 (cemit_exit_tb t i) s.
Proof.
  unfold cemit_exit_tb. emits_start. pose proof (exit_items_len (tb_ret_addr (cgc s)) t i).
  estep. emits_end.
Qed.

Lemma cemit_rc_cmp_emits patch s lo : lo <= patch -> patch + 4 <= code_ptr s ->
  lo <= code_ptr s ->
  runs (cemit_rc_cmp patch) s
    (fun _ s' => quiet lo s s' /\ code_ptr s' <= code_ptr s + 23) (fun _ => False).
Proof.
  intros P1 P2 L. unfold cemit_rc_cmp. pose proof (quiet_refl lo s).
  do 3 estep. ecall cemit_sieve_nopush_emits. do 2 estep. emits_end.
Qed.

Lemma push_rm_len ds : items_len (push_rm_items ds) <= 8.
Proof.
  unfold push_rm_items. rewrite !items_len_app. repeat case_match; cbn; lia.
Qed.

(** An indirect branch with an address-size prefix aborts. *)
Lemma emit_push_rm_runs ds s lo : lo <= code_ptr s ->
  runs (emit_push_rm ds) s
    (fun _ s' => quiet lo s s' /\ code_ptr s' <= code_ptr s + 8)
    (fun e => e = Abort /\ hasb (flags ds) DSFL_GROUP4_PREFIX = true).
Proof.
  intros L. unfold emit_push_rm. pose proof (quiet_refl lo s). pose proof (push_rm_len ds).
  run. apply runs_ABORT_IF; [done|]. intros _. estep. emits_end.
Qed.

(** The comparison loop: each slot takes 12 bytes and yields the address of its
    jump's displacement. *)
Lemma cemit_ind_cmps_runs slots : forall s lo, lo <= code_ptr s ->
  runs (cemit_ind_cmps slots) s
    (fun ps s' => quiet lo s s' /\
       code_ptr s' = code_ptr s + 12 * Z.of_nat (length slots) /\
       ps = imap (fun k _ => code_ptr s + 12 * Z.of_nat k + 11) slots) (fun _ => False).
Proof.
  induction slots as [|i slots IH]; intros s lo L; cbn [cemit_ind_cmps length imap].
  - run. split; [apply quiet_refl|]. split; [lia|done].
  - pose proof (quiet_refl lo s) as Q. do 4 estep. repeat run.
    match goal with |- runs _ ?s4 _ _ =>
      eapply (runs_conseq _ _ _ _ _ _ (IH s4 lo ltac:(lia))); [|done] end.
    intros ps s5 (q5 & c5 & E). advance s5 q5. run. split; [eassumption|]. split; [lia|].
    subst ps. f_equal; [lia|]. apply imap_ext. intros k x _. cbn. lia.
Qed.

(** The landing loop: no jump exceeds a byte, so nothing aborts. *)
Lemma cemit_ind_hits_runs slots : forall patches s lo, lo <= code_ptr s ->
  length patches = length slots ->
  (forall p, p ∈ patches -> lo <= p /\ p + 1 <= code_ptr s /\
     code_ptr s + 10 * Z.of_nat (length slots) - p <= 256) ->
  runs (cemit_ind_hits slots patches) s
    (fun _ s' => quiet lo s s' /\ code_ptr s' = code_ptr s + 10 * Z.of_nat (length slots))
    (fun _ => False).
Proof.
  induction slots as [|i slots IH]; intros [|p patches] s lo L N B; try discriminate;
    cbn [cemit_ind_hits length].
  { run. split; [apply quiet_refl | lia]. }
  destruct (B p) as (P1 & P2 & P3); [apply list_elem_of_here|]. cbn [length] in P3.
  pose proof (quiet_refl lo s) as Q.
  assert (U : u32 (code_ptr s - p - 1) = code_ptr s - p - 1) by (apply u32_small; lia).
  repeat (run; cbv beta). rewrite U. apply runs_ABORT_IF; [lia|]. intros _.
  do 4 estep.
  match goal with |- runs _ ?s4 _ _ =>
    eapply (runs_conseq _ _ _ _ _ _ (IH patches s4 lo ltac:(lia) ltac:(simpl in N; lia) _)); [|done]
  end.
  intros _ s5 (q5 & c5). advance s5 q5. split; [eassumption|]. lia.
  Unshelve. intros p' Hp'. destruct (B p') as (B1 & B2 & B3); [now apply list_elem_of_further|].
  cbn [length] in B3. lia.
Qed.

Lemma cemit_ind_opt_emits ty s : emits 99 (cemit_ind_opt ty) s.
Proof.
  unfold cemit_ind_opt. emits_start. estep. repeat (run; cbv beta).
  eapply runs_conseq; [apply (cemit_ind_cmps_runs ind_slots _ lo); lia| |done].
  intros ps s1 (q1 & c1 & E). advance s1 q1. cbv beta. cbn in c1.
  estep. ecall cemit_exit_tb_emits.
  match goal with |- runs _ ?s4 _ _ =>
    eapply (runs_conseq _ _ _ _ _ _ (cemit_ind_hits_runs ind_slots ps s4 lo ltac:(lia) _ _)); [|done]
  end.
  intros _ s5 (q5 & c5). advance s5 q5. cbn in c5. split; [eassumption|]. lia.
  Unshelve. { subst ps. reflexivity. }
  intros p Hp. subst ps. cbn in Hp. cbn. set_unfold in Hp.
  repeat (destruct Hp as [->|Hp]; [lia|]). done.
Qed.

End FrameEmit.
