(* ===== verification/Session.v ===== *)
(** One run of the translation loop: the invariant that relates the state in
    which [gen_target_code] starts emitting to every later state of the loop,
    and what each handler does to it. *)

From S2P Require Import Prelude Memory Opcode Decode State TransBlock Emit Translate Frame.

(** Open branches of block [i]. *)
Definition count (i : nat) (l : list patch_entry) : Z :=
  Z.of_nat (length (List.filter (fun e => (pe_tb e =? i)%nat) l)).

Lemma count_app i l1 l2 : count i (l1 ++ l2) = count i l1 + count i l2.
Proof. unfold count. rewrite List.filter_app, length_app. lia. Qed.

Lemma count_one i to tb a f t : count i [mkPatch a to tb f t] = if (tb =? i)%nat then 1 else 0.
Proof. unfold count. cbn. now destruct (tb =? i)%nat. Qed.

Lemma count_nonneg i l : 0 <= count i l.
Proof. unfold count. lia. Qed.

Lemma count_cons i e l : count i (e :: l) = (if (pe_tb e =? i)%nat then 1 else 0) + count i l.
Proof. unfold count. cbn. destruct (pe_tb e =? i)%nat; cbn [length]; lia. Qed.

Lemma count_zero i l : count i l = 0 -> forall e, e ∈ l -> pe_tb e <> i.
Proof.
  induction l as [|e' l IH]; intros C e He; [now apply not_elem_of_nil in He|].
  rewrite count_cons in C. pose proof (count_nonneg i l).
  apply elem_of_cons in He as [->|He].
  - intros E. apply Nat.eqb_eq in E. rewrite E in C. lia.
  - apply IH; [|done]. destruct (pe_tb e' =? i)%nat; lia.
Qed.

(** The words to patch follow one another. *)
Definition before (e e' : patch_entry) : Prop := pe_at e + 4 <= pe_at e'.

(** Only the ring of incoming jumps may differ. *)
Definition kept (t t' : TranslationBlock) : Prop :=
  set_jmp_from (jmp_from t) (set_jmp_from_num (jmp_from_num t)
    (set_jmp_from_index (jmp_from_index t) t')) = t.

(** An open branch's block has its code below it, or has lost it in a cut, which
    goes to the block's own program counter. *)
Definition placed (lo : Z) (e : patch_entry) (t : TranslationBlock) : Prop :=
  lo <= tc_ptr t <= pe_at e \/ tc_ptr t = NOT_TRANS_YET /\ pc t = pe_to e.

(** What the session keeps of the starting state [s0]. *)
Record session (s0 s : st) : Prop := {
  j_inv : tb_inv s;
  j_cur : (cur_tb s < nb_tbs s)%nat;
  j_cp : code_ptr s0 <= code_ptr s;
  j_mem : forall x, x < code_ptr s0 \/ code_ptr s <= x -> smem s !! x = smem s0 !! x;
  j_const : sieve_code_ptr s = sieve_code_ptr s0 /\ code_gen_ptr s = code_gen_ptr s0 /\
            sieve_stub s = sieve_stub s0 /\ tb_ret_addr (cgc s) = tb_ret_addr (cgc s0) /\
            pc_start (cgc s) = pc_start (cgc s0) /\ stb_count (cgc s) = stb_count (cgc s0);
  j_nb : (nb_tbs s0 <= nb_tbs s)%nat;
  j_old : forall i, (i < nb_tbs s0)%nat -> pc (tbs s i) = pc (tbs s0 i) /\
            func_addr (tbs s i) = func_addr (tbs s0 i) /\
            (tc_ptr (tbs s0 i) <> NOT_TRANS_YET -> tc_ptr (tbs s i) = tc_ptr (tbs s0 i));
  j_tc : forall i, (i < nb_tbs s)%nat -> tc_ptr (tbs s i) = NOT_TRANS_YET \/
            ((i < nb_tbs s0)%nat /\ tc_ptr (tbs s i) = tc_ptr (tbs s0 i)) \/
            code_ptr s0 <= tc_ptr (tbs s i) <= code_ptr s;
  j_patch : forall e, e ∈ patch_array s -> code_ptr s0 <= pe_at e /\
            pe_at e + 4 <= code_ptr s /\ (pe_tb e < nb_tbs s)%nat /\ pe_tb_tag e = 0 /\
            placed (code_ptr s0) e (tbs s (pe_tb e));
  j_sorted : StronglySorted before (patch_array s);
  j_count : forall i, (i < nb_tbs s)%nat ->
            patch_num (tbs s i) = count i (patch_array s) /\ count i (patch_array s) <= 1;
  j_cur_new : cur_tb s = cur_tb s0 \/ (nb_tbs s0 <= cur_tb s)%nat \/
            tc_ptr (tbs s0 (cur_tb s)) = NOT_TRANS_YET;
  j_kept : forall i, (i < nb_tbs s0)%nat -> tc_ptr (tbs s0 i) <> NOT_TRANS_YET ->
            i <> cur_tb s0 -> kept (tbs s0 i) (tbs s i);
  j_start : tc_ptr (tbs s0 (cur_tb s0)) = code_ptr s0 }.

Lemma kept_refl t : kept t t.
Proof. now destruct t. Qed.

Lemma kept_trans t1 t2 t3 : kept t1 t2 -> kept t2 t3 -> kept t1 t3.
Proof. unfold kept. intros <- <-. now destruct t3. Qed.

Lemma kept_fields t t' : kept t t' ->
  tc_ptr t' = tc_ptr t /\ patch_num t' = patch_num t /\ tb_jmp_offset t' = tb_jmp_offset t /\
  jmp_ind_index t' = jmp_ind_index t /\ jind_src_addr t' = jind_src_addr t /\
  jind_dest_addr t' = jind_dest_addr t /\ ind_enter_sieve t' = ind_enter_sieve t.
Proof. unfold kept. now intros <-. Qed.

Lemma jmp_added_kept next s s' i : jmp_added next s s' -> kept (tbs s i) (tbs s' i).
Proof.
  intros [O Sm _ _]. destruct (Nat.eq_dec i next) as [->|D].
  - apply (Sm _ eq_refl).
  - rewrite O by done. apply kept_refl.
Qed.

Lemma session_not_cur s0 s i : session s0 s -> (i < nb_tbs s0)%nat ->
  tc_ptr (tbs s0 i) <> NOT_TRANS_YET -> i <> cur_tb s0 -> i <> cur_tb s.
Proof. intros J Hi Ht D E. subst i. destruct (j_cur_new s0 s J) as [?|[?|?]]; [done|lia|done]. Qed.

Lemma placed_same lo e t t' : tc_ptr t' = tc_ptr t -> pc t' = pc t -> placed lo e t -> placed lo e t'.
Proof. unfold placed. now intros -> ->. Qed.

(** The current block's code starts in this session. *)
Lemma session_cur_tc s0 s : session s0 s -> tc_ptr (tbs s (cur_tb s)) <> NOT_TRANS_YET ->
  code_ptr s0 <= tc_ptr (tbs s (cur_tb s)) <= code_ptr s.
Proof.
  intros J Nt. pose proof (j_cp s0 s J). destruct (j_tc s0 s J _ (j_cur s0 s J)) as [?|[[Lt E]|?]]; [done| |done].
  destruct (j_cur_new s0 s J) as [C|[?|?]]; [|lia|congruence]. rewrite E, C, (j_start s0 s J). lia.
Qed.

Lemma session_cgc f s0 s : session s0 s -> (forall g, tb_ret_addr (f g) = tb_ret_addr g) ->
  (forall g, pc_start (f g) = pc_start g) -> (forall g, stb_count (f g) = stb_count g) -> session s0 (upd_cgc f s).
Proof.
  intros [I C P M (K1 & K2 & K3 & K4 & K5) N O T PA SO PC CN KP ST] F1 F2 F3. constructor; try done.
  - destruct I as [[? ? ? ? ?] ?]. constructor; [now constructor|done].
  - cbn. rewrite F1, F2, F3. done.
Qed.

(** Blocks without code have no open branches. *)
Definition untouched (s : st) : Prop := forall i, (i < nb_tbs s)%nat ->
  tc_ptr (tbs s i) = NOT_TRANS_YET -> patch_num (tbs s i) = 0.

(** Between two instructions: the current block has code and no open branch. *)
Record ready (s : st) : Prop := {
  rd_num : patch_num (tbs s (cur_tb s)) = 0;
  rd_tc : tc_ptr (tbs s (cur_tb s)) <> NOT_TRANS_YET;
  rd_nt : untouched s }.

Lemma quiet_core lo s s' i : quiet lo s s' ->
  pc (tbs s' i) = pc (tbs s i) /\ func_addr (tbs s' i) = func_addr (tbs s i) /\
  tb_tag (tbs s' i) = tb_tag (tbs s i) /\ tc_ptr (tbs s' i) = tc_ptr (tbs s i) /\
  patch_num (tbs s' i) = patch_num (tbs s i) /\
  jmp_from_index (tbs s' i) = jmp_from_index (tbs s i).
Proof.
  intros [_ _ T _ _ _]. specialize (T i). unfold tb_core in T. now injection T.
Qed.

Lemma quiet_const lo s s' : quiet lo s s' ->
  sieve_code_ptr s' = sieve_code_ptr s /\ code_gen_ptr s' = code_gen_ptr s /\
  nb_tbs s' = nb_tbs s /\ cur_tb s' = cur_tb s /\ sieve_stub s' = sieve_stub s /\
  tb_ret_addr (cgc s') = tb_ret_addr (cgc s) /\ pc_ptr (cgc s') = pc_ptr (cgc s) /\
  pc_start (cgc s') = pc_start (cgc s) /\ insn_len (cgc s') = insn_len (cgc s) /\
  stb_count (cgc s') = stb_count (cgc s).
Proof. intros [_ _ _ _ _ C]. unfold st_core, cgc_core in C. now injection C. Qed.

Lemma session_quiet lo s0 s s' : session s0 s -> quiet lo s s' ->
  code_ptr s0 <= lo -> session s0 s'.
Proof.
  intros J Q Hlo. pose proof (fun i => session_not_cur s0 s i J) as NC.
  destruct J as [I C P M K N O T PA SO PC CN KP ST].
  destruct (quiet_const lo s s' Q) as (Q1 & Q2 & Q3 & Q4 & Q5 & Q6 & _ & Q7 & _ & Q8).
  pose proof (fun i => quiet_core lo s s' i Q) as QC.
  pose proof (q_cp _ _ _ Q). pose proof (q_patch _ _ _ Q) as QP. constructor.
  - now apply (quiet_tb_inv lo s).
  - now rewrite Q4, Q3.
  - lia.
  - intros x Hx. rewrite (q_mem _ _ _ Q) by lia. apply M. lia.
  - intuition congruence.
  - now rewrite Q3.
  - intros i Hi. destruct (QC i) as (-> & -> & _ & -> & _). auto.
  - intros i Hi. rewrite Q3 in Hi. destruct (QC i) as (_ & _ & _ & -> & _).
    destruct (T i Hi) as [?|[?|?]]; auto. right; right; lia.
  - intros e He. rewrite QP in He. destruct (PA e He) as (? & ? & ? & ? & ?).
    rewrite Q3. repeat split; try done; try lia. destruct (QC (pe_tb e)) as (E1 & _ & _ & E2 & _).
    now apply (placed_same _ _ (tbs s (pe_tb e))).
  - now rewrite QP.
  - intros i Hi. rewrite Q3 in Hi. rewrite QP. destruct (QC i) as (_ & _ & _ & _ & -> & _). auto.
  - now rewrite Q4.
  - intros i Hi Ht D. rewrite (q_other _ _ _ Q) by auto. now apply KP.
  - exact ST.
Qed.

Lemma quiet_untouched lo s s' : quiet lo s s' -> untouched s -> untouched s'.
Proof.
  intros Q U i Hi. destruct (quiet_const lo s s' Q) as (_ & _ & E & _). rewrite E in Hi.
  destruct (quiet_core lo s s' i Q) as (_ & _ & _ & -> & -> & _). now apply U.
Qed.

Lemma ready_quiet lo s s' : quiet lo s s' -> ready s -> ready s'.
Proof.
  intros Q [R1 R2 R3]. destruct (quiet_const lo s s' Q) as (_ & _ & _ & E & _).
  destruct (quiet_core lo s s' (cur_tb s) Q) as (_ & _ & _ & T & N & _).
  constructor; [rewrite E; congruence..|now apply (quiet_untouched lo s)].
Qed.

(** It is still there after more code. *)
Lemma quiet_cur_tc s0 lo s s' : session s0 s -> ready s -> quiet lo s s' ->
  tc_ptr (tbs s' (cur_tb s')) <= code_ptr s.
Proof.
  intros J R Q. destruct (quiet_const _ _ _ Q) as (_ & _ & _ & -> & _).
  destruct (quiet_core _ _ _ (cur_tb s) Q) as (_ & _ & _ & -> & _).
  apply (session_cur_tc s0 s J), R.
Qed.

(** ** Recording an open branch *)

Lemma tb_eta_num t n : tb_core (set_patch_num n t) =
  (pc t, func_addr t, tb_tag t, tc_ptr t, phys_hash_next t, n, jmp_from_index t).
Proof. reflexivity. Qed.

Record noted (to func : Z) (s s' : st) : Prop := {
  no_cp : code_ptr s' = code_ptr s;
  no_nb : nb_tbs s' = nb_tbs s;
  no_cur : cur_tb s' = cur_tb s;
  no_cgc : cgc s' = cgc s;
  no_mem : smem s' = smem s;
  no_patch : patch_array s' =
    patch_array s ++ [mkPatch (code_ptr s - 4) to (cur_tb s) func NORMAL_TB_TAG];
  no_tc : forall i, tc_ptr (tbs s' i) = tc_ptr (tbs s i) /\ func_addr (tbs s' i) = func_addr (tbs s i);
  no_pc : forall i, pc (tbs s' i) = pc (tbs s i);
  no_num : patch_num (tbs s' (cur_tb s)) = patch_num (tbs s (cur_tb s)) + 1;
  no_other : forall i, i <> cur_tb s -> tbs s' i = tbs s i }.

Lemma note_jump_runs to func s0 s (Q : unit -> st -> Prop) E `{Layout} :
  session s0 s -> patch_num (tbs s (cur_tb s)) = 0 -> patch_count s < PATCH_ARRAY_SIZE ->
  env_patch_num s < PATCH_MAX -> code_ptr s0 + 4 <= code_ptr s ->
  (forall e, e ∈ patch_array s -> pe_at e + 4 <= code_ptr s - 4) ->
  (tc_ptr (tbs s (cur_tb s)) <> NOT_TRANS_YET /\ tc_ptr (tbs s (cur_tb s)) <= code_ptr s - 4 \/
   tc_ptr (tbs s (cur_tb s)) = NOT_TRANS_YET /\ pc (tbs s (cur_tb s)) = to) ->
  (forall s', session s0 s' -> noted to func s s' -> Q tt s') ->
  runs (note_jump to func) s Q E.
Proof.
  intros J Z P V C Sp Tc K. unfold note_jump, note_patch. repeat (run; cbv beta).
  apply runs_ABORT_IF; [lia|]. intros _. repeat (run; cbv beta).
  apply runs_ABORT_IF; [lia|]. intros _. repeat (run; cbv beta). apply runs_modify.
  apply K.
  - pose proof (fun i => session_not_cur s0 s i J) as NC. pose proof (session_cur_tc s0 s J) as CT.
    destruct J as [I Cu Cp M Ks N O T PA SO PC CN KP ST].
    constructor; unfold upd_tb; st_simpl; try done.
    + apply (tb_inv_ext s); st_simpl; try done.
      * intros i. destruct (Nat.eq_dec i (cur_tb s)) as [->|D];
          [now rewrite fn_lookup_insert|now rewrite fn_lookup_insert_ne by congruence].
      * intros i Hi. destruct (Nat.eq_dec i (cur_tb s)) as [->|D];
          [rewrite fn_lookup_insert; cbn|rewrite fn_lookup_insert_ne by congruence];
          now apply (inv_from s I).
    + intros i Hi. destruct (Nat.eq_dec i (cur_tb s)) as [->|D];
        [rewrite fn_lookup_insert|rewrite fn_lookup_insert_ne by congruence]; now apply O.
    + intros i Hi. destruct (Nat.eq_dec i (cur_tb s)) as [->|D];
        [rewrite fn_lookup_insert|rewrite fn_lookup_insert_ne by congruence]; now apply T.
    + intros e He.
      assert (Same : forall j, placed (code_ptr s0) e (tbs s j) -> placed (code_ptr s0) e
        (<[cur_tb s := set_patch_num (u32 (patch_num (tbs s (cur_tb s)) + 1)) (tbs s (cur_tb s))]> (tbs s) j)).
      { intros j. destruct (Nat.eq_dec j (cur_tb s)) as [->|D];
          [rewrite fn_lookup_insert|rewrite fn_lookup_insert_ne by congruence]; done. }
      apply elem_of_app in He as [He|He].
      { destruct (PA e He) as (? & ? & ? & ? & ?). repeat split; try done. now apply Same. }
      apply list_elem_of_singleton in He. subst e. cbn. repeat split; try done; try lia. apply Same.
      unfold placed. cbn. destruct Tc as [[Tc ?]|?]; [left; specialize (CT Tc); lia|now right].
    + apply StronglySorted_app_2; [|done|repeat constructor].
      intros e1 e2 He1 He2. apply list_elem_of_singleton in He2 as ->. now apply Sp.
    + intros i Hi. rewrite count_app, count_one. destruct (PC i Hi) as [E1 E2].
      pose proof (count_nonneg i (patch_array s)).
      destruct (Nat.eq_dec i (cur_tb s)) as [->|D].
      * rewrite fn_lookup_insert, Nat.eqb_refl. cbn. rewrite Z. rewrite u32_small; lia.
      * rewrite fn_lookup_insert_ne by congruence.
        assert ((cur_tb s =? i)%nat = false) as -> by (apply Nat.eqb_neq; congruence). lia.
    + intros i Hi Ht D. rewrite fn_lookup_insert_ne by (intros E'; now apply (NC i)). now apply KP.
  - constructor; unfold upd_tb; st_simpl; try done.
    + intros i. destruct (Nat.eq_dec i (cur_tb s)) as [->|D];
        [now rewrite fn_lookup_insert|now rewrite fn_lookup_insert_ne by congruence].
    + intros i. destruct (Nat.eq_dec i (cur_tb s)) as [->|D];
        [now rewrite fn_lookup_insert|now rewrite fn_lookup_insert_ne by congruence].
    + rewrite fn_lookup_insert. cbn. rewrite Z. now apply u32_small.
    + intros i D. now rewrite fn_lookup_insert_ne by congruence.
Qed.

(** ** Looking up and making blocks *)

(** Lookup changes the cache only. *)
Definition same_but_cache (s s' : st) : Prop :=
  set_tb_jmp_cache (tb_jmp_cache s) s' = s.

Lemma same_but_cache_fields s s' : same_but_cache s s' ->
  smem s' = smem s /\ code_ptr s' = code_ptr s /\ sieve_code_ptr s' = sieve_code_ptr s /\
  code_gen_ptr s' = code_gen_ptr s /\ patch_array s' = patch_array s /\ tbs s' = tbs s /\
  nb_tbs s' = nb_tbs s /\ cur_tb s' = cur_tb s /\ sieve_stub s' = sieve_stub s /\ cgc s' = cgc s.
Proof. unfold same_but_cache. intros <-. done. Qed.

Lemma find_runs p s (Q : option nat -> st -> Prop) E :
  tb_inv s -> (forall s', tb_inv s' -> same_but_cache s s' -> newest s' p = newest s p ->
                          Q (newest s p) s') ->
  runs (tb_find_fast p NORMAL_TB_TAG) s Q E.
Proof.
  intros I K. destruct (tb_find_fast_run s p I) as (s' & R & I' & C).
  eapply runs_intro; [exact R|]. apply K.
  - split; [done|]. intros i j. destruct C as [->|(k & _ & ->)]; apply (inv_one s I).
  - destruct C as [->|(i & _ & ->)]; now destruct s.
  - destruct C as [->|(i & _ & ->)]; done.
Qed.

Lemma session_cache s0 s s' : session s0 s -> tb_inv s' -> same_but_cache s s' -> session s0 s'.
Proof.
  intros [I C P M K N O T PA SO PC CN KP] I' S.
  destruct (same_but_cache_fields s s' S) as (E1 & E2 & E3 & E4 & E5 & E6 & E7 & E8 & E9 & E10).
  constructor; rewrite ?E1, ?E2, ?E3, ?E4, ?E5, ?E6, ?E7, ?E8, ?E9, ?E10; done.
Qed.

Lemma made_fields p func s s' : made p func s s' ->
  smem s' = smem s /\ code_ptr s' = code_ptr s /\ sieve_code_ptr s' = sieve_code_ptr s /\
  code_gen_ptr s' = code_gen_ptr s /\ patch_array s' = patch_array s /\
  cur_tb s' = cur_tb s /\ sieve_stub s' = sieve_stub s /\ cgc s' = cgc s.
Proof. intros [_ _ _ _ _ R]. now rewrite <- R. Qed.

(** A new block has no open branches. *)
Lemma session_count_new s0 s : session s0 s -> count (nb_tbs s) (patch_array s) = 0.
Proof.
  intros J. unfold count. replace (List.filter _ _) with (@nil patch_entry); [done|].
  symmetry. pose proof (j_patch s0 s J) as P. induction (patch_array s) as [|e l IH]; [done|].
  cbn. destruct (P e) as (_ & _ & H & _); [apply list_elem_of_here|].
  assert ((pe_tb e =? nb_tbs s)%nat = false) as -> by (apply Nat.eqb_neq; lia).
  apply IH. intros e' He'. apply P. now apply list_elem_of_further.
Qed.

Lemma session_made p func s0 s s' : session s0 s -> newest s p = None -> made p func s s' -> session s0 s'.
Proof.
  intros J Nw Md. pose proof (session_count_new s0 s J) as CN0.
  destruct J as [I C P M K N O T PA SO PC CN KP ST].
  destruct (made_fields p func s s' Md) as (E1 & E2 & E3 & E4 & E5 & E6 & E7 & E8).
  pose proof (made_inv p func s s' I Nw Md) as I'. destruct Md as [Nb New Old _ _ _].
  constructor; rewrite ?E1, ?E2, ?E3, ?E4, ?E5, ?E6, ?E7, ?E8; try done; try lia.
  - intros i Hi. rewrite Old by lia. now apply O.
  - intros i Hi. destruct (Nat.eq_dec i (nb_tbs s)) as [->|D].
    + left. now rewrite New.
    + rewrite Old by done. apply T. lia.
  - intros e He. destruct (PA e He) as (? & ? & ? & ? & ?). repeat split; try done; try lia.
    rewrite Old by lia. done.
  - intros i Hi. destruct (Nat.eq_dec i (nb_tbs s)) as [->|D].
    + rewrite New, CN0. cbn. lia.
    + rewrite Old by done. apply PC. lia.
  - intros i Hi Ht D. rewrite Old by lia. now apply KP.
Qed.

Lemma made_untouched p func s s' : made p func s s' -> untouched s -> untouched s'.
Proof.
  intros [Nb New Old _ _ _] U i Hi Ht. destruct (Nat.eq_dec i (nb_tbs s)) as [->|D].
  - now rewrite New.
  - rewrite Old in * by done. apply U; [lia|done].
Qed.

(** Giving a block without code the current code pointer and making it current. *)
Lemma session_enter s0 s i : session s0 s -> (i < nb_tbs s)%nat ->
  tc_ptr (tbs s i) = NOT_TRANS_YET -> patch_num (tbs s i) = 0 ->
  let s' := set_cur_tb i (upd_tb i (set_tc_ptr (code_ptr s)) s) in
  session s0 s' /\ (untouched s -> code_ptr s <> NOT_TRANS_YET -> ready s').
Proof.
  intros J Hi Ht Hz s'. destruct J as [I C P M K N O T PA SO PC CN KP ST].
  assert (W : forall j, j <> i -> tbs s' j = tbs s j) by (intros j D; now apply fn_lookup_insert_ne).
  assert (V : tbs s' i = set_tc_ptr (code_ptr s) (tbs s i)) by apply fn_lookup_insert.
  assert (Cs : forall j, j = i \/ j <> i) by lia.
  split.
  - constructor; try done.
    + apply (tb_inv_ext s); try done; intros j; destruct (Cs j) as [->|D];
        try (rewrite V; done); try (rewrite W by done; done).
      * rewrite V. cbn. now apply (inv_from s I).
      * rewrite W by done. now apply (inv_from s I).
    + intros j Hj. destruct (Cs j) as [->|D]; [|rewrite W by done; now apply O].
      rewrite V. cbn. destruct (O i Hj) as (O1 & O2 & O3). repeat split; try done.
      intros Ne. specialize (O3 Ne). congruence.
    + intros j Hj. destruct (Cs j) as [->|D]; [|rewrite W by done; now apply T].
      rewrite V. cbn. right; right. lia.
    + intros e He. destruct (PA e He) as (? & ? & ? & ? & ?). repeat split; try done. rewrite W; [done|].
      destruct (PC i Hi) as [C0 _]. rewrite Hz in C0. exact (count_zero i _ (eq_sym C0) e He).
    + intros j Hj. destruct (Cs j) as [->|D]; [rewrite V|rewrite W by done]; now apply PC.
    + change (cur_tb s') with i. destruct (Nat.lt_ge_cases i (nb_tbs s0)) as [L|?]; [|auto].
      destruct (O i L) as (_ & _ & O3). destruct (Z.eq_dec (tc_ptr (tbs s0 i)) NOT_TRANS_YET) as [?|Ne];
        [auto|]. specialize (O3 Ne). congruence.
    + intros j Hj Hn D. destruct (Cs j) as [->|Dj]; [|rewrite W by done; now apply KP].
      destruct (O i Hj) as (_ & _ & O3). specialize (O3 Hn). congruence.
  - intros U Ne. constructor; [change (cur_tb s') with i; now rewrite V..|].
    intros j Hj. destruct (Cs j) as [->|D]; [rewrite V; cbn; congruence|].
    rewrite W by done. now apply U.
Qed.

Lemma session_jmp_added next s0 s s' : session s0 s -> jmp_added next s s' -> session s0 s'.
Proof.
  intros [I C P M K N O T PA SO PC CN KP ST] Ja. pose proof (jmp_added_inv next s s' I Ja) as I'.
  destruct Ja as [Ot Sm _ R]. specialize (Sm _ eq_refl).
  assert (F : smem s' = smem s /\ code_ptr s' = code_ptr s /\ sieve_code_ptr s' = sieve_code_ptr s /\
    code_gen_ptr s' = code_gen_ptr s /\ patch_array s' = patch_array s /\ nb_tbs s' = nb_tbs s /\
    cur_tb s' = cur_tb s /\ sieve_stub s' = sieve_stub s /\ cgc s' = cgc s) by now rewrite <- R.
  destruct F as (E1 & E2 & E3 & E4 & E5 & E6 & E7 & E8 & E9).
  assert (G : forall i, pc (tbs s' i) = pc (tbs s i) /\ func_addr (tbs s' i) = func_addr (tbs s i) /\
    tc_ptr (tbs s' i) = tc_ptr (tbs s i) /\ patch_num (tbs s' i) = patch_num (tbs s i)).
  { intros i. destruct (Nat.eq_dec i next) as [->|D]; [rewrite <- Sm; done|now rewrite Ot]. }
  constructor; rewrite ?E1, ?E2, ?E3, ?E4, ?E5, ?E6, ?E7, ?E8, ?E9; try done.
  - intros i Hi. destruct (G i) as (-> & -> & -> & _). now apply O.
  - intros i Hi. destruct (G i) as (_ & _ & -> & _). now apply T.
  - intros e He. destruct (PA e He) as (? & ? & ? & ? & ?). repeat split; try done.
    destruct (G (pe_tb e)) as (? & _ & ? & _). now apply (placed_same _ _ (tbs s (pe_tb e))).
  - intros i Hi. destruct (G i) as (_ & _ & _ & ->). now apply PC.
  - intros i Hi Hn D. specialize (KP i Hi Hn D). unfold kept in *.
    destruct (Nat.eq_dec i next) as [->|Dn]; [|now rewrite Ot].
    rewrite <- KP. rewrite <- Sm. now destruct (tbs s' next).
Qed.

(** Code and open branches are only added. *)
Record extends (s s' : st) : Prop := {
  ex_cp : code_ptr s <= code_ptr s';
  ex_mem : forall x, x < code_ptr s -> smem s' !! x = smem s !! x;
  ex_patch : exists l, patch_array s' = patch_array s ++ l /\
    forall e, e ∈ l -> code_ptr s <= pe_at e }.

Lemma extends_refl s : extends s s.
Proof. constructor; try done. exists []. rewrite app_nil_r. split; [done|]. now intros e ?%not_elem_of_nil. Qed.

Lemma extends_trans s1 s2 s3 : extends s1 s2 -> extends s2 s3 -> extends s1 s3.
Proof.
  intros [A1 A2 (l & A3 & A4)] [B1 B2 (k & B3 & B4)]. constructor; [lia| |].
  - intros x Hx. rewrite B2 by lia. now apply A2.
  - exists (l ++ k). rewrite B3, A3, app_assoc. split; [done|].
    intros e [He|He]%elem_of_app; [now apply A4|]. specialize (B4 e He). lia.
Qed.

Lemma quiet_extends lo s s' : quiet lo s s' -> code_ptr s <= lo -> extends s s'.
Proof.
  intros Q L. constructor; [apply Q|intros x Hx; apply (q_mem _ _ _ Q); lia|].
  exists []. rewrite (q_patch _ _ _ Q), app_nil_r. split; [done|]. now intros e ?%not_elem_of_nil.
Qed.

Lemma extends_step lo s s1 s' : extends s s1 -> quiet lo s1 s' -> code_ptr s <= lo -> extends s s'.
Proof.
  intros [A1 A2 A3] Q L. constructor; [pose proof (q_cp _ _ _ Q); lia| |now rewrite (q_patch _ _ _ Q)].
  intros x Hx. rewrite (q_mem _ _ _ Q) by lia. now apply A2.
Qed.

(** Blocks that have code in [s'] have it in [s], or are those of [P]. *)
Definition coded (P : nat -> TranslationBlock -> Prop) (s s' : st) : Prop := forall i, (i < nb_tbs s')%nat ->
  tc_ptr (tbs s' i) <> NOT_TRANS_YET ->
  (i < nb_tbs s)%nat /\ tc_ptr (tbs s' i) = tc_ptr (tbs s i) /\ pc (tbs s' i) = pc (tbs s i) \/
  P i (tbs s' i).

Lemma coded_refl P s : coded P s s.
Proof. intros i Hi _. auto. Qed.

Lemma coded_trans P s1 s2 s3 : coded (fun _ _ => False) s1 s2 -> coded P s2 s3 -> coded P s1 s3.
Proof.
  intros A B i Hi T. destruct (B i Hi T) as [(B1 & B2 & B3)|B1]; [|auto]. rewrite B2 in T.
  destruct (A i B1 T) as [(A1 & A2 & A3)|[]]. left. split; [done|]. split; congruence.
Qed.

Lemma coded_core P s s' : nb_tbs s' = nb_tbs s ->
  (forall i, tc_ptr (tbs s' i) = tc_ptr (tbs s i) /\ pc (tbs s' i) = pc (tbs s i)) -> coded P s s'.
Proof. intros N K i Hi _. left. rewrite <- N. split; [done|apply K]. Qed.

Lemma quiet_coded P lo s s' : quiet lo s s' -> coded P s s'.
Proof.
  intros Q. destruct (quiet_const _ _ _ Q) as (_ & _ & N & _). apply coded_core; [done|].
  intros i. destruct (quiet_core _ _ _ i Q) as (E1 & _ & _ & E2 & _). done.
Qed.

Lemma made_coded P p func s s' : made p func s s' -> coded P s s'.
Proof.
  intros [Nb New Old _ _ _] i Hi T. left. destruct (Nat.eq_dec i (nb_tbs s)) as [->|D].
  - now rewrite New in T.
  - rewrite Old by done. split; [lia|done].
Qed.

Lemma extends_same s s' : smem s' = smem s -> code_ptr s' = code_ptr s ->
  patch_array s' = patch_array s -> extends s s'.
Proof.
  intros E1 E2 E3. constructor; rewrite ?E1, ?E2, ?E3; [lia|done|].
  exists []. rewrite app_nil_r. split; [done|]. now intros e ?%not_elem_of_nil.
Qed.

Lemma cache_extends s s' : same_but_cache s s' -> extends s s'.
Proof. intros S. destruct (same_but_cache_fields s s' S) as (E1 & E2 & _ & _ & E5 & _). now apply extends_same. Qed.
Lemma cache_coded P s s' : same_but_cache s s' -> coded P s s'.
Proof.
  intros S. destruct (same_but_cache_fields s s' S) as (_ & _ & _ & _ & _ & E6 & E7 & _).
  apply coded_core; [done|]. intros i. now rewrite E6.
Qed.

Lemma made_extends p func s s' : made p func s s' -> extends s s'.
Proof. intros Md. destruct (made_fields _ _ _ _ Md) as (E1 & E2 & _ & _ & E5 & _). now apply extends_same. Qed.

Lemma jmp_added_same next s s' : jmp_added next s s' ->
  smem s' = smem s /\ code_ptr s' = code_ptr s /\ patch_array s' = patch_array s /\ nb_tbs s' = nb_tbs s /\
  cgc s' = cgc s /\ forall i, tc_ptr (tbs s' i) = tc_ptr (tbs s i) /\ pc (tbs s' i) = pc (tbs s i).
Proof.
  intros Ja. pose proof (fun i => jmp_added_kept next s s' i Ja) as K. destruct Ja as [_ _ _ R].
  split; [now rewrite <- R|]. split; [now rewrite <- R|]. split; [now rewrite <- R|].
  split; [now rewrite <- R|]. split; [now rewrite <- R|]. intros i. specialize (K i).
  unfold kept in K. rewrite <- K. now destruct (tbs s' i).
Qed.

Lemma jmp_added_extends next s s' : jmp_added next s s' -> extends s s'.
Proof. intros Ja. destruct (jmp_added_same _ _ _ Ja) as (E1 & E2 & E3 & _). now apply extends_same. Qed.
Lemma jmp_added_coded P next s s' : jmp_added next s s' -> coded P s s'.
Proof. intros Ja. destruct (jmp_added_same _ _ _ Ja) as (_ & _ & _ & E4 & _ & E5). now apply coded_core. Qed.

(** Making a block without code current, at the code pointer. *)
Lemma enter_coded (P : nat -> TranslationBlock -> Prop) s i : P i (set_tc_ptr (code_ptr s) (tbs s i)) ->
  coded P s (set_cur_tb i (upd_tb i (set_tc_ptr (code_ptr s)) s)).
Proof.
  intros K j Hj _. destruct (Nat.eq_dec j i) as [->|D]; [right|left].
  - change (P i (tbs (upd_tb i (set_tc_ptr (code_ptr s)) s) i)). now rewrite upd_tb_eq.
  - change (tbs (set_cur_tb i _) j) with (tbs (upd_tb i (set_tc_ptr (code_ptr s)) s) j).
    now rewrite upd_tb_ne by congruence.
Qed.

Lemma enter_extends s i : extends s (set_cur_tb i (upd_tb i (set_tc_ptr (code_ptr s)) s)).
Proof. now apply extends_same. Qed.

(** An open branch. *)
Lemma noted_extends s to func s1 s2 : extends s s1 -> noted to func s1 s2 ->
  code_ptr s + 4 <= code_ptr s1 -> extends s s2.
Proof.
  intros [X1 X2 (l & X3 & X4)] No C. constructor.
  - rewrite (no_cp _ _ _ _ No). lia.
  - rewrite (no_mem _ _ _ _ No). exact X2.
  - exists (l ++ [mkPatch (code_ptr s1 - 4) to (cur_tb s1) func NORMAL_TB_TAG]).
    rewrite (no_patch _ _ _ _ No), X3, app_assoc. split; [done|].
    intros e [He|He]%elem_of_app; [now apply X4|]. apply list_elem_of_singleton in He as ->. cbn. lia.
Qed.

(** The block about to be translated, at the code pointer. *)
Definition starting (s : st) (i : nat) (t : TranslationBlock) : Prop :=
  i = cur_tb s /\ tc_ptr t = code_ptr s /\ pc t = pc_ptr (cgc s).

(** What a handler that returned [b] leaves: at most [k] bytes of code, at least
    [g] if the block goes on. *)
Record handled (s0 s : st) (g k : Z) (b : bool) (s' : st) : Prop := {
  hd_session : session s0 s';
  hd_extends : extends s s';
  hd_coded : coded (fun i t => b = true /\ starting s' i t) s s';
  hd_cp : code_ptr s + (if b then g else 0) <= code_ptr s' <= code_ptr s + k;
  hd_patch : (length (patch_array s') <= length (patch_array s) + 1)%nat;
  hd_nb : (nb_tbs s <= nb_tbs s' <= nb_tbs s + 1)%nat;
  hd_cgc : pc_ptr (cgc s') = pc_ptr (cgc s);
  hd_ready : b = true -> ready s' }.

Section Handlers.
Context `{Layout}.
Variable s0 : st.

(** Handlers that end in [trans_next], that push the operand of an indirect
    branch. *)
Definition ends_trans_next (f : emit_fn) : bool :=
  match f with
  | fn_emit_jcond | fn_emit_other_jcond | fn_emit_call_disp | fn_emit_call_near_mem => true
  | _ => false
  end.
Definition pushes_rm (f : emit_fn) : bool :=
  match f with fn_emit_jmp_near_mem | fn_emit_call_near_mem => true | _ => false end.

(** Why handler [f] may abort: an operand or address size it does not support,
    or a full block table. *)
Definition handler_err (f : emit_fn) (ds : decode_t) (s : st) (e : err) : Prop :=
  e = Abort /\
  (ends_trans_next f = true /\ hasb (opstate ds) OPSTATE_DATA32 = false \/
   pushes_rm f = true /\ hasb (flags ds) DSFL_GROUP4_PREFIX = true \/
   (ends_trans_next f = true \/ f = fn_emit_jmp) /\ tb_full s = true).

Lemma make_tb_runs p func s (Q : nat -> st -> Prop) (E : err -> Prop) :
  (tb_full s = true -> E Abort) -> (forall s', made p func s s' -> Q (nb_tbs s) s') ->
  runs (make_tb p func NORMAL_TB_TAG) s Q E.
Proof.
  intros HE HQ. destruct (tb_full s) eqn:F.
  - unfold runs. rewrite make_tb_full by done. auto.
  - destruct (make_tb_run p func NORMAL_TB_TAG s F) as (s' & R & Md).
    eapply runs_intro; eauto.
Qed.

(** [trans_next] after at most one open branch of the current block. *)
Lemma trans_next_runs ds s :
  session s0 s -> untouched s -> code_ptr s <> NOT_TRANS_YET ->
  runs (trans_next ds) s
    (fun b s' => handled s0 s 0 5 b s' /\ patch_array s' = patch_array s)
    (fun e => e = Abort /\ (hasb (opstate ds) OPSTATE_DATA32 = false \/ tb_full s = true)).
Proof.
  intros J U Ne. unfold trans_next. run. apply runs_ABORT_IF.
  { intros D. apply negb_true_iff in D. auto. }
  intros _. repeat (run; cbv beta). apply find_runs; [apply J|].
  intros s1 I1 S1 N1. pose proof (session_cache s0 s s1 J I1 S1) as J1.
  destruct (same_but_cache_fields s s1 S1) as (E1 & E2 & E3 & E4 & E5 & E6 & E7 & E8 & E9 & E10).
  assert (U1 : untouched s1) by (unfold untouched; rewrite E6, E7; exact U).
  assert (Full : tb_full s1 = tb_full s) by (unfold tb_full; now rewrite E4, E7).
  repeat (run; cbv beta). rewrite <- N1.
  destruct (newest s1 (pc_ptr (cgc s))) as [i|] eqn:Nw.
  - destruct (newest_some _ _ _ Nw) as [Hi _]. repeat (run; cbv beta).
    destruct (negb (tc_ptr (tbs s1 i) =? NOT_TRANS_YET)) eqn:Tr.
    + pose proof (quiet_refl (code_ptr s) s1) as Hq.
      pose proof (j_cp s0 s J). estep. estep. repeat (run; cbv beta).
      match goal with Q : quiet _ s1 ?x |- _ => rename Q into Hq1, x into s3 end.
      destruct (quiet_const _ _ _ Hq1) as (_ & _ & Q3 & Q4 & _ & _ & Q7 & _).
      destruct (quiet_core _ _ _ (cur_tb s1) Hq1) as (_ & _ & _ & _ & Qn & _).
      pose proof (session_quiet _ s0 _ _ J1 Hq1 ltac:(lia)) as J3.
      destruct (j_count s0 s1 J1 (cur_tb s1) (j_cur s0 s1 J1)) as [P1 P2].
      pose proof (count_nonneg (cur_tb s1) (patch_array s1)).
      apply runs_in_bounds; [unfold PATCH_MAX; lia|].
      pose proof (q_patch _ _ _ Hq1) as P3.
      run. apply (runs_mod_tb (code_ptr s)); [done|cur_eq|]. intros s4 q4 c4.
      pose proof (quiet_trans _ _ _ _ Hq1 q4) as Hq2.
      pose proof (session_quiet _ s0 _ _ J1 Hq2 ltac:(lia)) as J4.
      destruct (quiet_const _ _ _ Hq2) as (_ & _ & R3 & R4 & _ & _ & R7 & _).
      pose proof (q_patch _ _ _ Hq2) as P4. run.
      destruct (tb_add_jmp_from_run (cur_tb s1) i (patch_num (tbs s3 (cur_tb s1))) s4)
        as (s5 & R & Ja & _); [apply (inv_from s4 (j_inv _ _ J4)); lia|].
      eapply runs_intro; [exact R|]. run.
      pose proof (session_jmp_added i s0 s4 s5 J4 Ja) as J5. pose proof Ja as Jk. destruct Ja as [_ _ _ Rs].
      assert (F5 : code_ptr s5 = code_ptr s4 /\ patch_array s5 = patch_array s4 /\
        nb_tbs s5 = nb_tbs s4 /\ cgc s5 = cgc s4) by now rewrite <- Rs.
      destruct F5 as (F1 & F2 & F3 & F4).
      split; [|rewrite F2, P4; congruence].
      constructor; rewrite ?F1, ?F2, ?F3, ?F4; try done; try lia.
      * eapply extends_trans; [eapply cache_extends, S1|]. eapply extends_trans; [|eapply jmp_added_extends, Jk].
        apply (quiet_extends (code_ptr s)); [done|lia].
      * eapply coded_trans; [eapply cache_coded, S1|]. eapply coded_trans; [|eapply jmp_added_coded, Jk].
        eapply quiet_coded, Hq2.
      * rewrite P4, E5. lia.
      * congruence.
    + apply negb_false_iff, Z.eqb_eq in Tr. repeat (run; cbv beta). apply runs_modify.
      repeat (run; cbv beta).
      destruct (session_enter s0 s1 i J1 Hi Tr (U1 i Hi Tr)) as [J2 Rd].
      split; [|exact E5]. constructor; [exact J2| | |cbn; lia|cbn; rewrite E5; lia|cbn; lia|cbn; congruence|].
      { eapply extends_trans; [eapply cache_extends, S1|]. apply enter_extends. }
      { eapply coded_trans; [eapply cache_coded, S1|]. apply enter_coded. do 3 (split; [done|]).
        cbn. destruct (newest_some _ _ _ Nw) as [_ ->]. congruence. }
      intros _. apply Rd; [done|congruence].
  - repeat (run; cbv beta). apply make_tb_runs; [rewrite Full; auto|].
    intros s2 Md. pose proof (session_made _ _ s0 s1 s2 J1 Nw Md) as J2.
    destruct (made_fields _ _ _ _ Md) as (G1 & G2 & G3 & G4 & G5 & G6 & G7 & G8).
    repeat (run; cbv beta). apply runs_modify. repeat (run; cbv beta).
    pose proof (mk_nb _ _ _ _ Md) as Nb2.
    destruct (session_enter s0 s2 (nb_tbs s1) J2) as [J3 Rd];
      [lia | now rewrite (mk_new _ _ _ _ Md) .. |].
    split; [|cbn; now rewrite G5].
    constructor; [exact J3| | |cbn; lia|cbn; rewrite G5, E5; lia|cbn; lia|cbn; congruence|].
    { eapply extends_trans; [eapply cache_extends, S1|].
      eapply extends_trans; [eapply made_extends, Md|]. apply enter_extends. }
    { eapply coded_trans; [eapply cache_coded, S1|]. eapply coded_trans; [eapply made_coded, Md|].
      apply enter_coded. do 3 (split; [done|]). cbn. rewrite (mk_new _ _ _ _ Md). cbn. congruence. }
    intros _. apply Rd; [now apply (made_untouched _ _ _ _ Md)|congruence].
Qed.

Lemma handled_quiet g k (b : bool) s s' : session s0 s -> ready s -> quiet (code_ptr s) s s' ->
  code_ptr s + (if b then g else 0) <= code_ptr s' <= code_ptr s + k -> handled s0 s g k b s'.
Proof.
  intros J R Q C. destruct (quiet_const _ _ _ Q) as (_ & _ & E1 & _ & _ & _ & E2 & _).
  pose proof (q_cp _ _ _ Q). pose proof (j_cp s0 s J).
  constructor; [now apply (session_quiet (code_ptr s) s0 s)|now apply (quiet_extends (code_ptr s))|
    eapply quiet_coded, Q|lia|..|].
  - rewrite (q_patch _ _ _ Q). lia.
  - lia.
  - done.
  - intros _. now apply (ready_quiet (code_ptr s) s).
Qed.

Lemma noted_untouched to func s s' : noted to func s s' -> ready s -> untouched s'.
Proof.
  intros [_ Nb _ _ _ _ T _ _ O] [_ R U] i Hi Ht. rewrite Nb in Hi.
  destruct (T i) as [T1 _]. rewrite T1 in Ht.
  destruct (Nat.eq_dec i (cur_tb s)) as [->|D]; [done|]. rewrite O by done. now apply U.
Qed.

(** The region the code may grow into avoids the words the translator reads,
    and addresses that look like [NOT_TRANS_YET]. *)
Variable hi : Z.
Hypothesis Henv : A_patch_num + 4 <= code_ptr s0 \/ hi <= A_patch_num.
Hypothesis Hnt : NOT_TRANS_YET < code_ptr s0 \/ hi < NOT_TRANS_YET.
Hypothesis Hnum : env_patch_num s0 < PATCH_MAX.

Lemma session_patch_num s : session s0 s -> code_ptr s <= hi -> env_patch_num s < PATCH_MAX.
Proof.
  intros J C. unfold env_patch_num. rewrite (ld32_ext (smem s0)); [exact Hnum|].
  intros x Hx. apply (j_mem s0 s J). lia.
Qed.

Lemma session_not_nt s : session s0 s -> code_ptr s <= hi -> code_ptr s <> NOT_TRANS_YET.
Proof. intros J C. pose proof (j_cp s0 s J). lia. Qed.

(** Emission from a ready state, an open branch, and more emission. *)
Lemma note_jump_ready to func s (Q : unit -> st -> Prop) E :
  session s0 s -> ready s -> (length (patch_array s) <= 254)%nat ->
  code_ptr s <= hi -> code_ptr s0 + 4 <= code_ptr s ->
  (forall e, e ∈ patch_array s -> pe_at e + 4 <= code_ptr s - 4) ->
  tc_ptr (tbs s (cur_tb s)) <= code_ptr s - 4 ->
  (forall s', session s0 s' -> untouched s' -> noted to func s s' -> Q tt s') ->
  runs (note_jump to func) s Q E.
Proof.
  intros J R L C1 C2 Sp Tc K. apply (note_jump_runs to func s0); try done.
  - apply R.
  - unfold patch_count, PATCH_ARRAY_SIZE. lia.
  - now apply session_patch_num.
  - left. split; [apply R|done].
  - intros s' J' No. apply K; [done|now apply (noted_untouched to func s)|done].
Qed.

(** [trans_next] at the end of a handler that left one open branch. *)
Lemma finish_trans_next f to func ds k s s1 s2 s3 :
  ends_trans_next f = true ->
  session s0 s -> ready s -> quiet (code_ptr s) s s1 -> code_ptr s + 4 <= code_ptr s1 ->
  session s0 s2 -> untouched s2 -> noted to func s1 s2 ->
  quiet (code_ptr s) s2 s3 -> code_ptr s + 1 <= code_ptr s3 <= code_ptr s + k -> code_ptr s3 <= hi ->
  runs (trans_next ds) s3 (fun b s' => handled s0 s 1 (k + 5) b s') (handler_err f ds s).
Proof.
  intros Hf J R Q1 C4 J2 U2 No Q3 C H3.
  pose proof (j_cp s0 s J) as C0.
  pose proof (session_quiet _ s0 _ _ J2 Q3 C0) as J3.
  pose proof (quiet_untouched _ _ _ Q3 U2) as U3.
  destruct (quiet_const _ _ _ Q1) as (_ & A1 & A2 & _ & _ & _ & A3 & _).
  destruct (quiet_const _ _ _ Q3) as (_ & B1 & B2 & _ & _ & _ & B3 & _).
  pose proof (no_cp _ _ _ _ No) as N1. pose proof (no_nb _ _ _ _ No) as N2.
  pose proof (no_cgc _ _ _ _ No) as N3. pose proof (no_patch _ _ _ _ No) as N4.
  pose proof (q_patch _ _ _ Q1) as P1. pose proof (q_patch _ _ _ Q3) as P3.
  pose proof (q_cp _ _ _ Q1). pose proof (q_cp _ _ _ Q3).
  assert (F : tb_full s3 = tb_full s).
  { destruct J as [_ _ _ _ (_ & G & _) _ _ _ _ _ _ _ _].
    destruct J3 as [_ _ _ _ (_ & G3 & _) _ _ _ _ _ _ _ _].
    unfold tb_full. rewrite G, G3. do 3 f_equal. lia. }
  eapply runs_conseq; [apply (trans_next_runs ds s3 J3 U3); now apply session_not_nt| |].
  - cbv beta. intros b s' [[K1 Kx Ky K2 K3 K4 K5 K6] K7].
    assert (L : length (patch_array s3) = S (length (patch_array s))).
    { rewrite P3, N4, P1, length_app. cbn. lia. }
    constructor; try done; try lia; [| |destruct b; lia|rewrite K7; lia|congruence].
    + eapply extends_trans; [|exact Kx]. constructor; [lia| |].
      * intros x Hx. rewrite (q_mem _ _ _ Q3), (no_mem _ _ _ _ No) by lia. apply (q_mem _ _ _ Q1). lia.
      * rewrite P3, N4, P1. eexists. split; [done|]. intros e He. apply list_elem_of_singleton in He as ->. cbn. lia.
    + eapply coded_trans; [eapply quiet_coded, Q1|]. eapply coded_trans; [|eapply coded_trans; [eapply quiet_coded, Q3|exact Ky]].
      apply coded_core; [done|]. intros i. split; [apply (no_tc _ _ _ _ No)|apply (no_pc _ _ _ _ No)].
  - cbv beta. intros e [-> D]. unfold handler_err. rewrite <- F. tauto.
Qed.

End Handlers.
