(* ===== verification/Handlers.v ===== *)
(** Every [emit_*] handler, from any state of the translation loop: it returns
    or aborts for one of the reasons of [handler_err], never with undefined
    behaviour, and a handler that returns keeps the loop's invariant. *)

From S2P Require Import Prelude Memory Opcode Decode DecodeSpec State TransBlock Emit Translate.
From S2P Require Import Frame Session.

Section Handlers.
Context `{Layout}.
Variables (s0 : st) (hi : Z).
Hypothesis Henv : A_patch_num + 4 <= code_ptr s0 \/ hi <= A_patch_num.
Hypothesis Hnt : NOT_TRANS_YET < code_ptr s0 \/ hi < NOT_TRANS_YET.
Hypothesis Hnum : env_patch_num s0 < PATCH_MAX.

(** Where the loop calls a handler. *)
Record at_insn (s : st) : Prop := {
  ai_session : session s0 s;
  ai_ready : ready s;
  ai_patch : (length (patch_array s) <= 254)%nat;
  ai_room : code_ptr s + 256 <= hi;
  ai_len : 1 <= insn_len (cgc s) <= 128 }.

(** The start and end of a handler's proof. *)
Ltac handler s :=
  let Hs := fresh "Hs" in intros Hs; destruct Hs as [J R PL CH IL];
  pose proof (quiet_refl (code_ptr s) s) as Hq;
  pose proof (j_cp s0 s J) as C0.
Ltac stepped s s1 Q :=
  match goal with H : quiet (code_ptr s) s ?x |- _ => rename H into Q, x into s1 end.

(** Record a branch from the ready state [x] reached by [q], leaving [y]. *)
Ltac branch s x q no y :=
  repeat (run; cbv beta);
  match goal with
  | J : session s0 s, R : ready s, C0 : code_ptr s0 <= code_ptr s |- _ =>
      pose proof (session_quiet _ s0 _ _ J q C0);
      pose proof (ready_quiet _ _ _ q R)
  end;
  let P := fresh "P" in pose proof (q_patch _ _ _ q) as P;
  apply (note_jump_ready s0 hi); try done; try lia; [rewrite P; lia|
    match goal with J : session s0 s |- _ =>
      let e := fresh "e" in let He := fresh "He" in
      intros e He; rewrite P in He; destruct (j_patch s0 s J e He) as (_ & ? & _ & _); lia end|
    match goal with J : session s0 s, R : ready s |- _ => pose proof (quiet_cur_tc s0 _ s x J R q); lia end|];
  let J' := fresh "J'" in let U := fresh "U'" in
  intros y J' U no; repeat (run; cbv beta);
  pose proof (no_cp _ _ _ _ no); pose proof (quiet_refl (code_ptr s) y).
(** End with [trans_next] after [k] bytes. *)
Ltac finish_branch k s x y z :=
  match goal with q : quiet (code_ptr s) y z |- _ => pose proof (q_cp _ _ _ q) end;
  lazymatch goal with |- runs _ _ _ (handler_err ?f _ _) =>
  eapply runs_conseq;
    [eapply (finish_trans_next s0 hi Henv Hnt f _ _ _ k s x y z);
       try eassumption; try done; try lia| |done] end;
  let b := fresh "b" in let s' := fresh "s" in
  cbv beta; intros b s' [? ? ? ? ? ? ? ?]; constructor; try done; try (destruct b; lia).

Lemma runs_copy_insn lo s (Q : unit -> st -> Prop) E :
  lo <= code_ptr s -> 0 <= insn_len (cgc s) ->
  (forall s', quiet lo s s' -> code_ptr s' = code_ptr s + insn_len (cgc s) -> Q tt s') ->
  runs copy_insn s Q E.
Proof.
  intros L N K. unfold copy_insn. repeat (run; cbv beta). apply K; [|done].
  constructor; st_simpl; try done; try lia.
  intros x Hx. apply write_bytes_out. rewrite read_bytes_length. lia.
Qed.

Lemma emit_normal_runs ds s : at_insn s ->
  runs (emit_normal ds) s (handled s0 s 1 256) (handler_err fn_emit_normal ds s).
Proof.
  handler s. unfold emit_normal. run. apply (runs_copy_insn (code_ptr s)); [lia|lia|].
  intros s1 q1 c1. run. apply handled_quiet; try done. lia.
Qed.

Lemma emit_int_runs ds s : at_insn s ->
  runs (emit_int ds) s (handled s0 s 1 256) (handler_err fn_emit_int ds s).
Proof.
  handler s. unfold emit_int. do 3 (run; cbv beta). case_match.
  - do 5 estep. stepped s t5 Q5. run. apply (runs_copy_insn (code_ptr s)).
    + lia.
    + destruct (quiet_const _ _ _ Q5) as (_ & _ & _ & _ & _ & _ & _ & _ & -> & _). lia.
    + intros s6 q6 c6. run. destruct (quiet_const _ _ _ Q5) as (_ & _ & _ & _ & _ & _ & _ & _ & E & _).
      apply handled_quiet; try done; [now apply (quiet_trans _ _ t5)|lia].
  - run. run. apply (runs_copy_insn (code_ptr s)); [lia|lia|].
    intros s1 q1 c1. run. apply handled_quiet; try done. lia.
Qed.

Lemma emit_sysenter_runs ds s : at_insn s ->
  runs (emit_sysenter ds) s (handled s0 s 1 256) (handler_err fn_emit_sysenter ds s).
Proof. handler s. unfold emit_sysenter. run. apply handled_quiet; try done. lia. Qed.

Lemma emit_ret_runs ds s : at_insn s ->
  runs (emit_ret ds) s (handled s0 s 1 256) (handler_err fn_emit_ret ds s).
Proof.
  handler s. unfold emit_ret, cur_func. do 2 estep. stepped s t2 Q2. run.
  apply handled_quiet; try done. lia.
Qed.

Lemma emit_ret_Iw_runs ds s : at_insn s ->
  runs (emit_ret_Iw ds) s (handled s0 s 1 256) (handler_err fn_emit_ret_Iw ds s).
Proof.
  handler s. unfold emit_ret_Iw, cur_func. do 2 estep. run. case_match.
  - do 2 estep. stepped s t2 Q2. run. apply handled_quiet; try done. lia.
  - estep. stepped s t2 Q2. run. apply handled_quiet; try done. lia.
Qed.

Lemma emit_call_disp_runs ds s : at_insn s ->
  runs (emit_call_disp ds) s (handled s0 s 1 256) (handler_err fn_emit_call_disp ds s).
Proof.
  handler s. unfold emit_call_disp, rel_target. do 2 estep. estep.
  { intros D. apply negb_true_iff in D. unfold handler_err. cbn. auto. }
  intros _. do 3 estep. stepped s t5 Q5. run.
  branch s t5 Q5 No s6. eapply runs_conseq; [apply (cemit_rc_cmp_emits _ s6 (code_ptr s)); lia| |done].
  cbv beta. intros _ s7 [q7 c7]. finish_branch 46 s t5 s6 s7.
Qed.

Lemma emit_jcond_runs ds s : at_insn s ->
  runs (emit_jcond ds) s (handled s0 s 1 256) (handler_err fn_emit_jcond ds s).
Proof.
  handler s. unfold emit_jcond, rel_target, cur_func. do 1 estep. repeat (run; cbv beta).
  case_match.
  - do 2 estep. stepped s t5 Q5. branch s t5 Q5 No s6. finish_branch 8 s t5 s6 s6.
  - do 1 estep. stepped s t5 Q5. branch s t5 Q5 No s6. finish_branch 8 s t5 s6 s6.
Qed.

(** The decoder names the entry of an accepted instruction. *)
Lemma emit_other_jcond_runs ds s e : pEntry ds = Some e -> at_insn s ->
  runs (emit_other_jcond ds) s (handled s0 s 1 256) (handler_err fn_emit_other_jcond ds s).
Proof.
  intros Pe. handler s. unfold emit_other_jcond, rel_target, cur_func. rewrite Pe. estep.
  stepped s t1 Q1. pose proof (q_cp _ _ _ Q1). run.
  assert (G : forall t2, quiet (code_ptr s) s t2 -> code_ptr t2 <= code_ptr s + 1 ->
    runs (let* e' := lift (of_option UB (Some e)) in
      do* emit [E8 (index e'); E8 0x02; E8 0xeb] in
      let* patch := gets code_ptr in
      do* emit [E8 NEED_PATCH_8] in
      let* jmp_target := (let* p := get_cgc pc_ptr in ret (u32 (p + immediate ds))) in
      do* emit [E8 0xe9; E32 0x0] in
      let* f := (let* c := gets cur_tb in let* t := get_tb c in ret (func_addr t)) in
      do* note_jump jmp_target f in
      let* p := gets code_ptr in
      do* poke8 patch (p - patch - 1) in
      trans_next ds) t2 (handled s0 s 1 256) (handler_err fn_emit_other_jcond ds s)).
  { intros t2 Q2 C2. pose proof (q_cp _ _ _ Q2). run. eapply runs_intro; [reflexivity|].
    do 3 estep. stepped s t5 Q5. branch s t5 Q5 No s6. estep.
    match goal with Q : quiet (code_ptr s) s6 ?x |- _ => rename x into t7 end.
    finish_branch 12 s t5 s6 t7. }
  case_match; [|run; apply G; [done|lia]].
  estep. stepped s t2 Q2. apply G; [done|lia].
Qed.

(** Copying a return-cache slot. *)
Lemma emit_copy_rc lo s a b (Q : unit -> st -> Prop) E : lo <= code_ptr s ->
  (forall s', quiet lo s s' -> code_ptr s' = code_ptr s + 12 -> Q tt s') ->
  runs (emit (copy_rc_items a b)) s Q E.
Proof. intros L K. apply (runs_emit lo); [done|]. intros s' q c. apply K; [done|exact c]. Qed.

(** The tail of [emit_jmp], from the state [t] after the lookup. *)
Lemma emit_jmp_tail ds to f s t : at_insn s -> session s0 t -> ready t ->
  code_ptr s <= code_ptr t <= code_ptr s + 12 -> patch_array t = patch_array s ->
  (nb_tbs s <= nb_tbs t <= nb_tbs s + 1)%nat -> pc_ptr (cgc t) = pc_ptr (cgc s) ->
  extends s t -> coded (fun _ _ => False) s t ->
  runs (do* emit [E8 0xe9; E32 NEED_PATCH_32] in do* note_jump to f in ret false) t
    (handled s0 s 1 256) (handler_err fn_emit_jmp ds s).
Proof.
  handler s. intros Jt Rt Ct Pt Nt Gt Xt Yt. clear Hq. pose proof (quiet_refl (code_ptr s) t).
  estep. run. match goal with Q : quiet (code_ptr s) t ?x |- _ => rename Q into Q1, x into t1 end.
  pose proof (session_quiet _ s0 _ _ Jt Q1 C0) as J1. pose proof (ready_quiet _ _ _ Q1 Rt) as R1.
  pose proof (q_patch _ _ _ Q1) as P1.
  destruct (quiet_const _ _ _ Q1) as (_ & _ & N1 & _ & _ & _ & G1 & _).
  pose proof (quiet_cur_tc s0 _ t t1 Jt Rt Q1).
  apply (note_jump_ready s0 hi); try done; try lia; [rewrite P1, Pt; lia| |].
  { intros e He. rewrite P1 in He. destruct (j_patch s0 t Jt e He) as (_ & ? & _ & _). lia. }
  intros s2 J2 U2 No. run.
  assert (X1 : extends s t1) by now apply (extends_step (code_ptr s) s t).
  assert (C1 : code_ptr s + 4 <= code_ptr t1) by lia.
  pose proof (noted_extends s _ _ t1 s2 X1 No C1) as X2.
  destruct No as [N2 N3 _ N4 _ N5 N6 N7 _ _].
  constructor; try done; try lia.
  - eapply coded_trans; [exact Yt|]. eapply coded_trans; [eapply quiet_coded, Q1|].
    apply coded_core; [done|]. intros i. split; [apply N6|apply N7].
  - rewrite N5, P1, Pt, length_app. cbn. lia.
  - congruence.
Qed.

Lemma emit_jmp_runs ds s : at_insn s ->
  runs (emit_jmp ds) s (handled s0 s 1 256) (handler_err fn_emit_jmp ds s).
Proof.
  intros A. pose proof A as A'. revert A. handler s. unfold emit_jmp, rel_target, cur_func.
  estep. repeat (run; cbv beta). stepped s t1 Q1.
  pose proof (session_quiet _ s0 _ _ J Q1 C0) as J1. pose proof (ready_quiet _ _ _ Q1 R) as R1.
  pose proof (q_patch _ _ _ Q1) as P1.
  destruct (quiet_const _ _ _ Q1) as (_ & K1 & N1 & _ & _ & _ & G1 & _).
  lazymatch goal with |- runs (tb_find_fast ?p _) _ _ _ => set (dest := p) end.
  apply find_runs; [apply J1|]. intros t2 I2 S2 N2.
  pose proof (session_cache s0 t1 t2 J1 I2 S2) as J2.
  destruct (same_but_cache_fields t1 t2 S2) as (F1 & F2 & F3 & F4 & F5 & F6 & F7 & F8 & F9 & F10).
  assert (R2 : ready t2).
  { destruct R1 as [X Y Z]. constructor; [now rewrite F6, F8..|].
    unfold untouched. now rewrite F6, F7. }
  repeat (run; cbv beta). pose proof (q_cp _ _ _ Q1).
  assert (Tail : forall a b t3, session s0 t3 -> ready t3 -> code_ptr t3 = code_ptr t2 ->
     patch_array t3 = patch_array s -> (nb_tbs s <= nb_tbs t3 <= nb_tbs s + 1)%nat ->
     pc_ptr (cgc t3) = pc_ptr (cgc s) -> extends s t3 -> coded (fun _ _ => False) s t3 -> forall to f,
     runs (emit (copy_rc_items a b)) t3 (fun _ s' =>
       runs (do* emit [E8 0xe9; E32 NEED_PATCH_32] in do* note_jump to f in ret false) s'
         (handled s0 s 1 256) (handler_err fn_emit_jmp ds s)) (handler_err fn_emit_jmp ds s)).
  { intros a b t3 J3 R3 C3 P3 N3 G3 X3 Y3 to f. apply (emit_copy_rc (code_ptr s)); [lia|].
    intros t4 q4 c4. destruct (quiet_const _ _ _ q4) as (_ & _ & N4 & _ & _ & _ & G4 & _).
    pose proof (q_patch _ _ _ q4).
    apply emit_jmp_tail; try done; try lia; try congruence.
    - now apply (session_quiet (code_ptr s) s0 t3).
    - now apply (ready_quiet (code_ptr s) t3).
    - now apply (extends_step (code_ptr s) s t3).
    - apply (coded_trans _ _ _ _ Y3). eapply quiet_coded, q4. }
  assert (X2 : extends s t2).
  { apply (extends_trans _ t1); [|now apply cache_extends]. now apply (quiet_extends (code_ptr s)). }
  assert (Y2 : coded (fun _ _ => False) s t2).
  { apply (coded_trans _ _ t1); [|now apply cache_coded]. now apply (quiet_coded _ (code_ptr s)). }
  assert (Here : forall to f,
     runs (do* emit [E8 0xe9; E32 NEED_PATCH_32] in do* note_jump to f in ret false) t2
         (handled s0 s 1 256) (handler_err fn_emit_jmp ds s)).
  { intros to f. apply emit_jmp_tail; try done; try lia; congruence. }
  destruct (newest t1 _) as [i|] eqn:Nw.
  - run. run. case_match; [|run; apply Here]. apply Tail; try done; try lia; congruence.
  - run. run.
    case_match; [|run; apply Here]. run. apply make_tb_runs.
    { intros F. split; [done|]. right; right. split; [auto|]. unfold tb_full in *. rewrite <- F, F4, F7.
      do 3 f_equal; lia. }
    intros t3 Md. destruct (made_fields _ _ _ _ Md) as (M1 & M2 & M3 & M4 & M5 & M6 & M7 & M8).
    pose proof (mk_nb _ _ _ _ Md).
    apply Tail; try lia; try congruence; [exact (session_made _ _ s0 t2 _ J2 N2 Md)| |
      apply (extends_trans _ _ _ X2); eapply made_extends, Md|apply (coded_trans _ _ _ _ Y2); eapply made_coded, Md].
    destruct R2 as [X Y Z]. pose proof (j_cur s0 t2 J2).
    constructor; [rewrite M6, (mk_old _ _ _ _ Md) by lia; done..|].
    now apply (made_untouched _ _ _ _ Md).
Qed.

(** Pushing the operand of an indirect branch, in a longer body. *)
Lemma push_rm_step f lo ds s0' s (Q : unit -> st -> Prop) : pushes_rm f = true -> lo <= code_ptr s ->
  (forall s', quiet lo s s' -> code_ptr s' <= code_ptr s + 8 -> Q tt s') ->
  runs (emit_push_rm ds) s Q (handler_err f ds s0').
Proof.
  intros Hf L K. eapply runs_conseq; [apply (emit_push_rm_runs ds s lo L)| |].
  - cbv beta. intros [] s' [q c]. now apply K.
  - cbv beta. intros e [-> D]. unfold handler_err. auto.
Qed.

Lemma emit_jmp_near_mem_runs ds s : at_insn s ->
  runs (emit_jmp_near_mem ds) s (handled s0 s 1 256) (handler_err fn_emit_jmp_near_mem ds s).
Proof.
  handler s. unfold emit_jmp_near_mem, cur_func. do 3 estep. run.
  apply (push_rm_step _ (code_ptr s)); [done|lia|]. intros t4 q4 c4. advance t4 q4.
  ecall cemit_ind_opt_emits. stepped s t5 Q5. run. apply handled_quiet; try done. lia.
Qed.

(** Both ways of pushing the return address and the destination. *)
Lemma push_call_step f lo ds s0' p s (Q : unit -> st -> Prop) : pushes_rm f = true -> lo <= code_ptr s ->
  (forall s', quiet lo s s' -> code_ptr s' <= code_ptr s + 19 -> Q tt s') ->
  runs (if dest_based_on_esp ds then
          do* emit_push_rm ds in
          emit [E8 0xff; E8 0x34; E8 0x24; E8 0xc7; E8 0x44; E8 0x24; E8 0x4; E32 p]
        else do* emit [E8 0x68; E32 p] in emit_push_rm ds) s Q (handler_err f ds s0').
Proof.
  intros Hf L K. pose proof (quiet_refl lo s) as Hq. case_match.
  - run. apply (push_rm_step f lo); [done|done|]. intros t1 q1 c1. advance t1 q1. estep.
    apply K; [done|lia].
  - run. estep. apply (push_rm_step f lo); [done|lia|]. intros t1 q1 c1. advance t1 q1.
    apply K; [done|lia].
Qed.

Lemma emit_call_near_mem_runs ds s : at_insn s ->
  runs (emit_call_near_mem ds) s (handled s0 s 1 256) (handler_err fn_emit_call_near_mem ds s).
Proof.
  handler s. unfold emit_call_near_mem. do 2 estep. repeat (run; cbv beta).
  apply (push_call_step _ (code_ptr s)); [done|lia|]. intros t3 q3 c3. advance t3 q3.
  do 2 estep. ecall cemit_ind_opt_emits. run.
  match goal with |- runs (cemit_rc_cmp _) ?x _ _ => rename x into t6 end.
  eapply runs_conseq; [apply (cemit_rc_cmp_emits _ t6 (code_ptr s)); lia| |done].
  cbv beta. intros _ t7 [q7 c7]. advance t7 q7. stepped s t8 Q8.
  pose proof (session_quiet _ s0 _ _ J Q8 C0) as J8. pose proof (ready_quiet _ _ _ Q8 R) as R8.
  destruct (quiet_const _ _ _ Q8) as (_ & K1 & N1 & _ & _ & _ & G1 & _).
  pose proof (q_patch _ _ _ Q8) as P8.
  eapply runs_conseq;
    [apply (trans_next_runs s0 ds t8 J8 (rd_nt _ R8)); apply (session_not_nt s0 hi Hnt _ J8); lia
    | |].
  - cbv beta. intros b s' [[X1 Xe Xc X2 X3 X4 X5 X6] X7].
    pose proof (quiet_extends _ _ _ Q8 ltac:(lia)) as E8.
    pose proof (coded_trans _ _ _ _ (quiet_coded _ _ _ _ Q8) Xc) as Y8.
    pose proof (extends_trans _ _ _ E8 Xe) as Z8.
    constructor; try done; try (destruct b; lia); try congruence; rewrite P8 in X3; lia.
  - cbv beta. intros e [-> D]. unfold handler_err, tb_full in *. rewrite K1, N1 in D. cbn. tauto.
Qed.

Lemma call_emitfn_runs ds s f e : emitfn ds = Emit f -> pEntry ds = Some e -> at_insn s ->
  runs (call_emitfn ds) s (handled s0 s 1 256) (handler_err f ds s).
Proof.
  intros Ef Pe A. unfold call_emitfn. rewrite Ef. destruct f.
  - now apply emit_normal_runs.
  - now apply emit_int_runs.
  - now apply emit_sysenter_runs.
  - now apply emit_jcond_runs.
  - now apply (emit_other_jcond_runs ds s e).
  - now apply emit_jmp_runs.
  - now apply emit_jmp_near_mem_runs.
  - now apply emit_call_disp_runs.
  - now apply emit_call_near_mem_runs.
  - now apply emit_ret_runs.
  - now apply emit_ret_Iw_runs.
Qed.

End Handlers.
