(* ===== verification/Linking.v ===== *)
(** [lazy_patch]: every open branch of the session ends up linked, either to
    the code of its target or to a stub in the sieve buffer that returns to the
    dispatcher with the block, the branch number and the target. *)

From S2P Require Import Prelude Memory Opcode Decode DecodeSpec State TransBlock Emit Translate.
From S2P Require Import Frame Session.

Section Linking.
Context `{Layout}.

Definition stub_len : Z := 35.

Lemma stub_items_len r tb n to : items_len (stub_items r tb n to) = stub_len.
Proof. reflexivity. Qed.

(** Where a rel32 at [a] leads. *)
Definition rel_dest (m : mem) (a : Z) : Z := u32 (a + 4 + ld32 m a).

(** The branch of [e] is linked in [s]; [sv] is where the stubs start.  In both
    cases the block's [tb_jmp_offset] remembers the place. *)
Inductive linked (sv : Z) (s : st) (e : patch_entry) : Prop :=
  | linked_code d : (d < nb_tbs s)%nat -> pc (tbs s d) = pe_to e ->
      tc_ptr (tbs s d) <> NOT_TRANS_YET ->
      rel_dest (smem s) (pe_at e) = u32 (tc_ptr (tbs s d)) -> linked sv s e
  | linked_stub a n : sv <= a -> a + stub_len <= sieve_code_ptr s ->
      rel_dest (smem s) (pe_at e) = u32 a ->
      at_bytes (smem s) a
        (items_bytes a (stub_items (tb_ret_addr (cgc s)) (pe_tb e) n (pe_to e))) ->
      0 <= n < PATCH_MAX ->
      tb_jmp_offset (tbs s (pe_tb e)) n = u16 (pe_at e - tc_ptr (tbs s (pe_tb e))) ->
      linked sv s e.

(** What patching [e] does to the state. *)
Record patched (e : patch_entry) (s s' : st) : Prop := {
  pt_inv : tb_inv s';
  pt_mem : forall x, (x < pe_at e \/ pe_at e + 4 <= x) ->
     (x < sieve_code_ptr s \/ sieve_code_ptr s' <= x) -> smem s' !! x = smem s !! x;
  pt_sv : sieve_code_ptr s <= sieve_code_ptr s' <= sieve_code_ptr s + stub_len;
  pt_const : code_ptr s' = code_ptr s /\ code_gen_ptr s' = code_gen_ptr s /\
     patch_array s' = patch_array s /\ tb_ret_addr (cgc s') = tb_ret_addr (cgc s) /\
     sieve_stub s' = sieve_stub s /\ pc_ptr (cgc s') = pc_ptr (cgc s) /\
     pc_start (cgc s') = pc_start (cgc s) /\ stb_count (cgc s') = stb_count (cgc s);
  pt_nb : (nb_tbs s <= nb_tbs s' <= nb_tbs s + 1)%nat;
  pt_old : forall i, (i < nb_tbs s)%nat -> pc (tbs s' i) = pc (tbs s i) /\
     func_addr (tbs s' i) = func_addr (tbs s i) /\ tc_ptr (tbs s' i) = tc_ptr (tbs s i) /\
     (i <> pe_tb e -> kept (tbs s i) (tbs s' i));
  pt_new : forall i, (nb_tbs s <= i < nb_tbs s')%nat ->
     patch_num (tbs s' i) = 0 /\ tc_ptr (tbs s' i) = NOT_TRANS_YET;
  pt_num : patch_num (tbs s' (pe_tb e)) = patch_num (tbs s (pe_tb e)) - 1;
  pt_linked : linked (sieve_code_ptr s) s' e }.

(** [poke32] and [emit_sv] keep the block table. *)
Lemma tb_inv_mem s s' : tb_inv s -> tbs s' = tbs s -> nb_tbs s' = nb_tbs s ->
  tb_phys_hash s' = tb_phys_hash s -> tb_jmp_cache s' = tb_jmp_cache s -> tb_inv s'.
Proof.
  intros I E1 E2 E3 E4. apply (tb_inv_ext s); try done; intros i.
  - now rewrite E1.
  - rewrite E1. apply (inv_from s I).
Qed.

Lemma rel_dest_poke a t m : rel_dest (st32 a (t - a - 4) m) a = u32 t.
Proof. unfold rel_dest. rewrite ld32_st32, u32_add_r. f_equal. lia. Qed.

Lemma rel_dest_ext m m' a : (forall x, a <= x < a + 4 -> m' !! x = m !! x) ->
  rel_dest m' a = rel_dest m a.
Proof. intros E. unfold rel_dest. now rewrite (ld32_ext m) by done. Qed.

(** [record_offset] returns the branch number and stores the offset under it. *)
Record recorded (tb : nat) (at_ : Z) (s : st) (n : Z) (s' : st) : Prop := {
  ro_num : n = patch_num (tbs s tb) - 1;
  ro_tb : tbs s' tb = set_tb_jmp_offset (<[n := u16 (at_ - tc_ptr (tbs s tb))]> (tb_jmp_offset (tbs s tb)))
                        (set_patch_num n (tbs s tb));
  ro_other : forall j, j <> tb -> tbs s' j = tbs s j;
  ro_rest : set_tbs (tbs s) (set_cur_tb (cur_tb s) s') = s }.

Lemma record_offset_runs tb at_ s (Q : Z -> st -> Prop) E :
  1 <= patch_num (tbs s tb) <= PATCH_MAX ->
  (forall n s', recorded tb at_ s n s' -> Q n s') ->
  runs (record_offset tb at_) s Q E.
Proof.
  unfold PATCH_MAX. intros B K. unfold record_offset.
  assert (U : u32 (patch_num (tbs s tb) - 1) = patch_num (tbs s tb) - 1)
    by (apply u32_small; lia).
  do 3 run. apply runs_modify. run. run. run.
  apply runs_in_bounds.
  { unfold upd_tb, PATCH_MAX. cbn [tbs set_tbs set_cur_tb]. rewrite !fn_lookup_insert. cbn. lia. }
  run. apply runs_modify. run.
  apply K. unfold upd_tb. st_simpl. rewrite !fn_lookup_insert. st_simpl.
  rewrite U. constructor.
  - done.
  - st_simpl. now rewrite fn_lookup_insert.
  - intros j D. st_simpl. now rewrite !fn_lookup_insert_ne by congruence.
  - now destruct s.
Qed.

Lemma recorded_fields tb at_ s n s' : recorded tb at_ s n s' ->
  smem s' = smem s /\ code_ptr s' = code_ptr s /\ sieve_code_ptr s' = sieve_code_ptr s /\
  code_gen_ptr s' = code_gen_ptr s /\ patch_array s' = patch_array s /\
  tb_jmp_cache s' = tb_jmp_cache s /\ tb_phys_hash s' = tb_phys_hash s /\
  nb_tbs s' = nb_tbs s /\ sieve_stub s' = sieve_stub s /\ cgc s' = cgc s.
Proof. intros [_ _ _ R]. now rewrite <- R. Qed.

Lemma recorded_same tb at_ s n s' i : recorded tb at_ s n s' ->
  pc (tbs s' i) = pc (tbs s i) /\ func_addr (tbs s' i) = func_addr (tbs s i) /\
  tb_tag (tbs s' i) = tb_tag (tbs s i) /\ tc_ptr (tbs s' i) = tc_ptr (tbs s i) /\
  phys_hash_next (tbs s' i) = phys_hash_next (tbs s i) /\
  jmp_from_index (tbs s' i) = jmp_from_index (tbs s i).
Proof.
  intros [_ T O _]. destruct (Nat.eq_dec i tb) as [->|D]; [now rewrite T|now rewrite O].
Qed.

Lemma recorded_inv tb at_ s n s' : recorded tb at_ s n s' -> tb_inv s -> tb_inv s'.
Proof.
  intros R I. destruct (recorded_fields _ _ _ _ _ R) as (_ & _ & _ & _ & _ & E1 & E2 & E3 & _).
  apply (tb_inv_ext s); try done; intros i;
    destruct (recorded_same _ _ _ _ _ i R) as (F1 & F2 & F3 & F4 & F5 & F6); [done|].
  rewrite F6. apply (inv_from s I).
Qed.

Lemma map_u8_items l : forall a, map u8 (items_bytes a l) = items_bytes a l.
Proof.
  induction l as [|i l IH]; intros a; [done|]. cbn [items_bytes]. rewrite map_app, IH. f_equal.
  destruct i; [cbn; now rewrite u8_u8|cbn; unfold le16; now rewrite !u8_u8|apply map_u8_le32..].
Qed.

Lemma at_bytes_items m a l : at_bytes (write_bytes a (items_bytes a l) m) a (items_bytes a l).
Proof. pose proof (at_bytes_write m a (items_bytes a l)) as B. now rewrite map_u8_items in B. Qed.

(** The common end of the two unlinked cases: store the distance to the stub,
    record the offset, emit the stub. *)
Lemma to_stub_runs e s (Q : unit -> st -> Prop) E :
  tb_inv s -> (pe_tb e < nb_tbs s)%nat -> 1 <= patch_num (tbs s (pe_tb e)) <= PATCH_MAX ->
  (pe_at e + 4 <= sieve_code_ptr s \/ sieve_code_ptr s + stub_len <= pe_at e) ->
  (forall s', patched e s s' -> nb_tbs s' = nb_tbs s -> Q tt s') ->
  runs (let* sv := gets sieve_code_ptr in
        do* poke32 (pe_at e) (sv - pe_at e - 4) in
        let* n := record_offset (pe_tb e) (pe_at e) in
        let* r := get_cgc tb_ret_addr in
        emit_sv (stub_items r (pe_tb e) n (pe_to e))) s Q E.
Proof.
  intros I Lt B D K. unfold stub_len, PATCH_MAX in *. do 3 run. apply runs_modify. run.
  set (s1 := set_smem _ s). apply record_offset_runs; [exact B|].
  intros n s2 Ro. repeat (run; cbv beta). apply runs_modify.
  destruct (recorded_fields _ _ _ _ _ Ro) as (F1 & F2 & F3 & F4 & F5 & F6 & F7 & F8 & F9 & F10).
  pose proof (recorded_inv _ _ _ _ _ Ro (tb_inv_mem s s1 I eq_refl eq_refl eq_refl eq_refl)) as I2.
  pose proof (ro_num _ _ _ _ _ Ro) as En. change (tbs s1) with (tbs s) in En.
  change (sieve_code_ptr s1) with (sieve_code_ptr s) in F3.
  change (cgc s1) with (cgc s) in F10. change (nb_tbs s1) with (nb_tbs s) in F8. rewrite F1, F3, F10.
  set (bs := items_bytes _ _). set (m2 := write_bytes _ _ _).
  assert (M : forall x, (x < sieve_code_ptr s \/ sieve_code_ptr s + 35 <= x) ->
    m2 !! x = smem s1 !! x).
  { intros x Hx. apply write_bytes_out. unfold bs. rewrite items_bytes_length, stub_items_len. exact Hx. }
  apply K; [|st_simpl; exact F8].
  constructor; st_simpl; rewrite ?F2, ?F4, ?F5, ?F8, ?F9, ?F10, ?stub_items_len;
    unfold stub_len; try done; try lia.
  - apply (tb_inv_mem s2); done.
  - intros x Hx Hs. rewrite M by lia. cbn. apply st32_out. lia.
  - intros i Hi. destruct (recorded_same _ _ _ _ _ i Ro) as (G1 & G2 & _ & G4 & _).
    split; [done|]. split; [done|]. split; [done|]. intros D'.
    rewrite (ro_other _ _ _ _ _ Ro) by done. apply kept_refl.
  - rewrite (ro_tb _ _ _ _ _ Ro). exact En.
  - apply linked_stub with (a := sieve_code_ptr s) (n := n); st_simpl;
      rewrite ?F10, ?stub_items_len; unfold stub_len, PATCH_MAX; try lia.
    + rewrite (rel_dest_ext (smem s1)) by (intros x Hx; apply M; lia).
      apply rel_dest_poke.
    + fold bs. apply at_bytes_items.
    + rewrite (ro_tb _ _ _ _ _ Ro). st_simpl. now rewrite fn_lookup_insert.
Qed.

(** Patching from a state that differs in the cache, or has one more block. *)
Lemma patched_cache e s s1 s' : same_but_cache s s1 -> patched e s1 s' -> patched e s s'.
Proof.
  intros C [P1 P2 P3 P4 P5 P6 P7 P8 P9].
  destruct (same_but_cache_fields s s1 C) as (E1 & E2 & E3 & E4 & E5 & E6 & E7 & _ & E9 & E10).
  rewrite E1, E3 in P2. rewrite E3 in P3, P9. rewrite E2, E4, E5, E9, E10 in P4.
  rewrite E7 in P5, P6, P7. rewrite E6 in P6, P8. now constructor.
Qed.

Lemma patched_made e p func s s1 s' : (pe_tb e < nb_tbs s)%nat -> made p func s s1 ->
  nb_tbs s' = nb_tbs s1 -> patched e s1 s' -> patched e s s'.
Proof.
  intros Lt Md Nb [P1 P2 P3 P4 P5 P6 P7 P8 P9].
  destruct (made_fields _ _ _ _ Md) as (E1 & E2 & E3 & E4 & E5 & _ & E7 & E8).
  destruct Md as [N W O _ _ _].
  rewrite E1, E3 in P2. rewrite E3 in P3, P9. rewrite E2, E4, E5, E7, E8 in P4.
  rewrite N in Nb, P6. rewrite (O (pe_tb e)) in P8 by lia.
  constructor; try done.
  - lia.
  - intros i Hi. rewrite <- (O i) by lia. apply P6. lia.
  - intros i Hi. assert (i = nb_tbs s) as -> by lia.
    destruct (P6 (nb_tbs s)) as (_ & _ & T & R); [lia|].
    destruct (kept_fields _ _ (R ltac:(lia))) as (_ & -> & _). now rewrite T, W.
Qed.

(** A branch to code that is there. *)
Lemma to_code_runs e d s (Q : unit -> st -> Prop) E :
  tb_inv s -> (pe_tb e < nb_tbs s)%nat -> 1 <= patch_num (tbs s (pe_tb e)) <= PATCH_MAX ->
  (d < nb_tbs s)%nat -> pc (tbs s d) = pe_to e -> tc_ptr (tbs s d) <> NOT_TRANS_YET ->
  (forall s', patched e s s' -> Q tt s') ->
  runs (do* mod_cgc (fun g => set_find_dest_count (u32 (find_dest_count g + 1)) g) in
        do* poke32 (pe_at e) (tc_ptr (tbs s d) - pe_at e - 4) in
        let* n := record_offset (pe_tb e) (pe_at e) in
        tb_add_jmp_from (pe_tb e) d n) s Q E.
Proof.
  intros I Lt B Ld Pd Td K. run. apply runs_modify. run. apply runs_modify.
  set (s1 := set_smem _ _). run. apply record_offset_runs; [exact B|]. intros n s2 Ro.
  destruct (recorded_fields _ _ _ _ _ Ro) as (F1 & F2 & F3 & F4 & F5 & F6 & F7 & F8 & F9 & F10).
  assert (I1 : tb_inv s1) by (apply (tb_inv_mem s); done).
  pose proof (recorded_inv _ _ _ _ _ Ro I1) as I2.
  destruct (tb_add_jmp_from_run (pe_tb e) d n s2) as (s3 & R & Ja & _);
    [apply (inv_from s2 I2); rewrite F8; exact Ld|].
  eapply runs_intro; [exact R|]. pose proof (jmp_added_inv d s2 s3 I2 Ja) as I3.
  pose proof (fun i => jmp_added_kept d s2 s3 i Ja) as Kp.
  assert (G : forall i, pc (tbs s3 i) = pc (tbs s2 i) /\ func_addr (tbs s3 i) = func_addr (tbs s2 i) /\
    tc_ptr (tbs s3 i) = tc_ptr (tbs s2 i) /\ patch_num (tbs s3 i) = patch_num (tbs s2 i) /\
    tb_jmp_offset (tbs s3 i) = tb_jmp_offset (tbs s2 i)).
  { destruct Ja as [Ot Sm _ _]. specialize (Sm _ eq_refl). intros i.
    destruct (Nat.eq_dec i d) as [->|D]; [rewrite <- Sm; done|now rewrite Ot]. }
  destruct Ja as [_ _ _ Re].
  assert (H3 : smem s3 = smem s2 /\ code_ptr s3 = code_ptr s2 /\ sieve_code_ptr s3 = sieve_code_ptr s2 /\
    code_gen_ptr s3 = code_gen_ptr s2 /\ patch_array s3 = patch_array s2 /\ nb_tbs s3 = nb_tbs s2 /\
    sieve_stub s3 = sieve_stub s2 /\ cgc s3 = cgc s2) by now rewrite <- Re.
  destruct H3 as (H1 & H2 & H3 & H4 & H5 & H6 & H7 & H8).
  apply K. constructor; rewrite ?H1, ?H2, ?H3, ?H4, ?H5, ?H6, ?H7, ?H8,
    ?F1, ?F2, ?F3, ?F4, ?F5, ?F8, ?F9, ?F10; cbn [s1 set_smem upd_cgc set_cgc smem code_ptr
    sieve_code_ptr code_gen_ptr patch_array nb_tbs sieve_stub cgc set_find_dest_count
    tb_ret_addr pc_ptr pc_start stb_count]; unfold stub_len; try done; try lia.
  - intros x Hx _. apply st32_out. lia.
  - intros i Hi. destruct (G i) as (-> & -> & -> & _).
    destruct (recorded_same _ _ _ _ _ i Ro) as (-> & -> & _ & -> & _).
    split; [done|]. split; [done|]. split; [done|]. intros D.
    pose proof (Kp i) as Ki. rewrite (ro_other _ _ _ _ _ Ro) in Ki by done. exact Ki.
  - destruct (G (pe_tb e)) as (_ & _ & _ & -> & _). rewrite (ro_tb _ _ _ _ _ Ro).
    exact (ro_num _ _ _ _ _ Ro).
  - destruct (G d) as (G1 & _ & G3 & _). destruct (recorded_same _ _ _ _ _ d Ro) as (T1 & _ & _ & T3 & _).
    apply linked_code with (d := d).
    + rewrite H6, F8. exact Ld.
    + rewrite G1, T1. exact Pd.
    + rewrite G3, T3. exact Td.
    + rewrite H1, F1, G3, T3. apply rel_dest_poke.
Qed.

(** One iteration. *)
Lemma patch_one_runs e s (Q : unit -> st -> Prop) E :
  tb_inv s -> (pe_tb e < nb_tbs s)%nat -> 1 <= patch_num (tbs s (pe_tb e)) <= PATCH_MAX ->
  pe_tb_tag e = 0 -> tb_full s = false ->
  (pe_at e + 4 <= sieve_code_ptr s \/ sieve_code_ptr s + stub_len <= pe_at e) ->
  (forall s', patched e s s' -> Q tt s') ->
  runs (patch_one e) s Q E.
Proof.
  intros I Lt B T F D K. unfold patch_one. rewrite T. run. apply find_runs; [done|].
  intros s1 I1 S1 N1. cbv beta.
  destruct (same_but_cache_fields s s1 S1) as (E1 & E2 & E3 & E4 & E5 & E6 & E7 & E8 & E9 & E10).
  assert (Lt1 : (pe_tb e < nb_tbs s1)%nat) by now rewrite E7.
  assert (B1 : 1 <= patch_num (tbs s1 (pe_tb e)) <= PATCH_MAX) by now rewrite E6.
  rewrite <- E3 in D.
  assert (K1 : forall s', patched e s1 s' -> Q tt s').
  { intros s' P. apply K. now apply (patched_cache e s s1). }
  rewrite <- N1. destruct (newest s1 (pe_to e)) as [d|] eqn:Nw.
  - destruct (newest_some _ _ _ Nw) as [Hd Pd]. repeat (run; cbv beta).
    destruct (negb (tc_ptr (tbs s1 d) =? NOT_TRANS_YET)) eqn:Tr.
    + apply to_code_runs; try done. intros Eq. rewrite Eq in Tr. discriminate Tr.
    + apply to_stub_runs; try done. intros s' P _. now apply K1.
  - repeat (run; cbv beta). apply make_tb_runs.
    { intros X. unfold tb_full in X, F. rewrite E4, E7, F in X. discriminate X. }
    intros s2 Md. destruct (made_fields _ _ _ _ Md) as (G1 & G2 & G3 & _).
    pose proof (made_inv _ _ _ _ I1 Nw Md) as I2. pose proof (mk_nb _ _ _ _ Md) as Nb.
    apply to_stub_runs; try done.
    + lia.
    + rewrite (mk_old _ _ _ _ Md) by lia. done.
    + rewrite G3. exact D.
    + intros s' P Nb'. apply K1. now apply (patched_made e (pe_to e) (pe_func_addr e) s1 s2).
Qed.

(** ** The whole array *)

Definition off_site (x : Z) (e : patch_entry) : Prop := x < pe_at e \/ pe_at e + 4 <= x.

(** What patching the entries of [l] does to the state. *)
Record patched_all (l : list patch_entry) (s s' : st) : Prop := {
  pa_inv : tb_inv s';
  pa_mem : forall x, (forall e, e ∈ l -> off_site x e) ->
     (x < sieve_code_ptr s \/ sieve_code_ptr s' <= x) -> smem s' !! x = smem s !! x;
  pa_sv : sieve_code_ptr s <= sieve_code_ptr s' <=
          sieve_code_ptr s + stub_len * Z.of_nat (length l);
  pa_const : code_ptr s' = code_ptr s /\ code_gen_ptr s' = code_gen_ptr s /\
     patch_array s' = patch_array s /\ tb_ret_addr (cgc s') = tb_ret_addr (cgc s) /\
     sieve_stub s' = sieve_stub s /\ pc_ptr (cgc s') = pc_ptr (cgc s) /\
     pc_start (cgc s') = pc_start (cgc s) /\ stb_count (cgc s') = stb_count (cgc s);
  pa_nb : (nb_tbs s <= nb_tbs s' <= nb_tbs s + length l)%nat;
  pa_old : forall i, (i < nb_tbs s)%nat -> pc (tbs s' i) = pc (tbs s i) /\
     func_addr (tbs s' i) = func_addr (tbs s i) /\ tc_ptr (tbs s' i) = tc_ptr (tbs s i) /\
     patch_num (tbs s' i) = patch_num (tbs s i) - count i l /\
     ((forall e, e ∈ l -> pe_tb e <> i) -> kept (tbs s i) (tbs s' i));
  pa_new : forall i, (nb_tbs s <= i < nb_tbs s')%nat ->
     patch_num (tbs s' i) = 0 /\ tc_ptr (tbs s' i) = NOT_TRANS_YET;
  pa_linked : forall e, e ∈ l -> linked (sieve_code_ptr s) s' e }.

Lemma linked_mono sv sv' s e : sv' <= sv -> linked sv s e -> linked sv' s e.
Proof.
  intros L [d ? ? ? ?|a n ? ? ? ? ? ?].
  - now apply linked_code with (d := d).
  - apply linked_stub with (a := a) (n := n); try done. lia.
Qed.

(** Later patches keep a link. *)
Lemma linked_kept sv l s s' e : linked sv s e -> patched_all l s s' -> (pe_tb e < nb_tbs s)%nat ->
  sv <= sieve_code_ptr s ->
  (forall e', e' ∈ l -> pe_at e + 4 <= pe_at e' /\ pe_tb e' <> pe_tb e) ->
  (forall e', e' ∈ e :: l ->
     pe_at e' + 4 <= sv \/ sieve_code_ptr s' <= pe_at e') ->
  linked sv s' e.
Proof.
  intros L P Lt Sv Ap Out. pose proof (pa_mem _ _ _ P) as M. pose proof (pa_sv _ _ _ P) as V.
  pose proof (pa_old _ _ _ P) as O. destruct (pa_const _ _ _ P) as (_ & _ & _ & R & _).
  destruct (Out e) as [Oe|Oe]; [apply list_elem_of_here| |].
  all: assert (Site : forall x, pe_at e <= x < pe_at e + 4 -> smem s' !! x = smem s !! x) by
    (intros x Hx; apply M; [intros e' He'; left; destruct (Ap e' He'); lia|lia]).
  all: destruct L as [d L1 L2 L3 L4|a n L1 L2 L3 L4 L5 L6].
  1,3: destruct (O d L1) as (O1 & _ & O2 & _); apply linked_code with (d := d);
    [pose proof (pa_nb _ _ _ P); lia|congruence|congruence|rewrite O2, <- L4;
     now apply rel_dest_ext].
  all: apply linked_stub with (a := a) (n := n); [done|lia| | |done|].
  1,4: rewrite <- L3; now apply rel_dest_ext.
  2,4: destruct (O (pe_tb e) Lt) as (_ & _ & _ & _ & Kp);
    destruct (kept_fields _ _ (Kp (fun e' He' => proj2 (Ap e' He')))) as (-> & _ & -> & _); exact L6.
  all: rewrite R; refine (at_bytes_ext _ _ _ _ _ L4); intros x Hx; rewrite items_bytes_length,
    stub_items_len in Hx; apply M; [|lia]; intros e' He';
    destruct (Out e'); [now apply list_elem_of_further|right; lia|left; lia].
Qed.

(** Where [lazy_patch] starts. *)
Record patchable (l : list patch_entry) (s : st) : Prop := {
  pb_inv : tb_inv s;
  pb_sorted : StronglySorted before l;
  pb_entry : forall e, e ∈ l -> (pe_tb e < nb_tbs s)%nat /\ pe_tb_tag e = 0 /\
    (pe_at e + 4 <= sieve_code_ptr s \/
     sieve_code_ptr s + stub_len * Z.of_nat (length l) <= pe_at e);
  pb_count : forall i, (i < nb_tbs s)%nat -> patch_num (tbs s i) = count i l /\ count i l <= 1;
  pb_room : Z.of_nat (nb_tbs s + length l) <= code_gen_max_blocks /\
            code_gen_ptr s - L_code < code_gen_buffer_max_size }.

Lemma patchable_distinct e l s : patchable (e :: l) s -> count (pe_tb e) l = 0.
Proof.
  intros P. destruct (pb_entry _ _ P e) as (Lt & _); [apply list_elem_of_here|].
  destruct (pb_count _ _ P _ Lt) as [_ C]. rewrite count_cons, Nat.eqb_refl in C.
  pose proof (count_nonneg (pe_tb e) l). lia.
Qed.

Lemma patchable_step e l s s1 : patchable (e :: l) s -> patched e s s1 -> patchable l s1.
Proof.
  intros P Q. pose proof (patchable_distinct _ _ _ P) as D.
  destruct P as [I S En C [R1 R2]]. destruct Q as [I' M V (K1 & K2 & K3 & _) N O Nw Nm _].
  cbn [length] in *. constructor; try done.
  - now inversion S.
  - intros e' He'. destruct (En e') as (? & ? & ?); [now apply list_elem_of_further|].
    split; [lia|]. split; [done|]. lia.
  - intros i Hi. destruct (Nat.lt_ge_cases i (nb_tbs s)) as [Lt|Ge].
    + destruct (C i Lt) as [C1 C2]. rewrite count_cons in C1, C2.
      destruct (Nat.eqb_spec (pe_tb e) i) as [<-|Ne].
      * rewrite Nm, C1, D. lia.
      * destruct (O i Lt) as (_ & _ & _ & O4).
        destruct (kept_fields _ _ (O4 ltac:(congruence))) as (_ & -> & _). lia.
    + destruct (Nw i) as [-> _]; [lia|].
      assert (Z0 : count i l = 0); [|lia]. unfold count.
      replace (List.filter _ l) with (@nil patch_entry); [done|]. symmetry.
      assert (F : forall e', e' ∈ l -> (pe_tb e' =? i)%nat = false).
      { intros e' He'. destruct (En e') as (? & _); [now apply list_elem_of_further|].
        apply Nat.eqb_neq. lia. }
      clear -F. induction l as [|e' l IH]; [done|]. cbn. rewrite F by apply list_elem_of_here.
      apply IH. intros e'' He''. apply F. now apply list_elem_of_further.
  - rewrite K2. lia.
Qed.

Lemma sorted_before e l : StronglySorted before (e :: l) ->
  forall e', e' ∈ l -> pe_at e + 4 <= pe_at e'.
Proof.
  intros S e' He'. inversion S as [|? ? _ F]; subst. rewrite Forall_forall in F. now apply F.
Qed.

Lemma patched_cons e l s s1 s' : patchable (e :: l) s -> patched e s s1 ->
  patched_all l s1 s' -> patched_all (e :: l) s s'.
Proof.
  intros P Q A. pose proof (patchable_distinct _ _ _ P) as D.
  pose proof (count_zero _ _ D) as Dz.
  pose proof (sorted_before _ _ (pb_sorted _ _ P)) as Sb.
  pose proof (pb_entry _ _ P) as En.
  destruct (En e) as (Lt & _); [apply list_elem_of_here|].
  pose proof A as [I' M V K N O Nw Li].
  destruct Q as [I1 M1 V1 K1 N1 O1 Nw1 Nm1 L1]. cbn [length] in *. unfold stub_len in *.
  constructor.
  - done.
  - intros x Hx Hs. rewrite M; [|intros e' He'; apply Hx; now apply list_elem_of_further|lia].
    apply M1; [|lia]. apply (Hx e), list_elem_of_here.
  - cbn [length]. unfold stub_len. lia.
  - intuition congruence.
  - cbn [length]. lia.
  - intros i Hi. destruct (O i) as (A1 & A2 & A3 & A4 & A5); [lia|].
    destruct (O1 i Hi) as (B1 & B2 & B3 & B4). rewrite count_cons.
    split; [congruence|]. split; [congruence|]. split; [congruence|].
    destruct (Nat.eqb_spec (pe_tb e) i) as [<-|Ne].
    + split; [lia|]. intros Hj. exfalso. apply (Hj e); [apply list_elem_of_here|done].
    + specialize (B4 ltac:(congruence)). destruct (kept_fields _ _ B4) as (_ & B5 & _).
      split; [lia|]. intros Hj. apply (kept_trans _ _ _ B4), A5. intros e' He'. apply Hj.
      now apply list_elem_of_further.
  - intros i Hi. destruct (Nat.lt_ge_cases i (nb_tbs s1)) as [Lt1|Ge].
    + destruct (O i Lt1) as (_ & _ & -> & -> & _). destruct (Nw1 i) as [-> ->]; [lia|].
      split; [|done]. assert (C0 : count i l = 0); [|lia].
      pose proof (patchable_step _ _ _ _ P (Build_patched _ _ _ I1 M1 V1 K1 N1 O1 Nw1 Nm1 L1)) as P1.
      destruct (pb_count _ _ P1 i Lt1) as [<- _]. apply Nw1. lia.
    + apply Nw. lia.
  - intros e' He'. apply elem_of_cons in He' as [->|He'].
    + apply (linked_kept _ l s1); try done; try lia.
      * intros e'' He''. auto.
      * intros e'' He''. destruct (En e'' He'') as (_ & _ & ?). lia.
    + apply (linked_mono (sieve_code_ptr s1)); [lia|auto].
Qed.

Lemma patch_all_runs l : forall s, patchable l s ->
  runs (patch_all l) s (fun _ s' => patched_all l s s') (fun _ => False).
Proof.
  induction l as [|e l IH]; intros s P; cbn [patch_all].
  - run. constructor; try done; try (cbn; lia).
    + apply P.
    + intros i Hi. change (count i []) with 0. repeat split; [lia|]. intros _. apply kept_refl.
    + intros e He. now apply not_elem_of_nil in He.
  - destruct (pb_entry _ _ P e) as (Lt & T & Out); [apply list_elem_of_here|].
    destruct (pb_count _ _ P _ Lt) as [C1 C2]. rewrite count_cons, Nat.eqb_refl in C1, C2.
    pose proof (count_nonneg (pe_tb e) l). cbn [length] in Out. unfold stub_len in Out.
    destruct (pb_room _ _ P) as [R1 R2]. cbn [length] in R1.
    run. apply patch_one_runs; try done.
    + apply P.
    + unfold PATCH_MAX. lia.
    + apply tb_full_false; lia.
    + unfold stub_len. lia.
    + intros s1 Q. eapply runs_conseq; [apply IH; now apply (patchable_step e l s)| |done].
      cbv beta. intros _ s' A. now apply (patched_cons e l s s1).
Qed.

End Linking.
