(* ===== verification/GenCode.v ===== *)
(** [gen_target_code] as a whole: it terminates on guest code it can decode,
    writes only the block's code and the stubs it adds to the sieve buffer, and
    links every branch it emitted. *)

From S2P Require Import Prelude Memory Opcode DecodeTable Decode DecodeSpec DecodeProofs DecodeThm.
From S2P Require Import State TransBlock Emit Translate Frame Session Handlers.

(** ** Guest code *)

(** Handlers that end the block. *)
Definition stops (f : emit_fn) : bool :=
  match f with
  | fn_emit_ret | fn_emit_ret_Iw | fn_emit_jmp | fn_emit_jmp_near_mem | fn_emit_sysenter => true
  | _ => false
  end.

(** Instruction [i] lies at [p] and its entry names handler [f]. *)
Record insn_at (m : mem) (p : Z) (i : insn) (f : emit_fn) : Prop := {
  ia_wf : wf_insn i = true;
  ia_bytes : at_bytes m p (encode i);
  ia_lo : 0 <= p;
  ia_hi : p + Z.of_nat (length (encode i)) < 4294967296;
  ia_sel : exists fe at_, select i = Some (fe, at_) /\ ptr fe = Emit f /\
             hasb at_ DF_UNDEFINED = false }.

(** The instructions a block starting at [p0] runs through. *)
Inductive reach (m : mem) (p0 : Z) : nat -> Z -> Prop :=
  | reach_start : reach m p0 0 p0
  | reach_next k p i f : reach m p0 k p -> insn_at m p i f -> stops f = false ->
      reach m p0 (S k) (p + Z.of_nat (length (encode i))).

(** No operand or address size the handlers of branches refuse. *)
Definition sizes_ok (f : emit_fn) (i : insn) : bool :=
  (negb (ends_trans_next f) || data32 i) &&
  (negb (pushes_rm f) || forallb (fun p => negb (p =? HD_PREFIX_ADDRSZ)) (i_prefixes i)).

(** Guest code a block can be made of: every instruction reached decodes to a
    handler, has at most [n] prefixes, and lies outside [lo, hi). *)
Definition guest_ok (m : mem) (p0 : Z) (n : nat) (lo hi : Z) : Prop :=
  forall k p, (Z.of_nat k <= MAX_INSNS) -> reach m p0 k p ->
  exists i f, insn_at m p i f /\ sizes_ok f i = true /\ (length (i_prefixes i) <= n)%nat /\
    (p + Z.of_nat (length (encode i)) <= lo \/ hi <= p).

Lemma prefix_flag_values p : prefix_flag p = 0 \/ prefix_flag p = DSFL_GROUP1_PREFIX \/
  prefix_flag p = DSFL_GROUP2_PREFIX \/ prefix_flag p = DSFL_GROUP3_PREFIX \/
  (prefix_flag p = DSFL_GROUP4_PREFIX /\ p = HD_PREFIX_ADDRSZ).
Proof. unfold prefix_flag. repeat case_match; auto; right; right; right; right; split; auto; lia. Qed.

Lemma prefix_flags_group4 ps : forall f0,
  hasb f0 DSFL_GROUP4_PREFIX = false ->
  forallb (fun p => negb (p =? HD_PREFIX_ADDRSZ)) ps = true ->
  hasb (prefix_flags ps f0) DSFL_GROUP4_PREFIX = false.
Proof.
  unfold prefix_flags. induction ps as [|p ps IH]; intros f0 F A; [done|]. cbn [fold_left].
  cbn [forallb] in A. apply andb_true_iff in A as [A1 A2]. apply negb_true_iff in A1.
  apply IH; [|done]. rewrite hasb_lor_l, F.
  destruct (prefix_flag_values p) as [->|[->|[->|[->|[-> ->]]]]]; try done.
Qed.

(** The handler of an instruction. *)
Definition handler_of (i : insn) : option emit_fn :=
  match select i with
  | Some (fe, at_) =>
      if hasb at_ DF_UNDEFINED then None
      else match ptr fe with Emit f => Some f | _ => None end
  | None => None
  end.

(** A straight run of supported instructions, the last of which ends the block. *)
Fixpoint straight (n : nat) (l : list insn) : bool :=
  match l with
  | [] => false
  | i :: l' =>
      match handler_of i with
      | None => false
      | Some f => wf_insn i && sizes_ok f i && (length (i_prefixes i) <=? n)%nat &&
                  (stops f || straight n l')
      end
  end.

Definition code_of (l : list insn) : list Z := concat (map encode l).

Lemma insn_at_handler m p i f : insn_at m p i f -> handler_of i = Some f.
Proof.
  intros [_ _ _ _ (fe & at_ & S & P & U)]. unfold handler_of. now rewrite S, U, P.
Qed.

Lemma straight_insn n i l m p : straight n (i :: l) = true -> at_bytes m p (encode i) ->
  0 <= p -> p + Z.of_nat (length (encode i)) < 4294967296 ->
  exists f, insn_at m p i f /\ sizes_ok f i = true /\ (length (i_prefixes i) <= n)%nat /\
    (stops f = true \/ straight n l = true).
Proof.
  intros S B P E. cbn [straight] in S. destruct (handler_of i) as [f|] eqn:Hf; [|done].
  rewrite !andb_true_iff, orb_true_iff, Nat.leb_le in S. destruct S as [[[S1 S2] S3] S4].
  exists f. split; [|done]. constructor; try done. unfold handler_of in Hf.
  destruct (select i) as [[fe at_]|]; [|done]. exists fe, at_.
  destruct (hasb at_ DF_UNDEFINED); [done|]. destruct (ptr fe) as [|g|t]; try done.
  now injection Hf as ->.
Qed.

(** Where [k] instructions of the run lead. *)
Lemma straight_reach m p0 n l : straight n l = true -> at_bytes m p0 (code_of l) -> 0 <= p0 ->
  p0 + Z.of_nat (length (code_of l)) < 4294967296 ->
  forall k p, reach m p0 k p ->
  exists l1 l2, l = l1 ++ l2 /\ straight n l2 = true /\ p = p0 + Z.of_nat (length (code_of l1)).
Proof.
  intros S B P E k p Re. induction Re as [|k p i f Re IH Ia St].
  - exists [], l. split; [done|]. split; [done|]. cbn. lia.
  - destruct IH as (l1 & l2 & -> & S2 & ->). destruct l2 as [|j l2]; [done|].
    unfold code_of in *. rewrite map_app, concat_app in B, E. cbn [map concat] in B, E.
    apply at_bytes_app in B as [_ B]. apply at_bytes_app in B as [B _].
    rewrite !length_app in E.
    destruct (straight_insn n j l2 m _ S2 B) as (g & Ja & _ & _ & D); [lia|lia|].
    pose proof (encode_unique_aux m _ i j (ia_wf _ _ _ _ Ia) (ia_wf _ _ _ _ Ja)
      (ia_bytes _ _ _ _ Ia) B) as ->.
    pose proof (insn_at_handler _ _ _ _ Ia) as H1. rewrite (insn_at_handler _ _ _ _ Ja) in H1.
    injection H1 as ->. destruct D as [D|D]; [congruence|].
    exists (l1 ++ [j]), l2. rewrite <- app_assoc. split; [done|]. split; [done|].
    rewrite map_app, concat_app, !length_app. cbn. rewrite app_nil_r. lia.
Qed.

Lemma guest_ok_straight m p0 n lo hi l : straight n l = true -> at_bytes m p0 (code_of l) ->
  0 <= p0 -> p0 + Z.of_nat (length (code_of l)) < 4294967296 ->
  p0 + Z.of_nat (length (code_of l)) <= lo \/ hi <= p0 -> guest_ok m p0 n lo hi.
Proof.
  intros S B P E D k p _ Re.
  destruct (straight_reach m p0 n l S B P E k p Re) as (l1 & l2 & -> & S2 & ->).
  destruct l2 as [|i l2]; [done|].
  unfold code_of in *. rewrite map_app, concat_app in B, E, D. cbn [map concat] in B, E, D.
  apply at_bytes_app in B as [_ B]. apply at_bytes_app in B as [B _].
  rewrite !length_app in E, D.
  destruct (straight_insn n i l2 m _ S2 B) as (f & Ia & Sz & Np & _); [lia|lia|].
  exists i, f. split; [done|]. split; [done|]. split; [done|]. lia.
Qed.

(** ** Handlers that end a block return [false] *)

Definition returns {A} (m : M A) (b : A) : Prop := forall s a s', m s = Ok (a, s') -> a = b.

Lemma returns_ret {A} (b : A) : returns (ret b) b.
Proof. intros s a s' E. now injection E. Qed.
Lemma returns_bind {A B} (m : M A) (k : A -> M B) b :
  (forall a, returns (k a) b) -> returns (bind m k) b.
Proof. intros K s a s' E. apply bind_ok in E as (x & s1 & _ & E). now apply (K x s1 a s'). Qed.

Lemma stops_false `{Layout} ds f : emitfn ds = Emit f -> stops f = true ->
  returns (call_emitfn ds) false.
Proof.
  intros E S. unfold call_emitfn. rewrite E. destruct f; try discriminate S.
  all: unfold emit_sysenter, emit_jmp, emit_jmp_near_mem, emit_ret, emit_ret_Iw; cbv zeta.
  all: repeat (apply returns_bind; intros ?).
  all: apply returns_ret.
Qed.

Section GenCode.
Context `{Layout}.
Variables (s0 : st) (hi : Z) (dfuel : nat).

(** Enough for [MAX_INSNS + 1] instructions, the cut included. *)
Definition gen_room : Z := 256 * (MAX_INSNS + 1) + 8.

Hypothesis Henv : A_patch_num + 4 <= code_ptr s0 \/ hi <= A_patch_num.
Hypothesis Hnt : NOT_TRANS_YET < code_ptr s0 \/ hi < NOT_TRANS_YET.
Hypothesis Hnum : env_patch_num s0 < PATCH_MAX.
Hypothesis Hroom : code_ptr s0 + gen_room <= hi.
Hypothesis Hfuel : (100 < dfuel)%nat.
Let m0 := smem s0.
Let p0 := pc_ptr (cgc s0).
Hypothesis Hguest : guest_ok m0 p0 100 (code_ptr s0) hi.
Hypothesis Hblocks : Z.of_nat (nb_tbs s0) + MAX_INSNS + 1 < code_gen_max_blocks.
Hypothesis Hbuf : code_gen_ptr s0 - L_code < code_gen_buffer_max_size.

(** Before the instruction with number [k]. *)
Record at_loop (k : nat) (s : st) : Prop := {
  al_session : session s0 s;
  al_ready : ready s;
  al_reach : reach m0 p0 k (pc_ptr (cgc s));
  al_patch : (length (patch_array s) <= 253)%nat;
  al_cp : code_ptr s0 + (if (k =? 0)%nat then 0 else 1) <= code_ptr s
          <= code_ptr s0 + 256 * Z.of_nat k;
  al_nb : (nb_tbs s <= nb_tbs s0 + k)%nat }.

(** Guest code is where it was. *)
Lemma insn_at_session s p i f : session s0 s -> code_ptr s <= hi ->
  (p + Z.of_nat (length (encode i)) <= code_ptr s0 \/ hi <= p) ->
  insn_at m0 p i f -> insn_at (smem s) p i f.
Proof.
  intros J C D [W B L L' S]. constructor; try done. apply (at_bytes_ext m0); [|done].
  intros x Hx. apply (j_mem s0 s J). lia.
Qed.

(** The decoder on a well-formed instruction, as the loop uses it. *)
Lemma decode_insn m ds p i f : insn_at m p i f -> (length (i_prefixes i) <= 100)%nat ->
  exists ds' e, simple_disas_insn dfuel m ds p = Ok (true, ds') /\ emitfn ds' = Emit f /\
    pEntry ds' = Some e /\ decode_eip ds' = p + Z.of_nat (length (encode i)) /\ scanned i ds'.
Proof.
  intros [W B L L' (fe & at_ & S & Pf & U)] N.
  destruct (decode_encode_aux dfuel m ds p i W B L) as (fe' & at' & ds' & S' & R & D); [lia|lia|].
  rewrite S in S'. injection S' as <- <-. exists ds', fe.
  assert (T : decode_ret fe at_ = true).
  { unfold decode_ret. rewrite U, Pf. rewrite bool_decide_eq_false_2; [done|discriminate]. }
  rewrite T in R. split; [exact R|]. destruct D as [De _ Sc _ [Em Pe] _ _ _ _ _ _].
  split; [congruence|]. split; [done|]. split; [|done]. rewrite De. apply u32_small. lia.
Qed.

(** No handler aborts on the sizes of this instruction. *)
Lemma sizes_no_err f i ds s e : scanned i ds -> sizes_ok f i = true -> tb_full s = false ->
  ~ handler_err f ds s e.
Proof.
  intros [O F _] S T (_ & D). unfold sizes_ok in S. apply andb_true_iff in S as [S1 S2].
  destruct (ops_bits (data32 i) (addr32 i)) as (_ & OD & _). rewrite <- O in OD.
  destruct D as [[D1 D2]|[[D1 D2]|[_ D]]]; [| |congruence].
  - rewrite D1 in S1. cbn in S1. congruence.
  - rewrite D1 in S2. cbn in S2. rewrite F, (prefix_flags_group4 _ 0) in D2 by done. done.
Qed.

(** An instruction of the loop: what [gen_insn] leaves. *)
Record insn_done (s : st) (b : bool) (s' : st) : Prop := {
  id_session : session s0 s';
  id_extends : extends s s';
  id_coded : coded (fun i t => b = true /\ starting s' i t) s s';
  id_cp : code_ptr s + (if b then 1 else 0) <= code_ptr s' <= code_ptr s + 256;
  id_patch : (length (patch_array s') <= length (patch_array s) + 1)%nat;
  id_nb : (nb_tbs s' <= nb_tbs s + 1)%nat;
  id_ready : b = true -> ready s' }.

(** Changing the current block's counters. *)
Lemma runs_mod_cur f s (Q : unit -> st -> Prop) E : (forall t, tb_core (f t) = tb_core t) ->
  (forall s', quiet (code_ptr s0) s s' -> code_ptr s' = code_ptr s ->
     (forall x, smem s' !! x = smem s !! x) -> Q tt s') ->
  runs (mod_tb (cur_tb s) f) s Q E.
Proof.
  intros F K. unfold mod_tb. apply runs_modify.
  apply (runs_mod_tb (code_ptr s0) (cur_tb s) f s (fun _ s' => s' = upd_tb (cur_tb s) f s -> Q tt s') E F eq_refl).
  - intros s' q c ->. now apply K.
  - done.
Qed.

Lemma gen_insn_runs ds k s : at_loop k s -> Z.of_nat k <= MAX_INSNS ->
  runs (gen_insn dfuel ds) s
    (fun r s' => insn_done s r.1 s' /\
                 (r.1 = true -> reach m0 p0 (S k) (pc_ptr (cgc s')))) (fun _ => False).
Proof.
  intros [J R Re PL CP NB] Hk. unfold gen_room in Hroom.
  assert (Ch : code_ptr s + 256 <= hi) by lia.
  destruct (Hguest k _ Hk Re) as (i & f & Ia & Sz & Np & Rg).
  pose proof (insn_at_session s _ i f J ltac:(lia) Rg Ia) as Ia'.
  destruct (decode_insn _ ds _ i f Ia' Np) as (ds' & e & Dr & Ef & Pe & De & Sc).
  pose proof (encode_length_aux i (ia_wf _ _ _ _ Ia)) as Ln.
  assert (Pos : (0 < length (encode i))%nat).
  { unfold encode, opcode_bytes. rewrite !length_app. destruct (i_two i); simpl; lia. }
  unfold gen_insn. repeat (run; cbv beta). eapply runs_intro; [unfold lift; now rewrite Dr|].
  cbn [snd]. run. apply runs_ABORT_IF.
  { intros A. unfold hasb, OPSTATE_ADDR16 in A. now rewrite Z.land_0_r in A. }
  intros _. run. apply runs_modify. run. apply runs_modify.
  set (s1 := upd_cgc (set_pc_ptr (decode_eip ds')) _).
  assert (J1 : session s0 s1) by (apply session_cgc; [apply session_cgc|..]; done).
  assert (R1 : ready s1) by (destruct R; now constructor).
  assert (A1 : at_insn s0 hi s1).
  { constructor; try done; try lia; [cbn; lia|]. cbn. rewrite De, u32_small; lia. }
  assert (T1 : tb_full s1 = false).
  { destruct J as [_ _ _ _ (_ & G & _) _ _ _ _ _ _ _ _]. apply tb_full_false; cbn; lia. }
  run. eapply runs_conseq;
    [apply runs_eq, (call_emitfn_runs s0 hi Henv Hnt Hnum ds' s1 f e Ef Pe A1)| |].
  2:{ intros e' He. now apply (sizes_no_err f i ds' s1 e' Sc Sz T1). }
  cbv beta. intros b s2 [[J2 X2 Y2 C2 P2 N2 G2 R2] Eq]. repeat (run; cbv beta).
  apply runs_mod_cur; [done|]. intros s3 q3 c3 M3. run. cbn [fst].
  destruct (quiet_const _ _ _ q3) as (_ & _ & K1 & _ & _ & _ & K2 & _).
  pose proof (q_patch _ _ _ q3) as K3. split.
  - constructor; [now apply (session_quiet _ s0 s2 s3 J2 q3)| | |cbn in C2; rewrite c3; exact C2| | |].
    + apply (extends_trans s s2); [apply (extends_trans s s1); [now apply extends_same|exact X2]|].
      pose proof (j_cp s0 s1 J1). constructor; [lia| |].
      * intros x Hx. apply M3.
      * exists []. rewrite K3, app_nil_r. split; [done|]. now intros e' ?%not_elem_of_nil.
    + intros i' Hi' T'. destruct (quiet_core _ _ _ i' q3) as (Kp & _ & _ & Kt & _).
      rewrite Kt in T'. rewrite K1 in Hi'. rewrite Kt, Kp.
      destruct (Y2 i' Hi' T') as [(? & ? & ?)|(? & S0 & S1 & S2)]; [auto|]. right.
      unfold starting. rewrite Kt, Kp, c3, K2, (q_cur _ _ _ q3). done.
    + rewrite K3. exact P2.
    + rewrite K1. cbn in N2. lia.
    + intros B. now apply (ready_quiet _ _ _ q3), R2.
  - intros ->. rewrite K2, G2. cbn [pc_ptr s1 upd_cgc cgc set_cgc set_pc_ptr]. rewrite De.
    apply (reach_next _ _ _ _ i f Re Ia).
    destruct (stops f) eqn:St; [|done].
    discriminate (stops_false ds' f Ef St _ _ _ Eq).
Qed.

(** ** The cut *)

Hypothesis Htc : forall i, (i < nb_tbs s0)%nat ->
  tc_ptr (tbs s0 i) = NOT_TRANS_YET \/ tc_ptr (tbs s0 i) <= code_ptr s0.

Lemma session_leave s i : session s0 s -> (i < nb_tbs s)%nat ->
  tc_ptr (tbs s i) = code_ptr s -> code_ptr s0 < code_ptr s -> patch_num (tbs s i) = 0 ->
  session s0 (upd_tb i (set_tc_ptr NOT_TRANS_YET) s).
Proof.
  intros [I C P M K N O T PA SO PC CN KP ST] Hi Ht Hc Hz. set (s' := upd_tb _ _ _).
  assert (W : forall j, j <> i -> tbs s' j = tbs s j) by (intros j D; now apply fn_lookup_insert_ne).
  assert (V : tbs s' i = set_tc_ptr NOT_TRANS_YET (tbs s i)) by apply fn_lookup_insert.
  assert (Cs : forall j, j = i \/ j <> i) by lia.
  constructor; try done.
  - apply (tb_inv_ext s); try done; intros j; destruct (Cs j) as [->|D];
      try (rewrite V; done); try (rewrite W by done; done).
    + rewrite V. cbn. now apply (inv_from s I).
    + rewrite W by done. now apply (inv_from s I).
  - intros j Hj. destruct (Cs j) as [->|D]; [|rewrite W by done; now apply O].
    rewrite V. cbn. destruct (O i Hj) as (O1 & O2 & O3). repeat split; try done.
    intros Ne. specialize (O3 Ne). destruct (Htc i Hj); [done|lia].
  - intros j Hj. destruct (Cs j) as [->|D]; [rewrite V; cbn; auto|rewrite W by done; now apply T].
  - intros e He. destruct (PA e He) as (? & ? & ? & ? & ?). repeat split; try done. rewrite W; [done|].
    destruct (PC i Hi) as [C0 _]. rewrite Hz in C0. exact (count_zero i _ (eq_sym C0) e He).
  - intros j Hj. destruct (Cs j) as [->|D]; [rewrite V|rewrite W by done]; now apply PC.
  - intros j Hj Hn D. destruct (Cs j) as [->|Dj]; [|rewrite W by done; now apply KP].
    destruct (O i Hj) as (_ & _ & O3). specialize (O3 Hn). destruct (Htc i Hj); [done|lia].
Qed.

(** After the loop. *)
Record looped (s : st) : Prop := {
  lp_session : session s0 s;
  lp_cp : code_ptr s <= code_ptr s0 + gen_room;
  lp_patch : (length (patch_array s) <= 255)%nat;
  lp_nb : Z.of_nat (nb_tbs s) <= Z.of_nat (nb_tbs s0) + MAX_INSNS + 1;
  lp_pos : code_ptr s0 <= code_ptr s;
  lp_reach : exists k p, Z.of_nat k <= MAX_INSNS + 1 /\ reach m0 p0 k p /\
    code_ptr s <= code_ptr s0 + 256 * (Z.of_nat k + 1) }.

Lemma cut_runs k p s : session s0 s -> patch_num (tbs s (cur_tb s)) = 0 ->
  (length (patch_array s) <= 254)%nat -> code_ptr s0 < code_ptr s ->
  Z.of_nat (nb_tbs s) <= Z.of_nat (nb_tbs s0) + MAX_INSNS + 1 ->
  code_ptr s + 8 <= code_ptr s0 + gen_room ->
  tc_ptr (tbs s (cur_tb s)) <> NOT_TRANS_YET ->
  (tc_ptr (tbs s (cur_tb s)) = code_ptr s -> pc (tbs s (cur_tb s)) = pc_ptr (cgc s)) ->
  Z.of_nat k <= MAX_INSNS + 1 -> reach m0 p0 k p -> code_ptr s <= code_ptr s0 + 256 * Z.of_nat k ->
  runs cut_translation s (fun _ s' => looped s') (fun _ => False).
Proof.
  intros J Z L C1 Nb C2 Nt Cp Hk Re Ck. unfold cut_translation. repeat (run; cbv beta).
  assert (G : forall s1, session s0 s1 -> code_ptr s1 = code_ptr s ->
    cur_tb s1 = cur_tb s -> patch_num (tbs s1 (cur_tb s1)) = 0 -> patch_array s1 = patch_array s ->
    nb_tbs s1 = nb_tbs s -> cgc s1 = cgc s ->
    (tc_ptr (tbs s1 (cur_tb s1)) <> NOT_TRANS_YET /\ tc_ptr (tbs s1 (cur_tb s1)) <= code_ptr s \/
     tc_ptr (tbs s1 (cur_tb s1)) = NOT_TRANS_YET /\ pc (tbs s1 (cur_tb s1)) = pc_ptr (cgc s)) ->
    forall g, runs (do* emit [E8 0xe9; E32 NEED_PATCH_32] in
       let* pc' := get_cgc pc_ptr in note_jump pc' g) s1 (fun _ s' => looped s')
       (fun _ => False)).
  { intros s1 J1 E1 E2 Z1 P1 N1 G1 T1 g. pose proof (quiet_refl (code_ptr s0) s1) as Hq. estep.
    match goal with Q : quiet _ s1 ?x |- _ => rename Q into Q2, x into t2 end.
    repeat (run; cbv beta). pose proof (session_quiet _ s0 _ _ J1 Q2 ltac:(lia)) as J2.
    destruct (quiet_const _ _ _ Q2) as (_ & _ & Nb2 & K2 & _ & _ & G2 & _).
    destruct (quiet_core _ _ _ (cur_tb s1) Q2) as (K5 & _ & _ & K4 & K3 & _).
    pose proof (q_patch _ _ _ Q2) as P2.
    apply (note_jump_runs _ _ s0 t2); try done.
    - rewrite K2. congruence.
    - unfold patch_count, PATCH_ARRAY_SIZE. rewrite P2, P1. lia.
    - apply (session_patch_num s0 hi Henv Hnum); [done|lia].
    - lia.
    - intros e He. rewrite P2 in He. destruct (j_patch s0 s1 J1 e He) as (_ & ? & _ & _). lia.
    - rewrite K2, K4, K5, G2, G1. destruct T1 as [[? ?]|[? ?]]; [left; split; [done|lia]|now right].
    - intros s3 J3 No. constructor; [done| | | | |].
      + rewrite (no_cp _ _ _ _ No). lia.
      + rewrite (no_patch _ _ _ _ No), P2, P1, length_app. cbn. lia.
      + rewrite (no_nb _ _ _ _ No). lia.
      + rewrite (no_cp _ _ _ _ No). lia.
      + exists k, p. rewrite (no_cp _ _ _ _ No). split; [done|]. split; [done|]. lia. }
  pose proof (session_cur_tc s0 s J Nt) as Ct.
  case_match eqn:Et; [|run; apply G; try done; left; lia].
  apply runs_modify. apply Z.eqb_eq in Et.
  apply G; try done.
  - apply session_leave; try done. apply J.
  - cbn. now rewrite fn_lookup_insert.
  - right. unfold upd_tb. cbn. rewrite fn_lookup_insert. cbn. auto.
Qed.

(** ** The loop *)

(** A block whose code would start here is the one just made current. *)
Lemma fresh_cur s s1 : session s0 s -> insn_done s true s1 ->
  tc_ptr (tbs s1 (cur_tb s1)) = code_ptr s1 -> pc (tbs s1 (cur_tb s1)) = pc_ptr (cgc s1).
Proof.
  intros J [J1 _ Y1 C1 _ _ R1] E. pose proof (j_cur s0 s1 J1) as Hc.
  destruct (Y1 _ Hc (rd_tc _ (R1 eq_refl))) as [(B1 & B2 & _)|(_ & _ & _ & S2)]; [|done].
  exfalso. pose proof (rd_tc _ (R1 eq_refl)) as Nt. rewrite E in B2. pose proof (j_cp s0 s J).
  destruct (j_tc s0 s J _ B1) as [?|[[Lo B3]|?]]; [congruence| |lia].
  destruct (j_cur_new s0 s1 J1) as [D|[?|?]]; [|lia|congruence]. rewrite D, (j_start s0 s1 J1) in B3. rewrite D in B2. lia.
Qed.

(** The next turn. *)
Lemma at_loop_next k s s1 : at_loop k s -> Z.of_nat k <= MAX_INSNS -> insn_done s true s1 ->
  reach m0 p0 (S k) (pc_ptr (cgc s1)) -> (length (patch_array s1) <= 253)%nat -> at_loop (S k) s1.
Proof.
  intros [J R Re PL CP NB] Hk [J1 _ _ C1 P1 N1 R1] Re1 P. constructor; try done; [now apply R1| |lia].
  cbn [Nat.eqb]. destruct (k =? 0)%nat; lia.
Qed.

Lemma gen_loop_runs : forall fuel k ds s, at_loop k s ->
  Z.of_nat k <= MAX_INSNS -> MAX_INSNS < Z.of_nat k + Z.of_nat fuel ->
  runs (gen_loop fuel dfuel (Z.of_nat k) ds) s (fun _ s' => looped s') (fun _ => False).
Proof.
  induction fuel as [|fuel IH]; intros k ds s A Hk Hf; [lia|]. cbn [gen_loop].
  pose proof A as [J R Re PL CP NB].
  run. eapply runs_conseq; [apply (gen_insn_runs ds k s A Hk)| |done].
  cbv beta. intros [b ds'] s1 [D Re1]. cbn [fst] in *. pose proof D as [J1 _ _ C1 P1 N1 R1].
  unfold gen_room in *.
  destruct b; cbn [negb] in *.
  2:{ run. constructor; [done| |lia|lia| |]; [unfold gen_room; lia|apply (j_cp _ _ J1)|].
      exists k, (pc_ptr (cgc s)). split; [lia|]. split; [done|]. lia. }
  specialize (R1 eq_refl). specialize (Re1 eq_refl).
  assert (code_ptr s0 <= code_ptr s) by (destruct (k =? 0)%nat; lia).
  repeat (run; cbv beta).
  destruct ((patch_count s1 >=? PATCH_ARRAY_SIZE - 2) || (sieve_count >=? _) || _) eqn:Ec.
  - apply (cut_runs (S k) (pc_ptr (cgc s1))); try done; [apply R1|lia|lia|lia|unfold gen_room; lia|apply R1| |lia|lia].
    now apply (fresh_cur s).
  - unfold patch_count, PATCH_ARRAY_SIZE in Ec.
    replace (Z.of_nat k + 1) with (Z.of_nat (S k)) by lia. apply IH; [|lia|lia].
    apply (at_loop_next k s s1 A Hk D Re1). lia.
Qed.

End GenCode.
