(* ===== verification/Translation.v ===== *)
(** [cpu_gen_code] as a whole: the invariant of the translator between two
    translations, and what translating a block does to it. *)

From S2P Require Import Prelude Memory Opcode Decode DecodeSpec DecodeThm State TransBlock Emit.
From S2P Require Import Translate Frame Session Linking GenCode.

(** ** The invariant *)

Section Translation.
Context `{Layout}.

(** The members of [CPUX86State] generated code uses end here. *)
Definition env_size : Z := 1840216.

(** The buffers do not overlap, and no code address is [NOT_TRANS_YET]. *)
Record layout_ok : Prop := {
  lo_env_code : L_env + env_size <= L_code \/ L_code + DEFAULT_CODE_GEN_BUFFER_SIZE <= L_env;
  lo_env_sieve : L_env + env_size <= L_sieve \/ L_sieve + DEFAULT_SIEVE_BUFFER_SIZE <= L_env;
  lo_code_sieve : L_code + DEFAULT_CODE_GEN_BUFFER_SIZE <= L_sieve \/
                  L_sieve + DEFAULT_SIEVE_BUFFER_SIZE <= L_code;
  lo_prologue : (L_env + env_size <= L_prologue \/ L_prologue + 2048 <= L_env) /\
                (L_prologue + 2048 <= L_sieve \/ L_sieve + DEFAULT_SIEVE_BUFFER_SIZE <= L_prologue) /\
                (L_prologue + 2048 <= L_code \/ L_code + DEFAULT_CODE_GEN_BUFFER_SIZE <= L_prologue);
  lo_range : 0 <= L_env /\ L_env + env_size < 4294967280 /\ 0 <= L_prologue /\
             L_prologue + 2048 < 4294967280 /\ 0 <= L_sieve /\
             L_sieve + DEFAULT_SIEVE_BUFFER_SIZE < 4294967280 /\ 0 <= L_code /\
             L_code + DEFAULT_CODE_GEN_BUFFER_SIZE < 4294967280;
  lo_nt : NOT_TRANS_YET < L_code \/ L_code + DEFAULT_CODE_GEN_BUFFER_SIZE < NOT_TRANS_YET }.

(** Between two translations: no open branches, and blocks with code have it in
    the code buffer. *)
Record trans_inv (s : st) : Prop := {
  ti_tb : tb_inv s;
  ti_num : forall i, (i < nb_tbs s)%nat -> patch_num (tbs s i) = 0;
  ti_tc : forall i, (i < nb_tbs s)%nat -> tc_ptr (tbs s i) = NOT_TRANS_YET \/
            L_code <= tc_ptr (tbs s i) <= code_gen_ptr s;
  ti_code : L_code <= code_gen_ptr s;
  ti_sieve : L_sieve <= sieve_code_ptr s;
  ti_patch_num : env_patch_num s < PATCH_MAX }.

(** Space for one more translation, with at most 255 open branches, and for
    [n] more blocks. *)
Record room (n : Z) (s : st) : Prop := {
  rm_code : code_gen_ptr s - L_code + gen_room <= DEFAULT_CODE_GEN_BUFFER_SIZE;
  rm_sieve : sieve_code_ptr s - L_sieve + stub_len * 255 <= DEFAULT_SIEVE_BUFFER_SIZE;
  rm_blocks : n + Z.of_nat (nb_tbs s) + MAX_INSNS + 1 + 255 <= code_gen_max_blocks;
  rm_stb : 0 <= stb_count (cgc s) < STB_MAX - 1 }.

Lemma room_le n s : 0 <= n -> room n s -> room 0 s.
Proof. intros Hn [A B C D]. constructor; try done. lia. Qed.

(** What translating block [tb] does. *)
Record translated (s : st) (tb : nat) (s' : st) : Prop := {
  tr_inv : trans_inv s';
  tr_tc : tc_ptr (tbs s' tb) = code_gen_ptr s;
  tr_code : code_gen_ptr s <= code_gen_ptr s' <= code_gen_ptr s + gen_room;
  tr_sieve : sieve_code_ptr s <= sieve_code_ptr s' <= sieve_code_ptr s + stub_len * 255;
  tr_mem : forall x, (x < code_gen_ptr s \/ code_gen_ptr s' <= x) ->
     (x < sieve_code_ptr s \/ sieve_code_ptr s' <= x) -> smem s' !! x = smem s !! x;
  tr_nb : (nb_tbs s <= nb_tbs s')%nat;
  tr_old : forall i, (i < nb_tbs s)%nat -> pc (tbs s' i) = pc (tbs s i) /\
     func_addr (tbs s' i) = func_addr (tbs s i) /\
     (tc_ptr (tbs s i) <> NOT_TRANS_YET -> i <> tb -> kept (tbs s i) (tbs s' i));
  tr_linked : forall e, e ∈ patch_array s' ->
     code_gen_ptr s <= pe_at e /\ pe_at e + 4 <= code_gen_ptr s' /\
     linked (sieve_code_ptr s) s' e;
  tr_const : sieve_stub s' = sieve_stub s /\ tb_ret_addr (cgc s') = tb_ret_addr (cgc s);
  tr_nb_le : Z.of_nat (nb_tbs s') <= Z.of_nat (nb_tbs s) + MAX_INSNS + 1 + 255;
  tr_stb : stb_count (cgc s') = stb_count (cgc s) + 1;
  tr_size : hcode_size (tbs s' tb) = u16 (code_gen_ptr s' - code_gen_ptr s) }.

(** The state in which the loop starts. *)
Definition enter_block (tb : nat) (s : st) : st :=
  let s1 := upd_tb tb (set_tc_ptr (code_gen_ptr s)) s in
  let t := tbs s1 tb in
  let s2 := upd_cgc (set_pc_ptr (pc t)) (upd_cgc (set_pc_start (pc t)) s1) in
  let s3 := set_patch_array [] (set_cur_tb tb (set_code_ptr (tc_ptr t) s2)) in
  let k := stb_count (cgc s3) in
  upd_cgc (fun g => set_stbs (<[k := mkStb (pc t) (stb_pc_end (stbs g k)) (tc_ptr t)]> (stbs g)) g)
    (upd_cgc (set_stb_count (u32 (k + 1))) s3).

Section Block.
Variables (s : st) (tb : nat).
Hypothesis L : layout_ok.
Hypothesis I : trans_inv s.
Hypothesis R : room 0 s.
Hypothesis Lt : (tb < nb_tbs s)%nat.
Let s0 := enter_block tb s.

Lemma enter_tb : tbs s0 tb = set_tc_ptr (code_gen_ptr s) (tbs s tb).
Proof. apply fn_lookup_insert. Qed.
Lemma enter_ne i : i <> tb -> tbs s0 i = tbs s i.
Proof. intros D. apply fn_lookup_insert_ne. congruence. Qed.
Lemma enter_core i : pc (tbs s0 i) = pc (tbs s i) /\ patch_num (tbs s0 i) = patch_num (tbs s i) /\
  func_addr (tbs s0 i) = func_addr (tbs s i).
Proof. destruct (Nat.eq_dec i tb) as [->|D]; [now rewrite enter_tb|now rewrite enter_ne]. Qed.
Lemma enter_code : code_ptr s0 = code_gen_ptr s.
Proof. unfold s0, enter_block. st_simpl. now rewrite fn_lookup_insert. Qed.
Lemma enter_fields : smem s0 = smem s /\ sieve_code_ptr s0 = sieve_code_ptr s /\
  code_gen_ptr s0 = code_gen_ptr s /\ nb_tbs s0 = nb_tbs s /\ cur_tb s0 = tb /\
  patch_array s0 = [] /\ pc_ptr (cgc s0) = pc (tbs s tb) /\ tb_ret_addr (cgc s0) = tb_ret_addr (cgc s).
Proof. unfold s0, enter_block. st_simpl. rewrite fn_lookup_insert. done. Qed.

Lemma enter_inv : tb_inv s0.
Proof.
  apply (tb_inv_ext s); try done; [apply I| |];
    intros i; (destruct (Nat.eq_dec i tb) as [->|D]; [rewrite enter_tb|rewrite enter_ne by done]);
    try done; intros Hi; now apply (inv_from s (ti_tb s I)).
Qed.

Lemma enter_session : session s0 s0.
Proof.
  destruct enter_fields as (E1 & E2 & E3 & E4 & E5 & E6 & E7 & E8).
  constructor; rewrite ?E6; try done.
  - apply enter_inv.
  - intros i Hi. right; left. done.
  - intros e He. now apply not_elem_of_nil in He.
  - constructor.
  - intros i Hi. rewrite E4 in Hi. destruct (enter_core i) as (_ & -> & _).
    rewrite (ti_num s I i Hi). done.
  - auto.
  - intros i _ _ _. apply kept_refl.
Qed.

Lemma code_bounds : L_code <= code_gen_ptr s /\
  code_gen_ptr s + gen_room <= L_code + DEFAULT_CODE_GEN_BUFFER_SIZE.
Proof. pose proof (ti_code s I). pose proof (rm_code 0 s R). lia. Qed.

Lemma enter_loop : at_loop s0 0 s0.
Proof.
  destruct enter_fields as (E1 & E2 & E3 & E4 & E5 & E6 & E7 & E8). pose proof code_bounds.
  constructor; rewrite ?E6; try (cbn; lia).
  - exact enter_session.
  - constructor; rewrite ?E5.
    + destruct (enter_core tb) as (_ & -> & _). now apply (ti_num s I).
    + rewrite enter_tb. cbn. destruct L as [_ _ _ _ _ N]. unfold gen_room, MAX_INSNS in *. lia.
    + intros i Hi _. rewrite E4 in Hi. destruct (enter_core i) as (_ & -> & _).
      now apply (ti_num s I).
  - rewrite <- E1, <- E7 || idtac. apply reach_start.
Qed.

(** After the loop the branches can be patched. *)
Lemma looped_patchable s1 s2 : looped s0 s1 -> set_cgc (cgc s1) s2 = s1 ->
  patchable (patch_array s2) s2.
Proof.
  intros Lp E. destruct enter_fields as (E1 & E2 & E3 & E4 & _). pose proof enter_code as Ec.
  pose proof code_bounds as Cb. pose proof (ti_sieve s I). pose proof (rm_sieve 0 s R).
  pose proof (rm_blocks 0 s R). destruct Lp as [J C P N Cp].
  assert (F : patch_array s2 = patch_array s1 /\ sieve_code_ptr s2 = sieve_code_ptr s1 /\
    nb_tbs s2 = nb_tbs s1 /\ tbs s2 = tbs s1 /\ code_gen_ptr s2 = code_gen_ptr s1 /\
    tb_phys_hash s2 = tb_phys_hash s1 /\ tb_jmp_cache s2 = tb_jmp_cache s1) by now rewrite <- E.
  destruct F as (F1 & F2 & F3 & F4 & F5 & F6 & F7).
  destruct J as [Ji _ _ _ (K1 & K2 & _) _ _ _ Pa So Co _ _].
  destruct L as [_ _ Lc _ _ _]. unfold stub_len, gen_room, MAX_INSNS in *.
  constructor; rewrite ?F1; try done.
  - now apply (tb_inv_mem s1).
  - intros e He. destruct (Pa e He) as (A1 & A2 & A3 & A4 & _). rewrite F3, F2. unfold stub_len.
    split; [done|]. split; [done|]. lia.
  - intros i Hi. rewrite F3 in Hi. rewrite F4. auto.
  - rewrite F3, F5. split; [lia|]. unfold code_gen_buffer_max_size, TCG_MAX_OP_SIZE, OPC_MAX_SIZE.
    lia.
Qed.

(** The end of [gen_target_code], from the state [lazy_patch] leaves. *)
Definition leave_block (s3 : st) : st :=
  let s := upd_cgc (fun g => set_s_code_size (u32 (s_code_size g + (pc_ptr g - pc_start g))) g) s3 in
  let s := set_code_gen_ptr (code_ptr s) s in
  upd_tb tb (fun t => set_hcode_size (u16 (code_ptr s - tc_ptr t)) t) s.

Lemma leave_tbs s3 i : let t := tbs (leave_block s3) i in let t' := tbs s3 i in
  pc t = pc t' /\ func_addr t = func_addr t' /\ tc_ptr t = tc_ptr t' /\
  patch_num t = patch_num t' /\ tb_jmp_offset t = tb_jmp_offset t' /\
  phys_hash_next t = phys_hash_next t' /\ tb_tag t = tb_tag t' /\
  jmp_from_index t = jmp_from_index t'.
Proof.
  cbv zeta. unfold leave_block. destruct (Nat.eq_dec i tb) as [->|D];
    [now rewrite upd_tb_eq|now rewrite upd_tb_ne by congruence].
Qed.

Section Leave.
Variables s1 s2 s3 : st.
Hypothesis Lp : looped s0 s1.
Hypothesis Eq : set_cgc (cgc s1) s2 = s1.
Hypothesis Pt : patched_all (patch_array s2) s2 s3.
Let s' := leave_block s3.

Lemma leave_pre : patch_array s2 = patch_array s1 /\ sieve_code_ptr s2 = sieve_code_ptr s /\
  nb_tbs s2 = nb_tbs s1 /\ tbs s2 = tbs s1 /\ smem s2 = smem s1 /\ code_ptr s2 = code_ptr s1.
Proof.
  destruct enter_fields as (_ & E2 & _). destruct (j_const _ _ (lp_session _ _ Lp)) as (K1 & _).
  rewrite <- E2, <- K1. now rewrite <- Eq.
Qed.

Lemma leave_code : code_ptr s3 = code_ptr s1 /\
  code_gen_ptr s <= code_ptr s1 <= code_gen_ptr s + gen_room.
Proof.
  destruct leave_pre as (_ & _ & _ & _ & _ & F6). destruct (pa_const _ _ _ Pt) as (Q & _).
  destruct Lp as [_ C _ _ Cp]. pose proof enter_code. rewrite Q, F6. lia.
Qed.

Lemma leave_sieve :
  sieve_code_ptr s <= sieve_code_ptr s3 <= sieve_code_ptr s + stub_len * 255.
Proof.
  destruct leave_pre as (F1 & F2 & _). pose proof (pa_sv _ _ _ Pt) as V. rewrite F1, F2 in V.
  pose proof (lp_patch _ _ Lp). unfold stub_len in *. lia.
Qed.

Hypothesis Er : tb_ret_addr (cgc s2) = tb_ret_addr (cgc s1).
Lemma leave_const : sieve_stub s3 = sieve_stub s /\ tb_ret_addr (cgc s3) = tb_ret_addr (cgc s).
Proof.
  destruct (pa_const _ _ _ Pt) as (_ & _ & _ & R1 & R2 & _).
  destruct (j_const _ _ (lp_session _ _ Lp)) as (_ & _ & R3 & R4 & _).
  destruct enter_fields as (_ & _ & _ & _ & _ & _ & _ & E8).
  assert (S2 : sieve_stub s2 = sieve_stub s1) by now rewrite <- Eq.
  split; [rewrite R2, S2, R3; done|congruence].
Qed.

Lemma leave_stb : stb_count (cgc s2) = stb_count (cgc s1) -> stb_count (cgc s3) = stb_count (cgc s) + 1.
Proof.
  intros E. destruct (pa_const _ _ _ Pt) as (_ & _ & _ & _ & _ & _ & _ & R2).
  destruct (j_const _ _ (lp_session _ _ Lp)) as (_ & _ & _ & _ & _ & R3).
  assert (E0 : stb_count (cgc s0) = u32 (stb_count (cgc s) + 1)).
  { unfold s0, enter_block. st_simpl. reflexivity. }
  pose proof (rm_stb 0 s R) as Rk. unfold STB_MAX in Rk. rewrite R2, E, R3, E0. apply u32_small. lia.
Qed.

Lemma leave_nb : Z.of_nat (nb_tbs s3) <= Z.of_nat (nb_tbs s) + MAX_INSNS + 1 + 255.
Proof.
  destruct leave_pre as (F1 & _ & F3 & _). destruct enter_fields as (_ & _ & _ & E4 & _).
  pose proof (pa_nb _ _ _ Pt) as N. pose proof (lp_nb _ _ Lp). pose proof (lp_patch _ _ Lp).
  rewrite F1, F3 in N. rewrite E4 in *. lia.
Qed.

Lemma leave_mem x : (x < code_gen_ptr s \/ code_ptr s3 <= x) ->
  (x < sieve_code_ptr s \/ sieve_code_ptr s3 <= x) -> smem s3 !! x = smem s !! x.
Proof.
  intros Hx Hs. destruct leave_pre as (F1 & F2 & _ & _ & F5 & _).
  destruct leave_code as [Q _]. pose proof enter_code as Ec.
  destruct enter_fields as (E1 & _). destruct Lp as [J _ _ _ _].
  rewrite (pa_mem _ _ _ Pt), F5, (j_mem _ _ J), E1; try done; rewrite ?Ec, ?F2; [lia| |lia].
  intros e He. rewrite F1 in He. destruct (j_patch _ _ J e He) as (A1 & A2 & _).
  unfold off_site. lia.
Qed.

Lemma leave_tc i : (i < nb_tbs s3)%nat -> tc_ptr (tbs s3 i) = NOT_TRANS_YET \/
  L_code <= tc_ptr (tbs s3 i) <= code_ptr s3.
Proof.
  intros Hi. destruct leave_pre as (_ & _ & F3 & F4 & _). destruct leave_code as [Q B].
  destruct enter_fields as (_ & _ & _ & E4 & _). pose proof enter_code as Ec.
  pose proof code_bounds as Cb. destruct Lp as [J _ _ _ _].
  destruct (Nat.lt_ge_cases i (nb_tbs s1)) as [Lt1|Ge].
  2:{ left. apply (pa_new _ _ _ Pt). rewrite F3. lia. }
  destruct (pa_old _ _ _ Pt i) as (_ & _ & -> & _); [now rewrite F3|]. rewrite F4.
  destruct (j_tc _ _ J i Lt1) as [?|[[Hi0 ->]|?]]; [auto| |lia].
  destruct (Nat.eq_dec i tb) as [->|D]; [right; rewrite enter_tb; cbn; lia|].
  rewrite enter_ne by done. destruct (ti_tc s I i) as [?|?]; [lia|auto|lia].
Qed.

Lemma leave_old i : (i < nb_tbs s)%nat -> pc (tbs s3 i) = pc (tbs s i) /\
  func_addr (tbs s3 i) = func_addr (tbs s i) /\
  (tc_ptr (tbs s0 i) <> NOT_TRANS_YET -> tc_ptr (tbs s3 i) = tc_ptr (tbs s0 i)).
Proof.
  intros Hi. destruct leave_pre as (_ & _ & F3 & F4 & _). destruct Lp as [J _ _ _ _].
  destruct enter_fields as (_ & _ & _ & E4 & _). pose proof (j_nb _ _ J) as Nb.
  destruct (j_old _ _ J i) as (O1 & O2 & O3); [lia|].
  destruct (enter_core i) as (C1 & _ & C3).
  destruct (pa_old _ _ _ Pt i) as (-> & -> & -> & _); [lia|]. rewrite F4.
  split; [congruence|]. split; [congruence|done].
Qed.

(** Blocks translated before keep all but their incoming jumps. *)
Lemma leave_kept i : (i < nb_tbs s)%nat -> tc_ptr (tbs s i) <> NOT_TRANS_YET -> i <> tb ->
  kept (tbs s i) (tbs s3 i).
Proof.
  intros Hi Hn D. destruct leave_pre as (F1 & _ & F3 & F4 & _). destruct Lp as [J _ _ _ _].
  destruct enter_fields as (_ & _ & _ & E4 & E5 & _). pose proof (j_nb _ _ J) as Nb.
  pose proof (j_kept _ _ J i ltac:(lia)) as K. rewrite E5, enter_ne in K by done.
  specialize (K Hn D). destruct (kept_fields _ _ K) as (_ & N & _).
  destruct (j_count _ _ J i) as [C _]; [lia|]. rewrite N, (ti_num s I i Hi) in C.
  destruct (pa_old _ _ _ Pt i) as (_ & _ & _ & _ & K'); [lia|].
  rewrite F4 in K'. apply (kept_trans _ _ _ K), K'. rewrite F1. now apply count_zero.
Qed.

Lemma leave_env : env_patch_num s3 < PATCH_MAX.
Proof.
  unfold env_patch_num. rewrite (ld32_ext (smem s)); [apply I|]. intros x Hx.
  destruct leave_code as [Q B]. destruct leave_sieve. pose proof code_bounds.
  pose proof (ti_sieve s I). pose proof (rm_sieve 0 s R). destruct L as [L1 L2 _ _ _ _].
  unfold A_patch_num, env_size, stub_len in *. apply leave_mem; unfold A_patch_num; lia.
Qed.

Lemma leave_inv : trans_inv s'.
Proof.
  destruct leave_pre as (F1 & _ & F3 & F4 & _). destruct leave_code as [Q B].
  pose proof (j_count _ _ (lp_session _ _ Lp)) as Cn.
  constructor.
  - apply (tb_inv_ext s3); try done; [apply Pt| |]; intros i;
      destruct (leave_tbs s3 i) as (T1 & _ & _ & _ & _ & T6 & T7 & T8); [done|].
    intros Hi. unfold s'. rewrite T8. apply (inv_from s3 (pa_inv _ _ _ Pt)). exact Hi.
  - intros i Hi. destruct (leave_tbs s3 i) as (_ & _ & _ & T & _). unfold s'. rewrite T.
    destruct (Nat.lt_ge_cases i (nb_tbs s1)) as [Lt1|Ge].
    + destruct (pa_old _ _ _ Pt i) as (_ & _ & _ & -> & _); [lia|].
      destruct (Cn i Lt1) as [C1 _]. rewrite F4, F1. lia.
    + apply (pa_new _ _ _ Pt). change (nb_tbs s3) with (nb_tbs s'). lia.
  - intros i Hi. destruct (leave_tbs s3 i) as (_ & _ & T & _). unfold s'. rewrite T.
    now apply leave_tc.
  - change (L_code <= code_ptr s3). pose proof code_bounds. lia.
  - change (L_sieve <= sieve_code_ptr s3). pose proof leave_sieve. pose proof (ti_sieve s I). lia.
  - exact leave_env.
Qed.

(** Finishing the block keeps a link. *)
Lemma leave_linked sv e : linked sv s3 e -> linked sv s' e.
Proof.
  intros [d L1 L2 L3 L4|a n L1 L2 L3 L4 L5 L6].
  - destruct (leave_tbs s3 d) as (T1 & _ & T3 & _). apply linked_code with (d := d); unfold s';
      [exact L1|congruence|congruence|rewrite T3; exact L4].
  - destruct (leave_tbs s3 (pe_tb e)) as (_ & _ & T3 & _ & T5 & _).
    apply linked_stub with (a := a) (n := n); try done. unfold s'. now rewrite T3, T5.
Qed.

Hypothesis Es : stb_count (cgc s2) = stb_count (cgc s1).
Lemma leave_translated : translated s tb s'.
Proof.
  destruct leave_pre as (F1 & F2 & F3 & _). destruct leave_code as [Q B].
  destruct enter_fields as (_ & _ & _ & E4 & _).
  pose proof (j_nb _ _ (lp_session _ _ Lp)) as Nb. pose proof code_bounds as Cb.
  assert (Tb : tc_ptr (tbs s3 tb) = code_gen_ptr s).
  { destruct (leave_old tb Lt) as (_ & _ & ->); rewrite enter_tb; [done|].
    cbn. destruct L as [_ _ _ _ _ N]. unfold gen_room, MAX_INSNS in Cb. lia. }
  constructor.
  - exact leave_inv.
  - destruct (leave_tbs s3 tb) as (_ & _ & T & _). unfold s'. now rewrite T.
  - change (code_gen_ptr s') with (code_ptr s3). lia.
  - exact leave_sieve.
  - exact leave_mem.
  - change (nb_tbs s') with (nb_tbs s3). pose proof (pa_nb _ _ _ Pt). lia.
  - intros i Hi. destruct (leave_tbs s3 i) as (T1 & T2 & T3 & _).
    destruct (leave_old i Hi) as (O1 & O2 & _). unfold s'. rewrite T1, T2.
    split; [done|]. split; [done|]. intros Ne D. unfold leave_block. rewrite upd_tb_ne by congruence.
    now apply leave_kept.
  - intros e He. change (patch_array s') with (patch_array s3) in He.
    destruct (pa_const _ _ _ Pt) as (_ & _ & Q3 & _). rewrite Q3 in He.
    pose proof (pa_linked _ _ _ Pt e He) as Le. rewrite F2 in Le.
    rewrite F1 in He. destruct (j_patch _ _ (lp_session _ _ Lp) e He) as (A1 & A2 & _).
    rewrite enter_code in A1. change (code_gen_ptr s') with (code_ptr s3).
    split; [done|]. split; [lia|now apply leave_linked].
  - exact leave_const.
  - exact leave_nb.
  - exact (leave_stb Es).
  - unfold s', leave_block. rewrite upd_tb_eq. cbn. now rewrite Tb.
Qed.
End Leave.

Variable dfuel : nat.
Hypothesis Hf : (100 < dfuel)%nat.
Hypothesis Hg : guest_ok (smem s) (pc (tbs s tb)) 100 (code_gen_ptr s) (code_gen_ptr s + gen_room).

Lemma enter_loop_runs ds :
  runs (gen_loop gen_fuel dfuel 0 ds) s0 (fun _ s1 => looped s0 s1) (fun _ => False).
Proof.
  destruct enter_fields as (E1 & E2 & E3 & E4 & E5 & E6 & E7 & E8). pose proof enter_code as Ec.
  pose proof code_bounds as Cb. pose proof (rm_blocks 0 s R) as Rb.
  destruct L as [L1 _ _ _ _ L4]. unfold env_size, gen_room, MAX_INSNS in *.
  apply (gen_loop_runs s0 (code_gen_ptr s + gen_room) dfuel) with (k := 0%nat);
    rewrite ?Ec, ?E1, ?E3, ?E4, ?E7; unfold A_patch_num, gen_room, MAX_INSNS; try done; try lia.
  - unfold env_patch_num. rewrite E1. apply I.
  - unfold code_gen_buffer_max_size, TCG_MAX_OP_SIZE, OPC_MAX_SIZE. lia.
  - intros i Hi. destruct (Nat.eq_dec i tb) as [->|D]; [rewrite enter_tb; cbn; lia|].
    rewrite enter_ne by done. destruct (ti_tc s I i Hi) as [?|[_ ?]]; auto.
  - exact enter_loop.
Qed.

(** The states on the way: after the loop, before and after linking. *)
Definition passed (K : st -> Prop) (s' : st) : Prop := exists s1 s2 s3, looped s0 s1 /\ K s1 /\
  set_cgc (cgc s1) s2 = s1 /\ patched_all (patch_array s2) s2 s3 /\ s' = leave_block s3.

Lemma block_runs_through (K : st -> Prop) ds :
  runs (gen_loop gen_fuel dfuel 0 ds) s0 (fun _ s1 => looped s0 s1 /\ K s1) (fun _ => False) ->
  runs (cpu_gen_code dfuel ds tb) s (fun _ s' => translated s tb s' /\ passed K s') (fun _ => False).
Proof.
  intros Lr.
  unfold cpu_gen_code, gen_target_code.
  run_pure.
  pose proof (rm_stb 0 s R) as Rk. apply runs_ABORT_IF.
  { st_simpl. rewrite u32_small by (unfold STB_MAX in Rk; lia). lia. }
  intros _. run_pure.
  fold (enter_block tb s). fold s0.
  eapply runs_conseq; [exact Lr| |done]. cbv beta. intros _ s1 [Lp HK].
  run. apply runs_modify. set (s2 := upd_cgc _ s1).
  assert (Eq : set_cgc (cgc s1) s2 = s1) by now destruct s1.
  run. unfold lazy_patch. run. run.
  eapply runs_conseq; [apply patch_all_runs, (looped_patchable s1 s2 Lp Eq)| |done].
  cbv beta. intros _ s3 Pt. pose proof (leave_translated s1 s2 s3 Lp Eq Pt eq_refl eq_refl) as T.
  run. apply runs_modify. repeat (run; cbv beta). apply runs_ABORT_IF.
  { destruct (leave_code s1 s2 s3 Lp Eq Pt). st_simpl. pose proof code_bounds. lia. }
  intros _. apply runs_modify. split; [exact T|]. exists s1, s2, s3. auto.
Qed.

Lemma block_runs ds : runs (cpu_gen_code dfuel ds tb) s (fun _ s' => translated s tb s') (fun _ => False).
Proof.
  eapply runs_conseq; [apply (block_runs_through (fun _ => True))| |done].
  - eapply runs_conseq; [apply enter_loop_runs| |done]. auto.
  - now intros _ s' [T _].
Qed.

End Block.
End Translation.

(** ** Theorems *)

(** C14: translating a block terminates and keeps the translator's invariant.
    With space left and guest code the decoder accepts, [cpu_gen_code] returns
    (no abort, no undefined behaviour, the [for] loop ends within [MAX_INSNS + 1]
    turns), the block's code starts at the old [code_gen_ptr], and between two
    translations no branch is open and every translated block lies in the code
    buffer. *)
Theorem translate_block_inv `{Layout} dfuel ds s tb :
  layout_ok -> trans_inv s -> room 0 s -> (tb < nb_tbs s)%nat -> (100 < dfuel)%nat ->
  guest_ok (smem s) (pc (tbs s tb)) 100 (code_gen_ptr s) (code_gen_ptr s + gen_room) ->
  exists s', cpu_gen_code dfuel ds tb s = Ok (tt, s') /\ trans_inv s' /\
    tc_ptr (tbs s' tb) = code_gen_ptr s /\
    code_gen_ptr s <= code_gen_ptr s' <= code_gen_ptr s + gen_room /\
    hcode_size (tbs s' tb) = u16 (code_gen_ptr s' - code_gen_ptr s).
Proof.
  intros L I R Lt F G. destruct (runs_done _ _ _ (block_runs s tb L I R Lt dfuel F G ds)) as ([] & s' & E & K).
  exists s'. destruct K. auto.
Qed.

(** Translating a block writes its code at [code_gen_ptr] and the stubs of
    its open branches at [sieve_code_ptr], and no other byte: guest memory, the
    code of the other blocks, the tables and the CPU state stay as they were;
    of the other translated blocks only the ring of incoming jumps changes. *)
Theorem translate_block_frame `{Layout} dfuel ds s tb :
  layout_ok -> trans_inv s -> room 0 s -> (tb < nb_tbs s)%nat -> (100 < dfuel)%nat ->
  guest_ok (smem s) (pc (tbs s tb)) 100 (code_gen_ptr s) (code_gen_ptr s + gen_room) ->
  exists s', cpu_gen_code dfuel ds tb s = Ok (tt, s') /\
    (forall x, (x < code_gen_ptr s \/ code_gen_ptr s' <= x) ->
       (x < sieve_code_ptr s \/ sieve_code_ptr s' <= x) -> smem s' !! x = smem s !! x) /\
    sieve_code_ptr s <= sieve_code_ptr s' <= sieve_code_ptr s + stub_len * 255 /\
    (nb_tbs s <= nb_tbs s')%nat /\
    forall i, (i < nb_tbs s)%nat -> pc (tbs s' i) = pc (tbs s i) /\
      func_addr (tbs s' i) = func_addr (tbs s i) /\
      (tc_ptr (tbs s i) <> NOT_TRANS_YET -> i <> tb -> kept (tbs s i) (tbs s' i)).
Proof.
  intros L I R Lt F G. destruct (runs_done _ _ _ (block_runs s tb L I R Lt dfuel F G ds)) as ([] & s' & E & K).
  exists s'. destruct K. auto.
Qed.

(** C6: every branch [gen_target_code] recorded is linked when it returns: its
    displacement leads to the code of a block for its target, or to a stub in
    the sieve buffer that stores the block, the branch number and the target
    for the dispatcher and jumps to the epilogue; in the second case the
    block's [tb_jmp_offset] remembers the branch under that number. *)
Theorem translate_block_links `{Layout} dfuel ds s tb :
  layout_ok -> trans_inv s -> room 0 s -> (tb < nb_tbs s)%nat -> (100 < dfuel)%nat ->
  guest_ok (smem s) (pc (tbs s tb)) 100 (code_gen_ptr s) (code_gen_ptr s + gen_room) ->
  exists s', cpu_gen_code dfuel ds tb s = Ok (tt, s') /\
    forall e, e ∈ patch_array s' ->
      code_gen_ptr s <= pe_at e /\ pe_at e + 4 <= code_gen_ptr s' /\
      linked (sieve_code_ptr s) s' e.
Proof.
  intros L I R Lt F G. destruct (runs_done _ _ _ (block_runs s tb L I R Lt dfuel F G ds)) as ([] & s' & E & K).
  exists s'. destruct K. auto.
Qed.

(** [74 02 90 c3]: [je] over two bytes, [nop], [ret]. *)
Definition je_code : list insn :=
  [Insn [] false 0x74 None None [] [] [2] [] []; Insn [] false 0x90 None None [] [] [] [] [];
   Insn [] false 0xc3 None None [] [] [] [] []].

Definition demo_mem : mem := write_bytes 0x8048000 (code_of je_code) ∅.

(** One block, not translated yet. *)
Definition demo_one : st := set_nb_tbs 1 (set_tbs (fun i =>
  match i with
  | 0%nat => set_pc 0x8048000 (set_tc_ptr NOT_TRANS_YET raw_tb)
  | _ => raw_tb end) (set_tb_phys_hash (<[0 := 0%nat]> ∅)
    (upd_cgc (set_tb_ret_addr 0x9300048) (init_st demo_mem)))).

Lemma demo_one_tb_inv : tb_inv demo_one.
Proof.
  split; [constructor|].
  - intros h. unfold prev_same. cbn. destruct (Z.eqb_spec (tb_phys_hash_func 0x8048000) h) as [<-|D].
    + reflexivity.
    + change (tb_phys_hash_func 0x8048000) with 0 in D.
      now rewrite lookup_insert_ne, lookup_empty by congruence.
  - intros [|i] Hi; [reflexivity|cbn in Hi; lia].
  - intros [|i] Hi; [reflexivity|cbn in Hi; lia].
  - intros h i E. discriminate.
  - intros [|i] Hi; [now vm_compute|cbn in Hi; lia].
  - cbn. lia.
Qed.

Lemma demo_one_inv : @trans_inv demo_layout demo_one.
Proof.
  constructor.
  - exact demo_one_tb_inv.
  - intros [|i] Hi; [done|cbn in Hi; lia].
  - intros [|i] Hi; [now left|cbn in Hi; lia].
  - cbn. lia.
  - cbn. lia.
  - vm_compute. reflexivity.
Qed.

Lemma demo_layout_ok : @layout_ok demo_layout.
Proof.
  constructor; cbn; unfold env_size, DEFAULT_CODE_GEN_BUFFER_SIZE, DEFAULT_SIEVE_BUFFER_SIZE,
    NOT_TRANS_YET; lia.
Qed.

Lemma demo_one_room : @room demo_layout 1 demo_one.
Proof. constructor; vm_compute; done. Qed.

Lemma demo_one_guest : guest_ok (smem demo_one) 0x8048000 100 0x10000000 (0x10000000 + gen_room).
Proof.
  apply (guest_ok_straight _ _ _ _ _ je_code); [vm_compute; reflexivity..|lia|vm_compute; done|].
  left. vm_compute. done.
Qed.

Lemma translate_block_inv_witness :
  exists s', @cpu_gen_code demo_layout 101 ds_zero 0 demo_one = Ok (tt, s') /\
    @trans_inv demo_layout s' /\ tc_ptr (tbs s' 0) = 0x10000000.
Proof.
  destruct (@translate_block_inv demo_layout 101 ds_zero demo_one 0 demo_layout_ok demo_one_inv
    (@room_le demo_layout 1 demo_one ltac:(lia) demo_one_room)) as (s' & R & I & T & _); [cbn; lia|lia|exact demo_one_guest|].
  exists s'. split; [exact R|]. split; [exact I|exact T].
Defined.

Lemma translate_block_frame_witness :
  exists s', @cpu_gen_code demo_layout 101 ds_zero 0 demo_one = Ok (tt, s') /\
    smem s' !! 0x8048000 = Some 0x74.
Proof.
  destruct (@translate_block_frame demo_layout 101 ds_zero demo_one 0 demo_layout_ok demo_one_inv
    (@room_le demo_layout 1 demo_one ltac:(lia) demo_one_room)) as (s' & R & F & _); [cbn; lia|lia|exact demo_one_guest|].
  exists s'. split; [exact R|]. rewrite F; [vm_compute; reflexivity|cbn; lia|cbn; lia].
Defined.

Lemma translate_block_links_witness :
  exists s', @cpu_gen_code demo_layout 101 ds_zero 0 demo_one = Ok (tt, s') /\
    forall e, e ∈ patch_array s' -> @linked demo_layout 0x20000000 s' e.
Proof.
  destruct (@translate_block_links demo_layout 101 ds_zero demo_one 0 demo_layout_ok demo_one_inv
    (@room_le demo_layout 1 demo_one ltac:(lia) demo_one_room)) as (s' & R & K); [cbn; lia|lia|exact demo_one_guest|].
  exists s'. split; [exact R|]. intros e He. apply (K e He).
Defined.
