(* ===== verification/Dispatch.v ===== *)
(** The dispatcher of src/cpu-exec.c: finding or translating the next block,
    linking the branch that was taken, filling the slots of an indirect branch
    and growing the sieve. *)

From S2P Require Import Prelude Memory Opcode Decode DecodeSpec DecodeThm State TransBlock Emit.
From S2P Require Import Translate CpuExec Frame Session Linking GenCode Translation.

Section Dispatch.
Context `{Layout}.

(** ** The next block *)

Lemma trans_inv_cache s s1 : trans_inv s -> tb_inv s1 -> same_but_cache s s1 -> trans_inv s1.
Proof.
  intros [I N T C V P] I1 S.
  destruct (same_but_cache_fields s s1 S) as (E1 & E2 & E3 & E4 & E5 & E6 & E7 & E8 & E9 & E10).
  constructor; unfold env_patch_num; rewrite ?E1, ?E3, ?E4, ?E6, ?E7; done.
Qed.

Lemma trans_inv_made p func s s1 : trans_inv s -> newest s p = None -> made p func s s1 -> trans_inv s1.
Proof.
  intros [I N T C V P] Nw Md. destruct (made_fields _ _ _ _ Md) as (E1 & E2 & E3 & E4 & _).
  pose proof (made_inv _ _ _ _ I Nw Md) as I1. destruct Md as [Nb New Old _ _ _].
  constructor; unfold env_patch_num; rewrite ?E1, ?E3, ?E4; try done.
  - intros i Hi. destruct (Nat.eq_dec i (nb_tbs s)) as [->|D]; [now rewrite New|].
    rewrite Old by done. apply N. lia.
  - intros i Hi. destruct (Nat.eq_dec i (nb_tbs s)) as [->|D]; [left; now rewrite New|].
    rewrite Old by done. apply T. lia.
Qed.

(** The bytes of a sieve node, and the most stubs and nodes one turn adds. *)
Definition node_len : Z := 27.
Definition turn_sieve : Z := stub_len * 255 + node_len.

(** The most blocks one turn makes. *)
Definition turn_blocks : Z := MAX_INSNS + 1 + 255 + 1.

(** What [get_next_tb] leaves: block [i] translates [p]. *)
Record next_tb (s : st) (p : Z) (i : nat) (s' : st) : Prop := {
  nx_inv : trans_inv s';
  nx_lt : (i < nb_tbs s')%nat;
  nx_pc : pc (tbs s' i) = p;
  nx_tc : L_code <= tc_ptr (tbs s' i) <= code_gen_ptr s';
  nx_code : code_gen_ptr s <= code_gen_ptr s' <= code_gen_ptr s + gen_room;
  nx_sieve : sieve_code_ptr s <= sieve_code_ptr s' <= sieve_code_ptr s + stub_len * 255;
  nx_mem : forall x, (x < code_gen_ptr s \/ code_gen_ptr s' <= x) ->
     (x < sieve_code_ptr s \/ sieve_code_ptr s' <= x) -> smem s' !! x = smem s !! x;
  nx_nb : (nb_tbs s <= nb_tbs s')%nat;
  nx_old : forall j, (j < nb_tbs s)%nat -> pc (tbs s' j) = pc (tbs s j) /\
     func_addr (tbs s' j) = func_addr (tbs s j) /\
     (tc_ptr (tbs s j) <> NOT_TRANS_YET -> kept (tbs s j) (tbs s' j));
  nx_const : sieve_stub s' = sieve_stub s /\ tb_ret_addr (cgc s') = tb_ret_addr (cgc s);
  nx_nb_le : Z.of_nat (nb_tbs s') <= Z.of_nat (nb_tbs s) + turn_blocks;
  nx_stb : stb_count (cgc s) <= stb_count (cgc s') <= stb_count (cgc s) + 1 }.

Lemma translated_next s i s' p : layout_ok -> translated s i s' -> (i < nb_tbs s)%nat ->
  pc (tbs s i) = p -> tc_ptr (tbs s i) = NOT_TRANS_YET -> trans_inv s -> next_tb s p i s'.
Proof.
  intros L T Lt Pc Nt I. pose proof (ti_code s I). destruct T as [T1 T2 T3 T4 T5 T6 T7 T8 T9 T10 T11 T12]. unfold turn_blocks.
  constructor; unfold turn_blocks; try done; try lia.
  - destruct (T7 i Lt) as (-> & _). exact Pc.
  - intros j Hj. destruct (T7 j Hj) as (A & B & C). split; [done|]. split; [done|].
    intros Ne. apply C; [done|]. congruence.
Qed.

Lemma next_cache s s1 p i s' : same_but_cache s s1 -> next_tb s1 p i s' -> next_tb s p i s'.
Proof.
  intros S [N1 N2 N3 N4 N5 N6 N7 N8 N9 N10].
  destruct (same_but_cache_fields s s1 S) as (E1 & E2 & E3 & E4 & E5 & E6 & E7 & E8 & E9 & E10).
  rewrite E4 in *. rewrite E3 in *. rewrite E1 in *. rewrite E7 in *. rewrite E6 in *.
  rewrite E9, E10 in *. now constructor.
Qed.

Lemma next_made s s1 p func i s' : made p func s s1 -> next_tb s1 p i s' ->
  Z.of_nat (nb_tbs s') < Z.of_nat (nb_tbs s1) + turn_blocks -> next_tb s p i s'.
Proof.
  intros Md [N1 N2 N3 N4 N5 N6 N7 N8 N9 N10 N11 N12] Le.
  destruct (made_fields _ _ _ _ Md) as (E1 & E2 & E3 & E4 & E5 & E6 & E7 & E8).
  pose proof (mk_nb _ _ _ _ Md) as Nb. pose proof (mk_old _ _ _ _ Md) as Old.
  rewrite E4 in *. rewrite E3 in *. rewrite E1 in *. rewrite Nb in *. rewrite E7, E8 in *.
  constructor; try done; try lia.
  intros j Hj. rewrite <- (Old j) by lia. apply N9. lia.
Qed.

Lemma room_full s : room 1 s -> tb_full s = false.
Proof.
  intros [R1 _ R3 _]. unfold gen_room, MAX_INSNS in *. apply tb_full_false; [lia|].
  unfold code_gen_buffer_max_size, TCG_MAX_OP_SIZE, OPC_MAX_SIZE. lia.
Qed.

Lemma room_cache s s1 n : same_but_cache s s1 -> room n s -> room n s1.
Proof.
  intros S [R1 R2 R3 R4]. destruct (same_but_cache_fields s s1 S) as (E1 & E2 & E3 & E4 & E5 & E6 & E7 & E8 & E9 & E10).
  constructor; rewrite ?E3, ?E4, ?E7, ?E10; done.
Qed.

Lemma room_made p func s s1 : room 1 s -> made p func s s1 -> room 0 s1.
Proof.
  intros [R1 R2 R3 R4] Md. destruct (made_fields _ _ _ _ Md) as (E1 & E2 & E3 & E4 & E5 & E6 & E7 & E8).
  pose proof (mk_nb _ _ _ _ Md) as Nb. constructor; rewrite ?E3, ?E4, ?E8, ?Nb; lia.
Qed.

Section Next.
Variable dfuel : nat.
Variable ds0 : decode_t.
Hypothesis L : layout_ok.
Hypothesis Hf : (100 < dfuel)%nat.

(** The three ways to the next block: it is translated, it was only made, or it
    is made now. *)
Lemma get_next_tb_cases p prev s (Q : nat -> st -> Prop) : tb_inv s -> tb_full s = false ->
  (forall s1 i, same_but_cache s s1 -> tb_inv s1 -> (i < nb_tbs s1)%nat -> pc (tbs s1 i) = p ->
     tc_ptr (tbs s1 i) <> NOT_TRANS_YET -> Q i s1) ->
  (forall s1 i, same_but_cache s s1 -> tb_inv s1 -> (i < nb_tbs s1)%nat -> pc (tbs s1 i) = p ->
     tc_ptr (tbs s1 i) = NOT_TRANS_YET -> runs (cpu_gen_code dfuel ds0 i) s1 (fun _ s' => Q i s') (fun _ => False)) ->
  (forall s1 s2 func, same_but_cache s s1 -> tb_inv s1 -> newest s1 p = None -> made p func s1 s2 ->
     runs (cpu_gen_code dfuel ds0 (nb_tbs s1)) s2 (fun _ s' => Q (nb_tbs s1) s') (fun _ => False)) ->
  runs (get_next_tb dfuel ds0 p prev) s Q (fun _ => False).
Proof.
  intros I F K1 K2 K3. unfold get_next_tb. cbv zeta. run. apply find_runs; [apply I|].
  intros s1 I1 S1 N1. cbv beta. destruct (same_but_cache_fields s s1 S1) as (_ & _ & _ & E4 & _ & _ & E7 & _).
  rewrite <- N1. destruct (newest s1 p) as [i|] eqn:Nw.
  - destruct (newest_some _ _ _ Nw) as [Hi Pc]. repeat (run; cbv beta).
    destruct (tc_ptr (tbs s1 i) =? NOT_TRANS_YET) eqn:Tr.
    + apply Z.eqb_eq in Tr. eapply runs_conseq; [now apply K2| |done]. cbv beta. intros _ s' T. now run.
    + run. run. apply Z.eqb_neq in Tr. now apply K1.
  - assert (K : forall func, runs (make_tb p func NORMAL_TB_TAG) s1 (fun i s2 =>
        runs (do* cpu_gen_code dfuel ds0 i in ret i) s2 (fun i s' => Q i s')
          (fun _ => False)) (fun _ => False)).
    { intros func. apply make_tb_runs.
      { intros X. unfold tb_full in X, F. rewrite E4, E7, F in X. discriminate X. }
      intros s2 Md. run. eapply runs_conseq; [now apply (K3 s1 s2 func)| |done]. cbv beta. intros _ s' T. now run. }
    repeat (run; cbv beta). repeat case_match; repeat (run; cbv beta); apply K.
Qed.

Lemma get_next_tb_runs p prev s : trans_inv s -> room 1 s ->
  guest_ok (smem s) p 100 (code_gen_ptr s) (code_gen_ptr s + gen_room) ->
  runs (get_next_tb dfuel ds0 p prev) s (fun i s' => next_tb s p i s') (fun _ => False).
Proof.
  intros I R G. apply get_next_tb_cases; [apply I|now apply room_full|..].
  - intros s1 i S1 I1 Hi Pc Tr. apply (next_cache s s1); [done|]. pose proof (trans_inv_cache _ _ I I1 S1) as T1.
    destruct (ti_tc s1 T1 i Hi) as [?|B]; [done|].
    constructor; try done; unfold stub_len, gen_room, turn_blocks, MAX_INSNS; try lia.
    intros j Hj. repeat split. intros _. apply kept_refl.
  - intros s1 i S1 I1 Hi Pc Tr. pose proof (trans_inv_cache _ _ I I1 S1) as T1.
    destruct (same_but_cache_fields s s1 S1) as (E1 & E2 & E3 & E4 & _).
    eapply runs_conseq; [apply (block_runs s1 i L T1)|..]; try done.
    + apply (room_le 1); [lia|now apply (room_cache s)].
    + rewrite Pc, E1, E4. exact G.
    + cbv beta. intros _ s' T. apply (next_cache s s1); [done|]. now apply translated_next.
  - intros s1 s2 func S1 I1 Nw Md. pose proof (trans_inv_cache _ _ I I1 S1) as T1.
    destruct (same_but_cache_fields s s1 S1) as (E1 & E2 & E3 & E4 & _).
    destruct (made_fields _ _ _ _ Md) as (F1 & _ & _ & F4 & _). pose proof (mk_new _ _ _ _ Md) as New.
    pose proof (trans_inv_made _ _ _ _ T1 Nw Md) as T2. pose proof (mk_nb _ _ _ _ Md) as Nb.
    eapply runs_conseq; [apply (block_runs s2 (nb_tbs s1) L T2)|..]; try done.
    + apply (room_made p func s1); [now apply (room_cache s)|done].
    + lia.
    + rewrite New, F1, F4, E1, E4. exact G.
    + cbv beta. intros _ s' T. apply (next_cache s s1); [done|]. apply (next_made s1 s2 p func); [done| |].
      * apply translated_next; try done; [lia|now rewrite New..].
      * pose proof (tr_nb_le _ _ _ T). unfold turn_blocks. lia.
Qed.

End Next.

(** ** Entering the block *)

(** Stores that leave [env->patch_num] alone keep the invariant. *)
Lemma trans_inv_mem s s' : trans_inv s -> tbs s' = tbs s -> nb_tbs s' = nb_tbs s ->
  tb_phys_hash s' = tb_phys_hash s -> tb_jmp_cache s' = tb_jmp_cache s ->
  code_gen_ptr s' = code_gen_ptr s -> sieve_code_ptr s <= sieve_code_ptr s' ->
  (forall x, A_patch_num <= x < A_patch_num + 4 -> smem s' !! x = smem s !! x) -> trans_inv s'.
Proof.
  intros [I N T C V P] E1 E2 E3 E4 E5 E6 M.
  constructor; rewrite ?E1, ?E2, ?E5; try done; try lia.
  - now apply (Linking.tb_inv_mem s).
  - unfold env_patch_num. now rewrite (ld32_ext (smem s)).
Qed.

(** The last stores of [dispatch], before the jump into the code cache. *)
Record entered (i : nat) (s s' : st) : Prop := {
  en_inv : trans_inv s';
  en_tc : ld32 (smem s') A_target_tc = u32 (tc_ptr (tbs s i));
  en_ret : env_ret_tb s' = 0;
  en_ind : env_ind_type s' = NOT_IND;
  en_mem : forall x, (x < A_target_tc \/ A_target_tc + 4 <= x) ->
     (x < A_ret_tb \/ A_ret_tb + 4 <= x) -> (x < A_ind_type \/ A_ind_type + 4 <= x) ->
     smem s' !! x = smem s !! x;
  en_rest : set_smem (smem s) s' = s }.

Lemma entered_fields i s s' : entered i s s' -> tbs s' = tbs s /\ nb_tbs s' = nb_tbs s /\
  code_gen_ptr s' = code_gen_ptr s /\ sieve_code_ptr s' = sieve_code_ptr s /\
  sieve_stub s' = sieve_stub s /\ cgc s' = cgc s.
Proof. intros En. now rewrite <- (en_rest _ _ _ En). Qed.

Lemma enter_runs i s (Q : nat -> st -> Prop) E : trans_inv s ->
  (forall s', entered i s s' -> Q i s') ->
  runs (let* t := get_tb i in
        do* poke32 A_target_tc (tc_ptr t) in
        do* poke32 A_ret_tb 0 in
        do* poke32 A_ind_type NOT_IND in
        ret i) s Q E.
Proof.
  intros I K. run_pure. apply K.
  set (m1 := st32 A_target_tc _ _). set (m2 := st32 A_ret_tb 0 m1).
  assert (M2 : forall x, (x < A_ret_tb \/ A_ret_tb + 4 <= x) -> m2 !! x = m1 !! x)
    by (intros; now apply st32_out).
  assert (M3 : forall x, (x < A_ind_type \/ A_ind_type + 4 <= x) ->
    st32 A_ind_type NOT_IND m2 !! x = m2 !! x) by (intros; now apply st32_out).
  unfold A_ret_tb, A_ind_type, A_target_tc, A_patch_num in *.
  constructor; unfold env_ret_tb, env_ind_type, A_ret_tb, A_ind_type, A_target_tc; st_simpl.
  - apply (trans_inv_mem s); try done. unfold A_patch_num, A_ind_type, A_ret_tb. intros x Hx.
    cbn. fold m1 m2. rewrite M3, M2 by lia. apply st32_out. lia.
  - fold m1 m2. rewrite (ld32_ext m2) by (intros; apply M3; lia).
    rewrite (ld32_ext m1) by (intros; apply M2; lia). apply ld32_st32.
  - fold m1 m2. rewrite (ld32_ext m2) by (intros; apply M3; lia). apply ld32_st32.
  - fold m1 m2. apply ld32_st32.
  - intros x H1 H2 H3. fold m1 m2. rewrite M3, M2 by lia. apply st32_out. lia.
  - now destruct s.
Qed.

(** ** Linking the branch that was taken *)

Lemma trans_inv_jmp next s s' : trans_inv s -> jmp_added next s s' -> trans_inv s'.
Proof.
  intros [I N T C V P] Ja. pose proof (jmp_added_inv next s s' I Ja) as I'.
  pose proof (fun i => kept_fields _ _ (jmp_added_kept next s s' i Ja)) as K.
  destruct Ja as [_ _ _ R].
  assert (F : smem s' = smem s /\ nb_tbs s' = nb_tbs s /\ code_gen_ptr s' = code_gen_ptr s /\
    sieve_code_ptr s' = sieve_code_ptr s) by now rewrite <- R.
  destruct F as (F1 & F2 & F3 & F4).
  constructor; unfold env_patch_num; rewrite ?F1, ?F2, ?F3, ?F4; try done; intros i Hi;
    destruct (K i) as (K1 & K2 & _); rewrite ?K1, ?K2; auto.
Qed.

(** The environment's words lie outside the buffers. *)
Lemma env_outside s x : layout_ok -> trans_inv s -> L_env <= x < L_env + env_size ->
  code_gen_ptr s <= L_code + DEFAULT_CODE_GEN_BUFFER_SIZE ->
  sieve_code_ptr s <= L_sieve + DEFAULT_SIEVE_BUFFER_SIZE ->
  (x < L_code \/ code_gen_ptr s <= x) /\ (x < L_sieve \/ sieve_code_ptr s <= x).
Proof. intros L I Hx C V. destruct L as [L1 L2 _ _ _ _]. lia. Qed.

Lemma next_env s p i s' x : layout_ok -> trans_inv s -> room 1 s -> next_tb s p i s' ->
  L_env <= x < L_env + env_size -> smem s' !! x = smem s !! x.
Proof.
  intros L I [R1 R2 _ _] N Hx. pose proof (ti_code s I). pose proof (ti_sieve s I).
  pose proof (nx_code _ _ _ _ N). pose proof (nx_sieve _ _ _ _ N).
  destruct L as [L1 L2 _ _ _ _]. apply (nx_mem _ _ _ _ N); lia.
Qed.

Lemma next_env32 s p i s' a : layout_ok -> trans_inv s -> room 1 s -> next_tb s p i s' ->
  L_env <= a -> a + 4 <= L_env + env_size -> ld32 (smem s') a = ld32 (smem s) a.
Proof. intros L I R N A1 A2. apply ld32_ext. intros x Hx. apply (next_env s p i); try done; lia. Qed.

Lemma kept_pc t t' : kept t t' -> pc t' = pc t.
Proof. unfold kept. now intros <-. Qed.

(** What every dispatch leaves: the block to run translates [env->eip], the
    words the prologue and the next turn read are set, and outside the new code,
    the new stubs, these words and the bytes of [f] memory is unchanged. *)
Record dispatched (f : Z -> Prop) (s : st) (i : nat) (s' : st) : Prop := {
  dp_inv : trans_inv s';
  dp_pc : (i < nb_tbs s')%nat /\ pc (tbs s' i) = env_eip s;
  dp_tc : L_code <= tc_ptr (tbs s' i) <= code_gen_ptr s';
  dp_env : ld32 (smem s') A_target_tc = u32 (tc_ptr (tbs s' i)) /\ env_ret_tb s' = 0 /\
           env_ind_type s' = NOT_IND;
  dp_mem : forall x, (x < code_gen_ptr s \/ code_gen_ptr s' <= x) ->
     (x < sieve_code_ptr s \/ sieve_code_ptr s' <= x) -> (x < A_target_tc \/ A_target_tc + 4 <= x) ->
     (x < A_ret_tb \/ A_ret_tb + 4 <= x) -> (x < A_ind_type \/ A_ind_type + 4 <= x) ->
     ~ f x -> smem s' !! x = smem s !! x;
  dp_old : (nb_tbs s <= nb_tbs s')%nat /\ forall j, (j < nb_tbs s)%nat -> pc (tbs s' j) = pc (tbs s j) /\
     (tc_ptr (tbs s j) <> NOT_TRANS_YET -> tc_ptr (tbs s' j) = tc_ptr (tbs s j));
  dp_const : sieve_stub s' = sieve_stub s /\ tb_ret_addr (cgc s') = tb_ret_addr (cgc s);
  dp_code : code_gen_ptr s <= code_gen_ptr s' <= code_gen_ptr s + gen_room;
  dp_sieve : sieve_code_ptr s <= sieve_code_ptr s' <= sieve_code_ptr s + turn_sieve;
  dp_nb : Z.of_nat (nb_tbs s') <= Z.of_nat (nb_tbs s) + turn_blocks;
  dp_stb : stb_count (cgc s) <= stb_count (cgc s') <= stb_count (cgc s) + 1 }.

(** From [get_next_tb] to the end, when the steps between them only touch [f]
    and append to the sieve. *)
Lemma next_dispatched (f : Z -> Prop) s i s1 s2 s' : next_tb s (env_eip s) i s1 -> entered i s2 s' ->
  nb_tbs s2 = nb_tbs s1 -> code_gen_ptr s2 = code_gen_ptr s1 ->
  sieve_code_ptr s1 <= sieve_code_ptr s2 <= sieve_code_ptr s1 + node_len ->
  (forall j, pc (tbs s2 j) = pc (tbs s1 j) /\ tc_ptr (tbs s2 j) = tc_ptr (tbs s1 j)) ->
  sieve_stub s2 = sieve_stub s1 /\ tb_ret_addr (cgc s2) = tb_ret_addr (cgc s1) /\ stb_count (cgc s2) = stb_count (cgc s1) ->
  (forall x, ~ f x -> (x < sieve_code_ptr s1 \/ sieve_code_ptr s2 <= x) ->
     (x < A_ind_type \/ A_ind_type + 4 <= x) -> smem s2 !! x = smem s1 !! x) ->
  dispatched f s i s'.
Proof.
  intros N En F1 F2 F3 F45 (K1 & K2 & K3) F6. destruct (F45 i) as [F4 F5].
  destruct (entered_fields _ _ _ En) as (G1 & G2 & G3 & G4 & G5 & G6).
  destruct En as [E1 E2 E3 E4 E5 E6]. pose proof (nx_sieve _ _ _ _ N) as V.
  pose proof (nx_const _ _ _ _ N) as [C1 C2].
  constructor; unfold turn_sieve; rewrite ?G1, ?G2, ?G3, ?G4, ?G5, ?G6, ?F1, ?F2, ?F4, ?F5, ?K1, ?K2, ?K3; try done;
    try apply N; try lia.
  - split; apply N.
  - rewrite <- F5. done.
  - intros x C V' T Re Ty Nf. rewrite E5, F6 by (done || lia). apply (nx_mem _ _ _ _ N); lia.
  - split; [apply N|]. intros j Hj. destruct (F45 j) as [-> ->]. destruct (nx_old _ _ _ _ N j Hj) as (O1 & _ & O2).
    split; [exact O1|]. intros Ne. apply (kept_fields _ _ (O2 Ne)).
Qed.

(** The state after [tb_add_jump] has written the displacement at [a]. *)
Definition link_state (s : st) (i : nat) (a : Z) : st := set_smem (st32 a (tc_ptr (tbs s i) - (a + 4)) (smem s)) s.

Lemma linked_fields s i a s2 : jmp_added i (link_state s i a) s2 ->
  smem s2 = st32 a (tc_ptr (tbs s i) - (a + 4)) (smem s) /\ nb_tbs s2 = nb_tbs s /\
  code_gen_ptr s2 = code_gen_ptr s /\ sieve_code_ptr s2 = sieve_code_ptr s /\ sieve_stub s2 = sieve_stub s /\
  cgc s2 = cgc s /\ forall j, pc (tbs s2 j) = pc (tbs s j) /\ tc_ptr (tbs s2 j) = tc_ptr (tbs s j).
Proof.
  intros Ja. set (m1 := link_state s i a) in *.
  assert (F : smem s2 = smem m1 /\ nb_tbs s2 = nb_tbs m1 /\ code_gen_ptr s2 = code_gen_ptr m1 /\
    sieve_code_ptr s2 = sieve_code_ptr m1 /\ sieve_stub s2 = sieve_stub m1 /\ cgc s2 = cgc m1)
    by now rewrite <- (ja_rest _ _ _ Ja).
  destruct F as (F1 & F2 & F3 & F4 & F5 & F6). do 6 (split; [done|]). intros j.
  pose proof (jmp_added_kept i _ s2 j Ja) as Kj. split; [exact (kept_pc _ _ Kj)|exact (proj1 (kept_fields _ _ Kj))].
Qed.

Lemma link_inv s i a s2 : layout_ok -> trans_inv s -> (i < nb_tbs s)%nat ->
  L_code <= a /\ a + 4 <= L_code + DEFAULT_CODE_GEN_BUFFER_SIZE -> jmp_added i (link_state s i a) s2 -> trans_inv s2.
Proof.
  intros L I Hi Ha Ja. refine (trans_inv_jmp i (link_state s i a) s2 _ Ja).
  apply (trans_inv_mem s); try done; try (cbn; lia). intros x Hx. cbn. apply st32_out.
  destruct L as [L1 _ _ _ _ _]. unfold env_size, A_patch_num in *. lia.
Qed.

Lemma link_dispatched s i a s1 s2 s' : next_tb s (env_eip s) i s1 -> jmp_added i (link_state s1 i a) s2 ->
  entered i s2 s' -> dispatched (fun x => a <= x < a + 4) s i s'.
Proof.
  intros N Ja En. destruct (linked_fields _ _ _ _ Ja) as (F1 & F2 & F3 & F4 & F5 & F6 & F7).
  apply (next_dispatched _ s i s1 s2); try done.
  - rewrite F4. unfold node_len. lia.
  - now rewrite F5, F6.
  - intros x Hx _ _. rewrite F1. apply st32_out. lia.
Qed.

Section Link.
Variable dfuel : nat.
Variable ds0 : decode_t.
Hypothesis L : layout_ok.
Hypothesis Hf : (100 < dfuel)%nat.

(** The direct branch. *)
Lemma dispatch_link_runs p s :
  let a := tc_ptr (tbs s p) + tb_jmp_offset (tbs s p) (env_patch_num s) in
  trans_inv s -> room 1 s ->
  guest_ok (smem s) (env_eip s) 100 (code_gen_ptr s) (code_gen_ptr s + gen_room) ->
  env_ind_type s = NOT_IND -> (p < nb_tbs s)%nat -> tc_ptr (tbs s p) <> NOT_TRANS_YET ->
  L_code <= a -> a + 4 <= code_gen_ptr s ->
  runs (dispatch dfuel ds0 (Some p)) s
    (fun i s' => dispatched (fun x => a <= x < a + 4) s i s' /\
       (i <> p -> rel_dest (smem s') a = u32 (tc_ptr (tbs s' i)))) (fun _ => False).
Proof.
  intros a I R G Ty Hp Tp A1 A2. unfold dispatch. run. run. run.
  eapply runs_conseq; [apply (get_next_tb_runs dfuel ds0 L Hf); try done| |done].
  cbv beta. intros i s1 N. pose proof (nx_inv _ _ _ _ N) as I1.
  assert (E : forall x, L_env <= x -> x + 4 <= L_env + env_size -> ld32 (smem s1) x = ld32 (smem s) x)
    by (intros x X1 X2; now apply (next_env32 s (env_eip s) i s1)).
  destruct (nx_old _ _ _ _ N p Hp) as (_ & _ & Kp). specialize (Kp Tp).
  destruct (kept_fields _ _ Kp) as (Kt & _ & Ko & _).
  pose proof (nx_code _ _ _ _ N) as Nc. pose proof (rm_code 1 s R) as Rc.
  run. run. unfold env_ind_type. rewrite E by (unfold A_ind_type, env_size; lia).
  change (ld32 (smem s) A_ind_type) with (env_ind_type s). rewrite Ty.
  cbn [negb Z.eqb NOT_IND]. run. run. run.
  destruct (Nat.eqb_spec p i) as [<-|Pe]; cbn [negb].
  { run. apply enter_runs; [done|]. intros s' En. split; [|done].
    apply (next_dispatched _ s p s1 s1); try done. unfold node_len; lia. }
  pose proof (ti_patch_num s I) as Pm. pose proof (ld32_range (smem s) A_patch_num) as Pr.
  run. run. unfold env_patch_num at 1. rewrite E by (unfold A_patch_num, env_size; lia).
  change (ld32 (smem s) A_patch_num) with (env_patch_num s).
  destruct (tb_add_jump_run s1 p (env_patch_num s) i (ti_tb s1 I1)) as (s2 & Ra & Ja & _);
    [split; [apply Pr|exact Pm]|apply N|]. rewrite Kt, Ko in Ja. fold a in Ja.
  pose proof (link_inv s1 i a s2 L I1 (nx_lt _ _ _ _ N) ltac:(lia) Ja) as I2.
  eapply runs_intro; [exact Ra|]. apply enter_runs; [done|]. intros s' En. split.
  - now apply (link_dispatched s i a s1 s2 s').
  - intros _. assert (T' : tbs s' = tbs s2) by now rewrite <- (en_rest _ _ _ En).
    destruct (linked_fields _ _ _ _ Ja) as (F1 & _ & _ & _ & _ & _ & Kj). destruct (Kj i) as [_ Kc].
    rewrite T', Kc. replace (u32 (tc_ptr (tbs s1 i))) with (rel_dest (smem s2) a).
    2:{ rewrite F1. replace (tc_ptr (tbs s1 i) - (a + 4)) with (tc_ptr (tbs s1 i) - a - 4) by lia.
        apply rel_dest_poke. }
    apply rel_dest_ext. intros x Hx. apply (en_mem _ _ _ En); destruct L as [L1 _ _ _ _ _];
      unfold env_size, A_target_tc, A_ret_tb, A_ind_type, gen_room, MAX_INSNS in *; lia.
Qed.

End Link.
End Dispatch.
