(* ===== verification/HostUtils.v ===== *)
(** src/host-utils.c and src/host-utils.h: 64x64 to 128 bit multiplication in
    halves, and the portable bit-counting routines (the branches compiled
    without the builtins of GCC), against their arithmetic meaning. *)

From S2P Require Import Prelude.

(** ** host-utils.c *)

(** [*plow] and [*phigh] *)
Definition add128 (plow phigh a b : Z) : Z * Z :=
  let plow := u64 (plow + a) in
  let phigh := if plow <? a then u64 (phigh + 1) else phigh in
  (plow, u64 (phigh + b)).

(** [~x] on 64 bits. *)
Definition not64 (x : Z) : Z := u64 (Z.lnot x).

Definition neg128 (plow phigh : Z) : Z * Z := add128 (not64 plow) (not64 phigh) 1 0.

Definition mul64 (a b : Z) : Z * Z :=
  let a0 := u32 a in
  let a1 := u32 (Z.shiftr a 32) in
  let b0 := u32 b in
  let b1 := u32 (Z.shiftr b 32) in
  let v := u64 (a0 * b0) in
  let r := (v, 0) in
  let v := u64 (a0 * b1) in
  let r := add128 r.1 r.2 (u64 (Z.shiftl v 32)) (Z.shiftr v 32) in
  let v := u64 (a1 * b0) in
  let r := add128 r.1 r.2 (u64 (Z.shiftl v 32)) (Z.shiftr v 32) in
  let v := u64 (a1 * b1) in
  (r.1, u64 (r.2 + v)).

Definition mulu64 (a b : Z) : Z * Z := mul64 a b.

(** [-a] on [int64_t]: undefined for the least value. *)
Definition neg_s64 (a : Z) : res Z := if a =? -9223372036854775808 then Err UB else Ok (- a).

Definition muls64 (a b : Z) : res (Z * Z) :=
  let sa := a <? 0 in
  let? a := if sa then neg_s64 a else Ok a in
  let sb := b <? 0 in
  let? b := if sb then neg_s64 b else Ok b in
  let r := mul64 a b in
  Ok (if xorb sa sb then neg128 r.1 r.2 else r).

(** ** host-utils.h: counting zeros and ones *)

Definition clz32 (val : Z) : Z :=
  let cnt := 0 in
  let '(cnt, val) := if Z.land val 0xFFFF0000 =? 0 then (cnt + 16, u32 (Z.shiftl val 16)) else (cnt, val) in
  let '(cnt, val) := if Z.land val 0xFF000000 =? 0 then (cnt + 8, u32 (Z.shiftl val 8)) else (cnt, val) in
  let '(cnt, val) := if Z.land val 0xF0000000 =? 0 then (cnt + 4, u32 (Z.shiftl val 4)) else (cnt, val) in
  let '(cnt, val) := if Z.land val 0xC0000000 =? 0 then (cnt + 2, u32 (Z.shiftl val 2)) else (cnt, val) in
  let '(cnt, val) := if Z.land val 0x80000000 =? 0 then (cnt + 1, u32 (Z.shiftl val 1)) else (cnt, val) in
  if Z.land val 0x80000000 =? 0 then cnt + 1 else cnt.

Definition not32 (x : Z) : Z := u32 (Z.lnot x).
Definition clo32 (val : Z) : Z := clz32 (not32 val).

Definition clz64 (val : Z) : Z :=
  let cnt := 0 in
  let '(cnt, val) := if Z.shiftr val 32 =? 0 then (cnt + 32, val) else (cnt, Z.shiftr val 32) in
  cnt + clz32 (u32 val).

Definition clo64 (val : Z) : Z := clz64 (not64 val).

Definition ctz32 (val : Z) : Z :=
  let cnt := 0 in
  let '(cnt, val) := if Z.land val 0x0000FFFF =? 0 then (cnt + 16, Z.shiftr val 16) else (cnt, val) in
  let '(cnt, val) := if Z.land val 0x000000FF =? 0 then (cnt + 8, Z.shiftr val 8) else (cnt, val) in
  let '(cnt, val) := if Z.land val 0x0000000F =? 0 then (cnt + 4, Z.shiftr val 4) else (cnt, val) in
  let '(cnt, val) := if Z.land val 0x00000003 =? 0 then (cnt + 2, Z.shiftr val 2) else (cnt, val) in
  let '(cnt, val) := if Z.land val 0x00000001 =? 0 then (cnt + 1, Z.shiftr val 1) else (cnt, val) in
  if Z.land val 0x00000001 =? 0 then cnt + 1 else cnt.

Definition cto32 (val : Z) : Z := ctz32 (not32 val).

Definition ctz64 (val : Z) : Z :=
  let cnt := 0 in
  let '(cnt, val) := if u32 val =? 0 then (cnt + 32, Z.shiftr val 32) else (cnt, val) in
  cnt + ctz32 (u32 val).

Definition cto64 (val : Z) : Z := ctz64 (not64 val).

Definition ctpop8 (val : Z) : Z :=
  let val := u8 (Z.land val 0x55 + Z.land (Z.shiftr val 1) 0x55) in
  let val := u8 (Z.land val 0x33 + Z.land (Z.shiftr val 2) 0x33) in
  u8 (Z.land val 0x0f + Z.land (Z.shiftr val 4) 0x0f).

Definition ctpop16 (val : Z) : Z :=
  let val := u16 (Z.land val 0x5555 + Z.land (Z.shiftr val 1) 0x5555) in
  let val := u16 (Z.land val 0x3333 + Z.land (Z.shiftr val 2) 0x3333) in
  let val := u16 (Z.land val 0x0f0f + Z.land (Z.shiftr val 4) 0x0f0f) in
  u16 (Z.land val 0x00ff + Z.land (Z.shiftr val 8) 0x00ff).

Definition ctpop32 (val : Z) : Z :=
  let val := u32 (Z.land val 0x55555555 + Z.land (Z.shiftr val 1) 0x55555555) in
  let val := u32 (Z.land val 0x33333333 + Z.land (Z.shiftr val 2) 0x33333333) in
  let val := u32 (Z.land val 0x0f0f0f0f + Z.land (Z.shiftr val 4) 0x0f0f0f0f) in
  let val := u32 (Z.land val 0x00ff00ff + Z.land (Z.shiftr val 8) 0x00ff00ff) in
  u32 (Z.land val 0x0000ffff + Z.land (Z.shiftr val 16) 0x0000ffff).

Definition ctpop64 (val : Z) : Z :=
  let val := u64 (Z.land val 0x5555555555555555 + Z.land (Z.shiftr val 1) 0x5555555555555555) in
  let val := u64 (Z.land val 0x3333333333333333 + Z.land (Z.shiftr val 2) 0x3333333333333333) in
  let val := u64 (Z.land val 0x0f0f0f0f0f0f0f0f + Z.land (Z.shiftr val 4) 0x0f0f0f0f0f0f0f0f) in
  let val := u64 (Z.land val 0x00ff00ff00ff00ff + Z.land (Z.shiftr val 8) 0x00ff00ff00ff00ff) in
  let val := u64 (Z.land val 0x0000ffff0000ffff + Z.land (Z.shiftr val 16) 0x0000ffff0000ffff) in
  u64 (Z.land val 0x00000000ffffffff + Z.land (Z.shiftr val 32) 0x00000000ffffffff).

(** ** Multiplication *)

Abbreviation B64 := 18446744073709551616 (only parsing).
Abbreviation B128 := 340282366920938463463374607431768211456 (only parsing).

(** The 128-bit value of a pair. *)
Definition val128 (r : Z * Z) : Z := r.1 + B64 * r.2.

Lemma u64_range z : 0 <= u64 z < B64.
Proof. unfold u64. apply Z.mod_pos_bound. lia. Qed.
Lemma u64_small z : 0 <= z < B64 -> u64 z = z.
Proof. intros. unfold u64. now apply Z.mod_small. Qed.

Definition ok128 (r : Z * Z) : Prop := 0 <= r.1 < B64 /\ 0 <= r.2 < B64.

Lemma add128_val lo hi a b : 0 <= lo < B64 -> 0 <= hi < B64 -> 0 <= a < B64 -> 0 <= b < B64 ->
  ok128 (add128 lo hi a b) /\
  val128 (add128 lo hi a b) = (lo + B64 * hi + (a + B64 * b)) mod B128.
Proof.
  intros L H A B. unfold add128, val128, ok128, u64. cbv zeta. cbn [fst snd].
  split; [split; apply Z.mod_pos_bound; lia|].
  destruct (Z.ltb_spec ((lo + a) mod B64) a); Z.div_mod_to_equations; lia.
Qed.

Lemma val128_mod r : ok128 r -> val128 r mod B128 = val128 r.
Proof. intros [A B]. unfold val128. apply Z.mod_small. lia. Qed.

Lemma half_val a : 0 <= a < B64 -> u32 a + 4294967296 * u32 (Z.shiftr a 32) = a /\ 0 <= u32 (Z.shiftr a 32) < 4294967296.
Proof.
  intros A. rewrite Z.shiftr_div_pow2 by lia. change (2 ^ 32) with 4294967296. unfold u32.
  Z.div_mod_to_equations. lia.
Qed.

(** A cross product, shifted by a half. *)
Lemma cross_val x : 0 <= x < B64 -> u64 (Z.shiftl x 32) + B64 * Z.shiftr x 32 = 4294967296 * x /\
  0 <= Z.shiftr x 32 < B64 /\ 0 <= u64 (Z.shiftl x 32) < B64.
Proof.
  intros X. rewrite Z.shiftl_mul_pow2, Z.shiftr_div_pow2 by lia. change (2 ^ 32) with 4294967296. unfold u64.
  Z.div_mod_to_equations. lia.
Qed.

Lemma mul32_range x y : 0 <= x < 4294967296 -> 0 <= y < 4294967296 -> 0 <= x * y < B64.
Proof. nia. Qed.

Lemma mul64_val a b : 0 <= a < B64 -> 0 <= b < B64 -> ok128 (mul64 a b) /\ val128 (mul64 a b) = a * b.
Proof.
  intros A B. destruct (half_val a A) as [Ea Ra]. destruct (half_val b B) as [Eb Rb].
  unfold mul64. cbv zeta. pose proof (u32_range a) as Ra0. pose proof (u32_range b) as Rb0.
  set (a0 := u32 a) in *. set (a1 := u32 (Z.shiftr a 32)) in *. set (b0 := u32 b) in *.
  set (b1 := u32 (Z.shiftr b 32)) in *. clearbody a0 a1 b0 b1.
  pose proof (mul32_range a0 b0 Ra0 Rb0) as P00. pose proof (mul32_range a0 b1 Ra0 Rb) as P01.
  pose proof (mul32_range a1 b0 Ra Rb0) as P10. pose proof (mul32_range a1 b1 Ra Rb) as P11.
  rewrite !(u64_small (_ * _)) by done. cbn [fst snd].
  assert (E : a * b = a0 * b0 + 4294967296 * (a0 * b1) + 4294967296 * (a1 * b0) + B64 * (a1 * b1)) by (subst; ring).
  rewrite E. set (p00 := a0 * b0) in *. set (p01 := a0 * b1) in *. set (p10 := a1 * b0) in *.
  set (p11 := a1 * b1) in *.
  assert (Top : 0 <= p00 + 4294967296 * p01 + 4294967296 * p10 + B64 * p11 < B128).
  { rewrite <- E. subst. nia. }
  clearbody p00 p01 p10 p11. clear E Ea Eb.
  destruct (cross_val p01 P01) as (C1 & C2 & C3). destruct (cross_val p10 P10) as (D1 & D2 & D3).
  destruct (add128_val p00 0 _ _ P00 ltac:(lia) C3 C2) as [[O1 O2] V1].
  set (r1 := add128 p00 0 _ _) in *. clearbody r1.
  destruct (add128_val r1.1 r1.2 _ _ O1 O2 D3 D2) as [[O3 O4] V2].
  set (r2 := add128 r1.1 r1.2 _ _) in *. clearbody r2. unfold val128 in *. unfold ok128, u64 in *. cbn [fst snd] in *.
  rewrite Z.mod_small in V1, V2 by lia.
  assert (V3 : (r2.2 + p11) mod B64 = r2.2 + p11) by (apply Z.mod_small; lia).
  rewrite V3. lia.
Qed.

Lemma neg128_val r : ok128 r -> ok128 (neg128 r.1 r.2) /\ val128 (neg128 r.1 r.2) = (- val128 r) mod B128.
Proof.
  intros [A B]. unfold neg128, not64.
  assert (E : forall x, 0 <= x < B64 -> u64 (Z.lnot x) = B64 - 1 - x).
  { intros x X. unfold Z.lnot, u64. Z.div_mod_to_equations. lia. }
  rewrite !E by done. destruct (add128_val (B64 - 1 - r.1) (B64 - 1 - r.2) 1 0) as [O V]; try lia.
  split; [exact O|]. rewrite V. unfold val128. Z.div_mod_to_equations. lia.
Qed.

(** ** Leading and trailing bits *)

(** [n] is the number of leading bits of the [w]-bit value [v] that are [b]. *)
Definition leading (w : Z) (b : bool) (v n : Z) : Prop :=
  0 <= n <= w /\ (forall i, w - n <= i < w -> Z.testbit v i = b) /\ (n < w -> Z.testbit v (w - 1 - n) = negb b).

(** [n] is the number of trailing bits of [v] that are [b]. *)
Definition trailing (w : Z) (b : bool) (v n : Z) : Prop :=
  0 <= n <= w /\ (forall i, 0 <= i < n -> Z.testbit v i = b) /\ (n < w -> Z.testbit v n = negb b).

Lemma land_high n k v : 0 <= n -> 0 <= k -> 0 <= v < 2 ^ (n + k) ->
  Z.land v (Z.shiftl (Z.ones k) n) = 0 <-> v < 2 ^ n.
Proof.
  intros N K V. assert (E : Z.land v (Z.shiftl (Z.ones k) n) = Z.shiftl (Z.shiftr v n) n).
  { apply Z.bits_inj'. intros i Hi. rewrite Z.land_spec, !Z.shiftl_spec by lia.
    destruct (Z.ltb_spec i n).
    - rewrite !(Z.testbit_neg_r _ (i - n)) by lia. apply andb_false_r.
    - rewrite Z.shiftr_spec by lia. replace (i - n + n) with i by lia.
      destruct (Z.ltb_spec (i - n) k); [rewrite Z.ones_spec_low by lia; apply andb_true_r|].
      rewrite Z.ones_spec_high by lia. rewrite andb_false_r. symmetry. apply Z.testbit_false; [lia|].
      rewrite Z.div_small; [done|]. split; [lia|]. eapply Z.lt_le_trans; [apply V|]. apply Z.pow_le_mono_r; lia. }
  rewrite E, Z.shiftl_mul_pow2, Z.shiftr_div_pow2 by lia.
  pose proof (Z.pow_pos_nonneg 2 n ltac:(lia) N).
  split; intros I; [|rewrite Z.div_small; lia].
  assert (D : v / 2 ^ n = 0) by nia. apply Z.div_small_iff in D; lia.
Qed.

(** One step of the binary search from the left. *)
Lemma clz_step k m c v : 0 < k -> 2 * k <= 32 -> m = Z.shiftl (Z.ones k) (32 - k) ->
  2 ^ (32 - 2 * k) <= v < 2 ^ 32 -> exists c' v',
  (if Z.land v m =? 0 then (c + k, u32 (Z.shiftl v k)) else (c, v)) = (c', v') /\
  c' - Z.log2 v' = c - Z.log2 v /\ 2 ^ (32 - k) <= v' < 2 ^ 32.
Proof.
  intros K K2 -> V. pose proof (Z.pow_pos_nonneg 2 (32 - 2 * k) ltac:(lia) ltac:(lia)) as P.
  pose proof (land_high (32 - k) k v ltac:(lia) ltac:(lia) ltac:(replace (32 - k + k) with 32 by lia; lia)) as L.
  destruct (Z.eqb_spec (Z.land v (Z.shiftl (Z.ones k) (32 - k))) 0) as [E | E].
  - apply L in E. eexists _, _. split; [reflexivity|].
    assert (R : 2 ^ (32 - k) <= Z.shiftl v k < 2 ^ 32).
    { rewrite Z.shiftl_mul_pow2 by lia. replace (2 ^ (32 - k)) with (2 ^ (32 - 2 * k) * 2 ^ k) by (rewrite <- Z.pow_add_r by lia; f_equal; lia).
      replace (2 ^ 32) with (2 ^ (32 - k) * 2 ^ k) by (rewrite <- Z.pow_add_r by lia; f_equal; lia).
      pose proof (Z.pow_pos_nonneg 2 k ltac:(lia) ltac:(lia)). nia. }
    rewrite u32_small by (change 4294967296 with (2 ^ 32); pose proof (Z.pow_pos_nonneg 2 (32 - k) ltac:(lia) ltac:(lia)); lia).
    split; [rewrite Z.log2_shiftl by lia; lia | exact R].
  - eexists _, _. split; [reflexivity|]. split; [lia|]. split; [|lia].
    apply Z.nlt_ge. intros ?. apply E, L. lia.
Qed.

Lemma clz32_log v : 0 < v < 2 ^ 32 -> clz32 v = 31 - Z.log2 v.
Proof.
  intros V. unfold clz32. cbv zeta.
  destruct (clz_step 16 0xFFFF0000 0 v) as (c1 & v1 & -> & E1 & R1); [lia | lia | reflexivity | lia |].
  destruct (clz_step 8 0xFF000000 c1 v1) as (c2 & v2 & -> & E2 & R2); [lia | lia | reflexivity | lia |].
  destruct (clz_step 4 0xF0000000 c2 v2) as (c3 & v3 & -> & E3 & R3); [lia | lia | reflexivity | lia |].
  destruct (clz_step 2 0xC0000000 c3 v3) as (c4 & v4 & -> & E4 & R4); [lia | lia | reflexivity | lia |].
  destruct (clz_step 1 0x80000000 c4 v4) as (c5 & v5 & -> & E5 & R5); [lia | lia | reflexivity | lia |].
  pose proof (land_high 31 1 v5 ltac:(lia) ltac:(lia) ltac:(change (31 + 1) with 32; lia)) as L.
  change (Z.shiftl (Z.ones 1) 31) with 0x80000000 in L.
  destruct (Z.eqb_spec (Z.land v5 0x80000000) 0); [lia|].
  rewrite (Z.log2_unique v5 31) in E5 by lia. lia.
Qed.

Lemma leading_log w v n : 0 < v < 2 ^ w -> n = w - 1 - Z.log2 v -> leading w false v n.
Proof.
  intros V ->. assert (0 <= w) by (destruct (Z.le_gt_cases 0 w); [done | rewrite Z.pow_neg_r in V by lia; lia]).
  pose proof (Z.log2_nonneg v). pose proof (proj1 (Z.log2_lt_pow2 v w ltac:(lia)) ltac:(lia)).
  split; [lia|]. split.
  - intros i I. apply Z.bits_above_log2; lia.
  - intros _. replace (w - 1 - (w - 1 - Z.log2 v)) with (Z.log2 v) by lia. apply Z.bit_log2. lia.
Qed.

Lemma leading_zero w : 0 <= w -> leading w false 0 w.
Proof. intros. split; [lia|]. split; [intros; apply Z.bits_0 | lia]. Qed.

Lemma clz32_leading v : 0 <= v < 2 ^ 32 -> leading 32 false v (clz32 v).
Proof.
  intros V. destruct (decide (v = 0)) as [-> | N]; [now apply leading_zero|].
  apply leading_log; [lia|]. apply clz32_log. lia.
Qed.

Lemma clz64_leading v : 0 <= v < 2 ^ 64 -> leading 64 false v (clz64 v).
Proof.
  intros V. destruct (decide (v = 0)) as [-> | N]; [now apply leading_zero|].
  apply leading_log; [lia|]. unfold clz64. cbv zeta.
  destruct (Z.eqb_spec (Z.shiftr v 32) 0) as [E | E].
  - rewrite Z.shiftr_div_pow2 in E by lia. apply Z.div_small_iff in E; [|lia].
    rewrite u32_small, clz32_log by lia. lia.
  - assert (0 < Z.shiftr v 32 < 2 ^ 32).
    { rewrite Z.shiftr_div_pow2 in * by lia. pose proof (Z.div_pos v (2 ^ 32) ltac:(lia) ltac:(lia)).
      split; [lia|]. apply Z.div_lt_upper_bound; lia. }
    rewrite u32_small, clz32_log, Z.log2_shiftr by lia.
    assert (32 <= Z.log2 v); [|lia]. apply Z.log2_le_pow2; [lia|]. apply Z.nlt_ge. intros ?.
    apply E. rewrite Z.shiftr_div_pow2 by lia. apply Z.div_small. lia.
Qed.

(** Complementing the value swaps zeros and ones. *)
Lemma leading_flip w v x n : leading w false x n -> (forall i, 0 <= i < w -> Z.testbit x i = negb (Z.testbit v i)) ->
  leading w true v n.
Proof.
  intros (R & A & B) F. split; [done|]. split.
  - intros i I. specialize (A i I). rewrite F in A by lia. now apply negb_false_iff in A.
  - intros I. specialize (B I). rewrite F in B by lia. cbn in *. now apply negb_true_iff in B.
Qed.

Lemma trailing_flip w v x n : trailing w false x n -> (forall i, 0 <= i < w -> Z.testbit x i = negb (Z.testbit v i)) ->
  trailing w true v n.
Proof.
  intros (R & A & B) F. split; [done|]. split.
  - intros i I. specialize (A i I). rewrite F in A by lia. now apply negb_false_iff in A.
  - intros I. specialize (B I). rewrite F in B by lia. cbn in *. now apply negb_true_iff in B.
Qed.

Lemma not32_bits v i : 0 <= i < 32 -> Z.testbit (not32 v) i = negb (Z.testbit v i).
Proof. intros I. unfold not32, u32. change 4294967296 with (2 ^ 32). rewrite Z.mod_pow2_bits_low, Z.lnot_spec by lia. done. Qed.
Lemma not64_bits v i : 0 <= i < 64 -> Z.testbit (not64 v) i = negb (Z.testbit v i).
Proof. intros I. unfold not64, u64. change B64 with (2 ^ 64). rewrite Z.mod_pow2_bits_low, Z.lnot_spec by lia. done. Qed.

(** One step of the binary search from the right. *)
Lemma ctz_step k m v0 c v : 0 < k -> m = Z.ones k -> 0 <= c -> v * 2 ^ c = v0 -> v mod 2 ^ (2 * k) <> 0 -> exists c' v',
  (if Z.land v m =? 0 then (c + k, Z.shiftr v k) else (c, v)) = (c', v') /\
  v' * 2 ^ c' = v0 /\ v' mod 2 ^ k <> 0 /\ c <= c' <= c + k.
Proof.
  intros K -> C V N. rewrite Z.land_ones by lia. pose proof (Z.pow_pos_nonneg 2 k ltac:(lia) ltac:(lia)) as P.
  destruct (Z.eqb_spec (v mod 2 ^ k) 0) as [E | E]; eexists _, _; (split; [reflexivity|]); [|split; [done|]; split; [done | lia]].
  rewrite Z.shiftr_div_pow2 by lia. apply Z.mod_divide in E as [q E]; [|lia]. subst v.
  rewrite Z.div_mul by lia. split; [rewrite <- V, Z.pow_add_r by lia; ring|]. split; [|lia].
  intros Q. apply N. replace (2 * k) with (k + k) by lia. rewrite Z.pow_add_r by lia.
  rewrite Z.mul_mod_distr_r by lia. rewrite Q. lia.
Qed.

Lemma ctz32_split v : 0 < v < 2 ^ 32 -> exists q, v = q * 2 ^ ctz32 v /\ q mod 2 <> 0 /\ 0 <= ctz32 v < 32.
Proof.
  intros V. unfold ctz32. cbv zeta.
  destruct (ctz_step 16 0x0000FFFF v 0 v) as (c1 & v1 & -> & E1 & N1 & L1); [lia | reflexivity | lia | lia | rewrite Z.mod_small by lia; lia |].
  destruct (ctz_step 8 0x000000FF v c1 v1) as (c2 & v2 & -> & E2 & N2 & L2); [lia | reflexivity | lia | lia | exact N1 |].
  destruct (ctz_step 4 0x0000000F v c2 v2) as (c3 & v3 & -> & E3 & N3 & L3); [lia | reflexivity | lia | lia | exact N2 |].
  destruct (ctz_step 2 0x00000003 v c3 v3) as (c4 & v4 & -> & E4 & N4 & L4); [lia | reflexivity | lia | lia | exact N3 |].
  destruct (ctz_step 1 0x00000001 v c4 v4) as (c5 & v5 & -> & E5 & N5 & L5); [lia | reflexivity | lia | lia | exact N4 |].
  change 0x00000001 with (Z.ones 1). rewrite Z.land_ones by lia.
  destruct (Z.eqb_spec (v5 mod 2 ^ 1) 0); [done|]. exists v5. split; [done|]. split; [done | lia].
Qed.

Lemma trailing_split w v q n : v = q * 2 ^ n -> q mod 2 <> 0 -> 0 <= n < w -> trailing w false v n.
Proof.
  intros -> Q N. split; [lia|]. split; intros.
  - rewrite Z.mul_pow2_bits by lia. apply Z.testbit_neg_r. lia.
  - rewrite Z.mul_pow2_bits, Z.sub_diag, Z.bit0_odd by lia. rewrite Zmod_odd in Q. destruct (Z.odd q); done.
Qed.

Lemma trailing_zero w : 0 <= w -> trailing w false 0 w.
Proof. intros. split; [lia|]. split; [intros; apply Z.bits_0 | lia]. Qed.

Lemma ctz32_trailing v : 0 <= v < 2 ^ 32 -> trailing 32 false v (ctz32 v).
Proof.
  intros V. destruct (decide (v = 0)) as [-> | N]; [now apply trailing_zero|].
  destruct (ctz32_split v) as (q & E & Q & R); [lia|]. now apply (trailing_split _ _ q).
Qed.

Lemma ctz64_trailing v : 0 <= v < 2 ^ 64 -> trailing 64 false v (ctz64 v).
Proof.
  intros V. unfold ctz64. cbv zeta. pose proof (u32_range v) as Ru. unfold u32 in Ru |- *.
  destruct (Z.eqb_spec (v mod 4294967296) 0) as [E | E].
  - rewrite Z.shiftr_div_pow2 by lia. change (2 ^ 32) with 4294967296.
    assert (R : 0 <= v / 4294967296 < 2 ^ 32) by (split; [apply Z.div_pos; lia | apply Z.div_lt_upper_bound; lia]).
    rewrite (Z.mod_small (v / 4294967296)) by (change 4294967296 with (2 ^ 32) in *; lia).
    destruct (decide (v = 0)) as [-> | N]; [now apply trailing_zero|].
    assert (Hv : v = v / 4294967296 * 2 ^ 32) by (change (2 ^ 32) with 4294967296; Z.div_mod_to_equations; lia).
    destruct (ctz32_split (v / 4294967296)) as (q & Eq & Q & Rq); [lia|].
    apply (trailing_split _ _ q); [|done | lia]. rewrite Hv at 1. rewrite Eq at 1. rewrite !Z.pow_add_r by lia. ring.
  - destruct (ctz32_split (v mod 4294967296)) as (q & Eq & Q & Rq); [change (2 ^ 32) with 4294967296; lia|].
    set (n := ctz32 _) in *. rewrite Z.add_0_l. destruct (trailing_split 32 (v mod 4294967296) q n Eq Q Rq) as (_ & A & B).
    assert (F : forall i, 0 <= i < 32 -> Z.testbit (v mod 4294967296) i = Z.testbit v i).
    { intros i I. change 4294967296 with (2 ^ 32). apply Z.mod_pow2_bits_low. lia. }
    split; [lia|]. split; [intros i I; rewrite <- F by lia; now apply A | intros I; rewrite <- F by lia; apply B; lia].
Qed.

(** ** Counting bits *)

(** The number of bits set among the low [n] bits. *)
Fixpoint ones_in (n : nat) (v : Z) : Z :=
  match n with O => 0 | S n => Z.b2z (Z.odd v) + ones_in n (Z.div2 v) end.

(** The sum of the low [n] digits of width [w]. *)
Fixpoint digit_sum (n : nat) (w v : Z) : Z :=
  match n with O => 0 | S n => v mod 2 ^ w + digit_sum n w (v / 2 ^ w) end.

(** [n] fields of [w] ones, every other field of width [w]. *)
Fixpoint alternate (n : nat) (w : Z) : Z :=
  match n with O => 0 | S n => Z.ones w + 2 ^ (2 * w) * alternate n w end.

(** One step: neighbouring digits are added. *)
Definition fold_digits (n : nat) (w v : Z) : Z := Z.land v (alternate n w) + Z.land (Z.shiftr v w) (alternate n w).

Lemma land_split v k a b : 0 <= k -> 0 <= a < 2 ^ k -> Z.land v (a + 2 ^ k * b) = Z.land v a + 2 ^ k * Z.land (v / 2 ^ k) b.
Proof.
  intros K A. assert (L : 0 <= Z.land v a < 2 ^ k).
  { rewrite <- (Z.mod_small a (2 ^ k)), <- Z.land_ones, Z.land_assoc, Z.land_ones by lia. apply Z.mod_pos_bound. lia. }
  assert (P : forall x y, 0 <= x < 2 ^ k -> forall i, 0 <= i ->
    Z.testbit (x + 2 ^ k * y) i = if i <? k then Z.testbit x i else Z.testbit y (i - k)).
  { intros x y X i I. destruct (Z.ltb_spec i k).
    - rewrite <- (Z.mod_pow2_bits_low (x + 2 ^ k * y) k) by lia. rewrite (Z.mul_comm (2 ^ k)), Z.mod_add, Z.mod_small by lia. done.
    - replace i with (i - k + k) at 1 by lia. rewrite <- Z.div_pow2_bits by lia.
      rewrite (Z.mul_comm (2 ^ k)), Z.div_add, Z.div_small by lia. done. }
  apply Z.bits_inj'. intros i I. rewrite Z.land_spec, !P by lia. destruct (Z.ltb_spec i k).
  - now rewrite Z.land_spec.
  - rewrite Z.land_spec, Z.div_pow2_bits by lia. now replace (i - k + k) with i by lia.
Qed.

Lemma fold_S n w v : 0 <= w ->
  fold_digits (S n) w v = v mod 2 ^ w + (v / 2 ^ w) mod 2 ^ w + 2 ^ (2 * w) * fold_digits n w (v / 2 ^ (2 * w)).
Proof.
  intros W. unfold fold_digits. cbn [alternate].
  assert (O : 0 <= Z.ones w < 2 ^ (2 * w)).
  { rewrite Z.ones_equiv. pose proof (Z.pow_pos_nonneg 2 w ltac:(lia) W). pose proof (Z.pow_le_mono_r 2 w (2 * w)). lia. }
  rewrite !land_split by lia. rewrite !Z.land_ones, !Z.shiftr_div_pow2 by lia.
  rewrite !Z.div_div by (try apply Z.pow_nonzero; lia || apply Z.pow_pos_nonneg; lia).
  rewrite (Z.mul_comm (2 ^ w) (2 ^ (2 * w))). ring.
Qed.

(** The step keeps the sum, for no sum of two digits overflows. *)
Lemma fold_sum n w : 0 < w -> forall v, digit_sum n (2 * w) (fold_digits n w v) = digit_sum (n + n) w v /\
  0 <= fold_digits n w v < 2 ^ (2 * w * Z.of_nat n).
Proof.
  intros W. induction n as [|n IH]; intros v.
  { unfold fold_digits. cbn [alternate digit_sum Nat.add]. rewrite !Z.land_0_r. replace (2 * w * Z.of_nat 0) with 0 by lia. lia. }
  pose proof (Z.pow_pos_nonneg 2 w ltac:(lia) ltac:(lia)) as P.
  pose proof (Z.mod_pos_bound v _ P). pose proof (Z.mod_pos_bound (v / 2 ^ w) _ P).
  assert (E2 : 2 ^ (2 * w) = 2 ^ w * 2 ^ w) by (rewrite <- Z.pow_add_r by lia; f_equal; lia).
  assert (2 <= 2 ^ w) by (change 2 with (2 ^ 1) at 1; apply Z.pow_le_mono_r; lia).
  destruct (IH (v / 2 ^ (2 * w))) as [I R]. rewrite fold_S by lia.
  set (d := v mod 2 ^ w + (v / 2 ^ w) mod 2 ^ w) in *. assert (D : 0 <= d < 2 ^ (2 * w)) by nia.
  split.
  - replace (S n + S n)%nat with (S (S (n + n))) by lia. cbn [digit_sum].
    rewrite (Z.mul_comm (2 ^ (2 * w)) (fold_digits _ _ _)), Z.mod_add, Z.div_add by lia.
    rewrite (Z.mod_small d), (Z.div_small d), Z.add_0_l, I by lia.
    rewrite Z.div_div, <- E2 by lia. unfold d. lia.
  - replace (2 * w * Z.of_nat (S n)) with (2 * w + 2 * w * Z.of_nat n) by lia. rewrite Z.pow_add_r by lia. nia.
Qed.

Lemma digit_sum_bits n v : digit_sum n 1 v = ones_in n v.
Proof.
  revert v. induction n as [|n IH]; intros v; cbn [digit_sum ones_in]; [done|].
  rewrite IH, Z.div2_div, Zmod_odd. change (2 ^ 1) with 2. destruct (Z.odd v); reflexivity.
Qed.

Lemma pop_step n w m M v : 0 < w -> m = alternate n w -> M = 2 ^ (2 * w * Z.of_nat n) -> exists x,
  (Z.land v m + Z.land (Z.shiftr v w) m) mod M = x /\ digit_sum n (2 * w) x = digit_sum (n + n) w v /\ 0 <= x < M.
Proof.
  intros W -> ->. destruct (fold_sum n w W v) as [E R]. exists (fold_digits n w v).
  split; [apply Z.mod_small; exact R | split; [exact E | exact R]].
Qed.

Lemma pop_end w x : 0 <= x < 2 ^ w -> digit_sum 1 w x = x.
Proof. intros. cbn [digit_sum]. rewrite Z.mod_small by lia. lia. Qed.

(** Rewrites one line of the source into one step. *)
Ltac pop n w :=
  match goal with |- context [(Z.land ?v ?m + Z.land (Z.shiftr ?v _) ?m) mod ?M] =>
    let x := fresh "x" in let R := fresh "R" in let D := fresh "D" in let Ex := fresh "Ex" in
    destruct (pop_step n w m M v ltac:(lia) ltac:(reflexivity) ltac:(reflexivity)) as (x & Ex & D & R);
    change (2 * w) with (ltac:(let k := eval vm_compute in (2 * w) in exact k)) in D; cbn [Nat.add] in D; rewrite Ex; clear Ex end.

Lemma ctpop8_ones v : ctpop8 v = ones_in 8 v.
Proof.
  unfold ctpop8, u8. cbv zeta. pop 4%nat 1. pop 2%nat 2. pop 1%nat 4.
  rewrite <- digit_sum_bits, <- D, <- D0, <- D1. symmetry. now apply pop_end.
Qed.
Lemma ctpop16_ones v : ctpop16 v = ones_in 16 v.
Proof.
  unfold ctpop16, u16. cbv zeta. pop 8%nat 1. pop 4%nat 2. pop 2%nat 4. pop 1%nat 8.
  rewrite <- digit_sum_bits, <- D, <- D0, <- D1, <- D2. symmetry. now apply pop_end.
Qed.
Lemma ctpop32_ones v : ctpop32 v = ones_in 32 v.
Proof.
  unfold ctpop32, u32. cbv zeta. pop 16%nat 1. pop 8%nat 2. pop 4%nat 4. pop 2%nat 8. pop 1%nat 16.
  rewrite <- digit_sum_bits, <- D, <- D0, <- D1, <- D2, <- D3. symmetry. now apply pop_end.
Qed.
Lemma ctpop64_ones v : ctpop64 v = ones_in 64 v.
Proof.
  unfold ctpop64, u64. cbv zeta. pop 32%nat 1. pop 16%nat 2. pop 8%nat 4. pop 4%nat 8. pop 2%nat 16. pop 1%nat 32.
  rewrite <- digit_sum_bits, <- D, <- D0, <- D1, <- D2, <- D3, <- D4. symmetry. now apply pop_end.
Qed.

(** ** The theorems *)

Lemma neg_abs x : - 2 ^ 63 <= x < 2 ^ 63 ->
  (if x <? 0 then neg_s64 x else Ok x) = if decide (x = - 2 ^ 63) then Err UB else Ok (Z.abs x).
Proof.
  intros X. unfold neg_s64. change (-9223372036854775808) with (- 2 ^ 63).
  destruct (Z.ltb_spec x 0), (Z.eqb_spec x (- 2 ^ 63)); repeat case_decide; try lia; f_equal; lia.
Qed.

Lemma signs_differ a b : a * b <> 0 -> xorb (a <? 0) (b <? 0) = (a * b <? 0).
Proof. intros N. destruct (Z.ltb_spec a 0), (Z.ltb_spec b 0), (Z.ltb_spec (a * b) 0); try reflexivity; nia. Qed.

(** The signed product, or undefined behaviour for the least integer. *)
Lemma muls64_run (a b : Z) (Ha : - 2 ^ 63 <= a < 2 ^ 63) (Hb : - 2 ^ 63 <= b < 2 ^ 63) :
  if decide (a = - 2 ^ 63 \/ b = - 2 ^ 63) then muls64 a b = Err UB
  else exists r, muls64 a b = Ok r /\ ok128 r /\ val128 r = (a * b) mod 2 ^ 128.
Proof.
  unfold muls64. rewrite !neg_abs by done. cbv zeta.
  repeat case_decide; cbn [res_bind]; try tauto. eexists. split; [reflexivity|].
  destruct (mul64_val (Z.abs a) (Z.abs b)) as [O V]; [lia | lia |]. set (r := mul64 _ _) in *. clearbody r.
  destruct (neg128_val r O) as [On Vn]. rewrite V, <- Z.abs_mul in Vn. rewrite <- Z.abs_mul in V.
  destruct (decide (a * b = 0)) as [Z0 | NZ].
  - rewrite Z0 in *. destruct (xorb _ _); (split; [assumption|]); [exact Vn | rewrite V; reflexivity].
  - rewrite signs_differ by done. destruct (Z.ltb_spec (a * b) 0); (split; [assumption|]).
    + rewrite Vn. f_equal. lia.
    + rewrite V, Z.mod_small; nia.
Qed.

(** C40: [mulu64] returns the exact 128-bit product of two unsigned 64-bit
    integers; [muls64] returns the product of two signed ones in two's complement
    on 128 bits, and is undefined when one of them is the least integer, which it
    negates. *)
Theorem mul128_ok (a b c d : Z) (Ha : 0 <= a < 2 ^ 64) (Hb : 0 <= b < 2 ^ 64)
    (Hc : - 2 ^ 63 <= c < 2 ^ 63) (Hd : - 2 ^ 63 <= d < 2 ^ 63) :
  (ok128 (mulu64 a b) /\ val128 (mulu64 a b) = a * b) /\
  if decide (c = - 2 ^ 63 \/ d = - 2 ^ 63) then muls64 c d = Err UB
  else exists r, muls64 c d = Ok r /\ ok128 r /\ val128 r = (c * d) mod 2 ^ 128.
Proof. split; [now apply mul64_val | now apply muls64_run]. Qed.

Lemma leading_run (v w : Z) : 0 <= v < 2 ^ 32 -> 0 <= w < 2 ^ 64 ->
  leading 32 false v (clz32 v) /\ leading 32 true v (clo32 v) /\
  leading 64 false w (clz64 w) /\ leading 64 true w (clo64 w).
Proof.
  intros Hv Hw. split; [now apply clz32_leading|]. split.
  { apply (leading_flip _ _ (not32 v)); [apply clz32_leading, u32_range | apply not32_bits]. }
  split; [now apply clz64_leading|].
  apply (leading_flip _ _ (not64 w)); [apply clz64_leading, u64_range | apply not64_bits].
Qed.

Lemma trailing_run (v w : Z) : 0 <= v < 2 ^ 32 -> 0 <= w < 2 ^ 64 ->
  trailing 32 false v (ctz32 v) /\ trailing 32 true v (cto32 v) /\
  trailing 64 false w (ctz64 w) /\ trailing 64 true w (cto64 w).
Proof.
  intros Hv Hw. split; [now apply ctz32_trailing|]. split.
  { apply (trailing_flip _ _ (not32 v)); [apply ctz32_trailing, u32_range | apply not32_bits]. }
  split; [now apply ctz64_trailing|].
  apply (trailing_flip _ _ (not64 w)); [apply ctz64_trailing, u64_range | apply not64_bits].
Qed.

(** The bit counts. The binary searches [clz], [clo], [ctz] and [cto], on 32
    and 64 bits, count the leading and trailing zeros and ones; the population
    counts, computed by adding neighbouring fields in parallel, equal the sum of
    the bits one by one. *)
Theorem bit_counts_ok (v w : Z) (Hv : 0 <= v < 2 ^ 32) (Hw : 0 <= w < 2 ^ 64) :
  (leading 32 false v (clz32 v) /\ leading 32 true v (clo32 v) /\
   leading 64 false w (clz64 w) /\ leading 64 true w (clo64 w)) /\
  (trailing 32 false v (ctz32 v) /\ trailing 32 true v (cto32 v) /\
   trailing 64 false w (ctz64 w) /\ trailing 64 true w (cto64 w)) /\
  (ctpop8 v = ones_in 8 v /\ ctpop16 v = ones_in 16 v /\ ctpop32 v = ones_in 32 v /\ ctpop64 w = ones_in 64 w).
Proof.
  split; [now apply leading_run|]. split; [now apply trailing_run|].
  auto using ctpop8_ones, ctpop16_ones, ctpop32_ones, ctpop64_ones.
Qed.

Lemma mul128_ok_witness : mulu64 0xFFFFFFFFFFFFFFFF 0xFFFFFFFFFFFFFFFE = (2, 0xFFFFFFFFFFFFFFFD) /\
  val128 (mulu64 0xFFFFFFFFFFFFFFFF 0xFFFFFFFFFFFFFFFE) = 0xFFFFFFFFFFFFFFFF * 0xFFFFFFFFFFFFFFFE /\
  muls64 (-3) 5 = Ok (0xFFFFFFFFFFFFFFF1, 0xFFFFFFFFFFFFFFFF) /\
  exists r, muls64 (-3) 5 = Ok r /\ ok128 r /\ val128 r = (-3 * 5) mod 2 ^ 128.
Proof.
  split; [reflexivity|].
  destruct (mul128_ok 0xFFFFFFFFFFFFFFFF 0xFFFFFFFFFFFFFFFE (-3) 5) as [[_ V] S]; [lia|lia|lia|lia|].
  split; [exact V|]. split; [reflexivity|exact S].
Defined.

Lemma bit_counts_ok_witness : clz32 0x00012300 = 15 /\ cto64 0xFFF = 12 /\ ctpop32 0x00012300 = 4 /\
  leading 32 false 0x00012300 (clz32 0x00012300) /\ trailing 64 true 0xFFF (cto64 0xFFF) /\
  ctpop32 0x00012300 = ones_in 32 0x00012300.
Proof.
  destruct (bit_counts_ok 0x00012300 0xFFF ltac:(lia) ltac:(lia)) as [(K & _) [(_ & _ & _ & K') (_ & _ & P & _)]].
  do 3 (split; [reflexivity|]). split; [exact K|]. split; [exact K'|exact P].
Defined.
