(* ===== verification/EnvList.v ===== *)
(** src/envlist.c: the list of environment variables that the command line
    builds for the guest, its operations [envlist_setenv], [envlist_unsetenv],
    [envlist_to_environ] and the comma-separated lists of [envlist_parse]. A C
    string is a [string] without its terminator, and no pointer is null (the
    callers in linux-user/main.c pass none); the calls to [malloc] and
    [strdup] are answered, in order, by [alloc], and a failure sets [errno]. *)

From S2P Require Import Prelude.
From Stdlib Require Import Ascii.
From stdpp Require Import strings.
#[local] Open Scope Z_scope.

(** ** The functions of <string.h> the source calls *)

Definition eq_sign : ascii := "="%char.
Definition comma : ascii := ","%char.
#[local] Arguments eq_sign : simpl never.
#[local] Arguments comma : simpl never.

(** [strchr (s, c)], as an offset. *)
Fixpoint strchr (s : string) (c : ascii) : option nat :=
  match s with
  | EmptyString => None
  | String x s => if Ascii.eqb x c then Some 0%nat else option_map S (strchr s c)
  end.

(** [strncmp (a, b, n) == 0] *)
Fixpoint strncmp_eq (n : nat) (a b : string) : bool :=
  match n, a, b with
  | O, _, _ => true
  | S _, EmptyString, EmptyString => true
  | S n, String x a, String y b => Ascii.eqb x y && strncmp_eq n a b
  | _, _, _ => false
  end.

(** The tokens of successive calls of [strtok_r (s, delim)]: the longest runs
    of characters other than the delimiter; [cur] is the run being read. *)
Fixpoint strtok (delim : ascii) (cur s : string) : list string :=
  match s with
  | EmptyString => if decide (cur = EmptyString) then [] else [cur]
  | String x s =>
      if Ascii.eqb x delim then (if decide (cur = EmptyString) then [] else [cur]) ++ strtok delim EmptyString s
      else strtok delim (cur ++ String x EmptyString) s
  end.

(** ** State *)

Definition EINVAL : Z := 22.
Definition ENOMEM : Z := 12.

(** The list, its counter, [errno], and how many allocations were made. *)
Record envlist := mkEnvlist {
  el_entries : list string; el_count : Z; errno : Z; allocs : nat }.

Definition set_entries (l : list string) (e : envlist) : envlist := mkEnvlist l (el_count e) (errno e) (allocs e).
Definition set_count (n : Z) (e : envlist) : envlist := mkEnvlist (el_entries e) n (errno e) (allocs e).

Definition envlist_create (err : Z) : envlist := mkEnvlist [] 0 err 0.

(** The loop that looks for an entry: what stands before it and behind it. *)
Fixpoint find_entry (n : nat) (env : string) (l : list string) : option (list string * string * list string) :=
  match l with
  | [] => None
  | v :: l => if strncmp_eq n v env then Some ([], v, l)
              else match find_entry n env l with
                   | Some (a, w, b) => Some (v :: a, w, b)
                   | None => None
                   end
  end.

Section Envlist.
Variable alloc : nat -> bool.

(** A [malloc] or [strdup]. *)
Definition allocate (e : envlist) : bool * envlist :=
  let ok := alloc (allocs e) in
  (ok, mkEnvlist (el_entries e) (el_count e) (if ok then errno e else ENOMEM) (S (allocs e))).

(** The result is what the C function returns. *)
Definition envlist_setenv (env : string) (e : envlist) : Z * envlist :=
  match strchr env eq_sign with
  | None => (EINVAL, e)
  | Some k =>
      let envname_len := (k + 1)%nat in
      let e := match find_entry envname_len env (el_entries e) with
               | Some (a, _, b) => set_entries (a ++ b) e
               | None => set_count (u32 (el_count e + 1)) e
               end in
      let '(ok, e) := allocate e in
      if negb ok then (errno e, e)
      else
        let '(ok, e) := allocate e in
        if negb ok then (errno e, e)
        else (0, set_entries (env :: el_entries e) e)
  end.

Definition envlist_unsetenv (env : string) (e : envlist) : Z * envlist :=
  match strchr env eq_sign with
  | Some _ => (EINVAL, e)
  | None =>
      let envname_len := String.length env in
      match find_entry envname_len env (el_entries e) with
      | Some (a, _, b) => (0, set_count (u32 (el_count e - 1)) (set_entries (a ++ b) e))
      | None => (0, e)
      end
  end.

(** The loop over the tokens. *)
Fixpoint parse_tokens (callback : string -> envlist -> Z * envlist) (l : list string) (e : envlist) : Z * envlist :=
  match l with
  | [] => (0, e)
  | v :: l => let '(r, e) := callback v e in
              if negb (r =? 0) then (errno e, e) else parse_tokens callback l e
  end.

Definition envlist_parse (callback : string -> envlist -> Z * envlist) (env : string) (e : envlist) : Z * envlist :=
  let '(ok, e) := allocate e in
  if negb ok then (errno e, e) else parse_tokens callback (strtok comma EmptyString env) e.

Definition envlist_parse_set (env : string) (e : envlist) : Z * envlist := envlist_parse envlist_setenv env e.
Definition envlist_parse_unset (env : string) (e : envlist) : Z * envlist := envlist_parse envlist_unsetenv env e.

(** [envlist_to_environ], when its allocations succeed: the array, and whether
    it stays within the [el_count + 1] pointers allocated for it. *)
Definition envlist_to_environ (e : envlist) : res (list (option string)) :=
  let a := map Some (el_entries e) ++ [None] in
  if Z.of_nat (List.length a) * 4 <=? u32 ((el_count e + 1) * 4) then Ok a else Err UB.

End Envlist.

(** ** The specification: a finite map *)

(** An entry [NAME=value], split at the first equals sign. *)
Fixpoint split_eq (s : string) : option (string * string) :=
  match s with
  | EmptyString => None
  | String x s => if Ascii.eqb x eq_sign then Some (EmptyString, s)
                  else match split_eq s with Some (n, v) => Some (String x n, v) | None => None end
  end.

Definition bindings (l : list string) : list (string * string) := omap split_eq l.
#[local] Arguments bindings : simpl never.
Definition env_map (e : envlist) : gmap string string := list_to_map (bindings (el_entries e)).

(** Every entry is an assignment, and no name occurs twice. *)
Record env_names (l : list string) : Prop := {
  en_split : forall v, v ∈ l -> is_Some (split_eq v);
  en_unique : NoDup (bindings l).*1 }.
Definition env_inv (e : envlist) : Prop :=
  env_names (el_entries e) /\ el_count e = Z.of_nat (List.length (el_entries e)).

Lemma split_strchr s : strchr s eq_sign = match split_eq s with Some (n, _) => Some (String.length n) | None => None end.
Proof.
  induction s as [|x s IH]; cbn; [done|]. destruct (Ascii.eqb x eq_sign); [done|]. rewrite IH.
  now destruct (split_eq s) as [[n v]|].
Qed.

(** The comparison of [envlist_setenv], one past the name, compares names. *)
Lemma strncmp_name s t n v n' v' : split_eq s = Some (n, v) -> split_eq t = Some (n', v') ->
  strncmp_eq (String.length n + 1) t s = bool_decide (n' = n).
Proof.
  revert t n n'. induction s as [|x s IH]; intros t n n' Es Et; [discriminate|]. cbn in Es.
  destruct t as [|y t]; [discriminate|]. cbn in Et.
  destruct (Ascii.eqb_spec x eq_sign) as [->|Nx]; destruct (Ascii.eqb_spec y eq_sign) as [->|Ny].
  - injection Es as <- <-. injection Et as <- <-. cbn. rewrite Ascii.eqb_refl. now rewrite bool_decide_eq_true_2.
  - injection Es as <- <-. destruct (split_eq t) as [[n0 v0]|]; [|discriminate]. injection Et as <- <-. cbn.
    rewrite (proj2 (Ascii.eqb_neq y eq_sign)) by done. rewrite bool_decide_eq_false_2 by done. done.
  - destruct (split_eq s) as [[n0 v0]|]; [|discriminate]. injection Es as <- <-. injection Et as <- <-.
    cbn. rewrite (proj2 (Ascii.eqb_neq eq_sign x)) by congruence. now rewrite bool_decide_eq_false_2.
  - destruct (split_eq s) as [[n0 v0]|] eqn:E1; [|discriminate]. destruct (split_eq t) as [[n1 v1]|] eqn:E2; [|discriminate].
    injection Es as <- <-. injection Et as <- <-. cbn. rewrite (IH t n0 n1 eq_refl E2).
    destruct (Ascii.eqb_spec y x) as [->|D]; cbn; [apply bool_decide_ext; split; congruence|].
    now rewrite bool_decide_eq_false_2 by congruence.
Qed.

Lemma bindings_app a b : bindings (a ++ b) = bindings a ++ bindings b.
Proof. apply omap_app. Qed.
Lemma bindings_cons v l n x : split_eq v = Some (n, x) -> bindings (v :: l) = (n, x) :: bindings l.
Proof. intros E. unfold bindings. cbn. now rewrite E. Qed.

(** What the search finds. *)
Lemma find_entry_spec k env l :
  match find_entry k env l with
  | Some (a, w, b) => l = a ++ w :: b /\ strncmp_eq k w env = true /\ forall v, v ∈ a -> strncmp_eq k v env = false
  | None => forall v, v ∈ l -> strncmp_eq k v env = false
  end.
Proof.
  induction l as [|v l IH]; cbn; [intros v Hv; now apply not_elem_of_nil in Hv|].
  destruct (strncmp_eq k v env) eqn:E.
  - split; [done|]. split; [done|]. intros u Hu. now apply not_elem_of_nil in Hu.
  - destruct (find_entry k env l) as [[[a w] b]|].
    + destruct IH as (-> & W & A). split; [done|]. split; [done|]. intros u Hu.
      apply elem_of_cons in Hu as [->|Hu]; auto.
    + intros u Hu. apply elem_of_cons in Hu as [->|Hu]; auto.
Qed.

(** Removing an entry deletes its name. *)
Lemma env_names_remove a w b : env_names (a ++ w :: b) -> env_names (a ++ b) /\ exists n x, split_eq w = Some (n, x) /\
  (list_to_map (bindings (a ++ b)) : gmap string string) = delete n (list_to_map (bindings (a ++ w :: b))) /\
  (n ∉ (bindings (a ++ b)).*1) /\ n ∈ (bindings (a ++ w :: b)).*1.
Proof.
  intros [Hs U]. destruct (Hs w) as [[n x] E]; [set_solver|].
  assert (E1 : bindings (a ++ w :: b) = bindings a ++ (n, x) :: bindings b)
    by (rewrite bindings_app; f_equal; exact (bindings_cons w b n x E)).
  assert (E2 : bindings (a ++ b) = bindings a ++ bindings b) by apply bindings_app.
  rewrite E1 in *. rewrite E2.
  assert (P : (bindings a ++ (n, x) :: bindings b).*1 ≡ₚ n :: (bindings a ++ bindings b).*1).
  { rewrite !fmap_app. cbn. now rewrite Permutation_middle. }
  pose proof U as U'. rewrite P in U'. apply NoDup_cons in U' as [N U'].
  split.
  - constructor; [|now rewrite E2]; intros v [Hv|Hv]%elem_of_app; apply Hs, elem_of_app;
      [now left|right; now apply list_elem_of_further].
  - exists n, x. split; [done|]. split; [|split; [done|rewrite P; apply list_elem_of_here]].
    rewrite (list_to_map_proper (bindings a ++ (n, x) :: bindings b) ((n, x) :: bindings a ++ bindings b)) by
      (exact U || now rewrite Permutation_middle).
    cbn. rewrite delete_insert_id; [done|]. now apply not_elem_of_list_to_map.
Qed.

(** Adding an entry inserts it. *)
Lemma env_names_add l env n x : env_names l -> split_eq env = Some (n, x) -> n ∉ (bindings l).*1 ->
  env_names (env :: l) /\ list_to_map (bindings (env :: l)) = <[n := x]> (list_to_map (bindings l) : gmap string string).
Proof.
  intros [S U] E N. rewrite (bindings_cons _ _ _ _ E). split; [|done]. constructor.
  - intros v Hv. apply elem_of_cons in Hv as [->|Hv]; eauto.
  - rewrite (bindings_cons _ _ _ _ E). cbn. now constructor.
Qed.

Lemma bindings_name l n : n ∈ (bindings l).*1 -> exists v x, v ∈ l /\ split_eq v = Some (n, x).
Proof.
  intros Hn. apply list_elem_of_fmap in Hn as ([m x] & -> & Hb). unfold bindings in Hb.
  apply list_elem_of_omap in Hb as (v & Hv & E). eauto.
Qed.

(** The comparison of [envlist_unsetenv] asks for a prefix of the name. *)
Lemma strncmp_prefix s t n x : split_eq s = None -> split_eq t = Some (n, x) ->
  strncmp_eq (String.length s) t s = String.prefix s n.
Proof.
  revert t n. induction s as [|c s IH]; intros t n Es Et; [now destruct t, n|]. cbn in Es.
  destruct (Ascii.eqb_spec c eq_sign) as [->|Nc]; [discriminate|].
  destruct (split_eq s) as [[? ?]|] eqn:E1; [discriminate|].
  destruct t as [|y t]; [discriminate|]. cbn in Et. destruct (Ascii.eqb_spec y eq_sign) as [->|Ny].
  - injection Et as <- <-. cbn. now rewrite (proj2 (Ascii.eqb_neq eq_sign c)) by congruence.
  - destruct (split_eq t) as [[n0 x0]|] eqn:E2; [|discriminate]. injection Et as <- <-. cbn.
    destruct (ascii_dec c y) as [->|D]; [now rewrite Ascii.eqb_refl, (IH t n0)|].
    now rewrite (proj2 (Ascii.eqb_neq y c)) by congruence.
Qed.

Lemma prefix_refl s : String.prefix s s = true.
Proof. induction s as [|c s IH]; cbn; [done|]. now destruct (ascii_dec c c). Qed.

Lemma env_map_name e n : is_Some (env_map e !! n) <-> n ∈ (bindings (el_entries e)).*1.
Proof. unfold env_map. rewrite <- elem_of_dom, dom_list_to_map_L. set_solver. Qed.

(** After the old entry is gone: the state [envlist_setenv] allocates in. *)
Lemma setenv_removed env n x e : env_inv e -> split_eq env = Some (n, x) -> el_count e + 1 < 4294967296 ->
  exists l, match find_entry (String.length n + 1) env (el_entries e) with
            | Some (a, _, b) => set_entries (a ++ b) e
            | None => set_count (u32 (el_count e + 1)) e
            end = mkEnvlist l (Z.of_nat (List.length l) + 1) (errno e) (allocs e) /\
    env_names l /\ Z.of_nat (List.length l) <= el_count e /\ (n ∉ (bindings l).*1) /\ (list_to_map (bindings l) : gmap string string) = delete n (env_map e).
Proof.
  intros [En Cn] E Lt. pose proof (find_entry_spec (String.length n + 1) env (el_entries e)) as K.
  destruct (find_entry _ env (el_entries e)) as [[[a w] b]|].
  - destruct K as (El & W & _). rewrite El in En, Cn. destruct (env_names_remove a w b En) as (En' & m & y & Em & Mp & Nm & _).
    rewrite (strncmp_name env w n x m y E Em), bool_decide_eq_true in W. subst m.
    rewrite length_app in Cn. cbn [List.length] in Cn.
    exists (a ++ b). split; [|split; [done|split; [rewrite length_app; lia|split; [done|unfold env_map; now rewrite El]]]].
    unfold set_entries. f_equal. rewrite Cn, length_app. lia.
  - exists (el_entries e). unfold set_count. rewrite u32_small, Cn by lia. split; [done|].
    assert (N : n ∉ (bindings (el_entries e)).*1).
    { intros Hn. apply bindings_name in Hn as (v & y & Hv & Ev). pose proof (K v Hv) as F.
      rewrite (strncmp_name env v n x n y E Ev) in F. now rewrite bool_decide_eq_true_2 in F. }
    split; [done|]. split; [lia|]. split; [done|]. unfold env_map. rewrite delete_id; [done|]. now apply not_elem_of_list_to_map.
Qed.

(** The outcome of [envlist_setenv] as a function of the text. *)
Definition setenv_spec (alloc : nat -> bool) (env : string) (e : envlist) (r : Z) (e' : envlist) : Prop :=
  match split_eq env with
  | None => r = EINVAL /\ e' = e
  | Some (n, x) =>
      if alloc (allocs e) && alloc (S (allocs e))
      then r = 0 /\ env_inv e' /\ env_map e' = <[n := x]> (env_map e) /\ errno e' = errno e /\
           el_count e' <= el_count e + 1
      else r = ENOMEM /\ env_names (el_entries e') /\ env_map e' = delete n (env_map e) /\
           el_count e' = Z.of_nat (List.length (el_entries e')) + 1
  end.

Lemma setenv_run alloc env e : env_inv e -> el_count e + 1 < 4294967296 ->
  setenv_spec alloc env e (envlist_setenv alloc env e).1 (envlist_setenv alloc env e).2.
Proof.
  intros I Lt. unfold setenv_spec, envlist_setenv. rewrite split_strchr.
  destruct (split_eq env) as [[n x]|] eqn:E; [|done]. cbv zeta.
  destruct (setenv_removed env n x e I E Lt) as (l & -> & En & Cl & Nm & Mp).
  unfold allocate. cbn [allocs errno el_entries el_count]. destruct (alloc (allocs e)); cbn [andb negb];
    [|now cbn].
  destruct (alloc (S (allocs e))); cbn [negb]; [|now cbn].
  destruct (env_names_add l env n x En E Nm) as [En' Mp'].
  split; [done|]. split; [split; cbn; [exact En'|lia]|]. split; [|cbn; split; [done|lia]].
  change (list_to_map (bindings (env :: l)) = <[n := x]> (env_map e)). rewrite Mp', Mp. now rewrite insert_delete_eq.
Qed.

(** Setting a list of variables, in the specification. *)
Definition set_all (l : list string) (M : gmap string string) : gmap string string :=
  foldl (fun M v => match split_eq v with Some (n, x) => <[n := x]> M | None => M end) M l.

Lemma parse_run alloc l : forall rest e, env_inv e -> el_count e + Z.of_nat (List.length l) < 4294967296 ->
  (forall v, v ∈ l -> is_Some (split_eq v)) -> (forall k, alloc k = true) ->
  exists e', parse_tokens (envlist_setenv alloc) (l ++ rest) e = parse_tokens (envlist_setenv alloc) rest e' /\
    env_inv e' /\ env_map e' = set_all l (env_map e) /\ errno e' = errno e /\
    el_count e' <= el_count e + Z.of_nat (List.length l).
Proof.
  induction l as [|v l IH]; intros rest e I Lt Sp Al; [exists e; split; [done|]; split; [done|]; split; [done|]; split; [done|cbn; lia]|].
  cbn [List.length] in Lt. pose proof (setenv_run alloc v e I ltac:(lia)) as K. unfold setenv_spec in K.
  destruct (Sp v) as [[n x] E]; [set_solver|]. rewrite E, !Al in K. cbn [andb] in K.
  cbn [app parse_tokens]. destruct (envlist_setenv alloc v e) as [r e1] eqn:R. cbn [fst snd] in K.
  destruct K as (-> & I1 & M1 & R1 & Cb). cbn [Z.eqb negb].
  destruct (IH rest e1 I1) as (e' & P & I' & M' & R' & B'); [|intros u Hu; apply Sp; now apply list_elem_of_further|done|].
  { lia. }
  exists e'. split; [exact P|]. split; [done|].
  split; [|split; [congruence|cbn [List.length]; lia]]. rewrite M', M1. unfold set_all. cbn. now rewrite E.
Qed.

(** ** The theorems *)

(** C38: on a list of assignments with distinct names [envlist_setenv] inserts
    the binding of its argument into the finite map the list stands for, returns
    [EINVAL] and changes nothing for a text without an equals sign, and when an
    allocation fails returns [ENOMEM] with the old binding gone and the counter
    one ahead of the list. *)
Theorem envlist_setenv_ok alloc env e : env_inv e -> el_count e + 1 < 4294967296 ->
  setenv_spec alloc env e (envlist_setenv alloc env e).1 (envlist_setenv alloc env e).2.
Proof. apply setenv_run. Qed.

(** [envlist_unsetenv] removes at most one binding: some binding whose name
    starts with the argument, when there is one. It is the removal of the
    argument from the map only if no other name starts with it. *)
Theorem envlist_unsetenv_ok env e : env_inv e -> el_count e < 4294967296 ->
  let '(r, e') := envlist_unsetenv env e in
  match split_eq env with
  | Some _ => r = EINVAL /\ e' = e
  | None =>
      r = 0 /\ env_inv e' /\
      ((forall n, is_Some (env_map e !! n) -> String.prefix env n = false) /\ e' = e \/
       exists n, is_Some (env_map e !! n) /\ String.prefix env n = true /\ env_map e' = delete n (env_map e)) /\
      ((forall n, is_Some (env_map e !! n) -> String.prefix env n = true -> n = env) ->
       env_map e' = delete env (env_map e))
  end.
Proof.
  intros I Lt. unfold envlist_unsetenv. rewrite split_strchr.
  destruct (split_eq env) as [[n x]|] eqn:E; [done|]. cbv zeta.
  pose proof (find_entry_spec (String.length env) env (el_entries e)) as K.
  destruct (find_entry _ env (el_entries e)) as [[[a w] b]|].
  - destruct K as (El & W & _). destruct I as [En Cn]. rewrite El in En, Cn.
    destruct (env_names_remove a w b En) as (En' & m & y & Em & Mp & Nm & Hm).
    rewrite (strncmp_prefix env w m y E Em) in W.
    assert (Hs : is_Some (env_map e !! m)) by (apply env_map_name; now rewrite El).
    assert (Q : env_map (set_count (u32 (el_count e - 1)) (set_entries (a ++ b) e)) = delete m (env_map e))
      by (unfold env_map at 2; rewrite El; exact Mp).
    split; [done|]. split; [split; [exact En'|]|].
    + cbn. rewrite Cn, !length_app in *. cbn [List.length] in *. rewrite u32_small; lia.
    + split; [right; now exists m|]. intros U. now rewrite Q, (U m Hs W).
  - assert (None_ : forall n, is_Some (env_map e !! n) -> String.prefix env n = false).
    { intros n Hn. apply env_map_name, bindings_name in Hn as (v & y & Hv & Ev).
      rewrite <- (strncmp_prefix env v n y E Ev). now apply K. }
    split; [done|]. split; [done|]. split; [now left|]. intros _. rewrite delete_id; [done|].
    apply eq_None_not_Some. intros Hs. pose proof (None_ env Hs) as F. now rewrite prefix_refl in F.
Qed.

(** C39: [envlist_parse_set] sets the variables of a comma-separated list in
    order, up to the first element without an equals sign; there it stops with
    whatever [errno] was before, which is success when that is zero.
    [envlist_to_environ] then returns the entries and stays within its array. *)
Theorem envlist_parse_set_ok alloc env e l rest : env_inv e -> (forall k, alloc k = true) ->
  strtok comma EmptyString env = l ++ rest -> (forall v, v ∈ l -> is_Some (split_eq v)) ->
  match rest with v :: _ => split_eq v = None | [] => True end ->
  el_count e + Z.of_nat (List.length l) < 1073741823 ->
  exists e', envlist_parse_set alloc env e = (match rest with [] => 0 | _ => errno e end, e') /\
    env_inv e' /\ env_map e' = set_all l (env_map e) /\
    envlist_to_environ e' = Ok (map Some (el_entries e') ++ [None]).
Proof.
  intros I Al Tk Sp Rs Lt. unfold envlist_parse_set, envlist_parse, allocate. rewrite Al. cbn [negb]. rewrite Tk.
  set (e0 := mkEnvlist _ _ _ _).
  destruct (parse_run alloc l rest e0) as (e' & P & I' & M' & R' & B'); [exact I|unfold e0; cbn [el_count]; lia|done|done|].
  exists e'. split; [|split; [done|split; [exact M'|]]].
  - rewrite P. destruct rest as [|v rest]; [done|]. cbn [parse_tokens].
    unfold envlist_setenv. rewrite split_strchr, Rs. cbn. now rewrite R'.
  - unfold envlist_to_environ. rewrite length_app, length_map. cbn [List.length]. destruct I' as [_ C'].
    change (el_count e0) with (el_count e) in B'. rewrite u32_small by lia. rewrite (proj2 (Z.leb_le _ _)) by lia. done.
Qed.

(** ** Examples *)

Definition demo_env : envlist := mkEnvlist ["FOOBAR=1"%string; "HOME=/root"%string] 2 0 0.

Lemma demo_env_inv : env_inv demo_env.
Proof.
  split; [|reflexivity]. constructor; [|apply (bool_decide_unpack _); vm_compute; exact I].
  intros v Hv. repeat (apply elem_of_cons in Hv as [->|Hv]; [vm_compute; eauto|]). now apply not_elem_of_nil in Hv.
Qed.

Lemma envlist_setenv_ok_witness :
  setenv_spec (fun _ => true) "HOME=/tmp" demo_env (envlist_setenv (fun _ => true) "HOME=/tmp" demo_env).1
    (envlist_setenv (fun _ => true) "HOME=/tmp" demo_env).2 /\
  el_entries (envlist_setenv (fun _ => true) "HOME=/tmp" demo_env).2 = ["HOME=/tmp"%string; "FOOBAR=1"%string].
Proof. split; [apply (envlist_setenv_ok (fun _ => true) "HOME=/tmp" demo_env demo_env_inv); reflexivity|reflexivity]. Defined.

(** Unsetting FOO removes FOOBAR. *)
Lemma envlist_unsetenv_ok_witness :
  let '(r, e') := envlist_unsetenv "FOO" demo_env in
  r = 0 /\ env_inv e' /\ el_entries e' = ["HOME=/root"%string].
Proof.
  pose proof (envlist_unsetenv_ok "FOO" demo_env demo_env_inv ltac:(reflexivity)) as K.
  change (envlist_unsetenv "FOO" demo_env) with (0, mkEnvlist ["HOME=/root"%string] 1 0 0) in *.
  cbv beta iota in *. destruct K as (R & I & _). split; [exact R|]. split; [exact I|reflexivity].
Defined.

(** A bad element, with [errno] zero: reported as success. *)
Lemma envlist_parse_set_ok_witness :
  exists e', envlist_parse_set (fun _ => true) "A=1,BAD,C=3" demo_env = (0, e') /\ env_inv e' /\
    env_map e' !! "A"%string = Some "1"%string /\ env_map e' !! "C"%string = None.
Proof.
  destruct (envlist_parse_set_ok (fun _ => true) "A=1,BAD,C=3" demo_env ["A=1"%string] ["BAD"%string; "C=3"%string]
    demo_env_inv) as (e' & R & I & M & _); try reflexivity.
  - intros v Hv. apply list_elem_of_singleton in Hv as ->. vm_compute. eauto.
  - exists e'. split; [exact R|]. split; [exact I|]. rewrite M. now vm_compute.
Defined.
