(* ===== verification/PageTable.v ===== *)
(** src/exec.c, the page table of the guest: the multi-level map [l1_map] of
    page flags with [page_find_alloc], the operations on flags
    ([page_get_flags], [page_set_flags], [page_check_range], [page_unprotect])
    and the enumeration of regions [walk_memory_regions]. The anonymous [mmap]
    of a new level succeeds and returns zeroed memory; a null pointer is
    [None]. *)

From S2P Require Import Prelude Memory Opcode Decode State TransBlock.

(** ** Constants *)

Definition TARGET_PAGE_SIZE : Z := Z.shiftl 1 TARGET_PAGE_BITS.
Definition TARGET_PAGE_MASK : Z := u32 (Z.lnot (TARGET_PAGE_SIZE - 1)).
Definition TARGET_PAGE_ALIGN (addr : Z) : Z := Z.land (u32 (addr + TARGET_PAGE_SIZE - 1)) TARGET_PAGE_MASK.

Definition PAGE_READ : Z := 0x0001.
Definition PAGE_WRITE : Z := 0x0002.
Definition PAGE_EXEC : Z := 0x0004.
Definition PAGE_VALID : Z := 0x0008.
Definition PAGE_WRITE_ORG : Z := 0x0010.

Definition L1_MAP_ADDR_SPACE_BITS : Z := 32.
Definition L2_BITS : Z := 10.
Definition L2_SIZE : Z := Z.shiftl 1 L2_BITS.
Definition V_L1_BITS_REM : Z := (L1_MAP_ADDR_SPACE_BITS - TARGET_PAGE_BITS) mod L2_BITS.
Definition V_L1_BITS : Z := if V_L1_BITS_REM <? 4 then V_L1_BITS_REM + L2_BITS else V_L1_BITS_REM.
Definition V_L1_SIZE : Z := Z.shiftl 1 V_L1_BITS.
Definition V_L1_SHIFT : Z := L1_MAP_ADDR_SPACE_BITS - TARGET_PAGE_BITS - V_L1_BITS.

(** ** The map *)

(** The fields in use: the blocks of the page, which nothing sets, and flags. *)
Record PageDesc := mkPd { first_tb : Z; pd_flags : Z }.
Definition pd_zero : PageDesc := mkPd 0 0.

(** A pointer to a table with [l] levels of pointers above the descriptors. *)
Fixpoint level_map (l : nat) : Type :=
  match l with
  | O => option (Z -> PageDesc)
  | S l => option (Z -> level_map l)
  end.
Definition level_null (l : nat) : level_map l := match l with O => None | S _ => None end.

(** The index of a page in the table at level [l]. *)
Definition level_index (l : nat) (index : Z) : Z :=
  Z.land (Z.shiftr index (Z.of_nat l * L2_BITS)) (L2_SIZE - 1).

(** The loop of [page_find_alloc] from level [l]: the map, with the levels it
    allocated, and the descriptor. *)
Fixpoint find_alloc (l : nat) (index : Z) (alloc : bool) : level_map l -> level_map l * option PageDesc :=
  match l with
  | O => fun pd =>
      match pd with
      | Some d => (Some d, Some (d (level_index 0 index)))
      | None => if negb alloc then (None, None) else (Some (fun _ => pd_zero), Some pd_zero)
      end
  | S l' => fun p =>
      let k := level_index (S l') index in
      let next d := let '(q, r) := find_alloc l' index alloc (d k) in (Some (<[k := q]> d), r) in
      match p with
      | Some d => next d
      | None => if negb alloc then (None, None) else next (fun _ => level_null l')
      end
  end.

(** An assignment through the pointer [find_alloc] returns. *)
Fixpoint assign (l : nat) (index : Z) (pd : PageDesc) : level_map l -> level_map l :=
  match l with
  | O => option_map (fun d => <[level_index 0 index := pd]> d)
  | S l' => option_map (fun d => let k := level_index (S l') index in <[k := assign l' index pd (d k)]> d)
  end.

Definition top_level : nat := Z.to_nat (V_L1_SHIFT / L2_BITS - 1).
Abbreviation pagemap := (Z -> level_map top_level).
Definition l1_index (index : Z) : Z := Z.land (Z.shiftr index V_L1_SHIFT) (V_L1_SIZE - 1).
Definition l1_empty : pagemap := fun _ => level_null top_level.

Definition page_find_alloc (index : Z) (alloc : bool) (m : pagemap) : pagemap * option PageDesc :=
  let k := l1_index index in
  let '(q, r) := find_alloc top_level index alloc (m k) in (<[k := q]> m, r).
Definition page_find (index : Z) (m : pagemap) : option PageDesc := (page_find_alloc index false m).2.
Definition page_assign (index : Z) (pd : PageDesc) (m : pagemap) : pagemap :=
  let k := l1_index index in <[k := assign top_level index pd (m k)]> m.

(** ** Flags *)

Definition page_get_flags (address : Z) (m : pagemap) : Z :=
  match page_find (Z.shiftr address TARGET_PAGE_BITS) m with
  | None => 0
  | Some p => pd_flags p
  end.

Definition tb_invalidate_phys_page {A} (addr : Z) : res A := Err Abort.

(** The loop of [page_set_flags]; [n] bounds its iterations. *)
Fixpoint set_flags_loop (n : nat) (flags addr len : Z) (m : pagemap) : res pagemap :=
  if len =? 0 then Ok m
  else match n with
       | O => Err Fuel
       | S n =>
           match page_find_alloc (Z.shiftr addr TARGET_PAGE_BITS) true m with
           | (m, Some p) =>
               if negb (hasb (pd_flags p) PAGE_WRITE) && hasb flags PAGE_WRITE && negb (first_tb p =? 0)
               then tb_invalidate_phys_page addr
               else
                 let m := page_assign (Z.shiftr addr TARGET_PAGE_BITS) (mkPd (first_tb p) flags) m in
                 set_flags_loop n flags (u32 (addr + TARGET_PAGE_SIZE)) (u32 (len - TARGET_PAGE_SIZE)) m
           | (_, None) => Err UB
           end
       end.

Definition page_set_flags (start end_ flags : Z) (m : pagemap) : res pagemap :=
  if negb (start <? end_) then Err Abort
  else
    let start := Z.land start TARGET_PAGE_MASK in
    let end_ := TARGET_PAGE_ALIGN end_ in
    let flags := if hasb flags PAGE_WRITE then Z.lor flags PAGE_WRITE_ORG else flags in
    let len := u32 (end_ - start) in
    set_flags_loop (Z.to_nat (len / TARGET_PAGE_SIZE)) flags start len m.

Section HostPages.
Variable qemu_host_page_size : Z.

(** The loop over the target pages of the host page aborts in its first
    iteration, which invalidates translated code; [mprotect] is the host's. *)
Definition page_unprotect (address : Z) (m : pagemap) : res Z :=
  match page_find (Z.shiftr address TARGET_PAGE_BITS) m with
  | None => Ok 0
  | Some p =>
      if hasb (pd_flags p) PAGE_WRITE_ORG && negb (hasb (pd_flags p) PAGE_WRITE) then
        let host_start := Z.land address (u32 (Z.lnot (qemu_host_page_size - 1))) in
        let host_end := u32 (host_start + qemu_host_page_size) in
        if host_start <? host_end then
          match page_find (Z.shiftr host_start TARGET_PAGE_BITS) m with
          | None => Err UB
          | Some _ => tb_invalidate_phys_page host_start
          end
        else Ok 1
      else Ok 0
  end.

Fixpoint check_range_loop (n : nat) (flags addr len : Z) (m : pagemap) : res Z :=
  if len =? 0 then Ok 0
  else match n with
       | O => Err Fuel
       | S n =>
           match page_find (Z.shiftr addr TARGET_PAGE_BITS) m with
           | None => Ok (-1)
           | Some p =>
               if negb (hasb (pd_flags p) PAGE_VALID) then Ok (-1)
               else if hasb flags PAGE_READ && negb (hasb (pd_flags p) PAGE_READ) then Ok (-1)
               else if hasb flags PAGE_WRITE then
                 if negb (hasb (pd_flags p) PAGE_WRITE_ORG) then Ok (-1)
                 else if negb (hasb (pd_flags p) PAGE_WRITE) then
                   let? r := page_unprotect addr m in
                   if r =? 0 then Ok (-1) else Ok 0
                 else Ok 0
               else check_range_loop n flags (u32 (addr + TARGET_PAGE_SIZE)) (u32 (len - TARGET_PAGE_SIZE)) m
           end
       end.

Definition page_check_range (start len flags : Z) (m : pagemap) : res Z :=
  if len =? 0 then Ok 0
  else if u32 (start + len - 1) <? start then Ok (-1)
  else
    let end_ := TARGET_PAGE_ALIGN (u32 (start + len)) in
    let start := Z.land start TARGET_PAGE_MASK in
    let len := u32 (end_ - start) in
    check_range_loop (Z.to_nat (len / TARGET_PAGE_SIZE)) flags start len m.

End HostPages.

(** ** Enumerating regions *)

(** [for (i = 0; i < n; i++)] with a body that may return a non-zero value. *)
Fixpoint for_rc {W} (n : nat) (i : Z) (body : Z -> W -> Z * W) (w : W) : Z * W :=
  match n with
  | O => (0, w)
  | S n => let '(rc, w) := body i w in if negb (rc =? 0) then (rc, w) else for_rc n (i + 1) body w
  end.

Section Walk.
Context {P : Type}.
Variable fn : P -> Z -> Z -> Z -> Z * P.

(** [struct walk_memory_regions_data]; [start] is [None] for [-1ul]. *)
Record walk_data := mkWalk { priv : P; w_start : option Z; w_prot : Z }.

Definition walk_memory_regions_end (end_ new_prot : Z) (d : walk_data) : Z * walk_data :=
  let '(rc, p) := match w_start d with
                  | Some s => fn (priv d) s end_ (w_prot d)
                  | None => (0, priv d)
                  end in
  if negb (rc =? 0) then (rc, mkWalk p (w_start d) (w_prot d))
  else (0, mkWalk p (if new_prot =? 0 then None else Some end_) new_prot).

Fixpoint walk_memory_regions_1 (level : nat) (base : Z) : level_map level -> walk_data -> Z * walk_data :=
  match level with
  | O => fun lp data =>
      match lp with
      | None => walk_memory_regions_end base 0 data
      | Some pd =>
          for_rc (Z.to_nat L2_SIZE) 0 (fun i data =>
            let prot := pd_flags (pd i) in
            let pa := Z.lor base (u32 (Z.shiftl i TARGET_PAGE_BITS)) in
            if negb (prot =? w_prot data) then walk_memory_regions_end pa prot data else (0, data)) data
      end
  | S l => fun lp data =>
      match lp with
      | None => walk_memory_regions_end base 0 data
      | Some pp =>
          for_rc (Z.to_nat L2_SIZE) 0 (fun i data =>
            let pa := Z.lor base (u32 (Z.shiftl i (TARGET_PAGE_BITS + L2_BITS * Z.of_nat (S l)))) in
            walk_memory_regions_1 l pa (pp i) data) data
      end
  end.

Definition walk_memory_regions (p : P) (m : pagemap) : Z * walk_data :=
  let '(rc, data) := for_rc (Z.to_nat V_L1_SIZE) 0 (fun i data =>
    walk_memory_regions_1 top_level (u32 (Z.shiftl i V_L1_SHIFT)) (m i) data) (mkWalk p None 0) in
  if negb (rc =? 0) then (rc, data) else walk_memory_regions_end 0 0 data.

End Walk.

(** ** The map as a function of page numbers *)

Definition dflt (o : option PageDesc) : PageDesc := default pd_zero o.

Definition look (l : nat) (index : Z) (lp : level_map l) : option PageDesc := (find_alloc l index false lp).2.

Lemma look_null l j : look l j (level_null l) = None.
Proof. now destruct l. Qed.

Lemma look_S l j (d : Z -> level_map l) : look (S l) j (Some d : level_map (S l)) = look l j (d (level_index (S l) j)).
Proof. unfold look. cbn. now destruct (find_alloc l j false (d _)). Qed.

(** Allocation returns the descriptor, a zero one where there was none, and
    changes none. *)
Lemma alloc_result l idx : forall lp, (find_alloc l idx true lp).2 = Some (dflt (look l idx lp)).
Proof.
  induction l as [|l IH]; intros [d|]; cbn; try done.
  - rewrite look_S. specialize (IH (d (level_index (S l) idx))). now destruct (find_alloc l idx true _).
  - specialize (IH (level_null l)). rewrite look_null in IH. now destruct (find_alloc l idx true _).
Qed.

Lemma alloc_look l idx j : forall lp, dflt (look l j (find_alloc l idx true lp).1) = dflt (look l j lp).
Proof.
  induction l as [|l IH]; intros [d|]; cbn; try done.
  - specialize (IH (d (level_index (S l) idx))). destruct (find_alloc l idx true _) as [q r]. cbn in *.
    rewrite !look_S. destruct (decide (level_index (S l) idx = level_index (S l) j)) as [<-|D].
    + now rewrite fn_lookup_insert.
    + now rewrite fn_lookup_insert_ne.
  - specialize (IH (level_null l)). rewrite look_null in IH. destruct (find_alloc l idx true _) as [q r]. cbn in *.
    rewrite look_S. destruct (decide (level_index (S l) idx = level_index (S l) j)) as [<-|D].
    + now rewrite fn_lookup_insert.
    + rewrite fn_lookup_insert_ne, look_null by done. done.
Qed.

(** Two page numbers with the same indices from level [l] down. *)
Fixpoint same_from (l : nat) (i j : Z) : bool :=
  (level_index l i =? level_index l j) && match l with O => true | S l => same_from l i j end.

Lemma assign_look l idx pd j : forall lp, dflt (look l j (assign l idx pd (find_alloc l idx true lp).1)) =
  if same_from l idx j then pd else dflt (look l j lp).
Proof.
  assert (K : forall d : Z -> PageDesc, dflt (look 0 j (Some (<[level_index 0 idx := pd]> d) : level_map 0)) =
      if same_from 0 idx j then pd else d (level_index 0 j)).
  { intros d. unfold look. cbn. rewrite andb_true_r. destruct (Z.eqb_spec (level_index 0 idx) (level_index 0 j)) as [<-|D].
    - now rewrite fn_lookup_insert.
    - now rewrite fn_lookup_insert_ne. }
  assert (K2 : forall l (d : Z -> level_map l), (forall lp, dflt (look l j (assign l idx pd (find_alloc l idx true lp).1)) =
        if same_from l idx j then pd else dflt (look l j lp)) ->
      dflt (look (S l) j (assign (S l) idx pd (let '(q, r) := find_alloc l idx true (d (level_index (S l) idx)) in
        (Some (<[level_index (S l) idx := q]> d) : level_map (S l), r)).1)) =
      if same_from (S l) idx j then pd else dflt (look l j (d (level_index (S l) j)))).
  { intros m d IH. specialize (IH (d (level_index (S m) idx))). destruct (find_alloc m idx true _) as [q r].
    cbn [fst] in *. cbn [assign option_map same_from]. cbv zeta. rewrite look_S, fn_lookup_insert.
    destruct (Z.eqb_spec (level_index (S m) idx) (level_index (S m) j)) as [E|D]; cbn [andb].
    - rewrite <- E, fn_lookup_insert. exact IH.
    - now rewrite !fn_lookup_insert_ne. }
  induction l as [|l IH]; intros [d|].
  - exact (K d).
  - exact (K (fun _ => pd_zero)).
  - rewrite look_S. exact (K2 l d IH).
  - specialize (K2 l (fun _ => level_null l) IH). rewrite look_null in K2. exact K2.
Qed.

(** The descriptor of a page. *)
Definition page_desc (m : pagemap) (index : Z) : PageDesc := dflt (page_find index m).

Lemma page_find_look index m : page_find index m = look top_level index (m (l1_index index)).
Proof. unfold page_find, page_find_alloc, look. now destruct (find_alloc _ _ _ _). Qed.

Definition same_page (i j : Z) : bool := (l1_index i =? l1_index j) && same_from top_level i j.

(** Reading or assigning a page through [page_find_alloc]. *)
Lemma page_alloc_run index pd m : exists m', page_find_alloc index true m = (m', Some (page_desc m index)) /\
  forall j, page_desc (page_assign index pd m') j = if same_page index j then pd else page_desc m j.
Proof.
  unfold page_find_alloc. pose proof (alloc_result top_level index (m (l1_index index))) as A.
  pose proof (assign_look top_level index pd) as K.
  destruct (find_alloc top_level index true (m (l1_index index))) as [q r] eqn:F. cbn in A. subst r.
  eexists. split; [unfold page_desc; now rewrite page_find_look|].
  intros j. unfold page_assign, page_desc, same_page. rewrite !page_find_look. cbv zeta.
  rewrite fn_lookup_insert. specialize (K j (m (l1_index index))). rewrite F in K. cbn [fst] in K.
  destruct (Z.eqb_spec (l1_index index) (l1_index j)) as [E|D]; cbn [andb].
  - rewrite <- E, fn_lookup_insert. exact K.
  - now rewrite !fn_lookup_insert_ne.
Qed.

(** On the page numbers of the address space the indices determine the page. *)
Lemma same_page_eq i j : 0 <= i < 1048576 -> 0 <= j < 1048576 -> same_page i j = (i =? j).
Proof.
  intros I J. unfold same_page, l1_index, top_level. cbn [same_from Z.to_nat V_L1_SHIFT].
  change (Z.to_nat (V_L1_SHIFT / L2_BITS - 1)) with 0%nat. cbn [same_from]. unfold level_index.
  change (V_L1_SIZE - 1) with (Z.ones 10). change (L2_SIZE - 1) with (Z.ones 10). change V_L1_SHIFT with 10.
  change (Z.of_nat 0 * L2_BITS) with 0. rewrite !Z.land_ones, !Z.shiftr_0_r, !Z.shiftr_div_pow2 by lia.
  change (2 ^ 10) with 1024. rewrite andb_true_r.
  destruct (Z.eqb_spec i j) as [->|D]; [now rewrite !Z.eqb_refl|].
  apply andb_false_iff. rewrite !Z.eqb_neq. Z.div_mod_to_equations. lia.
Qed.

(** ** Setting and checking flags *)

(** No page records translated blocks. *)
Definition no_tb (m : pagemap) : Prop := forall j, first_tb (page_desc m j) = 0.
Definition flags_of (m : pagemap) (j : Z) : Z := pd_flags (page_desc m j).

Lemma get_flags_of a m : 0 <= a -> page_get_flags a m = flags_of m (a / 4096).
Proof.
  intros A. unfold page_get_flags, flags_of, page_desc. change TARGET_PAGE_BITS with 12.
  rewrite Z.shiftr_div_pow2 by lia. change (2 ^ 12) with 4096. now destruct (page_find _ m).
Qed.

Lemma page_of p : 0 <= p < 1048576 -> Z.shiftr (u32 (4096 * p)) TARGET_PAGE_BITS = p.
Proof.
  intros R. change TARGET_PAGE_BITS with 12. rewrite u32_small, Z.shiftr_div_pow2 by lia.
  change (2 ^ 12) with 4096. now rewrite Z.mul_comm, Z.div_mul by lia.
Qed.
Lemma page_next p : u32 (u32 (4096 * p) + TARGET_PAGE_SIZE) = u32 (4096 * (p + 1)).
Proof. change TARGET_PAGE_SIZE with 4096. rewrite u32_add_l. f_equal. lia. Qed.
Lemma page_len n : 0 <= n < 1048576 - 1 -> u32 (4096 * (n + 1) - TARGET_PAGE_SIZE) = 4096 * n.
Proof. intros R. change TARGET_PAGE_SIZE with 4096. rewrite u32_small; lia. Qed.

Definition in_pages (p n j : Z) : bool := (p <=? j) && (j <? p + n).

Lemma set_flags_run flags n : forall p m, no_tb m -> 0 <= p -> p + Z.of_nat n <= 1048576 -> Z.of_nat n < 1048576 ->
  exists m', set_flags_loop n flags (u32 (4096 * p)) (4096 * Z.of_nat n) m = Ok m' /\ no_tb m' /\
    forall j, 0 <= j < 1048576 -> flags_of m' j = if in_pages p (Z.of_nat n) j then flags else flags_of m j.
Proof.
  unfold in_pages. induction n as [|n IH]; intros p m T P0 P1 N.
  { exists m. split; [done|]. split; [done|]. intros j J. destruct (Z.leb_spec p j), (Z.ltb_spec j (p + Z.of_nat 0)); try done; lia. }
  cbn [set_flags_loop]. rewrite (proj2 (Z.eqb_neq _ 0)) by lia. rewrite page_of by lia.
  destruct (page_alloc_run p (mkPd (first_tb (page_desc m p)) flags) m) as (m1 & -> & K).
  rewrite T. cbn [negb Z.eqb]. rewrite andb_false_r. rewrite T in K.
  replace (Z.of_nat (S n)) with (Z.of_nat n + 1) by lia. rewrite page_next, page_len by lia.
  destruct (IH (p + 1) (page_assign p (mkPd 0 flags) m1)) as (m' & R & T' & F); [|lia..|].
  { intros j. rewrite K. destruct (same_page p j); [done|apply T]. }
  exists m'. split; [exact R|]. split; [done|]. intros j J. rewrite F by done. unfold flags_of. rewrite K, same_page_eq by lia.
  destruct (Z.leb_spec (p + 1) j), (Z.leb_spec p j), (Z.ltb_spec j (p + 1 + Z.of_nat n)), (Z.ltb_spec j (p + (Z.of_nat n + 1))),
    (Z.eqb_spec p j); cbn [andb pd_flags]; try done; lia.
Qed.

(** The page numbers of an aligned range. *)
Lemma page_floor a : 0 <= a < 4294967296 -> Z.land a TARGET_PAGE_MASK = u32 (4096 * (a / 4096)).
Proof.
  intros A. change TARGET_PAGE_MASK with (Z.shiftl (Z.ones 20) 12).
  apply Z.bits_inj'. intros i Hi. rewrite Z.land_spec, Z.shiftl_spec by lia.
  unfold u32. change 4294967296 with (2 ^ 32). change 4096 with (2 ^ 12) at 1. rewrite (Z.mul_comm (2 ^ 12)).
  destruct (Z.ltb_spec i 32).
  - rewrite Z.mod_pow2_bits_low by lia. destruct (Z.ltb_spec i 12).
    + rewrite Z.mul_pow2_bits_low by lia. rewrite (Z.testbit_neg_r _ (i - 12)) by lia. apply andb_false_r.
    + rewrite Z.mul_pow2_bits by lia. change 4096 with (2 ^ 12). rewrite Z.div_pow2_bits by lia.
      rewrite Z.ones_spec_low by lia. rewrite andb_true_r. f_equal. lia.
  - rewrite Z.mod_pow2_bits_high by lia. rewrite Z.ones_spec_high by lia. apply andb_false_r.
Qed.

Lemma page_ceil a : 0 <= a < 4294967296 -> TARGET_PAGE_ALIGN a = u32 (4096 * ((a + 4095) / 4096)).
Proof.
  intros A. unfold TARGET_PAGE_ALIGN. change TARGET_PAGE_SIZE with 4096.
  rewrite page_floor by apply u32_range. replace (a + 4096 - 1) with (a + 4095) by lia.
  unfold u32. Z.div_mod_to_equations. lia.
Qed.

(** The length of the loops of the two functions: the number of pages, or none
    when the range is the whole address space. *)
Lemma range_len p q : 0 <= p -> p <= q <= 1048576 ->
  let n := if q - p =? 1048576 then 0 else q - p in
  u32 (u32 (4096 * q) - u32 (4096 * p)) = 4096 * n /\ Z.to_nat (4096 * n / TARGET_PAGE_SIZE) = Z.to_nat n.
Proof.
  intros P Q n. change TARGET_PAGE_SIZE with 4096. split.
  - unfold n, u32. destruct (Z.eqb_spec (q - p) 1048576); Z.div_mod_to_equations; lia.
  - f_equal. now rewrite Z.mul_comm, Z.div_mul by lia.
Qed.

(** The whole address space: the length wraps to zero and nothing is done. *)
Definition whole (p q : Z) : bool := (p =? 0) && (q =? 1048576).
Definition first_page (start : Z) : Z := start / 4096.
Definition last_page (end_ : Z) : Z := (end_ + 4095) / 4096.

Lemma whole_n p q : 0 <= p -> p <= q <= 1048576 -> (if q - p =? 1048576 then 0 else q - p) = if whole p q then 0 else q - p.
Proof. intros. unfold whole. destruct (Z.eqb_spec (q - p) 1048576), (Z.eqb_spec p 0), (Z.eqb_spec q 1048576); try done; lia. Qed.

(** What a page must have for an access other than a write. *)
Definition check_page (rq f : Z) : bool := hasb f PAGE_VALID && (negb (hasb rq PAGE_READ) || hasb f PAGE_READ).

Lemma find_flags p m : flags_of m p = match page_find p m with Some d => pd_flags d | None => 0 end.
Proof. unfold flags_of, page_desc. now destruct (page_find p m). Qed.

Lemma check_run_read sz flags n : hasb flags PAGE_WRITE = false -> forall p m, 0 <= p -> p + Z.of_nat n <= 1048576 ->
  Z.of_nat n < 1048576 -> check_range_loop sz n flags (u32 (4096 * p)) (4096 * Z.of_nat n) m =
  Ok (if forallb (fun j => check_page flags (flags_of m j)) (seqZ p (Z.of_nat n)) then 0 else -1).
Proof.
  intros W. induction n as [|n IH]; intros p m P0 P1 N; [done|].
  cbn [check_range_loop]. rewrite (proj2 (Z.eqb_neq _ 0)), page_of by lia.
  rewrite seqZ_cons by lia. cbn [forallb]. rewrite find_flags. unfold check_page at 1.
  destruct (page_find p m) as [d|]; [|done].
  destruct (hasb (pd_flags d) PAGE_VALID); cbn [negb andb]; [|done].
  destruct (hasb flags PAGE_READ), (hasb (pd_flags d) PAGE_READ); cbn [negb andb orb]; try done;
    rewrite W; replace (Z.of_nat (S n)) with (Z.of_nat n + 1) by lia; rewrite page_next, page_len by lia;
    rewrite IH by lia; replace (Z.pred (Z.of_nat n + 1)) with (Z.of_nat n) by lia; replace (p + 1) with (Z.succ p) by lia; reflexivity.
Qed.

(** A write request is decided by its first page. *)
Definition check_write (sz flags p : Z) (m : pagemap) : res Z :=
  let f := flags_of m p in
  if negb (check_page flags f) then Ok (-1)
  else if negb (hasb f PAGE_WRITE_ORG) then Ok (-1)
  else if hasb f PAGE_WRITE then Ok 0
  else let? r := page_unprotect sz (u32 (4096 * p)) m in if r =? 0 then Ok (-1) else Ok 0.

Lemma check_run_write sz flags n p m : hasb flags PAGE_WRITE = true -> 0 <= p -> p + Z.of_nat (S n) <= 1048576 ->
  check_range_loop sz (S n) flags (u32 (4096 * p)) (4096 * Z.of_nat (S n)) m = check_write sz flags p m.
Proof.
  intros W P0 P1. cbn [check_range_loop]. rewrite (proj2 (Z.eqb_neq _ 0)), page_of, W by lia.
  unfold check_write. rewrite find_flags. unfold check_page. destruct (page_find p m) as [d|]; [|done].
  destruct (hasb (pd_flags d) PAGE_VALID); cbn [negb andb]; [|done].
  destruct (hasb flags PAGE_READ), (hasb (pd_flags d) PAGE_READ); cbn [negb andb orb]; try done;
    destruct (hasb (pd_flags d) PAGE_WRITE_ORG), (hasb (pd_flags d) PAGE_WRITE); cbn [negb]; try done.
Qed.

(** ** Walking the regions *)

Lemma for_rc_add {W} (body : Z -> W -> Z * W) n k : forall i w, for_rc (n + k) i body w =
  let '(rc, w) := for_rc n i body w in if negb (rc =? 0) then (rc, w) else for_rc k (i + Z.of_nat n) body w.
Proof.
  induction n as [|n IH]; intros i w; cbn [for_rc Nat.add]; [now rewrite Z.add_0_r|].
  destruct (body i w) as [rc w1]. destruct (Z.eqb_spec rc 0) as [->|D]; cbn [negb].
  - rewrite IH. now replace (i + 1 + Z.of_nat n) with (i + Z.of_nat (S n)) by lia.
  - now rewrite (proj2 (Z.eqb_neq rc 0)).
Qed.

(** Two loops agree when their bodies do on the states that occur. *)
Lemma for_rc_ext {W} (I : W -> Prop) (f g : Z -> W -> Z * W) n : forall i w, I w ->
  (forall k w, i <= k < i + Z.of_nat n -> I w -> f k w = g k w) ->
  (forall k w, I w -> I (g k w).2 \/ (g k w).1 <> 0) -> for_rc n i f w = for_rc n i g w.
Proof.
  induction n as [|n IH]; intros i w Iw E K; cbn [for_rc]; [done|].
  rewrite E by (done || lia). specialize (K i w Iw) as Kw. destruct (g i w) as [rc w1]. cbn in Kw.
  destruct (Z.eqb_spec rc 0) as [->|D]; cbn [negb]; [|done]. apply IH; [tauto| |done].
  intros k w' Hk. apply E. lia.
Qed.

(** A loop of loops over blocks of [c] is one loop. *)
Lemma for_rc_nest {W} (body : Z -> W -> Z * W) c n : forall i w,
  for_rc n i (fun i => for_rc c (i * Z.of_nat c) body) w = for_rc (n * c) (i * Z.of_nat c) body w.
Proof.
  induction n as [|n IH]; intros i w; cbn [for_rc Nat.mul]; [done|]. rewrite for_rc_add.
  destruct (for_rc c (i * Z.of_nat c) body w) as [rc w1]. destruct (rc =? 0); cbn [negb]; [|done].
  rewrite IH. f_equal. lia.
Qed.

Lemma for_rc_shift {W} (body : Z -> W -> Z * W) s n : forall i w,
  for_rc n i (fun k => body (s + k)) w = for_rc n (s + i) body w.
Proof.
  induction n as [|n IH]; intros i w; cbn [for_rc]; [done|]. destruct (body (s + i) w) as [rc w1].
  destruct (rc =? 0); cbn [negb]; [|done]. rewrite IH. now replace (s + (i + 1)) with (s + i + 1) by lia.
Qed.

Lemma for_rc_inv {W} (I : W -> Prop) (f : Z -> W -> Z * W) n : (forall k w, I w -> I (f k w).2 \/ (f k w).1 <> 0) ->
  forall i w, I w -> I (for_rc n i f w).2 \/ (for_rc n i f w).1 <> 0.
Proof.
  intros K. induction n as [|n IH]; intros i w Iw; cbn [for_rc]; [now left|]. pose proof (K i w Iw) as Kw.
  destruct (f i w) as [rc w1]. cbn in Kw. destruct (Z.eqb_spec rc 0) as [->|D]; cbn [negb]; [|now right].
  apply IH. tauto.
Qed.

Lemma L2_nat : Z.to_nat L2_SIZE = S (Z.to_nat 1023).
Proof. rewrite <- Z2Nat.inj_succ by lia. reflexivity. Qed.

Section FlatWalk.
Context {P : Type}.
Variable fn : P -> Z -> Z -> Z -> Z * P.

(** The address the walk computes for a page number. *)
Definition walk_addr (j : Z) : Z := Z.lor (u32 (Z.shiftl (j / 1024) V_L1_SHIFT)) (u32 (Z.shiftl (j mod 1024) TARGET_PAGE_BITS)).

(** One page: a region ends and another begins where the flags change. *)
Definition visit (m : pagemap) (j : Z) (data : walk_data) : Z * walk_data :=
  if negb (flags_of m j =? w_prot data) then walk_memory_regions_end fn (walk_addr j) (flags_of m j) data else (0, data).

Definition flat_walk (p : P) (m : pagemap) : Z * walk_data :=
  let '(rc, data) := for_rc (Z.to_nat V_L1_SIZE * Z.to_nat L2_SIZE) 0 (visit m) (mkWalk p None 0) in
  if negb (rc =? 0) then (rc, data) else walk_memory_regions_end fn 0 0 data.

(** Pages without flags lie in no region. *)
Definition no_flags (d : @walk_data P) : Prop := w_prot d = 0 -> w_start d = None.

Lemma end_no_flags e np d : no_flags (walk_memory_regions_end fn e np d).2 \/ (walk_memory_regions_end fn e np d).1 <> 0.
Proof.
  unfold walk_memory_regions_end. destruct (match w_start d with Some s => _ | None => _ end) as [rc p].
  destruct (Z.eqb_spec rc 0) as [->|D]; cbn [negb fst snd]; [left|right; exact D].
  intros Np. cbn in *. now rewrite Np.
Qed.

Lemma visit_no_flags m k d : no_flags d -> no_flags (visit m k d).2 \/ (visit m k d).1 <> 0.
Proof. intros F. unfold visit. destruct (negb _); [apply end_no_flags|now left]. Qed.

Lemma visit_skip m n : forall i d, (forall j, i <= j < i + Z.of_nat n -> flags_of m j = 0) -> w_prot d = 0 ->
  for_rc n i (visit m) d = (0, d).
Proof.
  induction n as [|n IH]; intros i d Z0 Pd; cbn [for_rc]; [done|]. unfold visit at 1. rewrite Z0, Pd by lia.
  cbn [Z.eqb negb]. apply IH; [|done]. intros j J. apply Z0. lia.
Qed.

(** The descriptor of a page, by its two indices. *)
Lemma desc_at m i k : 0 <= i < 1024 -> 0 <= k < 1024 ->
  page_desc m (i * 1024 + k) = dflt (match (m i : level_map 0) with Some d => Some (d k) | None => None end).
Proof.
  intros I K. unfold page_desc. rewrite page_find_look. unfold l1_index.
  change (V_L1_SIZE - 1) with (Z.ones 10). change V_L1_SHIFT with 10. rewrite Z.land_ones, Z.shiftr_div_pow2 by lia.
  change (2 ^ 10) with 1024. replace ((i * 1024 + k) / 1024 mod 1024) with i by (Z.div_mod_to_equations; lia).
  change top_level with 0%nat. unfold look. cbn [find_alloc]. unfold level_index. change (L2_SIZE - 1) with (Z.ones 10).
  change (Z.of_nat 0 * L2_BITS) with 0. rewrite Z.land_ones, Z.shiftr_0_r by lia. change (2 ^ 10) with 1024.
  replace ((i * 1024 + k) mod 1024) with k by (Z.div_mod_to_equations; lia).
  destruct (m i : level_map 0) as [d|]; done.
Qed.

Lemma walk_block m i d : 0 <= i < 1024 -> no_flags d ->
  walk_memory_regions_1 fn 0 (u32 (Z.shiftl i V_L1_SHIFT)) (m i) d =
  for_rc (Z.to_nat L2_SIZE) (i * 1024) (visit m) d.
Proof.
  intros I F. assert (A : forall k, 0 <= k < 1024 -> walk_addr (i * 1024 + k) =
    Z.lor (u32 (Z.shiftl i V_L1_SHIFT)) (u32 (Z.shiftl k TARGET_PAGE_BITS))).
  { intros k K. unfold walk_addr. do 2 f_equal; f_equal; f_equal; Z.div_mod_to_equations; lia. }
  pose proof (fun k K => desc_at m i k I K) as Dk. cbn [walk_memory_regions_1].
  destruct (m i : level_map 0) as [pd|].
  - replace (i * 1024) with (i * 1024 + 0) at 1 by lia. rewrite <- for_rc_shift.
    apply (for_rc_ext no_flags); [done| |].
    + intros k w K Fw. change (Z.of_nat (Z.to_nat L2_SIZE)) with 1024 in K. unfold visit, flags_of.
      rewrite A, Dk by lia. done.
    + intros k w Fw. now apply visit_no_flags.
  - assert (Z0 : forall j, i * 1024 <= j < i * 1024 + 1024 -> flags_of m j = 0).
    { intros j J. unfold flags_of. replace j with (i * 1024 + (j - i * 1024)) by lia. now rewrite Dk by lia. }
    rewrite L2_nat. cbn [for_rc]. unfold visit at 1. rewrite Z0 by lia.
    replace (i * 1024) with (i * 1024 + 0) at 1 by lia. rewrite (A 0) by lia. change (u32 (Z.shiftl 0 TARGET_PAGE_BITS)) with 0.
    rewrite Z.lor_0_r. destruct (Z.eqb_spec 0 (w_prot d)) as [E|D]; cbn [negb].
    + rewrite visit_skip; [|intros j J; rewrite Z2Nat.id in J by lia; apply Z0; lia|done]. unfold walk_memory_regions_end.
      rewrite F by done. cbn. destruct d as [p s pr]. unfold no_flags in F. cbn in *. now rewrite <- E, (F (eq_sym E)).
    + unfold walk_memory_regions_end. destruct (match w_start d with Some s => _ | None => _ end) as [rc p].
      destruct (negb (rc =? 0)) eqn:R; cbn [negb]; [now rewrite R|]. cbn [Z.eqb negb].
      rewrite visit_skip; [done|intros j J; rewrite Z2Nat.id in J by lia; apply Z0; lia|done].
Qed.

Lemma walk_flat p m : walk_memory_regions fn p m = flat_walk p m.
Proof.
  unfold walk_memory_regions, flat_walk. set (w0 := mkWalk p None 0).
  pose proof (for_rc_nest (visit m) (Z.to_nat L2_SIZE) (Z.to_nat V_L1_SIZE) 0 w0) as N.
  rewrite Z.mul_0_l in N. rewrite <- N. change top_level with 0%nat.
  rewrite (for_rc_ext no_flags _ (fun i => for_rc (Z.to_nat L2_SIZE) (i * Z.of_nat (Z.to_nat L2_SIZE)) (visit m))); [done|done| |].
  - intros i d I F. change (Z.of_nat (Z.to_nat V_L1_SIZE)) with 1024 in I. now apply walk_block.
  - intros i d F. apply (for_rc_inv no_flags); [|done]. intros k w Fw. now apply visit_no_flags.
Qed.

End FlatWalk.

(** ** Setting the flags of a range *)

Lemma page_set_flags_run start end_ flags m : 0 <= start < 4294967296 -> 0 <= end_ < 4294967296 -> no_tb m ->
  match page_set_flags start end_ flags m with
  | Err e => e = Abort /\ end_ <= start
  | Ok m' => start < end_ /\ no_tb m' /\ forall a, 0 <= a < 4294967296 ->
      page_get_flags a m' =
        if negb (whole (first_page start) (last_page end_)) && (first_page start <=? a / 4096) && (a / 4096 <? last_page end_)
        then (if hasb flags PAGE_WRITE then Z.lor flags PAGE_WRITE_ORG else flags)
        else page_get_flags a m
  end.
Proof.
  intros S E T. unfold page_set_flags. destruct (Z.ltb_spec start end_) as [Lt|Ge]; cbn [negb]; [|done].
  rewrite page_floor, page_ceil by done. fold (first_page start) (last_page end_). cbv zeta.
  set (fl := if hasb flags PAGE_WRITE then _ else _). clearbody fl.
  assert (R : 0 <= first_page start /\ first_page start <= last_page end_ <= 1048576)
    by (unfold first_page, last_page; Z.div_mod_to_equations; lia).
  destruct (range_len _ _ (proj1 R) (proj2 R)) as [L1 L2]. rewrite L1, L2. rewrite whole_n by tauto.
  set (n := if whole _ _ then 0 else _).
  assert (Hn : 0 <= n < 1048576 /\ first_page start + n <= 1048576).
  { unfold n. destruct (whole _ _) eqn:W; [lia|]. unfold whole in W.
    destruct (Z.eqb_spec (first_page start) 0), (Z.eqb_spec (last_page end_) 1048576); cbn in W; try discriminate; lia. }
  destruct (set_flags_run fl (Z.to_nat n) (first_page start) m) as (m' & Q & T' & F); [done|lia..|].
  rewrite Z2Nat.id in Q, F by lia. rewrite Q. split; [done|]. split; [done|]. intros a A.
  rewrite !get_flags_of, F by (try lia; Z.div_mod_to_equations; lia). unfold in_pages, n.
  destruct (whole _ _); cbn [negb andb].
  - destruct (Z.leb_spec (first_page start) (a / 4096)), (Z.ltb_spec (a / 4096) (first_page start + 0)); cbn; try done; lia.
  - now replace (first_page start + (last_page end_ - first_page start)) with (last_page end_) by lia.
Qed.

(** ** The theorems *)

(** C29: [page_set_flags] gives its flags, with [PAGE_WRITE_ORG] added to a
    writable page, to exactly the pages that meet the range, except that a
    range which covers the whole address space is not touched at all; it aborts
    only on an empty range. *)
Theorem page_set_flags_ok start end_ flags m : 0 <= start < 4294967296 -> 0 <= end_ < 4294967296 -> no_tb m ->
  match page_set_flags start end_ flags m with
  | Err e => e = Abort /\ end_ <= start
  | Ok m' => start < end_ /\ no_tb m' /\ forall a, 0 <= a < 4294967296 ->
      page_get_flags a m' =
        if negb (whole (first_page start) (last_page end_)) && (first_page start <=? a / 4096) && (a / 4096 <? last_page end_)
        then (if hasb flags PAGE_WRITE then Z.lor flags PAGE_WRITE_ORG else flags)
        else page_get_flags a m
  end.
Proof. apply page_set_flags_run. Qed.

Lemma page_check_range_run sz start len flags m : 0 <= start < 4294967296 -> 0 <= len < 4294967296 ->
  page_check_range sz start len flags m =
    (let p := first_page start in let q := last_page (start + len) in
     if len =? 0 then Ok 0
     else if 4294967296 <? start + len then Ok (-1)
     else if whole p q then Ok 0
     else if hasb flags PAGE_WRITE then check_write sz flags p m
     else Ok (if forallb (fun j => check_page flags (flags_of m j)) (seqZ p (q - p)) then 0 else -1)).
Proof.
  intros S L. unfold page_check_range. destruct (Z.eqb_spec len 0) as [->|L0]; [done|]. cbv zeta.
  assert (Wr : (u32 (start + len - 1) <? start) = (4294967296 <? start + len)).
  { unfold u32. destruct (Z.ltb_spec ((start + len - 1) mod 4294967296) start), (Z.ltb_spec 4294967296 (start + len));
      try done; Z.div_mod_to_equations; lia. }
  rewrite Wr. destruct (Z.ltb_spec 4294967296 (start + len)) as [?|Le]; [done|].
  rewrite page_floor by done. fold (first_page start).
  assert (Al : TARGET_PAGE_ALIGN (u32 (start + len)) = u32 (4096 * last_page (start + len))).
  { rewrite page_ceil by apply u32_range. unfold last_page, u32. Z.div_mod_to_equations. lia. }
  rewrite Al. set (p := first_page start). set (q := last_page (start + len)).
  assert (R : 0 <= p /\ p < q /\ q <= 1048576) by (unfold p, q, first_page, last_page; Z.div_mod_to_equations; lia).
  destruct (range_len p q) as [L1 L2]; [lia..|]. rewrite L1, L2. rewrite whole_n by lia.
  destruct (whole p q) eqn:W; [done|]. unfold whole in W.
  assert (Hn : 0 < q - p < 1048576).
  { destruct (Z.eqb_spec p 0), (Z.eqb_spec q 1048576); cbn in W; try discriminate; lia. }
  replace (q - p) with (Z.of_nat (Z.to_nat (q - p))) at 2 by lia.
  destruct (hasb flags PAGE_WRITE) eqn:Hw.
  - destruct (Z.to_nat (q - p)) as [|n] eqn:En; [lia|]. apply check_run_write; [done|lia..].
  - rewrite check_run_read by (done || lia). now rewrite Z2Nat.id by lia.
Qed.

(** C30: [page_check_range] checks every page of the range for validity and
    reading, but decides a write request by its first page alone; an empty range
    and one that covers the whole address space pass, one that wraps does not. *)
Theorem page_check_range_ok sz start len flags m : 0 <= start < 4294967296 -> 0 <= len < 4294967296 ->
  page_check_range sz start len flags m =
    (let p := first_page start in let q := last_page (start + len) in
     if len =? 0 then Ok 0
     else if 4294967296 <? start + len then Ok (-1)
     else if whole p q then Ok 0
     else if hasb flags PAGE_WRITE then check_write sz flags p m
     else Ok (if forallb (fun j => check_page flags (flags_of m j)) (seqZ p (q - p)) then 0 else -1)).
Proof. apply page_check_range_run. Qed.


(** ** Examples *)

(** Two pages at 0x8048000. *)
Definition demo_pages : pagemap :=
  match page_set_flags 0x8048000 0x804A000 (Z.lor PAGE_VALID PAGE_READ) l1_empty with Ok m => m | Err _ => l1_empty end.

Lemma demo_no_tb : no_tb l1_empty.
Proof. intros j. unfold page_desc. now rewrite page_find_look. Qed.

Lemma page_set_flags_ok_witness :
  page_get_flags 0x8049fff demo_pages = 9 /\ page_get_flags 0x804a000 demo_pages = 0.
Proof.
  pose proof (page_set_flags_ok 0x8048000 0x804A000 (Z.lor PAGE_VALID PAGE_READ) l1_empty ltac:(lia) ltac:(lia) demo_no_tb) as K.
  unfold demo_pages. destruct (page_set_flags _ _ _ _) as [m|e]; [|destruct K as [_ K]; lia].
  destruct K as (_ & _ & K). split; rewrite K by lia; vm_compute; reflexivity.
Defined.

Lemma page_check_range_ok_witness :
  page_check_range 4096 0x8048ff0 0x20 PAGE_READ demo_pages = Ok 0 /\
  page_check_range 4096 0x8049ff0 0x20 PAGE_READ demo_pages = Ok (-1).
Proof.
  split; (rewrite page_check_range_ok by lia); vm_compute; reflexivity.
Defined.

(** The function collects the regions: those of [demo_pages] come out at
    0x48000, because the walk shifts the index of a table by [V_L1_SHIFT] only. *)
Lemma walk_wrong_address :
  rev (priv (walk_memory_regions (fun l s e pr => (0, (s, e, pr) :: l)) [] demo_pages).2) = [(0x48000, 0x4a000, 9)].
Proof. vm_compute. reflexivity. Qed.
