(* ===== verification/Uaccess.v ===== *)
(** src/linux-user/uaccess.c and the access functions of src/linux-user/qemu.h:
    the emulator's own reads and writes of guest memory, guarded by the guest's
    page table.  Guest and host addresses are the same ([GUEST_BASE] is 0); a
    host pointer is an address, and address 0 is the null pointer.  An access
    that the guard lets through is assumed not to fault. *)

From S2P Require Import Prelude Memory Opcode DecodeTable Decode DecodeSpec State TransBlock PageTable.

Definition VERIFY_READ : Z := 0.
Definition VERIFY_WRITE : Z := 1.
Definition TARGET_EFAULT : Z := 14.

(** Little-endian bytes of any width. *)
Fixpoint le_bytes (n : nat) (x : Z) : list Z :=
  match n with O => [] | S n => u8 x :: le_bytes n (x / 256) end.

Section Uaccess.
Variable qemu_host_page_size : Z.

(** ** Guarded access *)

Definition access_ok (type addr size : Z) (pg : pagemap) : res bool :=
  let? r := page_check_range qemu_host_page_size addr size
              (if type =? VERIFY_READ then PAGE_READ else Z.lor PAGE_READ PAGE_WRITE) pg in
  Ok (r =? 0).

Definition g2h (x : Z) : option Z := if x =? 0 then None else Some x.

Definition lock_user (type guest_addr len : Z) (pg : pagemap) : res (option Z) :=
  let? ok := access_ok type guest_addr (u32 len) pg in
  Ok (if ok then g2h guest_addr else None).

(** [memcpy] to and from a locked area. *)
Definition copy_from_user (gaddr : Z) (len : nat) (pg : pagemap) (m : mem) : res (Z * option (list Z)) :=
  let? p := lock_user VERIFY_READ gaddr (Z.of_nat len) pg in
  Ok match p with
     | Some h => (0, Some (read_bytes m h len))
     | None => (- TARGET_EFAULT, None)
     end.

Definition copy_to_user (gaddr : Z) (hptr : list Z) (pg : pagemap) (m : mem) : res (Z * mem) :=
  let? p := lock_user VERIFY_WRITE gaddr (Z.of_nat (length hptr)) pg in
  Ok match p with
     | Some h => (0, write_bytes h hptr m)
     | None => (- TARGET_EFAULT, m)
     end.

(** The macros, by the size of the type; other sizes abort. *)
Definition sizeof_ok (n : nat) : bool := existsb (Nat.eqb n) [1; 2; 4; 8]%nat.

Definition __put_user (n : nat) (x hptr : Z) (m : mem) : res mem :=
  if sizeof_ok n then Ok (write_bytes hptr (le_bytes n x) m) else Err Abort.
Definition __get_user (n : nat) (hptr : Z) (m : mem) : res Z :=
  if sizeof_ok n then Ok (le_val (read_bytes m hptr n)) else Err Abort.

Definition put_user (n : nat) (x gaddr : Z) (pg : pagemap) (m : mem) : res (Z * mem) :=
  let? p := lock_user VERIFY_WRITE gaddr (Z.of_nat n) pg in
  match p with
  | Some h => let? m' := __put_user n x h m in Ok (0, m')
  | None => Ok (- TARGET_EFAULT, m)
  end.
Definition get_user (n : nat) (gaddr : Z) (pg : pagemap) (m : mem) : res (Z * Z) :=
  let? p := lock_user VERIFY_READ gaddr (Z.of_nat n) pg in
  match p with
  | Some h => let? x := __get_user n h m in Ok (0, x)
  | None => Ok (- TARGET_EFAULT, 0)
  end.

(** ** Strings *)

Fixpoint qemu_strnlen (s : Z) (max_len : nat) (m : mem) : Z :=
  match max_len with
  | O => 0
  | S n => if ld8 m s =? 0 then 0 else 1 + qemu_strnlen (s + 1) n m
  end.

(** One turn covers the rest of a page. *)
Fixpoint strlen_loop (n : nat) (guest_addr guest_addr1 : Z) (pg : pagemap) (m : mem) : res Z :=
  match n with
  | O => Err Fuel
  | S n =>
      let max_len := TARGET_PAGE_SIZE - Z.land guest_addr (u32 (Z.lnot TARGET_PAGE_MASK)) in
      let? p := lock_user VERIFY_READ guest_addr max_len pg in
      match p with
      | None => Ok (- TARGET_EFAULT)
      | Some ptr =>
          let len := qemu_strnlen ptr (Z.to_nat max_len) m in
          let guest_addr := u32 (guest_addr + len) in
          if (guest_addr =? 0) || (u32 (guest_addr - guest_addr1) >? 0x7fffffff) then Ok (- TARGET_EFAULT)
          else if negb (len =? max_len) then Ok (s32 (u32 (guest_addr - guest_addr1)))
          else strlen_loop n guest_addr guest_addr1 pg m
      end
  end.

(** Every turn ends on a page boundary, so there are at most as many as pages. *)
Definition strlen_fuel : nat := Z.to_nat 1048577.
Definition target_strlen (guest_addr1 : Z) (pg : pagemap) (m : mem) : res Z :=
  strlen_loop strlen_fuel guest_addr1 guest_addr1 pg m.

Definition lock_user_string (guest_addr : Z) (pg : pagemap) (m : mem) : res (option Z) :=
  let? len := target_strlen guest_addr pg m in
  if len <? 0 then Ok None else lock_user VERIFY_READ guest_addr (len + 1) pg.

(** ** Lemmas *)

(** The pages of [n > 0] bytes at [a] can be read. *)
Definition readable (pg : pagemap) (a n : Z) : bool :=
  forallb (fun j => check_page PAGE_READ (flags_of pg j)) (seqZ (a / 4096) ((a + n - 1) / 4096 - a / 4096 + 1)).

Lemma access_read a n pg : 0 <= a < 4294967296 -> 0 < n < 2147483648 ->
  access_ok VERIFY_READ a n pg = Ok ((a + n <=? 4294967296) && readable pg a n).
Proof.
  intros A N. unfold access_ok. rewrite page_check_range_run by lia. cbv zeta.
  destruct (Z.eqb_spec n 0); [lia|]. unfold first_page, last_page.
  assert (Nw : whole (a / 4096) ((a + n + 4095) / 4096) = false).
  { unfold whole. apply andb_false_iff. rewrite !Z.eqb_neq. Z.div_mod_to_equations. lia. }
  destruct (Z.ltb_spec 4294967296 (a + n)) as [G|G].
  { now destruct (Z.leb_spec (a + n) 4294967296); [lia|]. }
  destruct (Z.leb_spec (a + n) 4294967296); [|lia]. rewrite Nw. cbn [res_bind andb].
  assert (E : (a + n + 4095) / 4096 - a / 4096 = (a + n - 1) / 4096 - a / 4096 + 1)
    by (Z.div_mod_to_equations; lia).
  change (VERIFY_READ =? VERIFY_READ) with true. change (hasb PAGE_READ PAGE_WRITE) with false. cbv iota.
  rewrite E. fold (readable pg a n). unfold res_bind. now destruct (readable pg a n).
Qed.

Lemma access_zero ty a pg : access_ok ty a 0 pg = Ok true.
Proof. done. Qed.

(** A write is decided by the first page. *)
Definition writable (pg : pagemap) (a : Z) : res bool :=
  let? r := check_write qemu_host_page_size (Z.lor PAGE_READ PAGE_WRITE) (a / 4096) pg in Ok (r =? 0).

Lemma access_write a n pg : 0 <= a < 4294967296 -> 0 < n < 2147483648 -> a + n <= 4294967296 ->
  access_ok VERIFY_WRITE a n pg = writable pg a.
Proof.
  intros A N G. unfold access_ok, writable. rewrite page_check_range_run by lia. cbv zeta.
  destruct (Z.eqb_spec n 0); [lia|]. unfold first_page, last_page.
  assert (Nw : whole (a / 4096) ((a + n + 4095) / 4096) = false).
  { unfold whole. apply andb_false_iff. rewrite !Z.eqb_neq. Z.div_mod_to_equations. lia. }
  destruct (Z.ltb_spec 4294967296 (a + n)) as [?|_]; [lia|]. now rewrite Nw.
Qed.

Lemma le_bytes_length n : forall x, length (le_bytes n x) = n.
Proof. induction n as [|n IH]; intros x; cbn; [done|]. now rewrite IH. Qed.

Lemma map_u8_le_bytes n : forall x, map u8 (le_bytes n x) = le_bytes n x.
Proof. induction n as [|n IH]; intros x; cbn; [done|]. now rewrite IH, u8_u8. Qed.

Lemma le_val_bytes n : forall x, le_val (le_bytes n x) = x mod 256 ^ Z.of_nat n.
Proof.
  induction n as [|n IH]; intros x; [cbn; now rewrite Z.mod_1_r|].
  cbn [le_bytes le_val]. rewrite IH, Nat2Z.inj_succ, Z.pow_succ_r by lia. unfold u8.
  rewrite Z.rem_mul_r by lia. lia.
Qed.

Lemma read_le_bytes n x a m : read_bytes (write_bytes a (le_bytes n x) m) a n = le_bytes n x.
Proof.
  pose proof (at_bytes_write m a (le_bytes n x)) as B. unfold at_bytes in B.
  now rewrite map_u8_le_bytes, le_bytes_length in B.
Qed.

(** The length of the string at [a]: it ends before the end of the address
    space and of the positive numbers, in pages that can be read. *)
Record is_strlen (pg : pagemap) (m : mem) (a n : Z) : Prop := {
  sl_max : 0 <= n <= 0x7fffffff;
  sl_end : a + n < 4294967296;
  sl_chars : forall i, 0 <= i < n -> ld8 m (a + i) <> 0;
  sl_nul : ld8 m (a + n) = 0;
  sl_read : forall j, a / 4096 <= j <= (a + n) / 4096 -> check_page PAGE_READ (flags_of pg j) = true }.

Lemma is_strlen_unique pg m a n k : is_strlen pg m a n -> is_strlen pg m a k -> n = k.
Proof.
  intros [A1 _ A3 A4 _] [B1 _ B3 B4 _]. destruct (Z.lt_trichotomy n k) as [D|[D|D]]; [|done|].
  - now destruct (B3 n ltac:(lia)).
  - now destruct (A3 k ltac:(lia)).
Qed.

Lemma strnlen_spec m n : forall s, let k := qemu_strnlen s n m in
  0 <= k <= Z.of_nat n /\ (forall i, 0 <= i < k -> ld8 m (s + i) <> 0) /\ (k < Z.of_nat n -> ld8 m (s + k) = 0).
Proof.
  induction n as [|n IH]; intros s; cbn [qemu_strnlen]; [repeat split; lia|].
  destruct (Z.eqb_spec (ld8 m s) 0) as [E|E].
  - split; [lia|]. split; [lia|]. intros _. now rewrite Z.add_0_r.
  - destruct (IH (s + 1)) as (B & C & D). split; [lia|]. split.
    + intros i Hi. destruct (Z.eq_dec i 0) as [->|Hn]; [now rewrite Z.add_0_r|].
      replace (s + i) with (s + 1 + (i - 1)) by lia. apply C. lia.
    + intros Hk. replace (s + (1 + qemu_strnlen (s + 1) n m)) with (s + 1 + qemu_strnlen (s + 1) n m) by lia.
      apply D. lia.
Qed.

(** The rest of a page. *)
Lemma rest_of_page g : 0 <= g < 4294967296 ->
  TARGET_PAGE_SIZE - Z.land g (u32 (Z.lnot TARGET_PAGE_MASK)) = 4096 - g mod 4096.
Proof.
  intros G. change TARGET_PAGE_SIZE with 4096. change (u32 (Z.lnot TARGET_PAGE_MASK)) with (Z.ones 12).
  now rewrite Z.land_ones by lia.
Qed.

Lemma lock_page pg g : 0 < g < 4294967296 ->
  lock_user VERIFY_READ g (4096 - g mod 4096) pg =
    Ok (if check_page PAGE_READ (flags_of pg (g / 4096)) then Some g else None).
Proof.
  intros G. unfold lock_user. rewrite u32_small by (Z.div_mod_to_equations; lia).
  rewrite access_read by (Z.div_mod_to_equations; lia). cbn [res_bind].
  destruct (Z.leb_spec (g + (4096 - g mod 4096)) 4294967296); [|Z.div_mod_to_equations; lia]. cbn [andb].
  unfold readable. replace ((g + (4096 - g mod 4096) - 1) / 4096 - g / 4096 + 1) with (Z.succ 0) by (Z.div_mod_to_equations; lia).
  rewrite seqZ_cons by lia. cbn. rewrite andb_true_r. unfold g2h. destruct (Z.eqb_spec g 0); [lia|]. done.
Qed.

(** Up to [g] the string goes on. *)
Record so_far (pg : pagemap) (m : mem) (a g : Z) : Prop := {
  sf_range : 0 < a <= g /\ g < 4294967296;
  sf_len : g - a <= 0x7fffffff;
  sf_page : g = a \/ g mod 4096 = 0;
  sf_chars : forall i, 0 <= i < g - a -> ld8 m (a + i) <> 0;
  sf_read : forall j, a / 4096 <= j < g / 4096 -> check_page PAGE_READ (flags_of pg j) = true }.

Lemma so_far_le pg m a g n : so_far pg m a g -> is_strlen pg m a n -> g <= a + n.
Proof.
  intros [_ _ _ C _] [? _ _ Nul _]. destruct (Z.lt_ge_cases (a + n) g); [|lia].
  now destruct (C n ltac:(lia)).
Qed.

Lemma strlen_loop_run pg m a n : forall g, so_far pg m a g -> 1048576 - g / 4096 <= Z.of_nat n ->
  exists r, strlen_loop n g a pg m = Ok r /\
    (is_strlen pg m a r \/ r = - TARGET_EFAULT /\ forall k, ~ is_strlen pg m a k).
Proof.
  induction n as [|n IH]; intros g F Hn; pose proof F as [Rg Ln Pg Ch Rd]; [Z.div_mod_to_equations; lia|].
  cbn [strlen_loop]. rewrite rest_of_page, lock_page by lia. cbn [res_bind].
  destruct (check_page _ _) eqn:Cp.
  2:{ exists (- TARGET_EFAULT). split; [done|]. right. split; [done|]. intros k Sk.
      pose proof (so_far_le _ _ _ _ _ F Sk). rewrite (sl_read _ _ _ _ Sk) in Cp; [done|].
      Z.div_mod_to_equations. lia. }
  set (ml := 4096 - g mod 4096). assert (Ml : 0 < ml <= 4096) by (unfold ml; Z.div_mod_to_equations; lia).
  destruct (strnlen_spec m (Z.to_nat ml) g) as (K1 & K2 & K3). set (k := qemu_strnlen g (Z.to_nat ml) m) in *.
  rewrite Z2Nat.id in K1, K3 by lia.
  assert (Ge : g + ml <= 4294967296 /\ (g + ml) mod 4096 = 0 /\ (g + ml) / 4096 = g / 4096 + 1 /\
    (k < ml -> (g + k) / 4096 = g / 4096)) by (unfold ml in *; Z.div_mod_to_equations; lia).
  destruct Ge as (G1 & G2 & G3 & G4).
  assert (Ck : forall i, 0 <= i < g + k - a -> ld8 m (a + i) <> 0).
  { intros i Hi. destruct (Z.lt_ge_cases i (g - a)); [apply Ch; lia|].
    replace (a + i) with (g + (i - (g - a))) by lia. apply K2. lia. }
  assert (Rk : forall j, a / 4096 <= j < g / 4096 + 1 -> check_page PAGE_READ (flags_of pg j) = true).
  { intros j Hj. destruct (Z.eq_dec j (g / 4096)) as [->|]; [done|]. apply Rd. lia. }
  assert (Big : forall j, is_strlen pg m a j -> g + k <= a + j).
  { intros j Sj. destruct (Z.lt_ge_cases (a + j) (g + k)); [|lia]. pose proof (sl_max _ _ _ _ Sj).
    now destruct (Ck j ltac:(lia) (sl_nul _ _ _ _ Sj)). }
  destruct (Z.eq_dec (g + k) 4294967296) as [E0|E0].
  { rewrite E0. change (u32 4294967296) with 0. cbn [Z.eqb orb]. exists (- TARGET_EFAULT). split; [done|]. right.
    split; [done|]. intros j Sj. pose proof (Big j Sj). pose proof (sl_end _ _ _ _ Sj). lia. }
  rewrite u32_small by lia. destruct (Z.eqb_spec (g + k) 0); [lia|]. cbn [orb]. rewrite u32_small by lia.
  destruct (Z.gtb_spec (g + k - a) 0x7fffffff).
  { exists (- TARGET_EFAULT). split; [done|]. right. split; [done|]. intros j Sj. pose proof (Big j Sj).
    pose proof (sl_max _ _ _ _ Sj). lia. }
  destruct (Z.eqb_spec k ml) as [Ek|Ek]; cbn [negb].
  - apply IH; [|rewrite Ek, G3; lia]. constructor; try done; try lia.
    + right. now rewrite Ek.
    + intros j Hj. apply Rk. rewrite Ek, G3 in Hj. lia.
  - exists (g + k - a). split.
    { f_equal. unfold s32. rewrite u32_small by lia. cbv zeta. destruct (Z.ltb_spec (g + k - a) 2147483648); [done|lia]. }
    left. constructor; try lia; [done|..].
    + replace (a + (g + k - a)) with (g + k) by lia. apply K3. lia.
    + intros j Hj. replace (a + (g + k - a)) with (g + k) in Hj by lia. rewrite G4 in Hj by lia. apply Rk. lia.
Qed.

Lemma target_strlen_run pg m a : 0 < a < 4294967296 -> exists r, target_strlen a pg m = Ok r /\
  (is_strlen pg m a r \/ r = - TARGET_EFAULT /\ forall k, ~ is_strlen pg m a k).
Proof.
  intros A. apply strlen_loop_run.
  - constructor; try lia.
  - unfold strlen_fuel. rewrite Z2Nat.id by lia. Z.div_mod_to_equations. lia.
Qed.

End Uaccess.

(** ** Theorems *)

(** C32: [target_strlen] returns the length of a string that lies in readable
    pages, ends before the end of the address space and is at most
    [0x7fffffff] long, and [-TARGET_EFAULT] if there is no such string; it
    terminates on every memory. *)
Theorem target_strlen_ok sz pg m a : 0 <= a < 4294967296 -> exists r, target_strlen sz a pg m = Ok r /\
  (is_strlen pg m a r \/ r = - TARGET_EFAULT /\ (a <> 0 -> forall n, ~ is_strlen pg m a n)).
Proof.
  intros A. destruct (Z.eq_dec a 0) as [->|D].
  - exists (- TARGET_EFAULT). split; [|now right].
    unfold target_strlen. destruct strlen_fuel eqn:E; [discriminate E|]. cbn [strlen_loop].
    rewrite rest_of_page by lia. change (4096 - 0 mod 4096) with 4096. unfold lock_user.
    rewrite u32_small, access_read by lia. cbn [res_bind g2h Z.eqb].
    now destruct (_ && _).
  - destruct (target_strlen_run sz pg m a ltac:(lia)) as (r & E & [K|[K1 K2]]); exists r; (split; [done|]); auto.
Qed.

(** What the emulator copies to the guest it reads back, byte for byte and
    word for word.  The copies fail exactly when the guard refuses the range,
    and then change nothing; a read is refused if a page of the range cannot be
    read, but a write is decided by the first page alone. *)
Theorem user_copy_ok sz gaddr bs n x pg m : 0 < gaddr < 4294967296 -> (0 < length bs)%nat ->
  Z.of_nat (length bs) < 2147483648 -> gaddr + Z.of_nat (length bs) <= 4294967296 ->
  sizeof_ok n = true -> gaddr + Z.of_nat n <= 4294967296 ->
  (copy_to_user sz gaddr bs pg m =
     let? w := writable sz pg gaddr in
     Ok (if w then (0, write_bytes gaddr bs m) else (- TARGET_EFAULT, m))) /\
  (copy_from_user sz gaddr (length bs) pg m =
     Ok (if readable pg gaddr (Z.of_nat (length bs)) then (0, Some (read_bytes m gaddr (length bs))) else (- TARGET_EFAULT, None))) /\
  (forall m', copy_to_user sz gaddr bs pg m = Ok (0, m') -> readable pg gaddr (Z.of_nat (length bs)) = true ->
     copy_from_user sz gaddr (length bs) pg m' = Ok (0, Some (map u8 bs))) /\
  (forall m', put_user sz n x gaddr pg m = Ok (0, m') -> readable pg gaddr (Z.of_nat n) = true ->
     get_user sz n gaddr pg m' = Ok (0, x mod 256 ^ Z.of_nat n)).
Proof.
  intros A L0 L1 L2 N0 N1. assert (Gh : g2h gaddr = Some gaddr) by (unfold g2h; destruct (Z.eqb_spec gaddr 0); [lia|done]).
  assert (Rd : forall k, (0 < k)%nat -> Z.of_nat k < 2147483648 -> gaddr + Z.of_nat k <= 4294967296 ->
    lock_user sz VERIFY_READ gaddr (Z.of_nat k) pg = Ok (if readable pg gaddr (Z.of_nat k) then Some gaddr else None)).
  { intros k K1 K2 K3. unfold lock_user. rewrite u32_small, access_read by lia. cbn [res_bind].
    destruct (Z.leb_spec (gaddr + Z.of_nat k) 4294967296); [|lia]. cbn [andb]. now rewrite Gh. }
  assert (Wr : forall k, (0 < k)%nat -> Z.of_nat k < 2147483648 -> gaddr + Z.of_nat k <= 4294967296 ->
    lock_user sz VERIFY_WRITE gaddr (Z.of_nat k) pg = let? w := writable sz pg gaddr in Ok (if w then Some gaddr else None)).
  { intros k K1 K2 K3. unfold lock_user. rewrite u32_small, access_write by lia. rewrite Gh. done. }
  assert (Np : (0 < n)%nat /\ Z.of_nat n < 2147483648).
  { unfold sizeof_ok in N0. cbn [existsb] in N0. rewrite !orb_true_iff, !Nat.eqb_eq in N0. lia. }
  unfold copy_to_user, copy_from_user, put_user, get_user, __put_user, __get_user. rewrite !Rd, !Wr, N0 by lia.
  cbn [res_bind]. split; [now destruct (writable sz pg gaddr) as [[]|]|]. split; [now destruct (readable _ _ _)|]. split.
  - intros m' E R. rewrite R. destruct (writable sz pg gaddr) as [[]|]; cbn in E; [|discriminate E|discriminate E].
    injection E as <-. do 3 f_equal. pose proof (at_bytes_write m gaddr bs) as B. unfold at_bytes in B.
    now rewrite length_map in B.
  - intros m' E R. rewrite R. destruct (writable sz pg gaddr) as [[]|]; cbn in E; [|discriminate E|discriminate E].
    injection E as <-. cbn. now rewrite read_le_bytes, le_val_bytes.
Qed.

(** Two pages at 0x8048000, the first of them writable. *)
Definition demo_user : pagemap :=
  match page_set_flags 0x8048000 0x8049000 (Z.lor PAGE_VALID (Z.lor PAGE_READ PAGE_WRITE)) demo_pages with
  | Ok m => m | Err _ => demo_pages end.

Lemma target_strlen_ok_witness :
  target_strlen 4096 0x8048ffe demo_user (write_bytes 0x8048ffe [97; 98; 99; 0] ∅) = Ok 3.
Proof.
  destruct (target_strlen_ok 4096 demo_user (write_bytes 0x8048ffe [97; 98; 99; 0] ∅) 0x8048ffe ltac:(lia)) as (r & E & K).
  assert (S3 : is_strlen demo_user (write_bytes 0x8048ffe [97; 98; 99; 0] ∅) 0x8048ffe 3).
  { constructor; try lia; [|vm_compute; reflexivity|].
    - intros i Hi. assert (C : i = 0 \/ i = 1 \/ i = 2) by lia.
      destruct C as [-> | [-> | ->]]; vm_compute; discriminate.
    - intros j Hj. assert (C : j = 0x8048 \/ j = 0x8049) by (Z.div_mod_to_equations; lia).
      destruct C as [-> | ->]; vm_compute; reflexivity. }
  rewrite E. f_equal. destruct K as [K|[_ K]].
  - exact (is_strlen_unique _ _ _ _ _ K S3).
  - destruct (K ltac:(discriminate) 3 S3).
Defined.

(** The second page is not writable, but bytes are copied to it. *)
Lemma user_copy_ok_witness :
  exists m', copy_to_user 4096 0x8048fff [1; 2] demo_user ∅ = Ok (0, m') /\
    copy_from_user 4096 0x8048fff 2 demo_user m' = Ok (0, Some [1; 2]) /\ m' !! 0x8049000 = Some 2.
Proof.
  destruct (user_copy_ok 4096 0x8048fff [1; 2] 4 7 demo_user ∅ ltac:(lia)) as (E & _ & K & _); [cbn; lia..|reflexivity|lia|].
  assert (W : writable 4096 demo_user 0x8048fff = Ok true) by (vm_compute; reflexivity).
  rewrite W in E. cbn [res_bind] in E. exists (write_bytes 0x8048fff [1; 2] ∅). split; [exact E|]. split.
  - exact (K _ E ltac:(vm_compute; reflexivity)).
  - vm_compute. reflexivity.
Defined.
