(* ===== verification/SigTab.v ===== *)
(** src/linux-user/signal.c, part 1: signal numbers, sets of signals, the
    information that comes with one, and the record of a disposition.  Host
    and target are both i386 Linux, so the byte order is the same and [tswapl]
    and [tswap32] are the identity; the host's numbers are those of its libc,
    and a host [sigset_t] is a set of numbers. *)

From S2P Require Import Prelude Memory Opcode Decode State.
From stdpp Require Import gmap.
#[local] Open Scope Z_scope.

(** ** Signal numbers *)

(** The host's ([signal.h]) and the target's (syscall_defs.h) are the same. *)
Definition SIGILL : Z := 4.
Definition SIGTRAP : Z := 5.
Definition SIGABRT : Z := 6.
Definition SIGBUS : Z := 7.
Definition SIGFPE : Z := 8.
Definition SIGKILL : Z := 9.
Definition SIGQUIT : Z := 3.
Definition SIGSEGV : Z := 11.
Definition SIGCHLD : Z := 17.
Definition SIGCONT : Z := 18.
Definition SIGSTOP : Z := 19.
Definition SIGTSTP : Z := 20.
Definition SIGTTIN : Z := 21.
Definition SIGTTOU : Z := 22.
Definition SIGURG : Z := 23.
Definition SIGWINCH : Z := 28.
Definition SIGIO : Z := 29.

Definition NSIG : Z := 65.
Definition SIGRTMIN : Z := 32.
Definition SIGRTMAX : Z := NSIG - 1.
Definition TARGET_SIGRTMIN : Z := 32.

Definition TARGET_NSIG : Z := 64.
Definition TARGET_NSIG_BPW : Z := 32.
Definition TARGET_NSIG_WORDS : Z := TARGET_NSIG / TARGET_NSIG_BPW.

(** The signals that are listed in the initialiser, with equal numbers. *)
Definition listed : list Z := seqZ 1 31.
Definition host_to_target_signal_table : Z -> Z := fun i =>
  if existsb (Z.eqb i) listed then i
  else if i =? SIGRTMIN then SIGRTMAX
  else if i =? SIGRTMAX then SIGRTMIN
  else 0.

(** The tables, as [signal_init] leaves them. *)
Fixpoint init_h2t (n : nat) (i : Z) (t : Z -> Z) : Z -> Z :=
  match n with
  | O => t
  | S n => init_h2t n (i + 1) (if t i =? 0 then <[i := i]> t else t)
  end.
Fixpoint init_t2h (n : nat) (i : Z) (h2t t2h : Z -> Z) : Z -> Z :=
  match n with
  | O => t2h
  | S n => init_t2h n (i + 1) h2t (<[h2t i := i]> t2h)
  end.

Definition h2t_table : Z -> Z := init_h2t (Z.to_nat (NSIG - 1)) 1 host_to_target_signal_table.
Definition t2h_table : Z -> Z := init_t2h (Z.to_nat (NSIG - 1)) 1 h2t_table (fun _ => 0).

(** A negative number indexes the tables out of bounds. *)
Definition host_to_target_signal (sig : Z) : res Z :=
  if sig >=? NSIG then Ok sig else if sig <? 0 then Err UB else Ok (h2t_table sig).
Definition target_to_host_signal (sig : Z) : res Z :=
  if sig >=? NSIG then Ok sig else if sig <? 0 then Err UB else Ok (t2h_table sig).

(** Which signals end the process by default, and which dump core. *)
Definition fatal_signal (sig : Z) : bool :=
  negb (existsb (Z.eqb sig) [SIGCHLD; SIGURG; SIGWINCH; SIGCONT; SIGSTOP; SIGTSTP; SIGTTIN; SIGTTOU]).
Definition core_dump_signal (sig : Z) : bool :=
  existsb (Z.eqb sig) [SIGABRT; SIGFPE; SIGILL; SIGQUIT; SIGSEGV; SIGTRAP; SIGBUS].

(** ** Sets *)

(** The words of a [target_sigset_t]. *)
Abbreviation target_sigset := (Z -> Z).

Definition target_sigemptyset : target_sigset := fun _ => 0.

(** The bit of signal [signum]; C's division truncates. *)
Definition sig_mask (signum : Z) : Z := u32 (Z.shiftl 1 (Z.rem (signum - 1) TARGET_NSIG_BPW)).
Definition sig_word (signum : Z) : Z := Z.quot (signum - 1) TARGET_NSIG_BPW.
Definition sig_in_set (signum : Z) : bool := (1 <=? signum) && (signum <=? TARGET_NSIG).

Definition target_sigaddset (set : target_sigset) (signum : Z) : res target_sigset :=
  if sig_in_set signum then
    let w := sig_word signum in Ok (<[w := Z.lor (set w) (sig_mask signum)]> set)
  else Err UB.
Definition target_sigismember (set : target_sigset) (signum : Z) : res bool :=
  if sig_in_set signum then Ok (hasb (set (sig_word signum)) (sig_mask signum)) else Err UB.

(** [for (i = 1; i <= TARGET_NSIG; i++)] *)
Fixpoint h2t_sigset_loop (n : nat) (i : Z) (d : target_sigset) (s : gset Z) : res target_sigset :=
  match n with
  | O => Ok d
  | S n =>
      if decide (i ∈ s) then
        let? t := host_to_target_signal i in
        let? d := target_sigaddset d t in
        h2t_sigset_loop n (i + 1) d s
      else h2t_sigset_loop n (i + 1) d s
  end.
Definition host_to_target_sigset_internal (s : gset Z) : res target_sigset :=
  h2t_sigset_loop (Z.to_nat TARGET_NSIG) 1 target_sigemptyset s.

Fixpoint t2h_sigset_loop (n : nat) (i : Z) (d : gset Z) (s : target_sigset) : res (gset Z) :=
  match n with
  | O => Ok d
  | S n =>
      let? b := target_sigismember s i in
      if b : bool then
        let? h := target_to_host_signal i in
        t2h_sigset_loop n (i + 1) ({[h]} ∪ d) s
      else t2h_sigset_loop n (i + 1) d s
  end.
Definition target_to_host_sigset_internal (s : target_sigset) : res (gset Z) :=
  t2h_sigset_loop (Z.to_nat TARGET_NSIG) 1 ∅ s.

(** The words are copied one by one, through [tswapl]. *)
Definition tswapl_sigset (s : target_sigset) : target_sigset :=
  fun w => if (0 <=? w) && (w <? TARGET_NSIG_WORDS) then s w else 0.
Definition host_to_target_sigset (s : gset Z) : res target_sigset :=
  let? d1 := host_to_target_sigset_internal s in Ok (tswapl_sigset d1).
Definition target_to_host_sigset (s : target_sigset) : res (gset Z) :=
  target_to_host_sigset_internal (tswapl_sigset s).

Definition host_to_target_old_sigset (sigset : gset Z) : res Z :=
  let? d := host_to_target_sigset sigset in Ok (d 0).
Definition target_to_host_old_sigset (old_sigset : Z) : res (gset Z) :=
  target_to_host_sigset (fun w => if w =? 0 then old_sigset else 0).

(** ** Signal information *)

(** [siginfo_t] and [target_siginfo_t]: the three numbers and the words of the
    union; the layouts are the same. *)
Record siginfo := mkInfo { si_signo : Z; si_errno : Z; si_code : Z; sifields : Z -> Z }.
Definition siginfo_zero : siginfo := mkInfo 0 0 0 (fun _ => 0).

(** [_rt._pid] (and [_kill._pid], [_sigfault._addr]), [_rt._uid] (and
    [_sigpoll._fd]), [_rt._sigval]. *)
Definition f_pid : Z := 0.
Definition f_addr : Z := 0.
Definition f_uid : Z := 1.
Definition f_fd : Z := 1.
Definition f_sigval : Z := 2.

Definition is_fault (sig : Z) : bool := existsb (Z.eqb sig) [SIGILL; SIGFPE; SIGSEGV; SIGBUS; SIGTRAP].

(** The fields of [info] that are copied for signal [sig]. *)
Definition put_fields (sig : Z) (fault_addr : Z) (t : Z -> Z) (info : siginfo) : Z -> Z :=
  if is_fault sig then <[f_addr := fault_addr]> t
  else if sig =? SIGIO then <[f_fd := sifields info f_fd]> t
  else if sig >=? TARGET_SIGRTMIN then
    <[f_sigval := sifields info f_sigval]> (<[f_uid := sifields info f_uid]> (<[f_pid := sifields info f_pid]> t))
  else t.

Definition host_to_target_siginfo_noswap (tinfo info : siginfo) : res siginfo :=
  let? sig := host_to_target_signal (si_signo info) in
  Ok (mkInfo sig 0 (si_code info) (put_fields sig 0 (sifields tinfo) info)).

Definition tswap_siginfo (tinfo info : siginfo) : siginfo :=
  mkInfo (si_signo info) (si_errno info) (si_code info)
    (put_fields (si_signo info) (sifields info f_addr) (sifields tinfo) info).

Definition host_to_target_siginfo (tinfo info : siginfo) : res siginfo :=
  let? t := host_to_target_siginfo_noswap tinfo info in Ok (tswap_siginfo t t).

(** The signal number is not converted. *)
Definition target_to_host_siginfo (info tinfo : siginfo) : siginfo :=
  mkInfo (si_signo tinfo) (si_errno tinfo) (si_code tinfo)
    (<[f_sigval := sifields tinfo f_sigval]> (<[f_uid := sifields tinfo f_uid]>
       (<[f_pid := sifields tinfo f_pid]> (sifields info)))).

(** ** Dispositions *)

Definition TARGET_SIG_DFL : Z := 0.
Definition TARGET_SIG_IGN : Z := 1.
Definition TARGET_SIG_ERR : Z := 0xffffffff.

Definition TARGET_SA_SIGINFO : Z := 0x00000004.
Definition TARGET_SA_ONSTACK : Z := 0x08000000.
Definition TARGET_SA_RESTART : Z := 0x10000000.
Definition TARGET_SA_NODEFER : Z := 0x40000000.
Definition TARGET_SA_RESETHAND : Z := 0x80000000.
Definition TARGET_SA_RESTORER : Z := 0x04000000.

Record target_sigaction := mkSa { _sa_handler : Z; sa_flags : Z; sa_restorer : Z; sa_mask : Z -> Z }.
Definition sigaction_zero : target_sigaction := mkSa TARGET_SIG_DFL 0 0 target_sigemptyset.

(** ** Lemmas *)

Definition valid (i : Z) : Prop := 1 <= i <= 64.

Lemma valid_ind (P : Z -> bool) : forallb P (seqZ 1 64) = true -> forall i, valid i -> P i = true.
Proof.
  intros F i V. rewrite forallb_forall in F. apply F. apply list_elem_of_In, elem_of_seqZ. unfold valid in V. lia.
Qed.

(** The two tables are inverse permutations of the signals. *)
Lemma tables_valid i : valid i -> valid (h2t_table i) /\ valid (t2h_table i) /\
  t2h_table (h2t_table i) = i /\ h2t_table (t2h_table i) = i.
Proof.
  intros V. pose proof (valid_ind (fun i => (1 <=? h2t_table i) && (h2t_table i <=? 64) && (1 <=? t2h_table i) &&
    (t2h_table i <=? 64) && (t2h_table (h2t_table i) =? i) && (h2t_table (t2h_table i) =? i))
    ltac:(vm_compute; reflexivity) i V) as T. cbv beta in T. unfold valid. lia.
Qed.

Lemma h2t_valid i : valid i -> host_to_target_signal i = Ok (h2t_table i).
Proof.
  unfold valid, host_to_target_signal, NSIG. intros V.
  destruct (Z.geb_spec i 65), (Z.ltb_spec i 0); try lia; done.
Qed.
Lemma t2h_valid i : valid i -> target_to_host_signal i = Ok (t2h_table i).
Proof.
  unfold valid, target_to_host_signal, NSIG. intros V.
  destruct (Z.geb_spec i 65), (Z.ltb_spec i 0); try lia; done.
Qed.
Lemma sig_in_set_valid i : sig_in_set i = true <-> valid i.
Proof. unfold sig_in_set, valid, TARGET_NSIG. lia. Qed.

(** Membership as a bit. *)
Definition member (d : target_sigset) (i : Z) : bool := hasb (d (sig_word i)) (sig_mask i).

Lemma member_bit d i : valid i -> member d i = Z.testbit (d ((i - 1) / 32)) ((i - 1) mod 32).
Proof.
  intros V. unfold valid in V. unfold member, sig_word, sig_mask, TARGET_NSIG_BPW.
  rewrite Z.quot_div_nonneg, Z.rem_mod_nonneg by lia.
  set (k := (i - 1) mod 32). assert (0 <= k < 32) by (unfold k; Z.div_mod_to_equations; lia).
  assert (0 < 2 ^ k < 4294967296).
  { split; [apply Z.pow_pos_nonneg; lia|]. change 4294967296 with (2 ^ 32). apply Z.pow_lt_mono_r; lia. }
  rewrite Z.shiftl_1_l, u32_small by lia. unfold hasb.
  destruct (Z.testbit _ k) eqn:B.
  - apply negb_true_iff, Z.eqb_neq. intros E. apply (f_equal (fun z => Z.testbit z k)) in E.
    rewrite Z.land_spec, B, Z.pow2_bits_true, Z.bits_0 in E by lia. discriminate.
  - apply negb_false_iff, Z.eqb_eq. apply Z.bits_inj'. intros j Hj. rewrite Z.land_spec, Z.bits_0.
    destruct (Z.eq_dec j k) as [->|D]; [now rewrite B|]. rewrite Z.pow2_bits_false by done. apply andb_false_r.
Qed.

(** A set of words is determined by its members. *)
Definition words_ok (d : target_sigset) : Prop :=
  (forall w, 0 <= w < 2 -> 0 <= d w < 4294967296) /\ forall w, ~ (0 <= w < 2) -> d w = 0.

Lemma sig_mask_range i : valid i -> 0 < sig_mask i < 4294967296 /\ sig_mask i = 2 ^ ((i - 1) mod 32) /\
  sig_word i = (i - 1) / 32.
Proof.
  unfold valid, sig_mask, sig_word, TARGET_NSIG_BPW. intros V.
  rewrite Z.quot_div_nonneg, Z.rem_mod_nonneg by lia.
  assert (0 <= (i - 1) mod 32 < 32) by (Z.div_mod_to_equations; lia). set (k := (i - 1) mod 32) in *.
  assert (0 < 2 ^ k < 4294967296).
  { split; [apply Z.pow_pos_nonneg; lia|]. change 4294967296 with (2 ^ 32). apply Z.pow_lt_mono_r; lia. }
  rewrite Z.shiftl_1_l, u32_small by lia. auto.
Qed.

Lemma lor_range32 x y : 0 <= x < 4294967296 -> 0 <= y < 4294967296 -> 0 <= Z.lor x y < 4294967296.
Proof.
  intros Hx Hy. assert (0 <= Z.lor x y) by (apply Z.lor_nonneg; lia). split; [done|].
  destruct (Z.eq_dec (Z.lor x y) 0) as [->|]; [lia|]. change 4294967296 with (2 ^ 32).
  apply Z.log2_lt_pow2; [lia|]. rewrite Z.log2_lor by lia.
  assert (L : forall z, 0 <= z < 4294967296 -> Z.log2 z < 32).
  { intros z Hz. destruct (Z.eq_dec z 0) as [->|]; [cbn; lia|]. apply Z.log2_lt_pow2; [lia|]. cbn; lia. }
  pose proof (L x Hx). pose proof (L y Hy). lia.
Qed.

Lemma member_add d i : valid i -> words_ok d ->
  exists d', target_sigaddset d i = Ok d' /\ words_ok d' /\
    forall j, valid j -> member d' j = (i =? j) || member d j.
Proof.
  intros Vi [R Z0]. unfold target_sigaddset. rewrite (proj2 (sig_in_set_valid i) Vi). cbv zeta.
  destruct (sig_mask_range i Vi) as (Mr & Me & We). rewrite We. unfold valid in Vi.
  eexists. split; [reflexivity|]. split; [split|].
  - intros w W. destruct (Z.eq_dec ((i - 1) / 32) w) as [E|D]; [|rewrite fn_lookup_insert_ne by done; auto].
    rewrite E, fn_lookup_insert. apply lor_range32; [now apply R|lia].
  - intros w W. rewrite fn_lookup_insert_ne; [auto|]. intros E. apply W. Z.div_mod_to_equations. lia.
  - intros j Vj. rewrite !member_bit, Me by done. unfold valid in Vj. set (k := (i - 1) mod 32).
    assert (0 <= k < 32) by (unfold k; Z.div_mod_to_equations; lia).
    destruct (Z.eq_dec ((i - 1) / 32) ((j - 1) / 32)) as [E|D].
    + rewrite E, fn_lookup_insert, Z.lor_spec. rewrite Z.pow2_bits_eqb by lia. rewrite orb_comm. f_equal.
      unfold k. destruct (Z.eqb_spec i j) as [->|Ne]; [apply Z.eqb_refl|]. apply Z.eqb_neq.
      Z.div_mod_to_equations. lia.
    + rewrite fn_lookup_insert_ne by done. destruct (Z.eqb_spec i j) as [->|Ne]; [lia|done].
Qed.

Lemma words_ext d d' : words_ok d -> words_ok d' -> (forall i, valid i -> member d i = member d' i) ->
  forall w, d w = d' w.
Proof.
  intros [R Z0] [R' Z0'] M w. destruct (decide (0 <= w < 2)) as [W|W]; [|now rewrite Z0, Z0'].
  apply Z.bits_inj'. intros k Hk. destruct (Z.lt_ge_cases k 32) as [Lk|Gk].
  - specialize (M (32 * w + k + 1)). rewrite !member_bit in M by (unfold valid; lia).
    replace ((32 * w + k + 1 - 1) / 32) with w in M by (Z.div_mod_to_equations; lia).
    replace ((32 * w + k + 1 - 1) mod 32) with k in M by (Z.div_mod_to_equations; lia).
    apply M. unfold valid. lia.
  - rewrite !bits_above by auto. done.
Qed.

Lemma in_range_S i n x : x <> i ->
  (i + 1 <=? x) && (x <? i + 1 + Z.of_nat n) = (i <=? x) && (x <? i + Z.of_nat (S n)).
Proof.
  intros Ne. destruct (Z.leb_spec (i + 1) x), (Z.leb_spec i x), (Z.ltb_spec x (i + 1 + Z.of_nat n)),
    (Z.ltb_spec x (i + Z.of_nat (S n))); try done; lia.
Qed.

(** The loops, from signal [i]. *)
Lemma h2t_loop_ok n : forall i d s, 1 <= i -> i + Z.of_nat n <= 65 -> words_ok d ->
  exists d', h2t_sigset_loop n i d s = Ok d' /\ words_ok d' /\
    forall j, valid j -> member d' j = member d j ||
      (bool_decide (t2h_table j ∈ s) && (i <=? t2h_table j) && (t2h_table j <? i + Z.of_nat n)).
Proof.
  induction n as [|n IH]; intros i d s Hi Hn W; cbn [h2t_sigset_loop].
  { exists d. do 2 (split; [done|]). intros j _.
    destruct (Z.leb_spec i (t2h_table j)), (Z.ltb_spec (t2h_table j) (i + Z.of_nat 0)); try lia;
      now rewrite ?andb_false_r, ?orb_false_r. }
  assert (Vi : valid i) by (unfold valid; lia). destruct (tables_valid i Vi) as (V1 & _ & T1 & _).
  destruct (decide (i ∈ s)) as [In|Out].
  - rewrite (h2t_valid i Vi). cbn [res_bind].
    destruct (member_add d _ V1 W) as (d1 & -> & W1 & M1). cbn [res_bind].
    destruct (IH (i + 1) d1 s) as (d' & -> & W' & M'); [lia|lia|done|]. exists d'. do 2 (split; [done|]).
    intros j Vj. rewrite M', M1 by done. destruct (tables_valid j Vj) as (_ & _ & _ & T2).
    destruct (Z.eqb_spec (h2t_table i) j) as [<-|Ne].
    + rewrite T1, bool_decide_true by done.
      rewrite (proj2 (Z.leb_le i i)), (proj2 (Z.ltb_lt i (i + Z.of_nat (S n)))) by lia.
      cbn [andb orb]. now rewrite orb_true_r.
    + assert (t2h_table j <> i) by (intros E; apply Ne; now rewrite <- E). cbn [orb].
      now rewrite <- !andb_assoc, in_range_S.
  - destruct (IH (i + 1) d s) as (d' & -> & W' & M'); [lia|lia|done|]. exists d'. do 2 (split; [done|]).
    intros j Vj. rewrite M', <- !andb_assoc by done. f_equal. destruct (Z.eq_dec (t2h_table j) i) as [->|Ne].
    + rewrite bool_decide_false by done. done.
    + now rewrite in_range_S.
Qed.

Lemma t2h_loop_ok n : forall i d s, 1 <= i -> i + Z.of_nat n <= 65 ->
  exists d', t2h_sigset_loop n i d s = Ok d' /\
    forall j, j ∈ d' <-> j ∈ d \/ exists k, i <= k < i + Z.of_nat n /\ member s k = true /\ j = t2h_table k.
Proof.
  induction n as [|n IH]; intros i d s Hi Hn; cbn [t2h_sigset_loop].
  { exists d. split; [done|]. intros j. split; [auto|]. intros [?|(k & ? & _)]; [done|lia]. }
  assert (Vi : valid i) by (unfold valid; lia).
  unfold target_sigismember. rewrite (proj2 (sig_in_set_valid i) Vi). fold (member s i). cbn [res_bind].
  assert (Split : forall k, i <= k < i + Z.of_nat (S n) <-> k = i \/ i + 1 <= k < i + 1 + Z.of_nat n) by lia.
  destruct (member s i) eqn:B.
  - rewrite (t2h_valid i Vi). cbn [res_bind]. destruct (IH (i + 1) ({[t2h_table i]} ∪ d) s) as (d' & -> & M); [lia|lia|].
    exists d'. split; [done|]. intros j. rewrite M, elem_of_union, elem_of_singleton. split.
    + intros [[->|?]|(k & R & Mk & ->)]; [right; exists i|by left|right; exists k]; rewrite Split; auto.
    + intros [?|(k & R & Mk & ->)]; [auto|]. apply Split in R as [->|R]; [auto|]. right. exists k. auto.
  - destruct (IH (i + 1) d s) as (d' & -> & M); [lia|lia|].
    exists d'. split; [done|]. intros j. rewrite M. split.
    + intros [?|(k & R & Mk & ->)]; [auto|]. right. exists k. rewrite Split. auto.
    + intros [?|(k & R & Mk & ->)]; [auto|]. apply Split in R as [->|R]; [now rewrite B in Mk|].
      right. exists k. auto.
Qed.

Lemma tswap_words d : words_ok d -> words_ok (tswapl_sigset d) /\ forall i, valid i -> member (tswapl_sigset d) i = member d i.
Proof.
  intros [R Z0]. unfold tswapl_sigset. change TARGET_NSIG_WORDS with 2.
  assert (E : forall w, (if (0 <=? w) && (w <? 2) then d w else 0) = d w).
  { intros w. destruct (Z.leb_spec 0 w), (Z.ltb_spec w 2); cbn [andb]; try done; rewrite Z0; lia. }
  split; [split; intros w W; rewrite E; auto|]. intros i _. unfold member. now rewrite E.
Qed.

(** The members of the two conversions. *)
Lemma h2t_sigset_ok s : exists d, host_to_target_sigset s = Ok d /\ words_ok d /\
  forall j, valid j -> member d j = bool_decide (t2h_table j ∈ s).
Proof.
  destruct (h2t_loop_ok (Z.to_nat TARGET_NSIG) 1 target_sigemptyset s) as (d & E & W & M);
    [lia|vm_compute; discriminate|now split|].
  destruct (tswap_words d W) as [W' M']. exists (tswapl_sigset d).
  unfold host_to_target_sigset, host_to_target_sigset_internal. rewrite E. do 2 (split; [done|]).
  intros j V. rewrite M', M by done. destruct (tables_valid j V) as (_ & [? ?] & _).
  unfold member at 1, target_sigemptyset. unfold hasb. rewrite Z.land_0_l. cbn [Z.eqb negb orb].
  destruct (Z.leb_spec 1 (t2h_table j)), (Z.ltb_spec (t2h_table j) (1 + Z.of_nat (Z.to_nat TARGET_NSIG)));
    unfold TARGET_NSIG in *; try lia. now rewrite !andb_true_r.
Qed.

Lemma t2h_sigset_ok d : words_ok d -> exists s, target_to_host_sigset d = Ok s /\
  forall j, j ∈ s <-> exists k, valid k /\ member d k = true /\ j = t2h_table k.
Proof.
  intros W. destruct (tswap_words d W) as [_ M'].
  destruct (t2h_loop_ok (Z.to_nat TARGET_NSIG) 1 ∅ (tswapl_sigset d)) as (s & E & M);
    [lia|vm_compute; discriminate|]. exists s. split; [exact E|]. clear E.
  intros j. rewrite M. split.
  - intros [F|(k & R & Mk & ->)]; [now apply not_elem_of_empty in F|]. exists k.
    assert (valid k) by (unfold valid; unfold TARGET_NSIG in R; lia). now rewrite <- M'.
  - intros (k & R & Mk & ->). right. exists k. rewrite M' by done. split; [|done].
    unfold valid in R. unfold TARGET_NSIG. lia.
Qed.

(** C24: The conversions of signal sets are inverse to each other on the sixty-four
    signals: a host set comes back through the words of a target set, whose bits are
    the signals' target numbers, and the words of a target set come back, with the
    same value in every word, through a host set. No conversion reads or writes outside
    the two words of the set. *)
Theorem sigset_round_trip (s : gset Z) (d : target_sigset) :
  (forall i, i ∈ s -> 1 <= i <= 64) -> words_ok d ->
  (exists t, host_to_target_sigset s = Ok t /\ words_ok t /\ target_to_host_sigset t = Ok s /\
     forall i, 1 <= i <= 64 -> (i ∈ s <-> target_sigismember t (h2t_table i) = Ok true)) /\
  (exists h t, target_to_host_sigset d = Ok h /\ host_to_target_sigset h = Ok t /\ forall w, t w = d w).
Proof.
  intros S W. split.
  - destruct (h2t_sigset_ok s) as (t & Et & Wt & Mt). destruct (t2h_sigset_ok t Wt) as (h & Eh & Mh).
    exists t. split; [exact Et|]. split; [exact Wt|]. rewrite Eh. clear Et Eh. split.
    + f_equal. apply set_eq. intros i. rewrite Mh. split.
      * intros (k & V & Mk & ->). rewrite Mt in Mk by exact V. now apply bool_decide_eq_true in Mk.
      * intros Hi. destruct (tables_valid i (S i Hi)) as (V & _ & T & _). exists (h2t_table i).
        rewrite Mt, T by exact V. split; [exact V|]. split; [now apply bool_decide_eq_true_2|reflexivity].
    + intros i V. destruct (tables_valid i V) as (V1 & _ & T & _). unfold target_sigismember.
      rewrite (proj2 (sig_in_set_valid _) V1). fold (member t (h2t_table i)). rewrite Mt, T by exact V1.
      split; [intros ?; f_equal; now apply bool_decide_eq_true_2|]. intros [= E]. now apply bool_decide_eq_true in E.
  - destruct (t2h_sigset_ok d W) as (h & Eh & Mh). destruct (h2t_sigset_ok h) as (t & Et & Wt & Mt).
    exists h, t. split; [exact Eh|]. split; [exact Et|]. clear Eh Et.
    apply words_ext; [exact Wt|exact W|]. intros i V. rewrite Mt by exact V.
    destruct (tables_valid i V) as (_ & _ & _ & Ti). destruct (bool_decide _) eqn:B.
    + apply bool_decide_eq_true, Mh in B as (k & Vk & Mk & E). symmetry.
      apply (f_equal h2t_table) in E. destruct (tables_valid k Vk) as (_ & _ & _ & Tk). rewrite Ti, Tk in E.
      now subst.
    + apply bool_decide_eq_false in B. symmetry. apply not_true_is_false. intros Mi. apply B, Mh.
      exists i. auto.
Qed.

Theorem sigset_round_trip_witness :
  words_ok (fun w => if w =? 0 then 0x80000100 else if w =? 1 then 5 else 0) /\
  (exists h t, target_to_host_sigset (fun w => if w =? 0 then 0x80000100 else if w =? 1 then 5 else 0) = Ok h /\
     host_to_target_sigset h = Ok t /\ forall w, t w = if w =? 0 then 0x80000100 else if w =? 1 then 5 else 0).
Proof.
  assert (W : words_ok (fun w => if w =? 0 then 0x80000100 else if w =? 1 then 5 else 0)).
  { split; intros w Hw; destruct (Z.eqb_spec w 0), (Z.eqb_spec w 1); lia. }
  split; [exact W|]. apply (sigset_round_trip {[9; 64]} _); [|exact W].
  intros i. rewrite elem_of_union, !elem_of_singleton. lia.
Defined.

(** A real-time signal's sender and value survive the two conversions; the number
    is the target's. *)
Lemma rt_siginfo_round_trip t h info : SIGRTMIN <= si_signo info <= SIGRTMAX ->
  exists ti, host_to_target_siginfo t info = Ok ti /\
    let i := target_to_host_siginfo h ti in
    si_signo i = h2t_table (si_signo info) /\ si_code i = si_code info /\ si_errno i = 0 /\
    forall f, 0 <= f <= 2 -> sifields i f = sifields info f.
Proof.
  intros R. unfold host_to_target_siginfo, host_to_target_siginfo_noswap.
  assert (V : valid (si_signo info)) by (unfold valid, SIGRTMIN, SIGRTMAX, NSIG in *; lia).
  rewrite h2t_valid by exact V. cbn [res_bind]. eexists. split; [reflexivity|]. cbv zeta.
  assert (G : is_fault (h2t_table (si_signo info)) = false /\ (h2t_table (si_signo info) =? SIGIO) = false /\
              (h2t_table (si_signo info) >=? TARGET_SIGRTMIN) = true).
  { pose proof (valid_ind (fun i => (i <? 32) || (negb (is_fault (h2t_table i)) && negb (h2t_table i =? SIGIO) &&
      (h2t_table i >=? TARGET_SIGRTMIN))) ltac:(vm_compute; reflexivity) _ V) as T. cbv beta in T.
    destruct (Z.ltb_spec (si_signo info) 32) as [L|_]; [unfold SIGRTMIN in R; lia|]. cbn [orb] in T.
    apply andb_prop in T as [T ->]. apply andb_prop in T as [T1%negb_true_iff T2%negb_true_iff]. auto. }
  destruct G as (G1 & G2 & G3). unfold target_to_host_siginfo, tswap_siginfo, put_fields.
  cbn [si_signo si_code si_errno sifields]. rewrite G1, G2, G3. do 3 (split; [reflexivity|]).
  intros f F. assert (f = 0 \/ f = 1 \/ f = 2) as [->|[->| ->]] by lia; reflexivity.
Qed.
