(* ===== verification/SigQueue.v ===== *)
(** src/linux-user/signal.c, part 2: the queues of pending signals of a task
    ([queue_signal], the dequeuing half of [process_pending_signals], the pool of
    queue entries) with [init_task_state] of src/linux-user/main.c. Pointers to
    queue entries are names of entries: a task has one entry per signal inside
    its table and a pool of [MAX_SIGQUEUE_SIZE] more. [force_sig] never returns:
    the process dies of the host signal. *)

From S2P Require Import Prelude Memory Opcode Decode State SigTab.
From stdpp Require Import gmap.
#[local] Open Scope Z_scope.

Definition MAX_SIGQUEUE_SIZE : Z := 1024.
Definition EAGAIN : Z := 11.

(** [&ts->sigtab[k - 1].info] and [&ts->sigqueue_table[i]]. *)
Inductive qref := QInfo (k : Z) | QPool (i : Z).
#[export] Instance qref_eq : EqDecision qref.
Proof. solve_decision. Defined.

Record sigqueue := mkSq { next : option qref; info : siginfo }.
Record emulated_sigtable := mkEs { pending : Z; first : option qref }.
Record TaskState := mkTs {
  sigtab : Z -> emulated_sigtable;     (* indexed by the signal *)
  sq : qref -> sigqueue;               (* the entries *)
  first_free : option qref;
  signal_pending : Z }.

Definition set_sigtab (sig : Z) (k : emulated_sigtable) (ts : TaskState) : TaskState :=
  mkTs (<[sig := k]> (sigtab ts)) (sq ts) (first_free ts) (signal_pending ts).
Definition set_sq (q : qref) (e : sigqueue) (ts : TaskState) : TaskState :=
  mkTs (sigtab ts) (<[q := e]> (sq ts)) (first_free ts) (signal_pending ts).
Definition set_first_free (p : option qref) (ts : TaskState) : TaskState :=
  mkTs (sigtab ts) (sq ts) p (signal_pending ts).
Definition set_signal_pending (b : Z) (ts : TaskState) : TaskState :=
  mkTs (sigtab ts) (sq ts) (first_free ts) b.

(** The contents are zeroed before. *)
Definition init_task_state : TaskState :=
  mkTs (fun _ => mkEs 0 None)
       (fun q => mkSq (match q with
                       | QPool i => if (0 <=? i) && (i <? MAX_SIGQUEUE_SIZE - 1) then Some (QPool (i + 1)) else None
                       | QInfo _ => None
                       end) siginfo_zero)
       (Some (QPool 0)) 0.

Definition alloc_sigqueue (ts : TaskState) : option qref * TaskState :=
  match first_free ts with
  | None => (None, ts)
  | Some q => (Some q, set_first_free (next (sq ts q)) ts)
  end.

Definition free_sigqueue (q : qref) (ts : TaskState) : TaskState :=
  set_first_free (Some q) (set_sq q (mkSq (first_free ts) (info (sq ts q))) ts).

(** What a call does to the process. *)
Inductive outcome (A : Type) :=
  | Returned (stopped : bool) (r : A)       (* [stopped]: [kill(getpid(), SIGSTOP)] came before *)
  | Killed (host_sig : Z) (core : bool).    (* [core]: a core dump was asked for *)
Arguments Returned {A}.
Arguments Killed {A}.

Section Queue.
(** [ts->bprm->core_dump != NULL]. *)
Variable core_dump : bool.

Definition force_sig {A} (target_sig : Z) : res (outcome A) :=
  let? host_sig := target_to_host_signal target_sig in
  Ok (Killed host_sig (core_dump_signal target_sig && core_dump)).

(** [while ( *pq != NULL) pq = &( *pq)->next]: the last entry from [q] on. *)
Fixpoint last_entry (n : nat) (q : qref) (ts : TaskState) : res qref :=
  match n with
  | O => Err Fuel
  | S n => match next (sq ts q) with Some q' => last_entry n q' ts | None => Ok q end
  end.
Definition queue_fuel : nat := Z.to_nat 1026.

(** [*pq = q] where [pq] is the end of the list of signal [sig]. *)
Definition set_end (sig : Z) (q : qref) (ts : TaskState) : res TaskState :=
  match first (sigtab ts sig) with
  | None => Ok (set_sigtab sig (mkEs (pending (sigtab ts sig)) (Some q)) ts)
  | Some f =>
      let? l := last_entry queue_fuel f ts in
      Ok (set_sq l (mkSq (Some q) (info (sq ts l))) ts)
  end.
(** [pq = &k->first; *pq = q]. *)
Definition set_first (sig : Z) (q : qref) (ts : TaskState) : TaskState :=
  set_sigtab sig (mkEs (pending (sigtab ts sig)) (Some q)) ts.

(** From [q->info = *info] on. *)
Definition fill_entry (sig : Z) (q : qref) (i : siginfo) (ts : TaskState) : TaskState :=
  let ts := set_sq q (mkSq None i) ts in
  set_signal_pending 1 (set_sigtab sig (mkEs 1 (first (sigtab ts sig))) ts).

(** [queue] is the value the uninitialised local has. *)
Definition queue_signal (queue : Z) (sigact_table : Z -> target_sigaction) (sig : Z) (i : siginfo)
    (ts : TaskState) : res (outcome (Z * TaskState)) :=
  if negb (sig_in_set sig) then Err UB
  else
    let handler := _sa_handler (sigact_table sig) in
    if (queue =? 0) && (handler =? TARGET_SIG_DFL) then
      if existsb (Z.eqb sig) [SIGTSTP; SIGTTIN; SIGTTOU] then Ok (Returned true (0, ts))
      else if negb (existsb (Z.eqb sig) [SIGCHLD; SIGURG; SIGWINCH; SIGCONT]) then force_sig sig
      else Ok (Returned false (0, ts))
    else if (queue =? 0) && (handler =? TARGET_SIG_IGN) then Ok (Returned false (0, ts))
    else if (queue =? 0) && (handler =? TARGET_SIG_ERR) then force_sig sig
    else
      let done q ts := Ok (Returned false (1, fill_entry sig q i ts)) in
      if sig <? TARGET_SIGRTMIN then
        if pending (sigtab ts sig) =? 0 then done (QInfo sig) (set_first sig (QInfo sig) ts)
        else Ok (Returned false (0, ts))
      else if pending (sigtab ts sig) =? 0 then done (QInfo sig) (set_first sig (QInfo sig) ts)
      else
        let '(q, ts) := alloc_sigqueue ts in
        match q with
        | None => Ok (Returned false (- EAGAIN, ts))
        | Some q => let? ts := set_end sig q ts in done q ts
        end.

(** [process_pending_signals], up to the handler: the loop, *)
Fixpoint find_pending (n : nat) (sig : Z) (ts : TaskState) : option Z :=
  match n with
  | O => None
  | S n => if negb (pending (sigtab ts sig) =? 0) then Some sig else find_pending n (sig + 1) ts
  end.
(** and the removal of the signal's first entry. *)
Definition dequeue_entry (sig : Z) (ts : TaskState) : res (qref * TaskState) :=
  let k := sigtab ts sig in
  match first k with
  | None => Err UB
  | Some q =>
      let n := next (sq ts q) in
      Ok (q, set_sigtab sig (mkEs (match n with None => 0 | Some _ => pending k end) n) ts)
  end.
Definition dequeue_signal (ts : TaskState) : res (option (Z * qref) * TaskState) :=
  if signal_pending ts =? 0 then Ok (None, ts)
  else
    match find_pending (Z.to_nat TARGET_NSIG) 1 ts with
    | None => Ok (None, set_signal_pending 0 ts)
    | Some sig => let? (q, ts) := dequeue_entry sig ts in Ok (Some (sig, q), ts)
    end.
(** The last statement. *)
Definition release_entry (sig : Z) (q : qref) (ts : TaskState) : TaskState :=
  if decide (q = QInfo sig) then ts else free_sigqueue q ts.

End Queue.
