(* ===== verification/SigQueueThm.v ===== *)
(** The queues of pending signals refine lists: the entries of a signal, followed
    from [first], are its pending deliveries in order of arrival, and together
    with the free list they are all the entries of the pool, each once. *)

From S2P Require Import Prelude Memory Opcode Decode State SigTab SigQueue.
From stdpp Require Import gmap.
#[local] Open Scope Z_scope.

(** ** The specification *)

(** The pending deliveries of each signal, with a mark on those that use an
    entry of the pool. *)
Abbreviation spec := (Z -> list (bool * siginfo)).
Definition spec_init : spec := fun _ => [].

(** The sum over the signals. *)
Definition total (c : Z -> Z) : Z := foldr Z.add 0 (c <$> seqZ 1 64).
Definition marked (l : list (bool * siginfo)) : Z := Z.of_nat (length (filter (fun x => x.1 = true) l)).
Definition spec_used (a : spec) : Z := total (fun s => marked (a s)).

(** One delivery at most of an ordinary signal; real-time signals queue behind
    each other while the pool lasts. *)
Definition spec_queue (sig : Z) (i : siginfo) (a : spec) : Z * spec :=
  match a sig with
  | [] => (1, <[sig := [(false, i)]]> a)
  | _ => if sig <? TARGET_SIGRTMIN then (0, a)
         else if spec_used a <? MAX_SIGQUEUE_SIZE then (1, <[sig := a sig ++ [(true, i)]]> a) else (- EAGAIN, a)
  end.

(** The oldest delivery of the least pending signal. *)
Fixpoint spec_least (n : nat) (sig : Z) (a : spec) : option Z :=
  match n with
  | O => None
  | S n => match a sig with [] => spec_least n (sig + 1) a | _ => Some sig end
  end.
Definition spec_next (a : spec) : option (Z * siginfo) * spec :=
  match spec_least (Z.to_nat TARGET_NSIG) 1 a with
  | Some sig => match a sig with
                | x :: l => (Some (sig, x.2), <[sig := l]> a)
                | [] => (None, a)
                end
  | None => (None, a)
  end.

(** ** Lists of entries *)

Fixpoint chain (f : qref -> sigqueue) (p : option qref) (l : list qref) : Prop :=
  match l with
  | [] => p = None
  | q :: l => p = Some q /\ chain f (next (f q)) l
  end.

Lemma chain_frame f g l : forall p, (forall q, q ∈ l -> next (g q) = next (f q)) -> chain f p l -> chain g p l.
Proof.
  induction l as [|q l IH]; intros p E; cbn; [done|]. intros [-> C]. split; [done|].
  rewrite E by left. apply IH; [|done]. intros x Hx. apply E. now right.
Qed.

Lemma chain_insert f q e l p : q ∉ l -> chain f p l -> chain (<[q := e]> f) p l.
Proof.
  intros N. apply chain_frame. intros x Hx. rewrite fn_lookup_insert_ne; [done|]. now intros ->.
Qed.

Fixpoint last_from (x : qref) (l : list qref) : qref :=
  match l with [] => x | y :: l => last_from y l end.
Lemma last_from_in l : forall x, last_from x l ∈ x :: l.
Proof. induction l as [|y l IH]; intros x; cbn; [left|]. right. apply IH. Qed.

Lemma chain_last ts : forall l q n, chain (sq ts) (Some q) (q :: l) -> (length l < n)%nat ->
  last_entry n q ts = Ok (last_from q l).
Proof.
  induction l as [|x l IH]; intros q n [_ C] L; (destruct n as [|n]; [cbn in L; lia|]); cbn [last_entry].
  - cbn in C. now rewrite C.
  - destruct C as [E C]. rewrite E. apply IH; [now split|cbn in L; lia].
Qed.

(** Linking [q] behind the last entry. *)
Lemma chain_append f q e l : forall x p, chain f p (x :: l) -> NoDup (x :: l) -> q ∉ x :: l -> next e = None ->
  let z := last_from x l in
  chain (<[q := e]> (<[z := mkSq (Some q) (info (f z))]> f)) p ((x :: l) ++ [q]).
Proof.
  induction l as [|y l IH]; intros x p [-> C] N Nq Ne z; subst z; cbn [app chain last_from]; (split; [done|]).
  - apply not_elem_of_cons in Nq as [? _]. rewrite fn_lookup_insert_ne, fn_lookup_insert by done.
    split; [done|]. now rewrite fn_lookup_insert.
  - apply NoDup_cons in N as [Nx N]. pose proof (last_from_in l y) as Zl.
    apply not_elem_of_cons in Nq as [Nqx Nq].
    rewrite fn_lookup_insert_ne by done. rewrite fn_lookup_insert_ne by (intros E; now rewrite E in Zl).
    now apply (IH y).
Qed.

(** ** Sums *)

Lemma sum_upd (c : Z -> Z) s v l : NoDup l -> s ∈ l ->
  foldr Z.add 0 (<[s := v]> c <$> l) = foldr Z.add 0 (c <$> l) - c s + v.
Proof.
  induction l as [|x l IH]; intros N I; [now apply elem_of_nil in I|]. apply NoDup_cons in N as [Nx N].
  cbn [fmap list_fmap foldr]. destruct (Z.eq_dec s x) as [->|Ne].
  - rewrite fn_lookup_insert.
    replace (<[x := v]> c <$> l) with (c <$> l); [lia|]. apply list_fmap_ext. intros k y Hy.
    rewrite fn_lookup_insert_ne; [done|]. intros ->. eapply Nx, list_elem_of_lookup_2, Hy.
  - apply elem_of_cons in I as [?|I]; [done|]. rewrite fn_lookup_insert_ne by done. rewrite IH by done. lia.
Qed.

Lemma total_ext c c' : (forall s, c s = c' s) -> total c = total c'.
Proof. intros E. unfold total. f_equal. apply list_fmap_ext. intros. apply E. Qed.

Lemma total_upd c c' s : valid s -> (forall t, t <> s -> c' t = c t) -> total c' = total c - c s + c' s.
Proof.
  intros V E. rewrite (total_ext c' (<[s := c' s]> c)).
  - apply sum_upd; [apply NoDup_seqZ|]. apply elem_of_seqZ. unfold valid in V. lia.
  - intros t. destruct (Z.eq_dec s t) as [->|Ne]; [now rewrite fn_lookup_insert|].
    rewrite fn_lookup_insert_ne by done. auto.
Qed.

(** ** The shape of a task's queues *)

Definition is_pool (q : qref) : bool := match q with QPool _ => true | QInfo _ => false end.
Definition pool_entries : list qref := QPool <$> seqZ 0 MAX_SIGQUEUE_SIZE.

Record shape (ts : TaskState) (qs : Z -> list qref) (fr : list qref) : Prop := mkShape {
  sh_chain : forall s, chain (sq ts) (first (sigtab ts s)) (qs s);
  sh_pending : forall s, pending (sigtab ts s) = match qs s with [] => 0 | _ => 1 end;
  sh_free : chain (sq ts) (first_free ts) fr;
  sh_nodup : forall s, NoDup (fr ++ qs s);
  sh_disj : forall s s' q, q ∈ qs s -> q ∈ qs s' -> s' = s;
  sh_node : forall s q, q ∈ qs s -> q = QInfo s \/ q ∈ pool_entries;
  sh_free_node : forall q, q ∈ fr -> q ∈ pool_entries;
  sh_valid : forall s q, q ∈ qs s -> valid s;
  sh_signal : signal_pending ts = 0 -> forall s, qs s = [] }.

(** The deliveries an entry list stands for. *)
Definition items (ts : TaskState) (qs : Z -> list qref) : spec :=
  fun s => (fun q => (is_pool q, info (sq ts q))) <$> qs s.

(** The state [ts] holds the deliveries [a], and no entry of the pool is lost. *)
Definition holds (ts : TaskState) (a : spec) : Prop :=
  exists qs fr, shape ts qs fr /\ (forall s, a s = items ts qs s) /\
    spec_used a + Z.of_nat (length fr) = MAX_SIGQUEUE_SIZE.

Lemma pool_nodes i : QPool i ∈ pool_entries <-> 0 <= i < MAX_SIGQUEUE_SIZE.
Proof.
  unfold pool_entries. rewrite list_elem_of_fmap. setoid_rewrite elem_of_seqZ. split.
  - intros (y & [= ->] & ?). lia.
  - intros ?. exists i. split; [done|lia].
Qed.
Lemma info_not_pool k : QInfo k ∉ pool_entries.
Proof. unfold pool_entries. rewrite list_elem_of_fmap. now intros (y & ? & _). Qed.

Lemma queue_length ts qs fr s : shape ts qs fr -> (length (qs s) <= 1025)%nat.
Proof.
  intros Sh. apply (Nat.le_trans _ (length (QInfo s :: pool_entries))); [|apply Nat.leb_le; vm_compute; reflexivity].
  apply submseteq_length, NoDup_submseteq.
  - pose proof (sh_nodup _ _ _ Sh s) as N. now apply NoDup_app in N as (_ & _ & N).
  - intros q Hq. apply elem_of_cons. now apply (sh_node _ _ _ Sh).
Qed.

Lemma items_nil ts qs s : items ts qs s = [] <-> qs s = [].
Proof. unfold items. split; [apply fmap_nil_inv|now intros ->]. Qed.

Lemma init_chain n : forall i, 0 <= i -> i + Z.of_nat n = MAX_SIGQUEUE_SIZE ->
  chain (sq init_task_state) (if decide (n = O) then None else Some (QPool i)) (QPool <$> seqZ i (Z.of_nat n)).
Proof.
  induction n as [|n IH]; intros i Hi E; [done|]. rewrite seqZ_cons by lia. cbn [fmap list_fmap chain].
  split; [done|]. replace (Z.pred (Z.of_nat (S n))) with (Z.of_nat n) by lia.
  specialize (IH (Z.succ i) ltac:(lia) ltac:(lia)). cbn [init_task_state sq next]. unfold MAX_SIGQUEUE_SIZE in *.
  destruct (Z.leb_spec 0 i); [|lia]. destruct (Z.ltb_spec i (1024 - 1)); cbn [andb].
  - rewrite decide_False in IH by lia. exact IH.
  - rewrite decide_True in IH by lia. exact IH.
Qed.

Lemma init_holds : holds init_task_state spec_init.
Proof.
  exists (fun _ => []), pool_entries. split; [|split; [done|vm_compute; reflexivity]]. split.
  1, 2, 7, 9: done.
  - pose proof (init_chain (Z.to_nat MAX_SIGQUEUE_SIZE) 0) as C.
    rewrite decide_False, Z2Nat.id in C by (unfold MAX_SIGQUEUE_SIZE; lia). apply C; lia.
  - intros s. rewrite app_nil_r. unfold pool_entries. apply NoDup_fmap_2; [intros ? ? [= ->]; done|apply NoDup_seqZ].
  - intros s s' q Hq. now apply elem_of_nil in Hq.
  - intros s q Hq. now apply elem_of_nil in Hq.
  - intros s q Hq. now apply elem_of_nil in Hq.
Qed.

(** ** Adding a delivery *)

(** Splits a goal about a map updated at [s]. *)
Ltac at_key s t :=
  destruct (decide (s = t)) as [<-|?];
  [rewrite ?fn_lookup_insert|rewrite ?fn_lookup_insert_ne by done].

Section Add.
Context (ts : TaskState) (qs : Z -> list qref) (fr : list qref) (sig : Z) (i : siginfo).
Context (Sh : shape ts qs fr) (V : valid sig).

Lemma own_entry_fresh : qs sig = [] -> (QInfo sig ∉ fr) /\ forall s, QInfo sig ∉ qs s.
Proof.
  intros E. split.
  - intros H. apply (sh_free_node _ _ _ Sh) in H. now apply info_not_pool in H.
  - intros s H. destruct (sh_node _ _ _ Sh _ _ H) as [[= ->]|P]; [|now apply info_not_pool in P].
    rewrite E in H. now apply elem_of_nil in H.
Qed.

Let ts1 := fill_entry sig (QInfo sig) i (set_first sig (QInfo sig) ts).
Let qs1 := <[sig := [QInfo sig]]> qs.

Lemma first_shape : qs sig = [] -> shape ts1 qs1 fr.
Proof.
  intros E. destruct (own_entry_fresh E) as [Ff Fq]. subst ts1 qs1. split; cbn.
  - intros s. at_key sig s; [|now apply chain_insert, (sh_chain _ _ _ Sh)].
    cbn. split; [done|]. now rewrite fn_lookup_insert.
  - intros s. at_key sig s; [done|]. apply (sh_pending _ _ _ Sh).
  - apply chain_insert; [done|apply (sh_free _ _ _ Sh)].
  - intros s. at_key sig s; [|apply (sh_nodup _ _ _ Sh)].
    pose proof (sh_nodup _ _ _ Sh sig) as N. rewrite E, app_nil_r in N.
    apply NoDup_app. split; [done|]. split; [|apply NoDup_singleton].
    intros q Hq ->%list_elem_of_singleton. done.
  - intros s s' q. at_key sig s; at_key sig s'; rewrite ?list_elem_of_singleton; try done.
    + intros -> H. now apply Fq in H.
    + intros H ->. now apply Fq in H.
    + apply (sh_disj _ _ _ Sh).
  - intros s q. at_key sig s; [|apply (sh_node _ _ _ Sh)]. intros ->%list_elem_of_singleton. by left.
  - apply (sh_free_node _ _ _ Sh).
  - intros s y. at_key sig s; [done|apply (sh_valid _ _ _ Sh)].
  - done.
Qed.

Lemma first_items : qs sig = [] -> forall s, items ts1 qs1 s = (<[sig := [(false, i)]]> (items ts qs)) s.
Proof.
  intros E s. destruct (own_entry_fresh E) as [_ Fq]. unfold items. subst ts1 qs1. cbn.
  at_key sig s; cbn; [now rewrite fn_lookup_insert|].
  apply list_fmap_ext. intros k q Hq. rewrite fn_lookup_insert_ne; [done|].
  intros <-. eapply Fq, list_elem_of_lookup_2, Hq.
Qed.

(** The entry taken from the pool. *)
Context (q x : qref) (fr1 l : list qref) (Fr : fr = q :: fr1) (Q : qs sig = x :: l).

Let z := last_from x l.
Let ts2 := fill_entry sig q i (set_sq z (mkSq (Some q) (info (sq ts z))) (set_first_free (next (sq ts q)) ts)).
Let qs2 := <[sig := qs sig ++ [q]]> qs.

Lemma pool_entry_fresh : (forall s, q ∉ qs s) /\ (q ∉ fr1) /\ (z ∈ qs sig) /\ (z ∉ fr) /\
  forall s, s <> sig -> z ∉ qs s.
Proof.
  assert (Z1 : z ∈ qs sig) by (rewrite Q; apply last_from_in).
  assert (N : forall s, NoDup (q :: fr1 ++ qs s)).
  { intros s. pose proof (sh_nodup _ _ _ Sh s) as N. now rewrite Fr in N. }
  repeat split.
  - intros s H. specialize (N s). apply NoDup_cons in N as [N _]. apply N, elem_of_app. now right.
  - intros H. specialize (N sig). apply NoDup_cons in N as [N _]. apply N, elem_of_app. now left.
  - exact Z1.
  - intros H. pose proof (sh_nodup _ _ _ Sh sig) as D. apply NoDup_app in D as (_ & D & _). now apply (D z).
  - intros s D H. apply D. now apply (sh_disj _ _ _ Sh sig s z).
Qed.

Lemma append_run : alloc_sigqueue ts = (Some q, set_first_free (next (sq ts q)) ts) /\
  set_end sig q (set_first_free (next (sq ts q)) ts) =
    Ok (set_sq z (mkSq (Some q) (info (sq ts z))) (set_first_free (next (sq ts q)) ts)).
Proof.
  pose proof (sh_free _ _ _ Sh) as F. rewrite Fr in F. destruct F as [F _].
  pose proof (sh_chain _ _ _ Sh sig) as C. rewrite Q in C. pose proof C as [C1 _].
  unfold alloc_sigqueue. rewrite F. split; [done|]. unfold set_end. cbn [sigtab set_first_free]. rewrite C1.
  rewrite (chain_last (set_first_free (next (sq ts q)) ts) l x); [done|rewrite <- C1; exact C|].
  pose proof (queue_length _ _ _ sig Sh) as L. rewrite Q in L. cbn [length] in L. unfold queue_fuel. lia.
Qed.

Lemma append_shape : shape ts2 qs2 fr1.
Proof.
  destruct pool_entry_fresh as (Fq & Ff & Zq & Zf & Zs).
  assert (Qp : q ∈ pool_entries) by (apply (sh_free_node _ _ _ Sh); rewrite Fr; left).
  assert (N : forall s, NoDup (fr1 ++ qs s)).
  { intros s. pose proof (sh_nodup _ _ _ Sh s) as N. rewrite Fr in N. now apply NoDup_cons in N as [_ N]. }
  subst ts2 qs2. split; cbn.
  - intros s. at_key sig s.
    + rewrite Q. apply chain_append; [rewrite <- Q; apply (sh_chain _ _ _ Sh)| | |done].
      * specialize (N sig). rewrite Q in N. now apply NoDup_app in N as (_ & _ & N).
      * rewrite <- Q. apply Fq.
    + apply chain_insert; [apply Fq|]. apply chain_insert; [now apply Zs|apply (sh_chain _ _ _ Sh)].
  - intros s. at_key sig s; [now rewrite Q|apply (sh_pending _ _ _ Sh)].
  - apply chain_insert; [done|]. apply chain_insert; [intros H; apply Zf; rewrite Fr; now right|].
    pose proof (sh_free _ _ _ Sh) as F. rewrite Fr in F. apply F.
  - intros s. at_key sig s; [|apply N]. rewrite app_assoc. apply NoDup_app. split; [apply N|].
    split; [|apply NoDup_singleton]. intros y Hy ->%list_elem_of_singleton.
    apply elem_of_app in Hy as [H|H]; [done|now apply Fq in H].
  - intros s s' y. at_key sig s; at_key sig s'; rewrite ?elem_of_app, ?list_elem_of_singleton; try done.
    + intros [H| ->] H'; [now apply (sh_disj _ _ _ Sh sig s' y)|now apply Fq in H'].
    + intros H [H'| ->]; [now apply (sh_disj _ _ _ Sh s sig y)|now apply Fq in H].
    + apply (sh_disj _ _ _ Sh).
  - intros s y. at_key sig s; [|apply (sh_node _ _ _ Sh)]. rewrite elem_of_app, list_elem_of_singleton.
    intros [H| ->]; [now apply (sh_node _ _ _ Sh)|by right].
  - intros y Hy. apply (sh_free_node _ _ _ Sh). rewrite Fr. now right.
  - intros s y. at_key sig s; [done|apply (sh_valid _ _ _ Sh)].
  - done.
Qed.

Lemma append_items s : items ts2 qs2 s = (<[sig := items ts qs sig ++ [(true, i)]]> (items ts qs)) s.
Proof.
  destruct pool_entry_fresh as (Fq & _ & Zq & _ & Zs).
  assert (Qp : is_pool q = true).
  { assert (Qp : q ∈ pool_entries) by (apply (sh_free_node _ _ _ Sh); rewrite Fr; left).
    destruct q; [now apply info_not_pool in Qp|done]. }
  assert (E : forall t, (fun y => (is_pool y, info (sq ts2 y))) <$> qs t = items ts qs t).
  { intros t. apply list_fmap_ext. intros k y Hy%list_elem_of_lookup_2. subst ts2. cbn.
    rewrite fn_lookup_insert_ne by (intros <-; now apply Fq in Hy). at_key z y; done. }
  unfold items at 1. subst qs2. at_key sig s; [|apply E].
  rewrite fmap_app, E. subst ts2. cbn. now rewrite fn_lookup_insert, Qp.
Qed.

End Add.

(** ** Taking a delivery *)

Section Take.
Context (ts : TaskState) (qs : Z -> list qref) (fr : list qref) (sig : Z) (q : qref) (l : list qref).
Context (Sh : shape ts qs fr) (Q : qs sig = q :: l).

Let ts1 := set_sigtab sig (mkEs (match next (sq ts q) with None => 0 | Some _ => pending (sigtab ts sig) end)
                                (next (sq ts q))) ts.
Let qs1 := <[sig := l]> qs.

Lemma dequeue_run : dequeue_entry sig ts = Ok (q, ts1).
Proof.
  pose proof (sh_chain _ _ _ Sh sig) as C. rewrite Q in C. destruct C as [C _].
  unfold dequeue_entry. now rewrite C.
Qed.

Lemma taken_not_left s : q ∉ qs1 s.
Proof.
  subst qs1. at_key sig s.
  - pose proof (sh_nodup _ _ _ Sh sig) as N. rewrite Q in N.
    apply NoDup_app in N as (_ & _ & N). now apply NoDup_cons in N as [N _].
  - intros H. assert (q ∈ qs sig) by (rewrite Q; left). pose proof (sh_disj _ _ _ Sh sig s q). intuition congruence.
Qed.

(** The queues without the entry; [free] says whether it goes back to the pool. *)
Lemma take_shape (free : bool) : free = is_pool q ->
  shape (if free then free_sigqueue q ts1 else ts1) qs1 (if free then q :: fr else fr).
Proof.
  intros F. pose proof taken_not_left as Nq.
  assert (Sub : forall s y, y ∈ qs1 s -> y ∈ qs s).
  { intros s y. subst qs1. at_key sig s; [|done]. rewrite Q. now right. }
  assert (C : forall s, chain (sq ts) (first (sigtab ts1 s)) (qs1 s)).
  { intros s. subst qs1 ts1. cbn. at_key sig s; [|apply (sh_chain _ _ _ Sh)]. cbn.
    pose proof (sh_chain _ _ _ Sh sig) as C. rewrite Q in C. apply C. }
  assert (P : forall s, pending (sigtab ts1 s) = match qs1 s with [] => 0 | _ => 1 end).
  { intros s. specialize (C s). subst qs1 ts1. cbn in C |- *. revert C. at_key sig s; [|intros; apply (sh_pending _ _ _ Sh)].
    cbn. rewrite (sh_pending _ _ _ Sh sig), Q. destruct l; cbn; [now intros ->|now intros [-> _]]. }
  assert (Nf : q ∉ fr).
  { intros H. pose proof (sh_nodup _ _ _ Sh sig) as N. apply NoDup_app in N as (_ & N & _).
    apply (N q H). rewrite Q. left. }
  assert (Nd : forall s, NoDup (fr ++ qs1 s)).
  { intros s. pose proof (sh_nodup _ _ _ Sh s) as N. subst qs1. revert N. at_key sig s; [|done].
    rewrite Q. rewrite <- Permutation_middle. now intros [_ N]%NoDup_cons. }
  assert (D : forall s s' y, y ∈ qs1 s -> y ∈ qs1 s' -> s' = s)
    by (intros s s' y H H'; eapply (sh_disj _ _ _ Sh); eauto).
  assert (No : forall s y, y ∈ qs1 s -> y = QInfo s \/ y ∈ pool_entries)
    by (intros s y H; apply (sh_node _ _ _ Sh); auto).
  assert (Va : forall s y, y ∈ qs1 s -> valid s) by (intros s y H; eapply (sh_valid _ _ _ Sh); eauto).
  assert (Sg : signal_pending ts = 0 -> forall s, qs1 s = []).
  { intros E. pose proof (sh_signal _ _ _ Sh E sig) as X. now rewrite Q in X. }
  destruct free; [|split; auto; apply Sh].
  split; cbn; auto.
  - intros s. apply chain_insert; [apply Nq|apply C].
  - split; [done|]. rewrite fn_lookup_insert. apply chain_insert; [done|apply (sh_free _ _ _ Sh)].
  - intros s. apply NoDup_cons. split; [|apply Nd]. rewrite elem_of_app. intros [H|H]; [done|now apply Nq in H].
  - intros y [->|H]%elem_of_cons; [|now apply (sh_free_node _ _ _ Sh)].
    destruct (sh_node _ _ _ Sh sig q) as [->|H]; [rewrite Q; left|done|done].
Qed.

Lemma take_items (free : bool) s :
  items (if free then free_sigqueue q ts1 else ts1) qs1 s = (<[sig := tail (items ts qs sig)]> (items ts qs)) s.
Proof.
  pose proof taken_not_left as Nq. unfold items at 1.
  transitivity ((fun y => (is_pool y, info (sq ts y))) <$> qs1 s).
  - apply list_fmap_ext. intros k y Hy%list_elem_of_lookup_2. destruct free; [|done]. cbn.
    rewrite fn_lookup_insert_ne; [done|]. intros <-. now apply Nq in Hy.
  - subst qs1. unfold items. at_key sig s; [|done]. now rewrite Q.
Qed.

Lemma release_free : release_entry sig q ts1 = if is_pool q then free_sigqueue q ts1 else ts1.
Proof.
  unfold release_entry. destruct (decide (q = QInfo sig)) as [->|Ne]; [done|].
  destruct (sh_node _ _ _ Sh sig q) as [?|P]; [rewrite Q; left|done|]. now destruct q; [apply info_not_pool in P|].
Qed.

End Take.

(** ** Refinement *)

Lemma marked_app l x : marked (l ++ [x]) = marked l + (if x.1 then 1 else 0).
Proof.
  unfold marked. rewrite filter_app, length_app. destruct x as [[] y]; cbn [fst].
  - rewrite filter_cons_True by done. rewrite filter_nil. cbn. lia.
  - rewrite filter_cons_False by done. rewrite filter_nil. cbn. lia.
Qed.
Lemma marked_cons x l : marked (x :: l) = (if x.1 then 1 else 0) + marked l.
Proof.
  unfold marked. destruct x as [[] y]; cbn [fst].
  - rewrite filter_cons_True by done. cbn. lia.
  - rewrite filter_cons_False by done. lia.
Qed.

Lemma spec_used_upd a sig l : valid sig -> spec_used (<[sig := l]> a) = spec_used a - marked (a sig) + marked l.
Proof.
  intros V. unfold spec_used. rewrite (total_upd (fun s => marked (a s)) _ sig V).
  - now rewrite fn_lookup_insert.
  - intros t N. now rewrite fn_lookup_insert_ne.
Qed.

Lemma items_marked ts qs s q l : qs s = q :: l -> items ts qs s = (is_pool q, info (sq ts q)) :: tail (items ts qs s).
Proof. unfold items. now intros ->. Qed.

(** What a disposition does before a delivery is queued; [None]: it is queued. *)
Definition spec_default (core_dump : bool) (queue handler sig : Z) : option (outcome Z) :=
  let killed := Killed (t2h_table sig) (core_dump_signal sig && core_dump) in
  if negb (queue =? 0) then None
  else if handler =? TARGET_SIG_DFL then
    Some (if existsb (Z.eqb sig) [SIGTSTP; SIGTTIN; SIGTTOU] then Returned true 0
          else if existsb (Z.eqb sig) [SIGCHLD; SIGURG; SIGWINCH; SIGCONT] then Returned false 0
          else killed)
  else if handler =? TARGET_SIG_IGN then Some (Returned false 0)
  else if handler =? TARGET_SIG_ERR then Some killed
  else None.

(** Adds the state to an outcome. *)
Definition with_state {A B} (o : outcome A) (s : B) : outcome (A * B) :=
  match o with Returned b r => Returned b (r, s) | Killed h c => Killed h c end.

Lemma queue_default cd queue sa sig i ts o : valid sig -> spec_default cd queue (_sa_handler (sa sig)) sig = Some o ->
  queue_signal cd queue sa sig i ts = Ok (with_state o ts).
Proof.
  intros V. unfold spec_default, queue_signal, force_sig. rewrite (proj2 (sig_in_set_valid sig) V), t2h_valid by done.
  cbv zeta. destruct (queue =? 0); [|done]. cbn [negb andb res_bind].
  destruct (_sa_handler (sa sig) =? TARGET_SIG_DFL).
  { intros <-%(inj Some). destruct (existsb _ [SIGTSTP; _; _]); [reflexivity|].
    destruct (existsb _ _); reflexivity. }
  destruct (_sa_handler (sa sig) =? TARGET_SIG_IGN); [now intros [= <-]|].
  destruct (_sa_handler (sa sig) =? TARGET_SIG_ERR); [now intros [= <-]|done].
Qed.

Lemma queue_holds cd queue sa sig i ts a : holds ts a -> valid sig ->
  spec_default cd queue (_sa_handler (sa sig)) sig = None ->
  exists ts', queue_signal cd queue sa sig i ts = Ok (Returned false (fst (spec_queue sig i a), ts')) /\
    holds ts' (snd (spec_queue sig i a)).
Proof.
  intros (qs & fr & Sh & A & U) V D. assert (Pend : pending (sigtab ts sig) = match qs sig with [] => 0 | _ => 1 end)
    by apply (sh_pending _ _ _ Sh).
  assert (R : forall sp, sp = spec_queue sig i a -> (exists ts',
     (let done q ts := Ok (Returned false (1, fill_entry sig q i ts)) in
      if sig <? TARGET_SIGRTMIN then
        if pending (sigtab ts sig) =? 0 then done (QInfo sig) (set_first sig (QInfo sig) ts)
        else Ok (Returned false (0, ts))
      else if pending (sigtab ts sig) =? 0 then done (QInfo sig) (set_first sig (QInfo sig) ts)
      else
        let '(q, ts) := alloc_sigqueue ts in
        match q with
        | None => Ok (Returned false (- EAGAIN, ts))
        | Some q => let? ts := set_end sig q ts in done q ts
        end) = Ok (Returned false (fst sp, ts')) /\ holds ts' (snd sp))).
  2: { unfold queue_signal. rewrite (proj2 (sig_in_set_valid sig) V). cbv zeta. cbn [negb].
       destruct (R _ eq_refl) as (ts' & E & H). exists ts'. split; [|done]. rewrite <- E. revert D. unfold spec_default.
       destruct (queue =? 0); cbn [negb andb]; [|done].
       destruct (_sa_handler (sa sig) =? TARGET_SIG_DFL); [done|].
       destruct (_sa_handler (sa sig) =? TARGET_SIG_IGN); [done|].
       now destruct (_sa_handler (sa sig) =? TARGET_SIG_ERR). }
  intros sp ->. cbv zeta. rewrite Pend. unfold spec_queue. destruct (qs sig) as [|x l] eqn:Q.
  - assert (As : a sig = []) by (rewrite A; now apply items_nil). rewrite As. cbn [Z.eqb].
    eexists. split; [destruct (sig <? TARGET_SIGRTMIN); reflexivity|]. cbn [snd].
    exists (<[sig := [QInfo sig]]> qs), fr. split; [now apply first_shape|]. split.
    + intros s. rewrite (first_items ts qs fr sig i Sh V Q). at_key sig s; [done|apply A].
    + rewrite spec_used_upd, As, marked_cons by done. cbn [fst]. lia.
  - assert (As : a sig = (is_pool x, info (sq ts x)) :: tail (a sig)) by (rewrite A; eapply items_marked, Q).
    rewrite As. change (1 =? 0) with false. cbv iota. destruct (sig <? TARGET_SIGRTMIN).
    { exists ts. split; [done|]. exists qs, fr. auto. }
    rewrite <- As. unfold MAX_SIGQUEUE_SIZE in *. destruct fr as [|q fr1].
    + cbn [length] in U. destruct (Z.ltb_spec (spec_used a) 1024); [lia|].
      pose proof (sh_free _ _ _ Sh) as F. cbn in F. unfold alloc_sigqueue. rewrite F. cbn [fst snd].
      exists ts. split; [done|]. exists qs, []. auto.
    + cbn [length] in U. destruct (Z.ltb_spec (spec_used a) 1024); [|lia].
      destruct (append_run ts qs _ sig Sh q x fr1 l eq_refl Q) as [-> ->]. cbn [res_bind fst snd].
      eexists. split; [reflexivity|]. exists (<[sig := qs sig ++ [q]]> qs), fr1.
      split; [now apply append_shape with (q :: fr1)|]. split.
      * intros s. rewrite (append_items ts qs _ sig i Sh q x fr1 l eq_refl Q). rewrite <- A.
        at_key sig s; [done|apply A].
      * rewrite spec_used_upd, marked_app by done. cbn [fst]. unfold MAX_SIGQUEUE_SIZE. lia.
Qed.

(** The loop finds the least pending signal. *)
Lemma find_spec ts qs fr a : shape ts qs fr -> (forall s, a s = items ts qs s) ->
  forall n s, find_pending n s ts = spec_least n s a.
Proof.
  intros Sh A. induction n as [|n IH]; intros s; [done|]. cbn [find_pending spec_least].
  rewrite (sh_pending _ _ _ Sh s), IH, A. unfold items. now destruct (qs s).
Qed.

Lemma spec_least_some n a : forall s r, spec_least n s a = Some r -> s <= r < s + Z.of_nat n /\ a r <> [].
Proof.
  induction n as [|n IH]; intros s r; cbn [spec_least]; [done|]. destruct (a s) eqn:E.
  - intros H. apply IH in H. split; [lia|apply H].
  - intros [= <-]. split; [lia|]. now rewrite E.
Qed.
Lemma spec_least_none n a : forall k, spec_least n k a = None -> forall s, k <= s < k + Z.of_nat n -> a s = [].
Proof.
  induction n as [|n IH]; intros k; cbn [spec_least]; [lia|]. destruct (a k) eqn:E; [|done].
  intros H s Hs. destruct (Z.eq_dec s k) as [->|]; [done|]. apply (IH (k + 1)); [done|lia].
Qed.
Lemma spec_least_empty n a : (forall s, a s = []) -> forall s, spec_least n s a = None.
Proof. intros E. induction n as [|n IH]; intros s; cbn [spec_least]; [done|]. rewrite E. apply IH. Qed.

(** One round of [process_pending_signals]: what it takes, and the state once the
    entry is released. *)
Lemma take_holds ts a : holds ts a -> exists r ts1, dequeue_signal ts = Ok (r, ts1) /\
  match r with
  | None => spec_next a = (None, a) /\ holds ts1 a
  | Some (sig, q) => valid sig /\ fst (spec_next a) = Some (sig, info (sq ts1 q)) /\
      holds (release_entry sig q ts1) (snd (spec_next a))
  end.
Proof.
  intros (qs & fr & Sh & A & U). unfold dequeue_signal, spec_next.
  rewrite (find_spec ts qs fr a Sh A). destruct (Z.eqb_spec (signal_pending ts) 0) as [E|_].
  { exists None, ts. split; [done|]. rewrite spec_least_empty; [split; [done|]; now exists qs, fr|].
    intros s. rewrite A. now apply items_nil, (sh_signal _ _ _ Sh). }
  destruct (spec_least (Z.to_nat TARGET_NSIG) 1 a) as [sig|] eqn:L.
  - apply spec_least_some in L as [R N]. assert (V : valid sig) by (unfold valid, TARGET_NSIG in *; lia).
    rewrite A in N. destruct (qs sig) as [|q l] eqn:Q; [now destruct N; apply items_nil|].
    rewrite (dequeue_run ts qs fr sig q l Sh Q). cbn [res_bind].
    assert (As : a sig = (is_pool q, info (sq ts q)) :: tail (a sig)) by (rewrite A; eapply items_marked, Q).
    rewrite As. cbn [fst snd]. eexists _, _. split; [reflexivity|]. cbv beta iota. split; [done|]. split; [done|].
    rewrite (release_free ts qs fr sig q l Sh Q).
    eexists _, _. split; [eapply (take_shape ts qs fr sig q l Sh Q); reflexivity|]. split.
    + intros s. rewrite (take_items ts qs fr sig q l Sh Q), <- A. at_key sig s; [done|apply A].
    + rewrite spec_used_upd by done. pose proof (f_equal marked As) as M. rewrite marked_cons in M. cbn [fst] in M.
      destruct (is_pool q); cbn [length]; lia.
  - exists None, (set_signal_pending 0 ts). split; [done|]. split; [done|]. exists qs, fr. split; [|done].
    pose proof (sh_valid _ _ _ Sh) as Vd. destruct Sh. split; try done. intros _ s. apply (items_nil ts).
    destruct (qs s) as [|q l] eqn:Q; [unfold items; now rewrite Q|].
    assert (valid s) by (apply (Vd s q); rewrite Q; left).
    rewrite <- A. apply (spec_least_none _ _ _ L). unfold valid, TARGET_NSIG in *. lia.
Qed.

(** ** Sequences of operations *)

(** A signal arrives, or the next one is taken and its entry released. *)
Inductive op := OpQueue (queue : Z) (sa : Z -> target_sigaction) (sig : Z) (i : siginfo) | OpTake.
Inductive reply := RQueue (o : outcome Z) | RTake (d : option (Z * siginfo)).

Definition op_ok (o : op) : Prop := match o with OpQueue _ _ sig _ => valid sig | OpTake => True end.

(** Runs the operations until the process is killed. *)
Fixpoint run_ops (core_dump : bool) (l : list op) (ts : TaskState) : res (list reply * option TaskState) :=
  match l with
  | [] => Ok ([], Some ts)
  | OpQueue queue sa sig i :: l =>
      let? o := queue_signal core_dump queue sa sig i ts in
      match o with
      | Killed h c => Ok ([RQueue (Killed h c)], None)
      | Returned b (r, ts) =>
          let? (rs, e) := run_ops core_dump l ts in Ok (RQueue (Returned b r) :: rs, e)
      end
  | OpTake :: l =>
      let? (d, ts) := dequeue_signal ts in
      match d with
      | None => let? (rs, e) := run_ops core_dump l ts in Ok (RTake None :: rs, e)
      | Some (sig, q) =>
          let? (rs, e) := run_ops core_dump l (release_entry sig q ts) in
          Ok (RTake (Some (sig, info (sq ts q))) :: rs, e)
      end
  end.

Fixpoint spec_run (core_dump : bool) (l : list op) (a : spec) : list reply * option spec :=
  match l with
  | [] => ([], Some a)
  | OpQueue queue sa sig i :: l =>
      match spec_default core_dump queue (_sa_handler (sa sig)) sig with
      | Some (Killed h c) => ([RQueue (Killed h c)], None)
      | Some o => let '(rs, e) := spec_run core_dump l a in (RQueue o :: rs, e)
      | None => let '(r, a) := spec_queue sig i a in
                let '(rs, e) := spec_run core_dump l a in (RQueue (Returned false r) :: rs, e)
      end
  | OpTake :: l =>
      let '(d, a) := spec_next a in let '(rs, e) := spec_run core_dump l a in (RTake d :: rs, e)
  end.

Definition agrees (e : option TaskState) (e' : option spec) : Prop :=
  match e, e' with Some ts, Some a => holds ts a | None, None => True | _, _ => False end.

Lemma run_refines cd l : Forall op_ok l -> forall ts a, holds ts a ->
  exists e, run_ops cd l ts = Ok (fst (spec_run cd l a), e) /\ agrees e (snd (spec_run cd l a)).
Proof.
  induction 1 as [|o l V _ IH]; intros ts a H; [now exists (Some ts)|].
  destruct o as [queue sa sig i|]; cbn [run_ops spec_run].
  - destruct (spec_default cd queue (_sa_handler (sa sig)) sig) as [o|] eqn:D.
    + rewrite (queue_default _ _ _ _ i ts o V D). cbn [res_bind]. destruct o as [b r|h c]; cbn [with_state].
      * destruct (IH ts a H) as (e & -> & A). destruct (spec_run cd l a) as [rs a']. now exists e.
      * now exists None.
    + destruct (queue_holds cd queue sa sig i ts a H V D) as (ts' & -> & H'). cbn [res_bind].
      destruct (spec_queue sig i a) as [r a']. cbn [fst snd] in *. destruct (IH ts' a' H') as (e & -> & A).
      destruct (spec_run cd l a') as [rs a'']. now exists e.
  - destruct (take_holds ts a H) as (r & ts1 & -> & T). cbn [res_bind]. destruct r as [[sig q]|].
    + destruct T as (_ & N & H'). destruct (spec_next a) as [d a']. cbn [fst snd] in *. subst d.
      destruct (IH _ _ H') as (e & -> & A). destruct (spec_run cd l a') as [rs a'']. now exists e.
    + destruct T as [-> H']. destruct (IH _ _ H') as (e & -> & A). destruct (spec_run cd l a) as [rs a'']. now exists e.
Qed.

(** C20: From a new task on, any sequence of signals that arrive and signals that are
    taken behaves like first-in-first-out lists of deliveries, one per signal: an
    ordinary signal that is already pending is dropped, a real-time signal queues
    behind its predecessors with its own information, or is refused with [-EAGAIN]
    when the 1024 entries of the pool are in use, the signal taken is the oldest
    delivery of the least pending signal, and a default-fatal one kills the process.
    No step follows a null pointer or a cycle, and in every state the linked entries
    of the signals and of the free list are disjoint and together the whole pool. *)
Theorem signal_queues_fifo (core_dump : bool) (l : list op) : Forall op_ok l ->
  exists e, run_ops core_dump l init_task_state = Ok (fst (spec_run core_dump l spec_init), e) /\
    agrees e (snd (spec_run core_dump l spec_init)).
Proof. intros V. apply (run_refines core_dump l V), init_holds. Qed.

Definition handled : Z -> target_sigaction := fun _ => mkSa 0x8048000 0 0 target_sigemptyset.
Definition rt_info (pid : Z) : siginfo := mkInfo 40 0 (-1) (<[f_pid := pid]> (fun _ => 0)).

Theorem signal_queues_fifo_witness :
  exists e, run_ops true [OpQueue 0 handled 40 (rt_info 1); OpQueue 0 handled 40 (rt_info 2); OpQueue 0 handled 12 (rt_info 3);
    OpQueue 0 handled 12 (rt_info 4); OpTake; OpTake; OpTake; OpTake] init_task_state = Ok
    ([RQueue (Returned false 1); RQueue (Returned false 1); RQueue (Returned false 1); RQueue (Returned false 0);
      RTake (Some (12, rt_info 3)); RTake (Some (40, rt_info 1)); RTake (Some (40, rt_info 2)); RTake None], e) /\
    agrees e (snd (spec_run true [OpQueue 0 handled 40 (rt_info 1); OpQueue 0 handled 40 (rt_info 2); OpQueue 0 handled 12 (rt_info 3);
    OpQueue 0 handled 12 (rt_info 4); OpTake; OpTake; OpTake; OpTake] spec_init)).
Proof.
  apply (signal_queues_fifo true [OpQueue 0 handled 40 (rt_info 1); OpQueue 0 handled 40 (rt_info 2);
    OpQueue 0 handled 12 (rt_info 3); OpQueue 0 handled 12 (rt_info 4); OpTake; OpTake; OpTake; OpTake]).
  repeat constructor; unfold op_ok, valid; lia.
Defined.
