(* ===== verification/Signal.v ===== *)
(** src/linux-user/signal.c, part 3: dispositions ([signal_init],
    [do_sigaction]), the alternate stack ([do_sigaltstack]), the frames of
    handlers, the arrival of a host signal ([host_signal_handler]) and the
    delivery of a pending one ([process_pending_signals]).  In this program the
    functions a delivery ends with are stubs: [cpu_x86_fsave],
    [cpu_x86_load_seg] and [cpu_signal_handler] of src/cpu-exec.c and [cpu_exit]
    of src/exec.c call [abort]; the statements behind such a call are left out.
    The host's dispositions and blocked signals are state. *)

From S2P Require Import Prelude Memory Opcode DecodeTable Decode DecodeSpec State TransBlock PageTable Uaccess.
From S2P Require Import SigTab SigQueue SigQueueThm.
From stdpp Require Import gmap.
#[local] Open Scope Z_scope.

Definition EINVAL : Z := 22.
Definition TARGET_EPERM : Z := 1.
Definition TARGET_EINVAL : Z := 22.
Definition TARGET_ENOMEM : Z := 12.
Definition TARGET_SS_ONSTACK : Z := 1.
Definition TARGET_SS_DISABLE : Z := 2.
Definition SS_ONSTACK : Z := 1.
Definition SS_DISABLE : Z := 2.
Definition MINSIGSTKSZ : Z := 2048.
Definition __USER_DS : Z := 0x2b.
Definition VM_MASK : Z := 0x00020000.
Definition R_ES : Z := 0.
Definition R_CS : Z := 1.
Definition R_SS : Z := 2.
Definition R_DS : Z := 3.
Definition R_FS : Z := 4.
Definition R_GS : Z := 5.
Definition TARGET_NR_sigreturn : Z := 119.
Definition TARGET_NR_rt_sigreturn : Z := 173.

(** ** State *)

(** A host disposition: a handler of the emulator is [host_signal_handler]. *)
Inductive disposition := DispDfl | DispIgn | DispHandler (restart : bool) | DispOther.

Record sigaltstack := mkSs { ss_sp : Z; ss_size : Z }.

Record signals := mkSignals {
  task : TaskState;
  sigact_table : Z -> target_sigaction;       (* indexed by the signal *)
  target_sigaltstack_used : sigaltstack;      (* its [ss_flags] is never used *)
  host_disp : Z -> disposition;
  blocked : gset Z }.

Definition set_task (t : TaskState) (s : signals) : signals :=
  mkSignals t (sigact_table s) (target_sigaltstack_used s) (host_disp s) (blocked s).
Definition set_sigact (f : Z -> target_sigaction) (s : signals) : signals :=
  mkSignals (task s) f (target_sigaltstack_used s) (host_disp s) (blocked s).
Definition set_altstack (a : sigaltstack) (s : signals) : signals :=
  mkSignals (task s) (sigact_table s) a (host_disp s) (blocked s).
Definition set_host_disp (d : Z -> disposition) (s : signals) : signals :=
  mkSignals (task s) (sigact_table s) (target_sigaltstack_used s) d (blocked s).
Definition set_blocked (b : gset Z) (s : signals) : signals :=
  mkSignals (task s) (sigact_table s) (target_sigaltstack_used s) (host_disp s) b.

(** What the frames read of the CPU and of the task's vm86 area. *)
Record scpu := mkScpu {
  sregs : Z -> Z; selector : Z -> Z; eip : Z; eflags : Z;
  exception_index : Z; error_code : Z; cr2 : Z; target_v86 : Z }.
Definition set_sregs (f : Z -> Z) (pc : Z) (c : scpu) : scpu :=
  mkScpu f (selector c) pc (eflags c) (exception_index c) (error_code c) (cr2 c) (target_v86 c).

(** ** Stubs *)

Definition cpu_x86_fsave {A} : res A := Err Abort.
Definition cpu_x86_load_seg {A} : res A := Err Abort.
Definition cpu_signal_handler {A} : res A := Err Abort.
Definition cpu_exit {A} : res A := Err Abort.

(** ** The alternate stack *)

Definition on_sig_stack (a : sigaltstack) (sp : Z) : bool := u32 (sp - ss_sp a) <? ss_size a.
Definition sas_ss_flags (a : sigaltstack) (sp : Z) : Z :=
  if ss_size a =? 0 then SS_DISABLE else if on_sig_stack a sp then SS_ONSTACK else 0.

Section Signal.
Variable qemu_host_page_size : Z.
(** The signals the host's [sigaction] refuses to change, or to read. *)
Variables change_refused query_refused : Z -> bool.
Variable core_dump : bool.

(** The words of a [struct target_sigaltstack]. *)
Definition stack_bytes (sp flags size : Z) : list Z := le_bytes 4 sp ++ le_bytes 4 flags ++ le_bytes 4 size.

(** Sets the stack to [ss]; [inr] is an error. *)
Definition new_altstack (sp flags size : Z) : Z + sigaltstack :=
  if negb (flags =? TARGET_SS_DISABLE) && negb (flags =? TARGET_SS_ONSTACK) && negb (flags =? 0)
  then inl (- TARGET_EINVAL)
  else if flags =? TARGET_SS_DISABLE then inr (mkSs 0 0)
  else if size <? MINSIGSTKSZ then inl (- TARGET_ENOMEM)
  else inr (mkSs sp size).

Definition do_sigaltstack (uss_addr uoss_addr sp : Z) (pg : pagemap) (m : mem) (a : sigaltstack) : res (Z * mem * sigaltstack) :=
  let oss := stack_bytes (ss_sp a) (sas_ss_flags a sp) (ss_size a) in
  let? r :=
    if uss_addr =? 0 then Ok (inr a)
    else
      let? p := lock_user qemu_host_page_size VERIFY_READ uss_addr 12 pg in
      match p with
      | None => Ok (inl (- TARGET_EFAULT))
      | Some uss =>
          let? sp' := __get_user 4 uss m in
          let? size := __get_user 4 (uss + 8) m in
          let? flags := __get_user 4 (uss + 4) m in
          if on_sig_stack a sp then Ok (inl (- TARGET_EPERM)) else Ok (new_altstack sp' flags size)
      end in
  match r with
  | inl e => Ok (e, m, a)
  | inr a' =>
      if uoss_addr =? 0 then Ok (0, m, a')
      else
        let? (r, m') := copy_to_user qemu_host_page_size uoss_addr oss pg m in
        Ok (if r =? 0 then 0 else - TARGET_EFAULT, m', a')
  end.

(** ** Dispositions *)

(** [sigaction(host_sig, &act, NULL)]. *)
Definition host_sigaction (host_sig : Z) (d : disposition) (s : signals) : Z * signals :=
  if change_refused host_sig then (-1, s) else (0, set_host_disp (<[host_sig := d]> (host_disp s)) s).

(** The loop of [signal_init]; [oact] is the local the host's answer is left in. *)
Fixpoint signal_init_loop (n : nat) (i : Z) (oact : disposition) (s : signals) : res signals :=
  match n with
  | O => Ok s
  | S n =>
      let? host_sig := target_to_host_signal i in
      let oact := if query_refused host_sig then oact else host_disp s host_sig in
      let handler h := set_sigact (<[i := let k := sigact_table s i in
                                          mkSa h (sa_flags k) (sa_restorer k) (sa_mask k)]> (sigact_table s)) s in
      let s := match oact with
               | DispIgn => handler TARGET_SIG_IGN
               | DispDfl => handler TARGET_SIG_DFL
               | _ => s
               end in
      let s := if fatal_signal i then (host_sigaction host_sig (DispHandler false) s).2 else s in
      signal_init_loop n (i + 1) oact s
  end.
Definition signal_init (oact0 : disposition) (s : signals) : res signals :=
  signal_init_loop (Z.to_nat TARGET_NSIG) 1 oact0 (set_sigact (fun _ => sigaction_zero) s).

(** [oact] is the old record where the caller asks for it. *)
Definition do_sigaction (sig : Z) (act : option target_sigaction) (s : signals) : res (Z * option target_sigaction * signals) :=
  if (sig <? 1) || (sig >? TARGET_NSIG) || (sig =? SIGKILL) || (sig =? SIGSTOP) then Ok (- EINVAL, None, s)
  else
    let oact := Some (sigact_table s sig) in
    match act with
    | None => Ok (0, oact, s)
    | Some k =>
        let s := set_sigact (<[sig := k]> (sigact_table s)) s in
        let? host_sig := target_to_host_signal sig in
        if negb (host_sig =? SIGSEGV) && negb (host_sig =? SIGBUS) then
          let h := DispHandler (hasb (sa_flags k) TARGET_SA_RESTART) in
          let d := if _sa_handler k =? TARGET_SIG_IGN then DispIgn
                   else if _sa_handler k =? TARGET_SIG_DFL then if fatal_signal sig then h else DispDfl
                   else h in
          let '(ret, s) := host_sigaction host_sig d s in Ok (ret, oact, s)
        else Ok (0, oact, s)
    end.

(** ** Frames *)

Definition sizeof_sigframe : Z := 732.
Definition sizeof_rt_sigframe : Z := 892.
Definition sizeof_vm86plus : Z := 196.

Definition get_sigframe (ka : target_sigaction) (env : scpu) (a : sigaltstack) (frame_size : Z) : Z :=
  let esp := sregs env R_ESP in
  let esp :=
    if hasb (sa_flags ka) TARGET_SA_ONSTACK then
      if sas_ss_flags a esp =? 0 then u32 (ss_sp a + ss_size a) else esp
    else if negb (Z.land (selector env R_SS) 0xffff =? __USER_DS) && negb (hasb (sa_flags ka) TARGET_SA_RESTORER) &&
            negb (sa_restorer ka =? 0) then sa_restorer ka
    else esp in
  Z.land (u32 (esp - frame_size)) (u32 (-8)).

(** One [__put_user]: size, value and place. *)
Definition W (n : nat) (x p : Z) : nat * Z * Z := (n, x, p).
(** A sequence of [__put_user]: sizes, values and places. *)
Fixpoint put_list (l : list (nat * Z * Z)) (m : mem) : res mem :=
  match l with
  | [] => Ok m
  | (n, x, p) :: l => let? m := __put_user n x p m in put_list l m
  end.

Definition setup_sigcontext (sc fpstate : Z) (env : scpu) (mask fpstate_addr : Z) (m : mem) : res mem :=
  let? m := put_list
    [W 4 (selector env R_GS) sc; W 4 (selector env R_FS) (sc + 4); W 4 (selector env R_ES) (sc + 8);
     W 4 (selector env R_DS) (sc + 12); W 4 (sregs env R_EDI) (sc + 16); W 4 (sregs env R_ESI) (sc + 20);
     W 4 (sregs env R_EBP) (sc + 24); W 4 (sregs env R_ESP) (sc + 28); W 4 (sregs env R_EBX) (sc + 32);
     W 4 (sregs env R_EDX) (sc + 36); W 4 (sregs env R_ECX) (sc + 40); W 4 (sregs env R_EAX) (sc + 44);
     W 4 (exception_index env) (sc + 48); W 4 (error_code env) (sc + 52); W 4 (eip env) (sc + 56);
     W 4 (selector env R_CS) (sc + 60); W 4 (eflags env) (sc + 64); W 4 (sregs env R_ESP) (sc + 68);
     W 4 (selector env R_SS) (sc + 72)] m in
  let? m := cpu_x86_fsave in
  put_list [W 2 (le_val (read_bytes m (fpstate + 4) 2)) (fpstate + 108); W 2 0xffff (fpstate + 110);
            W 4 fpstate_addr (sc + 76); W 4 mask (sc + 80); W 4 (cr2 env) (sc + 84)] m.

(** Where the handler returns to: the caller's stub, or code on the stack. *)
Definition return_code (ka : target_sigaction) (frame retcode : Z) (code : list (nat * Z * Z)) : list (nat * Z * Z) :=
  if hasb (sa_flags ka) TARGET_SA_RESTORER then [W 4 (sa_restorer ka) frame]
  else W 4 retcode frame :: code.

(** The CPU enters the handler; the segments are loaded next. *)
Definition enter_handler (ka : target_sigaction) (frame_addr : Z) (env : scpu) : res scpu :=
  let env := set_sregs (<[R_ESP := frame_addr]> (sregs env)) (_sa_handler ka) env in
  cpu_x86_load_seg.

(** At [give_sigsegv] the handler of SIGSEGV is reset first, and the process dies. *)
Definition setup_frame (sig : Z) (ka : target_sigaction) (set : target_sigset) (env : scpu) (pg : pagemap) (m : mem)
    (a : sigaltstack) : res (outcome (scpu * mem)) :=
  let frame_addr := get_sigframe ka env a sizeof_sigframe in
  let? p := lock_user qemu_host_page_size VERIFY_WRITE frame_addr sizeof_sigframe pg in
  match p with
  | None => force_sig core_dump SIGSEGV
  | Some f =>
      let? m := put_list [W 4 sig (f + 4)] m in
      let? m := setup_sigcontext (f + 8) (f + 96) env (set 0) (frame_addr + 96) m in
      let? m := put_list [W 4 (set 1) (f + 720)] m in
      let? m := put_list (return_code ka f (frame_addr + 724)
                  [W 2 0xb858 (f + 724); W 4 TARGET_NR_sigreturn (f + 726); W 2 0x80cd (f + 730)]) m in
      let? env := enter_handler ka frame_addr env in
      Ok (Returned false (env, m))
  end.

(** [copy_siginfo_to_user]. *)
Definition put_siginfo (p : Z) (i : siginfo) (m : mem) : res mem :=
  let t := tswap_siginfo (mkInfo 0 0 0 (fun k => ld32 m (p + 12 + 4 * k))) i in
  put_list [W 4 (si_signo t) p; W 4 (si_errno t) (p + 4); W 4 (si_code t) (p + 8); W 4 (sifields t 0) (p + 12);
            W 4 (sifields t 1) (p + 16); W 4 (sifields t 2) (p + 20)] m.

Definition setup_rt_frame (sig : Z) (ka : target_sigaction) (i : siginfo) (set : target_sigset) (env : scpu)
    (pg : pagemap) (m : mem) (a : sigaltstack) : res (outcome (scpu * mem)) :=
  let frame_addr := get_sigframe ka env a sizeof_rt_sigframe in
  let? p := lock_user qemu_host_page_size VERIFY_WRITE frame_addr sizeof_rt_sigframe pg in
  match p with
  | None => force_sig core_dump SIGSEGV
  | Some f =>
      let? m := put_list [W 4 sig (f + 4); W 4 (frame_addr + 16) (f + 8); W 4 (frame_addr + 144) (f + 12)] m in
      let? m := put_siginfo (f + 16) i m in
      let? m := put_list [W 4 0 (f + 144); W 4 0 (f + 148); W 4 (ss_sp a) (f + 152);
                          W 4 (sas_ss_flags a (sregs env R_ESP)) (f + 156); W 4 (ss_size a) (f + 160)] m in
      let? m := setup_sigcontext (f + 164) (f + 260) env (set 0) (frame_addr + 260) m in
      let? m := put_list [W 4 (set 0) (f + 252); W 4 (set 1) (f + 256)] m in
      let? m := put_list (return_code ka f (frame_addr + 884)
                  [W 1 0xb8 (f + 884); W 4 TARGET_NR_rt_sigreturn (f + 885); W 2 0x80cd (f + 889)]) m in
      let? env := enter_handler ka frame_addr env in
      Ok (Returned false (env, m))
  end.

(** The registers are saved, then the segments loaded. *)
Definition save_v86_state (env : scpu) (pg : pagemap) : res unit :=
  let? p := lock_user qemu_host_page_size VERIFY_WRITE (target_v86 env) sizeof_vm86plus pg in
  match p with None => Ok tt | Some _ => cpu_x86_load_seg end.

(** Its first statement. *)
Definition restore_sigcontext {A} : res A := cpu_x86_load_seg.

Definition do_sigreturn (env : scpu) (pg : pagemap) (m : mem) (s : signals) : res (outcome (Z * signals)) :=
  let frame_addr := u32 (sregs env R_ESP - 8) in
  let? p := lock_user qemu_host_page_size VERIFY_READ frame_addr sizeof_sigframe pg in
  match p with
  | None => force_sig core_dump SIGSEGV
  | Some frame =>
      let? w0 := __get_user 4 (frame + 88) m in
      let? w1 := __get_user 4 (frame + 720) m in
      let? set := target_to_host_sigset_internal (fun w => if w =? 0 then w0 else if w =? 1 then w1 else 0) in
      let s := set_blocked set s in
      restore_sigcontext
  end.

Definition do_rt_sigreturn (env : scpu) (pg : pagemap) (m : mem) (s : signals) : res (outcome (Z * signals)) :=
  let frame_addr := u32 (sregs env R_ESP - 4) in
  let? p := lock_user qemu_host_page_size VERIFY_READ frame_addr sizeof_rt_sigframe pg in
  match p with
  | None => force_sig core_dump SIGSEGV
  | Some frame =>
      let? w0 := __get_user 4 (frame + 252) m in
      let? w1 := __get_user 4 (frame + 256) m in
      let? set := target_to_host_sigset (fun w => if w =? 0 then w0 else if w =? 1 then w1 else 0) in
      let s := set_blocked set s in
      restore_sigcontext
  end.

(** ** Arrival and delivery *)

(** A host signal arrives with [info]; [tinfo] is an uninitialised local. *)
Definition host_signal_handler (queue host_signum : Z) (tinfo i : siginfo) (s : signals) : res (outcome signals) :=
  let? _ := if ((host_signum =? SIGSEGV) || (host_signum =? SIGBUS)) && (si_code i >? 0)
            then cpu_signal_handler else Ok tt in
  let? sig := host_to_target_signal host_signum in
  if (sig <? 1) || (sig >? TARGET_NSIG) then Ok (Returned false s)
  else
    let? tinfo := host_to_target_siginfo_noswap tinfo i in
    let? o := queue_signal core_dump queue (sigact_table s) sig tinfo (task s) in
    match o with
    | Killed h c => Ok (Killed h c)
    | Returned b (r, t) => if r =? 1 then cpu_exit else Ok (Returned b (set_task t s))
    end.

(** A handler of the guest: the frame is built with the signals of its mask blocked. *)
Definition deliver (sig : Z) (i : siginfo) (env : scpu) (pg : pagemap) (m : mem) (s : signals)
    : res (outcome (scpu * mem * signals)) :=
  let sa := sigact_table s sig in
  let? set := target_to_host_sigset (sa_mask sa) in
  let? set := if negb (hasb (sa_flags sa) TARGET_SA_NODEFER)
              then let? h := target_to_host_signal sig in Ok ({[h]} ∪ set) else Ok set in
  let old_set := blocked s in
  let s := set_blocked (blocked s ∪ set) s in
  let? target_old_set := host_to_target_sigset_internal old_set in
  let? _ := if hasb (eflags env) VM_MASK then save_v86_state env pg else Ok tt in
  let? o := if hasb (sa_flags sa) TARGET_SA_SIGINFO
            then setup_rt_frame sig sa i target_old_set env pg m (target_sigaltstack_used s)
            else setup_frame sig sa target_old_set env pg m (target_sigaltstack_used s) in
  match o with
  | Killed h c => Ok (Killed h c)
  | Returned b (env, m) =>
      let s := if hasb (sa_flags sa) TARGET_SA_RESETHAND
               then set_sigact (<[sig := mkSa TARGET_SIG_DFL (sa_flags sa) (sa_restorer sa) (sa_mask sa)]> (sigact_table s)) s
               else s in
      Ok (Returned b (env, m, s))
  end.

Definition process_pending_signals (env : scpu) (pg : pagemap) (m : mem) (s : signals)
    : res (outcome (scpu * mem * signals)) :=
  let? (d, t) := dequeue_signal (task s) in
  let s := set_task t s in
  match d with
  | None => Ok (Returned false (env, m, s))
  | Some (sig, q) =>
      let handler := _sa_handler (sigact_table s sig) in
      let? o :=
        if handler =? TARGET_SIG_DFL then
          if existsb (Z.eqb sig) [SIGTSTP; SIGTTIN; SIGTTOU] then Ok (Returned true (env, m, s))
          else if negb (existsb (Z.eqb sig) [SIGCHLD; SIGURG; SIGWINCH; SIGCONT]) then force_sig core_dump sig
          else Ok (Returned false (env, m, s))
        else if handler =? TARGET_SIG_IGN then Ok (Returned false (env, m, s))
        else if handler =? TARGET_SIG_ERR then force_sig core_dump sig
        else deliver sig (info (sq t q)) env pg m s in
      match o with
      | Killed h c => Ok (Killed h c)
      | Returned b (env, m, s) => Ok (Returned b (env, m, set_task (release_entry sig q (task s)) s))
      end
  end.

End Signal.
