(* ===== verification/SignalThm.v ===== *)
(** Theorems on dispositions, the alternate stack, frames, and the arrival and
    delivery of signals. *)

From S2P Require Import Prelude Memory Opcode DecodeTable Decode DecodeSpec State TransBlock PageTable Uaccess.
From S2P Require Import SigTab SigQueue SigQueueThm Signal.
From stdpp Require Import gmap.
#[local] Open Scope Z_scope.

(** ** The alternate stack *)

(** Disabled, or large enough. *)
Definition alt_ok (a : sigaltstack) : Prop := ss_sp a = 0 /\ ss_size a = 0 \/ MINSIGSTKSZ <= ss_size a.

Lemma new_altstack_ok sp flags size a : new_altstack sp flags size = inr a -> alt_ok a.
Proof.
  unfold new_altstack. destruct (_ && _); [done|]. destruct (flags =? TARGET_SS_DISABLE).
  - intros [= <-]. now left.
  - destruct (Z.ltb_spec size MINSIGSTKSZ); [done|]. intros [= <-]. right. cbn. lia.
Qed.

(** An address aligned down to eight. *)
Lemma align8 x : 0 <= x < 4294967296 -> Z.land x (u32 (-8)) = x - x mod 8.
Proof. intros Hx. apply (land_align x 3); lia. Qed.

(** A frame is aligned, and inside the alternate stack when it is used. *)
Lemma frame_inside ka env a size : alt_ok a -> 0 < ss_size a -> 0 <= ss_sp a -> ss_sp a + ss_size a < 4294967296 ->
  hasb (sa_flags ka) TARGET_SA_ONSTACK = true -> on_sig_stack a (sregs env R_ESP) = false -> 0 <= size <= 1024 ->
  let f := get_sigframe ka env a size in
  f mod 8 = 0 /\ ss_sp a <= f /\ f + size <= ss_sp a + ss_size a.
Proof.
  intros [?|A] P S E F O Z. { lia. } unfold MINSIGSTKSZ in A. unfold get_sigframe, sas_ss_flags. rewrite F, O.
  destruct (Z.eqb_spec (ss_size a) 0); [lia|]. cbn [Z.eqb]. cbv zeta. rewrite (u32_small (ss_sp a + ss_size a)) by lia.
  rewrite u32_small, align8 by lia. Z.div_mod_to_equations. lia.
Qed.

Lemma copy_zero sz p l pg m m' : copy_to_user sz p l pg m = Ok (0, m') -> p <> 0 /\ m' = write_bytes p l m.
Proof.
  unfold copy_to_user, lock_user, g2h. destruct (access_ok _ _ _ _ _) as [[]|]; cbn; try done.
  destruct (Z.eqb_spec p 0); cbn; [done|]. now intros [= <-].
Qed.

(** The request read at [uss]. *)
Definition asked (uss : Z) (m : mem) : sigaltstack :=
  if le_val (read_bytes m (uss + 4) 4) =? TARGET_SS_DISABLE then mkSs 0 0
  else mkSs (le_val (read_bytes m uss 4)) (le_val (read_bytes m (uss + 8) 4)).

Lemma altstack_cases sz uss uoss sp pg m a r m' a' : do_sigaltstack sz uss uoss sp pg m a = Ok (r, m', a') ->
  (m' = m /\ a' = a /\ r <> 0) \/
  ((if uss =? 0 then a' = a else on_sig_stack a sp = false /\ a' = asked uss m /\ alt_ok a') /\
   (r = 0 \/ r = - TARGET_EFAULT) /\
   (r = 0 -> uoss <> 0 -> m' = write_bytes uoss (stack_bytes (ss_sp a) (sas_ss_flags a sp) (ss_size a)) m)).
Proof.
  unfold do_sigaltstack. intros E. apply res_bind_ok in E as (x & X & E).
  destruct x as [e|b].
  - injection E as <- <- <-. left. split; [done|]. split; [done|]. destruct (uss =? 0); [done|].
    apply res_bind_ok in X as (p & _ & X). destruct p as [h|]; [|now injection X as <-].
    cbn [__get_user res_bind sizeof_ok existsb Nat.eqb orb] in X. destruct (on_sig_stack a sp); [now injection X as <-|].
    injection X as X. unfold new_altstack in X. destruct (_ && _); [now injection X as <-|].
    destruct (_ =? _); [done|]. destruct (_ <? _); [now injection X as <-|done].
  - right. split.
    + assert (b = a') as ->. { destruct (uoss =? 0); [now injection E as _ _ <-|]. 
        apply res_bind_ok in E as ([r1 m1] & ? & E1). now injection E1 as _ _ <-. }
      destruct (Z.eqb_spec uss 0); [now injection X as <-|].
      apply res_bind_ok in X as (p & P & X). destruct p as [h|]; [|done].
      assert (h = uss) as ->.
      { revert P. unfold lock_user, g2h. destruct (access_ok _ _ _ _ _) as [[]|]; cbn; try done.
        destruct (uss =? 0); [done|]. now intros [= <-]. }
      unfold __get_user in X. cbn [sizeof_ok existsb Nat.eqb orb res_bind] in X.
      destruct (on_sig_stack a sp); [done|]. injection X as X. split; [done|].
      split; [|now apply new_altstack_ok in X]. unfold asked. revert X. unfold new_altstack.
      destruct (_ && _); [done|]. destruct (_ =? TARGET_SS_DISABLE); [now intros [= <-]|].
      destruct (_ <? _); [done|]. now intros [= <-].
    + destruct (Z.eqb_spec uoss 0); [injection E as <- <- <-; split; [by left|done]|].
      apply res_bind_ok in E as ([r' m1] & C & E). destruct (Z.eqb_spec r' 0) as [->|]; injection E as <- <- <-; [|split; [by right|done]].
      apply copy_zero in C as [_ ->]. auto.
Qed.

(** [do_sigaltstack] installs a stack only if it is read from the guest, of a
    known kind and at least [MINSIGSTKSZ] bytes long or disabled, and never while the
    task runs on the present one; any error but a failed copy-out changes nothing, and
    on success the caller finds the old stack. On every stack so installed a handler
    with [SA_ONSTACK] gets its frame, of either kind, aligned to eight bytes and inside
    the stack. *)
Theorem altstack_ok sz uss uoss sp pg m a r m' a' : alt_ok a ->
  do_sigaltstack sz uss uoss sp pg m a = Ok (r, m', a') ->
  alt_ok a' /\
  (a' <> a -> uss <> 0 /\ on_sig_stack a sp = false /\ a' = asked uss m) /\
  (r <> 0 -> r <> - TARGET_EFAULT -> a' = a /\ m' = m) /\
  (r = 0 -> uss <> 0 -> a' = asked uss m) /\
  (r = 0 -> uoss <> 0 -> read_bytes m' uoss 12 = stack_bytes (ss_sp a) (sas_ss_flags a sp) (ss_size a)) /\
  (forall ka env size, 0 < ss_size a' -> 0 <= ss_sp a' -> ss_sp a' + ss_size a' < 4294967296 ->
     hasb (sa_flags ka) TARGET_SA_ONSTACK = true -> on_sig_stack a' (sregs env R_ESP) = false ->
     size = sizeof_sigframe \/ size = sizeof_rt_sigframe ->
     let f := get_sigframe ka env a' size in
     f mod 8 = 0 /\ ss_sp a' <= f /\ f + size <= ss_sp a' + ss_size a').
Proof.
  intros A E. apply altstack_cases in E.
  assert (A' : alt_ok a') by (destruct E as [(_ & -> & _)|(U & _)]; [done|]; destruct (uss =? 0); [now subst|apply U]).
  split; [done|]. split; [|split; [|split; [|split]]].
  - intros D. destruct E as [(_ & ? & _)|(U & _)]; [done|]. destruct (Z.eqb_spec uss 0); [done|]. split; [done|]. split; apply U.
  - intros R1 R2. destruct E as [(-> & -> & _)|(_ & [?|?] & _)]; done.
  - intros R N. destruct E as [(_ & _ & ?)|(U & _)]; [done|]. destruct (Z.eqb_spec uss 0); [done|]. apply U.
  - intros R N. destruct E as [(_ & _ & ?)|(_ & _ & ->)]; [done| |done|done].
    pose proof (at_bytes_write m uoss (stack_bytes (ss_sp a) (sas_ss_flags a sp) (ss_size a))) as B.
    unfold at_bytes, stack_bytes in *. rewrite !map_app, !map_u8_le_bytes in B. exact B.
  - intros ka env size P S V F O Z. apply frame_inside; try done.
    unfold sizeof_sigframe, sizeof_rt_sigframe in Z. lia.
Qed.

Definition demo_page : pagemap :=
  match page_set_flags 0x8048000 0x8049000 (Z.lor PAGE_VALID (Z.lor PAGE_READ PAGE_WRITE)) l1_empty with
  | Ok m => m
  | Err _ => l1_empty
  end.

(** A new stack of 8192 bytes is asked for at 0x8048100, and the old one at 0x8048200. *)
Theorem altstack_ok_witness :
  exists m', do_sigaltstack 4096 0x8048100 0x8048200 0xbffff000 demo_page
    (write_bytes 0x8048100 (stack_bytes 0x9000000 0 8192) ∅) (mkSs 0 0) = Ok (0, m', mkSs 0x9000000 8192) /\
    read_bytes m' 0x8048200 12 = stack_bytes 0 SS_DISABLE 0.
Proof.
  set (m := write_bytes 0x8048100 (stack_bytes 0x9000000 0 8192) ∅).
  assert (E : do_sigaltstack 4096 0x8048100 0x8048200 0xbffff000 demo_page m (mkSs 0 0) =
    Ok (0, write_bytes 0x8048200 (stack_bytes 0 SS_DISABLE 0) m, mkSs 0x9000000 8192)) by (vm_compute; reflexivity).
  exists (write_bytes 0x8048200 (stack_bytes 0 SS_DISABLE 0) m). split; [exact E|].
  assert (A : alt_ok (mkSs 0 0)) by (left; split; reflexivity).
  destruct (altstack_ok 4096 0x8048100 0x8048200 0xbffff000 demo_page m (mkSs 0 0) 0 _ _ A E) as (_ & _ & _ & _ & R & _).
  exact (R eq_refl ltac:(discriminate)).
Defined.

(** ** Dispositions *)

Section Dispositions.
Variables change_refused query_refused : Z -> bool.

(** A host signal is dropped or takes its default action only where the guest
    asked for that; otherwise it comes to [host_signal_handler]. *)
Definition in_step_at (h : Z) (s : signals) (sig : Z) : Prop :=
  change_refused h = false -> query_refused h = false ->
  match host_disp s h with
  | DispIgn => _sa_handler (sigact_table s sig) = TARGET_SIG_IGN
  | DispDfl => _sa_handler (sigact_table s sig) = TARGET_SIG_DFL /\ fatal_signal sig = false
  | DispHandler _ => True
  | DispOther => False
  end /\
  (h = SIGSEGV \/ h = SIGBUS -> exists b, host_disp s h = DispHandler b).
Definition in_step (s : signals) (sig : Z) : Prop := in_step_at (t2h_table sig) s sig.

Lemma in_step_frame s s' sig : host_disp s' (t2h_table sig) = host_disp s (t2h_table sig) ->
  sigact_table s' sig = sigact_table s sig -> in_step s sig -> in_step s' sig.
Proof. unfold in_step, in_step_at. now intros -> ->. Qed.

Lemma t2h_inj i j : valid i -> valid j -> t2h_table i = t2h_table j -> i = j.
Proof.
  intros Vi Vj E. destruct (tables_valid i Vi) as (_ & _ & _ & <-), (tables_valid j Vj) as (_ & _ & _ & <-). now rewrite E.
Qed.

(** Everything but the dispositions. *)
Definition same_rest (s s' : signals) : Prop :=
  task s' = task s /\ target_sigaltstack_used s' = target_sigaltstack_used s /\ blocked s' = blocked s.

Lemma init_loop n : forall i oact s, 1 <= i -> i + Z.of_nat n <= 65 -> (forall j, 1 <= j < i -> in_step s j) ->
  (forall j, i <= j <= 64 -> host_disp s (t2h_table j) = DispDfl \/ host_disp s (t2h_table j) = DispIgn) ->
  (forall j, sigact_table s j = sigaction_zero \/ sigact_table s j = mkSa TARGET_SIG_IGN 0 0 target_sigemptyset) ->
  exists s', signal_init_loop change_refused query_refused n i oact s = Ok s' /\ same_rest s s' /\
    (forall j, 1 <= j < i + Z.of_nat n -> in_step s' j) /\
    (forall j, sigact_table s' j = sigaction_zero \/ sigact_table s' j = mkSa TARGET_SIG_IGN 0 0 target_sigemptyset).
Proof.
  induction n as [|n IH]; intros i oact s Hi Hn Old New Tab; cbn [signal_init_loop].
  { exists s. split; [done|]. split; [done|]. split; [|done]. intros j Hj. apply Old. lia. }
  assert (Vi : valid i) by (unfold valid; lia). rewrite (t2h_valid i Vi). cbn [res_bind].
  set (h := t2h_table i). set (o := if query_refused h then oact else host_disp s h). cbv zeta.
  set (s1 := match o with DispIgn => _ | DispDfl => _ | _ => s end).
  set (s2 := if fatal_signal i then _ else s1).
  assert (H1 : host_disp s1 = host_disp s /\ same_rest s s1 /\ (forall j, j <> i -> sigact_table s1 j = sigact_table s j) /\
     (forall j, sigact_table s1 j = sigaction_zero \/ sigact_table s1 j = mkSa TARGET_SIG_IGN 0 0 target_sigemptyset)).
  { subst s1. destruct o; cbn; (split; [done|]); (split; [done|]); split; try done; intros j;
      try (intros N; now rewrite fn_lookup_insert_ne by auto); at_key i j; try done;
      destruct (Tab i) as [->| ->]; auto. }
  destruct H1 as (D1 & R1 & T1 & K1).
  assert (H2 : sigact_table s2 = sigact_table s1 /\ same_rest s1 s2 /\ (forall g, g <> h -> host_disp s2 g = host_disp s g)).
  { subst s2. unfold host_sigaction. destruct (fatal_signal i); [destruct (change_refused h)|]; cbn; rewrite ?D1;
      (split; [done|]); (split; [done|]); try done. intros g Ng. now rewrite fn_lookup_insert_ne by auto. }
  destruct H2 as (T2 & R2 & D2).
  assert (Other : forall j, valid j -> j <> i -> host_disp s2 (t2h_table j) = host_disp s (t2h_table j)).
  { intros j Vj N. apply D2. intros E. apply N. now apply t2h_inj. }
  assert (Rest : same_rest s s2) by (unfold same_rest in *; intuition congruence).
  destruct (IH (i + 1) o s2) as (s' & E & R' & S' & K'); [lia|lia|..].
  - intros j Hj. destruct (Z.eq_dec j i) as [->|N].
    + unfold in_step. fold h. unfold in_step_at. intros Ch Qu. assert (O : o = host_disp s h) by (subst o; now rewrite Qu).
      rewrite T2. subst s2 s1. unfold host_sigaction. rewrite Ch.
      assert (Fs : h = SIGSEGV \/ h = SIGBUS -> fatal_signal i = true).
      { intros Hh. destruct (tables_valid i Vi) as (_ & _ & _ & T). fold h in T. rewrite <- T. now destruct Hh as [->| ->]. }
      destruct (fatal_signal i) eqn:Ff; cbn [snd set_host_disp host_disp]; [rewrite fn_lookup_insert; eauto|].
      split; [|intros X; specialize (Fs X); discriminate]. rewrite O.
      destruct (New i) as [X|X]; [lia|..]; fold h in X; rewrite X; cbn; rewrite X, fn_lookup_insert; auto.
    + apply (in_step_frame s); [apply Other; [unfold valid; lia|done]|rewrite T2; auto|apply Old; lia].
  - intros j Hj. rewrite Other by (unfold valid; lia). apply New. lia.
  - intros j. rewrite T2. apply K1.
  - exists s'. split; [exact E|]. split; [unfold same_rest in *; intuition congruence|]. split; [|exact K'].
    intros j Hj. apply S'. lia.
Qed.

Lemma init_ok oact0 s : (forall h, valid h -> host_disp s h = DispDfl \/ host_disp s h = DispIgn) ->
  exists s', signal_init change_refused query_refused oact0 s = Ok s' /\ same_rest s s' /\
    (forall j, valid j -> in_step s' j) /\
    (forall j, sigact_table s' j = sigaction_zero \/ sigact_table s' j = mkSa TARGET_SIG_IGN 0 0 target_sigemptyset).
Proof.
  intros D. unfold signal_init.
  destruct (init_loop (Z.to_nat TARGET_NSIG) 1 oact0 (set_sigact (fun _ => sigaction_zero) s)) as (s' & E & R & S & T).
  - lia.
  - unfold TARGET_NSIG. lia.
  - lia.
  - intros j Hj. apply D. now destruct (tables_valid j Hj) as (_ & V & _).
  - auto.
  - exists s'. split; [exact E|]. split; [exact R|]. split; [|exact T]. intros j V. apply S. clear -V. unfold valid in V. unfold TARGET_NSIG. lia.
Qed.

(** The signals the guest may handle. *)
Definition changeable (sig : Z) : bool :=
  (1 <=? sig) && (sig <=? TARGET_NSIG) && negb (sig =? SIGKILL) && negb (sig =? SIGSTOP).

Lemma sigaction_run sig act s : exists r s', do_sigaction change_refused sig act s =
    Ok (r, if changeable sig then Some (sigact_table s sig) else None, s') /\
  (r = - EINVAL <-> changeable sig = false) /\ same_rest s s' /\
  sigact_table s' = match act with
                    | Some k => if changeable sig then <[sig := k]> (sigact_table s) else sigact_table s
                    | None => sigact_table s
                    end /\
  (forall g, g <> t2h_table sig -> host_disp s' g = host_disp s g) /\
  ((forall j, valid j -> in_step s j) -> forall j, valid j -> in_step s' j).
Proof.
  unfold do_sigaction.
  assert (C : (sig <? 1) || (sig >? TARGET_NSIG) || (sig =? SIGKILL) || (sig =? SIGSTOP) = negb (changeable sig)).
  { unfold changeable. rewrite !negb_andb, !negb_involutive. do 2 f_equal. destruct (Z.ltb_spec sig 1),
      (Z.leb_spec 1 sig), (Z.gtb_spec sig TARGET_NSIG), (Z.leb_spec sig TARGET_NSIG); try done; lia. }
  rewrite C. destruct (changeable sig) eqn:Ch; cbn [negb].
  2:{ eexists _, s. split; [reflexivity|]. split; [done|]. split; [done|]. split; [now destruct act|]. auto. }
  destruct act as [k|]; [|exists 0, s; split; [done|]; split; [split; intros X; discriminate X|];
    split; [repeat split|]; split; [reflexivity|]; auto].
  assert (V : valid sig) by (unfold changeable, TARGET_NSIG in Ch; unfold valid; lia).
  rewrite t2h_valid by done. cbn [res_bind]. remember (t2h_table sig) as h eqn:Hh.
  assert (Here : (forall j, valid j -> in_step s j) -> in_step_at h s sig) by (intros S; rewrite Hh; apply S, V).
  assert (Frame : forall s', (forall g, g <> h -> host_disp s' g = host_disp s g) ->
    sigact_table s' = <[sig := k]> (sigact_table s) -> in_step_at h s' sig ->
    (forall j, valid j -> in_step s j) -> forall j, valid j -> in_step s' j).
  { intros s' D T I S j Vj. destruct (Z.eq_dec j sig) as [->|N]; [unfold in_step; rewrite <- Hh; exact I|].
    apply (in_step_frame s); [|rewrite T; now apply fn_lookup_insert_ne, not_eq_sym|auto].
    apply D. intros E. apply N. apply t2h_inj; [exact Vj|exact V|congruence]. }
  clear Hh. destruct (negb (h =? SIGSEGV) && negb (h =? SIGBUS)) eqn:Hs.
  - unfold host_sigaction. destruct (change_refused h) eqn:Cr; eexists _, _; (split; [reflexivity|]);
      (split; [split; intros X; discriminate X|]); (split; [repeat split|]); (split; [reflexivity|]); cbn; split.
    + auto.
    + intros S. apply Frame; [done|done| |done]. unfold in_step_at. congruence.
    + intros g N. now rewrite fn_lookup_insert_ne by auto.
    + intros S. apply Frame; [intros g N; cbn; now rewrite fn_lookup_insert_ne by auto|done| |done].
      unfold in_step_at. intros _ _. cbn [host_disp sigact_table set_host_disp set_sigact].
      rewrite !fn_lookup_insert. split; [|intros [E|E]; rewrite E in Hs; discriminate].
      destruct (Z.eqb_spec (_sa_handler k) TARGET_SIG_IGN); [done|].
      destruct (Z.eqb_spec (_sa_handler k) TARGET_SIG_DFL); [|done]. now destruct (fatal_signal sig) eqn:F.
  - eexists _, _. split; [reflexivity|]. split; [split; intros X; discriminate X|].
    split; [repeat split|]. split; [reflexivity|]. split; [auto|]. intros S. apply Frame; [done|done| |done].
    specialize (Here S). revert Here. unfold in_step_at. intros I Cr Qr. specialize (I Cr Qr) as [_ I].
    destruct I as [b B]; [|split; [|now exists b]].
    + apply andb_false_iff in Hs as [Hs|Hs]; apply negb_false_iff, Z.eqb_eq in Hs; auto.
    + cbn. now rewrite B.
Qed.

(** A sequence of calls that install a record. *)
Fixpoint run_sigaction (l : list (Z * target_sigaction)) (s : signals) : res signals :=
  match l with
  | [] => Ok s
  | (sig, k) :: l => let? (_, s) := do_sigaction change_refused sig (Some k) s in run_sigaction l s
  end.
Definition last_records (l : list (Z * target_sigaction)) (f : Z -> target_sigaction) : Z -> target_sigaction :=
  foldl (fun f x => if changeable x.1 then <[x.1 := x.2]> f else f) f l.

Lemma run_sigaction_ok l : forall s, (forall j, valid j -> in_step s j) ->
  exists s', run_sigaction l s = Ok s' /\ (forall j, valid j -> in_step s' j) /\ same_rest s s' /\
    sigact_table s' = last_records l (sigact_table s).
Proof.
  induction l as [|[sig k] l IH]; intros s S; cbn [run_sigaction]; [now exists s|].
  destruct (sigaction_run sig (Some k) s) as (r & s1 & -> & _ & R & T & _ & I). cbn [res_bind].
  destruct (IH s1 (I S)) as (s' & -> & S' & R' & T'). exists s'. split; [done|]. split; [done|].
  split; [unfold same_rest in *; intuition congruence|]. now rewrite T', T.
Qed.

End Dispositions.


(** Record [1] for the guest's SIGUSR1 and SIGTERM, after the program's start. *)
Definition demo_signals : signals :=
  mkSignals init_task_state (fun _ => sigaction_zero) (mkSs 0 0) (fun _ => DispDfl) ∅.
Definition demo_record : target_sigaction := mkSa 0x8049000 TARGET_SA_RESTART 0 target_sigemptyset.


(** ** Delivery *)

Section Delivery.
Variable sz : Z.
Variable cd : bool.

Lemma bind_not_ok {A B} (r : res A) (k : A -> res B) y : (forall x, k x <> Ok y) -> res_bind r k <> Ok y.
Proof. intros K. destruct r as [x|]; [apply K|done]. Qed.

Lemma sigcontext_aborts sc fp env mask fpa m x : setup_sigcontext sc fp env mask fpa m <> Ok x.
Proof. apply bind_not_ok. intros m1. now cbn. Qed.

(** Peels a frame down to the saving of the FPU. *)
Ltac to_fsave :=
  repeat match goal with
         | |- res_bind (setup_sigcontext ?a ?b ?c ?d ?e ?f) _ <> _ =>
             let H := fresh in let y := fresh in pose proof (sigcontext_aborts a b c d e f) as H;
             destruct (setup_sigcontext a b c d e f) as [y|]; [now destruct (H y)|done]
         | |- res_bind _ _ <> _ => apply bind_not_ok; intros ?
         | |- match ?x with _ => _ end <> _ => destruct x
         | |- force_sig _ _ <> _ => apply bind_not_ok; intros ?
         | |- _ => done
         end.

Lemma frame_never sig ka set env pg m a b x : setup_frame sz cd sig ka set env pg m a <> Ok (Returned b x).
Proof. unfold setup_frame. cbv zeta. to_fsave. Qed.
Lemma rt_frame_never sig ka i set env pg m a b x : setup_rt_frame sz cd sig ka i set env pg m a <> Ok (Returned b x).
Proof. unfold setup_rt_frame. cbv zeta. to_fsave. Qed.

Lemma deliver_never sig i env pg m s b x : deliver sz cd sig i env pg m s <> Ok (Returned b x).
Proof.
  unfold deliver. do 2 (apply bind_not_ok; intros ?). apply bind_not_ok. intros old. apply bind_not_ok. intros _.
  assert (N : forall o, (if hasb (sa_flags (sigact_table s sig)) TARGET_SA_SIGINFO
      then setup_rt_frame sz cd sig (sigact_table s sig) i old env pg m (target_sigaltstack_used s)
      else setup_frame sz cd sig (sigact_table s sig) old env pg m (target_sigaltstack_used s)) = Ok o ->
      exists h c, o = Killed h c).
  { intros o E. destruct o as [b' x'|h c]; [|eauto]. destruct (hasb _ _); [now apply rt_frame_never in E|now apply frame_never in E]. }
  cbn [target_sigaltstack_used set_blocked]. destruct (if hasb (sa_flags _) TARGET_SA_SIGINFO then _ else _) as [o|]; [|done].
  destruct (N o eq_refl) as (h & c & ->). done.
Qed.

(** What becomes of the delivery [sig] under the handler [h] in the table. *)
Lemma process_run env pg m s a : holds (task s) a ->
  match spec_next a with
  | (None, _) => exists t, process_pending_signals sz cd env pg m s = Ok (Returned false (env, m, set_task t s)) /\ holds t a
  | (Some (sig, i), a') =>
      match spec_default cd 0 (_sa_handler (sigact_table s sig)) sig with
      | Some (Returned b _) =>
          exists t, process_pending_signals sz cd env pg m s = Ok (Returned b (env, m, set_task t s)) /\ holds t a'
      | Some (Killed h c) => process_pending_signals sz cd env pg m s = Ok (Killed h c)
      | None => forall b x, process_pending_signals sz cd env pg m s <> Ok (Returned b x)
      end
  end.
Proof.
  intros H. destruct (take_holds (task s) a H) as (r & t & E & T). unfold process_pending_signals. rewrite E.
  cbn [res_bind]. destruct r as [[sig q]|].
  2:{ destruct T as [-> T]. exists t. auto. }
  destruct T as (V & N & T). destruct (spec_next a) as [d a']. cbn [fst snd] in N, T. subst d.
  assert (Done : forall b, exists t', Ok (Returned b (env, m, set_task (release_entry sig q (task (set_task t s))) (set_task t s))) =
     Ok (Returned b (env, m, set_task t' s)) /\ holds t' a') by (intros b; exists (release_entry sig q t); auto).
  unfold spec_default. cbn [sigact_table set_task negb]. change (0 =? 0) with true. cbn [negb].
  destruct (_ =? TARGET_SIG_DFL).
  { destruct (existsb _ [SIGTSTP; _; _]); [apply Done|]. destruct (existsb _ [SIGCHLD; _; _; _]); cbn [negb]; [apply Done|].
    unfold force_sig. now rewrite t2h_valid. }
  destruct (_ =? TARGET_SIG_IGN); [apply Done|]. destruct (_ =? TARGET_SIG_ERR).
  { unfold force_sig. now rewrite t2h_valid. }
  intros b x. pose proof (deliver_never sig (info (sq t q)) env pg m (set_task t s)) as D.
  destruct (deliver _ _ _ _ _ _ _ _) as [[b' x'|h c]|]; [now destruct (D b' x')|done|done].
Qed.

End Delivery.


(** ** The start of the program *)

Lemma killed_inj {A} h c h' c' : Some (@Killed A h c) = Some (Killed h' c') -> h = h'.
Proof. now intros [= ->]. Qed.

(** With the table [signal_init] leaves, every signal has a default action. *)
Lemma startup_default cd s1 sig :
  (forall j, sigact_table s1 j = sigaction_zero \/ sigact_table s1 j = mkSa TARGET_SIG_IGN 0 0 target_sigemptyset) ->
  spec_default cd 0 (_sa_handler (sigact_table s1 sig)) sig <> None.
Proof. intros T. destruct (T sig) as [->| ->]; done. Qed.

Definition is_exception (host_signum : Z) (i : siginfo) : bool :=
  ((host_signum =? SIGSEGV) || (host_signum =? SIGBUS)) && (si_code i >? 0).

(** As the program starts its guest, whose system calls change the host's
    dispositions without [do_sigaction], no signal that reaches [host_signal_handler]
    is ever queued for the guest: an exception of the host's aborts the emulator, and
    any other signal stops it, is dropped, or kills the process with that very signal,
    by the disposition the program was started with. (The local that [queue_signal]
    reads without setting it is taken to be zero.) *)
Theorem startup_signals (change_refused query_refused : Z -> bool) cd oact0 s :
  (forall h, valid h -> host_disp s h = DispDfl \/ host_disp s h = DispIgn) ->
  exists s1, signal_init change_refused query_refused oact0 s = Ok s1 /\
    forall host_signum tinfo i, valid host_signum -> si_signo i = host_signum ->
      let sig := h2t_table host_signum in
      if is_exception host_signum i then host_signal_handler cd 0 host_signum tinfo i s1 = Err Abort
      else exists o, spec_default cd 0 (_sa_handler (sigact_table s1 sig)) sig = Some o /\
        host_signal_handler cd 0 host_signum tinfo i s1 = Ok match o with
          | Returned b _ => Returned b s1
          | Killed h c => Killed h c
          end /\ forall h c, o = Killed h c -> h = host_signum.
Proof.
  intros D. destruct (init_ok change_refused query_refused oact0 s D) as (s1 & E & _ & _ & T). exists s1.
  split; [exact E|]. clear E. intros g tinfo i V Sg. cbv zeta. unfold host_signal_handler, is_exception.
  destruct (_ && (si_code i >? 0)); [reflexivity|]. cbn [res_bind].
  unfold host_to_target_siginfo_noswap. rewrite Sg, (h2t_valid g V). cbn [res_bind].
  destruct (tables_valid g V) as (Vs & _ & Inv & _). set (sig := h2t_table g) in *.
  replace ((sig <? 1) || (sig >? TARGET_NSIG)) with false.
  2:{ clear -Vs. clearbody sig. unfold valid, TARGET_NSIG in *. destruct (Z.ltb_spec sig 1), (Z.gtb_spec sig 64); try done; lia. }
  destruct (spec_default cd 0 _ sig) as [o|] eqn:Df; [|now apply startup_default in Df].
  exists o. split; [reflexivity|]. rewrite (queue_default _ _ _ _ _ _ o Vs Df). cbn [res_bind].
  revert Df. clearbody sig. unfold spec_default. change (negb (0 =? 0)) with false. cbv iota. intros Df.
  assert (K : forall h c, o = Killed h c -> h = g).
  { intros h c ->. destruct (_ =? TARGET_SIG_DFL).
    - destruct (existsb _ [SIGTSTP; _; _]); [done|]. destruct (existsb _ _); [done|].
      apply killed_inj in Df. congruence.
    - destruct (_ =? TARGET_SIG_IGN); [done|]. destruct (_ =? TARGET_SIG_ERR); [|done].
      apply killed_inj in Df. congruence. }
  split; [|exact K]. destruct o as [b r|h c]; [|reflexivity]. cbn [with_state].
  assert (r = 0) as ->.
  { destruct (_ =? TARGET_SIG_DFL).
    - apply (inj Some) in Df. destruct (existsb _ [SIGTSTP; _; _]); [now injection Df|]. destruct (existsb _ _); [now injection Df|done].
    - destruct (_ =? TARGET_SIG_IGN); [now injection Df|]. destruct (_ =? TARGET_SIG_ERR); done. }
  cbn. now destruct s1.
Qed.

Theorem startup_signals_witness :
  exists s1, signal_init (fun h => (h =? SIGKILL) || (h =? SIGSTOP)) (fun _ => false) DispDfl demo_signals = Ok s1 /\
    exists o, spec_default true 0 (_sa_handler (sigact_table s1 15)) 15 = Some o /\
      host_signal_handler true 0 15 siginfo_zero (mkInfo 15 0 0 (fun _ => 0)) s1 = Ok match o with
        | Returned b _ => Returned b s1
        | Killed h c => Killed h c
        end /\ forall h c, o = Killed h c -> h = 15.
Proof.
  destruct (startup_signals (fun h => (h =? SIGKILL) || (h =? SIGSTOP)) (fun _ => false) true DispDfl demo_signals) as (s1 & E & K).
  - intros h _. left. reflexivity.
  - exists s1. split; [exact E|]. clear E.
    assert (T : h2t_table 15 = 15) by (vm_compute; reflexivity).
    pose proof (K 15 siginfo_zero (mkInfo 15 0 0 (fun _ => 0)) ltac:(unfold valid; lia) eq_refl) as X.
    cbv zeta in X. rewrite T in X. exact X.
Defined.

