(* ===== verification/Mmap.v ===== *)
(** src/linux-user/mmap.c: mapping, protecting and unmapping guest memory. The
    calls of the host kernel are operations of the class [HostMm]; the page table
    of [PageTable] records what the guest was promised. [GUEST_BASE] and
    [RESERVED_VA] are 0 in this configuration, and [h2g_valid] is 1, so the
    functions and branches they guard are left out; mmap_lock is empty without
    CONFIG_USE_NPTL. *)

From S2P Require Import Prelude Memory Opcode Decode State TransBlock PageTable.

(** ** Constants of the host, and its kernel *)

Definition PAGE_BITS : Z := Z.lor (Z.lor PAGE_READ PAGE_WRITE) PAGE_EXEC.
Definition PROT_NONE : Z := 0.
Definition PROT_READ : Z := 1.
Definition PROT_WRITE : Z := 2.
Definition PROT_EXEC : Z := 4.
Definition MAP_SHARED : Z := 1.
Definition MAP_PRIVATE : Z := 2.
Definition MAP_TYPE : Z := 0xf.
Definition MAP_FIXED : Z := 0x10.
Definition MAP_ANONYMOUS : Z := 0x20.
Definition MAP_NORESERVE : Z := 0x4000.
Definition MREMAP_MAYMOVE : Z := 1.
Definition MREMAP_FIXED : Z := 2.
Definition EINVAL : Z := 22.
Definition ENOMEM : Z := 12.
Definition TASK_UNMAPPED_BASE : Z := 0x40000000.

(** System calls: a result and the new state of the kernel, to which [errno] is
    counted; [None] is [MAP_FAILED]. [h_fsize] is the size [fstat] reports. *)
Class HostMm := {
  host : Type;
  h_mmap : Z -> Z -> Z -> Z -> Z -> Z -> host -> option Z * host;
  h_munmap : Z -> Z -> host -> Z * host;
  h_mprotect : Z -> Z -> Z -> host -> Z * host;
  h_mremap : Z -> Z -> Z -> Z -> Z -> host -> option Z * host;
  h_msync : Z -> Z -> Z -> host -> Z * host;
  h_pread : Z -> Z -> Z -> Z -> host -> Z * host;
  h_fsize : Z -> host -> option Z;
  set_errno : Z -> host -> host }.

(** ** State *)

Section Mmap.
Context `{HostMm}.

Record mm := mkMm { pages : pagemap; kernel : host; mmap_next_start : Z }.

(** A computation that may abort. *)
Definition MM (A : Type) : Type := mm -> res (A * mm).
Definition mret {A} (a : A) : MM A := fun s => Ok (a, s).
Definition mbind {A B} (m : MM A) (k : A -> MM B) : MM B :=
  fun s => match m s with Ok (a, s) => k a s | Err e => Err e end.
Notation "'let!' x := m 'in' k" := (mbind m (fun x => k)) (at level 10, x binder, m at level 100, k at level 200).

Definition host_call {A} (f : host -> A * host) : MM A :=
  fun s => let '(a, h) := f (kernel s) in Ok (a, mkMm (pages s) h (mmap_next_start s)).
Definition mm_set_flags (start end_ flags : Z) : MM unit :=
  fun s => match page_set_flags start end_ flags (pages s) with
           | Ok m => Ok (tt, mkMm m (kernel s) (mmap_next_start s))
           | Err e => Err e
           end.
Definition mm_get_flags (addr : Z) : MM Z := fun s => Ok (page_get_flags addr (pages s), s).

Variables qemu_host_page_size qemu_real_host_page_size mmap_min_addr : Z.
Definition qemu_host_page_mask : Z := u32 (Z.lnot (qemu_host_page_size - 1)).
Definition HOST_PAGE_ALIGN (addr : Z) : Z := Z.land (u32 (addr + qemu_host_page_size - 1)) qemu_host_page_mask.

(** [for (addr = a; addr < end; addr += step) acc |= page_get_flags(addr);] *)
Fixpoint or_flags (fuel : nat) (m : pagemap) (step addr end_ acc : Z) : res Z :=
  if addr <? end_ then
    match fuel with
    | O => Err Fuel
    | S fuel => or_flags fuel m step (u32 (addr + step)) end_ (Z.lor acc (page_get_flags addr m))
    end
  else Ok acc.

Definition pages_fuel : nat := S (Z.to_nat (qemu_host_page_size / TARGET_PAGE_SIZE)).
Definition or_pages (addr end_ acc : Z) : MM Z :=
  fun s => match or_flags pages_fuel (pages s) TARGET_PAGE_SIZE addr end_ acc with Ok a => Ok (a, s) | Err e => Err e end.

(** [m1], and [k] when it returned 0. *)
Definition unless_error (m : MM Z) (k : MM Z) : MM Z :=
  let! r := m in if r =? 0 then k else mret r.

(** The pages in the middle, and the flags. *)
Definition mprotect_middle (start len prot host_start host_end : Z) : MM Z :=
  unless_error (if host_start <? host_end then host_call (h_mprotect host_start (u32 (host_end - host_start)) prot) else mret 0)
    (let! _ := mm_set_flags start (u32 (start + len)) (Z.lor prot PAGE_VALID) in mret 0).

(** The host page containing [end]. *)
Definition mprotect_tail (start len prot host_start end_ host_end : Z) : MM Z :=
  if end_ <? host_end then
    let! prot1 := or_pages end_ host_end prot in
    unless_error (host_call (h_mprotect (u32 (host_end - qemu_host_page_size)) qemu_host_page_size (Z.land prot1 PAGE_BITS)))
      (mprotect_middle start len prot host_start (u32 (host_end - qemu_host_page_size)))
  else mprotect_middle start len prot host_start host_end.

Definition target_mprotect (start len prot : Z) : MM Z :=
  if negb (Z.land start (u32 (Z.lnot TARGET_PAGE_MASK)) =? 0) then mret (- EINVAL)
  else
    let len := TARGET_PAGE_ALIGN len in
    let end_ := u32 (start + len) in
    if end_ <? start then mret (- EINVAL)
    else
      let prot := Z.land prot (Z.lor (Z.lor PROT_READ PROT_WRITE) PROT_EXEC) in
      if len =? 0 then mret 0
      else
        let host_start := Z.land start qemu_host_page_mask in
        let host_end := HOST_PAGE_ALIGN end_ in
        if host_start <? start then
          let! prot1 := or_pages host_start start prot in
          let! r :=
            (if host_end =? u32 (host_start + qemu_host_page_size) then
               let! prot1 := or_pages end_ host_end prot1 in mret (prot1, host_end)
             else mret (prot1, end_)) in
          let '(prot1, end_) := r in
          unless_error (host_call (h_mprotect host_start qemu_host_page_size (Z.land prot1 PAGE_BITS)))
            (mprotect_tail start len prot (u32 (host_start + qemu_host_page_size)) end_ host_end)
        else mprotect_tail start len prot host_start end_ host_end.

(** The flags of the pages of the host page [real_start] outside [start, end_),
    looked up byte by byte. *)
Fixpoint or_outside (fuel : nat) (m : pagemap) (addr real_end start end_ acc : Z) : res Z :=
  if addr <? real_end then
    match fuel with
    | O => Err Fuel
    | S fuel =>
        or_outside fuel m (u32 (addr + 1)) real_end start end_
          (if (addr <? start) || (end_ <=? addr) then Z.lor acc (page_get_flags addr m) else acc)
    end
  else Ok acc.

Definition mmap_frag (real_start start end_ prot flags fd offset : Z) : MM Z :=
  let real_end := u32 (real_start + qemu_host_page_size) in
  let! prot1 := (fun s => match or_outside (S (Z.to_nat qemu_host_page_size)) (pages s) real_start real_end start end_ 0 with
                          | Ok a => Ok (a, s) | Err e => Err e end) in
  let! prot1 :=
    (if prot1 =? 0 then
       let! p := host_call (h_mmap real_start qemu_host_page_size prot (Z.lor flags MAP_ANONYMOUS) (-1) 0) in
       mret (match p with None => None | Some _ => Some prot end)
     else mret (Some prot1)) in
  match prot1 with
  | None => mret (-1)
  | Some prot1 =>
      let prot1 := Z.land prot1 PAGE_BITS in
      let prot_new := Z.lor prot prot1 in
      if negb (hasb flags MAP_ANONYMOUS) then
        if (Z.land flags MAP_TYPE =? MAP_SHARED) && hasb prot PROT_WRITE then mret (-1)
        else
          let! _ := (if negb (hasb prot1 PROT_WRITE)
                     then host_call (h_mprotect real_start qemu_host_page_size (Z.lor prot1 PROT_WRITE)) else mret 0) in
          let! n := host_call (h_pread fd start (u32 (end_ - start)) offset) in
          if n =? -1 then mret (-1)
          else
            let! _ := (if negb (prot_new =? Z.lor prot1 PROT_WRITE)
                       then host_call (h_mprotect real_start qemu_host_page_size prot_new) else mret 0) in
            mret 0
      else
        let! _ := (if negb (prot_new =? prot1) then host_call (h_mprotect real_start qemu_host_page_size prot_new) else mret 0) in
        mret 0
  end.

Definition NO_VMA : Z := 0xffffffff.

(** The search: [prev] is the address the kernel gave before; [fuel] bounds the
    attempts. *)
Fixpoint find_vma_loop (fuel : nat) (start size addr : Z) (wrapped : bool) (repeat_ : Z) (prev : Z) : MM Z :=
  match fuel with
  | O => fun _ => Err Fuel
  | S fuel =>
      let! p := host_call (h_mmap addr size PROT_NONE (Z.lor (Z.lor MAP_ANONYMOUS MAP_PRIVATE) MAP_NORESERVE) (-1) 0) in
      match p with
      | None => mret NO_VMA
      | Some ptr =>
          let repeat_ := if ptr =? prev then repeat_ + 1 else 0 in
          let addr := ptr in
          if Z.land addr (u32 (Z.lnot TARGET_PAGE_MASK)) =? 0 then
            fun s => Ok (addr, if (start =? mmap_next_start s) && (TASK_UNMAPPED_BASE <=? addr)
                               then mkMm (pages s) (kernel s) (u32 (addr + size)) else s)
          else
            let addr := if repeat_ =? 0 then TARGET_PAGE_ALIGN addr
                        else if repeat_ =? 1 then Z.land addr TARGET_PAGE_MASK
                        else if repeat_ =? 2 then 0 else NO_VMA in
            let! _ := host_call (h_munmap ptr size) in
            if addr =? NO_VMA then mret NO_VMA
            else if addr =? 0 then
              if wrapped then mret NO_VMA
              else find_vma_loop fuel start size
                     (if TARGET_PAGE_SIZE <? mmap_min_addr then TARGET_PAGE_ALIGN mmap_min_addr else TARGET_PAGE_SIZE)
                     true repeat_ ptr
            else if wrapped && (start <=? addr) then mret NO_VMA
            else find_vma_loop fuel start size addr wrapped repeat_ ptr
      end
  end.

(** Bounds the attempts. *)
Variable vfuel : nat.

Definition mmap_find_vma (start size : Z) : MM Z :=
  fun s =>
    let start := if start =? 0 then mmap_next_start s else Z.land start qemu_host_page_mask in
    let size := HOST_PAGE_ALIGN size in
    find_vma_loop vfuel start size start false 0 0 s.

(** *** target_mmap *)

(** The results are words: a failure is [(abi_ulong)-1]. *)
Definition MM_FAILED : Z := 0xffffffff.

(** [errno = e; goto fail;] *)
Definition fail_errno (e : Z) : MM Z :=
  let! _ := host_call (fun h => (tt, set_errno e h)) in mret MM_FAILED.

(** The label [the_end1]. *)
Definition mmap_done (start len prot : Z) : MM Z :=
  let! _ := mm_set_flags start (u32 (start + len)) (Z.lor prot PAGE_VALID) in mret start.

(** A file map beyond the end of the file; [None] when [fstat] fails. *)
Definition truncate_len (len flags fd offset : Z) : MM (option Z) :=
  if (qemu_real_host_page_size <? TARGET_PAGE_SIZE) && negb (hasb flags MAP_ANONYMOUS) then
    fun s =>
      match h_fsize fd (kernel s) with
      | None => Ok (None, s)
      | Some st_size =>
          Ok (Some (if st_size <? u32 (offset + len) then
                      let len := u32 (u32 (st_size - offset) + qemu_real_host_page_size - 1) in
                      Z.land len (u32 (Z.lnot (qemu_real_host_page_size - 1)))
                    else len), s)
      end
  else mret (Some len).

Definition mmap_anywhere (real_start len prot flags fd offset : Z) : MM Z :=
  let host_offset := Z.land offset qemu_host_page_mask in
  let host_len := HOST_PAGE_ALIGN (u32 (len + offset - host_offset)) in
  let! mmap_start := mmap_find_vma real_start host_len in
  if mmap_start =? NO_VMA then fail_errno ENOMEM
  else
    let! p := host_call (h_mmap mmap_start host_len prot (Z.lor (Z.lor flags MAP_FIXED) MAP_ANONYMOUS) (-1) 0) in
    match p with
    | None => mret MM_FAILED
    | Some host_start =>
        if negb (hasb flags MAP_ANONYMOUS) then
          let! _ := host_call (h_mmap mmap_start len prot (Z.lor flags MAP_FIXED) fd host_offset) in
          mmap_done (u32 (host_start + offset - host_offset)) len prot
        else mmap_done host_start len prot
    end.

(** The file cannot be mapped at this offset, so it is read; [again] is
    [target_mmap]. *)
Definition mmap_read (again : Z -> Z -> Z -> Z -> Z -> Z -> MM Z) (start len prot flags fd offset : Z) : MM Z :=
  if (Z.land flags MAP_TYPE =? MAP_SHARED) && hasb prot PROT_WRITE then fail_errno EINVAL
  else
    let! retaddr := again start len (Z.lor prot PROT_WRITE) (Z.lor (Z.lor MAP_FIXED MAP_PRIVATE) MAP_ANONYMOUS) (-1) 0 in
    if retaddr =? MM_FAILED then mret MM_FAILED
    else
      let! n := host_call (h_pread fd start len offset) in
      if n =? -1 then mret MM_FAILED
      else if negb (hasb prot PROT_WRITE) then
        let! ret := target_mprotect start len prot in
        mret (if negb (ret =? 0) then u32 ret else start)
      else mret start.

Definition mmap_pieces (real_start start len prot flags fd offset : Z) : MM Z :=
  let end_ := u32 (start + len) in
  let real_end := HOST_PAGE_ALIGN end_ in
  let middle real_start real_end :=
    if real_start <? real_end then
      let offset1 := if hasb flags MAP_ANONYMOUS then 0 else u32 (offset + real_start - start) in
      let! p := host_call (h_mmap real_start (u32 (real_end - real_start)) prot flags fd offset1) in
      match p with None => mret MM_FAILED | Some _ => mmap_done start len prot end
    else mmap_done start len prot in
  let tail real_start :=
    if end_ <? real_end then
      let last := u32 (real_end - qemu_host_page_size) in
      let! ret := mmap_frag last last real_end prot flags fd (u32 (offset + real_end - qemu_host_page_size - start)) in
      if ret =? -1 then mret MM_FAILED else middle real_start last
    else middle real_start real_end in
  if real_start <? start then
    if real_end =? u32 (real_start + qemu_host_page_size) then
      let! ret := mmap_frag real_start start end_ prot flags fd offset in
      if ret =? -1 then mret MM_FAILED else mmap_done start len prot
    else
      let! ret := mmap_frag real_start start (u32 (real_start + qemu_host_page_size)) prot flags fd offset in
      if ret =? -1 then mret MM_FAILED else tail (u32 (real_start + qemu_host_page_size))
  else tail real_start.

Definition mmap_fixed (again : Z -> Z -> Z -> Z -> Z -> Z -> MM Z) (real_start start len prot flags fd offset : Z) : MM Z :=
  if negb (Z.land start (u32 (Z.lnot TARGET_PAGE_MASK)) =? 0) then fail_errno EINVAL
  else if 0xffffffff <? u32 (start + len - 1) then fail_errno EINVAL
  else if negb (hasb flags MAP_ANONYMOUS) &&
          negb (Z.land offset (u32 (Z.lnot qemu_host_page_mask)) =? Z.land start (u32 (Z.lnot qemu_host_page_mask)))
  then mmap_read again start len prot flags fd offset
  else mmap_pieces real_start start len prot flags fd offset.

(** [depth] bounds the recursion: an anonymous mapping makes no further call. *)
Fixpoint target_mmap_rec (depth : nat) (start len prot flags fd offset : Z) : MM Z :=
  match depth with
  | O => fun _ => Err Fuel
  | S depth =>
      if negb (Z.land offset (u32 (Z.lnot TARGET_PAGE_MASK)) =? 0) then fail_errno EINVAL
      else
        let len := TARGET_PAGE_ALIGN len in
        if len =? 0 then mret start
        else
          let real_start := Z.land start qemu_host_page_mask in
          let! len := truncate_len len flags fd offset in
          match len with
          | None => mret MM_FAILED
          | Some len =>
              if negb (hasb flags MAP_FIXED) then mmap_anywhere real_start len prot flags fd offset
              else mmap_fixed (target_mmap_rec depth) real_start start len prot flags fd offset
          end
  end.
Definition target_mmap : Z -> Z -> Z -> Z -> Z -> Z -> MM Z := target_mmap_rec 2.

(** *** target_munmap and target_mremap *)

(** The common start of [mmap_reserve] and [target_munmap]: the host pages of the
    range without the first and the last when other target pages use them. *)
Definition trim (start end_ : Z) : MM (Z * Z) :=
  let real_start := Z.land start qemu_host_page_mask in
  let real_end := HOST_PAGE_ALIGN end_ in
  let! r :=
    (if real_start <? start then
       let! prot := or_pages real_start start 0 in
       let! r :=
         (if real_end =? u32 (real_start + qemu_host_page_size) then
            let! prot := or_pages end_ real_end prot in mret (prot, real_end)
          else mret (prot, end_)) in
       let '(prot, end_) := r in
       mret (if negb (prot =? 0) then u32 (real_start + qemu_host_page_size) else real_start, end_)
     else mret (real_start, end_)) in
  let '(real_start, end_) := r in
  if end_ <? real_end then
    let! prot := or_pages end_ real_end 0 in
    mret (real_start, if negb (prot =? 0) then u32 (real_end - qemu_host_page_size) else real_end)
  else mret (real_start, real_end).

Definition mmap_reserve (start size : Z) : MM unit :=
  let! r := trim start (u32 (start + size)) in
  let '(real_start, real_end) := r in
  if negb (real_start =? real_end) then
    let! _ := host_call (h_mmap real_start (u32 (real_end - real_start)) PROT_NONE
                     (Z.lor (Z.lor (Z.lor MAP_FIXED MAP_ANONYMOUS) MAP_PRIVATE) MAP_NORESERVE) (-1) 0) in
    mret tt
  else mret tt.

Definition target_munmap (start len : Z) : MM Z :=
  if negb (Z.land start (u32 (Z.lnot TARGET_PAGE_MASK)) =? 0) then mret (- EINVAL)
  else
    let len := TARGET_PAGE_ALIGN len in
    if len =? 0 then mret (- EINVAL)
    else
      let! r := trim start (u32 (start + len)) in
      let '(real_start, real_end) := r in
      let! ret := (if real_start <? real_end then host_call (h_munmap real_start (u32 (real_end - real_start))) else mret 0) in
      let! _ := (if ret =? 0 then mm_set_flags start (u32 (start + len)) 0 else mret tt) in
      mret ret.

(** The branches of [target_mremap], to [host_addr]. *)
Definition mremap_host (old_addr old_size new_size flags new_addr : Z) : MM (option Z) :=
  if hasb flags MREMAP_FIXED then host_call (h_mremap old_addr old_size new_size flags new_addr)
  else if hasb flags MREMAP_MAYMOVE then
    let! mmap_start := mmap_find_vma 0 new_size in
    if mmap_start =? NO_VMA then host_call (fun h => (None, set_errno ENOMEM h))
    else
      let! host_addr := host_call (h_mremap old_addr old_size new_size (Z.lor flags MREMAP_FIXED) mmap_start) in
      let! _ := mmap_reserve old_addr old_size in
      mret host_addr
  else
    let! host_addr := host_call (h_mremap old_addr old_size new_size flags 0) in
    if 0xffffffff <? u32 (default MM_FAILED host_addr + new_size) then
      let! _ := host_call (h_mremap old_addr new_size old_size flags 0) in
      host_call (fun h => (None, set_errno ENOMEM h))
    else mret host_addr.

Definition target_mremap (old_addr old_size new_size flags new_addr : Z) : MM Z :=
  let! host_addr := mremap_host old_addr old_size new_size flags new_addr in
  match host_addr with
  | None => mret MM_FAILED
  | Some new_addr =>
      let! prot := mm_get_flags old_addr in
      let! _ := mm_set_flags old_addr (u32 (old_addr + old_size)) 0 in
      let! _ := mm_set_flags new_addr (u32 (new_addr + new_size)) (Z.lor prot PAGE_VALID) in
      mret new_addr
  end.

Definition target_msync (start len flags : Z) : MM Z :=
  if negb (Z.land start (u32 (Z.lnot TARGET_PAGE_MASK)) =? 0) then mret (- EINVAL)
  else
    let len := TARGET_PAGE_ALIGN len in
    let end_ := u32 (start + len) in
    if end_ <? start then mret (- EINVAL)
    else if end_ =? start then mret 0
    else
      let start := Z.land start qemu_host_page_mask in
      host_call (h_msync start (u32 (end_ - start)) flags).
End Mmap.

Notation "'let!' x := m 'in' k" := (mbind m (fun x => k))
  (at level 10, x binder, m at level 100, k at level 200) : unitrans_scope.
