(* ===== verification/MmapThm.v ===== *)
(** Theorems on src/linux-user/mmap.c: [target_mprotect], [target_munmap],
    [target_mmap] and [target_mremap] against two maps of pages, the flags the
    page table records for the guest and the protection the host has in force.
    The laws of the host's calls are the class [HostLaws]. *)

From S2P Require Import Prelude Memory Opcode Decode State TransBlock PageTable Mmap.

(** ** The host *)

(** [hprot h j] is the protection of page [j], [None] where nothing is mapped.
    Successful calls change it as the manual pages say; of failed ones nothing
    is asked. A free area the kernel picks is page aligned, below the top of the
    address space, and was not mapped. *)
Class HostLaws `{HostMm} := {
  hprot : host -> Z -> option Z;
  hprot_mprotect a n p prot h h' : 0 < n -> h_mprotect (4096 * a) (4096 * n) prot h = (p, h') -> p = 0 ->
    forall j, hprot h' j = if in_pages a n j then Some prot else hprot h j;
  hprot_munmap a n p h h' : 0 < n -> h_munmap (4096 * a) (4096 * n) h = (p, h') -> p = 0 ->
    forall j, hprot h' j = if in_pages a n j then None else hprot h j;
  hprot_mmap_fixed a n prot flags fd off q h h' : 0 < n -> hasb flags MAP_FIXED = true ->
    h_mmap (4096 * a) (4096 * n) prot flags fd off h = (Some q, h') ->
    q = 4096 * a /\ forall j, hprot h' j = if in_pages a n j then Some prot else hprot h j;
  hprot_mmap_free addr n prot flags fd off q h h' : 0 < n -> hasb flags MAP_FIXED = false ->
    h_mmap addr (4096 * n) prot flags fd off h = (Some q, h') ->
    exists a, q = 4096 * a /\ 0 <= a /\ a + n < 1048576 /\
      forall j, hprot h' j = if in_pages a n j then Some prot else hprot h j;
  hprot_mmap_unused addr n prot flags fd off q h h' j : 0 < n -> hasb flags MAP_FIXED = false ->
    h_mmap addr (4096 * n) prot flags fd off h = (Some q, h') -> in_pages (q / 4096) n j = true -> hprot h j = None;
  hprot_mremap old osz nsz flags addr q h h' : h_mremap old osz nsz flags addr h = (Some q, h') ->
    exists a, q = 4096 * a /\ 0 <= a /\ 0 < nsz /\ q + nsz < 4294967296;
  hprot_errno e h : hprot (set_errno e h) = hprot h }.

(** ** Words and pages *)

Lemma page_offset x : 0 <= x -> Z.land x (u32 (Z.lnot TARGET_PAGE_MASK)) = x mod 4096.
Proof. intros X. change (u32 (Z.lnot TARGET_PAGE_MASK)) with (Z.ones 12). now rewrite Z.land_ones. Qed.

Lemma page_align n : 0 <= n < 1048576 -> TARGET_PAGE_ALIGN (4096 * n) = 4096 * n.
Proof. intros N. rewrite page_ceil by lia. replace ((4096 * n + 4095) / 4096) with n by (Z.div_mod_to_equations; lia). apply u32_small. lia. Qed.

(** The pages whose number determines a word. *)
Lemma page_number x : x mod 4096 = 0 -> x = 4096 * (x / 4096).
Proof. intros M. pose proof (Z.div_mod x 4096). lia. Qed.

(** The pages of a length rounded up, which wraps to none at the top. *)
Definition page_count (len : Z) : Z := TARGET_PAGE_ALIGN len / 4096.

Lemma align_count len : 0 <= len < 4294967296 -> TARGET_PAGE_ALIGN len = 4096 * page_count len /\ 0 <= page_count len < 1048576.
Proof. intros R. unfold page_count. rewrite page_ceil by done. unfold u32. Z.div_mod_to_equations. lia. Qed.

(** ** Unions of flags *)

Definition flags_union (m : pagemap) (p n : Z) : Z := foldr (fun j acc => Z.lor (flags_of m j) acc) 0 (seqZ p n).

Lemma union_nil m p n : n <= 0 -> flags_union m p n = 0.
Proof. intros N. unfold flags_union, seqZ. now replace (Z.to_nat n) with 0%nat by lia. Qed.

Lemma union_cons m p n : 0 < n -> flags_union m p n = Z.lor (flags_of m p) (flags_union m (p + 1) (n - 1)).
Proof. intros N. unfold flags_union. rewrite seqZ_cons by lia. cbn [foldr]. now rewrite <- Z.sub_1_r, <- Z.add_1_r. Qed.

(** By induction on the number of pages. *)
Lemma pages_ind (P : Z -> Z -> Prop) : (forall p n, n <= 0 -> P p n) -> (forall p n, 0 < n -> P (p + 1) (n - 1) -> P p n) -> forall n p, P p n.
Proof.
  intros B S n p. destruct (Z.le_gt_cases n 0) as [L|L]; [now apply B|]. revert p.
  assert (G : 0 <= n) by lia. revert L. pattern n. apply natlike_ind; [lia| |exact G]. intros x X IH _ p.
  apply S; [lia|]. replace (Z.succ x - 1) with x by lia. destruct (Z.le_gt_cases x 0); [now apply B|now apply IH].
Qed.

(** Induction on the [n] pages from [p]. *)
Ltac pages_induction p n := pattern p, n; apply pages_ind; clear p n.

Lemma union_app m k p : forall n, 0 <= k <= n -> flags_union m p n = Z.lor (flags_union m p k) (flags_union m (p + k) (n - k)).
Proof.
  pages_induction p k.
  - intros p k K n R. rewrite (union_nil _ _ k) by lia. replace k with 0 by lia. now rewrite Z.add_0_r, Z.sub_0_r.
  - intros p k K IH n R. rewrite union_cons, (union_cons _ _ k), (IH (n - 1)) by lia.
    rewrite Z.lor_assoc. do 2 f_equal; lia.
Qed.

Lemma union_ext m m' n p : (forall j, p <= j < p + n -> flags_of m' j = flags_of m j) -> flags_union m' p n = flags_union m p n.
Proof.
  pages_induction p n.
  - intros p n N _. now rewrite !union_nil.
  - intros p n N IH E. rewrite union_cons, (union_cons m), IH, E by (lia || (intros j J; apply E; lia)). done.
Qed.

Lemma union_const m f n p : (forall j, p <= j < p + n -> flags_of m j = f) -> flags_union m p n = if 0 <? n then f else 0.
Proof.
  pages_induction p n.
  - intros p n N _. rewrite union_nil by done. now destruct (Z.ltb_spec 0 n); [lia|].
  - intros p n N IH E. rewrite union_cons, IH, E by (lia || (intros j J; apply E; lia)).
    destruct (Z.ltb_spec 0 n), (Z.ltb_spec 0 (n - 1)); try lia; [apply Z.lor_diag|apply Z.lor_0_r].
Qed.

(** The flags of [c] pages from [p] after those of [lo, hi) became [f]. *)
Lemma union_set m m' f p c lo hi : p <= lo -> lo <= hi -> hi <= p + c ->
  (forall j, p <= j < p + c -> flags_of m' j = if (lo <=? j) && (j <? hi) then f else flags_of m j) ->
  flags_union m' p c = Z.lor (flags_union m p (lo - p)) (Z.lor (if lo <? hi then f else 0) (flags_union m hi (p + c - hi))).
Proof.
  intros L M R E. rewrite (union_app m' (lo - p) p), (union_app m' (hi - lo) (p + (lo - p))) by lia.
  f_equal; [|f_equal].
  - apply union_ext. intros j J. rewrite E by lia. destruct (Z.leb_spec lo j); [lia|done].
  - rewrite (union_const _ f); [destruct (Z.ltb_spec lo hi), (Z.ltb_spec 0 (hi - lo)); lia || done|].
    intros j J. rewrite E by lia. destruct (Z.leb_spec lo j), (Z.ltb_spec j hi); done || lia.
  - replace (p + (lo - p) + (hi - lo)) with hi by lia. replace (c - (lo - p) - (hi - lo)) with (p + c - hi) by lia.
    apply union_ext. intros j J. rewrite E by lia. destruct (Z.ltb_spec j hi); [lia|]. now rewrite andb_false_r.
Qed.

Lemma lor_zero x y : Z.lor x y = 0 <-> x = 0 /\ y = 0.
Proof. apply Z.lor_eq_0_iff. Qed.

(** ** Arithmetic of host pages *)

Lemma land_page_mask k x : 0 <= k -> 0 <= x < 4294967296 -> Z.land x (u32 (Z.lnot (2 ^ k - 1))) = 2 ^ k * (x / 2 ^ k).
Proof.
  intros K X. unfold u32. change 4294967296 with (2 ^ 32) in *. rewrite <- Z.land_ones by lia.
  rewrite (Z.land_comm (Z.lnot _)), Z.land_assoc, Z.land_ones, Z.mod_small by lia.
  replace (2 ^ k - 1) with (Z.ones k) by (rewrite Z.ones_equiv; lia).
  rewrite <- Z.ldiff_land, Z.ldiff_ones_r by lia. rewrite Z.shiftl_mul_pow2, Z.shiftr_div_pow2 by lia. lia.
Qed.

(** ** Running the monad *)

(** The computation returns, and [Q] holds of its result and the state after. *)
Definition runs {H : HostMm} {A} (m : MM A) (s : mm) (Q : A -> mm -> Prop) : Prop := exists a s', m s = Ok (a, s') /\ Q a s'.

Definition with_kernel {H : HostMm} (s : mm) (h : host) : mm := mkMm (pages s) h (mmap_next_start s).
Definition with_pages {H : HostMm} (s : mm) (m : pagemap) : mm := mkMm m (kernel s) (mmap_next_start s).

Section Runs.
Context {H : HostMm} {A B : Type}.

Lemma mm_ret (a : A) s (Q : A -> mm -> Prop) : Q a s -> runs (mret a) s Q.
Proof. intros K. now exists a, s. Qed.

Lemma mm_bind (m : MM A) (k : A -> MM B) s Q : runs m s (fun a s' => runs (k a) s' Q) -> runs (mbind m k) s Q.
Proof. intros (a & s1 & E & b & s2 & K & F). exists b, s2. unfold mbind. now rewrite E. Qed.

Lemma mm_call (f : host -> A * host) s (Q : A -> mm -> Prop) :
  (forall a h, f (kernel s) = (a, h) -> Q a (with_kernel s h)) -> runs (host_call f) s Q.
Proof. intros K. unfold runs, host_call. destruct (f (kernel s)) as [a h]. eexists _, _. split; [done|now apply K]. Qed.
End Runs.

Section Errors.
Context {H : HostMm}.

Lemma mbind_ok {A B} (m : MM A) (k : A -> MM B) s a s' : m s = Ok (a, s') -> mbind m k s = k a s'.
Proof. intros E. unfold mbind. now rewrite E. Qed.
Lemma mbind_err {A B} (m : MM A) (k : A -> MM B) s e : m s = Err e -> mbind m k s = Err e.
Proof. intros E. unfold mbind. now rewrite E. Qed.
Lemma set_flags_res a b f s : mm_set_flags a b f s = match page_set_flags a b f (pages s) with Ok m => Ok (tt, with_pages s m) | Err e => Err e end.
Proof. done. Qed.
Lemma mm_unless m k s Q : runs m s (fun r s' => if r =? 0 then runs k s' Q else Q r s') -> runs (unless_error m k) s Q.
Proof.
  intros K. apply mm_bind. destruct K as (r & s1 & E & F). exists r, s1. split; [done|].
  destruct (r =? 0); [done|now apply mm_ret].
Qed.
End Errors.

(** ** Setting flags *)

(** The flags the page table stores: a writable page stays so on record. *)
Definition stored (flags : Z) : Z := if hasb flags PAGE_WRITE then Z.lor flags PAGE_WRITE_ORG else flags.

Definition flags_set (a n f : Z) (m m' : pagemap) : Prop :=
  no_tb m' /\ forall j, 0 <= j < 1048576 -> flags_of m' j = if in_pages a n j then stored f else flags_of m j.

Lemma page_range_flags a n f m : 0 <= a -> 0 < n -> a + n < 1048576 -> no_tb m ->
  exists m', page_set_flags (4096 * a) (4096 * (a + n)) f m = Ok m' /\ flags_set a n f m m'.
Proof.
  intros A N B T. pose proof (page_set_flags_run (4096 * a) (4096 * (a + n)) f m ltac:(lia) ltac:(lia) T) as K.
  destruct (page_set_flags _ _ _ m) as [m'|e]; [|lia]. destruct K as (_ & T' & K). exists m'. split; [done|]. split; [done|].
  assert (F : first_page (4096 * a) = a /\ last_page (4096 * (a + n)) = a + n)
    by (unfold first_page, last_page; Z.div_mod_to_equations; lia). destruct F as [F L].
  intros j J. specialize (K (4096 * j) ltac:(lia)). rewrite F, L in K.
  rewrite !get_flags_of, (Z.mul_comm 4096), Z.div_mul in K by lia. rewrite K. unfold whole, in_pages.
  rewrite (proj2 (Z.eqb_neq (a + n) 1048576)) by lia. now rewrite andb_false_r.
Qed.

Lemma page_range_empty a b f m : 0 <= a < 1048576 -> 0 <= b <= a -> page_set_flags (4096 * a) (4096 * b) f m = Err Abort.
Proof. intros A B. unfold page_set_flags. rewrite (proj2 (Z.ltb_ge (4096 * a) (4096 * b))) by lia. done. Qed.

Lemma runs_set_flags {H : HostMm} a n f s (Q : unit -> mm -> Prop) : 0 <= a -> 0 < n -> a + n < 1048576 -> no_tb (pages s) ->
  (forall m', flags_set a n f (pages s) m' -> Q tt (with_pages s m')) ->
  runs (mm_set_flags (4096 * a) (4096 * (a + n)) f) s Q.
Proof.
  intros A N B T K. destruct (page_range_flags a n f (pages s)) as (m' & E & F); [done..|].
  exists tt, (with_pages s m'). unfold mm_set_flags. rewrite E. split; [done|now apply K].
Qed.

(** ** Host pages *)

Section HostPages.
Context {H : HostMm} {L : HostLaws}.

(** [qemu_host_page_size] is a power of two not below the target's page size. *)
Variables (hp hbits K : Z).
Hypothesis hp_pow : hp = 2 ^ hbits.
Hypothesis hp_bits : 12 <= hbits < 32.
(** [K] target pages make a host page. *)
Hypothesis hp_K : hp = 4096 * K.

Lemma hp_pages : hp = 4096 * K /\ 0 < K <= 1048576 /\ hp <= 4294967296.
Proof.
  assert (2 ^ 12 <= 2 ^ hbits) by (apply Z.pow_le_mono_r; lia).
  assert (2 ^ hbits <= 2 ^ 32) by (apply Z.pow_le_mono_r; lia).
  change (2 ^ 32) with 4294967296 in *. change (2 ^ 12) with 4096 in *. lia.
Qed.

Lemma host_floor a : 0 <= a < 1048576 -> Z.land (4096 * a) (qemu_host_page_mask hp) = 4096 * (K * (a / K)).
Proof.
  intros A. pose proof hp_pages as (E & P & _). unfold qemu_host_page_mask. rewrite hp_pow.
  rewrite land_page_mask by lia. rewrite <- hp_pow, E. rewrite Z.div_mul_cancel_l by lia. lia.
Qed.

Lemma host_ceil b : 0 <= b -> b + K <= 1048576 -> HOST_PAGE_ALIGN hp (4096 * b) = 4096 * (K * ((b + K - 1) / K)).
Proof.
  intros B C. pose proof hp_pages as (E & P & _). unfold HOST_PAGE_ALIGN. unfold qemu_host_page_mask.
  rewrite u32_small by lia. rewrite hp_pow at 2. rewrite land_page_mask by lia. rewrite <- hp_pow, E. rewrite <- Z.div_div by lia.
  replace ((4096 * b + 4096 * K - 1) / 4096) with (b + K - 1) by (Z.div_mod_to_equations; lia). lia.
Qed.

Lemma or_flags_run m fuel : forall p q acc, 0 <= p -> q < 1048576 -> q - p <= Z.of_nat fuel ->
  or_flags fuel m TARGET_PAGE_SIZE (4096 * p) (4096 * q) acc = Ok (Z.lor acc (flags_union m p (q - p))).
Proof.
  change TARGET_PAGE_SIZE with 4096. induction fuel as [|fuel IH]; intros p q acc P Q F; cbn [or_flags];
    destruct (Z.ltb_spec (4096 * p) (4096 * q)) as [C|C]; try lia.
  1,3: rewrite union_nil, Z.lor_0_r by lia; done.
  rewrite u32_small by lia. replace (4096 * p + 4096) with (4096 * (p + 1)) by lia. rewrite IH by lia.
  rewrite get_flags_of by lia. rewrite (Z.mul_comm 4096 p), Z.div_mul by lia.
  rewrite (union_cons m p) by lia. rewrite Z.lor_assoc. do 3 f_equal; lia.
Qed.

Lemma runs_or_pages p q acc s (Q : Z -> mm -> Prop) : 0 <= p -> q < 1048576 -> q - p <= K ->
  Q (Z.lor acc (flags_union (pages s) p (q - p))) s -> runs (or_pages hp (4096 * p) (4096 * q) acc) s Q.
Proof.
  intros P B C D. pose proof hp_pages as (E & _). eexists _, s. unfold or_pages, pages_fuel.
  rewrite or_flags_run; [done|done|done|].
  change TARGET_PAGE_SIZE with 4096. rewrite E, (Z.mul_comm 4096), Z.div_mul by lia. lia.
Qed.

(** Pages by their host page. *)
Lemma in_host_pages A c j : in_pages (K * A) (K * c) j = (A <=? j / K) && (j / K <? A + c).
Proof.
  pose proof hp_pages as (_ & P & _). unfold in_pages. rewrite <- Z.mul_add_distr_l. f_equal.
  - destruct (Z.leb_spec (K * A) j) as [C|C], (Z.leb_spec A (j / K)) as [D|D]; try done.
    + apply Z.div_le_lower_bound in C; lia.
    + apply (Z.mul_le_mono_nonneg_l _ _ K) in D; [|lia]. pose proof (Z.mul_div_le j K). lia.
  - destruct (Z.ltb_spec j (K * (A + c))) as [C|C], (Z.ltb_spec (j / K) (A + c)) as [D|D]; try done.
    + apply Z.div_lt_upper_bound in C; lia.
    + apply Z.div_le_lower_bound in C; lia.
Qed.

Definition host_page_flags (m : pagemap) (g : Z) : Z := flags_union m (K * g) K.

(** The host pages that meet the pages [a, b). *)
Definition lo_host (a : Z) : Z := a / K.
Definition hi_host (b : Z) : Z := (b + K - 1) / K.

Lemma host_range a b : a < b -> let A := lo_host a in let B := hi_host b in
  K * A <= a < K * A + K /\ K * B - K < b <= K * B /\ A < B.
Proof.
  intros Lt. cbv zeta. unfold lo_host, hi_host. pose proof hp_pages as (_ & P & _).
  pose proof (Z.div_mod a K). pose proof (Z.mod_pos_bound a K). pose proof (Z.div_mod (b + K - 1) K).
  pose proof (Z.mod_pos_bound (b + K - 1) K). split; [lia|]. split; [lia|].
  apply (Z.mul_lt_mono_pos_l K); lia.
Qed.

(** The flags of a host page after those of [a, b) became [f]. *)
Lemma host_page_flags_set m m' a b f g : 0 <= a -> a < b -> b <= 1048576 - K -> lo_host a <= g < hi_host b ->
  (forall j, 0 <= j < 1048576 -> flags_of m' j = if in_pages a (b - a) j then f else flags_of m j) ->
  host_page_flags m' g = Z.lor (flags_union m (K * g) (Z.max a (K * g) - K * g))
    (Z.lor f (flags_union m (Z.min b (K * g + K)) (K * g + K - Z.min b (K * g + K)))).
Proof.
  intros A0 Lt Bt G E. destruct (host_range a b Lt) as (RA & RB & _). unfold host_page_flags.
  pose proof hp_pages as (_ & P & _).
  assert (R : K * lo_host a <= K * g <= K * hi_host b - K) by (split; [apply Z.mul_le_mono_nonneg_l; lia|]; rewrite <- (Z.mul_1_r K) at 3; rewrite <- Z.mul_sub_distr_l; apply Z.mul_le_mono_nonneg_l; lia).
  assert (0 <= K * g) by (apply Z.mul_nonneg_nonneg; [lia|]; pose proof (Z.div_pos a K A0 ltac:(lia)); unfold lo_host in G; lia).
  rewrite (union_set m m' f (K * g) K (Z.max a (K * g)) (Z.min b (K * g + K))); [|lia..|].
  - rewrite (proj2 (Z.ltb_lt (Z.max a (K * g)) (Z.min b (K * g + K)))) by lia. done.
  - intros j J. rewrite E by lia. unfold in_pages.
    destruct (Z.leb_spec a j), (Z.ltb_spec j (a + (b - a))), (Z.leb_spec (Z.max a (K * g)) j), (Z.ltb_spec j (Z.min b (K * g + K))); done || lia.
Qed.

Lemma runs_mprotect A c v s (Q : Z -> mm -> Prop) : 0 < c -> 
  (forall r h, r <> 0 -> Q r (with_kernel s h)) ->
  (forall h, (forall j, hprot h j = if (A <=? j / K) && (j / K <? A + c) then Some v else hprot (kernel s) j) ->
    Q 0 (with_kernel s h)) ->
  runs (host_call (h_mprotect (4096 * (K * A)) (4096 * (K * c)) v)) s Q.
Proof.
  intros C F O. pose proof hp_pages as (_ & P & _). apply mm_call. intros r h E. destruct (decide (r = 0)) as [->|D].
  - apply O. intros j. rewrite <- in_host_pages. eapply hprot_mprotect; [|exact E|done]. now apply Z.mul_pos_pos.
  - now apply F.
Qed.

(** *** target_mprotect *)

Section Mprotect.
Variables (a n prot : Z) (s : mm).
Let b : Z := a + n.
Let p : Z := Z.land prot (Z.lor (Z.lor PROT_READ PROT_WRITE) PROT_EXEC).
Let A : Z := lo_host a.
Let B : Z := hi_host b.
Hypothesis a_pos : 0 <= a.
Hypothesis n_pos : 0 < n.
Hypothesis below_top : a + n + K <= 1048576.
Hypothesis s_tb : no_tb (pages s).

(** What the host page [g] needs: [prot] and the flags of its pages outside. *)
Definition needed (g : Z) : Z :=
  Z.land (Z.lor (Z.lor p (flags_union (pages s) (K * g) (Z.max a (K * g) - K * g)))
    (flags_union (pages s) (Z.min b (K * g + K)) (K * g + K - Z.min b (K * g + K)))) PAGE_BITS.

(** [target_mprotect] when the host accepts everything. *)
Definition protected (s' : mm) : Prop :=
  flags_set a n (Z.lor p PAGE_VALID) (pages s) (pages s') /\ mmap_next_start s' = mmap_next_start s /\
  forall j, 0 <= j < 1048576 -> hprot (kernel s') j =
    if (A <=? j / K) && (j / K <? B) then Some (Z.land (host_page_flags (pages s') (j / K)) PAGE_BITS)
    else hprot (kernel s) j.

Definition protect_post (r : Z) (s' : mm) : Prop := if r =? 0 then protected s' else pages s' = pages s.

Lemma stored_bits : Z.land (stored (Z.lor p PAGE_VALID)) PAGE_BITS = p /\ stored (Z.lor p PAGE_VALID) <> 0 /\ Z.land p PAGE_BITS = p.
Proof.
  assert (R : 0 <= p < 8) by (unfold p; change (Z.lor (Z.lor PROT_READ PROT_WRITE) PROT_EXEC) with (Z.ones 3);
    rewrite Z.land_ones by lia; apply Z.mod_pos_bound; lia).
  clearbody p. assert (p = 0 \/ p = 1 \/ p = 2 \/ p = 3 \/ p = 4 \/ p = 5 \/ p = 6 \/ p = 7) as C by lia.
  repeat destruct C as [->|C]; [..|subst p]; now vm_compute.
Qed.

Lemma needed_ok m' g : flags_set a n (Z.lor p PAGE_VALID) (pages s) m' -> A <= g < B ->
  Z.land (host_page_flags m' g) PAGE_BITS = needed g.
Proof.
  intros [_ F] G. destruct stored_bits as (SB & NZ & PB).
  rewrite (host_page_flags_set (pages s) m' a b (stored (Z.lor p PAGE_VALID)) g); try done; try (unfold b; lia).
  - unfold needed. rewrite !Z.land_lor_distr_l, SB, PB, Z.lor_assoc. f_equal. apply Z.lor_comm.
  - unfold b. now replace (a + n - a) with n by lia.
Qed.

(** The host pages of [A, B) outside [A', B') are already as needed. *)
Definition edges (A' B' : Z) (s' : mm) : Prop :=
  pages s' = pages s /\ mmap_next_start s' = mmap_next_start s /\
  forall j, 0 <= j < 1048576 -> hprot (kernel s') j =
    if (A <=? j / K) && (j / K <? B) && negb ((A' <=? j / K) && (j / K <? B')) then Some (needed (j / K))
    else hprot (kernel s) j.

Lemma edges_start : edges A B s.
Proof. split; [done|]. split; [done|]. intros j J. now destruct (A <=? j / K), (j / K <? B). Qed.

Lemma edges_step A' B' A2 B2 s' h v g c : edges A' B' s' -> A' <= A2 -> B2 <= B' -> A <= g -> g + c <= B -> 0 < c ->
  (forall x, A' <= x < B' -> ((A2 <= x < B2) <-> ~ (g <= x < g + c))) -> (forall x, g <= x < g + c -> v = needed x) ->
  (forall j, hprot h j = if (g <=? j / K) && (j / K <? g + c) then Some v else hprot (kernel s') j) ->
  edges A2 B2 (with_kernel s' h).
Proof.
  intros (E1 & E2 & E3) LA LB G1 G2 C Sp V F. split; [done|]. split; [done|]. intros j J. cbn [kernel with_kernel].
  rewrite F, E3 by done. specialize (Sp (j / K)). specialize (V (j / K)). set (x := j / K) in *. clearbody x.
  destruct (Z.leb_spec g x), (Z.ltb_spec x (g + c)), (Z.leb_spec A x), (Z.ltb_spec x B), (Z.leb_spec A' x), (Z.ltb_spec x B'),
    (Z.leb_spec A2 x), (Z.ltb_spec x B2); cbn; try done; try lia; rewrite V by lia; done.
Qed.

(** The bounds on the host pages. *)
Lemma host_bounds g : A <= g <= B -> 0 <= K * g < 1048576.
Proof.
  intros G. pose proof hp_pages as (_ & P & _). destruct (host_range a b ltac:(unfold b; lia)) as (RA & RB & _).
  fold A in RA. fold B in RB. pose proof (Z.div_pos a K ltac:(lia) ltac:(lia)) as A0. fold (lo_host a) in A0. fold A in A0.
  split; [apply Z.mul_nonneg_nonneg; lia|]. apply Z.le_lt_trans with (K * B); [apply Z.mul_le_mono_nonneg_l; lia|unfold b in *; lia].
Qed.

Lemma protect_failed r s' (X : Prop) : r <> 0 -> pages s' = pages s -> if r =? 0 then X else protect_post r s'.
Proof. intros D E. unfold protect_post. now rewrite (proj2 (Z.eqb_neq r 0)). Qed.

Lemma runs_middle A' B' s' : edges A' B' s' -> A <= A' <= B' -> B' <= B -> (forall g, A' <= g < B' -> needed g = p) ->
  runs (mprotect_middle (4096 * a) (4096 * n) p (4096 * (K * A')) (4096 * (K * B'))) s' protect_post.
Proof.
  intros E LA LB V. pose proof hp_pages as (_ & P & _).
  pose proof (host_bounds A' ltac:(lia)). pose proof (host_bounds B' ltac:(lia)).
  assert (Fin : forall s2, edges A' A' s2 -> runs (let! _ := mm_set_flags (4096 * a) (u32 (4096 * a + 4096 * n)) (Z.lor p PAGE_VALID) in mret 0) s2 protect_post).
  { intros s2 (E1 & E2 & E3). rewrite u32_small by lia. rewrite <- Z.mul_add_distr_l. apply mm_bind. apply runs_set_flags; [lia..|now rewrite E1|].
    intros m' F. rewrite E1 in F. apply mm_ret. split; [done|]. split; [done|]. intros j J. cbn [kernel pages with_pages]. rewrite E3 by done.
    destruct ((A <=? j / K) && (j / K <? B)) eqn:G; cbn [andb]; [|done].
    replace ((A' <=? j / K) && (j / K <? A')) with false by (destruct (Z.leb_spec A' (j / K)), (Z.ltb_spec (j / K) A'); done || lia).
    cbn. f_equal. symmetry. apply needed_ok; [done|lia]. }
  apply mm_unless. destruct (Z.ltb_spec (4096 * (K * A')) (4096 * (K * B'))) as [Lt|Ge].
  - assert (A' < B') by (apply (Z.mul_lt_mono_pos_l K); lia). rewrite u32_small by lia.
    replace (4096 * (K * B') - 4096 * (K * A')) with (4096 * (K * (B' - A'))) by lia. apply runs_mprotect; [lia|..].
    + intros r h D. apply protect_failed; [done|apply E].
    + intros h F. cbn [Z.eqb]. apply Fin. apply (edges_step A' B' A' A' s' h p A' (B' - A')); try done; try lia.
      intros x X. symmetry. apply V. lia.
  - apply mm_ret. cbn [Z.eqb]. apply Fin. assert (A' = B') as <- by nia. done.
Qed.

(** Host pages strictly inside need [prot] alone. *)
Lemma needed_inside g : a <= K * g -> K * g + K <= b -> needed g = p.
Proof.
  intros G1 G2. unfold needed. rewrite Z.max_r, Z.min_r by lia. rewrite !union_nil, !Z.lor_0_r by lia. apply stored_bits.
Qed.

Lemma needed_inner g : A < g < B - 1 \/ (A = g /\ K * A = a /\ g < B - 1) \/ (A < g /\ g = B - 1 /\ b = K * B) \/ (A = g /\ g = B - 1 /\ K * A = a /\ b = K * B) ->
  needed g = p.
Proof.
  intros G. pose proof hp_pages as (_ & P & _). destruct (host_range a b ltac:(unfold b; lia)) as (RA & RB & _).
  fold A in RA. fold B in RB. apply needed_inside.
  - destruct (decide (A = g)) as [->|D]; [lia|]. transitivity (K * (A + 1)); [lia|]. apply Z.mul_le_mono_nonneg_l; lia.
  - destruct (decide (g = B - 1)) as [->|D]; [lia|]. transitivity (K * (B - 1)); [|lia].
    replace (K * g + K) with (K * (g + 1)) by lia. apply Z.mul_le_mono_nonneg_l; lia.
Qed.

Lemma runs_tail A' s' : edges A' B s' -> (A' = A /\ K * A = a) \/ (A' = A + 1 /\ A + 1 < B) ->
  runs (mprotect_tail hp (4096 * a) (4096 * n) p (4096 * (K * A')) (4096 * b) (4096 * (K * B))) s' protect_post.
Proof.
  intros E C. pose proof hp_pages as (HK & P & _). destruct (host_range a b ltac:(unfold b; lia)) as (RA & RB & RC).
  fold A in RA, RC. fold B in RB, RC. pose proof (host_bounds (B - 1) ltac:(lia)). pose proof (host_bounds B ltac:(lia)).
  unfold mprotect_tail. destruct (Z.ltb_spec (4096 * b) (4096 * (K * B))) as [Lt|Ge].
  - assert (EB : u32 (4096 * (K * B) - hp) = 4096 * (K * (B - 1))) by (rewrite HK, u32_small; lia). rewrite EB.
    apply mm_bind. apply runs_or_pages; [unfold b; lia|lia|lia|]. apply mm_unless.
    assert (EV : Z.land (Z.lor p (flags_union (pages s') b (K * B - b))) PAGE_BITS = needed (B - 1)).
    { unfold needed. rewrite (proj1 E). assert (a <= K * (B - 1)) by (destruct C as [[-> ?]|[-> ?]]; [nia|];
        transitivity (K * (A + 1)); [lia|apply Z.mul_le_mono_nonneg_l; lia]).
      rewrite Z.max_r, Z.min_l by lia. rewrite (union_nil _ (K * (B - 1))), Z.lor_0_r by lia. do 3 f_equal; lia. }
    rewrite EV. replace hp with (4096 * (K * 1)) at 1 by lia. apply runs_mprotect; [lia|..].
    + intros r h D. apply protect_failed; [done|apply E].
    + intros h F. cbn [Z.eqb]. apply runs_middle; [|lia|lia|].
      * apply (edges_step A' B A' (B - 1) s' h (needed (B - 1)) (B - 1) 1); try done; try lia. intros x X. f_equal. lia.
      * intros g G. apply needed_inner. lia.
  - apply runs_middle; [done|lia|lia|]. intros g G. apply needed_inner. lia.
Qed.

Lemma protect_run : runs (target_mprotect hp (4096 * a) (4096 * n) prot) s protect_post.
Proof.
  pose proof hp_pages as (HK & P & _). destruct (host_range a b ltac:(unfold b; lia)) as (RA & RB & RC).
  fold A in RA, RC. fold B in RB, RC. pose proof (host_bounds A ltac:(lia)). pose proof (host_bounds (A + 1) ltac:(lia)).
  pose proof (host_bounds B ltac:(lia)).
  unfold target_mprotect. rewrite page_offset, page_align by lia.
  rewrite (Z.mul_comm 4096 a) at 1. rewrite Z.mod_mul by lia. cbn [Z.eqb negb].
  rewrite u32_small by lia. rewrite (proj2 (Z.ltb_ge (4096 * a + 4096 * n) (4096 * a))) by lia. fold p.
  rewrite (proj2 (Z.eqb_neq (4096 * n) 0)) by lia. replace (4096 * a + 4096 * n) with (4096 * b) by (unfold b; lia).
  rewrite host_floor, host_ceil by (unfold b in *; lia). fold (lo_host a) (hi_host b). fold A B. cbv zeta.
  destruct (Z.ltb_spec (4096 * (K * A)) (4096 * a)) as [Lt|Ge].
  - assert (EH : u32 (4096 * (K * A) + hp) = 4096 * (K * (A + 1))) by (rewrite HK, u32_small; lia). rewrite EH.
    apply mm_bind. apply runs_or_pages; [lia..|]. apply mm_bind.
    destruct (Z.eqb_spec (4096 * (K * B)) (4096 * (K * (A + 1)))) as [S|S].
    + assert (B = A + 1) as EB by nia. apply mm_bind. apply runs_or_pages; [lia..|]. apply mm_ret.
      apply mm_unless. replace (Z.land _ PAGE_BITS) with (needed A).
      2:{ unfold needed. rewrite Z.max_l, Z.min_l by lia. do 3 f_equal. lia. }
      replace hp with (4096 * (K * 1)) at 1 by lia. apply runs_mprotect; [lia|..].
      * intros r h D. now apply protect_failed.
      * intros h F. cbn [Z.eqb]. unfold mprotect_tail. rewrite Z.ltb_irrefl. apply runs_middle; [|lia|lia|lia].
        apply (edges_step A B (A + 1) B s h (needed A) A 1); try done; try lia; [apply edges_start|]. intros x X. f_equal. lia.
    + assert (A + 1 < B) as EB by nia. apply mm_ret. apply mm_unless. replace (Z.land _ PAGE_BITS) with (needed A).
      2:{ unfold needed. assert (K * (A + 1) <= K * (B - 1)) by (apply Z.mul_le_mono_nonneg_l; lia).
          rewrite Z.max_l, Z.min_r by lia. rewrite (union_nil _ (K * A + K)), Z.lor_0_r by lia. done. }
      replace hp with (4096 * (K * 1)) at 1 by lia. apply runs_mprotect; [lia|..].
      * intros r h D. now apply protect_failed.
      * intros h F. cbn [Z.eqb]. apply runs_tail; [|lia].
        apply (edges_step A B (A + 1) B s h (needed A) A 1); try done; try lia; [apply edges_start|]. intros x X. f_equal. lia.
  - apply runs_tail; [apply edges_start|lia].
Qed.
End Mprotect.

(** The range of an accepted call does not reach into the last host page. *)
Definition clear_of_top (start n : Z) : Prop := 4294967296 <= start + 4096 * n \/ start + 4096 * n + hp <= 4294967296.


(** *** target_munmap *)

Lemma host_align b : 0 <= b < 1048576 -> exists c, HOST_PAGE_ALIGN hp (4096 * b) = 4096 * c /\ 0 <= c < 1048576 /\ c - b < K.
Proof.
  intros B. pose proof hp_pages as (E & P & M). destruct (Z.le_gt_cases (b + K) 1048576) as [C|C].
  - exists (K * ((b + K - 1) / K)). rewrite host_ceil by lia. pose proof (Z.mul_div_le (b + K - 1) K ltac:(lia)).
    pose proof (Z.div_pos (b + K - 1) K ltac:(lia) ltac:(lia)). split; [done|]. split; [|lia]. split; [|lia]. now apply Z.mul_nonneg_nonneg; lia.
  - exists 0. split; [|lia]. unfold HOST_PAGE_ALIGN, qemu_host_page_mask.
    replace (u32 (4096 * b + hp - 1)) with (4096 * b + hp - 1 - 4294967296) by (unfold u32; rewrite E; Z.div_mod_to_equations; lia).
    rewrite hp_pow at 2. rewrite land_page_mask by lia. rewrite <- hp_pow, Z.div_small by lia. lia.
Qed.

Lemma runs_trim_any a b s : 0 <= a < 1048576 -> 0 <= b < 1048576 -> runs (trim hp (4096 * a) (4096 * b)) s (fun _ s' => s' = s).
Proof.
  intros A B. pose proof hp_pages as (HK & P & _). unfold trim. rewrite host_floor by lia.
  pose proof (Z.mul_div_le a K ltac:(lia)). pose proof (Z.mul_succ_div_gt a K ltac:(lia)).
  pose proof (Z.mul_nonneg_nonneg K (a / K) ltac:(lia) (Z.div_pos a K ltac:(lia) ltac:(lia))).
  destruct (host_align b B) as (c & -> & C & D). set (f := K * (a / K)) in *. apply mm_bind.
  assert (T : forall x e : Z, e = 4096 * b \/ e = 4096 * c -> runs (if e <? 4096 * c then
      let! prot := or_pages hp e (4096 * c) 0 in mret (x, if negb (prot =? 0) then u32 (4096 * c - hp) else 4096 * c)
    else mret (x, 4096 * c)) s (fun _ s' => s' = s)).
  { intros x e Ee. destruct (Z.ltb_spec e (4096 * c)); [|now apply mm_ret]. destruct Ee as [->| ->]; [|lia].
    apply mm_bind. apply runs_or_pages; [lia..|]. now apply mm_ret. }
  destruct (4096 * f <? 4096 * a).
  - apply mm_bind. apply runs_or_pages; [lia..|]. apply mm_bind. destruct (4096 * c =? _).
    + apply mm_bind. apply runs_or_pages; [lia..|]. apply mm_ret. apply mm_ret. apply T. now right.
    + apply mm_ret. apply mm_ret. apply T. now left.
  - apply mm_ret. apply T. now left.
Qed.

Section Munmap.
Variables (a n : Z) (s : mm).
Let b : Z := a + n.
Let A : Z := lo_host a.
Let B : Z := hi_host b.
Hypothesis a_pos : 0 <= a.
Hypothesis n_pos : 0 < n.
Hypothesis below_top : a + n + K <= 1048576.
Hypothesis s_tb : no_tb (pages s).

(** The flags of the target pages of the host page [g] outside the range. *)
Definition used (g : Z) : Z := Z.lor (flags_union (pages s) (K * g) (Z.max a (K * g) - K * g))
  (flags_union (pages s) (Z.min b (K * g + K)) (K * g + K - Z.min b (K * g + K))).

(** [target_munmap] when the host accepts: a host page of the range none of whose
    target pages is in use afterwards is unmapped. *)
Definition unmapped (s' : mm) : Prop :=
  flags_set a n 0 (pages s) (pages s') /\ mmap_next_start s' = mmap_next_start s /\
  forall j, 0 <= j < 1048576 -> hprot (kernel s') j =
    if (A <=? j / K) && (j / K <? B) && (host_page_flags (pages s') (j / K) =? 0) then None else hprot (kernel s) j.

Lemma used_ok m' g : flags_set a n 0 (pages s) m' -> A <= g < B -> host_page_flags m' g = used g.
Proof.
  intros [_ F] G. rewrite (host_page_flags_set (pages s) m' a b 0 g); try done; try (unfold b; lia).
  unfold b. now replace (a + n - a) with n by lia.
Qed.

(** The host pages [trim] leaves. *)
Definition trimmed (r : Z * Z) (s' : mm) : Prop :=
  s' = s /\ exists A' B', r = (4096 * (K * A'), 4096 * (K * B')) /\ A <= A' <= B' /\ B' <= B /\
    forall g, A <= g < B -> (A' <= g < B' <-> used g = 0).

Lemma used_parts g : (a <= K * g -> flags_union (pages s) (K * g) (Z.max a (K * g) - K * g) = 0) /\
  (K * g + K <= b -> flags_union (pages s) (Z.min b (K * g + K)) (K * g + K - Z.min b (K * g + K)) = 0).
Proof. split; intros G; apply union_nil; lia. Qed.

Lemma host_bounds_b g : A <= g <= B -> 0 <= K * g < 1048576.
Proof. intros G. now apply (host_bounds a n). Qed.

(** Host pages strictly inside are not used. *)
Lemma used_inside g : A < g < B - 1 -> used g = 0.
Proof.
  intros G. pose proof hp_pages as (_ & P & _). destruct (host_range a b ltac:(unfold b; lia)) as (RA & RB & _).
  fold A in RA. fold B in RB. apply lor_zero. assert (K * (A + 1) <= K * g) by (apply Z.mul_le_mono_nonneg_l; lia).
  assert (K * (g + 1) <= K * (B - 1)) by (apply Z.mul_le_mono_nonneg_l; lia). split; apply used_parts; lia.
Qed.

Lemma runs_trim_tail A' : A <= A' <= B - 1 -> a <= K * (B - 1) -> (forall g, A <= g < B - 1 -> (A' <= g <-> used g = 0)) ->
  runs (if 4096 * b <? 4096 * (K * B) then
          let! prot := or_pages hp (4096 * b) (4096 * (K * B)) 0 in
          mret (4096 * (K * A'), if negb (prot =? 0) then u32 (4096 * (K * B) - hp) else 4096 * (K * B))
        else mret (4096 * (K * A'), 4096 * (K * B))) s trimmed.
Proof.
  intros LA La G. pose proof hp_pages as (HK & P & _). destruct (host_range a b ltac:(unfold b; lia)) as (RA & RB & RC).
  fold A in RA, RC. fold B in RB, RC. pose proof (host_bounds_b (B - 1) ltac:(lia)). pose proof (host_bounds_b B ltac:(lia)).
  assert (D : forall B', B - 1 <= B' <= B -> (B' = B <-> used (B - 1) = 0) -> trimmed (4096 * (K * A'), 4096 * (K * B')) s).
  { intros B' LB E. split; [done|]. exists A', B'. split; [done|]. split; [lia|]. split; [lia|]. intros g Hg.
    destruct (decide (g = B - 1)) as [->|Ne]; [rewrite <- E; lia|]. rewrite <- (G g) by lia. lia. }
  destruct (Z.ltb_spec (4096 * b) (4096 * (K * B))) as [Lt|Ge].
  - apply mm_bind. apply runs_or_pages; [unfold b; lia|lia..|]. apply mm_ret. rewrite Z.lor_0_l.
    assert (EU : used (B - 1) = flags_union (pages s) b (K * B - b)).
    { unfold used. rewrite (proj1 (used_parts (B - 1))), Z.lor_0_l, Z.min_l by lia. f_equal. lia. }
    rewrite <- EU. destruct (Z.eqb_spec (used (B - 1)) 0) as [Z0|Z0]; cbn [negb]; [apply D; lia|].
    replace (u32 _) with (4096 * (K * (B - 1))) by (rewrite HK, u32_small; lia). apply D; lia.
  - apply mm_ret. apply D; [lia|]. split; [intros _|done]. apply lor_zero. split; apply used_parts; lia.
Qed.

Lemma runs_trim : runs (trim hp (4096 * a) (4096 * b)) s trimmed.
Proof.
  pose proof hp_pages as (HK & P & _). destruct (host_range a b ltac:(unfold b; lia)) as (RA & RB & RC).
  fold A in RA, RC. fold B in RB, RC. pose proof (host_bounds_b A ltac:(lia)). pose proof (host_bounds_b (A + 1) ltac:(lia)).
  pose proof (host_bounds_b B ltac:(lia)). unfold trim.
  rewrite host_floor, host_ceil by (unfold b in *; lia). fold (lo_host a) (hi_host b). fold A B. cbv zeta. apply mm_bind.
  destruct (Z.ltb_spec (4096 * (K * A)) (4096 * a)) as [Lt|Ge].
  - replace (u32 (4096 * (K * A) + hp)) with (4096 * (K * (A + 1))) by (rewrite HK, u32_small; lia).
    apply mm_bind. apply runs_or_pages; [lia..|]. apply mm_bind. rewrite Z.lor_0_l.
    destruct (Z.eqb_spec (4096 * (K * B)) (4096 * (K * (A + 1)))) as [S|S].
    + assert (B = A + 1) as EB by nia. apply mm_bind. apply runs_or_pages; [unfold b; lia|lia..|]. apply mm_ret, mm_ret.
      rewrite Z.ltb_irrefl. replace (Z.lor _ _) with (used A).
      2:{ unfold used. rewrite Z.max_l, Z.min_l by lia. do 2 f_equal. lia. }
      apply mm_ret. split; [done|]. destruct (Z.eqb_spec (used A) 0) as [Z0|Z0]; cbn [negb].
      * exists A, B. split; [done|]. split; [lia|]. split; [lia|]. intros g G. replace g with A by lia. lia.
      * exists (A + 1), B. split; [done|]. split; [lia|]. split; [lia|]. intros g G. replace g with A by lia. lia.
    + assert (A + 1 < B) as EB by nia. assert (K * (A + 1) <= K * (B - 1)) by (apply Z.mul_le_mono_nonneg_l; lia).
      assert (EU : used A = flags_union (pages s) (K * A) (a - K * A)).
      { unfold used. rewrite (proj2 (used_parts A)), Z.lor_0_r, Z.max_l by lia. done. }
      apply mm_ret, mm_ret. rewrite <- EU. destruct (Z.eqb_spec (used A) 0) as [Z0|Z0]; cbn [negb]; apply runs_trim_tail; try lia;
        intros g G; (destruct (decide (g = A)) as [->|Ne]; [lia|rewrite (used_inside g) by lia; lia]).
  - apply mm_ret. apply runs_trim_tail; [lia| |].
    + transitivity (K * A); [lia|]. apply Z.mul_le_mono_nonneg_l; lia.
    + intros g G. destruct (decide (g = A)) as [->|Ne]; [|rewrite (used_inside g) by lia; lia].
      assert (K * (A + 1) <= K * (B - 1)) by (apply Z.mul_le_mono_nonneg_l; lia). split; [intros _|lia].
      apply lor_zero. split; apply used_parts; lia.
Qed.
End Munmap.

Lemma runs_munmap A c s (Q : Z -> mm -> Prop) : 0 < c ->
  (forall r h, r <> 0 -> Q r (with_kernel s h)) ->
  (forall h, (forall j, hprot h j = if (A <=? j / K) && (j / K <? A + c) then None else hprot (kernel s) j) ->
    Q 0 (with_kernel s h)) ->
  runs (host_call (h_munmap (4096 * (K * A)) (4096 * (K * c)))) s Q.
Proof.
  intros C F O. pose proof hp_pages as (_ & P & _). apply mm_call. intros r h E. destruct (decide (r = 0)) as [->|D].
  - apply O. intros j. rewrite <- in_host_pages. eapply hprot_munmap; [|exact E|done]. now apply Z.mul_pos_pos.
  - now apply F.
Qed.

Lemma munmap_wraps a n s : 0 <= a < 1048576 -> 0 < n < 1048576 -> 1048576 <= a + n ->
  match target_munmap hp (4096 * a) (4096 * n) s with Ok (r, _) => r <> 0 | Err e => e = Abort end.
Proof.
  intros A N W. unfold target_munmap. rewrite page_offset, page_align, (Z.mul_comm 4096 a), Z.mod_mul by lia.
  cbn [Z.eqb negb]. rewrite (proj2 (Z.eqb_neq (4096 * n) 0)) by lia. cbv zeta. rewrite (Z.mul_comm a).
  replace (u32 (4096 * a + 4096 * n)) with (4096 * (a + n - 1048576)) by (unfold u32; Z.div_mod_to_equations; lia).
  destruct (runs_trim_any a (a + n - 1048576) s A ltac:(lia)) as ([rs re] & s1 & E & ->).
  unfold mbind at 1. rewrite E. unfold mbind, mm_set_flags, host_call, mret.
  destruct (rs <? re); [destruct (h_munmap rs _ (kernel s)) as [r h]|];
    [destruct (Z.eqb_spec r 0) as [->|D]; [|done]|]; cbn [Z.eqb pages]; now rewrite page_range_empty by lia.
Qed.

Lemma munmap_run a n s : 0 <= a -> 0 < n -> a + n + K <= 1048576 -> no_tb (pages s) ->
  runs (target_munmap hp (4096 * a) (4096 * n)) s (fun r s' => if r =? 0 then unmapped a n s s' else pages s' = pages s).
Proof.
  intros A N T S. pose proof hp_pages as (HK & P & _). unfold target_munmap.
  rewrite page_offset, page_align, (Z.mul_comm 4096 a), Z.mod_mul by lia. cbn [Z.eqb negb].
  rewrite (proj2 (Z.eqb_neq (4096 * n) 0)) by lia. cbv zeta. rewrite (Z.mul_comm a), u32_small by lia.
  rewrite <- Z.mul_add_distr_l. apply mm_bind.
  assert (RT : runs (trim hp (4096 * a) (4096 * (a + n))) s (trimmed a n s)) by (apply runs_trim; done).
  destruct RT as (r & s1 & E & -> & A' & B' & -> & LA & LB & G). exists (4096 * (K * A'), 4096 * (K * B')), s.
  split; [exact E|]. assert (forall g, lo_host a <= g <= hi_host (a + n) -> 0 <= K * g < 1048576) as HB by (intros g Hg; now apply (host_bounds a n)).
  pose proof (HB A' ltac:(lia)). pose proof (HB B' ltac:(lia)).
  assert (Fin : forall h, (forall j, hprot h j = if (A' <=? j / K) && (j / K <? B') then None else hprot (kernel s) j) ->
    runs (let! _ := mm_set_flags (4096 * a) (4096 * (a + n)) 0 in mret 0) (with_kernel s h)
      (fun r s' => if r =? 0 then unmapped a n s s' else pages s' = pages s)).
  { intros h Hh. apply mm_bind. apply runs_set_flags; [lia..|done|]. intros m' F. apply mm_ret. cbn [Z.eqb].
    split; [exact F|]. split; [done|]. intros j J. cbn [kernel pages with_kernel with_pages]. rewrite Hh. specialize (G (j / K)).
    destruct (Z.leb_spec (lo_host a) (j / K)), (Z.ltb_spec (j / K) (hi_host (a + n))); cbn [andb];
      try (destruct (Z.leb_spec A' (j / K)), (Z.ltb_spec (j / K) B'); done || lia).
    assert (U : host_page_flags m' (j / K) = used a n s (j / K)) by (apply used_ok; done || lia). rewrite U.
    destruct (Z.leb_spec A' (j / K)), (Z.ltb_spec (j / K) B'), (Z.eqb_spec (used a n s (j / K)) 0); cbn; done || lia. }
  apply mm_bind. destruct (Z.ltb_spec (4096 * (K * A')) (4096 * (K * B'))) as [Lt|Ge].
  - assert (A' < B') by (apply (Z.mul_lt_mono_pos_l K); lia). rewrite u32_small by lia.
    replace (4096 * (K * B') - 4096 * (K * A')) with (4096 * (K * (B' - A'))) by lia. apply runs_munmap; [lia|..].
    + intros r h D. rewrite (proj2 (Z.eqb_neq r 0)) by done. apply mm_bind, mm_ret, mm_ret. now rewrite (proj2 (Z.eqb_neq r 0)).
    + intros h Hh. cbn [Z.eqb]. apply Fin. intros j. rewrite Hh. now replace (A' + (B' - A')) with B' by lia.
  - apply mm_ret. cbn [Z.eqb]. apply Fin. intros j. destruct (Z.leb_spec A' (j / K)), (Z.ltb_spec (j / K) B'); try done. nia.
Qed.

(** C26: [target_munmap] refuses an unaligned start and a length that rounds to
    zero; a range that wraps makes it abort, unless the host refuses. Otherwise,
    unless the host refuses, exactly the pages of the range lose their flags, and
    a host page that meets the range is unmapped if and only if no target page
    in it is still in use. *)
Theorem target_munmap_ok start len s : 0 <= start < 4294967296 -> 0 <= len < 4294967296 ->
  no_tb (pages s) -> clear_of_top start (page_count len) ->
  if negb (start mod 4096 =? 0) || (page_count len =? 0) then target_munmap hp start len s = Ok (- EINVAL, s)
  else if 4294967296 <=? start + 4096 * page_count len then
    match target_munmap hp start len s with Ok (r, _) => r <> 0 | Err e => e = Abort end
  else runs (target_munmap hp start len) s (fun r s' =>
    if r =? 0 then unmapped (start / 4096) (page_count len) s s' else pages s' = pages s).
Proof.
  intros S Ln T C. destruct (align_count len Ln) as [EL RL]. set (n := page_count len) in *. clearbody n.
  pose proof hp_pages as (HK & P & _). unfold clear_of_top in C.
  destruct (Z.eqb_spec (start mod 4096) 0) as [M|M]; cbn [negb orb].
  2:{ unfold target_munmap. now rewrite page_offset, (proj2 (Z.eqb_neq _ 0) M) by lia. }
  destruct (Z.eqb_spec n 0) as [N|N]. { unfold target_munmap. rewrite page_offset, M, EL by lia. now rewrite N. }
  assert (E : target_munmap hp start len s = target_munmap hp (4096 * (start / 4096)) (4096 * n) s).
  { unfold target_munmap. rewrite EL, page_align by lia. now rewrite <- page_number. }
  unfold runs. rewrite E. pose proof (page_number start M).
  destruct (Z.leb_spec 4294967296 (start + 4096 * n)) as [W|W]; [apply munmap_wraps|apply munmap_run]; lia || done.
Qed.
End HostPages.

(** ** Host pages of 4096 bytes *)

Section SmallPages.
Context {H : HostMm} {L : HostLaws}.
Variables (real_page_size min_addr : Z) (vfuel : nat).
Hypothesis real_pages : 4096 <= real_page_size.
Hypothesis vfuel_pos : (0 < vfuel)%nat.

Lemma floor_small x : 0 <= x < 4294967296 -> Z.land x (qemu_host_page_mask 4096) = 4096 * (x / 4096).
Proof.
  intros X. change (qemu_host_page_mask 4096) with (u32 (Z.lnot (2 ^ 12 - 1))). rewrite land_page_mask by lia. reflexivity.
Qed.

Lemma ceil_small c : 0 <= c < 1048576 -> HOST_PAGE_ALIGN 4096 (4096 * c) = 4096 * c.
Proof. intros C. rewrite (host_ceil 4096 12 1) by lia. rewrite Z.div_1_r. lia. Qed.

Lemma offset_small x : 0 <= x -> Z.land x (u32 (Z.lnot (qemu_host_page_mask 4096))) = x mod 4096.
Proof. apply page_offset. Qed.

(** *** mmap_find_vma *)

Definition reserve_flags : Z := Z.lor (Z.lor MAP_ANONYMOUS MAP_PRIVATE) MAP_NORESERVE.

(** With page-aligned answers of the kernel the first attempt decides: the area
    was free, is now reserved, and is given to the caller. *)
Definition vma_found (n : Z) (s : mm) (r : Z) (s' : mm) : Prop :=
  pages s' = pages s /\
  (r = NO_VMA \/
   exists a, r = 4096 * a /\ 0 <= a /\ a + n < 1048576 /\ (forall j, in_pages a n j = true -> hprot (kernel s) j = None) /\
     forall j, hprot (kernel s') j = if in_pages a n j then Some PROT_NONE else hprot (kernel s) j).

Lemma find_vma_run start n s : 0 < n < 1048576 ->
  runs (mmap_find_vma 4096 min_addr vfuel start (4096 * n)) s (vma_found n s).
Proof.
  intros N. assert (exists v, vfuel = S v) as [v Ev] by (exists (pred vfuel); lia). rewrite Ev. unfold mmap_find_vma.
  set (st := if start =? 0 then mmap_next_start s else Z.land start (qemu_host_page_mask 4096)).
  change (runs (find_vma_loop min_addr (S v) st (HOST_PAGE_ALIGN 4096 (4096 * n)) st false 0 0) s (vma_found n s)).
  clearbody st. rewrite ceil_small by lia. cbn [find_vma_loop]. apply mm_bind, mm_call. intros [q|] h E; cbv beta iota zeta.
  2:{ apply mm_ret. split; [done|now left]. }
  pose proof E as E'. apply hprot_mmap_free in E' as (a & -> & A & B & F); [|lia|done].
  rewrite page_offset, (Z.mul_comm 4096 a), Z.mod_mul by lia. cbn [Z.eqb]. rewrite (Z.mul_comm a). eexists _, _. split; [done|].
  assert (U : forall j, in_pages a n j = true -> hprot (kernel s) j = None).
  { intros j J. eapply hprot_mmap_unused; [| |exact E|]; [lia|done|]. now rewrite (Z.mul_comm 4096), Z.div_mul. }
  destruct (_ && _); (split; [done|]; right; exists a; done).
Qed.

(** *** target_mmap *)

(** Pages [a, a + n) are mapped with [prot], for the guest and by the host. *)
Definition mapped (a n prot : Z) (s s' : mm) : Prop :=
  flags_set a n (Z.lor prot PAGE_VALID) (pages s) (pages s') /\
  forall j, hprot (kernel s') j = if in_pages a n j then Some prot else hprot (kernel s) j.

(** A new mapping where the kernel found room. The second call, which maps the
    file over the area, goes unchecked, so that only for an anonymous mapping the
    host's protection is known. *)
Definition placed (n prot flags : Z) (s : mm) (r : Z) (s' : mm) : Prop :=
  (r = MM_FAILED /\ pages s' = pages s) \/
  exists a, r = 4096 * a /\ 0 <= a /\ a + n < 1048576 /\
    (forall j, in_pages a n j = true -> hprot (kernel s) j = None) /\
    flags_set a n (Z.lor prot PAGE_VALID) (pages s) (pages s') /\
    (hasb flags MAP_ANONYMOUS = true ->
      forall j, hprot (kernel s') j = if in_pages a n j then Some prot else hprot (kernel s) j).

Lemma mm_done a n prot s (Q : Z -> mm -> Prop) : 0 <= a -> 0 < n -> a + n < 1048576 -> no_tb (pages s) ->
  (forall m', flags_set a n (Z.lor prot PAGE_VALID) (pages s) m' -> Q (4096 * a) (with_pages s m')) ->
  runs (mmap_done (4096 * a) (4096 * n) prot) s Q.
Proof.
  intros A N B T F. unfold mmap_done. rewrite u32_small, <- Z.mul_add_distr_l by lia. apply mm_bind.
  apply runs_set_flags; [lia..|done|]. intros m' M. apply mm_ret. now apply F.
Qed.

Lemma fixed_flag f x : hasb (Z.lor (Z.lor f MAP_FIXED) x) MAP_FIXED = true.
Proof.
  unfold hasb. destruct (Z.eqb_spec (Z.land (Z.lor (Z.lor f MAP_FIXED) x) MAP_FIXED) 0) as [E|D]; [|done].
  apply (f_equal (fun z => Z.testbit z 4)) in E. rewrite Z.land_spec, !Z.lor_spec in E.
  change (Z.testbit MAP_FIXED 4) with true in E. rewrite orb_true_r in E. discriminate.
Qed.

Lemma mmap_anywhere_run real_start n prot flags fd offset s : 0 < n < 1048576 -> 0 <= offset < 4294967296 -> offset mod 4096 = 0 ->
  no_tb (pages s) ->
  runs (mmap_anywhere 4096 min_addr vfuel real_start (4096 * n) prot flags fd offset) s (placed n prot flags s).
Proof.
  intros N O M T. unfold mmap_anywhere. rewrite floor_small by done. pose proof (page_number offset M) as PO. rewrite <- PO. cbv zeta.
  replace (4096 * n + offset - offset) with (4096 * n) by lia. rewrite u32_small, ceil_small by lia. apply mm_bind.
  destruct (find_vma_run real_start n s N) as (r & s1 & E & P1 & F). exists r, s1. split; [done|].
  destruct F as [->|(a & -> & A & B & U & R)].
  { rewrite Z.eqb_refl. eexists _, _. split; [done|]. now left. }
  rewrite (proj2 (Z.eqb_neq (4096 * a) NO_VMA)) by (unfold NO_VMA; lia). apply mm_bind, mm_call. intros [p|] h Ep; cbv beta iota.
  2:{ apply mm_ret. now left. }
  apply hprot_mmap_fixed in Ep as (-> & R2); [|lia|apply fixed_flag].
  destruct (hasb flags MAP_ANONYMOUS) eqn:An; cbn [negb].
  - apply mm_done; [lia..|now cbn; rewrite P1|]. intros m' Fm. right. exists a. cbn [pages kernel with_kernel with_pages] in *.
    rewrite P1 in Fm. repeat (split; [done|]). intros _ j. rewrite R2, R. now destruct (in_pages a n j).
  - apply mm_bind, mm_call. intros p h2 Ep2. replace (4096 * a + offset - offset) with (4096 * a) by lia.
    rewrite u32_small by lia. apply mm_done; [lia..|now cbn; rewrite P1|]. intros m' Fm. right. exists a.
    cbn [pages kernel with_kernel with_pages] in *. rewrite P1 in Fm. repeat (split; [done|]). intros An2. congruence.
Qed.

(** [target_mmap] with [MAP_FIXED]. *)
Definition fixed_post (a n prot : Z) (s : mm) (r : Z) (s' : mm) : Prop :=
  (r = MM_FAILED /\ pages s' = pages s) \/ (r = 4096 * a /\ mapped a n prot s s').

Lemma mmap_fixed_pieces again a n prot flags fd offset s : 0 <= a < 1048576 -> 0 <= n -> 0 <= offset -> offset mod 4096 = 0 ->
  mmap_fixed 4096 again (4096 * a) (4096 * a) (4096 * n) prot flags fd offset s =
  mmap_pieces 4096 (4096 * a) (4096 * a) (4096 * n) prot flags fd offset s.
Proof.
  intros A N O M. unfold mmap_fixed. rewrite page_offset, !offset_small by lia.
  rewrite M, (Z.mul_comm 4096 a), Z.mod_mul by lia. cbn [Z.eqb negb].
  rewrite (proj2 (Z.ltb_ge 0xffffffff _)) by (pose proof (u32_range (a * 4096 + 4096 * n - 1)); lia). now rewrite andb_false_r.
Qed.

Lemma mmap_pieces_run a n prot flags fd offset s : 0 <= a -> 0 < n -> a + n < 1048576 -> hasb flags MAP_FIXED = true -> no_tb (pages s) ->
  runs (mmap_pieces 4096 (4096 * a) (4096 * a) (4096 * n) prot flags fd offset) s (fixed_post a n prot s).
Proof.
  intros A N B F T. unfold mmap_pieces. rewrite u32_small, <- Z.mul_add_distr_l, ceil_small, !Z.ltb_irrefl by lia. cbv zeta.
  rewrite (proj2 (Z.ltb_lt (4096 * a) (4096 * (a + n)))), u32_small by lia.
  replace (4096 * (a + n) - 4096 * a) with (4096 * n) by lia. apply mm_bind, mm_call. intros [p|] h E; cbv beta iota.
  - apply hprot_mmap_fixed in E as (-> & R); [|lia|done]. apply mm_done; [lia..|done|]. intros m' Fm. right. split; [done|].
    split; [exact Fm|]. exact R.
  - apply mm_ret. now left.
Qed.

Lemma mmap_pieces_wraps a n prot flags fd offset s : 0 <= a < 1048576 -> 0 < n < 1048576 -> 1048576 <= a + n ->
  mmap_pieces 4096 (4096 * a) (4096 * a) (4096 * n) prot flags fd offset s = Err Abort.
Proof.
  intros A N W. unfold mmap_pieces. replace (u32 (4096 * a + 4096 * n)) with (4096 * (a + n - 1048576)) by (unfold u32; Z.div_mod_to_equations; lia).
  rewrite ceil_small, !Z.ltb_irrefl by lia. cbv zeta. rewrite (proj2 (Z.ltb_ge (4096 * a) _)) by lia.
  unfold mmap_done, mbind, mm_set_flags. replace (u32 (4096 * a + 4096 * n)) with (4096 * (a + n - 1048576)) by (unfold u32; Z.div_mod_to_equations; lia).
  now rewrite page_range_empty by lia.
Qed.

(** C27: [target_mmap] on a host with pages of 4096 bytes. An unaligned offset or
    fixed address is refused with [EINVAL]; a length that rounds to zero is
    accepted and nothing is done; a fixed range that wraps aborts. Otherwise,
    unless the host refuses and the page table stays as it is, exactly the pages
    of the range get the flags: with [MAP_FIXED] the range asked for, without it
    an area in which nothing was mapped. The host maps the same pages, which for a
    file placed by the kernel is left open. *)
Theorem target_mmap_ok start len prot flags fd offset s :
  0 <= start < 4294967296 -> 0 <= len < 4294967296 -> 0 <= offset < 4294967296 -> no_tb (pages s) ->
  let n := page_count len in
  let call := target_mmap 4096 real_page_size min_addr vfuel start len prot flags fd offset in
  let refused := Ok (MM_FAILED, with_kernel s (set_errno EINVAL (kernel s))) in
  if negb (offset mod 4096 =? 0) then call s = refused
  else if n =? 0 then call s = Ok (start, s)
  else if hasb flags MAP_FIXED then
    if negb (start mod 4096 =? 0) then call s = refused
    else if 4294967296 <=? start + 4096 * n then call s = Err Abort
    else runs call s (fixed_post (start / 4096) n prot s)
  else runs call s (placed n prot flags s).
Proof.
  intros S Ln O T. destruct (align_count len Ln) as [EL RL]. cbv zeta. set (n := page_count len) in *. clearbody n.
  unfold target_mmap. cbn [target_mmap_rec]. rewrite page_offset by lia.
  destruct (Z.eqb_spec (offset mod 4096) 0) as [M|M]; cbn [negb]; [|done].
  rewrite EL. replace (4096 * n =? 0) with (n =? 0) by (destruct (Z.eqb_spec n 0), (Z.eqb_spec (4096 * n) 0); done || lia).
  destruct (Z.eqb_spec n 0) as [N|N]; [done|]. rewrite floor_small by done.
  unfold truncate_len. change TARGET_PAGE_SIZE with 4096. rewrite (proj2 (Z.ltb_ge real_page_size 4096)) by done. cbn [andb].
  destruct (hasb flags MAP_FIXED) eqn:F; cbn [negb].
  2:{ apply mm_bind, mm_ret. apply mmap_anywhere_run; done || lia. }
  destruct (Z.eqb_spec (start mod 4096) 0) as [A|A]; cbn [negb].
  2:{ unfold mbind at 1, mret at 1. unfold mmap_fixed. now rewrite page_offset, (proj2 (Z.eqb_neq _ 0) A) by lia. }
  pose proof (page_number start A) as PN. assert (0 <= start / 4096 < 1048576) by (Z.div_mod_to_equations; lia).
  set (a := start / 4096) in *. clearbody a. subst start.
  destruct (Z.leb_spec 4294967296 (4096 * a + 4096 * n)) as [W|W].
  - unfold mbind at 1, mret at 1. rewrite mmap_fixed_pieces by (done || lia). apply mmap_pieces_wraps; lia.
  - apply mm_bind, mm_ret. unfold runs. rewrite mmap_fixed_pieces by (done || lia). apply mmap_pieces_run; done || lia.
Qed.

(** *** target_mremap *)

Lemma runs_or_any x y acc s : 0 <= x -> y <= 4294963200 -> y - x <= 4096 -> runs (or_pages 4096 x y acc) s (fun _ s' => s' = s).
Proof.
  intros X Y D. unfold runs, or_pages. change (pages_fuel 4096) with 2%nat. change TARGET_PAGE_SIZE with 4096. cbn [or_flags].
  destruct (Z.ltb_spec x y); [|now eexists _, _]. rewrite u32_small by lia.
  rewrite (proj2 (Z.ltb_ge (x + 4096) y)) by lia. now eexists _, _.
Qed.

Lemma runs_trim_word x y s : 0 <= x <= 4294963200 -> 0 <= y < 4294967296 -> runs (trim 4096 x y) s (fun _ s' => s' = s).
Proof.
  intros X Y. unfold trim. rewrite floor_small by lia.
  assert (E : exists e, HOST_PAGE_ALIGN 4096 y = e /\ 0 <= e <= 4294963200 /\ e - y <= 4096).
  { eexists. split; [reflexivity|]. change (HOST_PAGE_ALIGN 4096 y) with (TARGET_PAGE_ALIGN y). rewrite page_ceil by done.
    unfold u32. Z.div_mod_to_equations. lia. }
  destruct E as (e & -> & E & D). set (f := 4096 * (x / 4096)). assert (0 <= f <= x /\ x - f <= 4096) by (unfold f; Z.div_mod_to_equations; lia).
  assert (R : forall A (k : Z -> MM A) a b acc Q, 0 <= a -> b <= 4294963200 -> b - a <= 4096 -> (forall r, runs (k r) s Q) ->
    runs (let! r := or_pages 4096 a b acc in k r) s Q).
  { intros A k a b acc Q Ha Hb Hd Hk. apply mm_bind. destruct (runs_or_any a b acc s Ha Hb Hd) as (r & s1 & E1 & ->). exists r, s. split; [done|apply Hk]. }
  apply mm_bind. assert (T : forall x z : Z, z = y \/ z = e -> runs (if z <? e then
      let! prot := or_pages 4096 z e 0 in mret (x, if negb (prot =? 0) then u32 (e - 4096) else e)
    else mret (x, e)) s (fun _ s' => s' = s)).
  { intros w z Hz. destruct (Z.ltb_spec z e); [|now apply mm_ret]. apply R; [lia..|]. intros r. now apply mm_ret. }
  destruct (f <? x); [|apply mm_ret; apply T; now left].
  apply R; [lia..|]. intros r. apply mm_bind. destruct (e =? u32 (f + 4096)).
  - apply R; [lia..|]. intros r2. apply mm_ret, mm_ret. apply T. now right.
  - apply mm_ret, mm_ret. apply T. now left.
Qed.

Lemma runs_reserve x n s (Q : unit -> mm -> Prop) : 0 <= x <= 4294963200 -> (forall h, Q tt (with_kernel s h)) -> runs (mmap_reserve 4096 x n) s Q.
Proof.
  intros X F. unfold mmap_reserve. apply mm_bind.
  destruct (runs_trim_word x (u32 (x + n)) s X (u32_range _)) as ([rs re] & s1 & E & ->). exists (rs, re), s. split; [done|].
  destruct (negb (rs =? re)).
  - apply mm_bind, mm_call. intros p h _. apply mm_ret, F.
  - apply mm_ret. specialize (F (kernel s)). now destruct s.
Qed.

(** What the host answers: an area for the new size, or a failure. *)
Definition remapped (new_size : Z) (s : mm) (o : option Z) (s' : mm) : Prop :=
  pages s' = pages s /\ match o with None => True | Some q => 0 <= q /\ 0 < new_size /\ q + new_size < 4294967296 end.

Lemma remapped_call old osz nsz flags addr s o h : h_mremap old osz nsz flags addr (kernel s) = (o, h) -> remapped nsz s o (with_kernel s h).
Proof.
  intros E. split; [done|]. destruct o as [q|]; [|done]. apply hprot_mremap in E as (a & -> & A & N & B). lia.
Qed.

Lemma remapped_kernel nsz s s1 o h : remapped nsz s o s1 -> remapped nsz s o (with_kernel s1 h).
Proof. done. Qed.

Lemma mremap_host_run old osz nsz flags addr s : 0 <= old <= 4294963200 -> 0 < nsz <= 4294963200 ->
  runs (mremap_host 4096 min_addr vfuel old osz nsz flags addr) s (remapped nsz s).
Proof.
  intros O N. unfold mremap_host. destruct (hasb flags MREMAP_FIXED).
  { apply mm_call. intros o h E. eapply remapped_call, E. }
  destruct (hasb flags MREMAP_MAYMOVE).
  - apply mm_bind. assert (V : runs (mmap_find_vma 4096 min_addr vfuel 0 nsz) s (fun _ s' => pages s' = pages s)).
    { assert (E : HOST_PAGE_ALIGN 4096 nsz = 4096 * ((nsz + 4095) / 4096)).
      { change (HOST_PAGE_ALIGN 4096 nsz) with (TARGET_PAGE_ALIGN nsz). rewrite page_ceil by lia. apply u32_small. Z.div_mod_to_equations. lia. }
      assert (R : 0 < (nsz + 4095) / 4096 < 1048576) by (Z.div_mod_to_equations; lia).
      destruct (find_vma_run 0 _ s R) as (v & s1 & F & P & _). exists v, s1. split; [|done]. rewrite <- F.
      unfold mmap_find_vma. now rewrite E, ceil_small by lia. }
    destruct V as (v & s1 & E & P1). exists v, s1. split; [done|]. destruct (v =? NO_VMA).
    { apply mm_call. intros o h Eo. injection Eo as <- <-. done. }
    apply mm_bind, mm_call. intros o h Eo. apply mm_bind, runs_reserve; [done|]. intros h2. apply mm_ret.
    apply remapped_call in Eo. unfold remapped in *. cbn [pages with_kernel] in *. now rewrite <- P1.
  - apply mm_bind, mm_call. intros o h Eo. apply remapped_call in Eo.
    rewrite (proj2 (Z.ltb_ge 0xffffffff _)) by (pose proof (u32_range (default MM_FAILED o + nsz)); lia). now apply mm_ret.
Qed.

(** The addresses whose pages [page_set_flags start end_] changes. *)
Definition covered (start end_ x : Z) : bool :=
  negb (whole (first_page start) (last_page end_)) && (first_page start <=? x / 4096) && (x / 4096 <? last_page end_).

End SmallPages.

(** ** Examples *)

(** A host that keeps a protection for every page, moves a mapping only to a
    given address, and finds room only where it is told to look. *)
Record demo_host := mkDemoHost { dprot : Z -> option Z; derrno : Z }.

Definition demo_change (a n : Z) (v : option Z) (h : demo_host) : demo_host :=
  mkDemoHost (fun j => if in_pages a n j then v else dprot h j) (derrno h).

Definition demo_mmap (addr len prot flags fd off : Z) (h : demo_host) : option Z * demo_host :=
  let a := addr / 4096 in let n := len / 4096 in
  if hasb flags MAP_FIXED then (Some addr, demo_change a n (Some prot) h)
  else if (0 <=? addr) && (addr mod 4096 =? 0) && (a + n <? 1048576) &&
          forallb (fun j => match dprot h j with None => true | Some _ => false end) (seqZ a n)
       then (Some addr, demo_change a n (Some prot) h) else (None, h).

Definition demo_mremap (old osz nsz flags addr : Z) (h : demo_host) : option Z * demo_host :=
  if hasb flags MREMAP_FIXED && (0 <=? addr) && (addr mod 4096 =? 0) && (0 <? nsz) && (addr + nsz <? 4294967296) then
    let a := addr / 4096 in let o := old / 4096 in
    (Some addr, mkDemoHost (fun j => if in_pages a ((nsz + 4095) / 4096) j then dprot h (o + (j - a))
                                     else if in_pages o ((osz + 4095) / 4096) j then None else dprot h j) (derrno h))
  else (None, h).

#[local] Instance demo_hostmm : HostMm := {|
  host := demo_host; h_mmap := demo_mmap; h_mremap := demo_mremap;
  h_munmap := fun a n h => (0, demo_change (a / 4096) (n / 4096) None h);
  h_mprotect := fun a n prot h => (0, demo_change (a / 4096) (n / 4096) (Some prot) h);
  h_msync := fun _ _ _ h => (0, h); h_pread := fun _ _ n _ h => (n, h); h_fsize := fun _ _ => Some 0;
  set_errno := fun e h => mkDemoHost (dprot h) e |}.

Lemma demo_pages_of x : 4096 * x / 4096 = x.
Proof. now rewrite Z.mul_comm, Z.div_mul. Qed.

#[local] Instance demo_laws : HostLaws.
Proof.
  refine {| hprot := dprot : @host demo_hostmm -> Z -> option Z |}; cbn; try done.
  - intros a n p prot h h' _ E _ j. injection E as _ <-. cbn. now rewrite !demo_pages_of.
  - intros a n p h h' _ E _ j. injection E as _ <-. cbn. now rewrite !demo_pages_of.
  - intros a n prot flags fd off q h h' _ F E. unfold demo_mmap in E. rewrite F in E. injection E as <- <-.
    split; [done|]. intros j. cbn. now rewrite !demo_pages_of.
  - intros addr n prot flags fd off q h h' N F E. unfold demo_mmap in E. rewrite F in E. destruct (_ && _) eqn:C; [|done].
    injection E as <- <-. exists (addr / 4096). rewrite demo_pages_of in C. split; [Z.div_mod_to_equations; lia|].
    split; [Z.div_mod_to_equations; lia|]. split; [lia|]. intros j. cbn. now rewrite demo_pages_of.
  - intros addr n prot flags fd off q h h' j N F E J. unfold demo_mmap in E. rewrite F in E. destruct (_ && _) eqn:C; [|done].
    injection E as <- <-. rewrite demo_pages_of in C. apply andb_prop in C as [_ C]. rewrite forallb_forall in C.
    specialize (C j). unfold in_pages in J. destruct (dprot h j); [|done]. discriminate C. apply list_elem_of_In, elem_of_seqZ. lia.
  - intros old osz nsz flags addr q h h' E. unfold demo_mremap in E. destruct (_ && _) eqn:C; [|done].
    injection E as <- <-. exists (addr / 4096). Z.div_mod_to_equations; lia.
Defined.

(** The two pages of [demo_pages], mapped for reading; nothing else is. *)
Definition demo_mm : mm := mkMm demo_pages (mkDemoHost (fun j => if in_pages 0x8048 2 j then Some 1 else None) 0) TASK_UNMAPPED_BASE.
Definition returned (x : res (Z * mm)) (v : Z) : bool := match x with Ok (r, _) => r =? v | Err _ => false end.

Lemma demo_mm_tb : no_tb (pages demo_mm).
Proof.
  pose proof (page_set_flags_run 0x8048000 0x804A000 (Z.lor PAGE_VALID PAGE_READ) l1_empty ltac:(lia) ltac:(lia) demo_no_tb) as K.
  unfold demo_mm, pages, demo_pages. destruct (page_set_flags _ _ _ _) as [m|e]; [now destruct K as (_ & K & _)|apply demo_no_tb].
Qed.


(** Unmapping the second page keeps the host page, which the first one uses. *)
Lemma target_munmap_ok_witness : exists s', target_munmap 8192 0x8049000 0x1000 demo_mm = Ok (0, s') /\
  flags_of (pages s') 0x8049 = 0 /\ flags_of (pages s') 0x8048 = 9 /\ hprot (kernel s') 0x8049 = Some 1.
Proof.
  pose proof (target_munmap_ok 8192 13 2 eq_refl ltac:(lia) eq_refl 0x8049000 0x1000 demo_mm ltac:(lia) ltac:(lia) demo_mm_tb) as P.
  specialize (P ltac:(right; vm_compute; discriminate)).
  change (runs (target_munmap 8192 0x8049000 0x1000) demo_mm (fun r s' => if r =? 0 then
    unmapped 2 (0x8049000 / 4096) (page_count 0x1000) demo_mm s' else pages s' = pages demo_mm)) in P.
  destruct P as (r & s' & E & P).
  assert (R : returned (target_munmap 8192 0x8049000 0x1000 demo_mm) 0 = true) by (vm_compute; reflexivity).
  rewrite E in R. apply Z.eqb_eq in R. subst r. exists s'. split; [exact E|]. cbn [Z.eqb] in P. destruct P as ((_ & F) & _ & Hp).
  assert (F1 : flags_of (pages s') 0x8049 = 0) by (rewrite F by lia; vm_compute; reflexivity).
  assert (F0 : flags_of (pages s') 0x8048 = 9) by (rewrite F by lia; vm_compute; reflexivity).
  split; [exact F1|]. split; [exact F0|]. rewrite Hp by lia. unfold host_page_flags.
  change (0x8049 / 2) with 16420. change (2 * 16420) with 0x8048. rewrite (union_cons _ 0x8048 2), (union_cons _ (0x8048 + 1)) by lia.
  rewrite union_nil by lia. change (0x8048 + 1) with 0x8049. rewrite F0, F1. vm_compute. reflexivity.
Defined.

(** An anonymous page where the kernel is told to look. *)
Lemma target_mmap_ok_witness : exists a s', target_mmap 4096 4096 65536 1 0x8050000 100 3 0x22 (-1) 0 demo_mm = Ok (4096 * a, s') /\
  a = 0x8050 /\ hprot (kernel s') a = Some 3 /\ hprot (kernel s') 0x8048 = Some 1.
Proof.
  pose proof (target_mmap_ok 4096 65536 1 ltac:(lia) ltac:(lia) 0x8050000 100 3 0x22 (-1) 0 demo_mm ltac:(lia) ltac:(lia) ltac:(lia) demo_mm_tb) as P.
  change (runs (target_mmap 4096 4096 65536 1 0x8050000 100 3 0x22 (-1) 0) demo_mm (placed 1 3 0x22 demo_mm)) in P.
  destruct P as (r & s' & E & P).
  assert (R : returned (target_mmap 4096 4096 65536 1 0x8050000 100 3 0x22 (-1) 0 demo_mm) 0x8050000 = true) by (vm_compute; reflexivity).
  rewrite E in R. apply Z.eqb_eq in R. subst r. destruct P as [[P _]|(a & Ea & _ & _ & _ & _ & Hp)]; [discriminate P|].
  assert (a = 0x8050) as -> by lia. exists 0x8050, s'. split; [exact E|]. split; [done|].
  specialize (Hp eq_refl). split; rewrite Hp; vm_compute; reflexivity.
Defined.

