(* ===== verification/ArgPages.v ===== *)
(** src/linux-user/elfload.c and linuxload.c, part 1: the argument pages.
    [copy_elf_strings] copies the program's arguments and environment, from the
    last string to the first and from the last byte to the first, into pages that
    it allocates when it needs them; together they are the top of the new stack.
    Allocations succeed. A string of the host is the list of its characters,
    which are not zero. *)

From S2P Require Import Prelude Memory Opcode DecodeTable Decode DecodeSpec State TransBlock PageTable.

Definition MAX_ARG_PAGES : Z := 33.
(** [sizeof(unsigned int)] is kept free at the end. *)
Definition initial_p : Z := TARGET_PAGE_SIZE * MAX_ARG_PAGES - 4.

(** [bprm->page]: the contents of the pages. *)
Abbreviation argpages := (Z -> option (Z -> Z)).
Definition no_pages : argpages := fun _ => None.

Definition cstr (s : list Z) : list Z := s ++ [0].

(** [pag[offset] = byte]; a null or foreign page is undefined behaviour. *)
Definition store_page (pag : option Z) (offset byte : Z) (page : argpages) : res argpages :=
  match pag with
  | Some k =>
      match page k with
      | Some f => if (0 <=? offset) && (offset <? TARGET_PAGE_SIZE) then Ok (<[k := Some (<[offset := u8 byte]> f)]> page) else Err UB
      | None => Err UB
      end
  | None => Err UB
  end.

(** [memcpy_fromfs(pag + offset, tmp, n)]. *)
Fixpoint memcpy_page (n : nat) (pag : option Z) (offset : Z) (bs : list Z) (page : argpages) : res argpages :=
  match n, bs with
  | O, _ => Ok page
  | S n, b :: bs => let? page := store_page pag offset b page in memcpy_page n pag (offset + 1) bs page
  | S _, [] => Err UB
  end.

(** The page of [p], allocated and zeroed if it is missing. *)
Definition get_page (p : Z) (page : argpages) : res argpages :=
  let k := p / TARGET_PAGE_SIZE in
  if (0 <=? k) && (k <? MAX_ARG_PAGES) then
    Ok match page k with Some _ => page | None => <[k := Some (fun _ => 0)]> page end
  else Err UB.

(** [while (len)]; [tmp] is [len] bytes into the string [bs]. *)
Fixpoint copy_string (fuel : nat) (bs : list Z) (p len offset : Z) (pag : option Z) (page : argpages)
    : res (Z * Z * option Z * argpages) :=
  if len =? 0 then Ok (p, offset, pag, page)
  else match fuel with
       | O => Err Fuel
       | S fuel =>
           let p := p - 1 in
           let len := len - 1 in
           let offset := offset - 1 in
           let? (offset, pag, page) :=
             if offset <? 0 then
               let? page := get_page p page in Ok (p mod TARGET_PAGE_SIZE, Some (p / TARGET_PAGE_SIZE), page)
             else Ok (offset, pag, page) in
           if (len =? 0) || (offset =? 0) then
             let? page := store_page pag offset (nth (Z.to_nat len) bs 0) page in
             copy_string fuel bs p len offset pag page
           else
             let bytes_to_copy := if len >? offset then offset else len in
             let p := p - bytes_to_copy in
             let offset := offset - bytes_to_copy in
             let len := len - bytes_to_copy in
             let? page := memcpy_page (Z.to_nat (bytes_to_copy + 1)) pag offset (drop (Z.to_nat len) bs) page in
             copy_string fuel bs p len offset pag page
       end.

(** [while (argc-- > 0)], over the reversed array. *)
Fixpoint copy_strings (rargv : list (list Z)) (p offset : Z) (pag : option Z) (page : argpages) : res (Z * argpages) :=
  match rargv with
  | [] => Ok (p, page)
  | s :: rargv =>
      let bs := cstr s in
      let len := Z.of_nat (length bs) in
      if p <? len then Ok (0, page)
      else
        let? (p, offset, pag, page) := copy_string (length bs) bs p len offset pag page in
        copy_strings rargv p offset pag page
  end.

Definition copy_elf_strings (argv : list (list Z)) (page : argpages) (p : Z) : res (Z * argpages) :=
  if p =? 0 then Ok (0, page) else copy_strings (rev argv) p 0 None page.

(** ** What the pages hold *)

(** The byte at [x] of the pages laid end to end. *)
Definition flat (page : argpages) (x : Z) : Z :=
  match page (x / TARGET_PAGE_SIZE) with Some f => f (x mod TARGET_PAGE_SIZE) | None => 0 end.

(** From [page] to [page']: [bs] has been put at [a], in pages that are there. *)
Record put_at (a : Z) (bs : list Z) (page page' : argpages) : Prop := {
  pa_in : forall i b, bs !! i = Some b -> flat page' (a + Z.of_nat i) = b;
  pa_out : forall x, x < a \/ a + Z.of_nat (length bs) <= x -> flat page' x = flat page x;
  pa_old : forall k, page k <> None -> page' k <> None;
  pa_new : forall x, a <= x < a + Z.of_nat (length bs) -> page' (x / TARGET_PAGE_SIZE) <> None;
  pa_range : forall k, page' k <> None -> page k <> None \/ 0 <= k < MAX_ARG_PAGES }.

Lemma put_at_nil a page : put_at a [] page page.
Proof. split; try done; auto. intros x Hx. cbn in Hx. lia. Qed.

(** Strings are put from the end to the front. *)
Lemma put_at_app a bs1 bs2 p0 p1 p2 :
  put_at (a + Z.of_nat (length bs1)) bs2 p0 p1 -> put_at a bs1 p1 p2 -> put_at a (bs1 ++ bs2) p0 p2.
Proof.
  intros [I1 O1 K1 N1 R1] [I2 O2 K2 N2 R2]. split.
  - intros i b H. apply lookup_app_Some in H as [H|[L H]]; [now apply I2|].
    rewrite O2 by lia. replace (a + Z.of_nat i) with (a + Z.of_nat (length bs1) + Z.of_nat (i - length bs1)) by lia.
    now apply I1.
  - intros x Hx. rewrite length_app in Hx. rewrite O2 by lia. apply O1. lia.
  - auto.
  - intros x Hx. rewrite length_app in Hx.
    destruct (Z.lt_ge_cases x (a + Z.of_nat (length bs1))); [apply N2; lia|]. apply K2, N1. lia.
  - intros k Hk. destruct (R2 k Hk) as [H|H]; auto.
Qed.

Lemma put_at_u8 a b page page' : put_at a [u8 b] page page' -> 0 <= b < 256 -> put_at a [b] page page'.
Proof. intros P B. now rewrite (u8_small b) in P by done. Qed.

(** One byte, into a page that is there. *)
Lemma store_put p byte page : page (p / TARGET_PAGE_SIZE) <> None -> 0 <= byte < 256 -> exists page',
  store_page (Some (p / TARGET_PAGE_SIZE)) (p mod TARGET_PAGE_SIZE) byte page = Ok page' /\ put_at p [byte] page page' /\
  (forall k, page' k <> None <-> page k <> None).
Proof.
  unfold TARGET_PAGE_SIZE. change (Z.shiftl 1 TARGET_PAGE_BITS) with 4096. intros N B. unfold store_page.
  change TARGET_PAGE_SIZE with 4096.
  destruct (page (p / 4096)) as [f|] eqn:E; [|done].
  destruct (Z.leb_spec 0 (p mod 4096)), (Z.ltb_spec (p mod 4096) 4096); try (Z.div_mod_to_equations; lia).
  cbn [andb]. eexists. split; [reflexivity|].
  assert (Dom : forall k, <[p / 4096 := Some (<[p mod 4096 := u8 byte]> f)]> page k <> None <-> page k <> None).
  { intros k. destruct (Z.eq_dec (p / 4096) k) as [<-|D]; [rewrite fn_lookup_insert, E; done|now rewrite fn_lookup_insert_ne]. }
  split; [|exact Dom]. split; unfold flat; change TARGET_PAGE_SIZE with 4096.
  - intros i b Hb. destruct i; [|done]. injection Hb as <-. rewrite Z.add_0_r, fn_lookup_insert, fn_lookup_insert.
    now apply u8_small.
  - intros x Hx. cbn [length] in Hx. destruct (Z.eq_dec (p / 4096) (x / 4096)) as [D|D].
    + rewrite D, fn_lookup_insert, fn_lookup_insert_ne, <- D, E; [done|]. intros M.
      pose proof (Z.div_mod p 4096). pose proof (Z.div_mod x 4096). lia.
    + now rewrite fn_lookup_insert_ne.
  - intros k Hk. now apply Dom.
  - intros x Hx. cbn [length] in Hx. replace x with p by lia. apply Dom. congruence.
  - intros k Hk. left. now apply Dom.
Qed.

Lemma get_page_put p page : 0 <= p < TARGET_PAGE_SIZE * MAX_ARG_PAGES -> exists page',
  get_page p page = Ok page' /\ (forall a, put_at a [] page page') /\ page' (p / TARGET_PAGE_SIZE) <> None.
Proof.
  change (TARGET_PAGE_SIZE * MAX_ARG_PAGES) with 135168. intros P. unfold get_page. change TARGET_PAGE_SIZE with 4096.
  change MAX_ARG_PAGES with 33.
  destruct (Z.leb_spec 0 (p / 4096)), (Z.ltb_spec (p / 4096) 33); try (Z.div_mod_to_equations; lia). cbn [andb].
  eexists. split; [reflexivity|]. destruct (page (p / 4096)) as [f|] eqn:E.
  { split; [intros a; apply put_at_nil|congruence]. }
  rewrite fn_lookup_insert. split; [|done]. intros a. split; unfold flat; change TARGET_PAGE_SIZE with 4096; try done.
  - intros x _. destruct (Z.eq_dec (p / 4096) (x / 4096)) as [D|D].
    + now rewrite D, fn_lookup_insert, <- D, E.
    + now rewrite fn_lookup_insert_ne.
  - intros k Hk. destruct (Z.eq_dec (p / 4096) k) as [<-|D]; [now rewrite fn_lookup_insert|now rewrite fn_lookup_insert_ne].
  - intros x Hx. cbn in Hx. lia.
  - intros k Hk. destruct (Z.eq_dec (p / 4096) k) as [<-|D]; [|rewrite fn_lookup_insert_ne in Hk by done; auto].
    right. change MAX_ARG_PAGES with 33. lia.
Qed.

(** ** Copying *)

Abbreviation bytes_ok := (Forall (fun b => 0 <= b < 256)).

Lemma memcpy_put n : forall p bs page, page (p / 4096) <> None -> p mod 4096 + Z.of_nat n <= 4096 ->
  (n <= length bs)%nat -> bytes_ok bs -> exists page',
  memcpy_page n (Some (p / 4096)) (p mod 4096) bs page = Ok page' /\ put_at p (take n bs) page page' /\
  (forall k, page' k <> None <-> page k <> None).
Proof.
  induction n as [|n IH]; intros p bs page K L Lb B; cbn [memcpy_page].
  { exists page. split; [done|]. split; [|done]. rewrite take_0. apply put_at_nil. }
  destruct bs as [|b bs]; [cbn in Lb; lia|]. apply Forall_cons in B as [Bb B].
  destruct (store_put p b page K Bb) as (p1 & S1 & P1 & D1). change TARGET_PAGE_SIZE with 4096 in S1.
  rewrite S1. cbn [res_bind]. destruct n as [|n].
  { exists p1. split; [done|]. split; [|done]. cbn [take]. rewrite take_0. exact P1. }
  assert (E : (p + 1) / 4096 = p / 4096 /\ (p + 1) mod 4096 = p mod 4096 + 1) by (Z.div_mod_to_equations; lia).
  destruct E as [E1 E2]. destruct (IH (p + 1) bs p1) as (p2 & S2 & P2 & D2); try done.
  - rewrite E1. now apply D1.
  - lia.
  - cbn in Lb. lia.
  - rewrite E1, E2 in S2. exists p2. split; [done|]. split; [|intros k; rewrite D2; apply D1].
    destruct P1 as [I1 O1 K1 N1 R1], P2 as [I2 O2 K2 N2 R2]. split.
    + intros i c H. destruct i as [|i].
      * injection H as <-. rewrite O2 by lia. now apply (I1 0%nat).
      * replace (p + Z.of_nat (S i)) with (p + 1 + Z.of_nat i) by lia. now apply I2.
    + intros x Hx. cbn [take length] in Hx. rewrite O2 by lia. apply O1. cbn [length]. lia.
    + auto.
    + intros x Hx. cbn [take length] in Hx. destruct (Z.eq_dec x p) as [->|]; [apply K2, N1; cbn; lia|].
      apply N2. lia.
    + intros k Hk. destruct (R2 k Hk) as [H|H]; auto.
Qed.

(** Where the next byte goes: nowhere yet, or below the last byte of a page. *)
Definition cursor (p offset : Z) (pag : option Z) (page : argpages) : Prop :=
  offset = 0 \/ 0 < offset /\ offset = p mod 4096 /\ pag = Some (p / 4096) /\ page (p / 4096) <> None.

(** The page of the byte below [p]. *)
Lemma cursor_step p offset pag page : 0 < p <= TARGET_PAGE_SIZE * MAX_ARG_PAGES -> cursor p offset pag page ->
  exists page', (if offset - 1 <? 0 then
       let? page := get_page (p - 1) page in Ok ((p - 1) mod TARGET_PAGE_SIZE, Some ((p - 1) / TARGET_PAGE_SIZE), page)
     else Ok (offset - 1, pag, page)) = Ok ((p - 1) mod 4096, Some ((p - 1) / 4096), page') /\
    (forall a, put_at a [] page page') /\ page' ((p - 1) / 4096) <> None.
Proof.
  intros P C. destruct C as [->|(C1 & C2 & -> & C4)].
  - cbn [Z.sub Z.ltb Z.compare Z.add Z.opp].
    destruct (get_page_put (p - 1) page) as (p1 & G & Q & N); [lia|]. rewrite G. cbn [res_bind]. exists p1. auto.
  - destruct (Z.ltb_spec (offset - 1) 0); [lia|].
    assert (E : (p - 1) / 4096 = p / 4096 /\ (p - 1) mod 4096 = offset - 1) by (Z.div_mod_to_equations; lia).
    destruct E as [E1 E2]. rewrite E1, E2. exists page. split; [done|]. split; [|done]. intros a. apply put_at_nil.
Qed.

Lemma nth_take_S (bs : list Z) n : (n < length bs)%nat -> take (S n) bs = take n bs ++ [nth n bs 0].
Proof. intros L. apply take_S_r. destruct (nth_lookup_or_length bs n 0); [done|lia]. Qed.

Lemma put_two a k bs p0 p1 p2 : (k <= length bs)%nat ->
  put_at (a + Z.of_nat k) (drop k bs) p0 p1 -> put_at a (take k bs) p1 p2 -> put_at a bs p0 p2.
Proof.
  intros L P Q. rewrite <- (take_drop k bs). apply (put_at_app a (take k bs) (drop k bs) p0 p1 p2); [|done].
  rewrite length_take. now replace (min k (length bs)) with k by lia.
Qed.

Lemma copy_string_ok bs : bytes_ok bs -> forall fuel n p offset pag page,
  (n <= fuel)%nat -> (n <= length bs)%nat -> Z.of_nat n <= p <= TARGET_PAGE_SIZE * MAX_ARG_PAGES ->
  cursor p offset pag page -> exists offset' pag' page',
  copy_string fuel bs p (Z.of_nat n) offset pag page = Ok (p - Z.of_nat n, offset', pag', page') /\
  put_at (p - Z.of_nat n) (take n bs) page page' /\ cursor (p - Z.of_nat n) offset' pag' page'.
Proof.
  intros B. induction fuel as [|fuel IH]; intros n p offset pag page Nf Nb P C; cbn [copy_string].
  { replace n with O by lia. exists offset, pag, page. cbn. rewrite Z.sub_0_r, take_0.
    split; [done|]. split; [apply put_at_nil|done]. }
  destruct (Z.eqb_spec (Z.of_nat n) 0) as [En|En].
  { replace n with O by lia. exists offset, pag, page. cbn. rewrite Z.sub_0_r, take_0.
    split; [done|]. split; [apply put_at_nil|done]. }
  cbv zeta. destruct (cursor_step p offset pag page) as (p1 & S1 & P1 & K1); [lia|done|]. rewrite S1. cbn [res_bind].
  assert (L1 : Z.of_nat n - 1 = Z.of_nat (n - 1)) by lia. rewrite L1. clear S1 C.
  destruct (_ || _) eqn:Small.
  - assert (Bn : 0 <= nth (n - 1) bs 0 < 256) by (apply (proj1 (Forall_nth _ 0 bs) B); lia).
    destruct (store_put (p - 1) (nth (n - 1) bs 0) p1 K1 Bn) as (p2 & S2 & P2 & D2).
    change TARGET_PAGE_SIZE with 4096 in S2. rewrite Nat2Z.id, S2. cbn [res_bind].
    destruct (IH (n - 1)%nat (p - 1) ((p - 1) mod 4096) (Some ((p - 1) / 4096)) p2) as (o' & g' & p3 & S3 & P3 & C3); try lia.
    { destruct (Z.eq_dec ((p - 1) mod 4096) 0); [now left|]. right. split; [Z.div_mod_to_equations; lia|].
      split; [done|]. split; [done|]. now apply D2. }
    replace (p - 1 - Z.of_nat (n - 1)) with (p - Z.of_nat n) in * by lia. exists o', g', p3. split; [exact S3|].
    split; [|exact C3]. replace n with (S (n - 1)) at 2 by lia. rewrite nth_take_S by lia.
    eapply put_at_app; [|exact P3]. rewrite length_take. replace (min (n - 1) (length bs)) with (n - 1)%nat by lia.
    replace (p - Z.of_nat n + Z.of_nat (n - 1)) with (p - 1) by lia.
    eapply (put_at_app (p - 1) [nth (n - 1) bs 0] [] page p1 p2); [apply P1|exact P2].
  - apply orb_false_elim in Small as [Z1%Z.eqb_neq Z2%Z.eqb_neq].
    set (off := (p - 1) mod 4096) in *. set (b := if _ >? off then off else _).
    assert (Hb : 0 < b /\ b <= off /\ b <= Z.of_nat (n - 1)).
    { subst b. destruct (Z.gtb_spec (Z.of_nat (n - 1)) off); Z.div_mod_to_equations; lia. }
    set (k := Z.to_nat (Z.of_nat (n - 1) - b)). assert (Kb : Z.of_nat (n - 1) - b = Z.of_nat k) by lia.
    assert (E : (p - 1 - b) / 4096 = (p - 1) / 4096 /\ (p - 1 - b) mod 4096 = off - b).
    { subst off. clear -Hb. Z.div_mod_to_equations. lia. }
    destruct E as [E1 E2].
    destruct (memcpy_put (Z.to_nat (b + 1)) (p - 1 - b) (drop k bs) p1) as (p2 & S2 & P2 & D2).
    + now rewrite E1.
    + subst off. Z.div_mod_to_equations. lia.
    + rewrite length_drop. lia.
    + now apply Forall_drop.
    + rewrite E1, E2 in S2. rewrite Kb, S2. cbn [res_bind].
      destruct (IH k (p - 1 - b) (off - b) (Some ((p - 1) / 4096)) p2) as (o' & g' & p3 & S3 & P3 & C3); try lia.
      { destruct (Z.eq_dec (off - b) 0); [now left|]. right. split; [lia|]. split; [done|]. split; [now rewrite E1|].
        rewrite E1. now apply D2. }
      replace (p - 1 - b - Z.of_nat k) with (p - Z.of_nat n) in * by lia. exists o', g', p3. split; [exact S3|].
      split; [|exact C3]. apply (put_two _ k _ page p2 p3); [rewrite length_take; lia| |].
      * replace (p - Z.of_nat n + Z.of_nat k) with (p - 1 - b) by lia.
        replace (drop k (take n bs)) with (take (Z.to_nat (b + 1)) (drop k bs)).
        2:{ rewrite skipn_firstn_comm. f_equal. lia. }
        pose proof (put_at_app (p - 1 - b) (take (Z.to_nat (b + 1)) (drop k bs)) [] page p1 p2) as X.
        rewrite app_nil_r in X. apply X; [apply P1|exact P2].
      * rewrite take_take. replace (min k n) with k by lia. exact P3.
Qed.

(** The strings one after the other, each with its end. *)
Definition block (argv : list (list Z)) : list Z := concat (cstr <$> argv).

Lemma block_app a b : block (a ++ b) = block a ++ block b.
Proof. unfold block. now rewrite fmap_app, concat_app. Qed.
Lemma block_one s : block [s] = cstr s.
Proof. unfold block. cbn. apply app_nil_r. Qed.
Lemma cstr_bytes s : bytes_ok s -> bytes_ok (cstr s).
Proof. intros B. apply Forall_app. split; [done|]. constructor; [lia|constructor]. Qed.

Lemma copy_strings_ok rargv : Forall bytes_ok rargv -> forall p offset pag page,
  0 <= p <= TARGET_PAGE_SIZE * MAX_ARG_PAGES -> cursor p offset pag page ->
  exists p' page', copy_strings rargv p offset pag page = Ok (p', page') /\
    if Z.of_nat (length (block (rev rargv))) <=? p
    then p' = p - Z.of_nat (length (block (rev rargv))) /\ put_at p' (block (rev rargv)) page page'
    else p' = 0.
Proof.
  induction 1 as [|s rargv Bs _ IH]; intros p offset pag page P C; cbn [copy_strings rev].
  { exists p, page. split; [done|]. change (Z.of_nat (length (block []))) with 0.
    destruct (Z.leb_spec 0 p); [|lia]. split; [lia|apply put_at_nil]. }
  rewrite block_app, length_app, block_one, Nat2Z.inj_add. cbv zeta.
  destruct (Z.ltb_spec p (Z.of_nat (length (cstr s)))) as [G|G].
  { exists 0, page. split; [done|]. destruct (Z.leb_spec (Z.of_nat (length (block (rev rargv))) + Z.of_nat (length (cstr s))) p); [lia|done]. }
  destruct (copy_string_ok (cstr s) (cstr_bytes s Bs) (length (cstr s)) (length (cstr s)) p offset pag page)
    as (o & g & p1 & -> & P1 & C1); [lia|lia|lia|done|]. cbn [res_bind]. rewrite firstn_all in P1.
  destruct (IH (p - Z.of_nat (length (cstr s))) o g p1) as (p' & p2 & -> & Q); [lia|done|]. exists p', p2. split; [done|].
  set (t := length (block (rev rargv))) in *. destruct (Z.leb_spec (Z.of_nat t) (p - Z.of_nat (length (cstr s)))) as [F|F];
    destruct (Z.leb_spec (Z.of_nat t + Z.of_nat (length (cstr s))) p); try lia.
  destruct Q as [-> Q]. split; [lia|]. eapply put_at_app; [|exact Q]. fold t.
  now replace (p - Z.of_nat (length (cstr s)) - Z.of_nat t + Z.of_nat t) with (p - Z.of_nat (length (cstr s))) by lia.
Qed.

Lemma copy_run argv page p : Forall bytes_ok argv -> 0 < p <= TARGET_PAGE_SIZE * MAX_ARG_PAGES ->
  exists p' page', copy_elf_strings argv page p = Ok (p', page') /\
    if Z.of_nat (length (block argv)) <=? p
    then p' = p - Z.of_nat (length (block argv)) /\ put_at p' (block argv) page page'
    else p' = 0.
Proof.
  intros B P. unfold copy_elf_strings. destruct (Z.eqb_spec p 0); [lia|].
  destruct (copy_strings_ok (rev argv)) with (p := p) (offset := 0) (pag := @None Z) (page := page) as (p' & page' & E & Q).
  - now apply Forall_rev.
  - lia.
  - now left.
  - rewrite rev_involutive in Q. eauto.
Qed.

(** [copy_elf_strings] stacks the strings, each with its end, in their order, directly
    below the address it is given, in the pages it allocates and fills a part of a page at
    a time: the pages laid end to end hold exactly the concatenation there and are unchanged
    elsewhere. If the strings do not fit, it answers 0. It never leaves a page, and returns
    on every list of strings. *)
Theorem copy_elf_strings_ok argv page p : Forall bytes_ok argv -> 0 < p <= TARGET_PAGE_SIZE * MAX_ARG_PAGES ->
  exists p' page', copy_elf_strings argv page p = Ok (p', page') /\
    if Z.of_nat (length (block argv)) <=? p
    then p' = p - Z.of_nat (length (block argv)) /\ put_at p' (block argv) page page'
    else p' = 0.
Proof. apply copy_run. Qed.

Theorem copy_elf_strings_ok_witness :
  exists p' page', copy_elf_strings [[108; 115]; [45; 108]] no_pages 4099 = Ok (p', page') /\
    p' = 4093 /\ put_at 4093 [108; 115; 0; 45; 108; 0] no_pages page'.
Proof.
  destruct (copy_elf_strings_ok [[108; 115]; [45; 108]] no_pages 4099) as (p' & page' & E & Q).
  - repeat constructor; discriminate.
  - split; [lia|]. vm_compute. discriminate.
  - exists p', page'. split; [exact E|]. cbn in Q. destruct Q as [-> Q]. split; [reflexivity|exact Q].
Defined.
