(* ===== verification/InitStack.v ===== *)
(** src/linux-user/elfload.c and linuxload.c, part 2: the stack a program starts
    with. [setup_arg_pages] maps the stack and copies the argument pages to its
    top; below them [create_elf_tables] puts the auxiliary vector and
    [loader_build_argptr] the arrays of pointers and the count. The file, the
    user's numbers and the CPU's features are parameters; results of writes to
    the guest are ignored, as the code does. *)

From S2P Require Import Prelude Memory Opcode DecodeTable Decode DecodeSpec State TransBlock PageTable Uaccess Mmap.
From S2P Require Import ArgPages.

Definition sizeof_elf_phdr : Z := 32.
Definition DLINFO_ITEMS : Z := 12.
Definition AT_NULL : Z := 0.
Definition AT_PHDR : Z := 3.
Definition AT_PHENT : Z := 4.
Definition AT_PHNUM : Z := 5.
Definition AT_PAGESZ : Z := 6.
Definition AT_BASE : Z := 7.
Definition AT_FLAGS : Z := 8.
Definition AT_ENTRY : Z := 9.
Definition AT_UID : Z := 11.
Definition AT_EUID : Z := 12.
Definition AT_GID : Z := 13.
Definition AT_EGID : Z := 14.
Definition AT_PLATFORM : Z := 15.
Definition AT_HWCAP : Z := 16.
Definition AT_CLKTCK : Z := 17.

(** The fields of the ELF header that are used, and the numbers of the host. *)
Record elfhdr := mkElfhdr { e_phoff : Z; e_phnum : Z; e_entry : Z }.
Record host_ids := mkIds { uid : Z; euid : Z; gid : Z; egid : Z; hwcap : Z; clktck : Z; cpuid_version : Z }.

(** "i386", with the digit of the family. *)
Definition get_elf_platform (ids : host_ids) : list Z :=
  let family := Z.land (Z.shiftr (cpuid_version ids) 8) 0xff in
  let family := if family >? 6 then 6 else family in
  [105; if family >=? 3 then 48 + family else 51; 56; 54].

Section Stack.
Variable qemu_host_page_size : Z.

(** ** Memory *)

Definition memcpy_to_target (dest : Z) (src : list Z) (pg : pagemap) (m : mem) : res (Z * mem) :=
  copy_to_user qemu_host_page_size dest src pg m.

(** [put_user_ual], its result ignored. *)
Definition put_user_ual (x gaddr : Z) (pg : pagemap) (m : mem) : res mem :=
  let? (_, m) := put_user qemu_host_page_size 4 x gaddr pg m in Ok m.

(** The loop of [setup_arg_pages] over the pages [i .. i + n - 1]. *)
Fixpoint copy_arg_pages (n : nat) (i stack_base : Z) (page : argpages) (pg : pagemap) (m : mem) : res mem :=
  match n with
  | O => Ok m
  | S n =>
      let? m := match page i with
                | Some f => let? (_, m) := memcpy_to_target stack_base (f <$> seqZ 0 TARGET_PAGE_SIZE) pg m in Ok m
                | None => Ok m
                end in
      copy_arg_pages n (i + 1) (u32 (stack_base + TARGET_PAGE_SIZE)) page pg m
  end.

(** ** Tables *)

(** [while (argc-- > 0)]: the array from [argv] on, the strings from [stringp] on. *)
Fixpoint put_strings (argc : nat) (argv stringp : Z) (pg : pagemap) (m : mem) : res (Z * Z * mem) :=
  match argc with
  | O => Ok (argv, stringp, m)
  | S argc =>
      let? m := put_user_ual stringp argv pg m in
      let? len := target_strlen qemu_host_page_size stringp pg m in
      put_strings argc (u32 (argv + 4)) (u32 (stringp + (len + 1))) pg m
  end.

(** The result with [arg_start] and [arg_end] of the image. *)
Definition loader_build_argptr (envc argc : Z) (sp stringp : Z) (push_ptr : bool) (pg : pagemap) (m : mem)
    : res (Z * (Z * Z) * mem) :=
  let sp := u32 (sp - (envc + 1) * 4) in
  let envp := sp in
  let sp := u32 (sp - (argc + 1) * 4) in
  let argv := sp in
  let? (sp, m) :=
    if push_ptr then
      let sp := u32 (sp - 4) in
      let? m := put_user_ual envp sp pg m in
      let sp := u32 (sp - 4) in
      let? m := put_user_ual argv sp pg m in
      Ok (sp, m)
    else Ok (sp, m) in
  let sp := u32 (sp - 4) in
  let? m := put_user_ual argc sp pg m in
  let arg_start := stringp in
  let? (argv, stringp, m) := put_strings (Z.to_nat argc) argv stringp pg m in
  let arg_end := stringp in
  let? m := put_user_ual 0 argv pg m in
  let? (envp, _, m) := put_strings (Z.to_nat envc) envp stringp pg m in
  let? m := put_user_ual 0 envp pg m in
  Ok (sp, (arg_start, arg_end), m).

(** [NEW_AUX_ENT], for each of the list. *)
Fixpoint new_aux_ents (l : list (Z * Z)) (sp : Z) (pg : pagemap) (m : mem) : res (Z * mem) :=
  match l with
  | [] => Ok (sp, m)
  | (id, val) :: l =>
      let sp := u32 (sp - 4) in
      let? m := put_user_ual val sp pg m in
      let sp := u32 (sp - 4) in
      let? m := put_user_ual id sp pg m in
      new_aux_ents l sp pg m
  end.

Definition aux_ents (exec : elfhdr) (load_addr load_bias interp_load_addr u_platform : Z) (ids : host_ids) : list (Z * Z) :=
  [(AT_NULL, 0); (AT_PHDR, load_addr + e_phoff exec); (AT_PHENT, sizeof_elf_phdr); (AT_PHNUM, e_phnum exec);
   (AT_PAGESZ, TARGET_PAGE_SIZE); (AT_BASE, interp_load_addr); (AT_FLAGS, 0); (AT_ENTRY, load_bias + e_entry exec);
   (AT_UID, uid ids); (AT_EUID, euid ids); (AT_GID, gid ids); (AT_EGID, egid ids); (AT_HWCAP, hwcap ids);
   (AT_CLKTCK, clktck ids); (AT_PLATFORM, u_platform)].

(** The size, in words, that is aligned. *)
Definition tables_size (argc envc : Z) (ibcs : bool) : Z :=
  (DLINFO_ITEMS + 1) * 2 + 2 + (envc + argc + 2) + (if ibcs then 1 else 3).

(** The result with [saved_auxv], [arg_start] and [arg_end] of the image. *)
Definition create_elf_tables (p argc envc : Z) (exec : elfhdr) (load_addr load_bias interp_load_addr : Z) (ibcs : bool)
    (ids : host_ids) (pg : pagemap) (m : mem) : res (Z * (Z * (Z * Z)) * mem) :=
  let k_platform := cstr (get_elf_platform ids) in
  let sp := u32 (p - Z.land (Z.of_nat (length k_platform) + 3) (u32 (Z.lnot 3))) in
  let u_platform := sp in
  let? (_, m) := memcpy_to_target sp k_platform pg m in
  let sp := Z.land sp (u32 (Z.lnot 15)) in
  let size := tables_size argc envc ibcs * 4 in
  let sp := if negb (Z.land size 15 =? 0) then u32 (sp - (16 - Z.land size 15)) else sp in
  let? (sp, m) := new_aux_ents (aux_ents exec load_addr load_bias interp_load_addr u_platform ids) sp pg m in
  let saved_auxv := sp in
  let? (sp, range, m) := loader_build_argptr envc argc sp p (negb ibcs) pg m in
  Ok (sp, (saved_auxv, range), m).

(** [loader_exec] and [load_elf_binary]: the strings of the program, from the
    name of its file down. *)
Definition program_strings (filename : list Z) (argv envp : list (list Z)) : res (Z * argpages) :=
  let? (p, page) := copy_elf_strings [filename] no_pages initial_p in
  let? (p, page) := copy_elf_strings envp page p in
  copy_elf_strings argv page p.

End Stack.

(** ** The area of the stack *)

Section Area.
Context `{HostMm}.
Variables qemu_host_page_size qemu_real_host_page_size mmap_min_addr : Z.
Variable vfuel : nat.

(** The new address of the strings, the lowest of the stack, and the memory;
    [None] is [exit]. *)
Definition setup_arg_pages (guest_stack_size p : Z) (page : argpages) (s : mm) (m : mem)
    : res (option (Z * Z * mm * mem)) :=
  let size := if guest_stack_size <? MAX_ARG_PAGES * TARGET_PAGE_SIZE then MAX_ARG_PAGES * TARGET_PAGE_SIZE else guest_stack_size in
  let? (error, s) := target_mmap qemu_host_page_size qemu_real_host_page_size mmap_min_addr vfuel
                       0 (u32 (size + qemu_host_page_size)) (Z.lor PROT_READ PROT_WRITE) (Z.lor MAP_PRIVATE MAP_ANONYMOUS)
                       (-1) 0 s in
  if error =? MM_FAILED then Ok None
  else
    let? (_, s) := target_mprotect qemu_host_page_size (u32 (error + size)) qemu_host_page_size PROT_NONE s in
    let stack_limit := error in
    let stack_base := u32 (error + size - MAX_ARG_PAGES * TARGET_PAGE_SIZE) in
    let p := u32 (p + stack_base) in
    let? m := copy_arg_pages qemu_host_page_size (Z.to_nat MAX_ARG_PAGES) 0 stack_base page (pages s) m in
    Ok (Some (p, stack_limit, s, m)).

End Area.
