(* ===== verification/InitStackThm.v ===== *)
(** The stack a program starts with: the words from the stack pointer on are the
    count, the pointers to the arguments, the pointers to the environment and the
    auxiliary vector, and every pointer leads to its string. *)

From S2P Require Import Prelude Memory Opcode DecodeTable Decode DecodeSpec State TransBlock PageTable Uaccess Mmap.
From S2P Require Import ArgPages InitStack.

(** ** Writes to a usable area *)

(** The emulator may read and write the guest's memory between [lo] and [hi]. *)
Record usable (sz : Z) (pg : pagemap) (lo hi : Z) : Prop := {
  us_range : 0 < lo /\ hi < 4294967296;
  us_read : forall a n, lo <= a -> 0 < n -> a + n <= hi -> readable pg a n = true;
  us_write : forall a, lo <= a < hi -> writable sz pg a = Ok true }.

(** [bs] has been written at [a]. *)
Definition wrote_at (a : Z) (bs : list Z) (m m' : mem) : Prop :=
  at_bytes m' a bs /\ forall x, x < a \/ a + Z.of_nat (length bs) <= x -> m' !! x = m !! x.

Lemma wrote_nil a m : wrote_at a [] m m.
Proof. split; [apply at_bytes_nil|done]. Qed.

Lemma wrote_write a bs m : map u8 bs = bs -> wrote_at a bs m (write_bytes a bs m).
Proof.
  intros E. split; [|intros x Hx; now apply write_bytes_out].
  pose proof (at_bytes_write m a bs) as B. now rewrite E in B.
Qed.

Lemma wrote_keep a bs m m' b cs : wrote_at a bs m m' -> at_bytes m b cs ->
  b + Z.of_nat (length cs) <= a \/ a + Z.of_nat (length bs) <= b -> at_bytes m' b cs.
Proof. intros [_ F] B D. apply (at_bytes_ext m); [|done]. intros x Hx. apply F. lia. Qed.

Lemma wrote_up a bs cs m m1 m2 : wrote_at a bs m m1 -> wrote_at (a + Z.of_nat (length bs)) cs m1 m2 ->
  wrote_at a (bs ++ cs) m m2.
Proof.
  intros W1 W2. split.
  - apply at_bytes_app. split; [|apply W2]. apply (wrote_keep _ _ _ _ _ _ W2 (proj1 W1)). lia.
  - intros x Hx. rewrite length_app in Hx. rewrite (proj2 W2), (proj2 W1) by lia. done.
Qed.

Lemma wrote_down a bs cs m m1 m2 : wrote_at (a + Z.of_nat (length bs)) cs m m1 -> wrote_at a bs m1 m2 ->
  wrote_at a (bs ++ cs) m m2.
Proof.
  intros W1 W2. split.
  - apply at_bytes_app. split; [apply W2|]. apply (wrote_keep _ _ _ _ _ _ W2 (proj1 W1)). lia.
  - intros x Hx. rewrite length_app in Hx. rewrite (proj2 W2), (proj2 W1) by lia. done.
Qed.

(** Words. *)
Definition words (l : list Z) : list Z := concat (le32 <$> l).

Lemma words_cons x l : words (x :: l) = le32 x ++ words l.
Proof. done. Qed.
Lemma words_app l k : words (l ++ k) = words l ++ words k.
Proof. unfold words. now rewrite fmap_app, concat_app. Qed.
Lemma words_length l : Z.of_nat (length (words l)) = 4 * Z.of_nat (length l).
Proof. induction l as [|x l IH]; [done|]. rewrite words_cons, length_app, length_le32. cbn [length]. lia. Qed.
Lemma words_ld32 l : forall m a k v, at_bytes m a (words l) -> l !! k = Some v -> ld32 m (a + 4 * Z.of_nat k) = u32 v.
Proof.
  induction l as [|x l IH]; intros m a k v B E; [done|]. rewrite words_cons in B.
  apply at_bytes_app in B as [B1 B2]. destruct k as [|k].
  - injection E as <-. rewrite Z.add_0_r. now apply at_bytes_ld32_val.
  - rewrite length_le32 in B2. replace (a + 4 * Z.of_nat (S k)) with (a + Z.of_nat 4 + 4 * Z.of_nat k) by lia. now apply IH.
Qed.

Lemma le_bytes4 x : le_bytes 4 x = le32 x.
Proof. cbn [le_bytes]. unfold le32. now rewrite !Z.div_div by lia. Qed.

Section Area.
Context (sz : Z) (pg : pagemap) (lo hi : Z) (U : usable sz pg lo hi).

Lemma lock_write a n : lo <= a -> 0 < n < 2147483648 -> a + n <= hi -> lock_user sz VERIFY_WRITE a n pg = Ok (Some a).
Proof.
  intros A N E. destruct (us_range _ _ _ _ U) as [U1 U2]. unfold lock_user.
  rewrite u32_small, access_write by lia. rewrite (us_write _ _ _ _ U a) by lia. cbn [res_bind].
  unfold g2h. destruct (Z.eqb_spec a 0); [lia|done].
Qed.

Lemma put_ok x a m : lo <= a -> a + 4 <= hi -> exists m', put_user_ual sz x a pg m = Ok m' /\ wrote_at a (le32 x) m m'.
Proof.
  intros A E. unfold put_user_ual, put_user. rewrite lock_write by lia. cbn [res_bind]. unfold __put_user.
  cbn [sizeof_ok existsb Nat.eqb orb res_bind]. rewrite le_bytes4. eexists. split; [reflexivity|].
  apply wrote_write, map_u8_le32.
Qed.

Lemma memcpy_ok a bs m : lo <= a -> (0 < length bs)%nat -> Z.of_nat (length bs) < 2147483648 -> a + Z.of_nat (length bs) <= hi ->
  exists m', memcpy_to_target sz a bs pg m = Ok (0, m') /\ wrote_at a (map u8 bs) m m'.
Proof.
  intros A N S E. unfold memcpy_to_target, copy_to_user. rewrite lock_write by lia. cbn [res_bind].
  eexists. split; [reflexivity|]. split; [apply at_bytes_write|]. intros x Hx. rewrite length_map in Hx.
  now apply write_bytes_out.
Qed.

(** ** Pushing *)

(** The auxiliary vector, from its last entry up. *)
Definition auxv (l : list (Z * Z)) : list Z := concat ((fun e => [e.1; e.2]) <$> rev l).

Lemma auxv_cons e l : auxv (e :: l) = auxv l ++ [e.1; e.2].
Proof. unfold auxv. cbn [rev]. now rewrite fmap_app, concat_app. Qed.
Lemma auxv_length l : Z.of_nat (length (auxv l)) = 2 * Z.of_nat (length l).
Proof. induction l as [|e l IH]; [done|]. rewrite auxv_cons, length_app. cbn [length]. lia. Qed.

Lemma aux_ents_ok l : forall sp m, lo <= sp - 8 * Z.of_nat (length l) -> sp <= hi -> exists m',
  new_aux_ents sz l sp pg m = Ok (sp - 8 * Z.of_nat (length l), m') /\
  wrote_at (sp - 8 * Z.of_nat (length l)) (words (auxv l)) m m'.
Proof.
  destruct (us_range _ _ _ _ U) as [U1 U2].
  induction l as [|[id v] l IH]; intros sp m A B; cbn [new_aux_ents].
  { exists m. cbn. rewrite Z.sub_0_r. split; [done|apply wrote_nil]. }
  cbn [length] in *. cbv zeta. rewrite (u32_small (sp - 4)), (u32_small (sp - 4 - 4)) by lia.
  destruct (put_ok v (sp - 4) m) as (m1 & -> & W1); [lia|lia|]. cbn [res_bind].
  destruct (put_ok id (sp - 4 - 4) m1) as (m2 & -> & W2); [lia|lia|]. cbn [res_bind].
  destruct (IH (sp - 4 - 4) m2) as (m3 & -> & W3); [lia|lia|].
  replace (sp - 4 - 4 - 8 * Z.of_nat (length l)) with (sp - 8 * Z.of_nat (S (length l))) in * by lia.
  exists m3. split; [done|]. rewrite auxv_cons, words_app. cbn [fst snd].
  eapply wrote_down; [|exact W3]. rewrite words_length, auxv_length.
  replace (sp - 8 * Z.of_nat (S (length l)) + 4 * (2 * Z.of_nat (length l))) with (sp - 4 - 4) by lia.
  rewrite !words_cons. unfold words at 1. cbn [fmap list_fmap concat]. rewrite app_nil_r.
  eapply wrote_down; [|exact W2]. rewrite length_le32. now replace (sp - 4 - 4 + Z.of_nat 4) with (sp - 4) by lia.
Qed.

(** ** Arrays of pointers *)

(** Where strings that follow each other from [a] on start. *)
Fixpoint ptrs (a : Z) (l : list (list Z)) : list Z :=
  match l with
  | [] => []
  | s :: l => a :: ptrs (a + Z.of_nat (length (cstr s))) l
  end.

Lemma ptrs_length l : forall a, length (ptrs a l) = length l.
Proof. induction l as [|s l IH]; intros a; cbn; [done|]. now rewrite IH. Qed.

Lemma block_cons s l : block (s :: l) = cstr s ++ block l.
Proof. done. Qed.

(** The [k]-th pointer leads to the [k]-th string. *)
Lemma ptrs_string l : forall m a k s, at_bytes m a (block l) -> l !! k = Some s ->
  exists p, ptrs a l !! k = Some p /\ a <= p /\ p + Z.of_nat (length (cstr s)) <= a + Z.of_nat (length (block l)) /\ at_bytes m p (cstr s).
Proof.
  induction l as [|t l IH]; intros m a k s B E; [done|]. rewrite block_cons in B |- *. rewrite length_app.
  apply at_bytes_app in B as [B1 B2]. destruct k as [|k].
  - injection E as ->. exists a. split; [done|]. split; [lia|]. split; [lia|done].
  - destruct (IH m _ k s B2 E) as (p & P & A1 & A2 & Q). exists p. split; [done|]. split; [lia|]. split; [lia|done].
Qed.

(** A string of characters that are not zero. *)
Definition string_ok (s : list Z) : Prop := Forall (fun c => 0 < c < 256) s.

Lemma cstr_length s : Z.of_nat (length (cstr s)) = Z.of_nat (length s) + 1.
Proof. unfold cstr. rewrite length_app. cbn. lia. Qed.

Lemma at_bytes_lookup m bs : forall a i b, at_bytes m a bs -> bs !! i = Some b -> ld8 m (a + Z.of_nat i) = b.
Proof.
  induction bs as [|c bs IH]; intros a i b B E; [done|]. apply at_bytes_cons in B as [B1 B2]. destruct i as [|i].
  - injection E as <-. now rewrite Z.add_0_r.
  - replace (a + Z.of_nat (S i)) with (a + 1 + Z.of_nat i) by lia. now apply IH.
Qed.

Lemma strlen_ok a s m : string_ok s -> at_bytes m a (cstr s) -> lo <= a -> a + Z.of_nat (length (cstr s)) <= hi ->
  Z.of_nat (length s) <= 0x7fffffff -> target_strlen sz a pg m = Ok (Z.of_nat (length s)).
Proof.
  intros S B A E N. destruct (us_range _ _ _ _ U) as [U1 U2]. rewrite cstr_length in E.
  assert (K : is_strlen pg m a (Z.of_nat (length s))).
  { split; [lia|lia|..].
    - intros i Hi. destruct (lookup_lt_is_Some_2 s (Z.to_nat i)) as [c Hc]; [lia|].
      replace (a + i) with (a + Z.of_nat (Z.to_nat i)) by lia. rewrite (at_bytes_lookup m (cstr s) a _ c B).
      + apply (Forall_lookup_1 _ _ _ _ S) in Hc. lia.
      + unfold cstr. now apply lookup_app_l_Some.
    - apply (at_bytes_lookup m (cstr s) a _ 0 B). unfold cstr. rewrite lookup_app_r, Nat.sub_diag by lia. done.
    - intros j Hj. pose proof (us_read _ _ _ _ U a (Z.of_nat (length s) + 1) A ltac:(lia) ltac:(lia)) as R.
      unfold readable in R. rewrite forallb_forall in R. apply R. apply list_elem_of_In, elem_of_seqZ.
      replace (a + (Z.of_nat (length s) + 1) - 1) with (a + Z.of_nat (length s)) by lia. lia. }
  destruct (target_strlen_run sz pg m a ltac:(lia)) as (r & E1 & [K1|[_ K2]]).
  - rewrite E1. f_equal. eapply is_strlen_unique; eauto.
  - now destruct (K2 _ K).
Qed.

Lemma put_strings_ok l : Forall string_ok l -> forall argv a m, Z.of_nat (length (block l)) <= 0x7fffffff ->
  at_bytes m a (block l) -> lo <= argv -> argv + 4 * Z.of_nat (length l) <= a -> a + Z.of_nat (length (block l)) <= hi ->
  exists m', put_strings sz (length l) argv a pg m =
      Ok (argv + 4 * Z.of_nat (length l), a + Z.of_nat (length (block l)), m') /\ wrote_at argv (words (ptrs a l)) m m'.
Proof.
  destruct (us_range _ _ _ _ U) as [U1 U2].
  induction 1 as [|s l S _ IH]; intros argv a m Sh B A D E; cbn [length put_strings].
  { exists m. cbn [block]. change (Z.of_nat (length (block []))) with 0. rewrite !Z.add_0_r. split; [done|apply wrote_nil]. }
  rewrite block_cons in *. rewrite length_app, Nat2Z.inj_add in *. cbn [length] in D.
  pose proof (cstr_length s) as Ls. destruct (put_ok a argv m) as (m1 & -> & W1); [lia|lia|]. cbn [res_bind].
  apply at_bytes_app in B as [B1 B2].
  assert (C1 : at_bytes m1 a (cstr s)) by (apply (wrote_keep _ _ _ _ _ _ W1 B1); rewrite length_le32; lia).
  assert (C2 : at_bytes m1 (a + Z.of_nat (length (cstr s))) (block l)) by (apply (wrote_keep _ _ _ _ _ _ W1 B2); rewrite length_le32; lia).
  rewrite (strlen_ok a s m1 S C1) by lia. cbn [res_bind]. rewrite (u32_small (argv + 4)), (u32_small (a + _)) by lia.
  replace (a + (Z.of_nat (length s) + 1)) with (a + Z.of_nat (length (cstr s))) by lia.
  destruct (IH (argv + 4) (a + Z.of_nat (length (cstr s))) m1) as (m2 & -> & W2); [lia|done|lia|lia|lia|].
  exists m2. split; [do 3 f_equal; lia|]. cbn [ptrs]. rewrite words_cons.
  eapply wrote_up; [exact W1|]. rewrite length_le32. exact W2.
Qed.

(** ** The arrays and the count *)

(** What [loader_build_argptr] puts at the stack pointer, without the pointers
    to the arrays. *)
Definition arg_words (p : Z) (argv envp : list (list Z)) : list Z :=
  Z.of_nat (length argv) :: ptrs p argv ++ [0] ++ ptrs (p + Z.of_nat (length (block argv))) envp ++ [0].

Lemma arg_words_length p argv envp : length (arg_words p argv envp) = (length argv + length envp + 3)%nat.
Proof. unfold arg_words. cbn [length]. rewrite !length_app, !ptrs_length. cbn. lia. Qed.

Lemma words_one x : words [x] = le32 x.
Proof. unfold words. cbn. reflexivity. Qed.

Lemma argptr_ok argv envp sp p m : Forall string_ok argv -> Forall string_ok envp ->
  Z.of_nat (length (block argv)) + Z.of_nat (length (block envp)) <= 0x7fffffff ->
  at_bytes m p (block argv ++ block envp) ->
  let n := Z.of_nat (length argv + length envp + 3) in
  lo <= sp - 4 * n -> sp <= p -> p + Z.of_nat (length (block argv)) + Z.of_nat (length (block envp)) <= hi ->
  exists m', loader_build_argptr sz (Z.of_nat (length envp)) (Z.of_nat (length argv)) sp p false pg m =
    Ok (sp - 4 * n, (p, p + Z.of_nat (length (block argv))), m') /\ wrote_at (sp - 4 * n) (words (arg_words p argv envp)) m m'.
Proof.
  intros Sa Se Sh B n A D E. destruct (us_range _ _ _ _ U) as [U1 U2]. apply at_bytes_app in B as [Ba Be].
  unfold loader_build_argptr. cbv zeta. cbn [res_bind]. rewrite !Nat2Z.id.
  set (ne := Z.of_nat (length envp)) in *. set (na := Z.of_nat (length argv)) in *.
  assert (Hn : n = na + ne + 3) by lia. clearbody n.
  rewrite (u32_small (sp - (ne + 1) * 4)), (u32_small (sp - (ne + 1) * 4 - (na + 1) * 4)),
    (u32_small (sp - (ne + 1) * 4 - (na + 1) * 4 - 4)) by lia.
  set (ep := sp - (ne + 1) * 4). set (ap := ep - (na + 1) * 4).
  assert (Eap : ap = sp - 4 * n + 4) by lia. assert (Eep : ep = ap + 4 * na + 4) by lia.
  destruct (put_ok na (ap - 4) m) as (m1 & -> & W1); [lia|lia|]. cbn [res_bind].
  destruct (put_strings_ok argv Sa ap p m1) as (m2 & -> & W2); [lia| |lia|lia|lia|].
  { apply (wrote_keep _ _ _ _ _ _ W1 Ba). rewrite length_le32. lia. }
  cbn [res_bind]. fold na. destruct (put_ok 0 (ap + 4 * na) m2) as (m3 & -> & W3); [lia|lia|]. cbn [res_bind].
  pose proof (words_length (ptrs p argv)) as La. rewrite ptrs_length in La. fold na in La.
  destruct (put_strings_ok envp Se ep (p + Z.of_nat (length (block argv))) m3) as (m4 & -> & W4); [lia| |lia|lia|lia|].
  { apply (wrote_keep _ _ _ _ _ _ W3); [|rewrite length_le32; lia]. apply (wrote_keep _ _ _ _ _ _ W2); [|lia].
    apply (wrote_keep _ _ _ _ _ _ W1 Be). rewrite length_le32. lia. }
  cbn [res_bind]. fold ne. destruct (put_ok 0 (ep + 4 * ne) m4) as (m5 & -> & W5); [lia|lia|]. cbn [res_bind].
  exists m5. replace (ap - 4) with (sp - 4 * n) in * by lia. split; [done|].
  unfold arg_words. rewrite words_cons, !words_app, !words_one. fold na.
  pose proof (words_length (ptrs (p + Z.of_nat (length (block argv))) envp)) as Le. rewrite ptrs_length in Le. fold ne in Le.
  eapply wrote_up; [exact W1|]. rewrite length_le32. replace (sp - 4 * n + Z.of_nat 4) with ap by lia.
  eapply wrote_up; [exact W2|]. rewrite La.
  eapply wrote_up; [exact W3|]. rewrite length_le32. replace (ap + 4 * na + Z.of_nat 4) with ep by lia.
  eapply wrote_up; [exact W4|]. now rewrite Le.
Qed.

(** ** The whole stack *)

(** Everything from the stack pointer on. *)
Definition stack_words (p : Z) (argv envp : list (list Z)) (aux : list (Z * Z)) : list Z :=
  arg_words p argv envp ++ auxv aux.

Lemma platform_length ids : length (cstr (get_elf_platform ids)) = 5%nat.
Proof. done. Qed.

Lemma platform_bytes ids : 0 <= cpuid_version ids -> map u8 (cstr (get_elf_platform ids)) = cstr (get_elf_platform ids).
Proof.
  intros V. unfold get_elf_platform, cstr. cbn [map app]. set (f := Z.land (Z.shiftr (cpuid_version ids) 8) 0xff).
  assert (0 <= f) by (apply Z.land_nonneg; right; lia).
  repeat f_equal. apply u8_small. destruct (Z.gtb_spec f 6); [destruct (Z.geb_spec 6 3)|destruct (Z.geb_spec f 3)]; lia.
Qed.

(** Alignment to sixteen bytes. *)
Lemma align16 x : 0 <= x < 4294967296 -> Z.land x (u32 (Z.lnot 15)) = x - x mod 16.
Proof. intros Hx. apply (land_align x 4); lia. Qed.

Lemma tables_ok argv envp p exec la lb ib ids m : Forall string_ok argv -> Forall string_ok envp ->
  Z.of_nat (length (block argv)) + Z.of_nat (length (block envp)) <= 0x7fffffff ->
  at_bytes m p (block argv ++ block envp) -> 0 <= cpuid_version ids ->
  lo <= p - 4 * Z.of_nat (length argv + length envp) - 180 ->
  p + Z.of_nat (length (block argv)) + Z.of_nat (length (block envp)) <= hi ->
  let aux := aux_ents exec la lb ib (p - 8) ids in
  exists sp m',
    create_elf_tables sz p (Z.of_nat (length argv)) (Z.of_nat (length envp)) exec la lb ib true ids pg m =
      Ok (sp, (sp + 4 * Z.of_nat (length (arg_words p argv envp)), (p, p + Z.of_nat (length (block argv)))), m') /\
    at_bytes m' sp (words (stack_words p argv envp aux)) /\ sp mod 16 = 8 /\ sp < p /\
    at_bytes m' (p - 8) (cstr (get_elf_platform ids)) /\ at_bytes m' p (block argv ++ block envp).
Proof.
  intros Sa Se Sh B V A E aux. destruct (us_range _ _ _ _ U) as [U1 U2].
  unfold create_elf_tables. cbv zeta. rewrite (platform_length ids). change (Z.land (Z.of_nat 5 + 3) (u32 (Z.lnot 3))) with 8.
  set (na := Z.of_nat (length argv)) in *. set (ne := Z.of_nat (length envp)) in *.
  assert (Hn : Z.of_nat (length argv + length envp) = na + ne) by lia. rewrite Hn in A.
  rewrite (u32_small (p - 8)) by lia.
  destruct (memcpy_ok (p - 8) (cstr (get_elf_platform ids)) m) as (m1 & -> & W1); rewrite ?platform_length; try lia.
  rewrite platform_bytes in W1 by done. cbn [res_bind]. rewrite align16 by lia.
  assert (B1 : at_bytes m1 p (block argv ++ block envp)).
  { apply (wrote_keep _ _ _ _ _ _ W1 B). rewrite platform_length. lia. }
  unfold tables_size. change ((DLINFO_ITEMS + 1) * 2 + 2) with 28.
  set (sz4 := (28 + (ne + na + 2) + 1) * 4). change 15 with (Z.ones 4). rewrite (Z.land_ones sz4 4) by lia. change (2 ^ 4) with 16.
  set (sp2 := p - 8 - (p - 8) mod 16). set (sp3 := if negb (sz4 mod 16 =? 0) then _ else sp2).
  assert (S3 : sp3 = sp2 - (- sz4) mod 16 /\ sp3 <= p - 8 /\ p - 40 <= sp3).
  { subst sp3. assert (p - 23 <= sp2 <= p - 8) by (unfold sp2; Z.div_mod_to_equations; lia).
    destruct (Z.eqb_spec (sz4 mod 16) 0) as [Z0|Z0]; cbn [negb].
    - rewrite Z.mod_opp_l_z by lia. lia.
    - rewrite Z.mod_opp_l_nz by lia. rewrite u32_small by (Z.div_mod_to_equations; lia).
      Z.div_mod_to_equations. lia. }
  destruct S3 as (S3 & L3 & M3). clearbody sp3. fold aux.
  destruct (aux_ents_ok aux sp3 m1) as (m2 & -> & W2); [cbn; lia|lia|]. cbn [res_bind]. change (Z.of_nat (length aux)) with 15 in *.
  change (8 * 15) with 120 in *.
  assert (La : Z.of_nat (length (words (auxv aux))) = 120) by (rewrite words_length, auxv_length; done).
  assert (B2 : at_bytes m2 p (block argv ++ block envp)) by (apply (wrote_keep _ _ _ _ _ _ W2 B1); lia).
  destruct (argptr_ok argv envp (sp3 - 120) p m2 Sa Se Sh B2) as (m3 & Er & W3); [lia|lia|lia|].
  fold na ne in Er. cbn [negb]. rewrite Er. cbn [res_bind]. set (sp := sp3 - 120 - 4 * Z.of_nat (length argv + length envp + 3)) in *.
  pose proof (words_length (arg_words p argv envp)) as Lw. rewrite arg_words_length in Lw.
  exists sp, m3. rewrite arg_words_length.
  split; [do 4 f_equal; subst sp; lia|]. split; [|split; [|split; [lia|split]]].
  - unfold stack_words. rewrite words_app. eapply (wrote_down sp (words (arg_words p argv envp)) (words (auxv aux)) m1 m2 m3); [|exact W3].
    rewrite Lw. replace (sp + 4 * Z.of_nat (length argv + length envp + 3)) with (sp3 - 120) by lia. exact W2.
  - subst sp. rewrite S3. unfold sp2, sz4. replace (Z.of_nat (length argv + length envp + 3)) with (na + ne + 3) by lia.
    clear. Z.div_mod_to_equations. lia.
  - apply (wrote_keep _ _ _ _ _ _ W3); [|rewrite platform_length; lia].
    apply (wrote_keep _ _ _ _ _ _ W2 (proj1 W1)). rewrite platform_length. lia.
  - apply (wrote_keep _ _ _ _ _ _ W3 B2). lia.
Qed.

(** ** The argument pages in memory *)

Lemma arg_pages_ok n : forall i base page m, 0 <= i -> lo <= base + 4096 * i -> base + 4096 * (i + Z.of_nat n) <= hi ->
  exists m', copy_arg_pages sz n i (base + 4096 * i) page pg m = Ok m' /\
    (forall x, base + 4096 * i <= x < base + 4096 * (i + Z.of_nat n) -> page ((x - base) / 4096) <> None ->
       ld8 m' x = u8 (flat page (x - base))) /\
    forall x, x < base + 4096 * i \/ base + 4096 * (i + Z.of_nat n) <= x -> m' !! x = m !! x.
Proof.
  destruct (us_range _ _ _ _ U) as [U1 U2].
  induction n as [|n IH]; intros i base page m I A E; cbn [copy_arg_pages].
  { exists m. split; [done|]. split; [lia|done]. }
  change TARGET_PAGE_SIZE with 4096. rewrite (u32_small (base + 4096 * i + 4096)) by lia.
  replace (base + 4096 * i + 4096) with (base + 4096 * (i + 1)) by lia.
  assert (Lf : forall f : Z -> Z, length (f <$> seqZ 0 4096) = 4096%nat) by (intros f; now rewrite length_fmap, length_seqZ).
  assert (One : exists m1, match page i with
      | Some f => let? (_, m) := memcpy_to_target sz (base + 4096 * i) (f <$> seqZ 0 4096) pg m in Ok m
      | None => Ok m end = Ok m1 /\ (forall x, base + 4096 * i <= x < base + 4096 * (i + 1) -> page i <> None ->
        ld8 m1 x = u8 (flat page (x - base))) /\
      forall x, x < base + 4096 * i \/ base + 4096 * (i + 1) <= x -> m1 !! x = m !! x).
  { destruct (page i) as [f|] eqn:P; [|now exists m].
    destruct (memcpy_ok (base + 4096 * i) (f <$> seqZ 0 4096) m) as (m1 & -> & W); rewrite ?Lf; try lia. cbn [res_bind].
    exists m1. split; [done|]. split.
    - intros x Hx _. destruct W as [W _].
      replace x with (base + 4096 * i + Z.of_nat (Z.to_nat (x - base - 4096 * i))) at 1 by lia.
      apply (at_bytes_lookup _ _ _ _ _ W). change (map u8 (f <$> seqZ 0 4096)) with (u8 <$> (f <$> seqZ 0 4096)).
      rewrite !list_lookup_fmap, lookup_seqZ_lt by lia. cbn.
      unfold flat. change TARGET_PAGE_SIZE with 4096. replace ((x - base) / 4096) with i by (Z.div_mod_to_equations; lia).
      rewrite P. do 3 f_equal. Z.div_mod_to_equations. lia.
    - intros x Hx. apply (proj2 W). rewrite length_map, Lf. lia. }
  destruct One as (m1 & -> & R1 & F1). cbn [res_bind].
  destruct (IH (i + 1) base page m1) as (m2 & -> & R2 & F2); [lia|lia|lia|]. exists m2. split; [done|]. split.
  - intros x Hx P. destruct (Z.lt_ge_cases x (base + 4096 * (i + 1))) as [L|G]; [|apply R2; [lia|done]].
    rewrite (ld8_ext m1 m2) by (apply F2; lia). apply R1; [lia|].
    now replace i with ((x - base) / 4096) by (Z.div_mod_to_equations; lia).
  - intros x Hx. rewrite F2, F1 by lia. done.
Qed.

End Area.

(** The strings of the program, stacked. *)
Lemma program_strings_ok filename argv envp : Forall bytes_ok argv -> Forall bytes_ok envp -> bytes_ok filename ->
  let bs := block argv ++ block envp ++ block [filename] in
  Z.of_nat (length bs) < initial_p ->
  exists page, program_strings filename argv envp = Ok (initial_p - Z.of_nat (length bs), page) /\
    put_at (initial_p - Z.of_nat (length bs)) bs no_pages page.
Proof.
  intros Ba Be Bf bs Fit. subst bs. rewrite !length_app in *. unfold program_strings.
  assert (Ip : initial_p <= TARGET_PAGE_SIZE * MAX_ARG_PAGES) by (vm_compute; discriminate).
  destruct (copy_run [filename] no_pages initial_p) as (p1 & g1 & -> & Q1); [now constructor|lia|].
  destruct (Z.leb_spec (Z.of_nat (length (block [filename]))) initial_p); [|lia]. destruct Q1 as [-> Q1]. cbn [res_bind].
  destruct (copy_run envp g1 (initial_p - Z.of_nat (length (block [filename])))) as (p2 & g2 & -> & Q2); [done|lia|].
  destruct (Z.leb_spec (Z.of_nat (length (block envp))) (initial_p - Z.of_nat (length (block [filename])))); [|lia].
  destruct Q2 as [-> Q2]. cbn [res_bind].
  destruct (copy_run argv g2 (initial_p - Z.of_nat (length (block [filename])) - Z.of_nat (length (block envp)))) as (p3 & g3 & -> & Q3); [done|lia|].
  destruct (Z.leb_spec (Z.of_nat (length (block argv))) (initial_p - Z.of_nat (length (block [filename])) - Z.of_nat (length (block envp)))); [|lia].
  destruct Q3 as [-> Q3]. exists g3.
  set (q := initial_p - Z.of_nat (length (block [filename])) - Z.of_nat (length (block envp)) - Z.of_nat (length (block argv))) in *.
  replace (initial_p - Z.of_nat (length (block argv) + (length (block envp) + length (block [filename])))) with q by lia.
  split; [done|]. eapply put_at_app; [|exact Q3].
  replace (q + Z.of_nat (length (block argv))) with (initial_p - Z.of_nat (length (block [filename])) - Z.of_nat (length (block envp))) by lia.
  eapply put_at_app; [|exact Q2].
  now replace (initial_p - Z.of_nat (length (block [filename])) - Z.of_nat (length (block envp)) + Z.of_nat (length (block envp)))
    with (initial_p - Z.of_nat (length (block [filename]))) by lia.
Qed.

Lemma at_bytes_of_lookup m bs : forall a, (forall i b, bs !! i = Some b -> ld8 m (a + Z.of_nat i) = b) -> at_bytes m a bs.
Proof.
  induction bs as [|b bs IH]; intros a H; [apply at_bytes_nil|]. apply at_bytes_cons. split.
  - rewrite <- (Z.add_0_r a). now apply (H 0%nat).
  - apply IH. intros i c E. replace (a + 1 + Z.of_nat i) with (a + Z.of_nat (S i)) by lia. now apply H.
Qed.

Lemma string_bytes s : string_ok s -> bytes_ok s.
Proof. intros S. eapply Forall_impl; [exact S|]. intros c C. cbn in *. lia. Qed.
Lemma strings_bytes l : Forall string_ok l -> Forall bytes_ok l.
Proof. intros F. eapply Forall_impl; [exact F|]. apply string_bytes. Qed.
Lemma block_bytes l : Forall string_ok l -> bytes_ok (block l).
Proof.
  induction 1 as [|s l S _ IH]; [constructor|]. rewrite block_cons. apply Forall_app. split; [|done].
  now apply cstr_bytes, string_bytes.
Qed.

(** The [k]-th pointer of an array in a sequence of words. *)
Lemma array_string m sp pre post a l k s : at_bytes m sp (words (pre ++ ptrs a l ++ post)) -> at_bytes m a (block l) ->
  0 <= a -> a + Z.of_nat (length (block l)) < 4294967296 -> l !! k = Some s ->
  at_bytes m (ld32 m (sp + 4 * Z.of_nat (length pre + k))) (cstr s).
Proof.
  intros W B A E Hk. destruct (ptrs_string l m a k s B Hk) as (p & P & P1 & P2 & Q).
  rewrite (words_ld32 _ m sp _ p W), u32_small; [done| |].
  - pose proof (cstr_length s). lia.
  - rewrite lookup_app_r by lia. replace (length pre + k - length pre)%nat with k by lia.
    now apply lookup_app_l_Some.
Qed.

(** The words as seen from each of the arrays. *)
Lemma stack_words_argv p argv envp aux : stack_words p argv envp aux =
  [Z.of_nat (length argv)] ++ ptrs p argv ++ ([0] ++ ptrs (p + Z.of_nat (length (block argv))) envp ++ [0] ++ auxv aux).
Proof. unfold stack_words, arg_words. cbn [app]. rewrite <- app_assoc. cbn [app]. now rewrite <- app_assoc. Qed.
Lemma stack_words_envp p argv envp aux : stack_words p argv envp aux =
  (Z.of_nat (length argv) :: ptrs p argv ++ [0]) ++ ptrs (p + Z.of_nat (length (block argv))) envp ++ ([0] ++ auxv aux).
Proof. rewrite stack_words_argv. cbn [app]. rewrite <- app_assoc. reflexivity. Qed.

(** Pages the guest may read and write. *)
Lemma usable_pages sz pg lo hi : 0 < lo -> lo < hi -> hi < 4294967296 ->
  forallb (fun j => check_page PAGE_READ (flags_of pg j) &&
             match check_write sz (Z.lor PAGE_READ PAGE_WRITE) j pg with Ok r => r =? 0 | Err _ => false end)
    (seqZ (lo / 4096) ((hi - 1) / 4096 - lo / 4096 + 1)) = true -> usable sz pg lo hi.
Proof.
  intros L LH H F. rewrite forallb_forall in F.
  assert (P : forall j, lo / 4096 <= j <= (hi - 1) / 4096 -> check_page PAGE_READ (flags_of pg j) = true /\
    check_write sz (Z.lor PAGE_READ PAGE_WRITE) j pg = Ok 0).
  { intros j Hj. specialize (F j). rewrite <- list_elem_of_In, elem_of_seqZ in F. specialize (F ltac:(lia)).
    apply andb_prop in F as [F1 F2]. split; [done|]. destruct (check_write _ _ _ _) as [r|]; [|done].
    apply Z.eqb_eq in F2. now subst. }
  split; [lia|..].
  - intros a n A N E. unfold readable. rewrite forallb_forall. intros j Hj. rewrite <- list_elem_of_In, elem_of_seqZ in Hj.
    apply P. Z.div_mod_to_equations. lia.
  - intros a A. unfold writable. destruct (P (a / 4096)) as [_ ->]; [Z.div_mod_to_equations; lia|done].
Qed.

(** C21: The stack of a new program. If the strings of the program fit in the argument
    pages, [copy_elf_strings] (three times), the copying of the pages to the stack and
    [create_elf_tables] build, in an area the emulator may use, a stack whose words from the
    final stack pointer on are the count, the pointers to the arguments and a zero, the
    pointers to the environment and a zero, and the auxiliary vector; every pointer leads to
    its string, complete and in order, and the platform's name stands where the vector says.
    The stack pointer is 8 modulo 16: the code means to align it to 16 bytes, but counts one
    entry of the vector too few. *)
Theorem initial_stack_ok sz pg lo hi base filename argv envp exec la lb ib ids m :
  usable sz pg lo hi -> lo <= base - 4 * Z.of_nat (length argv + length envp) - 180 ->
  base + TARGET_PAGE_SIZE * MAX_ARG_PAGES <= hi ->
  Forall string_ok argv -> Forall string_ok envp -> string_ok filename -> 0 <= cpuid_version ids ->
  Z.of_nat (length (block argv ++ block envp ++ block [filename])) < initial_p ->
  exists p page m1 sp info m2,
    program_strings filename argv envp = Ok (p, page) /\
    copy_arg_pages sz (Z.to_nat MAX_ARG_PAGES) 0 base page pg m = Ok m1 /\
    create_elf_tables sz (u32 (p + base)) (Z.of_nat (length argv)) (Z.of_nat (length envp)) exec la lb ib true ids pg m1 =
      Ok (sp, info, m2) /\
    let aux := aux_ents exec la lb ib (p + base - 8) ids in
    at_bytes m2 sp (words (stack_words (p + base) argv envp aux)) /\ sp mod 16 = 8 /\
    at_bytes m2 (p + base - 8) (cstr (get_elf_platform ids)) /\
    (forall k s, argv !! k = Some s -> at_bytes m2 (ld32 m2 (sp + 4 * Z.of_nat (1 + k))) (cstr s)) /\
    (forall k s, envp !! k = Some s -> at_bytes m2 (ld32 m2 (sp + 4 * Z.of_nat (1 + (length argv + (1 + k))))) (cstr s)).
Proof.
  intros U A E Sa Se Sf V Fit. change (TARGET_PAGE_SIZE * MAX_ARG_PAGES) with 135168 in E. destruct (us_range _ _ _ _ U) as [U1 U2].
  destruct (program_strings_ok filename argv envp) as (page & P & Q); try done;
    [now apply strings_bytes|now apply strings_bytes|now apply string_bytes|].
  set (bs := block argv ++ block envp ++ block [filename]) in *. set (p := initial_p - Z.of_nat (length bs)) in *.
  change initial_p with 135164 in *.
  destruct (arg_pages_ok sz pg lo hi U (Z.to_nat MAX_ARG_PAGES) 0 base page m) as (m1 & C & R & _);
    [lia|lia|change (Z.of_nat (Z.to_nat MAX_ARG_PAGES)) with 33; lia|].
  change (Z.of_nat (Z.to_nat MAX_ARG_PAGES)) with 33 in R.
  rewrite Z.mul_0_r, Z.add_0_r in C. exists p, page, m1.
  assert (B : at_bytes m1 (p + base) (block argv ++ block envp)).
  { assert (Bb : bytes_ok bs) by (apply Forall_app; split; [now apply block_bytes|]; apply Forall_app; split;
      [now apply block_bytes|]; apply block_bytes; constructor; [done|constructor]).
    assert (Bs : at_bytes m1 (p + base) bs).
    { apply at_bytes_of_lookup. intros i b Hi. pose proof (lookup_lt_Some _ _ _ Hi) as Li.
      rewrite R; [|lia|].
      - replace (p + base + Z.of_nat i - base) with (p + Z.of_nat i) by lia. rewrite (pa_in _ _ _ _ Q i b Hi).
        apply u8_small. now apply (Forall_lookup_1 _ _ _ _ Bb Hi).
      - replace (p + base + Z.of_nat i - base) with (p + Z.of_nat i) by lia. apply (pa_new _ _ _ _ Q). lia. }
    unfold bs in Bs. rewrite app_assoc in Bs. now apply at_bytes_app in Bs as [Bs _]. }
  assert (Lb : Z.of_nat (length (block argv)) + Z.of_nat (length (block envp)) <= Z.of_nat (length bs)).
  { unfold bs. rewrite !length_app. lia. }
  rewrite u32_small by lia.
  destruct (tables_ok sz pg lo hi U argv envp (p + base) exec la lb ib ids m1) as (sp & m2 & T & W & Al & Sp & Pl & B2); try done; try lia.
  exists sp, (sp + 4 * Z.of_nat (length (arg_words (p + base) argv envp)), (p + base, p + base + Z.of_nat (length (block argv)))), m2.
  split; [exact P|]. split; [exact C|]. split; [exact T|]. split; [exact W|]. split; [exact Al|]. split; [exact Pl|].
  apply at_bytes_app in B2 as [B2 B3]. split; intros k s Hk.
  - rewrite stack_words_argv in W. apply (array_string m2 sp [_] _ (p + base) argv k s W); [done|lia|lia|done].
  - rewrite stack_words_envp in W.
    pose proof (array_string m2 sp _ _ _ envp k s W B3 ltac:(lia) ltac:(lia) Hk) as X.
    cbn [length] in X. rewrite length_app, ptrs_length in X. cbn [length] in X.
    replace (1 + (length argv + (1 + k)))%nat with (S (length argv + 1) + k)%nat by lia. exact X.
Qed.

Definition stack_pages : pagemap :=
  match page_set_flags 0xbfe00000 0xbff00000 (Z.lor PAGE_VALID (Z.lor PAGE_READ PAGE_WRITE)) l1_empty with
  | Ok m => m
  | Err _ => l1_empty
  end.

(** ls -l, with one variable. *)
Theorem initial_stack_ok_witness :
  exists p page m1 sp info m2,
    program_strings [47; 108; 115] [[108; 115]; [45; 108]] [[65; 61; 49]] = Ok (p, page) /\
    copy_arg_pages 4096 (Z.to_nat MAX_ARG_PAGES) 0 0xbfe80000 page stack_pages ∅ = Ok m1 /\
    create_elf_tables 4096 (u32 (p + 0xbfe80000)) 2 1 (mkElfhdr 52 5 0x8048100) 0x8048000 0 0 true
      (mkIds 0 0 0 0 0 100 0x633) stack_pages m1 = Ok (sp, info, m2) /\ sp mod 16 = 8 /\
    at_bytes m2 (ld32 m2 (sp + 4)) [108; 115; 0] /\ at_bytes m2 (ld32 m2 (sp + 16)) [65; 61; 49; 0].
Proof.
  assert (U : usable 4096 stack_pages 0xbfe00000 0xbff00000).
  { apply usable_pages; [lia|lia|lia|]. vm_compute. reflexivity. }
  assert (S1 : string_ok [108; 115] /\ string_ok [45; 108] /\ string_ok [65; 61; 49] /\ string_ok [47; 108; 115]).
  { repeat split; repeat constructor; lia. }
  destruct S1 as (S1 & S2 & S3 & S4).
  destruct (initial_stack_ok 4096 stack_pages 0xbfe00000 0xbff00000 0xbfe80000 [47; 108; 115] [[108; 115]; [45; 108]] [[65; 61; 49]]
    (mkElfhdr 52 5 0x8048100) 0x8048000 0 0 (mkIds 0 0 0 0 0 100 0x633) ∅) as (p & page & m1 & sp & info & m2 & P & C & T & _ & A & _ & X & Y).
  - exact U.
  - cbn. lia.
  - change (TARGET_PAGE_SIZE * MAX_ARG_PAGES) with 135168. lia.
  - repeat constructor; assumption.
  - repeat constructor; assumption.
  - exact S4.
  - cbn. lia.
  - vm_compute. reflexivity.
  - exists p, page, m1, sp, info, m2. split; [exact P|]. split; [exact C|]. split; [exact T|]. split; [exact A|].
    split; [exact (X 0%nat _ eq_refl)|exact (Y 0%nat _ eq_refl)].
Defined.
