(* ===== verification/DispatchThm.v ===== *)
(** The dispatcher's contract: the block it finds, and the direct branch it
    links. *)

From S2P Require Import Prelude Memory Opcode Decode DecodeSpec DecodeThm State TransBlock Emit.
From S2P Require Import Translate CpuExec Frame Session Linking GenCode Translation Dispatch.

(** [get_next_tb] returns a block that translates the given address and is
    translated: the newest one the tables know, translated now if it was only
    allocated, or a new one; translated blocks and every byte outside the new
    code and stubs stay as they are. *)
Theorem get_next_tb_ok `{Layout} dfuel ds p prev s : layout_ok -> (100 < dfuel)%nat ->
  trans_inv s -> room 1 s ->
  guest_ok (smem s) p 100 (code_gen_ptr s) (code_gen_ptr s + gen_room) ->
  exists i s', get_next_tb dfuel ds p prev s = Ok (i, s') /\ next_tb s p i s'.
Proof.
  intros L F I R G. destruct (runs_done _ _ _ (get_next_tb_runs dfuel ds L F p prev s I R G)) as (i & s' & E & K).
  exists i, s'. auto.
Qed.

(** C11: after a direct branch, [dispatch] patches the branch that was taken:
    the displacement recorded in [tb_jmp_offset] of the previous block leads to
    the code of the block that runs next, so the branch does not come back to
    the dispatcher; besides the new code, the new stubs and three words of the
    environment, only these four bytes change. *)
Theorem dispatch_link_ok `{Layout} dfuel ds p s :
  let a := tc_ptr (tbs s p) + tb_jmp_offset (tbs s p) (env_patch_num s) in
  layout_ok -> (100 < dfuel)%nat -> trans_inv s -> room 1 s ->
  guest_ok (smem s) (env_eip s) 100 (code_gen_ptr s) (code_gen_ptr s + gen_room) ->
  env_ind_type s = NOT_IND -> (p < nb_tbs s)%nat -> tc_ptr (tbs s p) <> NOT_TRANS_YET ->
  L_code <= a -> a + 4 <= code_gen_ptr s ->
  exists i s', dispatch dfuel ds (Some p) s = Ok (i, s') /\
    dispatched (fun x => a <= x < a + 4) s i s' /\
    (i <> p -> rel_dest (smem s') a = u32 (tc_ptr (tbs s' i))).
Proof.
  intros a L F I R G Ty Hp Tp A1 A2.
  destruct (runs_done _ _ _ (dispatch_link_runs dfuel ds L F p s I R G Ty Hp Tp A1 A2)) as (i & s' & E & K).
  exists i, s'. auto.
Qed.

(** ** Examples *)

(** A translated block at 0x8047000 with an open branch at offset 3, and the
    example code as the next target. *)
Definition demo_direct : st := set_nb_tbs 1 (set_tbs (fun i =>
  match i with
  | 0%nat => set_pc 0x8047000 (set_tc_ptr 0x10000000 (set_tb_jmp_offset (fun _ => 3) raw_tb))
  | _ => raw_tb end) (set_tb_phys_hash (<[tb_phys_hash_func 0x8047000 := 0%nat]> ∅)
    (set_code_gen_ptr 0x10000080 (init_st (@st32 (@A_ind_type demo_layout) NOT_IND
      (st32 (@A_eip demo_layout) 0x8048000 demo_mem)))))).

Lemma demo_direct_inv : @trans_inv demo_layout demo_direct.
Proof.
  constructor.
  - split; [constructor|].
    + intros h. unfold prev_same. cbn. destruct (Z.eqb_spec (tb_phys_hash_func 0x8047000) h) as [<-|D].
      * reflexivity.
      * now rewrite lookup_insert_ne, lookup_empty by congruence.
    + intros [|i] Hi; [reflexivity|cbn in Hi; lia].
    + intros [|i] Hi; [reflexivity|cbn in Hi; lia].
    + intros h i E. discriminate.
    + intros [|i] Hi; [now vm_compute|cbn in Hi; lia].
    + cbn. lia.
  - intros [|i] Hi; [done|cbn in Hi; lia].
  - intros [|i] Hi; [right; cbn; lia|cbn in Hi; lia].
  - cbn. lia.
  - cbn. lia.
  - vm_compute. reflexivity.
Qed.

Lemma demo_direct_room : @room demo_layout 1 demo_direct.
Proof. constructor; vm_compute; done. Qed.

Lemma demo_direct_guest : guest_ok (smem demo_direct) 0x8048000 100 0x10000080 (0x10000080 + gen_room).
Proof.
  apply (guest_ok_straight _ _ _ _ _ je_code); [vm_compute; reflexivity..|lia|vm_compute; done|].
  left. vm_compute. done.
Qed.

Lemma get_next_tb_ok_witness :
  exists i s', @get_next_tb demo_layout 101 ds_zero 0x8048000 (Some 0%nat) demo_direct = Ok (i, s') /\
    pc (tbs s' i) = 0x8048000.
Proof.
  destruct (@get_next_tb_ok demo_layout 101 ds_zero 0x8048000 (Some 0%nat) demo_direct demo_layout_ok
    ltac:(lia) demo_direct_inv demo_direct_room demo_direct_guest) as (i & s' & R & N).
  exists i, s'. split; [exact R|exact (@nx_pc demo_layout _ _ _ _ N)].
Defined.

Lemma dispatch_link_ok_witness :
  exists i s', @dispatch demo_layout 101 ds_zero (Some 0%nat) demo_direct = Ok (i, s') /\
    pc (tbs s' i) = 0x8048000 /\
    (i <> 0%nat -> rel_dest (smem s') 0x10000003 = u32 (tc_ptr (tbs s' i))).
Proof.
  destruct (@dispatch_link_ok demo_layout 101 ds_zero 0%nat demo_direct) as (i & s' & R & D & K).
  - exact demo_layout_ok.
  - lia.
  - exact demo_direct_inv.
  - exact demo_direct_room.
  - exact demo_direct_guest.
  - vm_compute. reflexivity.
  - cbn. lia.
  - vm_compute. discriminate.
  - vm_compute. discriminate.
  - vm_compute. discriminate.
  - exists i, s'. split; [exact R|]. split; [apply (@dp_pc demo_layout _ _ _ _ D)|exact K].
Defined.
