(* ===== verification/Machine.v ===== *)
(** The i386, for the instructions the translator emits itself: what the bytes
    of its stubs mean.  Instructions are read from memory with the opcode maps
    of the decoder ([parse]); [exec] gives the effect of each, as the processor
    manual does.  Theorems about stubs are stated on [step]. *)

From S2P Require Import Prelude Memory Opcode DecodeTable Decode DecodeSpec DecodeProofs DecodeThm.
From S2P Require Import State.

(** ** The processor *)

Record cpu := mkCpu { regs : Z -> Z; ip : Z; flags : Z; cmem : mem }.

Definition set_reg (r v : Z) (c : cpu) : cpu := mkCpu (<[r := v]> (regs c)) (ip c) (flags c) (cmem c).
Definition set_ip (v : Z) (c : cpu) : cpu := mkCpu (regs c) v (flags c) (cmem c).
Definition set_flags (v : Z) (c : cpu) : cpu := mkCpu (regs c) (ip c) v (cmem c).
Definition store (a v : Z) (c : cpu) : cpu :=
  mkCpu (regs c) (ip c) (flags c) (st32 a v (cmem c)).

Definition esp (c : cpu) : Z := regs c R_ESP.

Definition push (v : Z) (c : cpu) : cpu :=
  store (u32 (esp c - 4)) v (set_reg R_ESP (u32 (esp c - 4)) c).
Definition pop (c : cpu) : Z * cpu :=
  (ld32 (cmem c) (esp c), set_reg R_ESP (u32 (esp c + 4)) c).

(** A displacement: sign-extended when short. *)
Definition disp_val (l : list Z) : Z :=
  match l with [d] => s8 d | _ => le_val l end.

(** The address a memory operand denotes (32-bit addressing). *)
Definition ea (i : insn) (c : cpu) : Z :=
  let mb := default 0 (i_modrm i) in
  let base :=
    match i_sib i with
    | Some sb =>
        (if (sib_base sb =? 5) && (modrm_mod mb =? 0) then 0 else regs c (sib_base sb)) +
        (if sib_index sb =? 4 then 0 else Z.shiftl (regs c (sib_index sb)) (sib_ss sb))
    | None => if (modrm_mod mb =? 0) && (modrm_rm mb =? 5) then 0 else regs c (modrm_rm mb)
    end in
  u32 (base + disp_val (i_disp i)).

(** The register or memory operand. *)
Definition read_rm (i : insn) (c : cpu) : Z :=
  let mb := default 0 (i_modrm i) in
  if modrm_mod mb =? 3 then regs c (modrm_rm mb) else ld32 (cmem c) (ea i c).
Definition write_rm (i : insn) (v : Z) (c : cpu) : cpu :=
  let mb := default 0 (i_modrm i) in
  if modrm_mod mb =? 3 then set_reg (modrm_rm mb) v c else store (ea i c) v c.

(** Condition [cc] of a [jcc], on the flags. *)
Definition cond (cc fl : Z) : bool :=
  let cf := Z.testbit fl 0 in let pf := Z.testbit fl 2 in let zf := Z.testbit fl 6 in
  let sf := Z.testbit fl 7 in let vf := Z.testbit fl 11 in
  let t := match cc / 2 with
           | 0 => vf | 1 => cf | 2 => zf | 3 => cf || zf | 4 => sf | 5 => pf
           | 6 => xorb sf vf | _ => xorb sf vf || zf
           end in
  if Z.odd cc then negb t else t.

(** The effect of an instruction; [None] for those outside the fragment. *)
Definition exec (i : insn) (c : cpu) : option cpu :=
  let op := i_op i in
  let mb := default 0 (i_modrm i) in
  let r := modrm_reg mb in
  let n := u32 (ip c + Z.of_nat (length (encode i))) in
  let c' := set_ip n c in
  let imm := le_val (i_iv i) in
  if i_two i then
    if op =? 0xb7 then
      if modrm_mod mb =? 3 then Some (set_reg r (u16 (regs c (modrm_rm mb))) c')
      else Some (set_reg r (ld16 (cmem c) (ea i c)) c')
    else if Z.land op 0xf0 =? 0x80 then
      Some (if cond (Z.land op 0xf) (flags c) then set_ip (u32 (n + imm)) c else c')
    else None
  else if Z.land op 0xf8 =? 0x50 then Some (push (regs c (Z.land op 7)) c')
  else if Z.land op 0xf8 =? 0x58 then
    let p := pop c' in Some (set_reg (Z.land op 7) p.1 p.2)
  else if op =? 0x68 then Some (push imm c')
  else if op =? 0x89 then Some (write_rm i (regs c r) c')
  else if op =? 0x8b then Some (set_reg r (read_rm i c) c')
  else if op =? 0x8d then (if modrm_mod mb =? 3 then None else Some (set_reg r (ea i c) c'))
  else if op =? 0x8f then
    (if r =? 0 then let p := pop c' in Some (write_rm i p.1 p.2) else None)
  else if op =? 0x9c then Some (push (flags c) c')
  else if op =? 0x9d then let p := pop c' in Some (set_flags p.1 p.2)
  else if op =? 0xc3 then let p := pop c' in Some (set_ip p.1 p.2)
  else if op =? 0xc7 then (if r =? 0 then Some (write_rm i imm c') else None)
  else if op =? 0xe3 then
    Some (if regs c R_ECX =? 0 then set_ip (u32 (n + disp_val (i_ib i))) c else c')
  else if op =? 0xe9 then Some (set_ip (u32 (n + imm)) c)
  else if op =? 0xff then
    (if r =? 6 then Some (push (read_rm i c) c')
     else if r =? 4 then Some (set_ip (read_rm i c) c) else None)
  else None.

(** Emitted code carries no prefixes. *)
Definition step (c : cpu) : option cpu := exec (parse (cmem c) (ip c) 0) c.

Fixpoint steps (n : nat) (c : cpu) : option cpu :=
  match n with O => Some c | S n' => c' ← step c; steps n' c' end.

(** ** Symbolic execution *)

(** Some number of steps leads to a state with [Q]. *)
Definition leads (c : cpu) (Q : cpu -> Prop) : Prop :=
  exists n c', steps n c = Some c' /\ Q c'.

Lemma leads_now c (Q : cpu -> Prop) : Q c -> leads c Q.
Proof. intros K. now exists 0%nat, c. Qed.

Lemma leads_step c c1 Q : step c = Some c1 -> leads c1 Q -> leads c Q.
Proof. intros E (n & c' & R & K). exists (S n), c'. cbn. now rewrite E. Qed.

Lemma leads_trans c (P Q : cpu -> Prop) : leads c P -> (forall c1, P c1 -> leads c1 Q) -> leads c Q.
Proof.
  intros (n & c1 & R & K) F. destruct (F c1 K) as (k & c2 & R2 & K2). exists (n + k)%nat, c2.
  split; [|done]. clear -R R2. revert c R. induction n as [|n IH]; intros c R.
  - injection R as ->. done.
  - cbn in *. destruct (step c) as [c'|]; [|done]. cbn in *. now apply IH.
Qed.

(** All of [wf_insn] but the ranges of the bytes, without prefixes. *)
Definition shape (i : insn) : bool :=
  match i_prefixes i with [] => true | _ => false end &&
  (i_two i || negb (is_prefix (i_op i) || (i_op i =? 0x0f))) &&
  eqb (wants_modrm i) (match i_modrm i with Some _ => true | None => false end) &&
  match select i with
  | None => false
  | Some (_, at_) =>
      let mb := default 0 (i_modrm i) in
      eqb (wants_sib (addr32 i) at_ mb)
          (match i_sib i with Some _ => true | None => false end) &&
      (length (i_disp i) =? disp_len (addr32 i) at_ mb (i_sib i))%nat &&
      (length (i_iw i) =? (if hasb at_ DF_Iw then 2 else 0))%nat &&
      (length (i_ib i) =? (if hasb at_ DF_Ib then 1 else 0))%nat &&
      (length (i_iv i) =? iv_len (data32 i) (addr32 i) at_)%nat &&
      (length (i_sel i) =? (if hasb at_ DF_Ap then 2 else 0))%nat
  end.

Lemma shape_wf i m a : shape i = true -> at_bytes m a (encode i) -> wf_insn i = true.
Proof.
  intros S B. unfold wf_insn. rewrite (at_bytes_is_byte _ _ _ B). unfold shape in S.
  rewrite !andb_true_iff in S. destruct S as [[[S1 S2] S3] S4].
  rewrite S2, S3, S4. destruct (i_prefixes i); done.
Qed.

(** The machine reads the instruction that lies there. *)
Lemma parse_insn m a i : shape i = true -> at_bytes m a (encode i) -> parse m a 0 = i.
Proof.
  intros S B. pose proof (shape_wf i m a S B) as W.
  assert (P : i_prefixes i = []).
  { unfold shape in S. rewrite !andb_true_iff in S. destruct S as [[[S _] _] _].
    now destruct (i_prefixes i). }
  apply (encode_unique_aux m a); try done; [|apply parse_at_bytes].
  apply parse_wf; [intros k Hk; lia|]. rewrite Z.add_0_r.
  destruct (wf_insn_inv i W) as (_ & _ & C & _).
  destruct (opcode_head i C) as (c & r & E & Q & _).
  unfold encode in B. rewrite P, E in B. cbn [app] in B. apply at_bytes_cons in B as [-> _].
  exact Q.
Qed.

Lemma leads_insn m a i c c1 Q : at_bytes m a (encode i) -> shape i = true -> cmem c = m -> ip c = a ->
  exec i c = Some c1 -> leads c1 Q -> leads c Q.
Proof.
  intros B S <- <- E. apply leads_step. unfold step. now rewrite (parse_insn _ _ i).
Qed.

(** ** The instructions of the stubs *)

Lemma le_val_le32 v : le_val (le32 v) = u32 v.
Proof. rewrite <- of_le32_le32. unfold le32, le_val, of_le32. lia. Qed.

Lemma disp_val_le32 v : disp_val (le32 v) = u32 v.
Proof. apply le_val_le32. Qed.

Definition i_load_ecx : insn := Insn [] false 0x8b (Some 0x4c) (Some 0x24) [4] [] [] [] [].
Definition i_lea_ecx (d : Z) : insn := Insn [] false 0x8d (Some 0x89) None (le32 d) [] [] [] [].
Definition i_jecxz (d : Z) : insn := Insn [] false 0xe3 None None [] [] [d] [] [].
Definition i_jmp (d : Z) : insn := Insn [] false 0xe9 None None [] [] [] (le32 d) [].
Definition i_push_ecx : insn := Insn [] false 0x51 None None [] [] [] [] [].
Definition i_pop_ecx : insn := Insn [] false 0x59 None None [] [] [] [] [].
Definition i_lea_esp4 : insn := Insn [] false 0x8d (Some 0x64) (Some 0x24) [4] [] [] [] [].
Definition i_movzwl : insn := Insn [] true 0xb7 (Some 0xc9) None [] [] [] [] [].
Definition i_lea_table (d : Z) : insn :=
  Insn [] false 0x8d (Some 0x0c) (Some 0xcd) (le32 d) [] [] [] [].
Definition i_jmp_ecx : insn := Insn [] false 0xff (Some 0xe1) None [] [] [] [] [].
Definition i_pop_mem (d : Z) : insn := Insn [] false 0x8f (Some 0x05) None (le32 d) [] [] [] [].
Definition i_mov_mem (d v : Z) : insn :=
  Insn [] false 0xc7 (Some 0x05) None (le32 d) [] [] (le32 v) [].

Lemma stub_shapes d v :
  shape i_load_ecx && shape (i_lea_ecx d) && shape (i_jecxz d) && shape (i_jmp d) &&
  shape i_push_ecx && shape i_pop_ecx && shape i_lea_esp4 && shape i_movzwl &&
  shape (i_lea_table d) && shape i_jmp_ecx && shape (i_pop_mem d) && shape (i_mov_mem d v) = true.
Proof. vm_compute. reflexivity. Qed.

(** Register reads after updates. *)
Ltac reg_eq :=
  repeat first [rewrite fn_lookup_insert | rewrite fn_lookup_insert_ne by first [discriminate | congruence]].

(** Peel the instruction of [k] bytes at [a] off [H]. *)
Lemma at_bytes_peel m a k b x y : at_bytes m a (x ++ y) -> Z.of_nat (length x) = k -> b = a + k ->
  at_bytes m a x /\ at_bytes m b y.
Proof. intros B <- ->. now apply at_bytes_app. Qed.

Ltac peel H k b B :=
  lazymatch type of H with
  | at_bytes _ ?a (_ ++ _) =>
      destruct (at_bytes_peel _ a k b _ _ H eq_refl ltac:(lia)) as [B H0];
      clear H; rename H0 into H
  end.

(** An address from which an instruction does not wrap around. *)
Definition code_addr (a : Z) : Prop := 0 <= a < 4294967280.

Lemma gpr_cases g : 0 <= g < 8 -> g = 0 \/ g = 1 \/ g = 2 \/ g = 3 \/ g = 4 \/ g = 5 \/ g = 6 \/ g = 7.
Proof. lia. Qed.

(** Each instruction as a rule: its bytes lie at the instruction pointer. *)
Section Rules.
Variables (m : mem) (a : Z) (r : Z -> Z) (f : Z) (Q : cpu -> Prop).
Hypothesis Ha : code_addr a.
Let here := mkCpu r a f m.

(** The next instruction follows. *)
Lemma l_next i k r' f' m' : at_bytes m a (encode i) -> shape i = true ->
  Z.of_nat (length (encode i)) = k -> k <= 15 ->
  exec i here = Some (mkCpu r' (u32 (a + Z.of_nat (length (encode i)))) f' m') ->
  leads (mkCpu r' (a + k) f' m') Q -> leads here Q.
Proof.
  intros B S <- Hk E K. apply (leads_insn m a i here _ Q B S eq_refl eq_refl E).
  unfold code_addr in Ha. rewrite u32_small by lia. exact K.
Qed.

(** A jump. *)
Lemma l_go i t : at_bytes m a (encode i) -> shape i = true ->
  exec i here = Some (mkCpu r t f m) -> leads (mkCpu r t f m) Q -> leads here Q.
Proof. intros B S E. now apply (leads_insn m a i here _ Q B S). Qed.

Lemma l_jmp t : at_bytes m a (0xe9 :: le32 (t - (a + 1) - 4)) ->
  leads (mkCpu r (u32 t) f m) Q -> leads here Q.
Proof.
  intros B. apply (l_go (i_jmp (t - (a + 1) - 4)) _ B); [reflexivity|].
  change (exec _ _) with (Some (mkCpu r (u32 (u32 (a + 5) + le_val (le32 (t - (a + 1) - 4)))) f m)).
  rewrite le_val_le32, u32_add_l, u32_add_r. do 3 f_equal. lia.
Qed.

Lemma l_load_ecx : at_bytes m a [0x8b; 0x4c; 0x24; 4] ->
  leads (mkCpu (<[R_ECX := ld32 m (u32 (r R_ESP + 4))]> r) (a + 4) f m) Q -> leads here Q.
Proof.
  intros B. apply (l_next i_load_ecx 4 _ _ _ B); try reflexivity; try lia.
  change (exec _ _) with
    (Some (mkCpu (<[R_ECX := ld32 m (u32 (r R_ESP + 0 + 4))]> r) (u32 (a + 4)) f m)).
  now rewrite Z.add_0_r.
Qed.

Lemma l_lea_ecx d : at_bytes m a (0x8d :: 0x89 :: le32 d) ->
  leads (mkCpu (<[R_ECX := u32 (r R_ECX + d)]> r) (a + 6) f m) Q -> leads here Q.
Proof.
  intros B. apply (l_next (i_lea_ecx d) 6 _ _ _ B); try reflexivity; try lia.
  change (exec _ _) with
    (Some (mkCpu (<[R_ECX := u32 (r R_ECX + disp_val (le32 d))]> r) (u32 (a + 6)) f m)).
  now rewrite disp_val_le32, u32_add_r.
Qed.

Lemma l_jecxz d : at_bytes m a [0xe3; d] -> 0 <= d < 128 -> a + 2 + d < 4294967296 ->
  leads (mkCpu r (if r R_ECX =? 0 then a + 2 + d else a + 2) f m) Q -> leads here Q.
Proof.
  intros B D1 D2. apply (l_go (i_jecxz d) _ B); [reflexivity|].
  change (exec _ _) with
    (Some (if r R_ECX =? 0 then mkCpu r (u32 (u32 (a + 2) + s8 d)) f m else mkCpu r (u32 (a + 2)) f m)).
  assert (s8 d = d) as -> by (unfold s8; rewrite u8_small by lia; destruct (d <? 128) eqn:E; lia).
  unfold code_addr in Ha. rewrite u32_add_l, !u32_small by lia. now destruct (r R_ECX =? 0).
Qed.

Lemma l_pop_ecx : at_bytes m a [0x59] ->
  leads (mkCpu (<[R_ECX := ld32 m (r R_ESP)]> (<[R_ESP := u32 (r R_ESP + 4)]> r)) (a + 1) f m) Q ->
  leads here Q.
Proof. intros B. now apply (l_next i_pop_ecx 1 _ _ _ B). Qed.

Lemma l_push_ecx : at_bytes m a [0x51] ->
  leads (mkCpu (<[R_ESP := u32 (r R_ESP - 4)]> r) (a + 1) f (st32 (u32 (r R_ESP - 4)) (r R_ECX) m)) Q ->
  leads here Q.
Proof. intros B. now apply (l_next i_push_ecx 1 _ _ _ B). Qed.

Lemma l_lea_esp4 : at_bytes m a [0x8d; 0x64; 0x24; 4] ->
  leads (mkCpu (<[R_ESP := u32 (r R_ESP + 4)]> r) (a + 4) f m) Q -> leads here Q.
Proof.
  intros B. apply (l_next i_lea_esp4 4 _ _ _ B); try reflexivity; try lia.
  change (exec _ _) with (Some (mkCpu (<[R_ESP := u32 (r R_ESP + 0 + 4)]> r) (u32 (a + 4)) f m)).
  now rewrite Z.add_0_r.
Qed.

Lemma l_movzwl : at_bytes m a [0x0f; 0xb7; 0xc9] ->
  leads (mkCpu (<[R_ECX := u16 (r R_ECX)]> r) (a + 3) f m) Q -> leads here Q.
Proof. intros B. now apply (l_next i_movzwl 3 _ _ _ B). Qed.

(** [lea d(,%ecx,8), %ecx] *)
Lemma l_lea_table d : at_bytes m a (0x8d :: 0x0c :: 0xcd :: le32 d) ->
  leads (mkCpu (<[R_ECX := u32 (Z.shiftl (r R_ECX) 3 + d)]> r) (a + 7) f m) Q -> leads here Q.
Proof.
  intros B. apply (l_next (i_lea_table d) 7 _ _ _ B); try reflexivity; try lia.
  change (exec _ _) with (Some (mkCpu (<[R_ECX := u32 (0 + Z.shiftl (r R_ECX) 3 + disp_val (le32 d))]> r)
    (u32 (a + 7)) f m)).
  now rewrite disp_val_le32, u32_add_r.
Qed.

Lemma l_jmp_ecx : at_bytes m a [0xff; 0xe1] ->
  leads (mkCpu r (r R_ECX) f m) Q -> leads here Q.
Proof. intros B. now apply (l_go i_jmp_ecx _ B). Qed.

Lemma l_pop_mem d : at_bytes m a (0x8f :: 0x05 :: le32 d) ->
  leads (mkCpu (<[R_ESP := u32 (r R_ESP + 4)]> r) (a + 6) f (st32 (u32 d) (ld32 m (r R_ESP)) m)) Q ->
  leads here Q.
Proof.
  intros B. apply (l_next (i_pop_mem d) 6 _ _ _ B); try reflexivity; try lia.
  change (exec _ _) with (Some (mkCpu (<[R_ESP := u32 (r R_ESP + 4)]> r) (u32 (a + 6)) f
    (st32 (u32 (0 + disp_val (le32 d))) (ld32 m (r R_ESP)) m))).
  now rewrite disp_val_le32, Z.add_0_l, u32_u32.
Qed.

Lemma l_mov_mem d v : at_bytes m a (0xc7 :: 0x05 :: le32 d ++ le32 v) ->
  leads (mkCpu r (a + 10) f (st32 (u32 d) v m)) Q -> leads here Q.
Proof.
  intros B. apply (l_next (i_mov_mem d v) 10 _ _ _ B); try reflexivity; try lia.
  change (exec _ _) with (Some (mkCpu r (u32 (a + 10)) f
    (st32 (u32 (0 + disp_val (le32 d))) (le_val (le32 v)) m))).
  rewrite disp_val_le32, Z.add_0_l, u32_u32, le_val_le32. do 2 f_equal.
  unfold st32. now rewrite le32_u32.
Qed.

(** The general registers, by number. *)
Lemma l_push_reg g : 0 <= g < 8 -> at_bytes m a [0x50 + g] ->
  leads (mkCpu (<[R_ESP := u32 (r R_ESP - 4)]> r) (a + 1) f (st32 (u32 (r R_ESP - 4)) (r g) m)) Q ->
  leads here Q.
Proof.
  intros G B. apply (l_next (Insn [] false (0x50 + g) None None [] [] [] [] []) 1 _ _ _ B); try reflexivity; try lia;
    apply gpr_cases in G; decompose [or] G; subst g; reflexivity.
Qed.

Lemma l_pop_reg g : 0 <= g < 8 -> at_bytes m a [0x58 + g] ->
  leads (mkCpu (<[g := ld32 m (r R_ESP)]> (<[R_ESP := u32 (r R_ESP + 4)]> r)) (a + 1) f m) Q ->
  leads here Q.
Proof.
  intros G B. apply (l_next (Insn [] false (0x58 + g) None None [] [] [] [] []) 1 _ _ _ B); try reflexivity; try lia;
    apply gpr_cases in G; decompose [or] G; subst g; reflexivity.
Qed.

(** [mov %g, d] and [mov d, %g] *)
Lemma l_save_reg g d : 0 <= g < 8 -> at_bytes m a (0x89 :: (5 + 8 * g) :: le32 d) ->
  leads (mkCpu r (a + 6) f (st32 (u32 d) (r g) m)) Q -> leads here Q.
Proof.
  intros G B. apply (l_next (Insn [] false 0x89 (Some (5 + 8 * g)) None (le32 d) [] [] [] []) 6 _ _ _ B);
    try reflexivity; try lia; apply gpr_cases in G.
  - decompose [or] G; subst g; reflexivity.
  - replace (u32 d) with (u32 (0 + disp_val (le32 d))) by (now rewrite disp_val_le32, Z.add_0_l, u32_u32).
    decompose [or] G; subst g; reflexivity.
Qed.

Lemma l_load_reg g d : 0 <= g < 8 -> at_bytes m a (0x8b :: (5 + 8 * g) :: le32 d) ->
  leads (mkCpu (<[g := ld32 m (u32 d)]> r) (a + 6) f m) Q -> leads here Q.
Proof.
  intros G B. apply (l_next (Insn [] false 0x8b (Some (5 + 8 * g)) None (le32 d) [] [] [] []) 6 _ _ _ B);
    try reflexivity; try lia; apply gpr_cases in G.
  - decompose [or] G; subst g; reflexivity.
  - replace (u32 d) with (u32 (0 + disp_val (le32 d))) by (now rewrite disp_val_le32, Z.add_0_l, u32_u32).
    decompose [or] G; subst g; reflexivity.
Qed.

Lemma l_push_imm v : at_bytes m a (0x68 :: le32 v) ->
  leads (mkCpu (<[R_ESP := u32 (r R_ESP - 4)]> r) (a + 5) f (st32 (u32 (r R_ESP - 4)) v m)) Q -> leads here Q.
Proof.
  intros B. apply (l_next (Insn [] false 0x68 None None [] [] [] (le32 v) []) 5 _ _ _ B); try reflexivity; try lia.
  change (exec _ _) with (Some (mkCpu (<[R_ESP := u32 (r R_ESP - 4)]> r) (u32 (a + 5)) f
    (st32 (u32 (r R_ESP - 4)) (le_val (le32 v)) m))).
  rewrite le_val_le32. do 2 f_equal. unfold st32. now rewrite le32_u32.
Qed.

Lemma l_popf : at_bytes m a [0x9d] ->
  leads (mkCpu (<[R_ESP := u32 (r R_ESP + 4)]> r) (a + 1) (ld32 m (r R_ESP)) m) Q -> leads here Q.
Proof. intros B. now apply (l_next (Insn [] false 0x9d None None [] [] [] [] []) 1 _ _ _ B). Qed.

Lemma l_pushf : at_bytes m a [0x9c] ->
  leads (mkCpu (<[R_ESP := u32 (r R_ESP - 4)]> r) (a + 1) f (st32 (u32 (r R_ESP - 4)) f m)) Q ->
  leads here Q.
Proof. intros B. now apply (l_next (Insn [] false 0x9c None None [] [] [] [] []) 1 _ _ _ B). Qed.

Lemma l_jmp_abs d : at_bytes m a (0xff :: 0x25 :: le32 d) ->
  leads (mkCpu r (ld32 m (u32 d)) f m) Q -> leads here Q.
Proof.
  intros B. apply (l_go (Insn [] false 0xff (Some 0x25) None (le32 d) [] [] [] []) _ B); [reflexivity|].
  change (exec _ _) with (Some (mkCpu r (ld32 m (u32 (0 + disp_val (le32 d)))) f m)).
  now rewrite disp_val_le32, Z.add_0_l, u32_u32.
Qed.

Lemma l_ret : at_bytes m a [0xc3] ->
  leads (mkCpu (<[R_ESP := u32 (r R_ESP + 4)]> r) (ld32 m (r R_ESP)) f m) Q -> leads here Q.
Proof. intros B. now apply (leads_insn m a (Insn [] false 0xc3 None None [] [] [] [] []) here _ Q B). Qed.
End Rules.
