(* ===== verification/Sieve.v ===== *)
(** The sieve of src/target-i386/translate.c: a hash table whose buckets are
    chains of compare-and-jump nodes.  [add_sieve_entry] extends a finite map
    from guest to host addresses, and running the sieve looks its target up. *)

From S2P Require Import Prelude Memory Opcode Decode DecodeSpec State TransBlock Emit Translate.
From S2P Require Import CpuExec Frame Linking Translation Dispatch Machine.

(** ** What the tables hold *)

Definition sieve_len : Z := 16.

(** The chain at [a]: a node per pair, then [out]. *)
Fixpoint chain (m : mem) (lo hi out a : Z) (l : list (Z * Z)) : Prop :=
  match l with
  | [] => a = out
  | (p, tc) :: l' =>
      lo <= a /\ a + node_len <= hi /\ 0 <= p < 4294967296 /\ 0 <= tc < 4294967296 /\
      exists next, at_bytes m a (items_bytes a (node_items p tc next)) /\
        0 <= next < 4294967296 /\ chain m lo hi out next l'
  end.

(** The answer of a chain. *)
Fixpoint chain_lookup (l : list (Z * Z)) (p : Z) : option Z :=
  match l with
  | [] => None
  | (q, tc) :: l' => if q =? p then Some tc else chain_lookup l' p
  end.

Section Sieve.
Context `{Layout}.

Definition sv_out : Z := L_prologue + 256.
Definition bucket (k : Z) : Z := A_sieve_hashtable + 8 * k.

(** The sieve holds the chains [T], indexed by the low 16 bits of the target. *)
Record sieve_inv (s : st) (T : Z -> list (Z * Z)) : Prop := {
  si_stub : sieve_stub s = L_sieve /\
    at_bytes (smem s) L_sieve (items_bytes L_sieve sieve_items);
  si_top : L_sieve + sieve_len <= sieve_code_ptr s <= L_sieve + DEFAULT_SIEVE_BUFFER_SIZE;
  si_out : at_bytes (smem s) sv_out
    (items_bytes sv_out (exit_items (tb_ret_addr (cgc s)) (-1) IND_TYPE_CALL));
  si_bucket : forall k, 0 <= k < SIEVE_SIZE ->
    ld8 (smem s) (bucket k) = 0xe9 /\
    chain (smem s) (L_sieve + sieve_len) (sieve_code_ptr s) sv_out
      (rel_dest (smem s) (bucket k + 1)) (T k) }.

Lemma chain_mono m lo hi hi' out l : forall a, hi <= hi' ->
  chain m lo hi out a l -> chain m lo hi' out a l.
Proof.
  induction l as [|[p tc] l IH]; intros a Hh C; [done|].
  destruct C as (C1 & C2 & C3 & C4 & next & C5 & C6 & C7).
  split; [done|]. split; [lia|]. split; [done|]. split; [done|]. exists next. auto.
Qed.

(** Chains depend on the bytes of the nodes only. *)
Lemma chain_ext m m' lo hi out l : (forall x, lo <= x < hi -> m' !! x = m !! x) ->
  forall a, chain m lo hi out a l -> chain m' lo hi out a l.
Proof.
  intros E. induction l as [|[p tc] l IH]; intros a C; [done|].
  destruct C as (C1 & C2 & C3 & C4 & next & C5 & C6 & C7).
  split; [done|]. split; [done|]. split; [done|]. split; [done|]. exists next.
  split; [|auto]. refine (at_bytes_ext _ _ _ _ _ C5). intros x Hx.
  rewrite items_bytes_length in Hx. change (items_len (node_items p tc next)) with node_len in Hx.
  apply E. lia.
Qed.

Lemma sieve_hash p : layout_ok -> SIEVE_HASH A_sieve_hashtable (u32 (Z.shiftl p 3)) = bucket (u16 p).
Proof.
  intros [_ _ _ _ R _]. unfold SIEVE_HASH, SIEVE_MASK, bucket, SIEVE_SIZE, env_size in *.
  rewrite Z.shiftl_mul_pow2 by lia. change (Z.shiftl (65536 - 1) 3) with (Z.shiftl (Z.ones 16) 3).
  assert (E : Z.land (u32 (p * 2 ^ 3)) (Z.shiftl (Z.ones 16) 3) = 8 * u16 p).
  { replace (8 * u16 p) with (u16 p * 2 ^ 3) by lia. apply Z.bits_inj'. intros i Hi.
    rewrite Z.land_spec, Z.shiftl_spec by done.
    unfold u32, u16. change 4294967296 with (2 ^ 32). change 65536 with (2 ^ 16).
    destruct (Z.lt_ge_cases i 3) as [Lo|Ge].
    - rewrite Z.mul_pow2_bits_low, (Z.testbit_neg_r (Z.ones 16)) by lia. apply andb_false_r.
    - rewrite Z.mul_pow2_bits by lia. destruct (Z.lt_ge_cases i 19) as [Lt|Ge2].
      + rewrite Z.ones_spec_low, andb_true_r by lia. rewrite !Z.mod_pow2_bits_low by lia.
        now rewrite Z.mul_pow2_bits by lia.
      + rewrite Z.ones_spec_high, andb_false_r by lia. now rewrite Z.mod_pow2_bits_high by lia. }
  rewrite E. assert (0 <= u16 p < 65536) by (unfold u16; word_lia).
  apply u32_small. unfold A_sieve_hashtable. lia.
Qed.

(** ** Adding an entry *)

(** What [add_sieve_entry] does for a block at [tc] that translates [p]. *)
Record sieved (p tc : Z) (s s' : st) : Prop := {
  sd_sv : sieve_code_ptr s' = sieve_code_ptr s + node_len;
  sd_mem : forall x, (x < bucket (u16 p) + 1 \/ bucket (u16 p) + 5 <= x) ->
     (x < sieve_code_ptr s \/ sieve_code_ptr s' <= x) -> smem s' !! x = smem s !! x;
  sd_dest : rel_dest (smem s') (bucket (u16 p) + 1) = u32 (sieve_code_ptr s);
  sd_node : at_bytes (smem s') (sieve_code_ptr s) (items_bytes (sieve_code_ptr s)
     (node_items p tc (rel_dest (smem s) (bucket (u16 p) + 1))));
  sd_const : tbs s' = tbs s /\ nb_tbs s' = nb_tbs s /\ tb_phys_hash s' = tb_phys_hash s /\
     tb_jmp_cache s' = tb_jmp_cache s /\ code_gen_ptr s' = code_gen_ptr s /\
     sieve_stub s' = sieve_stub s /\ tb_ret_addr (cgc s') = tb_ret_addr (cgc s) /\
     stb_count (cgc s') = stb_count (cgc s) }.

Lemma u16_range p : 0 <= u16 p < 65536.
Proof. unfold u16. word_lia. Qed.

Lemma bucket_range k : layout_ok -> 0 <= k < SIEVE_SIZE ->
  A_sieve_hashtable <= bucket k /\ bucket k + 8 <= L_env + 791632.
Proof. unfold bucket, A_sieve_hashtable, SIEVE_SIZE. lia. Qed.

Lemma add_sieve_entry_runs i ty s (Q : unit -> st -> Prop) E : layout_ok ->
  tc_ptr (tbs s i) <> NOT_TRANS_YET ->
  L_sieve <= sieve_code_ptr s -> sieve_code_ptr s + node_len <= L_sieve + DEFAULT_SIEVE_BUFFER_SIZE ->
  (forall s', sieved (pc (tbs s i)) (tc_ptr (tbs s i)) s s' -> Q tt s') ->
  runs (add_sieve_entry i ty) s Q E.
Proof.
  intros L Nt V1 V2 K. unfold add_sieve_entry. run. run.
  destruct (Z.eqb_spec (tc_ptr (tbs s i)) NOT_TRANS_YET) as [?|_]; [done|].
  cbv zeta. rewrite sieve_hash by done. set (p := pc (tbs s i)) in *. set (b := bucket (u16 p)).
  run. apply runs_modify. do 4 run. run. apply runs_modify. run. apply runs_modify. run. run.
  change (items_len (node_items _ _ _)) with node_len. st_simpl.
  pose proof (bucket_range (u16 p) L (u16_range p)) as Rb. fold b in Rb.
  destruct L as [_ L2 _ _ L5 _]. unfold env_size, A_sieve_hashtable, node_len in *.
  assert (Eb : u32 (b + 5) = b + 5) by (apply u32_small; lia). rewrite Eb.
  apply runs_ABORT_IF; [lia|]. intros _. apply K.
  assert (Er : u32 (b + 5 + ld32 (smem s) (b + 1)) = rel_dest (smem s) (b + 1))
    by (unfold rel_dest; f_equal; lia). rewrite Er.
  set (m1 := st32 (b + 1) _ (smem s)). set (bs := items_bytes _ _).
  assert (Lb : Z.of_nat (length bs) = node_len) by apply items_bytes_length. unfold node_len in Lb.
  assert (M1 : forall x, (x < b + 1 \/ b + 5 <= x) -> m1 !! x = smem s !! x)
    by (intros x Hx; apply st32_out; lia).
  assert (M2 : forall x, (x < sieve_code_ptr s \/ sieve_code_ptr s + 27 <= x) ->
    write_bytes (sieve_code_ptr s) bs m1 !! x = m1 !! x)
    by (intros x Hx; apply write_bytes_out; rewrite Lb; lia).
  constructor; st_simpl; try done.
  - intros x X1 X2. fold b in X1. unfold node_len in X2. rewrite M2, M1 by lia. done.
  - fold b. rewrite (rel_dest_ext m1) by (intros x Hx; apply M2; lia).
    unfold m1. replace (sieve_code_ptr s - (b + 5)) with (sieve_code_ptr s - (b + 1) - 4) by lia.
    apply rel_dest_poke.
  - fold b. apply at_bytes_items.
Qed.

(** The chains are extended in front. *)
Lemma sieved_inv p tc s s' T : layout_ok -> sieve_inv s T -> sieved p tc s s' ->
  0 <= p < 4294967296 -> 0 <= tc < 4294967296 ->
  sieve_code_ptr s' <= L_sieve + DEFAULT_SIEVE_BUFFER_SIZE ->
  sieve_inv s' (<[u16 p := (p, tc) :: T (u16 p)]> T).
Proof.
  intros L [[S1 S2] V O B] [D1 D2 D3 D4 D5] Hp Htc Hv.
  destruct D5 as (_ & _ & _ & _ & _ & K1 & K2 & _).
  pose proof (bucket_range (u16 p) L (u16_range p)) as Rb.
  pose proof L as [_ L2 _ Lp L5 _]. unfold env_size, A_sieve_hashtable, node_len, sieve_len in *.
  assert (Sv : forall x, L_sieve <= x < sieve_code_ptr s -> smem s' !! x = smem s !! x)
    by (intros x Hx; apply D2; lia).
  constructor; rewrite ?K1, ?K2.
  - split; [done|]. refine (at_bytes_ext _ _ _ _ _ S2). intros x Hx. apply Sv.
    rewrite items_bytes_length in Hx. change (items_len sieve_items) with 16 in Hx. lia.
  - unfold sieve_len. lia.
  - refine (at_bytes_ext _ _ _ _ _ O). intros x Hx. rewrite items_bytes_length in Hx.
    pose proof (exit_items_len (tb_ret_addr (cgc s)) (-1) IND_TYPE_CALL).
    unfold sv_out in *. apply D2; lia.
  - intros k Hk. destruct (B k Hk) as [B1 B2]. pose proof (bucket_range k L Hk) as Rk.
    unfold A_sieve_hashtable in Rk.
    assert (Op : ld8 (smem s') (bucket k) = 0xe9).
    { rewrite <- B1. apply ld8_ext, D2; [unfold bucket in *; lia|lia]. }
    split; [exact Op|].
    assert (Ch : forall a, chain (smem s) (L_sieve + 16) (sieve_code_ptr s) sv_out a (T k) ->
      chain (smem s') (L_sieve + 16) (sieve_code_ptr s') sv_out a (T k)).
    { intros a C. apply (chain_mono _ _ (sieve_code_ptr s)); [lia|].
      apply (chain_ext (smem s)); [|done]. intros x Hx. apply Sv. lia. }
    destruct (Z.eq_dec k (u16 p)) as [->|D].
    + rewrite fn_lookup_insert, D3, u32_small by lia.
      split; [unfold sieve_len; lia|]. split; [unfold node_len; lia|]. split; [done|]. split; [done|].
      eexists. split; [exact D4|]. split; [apply u32_range|]. now apply Ch.
    + rewrite fn_lookup_insert_ne by congruence.
      rewrite (rel_dest_ext (smem s)); [now apply Ch|].
      intros x Hx. apply D2; [unfold bucket in *; lia|lia].
Qed.

(** ** Running the sieve *)

(** The instructions of a node. *)
Lemma node_insns m a p tc next : at_bytes m a (items_bytes a (node_items p tc next)) ->
  at_bytes m a [0x8b; 0x4c; 0x24; 4] /\ at_bytes m (a + 4) (0x8d :: 0x89 :: le32 (- p)) /\
  at_bytes m (a + 10) [0xe3; 5] /\ at_bytes m (a + 12) (0xe9 :: le32 (next - (a + 12 + 1) - 4)) /\
  at_bytes m (a + 17) [0x59] /\ at_bytes m (a + 18) [0x8d; 0x64; 0x24; 4] /\
  at_bytes m (a + 22) (0xe9 :: le32 (tc - (a + 22 + 1) - 4)).
Proof.
  assert (E : items_bytes a (node_items p tc next) =
    [0x8b; 0x4c; 0x24; 4] ++ (0x8d :: 0x89 :: le32 (- p)) ++ [0xe3; 5] ++
    (0xe9 :: le32 (next - (a + 12 + 1) - 4)) ++ [0x59] ++ [0x8d; 0x64; 0x24; 4] ++
    (0xe9 :: le32 (tc - (a + 22 + 1) - 4))).
  { unfold node_items. cbn [items_bytes item_bytes item_len].
    replace (a + 12 + 1) with (a + 1 + 1 + 1 + 1 + 1 + 1 + 4 + 1 + 1 + 1) by lia.
    replace (a + 22 + 1) with (a + 1 + 1 + 1 + 1 + 1 + 1 + 4 + 1 + 1 + 1 + 4 + 1 + 1 + 1 + 1 + 1 + 1) by lia.
    reflexivity. }
  rewrite E. intros B. peel B 4 (a + 4) B1. peel B 6 (a + 10) B2. peel B 2 (a + 12) B3.
  peel B 5 (a + 17) B4. peel B 1 (a + 18) B5. peel B 4 (a + 22) B6. done.
Qed.

(** The state in which a translated target is entered: the saved [%ecx] and the
    target are popped. *)
Record resumed (r : Z -> Z) (f : Z) (m : mem) (tc : Z) (c : cpu) : Prop := {
  rs_ip : ip c = tc;
  rs_ecx : regs c R_ECX = ld32 m (r R_ESP);
  rs_esp : regs c R_ESP = u32 (r R_ESP + 8);
  rs_regs : forall x, x <> R_ECX -> x <> R_ESP -> regs c x = r x;
  rs_flags : flags c = f;
  rs_mem : cmem c = m }.

(** The state at the end of a chain: only [%ecx] has changed. *)
Record missed (r : Z -> Z) (f : Z) (m : mem) (out : Z) (c : cpu) : Prop := {
  ms_ip : ip c = out;
  ms_regs : forall x, x <> R_ECX -> regs c x = r x;
  ms_flags : flags c = f;
  ms_mem : cmem c = m }.

Lemma u32_sub_zero x p : 0 <= x < 4294967296 -> 0 <= p < 4294967296 ->
  (u32 (x + - p) =? 0) = (p =? x).
Proof. intros. unfold u32. word_lia. Qed.

(** Following a chain. *)
Lemma chain_run m lo hi out f l : 0 <= lo -> hi < 4294967280 -> forall a r,
  chain m lo hi out a l -> 0 <= r R_ESP -> r R_ESP + 8 < 4294967296 ->
  let tgt := ld32 m (r R_ESP + 4) in
  leads (mkCpu r a f m)
    (match chain_lookup l tgt with
     | Some tc => resumed r f m tc
     | None => missed r f m out
     end).
Proof.
  intros Hlo Hhi. induction l as [|[p tc] l IH]; intros a r C S1 S2 tgt.
  { cbn in C. subst a. apply leads_now. now constructor. }
  destruct C as (C1 & C2 & C3 & C4 & next & C5 & C6 & C7).
  destruct (node_insns _ _ _ _ _ C5) as (B1 & B2 & B3 & B4 & B5 & B6 & B7).
  unfold node_len in C2. assert (Tr : 0 <= tgt < 4294967296) by apply ld32_range.
  assert (Ad : forall k, 0 <= k <= 27 -> code_addr (a + k)) by (unfold code_addr; lia).
  pose proof (Ad 0 ltac:(lia)) as A0. rewrite Z.add_0_r in A0.
  apply (l_load_ecx m a r f _ A0 B1). rewrite u32_small by lia. fold tgt.
  apply (l_lea_ecx m (a + 4) _ f _ (Ad 4 ltac:(lia)) (- p) B2).
  rewrite fn_lookup_insert. replace (a + 4 + 6) with (a + 10) by lia.
  apply (l_jecxz m (a + 10) _ f _ (Ad 10 ltac:(lia)) 5 B3); [lia|lia|].
  rewrite fn_lookup_insert, u32_sub_zero by done. cbn [chain_lookup].
  destruct (Z.eqb_spec p tgt) as [->|D].
  - replace (a + 10 + 2 + 5) with (a + 17) by lia.
    apply (l_pop_ecx m (a + 17) _ f _ (Ad 17 ltac:(lia)) B5).
    replace (a + 17 + 1) with (a + 18) by lia.
    apply (l_lea_esp4 m (a + 18) _ f _ (Ad 18 ltac:(lia)) B6).
    replace (a + 18 + 4) with (a + 22) by lia.
    apply (l_jmp m (a + 22) _ f _ tc B7). apply leads_now.
    constructor; cbn [regs ip flags cmem]; try done.
    + apply u32_small. lia.
    + reg_eq. rewrite u32_add_l. f_equal. lia.
    + intros x X1 X2. now reg_eq.
  - replace (a + 10 + 2) with (a + 12) by lia.
    apply (l_jmp m (a + 12) _ f _ next B4). rewrite (u32_small next) by lia.
    set (r' := <[R_ECX := _]> _). assert (E : forall x, x <> R_ECX -> r' x = r x)
      by (intros x X; unfold r'; now reg_eq).
    assert (Es : r' R_ESP = r R_ESP) by now apply E.
    specialize (IH next r' C7). rewrite Es in IH. specialize (IH S1 S2). cbv zeta in IH.
    fold tgt in IH. apply (leads_trans _ _ _ IH). intros c K. apply leads_now.
    destruct (chain_lookup l tgt) as [t|].
    + destruct K as [K1 K2 K3 K4 K5 K6]. rewrite Es in K2, K3. constructor; try done.
      intros x X1 X2. rewrite K4 by done. now apply E.
    + destruct K as [K1 K2 K3 K4]. constructor; try done. intros x X. rewrite K2 by done. now apply E.
Qed.

(** ** Leaving for the dispatcher *)

(** The state in which the epilogue is entered: the saved [%ecx] is restored,
    the target is in [env->eip], the block and the kind of branch are noted. *)
Record exited (r : Z -> Z) (f : Z) (m : mem) (ret tb ty : Z) (c : cpu) : Prop := {
  ex_ip : ip c = u32 ret;
  ex_ecx : regs c R_ECX = ld32 m (r R_ESP);
  ex_esp : regs c R_ESP = u32 (r R_ESP + 8);
  ex_regs : forall x, x <> R_ECX -> x <> R_ESP -> regs c x = r x;
  ex_flags : flags c = f;
  ex_eip : ld32 (cmem c) A_eip = ld32 m (r R_ESP + 4);
  ex_tb : ld32 (cmem c) A_ret_tb = if u32 tb =? u32 (-1) then ld32 m A_ret_tb else u32 tb;
  ex_ty : ld32 (cmem c) A_ind_type = if u32 ty =? u32 (-1) then ld32 m A_ind_type else u32 ty;
  ex_mem : forall x, (x < A_eip \/ A_eip + 4 <= x) -> (x < A_ret_tb \/ A_ret_tb + 4 <= x) ->
     (x < A_ind_type \/ A_ind_type + 4 <= x) -> cmem c !! x = m !! x }.

(** An optional store of the exit sequence. *)
Definition opt_store (a v : Z) (m : mem) : mem := if u32 v =? u32 (-1) then m else st32 a v m.

Lemma opt_store_out a v m x : x < a \/ a + 4 <= x -> opt_store a v m !! x = m !! x.
Proof. unfold opt_store. intros Hx. destruct (u32 v =? u32 (-1)); [done|now apply st32_out]. Qed.

Lemma ld32_opt_store a v m :
  ld32 (opt_store a v m) a = if u32 v =? u32 (-1) then ld32 m a else u32 v.
Proof. unfold opt_store. destruct (u32 v =? u32 (-1)); [done|apply ld32_st32]. Qed.

(** Stores into [CPUX86State] leave code where it is. *)
Definition env_only (m m' : mem) : Prop :=
  forall x, (x < L_env \/ L_env + env_size <= x) -> m' !! x = m !! x.
Definition off_env (a n : Z) : Prop := a + n <= L_env \/ L_env + env_size <= a.

Lemma env_code m m' b bs : env_only m m' -> off_env b (Z.of_nat (length bs)) ->
  at_bytes m b bs -> at_bytes m' b bs.
Proof. intros E O. apply at_bytes_ext. intros x Hx. apply E. unfold off_env in O. lia. Qed.

Lemma env_only_store m m' d v : env_only m m' -> L_env <= d -> d + 4 <= L_env + env_size ->
  env_only m (opt_store d v m').
Proof. intros E D1 D2 x Hx. rewrite opt_store_out by lia. now apply E. Qed.

Lemma env_only_st32 m m' d v : env_only m m' -> L_env <= d -> d + 4 <= L_env + env_size ->
  env_only m (st32 d v m').
Proof. intros E D1 D2 x Hx. rewrite st32_out by lia. now apply E. Qed.

(** An optional [movl $v, d], the code lying in [m0]. *)
Lemma opt_run m0 m a r f Q d v l : layout_ok -> code_addr a -> L_env <= d ->
  d + 4 <= L_env + env_size -> env_only m0 m -> off_env a (10 + items_len l) ->
  at_bytes m0 a (items_bytes a ((if u32 v =? u32 (-1) then [] else [E8 0xc7; E8 0x05; E32 d; E32 v]) ++ l)) ->
  (forall b, b = a \/ b = a + 10 -> at_bytes m0 b (items_bytes b l) ->
     env_only m0 (opt_store d v m) -> leads (mkCpu r b f (opt_store d v m)) Q) ->
  leads (mkCpu r a f m) Q.
Proof.
  intros L Ha Hd1 Hd2 En O B K. pose proof (env_only_store m0 m d v En Hd1 Hd2) as En'.
  unfold opt_store in *. destruct (u32 v =? u32 (-1)).
  - apply K; [lia|exact B|exact En].
  - rewrite items_bytes_app in B. peel B 10 (a + 10) B1.
    change (items_len _) with 10 in B. apply (l_mov_mem m a r f Q Ha d v).
    + apply (env_code m0 m); [done| |exact B1]. pose proof (items_len_nonneg l).
      unfold off_env in *. cbn [length app le32 Z.of_nat Pos.of_succ_nat Pos.succ]. lia.
    + destruct L as [_ _ _ _ L5 _]. rewrite u32_small by lia. apply K; [lia|exact B|exact En'].
Qed.

Lemma exit_run m a r f ret tb ty : layout_ok -> 0 <= a -> a + 32 < 4294967280 -> off_env a 32 ->
  at_bytes m a (items_bytes a (exit_items ret tb ty)) ->
  0 <= r R_ESP -> r R_ESP + 8 < 4294967296 ->
  leads (mkCpu r a f m) (exited r f m ret tb ty).
Proof.
  intros L Ha Ha2 O B S1 S2. pose proof L as [_ _ _ _ L5 _]. unfold off_env in O.
  assert (D : forall k, 0 <= k <= 32 -> code_addr (a + k)) by (unfold code_addr; lia).
  unfold exit_items in B. rewrite items_bytes_app in B. peel B 7 (a + 7) B1.
  change (items_len [E8 89; E8 143; E8 5; E32 A_eip]) with 7 in B.
  change (items_bytes a [E8 89; E8 143; E8 5; E32 A_eip]) with ([0x59] ++ (0x8f :: 0x05 :: le32 A_eip)) in B1.
  peel B1 1 (a + 1) B0. pose proof (D 0 ltac:(lia)) as A0. rewrite Z.add_0_r in A0.
  apply (l_pop_ecx m a r f _ A0 B0).
  apply (l_pop_mem m (a + 1) _ f _ (D 1 ltac:(lia)) A_eip B1).
  replace (a + 1 + 6) with (a + 7) by lia. reg_eq. unfold env_size in *.
  rewrite (u32_small A_eip) by (unfold A_eip; lia). rewrite (u32_small (r R_ESP + 4)) by lia.
  set (m1 := st32 A_eip _ m).
  assert (E1 : env_only m m1) by (apply env_only_st32; [done|unfold A_eip, env_size; lia..]).
  eapply (opt_run m m1); [exact L|apply D; lia| | |exact E1| |exact B|];
    try (unfold A_ret_tb, env_size; lia).
  { rewrite items_len_app. unfold off_env, env_size. destruct (u32 ty =? u32 (-1)); cbn; lia. }
  intros b Hb B2 E2. eapply (opt_run m); [exact L| | | |exact E2| |exact B2|];
    try (unfold A_ind_type, env_size; lia).
  { destruct Hb as [->| ->]; [apply D; lia|]. rewrite <- Z.add_assoc. apply D; lia. }
  { unfold off_env, env_size. cbn. lia. }
  intros b' Hb' B3 E3. eapply l_jmp with (t := ret).
  { apply (env_code m); [exact E3| |exact B3]. unfold off_env, env_size. cbn. lia. }
  apply leads_now. unfold m1, A_eip, A_ret_tb, A_ind_type in *.
  constructor; unfold A_eip, A_ret_tb, A_ind_type; cbn [regs ip flags cmem]; try done.
  - reg_eq. f_equal. lia.
  - intros x X1 X2. now reg_eq.
  - rewrite !(ld32_ext (st32 (L_env + 32) (ld32 m (r R_ESP + 4)) m)), ld32_st32.
    + apply u32_small, ld32_range.
    + intros x Hx. rewrite !opt_store_out by lia. done.
  - rewrite (ld32_ext (opt_store (L_env + 56) tb (st32 (L_env + 32) (ld32 m (r R_ESP + 4)) m))).
    + rewrite ld32_opt_store. destruct (u32 tb =? u32 (-1)); [|done].
      apply ld32_ext. intros x Hx. apply st32_out. lia.
    + intros x Hx. rewrite opt_store_out by lia. done.
  - rewrite ld32_opt_store. destruct (u32 ty =? u32 (-1)); [|done].
    apply ld32_ext. intros x Hx. rewrite opt_store_out by lia. apply st32_out. lia.
  - intros x X1 X2 X3. rewrite !opt_store_out by lia. apply st32_out. lia.
Qed.

(** From the stub, through the bucket, along the chain. *)
Lemma stub_run s T r f Q : layout_ok -> sieve_inv s T ->
  0 <= r R_ESP -> r R_ESP + 8 < 4294967296 ->
  let tgt := ld32 (smem s) (r R_ESP + 4) in
  (forall r', (forall x, x <> R_ECX -> r' x = r x) ->
     leads (mkCpu r' (rel_dest (smem s) (bucket (u16 tgt) + 1)) f (smem s)) Q) ->
  leads (mkCpu r (sieve_stub s) f (smem s)) Q.
Proof.
  intros L [[S1 S2] V O B] E1 E2 tgt K. rewrite S1. pose proof L as [_ _ _ _ L5 _].
  unfold DEFAULT_SIEVE_BUFFER_SIZE, env_size in *. set (m := smem s) in *.
  change (items_bytes L_sieve sieve_items) with ([0x8b; 0x4c; 0x24; 4] ++ [0x0f; 0xb7; 0xc9] ++
    (0x8d :: 0x0c :: 0xcd :: le32 A_sieve_hashtable) ++ [0xff; 0xe1]) in S2.
  peel S2 4 (L_sieve + 4) B1. peel S2 3 (L_sieve + 7) B2. peel S2 7 (L_sieve + 14) B3.
  assert (D : forall k, 0 <= k <= 16 -> code_addr (L_sieve + k)) by (unfold code_addr; lia).
  pose proof (D 0 ltac:(lia)) as A0. rewrite Z.add_0_r in A0.
  apply (l_load_ecx m L_sieve r f _ A0 B1). rewrite (u32_small (r R_ESP + 4)) by lia. fold tgt.
  apply (l_movzwl m (L_sieve + 4) _ f _ (D 4 ltac:(lia)) B2).
  replace (L_sieve + 4 + 3) with (L_sieve + 7) by lia.
  apply (l_lea_table m (L_sieve + 7) _ f _ (D 7 ltac:(lia)) A_sieve_hashtable B3).
  replace (L_sieve + 7 + 7) with (L_sieve + 14) by lia.
  apply (l_jmp_ecx m (L_sieve + 14) _ f _ S2). reg_eq.
  pose proof (u16_range tgt) as U. pose proof (bucket_range (u16 tgt) L U) as Rb.
  replace (u32 (Z.shiftl (u16 tgt) 3 + A_sieve_hashtable)) with (bucket (u16 tgt)).
  2:{ rewrite Z.shiftl_mul_pow2 by lia. unfold bucket, A_sieve_hashtable in *. rewrite u32_small; lia. }
  destruct (B (u16 tgt) U) as [B4 _].
  unfold A_sieve_hashtable in Rb.
  apply (l_jmp m (bucket (u16 tgt)) _ f _ (rel_dest m (bucket (u16 tgt) + 1))).
  { apply at_bytes_cons. split; [exact B4|]. unfold rel_dest.
    set (b1 := bucket (u16 tgt) + 1). rewrite <- le32_u32.
    replace (u32 (b1 + 4 + ld32 m b1) - b1 - 4) with (u32 (b1 + 4 + ld32 m b1) + (- b1 - 4)) by lia.
    rewrite u32_add_l. replace (b1 + 4 + ld32 m b1 + (- b1 - 4)) with (ld32 m b1) by lia.
    rewrite le32_u32. apply at_bytes_ld32. }
  rewrite u32_small by apply u32_range. apply K. intros x X. now reg_eq.
Qed.

Lemma sieve_run s T r f : layout_ok -> sieve_inv s T ->
  0 <= r R_ESP -> r R_ESP + 8 < 4294967296 ->
  let tgt := ld32 (smem s) (r R_ESP + 4) in
  leads (mkCpu r (sieve_stub s) f (smem s))
    (match chain_lookup (T (u16 tgt)) tgt with
     | Some tc => resumed r f (smem s) tc
     | None => exited r f (smem s) (tb_ret_addr (cgc s)) (-1) IND_TYPE_CALL
     end).
Proof.
  intros L I E1 E2 tgt. apply (stub_run s T r f _ L I E1 E2). intros r' Er. fold tgt.
  assert (Es : r' R_ESP = r R_ESP) by now apply Er.
  destruct I as [_ V O B]. destruct (B (u16 tgt) (u16_range tgt)) as [_ C].
  pose proof L as [_ _ _ (Lp & _) L5 _]. unfold DEFAULT_SIEVE_BUFFER_SIZE, sieve_len in *.
  assert (Lo : 0 <= L_sieve + 16) by lia. assert (Hi : sieve_code_ptr s < 4294967280) by lia.
  pose proof (chain_run (smem s) _ _ sv_out f (T (u16 tgt)) Lo Hi _ r' C) as K. clear Lo Hi.
  rewrite Es in K. specialize (K E1 E2). cbv zeta in K. fold tgt in K.
  apply (leads_trans _ _ _ K). intros c Kc. destruct (chain_lookup (T (u16 tgt)) tgt) as [tc|].
  - apply leads_now. destruct Kc as [K1 K2 K3 K4 K5 K6]. rewrite Es in K2, K3.
    constructor; try done. intros x X1 X2. rewrite K4 by done. now apply Er.
  - destruct c as [rc ipc fc mc], Kc as [K1 K2 K3 K4]. cbn [ip regs flags cmem] in *.
    subst ipc fc mc. assert (Ec : rc R_ESP = r R_ESP) by (rewrite K2; done).
    assert (Lo : off_env sv_out 32) by (unfold off_env, sv_out; lia).
    pose proof (exit_run (smem s) sv_out rc f (tb_ret_addr (cgc s)) (-1) IND_TYPE_CALL L
      ltac:(unfold sv_out; lia) ltac:(unfold sv_out; lia) Lo O) as X.
    rewrite Ec in X. apply (leads_trans _ _ _ (X E1 E2)). intros c Kc. apply leads_now.
    destruct Kc as [X1 X2 X3 X4 X5 X6 X7 X8 X9]. rewrite Ec in X2, X3, X6.
    constructor; try done. intros x Y1 Y2. rewrite X4, K2 by done. now apply Er.
Qed.

End Sieve.
