(* ===== verification/Prologue.v ===== *)
(** [codecache_prologue_init] of src/target-i386/translate.c: what it lays out
    in the prologue area, the sieve table and the return cache, and what the
    prologue and the epilogue do when they run. *)

From S2P Require Import Prelude Memory Opcode Decode DecodeSpec State TransBlock Emit Translate.
From S2P Require Import CpuExec Frame Session Linking GenCode Translation Dispatch Machine Sieve.

Section Init.
Context `{Layout}.

(** ** The two table loops *)

(** Only memory changes, and only in [lo, hi). *)
Record fills (lo hi : Z) (s s' : st) : Prop := {
  fl_rest : set_smem (smem s) s' = s;
  fl_mem : forall x, x < lo \/ hi <= x -> smem s' !! x = smem s !! x }.

Lemma rest_trans s s1 s' : set_smem (smem s) s1 = s -> set_smem (smem s1) s' = s1 ->
  set_smem (smem s) s' = s.
Proof.
  intros R1 R2. transitivity (set_smem (smem s) (set_smem (smem s1) s')); [done|]. now rewrite R2.
Qed.

Lemma rest_self m s : set_smem (smem s) (set_smem m s) = s.
Proof. now destruct s. Qed.

Lemma sv_entries_runs n : forall ptr out s (Q : unit -> st -> Prop) E,
  (forall s', fills ptr (ptr + 8 * Z.of_nat n) s s' ->
     (forall k, 0 <= k < Z.of_nat n -> ld8 (smem s') (ptr + 8 * k) = 0xe9 /\
        rel_dest (smem s') (ptr + 8 * k + 1) = u32 out) -> Q tt s') ->
  runs (sv_entries n ptr out) s Q E.
Proof.
  induction n as [|n IH]; intros ptr out s Q E K; cbn [sv_entries].
  - run. apply K; [split; [now destruct s|done]|]. intros k Hk. lia.
  - unfold emit_at. run. run. apply runs_modify. run.
    change (items_len [E8 0xe9; R32 out]) with 5. replace (ptr + 5 + 3) with (ptr + 8) by lia.
    set (s1 := set_smem _ s).
    assert (B1 : at_bytes (smem s1) ptr (items_bytes ptr [E8 0xe9; R32 out]))
      by apply at_bytes_items.
    apply IH. intros s' [R M] T. apply K.
    + constructor; [apply (rest_trans s s1 s'); [apply rest_self|exact R]|].
      intros x Hx. rewrite M by lia. unfold s1. cbn [smem set_smem].
      apply write_bytes_out. rewrite items_bytes_length. cbn. lia.
    + intros k Hk. destruct (Z.eq_dec k 0) as [->|D].
      * rewrite Z.mul_0_r, Z.add_0_r. cbn [items_bytes item_bytes item_len] in B1.
        apply at_bytes_cons in B1 as [B1 B2]. split.
        -- rewrite (ld8_ext (smem s1)) by (apply M; lia). exact B1.
        -- rewrite (rel_dest_ext (smem s1)) by (intros; apply M; lia).
           unfold rel_dest. rewrite (at_bytes_ld32_val _ _ _ B2), u32_add_r. f_equal. lia.
      * specialize (T (k - 1) ltac:(lia)). replace (ptr + 8 + 8 * (k - 1)) with (ptr + 8 * k) in T by lia.
        exact T.
Qed.

Lemma ret_entries_runs n : forall a v s (Q : unit -> st -> Prop) E,
  (forall s', fills a (a + 4 * Z.of_nat n) s s' ->
     (forall k, 0 <= k < Z.of_nat n -> ld32 (smem s') (a + 4 * k) = u32 v) -> Q tt s') ->
  runs (ret_entries n a v) s Q E.
Proof.
  induction n as [|n IH]; intros a v s Q E K; cbn [ret_entries].
  - run. apply K; [split; [now destruct s|done]|]. intros k Hk. lia.
  - run. apply runs_modify. apply IH. intros s' [R M] T. apply K.
    + constructor; [apply (rest_trans s (set_smem (st32 a v (smem s)) s) s'); [apply rest_self|exact R]|].
      intros x Hx. rewrite M by lia. apply st32_out. lia.
    + intros k Hk. destruct (Z.eq_dec k 0) as [->|D].
      * rewrite Z.mul_0_r, Z.add_0_r.
        rewrite (ld32_ext (st32 a v (smem s))) by (intros; apply M; lia). apply ld32_st32.
      * specialize (T (k - 1) ltac:(lia)). replace (a + 4 + 4 * (k - 1)) with (a + 4 * k) in T by lia.
        exact T.
Qed.

(** ** The whole initialisation *)

Definition rc_miss : Z := L_prologue + 512.
Definition epilogue : Z := L_prologue + 65.

Lemma prologue_len : items_len prologue_items = 65.
Proof. reflexivity. Qed.
Lemma epilogue_len : items_len epilogue_items = 66.
Proof. reflexivity. Qed.

(** The memory [codecache_prologue_init] leaves. *)
Record laid_out (m m' : mem) : Prop := {
  lo_prologue_code : at_bytes m' L_prologue (items_bytes L_prologue prologue_items);
  lo_epilogue_code : at_bytes m' epilogue (items_bytes epilogue epilogue_items);
  lo_sieve_stub : at_bytes m' L_sieve (items_bytes L_sieve sieve_items);
  lo_sieve_out : at_bytes m' sv_out (items_bytes sv_out (exit_items epilogue (-1) IND_TYPE_CALL));
  lo_buckets : forall k, 0 <= k < SIEVE_SIZE ->
     ld8 m' (bucket k) = 0xe9 /\ rel_dest m' (bucket k + 1) = u32 sv_out;
  lo_rc_code : at_bytes m' rc_miss (0x51 :: 0xe9 :: le32 (L_sieve - (rc_miss + 2) - 4));
  lo_rc_table : forall k, 0 <= k < RET_CACHE_SIZE -> ld32 m' (A_ret_hash_table + 4 * k) = u32 rc_miss;
  lo_esp : ld32 m' (A_regs + R_ESP * 4) = u32 (ld32 m (A_regs + R_ESP * 4) - 4);
  lo_frame : forall x, (x < L_prologue \/ L_prologue + 2048 <= x) ->
     (x < L_sieve \/ L_sieve + sieve_len <= x) ->
     (x < A_regs + R_ESP * 4 \/ A_regs + R_ESP * 4 + 4 <= x) ->
     (x < A_ret_hash_table \/ A_ret_hash_table + 4 * RET_CACHE_SIZE <= x) ->
     (x < A_sieve_hashtable \/ A_sieve_hashtable + 8 * SIEVE_SIZE <= x) -> m' !! x = m !! x }.

(** The memory before the two tables are filled. *)
Definition mem_stubs (m : mem) : mem :=
  let m1 := st32 (A_regs + R_ESP * 4) (ld32 m (A_regs + R_ESP * 4) - 4) m in
  let m2 := write_bytes L_prologue (items_bytes L_prologue prologue_items) m1 in
  let m3 := write_bytes epilogue (items_bytes epilogue epilogue_items) m2 in
  let m4 := write_bytes L_sieve (items_bytes L_sieve sieve_items) m3 in
  write_bytes sv_out (items_bytes sv_out (exit_items epilogue (-1) IND_TYPE_CALL)) m4.

(** [s] with the pointers [init_caches] sets and memory [m]. *)
Definition st_init (m : mem) (s : st) : st :=
  set_smem m (set_sieve_code_ptr (L_sieve + sieve_len) (set_sieve_stub L_sieve
    (set_cgc (set_tb_ret_addr epilogue zero_cgc) s))).

Definition mem_rc (m : mem) : mem :=
  let m1 := write_bytes rc_miss (items_bytes rc_miss [E8 0x51]) m in
  write_bytes (rc_miss + 1) (items_bytes (rc_miss + 1) [E8 0xe9; R32 L_sieve]) m1.

Lemma fills_init lo hi m s s' : fills lo hi (st_init m s) s' -> s' = st_init (smem s') s.
Proof.
  intros [R _]. transitivity (set_smem (smem s') (set_smem (smem (st_init m s)) s')).
  - now destruct s'.
  - now rewrite R.
Qed.

Lemma init_caches_state s (Q : unit -> st -> Prop) E :
  (forall m1 m2, (forall x, x < A_sieve_hashtable \/ A_sieve_hashtable + 8 * SIEVE_SIZE <= x ->
       m1 !! x = mem_stubs (smem s) !! x) ->
     (forall k, 0 <= k < SIEVE_SIZE -> ld8 m1 (bucket k) = 0xe9 /\
        rel_dest m1 (bucket k + 1) = u32 sv_out) ->
     (forall x, x < A_ret_hash_table \/ A_ret_hash_table + 4 * RET_CACHE_SIZE <= x ->
       m2 !! x = mem_rc m1 !! x) ->
     (forall k, 0 <= k < RET_CACHE_SIZE -> ld32 m2 (A_ret_hash_table + 4 * k) = u32 rc_miss) ->
     Q tt (st_init m2 s)) ->
  runs init_caches s Q E.
Proof.
  intros K. unfold init_caches, emit_at, sieve_init, ret_cache_proc_init, sv_table_init.
  run_pure. change (L_prologue + items_len prologue_items) with epilogue.
  unfold cemit_exit_tb. run_pure.
  change (IND_TYPE_CALL =? IND_TYPE_CALL) with true. cbn [negb]. apply runs_ABORT_IF; [done|]. intros _.
  run. match goal with |- runs _ ?x _ _ =>
    replace x with (st_init (mem_stubs (smem s)) s) by (st_simpl; reflexivity) end.
  apply sv_entries_runs. intros s1 F1 T1. run.
  pose proof (fills_init _ _ _ _ _ F1) as E1. destruct F1 as [_ M1]. set (m1 := smem s1) in *. clearbody m1.
  subst s1. unfold cemit_sieve, cemit_sieve_nopush. run_pure.
  match goal with |- runs _ ?x _ _ =>
    replace x with (st_init (mem_rc m1) s) by (st_simpl; reflexivity) end.
  apply ret_entries_runs. intros s2 F2 T2.
  pose proof (fills_init _ _ _ _ _ F2) as E2. destruct F2 as [_ M2]. rewrite E2.
  assert (Z1 : Z.of_nat (Z.to_nat SIEVE_SIZE) = SIEVE_SIZE) by (apply Z2Nat.id; unfold SIEVE_SIZE; lia).
  assert (Z2 : Z.of_nat (Z.to_nat RET_CACHE_SIZE) = RET_CACHE_SIZE)
    by (apply Z2Nat.id; unfold RET_CACHE_SIZE; lia).
  rewrite Z1 in *. rewrite Z2 in *.
  apply (K m1 (smem s2)); done.
Qed.

(** A stub keeps its bytes when others are written elsewhere. *)
Lemma at_bytes_other m a bs b l : at_bytes m a bs ->
  a + Z.of_nat (length bs) <= b \/ b + items_len l <= a ->
  at_bytes (write_bytes b (items_bytes b l) m) a bs.
Proof.
  intros B D. refine (at_bytes_ext _ _ _ _ _ B). intros x Hx. apply write_bytes_out.
  rewrite items_bytes_length. lia.
Qed.

Lemma exit_len r : items_len (exit_items r (-1) IND_TYPE_CALL) = 22.
Proof. reflexivity. Qed.

Lemma mem_stubs_code m : layout_ok ->
  at_bytes (mem_stubs m) L_prologue (items_bytes L_prologue prologue_items) /\
  at_bytes (mem_stubs m) epilogue (items_bytes epilogue epilogue_items) /\
  at_bytes (mem_stubs m) L_sieve (items_bytes L_sieve sieve_items) /\
  at_bytes (mem_stubs m) sv_out (items_bytes sv_out (exit_items epilogue (-1) IND_TYPE_CALL)).
Proof.
  intros [_ _ _ (_ & Lp & _) _ _]. unfold DEFAULT_SIEVE_BUFFER_SIZE in Lp.
  unfold mem_stubs. cbv zeta. unfold epilogue, sv_out in *.
  split; [|split; [|split; [|apply at_bytes_items]]];
    repeat (apply at_bytes_other; [|rewrite items_bytes_length, ?prologue_len, ?epilogue_len, ?exit_len;
      change (items_len sieve_items) with 16; lia]); apply at_bytes_items.
Qed.

Lemma mem_stubs_out m x : (x < L_prologue \/ L_prologue + 2048 <= x) ->
  (x < L_sieve \/ L_sieve + sieve_len <= x) ->
  (x < A_regs + R_ESP * 4 \/ A_regs + R_ESP * 4 + 4 <= x) -> mem_stubs m !! x = m !! x.
Proof.
  intros X1 X2 X3. unfold mem_stubs, sieve_len in *. cbv zeta. unfold epilogue, sv_out.
  rewrite !write_bytes_out by (rewrite items_bytes_length, ?prologue_len, ?epilogue_len, ?exit_len;
    change (items_len sieve_items) with 16; lia).
  apply st32_out. lia.
Qed.

Lemma mem_rc_out m x : (x < rc_miss \/ rc_miss + 6 <= x) -> mem_rc m !! x = m !! x.
Proof.
  intros X. unfold mem_rc. cbv zeta.
  rewrite !write_bytes_out by (rewrite items_bytes_length; cbn; lia). done.
Qed.

Lemma mem_rc_code m :
  at_bytes (mem_rc m) rc_miss (0x51 :: 0xe9 :: le32 (L_sieve - (rc_miss + 2) - 4)).
Proof.
  replace (rc_miss + 2) with (rc_miss + 1 + 1) by lia.
  change (0x51 :: 0xe9 :: le32 (L_sieve - (rc_miss + 1 + 1) - 4)) with
    (items_bytes rc_miss [E8 0x51] ++ items_bytes (rc_miss + 1) [E8 0xe9; R32 L_sieve]).
  unfold mem_rc. cbv zeta. apply at_bytes_app.
  change (Z.of_nat (length (items_bytes rc_miss [E8 0x51]))) with 1.
  split; [|apply at_bytes_items]. apply at_bytes_other; [apply at_bytes_items|cbn; lia].
Qed.

Lemma init_caches_runs s (Q : unit -> st -> Prop) E : layout_ok ->
  (forall m, laid_out (smem s) m -> Q tt (st_init m s)) -> runs init_caches s Q E.
Proof.
  intros L K. apply init_caches_state. intros m1 m2 M1 T1 M2 T2. apply K.
  destruct (mem_stubs_code (smem s) L) as (C1 & C2 & C3 & C4). pose proof (mem_rc_code m1) as C5.
  pose proof (mem_rc_out m1) as O1. pose proof (mem_stubs_out (smem s)) as O2.
  destruct L as [_ L2 _ (Lp & Ls & _) _ _].
  unfold env_size, DEFAULT_SIEVE_BUFFER_SIZE, rc_miss, sieve_len, SIEVE_SIZE, RET_CACHE_SIZE,
    A_regs, A_ret_hash_table, A_sieve_hashtable in *.
  assert (Far : forall x, (x < L_prologue + 512 \/ L_prologue + 518 <= x) ->
    (x < L_env \/ L_env + 1840216 <= x) -> m2 !! x = mem_stubs (smem s) !! x).
  { intros x X1 X2. rewrite M2, O1, M1 by lia. done. }
  assert (Len : forall x l b, b <= x < b + Z.of_nat (length (items_bytes b l)) -> b <= x < b + items_len l)
    by (intros x l b; now rewrite items_bytes_length).
  constructor; unfold rc_miss, sieve_len, SIEVE_SIZE, RET_CACHE_SIZE, A_regs, A_ret_hash_table,
    A_sieve_hashtable.
  - refine (at_bytes_ext _ _ _ _ _ C1). intros x Hx%Len. rewrite prologue_len in Hx. apply Far; lia.
  - refine (at_bytes_ext _ _ _ _ _ C2). intros x Hx%Len. rewrite epilogue_len in Hx.
    unfold epilogue in Hx. apply Far; lia.
  - refine (at_bytes_ext _ _ _ _ _ C3). intros x Hx%Len. change (items_len sieve_items) with 16 in Hx.
    apply Far; lia.
  - refine (at_bytes_ext _ _ _ _ _ C4). intros x Hx%Len. rewrite exit_len in Hx.
    unfold sv_out in Hx. apply Far; lia.
  - intros k Hk. unfold bucket, A_sieve_hashtable in *.
    assert (Bk : forall x, L_env + 267344 + 8 * k <= x < L_env + 267344 + 8 * k + 5 -> m2 !! x = m1 !! x)
      by (intros x Hx; rewrite M2, O1 by lia; done).
    destruct (T1 k Hk) as [T3 T4]. split.
    + rewrite <- T3. apply ld8_ext, Bk. lia.
    + rewrite <- T4. apply rel_dest_ext. intros x Hx. apply Bk. lia.
  - refine (at_bytes_ext _ _ _ _ _ C5). intros x Hx. cbn in Hx. apply M2. lia.
  - exact T2.
  - assert (W : forall x, L_env + 16 <= x < L_env + 20 -> m2 !! x =
      st32 (L_env + 4 * 4) (ld32 (smem s) (L_env + 4 * 4) - 4) (smem s) !! x).
    { intros x Hx. rewrite M2, O1, M1 by lia. unfold mem_stubs. cbv zeta. unfold epilogue, sv_out.
      rewrite !write_bytes_out by (rewrite items_bytes_length, ?prologue_len, ?epilogue_len, ?exit_len;
        change (items_len sieve_items) with 16; lia). reflexivity. }
    unfold R_ESP. rewrite (ld32_ext (st32 (L_env + 4 * 4) (ld32 (smem s) (L_env + 4 * 4) - 4) (smem s))).
    + apply ld32_st32.
    + intros x Hx. apply W. lia.
  - intros x X1 X2 X3 X4 X5. rewrite M2, O1, M1 by lia. apply O2; lia.
Qed.

(** The tables of blocks are as [exec.c] leaves them: no open branches, code in
    the buffer, no block for the program's entry yet. *)
Record tables_ok (s : st) : Prop := {
  tk_tb : tb_inv s;
  tk_num : forall i, (i < nb_tbs s)%nat -> patch_num (tbs s i) = 0;
  tk_tc : forall i, (i < nb_tbs s)%nat -> tc_ptr (tbs s i) = NOT_TRANS_YET \/
            L_code <= tc_ptr (tbs s i) <= code_gen_ptr s;
  tk_code : L_code <= code_gen_ptr s;
  tk_patch_num : env_patch_num s < PATCH_MAX;
  tk_fresh : newest s (env_eip s) = None }.

Lemma laid_out_env m m' x : laid_out m m' -> layout_ok -> L_env <= x < L_env + 72 ->
  (x < L_env + 16 \/ L_env + 20 <= x) -> m' !! x = m !! x.
Proof.
  intros Lo [_ L2 _ (Lp & _) _ _] X1 X2. apply (lo_frame _ _ Lo); unfold env_size, sieve_len,
    A_regs, R_ESP, A_ret_hash_table, A_sieve_hashtable, RET_CACHE_SIZE, SIEVE_SIZE,
    DEFAULT_SIEVE_BUFFER_SIZE in *; lia.
Qed.

Lemma init_trans_inv m s : layout_ok -> tables_ok s -> laid_out (smem s) m -> trans_inv (st_init m s).
Proof.
  intros L [I N T C P _] Lo. constructor; try done.
  - now apply (Linking.tb_inv_mem s).
  - cbn. unfold sieve_len. lia.
  - unfold env_patch_num. cbn [st_init smem set_smem].
    rewrite (ld32_ext (smem s)); [exact P|]. unfold A_patch_num. intros x Hx.
    apply (laid_out_env _ _ _ Lo L); lia.
Qed.

Lemma init_sieve_inv m s : layout_ok -> laid_out (smem s) m -> sieve_inv (st_init m s) (fun _ => []).
Proof.
  intros L Lo. pose proof L as [_ _ _ _ L5 _]. constructor; cbn [st_init smem set_smem sieve_stub
    set_sieve_stub set_sieve_code_ptr set_cgc sieve_code_ptr cgc set_tb_ret_addr tb_ret_addr].
  - split; [done|apply Lo].
  - unfold sieve_len, DEFAULT_SIEVE_BUFFER_SIZE. lia.
  - apply Lo.
  - intros k Hk. destruct (lo_buckets _ _ Lo k Hk) as [B1 B2]. split; [exact B1|]. cbn [chain].
    rewrite B2. unfold sv_out. apply u32_small. lia.
Qed.

(** The sieve only reads its own buffer and its table. *)
Lemma sieve_inv_made p func s s1 T : sieve_inv s T -> made p func s s1 -> sieve_inv s1 T.
Proof.
  intros [S V O B] Md. destruct (made_fields _ _ _ _ Md) as (E1 & E2 & E3 & E4 & E5 & E6 & E7 & E8).
  constructor; rewrite ?E1, ?E3, ?E7, ?E8; done.
Qed.

(** The state in which the dispatch loop starts. *)
Record started (s s' : st) : Prop := {
  sr_inv : trans_inv s';
  sr_sieve : sieve_inv s' (fun _ => []);
  sr_mem : laid_out (smem s) (smem s');
  sr_ret : tb_ret_addr (cgc s') = epilogue;
  sr_newest : newest s' (env_eip s) = Some (nb_tbs s);
  sr_nb : nb_tbs s' = S (nb_tbs s);
  sr_old : forall i, (i < nb_tbs s)%nat -> tbs s' i = tbs s i;
  sr_code : code_gen_ptr s' = code_gen_ptr s;
  sr_sv : sieve_code_ptr s' = L_sieve + sieve_len;
  sr_stb : stb_count (cgc s') = 0;
  sr_pc : pc_ptr (cgc s') = 0;
  sr_cur : cur_tb s' = cur_tb s /\ code_ptr s' = code_ptr s;
  sr_made : tc_ptr (tbs s' (nb_tbs s)) = NOT_TRANS_YET }.

Lemma init_runs s : layout_ok -> tables_ok s -> tb_full s = false ->
  runs codecache_prologue_init s (fun _ s' => started s s') (fun _ => False).
Proof.
  intros L T F. unfold codecache_prologue_init. run. apply init_caches_runs; [done|]. intros m Lo.
  run. run. run. change 0 with NORMAL_TB_TAG at 1. apply make_tb_runs.
  { intros X. change (tb_full (st_init m s)) with (tb_full s) in X. congruence. }
  intros s1 Md. run. destruct (made_fields _ _ _ _ Md) as (E1 & _ & E3 & E4 & _ & _ & _ & E8).
  pose proof (init_trans_inv m s L T Lo) as I. pose proof (init_sieve_inv m s L Lo) as Si.
  assert (Ee : env_eip (st_init m s) = env_eip s).
  { apply ld32_ext. unfold A_eip. intros x Hx. apply (laid_out_env _ _ _ Lo L); lia. }
  constructor; rewrite ?E1, ?E3, ?E4, ?E8; try done.
  - refine (Dispatch.trans_inv_made _ _ _ _ I _ Md). rewrite Ee. exact (tk_fresh s T).
  - now apply (sieve_inv_made _ _ _ _ _ Si Md).
  - now rewrite (made_newest _ _ _ _ _ Md), Ee, decide_True by done.
  - apply (mk_nb _ _ _ _ Md).
  - intros i Hi. apply (mk_old _ _ _ _ Md). cbn. lia.
  - pose proof (mk_rest _ _ _ _ Md) as Rs. change (cur_tb s) with (cur_tb (st_init m s)).
    change (code_ptr s) with (code_ptr (st_init m s)). now rewrite <- Rs.
  - change (nb_tbs s) with (nb_tbs (st_init m s)). now rewrite (mk_new _ _ _ _ Md).
Qed.

End Init.
