(* ===== verification/SieveThm.v ===== *)
(** The sieve as a finite map from guest to host addresses: initialisation
    gives the empty map, [add_sieve_entry] is insertion, running the sieve is
    lookup; and the dispatcher keeps it so. *)

From S2P Require Import Prelude Memory Opcode Decode DecodeSpec DecodeThm State TransBlock Emit.
From S2P Require Import Translate CpuExec Frame Session Linking GenCode Translation Dispatch.
From S2P Require Import Machine Sieve Prologue.

Section SieveMap.
Context `{Layout}.

(** The sieve of [s] answers as [M] does. *)
Definition sieve_maps (s : st) (M : gmap Z Z) : Prop :=
  exists T, sieve_inv s T /\
    forall q, 0 <= q < 4294967296 -> chain_lookup (T (u16 q)) q = M !! q.

Lemma sieve_maps_insert p tc s s' M : layout_ok -> sieve_maps s M -> sieved p tc s s' ->
  0 <= p < 4294967296 -> 0 <= tc < 4294967296 ->
  sieve_code_ptr s' <= L_sieve + DEFAULT_SIEVE_BUFFER_SIZE ->
  sieve_maps s' (<[p := tc]> M).
Proof.
  intros L (T & I & A) Sd Hp Ht Hv. exists (<[u16 p := (p, tc) :: T (u16 p)]> T).
  split; [now apply (sieved_inv p tc s s')|]. intros q Hq.
  destruct (Z.eq_dec (u16 q) (u16 p)) as [E|D].
  - rewrite E, fn_lookup_insert. cbn [chain_lookup]. destruct (Z.eqb_spec p q) as [->|Dq].
    + now rewrite lookup_insert_eq.
    + rewrite lookup_insert_ne by done. rewrite <- E. now apply A.
  - rewrite fn_lookup_insert_ne by congruence. rewrite lookup_insert_ne by congruence. now apply A.
Qed.

(** Steps that leave the buffer, the table and the exit stub alone. *)
Lemma sieve_inv_ext s s' T : layout_ok -> sieve_inv s T -> sieve_stub s' = sieve_stub s ->
  tb_ret_addr (cgc s') = tb_ret_addr (cgc s) ->
  sieve_code_ptr s <= sieve_code_ptr s' <= L_sieve + DEFAULT_SIEVE_BUFFER_SIZE ->
  (forall x, L_sieve <= x < sieve_code_ptr s -> smem s' !! x = smem s !! x) ->
  (forall x, L_prologue <= x < L_prologue + 2048 -> smem s' !! x = smem s !! x) ->
  (forall x, A_sieve_hashtable <= x < A_sieve_hashtable + 8 * SIEVE_SIZE -> smem s' !! x = smem s !! x) ->
  sieve_inv s' T.
Proof.
  intros L [[S1 S2] V O B] E1 E2 E3 M1 M2 M3. unfold sieve_len in *.
  constructor; rewrite ?E1, ?E2.
  - split; [done|]. refine (at_bytes_ext _ _ _ _ _ S2). intros x Hx. apply M1.
    rewrite items_bytes_length in Hx. change (items_len sieve_items) with 16 in Hx. lia.
  - unfold sieve_len. lia.
  - refine (at_bytes_ext _ _ _ _ _ O). intros x Hx. rewrite items_bytes_length in Hx.
    pose proof (exit_items_len (tb_ret_addr (cgc s)) (-1) IND_TYPE_CALL).
    unfold sv_out in *. apply M2. lia.
  - intros k Hk. destruct (B k Hk) as [B1 B2]. unfold bucket, SIEVE_SIZE in *. split.
    + rewrite <- B1. apply ld8_ext, M3. lia.
    + rewrite (rel_dest_ext (smem s)) by (intros x Hx; apply M3; lia).
      apply (chain_mono _ _ (sieve_code_ptr s)); [lia|]. apply (chain_ext (smem s)); [|exact B2].
      intros x Hx. apply M1. unfold sieve_len in Hx. lia.
Qed.

Lemma sieve_maps_ext s s' M : layout_ok -> sieve_maps s M -> sieve_stub s' = sieve_stub s ->
  tb_ret_addr (cgc s') = tb_ret_addr (cgc s) ->
  sieve_code_ptr s <= sieve_code_ptr s' <= L_sieve + DEFAULT_SIEVE_BUFFER_SIZE ->
  (forall x, L_sieve <= x < sieve_code_ptr s -> smem s' !! x = smem s !! x) ->
  (forall x, L_prologue <= x < L_prologue + 2048 -> smem s' !! x = smem s !! x) ->
  (forall x, A_sieve_hashtable <= x < A_sieve_hashtable + 8 * SIEVE_SIZE -> smem s' !! x = smem s !! x) ->
  sieve_maps s' M.
Proof. intros L (T & I & A) E1 E2 E3 M1 M2 M3. exists T. split; [now apply (sieve_inv_ext s)|done]. Qed.

(** Running the sieve answers from the map. *)
Lemma sieve_maps_run s M r f : layout_ok -> sieve_maps s M ->
  0 <= r R_ESP -> r R_ESP + 8 < 4294967296 ->
  let tgt := ld32 (smem s) (r R_ESP + 4) in
  leads (mkCpu r (sieve_stub s) f (smem s))
    (match M !! tgt with
     | Some tc => resumed r f (smem s) tc
     | None => exited r f (smem s) (tb_ret_addr (cgc s)) (-1) IND_TYPE_CALL
     end).
Proof.
  intros L (T & I & A) E1 E2 tgt. rewrite <- A by apply ld32_range. now apply sieve_run.
Qed.

(** Translating a block leaves the sieve alone. *)
Lemma sieve_maps_next s p i s' M : layout_ok -> trans_inv s -> room 1 s -> next_tb s p i s' ->
  sieve_maps s M -> sieve_maps s' M.
Proof.
  intros L I R N Sm. pose proof (ti_code s I). pose proof (ti_sieve s I).
  pose proof (nx_code _ _ _ _ N). pose proof (nx_sieve _ _ _ _ N). destruct (nx_const _ _ _ _ N) as [K1 K2].
  destruct R as [R1 R2 _ _]. pose proof L as [L1 L2 L3 (Lp & Lq & Lr) _ _].
  unfold env_size, stub_len in *.
  apply (sieve_maps_ext s); try done; try lia; intros x Hx; apply (nx_mem _ _ _ _ N);
    unfold A_sieve_hashtable, SIEVE_SIZE in *; lia.
Qed.

(** ** The dispatcher after a miss of the sieve *)

Variable dfuel : nat.
Variable ds0 : decode_t.
Hypothesis L : layout_ok.
Hypothesis Hf : (100 < dfuel)%nat.

Lemma sieved_trans_inv p tc s s' : trans_inv s -> sieved p tc s s' ->
  code_gen_ptr s <= L_code + DEFAULT_CODE_GEN_BUFFER_SIZE ->
  sieve_code_ptr s' <= L_sieve + DEFAULT_SIEVE_BUFFER_SIZE -> trans_inv s'.
Proof.
  intros I Sd Hc Hv. pose proof (ti_sieve s I).
  pose proof (bucket_range (u16 p) L (u16_range p)) as Rb.
  destruct (sd_const _ _ _ _ Sd) as (E1 & E2 & E3 & E4 & E5 & E6 & E7 & E8).
  pose proof (sd_sv _ _ _ _ Sd) as Sv. unfold node_len in Sv.
  destruct L as [L1 L2 _ _ _ _]. unfold env_size, A_sieve_hashtable in *.
  apply (trans_inv_mem s); try done; [lia|]. unfold A_patch_num. intros x Hx.
  apply (sd_mem _ _ _ _ Sd); lia.
Qed.

Lemma dispatch_sieve_runs s M : trans_inv s -> room 1 s -> sieve_maps s M ->
  sieve_code_ptr s - L_sieve + stub_len * 255 + node_len <= DEFAULT_SIEVE_BUFFER_SIZE ->
  guest_ok (smem s) (env_eip s) 100 (code_gen_ptr s) (code_gen_ptr s + gen_room) ->
  env_ind_type s <> NOT_IND ->
  runs (dispatch dfuel ds0 None) s
    (fun i s' => dispatched (fun x => bucket (u16 (env_eip s)) + 1 <= x < bucket (u16 (env_eip s)) + 5) s i s' /\
       sieve_maps s' (<[env_eip s := tc_ptr (tbs s' i)]> M)) (fun _ => False).
Proof.
  intros I R Sm Rs G Ty. unfold dispatch. run. run. run.
  eapply runs_conseq; [apply (get_next_tb_runs dfuel ds0 L Hf); try done| |done].
  cbv beta. intros i s1 N. pose proof (nx_inv _ _ _ _ N) as I1.
  pose proof (sieve_maps_next s _ i s1 M L I R N Sm) as Sm1.
  pose proof (nx_tc _ _ _ _ N) as Tc. pose proof (nx_pc _ _ _ _ N) as Pc.
  pose proof (nx_sieve _ _ _ _ N) as Vs. pose proof (nx_code _ _ _ _ N) as Cs.
  pose proof (ti_sieve s I). pose proof (rm_code 1 s R) as Rc.
  pose proof L as [L1 L2 L3 (Lp & Lq & Lr) L5 L6]. unfold env_size, stub_len, node_len in *.
  run. run. unfold env_ind_type at 1.
  rewrite (next_env32 s (env_eip s) i s1) by (try done; unfold A_ind_type, env_size; lia).
  change (ld32 (smem s) A_ind_type) with (env_ind_type s).
  assert ((env_ind_type s =? NOT_IND) = false) as -> by (apply Z.eqb_neq; exact Ty).
  cbn [negb]. run. run. apply add_sieve_entry_runs; try done; try (unfold node_len; lia).
  intros s2 Sd. rewrite Pc in Sd. run. apply runs_modify. run. run. run.
  pose proof (ld32_range (smem s) A_eip) as Re. change (ld32 (smem s) A_eip) with (env_eip s) in Re.
  pose proof (sd_sv _ _ _ _ Sd) as Sv. unfold node_len in Sv.
  assert (I2 : trans_inv s2) by (apply (sieved_trans_inv _ _ s1 s2 I1 Sd); lia).
  assert (Sm2 : sieve_maps s2 (<[env_eip s := tc_ptr (tbs s1 i)]> M))
    by (apply (sieve_maps_insert _ _ s1 s2); try done; lia).
  destruct (sd_const _ _ _ _ Sd) as (E1 & E2 & E3 & E4 & E5 & E6 & E7 & E8).
  match goal with |- runs _ (set_smem ?m s2) _ _ => set (m3 := m) end.
  assert (I3 : trans_inv (set_smem m3 s2) /\ (forall x, x < A_ind_type \/ A_ind_type + 4 <= x -> m3 !! x = smem s2 !! x)).
  { split; [|intros x Hx; now apply st32_out].
    apply (trans_inv_mem s2); try done. unfold A_patch_num. intros x Hx. apply st32_out.
    unfold A_ind_type. lia. }
  destruct I3 as [I3 M3]. clearbody m3.
  apply enter_runs; [exact I3|]. intros s' En.
  destruct (entered_fields _ _ _ En) as (G1 & G2 & G3 & G4 & G5 & G6).
  pose proof (en_mem _ _ _ En) as Em. cbn in G1, G2, G3, G4, G5, G6, Em.
  unfold A_target_tc, A_ret_tb in Em. unfold A_ind_type in *.
  split.
  - apply (next_dispatched _ s i s1 (set_smem m3 s2)); try done.
    + cbn. unfold node_len. lia.
    + intros j. cbn. now rewrite E1.
    + intros x X1 X2 X3. cbn. rewrite M3 by exact X3.
      apply (sd_mem _ _ _ _ Sd); [lia|exact X2].
  - rewrite G1, E1. pose proof (ti_sieve s2 I2).
    apply (sieve_maps_ext s2); try done; try congruence; try lia; intros x Hx;
      rewrite Em, M3; unfold A_sieve_hashtable, SIEVE_SIZE in *; lia || done.
Qed.

End SieveMap.

(** A started translator: its sieve is empty. *)
Lemma sieve_maps_start `{Layout} s s' : started s s' -> sieve_maps s' ∅.
Proof.
  intros St. exists (fun _ => []). split; [apply (sr_sieve _ _ St)|]. intros q _. now rewrite lookup_empty.
Qed.

(** C17: [codecache_prologue_init] on well-formed block tables with room for one
    block succeeds; the invariant of the translator holds, the prologue, the
    epilogue and the sieve stub are in place, every slot of the return cache
    leads to the miss stub, the sieve answers nothing, and the block for the
    entry point is found by the next lookup. *)
Theorem codecache_prologue_init_ok `{Layout} s : layout_ok -> tables_ok s -> tb_full s = false ->
  exists s', codecache_prologue_init s = Ok (tt, s') /\ trans_inv s' /\ sieve_maps s' ∅ /\
    laid_out (smem s) (smem s') /\ tb_ret_addr (cgc s') = epilogue /\
    newest s' (env_eip s) = Some (nb_tbs s).
Proof.
  intros L T F. destruct (runs_done _ _ _ (init_runs s L T F)) as ([] & s' & R & K).
  exists s'. split; [done|]. pose proof (sieve_maps_start _ _ K). destruct K. auto.
Qed.

(** C12: the sieve is a finite map and [add_sieve_entry] is its insertion: the
    entry of the block's guest address is added or replaced, the entries of
    all other addresses, those of the same bucket included, are kept. *)
Theorem add_sieve_entry_insert `{Layout} s M i ty : layout_ok -> sieve_maps s M ->
  tc_ptr (tbs s i) <> NOT_TRANS_YET ->
  0 <= pc (tbs s i) < 4294967296 -> 0 <= tc_ptr (tbs s i) < 4294967296 ->
  L_sieve <= sieve_code_ptr s -> sieve_code_ptr s + node_len <= L_sieve + DEFAULT_SIEVE_BUFFER_SIZE ->
  exists s', add_sieve_entry i ty s = Ok (tt, s') /\
    sieve_maps s' (<[pc (tbs s i) := tc_ptr (tbs s i)]> M) /\
    sieve_code_ptr s' = sieve_code_ptr s + node_len.
Proof.
  intros L Sm Nt Hp Ht V1 V2.
  assert (K : runs (add_sieve_entry i ty) s (fun _ s' =>
     sieve_maps s' (<[pc (tbs s i) := tc_ptr (tbs s i)]> M) /\
     sieve_code_ptr s' = sieve_code_ptr s + node_len) (fun _ => False)).
  { apply add_sieve_entry_runs; try done. intros s' Sd. pose proof (sd_sv _ _ _ _ Sd) as E.
    split; [|done]. apply (sieve_maps_insert _ _ s s'); try done. lia. }
  destruct (runs_done _ _ _ K) as ([] & s' & R & K'). exists s'. auto.
Qed.

(** C8: running the sieve's machine code is a lookup in that map: from the stub,
    with the saved [%ecx] and the guest target on the stack, the processor
    reaches the target's translation if the map has one, with [%ecx], the other
    registers and the flags of the guest restored and memory untouched, and
    otherwise leaves through the epilogue with the target in [env->eip]. *)
Theorem sieve_code_lookup `{Layout} s M r f : layout_ok -> sieve_maps s M ->
  0 <= r R_ESP -> r R_ESP + 8 < 4294967296 ->
  let tgt := ld32 (smem s) (r R_ESP + 4) in
  leads (mkCpu r (sieve_stub s) f (smem s))
    (match M !! tgt with
     | Some tc => resumed r f (smem s) tc
     | None => exited r f (smem s) (tb_ret_addr (cgc s)) (-1) IND_TYPE_CALL
     end).
Proof. intros. now apply sieve_maps_run. Qed.

(** When the sieve has missed, [dispatch] finds or translates the block of
    [env->eip] and adds it to the sieve, so that the next run of the sieve for
    this address stays in the code cache; the words the prologue reads are set,
    and of memory only the new code, the new stubs and node, these words and
    the bucket's displacement change. *)
Theorem dispatch_sieve `{Layout} dfuel ds s M : layout_ok -> (100 < dfuel)%nat ->
  trans_inv s -> room 1 s -> sieve_maps s M ->
  sieve_code_ptr s - L_sieve + stub_len * 255 + node_len <= DEFAULT_SIEVE_BUFFER_SIZE ->
  guest_ok (smem s) (env_eip s) 100 (code_gen_ptr s) (code_gen_ptr s + gen_room) ->
  env_ind_type s <> NOT_IND ->
  exists i s', dispatch dfuel ds None s = Ok (i, s') /\
    dispatched (fun x => bucket (u16 (env_eip s)) + 1 <= x < bucket (u16 (env_eip s)) + 5) s i s' /\
    sieve_maps s' (<[env_eip s := tc_ptr (tbs s' i)]> M).
Proof.
  intros L F I R Sm Rs G Ty.
  destruct (runs_done _ _ _ (dispatch_sieve_runs dfuel ds L F s M I R Sm Rs G Ty))
    as (i & s' & E & K). exists i, s'. auto.
Qed.

(** ** Examples *)

(** Another block, already translated, with a pending indirect call to the example
    code. *)
Definition demo_call : st := set_code_gen_ptr 0x10000010 (set_tbs (fun i =>
  match i with
  | 0%nat => set_pc 0x8040000 (set_tc_ptr 0x10000000 raw_tb)
  | _ => raw_tb end) (set_smem (@st32 (@A_ind_type demo_layout) IND_TYPE_CALL
    (st32 (@A_eip demo_layout) 0x8048000 (st32 0x8050004 0x8040000 demo_mem))) demo_one)).

Lemma demo_call_tables : @tables_ok demo_layout demo_call.
Proof.
  constructor.
  - destruct demo_one_tb_inv as [[A B C D E] _]. split; [constructor|].
    + exact A.
    + intros [|i] Hi; [reflexivity|cbn in Hi; lia].
    + intros [|i] Hi; [reflexivity|cbn in Hi; lia].
    + intros h i K. discriminate.
    + intros [|i] Hi; [now vm_compute|cbn in Hi; lia].
    + cbn. lia.
  - intros [|i] Hi; [done|cbn in Hi; lia].
  - intros [|i] Hi; [right; cbn; lia|cbn in Hi; lia].
  - cbn. lia.
  - vm_compute. reflexivity.
  - vm_compute. reflexivity.
Qed.

Lemma demo_started : exists s', @codecache_prologue_init demo_layout demo_call = Ok (tt, s') /\
  @started demo_layout demo_call s'.
Proof.
  destruct (runs_done _ _ _ (@init_runs demo_layout demo_call demo_layout_ok demo_call_tables eq_refl))
    as ([] & s' & E & K). exists s'. split; [exact E|exact K].
Qed.

Lemma codecache_prologue_init_ok_witness :
  exists s', @codecache_prologue_init demo_layout demo_call = Ok (tt, s') /\
    @trans_inv demo_layout s' /\ @sieve_maps demo_layout s' ∅.
Proof.
  destruct (@codecache_prologue_init_ok demo_layout demo_call demo_layout_ok demo_call_tables eq_refl)
    as (s' & R & I & S & _). exists s'. split; [exact R|]. split; [exact I|exact S].
Defined.

Lemma demo_sieve_len s : @started demo_layout demo_call s -> sieve_code_ptr s = 0x20000010.
Proof. intros St. exact (@sr_sv demo_layout _ _ St). Qed.

(** Block 0 survives the initialisation. *)
Lemma demo_started_tb s : @started demo_layout demo_call s -> tbs s 0%nat = tbs demo_call 0%nat.
Proof. intros St. exact (@sr_old demo_layout _ _ St 0%nat ltac:(cbn; lia)). Qed.

(** So do the words away from its tables and stubs. *)
Lemma demo_started_mem s x : @started demo_layout demo_call s ->
  0x8000000 <= x < 0x9000000 \/ 0x9000020 <= x < 0x9000040 \/ 0x91c0000 <= x < 0x9300000 ->
  smem s !! x = smem demo_call !! x.
Proof.
  intros St X. apply (@lo_frame demo_layout _ _ (@sr_mem demo_layout _ _ St));
    unfold RET_CACHE_SIZE, SIEVE_SIZE, sieve_len, R_ESP, A_regs, A_ret_hash_table, A_sieve_hashtable;
    cbn; lia.
Qed.

Lemma add_sieve_entry_insert_witness :
  exists s s', @codecache_prologue_init demo_layout demo_call = Ok (tt, s) /\
    @add_sieve_entry demo_layout 0%nat 0 s = Ok (tt, s') /\
    @sieve_maps demo_layout s' {[0x8040000 := 0x10000000]}.
Proof.
  destruct demo_started as (s & R & St).
  destruct (@add_sieve_entry_insert demo_layout s ∅ 0%nat 0 demo_layout_ok
    (@sieve_maps_start demo_layout _ _ St)) as (s' & R' & S & _);
    rewrite ?(demo_sieve_len s St), ?(demo_started_tb s St); 
    [done|cbn; lia|cbn; lia|cbn; lia|cbn; unfold node_len, DEFAULT_SIEVE_BUFFER_SIZE; lia|].
  exists s, s'. split; [exact R|]. split; [exact R'|]. rewrite (demo_started_tb s St) in S. exact S.
Defined.

(** The state after the entry of block 0 is made; the stack still holds the target. *)
Lemma demo_sieved : exists s, @sieve_maps demo_layout s {[0x8040000 := 0x10000000]} /\
  ld32 (smem s) 0x8050004 = 0x8040000.
Proof.
  destruct demo_started as (s & R & St). pose proof (demo_started_tb s St) as T.
  pose proof (@sr_sieve demo_layout _ _ St) as Si. pose proof (demo_sieve_len s St) as Ln.
  assert (K : @runs unit (@add_sieve_entry demo_layout 0%nat 0) s (fun _ s' =>
    @sieved demo_layout 0x8040000 0x10000000 s s') (fun _ => False)).
  { apply (@add_sieve_entry_runs demo_layout); rewrite ?T, ?Ln.
    - exact demo_layout_ok.
    - cbn. unfold NOT_TRANS_YET. lia.
    - cbn. lia.
    - cbn. unfold node_len, DEFAULT_SIEVE_BUFFER_SIZE. lia.
    - intros s' Sd. exact Sd. }
  destruct (runs_done _ _ _ K) as (u & s' & _ & Sd). exists s'. split.
  - apply (@sieve_maps_insert demo_layout 0x8040000 0x10000000 s s' ∅ demo_layout_ok
      (@sieve_maps_start demo_layout _ _ St) Sd); try lia.
    rewrite (@sd_sv demo_layout _ _ _ _ Sd), Ln. cbn. unfold node_len, DEFAULT_SIEVE_BUFFER_SIZE. lia.
  - rewrite (ld32_ext (smem s)).
    + rewrite (ld32_ext (smem demo_call)); [vm_compute; reflexivity|].
      intros x Hx. apply (demo_started_mem s x St). lia.
    + intros x Hx. apply (@sd_mem demo_layout _ _ _ _ Sd);
        rewrite ?(@sd_sv demo_layout _ _ _ _ Sd), ?Ln;
        change (@bucket demo_layout (u16 0x8040000)) with (@A_sieve_hashtable demo_layout); unfold A_sieve_hashtable; cbn; unfold node_len; lia.
Qed.

Lemma sieve_code_lookup_witness :
  exists s, @sieve_maps demo_layout s {[0x8040000 := 0x10000000]} /\
    leads (mkCpu (fun _ => 0x8050000) (sieve_stub s) 0 (smem s))
      (resumed (fun _ => 0x8050000) 0 (smem s) 0x10000000).
Proof.
  destruct demo_sieved as (s & Sm & Tg). exists s. split; [exact Sm|].
  pose proof (@sieve_code_lookup demo_layout s _ (fun _ => 0x8050000) 0 demo_layout_ok Sm ltac:(lia) ltac:(lia)) as K.
  cbv beta zeta in K. change (0x8050000 + 4) with 0x8050004 in K. rewrite Tg in K. exact K.
Defined.

(** After the initialisation the pending call to the example code has room. *)
Lemma dispatch_sieve_witness :
  exists s i s', @codecache_prologue_init demo_layout demo_call = Ok (tt, s) /\
    @dispatch demo_layout 101 ds_zero None s = Ok (i, s') /\
    @sieve_maps demo_layout s' {[0x8048000 := tc_ptr (tbs s' i)]}.
Proof.
  destruct demo_started as (s & R & St). pose proof (demo_sieve_len s St) as Ln.
  pose proof (@sr_code demo_layout _ _ St) as Cd. pose proof (@sr_nb demo_layout _ _ St) as Nb.
  pose proof (@sr_stb demo_layout _ _ St) as Sb.
  assert (Ep : @env_eip demo_layout s = 0x8048000).
  { unfold env_eip. rewrite (ld32_ext (smem demo_call)); [vm_compute; reflexivity|].
    intros x Hx. apply (demo_started_mem s x St). change (@A_eip demo_layout) with 0x9000020 in Hx. lia. }
  destruct (@dispatch_sieve demo_layout 101 ds_zero s ∅ demo_layout_ok ltac:(lia)
    (@sr_inv demo_layout _ _ St)) as (i & s' & Rn & _ & Sm).
  - constructor; rewrite ?Cd, ?Nb, ?Ln, ?Sb; clear; vm_compute; done.
  - exact (@sieve_maps_start demo_layout _ _ St).
  - rewrite Ln. clear. vm_compute. done.
  - rewrite Ep, Cd. apply (guest_ok_straight _ _ _ _ _ je_code); [vm_compute; reflexivity| |lia|clear; vm_compute; done|left; clear; vm_compute; done].
    apply (at_bytes_ext (smem demo_call)); [|vm_compute; reflexivity].
    intros x Hx. apply (demo_started_mem s x St). cbn in Hx. lia.
  - unfold env_ind_type. rewrite (ld32_ext (smem demo_call)); [clear; vm_compute; done|].
    intros x Hx. apply (demo_started_mem s x St).
    change (@A_ind_type demo_layout) with 152835156 in Hx. lia.
  - exists s, i, s'. split; [exact R|]. split; [exact Rn|]. rewrite Ep in Sm. exact Sm.
Defined.
