(* ===== verification/IndCache.v ===== *)
(** The inline cache of indirect branches: the code [cemit_ind_opt] of
    src/target-i386/translate.c emits compares the target with three slots, the
    dispatcher fills the slots in order ([patch_ind_opt] of src/cpu-exec.c), and
    when they are full [ind_patch_sieve] sends the misses to the sieve. *)

From S2P Require Import Prelude Memory Opcode Decode DecodeSpec DecodeThm State TransBlock Emit.
From S2P Require Import Translate CpuExec Frame Linking Translation Dispatch.
From S2P Require Import Machine Sieve SieveThm.

Section IndCache.
Context `{Layout}.

(** ** The emitted code *)

(** Places in the 99 bytes at [a]: the comparison of slot [k], the exit, the
    landing code of slot [k]; the two words the dispatcher patches. *)
Definition cmp_at (a k : Z) : Z := a + 1 + 12 * k.
Definition out_at (a : Z) : Z := a + 37.
Definition hit_at (a k : Z) : Z := a + 69 + 10 * k.
Definition src_at (a k : Z) : Z := a + 7 + 12 * k.
Definition dest_at (a k : Z) : Z := a + 75 + 10 * k.
Definition ind_len : Z := 99.

Definition cmp_bytes (k p : Z) : list Z :=
  [0x8b; 0x4c; 0x24; 4] ++ (0x8d :: 0x89 :: le32 (- p)) ++ [0xe3; 56 - 2 * k].
Definition hit_bytes (a k d : Z) : list Z :=
  [0x59] ++ [0x8d; 0x64; 0x24; 4] ++ (0xe9 :: le32 (d - dest_at a k - 4)).

(** The code at [a] holds the slots [T]: a target and the code it leads to. *)
Record ind_code (m : mem) (a : Z) (T : Z -> Z * Z) : Prop := {
  ic_push : at_bytes m a [0x51];
  ic_cmp : forall k, 0 <= k < 3 -> at_bytes m (cmp_at a k) (cmp_bytes k (T k).1);
  ic_hit : forall k, 0 <= k < 3 -> at_bytes m (hit_at a k) (hit_bytes a k (T k).2);
  ic_range : forall k, 0 <= k < 3 -> 0 <= (T k).1 < 4294967296 /\ 0 <= (T k).2 < 4294967296 }.

Definition ind_list (T : Z -> Z * Z) : list (Z * Z) := map T (seqZ 0 3).

Lemma ind_code_ext m m' a T : (forall x, a <= x < a + ind_len -> m' !! x = m !! x) ->
  ind_code m a T -> ind_code m' a T.
Proof.
  unfold ind_len. intros E [P C L R]. constructor; [| | |done].
  - apply (at_bytes_ext m); [|done]. intros x Hx. apply E. cbn in Hx. lia.
  - intros k Hk. apply (at_bytes_ext m); [|auto]. intros x Hx. apply E. unfold cmp_at in Hx. cbn in Hx. lia.
  - intros k Hk. apply (at_bytes_ext m); [|auto]. intros x Hx. apply E. unfold hit_at in Hx. cbn in Hx. lia.
Qed.

(** ** Running it *)

(** After the push, at the comparison of slot [k]. *)
Lemma cmp_run m a T k r f Q : 0 <= a -> a + ind_len < 4294967280 -> ind_code m a T -> 0 <= k < 3 ->
  0 <= r R_ESP -> r R_ESP + 8 < 4294967296 ->
  let tgt := ld32 m (r R_ESP + 4) in
  (forall r', (forall x, x <> R_ECX -> r' x = r x) ->
     (tgt = (T k).1 -> leads (mkCpu r' (hit_at a k) f m) Q) /\
     (tgt <> (T k).1 -> leads (mkCpu r' (cmp_at a (k + 1)) f m) Q)) ->
  leads (mkCpu r (cmp_at a k) f m) Q.
Proof.
  intros A1 A2 I Hk S1 S2 tgt K. pose proof (ic_cmp _ _ _ I k Hk) as B.
  destruct (ic_range _ _ _ I k Hk) as [R1 _]. unfold cmp_bytes, ind_len, cmp_at, hit_at in *.
  peel B 4 (a + 1 + 12 * k + 4) B1. peel B 6 (a + 1 + 12 * k + 10) B2.
  assert (D : forall j, 0 <= j <= 99 -> code_addr (a + j)) by (unfold code_addr; lia).
  assert (Dk : forall j, 0 <= j <= 12 -> code_addr (a + 1 + 12 * k + j)).
  { intros j Hj. replace (a + 1 + 12 * k + j) with (a + (1 + 12 * k + j)) by lia. apply D. lia. }
  pose proof (Dk 0 ltac:(lia)) as A0. rewrite Z.add_0_r in A0.
  apply (l_load_ecx m _ r f _ A0 B1). rewrite u32_small by lia. fold tgt.
  apply (l_lea_ecx m _ _ f _ (Dk 4 ltac:(lia)) _ B2).
  rewrite fn_lookup_insert. replace (a + 1 + 12 * k + 4 + 6) with (a + 1 + 12 * k + 10) by lia.
  apply (l_jecxz m _ _ f _ (Dk 10 ltac:(lia)) _ B); [lia|lia|].
  rewrite fn_lookup_insert, u32_sub_zero by (done || apply ld32_range).
  set (r' := <[R_ECX := _]> _). destruct (K r') as [K1 K2].
  { intros x X. unfold r'. now reg_eq. }
  destruct (Z.eqb_spec (T k).1 tgt) as [E|E].
  - replace (a + 1 + 12 * k + 10 + 2 + (56 - 2 * k)) with (a + 69 + 10 * k) by lia. auto.
  - replace (a + 1 + 12 * k + 10 + 2) with (a + 1 + 12 * (k + 1)) by lia. auto.
Qed.

(** The landing code restores [%ecx] and drops the target. *)
Lemma hit_run m a T k r f : 0 <= a -> a + ind_len < 4294967280 -> ind_code m a T -> 0 <= k < 3 ->
  leads (mkCpu r (hit_at a k) f m) (resumed r f m (T k).2).
Proof.
  intros A1 A2 I Hk. pose proof (ic_hit _ _ _ I k Hk) as B.
  destruct (ic_range _ _ _ I k Hk) as [_ R2]. unfold hit_bytes, ind_len, hit_at, dest_at in *.
  peel B 1 (a + 69 + 10 * k + 1) B1. peel B 4 (a + 69 + 10 * k + 5) B2.
  assert (Dk : forall j, 0 <= j <= 10 -> code_addr (a + 69 + 10 * k + j)) by (unfold code_addr; lia).
  pose proof (Dk 0 ltac:(lia)) as A0. rewrite Z.add_0_r in A0.
  apply (l_pop_ecx m _ r f _ A0 B1). apply (l_lea_esp4 m _ _ f _ (Dk 1 ltac:(lia)) B2).
  replace (a + 69 + 10 * k + 1 + 4) with (a + 69 + 10 * k + 5) by lia.
  apply (l_jmp m _ _ f _ (T k).2).
  { replace (a + 69 + 10 * k + 5 + 1) with (a + 75 + 10 * k) by lia. exact B. }
  apply leads_now. constructor; cbn [regs ip flags cmem]; try done.
  - now apply u32_small.
  - reg_eq. rewrite u32_add_l. f_equal. lia.
  - intros x X1 X2. now reg_eq.
Qed.

Lemma resumed_ecx r r' f m tc c : (forall x, x <> R_ECX -> r' x = r x) ->
  resumed r' f m tc c -> resumed r f m tc c.
Proof.
  intros E [K1 K2 K3 K4 K5 K6]. assert (Es : r' R_ESP = r R_ESP) by now apply E.
  rewrite Es in K2, K3. constructor; try done. intros x X1 X2. rewrite K4 by done. now apply E.
Qed.

Lemma exited_ecx r r' f m ret tb ty c : (forall x, x <> R_ECX -> r' x = r x) ->
  exited r' f m ret tb ty c -> exited r f m ret tb ty c.
Proof.
  intros E [X1 X2 X3 X4 X5 X6 X7 X8 X9]. assert (Es : r' R_ESP = r R_ESP) by now apply E.
  rewrite Es in X2, X3, X6. constructor; try done. intros x Y1 Y2. rewrite X4 by done. now apply E.
Qed.

(** From the comparison of slot [k] on, the first of the slots that matches. *)
Lemma cmps_run m a T f (Q : cpu -> Prop) : 0 <= a -> a + ind_len < 4294967280 -> ind_code m a T ->
  forall n k r, k + Z.of_nat n = 3 -> 0 <= k -> 0 <= r R_ESP -> r R_ESP + 8 < 4294967296 ->
  (forall r', (forall x, x <> R_ECX -> r' x = r x) ->
     match chain_lookup (map T (seqZ k (Z.of_nat n))) (ld32 m (r R_ESP + 4)) with
     | Some d => forall c, resumed r f m d c -> Q c
     | None => leads (mkCpu r' (out_at a) f m) Q
     end) ->
  leads (mkCpu r (cmp_at a k) f m) Q.
Proof.
  intros A1 A2 I. induction n as [|n IH]; intros k r Hk K0 S1 S2 K.
  - assert (k = 3) as -> by lia. unfold cmp_at. replace (a + 1 + 12 * 3) with (out_at a) by (unfold out_at; lia).
    exact (K r (fun x _ => eq_refl)).
  - rewrite Nat2Z.inj_succ, seqZ_cons, Z.pred_succ in K by lia. cbn [map chain_lookup] in K.
    apply (cmp_run m a T k r f Q A1 A2 I); [lia|done|done|]. intros r' E'.
    assert (Es : r' R_ESP = r R_ESP) by now apply E'. split; intros D.
    + rewrite D in K. destruct (T k) as [q d] eqn:Tk. cbn [fst] in *. rewrite Z.eqb_refl in K.
      pose proof (hit_run m a T k r' f A1 A2 I ltac:(lia)) as R. rewrite Tk in R.
      apply (leads_trans _ _ _ R). intros c Rc. apply leads_now, (K r' E').
      now apply (resumed_ecx r r').
    + apply IH; rewrite ?Es; try lia. intros r2 E2. specialize (K r2).
      destruct (T k) as [q d] eqn:Tk. cbn [fst] in *.
      destruct (Z.eqb_spec q (ld32 m (r R_ESP + 4))) as [?|_]; [congruence|].
      assert (E3 : forall x, x <> R_ECX -> r2 x = r x) by (intros x X; now rewrite E2, E').
      specialize (K E3). destruct (chain_lookup _ _); [|done].
      intros c Rc. apply K. now apply (resumed_ecx r r').
Qed.

(** The guest's view: the target, popped from the stack, is reached with every
    register and the flags as they were; only the word the push used differs. *)
Definition below (r : Z -> Z) : Z := r R_ESP - 4.
Definition spilled (r : Z -> Z) (m : mem) : mem := st32 (below r) (r R_ECX) m.

Record branched (r : Z -> Z) (f : Z) (m : mem) (tc : Z) (c : cpu) : Prop := {
  br_ip : ip c = tc;
  br_esp : regs c R_ESP = u32 (r R_ESP + 4);
  br_regs : forall x, x <> R_ESP -> regs c x = r x;
  br_flags : flags c = f;
  br_mem : cmem c = spilled r m }.

(** The same on the way to the dispatcher, through the epilogue at [ret]. *)
Record left_for (r : Z -> Z) (f : Z) (m : mem) (ret tb ty : Z) (c : cpu) : Prop := {
  lf_ip : ip c = u32 ret;
  lf_esp : regs c R_ESP = u32 (r R_ESP + 4);
  lf_regs : forall x, x <> R_ESP -> regs c x = r x;
  lf_flags : flags c = f;
  lf_eip : ld32 (cmem c) A_eip = ld32 m (r R_ESP);
  lf_tb : u32 tb <> u32 (-1) -> ld32 (cmem c) A_ret_tb = u32 tb;
  lf_ty : u32 ty <> u32 (-1) -> ld32 (cmem c) A_ind_type = u32 ty;
  lf_mem : forall x, (x < A_eip \/ A_eip + 4 <= x) -> (x < A_ret_tb \/ A_ret_tb + 4 <= x) ->
     (x < A_ind_type \/ A_ind_type + 4 <= x) -> cmem c !! x = spilled r m !! x }.

(** A stack the code may push on. *)
Definition stack_ok (r : Z -> Z) : Prop :=
  4 <= r R_ESP /\ r R_ESP + 4 < 4294967296 /\ 0 <= r R_ECX < 4294967296.

Definition pushed (r : Z -> Z) : Z -> Z := <[R_ESP := below r]> r.

Lemma pushed_resumed r f m tc c : stack_ok r ->
  resumed (pushed r) f (spilled r m) tc c -> branched r f m tc c.
Proof.
  intros (S1 & S2 & S3) [K1 K2 K3 K4 K5 K6]. unfold pushed, below in *.
  rewrite fn_lookup_insert in K2, K3. constructor; try done.
  - rewrite K3. f_equal. lia.
  - intros x X. destruct (Z.eq_dec x R_ECX) as [->|D].
    + rewrite K2. unfold spilled, below. rewrite ld32_st32. now apply u32_small.
    + rewrite K4 by done. now rewrite fn_lookup_insert_ne by congruence.
Qed.

Lemma spilled_out r m x : x < below r \/ r R_ESP <= x -> spilled r m !! x = m !! x.
Proof. unfold spilled, below. intros Hx. apply st32_out. lia. Qed.

Lemma spilled_target r m : ld32 (spilled r m) (pushed r R_ESP + 4) = ld32 m (r R_ESP).
Proof.
  unfold pushed, below. rewrite fn_lookup_insert. replace (r R_ESP - 4 + 4) with (r R_ESP) by lia.
  apply ld32_ext. intros x Hx. apply spilled_out. lia.
Qed.

Lemma pushed_exited r f m ret tb ty c : stack_ok r ->
  exited (pushed r) f (spilled r m) ret tb ty c -> left_for r f m ret tb ty c.
Proof.
  intros (S1 & S2 & S3) [X1 X2 X3 X4 X5 X6 X7 X8 X9]. rewrite spilled_target in X6.
  unfold pushed, below in *. rewrite fn_lookup_insert in X2, X3. constructor; try done.
  - rewrite X3. f_equal. lia.
  - intros x X. destruct (Z.eq_dec x R_ECX) as [->|D].
    + rewrite X2. unfold spilled, below. rewrite ld32_st32. now apply u32_small.
    + rewrite X4 by done. now rewrite fn_lookup_insert_ne by congruence.
  - intros D. rewrite X7. destruct (Z.eqb_spec (u32 tb) (u32 (-1))); done.
  - intros D. rewrite X8. destruct (Z.eqb_spec (u32 ty) (u32 (-1))); done.
Qed.

(** The whole branch: the push, then the slots; what the miss does is [K]. *)
Lemma ind_run m a T r f (Q : cpu -> Prop) : 0 <= a -> a + ind_len < 4294967280 -> ind_code m a T ->
  stack_ok r -> r R_ESP <= a \/ a + ind_len <= below r ->
  (forall r', (forall x, x <> R_ECX -> r' x = pushed r x) ->
     match chain_lookup (ind_list T) (ld32 m (r R_ESP)) with
     | Some d => forall c, branched r f m d c -> Q c
     | None => leads (mkCpu r' (out_at a) f (spilled r m)) Q
     end) ->
  leads (mkCpu r a f m) Q.
Proof.
  intros A1 A2 I St D K. pose proof St as (S1 & S2 & S3).
  assert (A0 : code_addr a) by (unfold code_addr, ind_len in *; lia).
  apply (l_push_ecx m a r f _ A0 (ic_push _ _ _ I)). rewrite u32_small by lia.
  change (st32 _ _ m) with (spilled r m). change (r R_ESP - 4) with (below r) in *.
  change (<[R_ESP := below r]> r) with (pushed r).
  replace (a + 1) with (cmp_at a 0) by (unfold cmp_at; lia).
  assert (I' : ind_code (spilled r m) a T).
  { apply (ind_code_ext m); [|done]. intros x Hx. apply spilled_out. lia. }
  assert (Sp : pushed r R_ESP = r R_ESP - 4) by (unfold pushed; now rewrite fn_lookup_insert).
  apply (cmps_run (spilled r m) a T f Q A1 A2 I' 3 0 (pushed r)); rewrite ?Sp; try lia.
  intros r' E'. specialize (K r' E'). rewrite <- Sp, spilled_target.
  unfold ind_list in K. destruct (chain_lookup _ _); [|done].
  intros c Rc. apply K. now apply pushed_resumed.
Qed.

(** ** What a branch resolves to *)

Inductive outcome := Goto (tc : Z) | Leave (tb ty : Z).

(** The slots first; when they are [full] the sieve [M]; else the dispatcher. *)
Definition resolve (T : Z -> Z * Z) (full : bool) (M : gmap Z Z) (tb ty tgt : Z) : outcome :=
  match chain_lookup (ind_list T) tgt with
  | Some d => Goto d
  | None =>
      if full then
        match M !! tgt with Some tc => Goto tc | None => Leave (-1) IND_TYPE_CALL end
      else Leave tb ty
  end.

Definition reached (r : Z -> Z) (f : Z) (m : mem) (ret : Z) (o : outcome) (c : cpu) : Prop :=
  match o with
  | Goto tc => branched r f m tc c
  | Leave tb ty => left_for r f m ret tb ty c
  end.

(** The code a miss runs. *)
Definition out_bytes (s : st) (a tb ty : Z) (full : bool) : list Z :=
  if full then 0xe9 :: le32 (sieve_stub s - (out_at a + 1) - 4)
  else items_bytes (out_at a) (exit_items (tb_ret_addr (cgc s)) tb ty).

Lemma out_bytes_len s a tb ty full : Z.of_nat (length (out_bytes s a tb ty full)) <= 32.
Proof.
  unfold out_bytes. destruct full; [cbn; lia|]. rewrite items_bytes_length. apply exit_items_len.
Qed.

(** The site at [a], in the code buffer. *)
Record ind_site (s : st) (a : Z) (T : Z -> Z * Z) (full : bool) (tb ty : Z) : Prop := {
  is_code : ind_code (smem s) a T;
  is_out : at_bytes (smem s) (out_at a) (out_bytes s a tb ty full);
  is_at : L_code <= a /\ a + ind_len <= L_code + DEFAULT_CODE_GEN_BUFFER_SIZE }.

(** The word the branch pushes hits none of the translator's own data. *)
Definition stack_apart (r : Z -> Z) : Prop :=
  (r R_ESP <= L_code \/ L_code + DEFAULT_CODE_GEN_BUFFER_SIZE <= below r) /\
  (r R_ESP <= L_sieve \/ L_sieve + DEFAULT_SIEVE_BUFFER_SIZE <= below r) /\
  (r R_ESP <= L_prologue \/ L_prologue + 2048 <= below r) /\
  (r R_ESP <= L_env \/ L_env + env_size <= below r).

Lemma sieve_maps_spilled s M r : layout_ok -> sieve_maps s M -> stack_apart r ->
  sieve_maps (set_smem (spilled r (smem s)) s) M.
Proof.
  intros L Sm (A1 & A2 & A3 & A4). pose proof Sm as (T & I & _). pose proof (si_top _ _ I) as V.
  unfold env_size in *.
  apply (sieve_maps_ext s); try done; cbn [sieve_code_ptr set_smem smem]; try lia;
    intros x Hx; apply spilled_out; unfold A_sieve_hashtable, SIEVE_SIZE in *; lia.
Qed.

(** At the sieve, after the push: [r'] differs from the pushed registers in
    [%ecx] only. *)
Lemma sieve_jump s M r r' f : layout_ok -> sieve_maps s M -> stack_ok r -> stack_apart r ->
  (forall x, x <> R_ECX -> r' x = pushed r x) ->
  leads (mkCpu r' (u32 (sieve_stub s)) f (spilled r (smem s)))
    (reached r f (smem s) (tb_ret_addr (cgc s))
       (match M !! ld32 (smem s) (r R_ESP) with
        | Some tc => Goto tc | None => Leave (-1) IND_TYPE_CALL end)).
Proof.
  intros L Sm St Ap E'. pose proof St as (S1 & S2 & S3). pose proof (sieve_maps_spilled s M r L Sm Ap) as Sm2.
  assert (Sp : r' R_ESP = below r) by (rewrite E' by done; unfold pushed; now rewrite fn_lookup_insert).
  pose proof L as [_ _ _ _ L5 _]. unfold below in *.
  assert (Es : u32 (sieve_stub s) = sieve_stub s).
  { destruct Sm as (T' & I & _). destruct (si_stub _ _ I) as [-> _]. apply u32_small.
    unfold DEFAULT_SIEVE_BUFFER_SIZE in *. lia. }
  rewrite Es. pose proof (sieve_maps_run _ M r' f L Sm2) as K. rewrite Sp in K.
  cbv zeta in K. cbn [sieve_stub set_smem smem cgc tb_ret_addr] in K.
  assert (Tg : ld32 (spilled r (smem s)) (r R_ESP - 4 + 4) = ld32 (smem s) (r R_ESP)).
  { rewrite <- (spilled_target r). unfold pushed, below. now rewrite fn_lookup_insert. }
  rewrite Tg in K. apply (leads_trans _ _ _ (K ltac:(lia) ltac:(lia))). intros c Kc. apply leads_now.
  destruct (M !! _); cbn [reached].
  - apply pushed_resumed; [done|]. now apply (resumed_ecx _ r').
  - apply pushed_exited; [done|]. now apply (exited_ecx _ r').
Qed.

(** The miss of the slots. *)
Lemma out_run s a T full tb ty M r r' f : layout_ok -> ind_site s a T full tb ty ->
  sieve_maps s M -> stack_ok r -> stack_apart r -> (forall x, x <> R_ECX -> r' x = pushed r x) ->
  leads (mkCpu r' (out_at a) f (spilled r (smem s)))
    (reached r f (smem s) (tb_ret_addr (cgc s))
       (if full then match M !! ld32 (smem s) (r R_ESP) with
                     | Some tc => Goto tc | None => Leave (-1) IND_TYPE_CALL end
        else Leave tb ty)).
Proof.
  intros L [C O A] Sm St Ap E'. pose proof St as (S1 & S2 & S3). pose proof Ap as (A1 & _).
  pose proof L as [L1 _ _ _ L5 _]. unfold ind_len, env_size in *.
  assert (Oc : at_bytes (spilled r (smem s)) (out_at a) (out_bytes s a tb ty full)).
  { apply (at_bytes_ext (smem s)); [|done]. intros x Hx. apply spilled_out.
    pose proof (out_bytes_len s a tb ty full).
    unfold out_at, below in *. lia. }
  unfold out_bytes in Oc. destruct full.
  - apply (l_jmp _ _ _ _ _ (sieve_stub s) Oc). now apply sieve_jump.
  - assert (Sp : r' R_ESP = r R_ESP - 4) by (rewrite E' by done; unfold pushed, below; now rewrite fn_lookup_insert).
    pose proof (exit_run (spilled r (smem s)) (out_at a) r' f (tb_ret_addr (cgc s)) tb ty L) as K.
    unfold off_env, out_at, env_size in *. rewrite Sp in K.
    apply (leads_trans _ _ _ (K ltac:(lia) ltac:(lia) ltac:(lia) Oc ltac:(lia) ltac:(lia))).
    intros c Kc. apply leads_now. cbn [reached]. apply pushed_exited; [done|].
    now apply (exited_ecx _ r').
Qed.

Lemma site_run s a T full tb ty M r f : layout_ok -> ind_site s a T full tb ty ->
  sieve_maps s M -> stack_ok r -> stack_apart r ->
  leads (mkCpu r a f (smem s))
    (reached r f (smem s) (tb_ret_addr (cgc s))
       (resolve T full M tb ty (ld32 (smem s) (r R_ESP)))).
Proof.
  intros L S Sm St Ap. pose proof (is_at _ _ _ _ _ _ S) as A. pose proof Ap as (A1 & _).
  pose proof L as [_ _ _ _ L5 _]. unfold ind_len in *.
  apply (ind_run (smem s) a T r f); try done; try (unfold ind_len; lia).
  - exact (is_code _ _ _ _ _ _ S).
  - intros r' E'. pose proof (out_run s a T full tb ty M r r' f L S Sm St Ap E') as K.
    unfold resolve. destruct (chain_lookup _ _) as [d|]; [|exact K]. intros c B. exact B.
Qed.

End IndCache.
