(* ===== verification/IndEmit.v ===== *)
(** [cemit_ind_opt] of src/target-i386/translate.c emits an empty inline cache,
    and the block remembers where its slots are. *)

From S2P Require Import Prelude Memory Opcode Decode DecodeSpec DecodeThm State TransBlock Emit.
From S2P Require Import Translate CpuExec Frame Linking Translation Dispatch.
From S2P Require Import Machine Sieve SieveThm IndCache.

Section IndEmit.
Context `{Layout}.

(** [n] more bytes, written at the code pointer. *)
Record grown (n : Z) (s s' : st) : Prop := {
  gr_cp : code_ptr s' = code_ptr s + n;
  gr_mem : forall x, x < code_ptr s \/ code_ptr s + n <= x -> smem s' !! x = smem s !! x;
  gr_cur : cur_tb s' = cur_tb s;
  gr_stub : sieve_stub s' = sieve_stub s;
  gr_cgc : cgc s' = cgc s }.

Lemma grown_trans m n s1 s2 s3 : 0 <= m -> 0 <= n -> grown m s1 s2 -> grown n s2 s3 -> grown (m + n) s1 s3.
Proof.
  intros M N [A1 A2 A3 AS A4] [B1 B2 B3 BS B4]. constructor; try congruence; [lia|].
  intros x Hx. rewrite B2, A2 by lia. done.
Qed.

Lemma emit_grown l s (Q : unit -> st -> Prop) E :
  (forall s', grown (items_len l) s s' -> at_bytes (smem s') (code_ptr s) (items_bytes (code_ptr s) l) ->
     tbs s' = tbs s -> Q tt s') -> runs (emit l) s Q E.
Proof.
  intros K. apply runs_modify. apply K; [|apply at_bytes_items|done].
  constructor; try done. st_simpl. intros x Hx. apply write_bytes_out. rewrite items_bytes_length. done.
Qed.

(** Code emitted before stays. *)
Lemma grown_bytes n s s' a bs : grown n s s' -> at_bytes (smem s) a bs ->
  a + Z.of_nat (length bs) <= code_ptr s -> at_bytes (smem s') a bs.
Proof. intros G B L. apply (at_bytes_ext (smem s)); [|done]. intros x Hx. apply (gr_mem _ _ _ G). lia. Qed.

(** The comparison of a slot as it is first emitted, but for the jump's
    displacement. *)
Definition raw_cmp : list Z := [0x8b; 0x4c; 0x24; 4; 0x8d; 0x89] ++ le32 (- NEED_PATCH_32) ++ [0xe3].

Definition cur (s : st) : TranslationBlock := tbs s (cur_tb s).

Lemma cmps_emit a0 n : forall k s, code_ptr s = cmp_at a0 k ->
  runs (cemit_ind_cmps (seqZ k (Z.of_nat n))) s (fun ps s' =>
    ps = map (fun j => cmp_at a0 j + 11) (seqZ k (Z.of_nat n)) /\
    grown (12 * Z.of_nat n) s s' /\
    jind_dest_addr (cur s') = jind_dest_addr (cur s) /\
    jmp_ind_index (cur s') = jmp_ind_index (cur s) /\
    (forall j, ~ (k <= j < k + Z.of_nat n) -> jind_src_addr (cur s') j = jind_src_addr (cur s) j) /\
    forall j, k <= j < k + Z.of_nat n ->
      at_bytes (smem s') (cmp_at a0 j) raw_cmp /\ jind_src_addr (cur s') j = src_at a0 j) (fun _ => False).
Proof.
  induction n as [|n IH]; intros k s Ec.
  - change (seqZ k (Z.of_nat 0)) with (@nil Z). cbn [cemit_ind_cmps map]. run. split; [done|].
    split; [constructor; try done; lia|]. split; [done|]. split; [done|]. split; [done|lia].
  - rewrite Nat2Z.inj_succ, seqZ_cons, Z.pred_succ by lia. cbn [cemit_ind_cmps map].
    run. apply emit_grown. intros s1 G1 B1 T1. run. run. run. run. run. apply runs_modify.
    set (s2 := upd_tb _ _ s1). assert (M2 : smem s2 = smem s1 /\ code_ptr s2 = code_ptr s1 /\
      cur_tb s2 = cur_tb s1 /\ cgc s2 = cgc s1 /\ sieve_stub s2 = sieve_stub s1) by done.
    destruct M2 as (M2 & C2 & U2 & K2 & Z2).
    assert (T2 : cur s2 = set_jind_src_addr (<[k := code_ptr s1]> (jind_src_addr (cur s))) (cur s)).
    { unfold cur. rewrite U2, (gr_cur _ _ _ G1). unfold s2. rewrite (gr_cur _ _ _ G1), upd_tb_eq. now rewrite T1. }
    clearbody s2. run. apply emit_grown. intros s3 G3 B3 T3. do 2 run. run. apply emit_grown.
    intros s4 G4 B4 T4. cbn [items_len item_len] in *. run.
    pose proof (gr_cp _ _ _ G1) as P1. pose proof (gr_cp _ _ _ G3) as P3. pose proof (gr_cp _ _ _ G4) as P4.
    assert (G12 : grown 6 s s2) by (destruct G1; constructor; rewrite ?M2, ?C2, ?U2, ?K2, ?Z2; done).
    pose proof (grown_trans 6 5 s s2 s3 ltac:(lia) ltac:(lia) G12 G3) as G13.
    pose proof (grown_trans 11 1 s s3 s4 ltac:(lia) ltac:(lia) G13 G4) as G. change (11 + 1) with 12 in G. unfold cmp_at, src_at in *.
    assert (Cs : cur s4 = cur s2).
    { unfold cur. rewrite T4, T3, (gr_cur _ _ _ G4), (gr_cur _ _ _ G3). done. }
    eapply runs_conseq; [apply (IH (Z.succ k) s4); lia| |done].
    cbv beta. intros ps s5 (-> & G5 & D5 & X5 & O5 & S5). pose proof (gr_cp _ _ _ G5) as P5. run.
    split; [f_equal; lia|].
    split; [replace (12 * Z.succ (Z.of_nat n)) with (12 + 12 * Z.of_nat n) by lia;
      apply (grown_trans _ _ s s4); [lia|lia|done|done]|].
    split; [now rewrite D5, Cs, T2|]. split; [now rewrite X5, Cs, T2|]. split.
    + intros j Hj. rewrite O5 by lia. rewrite Cs, T2. cbn. now rewrite fn_lookup_insert_ne by lia.
    + intros j Hj. destruct (Z.eq_dec j k) as [->|D]; [|apply S5; lia]. split.
      * apply (grown_bytes (12 * Z.of_nat n) s4 s5); [done| |cbn; lia].
        apply (grown_bytes 1 s3 s4); [done| |cbn; lia].
        unfold raw_cmp. apply at_bytes_app. split.
        -- rewrite <- Ec. apply (grown_bytes 5 s2 s3); [done| |cbn; lia]. rewrite M2. exact B1.
        -- change (Z.of_nat (length [0x8b; 0x4c; 0x24; 4; 0x8d; 0x89])) with 6.
           replace (a0 + 1 + 12 * k + 6) with (code_ptr s2) by lia. exact B3.
      * rewrite O5 by lia. rewrite Cs, T2. cbn. rewrite fn_lookup_insert. lia.
Qed.

(** What the second loop changes: code at the end, and the displacements of
    the jumps of slots [k] to [k + n - 1]. *)
Record landed (a0 k n : Z) (s s' : st) : Prop := {
  ld_cp : code_ptr s' = code_ptr s + 10 * n;
  ld_mem : forall x, x < code_ptr s \/ code_ptr s' <= x ->
     (forall j, k <= j < k + n -> x <> cmp_at a0 j + 11) -> smem s' !! x = smem s !! x;
  ld_cur : cur_tb s' = cur_tb s;
  ld_cgc : cgc s' = cgc s;
  ld_src : jind_src_addr (cur s') = jind_src_addr (cur s);
  ld_index : jmp_ind_index (cur s') = jmp_ind_index (cur s);
  ld_out : ind_enter_sieve (cur s') = ind_enter_sieve (cur s);
  ld_dest : forall j, jind_dest_addr (cur s') j =
     if decide (k <= j < k + n) then dest_at a0 j else jind_dest_addr (cur s) j }.

(** Where an unfilled slot leads. *)
Definition raw_slot (a0 j : Z) : Z * Z := (NEED_PATCH_32, u32 (dest_at a0 j + 4 + NEED_PATCH_32)).

Lemma poke8_runs a v s (Q : unit -> st -> Prop) E :
  (forall s', smem s' = st8 a v (smem s) -> set_smem (smem s) s' = s -> Q tt s') -> runs (poke8 a v) s Q E.
Proof. intros K. apply runs_modify. apply K; [done|now destruct s]. Qed.

Lemma hits_emit a0 n : forall k s, code_ptr s = hit_at a0 k -> 0 <= k -> k + Z.of_nat n <= 3 ->
  0 <= a0 -> a0 + ind_len < 4294967280 ->
  runs (cemit_ind_hits (seqZ k (Z.of_nat n)) (map (fun j => cmp_at a0 j + 11) (seqZ k (Z.of_nat n)))) s
    (fun _ s' => landed a0 k (Z.of_nat n) s s' /\
       forall j, k <= j < k + Z.of_nat n ->
         at_bytes (smem s') (cmp_at a0 j + 11) [56 - 2 * j] /\
         at_bytes (smem s') (hit_at a0 j) (hit_bytes a0 j (raw_slot a0 j).2)) (fun _ => False).
Proof.
  induction n as [|n IH]; intros k s Ec K0 Kn A1 A2; unfold ind_len in *.
  - change (seqZ k (Z.of_nat 0)) with (@nil Z). cbn [cemit_ind_hits map]. run. split; [|lia].
    constructor; try done; try lia. intros j. rewrite decide_False by lia. done.
  - rewrite Nat2Z.inj_succ, seqZ_cons, Z.pred_succ by lia. cbn [cemit_ind_hits map].
    run. run. rewrite Ec. replace (hit_at a0 k - (cmp_at a0 k + 11) - 1) with (56 - 2 * k)
      by (unfold hit_at, cmp_at; lia). rewrite u32_small by lia.
    run. apply runs_ABORT_IF; [lia|]. intros _. run. apply poke8_runs. intros s1 M1 R1.
    assert (F1 : code_ptr s1 = code_ptr s /\ cur_tb s1 = cur_tb s /\ cgc s1 = cgc s /\ tbs s1 = tbs s)
      by now rewrite <- R1. destruct F1 as (C1 & U1 & K1 & T1). clear R1.
    run. apply emit_grown. intros s2 G2 B2 T2. do 2 run. run. run. run. apply runs_modify.
    set (s3 := upd_tb _ _ s2). assert (M3 : smem s3 = smem s2 /\ code_ptr s3 = code_ptr s2 /\
      cur_tb s3 = cur_tb s2 /\ cgc s3 = cgc s2) by done. destruct M3 as (M3 & C3 & U3 & K3).
    assert (T3 : cur s3 = set_jind_dest_addr (<[k := code_ptr s2]> (jind_dest_addr (cur s))) (cur s)).
    { unfold cur. rewrite U3, (gr_cur _ _ _ G2), U1. unfold s3.
      rewrite (gr_cur _ _ _ G2), U1, upd_tb_eq. now rewrite T2, T1. }
    clearbody s3. run. apply emit_grown. intros s4 G4 B4 T4. cbn [items_len item_len] in *.
    pose proof (gr_cp _ _ _ G2) as P2. pose proof (gr_cp _ _ _ G4) as P4.
    assert (Cs : cur s4 = cur s3) by (unfold cur; now rewrite T4, (gr_cur _ _ _ G4)).
    assert (M4 : forall x, x < code_ptr s \/ code_ptr s4 <= x -> x <> cmp_at a0 k + 11 ->
      smem s4 !! x = smem s !! x).
    { intros x X1 X2. rewrite (gr_mem _ _ _ G4), M3, (gr_mem _ _ _ G2) by lia. rewrite M1.
      now apply st8_ne. }
    assert (D4 : at_bytes (smem s4) (cmp_at a0 k + 11) [56 - 2 * k]).
    { apply at_bytes_cons. split; [|apply at_bytes_nil]. unfold ld8, cmp_at, hit_at in *.
      rewrite (gr_mem _ _ _ G4), M3, (gr_mem _ _ _ G2), M1, st8_eq by lia. cbn.
      rewrite u8_u8. apply u8_small. lia. }
    assert (H4 : at_bytes (smem s4) (hit_at a0 k) (hit_bytes a0 k (raw_slot a0 k).2)).
    { unfold hit_bytes, raw_slot. cbn [snd].
      assert (W : le32 (u32 (dest_at a0 k + 4 + NEED_PATCH_32) - dest_at a0 k - 4) = le32 NEED_PATCH_32).
      { rewrite <- (le32_u32 NEED_PATCH_32), <- le32_u32. f_equal.
        replace (u32 (dest_at a0 k + 4 + NEED_PATCH_32) - dest_at a0 k - 4)
          with (u32 (dest_at a0 k + 4 + NEED_PATCH_32) + (- dest_at a0 k - 4)) by lia.
        rewrite u32_add_l. f_equal. lia. }
      rewrite W.
      change ([0x59] ++ [0x8d; 0x64; 0x24; 4] ++ 0xe9 :: le32 NEED_PATCH_32)
        with ([0x59; 0x8d; 0x64; 0x24; 4; 0xe9] ++ le32 NEED_PATCH_32).
      apply at_bytes_app. split.
      - rewrite <- Ec, <- C1. apply (grown_bytes 4 s3 s4); [done|rewrite M3; exact B2|cbn; lia].
      - change (Z.of_nat (length [0x59; 0x8d; 0x64; 0x24; 4; 0xe9])) with 6.
        replace (hit_at a0 k + 6) with (code_ptr s3) by lia. exact B4. }
    eapply runs_conseq; [apply (IH (Z.succ k) s4); unfold hit_at, ind_len in *; lia| |done].
    cbv beta. intros _ s5 ([L1 L2 L3 L4 L5 Lx Lo L6] & B5). split.
    + constructor.
      * lia.
      * intros x X1 X2. unfold cmp_at, hit_at in *. rewrite L2, M4; [done|lia|apply X2; lia|lia|].
        intros j Hj. apply X2. lia.
      * rewrite L3, (gr_cur _ _ _ G4), U3, (gr_cur _ _ _ G2). done.
      * rewrite L4, (gr_cgc _ _ _ G4), K3, (gr_cgc _ _ _ G2). done.
      * now rewrite L5, Cs, T3.
      * now rewrite Lx, Cs, T3.
      * now rewrite Lo, Cs, T3.
      * intros j. rewrite L6, Cs, T3. cbn. destruct (Z.eq_dec j k) as [->|D].
        -- rewrite decide_False, decide_True by lia. rewrite fn_lookup_insert.
           unfold dest_at, hit_at in *. lia.
        -- rewrite fn_lookup_insert_ne by lia. repeat case_decide; lia || done.
    + intros j Hj. destruct (Z.eq_dec j k) as [->|D]; [|apply B5; lia].
      unfold cmp_at, hit_at in *. split.
      * apply (at_bytes_ext (smem s4)); [|exact D4]. intros x Hx. cbn in Hx. apply L2; lia.
      * apply (at_bytes_ext (smem s4)); [|exact H4]. intros x Hx.
        change (Z.of_nat (length _)) with 10 in Hx. apply L2; lia.
Qed.

(** Where the block keeps the places of its cache. *)
Record site_of (t : TranslationBlock) (a : Z) : Prop := {
  so_src : forall k, 0 <= k < 3 -> jind_src_addr t k = src_at a k;
  so_dest : forall k, 0 <= k < 3 -> jind_dest_addr t k = dest_at a k;
  so_out : ind_enter_sieve t = out_at a }.

Lemma exit_len32 r tb ty : u32 tb <> u32 (-1) -> u32 ty <> u32 (-1) -> items_len (exit_items r tb ty) = 32.
Proof.
  intros A B. unfold exit_items. destruct (Z.eqb_spec (u32 tb) (u32 (-1))); [done|].
  destruct (Z.eqb_spec (u32 ty) (u32 (-1))); [done|reflexivity].
Qed.

(** The comparison with its displacement fixed. *)
Lemma raw_cmp_fixed m a0 j : at_bytes m (cmp_at a0 j) raw_cmp -> at_bytes m (cmp_at a0 j + 11) [56 - 2 * j] ->
  at_bytes m (cmp_at a0 j) (cmp_bytes j NEED_PATCH_32).
Proof.
  intros A B. change (cmp_bytes j NEED_PATCH_32) with (raw_cmp ++ [56 - 2 * j]).
  apply at_bytes_app. split; [exact A|exact B].
Qed.

Lemma ind_opt_runs ty s : u32 (tb_addr (cur_tb s)) <> u32 (-1) -> u32 ty <> u32 (-1) ->
  layout_ok -> L_code <= code_ptr s -> code_ptr s + ind_len <= L_code + DEFAULT_CODE_GEN_BUFFER_SIZE ->
  runs (cemit_ind_opt ty) s (fun _ s' =>
    let a := code_ptr s in
    ind_site s' a (raw_slot a) false (tb_addr (cur_tb s)) ty /\ site_of (cur s') a /\
    code_ptr s' = a + ind_len /\ jmp_ind_index (cur s') = jmp_ind_index (cur s)) (fun _ => False).
Proof.
  intros E1 E2 L A1 A2. set (a := code_ptr s). pose proof L as [_ _ _ _ L5 _].
  unfold cemit_ind_opt. change ind_slots with (seqZ 0 (Z.of_nat 3)). unfold ind_len in *.
  run. apply emit_grown. intros s1 G1 B1 T1. cbn [items_len item_len] in G1.
  pose proof (gr_cp _ _ _ G1) as P1. run.
  eapply runs_conseq; [apply (cmps_emit a 3 0 s1); unfold cmp_at, a; lia| |done].
  cbv beta. intros ps s2 (-> & G2 & D2 & Y2 & O2 & S2). pose proof (gr_cp _ _ _ G2) as P2.
  run. run. run. run. run. apply runs_modify. set (s3 := upd_tb _ _ s2).
  assert (M3 : smem s3 = smem s2 /\ code_ptr s3 = code_ptr s2 /\ cur_tb s3 = cur_tb s2 /\ cgc s3 = cgc s2)
    by done. destruct M3 as (M3 & C3 & U3 & K3).
  assert (T3 : cur s3 = set_ind_enter_sieve (code_ptr s2) (cur s2)).
  { unfold cur. rewrite U3. unfold s3. now rewrite upd_tb_eq. }
  clearbody s3. run. unfold cemit_exit_tb. run. run. apply emit_grown. intros s4 G4 B4 T4.
  assert (U4 : cur_tb s2 = cur_tb s) by (rewrite (gr_cur _ _ _ G2); apply (gr_cur _ _ _ G1)).
  assert (K4 : cgc s3 = cgc s) by (rewrite K3, (gr_cgc _ _ _ G2); apply (gr_cgc _ _ _ G1)).
  rewrite U4, K4 in *. rewrite (exit_len32 _ _ ty E1 E2) in G4.
  pose proof (gr_cp _ _ _ G4) as P4.
  assert (Cs : cur s4 = cur s3) by (unfold cur; now rewrite T4, (gr_cur _ _ _ G4)).
  eapply runs_conseq; [apply (hits_emit a 3 0 s4); unfold hit_at, ind_len, a; try lia| |done].
  cbv beta. intros _ s5 ([L1 L2 L3 L4 L5' Lx Lo L6] & B5). change (Z.of_nat 3) with 3 in *.
  change (0 + 3) with 3 in *. unfold cmp_at in L2.
  assert (Old : forall x, x < a + 69 -> x <> a + 12 -> x <> a + 24 -> x <> a + 36 ->
    smem s5 !! x = smem s4 !! x).
  { intros x X1 X2 X3 X4. apply L2; [unfold a in *; lia|]. intros j Hj. lia. }
  assert (Ea : code_ptr s = a) by done. split; [|split; [|split]].
  - constructor.
    + constructor.
      * apply (at_bytes_ext (smem s1)).
        -- intros x Hx. cbn in Hx. rewrite Old by lia.
           rewrite (gr_mem _ _ _ G4), M3, (gr_mem _ _ _ G2) by lia. done.
        -- exact B1.
      * intros j Hj. destruct (B5 j Hj) as [F5 _]. destruct (S2 j Hj) as [R2 _].
        apply raw_cmp_fixed; [|exact F5]. apply (at_bytes_ext (smem s2)); [|exact R2].
        intros x Hx. change (Z.of_nat (length raw_cmp)) with 11 in Hx. unfold cmp_at in Hx.
        rewrite Old, (gr_mem _ _ _ G4), M3 by lia. done.
      * intros j Hj. apply (B5 j Hj).
      * intros j Hj. split; [unfold raw_slot, NEED_PATCH_32; cbn; lia|apply u32_range].
    + unfold out_bytes. rewrite L4, (gr_cgc _ _ _ G4), K4.
      replace (out_at a) with (code_ptr s3) by (unfold out_at; lia).
      apply (at_bytes_ext (smem s4)); [|exact B4]. intros x Hx.
      rewrite items_bytes_length, (exit_len32 _ _ ty E1 E2) in Hx. apply Old; lia.
    + unfold ind_len. lia.
  - constructor.
    + intros k Hk. rewrite L5', Cs, T3. apply (S2 k Hk).
    + intros k Hk. rewrite L6, decide_True by lia. done.
    + rewrite Lo, Cs, T3. cbn. unfold out_at. lia.
  - lia.
  - rewrite Lx, Cs, T3. cbn. rewrite Y2. unfold cur. now rewrite T1, (gr_cur _ _ _ G1).
Qed.

End IndEmit.
