(* ===== verification/IndThm.v ===== *)
(** Indirect branches end to end: the dispatcher fills the inline cache of the
    branch it came from, and the branch then resolves as an association list of
    three entries in front of the sieve. *)

From S2P Require Import Prelude Memory Opcode Decode DecodeSpec DecodeThm State TransBlock Emit.
From S2P Require Import Translate CpuExec Frame Session Linking GenCode Translation Dispatch.
From S2P Require Import Machine Sieve Prologue SieveThm IndCache IndEmit.

Section IndThm.
Context `{Layout}.

(** Block [p] has its cache at [a]; [n] slots are filled. *)
Record cached (s : st) (p : nat) (a : Z) (T : Z -> Z * Z) (n : Z) (full : bool) (ty : Z) : Prop := {
  ca_site : ind_site s a T full (tb_addr p) ty;
  ca_of : site_of (tbs s p) a;
  ca_index : jmp_ind_index (tbs s p) = n;
  ca_le : 0 <= n <= 3 }.

Lemma ind_site_ext s s' a T full tb ty : ind_site s a T full tb ty ->
  (forall x, a <= x < a + ind_len -> smem s' !! x = smem s !! x) ->
  sieve_stub s' = sieve_stub s -> tb_ret_addr (cgc s') = tb_ret_addr (cgc s) ->
  ind_site s' a T full tb ty.
Proof.
  intros [C O A] M E1 E2. constructor; [now apply (ind_code_ext (smem s))| |done].
  pose proof (out_bytes_len s a tb ty full) as Ln.
  assert (E : out_bytes s' a tb ty full = out_bytes s a tb ty full) by (unfold out_bytes; now rewrite E1, E2).
  rewrite E. refine (at_bytes_ext _ _ _ _ _ O). intros x Hx. apply M. unfold out_at, ind_len in *. lia.
Qed.

(** Overwriting a word inside a stretch of code. *)
Lemma at_bytes_poke m a b x v w y : at_bytes m a (x ++ le32 v ++ y) -> b = a + Z.of_nat (length x) ->
  at_bytes (st32 b w m) a (x ++ le32 w ++ y).
Proof.
  intros B ->. apply at_bytes_app in B as [B1 B2]. apply at_bytes_app in B2 as [_ B2].
  change (Z.of_nat (length (le32 v))) with 4 in B2. apply at_bytes_app. split; [|apply at_bytes_app; split].
  - apply (at_bytes_ext m); [|done]. intros z Hz. apply st32_out. lia.
  - unfold st32. rewrite <- (map_u8_le32 w) at 2. apply at_bytes_write.
  - change (Z.of_nat (length (le32 w))) with 4. apply (at_bytes_ext m); [|done].
    intros z Hz. apply st32_out. lia.
Qed.

Lemma at_bytes_poke_out m a b w bs : at_bytes m a bs -> a + Z.of_nat (length bs) <= b \/ b + 4 <= a ->
  at_bytes (st32 b w m) a bs.
Proof. intros B D. apply (at_bytes_ext m); [|done]. intros z Hz. apply st32_out. lia. Qed.

Lemma cmp_bytes_eq k p : cmp_bytes k p = [0x8b; 0x4c; 0x24; 4; 0x8d; 0x89] ++ le32 (- p) ++ [0xe3; 56 - 2 * k].
Proof. reflexivity. Qed.
Lemma hit_bytes_eq a k d : hit_bytes a k d = [0x59; 0x8d; 0x64; 0x24; 4; 0xe9] ++ le32 (d - dest_at a k - 4) ++ [].
Proof. reflexivity. Qed.

(** Filling slot [n]. *)
Lemma fill_code m a T n p d : ind_code m a T -> 0 <= n < 3 ->
  0 <= p < 4294967296 -> 0 <= d < 4294967296 ->
  ind_code (st32 (dest_at a n) (d - dest_at a n - 4) (st32 (src_at a n) (- p) m)) a (<[n := (p, d)]> T).
Proof.
  intros [P C L R] Hn Hp Hd. unfold cmp_at, hit_at in *. constructor.
  - unfold src_at, dest_at. do 2 (apply at_bytes_poke_out; [|cbn; lia]). done.
  - intros k Hk. specialize (C k Hk). unfold cmp_at.
    apply at_bytes_poke_out; [|unfold dest_at; cbn; lia]. destruct (Z.eq_dec n k) as [->|D].
    + rewrite fn_lookup_insert, cmp_bytes_eq in *. apply (at_bytes_poke _ _ _ _ (- (T k).1)); [done|].
      unfold src_at. cbn. lia.
    + rewrite fn_lookup_insert_ne by congruence.
      apply at_bytes_poke_out; [done|unfold src_at; cbn; lia].
  - intros k Hk. specialize (L k Hk). unfold hit_at. destruct (Z.eq_dec n k) as [->|D].
    + rewrite fn_lookup_insert, hit_bytes_eq in *.
      apply (at_bytes_poke _ _ _ _ ((T k).2 - dest_at a k - 4)); [|unfold dest_at; cbn; lia].
      apply at_bytes_poke_out; [done|unfold src_at; cbn; lia].
    + rewrite fn_lookup_insert_ne by congruence.
      do 2 (apply at_bytes_poke_out; [|unfold src_at, dest_at; cbn; lia]). done.
  - intros k Hk. destruct (Z.eq_dec n k) as [->|D].
    + rewrite fn_lookup_insert. done.
    + rewrite fn_lookup_insert_ne by congruence. auto.
Qed.

(** ** The dispatcher's side *)

(** A step that touches only the cache and the bookkeeping of block [p]. *)
Record site_step (p : nat) (a : Z) (s s' : st) : Prop := {
  ss_mem : forall x, x < a \/ a + ind_len <= x -> smem s' !! x = smem s !! x;
  ss_core : forall i, tb_core (tbs s' i) = tb_core (tbs s i);
  ss_tbs : forall i, i <> p -> tbs s' i = tbs s i;
  ss_const : nb_tbs s' = nb_tbs s /\ tb_phys_hash s' = tb_phys_hash s /\
     tb_jmp_cache s' = tb_jmp_cache s /\ code_gen_ptr s' = code_gen_ptr s /\
     sieve_code_ptr s' = sieve_code_ptr s /\ sieve_stub s' = sieve_stub s /\ cgc s' = cgc s /\
     code_ptr s' = code_ptr s }.

(** What [patch_ind_opt] makes of the cache: a slot more, or the jump to the sieve. *)
Definition next_slots (T : Z -> Z * Z) (n p d : Z) : Z -> Z * Z := if n <? 3 then <[n := (p, d)]> T else T.
Definition next_count (n : Z) : Z := if n <? 3 then n + 1 else n.
Definition next_full (n : Z) (full : bool) : bool := if n <? 3 then full else true.

(** A free slot. *)
Lemma patch_jmp_target_runs p s a T n full ty src d : cached s p a T n full ty -> n < 3 ->
  0 <= src < 4294967296 -> 0 <= d < 4294967296 ->
  runs (patch_jmp_target p src d) s (fun _ s' => site_step p a s s' /\
    cached s' p a (<[n := (src, d)]> T) (n + 1) full ty) (fun _ => False).
Proof.
  intros [S O Ix Le] Lt Hs Hd. pose proof S as [C Ou At]. destruct O as [O1 O2 O3].
  unfold patch_jmp_target. run. run. rewrite Ix. cbv zeta. run. unfold in_bounds.
  change (Z.of_nat IND_SLOT_MAX) with 3. rewrite (proj2 (Z.leb_le 0 n)), (proj2 (Z.ltb_lt n 3)) by lia.
  cbn [andb]. run. rewrite O1, O2 by lia. run. apply runs_modify. run. apply runs_modify. run.
  apply runs_modify. apply runs_modify. cbv beta. match goal with |- site_step _ _ _ ?x /\ _ => set (s4 := x) end.
  assert (M4 : smem s4 = st32 (dest_at a n) (d - dest_at a n - 4) (st32 (src_at a n) (- src) (smem s))) by done.
  assert (T4 : tbs s4 p = set_jmp_ind_index (u32 (n + 1)) (set_jmp_ind 0 (tbs s p))).
  { unfold s4. rewrite !upd_tb_eq. cbn [jmp_ind_index set_jmp_ind tbs set_smem]. now rewrite Ix. }
  assert (T5 : forall j, j <> p -> tbs s4 j = tbs s j)
    by (intros j D; unfold s4; now rewrite !upd_tb_ne by congruence).
  assert (K4 : nb_tbs s4 = nb_tbs s /\ tb_phys_hash s4 = tb_phys_hash s /\
    tb_jmp_cache s4 = tb_jmp_cache s /\ code_gen_ptr s4 = code_gen_ptr s /\
    sieve_code_ptr s4 = sieve_code_ptr s /\ sieve_stub s4 = sieve_stub s /\ cgc s4 = cgc s /\
    code_ptr s4 = code_ptr s) by done.
  clearbody s4. assert (Mo : forall x, x < src_at a n \/ src_at a n + 4 <= x ->
    x < dest_at a n \/ dest_at a n + 4 <= x -> smem s4 !! x = smem s !! x).
  { intros x X1 X2. rewrite M4, !st32_out by lia. done. }
  unfold ind_len in *. split.
  - constructor; try done; [|intros j; destruct (Nat.eq_dec j p) as [->|D]; [now rewrite T4|now rewrite T5]].
    intros x X. apply Mo; unfold src_at, dest_at, ind_len in *; lia.
  - destruct K4 as (_ & _ & _ & _ & _ & Ks & Kg & _). constructor; try (rewrite T4; cbn); try lia.
    + constructor; [rewrite M4; now apply fill_code| |done].
      pose proof (out_bytes_len s a (tb_addr p) ty full) as Ln. unfold out_bytes in *. rewrite Ks, Kg.
      refine (at_bytes_ext _ _ _ _ _ Ou). intros x Hx. unfold src_at, dest_at, out_at in *. apply Mo; lia.
    + now constructor.
    + apply u32_small. lia.
Qed.

(** No free slot. *)
Lemma ind_patch_sieve_runs p s a T n full ty : cached s p a T n full ty ->
  runs (ind_patch_sieve (out_at a)) s (fun _ s' => site_step p a s s' /\ cached s' p a T n true ty)
    (fun _ => False).
Proof.
  intros [S O Ix Le]. pose proof S as [C Ou At].
  unfold ind_patch_sieve. run. run. run. apply runs_modify. run. unfold cemit_sieve_nopush.
  run. run. apply runs_modify. apply runs_modify. cbv beta.
  match goal with |- site_step _ _ _ ?x /\ _ => set (s4 := x) end.
  set (bs := 0xe9 :: le32 (sieve_stub s - (out_at a + 1) - 4)).
  assert (M4 : smem s4 = write_bytes (out_at a) bs (smem s)) by done.
  assert (K4 : nb_tbs s4 = nb_tbs s /\ tb_phys_hash s4 = tb_phys_hash s /\
    tb_jmp_cache s4 = tb_jmp_cache s /\ code_gen_ptr s4 = code_gen_ptr s /\
    sieve_code_ptr s4 = sieve_code_ptr s /\ sieve_stub s4 = sieve_stub s /\ cgc s4 = cgc s /\
    code_ptr s4 = code_ptr s) by done.
  assert (T4 : tbs s4 = tbs s) by done. clearbody s4.
  assert (Mo : forall x, x < out_at a \/ out_at a + 5 <= x -> smem s4 !! x = smem s !! x).
  { intros x X. rewrite M4. apply write_bytes_out. exact X. }
  unfold ind_len in *. split.
  - constructor; try (intros j; now rewrite T4); try done.
    intros x X. apply Mo. unfold out_at, ind_len in *. lia.
  - destruct K4 as (_ & _ & _ & _ & _ & Ks & Kg & _). constructor; rewrite ?T4; try done.
    constructor; [| |done].
    + destruct C as [P C Hh R]. unfold out_at in Mo. constructor; [| | |done].
      * apply (at_bytes_ext (smem s)); [|done]. intros x Hx. cbn in Hx. apply Mo. lia.
      * intros k Hk. apply (at_bytes_ext (smem s)); [|auto]. intros x Hx.
        unfold cmp_at in Hx. cbn in Hx. apply Mo. lia.
      * intros k Hk. apply (at_bytes_ext (smem s)); [|auto]. intros x Hx.
        unfold hit_at in Hx. cbn in Hx. apply Mo. lia.
    + unfold out_bytes. rewrite Ks, M4. fold bs. pose proof (at_bytes_write (smem s) (out_at a) bs) as W.
      unfold bs at 2 in W. cbn [map] in W. rewrite map_u8_le32 in W. exact W.
Qed.

Lemma patch_ind_opt_runs p i s a T n full ty : cached s p a T n full ty ->
  0 <= tc_ptr (tbs s i) < 4294967296 ->
  runs (patch_ind_opt p i) s (fun _ s' => site_step p a s s' /\
    cached s' p a (next_slots T n (env_eip s) (tc_ptr (tbs s i))) (next_count n) (next_full n full) ty)
    (fun _ => False).
Proof.
  intros Ca Hi. pose proof (ld32_range (smem s) A_eip) as Re. change (ld32 (smem s) A_eip) with (env_eip s) in Re.
  unfold patch_ind_opt. run. run. run. run. rewrite (ca_index _ _ _ _ _ _ _ Ca).
  change (Z.of_nat IND_SLOT_MAX) with 3.
  unfold next_slots, next_count, next_full. destruct (Z.ltb_spec n 3) as [Lt|Ge].
  - run. run. now apply patch_jmp_target_runs.
  - rewrite (so_out _ _ (ca_of _ _ _ _ _ _ _ Ca)). exact (ind_patch_sieve_runs p s a T n full ty Ca).
Qed.

Lemma site_trans_inv p a s s' : layout_ok -> trans_inv s -> site_step p a s s' ->
  L_code <= a -> a + ind_len <= L_code + DEFAULT_CODE_GEN_BUFFER_SIZE -> trans_inv s'.
Proof.
  intros L [I N T C V P] [M Co _ (K1 & K2 & K3 & K4 & K5 & _)] A1 A2. destruct L as [L1 _ _ _ _ _].
  assert (F : forall i, patch_num (tbs s' i) = patch_num (tbs s i) /\ tc_ptr (tbs s' i) = tc_ptr (tbs s i) /\
    jmp_from_index (tbs s' i) = jmp_from_index (tbs s i)).
  { intros i. specialize (Co i). unfold tb_core in Co. now injection Co. }
  constructor; rewrite ?K1, ?K4, ?K5; try done.
  - apply (tb_inv_ext s); try done.
    + intros i. specialize (Co i). unfold tb_core in Co. now injection Co.
    + intros i Hi. destruct (F i) as (_ & _ & ->). now apply (inv_from s I).
  - intros i Hi. destruct (F i) as (-> & _). auto.
  - intros i Hi. destruct (F i) as (_ & -> & _). auto.
  - unfold env_patch_num. rewrite (ld32_ext (smem s)); [done|]. intros x Hx. apply M.
    unfold A_patch_num, env_size, ind_len in *. lia.
Qed.

Lemma cached_kept s s' p a T n full ty : cached s p a T n full ty -> kept (tbs s p) (tbs s' p) ->
  (forall x, a <= x < a + ind_len -> smem s' !! x = smem s !! x) ->
  sieve_stub s' = sieve_stub s -> tb_ret_addr (cgc s') = tb_ret_addr (cgc s) -> cached s' p a T n full ty.
Proof.
  intros [S [O1 O2 O3] Ix Le] K M E1 E2. destruct (kept_fields _ _ K) as (_ & _ & _ & F1 & F2 & F3 & F4).
  constructor; rewrite ?F1; try done; [now apply (ind_site_ext s)|].
  constructor; rewrite ?F2, ?F3, ?F4; done.
Qed.

Section Fill.
Variable dfuel : nat.
Variable ds0 : decode_t.
Hypothesis L : layout_ok.
Hypothesis Hf : (100 < dfuel)%nat.

Lemma dispatch_ind_runs p s a T n full ty : trans_inv s -> room 1 s ->
  guest_ok (smem s) (env_eip s) 100 (code_gen_ptr s) (code_gen_ptr s + gen_room) ->
  env_ind_type s <> NOT_IND -> cached s p a T n full ty -> (p < nb_tbs s)%nat ->
  tc_ptr (tbs s p) <> NOT_TRANS_YET -> a + ind_len <= code_gen_ptr s ->
  runs (dispatch dfuel ds0 (Some p)) s (fun i s' =>
    dispatched (fun x => a <= x < a + ind_len) s i s' /\
    cached s' p a (next_slots T n (env_eip s) (tc_ptr (tbs s' i))) (next_count n) (next_full n full) ty)
    (fun _ => False).
Proof.
  intros I R G Ty Ca Hp Tp Top. unfold dispatch. run. run. run.
  eapply runs_conseq; [apply (get_next_tb_runs dfuel ds0 L Hf); try done| |done].
  cbv beta. intros i s1 N. pose proof (nx_inv _ _ _ _ N) as I1.
  destruct (nx_old _ _ _ _ N p Hp) as (_ & _ & Kp). specialize (Kp Tp).
  pose proof (is_at _ _ _ _ _ _ (ca_site _ _ _ _ _ _ _ Ca)) as [A1 A2].
  pose proof (nx_code _ _ _ _ N) as Nc. pose proof (nx_sieve _ _ _ _ N) as Ns.
  pose proof (rm_code 1 s R) as Rc. pose proof (rm_sieve 1 s R) as Rs. pose proof (ti_sieve s I) as Vs.
  pose proof L as [L1 L2 L3 _ L5 _].
  assert (Ca1 : cached s1 p a T n full ty).
  { apply (cached_kept s); try done; try apply (nx_const _ _ _ _ N).
    intros x Hx. apply (nx_mem _ _ _ _ N); [lia|]. unfold ind_len in *. lia. }
  assert (E : forall x, L_env <= x -> x + 4 <= L_env + env_size -> ld32 (smem s1) x = ld32 (smem s) x)
    by (intros x X1 X2; now apply (next_env32 s (env_eip s) i s1)).
  assert (Ee : env_eip s1 = env_eip s) by (apply E; unfold A_eip, env_size; lia).
  run. run. unfold env_ind_type. rewrite E by (unfold A_ind_type, env_size; lia).
  change (ld32 (smem s) A_ind_type) with (env_ind_type s).
  rewrite (proj2 (Z.eqb_neq _ _) Ty). cbn [negb]. run. run.
  eapply runs_conseq; [apply (patch_ind_opt_runs p i s1 a T n full ty Ca1)| |done].
  { pose proof (nx_tc _ _ _ _ N). unfold env_size in *. lia. }
  cbv beta. intros _ s2 [St Ca2]. rewrite Ee in Ca2.
  pose proof (site_trans_inv p a s1 s2 L I1 St A1 A2) as I2.
  destruct St as [M Co Ot (K1 & K2 & K3 & K4 & K5 & K6 & K7 & K8)].
  assert (Ti : pc (tbs s2 i) = pc (tbs s1 i) /\ tc_ptr (tbs s2 i) = tc_ptr (tbs s1 i)).
  { specialize (Co i). unfold tb_core in Co. now injection Co. }
  destruct Ti as [Tpc Ttc]. run. run. run. apply enter_runs; [done|]. intros s' En.
  destruct (entered_fields _ _ _ En) as (G1 & G2 & G3 & G4 & G5 & G6). split.
  - apply (next_dispatched _ s i s1 s2); try done; [unfold node_len; lia| | |].
    { intros j. specialize (Co j). unfold tb_core in Co. now injection Co. }
    { now rewrite K6, K7. }
    intros x X1 _ _. apply M. lia.
  - rewrite G1, Ttc. apply (cached_kept s2); try done; [rewrite G1; apply kept_refl| |now rewrite G6].
    intros x Hx. apply (en_mem _ _ _ En); unfold A_target_tc, A_ret_tb, A_ind_type, env_size, ind_len in *; lia.
Qed.

End Fill.
End IndThm.

(** A slot that is filled with a target no slot had answers for it. *)
Lemma filled_lookup T n p d : 0 <= n < 3 -> chain_lookup (ind_list T) p = None ->
  chain_lookup (ind_list (<[n := (p, d)]> T)) p = Some d.
Proof.
  intros Hn N. unfold ind_list in *. change (seqZ 0 3) with [0; 1; 2] in *. cbn [map chain_lookup] in *.
  assert (C : n = 0 \/ n = 1 \/ n = 2) by lia.
  destruct (T 0) as [q0 d0] eqn:E0, (T 1) as [q1 d1] eqn:E1, (T 2) as [q2 d2] eqn:E2.
  destruct (Z.eqb_spec q0 p) as [?|D0]; [done|]. destruct (Z.eqb_spec q1 p) as [?|D1]; [done|].
  destruct C as [-> |[-> | ->]].
  - rewrite fn_lookup_insert. now rewrite Z.eqb_refl.
  - rewrite fn_lookup_insert_ne, E0, fn_lookup_insert by done.
    rewrite (proj2 (Z.eqb_neq q0 p)) by done. now rewrite Z.eqb_refl.
  - rewrite !fn_lookup_insert_ne, E0, E1, fn_lookup_insert by done.
    rewrite (proj2 (Z.eqb_neq q0 p)), (proj2 (Z.eqb_neq q1 p)) by done. now rewrite Z.eqb_refl.
Qed.

(** [cemit_ind_opt] emits an inline cache with three unfilled slots (they
    compare with [NEED_PATCH_32]) whose miss leaves through the epilogue with the
    block and the kind of branch, and the block records where the two words of
    each slot and the exit are. *)
Theorem cemit_ind_opt_empty `{Layout} ty s : layout_ok ->
  u32 (tb_addr (cur_tb s)) <> u32 (-1) -> u32 ty <> u32 (-1) ->
  L_code <= code_ptr s -> code_ptr s + ind_len <= L_code + DEFAULT_CODE_GEN_BUFFER_SIZE ->
  exists s', cemit_ind_opt ty s = Ok (tt, s') /\ code_ptr s' = code_ptr s + ind_len /\
    ind_site s' (code_ptr s) (raw_slot (code_ptr s)) false (tb_addr (cur_tb s)) ty /\
    site_of (cur s') (code_ptr s) /\ jmp_ind_index (cur s') = jmp_ind_index (cur s).
Proof.
  intros L E1 E2 A1 A2. destruct (runs_done _ _ _ (ind_opt_runs ty s E1 E2 L A1 A2)) as ([] & s' & R & K).
  exists s'. split; [exact R|]. destruct K as (K1 & K2 & K3 & K4). auto.
Qed.


(** When an indirect branch has missed its slots, [dispatch] finds or
    translates the block of [env->eip] and fills the next slot of the branch,
    or sends later misses to the sieve when the three are full; only the new
    code and stubs, the 99 bytes of the cache and three words of the
    environment change. *)
Theorem dispatch_fills `{Layout} dfuel ds p s a T n full ty : layout_ok -> (100 < dfuel)%nat ->
  trans_inv s -> room 1 s ->
  guest_ok (smem s) (env_eip s) 100 (code_gen_ptr s) (code_gen_ptr s + gen_room) ->
  env_ind_type s <> NOT_IND -> cached s p a T n full ty -> (p < nb_tbs s)%nat ->
  tc_ptr (tbs s p) <> NOT_TRANS_YET -> a + ind_len <= code_gen_ptr s ->
  exists i s', dispatch dfuel ds (Some p) s = Ok (i, s') /\
    dispatched (fun x => a <= x < a + ind_len) s i s' /\
    cached s' p a (next_slots T n (env_eip s) (tc_ptr (tbs s' i))) (next_count n) (next_full n full) ty.
Proof.
  intros L F I R G Ty Ca Hp Tp Top.
  destruct (runs_done _ _ _ (dispatch_ind_runs dfuel ds L F p s a T n full ty I R G Ty Ca Hp Tp Top))
    as (i & s' & E & K). exists i, s'. auto.
Qed.

(** C10: the branch learns: after the dispatcher has served a miss with a free
    slot, the machine code of the branch takes the same target straight to its
    translation. *)
Theorem ind_branch_learns `{Layout} dfuel ds p s a T n full ty : layout_ok -> (100 < dfuel)%nat ->
  trans_inv s -> room 1 s ->
  guest_ok (smem s) (env_eip s) 100 (code_gen_ptr s) (code_gen_ptr s + gen_room) ->
  env_ind_type s <> NOT_IND -> cached s p a T n full ty -> (p < nb_tbs s)%nat ->
  tc_ptr (tbs s p) <> NOT_TRANS_YET -> a + ind_len <= code_gen_ptr s ->
  n < 3 -> chain_lookup (ind_list T) (env_eip s) = None ->
  exists i s', dispatch dfuel ds (Some p) s = Ok (i, s') /\ pc (tbs s' i) = env_eip s /\
    forall r f, stack_ok r -> stack_apart r -> ld32 (smem s') (r R_ESP) = env_eip s ->
      leads (mkCpu r a f (smem s')) (branched r f (smem s') (tc_ptr (tbs s' i))).
Proof.
  intros L F I R G Ty Ca Hp Tp Top Hn Miss.
  destruct (runs_done _ _ _ (dispatch_ind_runs dfuel ds L F p s a T n full ty I R G Ty Ca Hp Tp Top))
    as (i & s' & E & [Dp Ca']). exists i, s'. split; [done|]. split; [apply (dp_pc _ _ _ _ Dp)|].
  intros r f St Ap Tg. pose proof (ca_site _ _ _ _ _ _ _ Ca') as [C' _ [A1 A2]].
  pose proof L as [_ _ _ _ L5 _]. destruct Ap as (Ap & _). unfold ind_len in *.
  apply (ind_run (smem s') a _ r f _ ltac:(lia) ltac:(unfold ind_len; lia) C' St ltac:(unfold ind_len; lia)).
  intros r' _. rewrite Tg. unfold next_slots. destruct (Z.ltb_spec n 3) as [_|?]; [|lia].
  rewrite filled_lookup; [done|pose proof (ca_le _ _ _ _ _ _ _ Ca); lia|done].
Qed.

(** ** Examples *)

(** A block at 0x8047000 whose code starts the code buffer, a pending indirect
    jump to the example code, its target on the stack. *)
Definition demo_branch : st := set_nb_tbs 1 (set_tbs (fun i =>
  match i with
  | 0%nat => set_pc 0x8047000 (set_tc_ptr 0x10000000 raw_tb)
  | _ => raw_tb end) (set_tb_phys_hash (<[tb_phys_hash_func 0x8047000 := 0%nat]> ∅)
    (set_code_gen_ptr 0x10000080 (init_st (@st32 (@A_ind_type demo_layout) IND_TYPE_JMP
      (st32 (@A_eip demo_layout) 0x8048000 (st32 0x8050000 0x8048000 demo_mem))))))).

Lemma demo_branch_inv : @trans_inv demo_layout demo_branch.
Proof.
  constructor.
  - split; [constructor|].
    + intros h. unfold prev_same. cbn. destruct (Z.eqb_spec (tb_phys_hash_func 0x8047000) h) as [<-|D].
      * reflexivity.
      * now rewrite lookup_insert_ne, lookup_empty by congruence.
    + intros [|i] Hi; [reflexivity|cbn in Hi; lia].
    + intros [|i] Hi; [reflexivity|cbn in Hi; lia].
    + intros h i E. discriminate.
    + intros [|i] Hi; [now vm_compute|cbn in Hi; lia].
    + cbn. lia.
  - intros [|i] Hi; [done|cbn in Hi; lia].
  - intros [|i] Hi; [right; cbn; lia|cbn in Hi; lia].
  - cbn. lia.
  - cbn. lia.
  - vm_compute. reflexivity.
Qed.

(** The cache is emitted into it. *)
Record demo_branch_ok (s : st) : Prop := {
  db_run : @cemit_ind_opt demo_layout IND_TYPE_JMP demo_branch = Ok (tt, s);
  db_inv : @trans_inv demo_layout s;
  db_room : @room demo_layout 1 s;
  db_cached : @cached demo_layout s 0 0x10000000 (@raw_slot 0x10000000) 0 false IND_TYPE_JMP;
  db_nb : nb_tbs s = 1%nat;
  db_tc : tc_ptr (tbs s 0%nat) = 0x10000000;
  db_top : code_gen_ptr s = 0x10000080;
  db_mem : forall x, x < 0x10000000 -> smem s !! x = smem demo_branch !! x }.

Lemma demo_branch_emitted : exists s, demo_branch_ok s.
Proof.
  pose proof (@ind_opt_runs demo_layout IND_TYPE_JMP demo_branch ltac:(clear; vm_compute; done)
    ltac:(clear; vm_compute; done) demo_layout_ok ltac:(cbn; lia)
    ltac:(cbn; unfold ind_len, DEFAULT_CODE_GEN_BUFFER_SIZE; lia)) as K1.
  destruct (runs_done _ _ _ K1) as ([] & s & R & (S1 & S2 & S3 & S4)). change (code_ptr demo_branch) with 0x10000000 in *.
  pose proof (runs_ok _ _ _ _ _ _ (@cemit_ind_opt_emits demo_layout IND_TYPE_JMP demo_branch 0x10000000 ltac:(cbn; lia)) R)
    as [Q _]. pose proof Q as [_ Qm Qt _ _ Qc].
  assert (F : nb_tbs s = 1%nat /\ code_gen_ptr s = 0x10000080 /\ sieve_code_ptr s = 0x20000000 /\
    cur_tb s = 0%nat /\ stb_count (cgc s) = 0).
  { clear -Qc. unfold st_core, cgc_core in Qc. cbn in Qc. injection Qc. intros. repeat split; assumption. }
  destruct F as (F1 & F2 & F3 & F4 & F5).
  assert (T : patch_num (tbs s 0%nat) = 0 /\ tc_ptr (tbs s 0%nat) = 0x10000000).
  { specialize (Qt 0%nat). clear -Qt. unfold tb_core in Qt. cbn in Qt. injection Qt. intros. split; assumption. }
  destruct T as [T1 T2]. rewrite S3 in Qm. change (0x10000000 + ind_len) with 0x10000063 in Qm.
  exists s. constructor; try assumption.
  - constructor; rewrite ?F1, ?F2, ?F3.
    + exact (quiet_tb_inv _ _ _ Q (ti_tb _ demo_branch_inv)).
    + intros [|i] Hi; [assumption|lia].
    + intros [|i] Hi; [right; rewrite T2; cbn; lia|lia].
    + cbn. lia.
    + cbn. lia.
    + unfold env_patch_num. rewrite (ld32_ext (smem demo_branch)); [clear; vm_compute; done|].
      intros x Hx. apply Qm. change (@A_patch_num demo_layout) with (0x9000000 + 64) in Hx. lia.
  - constructor; rewrite ?F1, ?F2, ?F3, ?F5; clear; vm_compute; done.
  - constructor; [exact S1| | |lia].
    + unfold cur in S2. rewrite F4 in S2. exact S2.
    + unfold cur in S4. rewrite F4 in S4. rewrite S4. clear. reflexivity.
  - intros x Hx. apply Qm. lia.
Qed.

Lemma cemit_ind_opt_empty_witness :
  exists s', @cemit_ind_opt demo_layout IND_TYPE_JMP demo_branch = Ok (tt, s') /\
    @ind_site demo_layout s' 0x10000000 (raw_slot 0x10000000) false (@tb_addr demo_layout 0%nat) IND_TYPE_JMP.
Proof.
  destruct (@cemit_ind_opt_empty demo_layout IND_TYPE_JMP demo_branch demo_layout_ok
    ltac:(clear; vm_compute; discriminate) ltac:(clear; vm_compute; discriminate) ltac:(cbn; lia)
    ltac:(cbn; unfold ind_len, DEFAULT_CODE_GEN_BUFFER_SIZE; lia)) as (s' & R & _ & S & _).
  exists s'. split; [exact R|exact S].
Defined.

(** A started translator with an inline cache at the start of the code buffer. *)
Lemma demo_site : exists s, @sieve_maps demo_layout s ∅ /\
  @ind_site demo_layout s 0x10000000 (raw_slot 0x10000000) false (@tb_addr demo_layout 0%nat) IND_TYPE_JMP /\
  ld32 (smem s) 0x8050004 = 0x8040000.
Proof.
  destruct demo_started as (s & _ & St). destruct (@sr_cur demo_layout _ _ St) as [Cu Cp].
  change (cur_tb demo_call) with 0%nat in Cu. change (code_ptr demo_call) with 0x10000000 in Cp.
  pose proof (@ind_opt_runs demo_layout IND_TYPE_JMP s) as K. rewrite Cu, Cp in K.
  specialize (K ltac:(clear; vm_compute; discriminate) ltac:(clear; vm_compute; discriminate) demo_layout_ok
    ltac:(cbn; lia) ltac:(cbn; unfold ind_len, DEFAULT_CODE_GEN_BUFFER_SIZE; lia)).
  destruct (runs_done _ _ _ K) as ([] & s' & R & (S1 & S2 & S3 & S4)).
  pose proof (runs_ok _ _ _ _ _ _ (@cemit_ind_opt_emits demo_layout IND_TYPE_JMP s 0x10000000 ltac:(lia)) R)
    as [Q _]. pose proof Q as [_ Qm _ _ _ Qc]. rewrite S3 in Qm. change (0x10000000 + ind_len) with 0x10000063 in Qm.
  assert (F : sieve_stub s' = sieve_stub s /\ tb_ret_addr (cgc s') = tb_ret_addr (cgc s) /\
    sieve_code_ptr s' = sieve_code_ptr s).
  { clear -Qc. unfold st_core, cgc_core in Qc. injection Qc. intros. repeat split; assumption. }
  destruct F as (F1 & F2 & F3). pose proof (demo_sieve_len s St) as Ln. exists s'. split; [|split; [exact S1|]].
  - apply (@sieve_maps_ext demo_layout s s' ∅ demo_layout_ok (@sieve_maps_start demo_layout _ _ St) F1 F2).
    + rewrite F3, Ln. cbn. unfold DEFAULT_SIEVE_BUFFER_SIZE. lia.
    + intros x Hx. rewrite Ln in Hx. cbn in Hx. apply Qm. lia.
    + intros x Hx. cbn in Hx. apply Qm. lia.
    + intros x Hx. change (@A_sieve_hashtable demo_layout) with 151262288 in Hx. unfold SIEVE_SIZE in Hx.
      apply Qm. lia.
  - rewrite (ld32_ext (smem demo_call)); [clear; vm_compute; reflexivity|].
    intros x Hx. rewrite Qm by lia. apply (demo_started_mem s x St). lia.
Qed.

Definition demo_regs (sp : Z) : Z -> Z := <[R_ESP := sp]> (fun _ => 0).

Lemma demo_stack sp : 0x8000000 <= sp < 0x8ffff00 -> stack_ok (demo_regs sp) /\ @stack_apart demo_layout (demo_regs sp).
Proof.
  intros Hs. unfold stack_ok, stack_apart, below, demo_regs. rewrite fn_lookup_insert, fn_lookup_insert_ne by done.
  cbn. unfold DEFAULT_CODE_GEN_BUFFER_SIZE, DEFAULT_SIEVE_BUFFER_SIZE, env_size. lia.
Qed.


Lemma demo_branch_words s : demo_branch_ok s ->
  @env_eip demo_layout s = 0x8048000 /\ @env_ind_type demo_layout s = IND_TYPE_JMP /\
  guest_ok (smem s) 0x8048000 100 0x10000080 (0x10000080 + gen_room).
Proof.
  intros D. pose proof (db_mem s D) as M. split; [|split].
  - unfold env_eip. rewrite (ld32_ext (smem demo_branch)); [clear; vm_compute; reflexivity|].
    intros x Hx. apply M. change (@A_eip demo_layout) with 0x9000020 in Hx. lia.
  - unfold env_ind_type. rewrite (ld32_ext (smem demo_branch)); [clear; vm_compute; reflexivity|].
    intros x Hx. apply M. change (@A_ind_type demo_layout) with (0x9000000 + 1840212) in Hx. lia.
  - apply (guest_ok_straight _ _ _ _ _ je_code); [vm_compute; reflexivity| |lia|clear; vm_compute; done|left; clear; vm_compute; done].
    apply (at_bytes_ext (smem demo_branch)); [|clear; vm_compute; reflexivity].
    intros x Hx. apply M. cbn in Hx. lia.
Qed.

Lemma dispatch_fills_witness :
  exists s i s', @cemit_ind_opt demo_layout IND_TYPE_JMP demo_branch = Ok (tt, s) /\
    @dispatch demo_layout 101 ds_zero (Some 0%nat) s = Ok (i, s') /\
    @cached demo_layout s' 0%nat 0x10000000
      (<[0 := (0x8048000, tc_ptr (tbs s' i))]> (raw_slot 0x10000000)) 1 false IND_TYPE_JMP.
Proof.
  destruct demo_branch_emitted as (s & D). destruct (demo_branch_words s D) as (We & Wt & Wg).
  destruct (@dispatch_fills demo_layout 101 ds_zero 0%nat s 0x10000000 (raw_slot 0x10000000) 0 false IND_TYPE_JMP demo_layout_ok
    ltac:(lia) (db_inv s D) (db_room s D)) as (i & s' & R & _ & Ca).
  - rewrite We, (db_top s D). exact Wg.
  - rewrite Wt. clear. vm_compute. discriminate.
  - exact (db_cached s D).
  - rewrite (db_nb s D). lia.
  - rewrite (db_tc s D). clear. vm_compute. discriminate.
  - rewrite (db_top s D). clear. vm_compute. discriminate.
  - exists s, i, s'. split; [exact (db_run s D)|]. split; [exact R|]. rewrite We in Ca. exact Ca.
Defined.

Lemma ind_branch_learns_witness :
  exists s i s', @dispatch demo_layout 101 ds_zero (Some 0%nat) s = Ok (i, s') /\
    pc (tbs s' i) = 0x8048000 /\
    (ld32 (smem s') 0x8050000 = 0x8048000 ->
     leads (mkCpu (demo_regs 0x8050000) 0x10000000 0 (smem s'))
      (branched (demo_regs 0x8050000) 0 (smem s') (tc_ptr (tbs s' i)))).
Proof.
  destruct demo_branch_emitted as (s & D). destruct (demo_branch_words s D) as (We & Wt & Wg).
  destruct (@ind_branch_learns demo_layout 101 ds_zero 0%nat s 0x10000000 (raw_slot 0x10000000) 0 false IND_TYPE_JMP demo_layout_ok
    ltac:(lia) (db_inv s D) (db_room s D)) as (i & s' & R & Pc & K).
  - rewrite We, (db_top s D). exact Wg.
  - rewrite Wt. clear. vm_compute. discriminate.
  - exact (db_cached s D).
  - rewrite (db_nb s D). lia.
  - rewrite (db_tc s D). clear. vm_compute. discriminate.
  - rewrite (db_top s D). clear. vm_compute. discriminate.
  - lia.
  - rewrite We. clear. vm_compute. reflexivity.
  - exists s, i, s'. rewrite We in Pc, K. split; [exact R|]. split; [exact Pc|]. intros Tg.
    destruct (demo_stack 0x8050000 ltac:(lia)) as [So Sa]. apply K; [exact So|exact Sa|exact Tg].
Defined.
