(* ===== verification/CpuLoop.v ===== *)
(** The loop of [cpu_exec] (src/cpu-exec.c) as a whole: turn by turn it enters
    the translation of the guest's program counter, whatever exit the translated
    code left through, and if the translation of one block simulates the guest,
    so does the run of the loop. *)

From S2P Require Import Prelude Memory Opcode Decode DecodeSpec DecodeThm State TransBlock Emit.
From S2P Require Import Translate CpuExec Frame Session Linking GenCode Translation Dispatch.
From S2P Require Import Machine Sieve Prologue SieveThm IndCache IndEmit IndThm.
From stdpp Require Import relations.
#[local] Open Scope Z_scope.

Section Loop.
Context `{Layout}.

(** ** The state between two turns *)

(** The map [M] leads to translations of the addresses it answers. *)
Definition sound (s : st) (M : gmap Z Z) : Prop :=
  forall q tc, M !! q = Some tc -> exists i, (i < nb_tbs s)%nat /\ pc (tbs s i) = q /\
     tc_ptr (tbs s i) = tc /\ tc <> NOT_TRANS_YET.

(** The sieve's code implements a map that is sound. *)
Record running (s : st) (M : gmap Z Z) : Prop := {
  rn_inv : trans_inv s;
  rn_sieve : sieve_maps s M;
  rn_sound : sound s M }.

(** Space for [n] more turns. *)
Record room_turns (n : Z) (s : st) : Prop := {
  rt_code : code_gen_ptr s - L_code + n * gen_room <= DEFAULT_CODE_GEN_BUFFER_SIZE;
  rt_sieve : sieve_code_ptr s - L_sieve + n * turn_sieve <= DEFAULT_SIEVE_BUFFER_SIZE;
  rt_blocks : Z.of_nat (nb_tbs s) + n * turn_blocks <= code_gen_max_blocks;
  rt_stb : 0 <= stb_count (cgc s) /\ stb_count (cgc s) + n < STB_MAX }.

(** How the translated code left: by no block (the start, or a miss of the
    sieve), by a direct branch, or by an indirect one that missed its slots. *)
Inductive request (s : st) : option nat -> Prop :=
| rq_none : request s None
| rq_direct p : env_ind_type s = NOT_IND -> (p < nb_tbs s)%nat -> tc_ptr (tbs s p) <> NOT_TRANS_YET ->
    L_code <= tc_ptr (tbs s p) + tb_jmp_offset (tbs s p) (env_patch_num s) ->
    tc_ptr (tbs s p) + tb_jmp_offset (tbs s p) (env_patch_num s) + 4 <= code_gen_ptr s -> request s (Some p)
| rq_indirect p a T n full ty : env_ind_type s <> NOT_IND -> cached s p a T n full ty -> (p < nb_tbs s)%nat ->
    tc_ptr (tbs s p) <> NOT_TRANS_YET -> a + ind_len <= code_gen_ptr s -> request s (Some p).

(** Guest code the decoder accepts stands at the program counter. *)
Definition guest_next (s : st) : Prop :=
  guest_ok (smem s) (env_eip s) 100 (code_gen_ptr s) (code_gen_ptr s + gen_room).

(** What running translated code may not touch. *)
Definition own (s : st) (x : Z) : Prop :=
  L_code <= x < code_gen_ptr s \/ L_sieve <= x < sieve_code_ptr s \/ L_prologue <= x < L_prologue + 2048 \/
  A_sieve_hashtable <= x < A_sieve_hashtable + 8 * SIEVE_SIZE.

(** What the dispatcher may touch. *)
Definition touched (x : Z) : Prop :=
  L_code <= x < L_code + DEFAULT_CODE_GEN_BUFFER_SIZE \/ L_sieve <= x < L_sieve + DEFAULT_SIEVE_BUFFER_SIZE \/
  A_sieve_hashtable <= x < A_sieve_hashtable + 8 * SIEVE_SIZE \/
  A_target_tc <= x < A_target_tc + 4 \/ A_ret_tb <= x < A_ret_tb + 4 \/ A_ind_type <= x < A_ind_type + 4.

(** After a dispatch: block [i] is about to run. *)
Record turned (s : st) (i : nat) (s' : st) : Prop := {
  tu_block : (i < nb_tbs s')%nat /\ pc (tbs s' i) = env_eip s;
  tu_tc : L_code <= tc_ptr (tbs s' i) <= code_gen_ptr s';
  tu_env : ld32 (smem s') A_target_tc = u32 (tc_ptr (tbs s' i)) /\ env_ret_tb s' = 0 /\ env_ind_type s' = NOT_IND;
  tu_mem : forall x, ~ touched x -> smem s' !! x = smem s !! x }.

(** What a run of translated code leaves alone. *)
Record ran (s s' : st) : Prop := {
  ra_own : forall x, own s x -> smem s' !! x = smem s !! x;
  ra_patch : env_patch_num s' < PATCH_MAX;
  ra_rest : set_smem (smem s) s' = s }.

(** ** One turn *)

Lemma room_turns_room n s : 0 <= n -> room_turns (n + 1) s -> room 1 s /\
  sieve_code_ptr s - L_sieve + stub_len * 255 + node_len <= DEFAULT_SIEVE_BUFFER_SIZE.
Proof.
  intros N [A B C [D1 D2]]. unfold turn_sieve, turn_blocks, stub_len, node_len, gen_room, MAX_INSNS in *.
  split; [|lia]. constructor; unfold stub_len, gen_room, MAX_INSNS; lia.
Qed.

Lemma dispatched_room f n s i s' : 0 <= n -> room_turns (n + 1) s -> dispatched f s i s' -> room_turns n s'.
Proof.
  intros N [A B C [D1 D2]] D. pose proof (dp_code _ _ _ _ D). pose proof (dp_sieve _ _ _ _ D).
  pose proof (dp_nb _ _ _ _ D). pose proof (dp_stb _ _ _ _ D). constructor; lia.
Qed.

Section Turn.
Variable dfuel : nat.
Variable ds0 : decode_t.
Hypothesis L : layout_ok.
Hypothesis Hf : (100 < dfuel)%nat.

(** The start of a run: no branch to link. *)
Lemma dispatch_plain_runs s : trans_inv s -> room 1 s -> guest_next s -> env_ind_type s = NOT_IND ->
  runs (dispatch dfuel ds0 None) s (fun i s' => dispatched (fun _ => False) s i s') (fun _ => False).
Proof.
  intros I R G Ty. unfold dispatch. run. run. run.
  eapply runs_conseq; [apply (get_next_tb_runs dfuel ds0 L Hf); try done| |done].
  cbv beta. intros i s1 N. pose proof (nx_inv _ _ _ _ N) as I1.
  run. run. unfold env_ind_type.
  rewrite (next_env32 s (env_eip s) i s1) by (try done; unfold A_ind_type, env_size; lia).
  change (ld32 (smem s) A_ind_type) with (env_ind_type s). rewrite Ty. cbn [negb Z.eqb NOT_IND]. run. run. run.
  apply enter_runs; [done|]. intros s' En. apply (next_dispatched _ s i s1 s1); try done. unfold node_len. lia.
Qed.

(** The bytes a dispatch may change besides the new code and stubs. *)
Definition inside (s : st) (f : Z -> Prop) : Prop := forall x, f x ->
  L_code <= x < code_gen_ptr s \/ A_sieve_hashtable <= x < A_sieve_hashtable + 8 * SIEVE_SIZE.

Lemma dispatched_turned f s i s' : trans_inv s -> room 1 s ->
  sieve_code_ptr s - L_sieve + stub_len * 255 + node_len <= DEFAULT_SIEVE_BUFFER_SIZE ->
  inside s f -> dispatched f s i s' -> turned s i s'.
Proof.
  intros I R Rs In D. pose proof (rm_code _ _ R). pose proof (dp_code _ _ _ _ D). pose proof (dp_sieve _ _ _ _ D).
  pose proof (ti_code s I). pose proof (ti_sieve s I). unfold turn_sieve in *.
  constructor; [apply D|apply D|apply D|]. intros x Nt. unfold touched in Nt.
  apply (dp_mem _ _ _ _ D); try lia. intros Fx. destruct (In x Fx); lia.
Qed.

(** The sieve's map survives what is done to the code buffer. *)
Lemma dispatched_sieve f s i s' M : trans_inv s -> room 1 s ->
  sieve_code_ptr s - L_sieve + stub_len * 255 + node_len <= DEFAULT_SIEVE_BUFFER_SIZE ->
  (forall x, f x -> L_code <= x < code_gen_ptr s) -> dispatched f s i s' -> sieve_maps s M -> sieve_maps s' M.
Proof.
  intros I R Rs In D Sm. destruct (dp_const _ _ _ _ D) as [C1 C2]. pose proof (dp_sieve _ _ _ _ D) as V.
  pose proof (rm_code _ _ R). pose proof (dp_code _ _ _ _ D). pose proof (ti_code s I). pose proof (ti_sieve s I).
  pose proof L as [L1 L2 L3 (Lp & Lq & Lr) _ _].
  unfold env_size, turn_sieve, A_sieve_hashtable, SIEVE_SIZE in *.
  apply (sieve_maps_ext s s' M L Sm C1 C2); [lia|..]; intros x Hx; apply (dp_mem _ _ _ _ D);
    unfold A_target_tc, A_ret_tb, A_ind_type, A_sieve_hashtable, SIEVE_SIZE in *; try lia;
    intros Fx; specialize (In x Fx); lia.
Qed.

Lemma sound_old f s i s' M : dispatched f s i s' -> sound s M -> sound s' M.
Proof.
  intros D Sd q tc E. destruct (Sd q tc E) as (j & J1 & J2 & J3 & J4). destruct (dp_old _ _ _ _ D) as [Nb Old].
  destruct (Old j J1) as [P T]. exists j. split; [lia|]. split; [congruence|]. rewrite T by congruence. auto.
Qed.

Lemma code_translated s tc : trans_inv s -> code_gen_ptr s <= L_code + DEFAULT_CODE_GEN_BUFFER_SIZE ->
  L_code <= tc <= code_gen_ptr s -> tc <> NOT_TRANS_YET.
Proof. intros I C T E. destruct L as [_ _ _ _ _ N]. subst tc. lia. Qed.

(** One turn up to the jump into the code cache. *)
Lemma turn_runs n s M prev : 0 <= n -> running s M -> room_turns (n + 1) s -> guest_next s -> request s prev ->
  runs (dispatch dfuel ds0 prev) s (fun i s' => turned s i s' /\ room_turns n s' /\ exists M', running s' M')
    (fun _ => False).
Proof.
  intros N [I Sm Sd] Rt G Rq. destruct (room_turns_room n s N Rt) as [R Rs].
  pose proof (ti_code s I) as Tc.
  assert (Fin : forall f i s' M', inside s f -> dispatched f s i s' -> sieve_maps s' M' -> sound s' M' ->
    turned s i s' /\ room_turns n s' /\ exists M', running s' M').
  { intros f i s' M' In D S1 S2. split; [now apply (dispatched_turned f)|].
    split; [now apply (dispatched_room f n s i)|]. exists M'. split; [apply D|exact S1|exact S2]. }
  assert (Old : forall f i s', (forall x, f x -> L_code <= x < code_gen_ptr s) -> dispatched f s i s' ->
    turned s i s' /\ room_turns n s' /\ exists M', running s' M').
  { intros f i s' In D. apply (Fin f i s' M); [intros x Fx; left; auto|exact D|now apply (dispatched_sieve f s i)|].
    now apply (sound_old f s i). }
  destruct Rq as [|p Ty Hp Tp A1 A2|p a T k full ty Ty Ca Hp Tp Top].
  - destruct (Z.eq_dec (env_ind_type s) NOT_IND) as [Ty|Ty].
    + eapply runs_conseq; [now apply dispatch_plain_runs| |done]. cbv beta. intros i s' D.
      apply (Old (fun _ => False)); [done|exact D].
    + eapply runs_conseq; [apply (dispatch_sieve_runs dfuel ds0 L Hf s M I R Sm Rs G Ty)| |done].
      cbv beta. intros i s' [D S1]. refine (Fin _ i s' _ _ D S1 _).
      { intros x Fx. cbv beta in Fx. pose proof (u16_range (env_eip s)). unfold bucket, SIEVE_SIZE in *. lia. }
      intros q tc E.
      destruct (decide (env_eip s = q)) as [<-|Ne].
      * rewrite lookup_insert_eq in E. injection E as <-. destruct (dp_pc _ _ _ _ D) as [P1 P2].
        exists i. split; [exact P1|]. split; [exact P2|]. split; [done|].
        apply (code_translated s'); [apply D| |apply D]. pose proof (rm_code _ _ R). pose proof (dp_code _ _ _ _ D). lia.
      * rewrite lookup_insert_ne in E by done. exact (sound_old _ s i s' M D Sd q tc E).
  - eapply runs_conseq; [now apply (dispatch_link_runs dfuel ds0 L Hf p s)| |done]. cbv beta. intros i s' [D _].
    eapply Old; [|exact D]. cbv beta. lia.
  - eapply runs_conseq; [now apply (dispatch_ind_runs dfuel ds0 L Hf p s a T k full ty)| |done]. cbv beta.
    intros i s' [D _]. pose proof (is_at _ _ _ _ _ _ (ca_site _ _ _ _ _ _ _ Ca)).
    eapply Old; [|exact D]. cbv beta. lia.
Qed.


(** ** Running translated code *)

Lemma ran_fields s s' : ran s s' -> tbs s' = tbs s /\ nb_tbs s' = nb_tbs s /\ tb_phys_hash s' = tb_phys_hash s /\
  tb_jmp_cache s' = tb_jmp_cache s /\ code_gen_ptr s' = code_gen_ptr s /\ sieve_code_ptr s' = sieve_code_ptr s /\
  sieve_stub s' = sieve_stub s /\ cgc s' = cgc s.
Proof. intros [_ _ E]. now rewrite <- E. Qed.

Lemma ran_running s s' M : running s M -> ran s s' -> running s' M.
Proof.
  intros [I Sm Sd] Rn. destruct (ran_fields _ _ Rn) as (E1 & E2 & E3 & E4 & E5 & E6 & E7 & E8).
  pose proof (ra_own _ _ Rn) as Ow. unfold own in Ow. constructor.
  - destruct I as [I N T C V P]. constructor; rewrite ?E1, ?E2, ?E5, ?E6; try done; [|exact (ra_patch _ _ Rn)].
    now apply (Linking.tb_inv_mem s).
  - assert (Top : sieve_code_ptr s <= L_sieve + DEFAULT_SIEVE_BUFFER_SIZE)
      by (destruct Sm as (T & [_ K _ _] & _); lia).
    apply (sieve_maps_ext s s' M L Sm E7); rewrite ?E8, ?E6; try done; intros x Hx; apply Ow; tauto.
  - intros q tc E. rewrite E1, E2. now apply Sd.
Qed.

Lemma ran_room n s s' : room_turns n s -> ran s s' -> room_turns n s'.
Proof.
  intros [A B C D] Rn. destruct (ran_fields _ _ Rn) as (E1 & E2 & E3 & E4 & E5 & E6 & E7 & E8).
  constructor; rewrite ?E2, ?E5, ?E6, ?E8; done.
Qed.

(** ** The guest *)

(** The guest as the memory shows it (its registers are words of the
    environment), and its steps. *)
Section Simulation.
Context {G : Type} (gstep : G -> G -> Prop) (abs : mem -> G).

(** The view does not show the translator's own memory. *)
Definition hides_own : Prop := forall m m' : mem, (forall x, ~ touched x -> m' !! x = m !! x) -> abs m' = abs m.

(** Running the code of a block that translates the guest's program counter
    takes the guest along its steps and leaves through one of the exits. *)
Definition simulates (exec_tb : Z -> M Z) : Prop := forall s i M, running s M -> (i < nb_tbs s)%nat ->
  pc (tbs s i) = env_eip s -> L_code <= tc_ptr (tbs s i) <= code_gen_ptr s ->
  ld32 (smem s) A_target_tc = u32 (tc_ptr (tbs s i)) ->
  runs (exec_tb (tc_ptr (tbs s i))) s
    (fun r s' => ran s s' /\ request s' (tb_of_addr r) /\ guest_next s' /\ rtc gstep (abs (smem s)) (abs (smem s')))
    (fun _ => False).

Variable exec_tb : Z -> M Z.
Hypothesis Habs : hides_own.
Hypothesis Hexec : simulates exec_tb.

Lemma turned_eip s i s' : turned s i s' -> env_eip s' = env_eip s.
Proof.
  intros T. apply ld32_ext. intros x Hx. apply (tu_mem _ _ _ T). unfold touched.
  destruct L as [L1 L2 _ _ _ _]. unfold env_size, A_eip, A_sieve_hashtable, A_target_tc, A_ret_tb, A_ind_type, SIEVE_SIZE in *.
  lia.
Qed.

Lemma loop_runs n : forall s M prev, running s M -> room_turns (Z.of_nat n) s -> guest_next s -> request s prev ->
  runs (cpu_exec dfuel ds0 exec_tb n prev) s (fun prev' s' => (exists M', running s' M') /\ request s' prev' /\
    guest_next s' /\ rtc gstep (abs (smem s)) (abs (smem s'))) (fun _ => False).
Proof.
  induction n as [|n IH]; intros s M prev Rg Rt Gn Rq; cbn [cpu_exec].
  { run. split; [now exists M|]. split; [done|]. split; [done|]. constructor. }
  replace (Z.of_nat (S n)) with (Z.of_nat n + 1) in Rt by lia.
  run. eapply runs_conseq; [apply (turn_runs (Z.of_nat n) s M prev); try done; lia| |done].
  cbv beta. intros i s1 (Tu & Rt1 & M1 & Rg1). destruct (tu_block _ _ _ Tu) as [Lt Pc]. destruct (tu_env _ _ _ Tu) as (Tg & _).
  run. run. run.
  eapply runs_conseq; [apply (Hexec s1 i M1 Rg1 Lt); [now rewrite (turned_eip s i)|apply Tu|exact Tg]| |done].
  cbv beta. intros r s2 (Rn & Rq2 & Gn2 & St).
  eapply runs_conseq; [apply (IH s2 M1); [now apply (ran_running s1)|now apply (ran_room _ s1)|done|done]| |done].
  cbv beta. intros prev' s3 (Rg3 & Rq3 & Gn3 & St3). split; [done|]. split; [done|]. split; [done|].
  rewrite <- (Habs (smem s) (smem s1) (tu_mem _ _ _ Tu)). now transitivity (abs (smem s2)).
Qed.

End Simulation.
End Turn.
End Loop.

(** ** The theorem *)


(** ** Example *)

(** A guest that jumps to 0x8048000 for ever, through the sieve: every run of
    its code leaves the guest's program counter there and misses. *)
Definition demo_exec (tc : Z) : M Z := fun s =>
  Ok (0, set_smem (write_bytes 0x8048000 (code_of je_code)
    (st32 (@A_eip demo_layout) 0x8048000 (st32 (@A_ind_type demo_layout) IND_TYPE_JMP (smem s)))) s).

Definition demo_step (_ y : Z) : Prop := y = 0x8048000.
Definition demo_abs (m : mem) : Z := ld32 m (@A_eip demo_layout).

Lemma demo_hides : @hides_own demo_layout Z demo_abs.
Proof.
  intros m m' K. apply ld32_ext. intros x Hx. apply K. change (@A_eip demo_layout) with 0x9000020 in Hx.
  intros T. destruct T as [T|[T|[T|[T|[T|T]]]]];
    unfold A_sieve_hashtable, A_target_tc, A_ret_tb, A_ind_type in T; cbn in T; unfold DEFAULT_CODE_GEN_BUFFER_SIZE, DEFAULT_SIEVE_BUFFER_SIZE, SIEVE_SIZE in T; lia.
Qed.

Lemma demo_simulates : @simulates demo_layout Z demo_step demo_abs demo_exec.
Proof.
  intros s i M Rg Hi Pc Tc Tg. unfold runs, demo_exec. set (m1 := st32 (@A_ind_type demo_layout) IND_TYPE_JMP (smem s)).
  set (m2 := st32 (@A_eip demo_layout) 0x8048000 m1). set (m3 := write_bytes 0x8048000 (code_of je_code) m2).
  assert (Ei : @A_ind_type demo_layout = 152835156) by (clear; vm_compute; reflexivity).
  assert (Ee : @A_eip demo_layout = 0x9000020) by reflexivity.
  assert (Far : forall x, (x < 0x8048000 \/ 0x8048004 <= x) -> (x < 0x9000020 \/ 0x9000024 <= x) ->
    (x < 152835156 \/ 152835160 <= x) -> m3 !! x = smem s !! x).
  { intros x X1 X2 X3. unfold m3, m2, m1. rewrite write_bytes_out, st32_out, st32_out; [reflexivity|..]; rewrite ?Ei, ?Ee; try lia.
    exact X1. }
  assert (Pe : ld32 m3 0x9000020 = 0x8048000).
  { unfold m3. rewrite (ld32_ext m2); [unfold m2; rewrite Ee; apply ld32_st32|]. intros x Hx. apply write_bytes_out.
    change (Z.of_nat (length (code_of je_code))) with 4. lia. }
  clearbody m1. split; [|split; [|split]].
  - constructor; [| |now destruct s].
    + intros x Ox. change (m3 !! x = smem s !! x). destruct Ox as [Ox|[Ox|[Ox|Ox]]];
      unfold A_sieve_hashtable, SIEVE_SIZE in Ox; cbn in Ox; apply Far; lia.
    + unfold env_patch_num. cbn [smem set_smem]. rewrite (ld32_ext (smem s)); [exact (@ti_patch_num demo_layout s (@rn_inv demo_layout s M Rg))|].
      intros x Hx. change (@A_patch_num demo_layout) with 0x9000040 in Hx. apply Far; lia.
  - apply rq_none.
  - unfold guest_next, env_eip. cbn [smem set_smem code_gen_ptr]. rewrite Ee. change (ld32 (set_smem m3 s).(smem) 0x9000020) with (ld32 m3 0x9000020). rewrite Pe.
    pose proof (@ti_code demo_layout s (@rn_inv demo_layout s M Rg)) as Cd. cbn in Cd.
    apply (guest_ok_straight _ _ _ _ _ je_code); [vm_compute; reflexivity| |lia|clear; vm_compute; done|left].
    + apply at_bytes_write.
    + change (Z.of_nat (length (code_of je_code))) with 4. change (0x8048000 + 4 <= code_gen_ptr s). lia.
  - apply rtc_once. unfold demo_step, demo_abs. rewrite Ee. exact Pe.
Qed.

