(* ===== verification/Switch.v ===== *)
(** The context switch: the prologue and the epilogue [codecache_prologue_init]
    of src/target-i386/translate.c writes, run on the processor.  [cpu_exec]
    calls the prologue as a C function ([tcg_qemu_tb_exec] of src/cpu-exec.c). *)

From S2P Require Import Prelude Memory Opcode Decode DecodeSpec DecodeThm State TransBlock Emit.
From S2P Require Import Translate CpuExec Frame Session Linking GenCode Translation Dispatch.
From S2P Require Import Machine Sieve Prologue SieveThm IndCache IndEmit IndThm.

Section Switch.
Context `{Layout}.

Definition A_reg (g : Z) : Z := A_regs + g * 4.

(** ** Entering *)

(** The host's stack after the four pushes: [sp] is the stack pointer at the
    call. *)
Definition saved_host (h : Z -> Z) (m : mem) : mem :=
  let sp := h R_ESP in
  st32 (sp - 16) (h R_EDI) (st32 (sp - 12) (h R_ESI) (st32 (sp - 8) (h R_EBP) (st32 (sp - 4) (h R_EBX) m))).

(** Memory when translated code starts. *)
Definition switched (h : Z -> Z) (m : mem) : mem := st32 A_esp_tmp (h R_ESP - 16) (saved_host h m).

Record entered_guest (h : Z -> Z) (m : mem) (c : cpu) : Prop := {
  eg_ip : ip c = ld32 m A_target_tc;
  eg_esp : regs c R_ESP = u32 (ld32 m (A_reg R_ESP) + 4);
  eg_regs : forall g, 0 <= g < 8 -> g <> R_ESP -> regs c g = ld32 m (A_reg g);
  eg_flags : flags c = ld32 (switched h m) (ld32 m (A_reg R_ESP));
  eg_mem : cmem c = switched h m;
  eg_other : forall g, ~ 0 <= g < 8 -> regs c g = h g }.

(** The host stack is away from the translator's data. *)
Definition host_stack (h : Z -> Z) : Prop :=
  16 <= h R_ESP /\ h R_ESP + 4 < 4294967296 /\
  (h R_ESP <= L_env \/ L_env + env_size <= h R_ESP - 16) /\
  (h R_ESP <= L_prologue \/ L_prologue + 2048 <= h R_ESP - 16).

Lemma saved_host_out h m x : x < h R_ESP - 16 \/ h R_ESP <= x -> saved_host h m !! x = m !! x.
Proof. intros Hx. unfold saved_host. cbv zeta. now rewrite !st32_out by lia. Qed.

Lemma saved_words h m : (forall g, 0 <= g < 8 -> 0 <= h g < 4294967296) ->
  ld32 (saved_host h m) (h R_ESP - 16) = h R_EDI /\ ld32 (saved_host h m) (h R_ESP - 12) = h R_ESI /\
  ld32 (saved_host h m) (h R_ESP - 8) = h R_EBP /\ ld32 (saved_host h m) (h R_ESP - 4) = h R_EBX.
Proof.
  intros Rh. unfold saved_host. cbv zeta.
  set (m1 := st32 (h R_ESP - 4) _ m). set (m2 := st32 (h R_ESP - 8) _ m1).
  set (m3 := st32 (h R_ESP - 12) _ m2). set (m4 := st32 (h R_ESP - 16) _ m3).
  assert (U : forall g, 0 <= g < 8 -> u32 (h g) = h g) by (intros g Hg; apply u32_small; auto).
  repeat split.
  - unfold m4. rewrite ld32_st32. now apply U.
  - rewrite (ld32_ext m3) by (intros x Hx; apply st32_out; lia). unfold m3. rewrite ld32_st32. now apply U.
  - rewrite (ld32_ext m3), (ld32_ext m2) by (intros x Hx; apply st32_out; lia).
    unfold m2. rewrite ld32_st32. now apply U.
  - rewrite (ld32_ext m3), (ld32_ext m2), (ld32_ext m1) by (intros x Hx; apply st32_out; lia).
    unfold m1. rewrite ld32_st32. now apply U.
Qed.

Lemma switched_out h m x : (x < h R_ESP - 16 \/ h R_ESP <= x) ->
  (x < A_esp_tmp \/ A_esp_tmp + 4 <= x) -> switched h m !! x = m !! x.
Proof. intros H1 H2. unfold switched. rewrite st32_out by lia. now apply saved_host_out. Qed.

(** A block of loads: register [k] and up from its word. *)
Definition load_bytes (g : Z) : list Z := 0x8b :: (5 + 8 * g) :: le32 (A_reg g).
Definition save_bytes (g : Z) : list Z := 0x89 :: (5 + 8 * g) :: le32 (A_reg g).

Lemma loads_run m f Q n : forall k a r, 0 <= k -> k + Z.of_nat n = 8 -> 0 <= a ->
  a + 6 * Z.of_nat n < 4294967200 ->
  at_bytes m a (concat (map load_bytes (seqZ k (Z.of_nat n)))) ->
  (forall g, 0 <= g < 8 -> u32 (A_reg g) = A_reg g) ->
  (forall r', (forall g, ~ k <= g < 8 -> r' g = r g) -> (forall g, k <= g < 8 -> r' g = ld32 m (A_reg g)) ->
     leads (mkCpu r' (a + 6 * Z.of_nat n) f m) Q) ->
  leads (mkCpu r a f m) Q.
Proof.
  induction n as [|n IH]; intros k a r K0 Kn A1 A2 B U K.
  - specialize (K r). rewrite Z.add_0_r in K. apply K; [done|lia].
  - rewrite Nat2Z.inj_succ, seqZ_cons, Z.pred_succ in B by lia. cbn [map concat] in B.
    apply at_bytes_app in B as [B1 B2]. change (Z.of_nat (length (load_bytes k))) with 6 in B2.
    apply (l_load_reg m a r f Q ltac:(unfold code_addr; lia) k (A_reg k) ltac:(lia) B1). rewrite U by lia.
    apply (IH (Z.succ k)); try lia; [exact B2|exact U|]. intros r' E1 E2.
    replace (a + 6 + 6 * Z.of_nat n) with (a + 6 * Z.of_nat (S n)) by lia. apply K.
    + intros g Hg. rewrite E1 by lia. now rewrite fn_lookup_insert_ne by lia.
    + intros g Hg. destruct (Z.eq_dec g k) as [->|D]; [|apply E2; lia].
      rewrite E1 by lia. apply fn_lookup_insert.
Qed.

Lemma prologue_bytes : items_bytes L_prologue prologue_items =
  [0x53] ++ [0x55] ++ [0x56] ++ [0x57] ++ (0x89 :: (5 + 8 * R_ESP) :: le32 A_esp_tmp) ++
  concat (map load_bytes (seqZ 0 8)) ++ [0x9d] ++ (0xff :: 0x25 :: le32 A_target_tc).
Proof. reflexivity. Qed.

Lemma A_reg_env g : layout_ok -> 0 <= g < 8 -> u32 (A_reg g) = A_reg g /\ L_env <= A_reg g <= L_env + 28.
Proof. intros [_ _ _ _ L5 _] Hg. unfold A_reg, A_regs, env_size in *. rewrite u32_small; lia. Qed.

(** Code away from the environment and the host's stack frame. *)
Definition apart (h : Z -> Z) (a n : Z) : Prop :=
  (a + n <= L_env \/ L_env + env_size <= a) /\ (a + n <= h R_ESP - 16 \/ h R_ESP <= a).

(** Pushing registers other than [%esp]. *)
Fixpoint push_mem (r : Z -> Z) (gs : list Z) (sp : Z) (m : mem) : mem :=
  match gs with [] => m | g :: gs' => push_mem r gs' (sp - 4) (st32 (sp - 4) (r g) m) end.

Lemma pushes_run f Q gs : forall m a r, Forall (fun g => 0 <= g < 8 /\ g <> R_ESP) gs ->
  0 <= a -> a + Z.of_nat (length gs) < 4294967280 ->
  4 * Z.of_nat (length gs) <= r R_ESP < 4294967296 ->
  (a + Z.of_nat (length gs) <= r R_ESP - 4 * Z.of_nat (length gs) \/ r R_ESP <= a) ->
  at_bytes m a (map (fun g => 0x50 + g) gs) ->
  (forall r', r' R_ESP = r R_ESP - 4 * Z.of_nat (length gs) -> (forall x, x <> R_ESP -> r' x = r x) ->
     leads (mkCpu r' (a + Z.of_nat (length gs)) f (push_mem r gs (r R_ESP) m)) Q) ->
  leads (mkCpu r a f m) Q.
Proof.
  induction gs as [|g gs IH]; intros m a r F A1 A2 S D B K; cbn [length map push_mem] in *.
  - specialize (K r). rewrite Z.add_0_r in K. apply K; [lia|done].
  - inversion F as [|g' gs' [G1 G2] F']; subst. apply at_bytes_cons in B as [B1 B2].
    assert (Bg : at_bytes m a [0x50 + g]) by (apply at_bytes_cons; split; [done|apply at_bytes_nil]).
    apply (l_push_reg m a r f Q ltac:(unfold code_addr; lia) g G1 Bg). rewrite u32_small by lia.
    set (r1 := <[R_ESP := _]> r). assert (E1 : r1 R_ESP = r R_ESP - 4) by apply fn_lookup_insert.
    assert (E2 : forall x, x <> R_ESP -> r1 x = r x) by (intros x X; now apply fn_lookup_insert_ne).
    assert (Pm : forall l sp m0, Forall (fun g => 0 <= g < 8 /\ g <> R_ESP) l ->
      push_mem r1 l sp m0 = push_mem r l sp m0).
    { induction l as [|x l IHl]; intros sp m0 Fl; [done|]. inversion Fl as [|? ? [_ X] ?]; subst.
      cbn. rewrite E2 by done. now apply IHl. }
    apply (IH _ (a + 1) r1 F'); rewrite ?E1; try lia.
    + apply (at_bytes_ext m); [|done]. intros x Hx. rewrite length_map in Hx. apply st32_out. lia.
    + intros r' X1 X2. rewrite Pm by done.
      replace (a + 1 + Z.of_nat (length gs)) with (a + Z.of_nat (Datatypes.S (length gs))) by lia. apply K; [lia|].
      intros x X. now rewrite X2, E2.
Qed.

Lemma saved_host_push h m : push_mem h [R_EBX; R_EBP; R_ESI; R_EDI] (h R_ESP) m = saved_host h m.
Proof.
  cbn [push_mem]. unfold saved_host. cbv zeta.
  replace (h R_ESP - 4 - 4) with (h R_ESP - 8) by lia. replace (h R_ESP - 8 - 4) with (h R_ESP - 12) by lia.
  now replace (h R_ESP - 12 - 4) with (h R_ESP - 16) by lia.
Qed.

Lemma prologue_run h f m : layout_ok -> host_stack h ->
  at_bytes m L_prologue (items_bytes L_prologue prologue_items) ->
  leads (mkCpu h L_prologue f m) (entered_guest h m).
Proof.
  intros L Hs B. pose proof L as [_ _ _ (Lp & _) L5 _]. pose proof Hs as (S1 & S2 & S3 & S4).
  unfold env_size in *. rewrite prologue_bytes in B.
  change ([0x53] ++ [0x55] ++ [0x56] ++ [0x57] ++ ?x) with (map (fun g => 0x50 + g) [R_EBX; R_EBP; R_ESI; R_EDI] ++ x) in B.
  peel B 4 (L_prologue + 4) B1. peel B 6 (L_prologue + 10) B2. peel B 48 (L_prologue + 58) B3.
  peel B 1 (L_prologue + 59) B4.
  assert (Dc : forall j, 0 <= j <= 65 -> code_addr (L_prologue + j)) by (unfold code_addr; lia).
  assert (Cs : forall a bs, L_prologue <= a -> a + Z.of_nat (length bs) <= L_prologue + 65 ->
    at_bytes m a bs -> at_bytes (saved_host h m) a bs /\ at_bytes (switched h m) a bs).
  { intros a bs A1 A2 Ba. split; apply (at_bytes_ext m); try done; intros x Hx;
      [apply saved_host_out|apply switched_out; unfold A_esp_tmp]; lia. }
  apply (pushes_run f _ [R_EBX; R_EBP; R_ESI; R_EDI] m L_prologue h); try (cbn; lia); try done.
  { repeat constructor; done. }
  intros r1 E1 E2. rewrite saved_host_push.
  change (Z.of_nat (length [R_EBX; R_EBP; R_ESI; R_EDI])) with 4 in *.
  apply (l_save_reg _ _ r1 f _ (Dc 4 ltac:(lia)) R_ESP A_esp_tmp ltac:(done)).
  { refine (proj1 (Cs _ _ _ _ B2)); cbn; lia. }
  rewrite E1. change (4 * 4) with 16. rewrite (u32_small A_esp_tmp) by (unfold A_esp_tmp; lia). fold (switched h m).
  replace (L_prologue + 4 + 6) with (L_prologue + 10) by lia. set (m1 := switched h m).
  apply (loads_run m1 f _ 8 0 (L_prologue + 10)); try lia.
  { assert (Ln : Z.of_nat (length (concat (map load_bytes (seqZ 0 8)))) = 48) by reflexivity.
    refine (proj2 (Cs _ _ _ _ B3)); lia. }
  { intros g Hg. now apply A_reg_env. }
  intros r2 E3 E4. change (6 * Z.of_nat 8) with 48. replace (L_prologue + 10 + 48) with (L_prologue + 58) by lia.
  assert (Er : forall g, 0 <= g < 8 -> r2 g = ld32 m (A_reg g)).
  { intros g Hg. rewrite E4 by done. destruct (A_reg_env g L Hg) as [_ R]. apply ld32_ext.
    intros x Hx. apply switched_out; [lia|unfold A_esp_tmp, A_reg, A_regs in *; lia]. }
  apply (l_popf m1 _ r2 f _ (Dc 58 ltac:(lia))). { refine (proj2 (Cs _ _ _ _ B4)); cbn; lia. }
  replace (L_prologue + 58 + 1) with (L_prologue + 59) by lia.
  apply (l_jmp_abs m1 _ _ _ _ A_target_tc). { refine (proj2 (Cs _ _ _ _ B)); cbn; lia. }
  apply leads_now. rewrite (u32_small A_target_tc) by (unfold A_target_tc; lia).
  rewrite (Er R_ESP) by done. constructor; cbn [regs ip flags cmem]; try done.
  - apply ld32_ext. intros x Hx. unfold A_target_tc in *. apply switched_out; unfold A_esp_tmp; lia.
  - intros g Hg D. rewrite fn_lookup_insert_ne by congruence. now apply Er.
  - intros g Hg. rewrite fn_lookup_insert_ne by (unfold R_ESP; lia). rewrite E3 by lia. apply E2. unfold R_ESP. lia.
Qed.

(** ** Leaving *)

(** Memory after the epilogue: the flags on the guest's stack, the registers in
    the environment. *)
Fixpoint save_mem (r : Z -> Z) (gs : list Z) (m : mem) : mem :=
  match gs with [] => m | g :: gs' => save_mem r gs' (st32 (A_reg g) (r g) m) end.

Definition gprs_all : list Z := seqZ 0 8.

Lemma save_mem_out r x gs : (x < L_env \/ L_env + 32 <= x) -> Forall (fun g => 0 <= g < 8) gs ->
  forall m, save_mem r gs m !! x = m !! x.
Proof.
  intros Hx. induction gs as [|g gs IH]; intros F m; [done|]. inversion F; subst. cbn [save_mem].
  rewrite IH by done. apply st32_out. unfold A_reg, A_regs. lia.
Qed.

Lemma save_mem_reg r n g : forall k m, 0 <= k -> k <= g < k + Z.of_nat n ->
  ld32 (save_mem r (seqZ k (Z.of_nat n)) m) (A_reg g) = u32 (r g).
Proof.
  assert (O : forall n k m x, 0 <= k -> x < A_reg k -> save_mem r (seqZ k (Z.of_nat n)) m !! x = m !! x).
  { clear. induction n as [|n IH]; intros k m x K X; [done|].
    rewrite Nat2Z.inj_succ, seqZ_cons, Z.pred_succ by lia. cbn [save_mem].
    rewrite IH by (unfold A_reg in *; lia). apply st32_out. lia. }
  induction n as [|n IH]; intros k m K G; [lia|].
  rewrite Nat2Z.inj_succ, seqZ_cons, Z.pred_succ by lia. cbn [save_mem].
  destruct (Z.eq_dec g k) as [->|D]; [|apply IH; lia].
  rewrite (ld32_ext (st32 (A_reg k) (r k) m)); [apply ld32_st32|].
  intros x Hx. apply O; [lia|unfold A_reg in *; lia].
Qed.

Lemma saves_run f Q r n : forall k a m, layout_ok -> 0 <= k -> k + Z.of_nat n = 8 -> 0 <= a ->
  a + 6 * Z.of_nat n < 4294967200 -> (a + 6 * Z.of_nat n <= L_env \/ L_env + env_size <= a) ->
  at_bytes m a (concat (map save_bytes (seqZ k (Z.of_nat n)))) ->
  leads (mkCpu r (a + 6 * Z.of_nat n) f (save_mem r (seqZ k (Z.of_nat n)) m)) Q ->
  leads (mkCpu r a f m) Q.
Proof.
  induction n as [|n IH]; intros k a m L K0 Kn A1 A2 O B K.
  - rewrite Z.add_0_r in K. exact K.
  - rewrite Nat2Z.inj_succ, seqZ_cons, Z.pred_succ in B, K by lia. cbn [map concat save_mem] in B, K.
    apply at_bytes_app in B as [B1 B2]. change (Z.of_nat (length (save_bytes k))) with 6 in B2.
    destruct (A_reg_env k L ltac:(lia)) as [U R].
    apply (l_save_reg m a r f Q ltac:(unfold code_addr; lia) k (A_reg k) ltac:(lia) B1). rewrite U.
    apply (IH (Z.succ k)); try lia; try done.
    + apply (at_bytes_ext m); [|done]. intros x Hx. apply st32_out.
      assert (Ln : forall l, Z.of_nat (length (concat (map save_bytes l))) = 6 * Z.of_nat (length l)).
      { clear. induction l as [|g l IHl]; [done|]. cbn [map concat]. rewrite length_app, Nat2Z.inj_add, IHl.
        change (Z.of_nat (length (save_bytes g))) with 6. cbn [length]. lia. }
      rewrite Ln, length_seqZ in Hx. unfold env_size in *. lia.
    + replace (a + 6 + 6 * Z.of_nat n) with (a + 6 * Z.succ (Z.of_nat n)) by lia. exact K.
Qed.

Lemma epilogue_bytes : items_bytes epilogue epilogue_items =
  [0x9c] ++ concat (map save_bytes gprs_all) ++ (0x8b :: (5 + 8 * R_ESP) :: le32 A_esp_tmp) ++
  [0x58 + R_EBX] ++ [0x58 + R_EBP] ++ [0x58 + R_ESI] ++ [0x58 + R_EDI] ++
  (0x8b :: (5 + 8 * R_EAX) :: le32 A_ret_tb) ++ [0xc3].
Proof. reflexivity. Qed.

(** The guest's registers as the epilogue stores them: the flags are pushed. *)
Definition flagged (r : Z -> Z) : Z -> Z := <[R_ESP := r R_ESP - 4]> r.
Definition parked (r : Z -> Z) (f : Z) (m : mem) : mem :=
  save_mem (flagged r) gprs_all (st32 (r R_ESP - 4) f m).

(** The host state after the [ret], [sp] being the saved stack pointer. *)
Record back_in_host (r : Z -> Z) (f : Z) (m : mem) (c : cpu) : Prop := {
  bh_ip : ip c = ld32 m (ld32 m A_esp_tmp + 16);
  bh_eax : regs c R_EAX = ld32 m A_ret_tb;
  bh_esp : regs c R_ESP = ld32 m A_esp_tmp + 20;
  bh_ebx : regs c R_EBX = ld32 m (ld32 m A_esp_tmp);
  bh_ebp : regs c R_EBP = ld32 m (ld32 m A_esp_tmp + 4);
  bh_esi : regs c R_ESI = ld32 m (ld32 m A_esp_tmp + 8);
  bh_edi : regs c R_EDI = ld32 m (ld32 m A_esp_tmp + 12);
  bh_mem : cmem c = parked r f m;
  bh_other : forall g, ~ 0 <= g < 8 -> regs c g = r g }.

(** The guest's stack word and the host's frame are apart, and away from the
    translator's data. *)
Definition guest_stack (r : Z -> Z) (hsp : Z) : Prop :=
  4 <= r R_ESP < 4294967296 /\
  (r R_ESP <= L_env \/ L_env + env_size <= r R_ESP - 4) /\
  (r R_ESP <= L_prologue \/ L_prologue + 2048 <= r R_ESP - 4) /\
  (r R_ESP <= hsp \/ hsp + 20 <= r R_ESP - 4) /\
  0 <= hsp /\ hsp + 20 < 4294967296 /\ (hsp + 20 <= L_env \/ L_env + env_size <= hsp).

Lemma parked_out r f m x : (x < L_env \/ L_env + 32 <= x) -> (x < r R_ESP - 4 \/ r R_ESP <= x) ->
  parked r f m !! x = m !! x.
Proof.
  intros X1 X2. unfold parked. rewrite save_mem_out; [apply st32_out; lia|done|].
  unfold gprs_all. apply Forall_forall. intros g Hg. apply elem_of_seqZ in Hg. lia.
Qed.

Lemma parked_reg r f m g : 0 <= g < 8 -> ld32 (parked r f m) (A_reg g) = u32 (flagged r g).
Proof. intros Hg. apply (save_mem_reg _ 8); lia. Qed.

(** The second half of the epilogue, from the reload of [%esp]: the four pops
    come in the order of the pushes. *)
Definition restore_bytes : list Z := (0x8b :: (5 + 8 * R_ESP) :: le32 A_esp_tmp) ++
  [0x58 + R_EBX] ++ [0x58 + R_EBP] ++ [0x58 + R_ESI] ++ [0x58 + R_EDI] ++
  (0x8b :: (5 + 8 * R_EAX) :: le32 A_ret_tb) ++ [0xc3].

Record restored (m : mem) (r : Z -> Z) (c : cpu) : Prop := {
  rt_ip : ip c = ld32 m (ld32 m A_esp_tmp + 16);
  rt_regs : regs c R_EAX = ld32 m A_ret_tb /\ regs c R_ESP = ld32 m A_esp_tmp + 20 /\
    regs c R_EBX = ld32 m (ld32 m A_esp_tmp) /\ regs c R_EBP = ld32 m (ld32 m A_esp_tmp + 4) /\
    regs c R_ESI = ld32 m (ld32 m A_esp_tmp + 8) /\ regs c R_EDI = ld32 m (ld32 m A_esp_tmp + 12);
  rt_mem : cmem c = m;
  rt_other : forall g, ~ 0 <= g < 8 -> regs c g = r g }.

Lemma restore_run m e r f : layout_ok -> 0 <= e -> e + 32 < 4294967280 -> at_bytes m e restore_bytes ->
  ld32 m A_esp_tmp + 20 < 4294967296 -> leads (mkCpu r e f m) (restored m r).
Proof.
  intros [_ _ _ _ L5 _] E1 E2 B Hs. pose proof (ld32_range m A_esp_tmp) as Hr.
  set (hsp := ld32 m A_esp_tmp) in *. unfold restore_bytes, env_size in *.
  peel B 6 (e + 6) B3. peel B 1 (e + 7) B4. peel B 1 (e + 8) B5. peel B 1 (e + 9) B6.
  peel B 1 (e + 10) B7. peel B 6 (e + 16) B8.
  assert (Dc : forall j, 0 <= j <= 17 -> code_addr (e + j)) by (unfold code_addr; lia).
  pose proof (Dc 0 ltac:(lia)) as D0. rewrite Z.add_0_r in D0.
  apply (l_load_reg m _ r f _ D0 R_ESP A_esp_tmp ltac:(done) B3).
  rewrite (u32_small A_esp_tmp) by (unfold A_esp_tmp; lia). fold hsp.
  apply (l_pop_reg m _ _ f _ (Dc 6 ltac:(lia)) R_EBX ltac:(done) B4).
  replace (e + 6 + 1) with (e + 7) by lia. reg_eq. rewrite (u32_small (hsp + 4)) by lia.
  apply (l_pop_reg m _ _ f _ (Dc 7 ltac:(lia)) R_EBP ltac:(done) B5).
  replace (e + 7 + 1) with (e + 8) by lia. reg_eq. replace (hsp + 4 + 4) with (hsp + 8) by lia.
  rewrite (u32_small (hsp + 8)) by lia.
  apply (l_pop_reg m _ _ f _ (Dc 8 ltac:(lia)) R_ESI ltac:(done) B6).
  replace (e + 8 + 1) with (e + 9) by lia. reg_eq. replace (hsp + 8 + 4) with (hsp + 12) by lia.
  rewrite (u32_small (hsp + 12)) by lia.
  apply (l_pop_reg m _ _ f _ (Dc 9 ltac:(lia)) R_EDI ltac:(done) B7).
  replace (e + 9 + 1) with (e + 10) by lia. reg_eq. replace (hsp + 12 + 4) with (hsp + 16) by lia.
  rewrite (u32_small (hsp + 16)) by lia.
  apply (l_load_reg m _ _ f _ (Dc 10 ltac:(lia)) R_EAX A_ret_tb ltac:(done) B8).
  rewrite (u32_small A_ret_tb) by (unfold A_ret_tb; lia). replace (e + 10 + 6) with (e + 16) by lia.
  apply (l_ret m _ _ f _ B). apply leads_now.
  constructor; cbn [regs ip flags cmem]; fold hsp; try done; reg_eq; try done.
  - rewrite u32_small by lia. repeat split. lia.
  - intros g Hg. rewrite !fn_lookup_insert_ne by (unfold R_ESP, R_EAX, R_EBX, R_EBP, R_ESI, R_EDI; lia). done.
Qed.

Lemma epilogue_run r f m : layout_ok -> guest_stack r (ld32 m A_esp_tmp) ->
  at_bytes m epilogue (items_bytes epilogue epilogue_items) ->
  leads (mkCpu r epilogue f m) (back_in_host r f m).
Proof.
  intros L (S1 & S2 & S3 & S4 & S5 & S6 & S7) B. pose proof L as [_ _ _ (Lp & _) L5 _].
  rewrite epilogue_bytes in B. fold restore_bytes in B. unfold env_size, epilogue in *.
  set (e := L_prologue + 65) in *. peel B 1 (e + 1) B1. peel B 48 (e + 49) B2.
  set (mf := st32 (r R_ESP - 4) f m). set (mp := parked r f m).
  assert (Cf : forall a bs, e <= a -> a + Z.of_nat (length bs) <= e + 66 -> at_bytes m a bs ->
    at_bytes mf a bs /\ at_bytes mp a bs).
  { intros a bs A1 A2 Ba. split; apply (at_bytes_ext m); try done; intros x Hx;
      [apply st32_out|apply parked_out]; unfold e in *; lia. }
  assert (Hw : forall o, 0 <= o <= 16 -> ld32 mp (ld32 m A_esp_tmp + o) = ld32 m (ld32 m A_esp_tmp + o)).
  { intros o Ho. apply ld32_ext. intros x Hx. apply parked_out; lia. }
  assert (Ew : forall d, L_env + 32 <= d <= L_env + 1000 -> ld32 mp d = ld32 m d).
  { intros d Hd. apply ld32_ext. intros x Hx. apply parked_out; lia. }
  apply (l_pushf m e r f _ ltac:(unfold code_addr, e; lia) B1). rewrite u32_small by lia. fold (flagged r) mf.
  assert (Ln : Z.of_nat (length (concat (map save_bytes gprs_all))) = 48) by reflexivity.
  apply (saves_run f _ (flagged r) 8 0 (e + 1)); try lia; try done.
  { unfold env_size, e. lia. }
  { refine (proj1 (Cf _ _ _ _ B2)); lia. }
  change (6 * Z.of_nat 8) with 48. change (save_mem _ _ mf) with mp.
  replace (e + 1 + 48) with (e + 49) by lia.
  assert (Et : ld32 mp A_esp_tmp = ld32 m A_esp_tmp) by (apply Ew; unfold A_esp_tmp; lia).
  assert (Er : at_bytes mp (e + 49) restore_bytes) by (refine (proj2 (Cf _ _ _ _ B)); cbn; lia).
  pose proof (restore_run mp (e + 49) (flagged r) f L ltac:(unfold e; lia) ltac:(unfold e; lia) Er ltac:(lia)) as K.
  apply (leads_trans _ _ _ K). intros c [K1 K2 K3 K4]. rewrite Et, !Hw in * by lia. apply leads_now.
  pose proof (Hw 0 ltac:(lia)) as W0. rewrite Z.add_0_r in W0. rewrite W0 in K2.
  rewrite (Ew A_ret_tb) in K2 by (unfold A_ret_tb; lia). destruct K2 as (X1 & X2 & X3 & X4 & X5 & X6).
  constructor; try done. intros g Hg. rewrite K4 by done. unfold flagged. now rewrite fn_lookup_insert_ne by (unfold R_ESP; lia).
Qed.

(** ** Resuming *)

(** The environment and the guest's stack hold the registers and the flags. *)
Record parked_at (r : Z -> Z) (f : Z) (m : mem) : Prop := {
  pk_regs : forall g, 0 <= g < 8 -> ld32 m (A_reg g) = flagged r g;
  pk_flags : ld32 m (r R_ESP - 4) = f }.

Lemma parked_at_ext r f m m' : layout_ok -> parked_at r f m ->
  (forall x, L_env <= x < L_env + 32 \/ r R_ESP - 4 <= x < r R_ESP -> m' !! x = m !! x) -> parked_at r f m'.
Proof.
  intros L [P1 P2] E. constructor.
  - intros g Hg. destruct (A_reg_env g L Hg) as [_ Ra]. rewrite <- P1 by done. apply ld32_ext.
    intros x Hx. apply E. lia.
  - rewrite <- P2. apply ld32_ext. intros x Hx. apply E. lia.
Qed.

(** The epilogue leaves them so. *)
Lemma parked_is_at r f m : layout_ok -> 4 <= r R_ESP < 4294967296 ->
  (r R_ESP <= L_env \/ L_env + env_size <= r R_ESP - 4) ->
  (forall g, 0 <= g < 8 -> 0 <= r g < 4294967296) -> 0 <= f < 4294967296 -> parked_at r f (parked r f m).
Proof.
  intros L S1 S2 Rr Rf. unfold env_size in *. constructor.
  - intros g Hg. rewrite parked_reg by done. apply u32_small. unfold flagged.
    destruct (Z.eq_dec g R_ESP) as [->|D]; [rewrite fn_lookup_insert; lia|].
    rewrite fn_lookup_insert_ne by congruence. auto.
  - rewrite (ld32_ext (st32 (r R_ESP - 4) f m)); [rewrite ld32_st32; now apply u32_small|].
    intros x Hx. apply save_mem_out; [lia|]. apply Forall_forall. intros g Hg. apply elem_of_seqZ in Hg. lia.
Qed.

(** The prologue takes them up. *)
Record resumed_guest (r : Z -> Z) (f : Z) (h : Z -> Z) (m : mem) (c : cpu) : Prop := {
  rg_ip : ip c = ld32 m A_target_tc;
  rg_flags : flags c = f;
  rg_regs : forall g, 0 <= g < 8 -> regs c g = r g;
  rg_other : forall g, ~ 0 <= g < 8 -> regs c g = h g;
  rg_mem : cmem c = switched h m }.

Lemma resume_run r f m h fh : layout_ok -> parked_at r f m -> 4 <= r R_ESP < 4294967296 ->
  (r R_ESP <= L_env \/ L_env + env_size <= r R_ESP - 4) -> host_stack h ->
  (h R_ESP <= r R_ESP - 4 \/ r R_ESP <= h R_ESP - 16) ->
  at_bytes m L_prologue (items_bytes L_prologue prologue_items) ->
  leads (mkCpu h L_prologue fh m) (resumed_guest r f h m).
Proof.
  intros L [Eg Ef] S1 S2 Hs Ap B.
  apply (leads_trans _ _ _ (prologue_run h fh m L Hs B)). intros c [K1 K2 K3 K4 K5 K6]. apply leads_now.
  assert (Es : ld32 m (A_reg R_ESP) = r R_ESP - 4) by (rewrite Eg by done; apply fn_lookup_insert).
  constructor; try done.
  - rewrite K4, Es, <- Ef. apply ld32_ext. intros x Hx. unfold env_size in *.
    apply switched_out; unfold A_esp_tmp; lia.
  - intros g Hg. destruct (Z.eq_dec g R_ESP) as [->|D].
    + rewrite K2, Es, u32_small by lia. lia.
    + rewrite K3, Eg by done. unfold flagged. now rewrite fn_lookup_insert_ne by congruence.
Qed.

End Switch.

(** Entering: called as a C function, the prologue saves the host's
    registers on its stack and its stack pointer in [env->esp_tmp], and reaches
    the address in [env->target_tc] with the guest's general registers from
    [env->regs], the flags popped from the guest's stack. *)
Theorem prologue_enters `{Layout} h f m : layout_ok -> host_stack h ->
  at_bytes m L_prologue (items_bytes L_prologue prologue_items) ->
  leads (mkCpu h L_prologue f m) (entered_guest h m).
Proof. intros. now apply prologue_run. Qed.

(** Leaving: from any guest state the epilogue stores the guest's registers
    and flags, returns to the caller of the prologue with [env->ret_tb] in
    [%eax], and pops the host's registers. *)
Theorem epilogue_leaves `{Layout} r f m : layout_ok -> guest_stack r (ld32 m A_esp_tmp) ->
  at_bytes m epilogue (items_bytes epilogue epilogue_items) ->
  leads (mkCpu r epilogue f m) (back_in_host r f m).
Proof. intros. now apply epilogue_run. Qed.

(** The environment and the guest's flag word are as the epilogue left them. *)
Definition parked_in `{Layout} (r : Z -> Z) (f : Z) (m m' : mem) : Prop :=
  (forall x, L_env <= x < L_env + 32 -> m' !! x = parked r f m !! x) /\
  (forall x, r R_ESP - 4 <= x < r R_ESP -> m' !! x = parked r f m !! x).



(** ** Examples *)

(** The two stubs in place, the guest's words in the environment. *)
Definition demo_switch : mem := @mem_stubs demo_layout (@st32 (@A_target_tc demo_layout) 0x10000000
  (@st32 (@A_reg demo_layout R_ESP) 0x8050004 (@st32 (@A_esp_tmp demo_layout) 0x7fff0000 ∅))).

Definition demo_host : Z -> Z := fun g =>
  if g =? R_ESP then 0x7fff0010 else if g =? R_EBX then 3 else if g =? R_EBP then 5
  else if g =? R_ESI then 6 else if g =? R_EDI then 7 else 0.

Lemma demo_host_stack : @host_stack demo_layout demo_host.
Proof. unfold host_stack. cbn. unfold env_size. lia. Qed.

Lemma demo_guest_stack : @guest_stack demo_layout (demo_regs 0x8050004) 0x7fff0000.
Proof. unfold guest_stack. change (demo_regs 0x8050004 R_ESP) with 0x8050004. cbn. unfold env_size. lia. Qed.

Lemma demo_switch_code :
  at_bytes demo_switch 0x9300000 (items_bytes 0x9300000 (@prologue_items demo_layout)) /\
  at_bytes demo_switch (@epilogue demo_layout) (items_bytes (@epilogue demo_layout) (@epilogue_items demo_layout)).
Proof. split; vm_compute; reflexivity. Qed.

Lemma prologue_enters_witness :
  leads (mkCpu demo_host 0x9300000 0 demo_switch) (@entered_guest demo_layout demo_host demo_switch) /\
  ld32 demo_switch (@A_target_tc demo_layout) = 0x10000000.
Proof.
  split; [|vm_compute; reflexivity].
  apply (@prologue_enters demo_layout demo_host 0 demo_switch demo_layout_ok demo_host_stack).
  exact (proj1 demo_switch_code).
Defined.

Lemma epilogue_leaves_witness :
  leads (mkCpu (demo_regs 0x8050004) 0x9300041 0x246 demo_switch)
    (@back_in_host demo_layout (demo_regs 0x8050004) 0x246 demo_switch).
Proof.
  apply (@epilogue_leaves demo_layout (demo_regs 0x8050004) 0x246 demo_switch demo_layout_ok).
  - replace (ld32 demo_switch (@A_esp_tmp demo_layout)) with 0x7fff0000 by (vm_compute; reflexivity).
    exact demo_guest_stack.
  - exact (proj2 demo_switch_code).
Defined.

Lemma demo_parked_code :
  at_bytes (@parked demo_layout (demo_regs 0x8050004) 0x246 demo_switch) 0x9300000
    (items_bytes 0x9300000 (@prologue_items demo_layout)).
Proof. vm_compute. reflexivity. Qed.


