(* ===== verification/RetCache.v ===== *)
(** The return cache: a call site stores the address of its landing code in
    the table [env->ret_hash_table], indexed by the callee, and a return jumps
    through the table; the landing code ([cemit_rc_cmp] of
    src/target-i386/translate.c) checks the prediction. *)

From S2P Require Import Prelude Memory Opcode Decode DecodeSpec DecodeThm State TransBlock Emit.
From S2P Require Import Translate CpuExec Frame Session Handlers Linking GenCode Translation Dispatch.
From S2P Require Import Machine Sieve Prologue SieveThm IndCache IndEmit IndThm.

Section RetCache.
Context `{Layout}.

(** ** The code *)

Definition rc_len : Z := 23.
Definition rc_bytes (stub a ret_pc : Z) : list Z :=
  [0x51] ++ [0x8b; 0x4c; 0x24; 4] ++ (0x8d :: 0x89 :: le32 (- ret_pc)) ++ [0xe3; 5] ++
  (0xe9 :: le32 (stub - (a + 13 + 1) - 4)) ++ [0x59] ++ [0x8d; 0x64; 0x24; 4].

(** Landing code for the return to [ret_pc] at [a], in the code buffer. *)
Record rc_site (s : st) (a ret_pc : Z) : Prop := {
  rc_code : at_bytes (smem s) a (rc_bytes (sieve_stub s) a ret_pc);
  rc_pc : 0 <= ret_pc < 4294967296;
  rc_at : L_code <= a /\ a + rc_len <= L_code + DEFAULT_CODE_GEN_BUFFER_SIZE }.

(** What the landing code does with the return address [tgt]. *)
Definition rc_resolve (a ret_pc : Z) (M : gmap Z Z) (tgt : Z) : outcome :=
  if ret_pc =? tgt then Goto (a + rc_len)
  else match M !! tgt with Some tc => Goto tc | None => Leave (-1) IND_TYPE_CALL end.

Lemma rc_run s a ret_pc M r f : layout_ok -> rc_site s a ret_pc -> sieve_maps s M ->
  stack_ok r -> stack_apart r ->
  leads (mkCpu r a f (smem s))
    (reached r f (smem s) (tb_ret_addr (cgc s)) (rc_resolve a ret_pc M (ld32 (smem s) (r R_ESP)))).
Proof.
  intros L [C P A] Sm St Ap. pose proof St as (S1 & S2 & S3). pose proof Ap as (A1 & _).
  pose proof L as [_ _ _ _ L5 _]. unfold rc_len, below in *. set (m := smem s) in *.
  assert (B : at_bytes (spilled r m) a (rc_bytes (sieve_stub s) a ret_pc)).
  { apply (at_bytes_ext m); [|done]. intros x Hx. change (Z.of_nat (length _)) with 23 in Hx.
    apply spilled_out. unfold below. lia. }
  unfold rc_bytes in B, C. peel B 1 (a + 1) B1. peel B 4 (a + 5) B2. peel B 6 (a + 11) B3.
  peel B 2 (a + 13) B4. peel B 5 (a + 18) B5. peel B 1 (a + 19) B6. peel C 1 (a + 1) C1.
  assert (Dc : forall j, 0 <= j <= 23 -> code_addr (a + j)) by (unfold code_addr; lia).
  pose proof (Dc 0 ltac:(lia)) as D0. rewrite Z.add_0_r in D0.
  apply (l_push_ecx m a r f _ D0 C1). rewrite u32_small by lia.
  change (st32 (r R_ESP - 4) (r R_ECX) m) with (spilled r m). change (<[R_ESP := r R_ESP - 4]> r) with (pushed r).
  assert (Sp : pushed r R_ESP = r R_ESP - 4) by (unfold pushed, below; now rewrite fn_lookup_insert).
  pose proof (spilled_target r m) as Tg. rewrite Sp in Tg.
  apply (l_load_ecx _ _ _ f _ (Dc 1 ltac:(lia)) B2). rewrite Sp, (u32_small (r R_ESP - 4 + 4)), Tg by lia.
  replace (a + 1 + 4) with (a + 5) by lia.
  apply (l_lea_ecx _ _ _ f _ (Dc 5 ltac:(lia)) _ B3). rewrite fn_lookup_insert.
  replace (a + 5 + 6) with (a + 11) by lia. set (tgt := ld32 m (r R_ESP)).
  apply (l_jecxz _ _ _ f _ (Dc 11 ltac:(lia)) 5 B4); [lia|lia|].
  rewrite fn_lookup_insert, u32_sub_zero by (done || apply ld32_range).
  set (r' := <[R_ECX := _]> _). assert (E' : forall x, x <> R_ECX -> r' x = pushed r x)
    by (intros x X; unfold r'; now reg_eq).
  assert (Sp' : r' R_ESP = below r) by (rewrite E' by done; exact Sp). clearbody r'.
  unfold rc_resolve. destruct (Z.eqb_spec ret_pc tgt) as [E|D]; cbn [reached].
  - replace (a + 11 + 2 + 5) with (a + 18) by lia. apply (l_pop_ecx _ _ r' f _ (Dc 18 ltac:(lia)) B6).
    replace (a + 18 + 1) with (a + 19) by lia. apply (l_lea_esp4 _ _ _ f _ (Dc 19 ltac:(lia)) B).
    replace (a + 19 + 4) with (a + rc_len) by (unfold rc_len; lia). apply leads_now.
    apply pushed_resumed; [done|]. apply (resumed_ecx _ r' f); [done|].
    constructor; cbn [regs ip flags cmem]; try done.
    + reg_eq. rewrite u32_add_l. f_equal. lia.
    + intros x X1 X2. now reg_eq.
  - replace (a + 11 + 2) with (a + 13) by lia. apply (l_jmp _ _ r' f _ (sieve_stub s) B5).
    now apply sieve_jump.
Qed.

(** ** Emission *)

Lemma rc_emit pa s : 0 <= pc_ptr (cgc s) < 4294967296 -> pa + 4 <= code_ptr s ->
  L_code <= code_ptr s -> code_ptr s + rc_len <= L_code + DEFAULT_CODE_GEN_BUFFER_SIZE ->
  runs (cemit_rc_cmp pa) s (fun _ s' => rc_site s' (code_ptr s) (pc_ptr (cgc s)) /\
    code_ptr s' = code_ptr s + rc_len /\
    forall x, x < code_ptr s \/ code_ptr s + rc_len <= x ->
      smem s' !! x = st32 pa (code_ptr s) (smem s) !! x) (fun _ => False).
Proof.
  intros Rp Hp A1 A2. set (a := code_ptr s) in *. set (rp := pc_ptr (cgc s)) in *. unfold rc_len in *.
  unfold cemit_rc_cmp. run. run. run. apply runs_modify. set (s0 := set_smem _ s).
  assert (F0 : code_ptr s0 = a /\ sieve_stub s0 = sieve_stub s /\ cgc s0 = cgc s /\
    smem s0 = st32 pa a (smem s)) by done. destruct F0 as (C0 & U0 & K0 & M0). clearbody s0.
  run. run. rewrite K0. fold rp. run. apply emit_grown. intros s1 G1 B1 _. cbn [items_len item_len] in G1.
  pose proof (gr_cp _ _ _ G1) as P1. run. run. run. apply emit_grown. intros s2 G2 _ _.
  cbn [items_len item_len] in G2. pose proof (gr_cp _ _ _ G2) as P2.
  run. unfold cemit_sieve_nopush. run. run. apply emit_grown. intros s3 G3 B3 _.
  cbn [items_len item_len] in G3. pose proof (gr_cp _ _ _ G3) as P3. run. run.
  run. apply poke8_runs. intros s4 M4 R4.
  assert (F4 : code_ptr s4 = code_ptr s3 /\ sieve_stub s4 = sieve_stub s3) by now rewrite <- R4.
  destruct F4 as [C4 U4]. clear R4. apply emit_grown. intros s5 G5 B5 _.
  cbn [items_len item_len] in G5. pose proof (gr_cp _ _ _ G5) as P5.
  pose proof (gr_stub _ _ _ G1) as Z1. pose proof (gr_stub _ _ _ G2) as Z2.
  pose proof (gr_stub _ _ _ G3) as Z3. pose proof (gr_stub _ _ _ G5) as Z5.
  assert (Pt : code_ptr s1 = a + 12) by lia. assert (Qt : code_ptr s3 = a + 18) by lia. rewrite Pt in *.
  replace (code_ptr s3 - (a + 12) - 1) with 5 in M4 by lia.
  assert (Old : forall x, x < a + 18 -> x <> a + 12 -> smem s5 !! x = smem s3 !! x).
  { intros x X1 X2. rewrite (gr_mem _ _ _ G5) by lia. rewrite M4. now apply st8_ne. }
  assert (Out : forall x, x < a \/ a + 23 <= x -> smem s5 !! x = st32 pa a (smem s) !! x).
  { intros x X. rewrite (gr_mem _ _ _ G5), M4, st8_ne, (gr_mem _ _ _ G3), (gr_mem _ _ _ G2),
      (gr_mem _ _ _ G1), M0 by lia. done. }
  assert (Stub : sieve_stub s5 = sieve_stub s2) by congruence. split; [|split; [lia|exact Out]].
  constructor; [|done|unfold rc_len; lia]. rewrite Stub. unfold rc_bytes.
    change ([0x51] ++ [0x8b; 0x4c; 0x24; 4] ++ (0x8d :: 0x89 :: le32 (- rp)) ++ [0xe3; 5] ++ ?x)
      with (items_bytes a [E8 0x51; E8 0x8b; E8 0x4c; E8 0x24; E8 4; E8 0x8d; E8 0x89; E32 (- rp); E8 0xe3] ++ [5] ++ x).
    apply at_bytes_app. split.
    { apply (at_bytes_ext (smem s1)); [|rewrite <- C0; exact B1]. intros x Hx.
      rewrite items_bytes_length in Hx. cbn in Hx. rewrite Old, (gr_mem _ _ _ G3), (gr_mem _ _ _ G2) by lia. done. }
    rewrite items_bytes_length. cbn [items_len item_len]. apply at_bytes_app. split.
    { apply at_bytes_cons. split; [|apply at_bytes_nil]. unfold ld8.
      rewrite (gr_mem _ _ _ G5), M4 by lia. replace (a + _) with (a + 12) by lia. rewrite st8_eq. reflexivity. }
    change (Z.of_nat (length [5])) with 1. apply at_bytes_app. split.
    { apply (at_bytes_ext (smem s3)); [intros x Hx; cbn in Hx; apply Old; lia|].
      replace (a + _ + 1) with (code_ptr s2) by lia. replace (a + 13) with (code_ptr s2) by lia. exact B3. }
    replace (a + _ + 1 + _) with (code_ptr s4) by (cbn [length le32 Z.of_nat Pos.of_succ_nat Pos.succ]; lia).
    exact B5.
Qed.

(** ** Calls and returns *)

(** The start of a call site, as [emit_call_disp] writes it and the linker
    completes it: [push $ret_pc; movl $rc, slot; jmp dest]. *)
Definition call_bytes (a ret_pc slot rc dest : Z) : list Z :=
  (0x68 :: le32 ret_pc) ++ (0xc7 :: 0x05 :: le32 slot ++ le32 rc) ++ (0xe9 :: le32 (dest - (a + 15 + 1) - 4)).

Lemma call_run m a r f ret_pc slot rc dest : 0 <= a -> a + 20 < 4294967280 ->
  4 <= r R_ESP < 4294967296 -> (r R_ESP <= a \/ a + 20 <= r R_ESP - 4) -> 0 <= slot < 4294967296 ->
  (slot + 4 <= a \/ a + 20 <= slot) -> at_bytes m a (call_bytes a ret_pc slot rc dest) ->
  leads (mkCpu r a f m) (fun c => c = mkCpu (<[R_ESP := r R_ESP - 4]> r) (u32 dest) f
    (st32 slot rc (st32 (r R_ESP - 4) ret_pc m))).
Proof.
  intros A1 A2 S1 S2 S3 S4 B. unfold call_bytes in B. pose proof B as B0.
  peel B0 5 (a + 5) B1. set (m1 := st32 (r R_ESP - 4) ret_pc m). set (m2 := st32 slot rc m1).
  assert (M1 : forall x, a <= x < a + 20 -> m1 !! x = m !! x) by (intros x Hx; apply st32_out; lia).
  assert (M2 : forall x, a <= x < a + 20 -> m2 !! x = m !! x)
    by (intros x Hx; unfold m2; rewrite st32_out by lia; now apply M1).
  peel B 5 (a + 5) C1. peel B 10 (a + 15) C2.
  apply (l_push_imm m a r f _ ltac:(unfold code_addr; lia) ret_pc B1). rewrite u32_small by lia. fold m1.
  apply (l_mov_mem m1 (a + 5) _ f _ ltac:(unfold code_addr; lia) slot rc).
  { apply (at_bytes_ext m); [|exact C2]. intros x Hx. cbn in Hx. apply M1. lia. }
  rewrite u32_small by lia. fold m2. replace (a + 5 + 10) with (a + 15) by lia.
  apply (l_jmp m2 (a + 15) _ f _ dest). { apply (at_bytes_ext m); [|exact B]. intros x Hx. cbn in Hx. apply M2. lia. }
  now apply leads_now.
Qed.

(** Steps that only append code. *)
Record appends (s s' : st) : Prop := {
  ap_cp : code_ptr s <= code_ptr s';
  ap_mem : forall x, x < code_ptr s -> smem s' !! x = smem s !! x;
  ap_stub : sieve_stub s' = sieve_stub s;
  ap_pc : pc_ptr (cgc s') = pc_ptr (cgc s) }.

Definition adds {A} (m : M A) : Prop := forall s, runs m s (fun _ s' => appends s s') (fun _ => True).

Lemma appends_trans s1 s2 s3 : appends s1 s2 -> appends s2 s3 -> appends s1 s3.
Proof.
  intros [A1 A2 A3 A4] [B1 B2 B3 B4]. constructor; try congruence; [lia|].
  intros x Hx. rewrite B2 by lia. now apply A2.
Qed.

Lemma adds_bind {A B} (m : M A) (k : A -> M B) : adds m -> (forall a, adds (k a)) -> adds (bind m k).
Proof.
  intros Hm Hk s. run. eapply runs_conseq; [apply Hm| |done]. cbv beta. intros a s1 A1.
  eapply runs_conseq; [apply Hk| |done]. cbv beta. intros b s2 A2. now apply (appends_trans s s1).
Qed.

Lemma adds_ret {A} (a : A) : adds (ret a).
Proof. intros s. run. constructor; done. Qed.
Lemma adds_gets {A} (f : st -> A) : adds (gets f).
Proof. intros s. run. constructor; done. Qed.
Lemma adds_fail {A} e : adds (@fail A e).
Proof. intros s. done. Qed.
Lemma adds_lift {A} (r : res A) : adds (lift r).
Proof. intros s. unfold runs, lift. destruct r; [constructor; done|done]. Qed.
Lemma adds_modify f : (forall s, smem (f s) = smem s /\ code_ptr (f s) = code_ptr s /\
  sieve_stub (f s) = sieve_stub s /\ pc_ptr (cgc (f s)) = pc_ptr (cgc s)) -> adds (modify f).
Proof.
  intros K s. apply runs_modify. destruct (K s) as (K1 & K2 & K3 & K4).
  constructor; rewrite ?K1, ?K2; done.
Qed.
Lemma adds_emit l : adds (emit l).
Proof.
  intros s. apply emit_grown. intros s' [G1 G2 G3 G4 G5] _ _. pose proof (items_len_nonneg l).
  constructor; [lia|intros x Hx; apply G2; lia|done|now rewrite G5].
Qed.
Lemma adds_if {A} (b : bool) (m1 m2 : M A) : adds m1 -> adds m2 -> adds (if b then m1 else m2).
Proof. now destruct b. Qed.

Ltac adds_tac :=
  repeat first
    [ apply adds_emit | apply adds_ret | apply adds_gets | apply adds_fail | apply adds_lift
    | apply adds_modify; done | apply adds_bind; [|intros ?] | apply adds_if
    | match goal with |- adds (match ?o with Some _ => _ | None => _ end) => destruct o end ].

Lemma make_tb_adds p func tag : adds (make_tb p func tag).
Proof. unfold make_tb, tb_alloc, tb_flush, tb_link_page, mod_tb. adds_tac. Qed.

Lemma tb_find_fast_adds p tag : adds (tb_find_fast p tag).
Proof.
  unfold tb_find_fast, tb_find_slow, get_tb. adds_tac.
Qed.

Lemma trans_next_adds ds : adds (trans_next ds).
Proof.
  unfold trans_next, tb_add_jmp_from, mod_tb, mod_cgc, ABORT_IF, in_bounds, get_tb, get_cgc.
  adds_tac; apply tb_find_fast_adds || apply make_tb_adds || idtac.
  all: adds_tac.
Qed.

(** Recording a branch writes no memory. *)
Lemma note_jump_only to func s (Q : unit -> st -> Prop) :
  (forall s', smem s' = smem s -> code_ptr s' = code_ptr s -> sieve_stub s' = sieve_stub s ->
     cgc s' = cgc s -> Q tt s') -> runs (note_jump to func) s Q (fun _ => True).
Proof.
  intros K. unfold note_jump, note_patch. run. run. run. run. run. run. run. apply runs_ABORT_IF; [done|].
  intros _. run. run. run. apply runs_ABORT_IF; [done|]. intros _. run. run. apply runs_modify. now apply K.
Qed.

(** A run of an appending step, in the middle of a proof. *)
Lemma adds_run {A} (m : M A) s (Q : A -> st -> Prop) : adds m ->
  (forall a s', appends s s' -> Q a s') -> runs m s Q (fun _ => True).
Proof. intros Hm K. eapply runs_conseq; [apply Hm| |done]. exact K. Qed.

Lemma appends_bytes s s' a bs : appends s s' -> at_bytes (smem s) a bs ->
  a + Z.of_nat (length bs) <= code_ptr s -> at_bytes (smem s') a bs.
Proof. intros A B L. apply (at_bytes_ext (smem s)); [|done]. intros x Hx. apply (ap_mem _ _ A). lia. Qed.

Lemma appends_grown n s s' : 0 <= n -> grown n s s' -> appends s s'.
Proof.
  intros N [G1 G2 G3 G4 G5]. constructor; [lia|intros x Hx; apply G2; lia|done|now rewrite G5].
Qed.

(** The code of a direct call: the site, then the landing code; the jump is
    still to be linked and falls through. *)
Lemma call_disp_emit ds s : 0 <= pc_ptr (cgc s) < 4294967296 -> L_code <= code_ptr s ->
  code_ptr s + 43 <= L_code + DEFAULT_CODE_GEN_BUFFER_SIZE -> layout_ok ->
  let a := code_ptr s in let ret_pc := pc_ptr (cgc s) in
  let slot := RET_HASH_FUNC A_ret_hash_table (u32 (ret_pc + immediate ds)) in
  runs (emit_call_disp ds) s (fun _ s' =>
    at_bytes (smem s') a (call_bytes a ret_pc slot (a + 20) (a + 20)) /\ rc_site s' (a + 20) ret_pc)
    (fun _ => True).
Proof.
  intros Rp A1 A2 L a ret_pc slot. pose proof L as [_ _ _ _ L5 _]. unfold emit_call_disp, rel_target.
  run. apply runs_modify. set (s1 := upd_cgc _ s).
  assert (F1 : code_ptr s1 = a /\ pc_ptr (cgc s1) = ret_pc) by done. destruct F1 as [E1 C1]. clearbody s1.
  run. run. run. run. run. run. rewrite C1. fold ret_pc slot.
  run. apply emit_grown. intros s2 G2 B2 _. run. apply runs_ABORT_IF; [done|]. intros _.
  run. apply emit_grown. intros s3 G3 B3 _. run. run. run. apply emit_grown. intros s4 G4 B4 _.
  run. apply emit_grown. intros s5 G5 B5 _. cbn [items_len item_len] in *.
  pose proof (gr_cp _ _ _ G2) as P2. pose proof (gr_cp _ _ _ G3) as P3. pose proof (gr_cp _ _ _ G4) as P4.
  pose proof (gr_cp _ _ _ G5) as P5.
  assert (Pc5 : pc_ptr (cgc s5) = ret_pc)
    by (rewrite (gr_cgc _ _ _ G5), (gr_cgc _ _ _ G4), (gr_cgc _ _ _ G3), (gr_cgc _ _ _ G2); exact C1).
  run. apply note_jump_only. intros s6 M6 P6 Z6 C6. rewrite <- C6 in Pc5. assert (E6 : code_ptr s6 = a + 20) by lia.
  run. eapply runs_conseq; [apply (rc_emit (code_ptr s3) s6)|..]; try (rewrite ?Pc5; unfold rc_len; lia); try done.
  cbv beta. rewrite Pc5, E6. intros _ s7 (R7 & P7 & O7).
  apply adds_run; [apply trans_next_adds|]. intros b s8 A8. unfold rc_len in *. destruct R7 as [R7 R8 R9]. split.
  - apply (appends_bytes s7 s8); [exact A8| |cbn; lia].
    assert (B6 : at_bytes (smem s6) a ((0x68 :: le32 ret_pc) ++ (0xc7 :: 0x05 :: le32 slot) ++
      le32 NEED_PATCH_32 ++ (0xe9 :: le32 0))).
    { rewrite M6. change ((0x68 :: le32 ret_pc)) with (items_bytes a [E8 0x68; E32 ret_pc]).
      apply at_bytes_app. split.
      - apply (grown_bytes 5 s4 s5); [done| |cbn; lia]. apply (grown_bytes 4 s3 s4); [done| |cbn; lia].
        apply (grown_bytes 6 s2 s3); [done| |cbn; lia]. rewrite <- E1. exact B2.
      - change (Z.of_nat (length (items_bytes a [E8 0x68; E32 ret_pc]))) with 5.
        replace (a + 5) with (code_ptr s2) by lia. apply at_bytes_app. split.
        + apply (grown_bytes 5 s4 s5); [done| |cbn; lia]. apply (grown_bytes 4 s3 s4); [done| |cbn; lia]. exact B3.
        + change (Z.of_nat (length (0xc7 :: 0x05 :: le32 slot))) with 6.
          replace (code_ptr s2 + 6) with (code_ptr s3) by lia. apply at_bytes_app. split.
          * apply (grown_bytes 5 s4 s5); [done| |cbn; lia]. exact B4.
          * change (Z.of_nat (length (le32 NEED_PATCH_32))) with 4.
            replace (code_ptr s3 + 4) with (code_ptr s4) by lia. exact B5. }
    assert (Q : at_bytes (st32 (code_ptr s3) (a + 20) (smem s6)) a (call_bytes a ret_pc slot (a + 20) (a + 20))).
    { unfold call_bytes. replace (a + 20 - (a + 15 + 1) - 4) with 0 by lia. rewrite app_assoc in B6.
      refine (at_bytes_poke (smem s6) a (code_ptr s3) ((0x68 :: le32 ret_pc) ++ (0xc7 :: 0x05 :: le32 slot))
        NEED_PATCH_32 (a + 20) (0xe9 :: le32 0) B6 _). cbn. lia. }
    refine (at_bytes_ext _ _ _ _ _ Q). intros x Hx. change (Z.of_nat (length _)) with 20 in Hx.
    apply O7. lia.
  - constructor; [|done|done]. rewrite (ap_stub _ _ A8). apply (appends_bytes s7 s8); [exact A8|exact R7|].
    change (Z.of_nat (length _)) with 23. lia.
Qed.

(** What a word of the table may be: the miss stub or a landing site. *)
Inductive rc_entry (s : st) (M : gmap Z Z) : Z -> (Z -> outcome) -> Prop :=
  | rc_cold : at_bytes (smem s) rc_miss (0x51 :: 0xe9 :: le32 (sieve_stub s - (rc_miss + 2) - 4)) ->
      rc_entry s M rc_miss (fun tgt => match M !! tgt with Some tc => Goto tc | None => Leave (-1) IND_TYPE_CALL end)
  | rc_warm a ret_pc : rc_site s a ret_pc -> rc_entry s M a (rc_resolve a ret_pc M).

Lemma cold_run s M r f : layout_ok -> sieve_maps s M -> stack_ok r -> stack_apart r ->
  at_bytes (smem s) rc_miss (0x51 :: 0xe9 :: le32 (sieve_stub s - (rc_miss + 2) - 4)) ->
  leads (mkCpu r rc_miss f (smem s)) (reached r f (smem s) (tb_ret_addr (cgc s))
    (match M !! ld32 (smem s) (r R_ESP) with Some tc => Goto tc | None => Leave (-1) IND_TYPE_CALL end)).
Proof.
  intros L Sm St Ap B. pose proof St as (S1 & S2 & S3). pose proof Ap as (_ & _ & A3 & _).
  pose proof L as [_ _ _ _ L5 _]. unfold rc_miss, below in *. set (a := L_prologue + 512) in *.
  change (0x51 :: ?x) with ([0x51] ++ x) in B. peel B 1 (a + 1) B1.
  apply (l_push_ecx (smem s) a r f _ ltac:(unfold code_addr, a; lia) B1). rewrite u32_small by lia.
  change (st32 (r R_ESP - 4) (r R_ECX) (smem s)) with (spilled r (smem s)).
  change (<[R_ESP := r R_ESP - 4]> r) with (pushed r).
  apply (l_jmp _ (a + 1) _ f _ (sieve_stub s)).
  { replace (a + 1 + 1) with (a + 2) by lia. apply (at_bytes_ext (smem s)); [|exact B].
    intros x Hx. cbn in Hx. apply spilled_out. unfold below, a in *. lia. }
  now apply sieve_jump.
Qed.

(** A return: a jump through the word of its function. *)
Lemma ret_run s M b slot r f o : layout_ok -> sieve_maps s M -> stack_ok r -> stack_apart r ->
  0 <= slot < 4294967296 -> at_bytes (smem s) b (0xff :: 0x25 :: le32 slot) ->
  rc_entry s M (ld32 (smem s) slot) o ->
  leads (mkCpu r b f (smem s))
    (reached r f (smem s) (tb_ret_addr (cgc s)) (o (ld32 (smem s) (r R_ESP)))).
Proof.
  intros L Sm St Ap Hs B E. apply (l_jmp_abs _ _ _ _ _ slot B). rewrite u32_small by done.
  destruct E; [now apply cold_run|now apply rc_run].
Qed.

End RetCache.

(** From any state of the translation loop [emit_call_disp] returns, or
    aborts because the operand size is 16 bits or the block table is full. When
    it returns it has emitted a push of the guest's return address, a store of
    the landing code's address into the callee's word of the return cache and
    the jump to be linked, followed by the landing code, which knows the return
    address. *)
Theorem call_site_emitted `{Layout} ds s0 hi s : layout_ok ->
  (A_patch_num + 4 <= code_ptr s0 \/ hi <= A_patch_num) ->
  (NOT_TRANS_YET < code_ptr s0 \/ hi < NOT_TRANS_YET) -> env_patch_num s0 < PATCH_MAX ->
  at_insn s0 hi s -> 0 <= pc_ptr (cgc s) < 4294967296 ->
  L_code <= code_ptr s -> code_ptr s + 43 <= L_code + DEFAULT_CODE_GEN_BUFFER_SIZE ->
  let a := code_ptr s in let ret_pc := pc_ptr (cgc s) in
  match emit_call_disp ds s with
  | Ok (_, s') =>
      at_bytes (smem s') a (call_bytes a ret_pc
        (RET_HASH_FUNC A_ret_hash_table (u32 (ret_pc + immediate ds))) (a + 20) (a + 20)) /\
      rc_site s' (a + 20) ret_pc
  | Err e => e = Abort /\ (hasb (opstate ds) OPSTATE_DATA32 = false \/ tb_full s = true)
  end.
Proof.
  intros L He Hn Hm A Rp A1 A2. pose proof (call_disp_emit ds s Rp A1 A2 L) as K.
  pose proof (emit_call_disp_runs s0 hi He Hn Hm ds s A) as Er. unfold runs in K, Er.
  destruct (emit_call_disp ds s) as [[b s'] | e]; [exact K|]. destruct Er as [-> [[_ D] | [[F _] | [_ T]]]]; [auto|discriminate F|auto].
Qed.

(** Running a call site pushes the guest's return address, stores the
    prediction and jumps; nothing else changes. *)
Theorem call_enters m a r f ret_pc slot rc dest : 0 <= a -> a + 20 < 4294967280 ->
  4 <= r R_ESP < 4294967296 -> (r R_ESP <= a \/ a + 20 <= r R_ESP - 4) -> 0 <= slot < 4294967296 ->
  (slot + 4 <= a \/ a + 20 <= slot) -> at_bytes m a (call_bytes a ret_pc slot rc dest) ->
  leads (mkCpu r a f m) (fun c => c = mkCpu (<[R_ESP := r R_ESP - 4]> r) (u32 dest) f
    (st32 slot rc (st32 (r R_ESP - 4) ret_pc m))).
Proof. intros. now apply call_run. Qed.


(** ** Examples *)

Definition demo_call_ds : decode_t := set_opstate OPSTATE_DATA32 ds_zero.

(** The loop on block 0 of [demo_one], after it read a call of five bytes. *)
Definition demo_entered : st := enter_block 0 demo_one.
Definition demo_at_call : st := upd_cgc (fun g => set_insn_len 5 (set_pc_ptr 0x8048005 g)) demo_entered.

Lemma at_insn_cgc `{Layout} s0 hi f s k : session s0 s -> ready s -> (length (patch_array s) <= 253)%nat ->
  code_ptr s + 256 <= hi -> 1 <= k <= 128 ->
  (forall g, tb_ret_addr (f g) = tb_ret_addr g) -> (forall g, pc_start (f g) = pc_start g) ->
  (forall g, stb_count (f g) = stb_count g) -> (forall g, insn_len (f g) = k) -> at_insn s0 hi (upd_cgc f s).
Proof.
  intros J [R1 R2 R3] P C K F1 F2 F4 F3. constructor; [now apply session_cgc | now constructor | cbn; lia | exact C |].
  cbn. rewrite F3. exact K.
Qed.

Lemma demo_at_call_insn : @at_insn demo_entered 0x10001000 demo_at_call.
Proof.
  pose proof (@enter_loop demo_layout demo_one 0 demo_layout_ok demo_one_inv
    (@room_le demo_layout 1 demo_one ltac:(lia) demo_one_room) ltac:(cbn; lia)) as [J R _ P _ _].
  apply (@at_insn_cgc demo_layout demo_entered 0x10001000 _ demo_entered 5 J R P).
  - apply Z.leb_le. vm_compute. reflexivity.
  - lia.
  - reflexivity.
  - reflexivity.
  - reflexivity.
  - reflexivity.
Qed.

Lemma call_site_emitted_witness :
  match @emit_call_disp demo_layout demo_call_ds demo_at_call with
  | Ok (_, s') =>
      at_bytes (smem s') 0x10000000 (call_bytes 0x10000000 0x8048005
        (RET_HASH_FUNC (@A_ret_hash_table demo_layout) 0x8048005) 0x10000014 0x10000014) /\
      @rc_site demo_layout s' 0x10000014 0x8048005
  | Err _ => False
  end.
Proof.
  assert (G : match @emit_call_disp demo_layout demo_call_ds demo_at_call with Ok _ => True | Err _ => False end)
    by (clear; vm_compute; exact I).
  pose proof (@call_site_emitted demo_layout demo_call_ds demo_entered 0x10001000 demo_at_call demo_layout_ok
    ltac:(left; clear; vm_compute; discriminate) ltac:(right; clear; vm_compute; reflexivity)
    ltac:(clear; vm_compute; reflexivity) demo_at_call_insn
    ltac:(clear; vm_compute; split; [discriminate|reflexivity]) ltac:(clear; vm_compute; discriminate)
    ltac:(clear; vm_compute; discriminate)) as K.
  destruct (@emit_call_disp demo_layout demo_call_ds demo_at_call) as [[b s']|e]; [exact K|exact G].
Defined.

Lemma call_enters_witness :
  leads (mkCpu (demo_regs 0x8050000) 0x10000000 0
      (write_bytes 0x10000000 (call_bytes 0x10000000 0x8048005 0x9000100 0x10000014 0x10000100) ∅))
    (fun c => ip c = 0x10000100 /\ ld32 (cmem c) 0x9000100 = 0x10000014 /\ ld32 (cmem c) 0x804fffc = 0x8048005).
Proof.
  refine (leads_trans _ _ _ (call_enters _ 0x10000000 (demo_regs 0x8050000) 0 0x8048005 0x9000100 0x10000014
    0x10000100 ltac:(lia) ltac:(lia) _ _ ltac:(lia) ltac:(lia) _) _).
  - vm_compute. split; [discriminate|reflexivity].
  - vm_compute. left. discriminate.
  - vm_compute. reflexivity.
  - intros c ->. apply leads_now. vm_compute. repeat split.
Defined.

(** A started translator with a landing site for address 0 at the start of the
    code buffer, the word of function 0 leading to it, and a return at 0x8060000. *)
Lemma demo_return : exists s, @sieve_maps demo_layout s ∅ /\ @rc_site demo_layout s 0x10000000 0 /\
  ld32 (smem s) (@A_ret_hash_table demo_layout) = 0x10000000 /\
  at_bytes (smem s) 0x8060000 (0xff :: 0x25 :: le32 (@A_ret_hash_table demo_layout)) /\
  ld32 (smem s) 0x8050010 = 0.
Proof.
  destruct demo_started as (s & _ & St). destruct (@sr_cur demo_layout _ _ St) as [_ Cp].
  change (code_ptr demo_call) with 0x10000000 in Cp. set (slot := @A_ret_hash_table demo_layout).
  assert (Pc : pc_ptr (cgc s) = 0) by exact (@sr_pc demo_layout _ _ St).
  pose proof (@rc_emit demo_layout slot s) as K. rewrite Cp, Pc in K.
  specialize (K ltac:(lia) ltac:(clear; vm_compute; discriminate) ltac:(cbn; lia)
    ltac:(clear; vm_compute; discriminate)).
  destruct (runs_done _ _ _ K) as ([] & s1 & R1 & (R & _ & O)). change (0x10000000 + rc_len) with 0x10000017 in O.
  set (rb := 0xff :: 0x25 :: le32 slot). set (m2 := write_bytes 0x8060000 rb (smem s1)).
  assert (M2 : forall x, (x < 0x8060000 \/ 0x8060006 <= x) -> m2 !! x = smem s1 !! x)
    by (intros x X; apply write_bytes_out; exact X).
  pose proof (runs_ok _ _ _ _ _ _ (@cemit_rc_cmp_emits demo_layout slot s slot ltac:(lia)
    ltac:(rewrite Cp; clear; vm_compute; discriminate) ltac:(rewrite Cp; clear; vm_compute; discriminate)) R1)
    as [[_ _ _ _ _ Qc] _].
  assert (F : sieve_stub s1 = sieve_stub s /\ tb_ret_addr (cgc s1) = tb_ret_addr (cgc s) /\
    sieve_code_ptr s1 = sieve_code_ptr s).
  { clear -Qc. unfold st_core, cgc_core in Qc. injection Qc. intros. repeat split; assumption. }
  destruct F as (F1 & F2 & F3). pose proof (demo_sieve_len s St) as Ln.
  assert (Sl : slot = 0x9000000 + 72) by reflexivity.
  assert (Far : forall x, (x < 0x8060000 \/ 0x8060006 <= x) -> (x < slot \/ slot + 4 <= x) ->
    (x < 0x10000000 \/ 0x10000017 <= x) -> m2 !! x = smem s !! x).
  { intros x X1 X2 X3. rewrite M2, O by lia. apply st32_out. lia. }
  exists (set_smem m2 s1). split; [|split; [|split; [|split]]].
  - apply (@sieve_maps_ext demo_layout s (set_smem m2 s1) ∅ demo_layout_ok (@sieve_maps_start demo_layout _ _ St) F1 F2).
    + cbn [sieve_code_ptr set_smem]. rewrite F3, Ln. cbn. unfold DEFAULT_SIEVE_BUFFER_SIZE. lia.
    + intros x Hx. rewrite Ln in Hx. cbn in Hx. apply Far; lia.
    + intros x Hx. cbn in Hx. apply Far; lia.
    + intros x Hx. change (@A_sieve_hashtable demo_layout) with 151262288 in Hx. unfold SIEVE_SIZE in Hx.
      apply Far; lia.
  - destruct R as [C P A]. constructor; [|exact P|exact A]. refine (at_bytes_ext _ _ _ _ _ C).
    intros x Hx. change (Z.of_nat (length _)) with 23 in Hx. apply M2. lia.
  - cbn [smem set_smem]. rewrite (ld32_ext (st32 slot 0x10000000 (smem s))).
    + rewrite ld32_st32. reflexivity.
    + intros x Hx. rewrite M2, O by lia. done.
  - exact (at_bytes_write (smem s1) 0x8060000 rb).
  - cbn [smem set_smem]. rewrite (ld32_ext (smem demo_call)); [clear; vm_compute; reflexivity|].
    intros x Hx. rewrite Far by lia. apply (demo_started_mem s x St). lia.
Qed.

