(* ===== verification/Processor.v ===== *)
(** The processor that runs the guest and its translation.  Instructions that
    transfer control are given here; the others are copied by the translator,
    and their meaning is a parameter: the class [Processor], whose laws state
    what the processor manual says of every such instruction. *)

From S2P Require Import Prelude Memory Opcode DecodeTable Decode DecodeSpec DecodeProofs DecodeThm.
From S2P Require Import State GenCode Machine.

(** ** Kinds of instructions *)

Inductive kind := Plain | Jcc | Loop | Jmp | Call | Far.

(** [Far] are the transfers of control that are not relative. *)
Definition kind_of (i : insn) : kind :=
  let op := i_op i in
  let r := modrm_reg (default 0 (i_modrm i)) in
  if i_two i then
    if Z.land op 0xf0 =? 0x80 then Jcc
    else if existsb (Z.eqb op) [0x05; 0x07; 0x34; 0x35] then Far else Plain
  else if Z.land op 0xf0 =? 0x70 then Jcc
  else if Z.land op 0xfc =? 0xe0 then Loop
  else if (op =? 0xe9) || (op =? 0xeb) then Jmp
  else if op =? 0xe8 then Call
  else if existsb (Z.eqb op) [0x9a; 0xc2; 0xc3; 0xca; 0xcb; 0xcc; 0xcd; 0xce; 0xcf; 0xea; 0xf1; 0xf4]
          || ((op =? 0xff) && (2 <=? r) && (r <=? 5)) then Far
  else Plain.

Definition len (i : insn) : Z := Z.of_nat (length (encode i)).

(** The displacement of a relative transfer, and where it leads from the next
    instruction [n]. *)
Definition rel_val (i : insn) : Z :=
  match i_iv i with [] => s8 (le_val (i_ib i)) | l => le_val l end.
Definition branch_target (i : insn) (n : Z) : Z :=
  let t := u32 (n + rel_val i) in if data32 i then t else Z.land t 0xffff.

(** Which handler gets which kind of instruction; that a relative transfer has
    a displacement; and that the handler of the loops reads their opcode. *)
Definition kind_agrees (f : emit_fn) (k : kind) : bool :=
  match f, k with
  | fn_emit_normal, (Plain | Far) | fn_emit_jcond, Jcc | fn_emit_other_jcond, Loop
  | fn_emit_jmp, Jmp | fn_emit_call_disp, Call
  | (fn_emit_int | fn_emit_sysenter | fn_emit_jmp_near_mem | fn_emit_call_near_mem |
     fn_emit_ret | fn_emit_ret_Iw), Far => true
  | _, _ => false
  end.
Definition relative (k : kind) : bool := match k with Plain | Far => false | _ => true end.

Definition kind_row (i : insn) : bool :=
  match select i with
  | Some (fe, at_) =>
      hasb at_ DF_UNDEFINED ||
      match ptr fe with
      | Emit f => kind_agrees f (kind_of i) &&
          (negb (relative (kind_of i)) || hasb at_ DF_Ib || hasb at_ DF_Jv && negb (hasb at_ DF_Iv || hasb at_ DF_Ov || hasb at_ DF_Ob)) &&
          (match kind_of i with Loop => index fe =? i_op i | _ => true end)
      | _ => true
      end
  | None => true
  end.

Definition kind_check (i : insn) : bool :=
  (negb (i_two i) && (is_prefix (i_op i) || (i_op i =? 0x0f))) || kind_row i.

Lemma kind_table : forallb (fun two => forallb (fun op => forallb (fun mb =>
    kind_check (bare two op mb)) (None :: map Some all_bytes)) all_bytes) [true; false] = true.
Proof. vm_compute. reflexivity. Qed.

Lemma kind_ok i f : wf_insn i = true -> handler_of i = Some f ->
  kind_agrees f (kind_of i) = true /\
  (relative (kind_of i) = true -> i_iv i <> [] \/ i_iv i = [] /\ exists d, i_ib i = [d]) /\
  exists fe at_, select i = Some (fe, at_) /\ ptr fe = Emit f /\ hasb at_ DF_UNDEFINED = false /\
    (kind_of i = Loop -> index fe = i_op i).
Proof.
  intros W Hf. assert (B : forallb is_byte (encode i) = true).
  { unfold wf_insn in W. rewrite !andb_true_iff in W. tauto. }
  destruct (wf_insn_inv i W) as (_ & R & C & _ & fe & at_ & S & _ & _ & _ & Lb & Lv & _).
  pose proof (bare_table_at kind_check (i_two i) (i_op i) (i_modrm i) kind_table R
    ltac:(intros mb; now apply forallb_is_byte_modrm)) as T.
  unfold kind_check in T. cbn [bare i_two i_op] in T. change (kind_of (bare (i_two i) (i_op i) (i_modrm i))) with (kind_of i) in T.
  apply orb_true_iff in T as [T|T].
  { apply andb_true_iff in T as [T1 T2]. apply negb_true_iff in T1. rewrite T1, T2 in C. discriminate C. }
  unfold kind_row in T. change (kind_of (bare (i_two i) (i_op i) (i_modrm i))) with (kind_of i) in T.
  rewrite (select_ext _ i) in T by done. change (i_op (bare _ _ _)) with (i_op i) in T.
  unfold handler_of in Hf. rewrite S in *. destruct (hasb at_ DF_UNDEFINED) eqn:U; [done|].
  destruct (ptr fe) as [|g|] eqn:P; try done. injection Hf as ->. cbn [orb] in T.
  rewrite !andb_true_iff in T. destruct T as [[T1 T2] T3]. split; [done|]. split.
  - intros K. rewrite K in T2. cbn [negb orb] in T2. apply orb_true_iff in T2 as [T2|T2].
    + rewrite T2 in Lb. destruct (i_iv i) eqn:E; [right; split; [done|]|left; congruence].
      destruct (i_ib i) as [|d [|]]; try done. now exists d.
    + left. intros E. rewrite E in Lv. unfold iv_len in Lv.
      rewrite andb_true_iff, negb_true_iff, !orb_false_iff in T2. destruct T2 as [T2 [[N1 N2] N3]].
      rewrite N1, N2, N3, hasb_lor, T2 in Lv. cbn in Lv. destruct (data32 i); discriminate.
  - exists fe, at_. split; [done|]. split; [done|]. split; [done|]. intros K. rewrite K in T3. lia.
Qed.

(** ** Steps *)

(** A copied instruction is a function of the registers, the flags and the
    memory: it does not depend on where it lies.  Register numbers from 8 on
    stand for the segment, x87 and vector registers. *)
Class Processor := {
  alu : insn -> (Z -> Z) -> Z -> mem -> option ((Z -> Z) * Z * mem);
  reads : insn -> (Z -> Z) -> Z -> mem -> Z -> Prop;
  writes : insn -> (Z -> Z) -> Z -> mem -> Z -> bool;
  (* It depends on no byte but those it reads, changes none but those it writes. *)
  alu_local i r f m r' f' m' ma : alu i r f m = Some (r', f', m') ->
    (forall x, reads i r f m x -> ma !! x = m !! x) ->
    exists ma', alu i r f ma = Some (r', f', ma') /\
      (forall x, writes i r f m x = true -> ma' !! x = m' !! x) /\
      (forall x, writes i r f m x = false -> ma' !! x = ma !! x);
  (* It agrees with the fragment in which the emitted templates are written. *)
  alu_exec i c c' : i_prefixes i = [] -> kind_of i = Plain -> exec i c = Some c' ->
    alu i (regs c) (flags c) (cmem c) = Some (regs c', flags c', cmem c') }.

(** Loops count in [%ecx]; 67-prefixed ones count in [%cx] and are left out. *)
Definition loop_count (i : insn) (c : cpu) : Z :=
  if i_op i =? 0xe3 then regs c R_ECX else u32 (regs c R_ECX - 1).
Definition loop_taken (i : insn) (c : cpu) : bool :=
  let n := loop_count i c in
  let zf := Z.testbit (flags c) 6 in
  if i_op i =? 0xe0 then negb (n =? 0) && negb zf
  else if i_op i =? 0xe1 then negb (n =? 0) && zf
  else if i_op i =? 0xe2 then negb (n =? 0)
  else n =? 0.

Definition next_ip (i : insn) (c : cpu) : Z := u32 (ip c + len i).
Definition jump_ip (i : insn) (c : cpu) : Z := branch_target i (next_ip i c).

Section Steps.
Context `{Processor}.

Definition run_insn (i : insn) (c : cpu) : option cpu :=
  match kind_of i with
  | Plain =>
      match alu i (regs c) (flags c) (cmem c) with
      | Some (r, f, m) => Some (mkCpu r (next_ip i c) f m)
      | None => None
      end
  | Jcc => Some (set_ip (if cond (Z.land (i_op i) 0xf) (flags c) then jump_ip i c else next_ip i c) c)
  | Loop =>
      if addr32 i then
        Some (set_ip (if loop_taken i c then jump_ip i c else next_ip i c)
                (if i_op i =? 0xe3 then c else set_reg R_ECX (loop_count i c) c))
      else None
  | Jmp => Some (set_ip (jump_ip i c) c)
  | Call => if data32 i then Some (set_ip (jump_ip i c) (push (next_ip i c) c)) else None
  | Far => match i_prefixes i with [] => exec i c | _ => None end
  end.

(** The processor runs the instruction that lies at its program counter. *)
Definition mstep (c c' : cpu) : Prop :=
  exists i, wf_insn i = true /\ at_bytes (cmem c) (ip c) (encode i) /\ run_insn i c = Some c'.

Lemma mstep_det c c1 c2 : mstep c c1 -> mstep c c2 -> c1 = c2.
Proof.
  intros (i & W & B & R) (j & W' & B' & R').
  pose proof (encode_unique_aux _ _ i j W W' B B') as ->. congruence.
Qed.

Lemma write_rm_ip i v c : ip (write_rm i v c) = ip c.
Proof. unfold write_rm. now case_match. Qed.

(** The fragment of the emitted templates is part of this processor. *)
Lemma exec_plain_ip i c c' : kind_of i = Plain -> exec i c = Some c' -> ip c' = next_ip i c.
Proof.
  unfold kind_of, exec, next_ip, len. cbv zeta. set (n := u32 _). clearbody n.
  destruct (i_two i).
  - destruct (i_op i =? 0xb7); [|destruct (Z.land (i_op i) 0xf0 =? 0x80); done].
    intros _. case_match; now intros [= <-].
  - intros K. repeat lazymatch goal with
    | |- (if ?b then Some (set_ip _ _) else _) = _ -> _ => destruct b eqn:?
    | |- (if ?b then Some (if _ then _ else _) else _) = _ -> _ => destruct b eqn:?
    | |- (if ?b then _ else _) = _ -> _ => destruct b eqn:?; [try (now intros [= <-])|]
    end; try done.
    all: try (now intros [= <-]); try (intros [= <-]; apply write_rm_ip).
    all: exfalso; repeat match goal with E : (_ =? _) = true |- _ => apply Z.eqb_eq in E; rewrite E in K end;
      vm_compute in K; discriminate K.
Qed.

(** The opcodes [exec] knows. *)
Definition exec_op (op : Z) : bool :=
  (Z.land op 0xf8 =? 0x50) || (Z.land op 0xf8 =? 0x58) || (op =? 0x68) || (op =? 0x89) ||
  (op =? 0x8b) || (op =? 0x8d) || (op =? 0x8f) || (op =? 0x9c) || (op =? 0x9d) || (op =? 0xc3) ||
  (op =? 0xc7) || (op =? 0xe3) || (op =? 0xe9) || (op =? 0xff).

Lemma exec_op_none i c : i_two i = false -> exec_op (i_op i) = false -> exec i c = None.
Proof.
  unfold exec_op, exec. intros -> E. rewrite !orb_false_iff in E. cbv zeta.
  repeat match type of E with _ /\ _ => let F := fresh in destruct E as [E F]; rewrite F end.
  now rewrite E.
Qed.

(** The entry asks for a displacement of operand size, of a byte. *)
Definition long_rel (at_ : Z) : bool :=
  hasb at_ DF_Jv && negb (hasb at_ DF_Iv || hasb at_ DF_Ov || hasb at_ DF_Ob).
Definition short_rel (at_ : Z) : bool :=
  hasb at_ DF_Ib && negb (hasb at_ DF_Iv || hasb at_ DF_Ov || hasb at_ DF_Ob || hasb at_ (Z.lor DF_Jv DF_Ap)).

Lemma long_rel_val i fe at_ : wf_insn i = true -> select i = Some (fe, at_) -> long_rel at_ = true ->
  data32 i = true -> rel_val i = le_val (i_iv i).
Proof.
  intros W S L D. destruct (wf_insn_inv i W) as (_ & _ & _ & _ & fe' & at' & S' & _ & _ & _ & _ & Lv & _).
  rewrite S in S'. injection S' as <- <-. unfold long_rel in L.
  rewrite andb_true_iff, negb_true_iff, !orb_false_iff in L. destruct L as [L [[L1 L2] L3]].
  unfold iv_len in Lv. rewrite L1, L2, L3, hasb_lor, L, D in Lv. unfold rel_val. now destruct (i_iv i).
Qed.

Lemma short_rel_val i fe at_ : wf_insn i = true -> select i = Some (fe, at_) -> short_rel at_ = true ->
  rel_val i = disp_val (i_ib i).
Proof.
  intros W S L. destruct (wf_insn_inv i W) as (_ & _ & _ & _ & fe' & at' & S' & _ & _ & _ & Lb & Lv & _).
  rewrite S in S'. injection S' as <- <-. unfold short_rel in L.
  rewrite andb_true_iff, negb_true_iff, !orb_false_iff in L. destruct L as [L [[[L1 L2] L3] L4]].
  unfold iv_len in Lv. rewrite L1, L2, L3, L4 in Lv. rewrite L in Lb. unfold rel_val.
  destruct (i_iv i); [|done]. destruct (i_ib i) as [|d [|]]; try done. cbn. f_equal. lia.
Qed.

Definition transfer_check (i : insn) : bool :=
  match select i with
  | None => true
  | Some (_, at_) =>
    match kind_of i with
    | Plain | Far => true
    | Jcc => if i_two i then negb (i_op i =? 0xb7) && (Z.land (i_op i) 0xf0 =? 0x80) && long_rel at_
             else negb (exec_op (i_op i))
    | Loop => negb (i_two i) &&
        (if i_op i =? 0xe3 then short_rel at_ else negb (exec_op (i_op i)))
    | Jmp => negb (i_two i) && (if i_op i =? 0xe9 then long_rel at_ else negb (exec_op (i_op i)))
    | Call => negb (i_two i) && negb (exec_op (i_op i))
    end
  end.

Lemma transfer_table : forallb (fun two => forallb (fun op => forallb (fun mb =>
    transfer_check (bare two op mb)) (None :: map Some all_bytes)) all_bytes) [true; false] = true.
Proof. vm_compute. reflexivity. Qed.

Lemma transfer_ok i : wf_insn i = true -> transfer_check i = true.
Proof.
  intros W. assert (B : forallb is_byte (encode i) = true).
  { unfold wf_insn in W. rewrite !andb_true_iff in W. tauto. }
  destruct (wf_insn_inv i W) as (_ & R & _).
  pose proof (bare_table_at _ (i_two i) (i_op i) (i_modrm i) transfer_table R
    ltac:(intros mb; now apply forallb_is_byte_modrm)) as T.
  unfold transfer_check in *. rewrite (select_ext _ i) in T by done. exact T.
Qed.

Lemma run_exec i c c' : wf_insn i = true -> i_prefixes i = [] -> exec i c = Some c' ->
  run_insn i c = Some c'.
Proof.
  intros W P E. assert (D : data32 i = true /\ addr32 i = true) by (unfold data32, addr32; now rewrite P).
  destruct D as [Dd Da]. pose proof (transfer_ok i W) as T. unfold transfer_check in T.
  destruct (wf_insn_inv i W) as (_ & _ & _ & _ & fe & at_ & S & _). rewrite S in T.
  unfold run_insn, jump_ip, branch_target. rewrite Dd, Da. destruct (kind_of i) eqn:K.
  - rewrite (alu_exec i c c' P K E), <- (exec_plain_ip i c c' K E). now destruct c'.
  - destruct (i_two i) eqn:Tw; [|rewrite exec_op_none in E; [done|done|now apply negb_true_iff in T]].
    rewrite !andb_true_iff, negb_true_iff in T. destruct T as [[T1 T2] T3].
    rewrite (long_rel_val i fe at_ W S T3 Dd).
    unfold exec in E. rewrite Tw, T1, T2 in E. rewrite <- E. unfold next_ip, len. now case_match.
  - apply andb_true_iff in T as [T1 T2]. apply negb_true_iff in T1.
    destruct (i_op i =? 0xe3) eqn:Op; [|rewrite exec_op_none in E; [done|done|now apply negb_true_iff in T2]].
    rewrite (short_rel_val i fe at_ W S T2). unfold loop_taken, loop_count. rewrite Op.
    apply Z.eqb_eq in Op. unfold exec in E. rewrite T1, Op in *.
    cbn in E. change (Z.land 227 248 =? 80) with false in E. change (Z.land 227 248 =? 88) with false in E.
    cbv iota in E. rewrite <- E. unfold next_ip, len. cbn. now destruct (regs c R_ECX =? 0).
  - apply andb_true_iff in T as [T1 T2]. apply negb_true_iff in T1.
    destruct (i_op i =? 0xe9) eqn:Op; [|rewrite exec_op_none in E; [done|done|now apply negb_true_iff in T2]].
    rewrite (long_rel_val i fe at_ W S T2 Dd). apply Z.eqb_eq in Op. unfold exec in E. rewrite T1, Op in *.
    cbn in E. change (Z.land 233 248 =? 80) with false in E. change (Z.land 233 248 =? 88) with false in E.
    cbv iota in E. rewrite <- E. done.
  - apply andb_true_iff in T as [T1 T2]. apply negb_true_iff in T1, T2. now rewrite exec_op_none in E.
  - rewrite P. exact E.
Qed.

Lemma prefix_no_exec p : is_prefix p = true -> exec_op p = false /\ (p =? 0x0f) = false.
Proof.
  unfold is_prefix. cbn [existsb]. rewrite !orb_true_iff. intros Q.
  repeat (destruct Q as [Q|Q]; [apply Z.eqb_eq in Q as ->; done|]). done.
Qed.

Lemma step_mstep c c' : step c = Some c' -> mstep c c'.
Proof.
  unfold step. set (i := parse (cmem c) (ip c) 0). intros E. exists i.
  pose proof (parse_at_bytes (cmem c) (ip c) 0) as B.
  destruct (is_prefix (ld8 (cmem c) (ip c))) eqn:Q.
  { destruct (prefix_no_exec _ Q) as [X Y].
    assert (O : i_two i = false /\ i_op i = ld8 (cmem c) (ip c)).
    { unfold i, parse, parse_head. cbn [i_two i_op]. change (Z.of_nat 0) with 0. rewrite Z.add_0_r, Y. done. }
    destruct O as [O1 O2]. rewrite exec_op_none in E; [done|done|now rewrite O2]. }
  assert (W : wf_insn i = true).
  { apply parse_wf; [intros k Hk; lia|]. now rewrite Z.add_0_r. }
  split; [done|]. split; [exact B|]. now apply run_exec.
Qed.

Lemma steps_msteps n : forall c c', steps n c = Some c' -> rtc mstep c c'.
Proof.
  induction n as [|n IH]; intros c c' E; cbn in E.
  - injection E as ->. constructor.
  - destruct (step c) as [c1|] eqn:S; [|done]. cbn in E.
    apply (rtc_l _ _ c1); [now apply step_mstep|now apply IH].
Qed.

(** What holds of the emitted templates holds of this processor. *)
Lemma leads_msteps c Q : leads c Q -> exists c', rtc mstep c c' /\ Q c'.
Proof. intros (n & c' & E & K). exists c'. split; [now apply (steps_msteps n)|done]. Qed.

(** The next step, of the instruction that lies there. *)
Lemma mstep_insn i c c' : wf_insn i = true -> at_bytes (cmem c) (ip c) (encode i) ->
  run_insn i c = Some c' -> mstep c c'.
Proof. intros W B R. now exists i. Qed.

End Steps.
