(* ===== verification/BlockCode.v ===== *)
(** What translated code contains: [code_for] relates the code at a host
    address to the guest instructions it translates, through the templates of
    the handlers whose effect is known without the dispatcher's tables.  The
    loop of [gen_target_code] is shown to produce such code. *)

From S2P Require Import Prelude Memory Opcode DecodeTable Decode DecodeSpec DecodeProofs DecodeThm.
From S2P Require Import State TransBlock Emit Translate Frame Session Handlers Linking GenCode.
From S2P Require Import Processor.

(** ** Code *)

(** The segment prefix a conditional jump keeps. *)
Definition seg_bytes (i : insn) : list Z :=
  if hasb (prefix_flags (i_prefixes i) 0) DSFL_GROUP2_PREFIX
  then [u8 (seg_override (i_prefixes i) 0)] else [].
Definition seg_len (i : insn) : Z := Z.of_nat (length (seg_bytes i)).

Definition jcc_byte (i : insn) : Z := u8 (Z.lor (Z.land (i_op i) 0x0f) 0x80).

(** The handlers whose templates are followed here; the others leave through
    the dispatcher, the return cache or an inline cache. *)
Definition direct (f : emit_fn) : bool :=
  match f with
  | fn_emit_normal | fn_emit_jcond | fn_emit_other_jcond | fn_emit_jmp | fn_emit_call_disp => true
  | _ => false
  end.

Section Code.
Context `{Layout}.
(** The guest's program, the code bytes, and the words that are linked: [site a
    g] if the displacement at [a] leads to a translation of [g]. *)
Variables (prog : Z -> insn -> Prop) (bytes : Z -> list Z -> Prop) (site : Z -> Z -> Prop).

(** The start of a call: [push $ret; movl $landing, slot; jmp]. *)
Definition call_head (h ret_pc slot : Z) : list Z :=
  (0x68 :: le32 ret_pc) ++ (0xc7 :: 0x05 :: le32 slot ++ le32 (h + 20)) ++ [0xe9].

(** [code_for b g h]: the code at [h] does what the guest's code at [g] does;
    with [b = false] it may start with a jump to another translation. *)
Inductive code_for : bool -> Z -> Z -> Prop :=
  | cf_copy g h i : prog g i -> handler_of i = Some fn_emit_normal -> bytes h (encode i) ->
      code_for false (g + len i) (h + len i) -> code_for true g h
  | cf_jcond g h i : prog g i -> handler_of i = Some fn_emit_jcond ->
      bytes h (seg_bytes i ++ [0x0f; jcc_byte i]) ->
      site (h + seg_len i + 2) (branch_target i (g + len i)) ->
      code_for false (g + len i) (h + seg_len i + 6) -> code_for true g h
  | cf_loop g h i : prog g i -> handler_of i = Some fn_emit_other_jcond ->
      bytes h (seg_bytes i ++ [u8 (i_op i); 0x02; 0xeb; 5; 0xe9]) ->
      site (h + seg_len i + 5) (branch_target i (g + len i)) ->
      code_for false (g + len i) (h + seg_len i + 9) -> code_for true g h
  | cf_jmp g h i l : prog g i -> handler_of i = Some fn_emit_jmp ->
      l = [] \/ (exists a b, l = items_bytes h (copy_rc_items a b)) -> bytes h (l ++ [0xe9]) ->
      site (h + Z.of_nat (length l) + 1) (branch_target i (g + len i)) -> code_for true g h
  | cf_call g h i : prog g i -> handler_of i = Some fn_emit_call_disp ->
      bytes h (call_head h (g + len i) (RET_HASH_FUNC A_ret_hash_table (u32 (g + len i + rel_val i)))) ->
      site (h + 16) (u32 (g + len i + rel_val i)) ->
      code_for false (g + len i) (h + 43) -> code_for true g h
  | cf_leave g h i f : prog g i -> handler_of i = Some f -> direct f = false -> code_for true g h
  | cf_goto g h : bytes h [0xe9] -> site (h + 1) g -> code_for false g h
  | cf_weaken g h : code_for true g h -> code_for false g h.

End Code.

Lemma code_for_mono `{Layout} (prog prog' : Z -> insn -> Prop) (bytes bytes' : Z -> list Z -> Prop)
    (site site' : Z -> Z -> Prop) b g h :
  (forall g i, prog g i -> prog' g i) -> (forall a l, bytes a l -> bytes' a l) ->
  (forall a t, site a t -> site' a t) ->
  code_for prog bytes site b g h -> code_for prog' bytes' site' b g h.
Proof.
  intros P B S C. induction C.
  - eapply cf_copy; eauto.
  - eapply cf_jcond; eauto.
  - eapply cf_loop; eauto.
  - eapply cf_jmp; eauto.
  - eapply cf_call; eauto.
  - eapply cf_leave; eauto.
  - eapply cf_goto; eauto.
  - now apply cf_weaken.
Qed.

(** ** Steps that append given bytes *)

(** From [s] to [s'] the bytes [l] were appended and the branches [p] noted;
    the block table is still consistent. *)
Record wrote (l : list Z) (p : list patch_entry) (s s' : st) : Prop := {
  wr_cp : code_ptr s' = code_ptr s + Z.of_nat (length l);
  wr_bytes : at_bytes (smem s') (code_ptr s) l;
  wr_mem : forall x, x < code_ptr s \/ code_ptr s + Z.of_nat (length l) <= x -> smem s' !! x = smem s !! x;
  wr_patch : patch_array s' = patch_array s ++ p;
  wr_inv : tb_inv s -> tb_inv s';
  wr_pc : pc_ptr (cgc s') = pc_ptr (cgc s) }.

Lemma wrote_refl s : wrote [] [] s s.
Proof. constructor; try done; cbn; [lia|]. now rewrite app_nil_r. Qed.

Lemma wrote_trans l1 l2 p1 p2 s1 s2 s3 :
  wrote l1 p1 s1 s2 -> wrote l2 p2 s2 s3 -> wrote (l1 ++ l2) (p1 ++ p2) s1 s3.
Proof.
  intros [A1 A2 A3 A4 A5 A6] [B1 B2 B3 B4 B5 B6]. constructor; rewrite ?length_app.
  - lia.
  - apply at_bytes_app. rewrite <- A1. split; [|done].
    apply (at_bytes_ext (smem s2)); [|done]. intros x Hx. apply B3. lia.
  - intros x Hx. rewrite B3, A3 by lia. done.
  - now rewrite B4, A4, app_assoc.
  - auto.
  - congruence.
Qed.

(** A step that changes nothing of this. *)
Lemma wrote_same s s' : smem s' = smem s -> code_ptr s' = code_ptr s -> patch_array s' = patch_array s ->
  (tb_inv s -> tb_inv s') -> pc_ptr (cgc s') = pc_ptr (cgc s) -> wrote [] [] s s'.
Proof. intros E1 E2 E3 E4 E5. constructor; rewrite ?E1, ?E2, ?E3, ?app_nil_r; try done; cbn; lia. Qed.

Lemma tb_inv_same s s' : tb_inv s -> tbs s' = tbs s -> nb_tbs s' = nb_tbs s ->
  tb_phys_hash s' = tb_phys_hash s -> tb_jmp_cache s' = tb_jmp_cache s -> tb_inv s'.
Proof. apply tb_inv_mem. Qed.

Lemma wrote_emit l s (Q : unit -> st -> Prop) E :
  (forall s', wrote (items_bytes (code_ptr s) l) [] s s' -> code_ptr s' = code_ptr s + items_len l ->
     cgc s' = cgc s -> tbs s' = tbs s -> nb_tbs s' = nb_tbs s -> sieve_stub s' = sieve_stub s -> Q tt s') ->
  runs (emit l) s Q E.
Proof.
  intros K. apply runs_modify, K; try done. constructor; st_simpl; rewrite ?items_bytes_length.
  - done.
  - apply at_bytes_items.
  - intros x Hx. apply write_bytes_out. now rewrite items_bytes_length.
  - now rewrite app_nil_r.
  - intros I. now apply (tb_inv_mem s).
  - done.
Qed.

(** Bytes written over part of what was appended. *)
Lemma wrote_over l1 w l2 p bs s s1 s' a : wrote (l1 ++ w ++ l2) p s s1 -> length bs = length w ->
  a = code_ptr s + Z.of_nat (length l1) -> s' = set_smem (write_bytes a bs (smem s1)) s1 ->
  wrote (l1 ++ map u8 bs ++ l2) p s s'.
Proof.
  intros [A1 A2 A3 A4 A5 A6] Lb -> ->. rewrite !length_app in *.
  assert (Out : forall x, x < code_ptr s + Z.of_nat (length l1) \/
    code_ptr s + Z.of_nat (length l1) + Z.of_nat (length w) <= x ->
    write_bytes (code_ptr s + Z.of_nat (length l1)) bs (smem s1) !! x = smem s1 !! x).
  { intros x Hx. apply write_bytes_out. rewrite Lb. lia. }
  constructor; st_simpl; rewrite ?length_app, ?length_map, ?Lb; try done.
  - apply at_bytes_app in A2 as [B1 B2]. apply at_bytes_app in B2 as [_ B2].
    apply at_bytes_app. split; [|apply at_bytes_app; split].
    + apply (at_bytes_ext (smem s1)); [|done]. intros x Hx. apply Out. lia.
    + apply at_bytes_write.
    + rewrite length_map, Lb. apply (at_bytes_ext (smem s1)); [|done]. intros x Hx. apply Out. lia.
  - intros x Hx. rewrite Out by lia. apply A3. lia.
  - intros I. apply (tb_inv_mem s1); [now apply A5|done..].
Qed.

Lemma wrote_poke8 l1 x l2 p s s1 a v (Q : unit -> st -> Prop) E :
  wrote (l1 ++ [x] ++ l2) p s s1 -> a = code_ptr s + Z.of_nat (length l1) ->
  (forall s', wrote (l1 ++ [u8 v] ++ l2) p s s' -> code_ptr s' = code_ptr s1 -> cgc s' = cgc s1 -> Q tt s') ->
  runs (poke8 a v) s1 Q E.
Proof.
  intros W Ea K. apply runs_modify. apply K; [|done..].
  exact (wrote_over l1 [x] l2 p [v] s s1 _ a W eq_refl Ea eq_refl).
Qed.

Lemma wrote_poke32 l1 w l2 p s s1 a v (Q : unit -> st -> Prop) E :
  wrote (l1 ++ w ++ l2) p s s1 -> length w = 4%nat -> a = code_ptr s + Z.of_nat (length l1) ->
  (forall s', wrote (l1 ++ le32 v ++ l2) p s s' -> code_ptr s' = code_ptr s1 -> cgc s' = cgc s1 ->
     sieve_stub s' = sieve_stub s1 -> Q tt s') ->
  runs (poke32 a v) s1 Q E.
Proof.
  intros W Lw Ea K. apply runs_modify. apply K; [|done..].
  pose proof (wrote_over l1 w l2 p (le32 v) s s1 _ a W ltac:(now rewrite Lw) Ea eq_refl) as R.
  now rewrite map_u8_le32 in R.
Qed.

Lemma wrote_note `{Layout} to func s (Q : unit -> st -> Prop) :
  (forall s', wrote [] [mkPatch (code_ptr s - 4) to (cur_tb s) func NORMAL_TB_TAG] s s' ->
     code_ptr s' = code_ptr s -> coded (fun _ _ => False) s s' ->
     (forall i, tc_ptr (tbs s' i) = tc_ptr (tbs s i)) -> Q tt s') ->
  runs (note_jump to func) s Q (fun _ => True).
Proof.
  intros K. unfold note_jump, note_patch. run. run. run. run. run. run. run.
  apply runs_ABORT_IF; [done|]. intros _. run. run. run. apply runs_ABORT_IF; [done|]. intros _.
  run. run. apply runs_modify. set (s1 := upd_tb _ _ _).
  assert (Cs : forall j, tbs s1 j = tbs s j \/ tbs s1 j = set_patch_num (u32 (patch_num (tbs s j) + 1)) (tbs s j)).
  { intros j. destruct (Nat.eq_dec j (cur_tb s)) as [->|D]; [right; exact (upd_tb_eq _ _ _)|left].
    exact (upd_tb_ne (cur_tb s) j _ _ ltac:(congruence)). }
  apply K; try done.
  - constructor; try done; try (cbn; lia). intros I.
    apply (tb_inv_ext s); try done; intros j; destruct (Cs j) as [->| ->]; try done; intros Hj;
      now apply (inv_from s I).
  - apply coded_core; [done|]. intros j. now destruct (Cs j) as [->| ->].
  - intros j. now destruct (Cs j) as [->| ->].
Qed.

(** ** Code of the loop's states: links are noted branches, or made already *)

Definition off_word (a : Z) (e : patch_entry) : Prop := pe_at e + 4 <= a \/ a + 4 <= pe_at e.

Definition o_bytes (lo : Z) (s : st) (a : Z) (l : list Z) : Prop :=
  at_bytes (smem s) a l /\ lo <= a /\ a + Z.of_nat (length l) <= code_ptr s /\
  forall e, e ∈ patch_array s -> pe_at e + 4 <= a \/ a + Z.of_nat (length l) <= pe_at e.

(** The displacement at [a] leads to the code of a block for [g]. *)
Definition to_code (s : st) (a g : Z) : Prop := exists d, (d < nb_tbs s)%nat /\ pc (tbs s d) = g /\
  tc_ptr (tbs s d) <> NOT_TRANS_YET /\ rel_dest (smem s) a = u32 (tc_ptr (tbs s d)).

Definition o_site (lo : Z) (s : st) (a g : Z) : Prop :=
  (exists e, e ∈ patch_array s /\ pe_at e = a /\ pe_to e = g) \/
  (lo <= a /\ a + 4 <= code_ptr s /\ (forall e, e ∈ patch_array s -> off_word a e) /\ to_code s a g).

Lemma o_bytes_extends lo s s1 a l : extends s s1 -> o_bytes lo s a l -> o_bytes lo s1 a l.
Proof.
  intros [X1 X2 (k & X3 & X4)] (B & Lo & C & O). split; [|split; [done|split; [lia|]]].
  - apply (at_bytes_ext (smem s)); [|done]. intros x Hx. apply X2. lia.
  - intros e He. rewrite X3 in He. apply elem_of_app in He as [He|He]; [now apply O|].
    specialize (X4 e He). lia.
Qed.

Lemma o_site_extends lo s s1 e : extends s s1 -> e ∈ patch_array s -> o_site lo s1 (pe_at e) (pe_to e).
Proof.
  intros [_ _ (k & X3 & _)] He. left. exists e. rewrite X3. split; [|done]. apply elem_of_app. auto.
Qed.

(** Every noted branch lies below the code pointer. *)
Definition low (s : st) : Prop := forall e, e ∈ patch_array s -> pe_at e + 4 <= code_ptr s.

Lemma wrote_extends l p s s' : wrote l p s s' -> (forall e, e ∈ p -> code_ptr s <= pe_at e) -> extends s s'.
Proof.
  intros [A1 A2 A3 A4 A5 A6] P. constructor; [lia|intros x Hx; apply A3; lia|]. now exists p.
Qed.

(** Part of what was appended, apart from the noted branches. *)
Lemma wrote_o_bytes lo l1 l2 l3 p s s' : wrote (l1 ++ l2 ++ l3) p s s' -> lo <= code_ptr s -> low s ->
  (forall e, e ∈ p -> pe_at e + 4 <= code_ptr s + Z.of_nat (length l1) \/
     code_ptr s + Z.of_nat (length l1) + Z.of_nat (length l2) <= pe_at e) ->
  o_bytes lo s' (code_ptr s + Z.of_nat (length l1)) l2.
Proof.
  intros [A1 A2 A3 A4 A5 A6] Lo L P. rewrite !length_app in *. split; [|split; [lia|split; [lia|]]].
  - apply at_bytes_app in A2 as [_ A2]. now apply at_bytes_app in A2 as [A2 _].
  - intros e He. rewrite A4 in He. apply elem_of_app in He as [He|He]; [|now apply P].
    specialize (L e He). lia.
Qed.

Lemma rel_dest_at m a t : at_bytes m a (le32 (t - a - 4)) -> rel_dest m a = u32 t.
Proof. intros B. unfold rel_dest. rewrite (at_bytes_ld32_val m a _ B), u32_add_r. f_equal. lia. Qed.

Lemma in_bounds_any i n s (Q : unit -> st -> Prop) : Q tt s -> runs (in_bounds i n) s Q (fun _ => True).
Proof. intros K. unfold runs, in_bounds. now destruct (_ && _). Qed.

Section Pieces.
Context `{Layout}.
Variables (prog : Z -> insn -> Prop) (lo : Z).

(** Code from [lo] on. *)
Definition open_code (s : st) : bool -> Z -> Z -> Prop := code_for prog (o_bytes lo s) (o_site lo s).

(** States that agree on all that matters here. *)
Definition same_view (s s' : st) : Prop :=
  smem s' = smem s /\ code_ptr s' = code_ptr s /\ patch_array s' = patch_array s /\ nb_tbs s' = nb_tbs s /\
  forall i, tc_ptr (tbs s' i) = tc_ptr (tbs s i) /\ pc (tbs s' i) = pc (tbs s i).

Lemma view_code s s' b g h : same_view s s' -> open_code s b g h -> open_code s' b g h.
Proof.
  intros (E1 & E2 & E3 & E4 & E5). apply code_for_mono; [done|..].
  - intros a l. unfold o_bytes. now rewrite E1, E2, E3.
  - intros a t [K|(K0 & K1 & K2 & d & D1 & D2 & D3 & D4)]; [left; now rewrite E3|right].
    rewrite E2, E3. split; [done|]. split; [done|]. split; [done|]. exists d. destruct (E5 d) as [-> ->].
    now rewrite E1, E4.
Qed.

(** What a step from [s] to [s'] that returned [b] promises: whatever is added
    later, the code at [h] translates [g] if the code after [s'] goes on
    translating. *)
Definition cont (fresh : bool) (g h : Z) (s' : st) (b : bool) : Prop :=
  forall s1, extends s' s1 -> (b = false -> same_view s' s1) ->
  (b = true -> open_code s1 false (pc_ptr (cgc s')) (code_ptr s')) -> open_code s1 fresh g h.

Lemma wrote_find p s (Q : option nat -> st -> Prop) : tb_inv s ->
  (forall s', wrote [] [] s s' -> code_ptr s' = code_ptr s -> cgc s' = cgc s -> tbs s' = tbs s ->
     nb_tbs s' = nb_tbs s -> cur_tb s' = cur_tb s -> smem s' = smem s -> Q (newest s p) s') ->
  runs (tb_find_fast p NORMAL_TB_TAG) s Q (fun _ => True).
Proof.
  intros I K. apply find_runs; [done|]. intros s' I' S N.
  destruct (same_but_cache_fields s s' S) as (E1 & E2 & E3 & E4 & E5 & E6 & E7 & E8 & E9 & E10).
  apply K; try done. apply wrote_same; try done. now rewrite E10.
Qed.

Lemma wrote_make p func s (Q : nat -> st -> Prop) : tb_inv s -> newest s p = None ->
  (forall s', wrote [] [] s s' -> code_ptr s' = code_ptr s -> cgc s' = cgc s -> Q (nb_tbs s) s') ->
  runs (make_tb p func NORMAL_TB_TAG) s Q (fun _ => True).
Proof.
  intros I Nw K. apply make_tb_runs; [done|]. intros s' Md.
  destruct (made_fields _ _ _ _ Md) as (E1 & E2 & E3 & E4 & E5 & E6 & E7 & E8). apply K; try done.
  apply wrote_same; try done; [intros _; now apply (made_inv p func s)|now rewrite E8].
Qed.

Lemma trans_next_cont ds s : tb_inv s -> lo <= code_ptr s -> low s ->
  runs (trans_next ds) s (fun b s' => extends s s' /\ cont false (pc_ptr (cgc s)) (code_ptr s) s' b)
    (fun _ => True).
Proof.
  intros I Ll Lo. unfold trans_next. run. apply runs_ABORT_IF; [done|]. intros _. run. run. run.
  apply wrote_find; [done|]. intros s1 W1 C1 G1 T1 N1 U1 M1. cbv beta. run. run.
  pose proof (wrote_extends _ _ _ _ W1 ltac:(now intros e ?%not_elem_of_nil)) as X1.
  assert (Same : forall s', extends s s' -> code_ptr s' = code_ptr s -> cgc s' = cgc s ->
    extends s s' /\ cont false (pc_ptr (cgc s)) (code_ptr s) s' true).
  { intros s' X E2 E4. split; [done|].
    intros s2 _ _ K. specialize (K eq_refl). rewrite E2, E4 in K. exact K. }
  destruct (newest s (pc_ptr (cgc s))) as [i|] eqn:Nw.
  - destruct (newest_some _ _ _ Nw) as [Hi Pi]. run. run. rewrite T1.
    destruct (negb (tc_ptr (tbs s i) =? NOT_TRANS_YET)) eqn:Tr.
    2:{ run_pure. apply Same; [|done..]. apply (extends_trans _ _ _ X1). now apply extends_same. }
    run. apply wrote_emit. intros s2 W2 P2 G2 T2 N2 _. rewrite C1 in W2. set (cp := code_ptr s) in *.
    set (l := items_bytes cp _) in W2. pose proof (wrote_trans _ _ _ _ _ _ _ W1 W2) as W. cbn [app] in W.
    run_pure. apply in_bounds_any. run_pure. set (s4 := upd_tb _ _ _).
    assert (T4 : forall j, tc_ptr (tbs s4 j) = tc_ptr (tbs s j) /\ pc (tbs s4 j) = pc (tbs s j) /\
      jmp_from_index (tbs s4 j) = jmp_from_index (tbs s j)).
    { intros j. rewrite <- T1, <- T2. destruct (Nat.eq_dec j (cur_tb s1)) as [->|D]; unfold s4.
      - now rewrite upd_tb_eq.
      - now rewrite upd_tb_ne by congruence. }
    destruct (T4 i) as (T5 & T6 & T7).
    destruct (tb_add_jmp_from_run (cur_tb s1) i (patch_num (tbs s2 (cur_tb s1))) s4) as (s5 & R & Ja & _).
    { rewrite T7. apply (inv_from s I). exact Hi. }
    eapply runs_intro; [exact R|]. run.
    destruct (jmp_added_same _ _ _ Ja) as (E1 & E2 & E3 & E4 & E5 & E6).
    change (smem s4) with (smem s2) in E1. change (code_ptr s4) with (code_ptr s2) in E2.
    change (patch_array s4) with (patch_array s2) in E3. change (nb_tbs s4) with (nb_tbs s2) in E4.
    pose proof (wrote_extends _ _ _ _ W ltac:(now intros e ?%not_elem_of_nil)) as X2.
    split; [apply (extends_trans _ _ _ X2); now apply extends_same|].
    intros s6 _ K _. apply (view_code s5 s6 _ _ _ (K eq_refl)). clear s6 K.
    assert (Ob : forall k b, o_bytes lo s2 k b -> o_bytes lo s5 k b).
    { intros k b. unfold o_bytes. now rewrite E1, E2, E3. }
    apply cf_goto.
    + apply Ob. pose proof (wrote_o_bytes lo [] [0xe9] (le32 (tc_ptr (tbs s i) - (cp + 1) - 4)) [] s s2 W Ll Lo) as O.
      fold cp in O. rewrite Z.add_0_r in O. apply O. now intros e ?%not_elem_of_nil.
    + right. rewrite E2, P2, C1. cbn. split; [lia|]. split; [lia|]. pose proof (wr_patch _ _ _ _ W) as Pp. rewrite app_nil_r in Pp.
      split.
      * intros e He. rewrite E3, Pp in He. specialize (Lo e He). unfold off_word. fold cp in Lo. lia.
      * exists i. destruct (E6 i) as [-> ->]. rewrite E4, E1, T5, T6, N2, N1. repeat split; try done.
        -- intros Eq. rewrite Eq in Tr. discriminate Tr.
        -- apply rel_dest_at. pose proof (wr_bytes _ _ _ _ W) as B.
           change l with ([0xe9] ++ le32 (tc_ptr (tbs s i) - (cp + 1) - 4) ++ []) in B.
           rewrite app_nil_r in B. now apply at_bytes_app in B as [_ B].
  - run_pure. apply wrote_make; [now apply (wr_inv _ _ _ _ W1)|unfold newest; now rewrite T1, N1|]. intros s2 W2 C2 G2.
    pose proof (wrote_extends _ _ _ _ W2 ltac:(now intros e ?%not_elem_of_nil)) as X2.
    run_pure. apply Same; [|cbn; congruence..].
    apply (extends_trans _ _ _ X1), (extends_trans _ _ _ X2). now apply extends_same.
Qed.

(** Where a handler is called for instruction [i] at [g]. *)
Record at_piece (s : st) (g : Z) (i : insn) (ds : decode_t) : Prop := {
  ap_inv : tb_inv s;
  ap_lo : lo <= code_ptr s;
  ap_low : low s;
  ap_prog : prog g i;
  ap_wf : wf_insn i = true;
  ap_pc : pc_ptr (cgc s) = g + len i;
  ap_len : insn_len (cgc s) = len i;
  ap_range : 0 <= g /\ g + len i < 4294967296;
  ap_bytes : at_bytes (smem s) g (encode i);
  ap_apart : g + len i <= code_ptr s \/ code_ptr s + 256 <= g;
  ap_scan : scanned i ds;
  ap_instr : instr ds = g + Z.of_nat (length (i_prefixes i));
  ap_imm : (i_iv i <> [] -> immediate ds = s32 (le_val (i_iv i))) /\
           (i_iv i = [] -> i_ib i <> [] -> immediate ds = s8 (le_val (i_ib i))) }.

Lemma piece_len s g i ds : at_piece s g i ds -> 0 < len i.
Proof. intros _. unfold len, encode, opcode_bytes. rewrite !length_app. destruct (i_two i); cbn; lia. Qed.

Lemma emit_normal_piece ds s g i : at_piece s g i ds -> handler_of i = Some fn_emit_normal ->
  runs (emit_normal ds) s (fun b s' => extends s s' /\ cont true g (code_ptr s) s' b) (fun _ => True).
Proof.
  intros A Hf. pose proof (piece_len _ _ _ _ A). destruct A as [I Ll Lo Pg W Pc Ln Rg B Ap Sc In Im].
  unfold emit_normal, copy_insn. run_pure. set (s' := set_code_ptr _ _).
  assert (Wr : wrote (encode i) [] s s').
  { assert (Eb : read_bytes (smem s) (u32 (pc_ptr (cgc s) - insn_len (cgc s))) (Z.to_nat (insn_len (cgc s))) = encode i).
    { rewrite Pc, Ln, u32_small by lia. replace (g + len i - len i) with g by lia. unfold len. rewrite Nat2Z.id. exact B. }
    unfold s'. rewrite Eb. constructor; st_simpl; try done.
    - now rewrite Ln.
    - pose proof (at_bytes_write (smem s) (code_ptr s) (encode i)) as K.
      replace (map u8 (encode i)) with (encode i) in K; [done|].
      pose proof (at_bytes_is_byte _ _ _ B) as F. clear -F. induction (encode i) as [|x l IH]; [done|].
      cbn in *. apply andb_true_iff in F as [F1 F2]. unfold is_byte in F1. rewrite <- IH by done. f_equal.
      symmetry. apply u8_small. lia.
    - intros x Hx. now apply write_bytes_out.
    - now rewrite app_nil_r.
    - intros _. now apply (tb_inv_mem s). }
  split; [apply (wrote_extends _ _ _ _ Wr); now intros e ?%not_elem_of_nil|].
  intros s1 X _ K. specialize (K eq_refl). rewrite (wr_pc _ _ _ _ Wr), (wr_cp _ _ _ _ Wr), Pc in K.
  apply (cf_copy prog _ _ g _ i); try done. apply (o_bytes_extends lo s' s1 _ _ X).
  pose proof (wrote_o_bytes lo [] (encode i) [] [] s s') as O. cbn [app length] in O. rewrite app_nil_r, Z.add_0_r in O.
  apply O; [done..|]. now intros e ?%not_elem_of_nil.
Qed.

Lemma piece_target s g i ds : at_piece s g i ds -> (i_iv i <> [] \/ i_iv i = [] /\ exists d, i_ib i = [d]) ->
  u32 (pc_ptr (cgc s) + immediate ds) = u32 (g + len i + rel_val i).
Proof.
  intros A K. rewrite (ap_pc _ _ _ _ A). destruct (ap_imm _ _ _ _ A) as [I1 I2]. unfold rel_val.
  destruct K as [K|[K [d D]]].
  - rewrite I1 by done. rewrite <- u32_add_r, s32_u32, u32_add_r. now destruct (i_iv i).
  - rewrite I2, K by (rewrite ?D; done). done.
Qed.

Lemma piece_data32 s g i ds : at_piece s g i ds -> hasb (opstate ds) OPSTATE_DATA32 = data32 i.
Proof.
  intros A. destruct (ap_scan _ _ _ _ A) as [O _ _]. destruct (ops_bits (data32 i) (addr32 i)) as (_ & D & _).
  now rewrite O.
Qed.

(** The segment prefix. *)
Lemma piece_seg s g i ds s1 (Q : unit -> st -> Prop) E : at_piece s g i ds ->
  (forall s', wrote (seg_bytes i) [] s1 s' -> cgc s' = cgc s1 -> Q tt s') ->
  runs (if hasb (flags ds) DSFL_GROUP2_PREFIX then emit [E8 (Group2_Prefix ds)] else ret tt) s1 Q E.
Proof.
  intros A K. destruct (ap_scan _ _ _ _ A) as [_ F G]. rewrite F, G in *. unfold seg_bytes in K.
  destruct (hasb _ _).
  - apply wrote_emit. intros s' W _ C _ _ _. now apply K.
  - run. apply K; [apply wrote_refl|done].
Qed.

(** A conditional branch ends in [trans_next], from the state [s2] in which the
    bytes [l] are there and the branch [e] is noted. *)
Lemma branch_cont ds s g i l e s2 : at_piece s g i ds -> wrote l [e] s s2 ->
  code_ptr s <= pe_at e -> pe_at e + 4 <= code_ptr s + Z.of_nat (length l) ->
  (forall s1, data32 i = true -> extends s2 s1 -> o_site lo s1 (pe_at e) (pe_to e) ->
     open_code s1 false (g + len i) (code_ptr s + Z.of_nat (length l)) -> open_code s1 true g (code_ptr s)) ->
  runs (trans_next ds) s2 (fun b s' => extends s s' /\ cont true g (code_ptr s) s' b) (fun _ => True).
Proof.
  intros A W P1 P2 K. destruct (data32 i) eqn:D32.
  2:{ unfold trans_next. rewrite (piece_data32 _ _ _ _ A), D32. done. }
  pose proof (wr_inv _ _ _ _ W (ap_inv _ _ _ _ A)) as I2.
  assert (L2 : low s2).
  { intros e' He. rewrite (wr_patch _ _ _ _ W) in He. rewrite (wr_cp _ _ _ _ W).
    apply elem_of_app in He as [He|He]; [pose proof (ap_low _ _ _ _ A e' He); lia|].
    apply list_elem_of_singleton in He as ->. lia. }
  assert (Ll : lo <= code_ptr s2).
  { pose proof (ap_lo _ _ _ _ A). rewrite (wr_cp _ _ _ _ W). lia. }
  assert (X2 : extends s s2).
  { apply (wrote_extends _ _ _ _ W). intros e' He. apply list_elem_of_singleton in He as ->. lia. }
  eapply runs_conseq; [apply (trans_next_cont ds s2 I2 Ll L2)| |done]. cbv beta. intros b s' [X C].
  split; [now apply (extends_trans s s2)|]. intros s1 X1 Eb Kb.
  pose proof (extends_trans _ _ _ X X1) as X21. apply K; [done|done| |].
  - apply (o_site_extends lo s2); [done|]. rewrite (wr_patch _ _ _ _ W). apply elem_of_app. right.
    now apply list_elem_of_singleton.
  - specialize (C s1 X1 Eb Kb). rewrite (wr_pc _ _ _ _ W), (ap_pc _ _ _ _ A), (wr_cp _ _ _ _ W) in C. exact C.
Qed.

Lemma wrote_cgc f s (Q : unit -> st -> Prop) E : (forall g, pc_ptr (f g) = pc_ptr g) ->
  (forall s', wrote [] [] s s' -> code_ptr s' = code_ptr s -> pc_ptr (cgc s') = pc_ptr (cgc s) -> Q tt s') ->
  runs (mod_cgc f) s Q E.
Proof.
  intros F K. apply runs_modify, K; [|done|cbn; apply F]. apply wrote_same; try done; [|cbn; apply F].
  intros I. now apply (tb_inv_mem s).
Qed.

(** The opcode, as the handler reads it. *)
Lemma piece_opcode s g i ds m : at_piece s g i ds ->
  (forall x, x < code_ptr s \/ code_ptr s + 256 <= x -> m !! x = smem s !! x) ->
  (if ld8 m (instr ds) =? 0x0f then ld8 m (instr ds + 1) else ld8 m (instr ds)) = i_op i.
Proof.
  intros A M. pose proof A as [_ _ _ _ W _ _ _ B Ap _ In _]. rewrite In.
  assert (B' : at_bytes m g (encode i)).
  { apply (at_bytes_ext (smem s)); [|done]. intros x Hx. apply M. unfold len in Ap. lia. }
  unfold encode in B'. apply at_bytes_app in B' as [_ B']. apply at_bytes_app in B' as [B' _].
  destruct (wf_insn_inv i W) as (_ & _ & C & _). unfold opcode_bytes in B'. destruct (i_two i).
  - apply at_bytes_cons in B' as [-> B']. apply at_bytes_cons in B' as [-> _]. done.
  - apply at_bytes_cons in B' as [-> _]. cbn [orb] in C. apply negb_true_iff, orb_false_iff in C as [_ C].
    now rewrite C.
Qed.

Lemma seg_len_le i : 0 <= seg_len i <= 1.
Proof. unfold seg_len, seg_bytes. destruct (hasb _ _); cbn; lia. Qed.

Lemma emit_jcond_piece ds s g i : at_piece s g i ds -> handler_of i = Some fn_emit_jcond ->
  runs (emit_jcond ds) s (fun b s' => extends s s' /\ cont true g (code_ptr s) s' b) (fun _ => True).
Proof.
  intros A Hf. destruct (kind_ok i _ (ap_wf _ _ _ _ A) Hf) as (Kd & Kr & _).
  assert (Ki : kind_of i = Jcc) by (destruct (kind_of i); done). rewrite Ki in Kr. specialize (Kr eq_refl).
  pose proof (piece_target _ _ _ _ A Kr) as Tg. pose proof (seg_len_le i) as Sl.
  unfold emit_jcond, rel_target, cur_func. run. apply wrote_cgc; [done|]. intros s2 W2 C2 G2.
  run_pure. apply (piece_seg s g i ds s2 _ _ A). intros s3 W3 G3. rewrite (piece_data32 _ _ _ _ A).
  rewrite G2, Tg. pose proof (wrote_trans _ _ _ _ _ _ _ W2 W3) as W. cbn [app] in W. clear W2 W3.
  repeat (run; cbv beta). rewrite (piece_opcode s g i ds (smem s3) A).
  2:{ intros x Hx. apply (wr_mem _ _ _ _ W). unfold seg_len in Sl. lia. }
  repeat (run; cbv beta). apply wrote_emit. intros s4 W4 C4 _ _ _ _. repeat (run; cbv beta).
  apply wrote_note. intros s5 W5 C5 _ _.
  pose proof (wr_cp _ _ _ _ W) as C3. fold (seg_len i) in C3.
  pose proof (wrote_trans _ _ _ _ _ _ _ W (wrote_trans _ _ _ _ _ _ _ W4 W5)) as Wr.
  cbn [items_bytes item_bytes app] in Wr. fold (jcc_byte i) in Wr. cbn [items_len item_len] in C4.
  rewrite C4, C3 in Wr. rewrite !app_nil_r in Wr.
  set (sg := seg_bytes i) in *. change (u8 0x0f) with 0x0f in Wr. set (need := le32 NEED_PATCH_32) in *.
  set (e := mkPatch _ _ _ _ _) in Wr. set (cc := jcc_byte i) in *.
  assert (Le : Z.of_nat (length (sg ++ 0x0f :: cc :: need)) = seg_len i + 6).
  { rewrite length_app. unfold seg_len. fold sg. cbn. lia. }
  assert (Pe : pe_at e = code_ptr s + seg_len i + 2) by (cbn; lia).
  apply (branch_cont ds s g i _ e s5 A Wr); [lia|rewrite Le; lia|].
  intros s1 _ X Si Nx. rewrite Pe in Si. rewrite Le in Nx.
  apply (cf_jcond prog _ _ g _ i (ap_prog _ _ _ _ A) Hf).
  - apply (o_bytes_extends lo s5 s1 _ _ X).
    pose proof (wrote_o_bytes lo [] (sg ++ [0x0f; cc]) need [e] s s5) as O. rewrite <- app_assoc in O.
    cbn [app length] in O. rewrite Z.add_0_r in O. apply O; [exact Wr|apply A|apply A|].
    intros e' He. apply list_elem_of_singleton in He as ->. right. rewrite Pe, length_app.
    unfold seg_len. fold sg. cbn [length]. lia.
  - unfold branch_target. exact Si.
  - replace (code_ptr s + seg_len i + 6) with (code_ptr s + (seg_len i + 6)) by lia. exact Nx.
Qed.

Lemma emit_other_jcond_piece ds s g i fe at_ : at_piece s g i ds ->
  handler_of i = Some fn_emit_other_jcond -> select i = Some (fe, at_) -> pEntry ds = Some fe ->
  runs (emit_other_jcond ds) s (fun b s' => extends s s' /\ cont true g (code_ptr s) s' b) (fun _ => True).
Proof.
  intros A Hf Se Pe. destruct (kind_ok i _ (ap_wf _ _ _ _ A) Hf) as (Kd & Kr & fe' & at' & Se' & _ & _ & Ix).
  rewrite Se in Se'. injection Se' as <- <-.
  assert (Ki : kind_of i = Loop) by (destruct (kind_of i); done). rewrite Ki in Kr. specialize (Kr eq_refl).
  specialize (Ix Ki). pose proof (piece_target _ _ _ _ A Kr) as Tg. pose proof (seg_len_le i) as Sl.
  unfold emit_other_jcond, rel_target, cur_func. rewrite Pe.
  run. apply wrote_cgc; [done|]. intros s2 W2 C2 G2.
  run_pure. apply (piece_seg s g i ds s2 _ _ A). intros s3 W3 G3.
  pose proof (wrote_trans _ _ _ _ _ _ _ W2 W3) as W. cbn [app] in W. clear W2 W3. pose proof (wr_cp _ _ _ _ W) as C3.
  fold (seg_len i) in C3. run. eapply runs_intro; [reflexivity|]. rewrite Ix. run.
  apply wrote_emit. intros s4 W4 C4 G4 _ _ _. repeat (run; cbv beta).
  apply wrote_emit. intros s5 W5 C5 G5 _ _ _. repeat (run; cbv beta). rewrite G5, G4, G3, G2, Tg.
  apply wrote_emit. intros s6 W6 C6 _ _ _ _. repeat (run; cbv beta).
  apply wrote_note. intros s7 W7 C7 _ _. repeat (run; cbv beta).
  cbn [items_len item_len] in C4, C5, C6. rewrite C3 in C4. rewrite C4 in C5. rewrite C5 in C6. rewrite C6 in C7.
  pose proof (wrote_trans _ _ _ _ _ _ _ W (wrote_trans _ _ _ _ _ _ _ W4 (wrote_trans _ _ _ _ _ _ _ W5
    (wrote_trans _ _ _ _ _ _ _ W6 W7)))) as Wr. clear W W4 W5 W6 W7.
  cbn [items_bytes item_bytes app] in Wr. rewrite !app_nil_r in Wr. rewrite C7, C4.
  set (e := mkPatch _ _ _ _ _) in Wr. set (sg := seg_bytes i) in *. set (z := le32 0) in *.
  change (u8 2) with 2 in Wr. change (u8 0xeb) with 0xeb in Wr. change (u8 0xe9) with 0xe9 in Wr.
  apply (wrote_poke8 (sg ++ [u8 (i_op i); 2; 0xeb]) (u8 NEED_PATCH_8) (0xe9 :: z) [e] s s7).
  { rewrite <- app_assoc. exact Wr. }
  { rewrite length_app. unfold seg_len. fold sg. cbn [length]. lia. }
  match goal with |- context [u8 (?a - ?b - 1)] => replace (a - b - 1) with 5 by lia end.
  change (u8 5) with 5. intros s8 W8 C8 _.
  rewrite <- app_assoc in W8. cbn [app] in W8.
  assert (Le : Z.of_nat (length (sg ++ u8 (i_op i) :: 2 :: 0xeb :: 5 :: 0xe9 :: z)) = seg_len i + 9).
  { rewrite length_app. unfold seg_len. fold sg. cbn. lia. }
  assert (Pa : pe_at e = code_ptr s + seg_len i + 5) by (cbn; lia).
  apply (branch_cont ds s g i _ e s8 A W8); [lia|rewrite Le; lia|].
  intros s1 D32 X Si Nx. rewrite Pa in Si. rewrite Le in Nx.
  apply (cf_loop prog _ _ g _ i (ap_prog _ _ _ _ A) Hf).
  - apply (o_bytes_extends lo s8 s1 _ _ X).
    pose proof (wrote_o_bytes lo [] (sg ++ [u8 (i_op i); 2; 0xeb; 5; 0xe9]) z [e] s s8) as O. rewrite <- app_assoc in O.
    cbn [app length] in O. rewrite Z.add_0_r in O. apply O; [exact W8|apply A|apply A|].
    intros e' He. apply list_elem_of_singleton in He as ->. right. rewrite Pa, length_app.
    unfold seg_len. fold sg. cbn [length]. lia.
  - unfold branch_target. rewrite D32. exact Si.
  - replace (code_ptr s + seg_len i + 9) with (code_ptr s + (seg_len i + 9)) by lia. exact Nx.
Qed.

Lemma jmp_tail_piece s g i ds t l f : at_piece s g i ds -> handler_of i = Some fn_emit_jmp ->
  wrote l [] s t -> l = [] \/ (exists a b, l = items_bytes (code_ptr s) (copy_rc_items a b)) ->
  runs (do* emit [E8 0xe9; E32 NEED_PATCH_32] in do* note_jump (branch_target i (g + len i)) f in ret false) t
    (fun b s' => extends s s' /\ cont true g (code_ptr s) s' b) (fun _ => True).
Proof.
  intros A Hf W Hl. run. apply wrote_emit. intros s2 W2 C2 _ _ _ _. run. apply wrote_note. intros s3 W3 C3 _ _. run.
  pose proof (wrote_trans _ _ _ _ _ _ _ W (wrote_trans _ _ _ _ _ _ _ W2 W3)) as Wr.
  pose proof (wr_cp _ _ _ _ W) as C1. cbn [items_len item_len] in C2. rewrite C1 in C2.
  cbn [items_bytes item_bytes app] in Wr. rewrite !app_nil_r in Wr. change (u8 0xe9) with 0xe9 in Wr.
  set (e := mkPatch _ _ _ _ _) in Wr. set (need := le32 NEED_PATCH_32) in *.
  assert (Pe : pe_at e = code_ptr s + Z.of_nat (length l) + 1) by (cbn; lia).
  split.
  { apply (wrote_extends _ _ _ _ Wr). intros e' He. apply list_elem_of_singleton in He as ->. lia. }
  intros s1 _ Eb _. apply (view_code s3 s1 _ _ _ (Eb eq_refl)). clear s1 Eb.
  apply (cf_jmp prog _ _ g _ i l (ap_prog _ _ _ _ A) Hf Hl).
  - pose proof (wrote_o_bytes lo [] (l ++ [0xe9]) need [e] s s3) as O. rewrite <- app_assoc in O.
    cbn [app length] in O. rewrite Z.add_0_r in O. apply O; [exact Wr|apply A|apply A|].
    intros e' He. apply list_elem_of_singleton in He as ->. right. rewrite Pe, length_app. cbn [length]. lia.
  - rewrite <- Pe. left. exists e. split; [|done]. rewrite (wr_patch _ _ _ _ Wr). apply elem_of_app. right.
    now apply list_elem_of_singleton.
Qed.

Lemma emit_jmp_piece ds s g i : at_piece s g i ds -> handler_of i = Some fn_emit_jmp ->
  runs (emit_jmp ds) s (fun b s' => extends s s' /\ cont true g (code_ptr s) s' b) (fun _ => True).
Proof.
  intros A Hf. destruct (kind_ok i _ (ap_wf _ _ _ _ A) Hf) as (Kd & Kr & _).
  assert (Ki : kind_of i = Jmp) by (destruct (kind_of i); done). rewrite Ki in Kr. specialize (Kr eq_refl).
  pose proof (piece_target _ _ _ _ A Kr) as Tg. pose proof (ap_inv _ _ _ _ A) as I.
  unfold emit_jmp, rel_target, cur_func. run. apply wrote_cgc; [done|]. intros s2 W2 C2 G2.
  repeat (run; cbv beta). rewrite (piece_data32 _ _ _ _ A), G2, Tg.
  change (if data32 i then _ else _) with (branch_target i (g + len i)).
  pose proof (wr_inv _ _ _ _ W2 I) as I2. apply wrote_find; [done|].
  intros s3 W3 C3 G3 T3 N3 U3 M3. cbv beta. repeat (run; cbv beta).
  pose proof (wrote_trans _ _ _ _ _ _ _ W2 W3) as W. cbn [app] in W. pose proof (wr_inv _ _ _ _ W3 I2) as I3.
  rewrite C2 in C3.
  assert (Copy : forall t a b f, wrote [] [] s t -> code_ptr t = code_ptr s ->
    runs (emit (copy_rc_items a b)) t (fun _ t' =>
      runs (do* emit [E8 0xe9; E32 NEED_PATCH_32] in do* note_jump (branch_target i (g + len i)) f in ret false) t'
        (fun b s' => extends s s' /\ cont true g (code_ptr s) s' b) (fun _ => True)) (fun _ => True)).
  { intros t a b f Wt Ct. apply wrote_emit. intros t' W' _ _ _ _ _. rewrite Ct in W'.
    pose proof (wrote_trans _ _ _ _ _ _ _ Wt W') as Wr. cbn [app] in Wr.
    eapply jmp_tail_piece; [exact A|exact Hf|exact Wr|right; eauto]. }
  assert (Plain : forall f,
      runs (do* emit [E8 0xe9; E32 NEED_PATCH_32] in do* note_jump (branch_target i (g + len i)) f in ret false) s3
        (fun b s' => extends s s' /\ cont true g (code_ptr s) s' b) (fun _ => True)).
  { intros f. eapply jmp_tail_piece; [exact A|exact Hf|exact W|auto]. }
  destruct (newest s2 _) as [d|] eqn:Nw.
  - repeat (run; cbv beta). case_match; [now apply Copy|run; apply Plain].
  - repeat (run; cbv beta). case_match; [|run; apply Plain]. run. apply wrote_make; [done|unfold newest in *; now rewrite T3, N3|].
    intros s4 W4 C4 _. pose proof (wrote_trans _ _ _ _ _ _ _ W W4) as Wr. cbn [app] in Wr.
    apply Copy; [exact Wr|congruence].
Qed.

(** The landing code of a call: 23 bytes, and the slot it fills. *)
Lemma rc_cmp_piece l1 w l2 p s s1 a (Q : unit -> st -> Prop) :
  wrote (l1 ++ w ++ l2) p s s1 -> length w = 4%nat -> a = code_ptr s + Z.of_nat (length l1) ->
  (forall r s', length r = 23%nat -> wrote ((l1 ++ le32 (code_ptr s1) ++ l2) ++ r) p s s' -> Q tt s') ->
  runs (cemit_rc_cmp a) s1 Q (fun _ => True).
Proof.
  intros W Lw Ea K. unfold cemit_rc_cmp. repeat (run; cbv beta).
  apply (wrote_poke32 l1 w l2 p s s1 a (code_ptr s1) _ _ W Lw Ea). intros s2 W2 C2 _ _. repeat (run; cbv beta).
  apply wrote_emit. intros s3 W3 C3 _ _ _ _. repeat (run; cbv beta).
  apply wrote_emit. intros s4 W4 C4 _ _ _ _. repeat (run; cbv beta).
  unfold cemit_sieve_nopush. repeat (run; cbv beta).
  apply wrote_emit. intros s5 W5 C5 _ _ _ _. repeat (run; cbv beta).
  set (l := l1 ++ le32 (code_ptr s1) ++ l2) in *. pose proof (wr_cp _ _ _ _ W2) as P2.
  pose proof (wrote_trans _ _ _ _ _ _ _ W2 W3) as V. rewrite app_nil_r in V.
  pose proof (wrote_trans _ _ _ _ _ _ _ V (wrote_trans _ _ _ _ _ _ _ W4 W5)) as V2. clear W2 W3 W4 W5.
  rewrite !app_nil_r in V2. set (x3 := items_bytes (code_ptr s2) _) in *.
  set (x5 := items_bytes (code_ptr s4) _) in *. change (items_bytes (code_ptr s3) [E8 NEED_PATCH_8]) with [u8 NEED_PATCH_8] in V2.
  assert (L3 : Z.of_nat (length x3) = 12) by (unfold x3; rewrite items_bytes_length; reflexivity).
  assert (L5 : Z.of_nat (length x5) = 5) by (unfold x5; rewrite items_bytes_length; reflexivity).
  cbn [items_len item_len] in C3, C4, C5.
  eapply (wrote_poke8 (l ++ x3) (u8 NEED_PATCH_8) x5 p s s5); [exact V2| |].
  { rewrite length_app. lia. }
  intros s6 W6 C6 _. apply wrote_emit. intros s7 W7 C7 _ _ _ _.
  pose proof (wrote_trans _ _ _ _ _ _ _ W6 W7) as V3. rewrite app_nil_r in V3.
  set (x7 := items_bytes (code_ptr s6) _) in *.
  assert (L7 : Z.of_nat (length x7) = 5) by (unfold x7; rewrite items_bytes_length; reflexivity).
  rewrite <- !app_assoc in V3. refine (K (x3 ++ [u8 _] ++ x5 ++ x7) s7 _ _); [|exact V3].
  rewrite !length_app. cbn [length]. lia.
Qed.

Lemma emit_call_disp_piece ds s g i : at_piece s g i ds -> handler_of i = Some fn_emit_call_disp ->
  runs (emit_call_disp ds) s (fun b s' => extends s s' /\ cont true g (code_ptr s) s' b) (fun _ => True).
Proof.
  intros A Hf. destruct (kind_ok i _ (ap_wf _ _ _ _ A) Hf) as (Kd & Kr & _).
  assert (Ki : kind_of i = Call) by (destruct (kind_of i); done). rewrite Ki in Kr. specialize (Kr eq_refl).
  pose proof (piece_target _ _ _ _ A Kr) as Tg.
  unfold emit_call_disp, rel_target. run. apply wrote_cgc; [done|]. intros s2 W2 C2 G2. repeat (run; cbv beta).
  rewrite G2, Tg, (ap_pc _ _ _ _ A). set (n := g + len i) in *. set (t := u32 (n + rel_val i)) in *.
  apply wrote_emit. intros s3 W3 C3 _ _ _ _. run. apply runs_ABORT_IF; [done|]. intros _. repeat (run; cbv beta).
  apply wrote_emit. intros s4 W4 C4 _ _ _ _. repeat (run; cbv beta).
  apply wrote_emit. intros s5 W5 C5 _ _ _ _. repeat (run; cbv beta).
  apply wrote_emit. intros s6 W6 C6 _ _ _ _. repeat (run; cbv beta).
  apply wrote_note. intros s7 W7 C7 _ _. repeat (run; cbv beta).
  cbn [items_len item_len] in C3, C4, C5, C6. rewrite C2 in C3.
  pose proof (wrote_trans _ _ _ _ _ _ _ W2 (wrote_trans _ _ _ _ _ _ _ W3 (wrote_trans _ _ _ _ _ _ _ W4
    (wrote_trans _ _ _ _ _ _ _ W5 (wrote_trans _ _ _ _ _ _ _ W6 W7))))) as W. clear W2 W3 W4 W5 W6 W7.
  cbn [items_bytes item_bytes] in W. set (slot := RET_HASH_FUNC A_ret_hash_table t) in *.
  set (need := le32 NEED_PATCH_32) in *. set (z := le32 0) in *. set (e := mkPatch _ _ _ _ _) in W.
  change (u8 0x68) with 0x68 in W. change (u8 0xc7) with 0xc7 in W. change (u8 5) with 5 in W.
  change (u8 0xe9) with 0xe9 in W. cbn [app] in W.
  apply (rc_cmp_piece (0x68 :: le32 n ++ 0xc7 :: 5 :: le32 slot) need (0xe9 :: z) [e] s s7).
  { unfold le32 in *. exact W. }
  { done. }
  { cbn. lia. }
  intros r s8 Lr W8. assert (E7 : code_ptr s7 = code_ptr s + 20) by lia. rewrite E7 in W8.
  assert (Ll : Z.of_nat (length (((0x68 :: le32 n ++ 0xc7 :: 5 :: le32 slot) ++
    le32 (code_ptr s + 20) ++ 0xe9 :: z) ++ r)) = 43) by (rewrite !length_app, Lr; cbn; lia).
  assert (Pe : pe_at e = code_ptr s + 16) by (cbn; lia).
  eapply (branch_cont ds s g i _ e s8 A W8); [lia|rewrite Ll; lia|].
  intros s1 _ X Si Nx. rewrite Ll in Nx. rewrite Pe in Si.
  apply (cf_call prog _ _ g _ i (ap_prog _ _ _ _ A) Hf); [|exact Si|exact Nx].
  apply (o_bytes_extends lo s8 s1 _ _ X). fold n. fold t. fold slot.
  pose proof (wrote_o_bytes lo [] (call_head (code_ptr s) n slot) (z ++ r) [e] s s8) as O.
  cbn [app length] in O. rewrite Z.add_0_r in O. apply O; [exact W8|apply A|apply A|].
  intros e' He. apply list_elem_of_singleton in He as ->. right. rewrite Pe. cbn. lia.
Qed.

(** Every handler. *)
Lemma runs_any {A} (m : M A) s : runs m s (fun _ _ => True) (fun _ => True).
Proof. unfold runs. now destruct (m s) as [[? ?]|]. Qed.

Lemma call_piece ds s g i f fe at_ : at_piece s g i ds -> handler_of i = Some f ->
  select i = Some (fe, at_) -> pEntry ds = Some fe -> emitfn ds = Emit f ->
  runs (call_emitfn ds) s (fun b s' => cont true g (code_ptr s) s' b) (fun _ => True).
Proof.
  intros A Hf Se Pe Em. unfold call_emitfn. rewrite Em. destruct (direct f) eqn:D.
  - destruct f; try discriminate D; (eapply runs_conseq;
      [first [now apply (emit_normal_piece ds s g i)|now apply (emit_jcond_piece ds s g i)
        |now apply (emit_other_jcond_piece ds s g i fe at_)|now apply (emit_jmp_piece ds s g i)
        |now apply (emit_call_disp_piece ds s g i)]| |done]); cbv beta; intros b s' [_ C]; exact C.
  - eapply runs_conseq; [apply runs_any| |done]. cbv beta. intros b s' _ s1 _ _ _.
    apply (cf_leave prog _ _ g _ i f (ap_prog _ _ _ _ A) Hf D).
Qed.

End Pieces.
