(* ===== verification/BlockLoop.v ===== *)
(** The loop of [gen_target_code] produces code that translates the guest's:
    each turn adds the code of one instruction, and what [cpu_gen_code] leaves
    when the branches are linked relates every new block to its guest code. *)

From S2P Require Import Prelude Memory Opcode DecodeTable Decode DecodeSpec DecodeProofs DecodeThm.
From S2P Require Import State TransBlock Emit Translate Frame Session Handlers Linking GenCode Translation.
From S2P Require Import Processor BlockCode.

Lemma runs_and {A} (m : M A) s (Q Q' : A -> st -> Prop) E :
  runs m s Q E -> runs m s Q' (fun _ => True) -> runs m s (fun a s' => Q a s' /\ Q' a s') E.
Proof. unfold runs. destruct (m s) as [[a s']|]; auto. Qed.

Section Loop.
Context `{Layout}.
Variables (s0 : st) (hi : Z) (dfuel : nat).
Hypothesis Henv : A_patch_num + 4 <= code_ptr s0 \/ hi <= A_patch_num.
Hypothesis Hnt : NOT_TRANS_YET < code_ptr s0 \/ hi < NOT_TRANS_YET.
Hypothesis Hnum : env_patch_num s0 < PATCH_MAX.
Hypothesis Hroom : code_ptr s0 + gen_room <= hi.
Hypothesis Hfuel : (100 < dfuel)%nat.
Let m0 := smem s0.
Let p0 := pc_ptr (cgc s0).
Hypothesis Hguest : guest_ok m0 p0 100 (code_ptr s0) hi.
Hypothesis Hblocks : Z.of_nat (nb_tbs s0) + MAX_INSNS + 1 < code_gen_max_blocks.
Hypothesis Hbuf : code_gen_ptr s0 - L_code < code_gen_buffer_max_size.

(** The program says which instructions the block runs through. *)
Variable prog : Z -> insn -> Prop.
Let lo := code_ptr s0.
Hypothesis Hprog : forall k p i f, Z.of_nat k <= MAX_INSNS -> reach m0 p0 k p -> insn_at m0 p i f -> prog p i.

Lemma session_low s : session s0 s -> low s.
Proof. intros J e He. destruct (j_patch s0 s J e He) as (_ & ? & _). lia. Qed.

(** One turn. *)
Lemma gen_insn_cont ds k s : at_loop s0 k s -> Z.of_nat k <= MAX_INSNS ->
  runs (gen_insn dfuel ds) s (fun r s' => cont prog lo true (pc_ptr (cgc s)) (code_ptr s) s' r.1) (fun _ => True).
Proof.
  intros A Hk. pose proof A as [J R Re PL CP NB]. unfold gen_room in Hroom.
  assert (Ch : code_ptr s + 256 <= hi) by lia. set (g := pc_ptr (cgc s)) in *.
  destruct (Hguest k _ Hk Re) as (i & f & Ia & Sz & Np & Rg).
  pose proof (Hprog k g i f Hk Re Ia) as Pg.
  pose proof (insn_at_session s0 hi dfuel Hfuel s g i f J ltac:(lia) Rg Ia) as [W B Lo Hi (fe & at_ & Se & Pf & U)].
  fold (len i) in Hi, Rg.
  destruct (decode_encode_aux dfuel (smem s) ds g i W B Lo) as (fe' & at' & ds' & S' & Dr & D);
    [fold (len i); lia|lia|].
  rewrite Se in S'. injection S' as <- <-.
  assert (T : decode_ret fe at_ = true).
  { unfold decode_ret. rewrite U, Pf. rewrite bool_decide_eq_false_2; [done|discriminate]. }
  rewrite T in Dr. clear T. destruct D as [De Di Sc _ [Em Pe] _ _ _ Im _ _]. fold (len i) in De.
  rewrite u32_small in De by (unfold len in *; lia).
  unfold gen_insn. repeat (run; cbv beta). eapply runs_intro; [unfold lift; fold g; now rewrite Dr|].
  cbn [snd]. run. apply runs_ABORT_IF; [done|]. intros _. run. apply runs_modify. run. apply runs_modify.
  fold g. rewrite De. replace (u32 (g + len i - g)) with (len i) by (rewrite u32_small by (unfold len in *; lia); lia).
  set (s1 := upd_cgc (set_pc_ptr _) _).
  assert (X1 : extends s s1) by now apply extends_same.
  assert (A1 : at_piece prog lo s1 g i ds').
  { assert (I1 : tb_inv s1) by (apply (tb_inv_mem s); try done; apply J).
    constructor; try done; [exact (j_cp s0 s J)|exact (session_low s J)| |rewrite Di; apply u32_small; unfold len, encode in *;
      rewrite !length_app in *; lia].
    cbn. fold g. pose proof (j_cp s0 s J). lia. }
  assert (Hf : handler_of i = Some f) by (unfold handler_of; now rewrite Se, U, Pf).
  run. eapply runs_conseq; [apply (call_piece prog lo ds' s1 g i f fe at_ A1 Hf Se); congruence| |done].
  cbv beta. intros b s2 C2. repeat (run; cbv beta). apply runs_mod_cur with (s0 := s0); [done|].
  intros s3 q3 c3 M3. run. cbn [fst]. change (code_ptr s1) with (code_ptr s) in C2.
  assert (V : same_view s2 s3).
  { split; [now apply map_eq|]. split; [done|]. split; [apply (q_patch _ _ _ q3)|].
    destruct (quiet_const _ _ _ q3) as (_ & _ & N3 & _). split; [done|]. intros j.
    now destruct (quiet_core _ _ _ j q3) as (? & _ & _ & ? & _). }
  destruct (quiet_const _ _ _ q3) as (_ & _ & _ & _ & _ & _ & P3 & _).
  intros s4 X4 Eb Kb. apply C2.
  - apply (extends_trans _ s3); [|done]. destruct V as (V1 & V2 & V3 & _). now apply extends_same.
  - intros E. destruct V as (V1 & V2 & V3 & V4 & V5). destruct (Eb E) as (E1 & E2 & E3 & E4 & E5).
    split; [congruence|]. split; [congruence|]. split; [congruence|]. split; [congruence|].
    intros j. destruct (V5 j), (E5 j). split; congruence.
  - rewrite <- P3, <- c3. exact Kb.
Qed.

(** The cut goes to the next instruction, and takes the code away from a block
    that has none of its own. *)
Lemma cut_code s : lo <= code_ptr s -> low s -> tb_inv s ->
  runs cut_translation s (fun _ s' => extends s s' /\ coded (fun _ _ => False) s s' /\
    (tc_ptr (tbs s (cur_tb s)) = code_ptr s -> tc_ptr (tbs s' (cur_tb s)) = NOT_TRANS_YET) /\
    open_code prog lo s' false (pc_ptr (cgc s)) (code_ptr s)) (fun _ => True).
Proof.
  intros Ll Lo I. unfold cut_translation. repeat (run; cbv beta).
  assert (G : forall s1 fa, wrote [] [] s s1 -> code_ptr s1 = code_ptr s -> cgc s1 = cgc s ->
    coded (fun _ _ => False) s s1 ->
    (tc_ptr (tbs s (cur_tb s)) = code_ptr s -> tc_ptr (tbs s1 (cur_tb s)) = NOT_TRANS_YET) ->
    runs (do* emit [E8 0xe9; E32 NEED_PATCH_32] in let* pc' := get_cgc pc_ptr in note_jump pc' fa) s1
      (fun _ s' => extends s s' /\ coded (fun _ _ => False) s s' /\
        (tc_ptr (tbs s (cur_tb s)) = code_ptr s -> tc_ptr (tbs s' (cur_tb s)) = NOT_TRANS_YET) /\
        open_code prog lo s' false (pc_ptr (cgc s)) (code_ptr s)) (fun _ => True)).
  { intros s1 fa W1 C1 G1 D1 T1. run. apply wrote_emit. intros s2 W2 C2 G2 E2 N2 _. repeat (run; cbv beta).
    apply wrote_note. intros s3 W3 C3 D3 T3. rewrite G2, G1 in *.
    pose proof (wrote_trans _ _ _ _ _ _ _ W1 (wrote_trans _ _ _ _ _ _ _ W2 W3)) as Wr. clear W1 W2 W3.
    cbn [items_bytes item_bytes app] in Wr. rewrite !app_nil_r in Wr. change (u8 0xe9) with 0xe9 in Wr.
    cbn [items_len item_len] in C2. rewrite C1 in C2. set (e := mkPatch _ _ _ _ _) in Wr.
    set (need := le32 NEED_PATCH_32) in *. assert (Pe : pe_at e = code_ptr s + 1) by (cbn; lia).
    split. { apply (wrote_extends _ _ _ _ Wr). intros e' He. apply list_elem_of_singleton in He as ->. lia. }
    split. { apply (coded_trans _ _ _ _ D1), (coded_trans _ _ s2); [|done].
             apply coded_core; [done|]. intros j. now rewrite E2. }
    split. { intros Eq. now rewrite T3, E2, T1. }
    apply cf_goto.
    - pose proof (wrote_o_bytes lo [] [0xe9] need [e] s s3) as O. cbn [app length] in O. rewrite Z.add_0_r in O.
      apply O; [exact Wr|done|done|]. intros e' He. apply list_elem_of_singleton in He as ->. right. rewrite Pe. cbn. lia.
    - left. exists e. split; [|done]. rewrite (wr_patch _ _ _ _ Wr). apply elem_of_app. right.
      now apply list_elem_of_singleton. }
  case_match eqn:Et.
  - apply runs_modify. set (s1 := upd_tb _ _ _).
    assert (Cs : forall j, j <> cur_tb s -> tbs s1 j = tbs s j)
      by (intros j D; exact (upd_tb_ne (cur_tb s) j _ _ ltac:(congruence))).
    assert (Cc : tbs s1 (cur_tb s) = set_tc_ptr NOT_TRANS_YET (tbs s (cur_tb s))) by exact (upd_tb_eq _ _ _).
    apply G; try done.
    + apply wrote_same; try done. intros _. apply (tb_inv_ext s); try done; intros j;
        (destruct (Nat.eq_dec j (cur_tb s)) as [->|D]; [rewrite Cc|rewrite Cs by done]); try done;
        intros Hj; now apply (inv_from s I).
    + intros j Hj Tj. left. destruct (Nat.eq_dec j (cur_tb s)) as [->|D]; [now rewrite Cc in Tj|].
      rewrite Cs by done. done.
    + intros _. now rewrite Cc.
  - run. apply G; try done; [apply wrote_refl|apply coded_refl|]. apply Z.eqb_neq in Et. done.
Qed.

(** What the loop leaves: the code from [s] on translates the guest's, and so
    does that of every block that got code. *)
Definition loop_code (s s1 : st) : Prop :=
  extends s s1 /\
  coded (fun _ t => open_code prog lo s1 true (pc t) (tc_ptr t)) s s1 /\
  open_code prog lo s1 true (pc_ptr (cgc s)) (code_ptr s).

Lemma gen_loop_code : forall fuel k ds s, at_loop s0 k s ->
  Z.of_nat k <= MAX_INSNS -> MAX_INSNS < Z.of_nat k + Z.of_nat fuel ->
  runs (gen_loop fuel dfuel (Z.of_nat k) ds) s (fun _ s1 => loop_code s s1) (fun _ => True).
Proof.
  induction fuel as [|fuel IH]; intros k ds s A Hk Hf; [lia|]. cbn [gen_loop]. run.
  eapply runs_conseq; [apply runs_and;
    [apply (gen_insn_runs s0 hi dfuel) with (k := k); try done; lia|apply (gen_insn_cont ds k s A Hk)]| |done].
  cbv beta. intros [b ds'] s1 [[D Re1] Cn]. cbn [fst] in *. pose proof D as [J1 X1 Y1 C1 P1 N1 R1].
  destruct b; cbn [negb] in *.
  2:{ run. split; [done|]. split.
      - intros j Hj Tj. destruct (Y1 j Hj Tj) as [?|[? _]]; [auto|done].
      - apply Cn; [apply extends_refl|done|done]. }
  specialize (Re1 eq_refl). repeat (run; cbv beta).
  (* The rest of the loop, from [s1]. *)
  assert (Rest : forall s2, extends s1 s2 -> coded (fun _ t => open_code prog lo s2 true (pc t) (tc_ptr t)) s1 s2 ->
    open_code prog lo s2 false (pc_ptr (cgc s1)) (code_ptr s1) ->
    ((cur_tb s1 < nb_tbs s2)%nat -> tc_ptr (tbs s2 (cur_tb s1)) = code_ptr s1 ->
     tc_ptr (tbs s2 (cur_tb s1)) <> NOT_TRANS_YET -> open_code prog lo s2 true (pc_ptr (cgc s1)) (code_ptr s1)) ->
    loop_code s s2).
  { intros s2 X2 Y2 O2 F2. split; [now apply (extends_trans s s1)|]. split.
    - intros j Hj Tj. destruct (Y2 j Hj Tj) as [(B1 & B2 & B3)|B1]; [|auto]. rewrite B2 in Tj.
      destruct (Y1 j B1 Tj) as [(A1 & A2 & A3)|(_ & S1 & S2 & S3)].
      + left. split; [done|]. split; congruence.
      + right. rewrite B2, B3, S2, S3. subst j. apply F2; congruence.
    - apply Cn; [done|done|]. now intros _. }
  destruct (_ || _ || _) eqn:Ec.
  - eapply runs_conseq; [apply (cut_code s1 (j_cp s0 s1 J1) (session_low s1 J1)), J1| |done]. cbv beta.
    intros _ s2 (X2 & Y2 & Z2 & O2). apply Rest; [done| |done|].
    + intros j Hj Tj. destruct (Y2 j Hj Tj) as [?|[]]. auto.
    + intros Lt E1 E2. exfalso. destruct (Y2 _ Lt E2) as [(_ & E3 & _)|[]]. apply E2, Z2. congruence.
  - unfold patch_count, PATCH_ARRAY_SIZE in Ec.
    replace (Z.of_nat k + 1) with (Z.of_nat (S k)) by lia.
    assert (A1 : at_loop s0 (S k) s1) by (apply (at_loop_next s0) with (k := k) (s := s) (dfuel := dfuel); try done; lia).
    eapply runs_conseq; [apply (IH (S k) ds' s1 A1); lia| |done]. cbv beta.
    intros _ s2 (X2 & Y2 & O2). apply Rest; [done|done|now apply cf_weaken|done].
Qed.

End Loop.

(** The words of two open branches are the same or apart. *)
Lemma sorted_apart l : StronglySorted before l -> forall e e', e ∈ l -> e' ∈ l ->
  e = e' \/ pe_at e + 4 <= pe_at e' \/ pe_at e' + 4 <= pe_at e.
Proof.
  induction 1 as [|a l S IH F]; intros e e' He He'; [now apply not_elem_of_nil in He|].
  rewrite Forall_forall in F. unfold before in F.
  apply elem_of_cons in He, He'. destruct He as [->|He], He' as [->|He']; auto.
Qed.

(** ** Linked code *)

Section Closed.
Context `{Layout}.
(** The guest's program, and how far a branch may lie from the start of its
    block. *)
Variables (prog : Z -> insn -> Prop) (span : Z).

(** Branch [n] of block [tb] is the word at [a], or it goes to the block's own
    program counter [g] and is never linked. *)
Definition recalled (s : st) (a g : Z) (tb : nat) (n : Z) : Prop :=
  pc (tbs s tb) = g \/
  tc_ptr (tbs s tb) <> NOT_TRANS_YET /\ tc_ptr (tbs s tb) <= a < tc_ptr (tbs s tb) + span /\
  tb_jmp_offset (tbs s tb) n = u16 (a - tc_ptr (tbs s tb)).

(** The displacement at [a] leads to a stub that asks the dispatcher for [g], as
    branch [n] of block [tb]. *)
Definition stub_of (s : st) (a g : Z) (tb : nat) (n : Z) : Prop := exists x,
  L_sieve <= x /\ x + stub_len <= sieve_code_ptr s /\ rel_dest (smem s) a = u32 x /\
  at_bytes (smem s) x (items_bytes x (stub_items (tb_ret_addr (cgc s)) tb n g)) /\
  0 <= n < PATCH_MAX /\ (tb < nb_tbs s)%nat /\ recalled s a g tb n.
Definition to_stub (s : st) (a g : Z) : Prop := exists tb n, stub_of s a g tb n.

(** [S] are the words the dispatcher may link; code lies outside them. *)
Definition apart (S : Z -> Prop) (a n : Z) : Prop := forall x, S x -> x + 4 <= a \/ a + n <= x.

Definition c_bytes (S : Z -> Prop) (s : st) (a : Z) (l : list Z) : Prop :=
  at_bytes (smem s) a l /\ L_code <= a /\ a + Z.of_nat (length l) <= code_gen_ptr s /\
  apart S a (Z.of_nat (length l)).

Definition c_site (S : Z -> Prop) (s : st) (a g : Z) : Prop :=
  L_code <= a /\ a + 4 <= code_gen_ptr s /\
  (S a /\ (to_code s a g \/ to_stub s a g) \/ apart S a 4 /\ to_code s a g).

Definition closed_code (S : Z -> Prop) (s : st) : bool -> Z -> Z -> Prop :=
  code_for prog (c_bytes S s) (c_site S s).

(** Every block's code translates the program at the block's address. *)
Record all_code (S : Z -> Prop) (s : st) : Prop := {
  ac_sites : forall x, S x -> L_code <= x /\ x + 4 <= code_gen_ptr s;
  ac_apart : forall x y, S x -> S y -> x = y \/ x + 4 <= y \/ y + 4 <= x;
  ac_code : forall i, (i < nb_tbs s)%nat -> tc_ptr (tbs s i) <> NOT_TRANS_YET ->
    closed_code S s true (pc (tbs s i)) (tc_ptr (tbs s i)) }.

Lemma to_code_kept s s' a g : to_code s a g ->
  (forall x, a <= x < a + 4 -> smem s' !! x = smem s !! x) -> (nb_tbs s <= nb_tbs s')%nat ->
  (forall d, (d < nb_tbs s)%nat -> tc_ptr (tbs s d) <> NOT_TRANS_YET ->
     pc (tbs s' d) = pc (tbs s d) /\ tc_ptr (tbs s' d) = tc_ptr (tbs s d)) -> to_code s' a g.
Proof.
  intros (d & D1 & D2 & D3 & D4) M N T. destruct (T d D1 D3) as [T1 T2].
  exists d. rewrite T1, T2, <- D4. split; [lia|]. split; [done|]. split; [done|]. now apply rel_dest_ext.
Qed.

Lemma recalled_kept s s' a g tb n : recalled s a g tb n -> pc (tbs s' tb) = pc (tbs s tb) ->
  (tc_ptr (tbs s tb) <> NOT_TRANS_YET -> kept (tbs s tb) (tbs s' tb)) -> recalled s' a g tb n.
Proof.
  intros [P|(T1 & T2 & T3)] E K; [left; congruence|right].
  destruct (kept_fields _ _ (K T1)) as (K1 & _ & K3 & _). now rewrite K1, K3.
Qed.

Lemma stub_of_kept s s' a g tb n : stub_of s a g tb n ->
  (forall x, a <= x < a + 4 -> smem s' !! x = smem s !! x) ->
  (forall x, L_sieve <= x < sieve_code_ptr s -> smem s' !! x = smem s !! x) ->
  sieve_code_ptr s <= sieve_code_ptr s' -> tb_ret_addr (cgc s') = tb_ret_addr (cgc s) ->
  (nb_tbs s <= nb_tbs s')%nat ->
  (forall d, (d < nb_tbs s)%nat -> pc (tbs s' d) = pc (tbs s d) /\
     (tc_ptr (tbs s d) <> NOT_TRANS_YET -> kept (tbs s d) (tbs s' d))) -> stub_of s' a g tb n.
Proof.
  intros (x & X1 & X2 & X3 & X4 & X5 & X6 & X7) M Ms V R N K. exists x.
  split; [done|]. split; [lia|]. split; [rewrite <- X3; now apply rel_dest_ext|].
  destruct (K tb X6) as [K1 K2].
  split; [|split; [done|split; [lia|now apply (recalled_kept s)]]]. rewrite R. refine (at_bytes_ext _ _ _ _ _ X4).
  intros y Hy. rewrite items_bytes_length, stub_items_len in Hy. apply Ms. unfold stub_len in *. lia.
Qed.

(** Old code stays linked code. *)
Lemma closed_kept S S' s tb s' b g h : layout_ok -> trans_inv s -> translated s tb s' ->
  code_gen_ptr s' <= L_code + DEFAULT_CODE_GEN_BUFFER_SIZE ->
  sieve_code_ptr s' <= L_sieve + DEFAULT_SIEVE_BUFFER_SIZE ->
  tc_ptr (tbs s tb) = NOT_TRANS_YET ->
  (forall x, S x -> S' x) -> (forall x, S' x -> S x \/ code_gen_ptr s <= x) ->
  closed_code S s b g h -> closed_code S' s' b g h.
Proof.
  intros L I T Cb Sb Nt S1 S2. destruct T as [_ _ Tc Ts Tm Tn To _ [_ Tr] _ _ _].
  destruct L as [_ _ Lc _ _ _]. pose proof (ti_code s I). pose proof (ti_sieve s I).
  assert (Mc : forall x, L_code <= x < code_gen_ptr s -> smem s' !! x = smem s !! x) by (intros x Hx; apply Tm; lia).
  assert (Ms : forall x, L_sieve <= x < sieve_code_ptr s -> smem s' !! x = smem s !! x) by (intros x Hx; apply Tm; lia).
  assert (Ap : forall a n, a + n <= code_gen_ptr s -> apart S a n -> apart S' a n).
  { intros a n Hn A x Sx. destruct (S2 x Sx) as [Sx'|?]; [now apply A|lia]. }
  assert (Tk : forall d, (d < nb_tbs s)%nat -> tc_ptr (tbs s d) <> NOT_TRANS_YET ->
     pc (tbs s' d) = pc (tbs s d) /\ tc_ptr (tbs s' d) = tc_ptr (tbs s d)).
  { intros d Hd Td. destruct (To d Hd) as (T1 & _ & T2). split; [done|].
    apply (kept_fields _ _ (T2 Td ltac:(congruence))). }
  apply code_for_mono; [done|..].
  - intros a l (B & Lo & Hi & A). split; [|split; [done|split; [lia|now apply Ap]]].
    apply (at_bytes_ext (smem s)); [|done]. intros x Hx. apply Mc. lia.
  - intros a t (Lo & Hi & K). split; [done|]. split; [lia|].
    assert (Ma : forall x, a <= x < a + 4 -> smem s' !! x = smem s !! x) by (intros x Hx; apply Mc; lia).
    destruct K as [[Sa K]|[A K]]; [left; split; [auto|]|right; split; [now apply Ap|]].
    + destruct K as [K|(d & n & K)]; [left; now apply (to_code_kept s)|right; exists d, n; apply (stub_of_kept s); try done; [lia|]].
      intros j Hj. destruct (To j Hj) as (T1 & _ & T2). split; [done|]. intros Tj. apply T2; [done|congruence].
    + now apply (to_code_kept s).
Qed.

(** ** A translation *)

Section New.
Variables (S : Z -> Prop) (s : st) (tb : nat).
Hypothesis L : layout_ok.
Hypothesis I : trans_inv s.
Hypothesis R : room 0 s.
Hypothesis Lt : (tb < nb_tbs s)%nat.
Hypothesis Nt : tc_ptr (tbs s tb) = NOT_TRANS_YET.
Hypothesis A : all_code S s.
(** [span] is enough for the instructions of the block. *)
Hypothesis Hspan : forall k p, Z.of_nat k <= MAX_INSNS + 1 -> reach (smem s) (pc (tbs s tb)) k p ->
  256 * (Z.of_nat k + 1) <= span.
Let s0 := enter_block tb s.

(** The words of the branches of this translation join the others. *)
Definition with_patches (s' : st) (x : Z) : Prop := S x \/ exists e, e ∈ patch_array s' /\ pe_at e = x.

Section Linked.
Variables s1 s2 s3 : st.
Hypothesis Lp : looped s0 s1.
Hypothesis Eq : set_cgc (cgc s1) s2 = s1.
Hypothesis Er : tb_ret_addr (cgc s2) = tb_ret_addr (cgc s1).
Hypothesis Pt : patched_all (patch_array s2) s2 s3.
Let s' := leave_block tb s3.
Hypothesis T : translated s tb s'.

Lemma new_tbs i : (i < nb_tbs s1)%nat ->
  pc (tbs s' i) = pc (tbs s1 i) /\ tc_ptr (tbs s' i) = tc_ptr (tbs s1 i).
Proof.
  intros Hi. destruct (leave_pre s tb s1 s2 Lp Eq) as (_ & _ & F3 & F4 & _).
  destruct (leave_tbs tb s3 i) as (T1 & _ & T3 & _).
  destruct (pa_old _ _ _ Pt i) as (O1 & _ & O3 & _); [now rewrite F3|].
  unfold s'. rewrite T1, T3, O1, O3. now rewrite F4.
Qed.

Lemma new_mem x : code_gen_ptr s <= x < code_ptr s1 ->
  (forall e, e ∈ patch_array s1 -> off_site x e) -> smem s' !! x = smem s1 !! x.
Proof.
  intros Hx O. destruct (leave_pre s tb s1 s2 Lp Eq) as (F1 & F2 & _ & _ & F5 & _).
  change (smem s') with (smem s3). rewrite <- F5. apply (pa_mem _ _ _ Pt); [now rewrite F1|].
  pose proof (leave_sieve s tb Lt s1 s2 s3 Lp Eq Pt). destruct (leave_code s tb Lt s1 s2 s3 Lp Eq Pt) as [_ B].
  pose proof (code_bounds s tb I R Lt). pose proof (ti_sieve s I). pose proof (rm_sieve 0 s R).
  destruct L as [_ _ Lc _ _ _]. lia.
Qed.

Lemma new_patches : patch_array s' = patch_array s1 /\ code_gen_ptr s' = code_ptr s1.
Proof.
  destruct (leave_pre s tb s1 s2 Lp Eq) as (F1 & _). destruct (leave_code s tb Lt s1 s2 s3 Lp Eq Pt) as [Q _].
  destruct (pa_const _ _ _ Pt) as (_ & _ & Q3 & _). split; [|exact Q].
  change (patch_array s') with (patch_array s3). congruence.
Qed.

Lemma span_enough : code_ptr s1 <= code_gen_ptr s + span.
Proof.
  destruct (lp_reach _ _ Lp) as (k & p & Hk & Re & Cp).
  destruct (enter_fields s tb) as (E1 & _ & _ & _ & _ & _ & E7 & _). unfold s0 in Re, Cp.
  rewrite E1, E7 in Re. rewrite (enter_code s tb) in Cp. specialize (Hspan k p Hk Re). lia.
Qed.

(** A stub's block remembers its branch. *)
Lemma linked_recalled e n : e ∈ patch_array s1 ->
  tb_jmp_offset (tbs s' (pe_tb e)) n = u16 (pe_at e - tc_ptr (tbs s' (pe_tb e))) ->
  recalled s' (pe_at e) (pe_to e) (pe_tb e) n.
Proof.
  intros He O. destruct (j_patch _ _ (lp_session _ _ Lp) e He) as (_ & A2 & Le & _ & Pl).
  destruct (new_tbs _ Le) as [E1 E2]. unfold recalled. rewrite E1, E2 in *. unfold s0 in Pl. rewrite (enter_code s tb) in Pl.
  pose proof span_enough. pose proof (code_bounds s tb I R Lt). destruct (leave_code s tb Lt s1 s2 s3 Lp Eq Pt) as [_ B].
  destruct Pl as [Pl|[_ Pl]]; [right|now left]. split; [|split; [lia|done]].
  destruct L as [_ _ _ _ _ N]. lia.
Qed.

(** The code of the loop, when the branches are linked. *)
Lemma closed_new b g h : open_code prog (code_gen_ptr s) s1 b g h ->
  closed_code (with_patches s') s' b g h.
Proof.
  destruct new_patches as [Ep Ec]. pose proof (ti_code s I) as Lc. pose proof (ac_sites _ _ A) as As.
  destruct (leave_pre s tb s1 s2 Lp Eq) as (F1 & F2 & F3 & _). pose proof (pa_nb _ _ _ Pt) as Nb.
  assert (Ap : forall a n, code_gen_ptr s <= a -> (forall e, e ∈ patch_array s1 -> pe_at e + 4 <= a \/ a + n <= pe_at e) ->
    apart (with_patches s') a n).
  { intros a n Ha O x [Sx|(e & He & <-)]; [specialize (As x Sx); lia|]. apply O. now rewrite <- Ep. }
  apply code_for_mono; [done|..].
  - intros a l (B & Lo & Hi & O). split; [|split; [lia|split; [lia|now apply Ap]]].
    apply (at_bytes_ext (smem s1)); [|done]. intros x Hx. apply new_mem; [lia|]. intros e He.
    specialize (O e He). unfold off_site. lia.
  - intros a g' [(e & He & <- & <-)|(Lo & Hi & O & C)].
    + destruct (tr_linked _ _ _ T e) as (B1 & B2 & Ln); [now rewrite Ep|].
      split; [lia|]. split; [lia|]. left. split; [right; exists e; now rewrite Ep|].
      destruct Ln as [d D1 D2 D3 D4|a n N1 N2 N3 N4 N5 N6]; [left; now exists d|right].
      exists (pe_tb e), n, a. split; [pose proof (ti_sieve s I); lia|]. do 3 (split; [done|]). split; [done|].
      split; [|now apply linked_recalled].
      destruct (j_patch _ _ (lp_session _ _ Lp) e He) as (_ & _ & Le & _).
      change (nb_tbs s') with (nb_tbs s3). lia.
    + split; [lia|]. split; [lia|]. right. split; [apply Ap; [done|]; intros e He; destruct (O e He); auto|].
      apply (to_code_kept s1); [done|..].
      * intros x Hx. apply new_mem; [lia|]. intros e He. destruct (O e He); unfold off_site; lia.
      * change (nb_tbs s') with (nb_tbs s3). lia.
      * intros d Hd _. now apply new_tbs.
Qed.

Lemma all_code_new : loop_code s0 prog s0 s1 -> all_code (with_patches s') s'.
Proof.
  intros (_ & Cd & St). destruct new_patches as [Ep Ec].
  destruct (enter_fields s tb) as (_ & _ & _ & E4 & _ & _ & E7 & _). unfold s0 in Cd, St.
  rewrite E7, (enter_code s tb) in St. rewrite (enter_code s tb) in Cd.
  destruct (leave_pre s tb s1 s2 Lp Eq) as (F1 & F2 & F3 & _).
  pose proof (ti_code s I) as Lc. pose proof (rm_code 0 s R) as Rc. pose proof (rm_sieve 0 s R) as Rs.
  assert (Si : forall x, with_patches s' x -> S x \/ code_gen_ptr s <= x).
  { intros x [?|(e & He & <-)]; [auto|right]. now destruct (tr_linked _ _ _ T e He). }
  constructor.
  - intros x [Sx|(e & He & <-)].
    + pose proof (ac_sites _ _ A x Sx). pose proof (tr_code _ _ _ T). lia.
    + destruct (tr_linked _ _ _ T e He) as (B1 & B2 & _). lia.
  - intros x y [Sx|(e & He & <-)] [Sy|(e' & He' & <-)].
    + now apply (ac_apart _ _ A).
    + pose proof (ac_sites _ _ A x Sx). destruct (tr_linked _ _ _ T e' He') as (B1 & _). lia.
    + pose proof (ac_sites _ _ A y Sy). destruct (tr_linked _ _ _ T e He) as (B1 & _). lia.
    + rewrite Ep in He, He'. destruct (sorted_apart _ (j_sorted _ _ (lp_session _ _ Lp)) e e' He He'); [subst|]; auto.
  - intros i Hi Ti. destruct (Nat.lt_ge_cases i (nb_tbs s1)) as [Lt1|Ge].
    2:{ exfalso. apply Ti. destruct (leave_tbs tb s3 i) as (_ & _ & T3 & _). unfold s'. rewrite T3. apply (pa_new _ _ _ Pt).
        change (nb_tbs s') with (nb_tbs s3) in Hi. lia. }
    destruct (new_tbs i Lt1) as [P1 P2]. rewrite P1, P2 in *.
    destruct (Cd i Lt1 Ti) as [(B1 & B2 & B3)|B]; [|now apply closed_new].
    rewrite B2, B3 in *. rewrite E4 in B1. destruct (Nat.eq_dec i tb) as [->|D].
    + unfold s0 in *. rewrite (enter_tb s tb). cbn. now apply closed_new.
    + unfold s0 in *. rewrite (enter_ne s tb i D) in *.
      apply (closed_kept S _ s tb); try done.
      * pose proof (tr_code _ _ _ T). lia.
      * pose proof (tr_sieve _ _ _ T). lia.
      * now left.
      * now apply (ac_code _ _ A).
Qed.
End Linked.

Variable dfuel : nat.
Hypothesis Hf : (100 < dfuel)%nat.
Hypothesis Hg : guest_ok (smem s) (pc (tbs s tb)) 100 (code_gen_ptr s) (code_gen_ptr s + gen_room).
(** The program has the instructions the block runs through. *)
Hypothesis Hp : forall k p i f, Z.of_nat k <= MAX_INSNS -> reach (smem s) (pc (tbs s tb)) k p ->
  insn_at (smem s) p i f -> prog p i.

Lemma gen_code_for ds : runs (cpu_gen_code dfuel ds tb) s
  (fun _ s' => translated s tb s' /\ all_code (with_patches s') s') (fun _ => False).
Proof.
  eapply runs_conseq; [apply block_runs_through with (K := loop_code s0 prog s0); try done| |done].
  - apply runs_and; [now apply enter_loop_runs|].
    destruct (enter_fields s tb) as (E1 & E2 & E3 & E4 & E5 & E6 & E7 & E8). pose proof (enter_code s tb) as Ec.
    pose proof (code_bounds s tb I R Lt) as Cb. pose proof (rm_blocks 0 s R) as Rb.
    pose proof L as [L1 _ _ _ _ L4]. unfold env_size, gen_room, MAX_INSNS in *.
    apply (gen_loop_code s0 (code_gen_ptr s + gen_room) dfuel) with (k := 0%nat);
      unfold s0; rewrite ?Ec, ?E1, ?E3, ?E4, ?E7; unfold A_patch_num, gen_room, MAX_INSNS; try done; try lia.
    + unfold env_patch_num. rewrite E1. apply I.
    + unfold code_gen_buffer_max_size, TCG_MAX_OP_SIZE, OPC_MAX_SIZE. lia.
    + now apply enter_loop.
  - cbv beta. intros _ s' (T & s1 & s2 & s3 & Lp & Lc & Eq & Pt & ->). split; [done|].
    now apply (all_code_new s1 s2 s3).
Qed.

End New.
End Closed.

(** A block has at most [MAX_INSNS + 1] instructions. *)
Definition block_span : Z := 256 * (MAX_INSNS + 2).

(** The instructions that lie in a memory. *)
Definition insns (m : mem) (g : Z) (i : insn) : Prop := exists f, insn_at m g i f.

Lemma insns_det m g i j : insns m g i -> insns m g j -> i = j.
Proof.
  intros [f [Wi Bi _ _ _]] [f' [Wj Bj _ _ _]]. now apply (encode_unique_aux m g).
Qed.

(** ** Theorem *)

(** C3: every block's code is a translation of the program at its address: the
    instructions are copied, branches become branches to the translation of
    their targets or to stubs that name them, a call pushes the guest's return
    address and fills the slot of the return cache.  [cpu_gen_code] adds a block
    and keeps this for the others. *)
Theorem translate_block_code `{Layout} prog S dfuel ds s tb :
  layout_ok -> trans_inv s -> room 0 s -> (tb < nb_tbs s)%nat -> (100 < dfuel)%nat ->
  tc_ptr (tbs s tb) = NOT_TRANS_YET -> all_code prog block_span S s ->
  guest_ok (smem s) (pc (tbs s tb)) 100 (code_gen_ptr s) (code_gen_ptr s + gen_room) ->
  (forall k p i f, Z.of_nat k <= MAX_INSNS -> reach (smem s) (pc (tbs s tb)) k p ->
     insn_at (smem s) p i f -> prog p i) ->
  exists s', cpu_gen_code dfuel ds tb s = Ok (tt, s') /\ all_code prog block_span (with_patches S s') s' /\
    closed_code prog block_span (with_patches S s') s' true (pc (tbs s tb)) (code_gen_ptr s).
Proof.
  intros L I R Lt F Nt A G Hp.
  destruct (runs_done _ _ _ (gen_code_for prog block_span S s tb L I R Lt Nt A ltac:(unfold block_span; lia) dfuel F G Hp ds)) as ([] & s' & E & T & A').
  exists s'. split; [done|]. split; [done|].
  pose proof (ac_code _ _ _ _ A' tb) as C. rewrite (tr_tc _ _ _ T) in C.
  destruct (tr_old _ _ _ T tb Lt) as (Ep & _). rewrite Ep in C. apply C.
  - pose proof (tr_nb _ _ _ T). lia.
  - destruct L as [_ _ _ _ _ N]. pose proof (ti_code s I). pose proof (rm_code 0 s R). unfold gen_room, MAX_INSNS in *. lia.
Qed.

(** Nothing is translated yet. *)
Lemma demo_no_code prog span : @all_code demo_layout prog span (fun _ => False) demo_one.
Proof. constructor; [done|done|]. intros [|i] Hi T; [now destruct T|cbn in Hi; lia]. Qed.

Lemma translate_block_code_witness :
  exists s', @cpu_gen_code demo_layout 101 ds_zero 0 demo_one = Ok (tt, s') /\
    @closed_code demo_layout (insns demo_mem) block_span (with_patches (fun _ => False) s') s' true 0x8048000 0x10000000.
Proof.
  destruct (@translate_block_code demo_layout (insns demo_mem) (fun _ => False) 101 ds_zero demo_one 0
    demo_layout_ok demo_one_inv (@room_le demo_layout 1 demo_one ltac:(lia) demo_one_room)) as (s' & R & _ & C).
  - cbn. lia.
  - lia.
  - reflexivity.
  - apply demo_no_code.
  - exact demo_one_guest.
  - intros k p i f _ _ Ia. now exists f.
  - exists s'. split; [exact R|exact C].
Defined.
