(* ===== verification/BlockSim.v ===== *)
(** Translated code runs like the guest's: a simulation between the processor
    in guest code and the processor in the code buffer.  The guest's program
    runs until a branch leaves for the dispatcher through a stub. *)

From S2P Require Import Prelude Memory Opcode DecodeTable Decode DecodeSpec DecodeProofs DecodeThm.
From S2P Require Import State TransBlock Emit Translate Frame Session Handlers Linking GenCode Translation.
From S2P Require Import Machine Processor BlockCode BlockLoop.
From Stdlib Require Import FunctionalExtensionality.
From stdpp Require Import relations.
#[local] Open Scope Z_scope.

(** ** The instructions of the templates *)

(** All of [wf_insn] but the ranges of the bytes. *)
Definition shape_p (i : insn) : bool :=
  forallb is_prefix (i_prefixes i) &&
  (i_two i || negb (is_prefix (i_op i) || (i_op i =? 0x0f))) &&
  eqb (wants_modrm i) (match i_modrm i with Some _ => true | None => false end) &&
  match select i with
  | None => false
  | Some (_, at_) =>
      let mb := default 0 (i_modrm i) in
      eqb (wants_sib (addr32 i) at_ mb)
          (match i_sib i with Some _ => true | None => false end) &&
      (length (i_disp i) =? disp_len (addr32 i) at_ mb (i_sib i))%nat &&
      (length (i_iw i) =? (if hasb at_ DF_Iw then 2 else 0))%nat &&
      (length (i_ib i) =? (if hasb at_ DF_Ib then 1 else 0))%nat &&
      (length (i_iv i) =? iv_len (data32 i) (addr32 i) at_)%nat &&
      (length (i_sel i) =? (if hasb at_ DF_Ap then 2 else 0))%nat
  end.

Lemma shape_p_wf i m a : shape_p i = true -> at_bytes m a (encode i) -> wf_insn i = true.
Proof.
  intros S B. unfold wf_insn. rewrite (at_bytes_is_byte _ _ _ B). unfold shape_p in S.
  rewrite !andb_true_iff in S. destruct S as [[[S1 S2] S3] S4]. now rewrite S1, S2, S3, S4.
Qed.

(** The segment prefixes. *)
Definition segs : list Z := [0x26; 0x2e; 0x36; 0x3e; 0x64; 0x65].

Lemma seg_prefix p : is_prefix p = true -> prefix_flag p = DSFL_GROUP2_PREFIX -> In p segs.
Proof.
  unfold is_prefix. cbn [existsb]. rewrite !orb_true_iff. intros Q F.
  repeat (destruct Q as [Q|Q]; [apply Z.eqb_eq in Q as ->; first [discriminate F|cbn; tauto]|]). done.
Qed.

Lemma seg_override_in ps : forall f g, forallb is_prefix ps = true ->
  (hasb f DSFL_GROUP2_PREFIX = true -> In g segs) ->
  hasb (prefix_flags ps f) DSFL_GROUP2_PREFIX = true -> In (seg_override ps g) segs.
Proof.
  unfold prefix_flags, seg_override. induction ps as [|p ps IH]; intros f g Hp Hg; [exact Hg|].
  cbn [forallb fold_left] in *. apply andb_true_iff in Hp as [Hp Hps]. apply IH; [done|]. intros B.
  destruct (prefix_flag p =? DSFL_GROUP2_PREFIX) eqn:E.
  - apply Z.eqb_eq in E. now apply seg_prefix.
  - apply Hg. apply Z.eqb_neq in E. clear -B E.
    assert (D : prefix_flag p = DSFL_GROUP1_PREFIX \/ prefix_flag p = DSFL_GROUP3_PREFIX \/
      prefix_flag p = DSFL_GROUP4_PREFIX).
    { unfold prefix_flag in *. repeat case_match; auto. done. }
    unfold hasb in *. rewrite Z.land_lor_distr_l in B.
    destruct D as [D|[D|D]]; rewrite D in B; cbn in B; now rewrite Z.lor_0_r in B.
Qed.

Lemma seg_bytes_cases i : wf_insn i = true -> seg_bytes i = [] \/ exists p, seg_bytes i = [p] /\ In p segs.
Proof.
  intros W. unfold wf_insn in W. rewrite !andb_true_iff in W. destruct W as [[[[W _] _] _] _].
  unfold seg_bytes. destruct (hasb _ _) eqn:E; [right|now left].
  pose proof (seg_override_in _ 0 0 W ltac:(done) E) as P.
  eexists. split; [|exact P]. f_equal. apply u8_small. cbn in P. lia.
Qed.

Section Templates.
Context `{Processor}.
Variables (m : mem) (r : Z -> Z) (f : Z).

Definition i_jcc (p : list Z) (k d : Z) : insn := Insn p true k None None [] [] [] (le32 d) [].
Definition i_cnt (p : list Z) (op : Z) : insn := Insn p false op None None [] [] [2] [] [].

Lemma m_jcc a p k : p = [] \/ (exists b, p = [b] /\ In b segs) -> 0x80 <= k < 0x90 ->
  at_bytes m a (p ++ [0x0f; k]) -> let n := a + Z.of_nat (length p) + 2 in
  mstep (mkCpu r a f m) (mkCpu r (if cond (Z.land k 0xf) f then rel_dest m n else u32 (n + 4)) f m).
Proof.
  intros Hp Hk B n. set (d := ld32 m n).
  assert (B' : at_bytes m a (encode (i_jcc p k d))).
  { unfold encode, i_jcc, opcode_bytes, opt_list.
    cbn [i_prefixes i_two i_op i_modrm i_sib i_disp i_iw i_ib i_iv i_sel app]. rewrite !app_nil_r. change (p ++ 0x0f :: k :: ?x) with (p ++ [0x0f; k] ++ x). rewrite app_assoc.
    apply at_bytes_app. split; [done|]. rewrite length_app.
    replace (a + Z.of_nat (length p + length [0x0f; k])) with n by (unfold n; cbn [length]; lia).
    apply at_bytes_ld32. }
  assert (Ks : kind_of (i_jcc p k d) = Jcc /\ data32 (i_jcc p k d) = true /\ shape_p (i_jcc p k d) = true).
  { assert (K : exists j, (j < 16)%nat /\ k = 0x80 + Z.of_nat j) by (exists (Z.to_nat (k - 0x80)); lia).
    destruct K as (j & Hj & ->). clear B B' Hk. subst n. clearbody d.
    destruct Hp as [->|(b & -> & Hb)]; [|cbn in Hb; decompose [or] Hb; try done; subst b];
      do 16 (destruct j as [|j]; [vm_compute; auto|]); lia. }
  destruct Ks as (K1 & K2 & K3).
  assert (Le : len (i_jcc p k d) = Z.of_nat (length p) + 6).
  { unfold len, encode, i_jcc. cbn. rewrite length_app. cbn. lia. }
  apply (mstep_insn (i_jcc p k d)); [now apply (shape_p_wf _ m a)|exact B'|].
  unfold run_insn, jump_ip, branch_target, next_ip. rewrite K1, K2, Le. cbn [ip flags i_jcc i_op].
  unfold set_ip. cbn [regs flags cmem]. do 2 f_equal. destruct (cond _ f); [|f_equal; unfold n; lia].
  change (rel_val _) with (le_val (le32 d)). rewrite le_val_le32, u32_add_l, u32_add_r. unfold rel_dest. fold d.
  f_equal. unfold n. lia.
Qed.

Lemma m_cnt a p op : p = [] \/ (exists b, p = [b] /\ In b segs) -> Z.land op 0xfc = 0xe0 -> 0 <= op < 256 ->
  at_bytes m a (p ++ [op; 2]) -> let n := a + Z.of_nat (length p) + 2 in
  let c := mkCpu r a f m in
  mstep c (mkCpu (if op =? 0xe3 then r else <[R_ECX := u32 (r R_ECX - 1)]> r)
    (if loop_taken (i_cnt p op) c then u32 (n + 2) else u32 n) f m).
Proof.
  intros Hp Ho Hr B n c.
  assert (B' : at_bytes m a (encode (i_cnt p op))).
  { exact B. }
  assert (Os : op = 0xe0 \/ op = 0xe1 \/ op = 0xe2 \/ op = 0xe3).
  { assert (exists j, (j < 256)%nat /\ op = Z.of_nat j) as (j & Hj & ->) by (exists (Z.to_nat op); lia).
    clear -Ho Hj. do 256 (destruct j as [|j]; [first [discriminate Ho|cbn; lia]|]). lia. }
  assert (Ks : kind_of (i_cnt p op) = Loop /\ data32 (i_cnt p op) = true /\ addr32 (i_cnt p op) = true /\
    shape_p (i_cnt p op) = true).
  { clear B B' Ho Hr. destruct Hp as [->|(b & -> & Hb)]; [|cbn in Hb; decompose [or] Hb; try done; subst b];
      decompose [or] Os; subst op; vm_compute; auto. }
  destruct Ks as (K1 & K2 & K4 & K3).
  assert (Le : len (i_cnt p op) = Z.of_nat (length p) + 2).
  { unfold len, encode, i_cnt. cbn. rewrite length_app. cbn. lia. }
  apply (mstep_insn (i_cnt p op)); [now apply (shape_p_wf _ m a)|exact B'|].
  unfold run_insn, jump_ip, branch_target, next_ip. rewrite K1, K2, K4, Le. cbn [ip c].
  change (rel_val _) with 2. cbn [i_op i_cnt]. unfold loop_count. cbn [i_op i_cnt c regs].
  destruct (op =? 0xe3); unfold set_ip, set_reg; cbn [regs flags cmem]; do 2 f_equal;
    (destruct (loop_taken _ _); [rewrite u32_add_l|]; f_equal; unfold n; lia).
Qed.

(** [jmp] over 5 bytes. *)
Lemma m_skip a : at_bytes m a [0xeb; 5] -> mstep (mkCpu r a f m) (mkCpu r (u32 (a + 7)) f m).
Proof.
  intros B. set (i := Insn [] false 0xeb None None [] [] [5] [] []).
  apply (mstep_insn i); [now apply (shape_p_wf _ m a)|exact B|].
  unfold run_insn, jump_ip, branch_target, next_ip. change (kind_of i) with Jmp. change (data32 i) with true.
  change (rel_val i) with 5. change (len i) with 2. unfold set_ip. cbn [ip regs flags cmem].
  rewrite u32_add_l. do 3 f_equal. lia.
Qed.

(** [jmp rel32] *)
Lemma m_jmp a : at_bytes m a [0xe9] -> mstep (mkCpu r a f m) (mkCpu r (rel_dest m (a + 1)) f m).
Proof.
  intros B. set (d := ld32 m (a + 1)). assert (B' : at_bytes m a (encode (i_jmp d))).
  { change (encode (i_jmp d)) with ([0xe9] ++ le32 d). apply at_bytes_app. split; [done|]. apply at_bytes_ld32. }
  apply (mstep_insn (i_jmp d)); [now apply (shape_p_wf _ m a)|exact B'|].
  unfold run_insn, jump_ip, branch_target, next_ip. change (kind_of (i_jmp d)) with Jmp.
  change (data32 (i_jmp d)) with true. change (rel_val _) with (le_val (le32 d)). change (len _) with 5.
  unfold set_ip. cbn [ip regs flags cmem]. rewrite le_val_le32, u32_add_l, u32_add_r. unfold rel_dest. fold d.
  do 3 f_equal. lia.
Qed.

End Templates.

(** ** Two processors *)

Section Sim.
Context {Lay : Layout} {Proc : Processor}.
Variables (prog : Z -> insn -> Prop) (span : Z) (S : Z -> Prop) (s : st).
Hypothesis L : layout_ok.
Hypothesis I : trans_inv s.
Hypothesis A : all_code prog span S s.
Hypothesis Cb : code_gen_ptr s <= L_code + DEFAULT_CODE_GEN_BUFFER_SIZE.
Hypothesis Sb : sieve_code_ptr s <= L_sieve + DEFAULT_SIEVE_BUFFER_SIZE.
(** An address holds one instruction of the program. *)
Hypothesis Pd : forall g i j, prog g i -> prog g j -> i = j.

(** The words the templates store to. *)
Definition scratch (a : Z) : Prop :=
  a = A_eip \/ a = A_ret_tb \/ a = A_patch_num \/ A_ret_hash_table <= a < A_ret_hash_table + 4 * RET_CACHE_SIZE.

(** More of the emulator's memory that generated code leaves alone. *)
Variable keep : Z -> Prop.
Hypothesis Hk : forall x a, keep x -> scratch a -> x < a \/ a + 4 <= x.

(** The emulator's memory that generated code uses. *)
Definition own (x : Z) : Prop :=
  L_env <= x < L_env + env_size \/ L_prologue <= x < L_prologue + 2048 \/
  L_sieve <= x < L_sieve + DEFAULT_SIEVE_BUFFER_SIZE \/
  L_code <= x < L_code + DEFAULT_CODE_GEN_BUFFER_SIZE \/ keep x.

(** The part of it that does not change. *)
Definition bufs (x : Z) : Prop :=
  L_code <= x < code_gen_ptr s \/ L_sieve <= x < sieve_code_ptr s \/ keep x.

(** The memories agree on the guest's bytes, but for those in [U], which the
    guest has not defined. *)
Record like (U : Z -> bool) (mc mh : mem) : Prop := {
  lk_guest : forall x, ~ own x -> U x = false -> mh !! x = mc !! x;
  lk_bufs : forall x, bufs x -> mh !! x = smem s !! x }.

Lemma bufs_own x : bufs x -> own x.
Proof. unfold bufs, own. intros [?|[?|?]]; auto; lia. Qed.

Lemma scratch_env a : scratch a -> L_env <= a /\ a + 4 <= L_env + env_size /\ u32 a = a.
Proof.
  pose proof (lo_range L) as Lr. unfold scratch, A_eip, A_ret_tb, A_patch_num, A_ret_hash_table, RET_CACHE_SIZE, env_size in *.
  intros Ha. rewrite u32_small; lia.
Qed.

Lemma like_env U mc mh a v : scratch a -> like U mc mh -> like U mc (st32 a v mh).
Proof.
  intros Sc [G B]. destruct (scratch_env a Sc) as (A1 & A2 & _). destruct L as [L1 L2 _ _ _ _]. constructor.
  - intros x Hx Ux. rewrite st32_out; [now apply G|]. unfold own in Hx. lia.
  - intros x Hx. rewrite st32_out; [now apply B|]. destruct Hx as [Hx|[Hx|Hx]]; [lia|lia|now apply Hk].
Qed.

Lemma like_bytes U mc mh a l : like U mc mh -> at_bytes (smem s) a l -> L_code <= a ->
  a + Z.of_nat (length l) <= code_gen_ptr s -> at_bytes mh a l.
Proof.
  intros K B A1 A2. apply (at_bytes_ext (smem s)); [|done]. intros x Hx. apply (lk_bufs _ _ _ K).
  left. lia.
Qed.

Lemma like_rel U mc mh a : like U mc mh -> L_code <= a -> a + 4 <= code_gen_ptr s ->
  rel_dest mh a = rel_dest (smem s) a.
Proof. intros K A1 A2. apply rel_dest_ext. intros x Hx. apply (lk_bufs _ _ _ K). left. lia. Qed.

(** The state in which a stub leaves: the dispatcher is told where the guest
    goes on and which branch of which block led there; the word at [a] is that
    branch. *)
Record handed (g : Z) (h : cpu) : Prop := {
  ha_ip : ip h = u32 (tb_ret_addr (cgc s));
  ha_eip : ld32 (cmem h) A_eip = u32 g;
  ha_branch : exists a tb n, S a /\ stub_of span s a g tb n /\
    ld32 (cmem h) A_ret_tb = u32 (tb_addr tb) /\ ld32 (cmem h) A_patch_num = n }.

(** The host runs as the guest does, at [g]; it has left, or is in its code. *)
Record follows (U : Z -> bool) (c h : cpu) : Prop := {
  fo_regs : regs h = regs c;
  fo_flags : flags h = flags c;
  fo_mem : like U (cmem c) (cmem h) }.

(** One store of a stub. *)
Lemma stub_store U mc m r f x a v rest Q : like U mc m -> L_sieve <= x ->
  at_bytes (smem s) x ((0xc7 :: 0x05 :: le32 a ++ le32 v) ++ rest) ->
  x + 10 + Z.of_nat (length rest) <= sieve_code_ptr s -> scratch a ->
  (like U mc (st32 a v m) -> at_bytes (smem s) (x + 10) rest -> leads (mkCpu r (x + 10) f (st32 a v m)) Q) ->
  leads (mkCpu r x f m) Q.
Proof.
  intros K X1 B X2 Ha G. pose proof (lo_range L) as Lr. destruct (scratch_env a Ha) as (A1 & A2 & A3).
  peel B 10 (x + 10) B1.
  apply (l_mov_mem m x r f Q ltac:(unfold code_addr; lia) a v).
  - apply (at_bytes_ext (smem s)); [|exact B1]. intros y Hy. apply (lk_bufs _ _ _ K). right; left.
    change (Z.of_nat (length _)) with 10 in Hy. lia.
  - rewrite A3. apply G; [now apply like_env|exact B].
Qed.

(** Members of [CPUX86State] that are apart. *)
Lemma ld32_apart m a b v : a + 4 <= b \/ b + 4 <= a -> ld32 (st32 b v m) a = ld32 m a.
Proof. intros D. apply ld32_ext. intros x Hx. apply st32_out. lia. Qed.

(** A stub runs to the dispatcher. *)
Lemma stub_leaves U c h a g tb n : follows U c h -> S a -> stub_of span s a g tb n -> ip h = rel_dest (smem s) a ->
  exists h', rtc mstep h h' /\ follows U c h' /\ handed g h'.
Proof.
  intros [F1 F2 K] Sa St Ip. pose proof St as (x & X1 & X2 & X3 & B & Hn & Ht & _). unfold stub_len in X2.
  rewrite X3, u32_small in Ip by (pose proof (lo_range L); lia).
  destruct h as [hr hi hf hm]. cbn [ip regs flags cmem] in *. subst hr hi hf. rename hm into m. pose proof (lo_range L) as Lr.
  set (ret := tb_ret_addr (cgc s)) in *.
  set (m3 := st32 A_eip g (st32 A_patch_num n (st32 A_ret_tb (tb_addr tb) m))).
  assert (Ld : leads (mkCpu (regs c) x (flags c) m)
    (fun h => h = mkCpu (regs c) (u32 ret) (flags c) m3 /\ like U (cmem c) m3)).
  { change (items_bytes x (stub_items ret tb n g)) with ((0xc7 :: 0x05 :: le32 A_ret_tb ++ le32 (tb_addr tb)) ++
      (0xc7 :: 0x05 :: le32 A_patch_num ++ le32 n) ++ (0xc7 :: 0x05 :: le32 A_eip ++ le32 g) ++
      (0xe9 :: le32 (ret - (x + 1 + 1 + 4 + 4 + 1 + 1 + 4 + 4 + 1 + 1 + 4 + 4 + 1) - 4))) in B.
    apply (stub_store U (cmem c) _ _ _ _ _ _ _ _ K X1 B); [cbn; lia|unfold scratch; auto|].
    intros K1 B1. eapply (stub_store U (cmem c) _ _ _ _ _ _ _ _ K1); [lia|exact B1|cbn; lia|unfold scratch; auto|].
    intros K2 B2. eapply (stub_store U (cmem c) _ _ _ _ _ _ _ _ K2); [lia|exact B2|cbn; lia|unfold scratch; auto|].
    intros K3 B3. apply (l_jmp _ _ _ _ _ ret); [|now apply leads_now].
    replace (x + 1 + 1 + 4 + 4 + 1 + 1 + 4 + 4 + 1 + 1 + 4 + 4 + 1) with (x + 10 + 10 + 10 + 1) in B3 by lia.
    apply (at_bytes_ext (smem s)); [|exact B3]. intros y Hy. apply (lk_bufs _ _ _ K3). right; left. cbn in Hy. lia. }
  destruct (leads_msteps _ _ Ld) as (h & Hs & -> & K3). eexists. split; [exact Hs|]. split; [now constructor|].
  constructor; cbn [ip cmem]; [done|apply ld32_st32|]. exists a, tb, n. split; [done|]. split; [done|].
  unfold m3. split.
  - rewrite !ld32_apart by (unfold A_ret_tb, A_patch_num, A_eip; lia). apply ld32_st32.
  - rewrite ld32_apart by (unfold A_patch_num, A_eip; lia). rewrite ld32_st32. apply u32_small.
    unfold PATCH_MAX in Hn. lia.
Qed.

(** Where a linked branch leads. *)
Definition arrived (U : Z -> bool) (c h : cpu) : Prop :=
  follows U c h /\ (closed_code prog span S s true (ip c) (ip h) \/ handed (ip c) h).

Lemma site_arrives U c h a : follows U c h -> c_site span S s a (ip c) -> ip h = rel_dest (smem s) a ->
  exists h', rtc mstep h h' /\ arrived U c h'.
Proof.
  intros F (A1 & A2 & K) Ip.
  assert (Tc : to_code s a (ip c) -> exists h', rtc mstep h h' /\ arrived U c h').
  { intros (d & D1 & D2 & D3 & D4). exists h. split; [constructor|]. split; [done|]. left.
    pose proof (ac_code _ _ _ _ A d D1 D3) as Cd. rewrite D2 in Cd. rewrite Ip, D4, u32_small; [done|].
    destruct (ti_tc s I d D1); [done|]. pose proof (lo_range L). lia. }
  destruct K as [[Sa [K|K]]|[_ K]]; auto.
  destruct K as (tb & n & K). destruct (stub_leaves U c h a (ip c) tb n F Sa K Ip) as (h' & H1 & H2 & H3).
  exists h'. split; [done|]. split; [done|now right].
Qed.

(** A jump to another translation may come first. *)
Lemma goto_arrives U c h : follows U c h -> closed_code prog span S s false (ip c) (ip h) ->
  exists h', rtc mstep h h' /\ arrived U c h'.
Proof.
  intros F C. inversion C as [| | | | | |g h0 B Si|g h0 C']; subst.
  - destruct B as (B & B1 & B2 & _). cbn [length] in B2. destruct F as [F1 F2 F3].
    pose proof (like_bytes _ _ _ _ _ F3 B B1 ltac:(cbn [length]; lia)) as B'.
    destruct (site_arrives U c (set_ip (rel_dest (cmem h) (ip h + 1)) h) (ip h + 1)) as (h' & R' & A'); try done.
    + cbn. destruct Si as (S1 & S2 & _). now apply (like_rel U (cmem c)).
    + exists h'. split; [|done]. eapply rtc_l; [|exact R']. destruct h as [hr hi hf hm].
      apply (m_jmp hm hr hf hi). exact B'.
  - exists h. split; [constructor|]. split; [done|now left].
Qed.

(** ** The guest's steps *)

(** The guest's next instruction is [i] of the program. *)
Record fetched (c : cpu) (i : insn) : Prop := {
  fe_prog : prog (ip c) i;
  fe_wf : wf_insn i = true;
  fe_bytes : at_bytes (cmem c) (ip c) (encode i);
  fe_range : 0 <= ip c /\ ip c + len i < 4294967296 }.

(** The word a push would write. *)
Definition pushed (c : cpu) (x : Z) : bool := (u32 (esp c - 4) <=? x) && (x <? u32 (esp c - 4) + 4).

(** A step of a guest that keeps off the emulator's memory and does not read
    what it has not defined.  A jump may leave the word below the stack pointer
    undefined, since its translation may copy an entry of the return cache
    through it. *)
Inductive gstep : cpu * (Z -> bool) -> cpu * (Z -> bool) -> Prop :=
  | gs_plain i c U c' : fetched c i -> kind_of i = Plain -> run_insn i c = Some c' ->
      (forall x, reads i (regs c) (flags c) (cmem c) x -> ~ own x /\ U x = false) ->
      (forall x, writes i (regs c) (flags c) (cmem c) x = true -> ~ own x) ->
      gstep (c, U) (c', fun x => U x && negb (writes i (regs c) (flags c) (cmem c) x))
  | gs_cond i c U c' : fetched c i -> kind_of i = Jcc \/ kind_of i = Loop -> run_insn i c = Some c' ->
      gstep (c, U) (c', U)
  | gs_jmp i c U c' : fetched c i -> kind_of i = Jmp -> run_insn i c = Some c' ->
      0 <= esp c < 4294967296 -> (forall x, pushed c x = true -> ~ own x) ->
      gstep (c, U) (c', fun x => U x || pushed c x)
  | gs_call i c U c' : fetched c i -> kind_of i = Call -> run_insn i c = Some c' ->
      (forall x, pushed c x = true -> ~ own x) ->
      gstep (c, U) (c', fun x => U x && negb (pushed c x)).

(** They are steps of the processor. *)
Lemma gstep_mstep x y : gstep x y -> mstep x.1 y.1.
Proof. intros G; inversion G as [i c U c' [] |i c U c' []|i c U c' []|i c U c' []]; subst; cbn; now exists i. Qed.

(** The kind of the instruction decides the handler. *)
Lemma handler_kind i f : wf_insn i = true -> handler_of i = Some f -> kind_of i <> Far ->
  direct f = true /\ kind_agrees f (kind_of i) = true.
Proof.
  intros W Hf D. destruct (kind_ok i f W Hf) as (K & _). split; [|done].
  destruct f; try done; now destruct (kind_of i).
Qed.

(** Where the host is after a step of the guest. *)
Definition went (U : Z -> bool) (c h : cpu) : Prop :=
  follows U c h /\ (closed_code prog span S s false (ip c) (ip h) \/ handed (ip c) h).

Lemma arrived_went U c h : arrived U c h -> went U c h.
Proof. intros [F [C|E]]; (split; [done|]); [left; now apply cf_weaken|now right]. Qed.

Lemma copy_step U i c c' h : follows U c h -> fetched c i -> kind_of i = Plain -> run_insn i c = Some c' ->
  (forall x, reads i (regs c) (flags c) (cmem c) x -> ~ own x /\ U x = false) ->
  (forall x, writes i (regs c) (flags c) (cmem c) x = true -> ~ own x) ->
  c_bytes S s (ip h) (encode i) -> closed_code prog span S s false (ip c + len i) (ip h + len i) ->
  exists h', rtc mstep h h' /\ went (fun x => U x && negb (writes i (regs c) (flags c) (cmem c) x)) c' h'.
Proof.
  intros [F1 F2 F3] [Pg Wf Bc Rg] K Rn Rd Wr (B & B1 & B2 & _) Nx.
  pose proof (like_bytes _ _ _ _ _ F3 B B1 B2) as Bh. pose proof (lo_range L) as Lr. fold (len i) in B2.
  unfold run_insn in Rn. rewrite K in Rn.
  destruct (alu i (regs c) (flags c) (cmem c)) as [[[r' f'] m']|] eqn:Al; [|done]. injection Rn as <-.
  destruct (alu_local i _ _ _ _ _ _ (cmem h) Al) as (mh & A1 & A2 & A3).
  { intros x Hx. destruct (Rd x Hx). now apply (lk_guest _ _ _ F3). }
  destruct (alu_local i _ _ _ _ _ _ (cmem c) Al ltac:(done)) as (mc & C1 & _ & C3).
  rewrite Al in C1. injection C1 as <-.
  exists (mkCpu r' (next_ip i h) f' mh). split.
  - apply rtc_once, (mstep_insn i); [done|done|]. unfold run_insn. now rewrite K, F1, F2, A1.
  - unfold next_ip. rewrite (u32_small (ip h + len i)), (u32_small (ip c + len i)) by (unfold len in *; lia).
    split; [|left; exact Nx]. constructor; [done|done|]. cbn [cmem]. constructor.
    + intros x Ox Ux. destruct (writes i (regs c) (flags c) (cmem c) x) eqn:W; [now apply A2|].
      rewrite A3, C3 by done. rewrite andb_true_r in Ux. now apply (lk_guest _ _ _ F3).
    + intros x Bx. rewrite A3; [now apply (lk_bufs _ _ _ F3)|].
      destruct (writes _ _ _ _ x) eqn:W; [|done]. exfalso. now apply (Wr x W), bufs_own.
Qed.

(** A branch of the host that goes to [n] or to the linked word at [a]. *)
Lemma branch_went U c' h h' a n (b : bool) : follows U c' h' -> rtc mstep h h' ->
  ip h' = (if b then rel_dest (smem s) a else n) ->
  (b = true -> c_site span S s a (ip c')) -> (b = false -> closed_code prog span S s false (ip c') n) ->
  exists h2, rtc mstep h h2 /\ went U c' h2.
Proof.
  intros F R Ip Si Nx. destruct b.
  - destruct (site_arrives U c' h' a F (Si eq_refl) Ip) as (h2 & R2 & A2).
    exists h2. split; [now transitivity h'|now apply arrived_went].
  - exists h'. split; [done|]. split; [done|left]. rewrite Ip. now apply Nx.
Qed.

Lemma jcc_byte_ok i : 0x80 <= jcc_byte i < 0x90 /\ Z.land (jcc_byte i) 0xf = Z.land (i_op i) 0xf.
Proof.
  unfold jcc_byte. set (k := Z.land (i_op i) 15).
  assert (0 <= k < 16) as R by (unfold k; change 15 with (Z.ones 4); rewrite Z.land_ones by lia; apply Z.mod_pos_bound; lia).
  clearbody k. assert (exists j, (j < 16)%nat /\ k = Z.of_nat j) as (j & Hj & ->) by (exists (Z.to_nat k); lia).
  clear R. do 16 (destruct j as [|j]; [vm_compute; repeat split; discriminate|]). lia.
Qed.

Lemma jcond_step U i c c' h : follows U c h -> fetched c i -> kind_of i = Jcc -> run_insn i c = Some c' ->
  c_bytes S s (ip h) (seg_bytes i ++ [0x0f; jcc_byte i]) ->
  c_site span S s (ip h + seg_len i + 2) (branch_target i (ip c + len i)) ->
  closed_code prog span S s false (ip c + len i) (ip h + seg_len i + 6) ->
  exists h', rtc mstep h h' /\ went U c' h'.
Proof.
  intros [F1 F2 F3] [Pg Wf Bc Rg] K Rn (B & B1 & B2 & _) Si Nx.
  destruct Si as (S1 & S2 & S3). pose proof (lo_range L) as Lr.
  pose proof (like_bytes _ _ _ _ _ F3 B B1 B2) as Bh. destruct (jcc_byte_ok i) as [J1 J2].
  unfold run_insn in Rn. rewrite K, <- J2 in Rn. injection Rn as <-.
  set (n := ip h + seg_len i + 2) in *.
  pose proof (m_jcc (cmem h) (regs h) (flags h) (ip h) _ _ (seg_bytes_cases i Wf) J1 Bh) as M. cbv zeta in M.
  fold (seg_len i) in M. fold n in M. rewrite (like_rel U (cmem c)) in M by done.
  assert (Ef : cond (Z.land (jcc_byte i) 15) (flags h) = cond (Z.land (jcc_byte i) 15) (flags c)) by now rewrite F2.
  rewrite Ef in M.
  set (b := cond _ (flags c)) in *.
  apply (branch_went U _ h (set_ip (if b then rel_dest (smem s) n else u32 (n + 4)) h) n (ip h + seg_len i + 6) b).
  - constructor; [exact F1|exact F2|exact F3].
  - apply rtc_once. destruct h as [hr hi hf hm]. exact M.
  - cbn [set_ip ip]. destruct b; [done|]. rewrite u32_small; unfold n, seg_len in *; lia.
  - intros E. rewrite E. unfold set_ip, jump_ip, next_ip. cbn [ip]. rewrite u32_small by (unfold len in *; lia). done.
  - intros E. rewrite E. unfold set_ip, next_ip. cbn [ip]. rewrite u32_small by (unfold len in *; lia). done.
Qed.

Lemma loop_op i : kind_of i = Loop -> i_two i = false /\ Z.land (i_op i) 0xfc = 0xe0.
Proof.
  unfold kind_of. destruct (i_two i); [repeat (case_match; try done)|].
  destruct (Z.land (i_op i) 0xf0 =? 0x70); [done|]. destruct (Z.eqb_spec (Z.land (i_op i) 0xfc) 0xe0); [done|].
  repeat (case_match; try done).
Qed.

Lemma wf_op i : wf_insn i = true -> 0 <= i_op i < 256.
Proof. intros W. destruct (wf_insn_inv i W) as (_ & R & _). exact R. Qed.

Lemma loop_step U i c c' h : follows U c h -> fetched c i -> kind_of i = Loop -> run_insn i c = Some c' ->
  c_bytes S s (ip h) (seg_bytes i ++ [u8 (i_op i); 0x02; 0xeb; 5; 0xe9]) ->
  c_site span S s (ip h + seg_len i + 5) (branch_target i (ip c + len i)) ->
  closed_code prog span S s false (ip c + len i) (ip h + seg_len i + 9) ->
  exists h', rtc mstep h h' /\ went U c' h'.
Proof.
  intros [F1 F2 F3] [Pg Wf Bc Rg] K Rn (B & B1 & B2 & _) Si Nx.
  destruct Si as (S1 & S2 & S3). pose proof (lo_range L) as Lr. pose proof (wf_op i Wf) as Op.
  destruct (loop_op i K) as [_ Ok].
  pose proof (like_bytes _ _ _ _ _ F3 B B1 B2) as Bh. rewrite u8_small in Bh by done.
  change [i_op i; 2; 0xeb; 5; 0xe9] with ([i_op i; 2] ++ [0xeb; 5] ++ [0xe9]) in Bh. rewrite app_assoc in Bh.
  apply at_bytes_app in Bh as [Bh1 Bh2]. rewrite length_app in Bh2. apply at_bytes_app in Bh2 as [Bh2 Bh3].
  set (n := ip h + seg_len i + 2). cbn [length] in Bh2, Bh3, B2.
  replace (ip h + Z.of_nat (length (seg_bytes i) + 2)) with n in Bh2, Bh3 by (unfold n, seg_len; lia).
  replace (n + Z.of_nat 2) with (n + 2) in Bh3 by lia.
  assert (Nr : 0 <= n /\ n + 7 <= code_gen_ptr s).
  { unfold n, seg_len in *. lia. }
  pose proof (m_cnt (cmem h) (regs h) (flags h) (ip h) _ _ (seg_bytes_cases i Wf) Ok Op Bh1) as M. cbv zeta in M.
  fold (seg_len i) in M. fold n in M.
  unfold run_insn in Rn. rewrite K in Rn. destruct (addr32 i); [|done]. injection Rn as <-.
  set (r' := if i_op i =? 0xe3 then regs h else _) in M.
  assert (Lt : loop_taken (i_cnt (seg_bytes i) (i_op i)) (mkCpu (regs h) (ip h) (flags h) (cmem h)) = loop_taken i c).
  { unfold loop_taken, loop_count. cbn [i_op i_cnt regs flags]. now rewrite F1, F2. }
  rewrite Lt in M. set (b := loop_taken i c) in *. set (a := ip h + seg_len i + 5) in *.
  assert (Er : regs (if i_op i =? 0xe3 then c else set_reg R_ECX (loop_count i c) c) = r').
  { unfold r', loop_count. rewrite F1. now destruct (i_op i =? 0xe3). }
  assert (Em : forall x, regs (set_ip x (if i_op i =? 0xe3 then c else set_reg R_ECX (loop_count i c) c)) = r' /\
    flags (set_ip x (if i_op i =? 0xe3 then c else set_reg R_ECX (loop_count i c) c)) = flags c /\
    cmem (set_ip x (if i_op i =? 0xe3 then c else set_reg R_ECX (loop_count i c) c)) = cmem c).
  { intros x. split; [exact Er|]. now destruct (i_op i =? 0xe3). }
  set (g' := if b then jump_ip i c else next_ip i c). destruct (Em g') as (E1 & E2 & E3).
  apply (branch_went U _ h (mkCpu r' (if b then rel_dest (smem s) a else u32 (n + 7)) (flags h) (cmem h)) a (ip h + seg_len i + 9) b).
  - constructor; cbn [regs flags cmem]; [now rewrite E1|now rewrite E2|now rewrite E3].
  - destruct h as [hr hi hf hm]. cbn [regs flags cmem ip] in *. destruct b.
    + eapply rtc_l; [exact M|]. rewrite u32_small by lia. apply rtc_once.
      pose proof (m_jmp hm r' hf (n + 2) Bh3) as J. replace (n + 2 + 1) with a in J by (unfold n, a; lia).
      rewrite (like_rel U (cmem c)) in J by done. exact J.
    + eapply rtc_l; [exact M|]. rewrite u32_small by lia. apply rtc_once. now apply m_skip.
  - cbn [ip]. destruct b; [done|]. rewrite u32_small by lia. unfold n. lia.
  - intros E. unfold g'. rewrite E. cbn [set_ip ip]. unfold jump_ip, next_ip. rewrite u32_small by (unfold len in *; lia).
    done.
  - intros E. unfold g'. rewrite E. cbn [set_ip ip]. unfold next_ip. rewrite u32_small by (unfold len in *; lia). done.
Qed.

(** ** Pushes *)

Lemma pushed_true c x : pushed c x = true <-> u32 (esp c - 4) <= x < u32 (esp c - 4) + 4.
Proof. unfold pushed. rewrite andb_true_iff. lia. Qed.

Lemma st32_same a v w m m' x : u32 v = u32 w -> a <= x < a + 4 -> st32 a v m !! x = st32 a w m' !! x.
Proof.
  intros E Hx. unfold st32. rewrite <- (le32_u32 v), <- (le32_u32 w), E.
  set (l := le32 (u32 w)). assert (Hl : length l = 4%nat) by apply length_le32.
  destruct (lookup_lt_is_Some_2 l (Z.to_nat (x - a))) as [b Hb]; [lia|].
  assert (x = a + Z.of_nat (Z.to_nat (x - a))) as -> by lia.
  now rewrite !(write_bytes_in l _ _ _ b).
Qed.

(** A push of the guest and one of the host. *)
Lemma like_push U mc mh c v w : like U mc mh -> (forall x, pushed c x = true -> ~ own x) -> u32 v = u32 w ->
  like (fun x => U x && negb (pushed c x)) (st32 (u32 (esp c - 4)) v mc) (st32 (u32 (esp c - 4)) w mh).
Proof.
  intros [G B] O E. constructor.
  - intros x Ox Ux. destruct (pushed c x) eqn:P.
    + apply pushed_true in P. symmetry. now apply st32_same.
    + rewrite andb_true_r in Ux. assert (~ (u32 (esp c - 4) <= x < u32 (esp c - 4) + 4))
        by (rewrite <- pushed_true; congruence). rewrite !st32_out by lia. now apply G.
  - intros x Bx. rewrite st32_out; [now apply B|].
    assert (~ (u32 (esp c - 4) <= x < u32 (esp c - 4) + 4)); [|lia].
    intros P. apply (O x); [now apply pushed_true|now apply bufs_own].
Qed.

(** A push of the host alone. *)
Lemma like_junk U mc mh c v : like U mc mh -> (forall x, pushed c x = true -> ~ own x) ->
  like (fun x => U x || pushed c x) mc (st32 (u32 (esp c - 4)) v mh).
Proof.
  intros [G B] O. constructor.
  - intros x Ox Ux. apply orb_false_iff in Ux as [Ux P].
    assert (~ (u32 (esp c - 4) <= x < u32 (esp c - 4) + 4)) by (rewrite <- pushed_true; congruence).
    rewrite st32_out by lia. now apply G.
  - intros x Bx. rewrite st32_out; [now apply B|].
    assert (~ (u32 (esp c - 4) <= x < u32 (esp c - 4) + 4)); [|lia].
    intros P. apply (O x); [now apply pushed_true|now apply bufs_own].
Qed.

Lemma like_or U V mc mh : like U mc mh -> like (fun x => U x || V x) mc mh.
Proof.
  intros [G B]. constructor; [|done]. intros x Ox Ux. apply orb_false_iff in Ux as [Ux _]. now apply G.
Qed.

(** The entries of the return cache lie in [CPUX86State]. *)
Lemma slot_scratch k : scratch (RET_HASH_FUNC A_ret_hash_table k).
Proof.
  unfold RET_HASH_FUNC. pose proof (lo_range L) as Lr.
  assert (0 <= Z.land k RET_HASH_MASK < 65536) as R by (apply (land_range k RET_HASH_MASK 16); unfold RET_HASH_MASK, RET_CACHE_SIZE; lia).
  right; right; right. unfold A_ret_hash_table, RET_CACHE_SIZE, env_size in *. rewrite u32_small by lia. lia.
Qed.

Lemma l_push_mem m a r f Q d : code_addr a -> at_bytes m a (0xff :: 0x35 :: le32 d) ->
  leads (mkCpu (<[R_ESP := u32 (r R_ESP - 4)]> r) (a + 6) f (st32 (u32 (r R_ESP - 4)) (ld32 m (u32 d)) m)) Q ->
  leads (mkCpu r a f m) Q.
Proof.
  intros Ha B. apply (l_next m a r f Q Ha (Insn [] false 0xff (Some 0x35) None (le32 d) [] [] [] []) 6 _ _ _ B);
    try reflexivity; try lia.
  change (exec _ _) with (Some (mkCpu (<[R_ESP := u32 (r R_ESP - 4)]> r) (u32 (a + 6)) f
    (st32 (u32 (r R_ESP - 4)) (ld32 m (u32 (0 + disp_val (le32 d)))) m))).
  now rewrite disp_val_le32, Z.add_0_l, u32_u32.
Qed.

(** The copy of a return-cache entry: [push from; pop to]. *)
Lemma copy_rc_runs U c h a b : follows U c h -> 0 <= esp c < 4294967296 ->
  (forall x, pushed c x = true -> ~ own x) ->
  at_bytes (smem s) (ip h) (items_bytes (ip h) (copy_rc_items a b)) -> L_code <= ip h ->
  ip h + 12 <= code_gen_ptr s ->
  exists h', rtc mstep h h' /\ follows (fun x => U x || pushed c x) c h' /\ ip h' = ip h + 12.
Proof.
  intros [F1 F2 F3] E O B B1 B2. pose proof (lo_range L) as Lr.
  pose proof (slot_scratch b) as Sb'. destruct (scratch_env _ (slot_scratch a)) as (_ & _ & A3).
  destruct (scratch_env _ Sb') as (_ & _ & D3).
  set (sa := RET_HASH_FUNC A_ret_hash_table a) in *. set (sb := RET_HASH_FUNC A_ret_hash_table b) in *.
  set (v := ld32 (cmem h) sa). set (m1 := st32 (u32 (esp c - 4)) v (cmem h)).
  pose proof (like_junk U (cmem c) (cmem h) c v F3 O) as K1. fold m1 in K1.
  pose proof (like_env _ (cmem c) m1 sb v Sb' K1) as K2.
  change (items_bytes (ip h) (copy_rc_items a b)) with ((0xff :: 0x35 :: le32 sa) ++ (0x8f :: 0x05 :: le32 sb)) in B.
  pose proof (like_bytes _ _ _ _ _ F3 B B1 B2) as Bh. pose proof (like_bytes _ _ _ _ _ K1 B B1 B2) as Bh1.
  peel Bh 6 (ip h + 6) C1. peel Bh1 6 (ip h + 6) C2. destruct h as [hr hi hf hm]. cbn [regs flags cmem ip] in *.
  subst hr hf. fold (esp c) in *.
  destruct (leads_msteps (mkCpu (regs c) hi (flags c) hm)
    (fun h => h = mkCpu (regs c) (hi + 12) (flags c) (st32 sb v m1))) as (h & Hs & ->).
  { apply (l_push_mem hm hi _ _ _ sa ltac:(unfold code_addr; lia) C1). rewrite A3. fold (esp c). fold v. fold m1.
    apply (l_pop_mem m1 (hi + 6) _ _ _ ltac:(unfold code_addr; lia) sb Bh1). rewrite D3. reg_eq.
    replace (ld32 m1 (u32 (esp c - 4))) with v.
    2:{ unfold m1. rewrite ld32_st32, u32_small; [done|]. unfold v. apply ld32_range. }
    apply leads_now. f_equal; [|lia]. apply functional_extensionality. intros x.
    destruct (Z.eq_dec x R_ESP) as [->|D]; reg_eq; [|done].
    rewrite u32_add_l. replace (esp c - 4 + 4) with (esp c) by lia. now apply u32_small. }
  eexists. split; [exact Hs|]. now split.
Qed.

Lemma jmp_step U i c c' h l : follows U c h -> fetched c i -> kind_of i = Jmp -> run_insn i c = Some c' ->
  0 <= esp c < 4294967296 -> (forall x, pushed c x = true -> ~ own x) ->
  l = [] \/ (exists a b, l = items_bytes (ip h) (copy_rc_items a b)) -> c_bytes S s (ip h) (l ++ [0xe9]) ->
  c_site span S s (ip h + Z.of_nat (length l) + 1) (branch_target i (ip c + len i)) ->
  exists h', rtc mstep h h' /\ went (fun x => U x || pushed c x) c' h'.
Proof.
  intros F [Pg Wf Bc Rg] K Rn E O Hl (B & B1 & B2 & _) Si. pose proof (lo_range L) as Lr.
  rewrite length_app, Nat2Z.inj_add in B2. change (Z.of_nat (length [0xe9])) with 1 in B2.
  apply at_bytes_app in B as [Ba Bb].
  unfold run_insn in Rn. rewrite K in Rn. injection Rn as <-. unfold jump_ip, next_ip.
  rewrite u32_small by (unfold len in *; lia). set (g := branch_target _ _) in *.
  assert (Cp : exists h1, rtc mstep h h1 /\ follows (fun x => U x || pushed c x) c h1 /\
    ip h1 = ip h + Z.of_nat (length l)).
  { destruct Hl as [->|(a & b & ->)].
    - exists h. split; [constructor|]. destruct F as [F1 F2 F3]. split; [constructor; try done; now apply like_or|].
      cbn. lia.
    - rewrite items_bytes_length in *. change (items_len _) with 12 in *. apply (copy_rc_runs U c h a b); try done. lia. }
  destruct Cp as (h1 & R1 & [F1 F2 F3] & Ip). rewrite <- Ip in *.
  pose proof (like_bytes _ _ _ _ _ F3 Bb ltac:(lia) ltac:(cbn [length]; lia)) as Bh.
  destruct (site_arrives (fun x => U x || pushed c x) (set_ip g c) (set_ip (rel_dest (cmem h1) (ip h1 + 1)) h1) (ip h1 + 1))
    as (h2 & R2 & A2); [now constructor|exact Si| |].
  - cbn. destruct Si as (S1 & S2 & _). eapply like_rel; [exact F3|done|done].
  - exists h2. split; [|now apply arrived_went]. transitivity h1; [done|]. eapply rtc_l; [|exact R2].
    destruct h1 as [hr hi hf hm]. apply (m_jmp hm hr hf hi). exact Bh.
Qed.

(** The start of a call, up to its jump. *)
Lemma call_runs U c h n v slot : follows U c h -> (forall x, pushed c x = true -> ~ own x) ->
  u32 v = u32 n -> scratch slot ->
  at_bytes (smem s) (ip h) (call_head (ip h) n slot) -> L_code <= ip h -> ip h + 16 <= code_gen_ptr s ->
  exists h', rtc mstep h h' /\ follows (fun x => U x && negb (pushed c x)) (push v c) h' /\ ip h' = ip h + 15.
Proof.
  intros [F1 F2 F3] O E D B B1 B2. pose proof (lo_range L) as Lr. destruct (scratch_env slot D) as (_ & _ & D3).
  destruct h as [hr hi hf hm]. cbn [regs flags cmem ip] in *. subst hr hf.
  set (m1 := st32 (u32 (esp c - 4)) n hm). set (m2 := st32 slot (hi + 20) m1).
  pose proof (like_push U (cmem c) hm c v n F3 O E) as K1. fold m1 in K1.
  pose proof (like_env _ _ m1 slot (hi + 20) D K1) as K2. fold m2 in K2.
  pose proof (like_bytes _ _ _ _ _ F3 B B1 B2) as Bh. pose proof (like_bytes _ _ _ _ _ K1 B B1 B2) as Bh1.
  unfold call_head in Bh, Bh1. peel Bh 5 (hi + 5) C1. peel Bh1 5 (hi + 5) C2. peel Bh1 10 (hi + 15) C3.
  destruct (leads_msteps (mkCpu (regs c) hi (flags c) hm)
    (fun h => h = mkCpu (<[R_ESP := u32 (esp c - 4)]> (regs c)) (hi + 15) (flags c) m2)) as (h & Hs & ->).
  { apply (l_push_imm hm hi _ _ _ ltac:(unfold code_addr; lia) n C1). fold (esp c). fold m1.
    apply (l_mov_mem m1 (hi + 5) _ _ _ ltac:(unfold code_addr; lia) slot (hi + 20) C3). rewrite D3. fold m2.
    apply leads_now. f_equal. lia. }
  eexists. split; [exact Hs|]. split; [|done]. constructor; [done|done|exact K2].
Qed.

Lemma call_step U i c c' h : follows U c h -> fetched c i -> kind_of i = Call -> run_insn i c = Some c' ->
  (forall x, pushed c x = true -> ~ own x) ->
  c_bytes S s (ip h) (call_head (ip h) (ip c + len i) (RET_HASH_FUNC A_ret_hash_table (u32 (ip c + len i + rel_val i)))) ->
  c_site span S s (ip h + 16) (u32 (ip c + len i + rel_val i)) ->
  exists h', rtc mstep h h' /\ went (fun x => U x && negb (pushed c x)) c' h'.
Proof.
  intros F [Pg Wf Bc Rg] K Rn O (B & B1 & B2 & _) Si.
  assert (Lc : forall a n k, length (call_head a n k) = 16%nat) by done. rewrite Lc in B2.
  pose proof (slot_scratch (u32 (ip c + len i + rel_val i))) as D.
  unfold run_insn in Rn. rewrite K in Rn. destruct (data32 i) eqn:Dd; [|done]. injection Rn as <-.
  unfold jump_ip, next_ip, branch_target. rewrite Dd, (u32_small (ip c + len i)) by (unfold len in *; lia). set (g := u32 _) in *.
  destruct (call_runs U c h _ (ip c + len i) _ F O eq_refl D B B1 B2) as (h1 & R1 & [F1 F2 F3] & Ip).
  pose proof B as Bj. unfold call_head in Bj. rewrite app_assoc in Bj. apply at_bytes_app in Bj as [_ Bj].
  change (Z.of_nat (length _)) with 15 in Bj. rewrite <- Ip in Bj.
  pose proof (like_bytes _ _ _ _ _ F3 Bj ltac:(lia) ltac:(cbn [length]; lia)) as Bh.
  replace (ip h + 16) with (ip h1 + 1) in Si by lia.
  destruct (site_arrives (fun x => U x && negb (pushed c x)) (set_ip g (push (ip c + len i) c))
    (set_ip (rel_dest (cmem h1) (ip h1 + 1)) h1) (ip h1 + 1)) as (h2 & R2 & A2); [now constructor|exact Si| |].
  - cbn. destruct Si as (S1 & S2 & _). eapply like_rel; [exact F3|done|done].
  - exists h2. split; [|now apply arrived_went]. transitivity h1; [done|]. eapply rtc_l; [|exact R2].
    destruct h1 as [hr hi hf hm]. apply (m_jmp hm hr hf hi). exact Bh.
Qed.

(** ** The simulation *)

Lemma sim_step U c U' c' h : follows U c h -> closed_code prog span S s true (ip c) (ip h) ->
  gstep (c, U) (c', U') -> exists h', rtc mstep h h' /\ went U' c' h'.
Proof.
  intros F C G.
  assert (Ex : exists i, fetched c i /\ kind_of i <> Far).
  { inversion G as [i ? ? ? Fe K|i ? ? ? Fe K|i ? ? ? Fe K|i ? ? ? Fe K]; subst; exists i; (split; [done|]);
      [congruence|destruct K; congruence|congruence|congruence]. }
  destruct Ex as (i & Fe & Nf). pose proof (fe_prog _ _ Fe) as Pi. pose proof (fe_wf _ _ Fe) as Wi.
  assert (Gi : forall j, fetched c j -> j = i) by (intros j Fj; apply (Pd (ip c)); [apply (fe_prog _ _ Fj)|done]).
  inversion C as [g h0 j Pj Hj B Nx|g h0 j Pj Hj B Si Nx|g h0 j Pj Hj B Si Nx|g h0 j l Pj Hj Hl B Si|g h0 j Pj Hj B Si Nx
    |g h0 j f Pj Hj Df| |]; subst;
    pose proof (Pd _ _ _ Pi Pj) as <-; destruct (handler_kind _ _ Wi Hj Nf) as [D Ka]; try congruence;
    inversion G as [j ? ? ? Fj K R|j ? ? ? Fj K R|j ? ? ? Fj K R|j ? ? ? Fj K R]; subst;
    pose proof (Gi _ Fj) as ->; try (rewrite K in Ka; discriminate Ka);
    try (destruct K as [K|K]; rewrite K in Ka; try discriminate Ka).
  - eapply copy_step; eassumption.
  - eapply jcond_step; eassumption.
  - eapply loop_step; eassumption.
  - eapply jmp_step; eassumption.
  - eapply call_step; eassumption.
Qed.

(** The guest's run up to where the host leaves. *)
Lemma sim_steps x y : rtc gstep x y -> forall h, went x.2 x.1 h ->
  exists z h', rtc gstep x z /\ rtc gstep z y /\ rtc mstep h h' /\ follows z.2 z.1 h' /\
    (z = y /\ closed_code prog span S s false (ip z.1) (ip h') \/ handed (ip z.1) h').
Proof.
  induction 1 as [x|x y z G R IH]; intros h [F W].
  - exists x, h. split; [constructor|]. split; [constructor|]. split; [constructor|]. split; [done|]. tauto.
  - destruct x as [c U], y as [c' U']. cbn [fst snd] in *. destruct W as [W|W].
    2:{ exists (c, U), h. split; [constructor|]. split; [now apply (rtc_l _ _ (c', U'))|]. split; [constructor|].
        split; [done|]. now right. }
    destruct (goto_arrives U c h F W) as (h1 & R1 & F1 & [W1|W1]).
    2:{ exists (c, U), h1. split; [constructor|]. split; [now apply (rtc_l _ _ (c', U'))|]. split; [done|].
        split; [done|]. now right. }
    destruct (sim_step U c U' c' h1 F1 W1 G) as (h2 & R2 & W2).
    destruct (IH h2 W2) as (y & h3 & G1 & G2 & R3 & F3 & W3). exists y, h3. split; [now apply (rtc_l _ _ (c', U'))|].
    split; [done|]. split; [|done]. transitivity h1; [done|]. now transitivity h2.
Qed.

End Sim.

(** ** A processor *)

(** The fragment of the emitted templates, and [nop]. *)
Definition is_nop (i : insn) : bool := negb (i_two i) && (i_op i =? 0x90).

Definition small_alu (i : insn) (r : Z -> Z) (f : Z) (m : mem) : option ((Z -> Z) * Z * mem) :=
  if is_nop i then Some (r, f, m)
  else match exec i (mkCpu r 0 f m) with
       | Some c => Some (regs c, flags c, cmem c)
       | None => None
       end.

(** Where such an instruction lies does not matter. *)
Lemma exec_at i c c' a : kind_of i = Plain -> exec i c = Some c' ->
  exists b, exec i (set_ip a c) = Some (set_ip b c').
Proof.
  intros K E. pose proof (exec_plain_ip i c c' K E) as Ip. exists (u32 (a + Z.of_nat (length (encode i)))).
  revert E Ip. unfold exec, next_ip, len. cbv zeta. cbn [ip set_ip regs flags cmem].
  set (n := u32 (ip c + _)). set (n' := u32 (a + _)). clearbody n n'.
  destruct (i_two i) eqn:Tw.
  - destruct (i_op i =? 0xb7).
    + intros E _. destruct (modrm_mod _ =? 3); now injection E as <-.
    + intros E. exfalso. unfold kind_of in K. rewrite Tw in K. destruct (Z.land _ 240 =? 128); done.
  - repeat lazymatch goal with
    | |- (if ?b then _ else _) = _ -> _ -> _ => destruct b eqn:?
    end; try done; try (intros E _; injection E as <-; try done).
    all: try (unfold write_rm; case_match; done).
    all: exfalso; unfold kind_of in K; rewrite Tw in K;
      repeat match goal with E : (_ =? _) = true |- _ => apply Z.eqb_eq in E; rewrite E in K end.
    all: vm_compute in K; discriminate K.
Qed.

#[export] Program Instance small_processor : Processor := {
  alu := small_alu;
  reads i _ _ _ _ := is_nop i = false;
  writes i _ _ _ _ := negb (is_nop i) }.
Next Obligation.
  intros i r f m r' f' m' ma E R. unfold small_alu in *. destruct (is_nop i) eqn:N.
  - injection E as <- <- <-. now exists ma.
  - assert (ma = m) as -> by (apply map_eq; intros x; now apply R). exists m'. split; [done|]. now split.
Qed.
Next Obligation.
  intros i c c' P K E. unfold small_alu. destruct (is_nop i) eqn:N.
  - unfold is_nop in N. apply andb_true_iff in N as [T O]. apply negb_true_iff in T. apply Z.eqb_eq in O.
    rewrite exec_op_none in E; [done|done|now rewrite O].
  - destruct (exec_at i c c' 0 K E) as [b E']. change (mkCpu (regs c) 0 (flags c) (cmem c)) with (set_ip 0 c).
    now rewrite E'.
Qed.

(** ** Theorem *)

(** C2: translated code does what the guest's code does.  [cpu_gen_code]
    translates a block, and afterwards every block [d] runs like the guest:
    start the processor at its translation with the guest's registers, flags and
    memory.  However far the guest runs (in steps that keep off the emulator's
    memory, with no far transfer), the host gets there too, through this block
    and those it is linked to, with the same registers and flags and the same
    memory outside the emulator's; or on the way it leaves through a stub, in
    the state the guest has there, and the stub has told the dispatcher the
    guest's program counter, a block and a branch number.  The bytes a copy of a
    return-cache entry pushed below the stack pointer may differ, and the
    guest's run is one that does not read them; [keep] is more of the emulator's
    memory that it keeps off. *)
Theorem translated_code_runs `{Layout} `{Processor} prog S keep dfuel ds s tb :
  layout_ok -> trans_inv s -> room 0 s -> (tb < nb_tbs s)%nat -> (100 < dfuel)%nat ->
  tc_ptr (tbs s tb) = NOT_TRANS_YET -> all_code prog block_span S s ->
  guest_ok (smem s) (pc (tbs s tb)) 100 (code_gen_ptr s) (code_gen_ptr s + gen_room) ->
  (forall k p i f, Z.of_nat k <= MAX_INSNS -> reach (smem s) (pc (tbs s tb)) k p ->
     insn_at (smem s) p i f -> prog p i) ->
  (forall g i j, prog g i -> prog g j -> i = j) ->
  (forall x a, keep x -> scratch a -> x < a \/ a + 4 <= x) ->
  exists s', cpu_gen_code dfuel ds tb s = Ok (tt, s') /\ tc_ptr (tbs s' tb) = code_gen_ptr s /\
    forall d c c' U U' h, (d < nb_tbs s')%nat -> tc_ptr (tbs s' d) <> NOT_TRANS_YET ->
    ip c = pc (tbs s' d) -> ip h = tc_ptr (tbs s' d) -> follows s' keep U c h ->
    rtc (gstep prog keep) (c, U) (c', U') ->
    exists c1 U1 h1, rtc (gstep prog keep) (c, U) (c1, U1) /\ rtc (gstep prog keep) (c1, U1) (c', U') /\
      rtc mstep h h1 /\ follows s' keep U1 c1 h1 /\ (c1 = c' /\ U1 = U' \/ handed block_span (with_patches S s') s' (ip c1) h1).
Proof.
  intros L I R Lt Fu Nt A G Hp Pd Hk.
  destruct (runs_done _ _ _ (gen_code_for prog block_span S s tb L I R Lt Nt A ltac:(unfold block_span; lia) dfuel Fu G Hp ds)) as ([] & s' & E & T & A').
  exists s'. split; [done|]. split; [apply (tr_tc _ _ _ T)|]. intros d c c' U U' h Hd Td Ec Eh F Rc.
  destruct (sim_steps prog block_span _ s' L (tr_inv _ _ _ T) A') with (x := (c, U)) (y := (c', U')) (h := h) (keep := keep)
    as ([c1 U1] & h1 & R1 & R2 & R3 & F1 & W); try done.
  - pose proof (tr_code _ _ _ T). pose proof (rm_code 0 s R). lia.
  - pose proof (tr_sieve _ _ _ T). pose proof (rm_sieve 0 s R). lia.
  - split; [done|left]. apply cf_weaken. cbn [fst]. rewrite Ec, Eh. now apply (ac_code _ _ _ _ A').
  - exists c1, U1, h1. split; [done|]. split; [done|]. split; [done|]. split; [done|].
    destruct W as [[W _]|W]; [left|now right]. injection W as <- <-. done.
Qed.

(** The guest at [0x8048000] with clear flags: [je] is not taken, [nop]. *)
Definition demo_cpu (a : Z) : cpu := mkCpu (fun _ => 0) a 0 demo_mem.

Lemma demo_run : rtc (@gstep demo_layout small_processor (insns demo_mem) (fun _ => False))
  (demo_cpu 0x8048000, fun _ => false) (demo_cpu 0x8048003, fun _ => false).
Proof.
  assert (Fe : forall k i, nth_error je_code k = Some i -> forall a, a = 0x8048000 + nth k [0; 2; 3] 0 ->
    at_bytes demo_mem a (encode i) -> fetched (insns demo_mem) (demo_cpu a) i).
  { intros k i Hi a -> B. assert (W : wf_insn i = true /\ exists fe at_ f, select i = Some (fe, at_) /\ ptr fe = Emit f /\
      hasb at_ DF_UNDEFINED = false /\ 0 <= len i <= 4).
    { do 3 (destruct k as [|k]; [injection Hi as <-; split; [reflexivity|do 3 eexists;
        split; [vm_compute; reflexivity|]; split; [reflexivity|]; split; [reflexivity|vm_compute; split; discriminate]]|]).
      destruct k; discriminate Hi. }
    destruct W as (W & fe & at_ & f & Se & Pf & Ud & Le).
    assert (Lo : 0 <= 0x8048000 + nth k [0; 2; 3] 0 <= 0x8048003).
    { destruct k as [|[|[|k]]]; [cbn; lia..|destruct k; discriminate Hi]. }
    constructor; [|done|done|cbn [demo_cpu ip]; lia]. exists f.
    cbn [demo_cpu ip]. constructor; [done|done|lia|unfold len in Le; lia|eauto]. }
  eapply rtc_l.
  - apply (gs_cond _ _ (Insn [] false 0x74 None None [] [] [2] [] []) _ _ (demo_cpu 0x8048002)).
    + apply (Fe 0%nat); [done|done|vm_compute; reflexivity].
    + now left.
    + reflexivity.
  - apply rtc_once. eapply (gs_plain _ _ (Insn [] false 0x90 None None [] [] [] [] []) _ (fun _ => false) (demo_cpu 0x8048003)).
    + apply (Fe 1%nat); [done|done|vm_compute; reflexivity].
    + reflexivity.
    + reflexivity.
    + intros x Hx. discriminate Hx.
    + intros x Hx. discriminate Hx.
Qed.

(** Host memory after the translation is the guest's, but for the translator's. *)
Lemma demo_follows s' : @cpu_gen_code demo_layout 101 ds_zero 0 demo_one = Ok (tt, s') ->
  @follows demo_layout s' (fun _ => False) (fun _ => false) (demo_cpu 0x8048000) (mkCpu (fun _ => 0) 0x10000000 0 (smem s')) /\
  (0 < nb_tbs s')%nat /\ pc (tbs s' 0%nat) = 0x8048000.
Proof.
  intros E. destruct (runs_done _ _ _ (@block_runs demo_layout demo_one 0 demo_layout_ok demo_one_inv
    (@room_le demo_layout 1 demo_one ltac:(lia) demo_one_room) ltac:(cbn; lia) 101 ltac:(lia) demo_one_guest ds_zero))
    as ([] & s2 & E2 & T). rewrite E in E2. injection E2 as <-.
  pose proof (@tr_code demo_layout _ _ _ T) as Tc. pose proof (@tr_sieve demo_layout _ _ _ T) as Ts.
  pose proof (@tr_nb demo_layout _ _ _ T) as Tn. destruct (@tr_old demo_layout _ _ _ T 0%nat ltac:(cbn; lia)) as (Tp & _).
  split; [|split; [cbn in Tn; lia|exact Tp]]. constructor; [done|done|]. constructor; [|done]. intros x Ox _. cbn [cmem demo_cpu].
  change demo_mem with (smem demo_one).
  unfold own in Ox. cbn in Ox, Tc, Ts. unfold gen_room, MAX_INSNS, stub_len in *.
  change DEFAULT_CODE_GEN_BUFFER_SIZE with 134217728 in Ox. change DEFAULT_SIEVE_BUFFER_SIZE with 67108864 in Ox.
  apply (@tr_mem demo_layout _ _ _ T); cbn; lia.
Qed.

Lemma translated_code_runs_witness :
  exists s' c1 U1 h1, @cpu_gen_code demo_layout 101 ds_zero 0 demo_one = Ok (tt, s') /\
    rtc (@mstep small_processor) (mkCpu (fun _ => 0) 0x10000000 0 (smem s')) h1 /\
    @follows demo_layout s' (fun _ => False) U1 c1 h1 /\
    (c1 = demo_cpu 0x8048003 /\ U1 = (fun _ => false) \/ @handed demo_layout block_span (with_patches (fun _ => False) s') s' (ip c1) h1).
Proof.
  destruct (@translated_code_runs demo_layout small_processor (insns demo_mem) (fun _ => False) (fun _ => False) 101 ds_zero demo_one 0)
    as (s' & R & T & K).
  - exact demo_layout_ok.
  - exact demo_one_inv.
  - exact (@room_le demo_layout 1 demo_one ltac:(lia) demo_one_room).
  - cbn. lia.
  - lia.
  - reflexivity.
  - apply demo_no_code.
  - exact demo_one_guest.
  - intros k p i f _ _ Ia. now exists f.
  - exact (insns_det demo_mem).
  - intros x a [].
  - destruct (demo_follows s' R) as (F & Nb & Ep).
    destruct (K 0%nat (demo_cpu 0x8048000) (demo_cpu 0x8048003) (fun _ => false) (fun _ => false)
      (mkCpu (fun _ => 0) 0x10000000 0 (smem s'))) as (c1 & U1 & h1 & _ & _ & R3 & F1 & W).
    + exact Nb.
    + rewrite T. discriminate.
    + rewrite Ep. reflexivity.
    + rewrite T. reflexivity.
    + exact F.
    + exact demo_run.
    + exists s', c1, U1, h1. split; [exact R|]. split; [exact R3|]. split; [exact F1|exact W].
Defined.
