(* ===== verification/Rounds.v ===== *)
(** A turn of the dispatch loop keeps the code linked: the next block is found or
    translated, and the branch that was taken becomes a branch to it.  What
    [BlockLoop] shows of one translation is here shown of [dispatch]. *)

From S2P Require Import Prelude Memory Opcode DecodeTable Decode DecodeSpec DecodeProofs DecodeThm.
From S2P Require Import State TransBlock Emit Translate CpuExec Frame Session Handlers Linking GenCode Translation.
From S2P Require Import Dispatch Machine Processor BlockCode BlockLoop.

Section Rounds.
Context `{Layout}.
Variables (prog : Z -> insn -> Prop) (span : Z).
Hypothesis L : layout_ok.

(** ** The code under changes of the state *)

(** The state agrees with [s] on all linked code, but for the bytes of [f]. *)
Record agrees (f : Z -> Prop) (s s' : st) : Prop := {
  ag_mem : forall x, L_code <= x < code_gen_ptr s \/ L_sieve <= x < sieve_code_ptr s -> ~ f x ->
    smem s' !! x = smem s !! x;
  ag_ptrs : code_gen_ptr s' = code_gen_ptr s /\ sieve_code_ptr s <= sieve_code_ptr s' /\
    tb_ret_addr (cgc s') = tb_ret_addr (cgc s) /\ (nb_tbs s <= nb_tbs s')%nat;
  ag_old : forall d, (d < nb_tbs s)%nat -> pc (tbs s' d) = pc (tbs s d) /\
    (tc_ptr (tbs s d) <> NOT_TRANS_YET -> kept (tbs s d) (tbs s' d));
  ag_new : forall d, (d < nb_tbs s')%nat -> tc_ptr (tbs s' d) <> NOT_TRANS_YET ->
    (d < nb_tbs s)%nat /\ tc_ptr (tbs s d) = tc_ptr (tbs s' d) }.

Lemma ag_tb f s s' d : agrees f s s' -> (d < nb_tbs s)%nat -> tc_ptr (tbs s d) <> NOT_TRANS_YET ->
  pc (tbs s' d) = pc (tbs s d) /\ tc_ptr (tbs s' d) = tc_ptr (tbs s d).
Proof.
  intros G Hd Td. destruct (ag_old _ _ _ G d Hd) as [E K]. split; [done|]. apply (kept_fields _ _ (K Td)).
Qed.

(** ** The range of branch targets *)

Hypothesis Hpr : forall g i, prog g i -> 0 <= g /\ g + len i < 4294967296.

Lemma branch_target_range i n : 0 <= branch_target i n < 4294967296.
Proof.
  unfold branch_target. pose proof (u32_range (n + rel_val i)). destruct (data32 i); [done|].
  set (t := u32 (n + rel_val i)) in *. pose proof (land_range t 0xffff 16). lia.
Qed.

(** Links of linked code name addresses of 32 bits. *)
Lemma code_for_range bytes (site : Z -> Z -> Prop) b g h : 0 <= g < 4294967296 -> code_for prog bytes site b g h ->
  code_for prog bytes (fun a t => site a t /\ 0 <= t < 4294967296) b g h.
Proof.
  intros Rg C. induction C as [g h i P Hf B C IH|g h i P Hf B Si C IH|g h i P Hf B Si C IH|g h i l P Hf Hl B Si
    |g h i P Hf B Si C IH|g h i f P Hf D|g h B Si|g h C IH]; try (destruct (Hpr g i P) as [P1 P2]).
  - eapply cf_copy; try eassumption. apply IH. unfold len in *. lia.
  - eapply cf_jcond; try eassumption; [split; [done|apply branch_target_range]|]. apply IH. unfold len in *. lia.
  - eapply cf_loop; try eassumption; [split; [done|apply branch_target_range]|]. apply IH. unfold len in *. lia.
  - eapply cf_jmp; try eassumption. split; [done|apply branch_target_range].
  - eapply cf_call; try eassumption; [split; [done|apply u32_range]|]. apply IH. unfold len in *. lia.
  - eapply cf_leave; eassumption.
  - apply cf_goto; [done|]. split; [done|done].
  - apply cf_weaken. now apply IH.
Qed.

(** Code starts with an instruction of the program. *)
Lemma code_for_start bytes site g h : code_for prog bytes site true g h -> 0 <= g < 4294967296.
Proof.
  intros C. inversion C as [? ? i P|? ? i P|? ? i P|? ? i l P|? ? i P|? ? i f P| |]; subst;
    destruct (Hpr g i P) as [P1 P2]; unfold len in *; lia.
Qed.

(** ** Linking *)

Section Step.
Variables (S : Z -> Prop) (f : Z -> Prop) (s s' : st).
Hypothesis I : trans_inv s.
Hypothesis Cb : code_gen_ptr s <= L_code + DEFAULT_CODE_GEN_BUFFER_SIZE.
Hypothesis Sb : sieve_code_ptr s <= L_sieve + DEFAULT_SIEVE_BUFFER_SIZE.
Hypothesis A : all_code prog span S s.
Hypothesis G : agrees f s s'.
Hypothesis Fc : forall x, f x -> L_code <= x < code_gen_ptr s.

(** A word apart from [f] leads where it led. *)
Lemma site_kept b g : (forall x, b <= x < b + 4 -> ~ f x) -> c_site span S s b g -> c_site span S s' b g.
Proof.
  intros D (B1 & B2 & K). destruct (ag_ptrs _ _ _ G) as (E1 & E2 & E3 & E4).
  assert (Mb : forall x, b <= x < b + 4 -> smem s' !! x = smem s !! x).
  { intros x Hx. apply (ag_mem _ _ _ G); [lia|auto]. }
  assert (Ms : forall x, L_sieve <= x < sieve_code_ptr s -> smem s' !! x = smem s !! x).
  { intros x Hx. apply (ag_mem _ _ _ G); [lia|]. intros Fx. specialize (Fc x Fx).
    destruct L as [_ _ Lc _ _ _]. pose proof (ti_code s I). pose proof (ti_sieve s I). lia. }
  assert (Tc : to_code s b g -> to_code s' b g).
  { intros K'. apply (to_code_kept s); try done. intros d Hd Td. now apply (ag_tb f). }
  split; [done|]. split; [lia|]. destruct K as [[Sa [K|(tb & n & K)]]|[Ap K]]; [left; auto| |right; auto].
  left. split; [done|]. right. exists tb, n. apply (stub_of_kept span s); try done. now apply (ag_old _ _ _ G).
Qed.

(** The words of [f] are no code, and where one of them led to before is known. *)
Lemma all_code_step : (forall a n, apart S a n -> forall x, a <= x < a + n -> ~ f x) ->
  (forall a g, S a -> 0 <= g < 4294967296 -> to_code s a g \/ to_stub span s a g ->
     (forall x, a <= x < a + 4 -> ~ f x) \/ to_code s' a g) -> all_code prog span S s'.
Proof.
  intros Ap Lk. destruct (ag_ptrs _ _ _ G) as (E1 & E2 & E3 & E4). constructor.
  - intros x Sx. rewrite E1. now apply (ac_sites _ _ _ _ A).
  - apply (ac_apart _ _ _ _ A).
  - intros i Hi Ti. destruct (ag_new _ _ _ G i Hi Ti) as [Hi' Et]. rewrite <- Et in *.
    destruct (ag_tb f s s' i G Hi' Ti) as [Ep _]. rewrite Ep.
    pose proof (ac_code _ _ _ _ A i Hi' Ti) as C. unfold closed_code in C.
    apply code_for_range in C; [|now apply code_for_start in C]. revert C. apply code_for_mono; [done|..].
    + intros a l (B & Lo & Hb & O). split; [|split; [done|split; [lia|done]]].
      apply (at_bytes_ext (smem s)); [|done]. intros x Hx. apply (ag_mem _ _ _ G); [lia|]. now apply (Ap a (Z.of_nat (length l))).
    + intros a g [Si Rg]. pose proof Si as (B1 & B2 & [[Sa K]|[Aa K]]).
      * destruct (Lk a g Sa Rg K) as [D|T]; [now apply site_kept|]. split; [done|]. split; [lia|]. left. auto.
      * apply site_kept; [|done]. now apply Ap.
Qed.

End Step.

(** The stub at an address is for one program counter. *)
Lemma stub_target s a g p n g' : L_sieve + DEFAULT_SIEVE_BUFFER_SIZE < 4294967296 -> 0 <= L_sieve ->
  sieve_code_ptr s <= L_sieve + DEFAULT_SIEVE_BUFFER_SIZE -> stub_of span s a g p n -> to_stub span s a g' -> u32 g' = u32 g.
Proof.
  intros Lr Lz Sb (x & X1 & X2 & X3 & X4 & _) (q & k & y & Y1 & Y2 & Y3 & Y4 & _). unfold stub_len in *.
  rewrite X3, !u32_small in Y3 by lia. subst y. set (r := tb_ret_addr (cgc s)) in *.
  assert (W : forall q k v, at_bytes (smem s) x (items_bytes x (stub_items r q k v)) -> ld32 (smem s) (x + 26) = u32 v).
  { intros q' k' v B. change (items_bytes x (stub_items r q' k' v)) with
      (((0xc7 :: 0x05 :: le32 A_ret_tb ++ le32 (tb_addr q')) ++ (0xc7 :: 0x05 :: le32 A_patch_num ++ le32 k') ++
       (0xc7 :: 0x05 :: le32 A_eip)) ++ le32 v ++ 
      (0xe9 :: le32 (r - (x + 1 + 1 + 4 + 4 + 1 + 1 + 4 + 4 + 1 + 1 + 4 + 4 + 1) - 4))) in B.
    peel B 26 (x + 26) B0. peel B 4 (x + 30) B1. now apply at_bytes_ld32_val. }
  rewrite <- (W _ _ _ X4). symmetry. apply (W _ _ _ Y4).
Qed.

(** ** A turn *)

(** The guest's code at [p] can be translated, into at most [span] bytes. *)
Record block_ok (s : st) (p : Z) : Prop := {
  bo_guest : guest_ok (smem s) p 100 (code_gen_ptr s) (code_gen_ptr s + gen_room);
  bo_prog : forall k q i f, Z.of_nat k <= MAX_INSNS -> reach (smem s) p k q -> insn_at (smem s) q i f -> prog q i;
  bo_span : forall k q, Z.of_nat k <= MAX_INSNS + 1 -> reach (smem s) p k q -> 256 * (Z.of_nat k + 1) <= span }.

Lemma agrees_cache s s1 : same_but_cache s s1 -> agrees (fun _ => False) s s1.
Proof.
  intros C. destruct (same_but_cache_fields s s1 C) as (E1 & E2 & E3 & E4 & E5 & E6 & E7 & E8 & E9 & E10).
  constructor; rewrite ?E1, ?E3, ?E4, ?E6, ?E7, ?E10; try done. intros d Hd. split; [done|]. intros _. apply kept_refl.
Qed.

Lemma agrees_made p func s s1 : made p func s s1 -> agrees (fun _ => False) s s1.
Proof.
  intros Md. destruct (made_fields _ _ _ _ Md) as (E1 & E2 & E3 & E4 & E5 & E6 & E7 & E8).
  pose proof (mk_nb _ _ _ _ Md) as Nb. pose proof (mk_old _ _ _ _ Md) as Old.
  constructor; rewrite ?E1, ?E3, ?E4, ?E8, ?Nb; try done; try lia.
  - intros d Hd. rewrite Old by lia. split; [done|]. intros _. apply kept_refl.
  - intros d Hd Td. destruct (Nat.eq_dec d (nb_tbs s)) as [->|D]; [now rewrite (mk_new _ _ _ _ Md) in Td|].
    rewrite Old by done. split; [lia|done].
Qed.

(** Nothing of the code changes. *)
Lemma all_code_same S s s' : trans_inv s -> code_gen_ptr s <= L_code + DEFAULT_CODE_GEN_BUFFER_SIZE ->
  sieve_code_ptr s <= L_sieve + DEFAULT_SIEVE_BUFFER_SIZE -> all_code prog span S s -> agrees (fun _ => False) s s' ->
  all_code prog span S s'.
Proof. intros I C V A G. apply (all_code_step S (fun _ => False) s s'); auto; done. Qed.

Section Next.
Variable dfuel : nat.
Variable ds0 : decode_t.
Hypothesis Hf : (100 < dfuel)%nat.

(** The words the dispatcher may link include [S], and all code is linked. *)
Definition linked_code (S : Z -> Prop) (s : st) : Prop :=
  exists S', (forall x, S x -> S' x) /\ all_code prog span S' s.

Lemma get_next_code S p prev s : trans_inv s -> room 1 s -> block_ok s p -> all_code prog span S s ->
  runs (get_next_tb dfuel ds0 p prev) s (fun i s' => next_tb s p i s' /\ linked_code S s') (fun _ => False).
Proof.
  intros I R [Bg Bp Bs] A. apply runs_and; [now apply get_next_tb_runs|].
  pose proof (rm_code 1 s R) as Rc. pose proof (rm_sieve 1 s R) as Rs. unfold gen_room, stub_len, MAX_INSNS in Rc, Rs.
  assert (Cb : code_gen_ptr s <= L_code + DEFAULT_CODE_GEN_BUFFER_SIZE) by lia.
  assert (Vb : sieve_code_ptr s <= L_sieve + DEFAULT_SIEVE_BUFFER_SIZE) by lia.
  assert (C1 : forall s1, same_but_cache s s1 -> tb_inv s1 -> trans_inv s1 /\ room 1 s1 /\ all_code prog span S s1).
  { intros s1 S1 I1. split; [now apply (trans_inv_cache s)|]. split; [now apply (room_cache s)|].
    apply (all_code_same S s); try done. now apply agrees_cache. }
  eapply runs_conseq; [apply (get_next_tb_cases dfuel ds0 p prev s (fun _ s' => linked_code S s'))| |]; try done.
  - apply I.
  - now apply room_full.
  - intros s1 i S1 I1 Hi Pc Tr. exists S. split; [done|]. now apply C1.
  - intros s1 i S1 I1 Hi Pc Tr. destruct (C1 s1 S1 I1) as (T1 & R1 & A1).
    destruct (same_but_cache_fields s s1 S1) as (E1 & E2 & E3 & E4 & _).
    eapply runs_conseq; [apply (gen_code_for prog span S s1 i L T1)|..]; rewrite ?Pc, ?E1, ?E4; try done.
    + apply (room_le 1); [lia|done].
    + cbv beta. intros _ s' [_ A']. exists (with_patches S s'). split; [now left|done].
  - intros s1 s2 func S1 I1 Nw Md. destruct (C1 s1 S1 I1) as (T1 & R1 & A1).
    destruct (same_but_cache_fields s s1 S1) as (E1 & E2 & E3 & E4 & _).
    destruct (made_fields _ _ _ _ Md) as (F1 & _ & F3 & F4 & _). pose proof (mk_new _ _ _ _ Md) as New.
    pose proof (trans_inv_made _ _ _ _ T1 Nw Md) as T2. pose proof (mk_nb _ _ _ _ Md) as Nb.
    assert (A2 : all_code prog span S s2).
    { apply (all_code_same S s1); rewrite ?E3, ?E4; try done. now apply (agrees_made p func). }
    assert (Pn : pc (tbs s2 (nb_tbs s1)) = p) by now rewrite New.
    eapply runs_conseq; [apply (gen_code_for prog span S s2 (nb_tbs s1) L T2)|..]; rewrite ?Pn, ?F1, ?F4, ?E1, ?E4; try done.
    + now apply (room_made p func s1).
    + lia.
    + now rewrite New.
    + cbv beta. intros _ s' [_ A']. exists (with_patches S s'). split; [now left|done].
Qed.

(** How translated code left, [prev] being the block the epilogue names: the
    branch at [a] led to a stub for the guest's program counter. *)
Inductive left_by (S : Z -> Prop) (s : st) : option nat -> Prop :=
  | lb_start : left_by S s None
  | lb_branch a p : S a -> stub_of span s a (env_eip s) p (env_patch_num s) -> left_by S s (Some p).

Lemma agrees_env s s' : set_smem (smem s) s' = s -> trans_inv s ->
  code_gen_ptr s <= L_code + DEFAULT_CODE_GEN_BUFFER_SIZE -> sieve_code_ptr s <= L_sieve + DEFAULT_SIEVE_BUFFER_SIZE ->
  (forall x, x < L_env \/ L_env + env_size <= x -> smem s' !! x = smem s !! x) -> agrees (fun _ => False) s s'.
Proof.
  intros E I C V M. destruct L as [L1 L2 _ _ _ _].
  assert (F : tbs s' = tbs s /\ nb_tbs s' = nb_tbs s /\ code_gen_ptr s' = code_gen_ptr s /\
    sieve_code_ptr s' = sieve_code_ptr s /\ cgc s' = cgc s) by now rewrite <- E.
  destruct F as (F1 & F2 & F3 & F4 & F5). constructor; rewrite ?F1, ?F2, ?F3, ?F4, ?F5; try done.
  - intros x Hx _. apply M. lia.
  - intros d Hd. split; [done|]. intros _. apply kept_refl.
Qed.

(** The last stores of [dispatch] are to the environment. *)
Lemma entered_code S i s s' : trans_inv s -> code_gen_ptr s <= L_code + DEFAULT_CODE_GEN_BUFFER_SIZE ->
  sieve_code_ptr s <= L_sieve + DEFAULT_SIEVE_BUFFER_SIZE -> all_code prog span S s -> entered i s s' ->
  all_code prog span S s'.
Proof.
  intros I C V A En. apply (all_code_same S s); try done. apply agrees_env; try done; [apply En|].
  intros x Hx. apply (en_mem _ _ _ En); unfold A_target_tc, A_ret_tb, A_ind_type, env_size in *; lia.
Qed.

(** The branch at [a] was taken, to a stub for [g], and is now a branch to block
    [i], which translates [g]. *)
Lemma link_code S s i a g p n s2 : trans_inv s -> code_gen_ptr s < L_code + DEFAULT_CODE_GEN_BUFFER_SIZE ->
  sieve_code_ptr s <= L_sieve + DEFAULT_SIEVE_BUFFER_SIZE -> all_code prog span S s -> S a ->
  stub_of span s a g p n -> (i < nb_tbs s)%nat -> pc (tbs s i) = g -> L_code <= tc_ptr (tbs s i) <= code_gen_ptr s ->
  0 <= g < 4294967296 ->
  jmp_added i (link_state s i a) s2 -> all_code prog span S s2.
Proof.
  intros I C V A Sa St Hi Pc Tc Rg Ja. destruct (linked_fields _ _ _ _ Ja) as (F1 & F2 & F3 & F4 & _ & F5 & K).
  pose proof (ac_sites _ _ _ _ A a Sa) as Ba.
  pose proof L as [_ _ Lc _ (_ & _ & _ & _ & Ls0 & Ls1 & Lr0 & Lr1) Ln].
  assert (G : agrees (fun x => a <= x < a + 4) s s2).
  { constructor; rewrite ?F2, ?F3, ?F4, ?F5; try done.
    - intros x _ Nx. rewrite F1. apply st32_out. lia.
    - intros d Hd. split; [apply K|]. intros _. exact (jmp_added_kept i _ s2 d Ja).
    - intros d Hd _. split; [done|]. symmetry. apply K. }
  apply (all_code_step S (fun x => a <= x < a + 4) s s2); try done; try lia.
  - intros b k Ap x Hx. specialize (Ap a Sa). lia.
  - intros b g' Sb Rg' Kb. destruct (ac_apart _ _ _ _ A a b Sa Sb) as [<-|D]; [right|left; lia].
    assert (E : g' = g).
    { destruct Kb as [(d & D1 & _ & D3 & D4)|Kb].
      - exfalso. destruct St as (x & X1 & X2 & X3 & _). unfold stub_len in X2. destruct (ti_tc s I d D1) as [|Td]; [done|].
        rewrite D4, !u32_small in X3 by lia. lia.
      - pose proof (stub_target s a g p n g' ltac:(lia) ltac:(lia) V St Kb) as E. now rewrite !u32_small in E. }
    subst g'. exists i. destruct (K i) as [Ki Kt]. rewrite F2, Ki, Kt.
    split; [done|]. split; [done|]. split; [intros E; rewrite E in Tc; lia|].
    rewrite F1. replace (tc_ptr (tbs s i) - (a + 4)) with (tc_ptr (tbs s i) - a - 4) by lia.
    apply rel_dest_poke.
Qed.

(** A turn. *)
Lemma dispatch_code S s prev : trans_inv s -> room 1 s ->
  code_gen_ptr s + gen_room < L_code + DEFAULT_CODE_GEN_BUFFER_SIZE -> span <= 65536 ->
  block_ok s (env_eip s) -> all_code prog span S s -> env_ind_type s = NOT_IND -> left_by S s prev ->
  runs (dispatch dfuel ds0 prev) s
    (fun i s' => dispatched (fun x => L_code <= x < code_gen_ptr s) s i s' /\ linked_code S s') (fun _ => False).
Proof.
  intros I R Cs Sp Bk A Ty Lb. unfold dispatch. run. run. run.
  eapply runs_conseq; [apply (get_next_code S (env_eip s) prev s); try done| |done].
  cbv beta. intros i s1 [N (S1 & Sub & A1)]. pose proof (nx_inv _ _ _ _ N) as I1.
  pose proof (nx_code _ _ _ _ N) as Nc. pose proof (nx_sieve _ _ _ _ N) as Ns.
  pose proof (rm_code 1 s R) as Rc. pose proof (rm_sieve 1 s R) as Rs.
  assert (C1 : code_gen_ptr s1 <= L_code + DEFAULT_CODE_GEN_BUFFER_SIZE) by lia.
  assert (V1 : sieve_code_ptr s1 <= L_sieve + DEFAULT_SIEVE_BUFFER_SIZE) by lia.
  assert (E : forall x, L_env <= x -> x + 4 <= L_env + env_size -> ld32 (smem s1) x = ld32 (smem s) x)
    by (intros x X1 X2; now apply (next_env32 s (env_eip s) i s1)).
  run. run. unfold env_ind_type. rewrite E by (unfold A_ind_type, env_size; lia).
  change (ld32 (smem s) A_ind_type) with (env_ind_type s). rewrite Ty. cbn [negb Z.eqb NOT_IND]. run. run. run.
  assert (Same : forall s', entered i s1 s' ->
    dispatched (fun x => L_code <= x < code_gen_ptr s) s i s' /\ linked_code S s').
  { intros s' En. split; [apply (next_dispatched _ s i s1 s1); try done; unfold node_len; lia|].
    exists S1. split; [done|]. now apply (entered_code S1 i s1). }
  destruct Lb as [|a p Sa St]; [run; now apply enter_runs|].
  destruct (Nat.eqb_spec p i) as [->|Pe]; cbn [negb]; [run; now apply enter_runs|].
  pose proof St as (_ & _ & _ & _ & _ & Kn & Kp & Re).
  pose proof (ac_sites _ _ _ _ A a Sa) as Ba. destruct (nx_old _ _ _ _ N p Kp) as (Op & _ & Ok).
  destruct Re as [Re|(Tp & Pl & Of)].
  { exfalso. apply Pe. apply (inv_one s1 (ti_tb s1 I1)); [pose proof (nx_nb _ _ _ _ N); lia|apply N|].
    rewrite Op, Re. symmetry. apply N. }
  unfold u16 in Of. rewrite Z.mod_small in Of by lia. destruct (kept_fields _ _ (Ok Tp)) as (Kt & _ & Ko & _).
  run. run. unfold env_patch_num at 1. rewrite E by (unfold A_patch_num, env_size; lia).
  change (ld32 (smem s) A_patch_num) with (env_patch_num s).
  destruct (tb_add_jump_run s1 p (env_patch_num s) i (ti_tb s1 I1) Kn (nx_lt _ _ _ _ N)) as (s2 & Ra & Ja & _).
  rewrite Kt, Ko, Of in Ja. replace (tc_ptr (tbs s p) + (a - tc_ptr (tbs s p))) with a in Ja by lia.
  change (set_smem _ s1) with (link_state s1 i a) in Ja.
  assert (St1 : stub_of span s1 a (env_eip s) p (env_patch_num s)).
  { pose proof (nx_const _ _ _ _ N) as [_ Er]. apply (stub_of_kept span s); try done; try apply N.
    - intros x Hx. apply (nx_mem _ _ _ _ N); [lia|]. destruct L as [_ _ Lc _ _ _]. pose proof (ti_sieve s I). lia.
    - intros x Hx. apply (nx_mem _ _ _ _ N); [|lia]. destruct L as [_ _ Lc _ _ _]. pose proof (ti_code s I). lia.
    - intros d Hd. destruct (nx_old _ _ _ _ N d Hd) as (O1 & _ & O2). auto. }
  pose proof (link_inv s1 i a s2 L I1 (nx_lt _ _ _ _ N) ltac:(lia) Ja) as I2.
  assert (A2 : all_code prog span S1 s2).
  { apply (link_code S1 s1 i a (env_eip s) p (env_patch_num s)); try done; try apply N; [lia|now apply Sub|apply ld32_range]. }
  eapply runs_intro; [exact Ra|]. apply enter_runs; [done|]. intros s' En.
  destruct (linked_fields _ _ _ _ Ja) as (_ & _ & F3 & F4 & _). split.
  - destruct (link_dispatched s i a s1 s2 s' N Ja En) as [D1 D2 D3 D4 D5 D6 D7 D8 D9 D10 D11]. constructor; try done.
    intros x X1 X2 X3 X4 X5 Fx. apply D5; try done. lia.
  - exists S1. split; [done|]. apply (entered_code S1 i s2); rewrite ?F3, ?F4; done.
Qed.

End Next.
End Rounds.
