(* ===== verification/System.v ===== *)
(** The whole machine: the processor in translated code and the host's C code
    that takes over when it leaves.  Between two blocks the epilogue parks the
    guest, [dispatch] finds or translates the next block and links the branch,
    and the prologue resumes the guest in it. *)

From S2P Require Import Prelude Memory Opcode DecodeTable Decode DecodeSpec DecodeProofs DecodeThm.
From S2P Require Import State TransBlock Emit Translate CpuExec Frame Session Handlers Linking GenCode Translation.
From S2P Require Import Dispatch Machine Sieve Prologue CpuLoop Switch Processor BlockCode BlockLoop BlockSim Rounds.
From Stdlib Require Import FunctionalExtensionality.
From stdpp Require Import relations.
#[local] Open Scope Z_scope.

(** The reach of [tb_jmp_offset], a [uint16_t]. *)
Definition jmp_span : Z := 65536.

Section System.
Context {Lay : Layout} {Proc : Processor}.
Variable dfuel : nat.
Variable ds0 : decode_t.

(** ** The host's C code *)

(** [L_back] is where the call of the prologue returns to, [hsp] the stack
    pointer at that call, and the host's stack lies in [hs_lo, hs_hi). *)
Variables (L_back hsp hs_lo hs_hi : Z).

Record host_ok : Prop := {
  ho_sp : 16 <= hsp /\ hsp + 4 < 4294967296 /\ hs_lo <= hsp - 16 /\ hsp + 4 <= hs_hi;
  ho_env : hs_hi <= L_env \/ L_env + env_size <= hs_lo;
  ho_prologue : hs_hi <= L_prologue \/ L_prologue + 2048 <= hs_lo;
  ho_code : hs_hi <= L_code \/ L_code + DEFAULT_CODE_GEN_BUFFER_SIZE <= hs_lo;
  ho_sieve : hs_hi <= L_sieve \/ L_sieve + DEFAULT_SIEVE_BUFFER_SIZE <= hs_lo;
  ho_tbs : 0 < L_tbs /\ L_tbs + sizeof_TranslationBlock * code_gen_max_blocks <= 4294967296 }.

(** What the compiled C code does around [dispatch] is not known but for the
    calling convention: its calls change no memory but the state and the stack. *)
Record called (h : cpu) (s : st) (h' : cpu) : Prop := {
  cd_ip : ip h' = L_prologue;
  cd_sp : regs h' R_ESP = hsp;
  cd_other : forall g, ~ 0 <= g < 8 -> regs h' g = regs h g;
  cd_mem : forall x, x < hs_lo \/ hs_hi <= x -> cmem h' !! x = smem s !! x;
  cd_back : ld32 (cmem h') hsp = L_back }.

Variable call : cpu -> st -> cpu.

(** The machine: it executes an instruction, or, where the call returned, the
    host takes its turn. *)
Inductive sstep : st * cpu -> st * cpu -> Prop :=
  | ss_cpu s h h' : mstep h h' -> sstep (s, h) (s, h')
  | ss_host s h i s' : ip h = L_back ->
      dispatch dfuel ds0 (tb_of_addr (regs h R_EAX)) (set_smem (cmem h) s) = Ok (i, s') ->
      sstep (s, h) (s', call h s').

Lemma sstep_cpu s h h' : rtc mstep h h' -> rtc sstep (s, h) (s, h').
Proof. induction 1 as [h|h h1 h' R1 R IH]; [constructor|]. apply (rtc_l _ _ (s, h1)); [now constructor|done]. Qed.

(** ** The guest *)

(** The guest's memory at the start, and where its code is. *)
Variables (m0 : mem) (text : Z -> Prop).

(** Memory that neither the guest nor generated code writes: the stubs, the
    words of the environment only the host writes, and the host's stack. *)
Definition keep (x : Z) : Prop :=
  L_prologue <= x < L_prologue + 2048 \/ A_esp_tmp <= x < A_esp_tmp + 4 \/
  A_ind_type <= x < A_ind_type + 4 \/ hs_lo <= x < hs_hi.

(** A block can start at [p]: its instructions have handlers and are text, and
    at most 255 of them follow each other, so that its branches are in reach. *)
Record text_ok (p : Z) : Prop := {
  tx_insn : forall k q, Z.of_nat k <= MAX_INSNS -> reach m0 p k q -> exists i f, insn_at m0 q i f /\
    sizes_ok f i = true /\ (length (i_prefixes i) <= 100)%nat /\ forall x, q <= x < q + len i -> text x;
  tx_span : forall k q, Z.of_nat k <= MAX_INSNS + 1 -> reach m0 p k q -> 256 * (Z.of_nat k + 1) <= jmp_span }.

(** A well-behaved state of the guest: 32-bit registers, its stack is apart from
    the emulator, it does not rely on the word below the stack pointer, and its
    code is as it was. *)
Record tidy (c : cpu) (U : Z -> bool) : Prop := {
  td_regs : forall g, 0 <= g < 8 -> 0 <= regs c g < 4294967296;
  td_flags : 0 <= flags c < 4294967296;
  td_esp : 4 <= esp c;
  td_push : forall x, pushed c x = true -> ~ own keep x /\ U x = true;
  td_text : forall x, text x -> ~ own keep x /\ U x = false /\ cmem c !! x = m0 !! x;
  td_ip : text_ok (ip c) }.

(** A step of the guest between such states; below the stack pointer nothing is
    defined. *)
Definition ustep (x y : cpu * (Z -> bool)) : Prop := exists U,
  gstep (insns m0) keep x (y.1, U) /\ (forall a, y.2 a = U a || pushed y.1 a) /\ tidy y.1 y.2.

(** ** What holds between the steps *)

(** The buffers are not overrun, and all code is linked. *)
Record good (S : Z -> Prop) (s : st) : Prop := {
  gd_inv : trans_inv s;
  gd_bufs : code_gen_ptr s <= L_code + DEFAULT_CODE_GEN_BUFFER_SIZE /\
    sieve_code_ptr s <= L_sieve + DEFAULT_SIEVE_BUFFER_SIZE /\ Z.of_nat (nb_tbs s) <= code_gen_max_blocks;
  gd_code : all_code (insns m0) jmp_span S s;
  gd_ret : tb_ret_addr (cgc s) = epilogue;
  gd_ind : env_ind_type s = NOT_IND;
  gd_prologue : at_bytes (smem s) L_prologue (items_bytes L_prologue prologue_items);
  gd_epilogue : at_bytes (smem s) epilogue (items_bytes epilogue epilogue_items) }.

(** The prologue has left the host's frame. *)
Definition framed (m : mem) : Prop := ld32 m A_esp_tmp = hsp - 16 /\ ld32 m hsp = L_back.

Hypothesis L : layout_ok.
Hypothesis Ho : host_ok.

Lemma insns_range g i : insns m0 g i -> 0 <= g /\ g + len i < 4294967296.
Proof. intros [f [_ _ Lo Hi _]]. unfold len. lia. Qed.

Lemma keep_scratch x a : keep x -> scratch a -> x < a \/ a + 4 <= x.
Proof.
  intros K Sc. destruct (scratch_env L a Sc) as (A1 & A2 & _). pose proof (lo_prologue L) as (Lp & _).
  destruct Ho as [_ He _ _ _ _]. destruct K as [K|[K|[K|K]]]; try lia;
    unfold scratch, A_esp_tmp, A_ind_type, A_eip, A_ret_tb, A_patch_num, A_ret_hash_table, RET_CACHE_SIZE in *; lia.
Qed.

Lemma room_bufs n s : 0 <= n -> room_turns n s ->
  code_gen_ptr s <= L_code + DEFAULT_CODE_GEN_BUFFER_SIZE /\
  sieve_code_ptr s <= L_sieve + DEFAULT_SIEVE_BUFFER_SIZE /\ Z.of_nat (nb_tbs s) <= code_gen_max_blocks.
Proof. intros N [A B C _]. unfold gen_room, turn_sieve, turn_blocks, stub_len, node_len, MAX_INSNS in *. lia. Qed.

#[export] Instance room_turns_dec n s : Decision (room_turns n s).
Proof.
  refine (cast_if (decide ((code_gen_ptr s - L_code + n * gen_room <= DEFAULT_CODE_GEN_BUFFER_SIZE /\
    sieve_code_ptr s - L_sieve + n * turn_sieve <= DEFAULT_SIEVE_BUFFER_SIZE) /\
    Z.of_nat (nb_tbs s) + n * turn_blocks <= code_gen_max_blocks /\
    0 <= stb_count (cgc s) /\ stb_count (cgc s) + n < STB_MAX))); [constructor; tauto|intros []; tauto].
Defined.

(** Stores outside the code, the stubs and [env->ind_type]. *)
Lemma good_mem S s m : good S s -> ld32 m A_patch_num < PATCH_MAX ->
  (forall x, L_code <= x < code_gen_ptr s \/ L_sieve <= x < sieve_code_ptr s \/ L_prologue <= x < L_prologue + 2048 \/
     A_ind_type <= x < A_ind_type + 4 -> m !! x = smem s !! x) -> good S (set_smem m s).
Proof.
  intros [I (Cb & Sb & Nb) C Re Ty B1 B2] P M. constructor; try done.
  - destruct I as [I X T Cd V _]. constructor; try done. now apply (Linking.tb_inv_mem s).
  - apply (all_code_same _ _ L insns_range S s); try done. constructor; try done.
    + intros x Hx _. apply M. tauto.
    + intros d Hd. split; [done|]. intros _. apply kept_refl.
  - unfold env_ind_type. rewrite (ld32_ext (smem s)); [done|]. intros x Hx. apply M. tauto.
  - apply (at_bytes_ext (smem s)); [|done]. intros x Hx. rewrite items_bytes_length, prologue_len in Hx. apply M. lia.
  - apply (at_bytes_ext (smem s)); [|done]. intros x Hx. apply M. unfold epilogue in *.
    change (Z.of_nat (length _)) with 66 in Hx. lia.
Qed.

(** ** The guest's code *)

Lemma text_reach m p k q : text_ok p -> (forall x, text x -> m !! x = m0 !! x) -> Z.of_nat k <= MAX_INSNS + 1 ->
  reach m p k q -> reach m0 p k q.
Proof.
  intros T E Hk R. induction R as [|k q i f R IH Ia St]; [constructor|].
  specialize (IH ltac:(lia)). destruct (tx_insn p T k q ltac:(lia) IH) as (j & f' & Ja & _ & _ & Tx).
  assert (B : at_bytes m q (encode j)).
  { apply (at_bytes_ext m0); [|apply Ja]. intros x Hx. apply E, Tx. exact Hx. }
  pose proof (encode_unique_aux m q i j (ia_wf _ _ _ _ Ia) (ia_wf _ _ _ _ Ja) (ia_bytes _ _ _ _ Ia) B) as ->.
  pose proof (insn_at_handler _ _ _ _ Ia) as H1. rewrite (insn_at_handler _ _ _ _ Ja) in H1. injection H1 as ->.
  now apply (reach_next m0 p k q j f).
Qed.

Lemma text_insn m p k q : text_ok p -> (forall x, text x -> m !! x = m0 !! x) -> Z.of_nat k <= MAX_INSNS ->
  reach m p k q -> exists i f, insn_at m q i f /\ insn_at m0 q i f /\ sizes_ok f i = true /\
    (length (i_prefixes i) <= 100)%nat /\ forall x, q <= x < q + len i -> text x.
Proof.
  intros T E Hk R. destruct (tx_insn p T k q Hk (text_reach m p k q T E ltac:(lia) R)) as (i & f & Ia & Sz & Np & Tx).
  exists i, f. split; [|done]. destruct Ia as [W B Lo Hi Se]. constructor; try done.
  apply (at_bytes_ext m0); [|done]. intros x Hx. apply E, Tx. exact Hx.
Qed.

(** An instruction is a byte at least. *)
Lemma len_pos i : 0 < len i.
Proof. unfold len, encode, opcode_bytes. rewrite !length_app. destruct (i_two i); cbn; lia. Qed.

Lemma reach_len m p k q : reach m p k q -> p + Z.of_nat k <= q.
Proof.
  induction 1 as [|k q i f R IH Ia St]; [lia|].
  pose proof (len_pos i) as Li. unfold len in Li. lia.
Qed.

(** Straight code is fit for a block. *)
Lemma text_straight p l : straight 100 l = true -> at_bytes m0 p (code_of l) -> 0 <= p ->
  p + Z.of_nat (length (code_of l)) < 4294967296 -> (length (code_of l) <= 254)%nat ->
  (forall x, p <= x < p + Z.of_nat (length (code_of l)) -> text x) -> text_ok p.
Proof.
  intros S B P E Ln Tx. constructor; intros k q Hk R; pose proof (reach_len _ _ _ _ R) as Rl;
    destruct (straight_reach m0 p 100 l S B P E k q R) as (l1 & l2 & -> & S2 & ->).
  - destruct l2 as [|i l2]; [done|]. unfold code_of in *. rewrite map_app, concat_app in B, E, Tx. cbn [map concat] in B, E, Tx.
    apply at_bytes_app in B as [_ B]. apply at_bytes_app in B as [B _]. rewrite !length_app in E, Tx.
    destruct (straight_insn 100 i l2 m0 _ S2 B) as (f & Ia & Sz & Np & _); [lia|lia|].
    exists i, f. split; [done|]. split; [done|]. split; [done|]. intros x Hx. apply Tx. unfold len in Hx. lia.
  - unfold code_of, jmp_span in *. rewrite map_app, concat_app, length_app in Ln. lia.
Qed.

(** Intervals that share no point. *)
Lemma apart_points a n b k : 0 < n -> 0 < k -> (forall x, a <= x < a + n -> ~ b <= x < b + k) ->
  a + n <= b \/ b + k <= a.
Proof. intros N K D. specialize (D (Z.max a b)). lia. Qed.

Lemma text_block s p : text_ok p -> (forall x, text x -> ~ own keep x /\ smem s !! x = m0 !! x) ->
  L_code <= code_gen_ptr s -> code_gen_ptr s + gen_room <= L_code + DEFAULT_CODE_GEN_BUFFER_SIZE ->
  block_ok (insns m0) jmp_span s p.
Proof.
  intros T E C1 C2. assert (Em : forall x, text x -> smem s !! x = m0 !! x) by (intros x Tx; now apply E). constructor.
  - intros k q Hk R. destruct (text_insn _ p k q T Em Hk R) as (i & f & Ia & _ & Sz & Np & Tx).
    exists i, f. split; [done|]. split; [done|]. split; [done|]. fold (len i).
    pose proof (len_pos i) as Li. assert (0 < gen_room) as Lg by done.
    destruct (apart_points q (len i) (code_gen_ptr s) gen_room Li Lg) as [|]; [|lia|lia].
    intros x Hx Bx. apply (proj1 (E x (Tx x Hx))). unfold own. lia.
  - intros k q i f Hk R Ia. destruct (text_insn _ p k q T Em Hk R) as (j & g & Ja & Jb & _).
    pose proof (encode_unique_aux _ q i j (ia_wf _ _ _ _ Ia) (ia_wf _ _ _ _ Ja) (ia_bytes _ _ _ _ Ia) (ia_bytes _ _ _ _ Ja)) as ->.
    now exists g.
  - intros k q Hk R. apply (tx_span p T k q); [done|]. now apply (text_reach (smem s)).
Qed.

(** ** Resuming *)

(** The host is back in its C code, and the guest [c] is parked. *)
Record back (S : Z -> Prop) (U : Z -> bool) (c : cpu) (s : st) (h : cpu) : Prop := {
  bk_good : good S (set_smem (cmem h) s);
  bk_ip : ip h = L_back;
  bk_left : left_by jmp_span S (set_smem (cmem h) s) (tb_of_addr (regs h R_EAX));
  bk_eip : ld32 (cmem h) A_eip = ip c;
  bk_parked : parked_at (regs c) (flags c) (cmem h);
  bk_other : forall g, ~ 0 <= g < 8 -> regs h g = regs c g;
  bk_mem : forall x, ~ own keep x -> U x = false -> cmem h !! x = cmem c !! x }.

(** The guest runs in the translation of its program counter. *)
Record inside (S : Z -> Prop) (b : bool) (U : Z -> bool) (c : cpu) (s : st) (h : cpu) : Prop := {
  is_good : good S s;
  is_framed : framed (smem s);
  is_follows : follows s keep U c h;
  is_code : closed_code (insns m0) jmp_span S s b (ip c) (ip h) }.

Lemma tidy_stack c U : tidy c U -> 4 <= esp c < 4294967296 /\ forall x, esp c - 4 <= x < esp c -> ~ own keep x.
Proof.
  intros T. pose proof (td_regs c U T R_ESP ltac:(done)) as R. pose proof (td_esp c U T). fold (esp c) in R.
  split; [lia|]. intros x Hx. apply (td_push c U T). apply pushed_true. rewrite u32_small by lia. lia.
Qed.

Lemma tidy_out c U x : tidy c U -> own keep x -> x < esp c - 4 \/ esp c <= x.
Proof.
  intros T Ox. destruct (tidy_stack c U T) as [_ Os]. destruct (Z.le_gt_cases (esp c - 4) x); [|lia].
  destruct (Z.le_gt_cases (esp c) x); [lia|]. exfalso. now apply (Os x).
Qed.

Lemma tidy_apart c U : tidy c U -> forall b n, 0 < n -> (forall x, b <= x < b + n -> own keep x) ->
  esp c <= b \/ b + n <= esp c - 4.
Proof.
  intros T b n N Ow. destruct (tidy_stack c U T) as [_ Os].
  destruct (apart_points (esp c - 4) 4 b n ltac:(lia) N) as [|]; [|lia|lia].
  intros x Hx Bx. apply (Os x); [lia|auto].
Qed.

Lemma tidy_ip c U : tidy c U -> 0 <= ip c < 4294967296.
Proof.
  intros T. destruct (tx_insn _ (td_ip c U T) 0 (ip c) ltac:(done) (reach_start _ _)) as (i & f & [_ _ Lo Hi _] & _). lia.
Qed.

(** The guest's stack word is apart from the host's frame and the stubs. *)
Lemma tidy_guest_stack c U : tidy c U -> guest_stack (regs c) (hsp - 16).
Proof.
  intros T. destruct (tidy_stack c U T) as [Es _]. pose proof Ho as [(H0 & H1 & H2 & H3) He _ _ _ _].
  unfold guest_stack. change (regs c R_ESP) with (esp c). pose proof (tidy_apart c U T) as Oe.
  pose proof (Oe L_env env_size ltac:(done) ltac:(unfold own; tauto)).
  pose proof (Oe L_prologue 2048 ltac:(lia) ltac:(unfold own; tauto)).
  pose proof (Oe (hsp - 16) 20 ltac:(lia) ltac:(intros x Hx; right; right; right; right; unfold keep; lia)). lia.
Qed.

(** What a dispatch and the host's calls leave alone. *)
Lemma host_keeps f s i s' x : trans_inv s -> room 1 s ->
  sieve_code_ptr s - L_sieve + stub_len * 255 + node_len <= DEFAULT_SIEVE_BUFFER_SIZE ->
  dispatched f s i s' -> (forall y, f y -> L_code <= y < code_gen_ptr s) ->
  ~ own keep x \/ L_env <= x < L_env + 32 \/ L_prologue <= x < L_prologue + 2048 \/ hs_lo <= x < hs_hi ->
  smem s' !! x = smem s !! x.
Proof.
  intros I R Rs D Fc Hx. pose proof (dp_code _ _ _ _ D) as Dc. pose proof (dp_sieve _ _ _ _ D) as Ds.
  pose proof (rm_code 1 s R) as Rc. pose proof (ti_code s I) as Tc. pose proof (ti_sieve s I) as Ts.
  destruct L as [L1 L2 L3 (P1 & P2 & P3) _ _]. destruct Ho as [_ H1 H2 H3 H4 _].
  assert (O : (x < L_code \/ code_gen_ptr s' <= x) /\ (x < L_sieve \/ sieve_code_ptr s' <= x) /\
    (x < L_env + 32 \/ L_env + env_size <= x)).
  { unfold turn_sieve in Ds. destruct Hx as [Hx|Hx]; [unfold own in Hx|]; unfold env_size in *; lia. }
  destruct O as (O1 & O2 & O3). unfold env_size in O3.
  apply (dp_mem _ _ _ _ D); unfold A_target_tc, A_ret_tb, A_ind_type; try lia. intros Fx. specialize (Fc x Fx). lia.
Qed.

Lemma called_mem h s h' x : called h s h' -> x < hs_lo \/ hs_hi <= x -> cmem h' !! x = smem s !! x.
Proof. intros C. apply (cd_mem _ _ _ C). Qed.

Lemma keep_off_host x : ~ own keep x -> x < hs_lo \/ hs_hi <= x.
Proof. intros O. unfold own, keep in O. lia. Qed.

Lemma host_stack_ok h : h R_ESP = hsp -> host_stack h.
Proof.
  intros E. unfold host_stack. rewrite E. destruct Ho as [H0 H1 H2 _ _ _]. lia.
Qed.

(** The state in which the prologue is called. *)
Record ready_to_run (S : Z -> Prop) (U : Z -> bool) (c : cpu) (i : nat) (s : st) (h : cpu) : Prop := {
  ry_good : good S s;
  ry_block : (i < nb_tbs s)%nat /\ pc (tbs s i) = ip c /\ L_code <= tc_ptr (tbs s i) <= code_gen_ptr s;
  ry_called : exists h0, called h0 s h /\ forall g, ~ 0 <= g < 8 -> regs h0 g = regs c g;
  ry_target : ld32 (cmem h) A_target_tc = tc_ptr (tbs s i);
  ry_parked : parked_at (regs c) (flags c) (cmem h);
  ry_mem : forall x, ~ own keep x -> U x = false -> cmem h !! x = cmem c !! x }.

Hypothesis Hf : (100 < dfuel)%nat.
Hypothesis Hcall : forall h s, called h s (call h s).

Lemma back_dispatches S U c s h : back S U c s h -> room_turns 2 (set_smem (cmem h) s) -> tidy c U ->
  exists i s' S', sstep (s, h) (s', call h s') /\ ready_to_run S' U c i s' (call h s').
Proof.
  intros [G Ip Lb Ei Pk Ot Me] R T. set (s2 := set_smem (cmem h) s) in *.
  pose proof G as [I _ A Re Ty B1 B2]. destruct (room_turns_room 1 s2 ltac:(lia) R) as [R1 Rs].
  pose proof (rt_code _ _ R) as Rc. assert (Gr : 0 < gen_room) by done.
  assert (Ee : env_eip s2 = ip c) by exact Ei.
  assert (Bk : block_ok (insns m0) jmp_span s2 (env_eip s2)).
  { rewrite Ee. apply text_block; [apply T| |apply I|nia]. intros x Tx.
    destruct (td_text c U T x Tx) as (O & Ux & E). split; [done|]. rewrite <- E. now apply Me. }
  destruct (runs_done _ _ _ (dispatch_code (insns m0) jmp_span L insns_range dfuel ds0 Hf S s2 _ I R1 ltac:(nia)
    ltac:(done) Bk A Ty Lb)) as (i & s3 & E & D & S3 & _ & A3).
  exists i, s3, S3. split; [now apply (ss_host _ _ i)|]. pose proof (Hcall h s3) as C. set (h3 := call h s3) in *.
  pose proof (fun x => host_keeps _ s2 i s3 x I R1 Rs D ltac:(done)) as Hs.
  pose proof (dispatched_room _ 1 s2 i s3 ltac:(lia) R D) as R3.
  destruct (dp_pc _ _ _ _ D) as [Di Dp]. destruct (dp_env _ _ _ _ D) as (Dt & _ & Dy). pose proof (dp_tc _ _ _ _ D) as Dc.
  pose proof (room_bufs 1 s3 ltac:(lia) R3) as B3. pose proof B3 as [Cb _]. pose proof (lo_range L) as Lr.
  destruct (tidy_stack c U T) as [Es Os]. pose proof Ho as [_ He Hp _ _ _]. unfold env_size in *.
  constructor.
  - constructor; try done; [apply D|destruct (dp_const _ _ _ _ D) as [_ ->]; exact Re|..].
    + apply (at_bytes_ext (smem s2)); [|done]. intros x Hx. rewrite items_bytes_length, prologue_len in Hx. apply Hs. lia.
    + apply (at_bytes_ext (smem s2)); [|done]. intros x Hx. apply Hs. unfold epilogue in *.
      change (Z.of_nat (length _)) with 66 in Hx. lia.
  - split; [exact Di|]. split; [congruence|exact Dc].
  - exists h. auto.
  - rewrite (ld32_ext (smem s3)); [rewrite Dt; apply u32_small; lia|]. intros x Hx. apply (called_mem _ _ _ _ C).
    unfold A_target_tc in *. lia.
  - apply (parked_at_ext _ _ (cmem h)); [done|done|]. intros x Hx. change (regs c R_ESP) with (esp c) in Hx.
    rewrite (called_mem _ _ _ _ C).
    + apply Hs. destruct Hx as [Hx|Hx]; [tauto|left; now apply Os].
    + destruct Hx as [Hx|Hx]; [lia|]. now apply keep_off_host, Os.
  - intros x Ox Ux. rewrite (called_mem _ _ _ _ C) by now apply keep_off_host. rewrite Hs by tauto. now apply Me.
Qed.

(** What the prologue leaves alone. *)
Lemma switched_keeps h m x : h R_ESP = hsp -> ~ own keep x \/ L_code <= x < L_code + DEFAULT_CODE_GEN_BUFFER_SIZE \/
  L_sieve <= x < L_sieve + DEFAULT_SIEVE_BUFFER_SIZE \/ L_prologue <= x < L_prologue + 2048 \/
  L_env + 52 <= x < L_env + env_size -> switched h m !! x = m !! x.
Proof.
  intros E Hx. destruct L as [L1 L2 _ (L3 & _) _ _]. destruct Ho as [(H0 & H1 & H2 & H3) He Hp H4 H5 _].
  assert (K : (x < hs_lo \/ hs_hi <= x) /\ (x < L_env \/ L_env + 52 <= x)).
  { destruct Hx as [Hx|Hx].
    - split; [now apply keep_off_host|]. destruct (Z.le_gt_cases L_env x); [|lia]. right.
      destruct (Z.le_gt_cases (L_env + env_size) x) as [|Lt]; [unfold env_size in *; lia|]. exfalso. apply Hx. left. lia.
    - unfold env_size in *. destruct Hx as [Hx|[Hx|[Hx|Hx]]]; lia. }
  apply switched_out; rewrite ?E; unfold A_esp_tmp; lia.
Qed.

(** The prologue takes the guest up in the block's code. *)
Lemma prologue_resumes S U c i s h : ready_to_run S U c i s h -> tidy c U ->
  exists h', rtc mstep h h' /\ inside S true U c (set_smem (cmem h') s) h'.
Proof.
  intros [G (Bi & Bp & Bt) (h0 & C & Ot) Tg Pk Me] T. destruct (tidy_stack c U T) as [Es Os].
  pose proof Ho as [(H0 & H1 & H2 & H3) He Hp _ _ _]. pose proof (lo_prologue L) as (Lp & _). pose proof (lo_range L) as Lr.
  pose proof (tidy_guest_stack c U T) as (_ & Oe & _ & Oh & _).
  assert (Oh' : regs h R_ESP <= regs c R_ESP - 4 \/ regs c R_ESP <= regs h R_ESP - 16) by (rewrite (cd_sp _ _ _ C); lia).
  assert (Bh : at_bytes (cmem h) L_prologue (items_bytes L_prologue prologue_items)).
  { apply (at_bytes_ext (smem s)); [|apply G]. intros x Hx. rewrite items_bytes_length, prologue_len in Hx.
    apply (called_mem _ _ _ _ C). lia. }
  pose proof (resume_run (regs c) (flags c) (cmem h) (regs h) (flags h) L Pk Es Oe (host_stack_ok _ (cd_sp _ _ _ C)) Oh' Bh) as Ld.
  assert (Eh : mkCpu (regs h) L_prologue (flags h) (cmem h) = h).
  { rewrite <- (cd_ip _ _ _ C). now destruct h. }
  rewrite Eh in Ld. destruct (leads_msteps _ _ Ld) as (h' & Rh & [K1 K2 K3 K4 K5]). exists h'. split; [exact Rh|].
  assert (Out : forall x, ~ own keep x \/ L_code <= x < L_code + DEFAULT_CODE_GEN_BUFFER_SIZE \/
    L_sieve <= x < L_sieve + DEFAULT_SIEVE_BUFFER_SIZE \/ L_prologue <= x < L_prologue + 2048 \/
    L_env + 52 <= x < L_env + env_size -> cmem h' !! x = cmem h !! x).
  { intros x Hx. rewrite K5. apply switched_keeps; [apply C|exact Hx]. }
  assert (Off : forall x, L_code <= x < L_code + DEFAULT_CODE_GEN_BUFFER_SIZE \/
    L_sieve <= x < L_sieve + DEFAULT_SIEVE_BUFFER_SIZE \/ L_prologue <= x < L_prologue + 2048 \/
    L_env + 52 <= x < L_env + env_size -> cmem h' !! x = smem s !! x).
  { intros x Hx. rewrite Out by tauto. apply (called_mem _ _ _ _ C). destruct Ho as [_ _ _ H4 H5 _]. lia. }
  pose proof (gd_bufs _ _ G) as (Cb & Sb & _).
  assert (G' : good S (set_smem (cmem h') s)).
  { apply good_mem; [done| |].
    - rewrite (ld32_ext (smem s)); [apply (ti_patch_num s), G|]. intros x Hx. apply Off.
      unfold A_patch_num, env_size in *. lia.
    - intros x Hx. apply Off. unfold A_ind_type, env_size in *. lia. }
  constructor; [done| | |].
  - split; cbn [set_smem smem].
    + rewrite K5. unfold switched. rewrite ld32_st32, (cd_sp _ _ _ C). apply u32_small. lia.
    + rewrite <- (cd_back _ _ _ C). apply ld32_ext. intros x Hx. rewrite K5.
      apply switched_out; rewrite ?(cd_sp _ _ _ C); [lia|]. unfold A_esp_tmp, env_size in *. lia.
  - constructor; [|exact K2|].
    + apply functional_extensionality. intros g. destruct (decide (0 <= g < 8)) as [Hg|Hg]; [now apply K3|].
      rewrite K4, (cd_other _ _ _ C) by done. now apply Ot.
    + constructor; [|done]. intros x Ox Ux. rewrite Out by tauto. now apply Me.
  - rewrite K1, Tg, <- Bp. apply (ac_code _ _ _ _ (gd_code _ _ G') i Bi). cbn [set_smem tbs].
    destruct L as [_ _ _ _ _ Ln]. intros E. rewrite E in Bt. lia.
Qed.

(** ** Leaving *)

Lemma follows_keep U c s h x : follows s keep U c h -> keep x -> cmem h !! x = smem s !! x.
Proof. intros [_ _ [_ B]] K. apply B. unfold bufs. tauto. Qed.

Lemma framed_kept U c s h : framed (smem s) -> follows s keep U c h -> framed (cmem h).
Proof.
  pose proof Ho as [(H0 & H1 & H2 & H3) _ _ _ _ _]. intros [Fe Fb] F.
  split; [rewrite <- Fe|rewrite <- Fb]; apply ld32_ext; intros x Hx; apply (follows_keep U c); try done; unfold keep; lia.
Qed.

(** The epilogue parks the guest. *)
Lemma epilogue_parks S U c s h : good S s -> framed (smem s) -> follows s keep U c h -> tidy c U ->
  ip h = u32 (tb_ret_addr (cgc s)) ->
  exists h', rtc mstep h h' /\ back_in_host (regs c) (flags c) (cmem h) h'.
Proof.
  intros G Fr F T Hi. destruct (framed_kept U c s h Fr F) as [Ee _]. pose proof (lo_range L) as Lr.
  assert (Be : at_bytes (cmem h) epilogue (items_bytes epilogue epilogue_items)).
  { apply (at_bytes_ext (smem s)); [|apply G]. intros x Hx. apply (follows_keep U c); [done|]. unfold keep, epilogue in *.
    change (Z.of_nat (length _)) with 66 in Hx. lia. }
  pose proof (tidy_guest_stack c U T) as Gs. rewrite <- Ee, <- (fo_regs _ _ _ _ _ F) in Gs.
  pose proof (epilogue_run (regs h) (flags h) (cmem h) L Gs Be) as Ld.
  assert (Eh : mkCpu (regs h) epilogue (flags h) (cmem h) = h).
  { replace epilogue with (ip h); [now destruct h|]. rewrite Hi, (gd_ret _ _ G). apply u32_small. unfold epilogue. lia. }
  rewrite Eh, (fo_regs _ _ _ _ _ F), (fo_flags _ _ _ _ _ F) in Ld. exact (leads_msteps _ _ Ld).
Qed.

(** What parking leaves alone. *)
Lemma parked_keeps c U m x : tidy c U -> x < L_env \/ L_env + 32 <= x -> own keep x \/ U x = false ->
  parked (regs c) (flags c) m !! x = m !! x.
Proof.
  intros T X [Ox|Ux]; (apply parked_out; [done|]); change (regs c R_ESP) with (esp c); [now apply (tidy_out c U)|].
  destruct (tidy_stack c U T) as [Es _]. assert (~ (esp c - 4 <= x < esp c)); [|lia]. intros Hx.
  destruct (td_push c U T x) as [_ E]; [apply pushed_true; rewrite u32_small; lia|congruence].
Qed.

Lemma parked_env c U m a : tidy c U -> L_env + 32 <= a -> a + 4 <= L_env + env_size ->
  ld32 (parked (regs c) (flags c) m) a = ld32 m a.
Proof. intros T A1 A2. apply ld32_ext. intros x Hx. apply (parked_keeps c U); [done|lia|left; unfold own; lia]. Qed.

Lemma tb_of_tb_addr i s : Z.of_nat (nb_tbs s) <= code_gen_max_blocks -> (i < nb_tbs s)%nat ->
  u32 (tb_addr i) = tb_addr i /\ tb_of_addr (tb_addr i) = Some i.
Proof.
  intros R Hi. pose proof (ho_tbs Ho) as [H1 H2].
  unfold tb_addr, tb_of_addr, sizeof_TranslationBlock in *. split; [apply u32_small; lia|].
  destruct (Z.eqb_spec (L_tbs + 256 * Z.of_nat i) 0); [lia|]. f_equal.
  replace (L_tbs + 256 * Z.of_nat i - L_tbs) with (Z.of_nat i * 256) by lia. rewrite Z.div_mul by lia. lia.
Qed.

(** A stub has handed over to the epilogue. *)
Lemma handed_back S U c s h : good S s -> framed (smem s) -> follows s keep U c h ->
  handed jmp_span S s (ip c) h -> tidy c U -> exists h', rtc mstep h h' /\ back S U c s h'.
Proof.
  intros G Fr F [Hi He (a & tb & k & Sa & St & Hr & Hn)] T.
  destruct (epilogue_parks S U c s h G Fr F T Hi) as (h' & Rh & K). exists h'. split; [exact Rh|].
  destruct (framed_kept U c s h Fr F) as [Ee Eb]. destruct K as [K1 K2 _ _ _ _ _ K8 K9].
  pose proof F as [_ _ [F3 F4]]. pose proof (tidy_ip c U T) as Ri.
  assert (We : forall x, L_env + 32 <= x -> x + 4 <= L_env + env_size -> ld32 (cmem h') x = ld32 (cmem h) x)
    by (intros x X1 X2; rewrite K8; now apply (parked_env c U)).
  destruct (gd_bufs _ _ G) as (Cb & Sb & Nb). pose proof St as (_ & _ & _ & _ & _ & Hk & Ht1 & _).
  destruct (tb_of_tb_addr tb s Nb Ht1) as [Ea Et].
  assert (Mk : forall x, bufs s keep x -> (x < L_env \/ L_env + 32 <= x) -> cmem h' !! x = smem s !! x).
  { intros x Bx Ex. rewrite K8, (parked_keeps c U) by (done || (left; now apply (bufs_own s Cb Sb keep))). now apply F4. }
  assert (Ln : forall x, L_code <= x < code_gen_ptr s \/ L_sieve <= x < sieve_code_ptr s -> x < L_env \/ L_env + 32 <= x).
  { destruct L as [L1 L2 _ _ _ _]. unfold env_size in *. lia. }
  assert (St' : stub_of jmp_span (set_smem (cmem h') s) a (ip c) tb k).
  { pose proof (ac_sites _ _ _ _ (gd_code _ _ G) a Sa) as Ba. apply (stub_of_kept jmp_span s); try done; cbn [set_smem smem].
    - intros x Hx. apply Mk; [unfold bufs; lia|]. apply Ln. lia.
    - intros x Hx. apply Mk; [unfold bufs; lia|]. apply Ln. lia.
    - intros d _. split; [done|]. intros _. apply kept_refl. }
  constructor; try done.
  - pose proof (lo_prologue L) as (Lp & _). unfold env_size in *. apply good_mem; [done| |].
    + rewrite We, Hn by (unfold A_patch_num, env_size; lia). lia.
    + intros x Hx. unfold A_ind_type in Hx. apply Mk; [unfold bufs, keep, A_ind_type; tauto|]. specialize (Ln x). lia.
  - rewrite K1, Ee, <- Eb. f_equal. lia.
  - rewrite K2, Hr, Ea, Et. apply (lb_branch _ _ _ a); [done|]. unfold env_eip, env_patch_num. cbn [set_smem smem].
    rewrite !We, He, Hn, u32_small by (unfold A_eip, A_patch_num, env_size in *; lia). exact St'.
  - rewrite We by (unfold A_eip, env_size; lia). rewrite He. apply u32_small. lia.
  - rewrite K8. destruct (tidy_stack c U T) as [Es _]. apply parked_is_at; try done; try apply T.
    apply (tidy_apart c U T); [done|]. unfold own. tauto.
  - intros x Ox Ux. rewrite K8, (parked_keeps c U) by (try tauto; unfold own, env_size in Ox; lia). now apply F3.
Qed.

(** ** The run *)

(** [m] is the memory as the prologue left it. *)
Definition in_block (U : Z -> bool) (c : cpu) (s : st) (h : cpu) : Prop :=
  exists S m, inside S true U c (set_smem m s) h.

(** The guest is parked, and there may not be space for another block. *)
Definition spent (U : Z -> bool) (c : cpu) (s : st) (h : cpu) : Prop :=
  exists S, back S U c s h /\ ~ room_turns 2 (set_smem (cmem h) s).

Lemma back_resumes S U c s h : back S U c s h -> tidy c U ->
  exists s' h', rtc sstep (s, h) (s', h') /\ (in_block U c s' h' \/ spent U c s' h').
Proof.
  intros B T. destruct (decide (room_turns 2 (set_smem (cmem h) s))) as [R|R]; [|exists s, h; split; [constructor|right; now exists S]].
  destruct (back_dispatches S U c s h B R T) as (i & s' & S' & St & Ry).
  destruct (prologue_resumes S' U c i s' _ Ry T) as (h' & R' & K). exists s', h'.
  split; [|left; now exists S', (cmem h')]. apply (rtc_l _ _ (s', call h s')); [done|now apply sstep_cpu].
Qed.

(** The host follows the guest: in its code, or on the way to the dispatcher. *)
Definition on_the_way (U : Z -> bool) (c : cpu) (s : st) (h : cpu) : Prop :=
  exists S m, good S (set_smem m s) /\ framed m /\
    went (insns m0) jmp_span S (set_smem m s) keep U c h.

Lemma turn S m U c s h : good S (set_smem m s) -> framed m ->
  follows (set_smem m s) keep U c h -> handed jmp_span S (set_smem m s) (ip c) h -> tidy c U ->
  exists s' h', rtc sstep (s, h) (s', h') /\ (in_block U c s' h' \/ spent U c s' h').
Proof.
  intros G Fr F Hd T. destruct (handed_back S U c (set_smem m s) h G Fr F Hd T) as (h1 & R1 & [B1 B2 B3 B4 B5 B6 B7]).
  assert (B : back S U c s h1) by (constructor; done).
  destruct (back_resumes S U c s h1 B T) as (s' & h' & R2 & K). exists s', h'. split; [|done].
  transitivity (s, h1); [now apply sstep_cpu|done].
Qed.

(** One way or the other the host gets to the guest's code. *)
Lemma settles U c s h : on_the_way U c s h -> tidy c U ->
  exists s' h', rtc sstep (s, h) (s', h') /\ (in_block U c s' h' \/ spent U c s' h').
Proof.
  intros (S & m & G & Fr & F & [C|Hd]) T; [|now apply (turn S m U c s h)].
  destruct (gd_bufs _ _ G) as (Cb & Sb & _).
  destruct (goto_arrives (insns m0) jmp_span S (set_smem m s) L (gd_inv _ _ G) (gd_code _ _ G) Cb Sb keep
    keep_scratch U c h F C) as (h1 & R1 & F1 & [C1|Hd]).
  - exists s, h1. split; [now apply sstep_cpu|]. left. exists S, m. now constructor.
  - destruct (turn S m U c s h1 G Fr F1 Hd T) as (s' & h' & R2 & K). exists s', h'. split; [|done].
    transitivity (s, h1); [now apply sstep_cpu|done].
Qed.

Lemma follows_more U U' c s h : (forall x, U x = true -> U' x = true) -> follows s keep U c h -> follows s keep U' c h.
Proof.
  intros M [F1 F2 [F3 F4]]. constructor; try done. constructor; [|done]. intros x Ox Ux. apply F3; [done|].
  destruct (U x) eqn:E; [|done]. apply M in E. congruence.
Qed.

Lemma block_step U c s h y : in_block U c s h -> ustep (c, U) y ->
  exists h', rtc mstep h h' /\ on_the_way y.2 y.1 s h'.
Proof.
  intros (S & m & [G Fr F C]) (U1 & Gs & Eu & T). destruct y as [c' U']. cbn [fst snd] in *.
  destruct (gd_bufs _ _ G) as (Cb & Sb & _).
  destruct (sim_step (insns m0) jmp_span S (set_smem m s) L (gd_inv _ _ G) (gd_code _ _ G) Cb Sb
    (insns_det m0) keep keep_scratch U c U1 c' h F C Gs) as (h' & R & F' & W).
  exists h'. split; [done|]. exists S, m. split; [done|]. split; [done|]. split; [|done].
  apply (follows_more U1); [|done]. intros x Ux. now rewrite Eu, Ux.
Qed.

Lemma sys_runs x y : rtc ustep x y -> forall s h, tidy x.1 x.2 -> in_block x.2 x.1 s h ->
  exists z s' h', rtc ustep x z /\ rtc ustep z y /\ rtc sstep (s, h) (s', h') /\
    (z = y /\ in_block z.2 z.1 s' h' \/ spent z.2 z.1 s' h').
Proof.
  induction 1 as [x|x z y St R IH]; intros s h T B.
  - exists x, s, h. split; [constructor|]. split; [constructor|]. split; [constructor|now left].
  - destruct x as [c U]. cbn [fst snd] in *.
    destruct (block_step U c s h z B St) as (h1 & R1 & W).
    assert (Tz : tidy z.1 z.2) by (destruct St as (? & _ & _ & ?); done).
    destruct (settles z.2 z.1 s h1 W Tz) as (s2 & h2 & R2 & [B2|Sp]).
    + destruct (IH s2 h2 Tz B2) as (w & s' & h' & R3 & R4 & R5 & K). exists w, s', h'.
      split; [now apply (rtc_l _ _ z)|]. split; [done|]. split; [|done].
      transitivity (s, h1); [now apply sstep_cpu|]. now transitivity (s2, h2).
    + exists z, s2, h2. split; [now apply rtc_once|]. split; [done|]. split; [|now right].
      transitivity (s, h1); [now apply sstep_cpu|done].
Qed.

End System.
