(* ===== verification/SystemThm.v ===== *)
(** The run of the whole machine, from the initialisation of the translator on. *)

From S2P Require Import Prelude Memory Opcode DecodeTable Decode DecodeSpec DecodeProofs DecodeThm.
From S2P Require Import State TransBlock Emit Translate CpuExec Frame Session Handlers Linking GenCode Translation.
From S2P Require Import Dispatch Machine Sieve Prologue IndThm CpuLoop Switch Processor BlockCode BlockLoop BlockSim Rounds System.
From stdpp Require Import relations.
#[local] Open Scope Z_scope.

Section Start.
Context {Lay : Layout} {Proc : Processor}.
Variables (L_back hsp hs_lo hs_hi : Z) (m0 : mem) (text : Z -> Prop).

(** The loader has put guest [c] into memory and its registers into
    [CPUX86State], and nothing is translated. *)
Record loaded (U : Z -> bool) (c : cpu) (s : st) : Prop := {
  ld_tables : tables_ok s;
  ld_none : forall i, (i < nb_tbs s)%nat -> tc_ptr (tbs s i) = NOT_TRANS_YET;
  ld_full : tb_full s = false;
  ld_ind : env_ind_type s = NOT_IND;
  ld_eip : env_eip s = ip c;
  ld_regs : forall g, 0 <= g < 8 -> ld32 (smem s) (A_reg g) = regs c g;
  ld_flags : ld32 (smem s) (esp c - 4) = flags c;
  ld_mem : forall x, ~ own (keep hs_lo hs_hi) x -> U x = false -> smem s !! x = cmem c !! x }.

(** The host after the initialisation: its call of [dispatch] comes next, with
    no previous block. *)
Record at_start (c : cpu) (s : st) (h : cpu) : Prop := {
  as_ip : ip h = L_back;
  as_eax : regs h R_EAX = 0;
  as_other : forall g, ~ 0 <= g < 8 -> regs h g = regs c g;
  as_mem : forall x, x < hs_lo \/ hs_hi <= x -> cmem h !! x = smem s !! x }.

Hypothesis L : layout_ok.
Hypothesis Ho : host_ok hsp hs_lo hs_hi.

Lemma loaded_good U c s s1 : loaded U c s -> started s s1 -> good m0 (fun _ => False) s1.
Proof.
  intros [T Nt Fu Ty _ _ _ _] St. pose proof (sr_mem _ _ St) as M. apply orb_false_iff in Fu as [F1 F2].
  constructor; try apply St; try apply M.
  - rewrite (sr_code _ _ St), (sr_sv _ _ St), (sr_nb _ _ St). unfold sieve_len, DEFAULT_SIEVE_BUFFER_SIZE.
    unfold code_gen_buffer_max_size, TCG_MAX_OP_SIZE, OPC_MAX_SIZE in F2. lia.
  - constructor; [done|done|]. intros i Hi Ti. rewrite (sr_nb _ _ St) in Hi. exfalso. apply Ti.
    destruct (Nat.eq_dec i (nb_tbs s)) as [->|D]; [apply (sr_made _ _ St)|].
    rewrite (sr_old _ _ St) by lia. apply Nt. lia.
  - rewrite <- Ty. apply ld32_ext. intros x Hx. destruct L as [_ L2 _ (Lp & _) _ _].
    unfold A_ind_type, env_size in *. apply (lo_frame _ _ M); unfold sieve_len, A_regs, R_ESP, A_ret_hash_table,
      A_sieve_hashtable, RET_CACHE_SIZE, SIEVE_SIZE, DEFAULT_SIEVE_BUFFER_SIZE in *; lia.
Qed.

(** The initialisation keeps the guest. *)
Lemma started_guest s s1 x : started s s1 -> ~ own (keep hs_lo hs_hi) x -> smem s1 !! x = smem s !! x.
Proof.
  intros St O. assert (K : (x < L_env \/ L_env + env_size <= x) /\ (x < L_prologue \/ L_prologue + 2048 <= x) /\
    (x < L_sieve \/ L_sieve + DEFAULT_SIEVE_BUFFER_SIZE <= x)).
  { unfold own in O. split; [|split]; (match goal with |- ?a < ?b \/ _ => destruct (Z.lt_ge_cases a b) end; [auto|right]);
      apply Znot_gt_le; intros G; apply O; lia. }
  apply (lo_frame _ _ (sr_mem _ _ St)); unfold sieve_len, A_regs, R_ESP, A_ret_hash_table,
      A_sieve_hashtable, RET_CACHE_SIZE, SIEVE_SIZE, env_size, DEFAULT_SIEVE_BUFFER_SIZE in *; lia.
Qed.

Lemma loaded_back U c s s1 h : loaded U c s -> started s s1 -> at_start c s1 h -> tidy hs_lo hs_hi m0 text c U ->
  back L_back hs_lo hs_hi m0 (fun _ => False) U c s1 h.
Proof.
  intros Ld St [H1 H2 H3 H4] T. pose proof (loaded_good U c s s1 Ld St) as G.
  destruct (tidy_stack _ _ _ _ c U T) as [Es Os]. pose proof (sr_mem _ _ St) as M.
  pose proof Ho as [_ He Hp Hc Hs _].
  assert (Mh : forall x, ~ own (keep hs_lo hs_hi) x \/ L_env <= x < L_env + env_size \/ L_prologue <= x < L_prologue + 2048 \/
    L_code <= x < L_code + DEFAULT_CODE_GEN_BUFFER_SIZE \/ L_sieve <= x < L_sieve + DEFAULT_SIEVE_BUFFER_SIZE ->
    cmem h !! x = smem s1 !! x).
  { intros x [O|Hx]; apply H4; [now apply (keep_off_host hs_lo hs_hi)|lia]. }
  assert (Me : forall x, ~ own (keep hs_lo hs_hi) x -> cmem h !! x = smem s !! x).
  { intros x O. rewrite Mh by tauto. now apply started_guest. }
  assert (We : forall a, L_env <= a -> a + 4 <= L_env + 72 ->
    (a + 4 <= L_env + 16 \/ L_env + 20 <= a) -> ld32 (cmem h) a = ld32 (smem s) a).
  { intros a A1 A2 A3. apply ld32_ext. intros x Hx. rewrite Mh by (unfold env_size; lia).
    apply (laid_out_env _ _ _ M L); lia. }
  constructor; try done.
  - apply (good_mem L_back m0 text L); [done| |].
    + rewrite (ld32_ext (smem s1)); [apply (ti_patch_num s1), G|]. intros x Hx. apply Mh. unfold A_patch_num, env_size in *. lia.
    + intros x Hx. apply Mh. pose proof (gd_bufs _ _ _ G). unfold A_ind_type, env_size in *. lia.
  - rewrite H2. constructor.
  - rewrite We by (unfold A_eip; lia). apply Ld.
  - constructor.
    + intros g Hg. unfold flagged. destruct (Z.eq_dec g R_ESP) as [->|D].
      * rewrite fn_lookup_insert. rewrite (ld32_ext (smem s1)); [|intros x Hx; apply Mh; unfold A_reg, A_regs, R_ESP, env_size in *; lia].
        change (A_reg R_ESP) with (A_regs + R_ESP * 4). rewrite (lo_esp _ _ M). change (A_regs + R_ESP * 4) with (A_reg R_ESP).
        rewrite (ld_regs _ _ _ Ld) by done. apply u32_small. change (regs c R_ESP) with (esp c). lia.
      * rewrite fn_lookup_insert_ne by congruence. rewrite <- (ld_regs _ _ _ Ld) by done.
        unfold R_ESP in D. apply We; unfold A_reg, A_regs; lia.
    + rewrite <- (ld_flags _ _ _ Ld). apply ld32_ext. intros x Hx. apply Me, Os. change (regs c R_ESP) with (esp c) in Hx. lia.
  - intros x Ox Ux. rewrite Me by done. now apply (ld_mem _ _ _ Ld).
Qed.

End Start.

(** ** The theorem *)

(** C1: the translator runs the guest. Load a guest, initialise the translator,
    and let the machine run: the processor executes what lies in memory, and
    whenever it is back in the host's code, [dispatch] finds or translates the
    next block and the prologue is called again. However far the guest runs on
    its own (in steps of the processor, by instructions other than far transfers,
    apart from the emulator's memory), the machine gets there too, with the same
    registers and flags and the same memory outside the emulator's; or it reaches
    a dispatch for a state on the guest's way at which the buffers may not hold
    another block. The C code around [dispatch] is unknown, but for the calling
    convention. *)
Theorem system_simulates `{Layout} `{Processor} dfuel ds L_back hsp hs_lo hs_hi call m0 text U c U' c' s0 :
  layout_ok -> host_ok hsp hs_lo hs_hi -> (100 < dfuel)%nat ->
  (forall h s, called L_back hsp hs_lo hs_hi h s (call h s)) ->
  loaded hs_lo hs_hi U c s0 -> tidy hs_lo hs_hi m0 text c U ->
  rtc (ustep hs_lo hs_hi m0 text) (c, U) (c', U') ->
  exists s1, codecache_prologue_init s0 = Ok (tt, s1) /\ forall h, at_start L_back hs_lo hs_hi c s1 h ->
  exists c1 U1 s' h', rtc (ustep hs_lo hs_hi m0 text) (c, U) (c1, U1) /\
    rtc (ustep hs_lo hs_hi m0 text) (c1, U1) (c', U') /\
    rtc (sstep dfuel ds L_back call) (s1, h) (s', h') /\
    ((c1, U1) = (c', U') /\ regs h' = regs c' /\ flags h' = flags c' /\
       (forall x, ~ own (keep hs_lo hs_hi) x -> U' x = false -> cmem h' !! x = cmem c' !! x) \/
     spent L_back hs_lo hs_hi m0 U1 c1 s' h').
Proof.
  intros L Ho F Hc Ld T R.
  destruct (runs_done _ _ _ (init_runs s0 L (ld_tables _ _ _ _ _ Ld) (ld_full _ _ _ _ _ Ld))) as ([] & s1 & E & St).
  exists s1. split; [done|]. intros h As. pose proof (loaded_back L_back hsp hs_lo hs_hi m0 text L Ho U c s0 s1 h Ld St As T) as B.
  destruct (back_resumes dfuel ds L_back hsp hs_lo hs_hi call m0 text L Ho F Hc _ U c s1 h B T) as (s2 & h2 & R2 & [K|K]).
  2:{ exists c, U, s2, h2. split; [constructor|]. split; [done|]. split; [done|]. now right. }
  destruct (sys_runs dfuel ds L_back hsp hs_lo hs_hi call m0 text L Ho F Hc (c, U) (c', U') R s2 h2 T K)
    as ([c1 U1] & s' & h' & G1 & G2 & R3 & W).
  exists c1, U1, s', h'. split; [done|]. split; [done|]. split; [now transitivity (s2, h2)|].
  destruct W as [[W (S & m & [_ _ [F1 F2 [F3 _]] _])]|W]; [left|now right]. injection W as <- <-. auto.
Qed.

(** ** Example *)

(** The example code: [je] is not taken, [nop].  Calls keep nothing of the host's
    registers but the stack pointer. *)
Definition demo_back : Z := 0x7000000.
Definition demo_hsp : Z := 0x7fff0010.
Definition demo_host_call (h : cpu) (s : st) : cpu :=
  mkCpu (fun g => if g =? R_ESP then demo_hsp else if (0 <=? g) && (g <? 8) then 0 else regs h g) 0x9300000 0
    (st32 demo_hsp demo_back (smem s)).
Definition demo_text (x : Z) : Prop := 0x8048000 <= x < 0x8048004.
Definition demo_guest (a : Z) : cpu := mkCpu (demo_regs 0x8050004) a 0 demo_mem.
Definition demo_undef (x : Z) : bool := (0x8050000 <=? x) && (x <? 0x8050004).
Definition demo_boot : st := init_st (@st32 (@A_ind_type demo_layout) NOT_IND
  (@st32 (@A_eip demo_layout) 0x8048000 (@st32 (@A_reg demo_layout R_ESP) 0x8050004 demo_mem))).

Lemma demo_host_ok : @host_ok demo_layout demo_hsp 0x7ffe0000 0x7fff0020.
Proof. constructor; vm_compute; intuition discriminate. Qed.

Lemma demo_called h s : @called demo_layout demo_back demo_hsp 0x7ffe0000 0x7fff0020 h s (demo_host_call h s).
Proof.
  constructor; cbn [demo_host_call ip regs cmem]; try done.
  - intros g Hg. destruct (Z.eqb_spec g R_ESP) as [->|D]; [unfold R_ESP in Hg; lia|].
    destruct (Z.leb_spec 0 g), (Z.ltb_spec g 8); try done; lia.
  - intros x Hx. apply st32_out. unfold demo_hsp. lia.
  - apply ld32_st32.
Qed.

Lemma demo_apart x : 0x8000000 <= x < 0x9000000 -> ~ @own demo_layout (@keep demo_layout 0x7ffe0000 0x7fff0020) x.
Proof.
  intros Hx O. unfold own, keep, env_size, A_esp_tmp, A_ind_type, DEFAULT_SIEVE_BUFFER_SIZE, DEFAULT_CODE_GEN_BUFFER_SIZE in O.
  cbn in O. lia.
Qed.

(** The code from each of the three instructions on. *)
Lemma demo_text_ok k : (k < 3)%nat -> text_ok demo_mem demo_text (0x8048000 + nth k [0; 2; 3] 0).
Proof.
  intros Hk. assert (K : straight 100 (drop k je_code) = true /\
    at_bytes demo_mem (0x8048000 + nth k [0; 2; 3] 0) (code_of (drop k je_code)) /\ 0 <= nth k [0; 2; 3] 0 /\
    nth k [0; 2; 3] 0 + Z.of_nat (length (code_of (drop k je_code))) <= 4).
  { do 3 (destruct k as [|k]; [split; [vm_compute; reflexivity|]; split; [vm_compute; reflexivity|]; cbn; lia|]). lia. }
  destruct K as (K1 & K2 & K3 & K4). apply (text_straight _ _ _ (drop k je_code)); try done; try lia.
  intros x Hx. unfold demo_text. lia.
Qed.

Lemma demo_tidy k : (k < 3)%nat ->
  @tidy demo_layout 0x7ffe0000 0x7fff0020 demo_mem demo_text (demo_guest (0x8048000 + nth k [0; 2; 3] 0)) demo_undef.
Proof.
  intros Hk. constructor; cbn [demo_guest regs flags ip cmem].
  - intros g Hg. unfold demo_regs. destruct (Z.eq_dec g R_ESP) as [->|D]; [rewrite fn_lookup_insert; lia|].
    rewrite fn_lookup_insert_ne by congruence. lia.
  - lia.
  - unfold esp, demo_guest, demo_regs. cbn [regs]. rewrite fn_lookup_insert. lia.
  - intros x Hx. apply pushed_true in Hx. unfold esp, demo_guest, demo_regs in Hx. cbn [regs] in Hx. rewrite fn_lookup_insert in Hx.
    change (u32 (0x8050004 - 4)) with 0x8050000 in Hx. split; [apply demo_apart; lia|unfold demo_undef; lia].
  - intros x Hx. unfold demo_text in Hx. split; [apply demo_apart; lia|]. split; [unfold demo_undef; lia|done].
  - now apply demo_text_ok.
Qed.

Lemma demo_loaded : @loaded demo_layout 0x7ffe0000 0x7fff0020 demo_undef (demo_guest 0x8048000) demo_boot.
Proof.
  constructor.
  - constructor; [apply init_inv|intros i Hi; cbn in Hi; lia|intros i Hi; cbn in Hi; lia|cbn; lia|..];
      vm_compute; reflexivity.
  - intros i Hi. cbn in Hi. lia.
  - reflexivity.
  - vm_compute. reflexivity.
  - vm_compute. reflexivity.
  - intros g Hg. assert (exists j, (j < 8)%nat /\ g = Z.of_nat j) as (j & Hj & ->) by (exists (Z.to_nat g); lia).
    clear Hg. do 8 (destruct j as [|j]; [vm_compute; reflexivity|]). lia.
  - vm_compute. reflexivity.
  - intros x Ox _. unfold own in Ox. unfold demo_boot, demo_guest. cbn [smem init_st cmem].
    unfold env_size, A_ind_type, A_eip, A_reg, A_regs, R_ESP in *. cbn in Ox. rewrite !st32_out; [done|cbn; lia..].
Qed.

Lemma demo_fetched k i : nth_error je_code k = Some i -> 
  fetched (insns demo_mem) (demo_guest (0x8048000 + nth k [0; 2; 3] 0)) i.
Proof.
  intros Hi. assert (W : wf_insn i = true /\ exists fe at_ f, select i = Some (fe, at_) /\ ptr fe = Emit f /\
      hasb at_ DF_UNDEFINED = false /\ 0 <= len i <= 4 /\ 0 <= nth k [0; 2; 3] 0 <= 3 /\
      at_bytes demo_mem (0x8048000 + nth k [0; 2; 3] 0) (encode i)).
  { do 3 (destruct k as [|k]; [injection Hi as <-; split; [reflexivity|do 3 eexists;
      split; [vm_compute; reflexivity|]; split; [reflexivity|]; split; [reflexivity|]; split; [vm_compute; split; discriminate|];
      split; [cbn; lia|vm_compute; reflexivity]]|]). destruct k; discriminate Hi. }
  destruct W as (W & fe & at_ & f & Se & Pf & Ud & Le & Lk & B). constructor; [|done|done|cbn [demo_guest ip]; lia].
  exists f. cbn [demo_guest ip]. constructor; [done|done|lia|unfold len in Le; lia|eauto].
Qed.

Lemma demo_pushed a x : pushed (demo_guest a) x = demo_undef x.
Proof.
  unfold pushed, esp, demo_guest, demo_regs. cbn [regs]. rewrite fn_lookup_insert. reflexivity.
Qed.

Lemma demo_sys_run : rtc (@ustep demo_layout small_processor 0x7ffe0000 0x7fff0020 demo_mem demo_text)
  (demo_guest 0x8048000, demo_undef) (demo_guest 0x8048003, demo_undef).
Proof.
  apply (rtc_l _ _ (demo_guest 0x8048002, demo_undef)); [|apply rtc_once].
  - exists demo_undef. split; [|split; [intros a; cbn [fst snd]; rewrite demo_pushed; now destruct (demo_undef a)|exact (demo_tidy 1 ltac:(lia))]].
    apply (gs_cond _ _ (Insn [] false 0x74 None None [] [] [2] [] [])); [exact (demo_fetched 0 _ eq_refl)|now left|reflexivity].
  - eexists. split; [|split; [|exact (demo_tidy 2 ltac:(lia))]].
    + eapply (gs_plain _ _ (Insn [] false 0x90 None None [] [] [] [] []) _ demo_undef (demo_guest 0x8048003));
        [exact (demo_fetched 1 _ eq_refl)|reflexivity|reflexivity|intros x Hx; discriminate Hx|intros x Hx; discriminate Hx].
    + intros a. cbn [fst snd]. rewrite demo_pushed. now destruct (demo_undef a).
Qed.

Lemma system_simulates_witness :
  exists s1, @codecache_prologue_init demo_layout demo_boot = Ok (tt, s1) /\
  exists c1 U1 s' h', rtc (@sstep demo_layout small_processor 101 ds_zero demo_back demo_host_call)
      (s1, mkCpu (fun _ => 0) demo_back 0 (smem s1)) (s', h') /\
    ((c1, U1) = (demo_guest 0x8048003, demo_undef) /\ regs h' = demo_regs 0x8050004 /\ flags h' = 0 /\
       (forall x, ~ @own demo_layout (@keep demo_layout 0x7ffe0000 0x7fff0020) x -> demo_undef x = false ->
          cmem h' !! x = demo_mem !! x) \/
     @spent demo_layout demo_back 0x7ffe0000 0x7fff0020 demo_mem U1 c1 s' h').
Proof.
  destruct (@system_simulates demo_layout small_processor 101 ds_zero demo_back demo_hsp 0x7ffe0000 0x7fff0020 demo_host_call
    demo_mem demo_text demo_undef (demo_guest 0x8048000) demo_undef (demo_guest 0x8048003) demo_boot) as (s1 & E & K).
  - exact demo_layout_ok.
  - exact demo_host_ok.
  - lia.
  - exact demo_called.
  - exact demo_loaded.
  - exact (demo_tidy 0 ltac:(lia)).
  - exact demo_sys_run.
  - exists s1. split; [exact E|].
    destruct (K (mkCpu (fun _ => 0) demo_back 0 (smem s1))) as (c1 & U1 & s' & h' & _ & _ & R & W).
    + constructor; cbn [ip regs cmem demo_guest]; try reflexivity. intros g Hg. unfold demo_regs.
      rewrite fn_lookup_insert_ne; [reflexivity|unfold R_ESP; lia].
    + exists c1, U1, s', h'. split; [exact R|exact W].
Defined.
