(* ===== verification/Thunk.v ===== *)
(** src/thunk.c and src/thunk.h: descriptions of C types as arrays of codes, the
    layout of the structures registered under a number, the conversion of a value
    between the guest's layout and the host's, and the tables that translate
    bit masks. Guest and host are both 32-bit and little-endian. A pointer to an
    array of codes is the rest of the array, [None] the null pointer; [false] is
    [THUNK_TARGET] and [true] is [THUNK_HOST]. *)

From S2P Require Import Prelude Memory.

(** ** Types (thunk.h) *)

Definition TYPE_NULL : Z := 0.
Definition TYPE_CHAR : Z := 1.
Definition TYPE_SHORT : Z := 2.
Definition TYPE_INT : Z := 3.
Definition TYPE_LONG : Z := 4.
Definition TYPE_ULONG : Z := 5.
Definition TYPE_PTRVOID : Z := 6.
Definition TYPE_LONGLONG : Z := 7.
Definition TYPE_ULONGLONG : Z := 8.
Definition TYPE_PTR : Z := 9.
Definition TYPE_ARRAY : Z := 10.
Definition TYPE_STRUCT : Z := 11.

Definition MK_PTR (t : list Z) : list Z := TYPE_PTR :: t.
Definition MK_ARRAY (t : list Z) (size : Z) : list Z := TYPE_ARRAY :: size :: t.
Definition MK_STRUCT (id : Z) : list Z := [TYPE_STRUCT; id].

Definition MAX_STRUCTS : Z := 128.
Definition HOST_LONG_SIZE : Z := 4.
Definition TARGET_ABI_BITS : Z := 32.

(** A structure; [convert] is null in both directions or in none. *)
Record StructEntry := mkStruct {
  field_types : list Z; nb_fields : nat; field_offsets : bool -> list Z;
  convert : option (bool -> Z -> Z -> mem -> res mem);
  se_size : bool -> Z; se_align : bool -> Z }.

(** [struct_entries]: entries never written are zero. *)
Definition zero_entry : StructEntry := mkStruct [] 0 (fun _ => []) None (fun _ => 0) (fun _ => 0).
Abbreviation entries := (gmap Z StructEntry).
Definition struct_entry (se : entries) (id : Z) : res StructEntry :=
  if (0 <=? id) && (id <? MAX_STRUCTS) then Ok (default zero_entry (se !! id)) else Err UB.

(** The result of C's [int] arithmetic. *)
Definition int_val (z : Z) : res Z :=
  if (- 2147483648 <=? z) && (z <=? 2147483647) then Ok z else Err UB.

(** One type after another. *)
Fixpoint thunk_type_next (type_ptr : list Z) : res (option (list Z)) :=
  match type_ptr with
  | [] => Err UB
  | type :: type_ptr =>
      if existsb (Z.eqb type) [TYPE_CHAR; TYPE_SHORT; TYPE_INT; TYPE_LONGLONG; TYPE_ULONGLONG; TYPE_LONG; TYPE_ULONG; TYPE_PTRVOID]
      then Ok (Some type_ptr)
      else if type =? TYPE_PTR then thunk_type_next type_ptr
      else if type =? TYPE_ARRAY then match type_ptr with [] => Err UB | _ :: type_ptr => thunk_type_next type_ptr end
      else if type =? TYPE_STRUCT then match type_ptr with [] => Err UB | _ :: type_ptr => Ok (Some type_ptr) end
      else Ok None
  end.

Definition long_size (is_host : bool) : Z := if is_host then HOST_LONG_SIZE else TARGET_ABI_BITS / 8.

Fixpoint thunk_type_size (se : entries) (type_ptr : list Z) (is_host : bool) : res Z :=
  match type_ptr with
  | [] => Err UB
  | type :: type_ptr =>
      if type =? TYPE_CHAR then Ok 1
      else if type =? TYPE_SHORT then Ok 2
      else if type =? TYPE_INT then Ok 4
      else if existsb (Z.eqb type) [TYPE_LONGLONG; TYPE_ULONGLONG] then Ok 8
      else if existsb (Z.eqb type) [TYPE_LONG; TYPE_ULONG; TYPE_PTRVOID; TYPE_PTR] then Ok (long_size is_host)
      else if type =? TYPE_ARRAY then
        match type_ptr with
        | [] => Err UB
        | size :: type_ptr => let? n := thunk_type_size se type_ptr is_host in int_val (size * n)
        end
      else if type =? TYPE_STRUCT then
        match type_ptr with
        | [] => Err UB
        | id :: _ => let? e := struct_entry se id in Ok (se_size e is_host)
        end
      else Ok (- 1)
  end.

Fixpoint thunk_type_align (se : entries) (type_ptr : list Z) (is_host : bool) : res Z :=
  match type_ptr with
  | [] => Err UB
  | type :: type_ptr =>
      if type =? TYPE_CHAR then Ok 1
      else if type =? TYPE_SHORT then Ok 2
      else if type =? TYPE_INT then Ok 4
      else if existsb (Z.eqb type) [TYPE_LONGLONG; TYPE_ULONGLONG] then Ok 8
      else if existsb (Z.eqb type) [TYPE_LONG; TYPE_ULONG; TYPE_PTRVOID; TYPE_PTR] then Ok (long_size is_host)
      else if type =? TYPE_ARRAY then
        match type_ptr with
        | [] => Err UB
        | _ :: type_ptr => thunk_type_align se type_ptr is_host
        end
      else if type =? TYPE_STRUCT then
        match type_ptr with
        | [] => Err UB
        | id :: _ => let? e := struct_entry se id in Ok (se_align e is_host)
        end
      else Ok (- 1)
  end.

(** ** Registration *)

(** The loop that counts the fields; a null pointer is read. *)
Fixpoint count_fields (fuel : nat) (type_ptr : option (list Z)) (nb_fields : nat) : res nat :=
  match type_ptr, fuel with
  | None, _ | Some [], _ => Err UB
  | Some (t :: l), O => Err Fuel
  | Some (t :: l), S fuel =>
      if t =? TYPE_NULL then Ok nb_fields
      else let? p := thunk_type_next (t :: l) in count_fields fuel p (S nb_fields)
  end.

(** [(offset + align - 1) & ~(align - 1)] *)
Definition align_to (offset align : Z) : Z := Z.land (offset + align - 1) (Z.lnot (align - 1)).

(** The loop that places the fields: offsets, end, largest alignment. *)
Fixpoint place_fields (se : entries) (i : bool) (n : nat) (type_ptr : option (list Z)) (offset max_align : Z)
    (acc : list Z) : res (list Z * Z * Z) :=
  match n with
  | O => Ok (acc, offset, max_align)
  | S n =>
      match type_ptr with
      | None => Err UB
      | Some t =>
          let? size := thunk_type_size se t i in
          let? align := thunk_type_align se t i in
          let? offset := int_val (offset + align - 1) in
          let offset := Z.land offset (Z.lnot (align - 1)) in
          let? stop := int_val (offset + size) in
          let? type_ptr := thunk_type_next t in
          place_fields se i n type_ptr stop (if max_align <? align then align else max_align) (acc ++ [offset])
      end
  end.

Definition layout_fields (se : entries) (i : bool) (n : nat) (types : list Z) : res (list Z * Z * Z) :=
  let? (offs, offset, max_align) := place_fields se i n (Some types) 0 1 [] in
  let? offset := int_val (offset + max_align - 1) in
  Ok (offs, Z.land offset (Z.lnot (max_align - 1)), max_align).

Definition thunk_register_struct (id : Z) (types : list Z) (se : entries) : res entries :=
  let? e := struct_entry se id in
  let? nb_fields := count_fields (length types) (Some types) 0 in
  let? (offs0, size0, align0) := layout_fields se false nb_fields types in
  let? (offs1, size1, align1) := layout_fields se true nb_fields types in
  Ok (<[id := mkStruct types nb_fields (fun i => if i : bool then offs1 else offs0) (convert e)
                (fun i => if i : bool then size1 else size0) (fun i => if i : bool then align1 else align0)]> se).

Definition thunk_register_struct_direct (id : Z) (se1 : StructEntry) (se : entries) : res entries :=
  let? _ := struct_entry se id in Ok (<[id := se1]> se).

(** ** Conversion *)

(** [*(T * )dst = *(T * )src] for a type of [n] bytes. *)
Definition copy (n : nat) (dst src : Z) (m : mem) : mem := write_bytes dst (read_bytes m src n) m.

(** The loop over the elements of an array. *)
Fixpoint convert_array (conv : Z -> Z -> mem -> res (option (list Z) * mem)) (n : nat) (d s dst_size src_size : Z) (m : mem) : res mem :=
  match n with
  | O => Ok m
  | S n => let? (_, m) := conv d s m in convert_array conv n (d + dst_size) (s + src_size) dst_size src_size m
  end.

(** The loop over the fields of a structure. *)
Fixpoint convert_fields (conv : Z -> Z -> list Z -> mem -> res (option (list Z) * mem)) (n : nat) (d s : Z)
    (dst_offsets src_offsets : list Z) (field_types : option (list Z)) (m : mem) : res mem :=
  match n with
  | O => Ok m
  | S n =>
      match field_types, dst_offsets, src_offsets with
      | Some t, o :: dst_offsets, p :: src_offsets =>
          let? (t, m) := conv (d + o) (s + p) t m in convert_fields conv n d s dst_offsets src_offsets t m
      | _, _, _ => Err UB
      end
  end.

Fixpoint thunk_convert (fuel : nat) (se : entries) (dst src : Z) (type_ptr : list Z) (to_host : bool) (m : mem) :
    res (option (list Z) * mem) :=
  match fuel, type_ptr with
  | O, _ => Err Fuel
  | _, [] => Err UB
  | S fuel, type :: type_ptr =>
      if type =? TYPE_CHAR then Ok (Some type_ptr, copy 1 dst src m)
      else if type =? TYPE_SHORT then Ok (Some type_ptr, copy 2 dst src m)
      else if type =? TYPE_INT then Ok (Some type_ptr, copy 4 dst src m)
      else if existsb (Z.eqb type) [TYPE_LONGLONG; TYPE_ULONGLONG] then Ok (Some type_ptr, copy 8 dst src m)
      else if existsb (Z.eqb type) [TYPE_LONG; TYPE_ULONG; TYPE_PTRVOID] then Ok (Some type_ptr, copy 4 dst src m)
      else if type =? TYPE_ARRAY then
        match type_ptr with
        | [] => Err UB
        | array_length :: type_ptr =>
            let? dst_size := thunk_type_size se type_ptr to_host in
            let? src_size := thunk_type_size se type_ptr (negb to_host) in
            let? m := convert_array (fun d s m => thunk_convert fuel se d s type_ptr to_host m)
                        (Z.to_nat array_length) dst src dst_size src_size m in
            let? p := thunk_type_next type_ptr in
            Ok (p, m)
        end
      else if type =? TYPE_STRUCT then
        match type_ptr with
        | [] => Err UB
        | id :: type_ptr =>
            let? e := struct_entry se id in
            match convert e with
            | Some f => let? m := f to_host dst src m in Ok (Some type_ptr, m)
            | None =>
                let? m := convert_fields (fun d s t m => thunk_convert fuel se d s t to_host m) (nb_fields e) dst src
                            (field_offsets e to_host) (field_offsets e (negb to_host)) (Some (field_types e)) m in
                Ok (Some type_ptr, m)
            end
        end
      else Ok (Some type_ptr, m)
  end.

(** ** Bit masks *)

Record bitmask_transtbl := mkBits { x86_mask : Z; x86_bits : Z; alpha_mask : Z; alpha_bits : Z }.

(** A table ends at the first entry with an empty mask; running off it is undefined. *)
Fixpoint target_to_host_loop (x : Z) (tbl : list bitmask_transtbl) (alpha : Z) : res Z :=
  match tbl with
  | [] => Err UB
  | b :: tbl =>
      if (x86_mask b =? 0) || (alpha_mask b =? 0) then Ok alpha
      else target_to_host_loop x tbl (if Z.land x (x86_mask b) =? x86_bits b then Z.lor alpha (alpha_bits b) else alpha)
  end.
Definition target_to_host_bitmask (x : Z) (tbl : list bitmask_transtbl) : res Z := target_to_host_loop x tbl 0.

Fixpoint host_to_target_loop (x : Z) (tbl : list bitmask_transtbl) (x86 : Z) : res Z :=
  match tbl with
  | [] => Err UB
  | b :: tbl =>
      if (x86_mask b =? 0) || (alpha_mask b =? 0) then Ok x86
      else host_to_target_loop x tbl (if Z.land x (alpha_mask b) =? alpha_bits b then Z.lor x86 (x86_bits b) else x86)
  end.
Definition host_to_target_bitmask (x : Z) (tbl : list bitmask_transtbl) : res Z := host_to_target_loop x tbl 0.

(** ** C types and the layout the ABI gives them *)

Inductive base := Char | Short | Int | Long | Ulong | Ptrvoid | Longlong | Ulonglong.
Inductive ctype := TBase (b : base) | TPtr (t : ctype) | TArr (n : Z) (t : ctype) | TStruct (id : Z).
#[export] Instance base_eq_dec : EqDecision base.
Proof. solve_decision. Defined.
#[export] Instance ctype_eq_dec : EqDecision ctype.
Proof. solve_decision. Defined.

Definition code (b : base) : Z :=
  match b with
  | Char => TYPE_CHAR | Short => TYPE_SHORT | Int => TYPE_INT | Long => TYPE_LONG | Ulong => TYPE_ULONG
  | Ptrvoid => TYPE_PTRVOID | Longlong => TYPE_LONGLONG | Ulonglong => TYPE_ULONGLONG
  end.

Fixpoint encode (t : ctype) : list Z :=
  match t with
  | TBase b => [code b] | TPtr t => MK_PTR (encode t) | TArr n t => MK_ARRAY (encode t) n | TStruct id => MK_STRUCT id
  end.

Definition encode_fields (fs : list ctype) : list Z := concat (map encode fs) ++ [TYPE_NULL].

(** Size and natural alignment of a scalar. *)
Definition bsize (b : base) : Z :=
  match b with Char => 1 | Short => 2 | Int | Long | Ulong | Ptrvoid => 4 | Longlong | Ulonglong => 8 end.

(** A structure: its fields and their offsets, and the scalars in it as pairs of
    offset and size; [l_depth] is how deep its types nest, [l_conv] whether it
    is free of pointers to known types. *)
Record layout := mkLayout {
  l_fields : list ctype; l_offs : list Z; l_size : Z; l_align : Z;
  l_leaves : list (Z * Z); l_depth : nat; l_conv : bool }.
Definition no_layout : layout := mkLayout [] [] 0 1 [] 0 true.

Definition round_up (x a : Z) : Z := (x + a - 1) / a * a.
Definition shift (d : Z) (l : list (Z * Z)) : list (Z * Z) := map (fun p => (d + p.1, p.2)) l.

(** [n] copies of the leaves of an element of [size] bytes. *)
Fixpoint repeat_leaves (n : nat) (d size : Z) (l : list (Z * Z)) : list (Z * Z) :=
  match n with O => [] | S n => shift d l ++ repeat_leaves n (d + size) size l end.

Section Layout.
Variable Delta : gmap Z layout.

Definition struct_of (id : Z) : layout := default no_layout (Delta !! id).

Fixpoint sizeof (t : ctype) : Z :=
  match t with TBase b => bsize b | TPtr _ => 4 | TArr n t => n * sizeof t | TStruct id => l_size (struct_of id) end.
Fixpoint alignof (t : ctype) : Z :=
  match t with TBase b => bsize b | TPtr _ => 4 | TArr _ t => alignof t | TStruct id => l_align (struct_of id) end.
Fixpoint leaves (t : ctype) : list (Z * Z) :=
  match t with
  | TBase b => [(0, bsize b)] | TPtr _ => [] | TArr n t => repeat_leaves (Z.to_nat n) 0 (sizeof t) (leaves t)
  | TStruct id => l_leaves (struct_of id)
  end.
Fixpoint depth (t : ctype) : nat :=
  match t with TArr _ t => S (depth t) | TStruct id => S (l_depth (struct_of id)) | _ => 1 end.
Fixpoint convertible (t : ctype) : bool :=
  match t with TBase _ => true | TPtr _ => false | TArr _ t => convertible t | TStruct id => l_conv (struct_of id) end.
Fixpoint valid (t : ctype) : Prop :=
  match t with
  | TBase _ => True | TPtr t => valid t | TArr n t => 1 <= n /\ valid t | TStruct id => is_Some (Delta !! id)
  end.

(** Fields in order, each at the next multiple of its alignment. *)
Fixpoint place (fs : list ctype) (off : Z) : list Z * Z :=
  match fs with
  | [] => ([], off)
  | t :: fs => let o := round_up off (alignof t) in let '(l, e) := place fs (o + sizeof t) in (o :: l, e)
  end.

Fixpoint field_leaves (fs : list ctype) (offs : list Z) : list (Z * Z) :=
  match fs, offs with t :: fs, o :: offs => shift o (leaves t) ++ field_leaves fs offs | _, _ => [] end.

Definition layout_of (fs : list ctype) : layout :=
  let '(offs, e) := place fs 0 in
  let a := fold_right Z.max 1 (map alignof fs) in
  mkLayout fs offs (round_up e a) a (field_leaves fs offs) (fold_right Nat.max O (map depth fs)) (forallb convertible fs).
End Layout.

(** The leaves of a type one after another: inside [lo, hi), naturally aligned,
    their sizes dividing the alignment [al] of the whole. *)
Fixpoint packed (al lo hi : Z) (l : list (Z * Z)) : Prop :=
  match l with
  | [] => lo <= hi
  | (o, n) :: l => lo <= o /\ 0 < n /\ (n | o) /\ (n | al) /\ packed al (o + n) hi l
  end.

Definition copy_leaves (dst src : Z) (l : list (Z * Z)) (m : mem) : mem :=
  fold_left (fun m p => copy (Z.to_nat p.2) (dst + p.1) (src + p.1) m) l m.

(** The table [se] holds the structures [Delta]. *)
Definition entry_of (e : StructEntry) (L : layout) : Prop :=
  (exists r, field_types e = encode_fields (l_fields L) ++ r) /\ nb_fields e = length (l_fields L) /\ convert e = None /\
  forall i, field_offsets e i = l_offs L /\ se_size e i = l_size L /\ se_align e i = l_align L.

Definition is_align (a : Z) : Prop := a = 1 \/ a = 2 \/ a = 4 \/ a = 8.

Definition wf_layout (L : layout) : Prop :=
  is_align (l_align L) /\ 0 <= l_size L <= 2147483639 /\ (l_align L | l_size L) /\
  packed (l_align L) 0 (l_size L) (l_leaves L).

Record rep_at (se : entries) (Delta : gmap Z layout) (id : Z) (L : layout) : Prop := {
  rep_id : 0 <= id < MAX_STRUCTS;
  rep_entry : exists e, se !! id = Some e /\ entry_of e L;
  rep_layout : L = layout_of Delta (l_fields L);
  rep_valid : Forall (valid Delta) (l_fields L);
  rep_wf : wf_layout L }.
Definition rep (se : entries) (Delta : gmap Z layout) : Prop := forall id L, Delta !! id = Some L -> rep_at se Delta id L.

(** Fields between [lo] and [hi] at ascending offsets, each aligned for its
    type and clear of the next. *)
Fixpoint in_order (Delta : gmap Z layout) (fs : list ctype) (offs : list Z) (lo hi : Z) : Prop :=
  match fs, offs with
  | [], [] => lo <= hi
  | t :: fs, o :: offs => lo <= o /\ (alignof Delta t | o) /\ in_order Delta fs offs (o + sizeof Delta t) hi
  | _, _ => False
  end.

(** Tables of bit masks: two entries describe the same field of the mask, and
    then tell the same values apart on both sides, or disjoint ones. *)
Definition same_field (b b' : bitmask_transtbl) : bool :=
  (x86_mask b =? x86_mask b') && (alpha_mask b =? alpha_mask b').
Definition compatible (b b' : bitmask_transtbl) : bool :=
  (same_field b b' && Bool.eqb (x86_bits b =? x86_bits b') (alpha_bits b =? alpha_bits b')) ||
  ((Z.land (x86_mask b) (x86_mask b') =? 0) && (Z.land (alpha_mask b) (alpha_mask b') =? 0)).
Definition entry_ok (b : bitmask_transtbl) : bool :=
  negb (x86_mask b =? 0) && negb (alpha_mask b =? 0) &&
  (Z.land (x86_bits b) (x86_mask b) =? x86_bits b) && (Z.land (alpha_bits b) (alpha_mask b) =? alpha_bits b) &&
  Bool.eqb (x86_bits b =? 0) (alpha_bits b =? 0).
Definition tbl_ok (bs : list bitmask_transtbl) : bool :=
  forallb entry_ok bs && forallb (fun b => forallb (compatible b) bs) bs.

Definition x86_match (x : Z) (b : bitmask_transtbl) : bool := Z.land x (x86_mask b) =? x86_bits b.
(** Every field of [x] is empty or has a value the table lists. *)
Definition known (bs : list bitmask_transtbl) (x : Z) : bool :=
  forallb (fun b => (Z.land x (x86_mask b) =? 0) || existsb (fun b' => same_field b b' && x86_match x b') bs) bs.
Definition all_fields (bs : list bitmask_transtbl) : Z := fold_right Z.lor 0 (map x86_mask bs).
Definition end_of_table : bitmask_transtbl := mkBits 0 0 0 0.

(** The union of a component of the selected entries. *)
Fixpoint union_of (sel : bitmask_transtbl -> bool) (bits : bitmask_transtbl -> Z) (bs : list bitmask_transtbl) : Z :=
  match bs with [] => 0 | b :: bs => Z.lor (if sel b then bits b else 0) (union_of sel bits bs) end.

(** ** Lemmas: arithmetic of alignment *)

Lemma align_to_round_up x a : is_align a -> align_to x a = round_up x a.
Proof.
  intros Ha. assert (exists k, 0 <= k /\ a = 2 ^ k) as (k & Hk & ->).
  { destruct Ha as [->|[->|[->| ->]]]; [exists 0|exists 1|exists 2|exists 3]; lia. }
  unfold align_to, round_up. replace (2 ^ k - 1) with (Z.ones k) by (rewrite Z.ones_equiv; lia).
  rewrite <- Z.ldiff_land, Z.ldiff_ones_r, Z.shiftl_mul_pow2, Z.shiftr_div_pow2 by lia. done.
Qed.

Lemma round_up_spec x a : is_align a -> 0 <= x -> x <= round_up x a < x + a /\ (a | round_up x a).
Proof.
  intros Ha Hx. unfold round_up. split; [|apply Z.divide_factor_r].
  destruct Ha as [->|[->|[->| ->]]]; Z.div_mod_to_equations; lia.
Qed.

Lemma is_align_divide a b : is_align a -> is_align b -> a <= b -> (a | b).
Proof.
  intros [->|[->|[->| ->]]] [->|[->|[->| ->]]] H; try lia;
    first [exists 1; lia | exists 2; lia | exists 4; lia | exists 8; lia].
Qed.

Lemma is_align_max a b : is_align a -> is_align b -> is_align (Z.max a b).
Proof. intros Ha Hb. destruct (Z.max_spec a b) as [[_ ->]|[_ ->]]; done. Qed.

Lemma int_val_ok z : - 2147483648 <= z <= 2147483647 -> int_val z = Ok z.
Proof. intros. unfold int_val. destruct (Z.leb_spec (-2147483648) z); [|lia]. destruct (Z.leb_spec z 2147483647); [done|lia]. Qed.

(** ** Lemmas: leaves *)

Lemma packed_le al hi l : forall lo, packed al lo hi l -> lo <= hi.
Proof. induction l as [|[o n] l IH]; intros lo H; [done|]. destruct H as (? & ? & _ & _ & H%IH). lia. Qed.

Lemma packed_app al mid hi l2 : forall l1 lo, packed al lo mid l1 -> packed al mid hi l2 -> packed al lo hi (l1 ++ l2).
Proof.
  induction l1 as [|[o n] l1 IH]; intros lo H1 H2; cbn [app].
  - cbn in H1. destruct l2 as [|[o n] l2]; cbn in *; [lia|]. destruct H2 as (? & H2). split; [lia|exact H2].
  - destruct H1 as (? & ? & ? & ? & H1). cbn. eauto 10.
Qed.

Lemma packed_shift al al' d l : forall lo hi, (al | d) -> (al | al') -> packed al lo hi l -> packed al' (d + lo) (d + hi) (shift d l).
Proof.
  intros lo hi Hd Ha. revert lo. induction l as [|[o n] l IH]; intros lo H; cbn in *; [lia|].
  destruct H as (? & ? & ? & ? & H%IH). replace (d + o + n) with (d + (o + n)) by lia. repeat split; try done; try lia.
  - apply Z.divide_add_r; [|done]. by transitivity al.
  - by transitivity al.
Qed.

Lemma packed_weaken al l : forall lo lo' hi hi', lo' <= lo -> hi <= hi' -> packed al lo hi l -> packed al lo' hi' l.
Proof.
  induction l as [|[o n] l IH]; intros lo lo' hi hi' ? ? H; cbn in *; [lia|].
  destruct H as (? & ? & ? & ? & H). repeat split; try done; [lia|]. by apply (IH (o + n) (o + n) hi).
Qed.

Lemma packed_repeat al size l n : forall d, (al | d) -> (al | size) -> 0 <= size -> packed al 0 size l ->
  packed al d (d + Z.of_nat n * size) (repeat_leaves n d size l).
Proof.
  induction n as [|n IH]; intros d Hd Hs ? H; cbn [repeat_leaves]; [cbn; lia|].
  apply (packed_app _ (d + size)).
  - replace d with (d + 0) at 1 by lia. by apply (packed_shift al).
  - replace (d + Z.of_nat (S n) * size) with (d + size + Z.of_nat n * size) by lia.
    apply IH; [by apply Z.divide_add_r|done..].
Qed.

Lemma copy_leaves_app dst src l1 l2 m : copy_leaves dst src (l1 ++ l2) m = copy_leaves dst src l2 (copy_leaves dst src l1 m).
Proof. apply fold_left_app. Qed.

Lemma copy_leaves_shift dst src d l : forall m, copy_leaves dst src (shift d l) m = copy_leaves (dst + d) (src + d) l m.
Proof.
  induction l as [|[o n] l IH]; intros m; [done|]. cbn. unfold copy_leaves in IH. rewrite IH.
  by rewrite !Z.add_assoc.
Qed.

(** ** Lemmas: types over registered structures *)

Lemma thunk_type_next_encode t r : thunk_type_next (encode t ++ r) = Ok (Some r).
Proof. induction t as [[]|t IH|n t IH|id]; cbn; done. Qed.

Section Rep.
Variables (se : entries) (Delta : gmap Z layout).
Hypothesis HR : rep se Delta.

Lemma rep_struct id : is_Some (Delta !! id) -> rep_at se Delta id (struct_of Delta id).
Proof. intros [L HL]. unfold struct_of. rewrite HL. by apply HR. Qed.

Lemma rep_struct_entry id : is_Some (Delta !! id) ->
  exists e, struct_entry se id = Ok e /\ entry_of e (struct_of Delta id).
Proof.
  intros H. destruct (rep_struct id H) as [Hid (e & E & He) _ _ _]. exists e. split; [|done].
  unfold struct_entry. destruct (Z.leb_spec 0 id), (Z.ltb_spec id MAX_STRUCTS); try lia. cbn. by rewrite E.
Qed.

(** A type is aligned, its size is a multiple of the alignment, and its leaves
    are packed in it. *)
Lemma type_wf t : valid Delta t ->
  is_align (alignof Delta t) /\ 0 <= sizeof Delta t /\ (alignof Delta t | sizeof Delta t) /\
  packed (alignof Delta t) 0 (sizeof Delta t) (leaves Delta t).
Proof.
  induction t as [b|t IH|n t IH|id]; cbn [valid alignof sizeof leaves]; intros Hv.
  - destruct b; cbn; unfold is_align; repeat split; auto with zarith.
  - cbn. unfold is_align. repeat split; auto with zarith.
  - destruct Hv as [Hn Hv]. destruct (IH Hv) as (Ha & Hs & Hd & Hp). repeat split; [done|nia|by apply Z.divide_mul_r|].
    replace (n * sizeof Delta t) with (0 + Z.of_nat (Z.to_nat n) * sizeof Delta t) by lia.
    apply packed_repeat; auto with zarith.
  - destruct (rep_wf _ _ _ _ (rep_struct id Hv)) as (? & ? & ? & ?). repeat split; try done; lia.
Qed.

Lemma thunk_type_size_encode t r i : valid Delta t -> sizeof Delta t <= 2147483647 ->
  thunk_type_size se (encode t ++ r) i = Ok (sizeof Delta t).
Proof.
  induction t as [[]|t IH|n t IH|id]; intros Hv Hb; try (destruct i; reflexivity).
  - destruct Hv as [Hn Hv]. destruct (type_wf t Hv) as (_ & Hs & _). cbn [sizeof] in *.
    change (encode (TArr n t) ++ r) with (TYPE_ARRAY :: n :: encode t ++ r).
    cbn [thunk_type_size]. cbn -[thunk_type_size]. rewrite IH by (try done; nia). cbn. apply int_val_ok. nia.
  - cbn. destruct (rep_struct_entry id Hv) as (e & -> & _ & _ & _ & He). cbn. by destruct (He i) as (_ & -> & _).
Qed.

Lemma thunk_type_align_encode t r i : valid Delta t -> thunk_type_align se (encode t ++ r) i = Ok (alignof Delta t).
Proof.
  induction t as [[]|t IH|n t IH|id]; intros Hv; try (destruct i; reflexivity).
  - destruct Hv as [_ Hv]. apply (IH Hv).
  - cbn. destruct (rep_struct_entry id Hv) as (e & -> & _ & _ & _ & He). cbn. by destruct (He i) as (_ & _ & ->).
Qed.

(** ** Lemmas: placing the fields *)

Lemma place_in_order fs : forall off, 0 <= off -> Forall (valid Delta) fs ->
  in_order Delta fs (place Delta fs off).1 off (place Delta fs off).2.
Proof.
  induction fs as [|t fs IH]; intros off Ho Hv; cbn; [lia|].
  apply Forall_cons in Hv as [Ht Hv]. destruct (type_wf t Ht) as (Ha & Hs & _).
  destruct (round_up_spec off _ Ha Ho) as [Hr Hd].
  specialize (IH (round_up off (alignof Delta t) + sizeof Delta t) ltac:(lia) Hv).
  destruct (place Delta fs _) as [l e]. cbn in *. split_and!; [lia|done|done].
Qed.

Lemma in_order_le fs : forall offs lo hi, Forall (valid Delta) fs -> in_order Delta fs offs lo hi -> lo <= hi.
Proof.
  induction fs as [|t fs IH]; intros [|o offs] lo hi Hv H; try done.
  apply Forall_cons in Hv as [Ht Hv]. destruct (type_wf t Ht) as (_ & Hs & _).
  destruct H as (? & _ & H). specialize (IH _ _ _ Hv H). lia.
Qed.

Lemma in_order_hi fs : forall offs lo hi hi', hi <= hi' -> in_order Delta fs offs lo hi -> in_order Delta fs offs lo hi'.
Proof. induction fs as [|t fs IH]; intros [|o offs] lo hi hi' Hh H; cbn in *; try done; [lia|].
  destruct H as (? & ? & H). eauto. Qed.

Lemma max_align fs : Forall (valid Delta) fs ->
  is_align (fold_right Z.max 1 (map (alignof Delta) fs)) /\
  Forall (fun t => (alignof Delta t | fold_right Z.max 1 (map (alignof Delta) fs))) fs.
Proof.
  induction fs as [|t fs IH]; intros Hv; cbn; [split; [by left|constructor]|].
  apply Forall_cons in Hv as [Ht Hv]. destruct (IH Hv) as [Ha Hd]. destruct (type_wf t Ht) as (Hat & _).
  assert (Hm : is_align (Z.max (alignof Delta t) (fold_right Z.max 1 (map (alignof Delta) fs)))) by by apply is_align_max.
  split; [done|]. constructor; [apply is_align_divide; [done|done|lia]|].
  eapply Forall_impl; [exact Hd|]. cbn. intros u Hu. etransitivity; [exact Hu|]. apply is_align_divide; [done|done|lia].
Qed.

Lemma field_leaves_packed al fs : forall offs lo hi, Forall (valid Delta) fs ->
  Forall (fun t => (alignof Delta t | al)) fs -> in_order Delta fs offs lo hi ->
  packed al lo hi (field_leaves Delta fs offs).
Proof.
  induction fs as [|t fs IH]; intros [|o offs] lo hi Hv Ha H; try done.
  apply Forall_cons in Hv as [Ht Hv]. apply Forall_cons in Ha as [Hat Ha]. destruct H as (Hlo & Hal & H).
  destruct (type_wf t Ht) as (_ & _ & _ & Hp). cbn [field_leaves].
  apply (packed_app _ (o + sizeof Delta t)); [|by apply IH].
  apply (packed_weaken _ _ (o + 0) _ (o + sizeof Delta t)); [lia..|]. by apply (packed_shift (alignof Delta t)).
Qed.

Lemma place_fields_encode i fs : forall r off a acc, 0 <= off -> 1 <= a -> Forall (valid Delta) fs ->
  (place Delta fs off).2 <= 2147483639 ->
  place_fields se i (length fs) (Some (concat (map encode fs) ++ r)) off a acc =
  Ok (acc ++ (place Delta fs off).1, (place Delta fs off).2, Z.max a (fold_right Z.max 1 (map (alignof Delta) fs))).
Proof.
  induction fs as [|t fs IH]; intros r off a acc Ho Ha Hv Hb.
  { cbn. rewrite app_nil_r. by rewrite Z.max_l by lia. }
  apply Forall_cons in Hv as [Ht Hv]. destruct (type_wf t Ht) as (Hat & Hs & _).
  destruct (round_up_spec off _ Hat Ho) as [Hr _].
  pose proof (in_order_le fs _ _ _ Hv (place_in_order fs (round_up off (alignof Delta t) + sizeof Delta t) ltac:(lia) Hv)) as Hio.
  assert (Hal : 1 <= alignof Delta t <= 8) by (destruct Hat as [->|[->|[->| ->]]]; lia).
  cbn [place] in *. destruct (place Delta fs (round_up off (alignof Delta t) + sizeof Delta t)) as [l e] eqn:Ep.
  cbn [fst snd] in *. cbn [length map concat place_fields]. rewrite <- app_assoc.
  rewrite thunk_type_size_encode by (done || lia). cbn [res_bind].
  rewrite thunk_type_align_encode by done. cbn [res_bind]. rewrite int_val_ok by lia. cbn [res_bind].
  change (Z.land (off + alignof Delta t - 1) (Z.lnot (alignof Delta t - 1))) with (align_to off (alignof Delta t)).
  rewrite align_to_round_up by done. rewrite int_val_ok by lia. cbn [res_bind].
  rewrite thunk_type_next_encode. cbn [res_bind].
  assert (Em : (if a <? alignof Delta t then alignof Delta t else a) = Z.max a (alignof Delta t)) by (destruct (Z.ltb_spec a (alignof Delta t)); lia).
  rewrite Em, IH, Ep by (done || lia || (rewrite Ep; cbn; lia)). cbn [fst snd].
  cbn [fold_right]. rewrite <- app_assoc, Z.max_assoc. done.
Qed.
End Rep.

(** ** Lemmas: registering a structure *)

Lemma count_fields_encode fs r : forall fuel k, (length fs <= fuel)%nat ->
  count_fields (S fuel) (Some (encode_fields fs ++ r)) k = Ok (length fs + k)%nat.
Proof.
  induction fs as [|t fs IH]; intros fuel k Hf; [done|]. destruct fuel as [|fuel]; [cbn in Hf; lia|].
  unfold encode_fields in *. cbn [map concat]. rewrite <- !app_assoc.
  assert (exists c l, encode t ++ concat (map encode fs) ++ [TYPE_NULL] ++ r = c :: l /\ c <> TYPE_NULL) as (c & l & E & Hc).
  { destruct t as [[]| | |]; eexists _, _; (split; [reflexivity|discriminate]). }
  cbn [count_fields]. rewrite E. apply Z.eqb_neq in Hc as ->. rewrite <- E, thunk_type_next_encode. cbn [res_bind].
  replace (length (t :: fs) + k)%nat with (length fs + S k)%nat by (cbn; lia).
  rewrite <- IH with (fuel := fuel) by (cbn in Hf; lia). by rewrite <- app_assoc.
Qed.

Lemma layout_fields_encode se Delta i fs r : rep se Delta -> Forall (valid Delta) fs ->
  l_size (layout_of Delta fs) <= 2147483639 ->
  layout_fields se i (length fs) (encode_fields fs ++ r) =
  Ok (l_offs (layout_of Delta fs), l_size (layout_of Delta fs), l_align (layout_of Delta fs)).
Proof.
  intros HR Hv Hb. unfold layout_fields, encode_fields, layout_of in *. rewrite <- app_assoc.
  pose proof (place_in_order _ _ HR fs 0 ltac:(lia) Hv) as Hio. apply (in_order_le _ _ HR) in Hio; [|done].
  destruct (max_align _ _ HR fs Hv) as [Ha _].
  destruct (place Delta fs 0) as [l e] eqn:Ep. cbn [l_size l_offs l_align fst snd] in *.
  destruct (round_up_spec e _ Ha Hio) as [Hr _].
  rewrite (place_fields_encode se Delta HR) by (done || lia || (rewrite Ep; cbn; lia)). rewrite Ep. cbn [res_bind fst snd app].
  set (a := fold_right Z.max 1 (map (alignof Delta) fs)) in *.
  assert (1 <= a <= 8) by (destruct Ha as [->|[->|[->| ->]]]; lia). rewrite Z.max_r by lia.
  rewrite int_val_ok by lia. cbn [res_bind].
  change (Z.land (e + a - 1) (Z.lnot (a - 1))) with (align_to e a). by rewrite align_to_round_up.
Qed.

(** A structure not registered yet does not appear in valid types. *)
Lemma type_mono Delta id L t : Delta !! id = None -> valid Delta t ->
  valid (<[id := L]> Delta) t /\ sizeof (<[id := L]> Delta) t = sizeof Delta t /\
  alignof (<[id := L]> Delta) t = alignof Delta t /\ leaves (<[id := L]> Delta) t = leaves Delta t /\
  depth (<[id := L]> Delta) t = depth Delta t /\ convertible (<[id := L]> Delta) t = convertible Delta t.
Proof.
  intros Hn. induction t as [b|t IH|n t IH|id']; cbn; intros Hv; [done|by destruct (IH Hv)| |].
  - destruct Hv as [? Hv]. destruct (IH Hv) as (? & -> & -> & -> & -> & ->). done.
  - unfold struct_of. assert (id <> id') by (intros ->; rewrite Hn in Hv; by destruct Hv).
    by rewrite !lookup_insert_ne by done.
Qed.

Lemma layout_mono Delta id L fs : Delta !! id = None -> Forall (valid Delta) fs ->
  layout_of (<[id := L]> Delta) fs = layout_of Delta fs /\ Forall (valid (<[id := L]> Delta)) fs.
Proof.
  intros Hn Hv.
  assert (Hp : forall off, place (<[id := L]> Delta) fs off = place Delta fs off).
  { induction Hv as [|t fs Ht Hv IH]; intros off; [done|]. cbn.
    destruct (type_mono _ id L t Hn Ht) as (_ & -> & -> & _). by rewrite IH. }
  assert (Hl : forall offs, field_leaves (<[id := L]> Delta) fs offs = field_leaves Delta fs offs).
  { clear Hp. induction Hv as [|t fs Ht Hv IH]; intros [|o offs]; try done. cbn. rewrite IH.
    by destruct (type_mono _ id L t Hn Ht) as (_ & _ & _ & -> & _). }
  assert (Hm : map (alignof (<[id := L]> Delta)) fs = map (alignof Delta) fs /\
               map (depth (<[id := L]> Delta)) fs = map (depth Delta) fs /\
               forallb (convertible (<[id := L]> Delta)) fs = forallb (convertible Delta) fs /\
               Forall (valid (<[id := L]> Delta)) fs).
  { clear Hp Hl. induction Hv as [|t fs Ht Hv IH]; [done|]. destruct IH as (Ea & Ed & Ec & ?).
    cbn. rewrite Ea, Ed, Ec. destruct (type_mono _ id L t Hn Ht) as (? & _ & -> & _ & -> & ->).
    split_and!; try done. by constructor. }
  destruct Hm as (Ea & Ed & Ec & Hf). split; [|done]. unfold layout_of. rewrite Hp, Ea, Ed, Ec.
  destruct (place Delta fs 0). by rewrite Hl.
Qed.

Lemma length_fields fs : (length fs <= length (concat (map encode fs)))%nat.
Proof.
  induction fs as [|t fs IH]; cbn; [lia|]. rewrite length_app.
  assert (1 <= length (encode t))%nat by (destruct t as [[]| | |]; cbn; lia). lia.
Qed.

Lemma layout_in_order se Delta fs : rep se Delta -> Forall (valid Delta) fs ->
  in_order Delta fs (l_offs (layout_of Delta fs)) 0 (l_size (layout_of Delta fs)) /\
  is_align (l_align (layout_of Delta fs)) /\ (l_align (layout_of Delta fs) | l_size (layout_of Delta fs)) /\
  Forall (fun t => (alignof Delta t | l_align (layout_of Delta fs))) fs /\
  packed (l_align (layout_of Delta fs)) 0 (l_size (layout_of Delta fs)) (l_leaves (layout_of Delta fs)).
Proof.
  intros HR Hv. destruct (max_align _ _ HR fs Hv) as [Ha Hd].
  pose proof (place_in_order _ _ HR fs 0 ltac:(lia) Hv) as Hio. pose proof (in_order_le _ _ HR _ _ _ _ Hv Hio) as He.
  unfold layout_of. destruct (place Delta fs 0) as [l e]. cbn [l_offs l_size l_align l_leaves fst snd] in *.
  destruct (round_up_spec e _ Ha He) as [Hr Hdv].
  assert (Hh : in_order Delta fs l 0 (round_up e (fold_right Z.max 1 (map (alignof Delta) fs)))) by (apply (in_order_hi _ _ _ _ e); [lia|done]).
  split_and!; try done. by apply (field_leaves_packed _ _ HR).
Qed.

Lemma layout_parts Delta fs :
  l_leaves (layout_of Delta fs) = field_leaves Delta fs (l_offs (layout_of Delta fs)) /\
  l_depth (layout_of Delta fs) = fold_right Nat.max O (map (depth Delta) fs) /\
  l_conv (layout_of Delta fs) = forallb (convertible Delta) fs.
Proof. unfold layout_of. by destruct (place Delta fs 0). Qed.

Lemma in_order_sizes se Delta fs : rep se Delta -> forall offs lo hi, 0 <= lo -> Forall (valid Delta) fs -> in_order Delta fs offs lo hi ->
  Forall (fun t => sizeof Delta t <= hi) fs /\ length offs = length fs.
Proof.
  intros HR. induction fs as [|t fs IH]; intros [|o offs] lo hi Hlo Hv H; try done.
  apply Forall_cons in Hv as [Ht Hv]. destruct (type_wf _ _ HR t Ht) as (_ & Hs & _). destruct H as (Ho & _ & H).
  destruct (IH offs (o + sizeof Delta t) hi) as [Hf Hn]; [lia|done|done|].
  pose proof (in_order_le _ _ HR _ _ _ _ Hv H). split; [constructor; [lia|done]|cbn; lia].
Qed.

(** ** Lemmas: conversion *)

Lemma convert_array_run conv size l p n : forall d s k m,
  (forall d s m, conv d s m = Ok (p, copy_leaves d s l m)) ->
  convert_array conv n (d + k) (s + k) size size m = Ok (copy_leaves d s (repeat_leaves n k size l) m).
Proof.
  induction n as [|n IH]; intros d s k m H; [done|]. cbn [convert_array repeat_leaves]. rewrite H. cbn [res_bind].
  rewrite <- !Z.add_assoc, IH by done. by rewrite copy_leaves_app, copy_leaves_shift.
Qed.

Lemma convert_fields_run Delta conv r d s fs : forall offs m, length offs = length fs ->
  (forall t dst src r m, t ∈ fs -> conv dst src (encode t ++ r) m = Ok (Some r, copy_leaves dst src (leaves Delta t) m)) ->
  convert_fields conv (length fs) d s offs offs (Some (concat (map encode fs) ++ r)) m =
  Ok (copy_leaves d s (field_leaves Delta fs offs) m).
Proof.
  induction fs as [|t fs IH]; intros [|o offs] m Hn H; try done. cbn [length convert_fields map concat field_leaves].
  rewrite <- app_assoc, H by constructor. cbn [res_bind].
  rewrite IH; [|by injection Hn|intros; apply H; by constructor]. by rewrite copy_leaves_app, copy_leaves_shift.
Qed.

Lemma thunk_convert_run se Delta to_host (HR : rep se Delta) : forall fuel t dst src r m, valid Delta t ->
  convertible Delta t = true -> sizeof Delta t <= 2147483647 -> (depth Delta t <= fuel)%nat ->
  thunk_convert fuel se dst src (encode t ++ r) to_host m = Ok (Some r, copy_leaves dst src (leaves Delta t) m).
Proof.
  induction fuel as [|fuel IH]; intros t dst src r m Hv Hc Hb Hf; [destruct t; cbn in Hf; lia|].
  destruct t as [b|t|n t|id]; [..|].
  - destruct b; cbn -[copy]; unfold copy_leaves; cbn -[copy]; by rewrite !Z.add_0_r.
  - done.
  - destruct Hv as [Hn Hv]. destruct (type_wf _ _ HR t Hv) as (_ & Hs & _). cbn [sizeof depth convertible leaves] in *.
    change (encode (TArr n t) ++ r) with (TYPE_ARRAY :: n :: encode t ++ r).
    cbn [thunk_convert]. cbn -[thunk_convert thunk_type_size convert_array thunk_type_next].
    rewrite !(thunk_type_size_encode se Delta HR) by (done || nia). cbn [res_bind].
    pose proof (convert_array_run (fun d s m => thunk_convert fuel se d s (encode t ++ r) to_host m) (sizeof Delta t)
      (leaves Delta t) (Some r) (Z.to_nat n) dst src 0 m) as E.
    rewrite !Z.add_0_r in E. rewrite E by (intros; apply IH; (done || lia || nia)). cbn [res_bind].
    by rewrite thunk_type_next_encode.
  - cbn [valid sizeof depth convertible leaves] in *. destruct (rep_struct _ _ HR id Hv) as [_ _ HL HF HW].
    destruct (rep_struct_entry _ _ HR id Hv) as (e & Ee & [r' Et] & En & Ec & Eo).
    set (L := struct_of Delta id) in *. destruct (layout_in_order _ _ _ HR HF) as (Hio & _). pose proof (layout_parts Delta (l_fields L)) as (Pl & Pd & Pc).
    rewrite <- HL in Hio, Pl, Pd, Pc. destruct (in_order_sizes _ _ _ HR _ 0 _ (Z.le_refl 0) HF Hio) as [Hsz Hlen].
    change (encode (TStruct id) ++ r) with (TYPE_STRUCT :: id :: r).
    cbn [thunk_convert]. cbn -[thunk_convert struct_entry convert_fields].
    rewrite Ee. cbn [res_bind]. rewrite Ec. destruct (Eo to_host) as (-> & _), (Eo (negb to_host)) as (-> & _).
    rewrite Et, En. unfold encode_fields. rewrite <- app_assoc. rewrite (convert_fields_run Delta); [cbn [res_bind]|done|].
    { by rewrite Pl. }
    intros t dst' src' r'' m' Ht. rewrite list_elem_of_In in Ht. rewrite Forall_forall in HF, Hsz.
    setoid_rewrite list_elem_of_In in HF. setoid_rewrite list_elem_of_In in Hsz.
    apply IH; [by apply HF| | |].
    + rewrite Pc, forallb_forall in Hc. by apply Hc.
    + specialize (Hsz t Ht). lia.
    + apply Nat.succ_le_mono in Hf. etransitivity; [|exact Hf]. rewrite Pd. clear -Ht.
      induction (l_fields L) as [|u l IHl]; [done|]. destruct Ht as [->|Ht]; cbn; [lia|]. specialize (IHl Ht). lia.
Qed.

(** ** Lemmas: bit masks *)

Lemma union_testbit sel bits bs i : Z.testbit (union_of sel bits bs) i = existsb (fun b => sel b && Z.testbit (bits b) i) bs.
Proof.
  induction bs as [|b bs IH]; cbn; [apply Z.testbit_0_l|]. rewrite Z.lor_spec, IH. f_equal.
  destruct (sel b); [done|apply Z.testbit_0_l].
Qed.

Lemma union_of_ext sel sel' bits bs : (forall b, In b bs -> sel b = sel' b) -> union_of sel bits bs = union_of sel' bits bs.
Proof. induction bs as [|b bs IH]; intros H; cbn; [done|]. rewrite H by (by left). f_equal. apply IH. intros. apply H. by right. Qed.

(** Entries that each contribute nothing or [v] to a field. *)
Lemma union_field sel bits mask v bs :
  (forall b, In b bs -> sel b = true -> Z.land (bits b) mask = 0 \/ Z.land (bits b) mask = v) ->
  Z.land (union_of sel bits bs) mask = 0 \/ Z.land (union_of sel bits bs) mask = v.
Proof.
  induction bs as [|b bs IH]; intros H; cbn; [left; apply Z.land_0_l|]. rewrite Z.land_lor_distr_l.
  destruct IH as [-> | ->]; [intros; apply H; [by right|done]|..]; destruct (sel b) eqn:E;
    rewrite ?Z.land_0_l, ?Z.lor_0_r, ?Z.lor_0_l; auto; (destruct (H b) as [-> | ->]; [by left|done|..]);
    rewrite ?Z.lor_0_l, ?Z.lor_0_r, ?Z.lor_diag; auto.
Qed.

Lemma union_field_in sel bits mask v b bs :
  (forall b, In b bs -> sel b = true -> Z.land (bits b) mask = 0 \/ Z.land (bits b) mask = v) ->
  In b bs -> sel b = true -> Z.land (bits b) mask = v -> Z.land (union_of sel bits bs) mask = v.
Proof.
  intros H Hb Hs Hv. destruct (union_field sel bits mask v bs H) as [E|E]; [|done].
  rewrite E. symmetry. rewrite <- Hv. apply Z.bits_inj'. intros i Hi. rewrite Z.testbit_0_l, Z.land_spec.
  apply (f_equal (fun z => Z.testbit z i)) in E. rewrite Z.testbit_0_l, Z.land_spec, union_testbit in E.
  destruct (Z.testbit (bits b) i) eqn:Eb; [|done]. cbn. destruct (existsb _ bs) eqn:Ex; [exact E|].
  rewrite <- not_true_iff_false in Ex. destruct Ex. apply existsb_exists. exists b. by rewrite Hs, Eb.
Qed.

Lemma target_to_host_union x bs r : forallb entry_ok bs = true -> forall a,
  target_to_host_loop x (bs ++ end_of_table :: r) a = Ok (Z.lor a (union_of (x86_match x) alpha_bits bs)).
Proof.
  induction bs as [|b bs IH]; intros H a; cbn; [by rewrite Z.lor_0_r|].
  apply andb_true_iff in H as [Hb H]. unfold entry_ok in Hb. destruct (x86_mask b =? 0), (alpha_mask b =? 0); try done.
  cbn [orb]. rewrite IH by done. f_equal. unfold x86_match. destruct (Z.land x (x86_mask b) =? x86_bits b).
  - by rewrite Z.lor_assoc.
  - by rewrite Z.lor_0_l.
Qed.

Lemma host_to_target_union x bs r : forallb entry_ok bs = true -> forall a,
  host_to_target_loop x (bs ++ end_of_table :: r) a =
  Ok (Z.lor a (union_of (fun b => Z.land x (alpha_mask b) =? alpha_bits b) x86_bits bs)).
Proof.
  induction bs as [|b bs IH]; intros H a; cbn; [by rewrite Z.lor_0_r|].
  apply andb_true_iff in H as [Hb H]. unfold entry_ok in Hb. destruct (x86_mask b =? 0), (alpha_mask b =? 0); try done.
  cbn [orb]. rewrite IH by done. f_equal. destruct (Z.land x (alpha_mask b) =? alpha_bits b).
  - by rewrite Z.lor_assoc.
  - by rewrite Z.lor_0_l.
Qed.

Section Table.
Variables (bs : list bitmask_transtbl) (x : Z).
Hypotheses (HT : tbl_ok bs = true) (HK : known bs x = true).

Lemma entry_fact b : In b bs -> Z.land (x86_bits b) (x86_mask b) = x86_bits b /\ Z.land (alpha_bits b) (alpha_mask b) = alpha_bits b /\
  (x86_bits b = 0 <-> alpha_bits b = 0).
Proof.
  intros Hb. apply andb_true_iff in HT as [HE _]. rewrite forallb_forall in HE. specialize (HE b Hb). unfold entry_ok in HE.
  rewrite !andb_true_iff, Bool.eqb_true_iff, !Z.eqb_eq in HE. destruct HE as [[[_ H1] H2] H3]. split_and!; [done..|].
  rewrite <- !Z.eqb_eq. by rewrite H3.
Qed.

Lemma pair_fact b b' : In b bs -> In b' bs ->
  (same_field b b' = true /\ (x86_bits b = x86_bits b' <-> alpha_bits b = alpha_bits b')) \/
  Z.land (x86_mask b) (x86_mask b') = 0 /\ Z.land (alpha_mask b) (alpha_mask b') = 0.
Proof.
  intros Hb Hb'. apply andb_true_iff in HT as [_ HP]. rewrite forallb_forall in HP. specialize (HP b Hb).
  rewrite forallb_forall in HP. specialize (HP b' Hb'). unfold compatible in HP.
  rewrite orb_true_iff, !andb_true_iff, Bool.eqb_true_iff, !Z.eqb_eq in HP. destruct HP as [[H1 H2]|H]; [left|by right].
  split; [done|]. rewrite <- !Z.eqb_eq. by rewrite H2.
Qed.

(** What a selected entry contributes to the field of another. *)
Lemma contribution b b' : In b bs -> In b' bs -> x86_match x b' = true ->
  Z.land (alpha_bits b') (alpha_mask b) = 0 \/
  same_field b b' = true /\ Z.land (alpha_bits b') (alpha_mask b) = alpha_bits b' /\ x86_bits b' = Z.land x (x86_mask b).
Proof.
  intros Hb Hb' Hm. apply Z.eqb_eq in Hm. destruct (entry_fact b' Hb') as (_ & Ha & _).
  destruct (pair_fact b b' Hb Hb') as [[Hs _]|[_ Hd]].
  - right. split; [done|]. unfold same_field in Hs. rewrite andb_true_iff, !Z.eqb_eq in Hs. destruct Hs as [-> ->]. done.
  - left. rewrite <- Ha, <- Z.land_assoc, (Z.land_comm (alpha_mask b')), Hd. apply Z.land_0_r.
Qed.

Lemma translated_match b : In b bs ->
  (Z.land (union_of (x86_match x) alpha_bits bs) (alpha_mask b) =? alpha_bits b) = x86_match x b.
Proof.
  intros Hb. assert (Hu : forall b', In b' bs -> x86_match x b' = true -> same_field b b' = true ->
    Z.land (union_of (x86_match x) alpha_bits bs) (alpha_mask b) = alpha_bits b').
  { intros b' Hb' Hm Hs. apply (union_field_in _ _ _ _ b'); [|done|done|].
    - intros c Hc Hmc. destruct (contribution b c Hb Hc Hmc) as [?|(Hs' & -> & Ex)]; [by left|right].
      apply Z.eqb_eq in Hm. unfold same_field in Hs. rewrite andb_true_iff, !Z.eqb_eq in Hs. destruct Hs as [Hs _].
      rewrite Hs, Hm in Ex. destruct (pair_fact c b' Hc Hb') as [[_ Hi]|[Hd _]]; [by apply Hi|].
      unfold same_field in Hs'. rewrite andb_true_iff, !Z.eqb_eq in Hs'. destruct Hs' as [Hs' _].
      rewrite <- Hs', Hs, Z.land_diag in Hd. apply andb_true_iff in HT as [HE _]. rewrite forallb_forall in HE.
      specialize (HE b' Hb'). unfold entry_ok in HE. by rewrite Hd in HE.
    - destruct (contribution b b' Hb Hb' Hm) as [E|(_ & E & _)]; [|done].
      destruct (entry_fact b' Hb') as (_ & Ha & _). unfold same_field in Hs. rewrite andb_true_iff, !Z.eqb_eq in Hs.
      destruct Hs as [_ ->]. by rewrite Ha. }
  destruct (x86_match x b) eqn:Em.
  - apply Z.eqb_eq, (Hu b); [done|done|]. unfold same_field. by rewrite !Z.eqb_refl.
  - apply Z.eqb_neq. unfold known in HK. rewrite forallb_forall in HK. specialize (HK b Hb).
    apply orb_true_iff in HK as [Hz|He].
    + apply Z.eqb_eq in Hz. destruct (entry_fact b Hb) as (_ & _ & H0).
      assert (alpha_bits b <> 0) by (unfold x86_match in Em; rewrite Hz in Em; apply Z.eqb_neq in Em; rewrite <- H0; done).
      destruct (union_field (x86_match x) alpha_bits (alpha_mask b) 0 bs) as [-> | ->]; [|done|done].
      intros b' Hb' Hm. destruct (contribution b b' Hb Hb' Hm) as [?|(_ & -> & Ex)]; [by left|left].
      rewrite Hz in Ex. by apply (entry_fact b' Hb').
    + apply existsb_exists in He as (b' & Hb' & [Hs Hm]%andb_true_iff). rewrite (Hu b') by done. intros Ea.
      destruct (pair_fact b b' Hb Hb') as [[_ Hi]|[Hd _]].
      * assert (Ex : x86_bits b = x86_bits b') by by apply Hi. unfold x86_match in *. unfold same_field in Hs.
        rewrite andb_true_iff, !Z.eqb_eq in Hs. destruct Hs as [Hs _]. by rewrite Hs, Ex, Hm in Em.
      * unfold same_field in Hs. rewrite andb_true_iff, !Z.eqb_eq in Hs. destruct Hs as [Hs _].
        rewrite Hs, Z.land_diag in Hd. apply andb_true_iff in HT as [HE _]. rewrite forallb_forall in HE.
        specialize (HE b' Hb'). unfold entry_ok in HE. by rewrite Hd in HE.
Qed.

Lemma matched_fields : union_of (x86_match x) x86_bits bs = Z.land x (all_fields bs).
Proof.
  apply Z.bits_inj'. intros i Hi. rewrite union_testbit, Z.land_spec.
  assert (Ha : Z.testbit (all_fields bs) i = existsb (fun b => Z.testbit (x86_mask b) i) bs).
  { unfold all_fields. clear. induction bs as [|b l IH]; cbn; [apply Z.testbit_0_l|]. by rewrite Z.lor_spec, IH. }
  rewrite Ha. apply eq_true_iff_eq. rewrite andb_true_iff, !existsb_exists. setoid_rewrite andb_true_iff. split.
  - intros (b & Hb & Hm & Hbit). apply Z.eqb_eq in Hm. rewrite <- Hm, Z.land_spec in Hbit.
    apply andb_true_iff in Hbit as [? ?]. eauto.
  - intros (Hx & b & Hb & Hbit). unfold known in HK. rewrite forallb_forall in HK. specialize (HK b Hb).
    apply orb_true_iff in HK as [Hz|He].
    + apply Z.eqb_eq in Hz. apply (f_equal (fun z => Z.testbit z i)) in Hz. by rewrite Z.testbit_0_l, Z.land_spec, Hx, Hbit in Hz.
    + apply existsb_exists in He as (b' & Hb' & [Hs Hm]%andb_true_iff). exists b'. split_and!; [done|done|].
      apply Z.eqb_eq in Hm. unfold same_field in Hs. rewrite andb_true_iff, !Z.eqb_eq in Hs. destruct Hs as [Hs _].
      by rewrite <- Hm, Z.land_spec, Hx, <- Hs.
Qed.
End Table.

(** For values the table knows, the host's mask and what comes back. *)
Lemma bitmask_run bs r x : tbl_ok bs = true -> known bs x = true ->
  target_to_host_bitmask x (bs ++ end_of_table :: r) = Ok (union_of (x86_match x) alpha_bits bs) /\
  host_to_target_bitmask (union_of (x86_match x) alpha_bits bs) (bs ++ end_of_table :: r) = Ok (Z.land x (all_fields bs)).
Proof.
  intros HT HK. pose proof HT as HE. apply andb_true_iff in HE as [HE _].
  unfold target_to_host_bitmask, host_to_target_bitmask.
  rewrite target_to_host_union, host_to_target_union, !Z.lor_0_l by done. split; [done|]. f_equal.
  rewrite <- (matched_fields bs x HK). apply union_of_ext. intros b Hb. by apply translated_match.
Qed.

(** A table that maps a mask to itself. *)
Definition diagonal (bs : list bitmask_transtbl) : bool :=
  forallb (fun b => (x86_mask b =? alpha_mask b) && (x86_bits b =? alpha_bits b)) bs.

Lemma union_bits_ext sel bits bits' bs : (forall b, In b bs -> bits b = bits' b) -> union_of sel bits bs = union_of sel bits' bs.
Proof. induction bs as [|b bs IH]; intros H; cbn; [done|]. rewrite H by (by left). f_equal. apply IH. intros. apply H. by right. Qed.

Lemma diagonal_run bs r x : tbl_ok bs = true -> diagonal bs = true -> known bs x = true ->
  target_to_host_bitmask x (bs ++ end_of_table :: r) = Ok (Z.land x (all_fields bs)) /\
  host_to_target_bitmask (Z.land x (all_fields bs)) (bs ++ end_of_table :: r) = Ok (Z.land x (all_fields bs)).
Proof.
  intros HT HD HK. destruct (bitmask_run bs r x HT HK) as [E1 E2].
  assert (E : union_of (x86_match x) alpha_bits bs = Z.land x (all_fields bs)).
  { rewrite <- (matched_fields bs x HK). apply union_bits_ext. unfold diagonal in HD. rewrite forallb_forall in HD.
    intros b Hb. specialize (HD b Hb). rewrite andb_true_iff, !Z.eqb_eq in HD. by destruct HD. }
  by rewrite E in E1, E2.
Qed.

(** ** Lemmas: a structure registered once *)

Lemma rep_insert se Delta id e L : rep se Delta -> 0 <= id < MAX_STRUCTS -> Delta !! id = None -> entry_of e L ->
  L = layout_of Delta (l_fields L) -> Forall (valid Delta) (l_fields L) -> wf_layout L ->
  rep (<[id := e]> se) (<[id := L]> Delta).
Proof.
  intros HR Hid Hn He HL Hv Hw id' L' H. destruct (decide (id = id')) as [<-|Hne].
  - rewrite lookup_insert_eq in H. injection H as <-. destruct (layout_mono Delta id L _ Hn Hv) as [El Hv'].
    split; [done| |by rewrite El|done|done]. exists e. by rewrite lookup_insert_eq.
  - rewrite lookup_insert_ne in H by done. destruct (HR id' L' H) as [? (e' & E' & ?) HL' Hv' ?].
    destruct (layout_mono Delta id L _ Hn Hv') as [El Hv'']. split; [done| |by rewrite El|done|done].
    exists e'. by rewrite lookup_insert_ne.
Qed.

Lemma thunk_register_struct_run se Delta id fs r : rep se Delta -> 0 <= id < MAX_STRUCTS -> Delta !! id = None ->
  se !! id = None -> Forall (valid Delta) fs -> l_size (layout_of Delta fs) <= 2147483639 ->
  exists e, thunk_register_struct id (encode_fields fs ++ r) se = Ok (<[id := e]> se) /\
    rep (<[id := e]> se) (<[id := layout_of Delta fs]> Delta).
Proof.
  intros HR Hid Hn Hs Hv Hb. unfold thunk_register_struct, struct_entry.
  destruct (Z.leb_spec 0 id), (Z.ltb_spec id MAX_STRUCTS); try lia. cbn [andb res_bind]. rewrite Hs.
  assert (Hlen : (length (encode_fields fs ++ r) = S (pred (length (encode_fields fs ++ r))))%nat /\
                 (length fs <= pred (length (encode_fields fs ++ r)))%nat).
  { unfold encode_fields. rewrite !length_app. cbn. pose proof (length_fields fs). lia. }
  rewrite (proj1 Hlen), count_fields_encode by apply Hlen. cbn [res_bind]. rewrite Nat.add_0_r.
  rewrite !(layout_fields_encode se Delta) by done. cbn [res_bind convert default zero_entry].
  eexists. split; [reflexivity|]. destruct (layout_in_order _ _ _ HR Hv) as (Hio & Ha & Hd & _ & Hp).
  assert (Ef : l_fields (layout_of Delta fs) = fs) by (unfold layout_of; by destruct (place Delta fs 0)).
  apply rep_insert; rewrite ?Ef; try done.
  - unfold entry_of. rewrite Ef. cbn. split_and!; [by exists r|done|done|]. by intros [].
  - apply (in_order_le _ _ HR) in Hio; [|done]. by split_and!; try lia.
Qed.

(** Copying packed leaves between areas that do not meet. *)
Lemma copy_leaves_packed al hi l dst src : forall lo m, packed al lo hi l -> (src + hi <= dst + lo \/ dst + hi <= src + lo) ->
  (forall o n k, In (o, n) l -> 0 <= k < n -> ld8 (copy_leaves dst src l m) (dst + o + k) = ld8 m (src + o + k)) /\
  (forall x, (forall o n, In (o, n) l -> x < dst + o \/ dst + o + n <= x) -> copy_leaves dst src l m !! x = m !! x).
Proof.
  induction l as [|[o n] l IH]; intros lo m Hp Hd; [done|]. destruct Hp as (Hlo & Hn & _ & _ & Hp).
  pose proof (packed_le _ _ _ _ Hp) as Hhi.
  change (copy_leaves dst src ((o, n) :: l) m) with (copy_leaves dst src l (copy (Z.to_nat n) (dst + o) (src + o) m)).
  destruct (IH (o + n) (copy (Z.to_nat n) (dst + o) (src + o) m) Hp ltac:(lia)) as [IH1 IH2].
  assert (Hout : forall x, x < dst + o \/ dst + o + n <= x -> copy (Z.to_nat n) (dst + o) (src + o) m !! x = m !! x).
  { intros x Hx. apply write_bytes_out. rewrite read_bytes_length. lia. }
  assert (Hl : forall o' n', In (o', n') l -> o + n <= o' /\ o' + n' <= hi).
  { clear -Hp. intros o' n'. revert Hp. generalize (o + n) as z. induction l as [|[a b] l IH]; intros z Hp Hin; [done|].
    destruct Hp as (? & ? & _ & _ & Hp). destruct Hin as [E|Hin].
    - injection E as -> ->. split; [lia|]. by apply packed_le in Hp.
    - specialize (IH _ Hp Hin). lia. }
  split.
  - intros o' n' k [E|Hin] Hk.
    + injection E as <- <-. rewrite (ld8_ext (copy (Z.to_nat n) (dst + o) (src + o) m)).
      2:{ apply IH2. intros o' n' Hin. specialize (Hl _ _ Hin). lia. }
      assert (E : read_bytes m (src + o) (Z.to_nat n) !! Z.to_nat k = Some (ld8 m (src + o + k))).
      { clear -Hk. replace (src + o + k) with (src + o + Z.of_nat (Z.to_nat k)) by lia.
        assert (H : (Z.to_nat k < Z.to_nat n)%nat) by lia. revert H. generalize (Z.to_nat n) as q, (Z.to_nat k) as i, (src + o) as a.
        induction q as [|q IH]; intros i a H; [lia|]. destruct i as [|i]; cbn.
        - by rewrite Z.add_0_r.
        - rewrite IH by lia. do 2 f_equal. lia. }
      apply (write_bytes_in _ (dst + o) m) in E. replace (dst + o + Z.of_nat (Z.to_nat k)) with (dst + o + k) in E by lia.
      unfold copy, ld8 at 1. rewrite E. cbn. rewrite u8_u8. apply u8_small, ld8_range.
    + rewrite IH1 with (n := n') by done. apply ld8_ext, Hout. specialize (Hl _ _ Hin). lia.
  - intros x Hx. rewrite IH2 by (intros; apply Hx; by right). apply Hout. apply Hx. by left.
Qed.

(** ** Theorems *)


Lemma rep_empty : rep ∅ ∅.
Proof. intros id L H. by rewrite lookup_empty in H. Qed.


(** C34: converting a value of a type without pointers to known types returns
    the rest of the description, copies every scalar of the value to its place,
    and changes no other byte, the padding between scalars included, for source
    and destination that do not meet. *)
Theorem thunk_convert_ok se Delta to_host t r dst src m (HR : rep se Delta) (Hv : valid Delta t)
    (Hc : convertible Delta t = true) (Hb : sizeof Delta t <= 2147483647)
    (Hd : src + sizeof Delta t <= dst \/ dst + sizeof Delta t <= src) :
  exists m', thunk_convert (depth Delta t) se dst src (encode t ++ r) to_host m = Ok (Some r, m') /\
    (forall o n k, In (o, n) (leaves Delta t) -> 0 <= k < n -> ld8 m' (dst + o + k) = ld8 m (src + o + k)) /\
    (forall x, (forall o n, In (o, n) (leaves Delta t) -> x < dst + o \/ dst + o + n <= x) -> m' !! x = m !! x) /\
    packed (alignof Delta t) 0 (sizeof Delta t) (leaves Delta t).
Proof.
  destruct (type_wf _ _ HR t Hv) as (_ & _ & _ & Hp).
  destruct (copy_leaves_packed _ _ _ dst src 0 m Hp ltac:(lia)) as [H1 H2].
  exists (copy_leaves dst src (leaves Delta t) m). split_and!; [|done..]. by apply (thunk_convert_run se Delta).
Qed.

Lemma thunk_convert_ok_witness :
  exists m', thunk_convert 1 ∅ 100 50 [TYPE_INT; TYPE_CHAR] true (st32 50 77 ∅) = Ok (Some [TYPE_CHAR], m') /\ ld8 m' 100 = 77.
Proof.
  destruct (thunk_convert_ok ∅ ∅ true (TBase Int) [TYPE_CHAR] 100 50 (st32 50 77 ∅) rep_empty) as (m' & E & Hl & _).
  - done.
  - reflexivity.
  - vm_compute. discriminate.
  - left. vm_compute. discriminate.
  - exists m'. split; [exact E|]. specialize (Hl 0 4 0). rewrite !Z.add_0_r in Hl. rewrite Hl; [reflexivity|by left|lia].
Defined.

(** A table of bit masks whose entries describe fields consistently
    translates every value of the guest it knows to the host's, and back to the
    fields it describes. *)
Theorem bitmask_round_trip bs r x (HT : tbl_ok bs = true) (HK : known bs x = true) :
  exists a, target_to_host_bitmask x (bs ++ end_of_table :: r) = Ok a /\
    host_to_target_bitmask a (bs ++ end_of_table :: r) = Ok (Z.land x (all_fields bs)) /\
    forall b, In b bs -> (Z.land a (alpha_mask b) = alpha_bits b <-> Z.land x (x86_mask b) = x86_bits b).
Proof.
  destruct (bitmask_run bs r x HT HK) as [E1 E2]. eexists. split_and!; [exact E1|exact E2|].
  intros b Hb. rewrite <- !Z.eqb_eq, translated_match by done. done.
Qed.

Definition sample_tbl : list bitmask_transtbl := [mkBits 3 1 12 8; mkBits 3 2 12 4; mkBits 16 16 1 1].
Lemma bitmask_round_trip_witness :
  exists a, target_to_host_bitmask 18 (sample_tbl ++ [end_of_table]) = Ok a /\ a = 5.
Proof.
  destruct (bitmask_round_trip sample_tbl [] 18) as (a & E & _); [reflexivity..|].
  exists a. split; [exact E|]. vm_compute in E. by injection E.
Defined.
