(* ===== verification/Termios.v ===== *)
(** src/linux-user/i386/termbits.h and the conversion of terminal settings in
    src/linux-user/syscall.c: the guest's constants, the tables of bit masks,
    and the two conversion functions of [struct termios]. The host's constants
    are those of its C library for i386 Linux. *)

From S2P Require Import Prelude Memory Thunk.

(** ** Constants *)

Definition TARGET_NCCS : Z := 19.
Definition TARGET_IGNBRK : Z := 0x1.
Definition TARGET_BRKINT : Z := 0x2.
Definition TARGET_IGNPAR : Z := 0x4.
Definition TARGET_PARMRK : Z := 0x8.
Definition TARGET_INPCK : Z := 0x10.
Definition TARGET_ISTRIP : Z := 0x20.
Definition TARGET_INLCR : Z := 0x40.
Definition TARGET_IGNCR : Z := 0x80.
Definition TARGET_ICRNL : Z := 0x100.
Definition TARGET_IUCLC : Z := 0x200.
Definition TARGET_IXON : Z := 0x400.
Definition TARGET_IXANY : Z := 0x800.
Definition TARGET_IXOFF : Z := 0x1000.
Definition TARGET_IMAXBEL : Z := 0x2000.
Definition TARGET_OPOST : Z := 0x1.
Definition TARGET_OLCUC : Z := 0x2.
Definition TARGET_ONLCR : Z := 0x4.
Definition TARGET_OCRNL : Z := 0x8.
Definition TARGET_ONOCR : Z := 0x10.
Definition TARGET_ONLRET : Z := 0x20.
Definition TARGET_OFILL : Z := 0x40.
Definition TARGET_OFDEL : Z := 0x80.
Definition TARGET_NLDLY : Z := 0x100.
Definition TARGET_NL0 : Z := 0x0.
Definition TARGET_NL1 : Z := 0x100.
Definition TARGET_CRDLY : Z := 0x600.
Definition TARGET_CR0 : Z := 0x0.
Definition TARGET_CR1 : Z := 0x200.
Definition TARGET_CR2 : Z := 0x400.
Definition TARGET_CR3 : Z := 0x600.
Definition TARGET_TABDLY : Z := 0x1800.
Definition TARGET_TAB0 : Z := 0x0.
Definition TARGET_TAB1 : Z := 0x800.
Definition TARGET_TAB2 : Z := 0x1000.
Definition TARGET_TAB3 : Z := 0x1800.
Definition TARGET_BSDLY : Z := 0x2000.
Definition TARGET_BS0 : Z := 0x0.
Definition TARGET_BS1 : Z := 0x2000.
Definition TARGET_VTDLY : Z := 0x4000.
Definition TARGET_VT0 : Z := 0x0.
Definition TARGET_VT1 : Z := 0x4000.
Definition TARGET_FFDLY : Z := 0x8000.
Definition TARGET_FF0 : Z := 0x0.
Definition TARGET_FF1 : Z := 0x8000.
Definition TARGET_CBAUD : Z := 0x100f.
Definition TARGET_B0 : Z := 0x0.
Definition TARGET_B50 : Z := 0x1.
Definition TARGET_B75 : Z := 0x2.
Definition TARGET_B110 : Z := 0x3.
Definition TARGET_B134 : Z := 0x4.
Definition TARGET_B150 : Z := 0x5.
Definition TARGET_B200 : Z := 0x6.
Definition TARGET_B300 : Z := 0x7.
Definition TARGET_B600 : Z := 0x8.
Definition TARGET_B1200 : Z := 0x9.
Definition TARGET_B1800 : Z := 0xa.
Definition TARGET_B2400 : Z := 0xb.
Definition TARGET_B4800 : Z := 0xc.
Definition TARGET_B9600 : Z := 0xd.
Definition TARGET_B19200 : Z := 0xe.
Definition TARGET_B38400 : Z := 0xf.
Definition TARGET_B57600 : Z := 0x1001.
Definition TARGET_B115200 : Z := 0x1002.
Definition TARGET_B230400 : Z := 0x1003.
Definition TARGET_B460800 : Z := 0x1004.
Definition TARGET_B500000 : Z := 0x1005.
Definition TARGET_CSIZE : Z := 0x30.
Definition TARGET_CS5 : Z := 0x0.
Definition TARGET_CS6 : Z := 0x10.
Definition TARGET_CS7 : Z := 0x20.
Definition TARGET_CS8 : Z := 0x30.
Definition TARGET_CSTOPB : Z := 0x40.
Definition TARGET_CREAD : Z := 0x80.
Definition TARGET_PARENB : Z := 0x100.
Definition TARGET_PARODD : Z := 0x200.
Definition TARGET_HUPCL : Z := 0x400.
Definition TARGET_CLOCAL : Z := 0x800.
Definition TARGET_CRTSCTS : Z := 0x80000000.
Definition TARGET_ISIG : Z := 0x1.
Definition TARGET_ICANON : Z := 0x2.
Definition TARGET_XCASE : Z := 0x4.
Definition TARGET_ECHO : Z := 0x8.
Definition TARGET_ECHOE : Z := 0x10.
Definition TARGET_ECHOK : Z := 0x20.
Definition TARGET_ECHONL : Z := 0x40.
Definition TARGET_NOFLSH : Z := 0x80.
Definition TARGET_TOSTOP : Z := 0x100.
Definition TARGET_ECHOCTL : Z := 0x200.
Definition TARGET_ECHOPRT : Z := 0x400.
Definition TARGET_ECHOKE : Z := 0x800.
Definition TARGET_FLUSHO : Z := 0x1000.
Definition TARGET_PENDIN : Z := 0x4000.
Definition TARGET_IEXTEN : Z := 0x8000.
Definition TARGET_VINTR : Z := 0x0.
Definition TARGET_VQUIT : Z := 0x1.
Definition TARGET_VERASE : Z := 0x2.
Definition TARGET_VKILL : Z := 0x3.
Definition TARGET_VEOF : Z := 0x4.
Definition TARGET_VTIME : Z := 0x5.
Definition TARGET_VMIN : Z := 0x6.
Definition TARGET_VSWTC : Z := 0x7.
Definition TARGET_VSTART : Z := 0x8.
Definition TARGET_VSTOP : Z := 0x9.
Definition TARGET_VSUSP : Z := 0xa.
Definition TARGET_VEOL : Z := 0xb.
Definition TARGET_VREPRINT : Z := 0xc.
Definition TARGET_VDISCARD : Z := 0xd.
Definition TARGET_VWERASE : Z := 0xe.
Definition TARGET_VLNEXT : Z := 0xf.
Definition TARGET_VEOL2 : Z := 0x10.

(** <asm/termbits.h> of the host. *)
Module Host.
Definition IGNBRK : Z := 0x1.
Definition BRKINT : Z := 0x2.
Definition IGNPAR : Z := 0x4.
Definition PARMRK : Z := 0x8.
Definition INPCK : Z := 0x10.
Definition ISTRIP : Z := 0x20.
Definition INLCR : Z := 0x40.
Definition IGNCR : Z := 0x80.
Definition ICRNL : Z := 0x100.
Definition IUCLC : Z := 0x200.
Definition IXON : Z := 0x400.
Definition IXANY : Z := 0x800.
Definition IXOFF : Z := 0x1000.
Definition IMAXBEL : Z := 0x2000.
Definition OPOST : Z := 0x1.
Definition OLCUC : Z := 0x2.
Definition ONLCR : Z := 0x4.
Definition OCRNL : Z := 0x8.
Definition ONOCR : Z := 0x10.
Definition ONLRET : Z := 0x20.
Definition OFILL : Z := 0x40.
Definition OFDEL : Z := 0x80.
Definition NLDLY : Z := 0x100.
Definition NL0 : Z := 0x0.
Definition NL1 : Z := 0x100.
Definition CRDLY : Z := 0x600.
Definition CR0 : Z := 0x0.
Definition CR1 : Z := 0x200.
Definition CR2 : Z := 0x400.
Definition CR3 : Z := 0x600.
Definition TABDLY : Z := 0x1800.
Definition TAB0 : Z := 0x0.
Definition TAB1 : Z := 0x800.
Definition TAB2 : Z := 0x1000.
Definition TAB3 : Z := 0x1800.
Definition BSDLY : Z := 0x2000.
Definition BS0 : Z := 0x0.
Definition BS1 : Z := 0x2000.
Definition VTDLY : Z := 0x4000.
Definition VT0 : Z := 0x0.
Definition VT1 : Z := 0x4000.
Definition FFDLY : Z := 0x8000.
Definition FF0 : Z := 0x0.
Definition FF1 : Z := 0x8000.
Definition CBAUD : Z := 0x100f.
Definition B0 : Z := 0x0.
Definition B50 : Z := 0x1.
Definition B75 : Z := 0x2.
Definition B110 : Z := 0x3.
Definition B134 : Z := 0x4.
Definition B150 : Z := 0x5.
Definition B200 : Z := 0x6.
Definition B300 : Z := 0x7.
Definition B600 : Z := 0x8.
Definition B1200 : Z := 0x9.
Definition B1800 : Z := 0xa.
Definition B2400 : Z := 0xb.
Definition B4800 : Z := 0xc.
Definition B9600 : Z := 0xd.
Definition B19200 : Z := 0xe.
Definition B38400 : Z := 0xf.
Definition B57600 : Z := 0x1001.
Definition B115200 : Z := 0x1002.
Definition B230400 : Z := 0x1003.
Definition B460800 : Z := 0x1004.
Definition CSIZE : Z := 0x30.
Definition CS5 : Z := 0x0.
Definition CS6 : Z := 0x10.
Definition CS7 : Z := 0x20.
Definition CS8 : Z := 0x30.
Definition CSTOPB : Z := 0x40.
Definition CREAD : Z := 0x80.
Definition PARENB : Z := 0x100.
Definition PARODD : Z := 0x200.
Definition HUPCL : Z := 0x400.
Definition CLOCAL : Z := 0x800.
Definition CRTSCTS : Z := 0x80000000.
Definition ISIG : Z := 0x1.
Definition ICANON : Z := 0x2.
Definition XCASE : Z := 0x4.
Definition ECHO : Z := 0x8.
Definition ECHOE : Z := 0x10.
Definition ECHOK : Z := 0x20.
Definition ECHONL : Z := 0x40.
Definition NOFLSH : Z := 0x80.
Definition TOSTOP : Z := 0x100.
Definition ECHOCTL : Z := 0x200.
Definition ECHOPRT : Z := 0x400.
Definition ECHOKE : Z := 0x800.
Definition FLUSHO : Z := 0x1000.
Definition PENDIN : Z := 0x4000.
Definition IEXTEN : Z := 0x8000.
Definition VINTR : Z := 0x0.
Definition VQUIT : Z := 0x1.
Definition VERASE : Z := 0x2.
Definition VKILL : Z := 0x3.
Definition VEOF : Z := 0x4.
Definition VTIME : Z := 0x5.
Definition VMIN : Z := 0x6.
Definition VSWTC : Z := 0x7.
Definition VSTART : Z := 0x8.
Definition VSTOP : Z := 0x9.
Definition VSUSP : Z := 0xa.
Definition VEOL : Z := 0xb.
Definition VREPRINT : Z := 0xc.
Definition VDISCARD : Z := 0xd.
Definition VWERASE : Z := 0xe.
Definition VLNEXT : Z := 0xf.
Definition VEOL2 : Z := 0x10.
End Host.

(** ** Tables *)

Definition iflag_tbl : list bitmask_transtbl :=
  [mkBits TARGET_IGNBRK TARGET_IGNBRK Host.IGNBRK Host.IGNBRK;
   mkBits TARGET_BRKINT TARGET_BRKINT Host.BRKINT Host.BRKINT;
   mkBits TARGET_IGNPAR TARGET_IGNPAR Host.IGNPAR Host.IGNPAR;
   mkBits TARGET_PARMRK TARGET_PARMRK Host.PARMRK Host.PARMRK;
   mkBits TARGET_INPCK TARGET_INPCK Host.INPCK Host.INPCK;
   mkBits TARGET_ISTRIP TARGET_ISTRIP Host.ISTRIP Host.ISTRIP;
   mkBits TARGET_INLCR TARGET_INLCR Host.INLCR Host.INLCR;
   mkBits TARGET_IGNCR TARGET_IGNCR Host.IGNCR Host.IGNCR;
   mkBits TARGET_ICRNL TARGET_ICRNL Host.ICRNL Host.ICRNL;
   mkBits TARGET_IUCLC TARGET_IUCLC Host.IUCLC Host.IUCLC;
   mkBits TARGET_IXON TARGET_IXON Host.IXON Host.IXON;
   mkBits TARGET_IXANY TARGET_IXANY Host.IXANY Host.IXANY;
   mkBits TARGET_IXOFF TARGET_IXOFF Host.IXOFF Host.IXOFF;
   mkBits TARGET_IMAXBEL TARGET_IMAXBEL Host.IMAXBEL Host.IMAXBEL;
   end_of_table].

Definition oflag_tbl : list bitmask_transtbl :=
  [mkBits TARGET_OPOST TARGET_OPOST Host.OPOST Host.OPOST;
   mkBits TARGET_OLCUC TARGET_OLCUC Host.OLCUC Host.OLCUC;
   mkBits TARGET_ONLCR TARGET_ONLCR Host.ONLCR Host.ONLCR;
   mkBits TARGET_OCRNL TARGET_OCRNL Host.OCRNL Host.OCRNL;
   mkBits TARGET_ONOCR TARGET_ONOCR Host.ONOCR Host.ONOCR;
   mkBits TARGET_ONLRET TARGET_ONLRET Host.ONLRET Host.ONLRET;
   mkBits TARGET_OFILL TARGET_OFILL Host.OFILL Host.OFILL;
   mkBits TARGET_OFDEL TARGET_OFDEL Host.OFDEL Host.OFDEL;
   mkBits TARGET_NLDLY TARGET_NL0 Host.NLDLY Host.NL0;
   mkBits TARGET_NLDLY TARGET_NL1 Host.NLDLY Host.NL1;
   mkBits TARGET_CRDLY TARGET_CR0 Host.CRDLY Host.CR0;
   mkBits TARGET_CRDLY TARGET_CR1 Host.CRDLY Host.CR1;
   mkBits TARGET_CRDLY TARGET_CR2 Host.CRDLY Host.CR2;
   mkBits TARGET_CRDLY TARGET_CR3 Host.CRDLY Host.CR3;
   mkBits TARGET_TABDLY TARGET_TAB0 Host.TABDLY Host.TAB0;
   mkBits TARGET_TABDLY TARGET_TAB1 Host.TABDLY Host.TAB1;
   mkBits TARGET_TABDLY TARGET_TAB2 Host.TABDLY Host.TAB2;
   mkBits TARGET_TABDLY TARGET_TAB3 Host.TABDLY Host.TAB3;
   mkBits TARGET_BSDLY TARGET_BS0 Host.BSDLY Host.BS0;
   mkBits TARGET_BSDLY TARGET_BS1 Host.BSDLY Host.BS1;
   mkBits TARGET_VTDLY TARGET_VT0 Host.VTDLY Host.VT0;
   mkBits TARGET_VTDLY TARGET_VT1 Host.VTDLY Host.VT1;
   mkBits TARGET_FFDLY TARGET_FF0 Host.FFDLY Host.FF0;
   mkBits TARGET_FFDLY TARGET_FF1 Host.FFDLY Host.FF1;
   end_of_table].

Definition cflag_tbl : list bitmask_transtbl :=
  [mkBits TARGET_CBAUD TARGET_B0 Host.CBAUD Host.B0;
   mkBits TARGET_CBAUD TARGET_B50 Host.CBAUD Host.B50;
   mkBits TARGET_CBAUD TARGET_B75 Host.CBAUD Host.B75;
   mkBits TARGET_CBAUD TARGET_B110 Host.CBAUD Host.B110;
   mkBits TARGET_CBAUD TARGET_B134 Host.CBAUD Host.B134;
   mkBits TARGET_CBAUD TARGET_B150 Host.CBAUD Host.B150;
   mkBits TARGET_CBAUD TARGET_B200 Host.CBAUD Host.B200;
   mkBits TARGET_CBAUD TARGET_B300 Host.CBAUD Host.B300;
   mkBits TARGET_CBAUD TARGET_B600 Host.CBAUD Host.B600;
   mkBits TARGET_CBAUD TARGET_B1200 Host.CBAUD Host.B1200;
   mkBits TARGET_CBAUD TARGET_B1800 Host.CBAUD Host.B1800;
   mkBits TARGET_CBAUD TARGET_B2400 Host.CBAUD Host.B2400;
   mkBits TARGET_CBAUD TARGET_B4800 Host.CBAUD Host.B4800;
   mkBits TARGET_CBAUD TARGET_B9600 Host.CBAUD Host.B9600;
   mkBits TARGET_CBAUD TARGET_B19200 Host.CBAUD Host.B19200;
   mkBits TARGET_CBAUD TARGET_B38400 Host.CBAUD Host.B38400;
   mkBits TARGET_CBAUD TARGET_B57600 Host.CBAUD Host.B57600;
   mkBits TARGET_CBAUD TARGET_B115200 Host.CBAUD Host.B115200;
   mkBits TARGET_CBAUD TARGET_B230400 Host.CBAUD Host.B230400;
   mkBits TARGET_CBAUD TARGET_B460800 Host.CBAUD Host.B460800;
   mkBits TARGET_CSIZE TARGET_CS5 Host.CSIZE Host.CS5;
   mkBits TARGET_CSIZE TARGET_CS6 Host.CSIZE Host.CS6;
   mkBits TARGET_CSIZE TARGET_CS7 Host.CSIZE Host.CS7;
   mkBits TARGET_CSIZE TARGET_CS8 Host.CSIZE Host.CS8;
   mkBits TARGET_CSTOPB TARGET_CSTOPB Host.CSTOPB Host.CSTOPB;
   mkBits TARGET_CREAD TARGET_CREAD Host.CREAD Host.CREAD;
   mkBits TARGET_PARENB TARGET_PARENB Host.PARENB Host.PARENB;
   mkBits TARGET_PARODD TARGET_PARODD Host.PARODD Host.PARODD;
   mkBits TARGET_HUPCL TARGET_HUPCL Host.HUPCL Host.HUPCL;
   mkBits TARGET_CLOCAL TARGET_CLOCAL Host.CLOCAL Host.CLOCAL;
   mkBits TARGET_CRTSCTS TARGET_CRTSCTS Host.CRTSCTS Host.CRTSCTS;
   end_of_table].

Definition lflag_tbl : list bitmask_transtbl :=
  [mkBits TARGET_ISIG TARGET_ISIG Host.ISIG Host.ISIG;
   mkBits TARGET_ICANON TARGET_ICANON Host.ICANON Host.ICANON;
   mkBits TARGET_XCASE TARGET_XCASE Host.XCASE Host.XCASE;
   mkBits TARGET_ECHO TARGET_ECHO Host.ECHO Host.ECHO;
   mkBits TARGET_ECHOE TARGET_ECHOE Host.ECHOE Host.ECHOE;
   mkBits TARGET_ECHOK TARGET_ECHOK Host.ECHOK Host.ECHOK;
   mkBits TARGET_ECHONL TARGET_ECHONL Host.ECHONL Host.ECHONL;
   mkBits TARGET_NOFLSH TARGET_NOFLSH Host.NOFLSH Host.NOFLSH;
   mkBits TARGET_TOSTOP TARGET_TOSTOP Host.TOSTOP Host.TOSTOP;
   mkBits TARGET_ECHOCTL TARGET_ECHOCTL Host.ECHOCTL Host.ECHOCTL;
   mkBits TARGET_ECHOPRT TARGET_ECHOPRT Host.ECHOPRT Host.ECHOPRT;
   mkBits TARGET_ECHOKE TARGET_ECHOKE Host.ECHOKE Host.ECHOKE;
   mkBits TARGET_FLUSHO TARGET_FLUSHO Host.FLUSHO Host.FLUSHO;
   mkBits TARGET_PENDIN TARGET_PENDIN Host.PENDIN Host.PENDIN;
   mkBits TARGET_IEXTEN TARGET_IEXTEN Host.IEXTEN Host.IEXTEN;
   end_of_table].

(** ** Conversion

    Both structures hold four words, a byte [c_line] and [TARGET_NCCS] bytes [c_cc]. *)

Definition off_iflag : Z := 0.
Definition off_oflag : Z := 4.
Definition off_cflag : Z := 8.
Definition off_lflag : Z := 12.
Definition off_line : Z := 16.
Definition off_cc : Z := 17.
Definition sizeof_termios : Z := 36.

(** [memset (p, 0, n)] *)
Definition clear (p : Z) (n : nat) (m : mem) : mem := write_bytes p (replicate n 0) m.

(** The control characters, in the order of the assignments: guest's and host's index. *)
Definition control_chars : list (Z * Z) :=
  [(TARGET_VINTR, Host.VINTR);
   (TARGET_VQUIT, Host.VQUIT);
   (TARGET_VERASE, Host.VERASE);
   (TARGET_VKILL, Host.VKILL);
   (TARGET_VEOF, Host.VEOF);
   (TARGET_VTIME, Host.VTIME);
   (TARGET_VMIN, Host.VMIN);
   (TARGET_VSWTC, Host.VSWTC);
   (TARGET_VSTART, Host.VSTART);
   (TARGET_VSTOP, Host.VSTOP);
   (TARGET_VSUSP, Host.VSUSP);
   (TARGET_VEOL, Host.VEOL);
   (TARGET_VREPRINT, Host.VREPRINT);
   (TARGET_VDISCARD, Host.VDISCARD);
   (TARGET_VWERASE, Host.VWERASE);
   (TARGET_VLNEXT, Host.VLNEXT);
   (TARGET_VEOL2, Host.VEOL2)].

Definition target_to_host_termios (dst src : Z) (m : mem) : res mem :=
  let? i := target_to_host_bitmask (ld32 m (src + off_iflag)) iflag_tbl in
  let m := st32 (dst + off_iflag) i m in
  let? o := target_to_host_bitmask (ld32 m (src + off_oflag)) oflag_tbl in
  let m := st32 (dst + off_oflag) o m in
  let? c := target_to_host_bitmask (ld32 m (src + off_cflag)) cflag_tbl in
  let m := st32 (dst + off_cflag) c m in
  let? l := target_to_host_bitmask (ld32 m (src + off_lflag)) lflag_tbl in
  let m := st32 (dst + off_lflag) l m in
  let m := st8 (dst + off_line) (ld8 m (src + off_line)) m in
  let m := clear (dst + off_cc) (Z.to_nat TARGET_NCCS) m in
  Ok (fold_left (fun m p => st8 (dst + off_cc + p.2) (ld8 m (src + off_cc + p.1)) m) control_chars m).

Definition host_to_target_termios (dst src : Z) (m : mem) : res mem :=
  let? i := host_to_target_bitmask (ld32 m (src + off_iflag)) iflag_tbl in
  let m := st32 (dst + off_iflag) i m in
  let? o := host_to_target_bitmask (ld32 m (src + off_oflag)) oflag_tbl in
  let m := st32 (dst + off_oflag) o m in
  let? c := host_to_target_bitmask (ld32 m (src + off_cflag)) cflag_tbl in
  let m := st32 (dst + off_cflag) c m in
  let? l := host_to_target_bitmask (ld32 m (src + off_lflag)) lflag_tbl in
  let m := st32 (dst + off_lflag) l m in
  let m := st8 (dst + off_line) (ld8 m (src + off_line)) m in
  let m := clear (dst + off_cc) (Z.to_nat TARGET_NCCS) m in
  Ok (fold_left (fun m p => st8 (dst + off_cc + p.1) (ld8 m (src + off_cc + p.2)) m) control_chars m).

Definition struct_termios_def : StructEntry :=
  mkStruct [] 0 (fun _ => []) (Some (fun to_host : bool => if to_host then target_to_host_termios else host_to_target_termios))
    (fun _ => sizeof_termios) (fun _ => 4).

(** ** Lemmas *)

(** Bytes moved one at a time from [s] to [d], neither inside the other. *)
Lemma copy_chars l : forall d s n m, NoDup (map snd l) ->
  Forall (fun p : Z * Z => 0 <= p.1 < n /\ 0 <= p.2 < n) l -> (s + n <= d \/ d + n <= s) ->
  let m' := fold_left (fun m p => st8 (d + p.2) (ld8 m (s + p.1)) m) l m in
  (forall p, In p l -> ld8 m' (d + p.2) = ld8 m (s + p.1)) /\
  (forall x, ~ In x (map (fun p => d + p.2) l) -> m' !! x = m !! x).
Proof.
  induction l as [|p l IH]; intros d s n m Hd Hr Hs; cbn [fold_left]; [done|].
  cbn [map] in Hd. apply NoDup_cons in Hd as [Hp Hd]. apply Forall_cons in Hr as [[Hp1 Hp2] Hr].
  destruct (IH d s n (st8 (d + p.2) (ld8 m (s + p.1)) m) Hd Hr Hs) as [IH1 IH2].
  assert (Ho : ~ In (d + p.2) (map (fun p => d + p.2) l)).
  { rewrite in_map_iff. intros (q & Eq & Hq). apply Hp. rewrite list_elem_of_In, in_map_iff. exists q. split; [lia|done]. }
  split.
  - intros q [<-|Hq].
    + unfold ld8 at 1. rewrite IH2 by done. rewrite st8_eq. cbn. rewrite u8_u8. apply u8_small, ld8_range.
    + rewrite IH1 by done. apply ld8_ext, st8_ne. rewrite Forall_forall in Hr. setoid_rewrite list_elem_of_In in Hr. specialize (Hr q Hq). lia.
  - intros x Hx. cbn [map] in Hx. rewrite IH2 by (intros H; apply Hx; by right). apply st8_ne. intros ->. apply Hx. by left.
Qed.

(** The function both conversions are instances of. *)
Definition convert_termios (fi fo fc fl : Z -> res Z) (pairs : list (Z * Z)) (dst src : Z) (m : mem) : res mem :=
  let? i := fi (ld32 m (src + off_iflag)) in
  let m := st32 (dst + off_iflag) i m in
  let? o := fo (ld32 m (src + off_oflag)) in
  let m := st32 (dst + off_oflag) o m in
  let? c := fc (ld32 m (src + off_cflag)) in
  let m := st32 (dst + off_cflag) c m in
  let? l := fl (ld32 m (src + off_lflag)) in
  let m := st32 (dst + off_lflag) l m in
  let m := st8 (dst + off_line) (ld8 m (src + off_line)) m in
  let m := clear (dst + off_cc) (Z.to_nat TARGET_NCCS) m in
  Ok (fold_left (fun m p => st8 (dst + off_cc + p.2) (ld8 m (src + off_cc + p.1)) m) pairs m).

Definition swap (p : Z * Z) : Z * Z := (p.2, p.1).

Lemma fold_left_map {A B C} (f : A -> B -> A) (g : C -> B) (l : list C) : forall a, fold_left f (map g l) a = fold_left (fun a c => f a (g c)) l a.
Proof. induction l as [|c l IH]; intros a; [done|]. apply IH. Qed.

Lemma res_bind_ext {A B} (r : res A) (f g : A -> res B) : (forall a, f a = g a) -> res_bind r f = res_bind r g.
Proof. intros H. destruct r; [apply H|done]. Qed.

Lemma target_to_host_termios_eq dst src m : target_to_host_termios dst src m =
  convert_termios (fun x => target_to_host_bitmask x iflag_tbl) (fun x => target_to_host_bitmask x oflag_tbl)
    (fun x => target_to_host_bitmask x cflag_tbl) (fun x => target_to_host_bitmask x lflag_tbl) control_chars dst src m.
Proof. unfold target_to_host_termios, convert_termios. cbv beta. reflexivity. Qed.
Lemma host_to_target_termios_eq dst src m : host_to_target_termios dst src m =
  convert_termios (fun x => host_to_target_bitmask x iflag_tbl) (fun x => host_to_target_bitmask x oflag_tbl)
    (fun x => host_to_target_bitmask x cflag_tbl) (fun x => host_to_target_bitmask x lflag_tbl) (map swap control_chars) dst src m.
Proof.
  unfold host_to_target_termios, convert_termios. cbv beta.
  repeat (apply res_bind_ext; intros ?). by rewrite fold_left_map.
Qed.

Definition apart (a b n : Z) : Prop := a + n <= b \/ b + n <= a.

(** What a structure of terminal settings holds. *)
Record settings := mkSettings { iflag : Z; oflag : Z; cflag : Z; lflag : Z; line : Z; chars : list Z }.
Definition settings_at (m : mem) (p : Z) : settings :=
  mkSettings (ld32 m (p + off_iflag)) (ld32 m (p + off_oflag)) (ld32 m (p + off_cflag)) (ld32 m (p + off_lflag))
    (ld8 m (p + off_line)) (read_bytes m (p + off_cc) 19).

Definition good_pairs (pairs : list (Z * Z)) : Prop :=
  NoDup (map snd pairs) /\ Forall (fun p : Z * Z => 0 <= p.1 < TARGET_NCCS /\ 0 <= p.2 < TARGET_NCCS) pairs.

Lemma clear_in p n m x : p <= x < p + Z.of_nat n -> ld8 (clear p n m) x = 0.
Proof.
  intros H. unfold clear, ld8. assert (E : replicate n 0 !! Z.to_nat (x - p) = Some 0) by (apply lookup_replicate_2; lia).
  apply (write_bytes_in _ p m) in E. replace (p + Z.of_nat (Z.to_nat (x - p))) with x in E by lia. by rewrite E.
Qed.

Lemma clear_out p n m x : x < p \/ p + Z.of_nat n <= x -> clear p n m !! x = m !! x.
Proof. intros. apply write_bytes_out. by rewrite length_replicate. Qed.

Lemma convert_termios_run fi fo fc fl pairs dst src m i o c l : good_pairs pairs -> apart dst src sizeof_termios ->
  fi (ld32 m (src + off_iflag)) = Ok i -> fo (ld32 m (src + off_oflag)) = Ok o ->
  fc (ld32 m (src + off_cflag)) = Ok c -> fl (ld32 m (src + off_lflag)) = Ok l ->
  exists m', convert_termios fi fo fc fl pairs dst src m = Ok m' /\
    ld32 m' (dst + off_iflag) = u32 i /\ ld32 m' (dst + off_oflag) = u32 o /\ ld32 m' (dst + off_cflag) = u32 c /\
    ld32 m' (dst + off_lflag) = u32 l /\ ld8 m' (dst + off_line) = ld8 m (src + off_line) /\
    (forall p, In p pairs -> ld8 m' (dst + off_cc + p.2) = ld8 m (src + off_cc + p.1)) /\
    (forall k, 0 <= k < TARGET_NCCS -> ~ In k (map snd pairs) -> ld8 m' (dst + off_cc + k) = 0) /\
    (forall x, x < dst \/ dst + sizeof_termios <= x -> m' !! x = m !! x).
Proof.
  intros [Hn Hp] Ha Ei Eo Ec El. unfold convert_termios. unfold apart, sizeof_termios, off_iflag, off_oflag, off_cflag, off_lflag, off_line, off_cc, TARGET_NCCS in *.
  rewrite Ei. cbn [res_bind]. rewrite (ld32_ext m) by (intros; apply st32_out; lia). rewrite Eo. cbn [res_bind].
  rewrite (ld32_ext m) by (intros; rewrite !st32_out by lia; done). rewrite Ec. cbn [res_bind].
  rewrite (ld32_ext m) by (intros; rewrite !st32_out by lia; done). rewrite El. cbn [res_bind].
  rewrite (ld8_ext m) by (intros; rewrite !st32_out by lia; done).
  eexists. split; [reflexivity|].
  set (m4 := st32 (dst + 12) l _). set (m5 := st8 (dst + 16) _ m4). set (m6 := clear (dst + 17) 19 m5).
  destruct (copy_chars pairs (dst + 17) (src + 17) 19 m6 Hn Hp ltac:(lia)) as [C1 C2]. change (Z.to_nat 19) with 19%nat. fold m6.
  set (m7 := fold_left _ pairs m6) in *.
  assert (O7 : forall x, x < dst + 17 \/ dst + 36 <= x -> m7 !! x = m5 !! x).
  { intros x Hx. rewrite C2; [apply clear_out; lia|]. rewrite in_map_iff. intros (q & Eq & Hq).
    rewrite Forall_forall in Hp. setoid_rewrite list_elem_of_In in Hp. specialize (Hp q Hq). lia. }
  assert (O5 : forall x, x <> dst + 16 -> m5 !! x = m4 !! x) by (intros; by apply st8_ne).
  assert (F : forall x, dst <= x <= dst + 12 -> ld32 m7 x = ld32 m4 x).
  { intros x Hx. apply ld32_ext. intros y Hy. rewrite O7, O5 by lia. done. }
  split_and!.
  - rewrite F by lia. unfold m4. rewrite (ld32_ext (st32 (dst + 0) i m)) by (intros; rewrite !st32_out by lia; done). apply ld32_st32.
  - rewrite F by lia. unfold m4. rewrite (ld32_ext (st32 (dst + 4) o (st32 (dst + 0) i m))) by (intros; rewrite !st32_out by lia; done). apply ld32_st32.
  - rewrite F by lia. unfold m4. rewrite (ld32_ext (st32 (dst + 8) c (st32 (dst + 4) o (st32 (dst + 0) i m)))) by (intros; rewrite !st32_out by lia; done). apply ld32_st32.
  - rewrite F by lia. apply ld32_st32.
  - unfold ld8 at 1. rewrite O7 by lia. unfold m5. rewrite st8_eq. cbn. rewrite u8_u8. apply u8_small, ld8_range.
  - intros p Hin. rewrite C1 by done. rewrite Forall_forall in Hp. setoid_rewrite list_elem_of_In in Hp. specialize (Hp p Hin).
    apply ld8_ext. unfold m6. rewrite clear_out, O5 by lia. unfold m4. rewrite !st32_out by lia. done.
  - intros k Hk Hnk. rewrite (ld8_ext m6); [apply clear_in; lia|]. apply C2. rewrite in_map_iff. intros (q & Eq & Hq).
    apply Hnk. rewrite in_map_iff. exists q. split; [lia|done].
  - intros x Hx. rewrite O7, O5 by lia. unfold m4. rewrite !st32_out by lia. done.
Qed.

Lemma read_bytes_at m n : forall a i, (i < n)%nat -> read_bytes m a n !! i = Some (ld8 m (a + Z.of_nat i)).
Proof.
  induction n as [|n IH]; intros a i H; [lia|]. destruct i as [|i]; cbn [read_bytes].
  - by rewrite Z.add_0_r.
  - change ((ld8 m a :: read_bytes m (a + 1) n) !! S i) with (read_bytes m (a + 1) n !! i). rewrite IH by lia. do 2 f_equal. lia.
Qed.

(** The entries of a table. *)
Definition listed (tbl : list bitmask_transtbl) : list bitmask_transtbl := removelast tbl.

(** Settings whose flags have values the tables know. *)
Definition known_settings (s : settings) : bool :=
  known (listed iflag_tbl) (iflag s) && known (listed oflag_tbl) (oflag s) &&
  known (listed cflag_tbl) (cflag s) && known (listed lflag_tbl) (lflag s).

(** The fields of the flags that the tables have; the last two control
    characters have no name. *)
Definition named_settings (s : settings) : settings :=
  mkSettings (Z.land (iflag s) (all_fields (listed iflag_tbl))) (Z.land (oflag s) (all_fields (listed oflag_tbl)))
    (Z.land (cflag s) (all_fields (listed cflag_tbl))) (Z.land (lflag s) (all_fields (listed lflag_tbl)))
    (line s) (take 17 (chars s) ++ [0; 0]).

Lemma u32_land x y : 0 <= x < 4294967296 -> u32 (Z.land x y) = Z.land x y.
Proof.
  intros H. unfold u32. change 4294967296 with (2 ^ 32). rewrite <- Z.land_ones by lia.
  rewrite <- Z.land_assoc, (Z.land_comm y), Z.land_assoc, (Z.land_ones x) by lia. by rewrite Z.mod_small.
Qed.

Lemma same_pairs_in pairs ks : forallb (fun k => existsb (fun p => (fst p =? k) && (snd p =? k)) pairs) ks = true ->
  List.Forall (fun k => In (k, k) pairs) ks.
Proof.
  rewrite forallb_forall. intros H. apply List.Forall_forall. intros k Hk%H. apply existsb_exists in Hk as ([a b] & Hp & E).
  cbn in E. rewrite andb_true_iff, !Z.eqb_eq in E. by destruct E as [-> ->].
Qed.

(** A conversion all of whose tables keep the fields they know. *)
Lemma convert_termios_named fi fo fc fl pairs dst src m : apart dst src sizeof_termios ->
  (pairs = control_chars \/ pairs = map swap control_chars) ->
  let s := settings_at m src in
  fi (iflag s) = Ok (iflag (named_settings s)) -> fo (oflag s) = Ok (oflag (named_settings s)) ->
  fc (cflag s) = Ok (cflag (named_settings s)) -> fl (lflag s) = Ok (lflag (named_settings s)) ->
  exists m', convert_termios fi fo fc fl pairs dst src m = Ok m' /\ settings_at m' dst = named_settings s /\
    forall x, x < dst \/ dst + sizeof_termios <= x -> m' !! x = m !! x.
Proof.
  intros Ha Hp s Ei Eo Ec El.
  assert (Hg : good_pairs pairs /\ (forall k, 0 <= k < 17 -> In (k, k) pairs) /\ forall k, 17 <= k < TARGET_NCCS -> ~ In k (map snd pairs)).
  { assert (Hk : forall k, 0 <= k < 17 -> existsb (Z.eqb k) [0; 1; 2; 3; 4; 5; 6; 7; 8; 9; 10; 11; 12; 13; 14; 15; 16] = true).
    { intros k Hk. apply existsb_exists. exists k. split; [cbn; lia|apply Z.eqb_refl]. }
    destruct Hp as [-> | ->]; (split; [split; [apply (bool_decide_unpack _); by vm_compute|repeat constructor; by vm_compute]|split]).
    1,3: intros k Hi%Hk; apply existsb_exists in Hi as (k' & Hi & ->%Z.eqb_eq); revert k' Hi; apply List.Forall_forall;
      apply same_pairs_in; by vm_compute.
    all: intros k Hk' Hi; cbn in Hi; unfold TARGET_NCCS in Hk';
      repeat (destruct Hi as [Hi|Hi]; [vm_compute in Hi; lia|]); destruct Hi. }
  destruct Hg as (Hg & Hin & Hout).
  destruct (convert_termios_run fi fo fc fl pairs dst src m _ _ _ _ Hg Ha Ei Eo Ec El) as (m' & E & Fi & Fo & Fc & Fl & Fline & Fin & Fout & Hm).
  exists m'. split; [exact E|]. split; [|exact Hm]. unfold settings_at at 1. rewrite Fi, Fo, Fc, Fl, Fline.
  unfold named_settings at 1 2 3 4 5. cbn [iflag oflag cflag lflag line chars]. unfold s. cbn [settings_at iflag oflag cflag lflag line chars].
  rewrite !u32_land by apply ld32_range. f_equal. apply list_eq. intros i.
  destruct (Nat.lt_ge_cases i 17) as [Hi|Hi].
  - rewrite read_bytes_at by lia. rewrite lookup_app_l by (rewrite length_take, read_bytes_length; lia).
    rewrite lookup_take_lt by lia. rewrite read_bytes_at by lia. f_equal. exact (Fin (Z.of_nat i, Z.of_nat i) (Hin (Z.of_nat i) ltac:(lia))).
  - rewrite lookup_app_r by (rewrite length_take, read_bytes_length; lia). rewrite length_take, read_bytes_length.
    change (17 `min` 19)%nat with 17%nat. destruct (Nat.lt_ge_cases i 19) as [Hi'|Hi'].
    + rewrite read_bytes_at by lia. assert (Hk : 17 <= Z.of_nat i < TARGET_NCCS) by (unfold TARGET_NCCS; lia). rewrite (Fout (Z.of_nat i)) by (lia || by apply Hout).
      destruct i as [|[|[|[|[|[|[|[|[|[|[|[|[|[|[|[|[|[|[|i]]]]]]]]]]]]]]]]]]]; try lia; reflexivity.
    + rewrite (lookup_ge_None_2 (read_bytes _ _ _)) by (rewrite read_bytes_length; lia).
      symmetry. apply lookup_ge_None_2. cbn. lia.
Qed.

Lemma named_table tbl x : tbl = listed tbl ++ [end_of_table] -> tbl_ok (listed tbl) = true -> diagonal (listed tbl) = true ->
  known (listed tbl) x = true ->
  target_to_host_bitmask x tbl = Ok (Z.land x (all_fields (listed tbl))) /\
  host_to_target_bitmask (Z.land x (all_fields (listed tbl))) tbl = Ok (Z.land x (all_fields (listed tbl))).
Proof. intros E HT HD HK. destruct (diagonal_run (listed tbl) [] x HT HD HK) as [E1 E2]. by rewrite <- E in E1, E2. Qed.

(** ** Theorem *)

(** C35: terminal settings of the guest whose flags the tables know reach the
    host with the fields the tables name and the named control characters,
    whatever the numbers on either side, and come back from the host's structure
    the same; only the destinations are written. A speed that the table lacks
    reaches the host as [B0], which hangs up the line. *)
Theorem termios_round_trip p h q m (Hp : apart h p sizeof_termios) (Hq : apart q h sizeof_termios)
    (HK : known_settings (settings_at m p) = true) :
  exists m1 m2, target_to_host_termios h p m = Ok m1 /\ host_to_target_termios q h m1 = Ok m2 /\
    settings_at m1 h = named_settings (settings_at m p) /\ settings_at m2 q = named_settings (settings_at m p) /\
    (forall x, x < h \/ h + sizeof_termios <= x -> m1 !! x = m !! x) /\
    (forall x, x < q \/ q + sizeof_termios <= x -> m2 !! x = m1 !! x) /\
    target_to_host_bitmask TARGET_B500000 cflag_tbl = Ok Host.B0.
Proof.
  unfold known_settings in HK. rewrite !andb_true_iff in HK. destruct HK as [[[Ki Ko] Kc] Kl].
  destruct (named_table iflag_tbl _ eq_refl eq_refl eq_refl Ki) as [Ti Hi].
  destruct (named_table oflag_tbl _ eq_refl eq_refl eq_refl Ko) as [To Ho].
  destruct (named_table cflag_tbl _ eq_refl eq_refl eq_refl Kc) as [Tc Hc].
  destruct (named_table lflag_tbl _ eq_refl eq_refl eq_refl Kl) as [Tl Hl].
  rewrite target_to_host_termios_eq.
  destruct (convert_termios_named (fun x => target_to_host_bitmask x iflag_tbl) (fun x => target_to_host_bitmask x oflag_tbl)
    (fun x => target_to_host_bitmask x cflag_tbl) (fun x => target_to_host_bitmask x lflag_tbl)
    control_chars h p m Hp (or_introl eq_refl)) as (m1 & E1 & S1 & O1); [exact Ti|exact To|exact Tc|exact Tl|].
  assert (Hidem : named_settings (named_settings (settings_at m p)) = named_settings (settings_at m p)).
  { unfold named_settings. cbn [iflag oflag cflag lflag line chars]. rewrite <- !Z.land_assoc, !Z.land_diag. do 2 f_equal. }
  destruct (convert_termios_named (fun x => host_to_target_bitmask x iflag_tbl) (fun x => host_to_target_bitmask x oflag_tbl)
    (fun x => host_to_target_bitmask x cflag_tbl) (fun x => host_to_target_bitmask x lflag_tbl)
    (map swap control_chars) q h m1 Hq (or_intror eq_refl)) as (m2 & E2 & S2 & O2);
    rewrite ?S1, ?Hidem; [exact Hi|exact Ho|exact Hc|exact Hl|].
  exists m1, m2. rewrite (host_to_target_termios_eq q h m1). 
  split; [exact E1|]. split; [exact E2|]. split; [exact S1|]. split; [|split; [exact O1|split; [exact O2|by vm_compute]]].
  rewrite S2, S1. exact Hidem.
Qed.

Lemma termios_round_trip_witness :
  exists m1 m2, target_to_host_termios 100 0 (st32 8 (TARGET_B9600 + TARGET_CS8 + TARGET_CREAD) ∅) = Ok m1 /\
    host_to_target_termios 200 100 m1 = Ok m2 /\ cflag (settings_at m2 200) = TARGET_B9600 + TARGET_CS8 + TARGET_CREAD.
Proof.
  destruct (termios_round_trip 0 100 200 (st32 8 (TARGET_B9600 + TARGET_CS8 + TARGET_CREAD) ∅)) as (m1 & m2 & E1 & E2 & _ & S & _).
  - right. vm_compute. discriminate.
  - right. vm_compute. discriminate.
  - vm_compute. reflexivity.
  - exists m1, m2. split; [exact E1|]. split; [exact E2|]. rewrite S. by vm_compute.
Defined.
