(* ===== verification/SyscallTypes.v ===== *)
(** src/linux-user/syscall_types.h and the registration in [syscall_init]
    (syscall.c): the descriptions of the structures that ioctls carry and the
    table they are registered in, next to the same structures as C types. *)

From S2P Require Import Prelude Memory Thunk Termios.

(** ** Numbers of the structures *)

Definition IFNAMSIZ : Z := 16.
Definition STRUCT_termios : Z := 0.
Definition STRUCT_winsize : Z := 1.
Definition STRUCT_serial_multiport_struct : Z := 2.
Definition STRUCT_serial_icounter_struct : Z := 3.
Definition STRUCT_sockaddr : Z := 4.
Definition STRUCT_rtentry : Z := 5.
Definition STRUCT_ifmap : Z := 6.
Definition STRUCT_sockaddr_ifreq : Z := 7.
Definition STRUCT_short_ifreq : Z := 8.
Definition STRUCT_int_ifreq : Z := 9.
Definition STRUCT_ifmap_ifreq : Z := 10.
Definition STRUCT_char_ifreq : Z := 11.
Definition STRUCT_ptr_ifreq : Z := 12.
Definition STRUCT_ifconf : Z := 13.
Definition STRUCT_arpreq : Z := 14.
Definition STRUCT_arpreq_old : Z := 15.
Definition STRUCT_cdrom_read_audio : Z := 16.
Definition STRUCT_hd_geometry : Z := 17.
Definition STRUCT_dirent : Z := 18.
Definition STRUCT_kbentry : Z := 19.
Definition STRUCT_kbsentry : Z := 20.
Definition STRUCT_audio_buf_info : Z := 21.
Definition STRUCT_count_info : Z := 22.
Definition STRUCT_mixer_info : Z := 23.
Definition STRUCT_loop_info : Z := 24.
Definition STRUCT_loop_info64 : Z := 25.
Definition STRUCT_mtop : Z := 26.
Definition STRUCT_mtget : Z := 27.
Definition STRUCT_mtpos : Z := 28.
Definition STRUCT_fb_fix_screeninfo : Z := 29.
Definition STRUCT_fb_var_screeninfo : Z := 30.
Definition STRUCT_vt_stat : Z := 31.

(** ** Descriptions *)

Definition struct_winsize_def : list Z :=
  [TYPE_SHORT; TYPE_SHORT; TYPE_SHORT; TYPE_SHORT] ++ [TYPE_NULL].
Definition struct_serial_multiport_struct_def : list Z :=
  [TYPE_INT; TYPE_INT; TYPE_CHAR; TYPE_CHAR; TYPE_INT; TYPE_CHAR; TYPE_CHAR; TYPE_INT; TYPE_CHAR; TYPE_CHAR;
  TYPE_INT; TYPE_CHAR; TYPE_CHAR; TYPE_INT] ++ MK_ARRAY [TYPE_INT] 32 ++ [TYPE_NULL].
Definition struct_serial_icounter_struct_def : list Z :=
  [TYPE_INT; TYPE_INT; TYPE_INT; TYPE_INT] ++ MK_ARRAY [TYPE_INT] 16 ++ [TYPE_NULL].
Definition struct_sockaddr_def : list Z :=
  [TYPE_SHORT] ++ MK_ARRAY [TYPE_CHAR] 14 ++ [TYPE_NULL].
Definition struct_rtentry_def : list Z :=
  [TYPE_ULONG] ++ MK_STRUCT STRUCT_sockaddr ++ MK_STRUCT STRUCT_sockaddr ++ MK_STRUCT STRUCT_sockaddr ++
  [TYPE_SHORT; TYPE_SHORT; TYPE_ULONG; TYPE_PTRVOID; TYPE_SHORT; TYPE_PTRVOID; TYPE_ULONG; TYPE_ULONG;
  TYPE_SHORT] ++ [TYPE_NULL].
Definition struct_ifmap_def : list Z :=
  [TYPE_ULONG; TYPE_ULONG; TYPE_SHORT; TYPE_CHAR; TYPE_CHAR; TYPE_CHAR; TYPE_CHAR; TYPE_CHAR; TYPE_CHAR] ++
  [TYPE_NULL].
Definition struct_sockaddr_ifreq_def : list Z :=
  MK_ARRAY [TYPE_CHAR] IFNAMSIZ ++ MK_STRUCT STRUCT_sockaddr ++ [TYPE_NULL].
Definition struct_short_ifreq_def : list Z :=
  MK_ARRAY [TYPE_CHAR] IFNAMSIZ ++ [TYPE_SHORT] ++ [TYPE_NULL].
Definition struct_int_ifreq_def : list Z :=
  MK_ARRAY [TYPE_CHAR] IFNAMSIZ ++ [TYPE_INT] ++ [TYPE_NULL].
Definition struct_ifmap_ifreq_def : list Z :=
  MK_ARRAY [TYPE_CHAR] IFNAMSIZ ++ MK_STRUCT STRUCT_ifmap ++ [TYPE_NULL].
Definition struct_char_ifreq_def : list Z :=
  MK_ARRAY [TYPE_CHAR] IFNAMSIZ ++ MK_ARRAY [TYPE_CHAR] IFNAMSIZ ++ [TYPE_NULL].
Definition struct_ptr_ifreq_def : list Z :=
  MK_ARRAY [TYPE_CHAR] IFNAMSIZ ++ [TYPE_PTRVOID] ++ [TYPE_NULL].
Definition struct_ifconf_def : list Z :=
  [TYPE_INT; TYPE_PTRVOID] ++ [TYPE_NULL].
Definition struct_arpreq_def : list Z :=
  MK_STRUCT STRUCT_sockaddr ++ MK_STRUCT STRUCT_sockaddr ++ [TYPE_INT] ++ MK_STRUCT STRUCT_sockaddr ++ MK_ARRAY
  [TYPE_CHAR] 16 ++ [TYPE_NULL].
Definition struct_arpreq_old_def : list Z :=
  MK_STRUCT STRUCT_sockaddr ++ MK_STRUCT STRUCT_sockaddr ++ [TYPE_INT] ++ MK_STRUCT STRUCT_sockaddr ++
  [TYPE_NULL].
Definition struct_cdrom_read_audio_def : list Z :=
  [TYPE_CHAR; TYPE_CHAR; TYPE_CHAR; TYPE_CHAR; TYPE_CHAR; TYPE_INT; TYPE_PTRVOID; TYPE_NULL] ++ [TYPE_NULL].
Definition struct_hd_geometry_def : list Z :=
  [TYPE_CHAR; TYPE_CHAR; TYPE_SHORT; TYPE_ULONG] ++ [TYPE_NULL].
Definition struct_dirent_def : list Z :=
  [TYPE_LONG; TYPE_LONG; TYPE_SHORT] ++ MK_ARRAY [TYPE_CHAR] 256 ++ [TYPE_NULL].
Definition struct_kbentry_def : list Z :=
  [TYPE_CHAR; TYPE_CHAR; TYPE_SHORT] ++ [TYPE_NULL].
Definition struct_kbsentry_def : list Z :=
  [TYPE_CHAR] ++ MK_ARRAY [TYPE_CHAR] 512 ++ [TYPE_NULL].
Definition struct_audio_buf_info_def : list Z :=
  [TYPE_INT; TYPE_INT; TYPE_INT; TYPE_INT] ++ [TYPE_NULL].
Definition struct_count_info_def : list Z :=
  [TYPE_INT; TYPE_INT; TYPE_INT] ++ [TYPE_NULL].
Definition struct_mixer_info_def : list Z :=
  MK_ARRAY [TYPE_CHAR] 16 ++ MK_ARRAY [TYPE_CHAR] 32 ++ [TYPE_INT] ++ MK_ARRAY [TYPE_INT] 10 ++ [TYPE_NULL].
Definition struct_loop_info_def : list Z :=
  [TYPE_INT; TYPE_SHORT; TYPE_ULONG; TYPE_SHORT; TYPE_INT; TYPE_INT; TYPE_INT; TYPE_INT] ++ MK_ARRAY [TYPE_CHAR]
  64 ++ MK_ARRAY [TYPE_CHAR] 32 ++ MK_ARRAY [TYPE_ULONG] 2 ++ MK_ARRAY [TYPE_CHAR] 4 ++ [TYPE_NULL].
Definition struct_loop_info64_def : list Z :=
  [TYPE_ULONGLONG; TYPE_ULONGLONG; TYPE_ULONGLONG; TYPE_ULONGLONG; TYPE_ULONG; TYPE_ULONG; TYPE_ULONG;
  TYPE_ULONG] ++ MK_ARRAY [TYPE_CHAR] 64 ++ MK_ARRAY [TYPE_CHAR] 64 ++ MK_ARRAY [TYPE_CHAR] 32 ++ MK_ARRAY
  [TYPE_ULONGLONG] 2 ++ [TYPE_NULL].
Definition struct_mtop_def : list Z :=
  [TYPE_SHORT; TYPE_INT] ++ [TYPE_NULL].
Definition struct_mtget_def : list Z :=
  [TYPE_LONG; TYPE_LONG; TYPE_LONG; TYPE_LONG; TYPE_LONG; TYPE_INT; TYPE_INT] ++ [TYPE_NULL].
Definition struct_mtpos_def : list Z :=
  [TYPE_LONG] ++ [TYPE_NULL].
Definition struct_fb_fix_screeninfo_def : list Z :=
  MK_ARRAY [TYPE_CHAR] 16 ++ [TYPE_ULONG; TYPE_INT; TYPE_INT; TYPE_INT; TYPE_INT; TYPE_SHORT; TYPE_SHORT;
  TYPE_SHORT; TYPE_INT; TYPE_ULONG; TYPE_INT; TYPE_INT] ++ MK_ARRAY [TYPE_CHAR] 3 ++ [TYPE_NULL].
Definition struct_fb_var_screeninfo_def : list Z :=
  [TYPE_INT; TYPE_INT; TYPE_INT; TYPE_INT; TYPE_INT; TYPE_INT; TYPE_INT; TYPE_INT] ++ MK_ARRAY [TYPE_INT] 3 ++
  MK_ARRAY [TYPE_INT] 3 ++ MK_ARRAY [TYPE_INT] 3 ++ MK_ARRAY [TYPE_INT] 3 ++ [TYPE_INT; TYPE_INT; TYPE_INT;
  TYPE_INT; TYPE_INT; TYPE_INT; TYPE_INT; TYPE_INT; TYPE_INT; TYPE_INT; TYPE_INT; TYPE_INT; TYPE_INT; TYPE_INT;
  TYPE_INT] ++ MK_ARRAY [TYPE_INT] 5 ++ [TYPE_NULL].
Definition struct_vt_stat_def : list Z :=
  [TYPE_SHORT; TYPE_SHORT; TYPE_SHORT] ++ [TYPE_NULL].

Definition struct_defs : list (Z * list Z) :=
  [(STRUCT_winsize, struct_winsize_def);
   (STRUCT_serial_multiport_struct, struct_serial_multiport_struct_def);
   (STRUCT_serial_icounter_struct, struct_serial_icounter_struct_def);
   (STRUCT_sockaddr, struct_sockaddr_def);
   (STRUCT_rtentry, struct_rtentry_def);
   (STRUCT_ifmap, struct_ifmap_def);
   (STRUCT_sockaddr_ifreq, struct_sockaddr_ifreq_def);
   (STRUCT_short_ifreq, struct_short_ifreq_def);
   (STRUCT_int_ifreq, struct_int_ifreq_def);
   (STRUCT_ifmap_ifreq, struct_ifmap_ifreq_def);
   (STRUCT_char_ifreq, struct_char_ifreq_def);
   (STRUCT_ptr_ifreq, struct_ptr_ifreq_def);
   (STRUCT_ifconf, struct_ifconf_def);
   (STRUCT_arpreq, struct_arpreq_def);
   (STRUCT_arpreq_old, struct_arpreq_old_def);
   (STRUCT_cdrom_read_audio, struct_cdrom_read_audio_def);
   (STRUCT_hd_geometry, struct_hd_geometry_def);
   (STRUCT_dirent, struct_dirent_def);
   (STRUCT_kbentry, struct_kbentry_def);
   (STRUCT_kbsentry, struct_kbsentry_def);
   (STRUCT_audio_buf_info, struct_audio_buf_info_def);
   (STRUCT_count_info, struct_count_info_def);
   (STRUCT_mixer_info, struct_mixer_info_def);
   (STRUCT_loop_info, struct_loop_info_def);
   (STRUCT_loop_info64, struct_loop_info64_def);
   (STRUCT_mtop, struct_mtop_def);
   (STRUCT_mtget, struct_mtget_def);
   (STRUCT_mtpos, struct_mtpos_def);
   (STRUCT_fb_fix_screeninfo, struct_fb_fix_screeninfo_def);
   (STRUCT_fb_var_screeninfo, struct_fb_var_screeninfo_def);
   (STRUCT_vt_stat, struct_vt_stat_def)].

(** ** The calls of [syscall_init] *)

Fixpoint register_structs (l : list (Z * list Z)) (se : entries) : res entries :=
  match l with
  | [] => Ok se
  | (id, types) :: l => let? se := thunk_register_struct id types se in register_structs l se
  end.

Definition syscall_init_structs : res entries :=
  let? se := thunk_register_struct_direct STRUCT_termios struct_termios_def ∅ in
  register_structs struct_defs se.

(** ** The structures as C types *)

Definition struct_types : list (Z * list ctype) :=
  [(STRUCT_winsize,
    [TBase Short; TBase Short; TBase Short; TBase Short]);
   (STRUCT_serial_multiport_struct,
    [TBase Int; TBase Int; TBase Char; TBase Char; TBase Int; TBase Char; TBase Char; TBase Int; TBase Char; TBase
     Char; TBase Int; TBase Char; TBase Char; TBase Int; TArr 32 (TBase Int)]);
   (STRUCT_serial_icounter_struct,
    [TBase Int; TBase Int; TBase Int; TBase Int; TArr 16 (TBase Int)]);
   (STRUCT_sockaddr,
    [TBase Short; TArr 14 (TBase Char)]);
   (STRUCT_rtentry,
    [TBase Ulong; TStruct STRUCT_sockaddr; TStruct STRUCT_sockaddr; TStruct STRUCT_sockaddr; TBase Short; TBase
     Short; TBase Ulong; TBase Ptrvoid; TBase Short; TBase Ptrvoid; TBase Ulong; TBase Ulong; TBase Short]);
   (STRUCT_ifmap,
    [TBase Ulong; TBase Ulong; TBase Short; TBase Char; TBase Char; TBase Char; TBase Char; TBase Char; TBase Char]);
   (STRUCT_sockaddr_ifreq,
    [TArr IFNAMSIZ (TBase Char); TStruct STRUCT_sockaddr]);
   (STRUCT_short_ifreq,
    [TArr IFNAMSIZ (TBase Char); TBase Short]);
   (STRUCT_int_ifreq,
    [TArr IFNAMSIZ (TBase Char); TBase Int]);
   (STRUCT_ifmap_ifreq,
    [TArr IFNAMSIZ (TBase Char); TStruct STRUCT_ifmap]);
   (STRUCT_char_ifreq,
    [TArr IFNAMSIZ (TBase Char); TArr IFNAMSIZ (TBase Char)]);
   (STRUCT_ptr_ifreq,
    [TArr IFNAMSIZ (TBase Char); TBase Ptrvoid]);
   (STRUCT_ifconf,
    [TBase Int; TBase Ptrvoid]);
   (STRUCT_arpreq,
    [TStruct STRUCT_sockaddr; TStruct STRUCT_sockaddr; TBase Int; TStruct STRUCT_sockaddr; TArr 16 (TBase Char)]);
   (STRUCT_arpreq_old,
    [TStruct STRUCT_sockaddr; TStruct STRUCT_sockaddr; TBase Int; TStruct STRUCT_sockaddr]);
   (STRUCT_cdrom_read_audio,
    [TBase Char; TBase Char; TBase Char; TBase Char; TBase Char; TBase Int; TBase Ptrvoid]);
   (STRUCT_hd_geometry,
    [TBase Char; TBase Char; TBase Short; TBase Ulong]);
   (STRUCT_dirent,
    [TBase Long; TBase Long; TBase Short; TArr 256 (TBase Char)]);
   (STRUCT_kbentry,
    [TBase Char; TBase Char; TBase Short]);
   (STRUCT_kbsentry,
    [TBase Char; TArr 512 (TBase Char)]);
   (STRUCT_audio_buf_info,
    [TBase Int; TBase Int; TBase Int; TBase Int]);
   (STRUCT_count_info,
    [TBase Int; TBase Int; TBase Int]);
   (STRUCT_mixer_info,
    [TArr 16 (TBase Char); TArr 32 (TBase Char); TBase Int; TArr 10 (TBase Int)]);
   (STRUCT_loop_info,
    [TBase Int; TBase Short; TBase Ulong; TBase Short; TBase Int; TBase Int; TBase Int; TBase Int; TArr 64 (TBase
     Char); TArr 32 (TBase Char); TArr 2 (TBase Ulong); TArr 4 (TBase Char)]);
   (STRUCT_loop_info64,
    [TBase Ulonglong; TBase Ulonglong; TBase Ulonglong; TBase Ulonglong; TBase Ulong; TBase Ulong; TBase Ulong;
     TBase Ulong; TArr 64 (TBase Char); TArr 64 (TBase Char); TArr 32 (TBase Char); TArr 2 (TBase Ulonglong)]);
   (STRUCT_mtop,
    [TBase Short; TBase Int]);
   (STRUCT_mtget,
    [TBase Long; TBase Long; TBase Long; TBase Long; TBase Long; TBase Int; TBase Int]);
   (STRUCT_mtpos,
    [TBase Long]);
   (STRUCT_fb_fix_screeninfo,
    [TArr 16 (TBase Char); TBase Ulong; TBase Int; TBase Int; TBase Int; TBase Int; TBase Short; TBase Short; TBase
     Short; TBase Int; TBase Ulong; TBase Int; TBase Int; TArr 3 (TBase Char)]);
   (STRUCT_fb_var_screeninfo,
    [TBase Int; TBase Int; TBase Int; TBase Int; TBase Int; TBase Int; TBase Int; TBase Int; TArr 3 (TBase Int);
     TArr 3 (TBase Int); TArr 3 (TBase Int); TArr 3 (TBase Int); TBase Int; TBase Int; TBase Int; TBase Int; TBase
     Int; TBase Int; TBase Int; TBase Int; TBase Int; TBase Int; TBase Int; TBase Int; TBase Int; TBase Int; TBase
     Int; TArr 5 (TBase Int)]);
   (STRUCT_vt_stat,
    [TBase Short; TBase Short; TBase Short])].

Fixpoint layouts (l : list (Z * list ctype)) (Delta : gmap Z layout) : gmap Z layout :=
  match l with [] => Delta | (id, fs) :: l => layouts l (<[id := layout_of Delta fs]> Delta) end.

(** What registration needs: fresh numbers in range, fields of types known by
    then, and sizes that fit. *)
Fixpoint validb (Delta : gmap Z layout) (t : ctype) : bool :=
  match t with
  | TBase _ => true | TPtr t => validb Delta t | TArr n t => (1 <=? n) && validb Delta t
  | TStruct id => match Delta !! id with Some _ => true | None => false end
  end.
Fixpoint registrable (l : list (Z * list ctype)) (Delta : gmap Z layout) : bool :=
  match l with
  | [] => true
  | (id, fs) :: l =>
      (0 <=? id) && (id <? MAX_STRUCTS) && match Delta !! id with None => true | Some _ => false end &&
      forallb (validb Delta) fs && (l_size (layout_of Delta fs) <=? 2147483639) &&
      registrable l (<[id := layout_of Delta fs]> Delta)
  end.
Definition registered (Delta : gmap Z layout) (d : Z * list ctype) : bool :=
  match Delta !! d.1 with Some L => bool_decide (l_fields L = d.2) && l_conv L | None => false end.
Definition describes (d : Z * list Z) (t : Z * list ctype) : Prop := d.1 = t.1 /\ exists r, d.2 = encode_fields t.2 ++ r.

Lemma validb_valid Delta t : validb Delta t = true -> valid Delta t.
Proof.
  induction t as [b|t IH|n t IH|id]; cbn; [done|exact IH| |].
  - rewrite andb_true_iff, Z.leb_le. intros [? ?]. auto.
  - destruct (Delta !! id); [by eexists|done].
Qed.

Lemma register_structs_run l ts : Forall2 describes l ts -> forall se Delta, rep se Delta ->
  (forall id, id ∈ map fst ts -> Delta !! id = None -> se !! id = None) -> registrable ts Delta = true ->
  exists se', register_structs l se = Ok se' /\ rep se' (layouts ts Delta) /\
    (forall id, ~ In id (map fst ts) -> se' !! id = se !! id).
Proof.
  induction 1 as [|[id types] [id' fs] l ts [Ei (r & Er)] Hf IH]; intros se Delta HR Hs Hv; [by exists se|].
  cbn [fst snd] in Ei, Er. subst id' types. cbn [registrable] in Hv. rewrite !andb_true_iff, Z.leb_le, Z.ltb_lt, Z.leb_le in Hv.
  destruct Hv as (((((Hid1 & Hid2) & Hn) & Hval) & Hb) & Hv).
  assert (Hn' : Delta !! id = None) by (revert Hn; by destruct (Delta !! id)).
  assert (Hval' : Forall (valid Delta) fs).
  { apply Forall_forall. intros t Ht. rewrite list_elem_of_In in Ht. rewrite forallb_forall in Hval. by apply validb_valid, Hval. }
  destruct (thunk_register_struct_run se Delta id fs r HR ltac:(lia) Hn' (Hs id ltac:(cbn; constructor) Hn') Hval' Hb) as (e & E & HR').
  destruct (IH _ _ HR') as (se' & E' & HR'' & Ho); [|exact Hv|].
  - intros j Hj Hj'. destruct (decide (id = j)) as [->|Hne]; [by rewrite lookup_insert_eq in Hj'|].
    rewrite lookup_insert_ne in Hj' by done. rewrite lookup_insert_ne by done. apply Hs; [cbn; by right|done].
  - exists se'. cbn [register_structs]. rewrite E. cbn [res_bind]. split_and!; [done|done|].
    intros j Hj. cbn in Hj. rewrite Ho by tauto. apply lookup_insert_ne. tauto.
Qed.

Lemma registered_spec Delta d : registered Delta d = true -> exists L, Delta !! d.1 = Some L /\ l_fields L = d.2 /\ l_conv L = true.
Proof.
  unfold registered. destruct (Delta !! d.1) as [L|]; [|done]. rewrite andb_true_iff, bool_decide_eq_true. by exists L.
Qed.

Lemma registered_sizes se Delta ts : rep se Delta ->
  Forall (fun d => exists L, Delta !! d.1 = Some L /\ l_fields L = d.2 /\ l_conv L = true) ts ->
  map (fun d : Z * list ctype => thunk_type_size se (MK_STRUCT d.1) false) ts = map (fun d => Ok (sizeof Delta (TStruct d.1))) ts.
Proof.
  intros HR HD. apply map_ext_in. intros d Hin. rewrite Forall_forall in HD. setoid_rewrite list_elem_of_In in HD.
  destruct (HD d Hin) as (L & EL & _). assert (Hv : is_Some (Delta !! d.1)) by (by exists L).
  assert (Hsz : sizeof Delta (TStruct d.1) <= 2147483647).
  { destruct (rep_wf _ _ _ _ (rep_struct _ _ HR _ Hv)) as (_ & ? & _). cbn [sizeof]. lia. }
  pose proof (thunk_type_size_encode _ _ HR (TStruct d.1) [] false Hv Hsz) as Es. by rewrite app_nil_r in Es.
Qed.

(** ** Theorem *)

