(* ===== verification/Paths.v ===== *)
(** src/path.c, with the string functions of src/cutils.c it uses: the tree of
    the names below a prefix (a copy of the guest's system files), read once
    from the host, and the mapping of the guest's absolute file names into it.
    The host's directories are the function [opendir]: the names [readdir]
    gives for a directory, or [None] when it cannot be opened. An element's
    parent, which [set_parents] stores in it, is found in the list of elements
    above it. Allocation succeeds. *)

From S2P Require Import Prelude EnvList.
From Stdlib Require Import Ascii.
From stdpp Require Import strings.
#[local] Open Scope Z_scope.
#[local] Set Warnings "-register-all".

Definition slash : ascii := "/"%char.
#[local] Arguments slash : simpl never.

(** ** Strings (<string.h>, cutils.c) *)

Fixpoint strspn (c : ascii) (s : string) : nat :=
  match s with String x s => if Ascii.eqb x c then S (strspn c s) else O | EmptyString => O end.
Fixpoint strcspn (c : ascii) (s : string) : nat :=
  match s with String x s => if Ascii.eqb x c then O else S (strcspn c s) | EmptyString => O end.

(** [s + n], and the first [n] characters. *)
Fixpoint skip (n : nat) (s : string) : string := match n, s with S n, String _ s => skip n s | _, _ => s end.
Fixpoint first (n : nat) (s : string) : string := match n, s with S n, String x s => String x (first n s) | _, _ => EmptyString end.

(** The loop of [pstrcpy], with [room] characters left before the terminator. *)
Fixpoint pstrcpy_loop (room : nat) (str : string) : string :=
  match str, room with
  | String c str, S room => String c (pstrcpy_loop room str)
  | _, _ => EmptyString
  end.
Definition pstrcpy (buf : string) (buf_size : Z) (str : string) : string :=
  if buf_size <=? 0 then buf else pstrcpy_loop (Z.to_nat (buf_size - 1)) str.
Definition pstrcat (buf : string) (buf_size : Z) (s : string) : string :=
  let len := Z.of_nat (String.length buf) in
  if len <? buf_size then buf ++ pstrcpy EmptyString (buf_size - len) s else buf.

Definition PATH_MAX : Z := 4096.

(** ** The tree *)

Inductive pathelem := Elem (name pathname : string) (entries : list pathelem).
Definition name (e : pathelem) : string := let '(Elem n _ _) := e in n.
Definition pathname (e : pathelem) : string := let '(Elem _ p _) := e in p.
Definition entries (e : pathelem) : list pathelem := let '(Elem _ _ l) := e in l.
Definition num_entries (e : pathelem) : Z := Z.of_nat (length (entries e)).

(** [s1] has at least [n] characters. *)
Fixpoint strneq (s1 : string) (n : nat) (s2 : string) : bool :=
  match n, s1, s2 with
  | O, _, EmptyString => true
  | S n, String a s1, String b s2 => Ascii.eqb a b && strneq s1 n s2
  | _, _, _ => false
  end.

Definition new_entry (root nm : string) : pathelem := Elem nm (root ++ String slash nm) [].
Definition add_last (root e : pathelem) : pathelem := Elem (name root) (pathname root) (entries root ++ [e]).

Section Paths.
Variable opendir : string -> option (list string).

(** The loop over the names of a directory. *)
Fixpoint add_names (add_entry : pathelem -> string -> res pathelem) (names : list string) (path : pathelem) : res pathelem :=
  match names with
  | [] => Ok path
  | d :: names =>
      if decide (d <> "." /\ d <> "..") then let? path := add_entry path d in add_names add_entry names path
      else add_names add_entry names path
  end.

(** [fuel] bounds the depth of the tree. *)
Fixpoint add_dir_maybe (fuel : nat) (path : pathelem) : res pathelem :=
  match fuel with
  | O => Err Fuel
  | S fuel =>
      match opendir (pathname path) with
      | None => Ok path
      | Some names =>
          add_names (fun root nm => let? e := add_dir_maybe fuel (new_entry (pathname root) nm) in Ok (add_last root e)) names path
      end
  end.
Definition add_entry (fuel : nat) (root : pathelem) (nm : string) : res pathelem :=
  let? e := add_dir_maybe fuel (new_entry (pathname root) nm) in Ok (add_last root e).

(** The element being looked at and the elements above it, up to the base. *)
Abbreviation cursor := (pathelem * list pathelem)%type.
Definition parent (c : cursor) : cursor := match c with (e, []) => (e, []) | (_, p :: up) => (p, up) end.

Fixpoint find_entry (nm : string) (namelen : nat) (l : list pathelem) : option pathelem :=
  match l with
  | [] => None
  | e :: l => if strneq nm namelen (name e) then Some e else find_entry nm namelen l
  end.

(** Each turn takes at least a character of the name. *)
Fixpoint follow_path (fuel : nat) (c : cursor) (nm : string) : res (option string) :=
  match fuel with
  | O => Err Fuel
  | S fuel =>
      let nm := skip (strspn slash nm) nm in
      let namelen := strcspn slash nm in
      match namelen with
      | O => Ok (Some (pathname c.1))
      | _ =>
          if strneq nm namelen ".." then follow_path fuel (parent c) (skip namelen nm)
          else if strneq nm namelen "." then follow_path fuel c (skip namelen nm)
          else match find_entry nm namelen (entries c.1) with
               | Some e => follow_path fuel (e, c.1 :: c.2) (skip namelen nm)
               | None => Ok None
               end
      end
  end.

(** The name the tree is read from. *)
Definition pref_buf (cwd : option string) (prefix : string) : res string :=
  match prefix with
  | String x rest =>
      if Ascii.eqb x slash then Ok (pstrcpy EmptyString PATH_MAX rest)
      else match cwd with
           | None => Err Abort
           | Some cwd => Ok (pstrcat (pstrcat (pstrcpy EmptyString PATH_MAX cwd) PATH_MAX "/") PATH_MAX prefix)
           end
  | EmptyString => Err UB
  end.

(** The new value of [base]; [cwd] is what [getcwd] returns. *)
Definition init_paths (fuel : nat) (cwd : option string) (prefix : string) (base : option pathelem) : res (option pathelem) :=
  if decide (prefix = EmptyString \/ prefix = "/") then Ok base
  else
    let? buf := pref_buf cwd prefix in
    let? b := add_dir_maybe fuel (new_entry EmptyString buf) in
    Ok (if num_entries b =? 0 then None else Some b).

Definition path (base : option pathelem) (nm : string) : res string :=
  match base, nm with
  | Some b, String x _ =>
      if Ascii.eqb x slash then
        let? r := follow_path (S (String.length nm)) (b, []) nm in
        Ok (default nm r)
      else Ok nm
  | _, _ => Ok nm
  end.

(** ** Specification: names resolved against the host's directories *)

Definition below (dir nm : string) : string := dir ++ String slash nm.
Definition listing (dir : string) : list string :=
  match opendir dir with Some l => filter (fun d => d <> "." /\ d <> "..") l | None => [] end.

(** A directory below [root], the last component first. *)
Fixpoint full (root : string) (st : list string) : string :=
  match st with [] => root | c :: st => below (full root st) c end.

(** [..] above the root stays there; other components must exist. *)
Fixpoint resolve (root : string) (st ts : list string) : option (list string) :=
  match ts with
  | [] => Some st
  | t :: ts =>
      if decide (t = "..") then resolve root (tail st) ts
      else if decide (t = ".") then resolve root st ts
      else if decide (t ∈ listing (full root st)) then resolve root (t :: st) ts else None
  end.

Definition components (nm : string) : list string := strtok slash EmptyString nm.

(** No chain of directories below [dir] is longer than [n]. *)
Fixpoint depth_le (n : nat) (dir : string) : Prop :=
  match n with
  | O => listing dir = []
  | S n => forall c, c ∈ listing dir -> depth_le n (below dir c)
  end.

Inductive tree_ok : string -> pathelem -> Prop :=
  Tree_ok dir nm es : map name es = listing dir -> Forall (fun e => tree_ok (below dir (name e)) e) es ->
    tree_ok dir (Elem nm dir es).

(** ** Lemmas: reading the directories *)

Lemma add_names_ok fuel names nm dir : forall es,
  Forall (fun e => tree_ok (below dir (name e)) e) es ->
  (forall c, c ∈ names -> c <> "." -> c <> ".." ->
     exists e, add_dir_maybe fuel (new_entry dir c) = Ok e /\ tree_ok (below dir c) e /\ name e = c) ->
  exists es', add_names (add_entry fuel) names (Elem nm dir es) = Ok (Elem nm dir (es ++ es')) /\
    map name es' = filter (fun d => d <> "." /\ d <> "..") names /\
    Forall (fun e => tree_ok (below dir (name e)) e) es'.
Proof.
  induction names as [|d names IH]; intros es He H.
  - exists []. rewrite app_nil_r. by split_and!.
  - cbn [add_names]. destruct (decide (d <> "." /\ d <> "..")) as [Hd|Hd].
    + destruct (H d (list_elem_of_here _ _) (proj1 Hd) (proj2 Hd)) as (e & E & Ht & Hn).
      unfold add_entry at 1. cbn [pathname]. rewrite E. cbn [res_bind]. unfold add_last. cbn [name pathname entries].
      destruct (IH (es ++ [e])) as (es' & E' & Hm & Hf).
      * apply Forall_app. split; [done|]. constructor; [by rewrite Hn|done].
      * intros c Hc. apply H. by right.
      * exists (e :: es'). rewrite E', <- app_assoc. split; [done|]. rewrite filter_cons_True by done. cbn [map].
        rewrite Hn, Hm. split; [done|]. constructor; [by rewrite Hn|done].
    + destruct (IH es He) as (es' & E' & Hm & Hf); [intros c Hc; apply H; by right|].
      exists es'. rewrite filter_cons_False by done. by split_and!.
Qed.

Lemma add_dir_maybe_ok n : forall fuel dir nm, (n < fuel)%nat -> depth_le n dir ->
  exists e, add_dir_maybe fuel (Elem nm dir []) = Ok e /\ tree_ok dir e /\ name e = nm.
Proof.
  induction n as [|n IH]; intros fuel dir nm Hf Hd; (destruct fuel as [|fuel]; [lia|]); cbn [add_dir_maybe pathname].
  - cbn in Hd. unfold listing in Hd. destruct (opendir dir) as [l|] eqn:Eo.
    + destruct (add_names_ok fuel l nm dir []) as (es & E & Hm & He); [done| |].
      * intros c Hc H1 H2. assert (Hin : c ∈ filter (fun d => d <> "." /\ d <> "..") l) by (by apply list_elem_of_filter).
        rewrite Hd in Hin. by apply elem_of_nil in Hin.
      * eexists. split; [exact E|]. cbn. split; [|done]. constructor; [|done]. unfold listing. by rewrite Eo.
    + eexists. split; [done|]. split; [|done]. constructor; [|done]. unfold listing. by rewrite Eo.
  - cbn in Hd. destruct (opendir dir) as [l|] eqn:Eo.
    + destruct (add_names_ok fuel l nm dir []) as (es & E & Hm & He); [done| |].
      * intros c Hc H1 H2. apply IH; [lia|]. apply Hd. unfold listing. rewrite Eo. by apply list_elem_of_filter.
      * eexists. split; [exact E|]. cbn. split; [|done]. constructor; [|done]. unfold listing. by rewrite Eo.
    + eexists. split; [done|]. split; [|done]. constructor; [|done]. unfold listing. by rewrite Eo.
Qed.
End Paths.

(** ** Lemmas: components of a name *)

Lemma app_nil_string (s : string) : (s ++ EmptyString)%string = s.
Proof. induction s as [|x s IH]; [done|]. exact (f_equal (String x) IH). Qed.
Lemma app_assoc_string (a b c : string) : ((a ++ b) ++ c)%string = (a ++ b ++ c)%string.
Proof. induction a as [|x a IH]; [done|]. exact (f_equal (String x) IH). Qed.

Lemma strtok_word s : forall cur, cur <> EmptyString ->
  strtok slash cur s = (cur ++ first (strcspn slash s) s)%string :: strtok slash EmptyString (skip (strcspn slash s) s).
Proof.
  induction s as [|x s IH]; intros cur Hc; cbn [strtok strcspn].
  - rewrite decide_False by done. cbn. by rewrite app_nil_string.
  - destruct (Ascii.eqb x slash) eqn:Ex.
    + cbn [first skip]. rewrite decide_False by done. cbn [strtok app]. rewrite Ex. rewrite decide_True by done. by rewrite app_nil_string.
    + rewrite IH by (by destruct cur). cbn [first skip]. by rewrite app_assoc_string.
Qed.

Lemma components_step nm :
  let nm' := skip (strspn slash nm) nm in let n := strcspn slash nm' in
  components nm = match n with O => [] | _ => first n nm' :: components (skip n nm') end.
Proof.
  unfold components. induction nm as [|x nm IH]; [done|]. cbn [strspn]. destruct (Ascii.eqb x slash) eqn:Ex.
  - cbn [skip strtok]. rewrite Ex, decide_True by done. exact IH.
  - cbn [skip strtok strcspn]. rewrite Ex. cbn [skip first]. by rewrite strtok_word by done.
Qed.

Lemma length_skip n : forall s, (n <= String.length s)%nat -> String.length (skip n s) = (String.length s - n)%nat.
Proof. induction n as [|n IH]; intros s H; [cbn; lia|]. destruct s as [|x s]; cbn in *; [lia|]. apply IH. lia. Qed.
Lemma strspn_le c s : (strspn c s <= String.length s)%nat.
Proof. induction s as [|x s IH]; cbn; [lia|]. destruct (Ascii.eqb x c); lia. Qed.
Lemma strcspn_le c s : (strcspn c s <= String.length s)%nat.
Proof. induction s as [|x s IH]; cbn; [lia|]. destruct (Ascii.eqb x c); lia. Qed.

Lemma strneq_first n : forall s1 s2, (n <= String.length s1)%nat -> strneq s1 n s2 = bool_decide (first n s1 = s2).
Proof.
  induction n as [|n IH]; intros s1 s2 H.
  - by destruct s1, s2.
  - destruct s1 as [|a s1]; [cbn in H; lia|]. destruct s2 as [|b s2]; [done|]. cbn in *. rewrite IH by lia.
    apply eq_true_iff_eq. rewrite andb_true_iff, Ascii.eqb_eq, !bool_decide_eq_true. split; [by intros [-> ->]|by injection 1].
Qed.

(** ** Lemmas: walking the tree *)

Section Walk.
Variables (opendir : string -> option (list string)) (root : string).

(** The cursor stands on the directory of the components [st]. *)
Fixpoint at_dir (e : pathelem) (up : list pathelem) (st : list string) : Prop :=
  tree_ok opendir (full root st) e /\
  match up, st with
  | [], [] => True
  | p :: up, _ :: st => at_dir p up st
  | _, _ => False
  end.

Lemma at_dir_tree e up st : at_dir e up st -> tree_ok opendir (full root st) e.
Proof. by destruct up, st; intros [? _]. Qed.

Lemma tree_pathname dir e : tree_ok opendir dir e -> pathname e = dir.
Proof. by intros []. Qed.

Lemma at_dir_parent e up st : at_dir e up st -> at_dir (parent (e, up)).1 (parent (e, up)).2 (tail st).
Proof. destruct up, st; by intros [? H]. Qed.

Lemma find_entry_ok nm n dir e : (n <= String.length nm)%nat -> tree_ok opendir dir e ->
  match find_entry nm n (entries e) with
  | Some e' => first n nm ∈ listing opendir dir /\ tree_ok opendir (below dir (first n nm)) e'
  | None => first n nm ∉ listing opendir dir
  end.
Proof.
  intros Hn [d nm' es Hm He]. cbn [entries]. rewrite <- Hm. clear Hm. induction He as [|e' es Ht He IH]; cbn [find_entry map].
  - apply not_elem_of_nil.
  - rewrite strneq_first by done. case_bool_decide as Hf.
    + rewrite Hf. split; [constructor|done].
    + destruct (find_entry nm n es) as [x|].
      * destruct IH as [? ?]. split; [by constructor|done].
      * rewrite not_elem_of_cons. done.
Qed.

Lemma follow_path_ok : forall fuel nm e up st, (String.length nm < fuel)%nat -> at_dir e up st ->
  follow_path fuel (e, up) nm = Ok (option_map (full root) (resolve opendir root st (components nm))).
Proof.
  induction fuel as [|fuel IH]; intros nm e up st Hf Ha; [lia|]. cbn [follow_path].
  pose proof (components_step nm) as Hc. cbv zeta in Hc. pose proof (strspn_le slash nm) as Hs.
  pose proof (length_skip _ _ Hs) as Hl. set (nm' := skip (strspn slash nm) nm) in *.
  pose proof (strcspn_le slash nm') as Hn. pose proof (length_skip _ _ Hn) as Hl'. set (n := strcspn slash nm') in *.
  destruct n as [|n'] eqn:En.
  - rewrite Hc. cbn. by rewrite (tree_pathname _ _ (at_dir_tree _ _ _ Ha)).
  - rewrite Hc. clearbody nm'. rewrite !strneq_first by lia. cbn [resolve].
    case_bool_decide as H1; [rewrite H1, decide_True by done|rewrite decide_False by done].
    { destruct (parent (e, up)) as [e' up'] eqn:Ep. pose proof (at_dir_parent _ _ _ Ha) as Hp. rewrite Ep in Hp.
      apply IH; [lia|exact Hp]. }
    case_bool_decide as H2; [rewrite H2, decide_True by done|rewrite decide_False by done].
    { apply IH; [lia|done]. }
    pose proof (find_entry_ok nm' (S n') _ e Hn (at_dir_tree _ _ _ Ha)) as Hfe. cbn [fst snd].
    destruct (find_entry nm' (S n') (entries e)) as [e'|].
    + destruct Hfe as [Hin Ht]. rewrite decide_True by done. apply IH; [lia|]. by split.
    + by rewrite decide_False.
Qed.
End Walk.

(** ** Lemmas: bounds of the buffer *)

Lemma length_append (a b : string) : String.length (a ++ b)%string = (String.length a + String.length b)%nat.
Proof. induction a as [|x a IH]; [done|]. exact (f_equal S IH). Qed.

Lemma length_pstrcpy buf n s : 0 < n -> Z.of_nat (String.length (pstrcpy buf n s)) < n.
Proof.
  intros H. unfold pstrcpy. destruct (Z.leb_spec n 0); [lia|].
  assert (E : (String.length (pstrcpy_loop (Z.to_nat (n - 1)) s) <= Z.to_nat (n - 1))%nat); [|lia].
  generalize (Z.to_nat (n - 1)) as k. clear. induction s as [|x s IH]; intros [|k]; cbn; try lia. specialize (IH k). lia.
Qed.

Lemma length_pstrcat buf n s : Z.of_nat (String.length buf) < n -> Z.of_nat (String.length (pstrcat buf n s)) < n.
Proof.
  intros H. unfold pstrcat. destruct (Z.ltb_spec (Z.of_nat (String.length buf)) n) as [_|]; [|lia]. rewrite length_append.
  pose proof (length_pstrcpy EmptyString (n - Z.of_nat (String.length buf)) s ltac:(lia)). lia.
Qed.

Lemma pref_buf_length cwd prefix buf : pref_buf cwd prefix = Ok buf -> Z.of_nat (String.length buf) < PATH_MAX.
Proof.
  destruct prefix as [|x rest]; [done|]. cbn [pref_buf]. destruct (Ascii.eqb x slash).
  - injection 1 as <-. by apply length_pstrcpy.
  - destruct cwd as [cwd|]; [|done]. injection 1 as <-. apply length_pstrcat, length_pstrcat. by apply length_pstrcpy.
Qed.

Lemma resolve_names opendir root ts : forall st st', Forall (fun c => c <> "." /\ c <> "..") st ->
  resolve opendir root st ts = Some st' -> Forall (fun c => c <> "." /\ c <> "..") st'.
Proof.
  induction ts as [|t ts IH]; intros st st' Hs H; cbn in H; [by injection H as <-|].
  destruct (decide (t = "..")); [apply (IH (tail st)); [by destruct Hs|done]|].
  destruct (decide (t = ".")); [by apply (IH st)|].
  destruct (decide (t ∈ _)); [|done]. apply (IH (t :: st)); [by constructor|done].
Qed.

(** ** Theorem *)

(** C37: reading the tree ends, and an absolute name is then mapped to the
    directory its components lead to below the prefix, [..] staying inside it,
    if every component exists in the host's directories as they were read, and
    is left alone otherwise; so are relative names, and every name when the
    prefix is empty. The prefix fits its buffer. *)
Theorem path_ok opendir cwd prefix buf n fuel nm (Hp : prefix <> EmptyString /\ prefix <> "/")
    (Hb : pref_buf cwd prefix = Ok buf) (Hd : depth_le opendir n (below EmptyString buf)) (Hf : (n < fuel)%nat) :
  let root := below EmptyString buf in
  Z.of_nat (String.length buf) < PATH_MAX /\
  exists base, init_paths opendir fuel cwd prefix None = Ok base /\
    (base = None <-> listing opendir root = []) /\
    path base nm = Ok (if decide (listing opendir root <> [] /\ strspn slash nm <> O)
                       then from_option (full root) nm (resolve opendir root [] (components nm)) else nm) /\
    forall st, resolve opendir root [] (components nm) = Some st -> Forall (fun c => c <> "." /\ c <> "..") st.
Proof.
  intros root. split; [by apply (pref_buf_length cwd prefix)|].
  destruct (add_dir_maybe_ok opendir n fuel root buf Hf Hd) as (b & E & Ht & _).
  unfold init_paths. rewrite decide_False by tauto. rewrite Hb. cbn [res_bind]. change (new_entry EmptyString buf) with (Elem buf root []).
  rewrite E. cbn [res_bind]. eexists. split; [reflexivity|].
  assert (Hn : num_entries b = Z.of_nat (length (listing opendir root))).
  { destruct Ht as [d nm' es Hm _]. unfold num_entries. cbn. by rewrite <- Hm, length_map. }
  split_and!; [| |intros st; apply resolve_names; constructor].
  - rewrite Hn. destruct (listing opendir root); split; try done.
  - rewrite Hn. destruct (listing opendir root) as [|c l] eqn:El.
    { rewrite decide_False by (intros [? _]; done). done. }
    cbn [length]. destruct (Z.eqb_spec (Z.of_nat (S (length l))) 0) as [|_]; [lia|].
    destruct nm as [|x rest]; [rewrite decide_False by (intros [_ ?]; done); done|]. cbn [path strspn].
    destruct (Ascii.eqb x slash) eqn:Ex; [|rewrite decide_False by (intros [_ ?]; done); done].
    rewrite decide_True by done.
    rewrite (follow_path_ok opendir root (S (String.length (String x rest))) (String x rest) b [] []) by (try split; done || lia).
    cbn [res_bind]. by destruct (resolve opendir root [] (components (String x rest))).
Qed.

Definition sample_dirs (d : string) : option (list string) :=
  if decide (d = "/gnemul") then Some ["."; ".."; "lib"]
  else if decide (d = "/gnemul/lib") then Some ["."; ".."; "ld.so"] else None.

Lemma path_ok_witness :
  exists base, init_paths sample_dirs 3 None "/gnemul" None = Ok base /\
    path base "/lib/../..//lib/ld.so" = Ok "/gnemul/lib/ld.so".
Proof.
  destruct (path_ok sample_dirs None "/gnemul" "gnemul" 2 3 "/lib/../..//lib/ld.so") as (_ & base & E & _ & Ep & _).
  - done.
  - reflexivity.
  - intros c Hc. apply list_elem_of_In in Hc. destruct Hc as [<-|[]]. intros c Hc. apply list_elem_of_In in Hc.
    destruct Hc as [<-|[]]. reflexivity.
  - lia.
  - exists base. split; [exact E|]. rewrite Ep. by vm_compute.
Defined.
